(* ===== verification/_CoqProject ===== *)
-Q . S2P
Prelude.v
Errors.v
Text.v
Opcode.v
Packet.v
Replay.v
Float.v
Reliable.v
Cipher.v
HmacAuth.v
Kdf.v
DataChannel.v
Session.v
SessionProofs.v
SessionSend.v
Runs.v
Control.v
Network.v
CoreSession.v
Addr.v
AddrText.v
ServerConfig.v
ServerToml.v
ServerTomlProofs.v
ConnLog.v
RateLimit.v
AuditEvents.v
ConnDb.v
ConnDbProofs.v
ConnFile.v
AuditProofs.v
OAuth.v
OAuthProofs.v
AuthSession.v
AuditSinks.v
AuditSinkProofs.v
Users.v
Keys.v
TlsDriver.v
Cert.v
ConnFileProofs.v
ClientConfig.v
Pki.v
Generator.v
Server.v
ServerProofs.v
ServerRun.v
ServerOut.v
ServerSteps.v
ServerStart.v
ServerStartProofs.v
WebUi.v
Ovpn.v
OvpnFile.v
CliMain.v
Client.v
Provision.v
Setup.v
SetupProofs.v
Nm.v
NmProofs.v
Ui.v
UiProofs.v
WebUiProofs.v
ClientProofs.v
ClientAgree.v
Sample.v
Witnesses.v
SetupWitness.v
