(* ===== verification/Prelude.v ===== *)
(** * CoreVPN: a verification development

    CoreVPN (src/) is an OpenVPN-compatible server and client in Rust.  This
    library models its protocol core (crates corevpn-protocol, corevpn-crypto
    and corevpn-core), the server that drives it (corevpn-server, with its
    connection and audit logs and its web pages), configuration and
    provisioning (corevpn-config), logins (corevpn-auth), the command line
    client (corevpn-cli), the NetworkManager plugin (corevpn-nm) and the logic
    of the desktop interface (corevpn-ui) as executable definitions, and proves
    what makes them correct.

    ** The program

    A datagram from the network enters [ProtocolSession::process_packet]
    (src/crates/corevpn-protocol/src/session.rs).  Control packets are checked
    against the tls-auth key (hmac_auth.rs), parsed (packet.rs, opcode.rs),
    filtered by a replay window, acknowledged and put in order by the reliable
    transport (reliable.rs), and their payloads are reassembled into TLS
    records for the TLS library (tls.rs).  Over TLS the ends exchange key
    method v2 messages, credentials and a push reply (control.rs).  The key
    material is expanded (kdf.rs) and installed as data channels (data.rs),
    which encrypt IP packets with an AEAD, a counter nonce and a second replay
    window (cipher.rs).

    The server keeps a table of connections, one session each, by the address
    of the peer.  Its event loop takes datagrams, packets of the TUN device,
    timers and the results of OAuth logins (server.rs).  It assigns each
    client an address from a pool (network.rs), forwards between the clients
    and the TUN device, and logs connections, anonymized if so configured
    (connection_log/).  The client reads an .ovpn file (ovpn.rs), runs the
    same handshake from the other end and then forwards between its TUN device
    and the server (client.rs).

    Around them: configuration files and certificates are generated for
    clients (generator.rs, cert.rs); users log in at an identity provider, whose
    tokens are validated (flow.rs, provider.rs, token.rs); the administrator's
    pages (webui/) hand out client files and drop sessions; audit events are
    formatted and handed to sinks (audit/); the client is run by the command
    line, by the plugin for NetworkManager (plugin.rs), which reports what the
    server pushed, and by the desktop application (backend.rs, app.rs).

    ** Files, in dependency order

    - Prelude.v (this file): outcomes of fallible code ([res], with panics),
      methods with [&mut self] ([M]), machine integers, slices that panic out
      of range, the Hoare-style predicates [safe] (an invariant is kept and
      nothing panics) and [keeps] (a frame), tactics, the hint database [vpn].
    - Errors.v: the error enums of the three crates.
    - Text.v: Rust strings as UTF-8 bytes; splitting, trimming, UTF-8
      validity, decimal numbers, IPv4 addresses.
    - Opcode.v, Packet.v: opcode.rs and packet.rs, [Packet_parse] and
      [Packet_serialize].
    - Replay.v: the two sliding windows, one definition at two widths, and
      their specification [ReplaySpec], the set of all accepted ids.
    - Float.v, Reliable.v: reliable.rs.  Float.v has the IEEE-754 rounding that
      the round-trip estimator and the back-off use; Reliable.v has
      [ReliableTransport] and [TlsRecordReassembler].
    - Cipher.v, HmacAuth.v, Kdf.v: cipher.rs, hmac_auth.rs, kdf.rs.
    - DataChannel.v: data.rs.
    - Session.v, SessionProofs.v, SessionSend.v: session.rs of the protocol
      crate, first the definitions ([ProtocolSession_process_packet] and all
      it calls, packet creation, retransmission, keys), then the theorems;
      SessionSend.v has what the callers of the sending methods rely on.
    - Runs.v: [runs], the total-correctness triple of a method that succeeds.
    - Control.v: control.rs, [PushReply], [AuthMessage], [KeyMethodV2].
    - Network.v: network.rs of the core crate, [AddressPool].
    - CoreSession.v: session.rs of the core crate, [SessionManager].
    - Addr.v: what the rest uses of the standard library: [IpAddr] and
      [SocketAddr] with their parsers, [str::lines], slices of strings that
      panic inside a character, lossy UTF-8 conversion, [Path::join].
      AddrText.v has [Display] of socket addresses and the round trips of IPv4
      and IPv6 addresses.
    - ServerConfig.v: server.rs of corevpn-config: the settings, their
      defaults and [ServerConfig::validate].  ServerToml.v: what serde derives
      from the attributes of the fields, one [Codec] per struct, with [load]
      and [save]; ServerTomlProofs.v composes the law of every struct from
      those of its fields.
    - ConnLog.v: connection_log/: events, the [ConnectionLogger] trait with
      its in-memory loggers, the anonymizer.  ConnDb.v and ConnFile.v have the
      database and the file logger, ConnDbProofs.v and ConnFileProofs.v their
      theorems.
    - RateLimit.v, OAuth.v, AuthSession.v: corevpn-auth: the rate limiter;
      providers, discovery, flows and token validation (theorems in
      OAuthProofs.v); the login sessions.
    - AuditEvents.v, AuditSinks.v: audit/: events and formats; sinks and the logger
      with its channel.  AuditProofs.v and AuditSinkProofs.v have the theorems.
    - Users.v: user.rs of the core crate, the store as a class with its laws.
    - TlsDriver.v: tls.rs: the buffers around a TLS connection, configuration
      from PEM, the certificate verifier of the client.
    - Cert.v: the static key files of crypto cert.rs.  Pki.v: the certificate
      authority and the checks of certificates.  Keys.v: crypto keys.rs.
    - ClientConfig.v, Generator.v: client.rs and generator.rs of
      corevpn-config: the text of client files, their generation, the files of
      a new server.
    - Server.v: server.rs of corevpn-server, one definition per handler and
      per critical section; [step] is one turn of the event loop, a request to
      the login pages or a step of the clean-up task, and [run_events] a run,
      which a panic of any task ends.  ServerProofs.v has the invariant [srv_inv] and that
      each handler keeps it, ServerRun.v and ServerOut.v the theorems on runs
      and on what leaves the server, ServerSteps.v those on single handlers.
    - ServerStart.v, ServerStartProofs.v: [run_server] and [run_oauth_server]
      up to their loops; the state is the trace of system calls.
    - WebUi.v, WebUiProofs.v: webui/: routes, authentication, CSRF tokens,
      handlers, and [run_web_ui] of main.rs.
    - Ovpn.v, Client.v: ovpn.rs and client.rs; [connect_with_info] in its five
      phases and [run_data_plane].  OvpnFile.v and Provision.v have the round
      trip of generated files and the chain from a new server to a client
      that authenticates; ClientProofs.v has panic freedom, ClientAgree.v what
      client and server have in common.  CliMain.v: the commands of the client.
    - Setup.v, SetupProofs.v: setup.rs and main.rs of corevpn-server: the set-up
      dialogue and the commands, of which [run] executes [run_server]; the
      state is the terminal with its answers, the files and the trace of calls.
    - Nm.v, NmProofs.v: config.rs and plugin.rs of corevpn-nm; [plugin_step] is
      what can happen to the plugin.
    - Ui.v, UiProofs.v: corevpn-ui without the drawing; [ui_step] is what can
      happen to the application and its backend.
    - Sample.v, Witnesses.v: a concrete server and client, and the theorems on
      them applied to it; Sample.v also evaluates a whole connection.
      SetupWitness.v does the same for a set-up and a start as root.

    A struct is a [Record], an enum an [Inductive]; the method [m] of the type
    [T] is [T_m]; a method that mutates [self] passes it explicitly and also
    returns the state that is left behind when it fails.  A handler of the
    server works on a copy of the connection ([Work], [TlsWork]) while it
    holds the lock and stores it back, as [get_mut] does.

    ** Interfaces

    Code outside the repository is a class of operations with a class of laws
    that state its documented behaviour: [Aead]/[AeadLaws] (aes-gcm,
    chacha20poly1305), [Hmac]/[HmacLaws] (hmac, sha2), [Sha256]/[Sha256Laws],
    the HKDF class of Kdf.v, [IpNet]/[IpNetLaws] and [IpNetText] (ipnet),
    [Chrono], [ChronoFields] and [Uuids] (chrono, uuid), [Unicode] (letters
    and case of characters outside ASCII), [Rustls]/[RustlsLaws] and
    [RustlsPki] (rustls, rustls-pemfile), [SerdeJson], [JsonText] and
    [EventJson] (serde_json), [Rcgen]/[RcgenLaws] (rcgen, pem, x509-cert),
    the record [Disk] (the files of the generator), [UrlParser]/[UrlLaws] and
    [UrlEncoding] (url, urlencoding), [EmailParser], [Jwt] and [Base64]
    (jsonwebtoken, base64), the record [HttpClient] (reqwest), [ChronoDelta],
    [AuditClock] and [LogTime]/[LogTimeLaws] (chrono), [UuidText] (uuid),
    [Sqlite]/[SqliteLaws] (sqlx), [WebLib]/[RouterLaws] (axum), [ZVariant]
    (zbus), [Toml]/[TomlLaws] (toml), [Dialog]/[DialogLaws] (dialoguer),
    [Dalek]/[DalekLaws] (x25519-dalek, ed25519-dalek), the record [Os] (nix,
    tun).  Each has a concrete instance with which every theorem that uses it
    is applied.  A trait of the program is a class too: [ConnectionLogger], with
    [LoggerSafe] for what the server relies on, which the memory, file and
    database loggers and their composition discharge; [UserStore] with
    [UserStoreLaws]; [AuditSink] with [Collecting] for sinks that buffer.  The clock, random numbers, session ids,
    files, and whether a send succeeds are arguments ([Env], [ClientEnv],
    [Files]); the identity provider is a record of its answers ([Provider]).

    ** What the theorems show

    - Server: the one thing that stops a run, an error text of the identity
      provider that cannot be cut at byte 200; only established connections
      reach the TUN device, and with OAuth only those of users who logged in;
      addresses are exclusive and never given back; what becomes of a packet in
      either direction, once keys match; a repeated hard reset is answered
      alike; the loop that drains TLS ends (ServerRun.v, ServerOut.v,
      ServerSteps.v).
    - Client: it does not panic, but for a pushed [ping 0] (ClientProofs.v);
      it reads what the server writes, both derive the same keys, and their
      channels match exactly when its file names ChaCha20-Poly1305
      (ClientAgree.v).
    - Packets: parsing never panics and is inverse to serialization, in both
      directions (Packet.v).
    - Replay windows: they give the verdicts of the accepted-set
      specification on every sequence of ids; fresh ids in the window pass
      (Replay.v).
    - Reliable transport: an invariant over all runs, with no panic in the
      floating-point code; retransmissions are bounded; TLS records do not
      depend on the fragmentation (Reliable.v).
    - Data channel: over a network that reorders, duplicates and loses
      packets, what the replay specification accepts is decrypted to what was
      sent; the AEAD gets no nonce twice (Cipher.v).
    - Keys: complementary tls-auth directions, the PRF is that of RFC 2246,
      static key files are read back (HmacAuth.v, Kdf.v, Cert.v).
    - Sessions: no datagram makes [process_packet] panic; unauthenticated
      control packets change nothing; the hard reset handshake completes; the
      TLS stream and the data packets arrive intact (SessionProofs.v).
    - Messages: round trips and panic freedom of the readers (Control.v).
    - Addresses: over every interleaving of critical sections, leases are
      exclusive and lie in the network; the capacity of a pool (Network.v).
    - Session table: its bound, admission, and the order of session states
      (CoreSession.v).
    - Configuration: what [validate] checks, as predicates (ServerConfig.v); a
      complete file with an API key is read back, and no saved one is
      (ServerTomlProofs.v).
    - Start and set-up: the order of the start, when privileges are dropped and
      when not, and that it succeeds when no call fails (ServerStartProofs.v);
      what set-up leaves cannot be loaded, and with the missing secrets added
      the server starts and provisions clients (SetupProofs.v).
    - Connection log: what the in-memory log holds; events that differ only in
      what the anonymizer removes are logged alike (ConnLog.v); the database
      refines a history of events, whichever statements fail (ConnDbProofs.v);
      the rotated files hold the newest events (ConnFileProofs.v).
    - Provisioning: a generated client file is read back by the client, which
      then passes the checks of the server (Provision.v).
    - Logins: the rate limiter bounds attempts; discovery installs no internal
      address in a form that its check knows; verified tokens are signed by a key of the provider; a
      login is found by its state (RateLimit.v, OAuthProofs.v, AuthSession.v).
    - Users: the store answers from the last upserts (Users.v).
    - Web pages: without the password nothing happens; sessions are dropped
      only with a recent token; download links decode to the file
      (WebUiProofs.v).
    - Audit: CEF and LEEF lines and octet-counted frames read back; no event is
      lost between the logger and the batches of the sinks, which the program
      does not send; rotation keeps the newest files (AuditProofs.v,
      AuditSinkProofs.v).
    - Plugin and desktop: NetworkManager is told the pushed network; one
      background task at most; the log of the application is bounded
      (NmProofs.v, UiProofs.v).

    Some theorems state what the code does where it falls short of its intent:
    [receive_loses_reordered_payload], [forged_packet_blocks_channel],
    [hard_reset_retransmission_is_no_reset], [available_v4_misses_two],
    [server_certificate_is_not_verified], [rekeying_is_a_dead_end],
    [leases_are_never_released], [client_and_server_cipher_disagree],
    [login_url_is_lost], [static_key_reader_panics],
    [reloaded_authority_breaks_chain], [web_ui_never_starts],
    [device_polling_runs_dry], [used_state_still_resolves],
    [message_forges_record], [cef_events_share_a_line],
    [disconnect_leaves_client], [ui_cannot_stop_connection],
    [allocate_v6_leaves_network], [allocate_leaks_v4],
    [setup_leaves_unloadable_config], [login_pages_do_not_start],
    [low_hard_limit], [root_without_nobody], [bad_point_is_a_length_error],
    [unseen_is_accepted] and [only_connect_acts];
    [file_log_keeps_newest] has the case of a log of one file,
    [start_order_and_privileges] that of a root process without other ids, and
    [server_stops_only_on_uncuttable_error] the panic.

    ** Fuel

    Loops that are not structural take a fuel argument that the caller sets to
    a bound on the number of turns: the length of the buffer for
    [extract_loop] and [create_control_packets_loop] (each turn consumes
    bytes), the number of buffered packets for [drain_buffered], the number of
    blocks for [p_hash_loop], the number of candidate addresses for
    [find_free], the bytes that the TLS connection has buffered for
    [flush_loop], [flush_each] and [collect_tls] ([flush_terminates] shows
    that more makes no difference), the packets still to arrive for
    [receive_until], the bytes still to overwrite for [blocks].  The loops of the client's handshake and key exchange
    count their 50 and 100 turns in the source.  The theorems are on the
    callers, so fuel never shows; 40 digits hold every decimal number of up to
    128 bits.

    ** Not modelled

    Zeroization, tracing and constant-time comparison have no functional
    effect and are left out; locks are modelled as sequences of critical
    sections.  System calls are recorded or answered by a parameter, not
    executed.  The HTML text of the web pages (templates.rs and the page of the
    web set-up) and the layout and drawing of the desktop interface (views/)
    are presentation without state of their own; what they show and escape is
    modelled.  The text of TOML and JSON is the work of other crates.  The
    object registration of corevpn-nm main.rs and the window of corevpn-ui
    main.rs are calls of libraries.  Benchmarks and tests are not part of the
    program. *)
From stdpp Require Export base option list numbers gmap sets strings.
From Stdlib Require Export ZArith Lia.

(** ** Outcomes of fallible code

    A Rust [Result<A, E>] with the third thing a Rust function can do:
    panic (an out-of-range index, an [unwrap] of [None]). *)
Inductive res (E A : Type) : Type :=
| Ok (a : A)
| Err (e : E)
| Panic.
Arguments Ok {E A} a.
Arguments Err {E A} e.
Arguments Panic {E A}.

#[export] Instance res_ret E : MRet (res E) := fun A a => Ok a.
#[export] Instance res_bind E : MBind (res E) := fun A B f m =>
  match m with
  | Ok a => f a
  | Err e => Err e
  | Panic => Panic
  end.
#[export] Instance res_fmap E : FMap (res E) := fun A B f m =>
  match m with
  | Ok a => Ok (f a)
  | Err e => Err e
  | Panic => Panic
  end.

(** [Result::map_err], and the [From] conversion that [?] applies. *)
Definition map_err {E F A} (f : E -> F) (m : res E A) : res F A :=
  match m with
  | Ok a => Ok a
  | Err e => Err (f e)
  | Panic => Panic
  end.

(** [Option::ok_or]. *)
Definition ok_or {E A} (o : option A) (e : E) : res E A :=
  match o with Some a => Ok a | None => Err e end.

(** [Option::is_some]. *)
Definition is_some {A} (o : option A) : bool :=
  match o with Some _ => true | None => false end.

(** [Result::ok]; a panic is not a value and has no counterpart, so callers
    use it only on code that cannot panic. *)
Definition is_ok {E A} (m : res E A) : bool :=
  match m with Ok _ => true | _ => false end.

(** ** Methods with [&mut self]

    [M S E A]: a method of a struct [S] that returns [Result<A, E>].  The
    state component of the result is what the caller observes in [self]
    afterwards, also when the method returned an error. *)
Definition M (S E A : Type) : Type := S -> S * res E A.

#[export] Instance M_ret S E : MRet (M S E) := fun A a s => (s, Ok a).
#[export] Instance M_bind S E : MBind (M S E) := fun A B f m s =>
  match m s with
  | (s', Ok a) => f a s'
  | (s', Err e) => (s', Err e)
  | (s', Panic) => (s', Panic)
  end.

Definition get {S E} : M S E S := fun s => (s, Ok s).
Definition modify {S E} (f : S -> S) : M S E unit := fun s => (f s, Ok tt).
Definition fail {S E A} (e : E) : M S E A := fun s => (s, Err e).
Definition lift {S E A} (m : res E A) : M S E A := fun s => (s, m).

(** A call of a method of the field [proj] of [self], with the [From]
    conversion of its error type. *)
Definition zoom {S T E F A} (proj : S -> T) (upd : T -> S -> S) (conv : F -> E)
    (m : M T F A) : M S E A := fun s =>
  match m (proj s) with
  | (t, r) => (upd t s, map_err conv r)
  end.

(** [match f() { Ok(a) => .., Err(e) => .. }]: the error becomes a value. *)
Definition attempt {S E F A} (m : M S E A) : M S F (A + E) := fun s =>
  match m s with
  | (s', Ok a) => (s', Ok (inl a))
  | (s', Err e) => (s', Ok (inr e))
  | (s', Panic) => (s', Panic)
  end.

Definition run {S E A} (m : M S E A) (s : S) : S * res E A := m s.

(** ** Machine integers *)

(** Values of width [w]; a [uN] of the source is a [Z] with [uint N z]. *)
Definition uint (w : Z) (z : Z) : Prop := (0 <= z < 2 ^ w)%Z.

#[export] Instance uint_dec w z : Decision (uint w z).
Proof. unfold uint. apply _. Defined.

(** Wrap-around, written out. *)
Definition wrap (w z : Z) : Z := (z mod 2 ^ w)%Z.

(** [x as i64] of a [u64]. *)
Definition as_i64 (z : Z) : Z := (wrap 64 (z + 2 ^ 63) - 2 ^ 63)%Z.

Abbreviation u8 := (uint 8).
Abbreviation u16 := (uint 16).
Abbreviation u32 := (uint 32).
Abbreviation u64 := (uint 64).

(** Byte sequences ([&[u8]], [Vec<u8>], [Bytes], [String]): a list of byte
    values. *)
Abbreviation bytes := (list Z).
Abbreviation str := (list Z).
Definition bytes_ok (l : bytes) : Prop := Forall u8 l.

(** The bytes of a string literal. *)
Fixpoint lit (s : string) : str :=
  match s with
  | EmptyString => []
  | String c s' => Z.of_N (Ascii.N_of_ascii c) :: lit s'
  end.

(** [to_be_bytes] of an [n]-byte integer and [from_be_bytes]. *)
Fixpoint to_be (n : nat) (z : Z) : bytes :=
  match n with
  | O => []
  | S n' => Z.land (Z.shiftr z (8 * Z.of_nat n')) 255 :: to_be n' z
  end.

Definition from_be (l : bytes) : Z :=
  fold_left (fun acc b => Z.lor (Z.shiftl acc 8) b) l 0%Z.

(** ** Slices, with the panic of the indexing operators *)

(** [data[i]]. *)
Definition idx {E} (data : bytes) (i : nat) : res E Z :=
  match data !! i with Some b => Ok b | None => Panic end.

(** [&data[a..b]]. *)
Definition slice {E} (data : bytes) (a b : nat) : res E bytes :=
  if (Nat.leb a b && Nat.leb b (length data))%bool
  then Ok (take (b - a) (drop a data)) else Panic.

(** [&data[a..]]. *)
Definition slice_from {E} (data : bytes) (a : nat) : res E bytes :=
  if Nat.leb a (length data) then Ok (drop a data) else Panic.

(** ** Panic freedom *)
Definition no_panic {E A} (m : res E A) : Prop := m <> Panic.

(** ** Automation *)
Create HintDb vpn.
Create Rewrite HintDb vpn_rw.


(** Split the conjunction-shaped boolean facts of the context. *)
Ltac bools :=
  repeat match goal with
  | H : (_ && _)%bool = true |- _ => apply andb_true_iff in H as [? ?]
  | H : (_ || _)%bool = false |- _ => apply orb_false_iff in H as [? ?]
  | H : negb _ = true |- _ => apply negb_true_iff in H
  | H : negb _ = false |- _ => apply negb_false_iff in H
  | H : (_ <=? _)%nat = true |- _ => apply Nat.leb_le in H
  | H : (_ <=? _)%nat = false |- _ => apply Nat.leb_gt in H
  | H : (_ <? _)%nat = true |- _ => apply Nat.ltb_lt in H
  | H : (_ <? _)%nat = false |- _ => apply Nat.ltb_ge in H
  | H : (_ =? _)%nat = true |- _ => apply Nat.eqb_eq in H
  | H : (_ =? _)%nat = false |- _ => apply Nat.eqb_neq in H
  | H : (_ <=? _)%Z = true |- _ => apply Z.leb_le in H
  | H : (_ <=? _)%Z = false |- _ => apply Z.leb_gt in H
  | H : (_ <? _)%Z = true |- _ => apply Z.ltb_lt in H
  | H : (_ <? _)%Z = false |- _ => apply Z.ltb_ge in H
  | H : (_ =? _)%Z = true |- _ => apply Z.eqb_eq in H
  | H : (_ =? _)%Z = false |- _ => apply Z.eqb_neq in H
  end.

(** Case analysis on the innermost scrutinee of the goal or a hypothesis. *)
Ltac cases := repeat (case_match; simplify_eq/=; bools).

(** ** Integer lemmas *)
Section Ints.
Local Open Scope Z_scope.

Lemma wrap_uint w z : 0 <= w -> uint w (wrap w z).
Proof. intros. unfold uint, wrap. apply Z.mod_pos_bound. lia. Qed.

Lemma wrap_small w z : uint w z -> wrap w z = z.
Proof. unfold uint, wrap. intros. by apply Z.mod_small. Qed.

Lemma land_255 z : Z.land z 255 = z mod 256.
Proof. exact (Z.land_ones z 8 ltac:(lia)). Qed.

Lemma land_7 z : Z.land z 7 = z mod 8.
Proof. exact (Z.land_ones z 3 ltac:(lia)). Qed.

Lemma u8_land_255 z : u8 (Z.land z 255).
Proof. rewrite land_255. unfold uint. apply Z.mod_pos_bound. lia. Qed.

(** The bits of an [acc << k | b] with [b < 2^k] do not overlap. *)
Lemma land_shiftl_low k acc b : 0 <= k -> uint k b -> Z.land (Z.shiftl acc k) b = 0.
Proof.
  intros Hk [Hb0 Hb]. apply Z.bits_inj'. intros n Hn.
  rewrite Z.land_spec, Z.bits_0, Z.shiftl_spec by lia.
  destruct (decide (n < k)).
  - by rewrite Z.testbit_neg_r by lia.
  - destruct (decide (b = 0)) as [->|]; [by rewrite Z.bits_0, andb_false_r|].
    rewrite (Z.bits_above_log2 b n), andb_false_r; [done|lia|].
    assert (Z.log2 b < k); [|lia]. apply Z.log2_lt_pow2; [lia|done].
Qed.

Lemma lor_shiftl_add k acc b :
  0 <= k -> uint k b -> Z.lor (Z.shiftl acc k) b = acc * 2 ^ k + b.
Proof.
  intros Hk Hb. pose proof (land_shiftl_low k acc b Hk Hb) as Hl.
  rewrite <- Z.lxor_lor, <- Z.add_nocarry_lxor by done.
  by rewrite Z.shiftl_mul_pow2.
Qed.

(** ** Big-endian encodings *)
Lemma to_be_length n z : length (to_be n z) = n.
Proof. induction n; simpl; congruence. Qed.

Lemma to_be_ok n z : bytes_ok (to_be n z).
Proof. induction n; simpl; constructor; [apply u8_land_255|done]. Qed.

Lemma from_be_acc l acc :
  bytes_ok l ->
  fold_left (fun acc b => Z.lor (Z.shiftl acc 8) b) l acc
    = acc * 2 ^ (8 * Z.of_nat (length l)) + from_be l.
Proof.
  revert acc. induction l as [|b l IH]; intros acc Hl.
  - unfold from_be. simpl. lia.
  - inv Hl. unfold from_be. cbn [fold_left length].
    rewrite (IH (Z.lor (Z.shiftl acc 8) b)), (IH (Z.lor (Z.shiftl 0 8) b)) by done.
    rewrite !(lor_shiftl_add 8) by (done || lia).
    replace (8 * Z.of_nat (S (length l))) with (8 + 8 * Z.of_nat (length l)) by lia.
    rewrite Z.pow_add_r by lia. ring.
Qed.

Lemma from_be_cons b l :
  u8 b -> bytes_ok l -> from_be (b :: l) = b * 2 ^ (8 * Z.of_nat (length l)) + from_be l.
Proof.
  intros Hb Hl. unfold from_be at 1. cbn [fold_left].
  rewrite from_be_acc by done. by rewrite Z.shiftl_0_l, Z.lor_0_l.
Qed.

Lemma from_to_be n z : uint (8 * Z.of_nat n) z -> from_be (to_be n z) = z.
Proof.
  enough (from_be (to_be n z) = z mod 2 ^ (8 * Z.of_nat n)) as ->.
  { intros. by apply Z.mod_small. }
  induction n as [|n IH]; [by rewrite Z.mod_1_r|]. cbn [to_be].
  rewrite from_be_cons by (apply to_be_ok || apply u8_land_255).
  rewrite IH, to_be_length, land_255, Z.shiftr_div_pow2 by lia.
  replace (8 * Z.of_nat (S n)) with (8 * Z.of_nat n + 8) by lia.
  rewrite Z.pow_add_r, Z.rem_mul_r by lia. change (2 ^ 8) with 256. ring.
Qed.

Lemma from_be_uint l : bytes_ok l -> uint (8 * Z.of_nat (length l)) (from_be l).
Proof.
  induction l as [|b l IH]; intros Hl; [unfold uint, from_be; simpl; lia|].
  inv Hl. rewrite from_be_cons by done. specialize (IH ltac:(done)). cbn [length].
  unfold uint in *.
  replace (8 * Z.of_nat (S (length l))) with (8 + 8 * Z.of_nat (length l)) by lia.
  rewrite Z.pow_add_r by lia. change (2 ^ 8) with 256 in *.
  set (p := 2 ^ (8 * Z.of_nat (length l))) in *. nia.
Qed.

Lemma to_from_be n l : bytes_ok l -> length l = n -> to_be n (from_be l) = l.
Proof.
  intros Hl <-. induction l as [|b l IH]; [done|]. inv Hl. cbn [length to_be].
  pose proof (from_be_uint l ltac:(done)) as Hr. unfold uint in Hr.
  set (k := 8 * Z.of_nat (length l)) in *.
  rewrite from_be_cons by done. fold k. f_equal.
  - rewrite land_255, Z.shiftr_div_pow2 by (unfold k; lia).
    rewrite Z.add_comm, Z.div_add, Z.div_small by lia.
    rewrite Z.mod_small; [lia|]. unfold uint in *; lia.
  - etransitivity; [|by apply IH]. clear IH. subst k.
    assert (forall m x y, (m <= length l)%nat ->
      to_be m (x * 2 ^ (8 * Z.of_nat (length l)) + y) = to_be m y) as Hshift; [|by apply Hshift].
    induction m as [|m IHm]; intros x y Hm; [done|]. cbn [to_be]. rewrite IHm by lia. f_equal.
    rewrite !land_255, !Z.shiftr_div_pow2 by lia.
    replace (8 * Z.of_nat (length l))
      with (8 * Z.of_nat (length l - S m) + (8 + 8 * Z.of_nat m)) by lia.
    rewrite !Z.pow_add_r, !Z.mul_assoc, Z.add_comm, Z.div_add by lia.
    change (2 ^ 8) with 256. by rewrite Z.mod_add by lia.
Qed.

End Ints.

(** ** Slices *)
Section Slices.
Context {E : Type}.
Implicit Types (data pre mid post : bytes).

Lemma idx_ok data i (b : Z) : data !! i = Some b -> idx (E := E) data i = Ok b.
Proof. unfold idx. by intros ->. Qed.

Lemma idx_total data i : (i < length data)%nat -> exists b, idx (E := E) data i = Ok b.
Proof.
  intros Hi. destruct (lookup_lt_is_Some_2 data i Hi) as [b Hb].
  exists b. by apply idx_ok.
Qed.

Lemma slice_ok data a b :
  (a <= b)%nat -> (b <= length data)%nat ->
  slice (E := E) data a b = Ok (take (b - a) (drop a data)).
Proof.
  intros Hab Hb. unfold slice.
  by rewrite (proj2 (Nat.leb_le a b)), (proj2 (Nat.leb_le b _)).
Qed.

Lemma slice_from_ok data a :
  (a <= length data)%nat -> slice_from (E := E) data a = Ok (drop a data).
Proof. intros. unfold slice_from. by rewrite (proj2 (Nat.leb_le a _)). Qed.

Lemma slice_length data a b l :
  slice (E := E) data a b = Ok l -> (length l = b - a)%nat.
Proof. unfold slice. intros. cases. rewrite length_take, length_drop. lia. Qed.

(** The part of a buffer between two positions, by its contents. *)
Lemma slice_at data pre mid post a b :
  data = pre ++ mid ++ post -> length pre = a -> (a + length mid = b)%nat ->
  slice (E := E) data a b = Ok mid.
Proof.
  intros -> <- <-. rewrite slice_ok by (rewrite ?length_app; lia).
  rewrite drop_app_length, Nat.add_comm, Nat.add_sub, take_app_length. done.
Qed.

Lemma slice_from_at data pre post a :
  data = pre ++ post -> length pre = a -> slice_from (E := E) data a = Ok post.
Proof.
  intros -> <-. rewrite slice_from_ok by (rewrite length_app; lia).
  by rewrite drop_app_length.
Qed.

Lemma idx_at data pre (b : Z) post a :
  data = pre ++ b :: post -> length pre = a -> idx (E := E) data a = Ok b.
Proof. intros -> <-. apply idx_ok. by apply list_lookup_middle. Qed.

Lemma slice_bytes_ok data a b l :
  bytes_ok data -> slice (E := E) data a b = Ok l -> bytes_ok l.
Proof.
  unfold slice, bytes_ok. intros Hd H. cases. by apply Forall_take, Forall_drop.
Qed.

Lemma slice_from_bytes_ok data a l :
  bytes_ok data -> slice_from (E := E) data a = Ok l -> bytes_ok l.
Proof. unfold slice_from, bytes_ok. intros Hd H. cases. by apply Forall_drop. Qed.

End Slices.

(** ** Binds *)
Lemma bind_Ok {E A B} (m : res E A) (f : A -> res E B) b :
  m ≫= f = Ok b -> exists a, m = Ok a /\ f a = Ok b.
Proof. destruct m; simpl; naive_solver. Qed.

Lemma bind_of_Ok {E A B} (m : res E A) (f : A -> res E B) a : m = Ok a -> m ≫= f = f a.
Proof. by intros ->. Qed.

Lemma bind_no_panic {E A B} (m : res E A) (f : A -> res E B) :
  no_panic m -> (forall a, m = Ok a -> no_panic (f a)) -> no_panic (m ≫= f).
Proof. unfold no_panic. destruct m; simpl; naive_solver. Qed.

Lemma slice_no_panic {E} (data : bytes) a b :
  (a <= b)%nat -> (b <= length data)%nat -> no_panic (slice (E := E) data a b).
Proof. intros. by rewrite slice_ok. Qed.

Lemma slice_from_no_panic {E} (data : bytes) a :
  (a <= length data)%nat -> no_panic (slice_from (E := E) data a).
Proof. intros. by rewrite slice_from_ok. Qed.

Lemma idx_no_panic {E} (data : bytes) i :
  (i < length data)%nat -> no_panic (idx (E := E) data i).
Proof. intros Hi. by destruct (idx_total (E := E) data i Hi) as [b ->]. Qed.

Lemma ok_no_panic {E A} (a : A) : no_panic (E := E) (Ok a).
Proof. done. Qed.

Lemma err_no_panic {E A} (e : E) : no_panic (A := A) (Err e).
Proof. done. Qed.

#[export] Hint Resolve bind_no_panic slice_no_panic slice_from_no_panic idx_no_panic
  ok_no_panic err_no_panic : vpn.

(** Panic freedom of straight-line parsing code: split the binds and the
    guards and discharge the bounds they establish. *)
Ltac np :=
  repeat first
    [ apply ok_no_panic | apply err_no_panic
    | apply slice_no_panic; lia | apply slice_from_no_panic; lia
    | apply idx_no_panic; lia
    | apply bind_no_panic; [|intros ? ?]
    | case_match; bools ].

(** Bounds checks on a buffer whose contents are known: decide the guard
    [a <? b] from the lengths of its parts. *)
Ltac len :=
  repeat first [rewrite length_app | rewrite length_cons | rewrite to_be_length];
  cbn [length]; lia.

Lemma if_false {A} (b : bool) (x y : A) : b = false -> (if b then x else y) = y.
Proof. by intros ->. Qed.

Lemma if_true {A} (b : bool) (x y : A) : b = true -> (if b then x else y) = x.
Proof. by intros ->. Qed.

Ltac guard_false :=
  cbv zeta;
  lazymatch goal with
  | |- (if ?b then ?x else ?y) = _ =>
      rewrite (if_false b x y);
      [|first [ apply Nat.ltb_ge; len | apply Nat.eqb_neq; len | apply Z.ltb_ge; lia
              | done ]]
  end.
Ltac guard_true :=
  cbv zeta;
  lazymatch goal with
  | |- (if ?b then ?x else ?y) = _ =>
      rewrite (if_true b x y);
      [|first [ apply Nat.ltb_lt; len | apply Nat.leb_le; len | apply Z.ltb_lt; lia | done ]]
  end.

(** Evaluates a decidable goal. *)
Ltac by_compute := apply (bool_decide_unpack _); vm_compute; exact I.
(** Reduce binds, and nothing else. *)
Ltac rsimp := cbn [mbind mret res_bind res_ret M_bind M_ret map_err fst snd].
(** The read at the head of the goal, the parts of the buffer given. *)
Ltac slice_is pre mid post :=
  lazymatch goal with
  | |- mbind _ (slice ?d ?a ?b) = _ =>
      rewrite (slice_at d pre mid post a b);
      [rsimp | by cbn [app]; rewrite <- ?app_assoc | len | len]
  | |- mbind _ (slice_from ?d ?a) = _ =>
      rewrite (slice_from_at d pre post a);
      [rsimp | by cbn [app]; rewrite <- ?app_assoc | len]
  end.
Ltac idx_is pre b post :=
  lazymatch goal with
  | |- mbind _ (idx ?d ?a) = _ =>
      rewrite (idx_at d pre b post a); [rsimp | by cbn [app]; rewrite <- ?app_assoc | len]
  end.

(** ** What a successful read says about the rest of the buffer *)
Section Reads.
Context {E : Type}.
Implicit Types (data m : bytes) (a b : nat).

Lemma slice_drop data a b m :
  slice (E := E) data a b = Ok m -> drop a data = m ++ drop b data.
Proof.
  unfold slice. intros H. cases.
  rewrite <- (take_drop (b - a) (drop a data)) at 1. rewrite drop_drop.
  do 2 f_equal. lia.
Qed.

Lemma idx_drop data a (x : Z) :
  idx (E := E) data a = Ok x -> drop a data = x :: drop (a + 1) data.
Proof. unfold idx. intros H. cases. by rewrite Nat.add_1_r, (drop_S data x a). Qed.

Lemma slice_from_drop data a m : slice_from (E := E) data a = Ok m -> drop a data = m.
Proof. unfold slice_from. intros H. by cases. Qed.

Lemma idx_u8 data a (x : Z) : bytes_ok data -> idx (E := E) data a = Ok x -> u8 x.
Proof. unfold idx. intros Hd H. cases. by eapply Forall_lookup_1. Qed.

Lemma from_be_slice_u32 data a m :
  bytes_ok data -> slice (E := E) data a (a + 4) = Ok m ->
  u32 (from_be m) /\ to_be 4 (from_be m) = m.
Proof.
  intros Hd Hs. pose proof (slice_bytes_ok _ _ _ _ Hd Hs) as Hm.
  pose proof (slice_length _ _ _ _ Hs) as Hl. rewrite Nat.add_comm, Nat.add_sub in Hl.
  split; [|by apply to_from_be]. pose proof (from_be_uint m Hm) as H. by rewrite Hl in H.
Qed.

End Reads.

(** Invert a successful chain of binds in [H]. *)
Ltac bind_inv H :=
  repeat match type of H with
  | mbind _ _ = Ok _ => apply bind_Ok in H as (? & ? & H); simpl in H
  | (if ?b then _ else _) = Ok _ => destruct b eqn:?; [try discriminate H|try discriminate H]; bools
  | context [let '(_, _) := ?x in _] => destruct x
  | context [match ?x with (_, _) => _ end] => destruct x
  end.

(** ** Methods that keep an invariant and do not panic *)
Definition safe {S E A} (P : S -> Prop) (m : M S E A) : Prop :=
  forall s, P s -> P (fst (m s)) /\ no_panic (snd (m s)).

Section Safe.
Context {S E : Type} (P : S -> Prop).

Lemma safe_ret {A} (a : A) : safe P (E := E) (mret a).
Proof. by intros s Hs. Qed.

Lemma safe_bind {A B} (m : M S E A) (f : A -> M S E B) :
  safe P m -> (forall a, safe P (f a)) -> safe P (m ≫= f).
Proof.
  intros Hm Hf s Hs. unfold mbind, M_bind. specialize (Hm s Hs).
  destruct (m s) as [s' [a| |]]; destruct Hm; try done. by apply Hf.
Qed.

Lemma safe_get : safe P (E := E) get.
Proof. by intros s Hs. Qed.

Lemma safe_modify f : (forall s, P s -> P (f s)) -> safe P (E := E) (modify f).
Proof. intros Hf s Hs. split; [by apply Hf|done]. Qed.

Lemma safe_fail {A} (e : E) : safe P (A := A) (fail e).
Proof. by intros s Hs. Qed.

Lemma safe_lift {A} (r : res E A) : no_panic r -> safe P (lift r).
Proof. by intros Hr s Hs. Qed.

Lemma safe_zoom {T F A} (proj : S -> T) upd (conv : F -> E) (Q : T -> Prop) (m : M T F A) :
  safe Q m -> (forall s, P s -> Q (proj s)) -> (forall s t, P s -> Q t -> P (upd t s)) ->
  safe P (zoom proj upd conv m).
Proof.
  intros Hm Hproj Hupd s Hs. unfold zoom. specialize (Hm (proj s) (Hproj s Hs)).
  destruct (m (proj s)) as [t r]. destruct Hm as [Ht Hr]. split; [by apply Hupd|].
  unfold no_panic in *. destruct r; simpl in *; congruence.
Qed.

End Safe.

#[export] Hint Resolve safe_ret safe_bind safe_get safe_modify safe_fail safe_lift : vpn.

(** ** Methods that leave part of the state alone *)
Definition keeps {S X E A} (f : S -> X) (m : M S E A) : Prop := forall s, f (fst (m s)) = f s.

Section Keeps.
Context {S X E : Type} (f : S -> X).

Lemma keeps_ret {A} (a : A) : keeps (E := E) f (mret a).
Proof. by intros s. Qed.
Lemma keeps_get : keeps (E := E) f get.
Proof. by intros s. Qed.
Lemma keeps_fail {A} (e : E) : keeps (A := A) f (fail e).
Proof. by intros s. Qed.
Lemma keeps_lift {A} (r : res E A) : keeps f (lift r).
Proof. by intros s. Qed.
Lemma keeps_modify g : (forall s, f (g s) = f s) -> keeps (E := E) f (modify g).
Proof. intros H s. apply H. Qed.
Lemma keeps_bind {A B} (m : M S E A) (k : A -> M S E B) :
  keeps f m -> (forall a, keeps f (k a)) -> keeps f (m ≫= k).
Proof.
  intros Hm Hk s. unfold mbind, M_bind. specialize (Hm s).
  destruct (m s) as [s' [a| |]]; cbn in *; [|done..]. by rewrite Hk.
Qed.
Lemma keeps_zoom {T F A} (proj : S -> T) upd (conv : F -> E) (m : M T F A) :
  (forall t s, f (upd t s) = f s) -> keeps f (zoom proj upd conv m).
Proof. intros H s. unfold zoom. destruct (m (proj s)). apply H. Qed.
End Keeps.
