(* ===== verification/Errors.v ===== *)
(** * Error types

    [ProtocolError], [CryptoError] and [CoreError]
    (src/crates/corevpn-protocol/src/error.rs,
    src/crates/corevpn-crypto/src/error.rs,
    src/crates/corevpn-core/src/error.rs), with the source's constructors.
    [std::io::Error] carries no payload here: no modelled path builds one. *)
From S2P Require Import Prelude.

Inductive CryptoError :=
| InvalidKeyLength (expected got : nat)
| InvalidSignature
| DecryptionFailed
| EncryptionFailed (msg : str)
| InvalidNonceLength
| KeyDerivationFailed (msg : str)
| CertificateError (msg : str)
| InvalidPem (msg : str)
| HmacVerificationFailed
| CryptoReplayDetected
| KeyExpired
| RngFailed.

Inductive CoreError :=
| CoreSessionNotFound (id : str)
| SessionExpired
| UserNotFound (id : str)
| Unauthorized (msg : str)
| AddressPoolExhausted
| InvalidAddress (msg : str)
| ConfigError (msg : str)
| CoreCryptoError (e : CryptoError)
| CoreIoError
| Internal (msg : str).

Inductive ProtocolError :=
| InvalidPacket (msg : str)
| UnknownOpcode (op : Z)
| PacketTooShort (expected got : nat)
| InvalidSessionId
| SessionNotFound
| HandshakeFailed (msg : str)
| TlsError (msg : str)
| AuthFailed (msg : str)
| ReplayDetected
| KeyNotAvailable (key_id : Z)
| ProtoCryptoError (e : CryptoError)
| ProtoCoreError (e : CoreError)
| IoError
| Timeout
| ConnectionReset.
