(* ===== verification/Text.v ===== *)
(** * Text: what the source uses of Rust's [str] and of decimal conversion

    A [str] is the list of its UTF-8 bytes.  The operations follow the
    documentation of the standard library: [str::split] with a one-byte
    separator, [split_whitespace] and [trim] on Unicode [White_Space],
    [from_utf8] (the well-formedness table of the Unicode standard),
    [str::parse] for unsigned integers, [Ipv4Addr]'s [FromStr] and
    [Display]. *)
From S2P Require Import Prelude.
Local Open Scope Z_scope.

(** ** Splitting and joining *)

(** [s.split(c)] for a one-byte [c]: always at least one part. *)
Fixpoint split_on (c : Z) (s : str) : list str :=
  match s with
  | [] => [[]]
  | b :: s' =>
      if b =? c then [] :: split_on c s'
      else match split_on c s' with
           | [] => [[b]]
           | p :: ps => (b :: p) :: ps
           end
  end.

(** [parts.join(sep)]. *)
Fixpoint join (sep : str) (parts : list str) : str :=
  match parts with
  | [] => []
  | [p] => p
  | p :: ps => p ++ sep ++ join sep ps
  end.

(** [s.strip_prefix(p)]. *)
Definition strip_prefix (p s : str) : option str :=
  if decide (take (length p) s = p) then Some (drop (length p) s) else None.

Definition starts_with (p s : str) : bool := bool_decide (take (length p) s = p).

(** [s.contains(p)]. *)
Fixpoint contains (p s : str) : bool :=
  starts_with p s || match s with [] => false | _ :: s' => contains p s' end.

(** [str::replace] of one ASCII character. *)
Definition replace_char (c : Z) (by_ : str) (s : str) : str :=
  flat_map (fun b => if b =? c then by_ else [b]) s.

(** [str::replace] of a pattern that is not empty. *)
Fixpoint replace_go (p by_ : str) (skip : nat) (s : str) : str :=
  match s, skip with
  | [], _ => []
  | _ :: s', S skip' => replace_go p by_ skip' s'
  | b :: s', O => if starts_with p s then by_ ++ replace_go p by_ (length p - 1) s' else b :: replace_go p by_ 0 s'
  end.
Definition replace_str (p by_ s : str) : str := replace_go p by_ 0 s.

(** [s.trim_end_matches(c)] for a one-byte [c]. *)
Fixpoint drop_while (f : Z -> bool) (s : str) : str :=
  match s with
  | [] => []
  | b :: s' => if f b then drop_while f s' else s
  end.

Definition trim_end_matches (c : Z) (s : str) : str :=
  rev (drop_while (fun b => b =? c) (rev s)).

(** ** Characters and white space *)

(** The length of the UTF-8 sequence a byte starts. *)
Definition char_len (b : Z) : nat :=
  if b <? 192 then 1%nat else if b <? 224 then 2%nat else if b <? 240 then 3%nat else 4%nat.

(** [s.chars()], every character as its bytes; [skip] counts the bytes the
    current character still takes. *)
Fixpoint chars_go (skip : nat) (cur : str) (s : str) : list str :=
  match s with
  | [] => match cur with [] => [] | _ => [rev cur] end
  | b :: s' =>
      match skip with
      | O => match cur with
             | [] => chars_go (char_len b - 1) [b] s'
             | _ => rev cur :: chars_go (char_len b - 1) [b] s'
             end
      | S k => chars_go k (b :: cur) s'
      end
  end.
Definition chars (s : str) : list str := chars_go 0 [] s.

(** [char::is_whitespace]: the code points of Unicode [White_Space], encoded. *)
Definition is_whitespace (c : str) : bool :=
  match c with
  | [b] => ((9 <=? b) && (b <=? 13)) || (b =? 32)
  | [x; y] => (x =? 194) && ((y =? 133) || (y =? 160))
  | [x; y; z] =>
      (x =? 225) && (y =? 154) && (z =? 128)
      || (x =? 226) && (y =? 128) &&
         ((128 <=? z) && (z <=? 138) || (z =? 168) || (z =? 169) || (z =? 175))
      || (x =? 226) && (y =? 129) && (z =? 159)
      || (x =? 227) && (y =? 128) && (z =? 128)
  | _ => false
  end.

(** [s.split_whitespace()], all tokens. *)
Fixpoint tokens_go (cur : str) (cs : list str) : list str :=
  match cs with
  | [] => match cur with [] => [] | _ => [cur] end
  | c :: cs' =>
      if is_whitespace c
      then match cur with [] => tokens_go [] cs' | _ => cur :: tokens_go [] cs' end
      else tokens_go (cur ++ c) cs'
  end.
Definition split_whitespace (s : str) : list str := tokens_go [] (chars s).

Fixpoint drop_ws (cs : list str) : list str :=
  match cs with
  | [] => []
  | c :: cs' => if is_whitespace c then drop_ws cs' else cs
  end.

(** [s.trim()]. *)
Definition trim (s : str) : str :=
  concat (rev (drop_ws (rev (drop_ws (chars s))))).

(** ASCII lower and upper case. *)
Definition ascii_lower (b : Z) : Z := if (65 <=? b) && (b <=? 90) then b + 32 else b.
Definition ascii_upper (b : Z) : Z := if (97 <=? b) && (b <=? 122) then b - 32 else b.

(** ** UTF-8 well-formedness ([std::str::from_utf8]) *)
Definition in_range (lo hi b : Z) : bool := (lo <=? b) && (b <=? hi).
Lemma in_range_spec lo hi b : in_range lo hi b = true <-> lo <= b <= hi.
Proof. unfold in_range. rewrite andb_true_iff, !Z.leb_le. done. Qed.
Abbreviation cont := (in_range 128 191).

Fixpoint utf8_valid (s : bytes) : bool :=
  match s with
  | [] => true
  | b :: s1 =>
      if in_range 0 127 b then utf8_valid s1 else
      match s1 with
      | [] => false
      | c :: s2 =>
          if in_range 194 223 b then cont c && utf8_valid s2 else
          match s2 with
          | [] => false
          | d :: s3 =>
              if (b =? 224) && in_range 160 191 c || in_range 225 236 b && cont c
                 || (b =? 237) && in_range 128 159 c || in_range 238 239 b && cont c
              then cont d && utf8_valid s3 else
              match s3 with
              | [] => false
              | e :: s4 =>
                  if (b =? 240) && in_range 144 191 c || in_range 241 243 b && cont c
                     || (b =? 244) && in_range 128 143 c
                  then cont d && cont e && utf8_valid s4 else false
              end
          end
      end
  end.

(** ** Decimal *)

(** [format!("{}", z)] of an unsigned integer; 40 digits hold a [u128]. *)
Fixpoint dec_digits (fuel : nat) (z : Z) : str :=
  match fuel with
  | O => []
  | S f => if z <? 10 then [48 + z] else dec_digits f (z / 10) ++ [48 + z mod 10]
  end.
Definition fmt_dec (z : Z) : str := dec_digits 40 z.

Definition digit (b : Z) : option Z := if in_range 48 57 b then Some (b - 48) else None.

Fixpoint parse_digits (w acc : Z) (s : str) : option Z :=
  match s with
  | [] => Some acc
  | b :: s' =>
      d ← digit b;
      let acc' := acc * 10 + d in
      if acc' <? 2 ^ w then parse_digits w acc' s' else None
  end.

(** [s.parse::<uN>().ok()]: an optional ['+'], then at least one digit. *)
Definition parse_uint (w : Z) (s : str) : option Z :=
  match s with
  | [] => None
  | b :: s' =>
      if b =? 43 then match s' with [] => None | _ => parse_digits w 0 s' end
      else parse_digits w 0 s
  end.

(** ** IPv4 addresses: [Ipv4Addr], as the [u32] it converts to *)
Definition octets (a : Z) : bytes := to_be 4 a.

Definition fmt_ipv4 (a : Z) : str := join [46] (map fmt_dec (octets a)).

(** One group of a dotted address: at most three digits, no leading zero. *)
Definition parse_octet (s : str) : option Z :=
  match s with
  | [] => None
  | b :: s' =>
      if (b =? 48) && negb (bool_decide (s' = [])) then None
      else if (3 <? Z.of_nat (length s)) then None
      else parse_digits 8 0 s
  end.

(** [s.parse::<Ipv4Addr>().ok()]. *)
Definition parse_ipv4 (s : str) : option Z :=
  if 15 <? Z.of_nat (length s) then None else
  match split_on 46 s with
  | [a; b; c; d] =>
      a ← parse_octet a; b ← parse_octet b; c ← parse_octet c; d ← parse_octet d;
      Some (from_be [a; b; c; d])
  | _ => None
  end.

(** ** Splitting inverts joining *)
Lemma split_on_cons c s : split_on c s <> [].
Proof.
  destruct s as [|b s]; simpl; [done|]. destruct (b =? c); [done|].
  destruct (split_on c s); done.
Qed.

Lemma split_on_app c p s : c ∉ p -> split_on c (p ++ c :: s) = p :: split_on c s.
Proof.
  induction p as [|b p IH]; intros Hp; simpl.
  - by rewrite Z.eqb_refl.
  - apply not_elem_of_cons in Hp as [Hb Hp]. rewrite (proj2 (Z.eqb_neq b c)) by done.
    by rewrite IH.
Qed.

Lemma split_on_none c p : c ∉ p -> split_on c p = [p].
Proof.
  induction p as [|b p IH]; intros Hp; simpl; [done|].
  apply not_elem_of_cons in Hp as [Hb Hp]. rewrite (proj2 (Z.eqb_neq b c)) by done.
  by rewrite IH.
Qed.

Lemma split_on_join c parts :
  parts <> [] -> Forall (fun p => c ∉ p) parts -> split_on c (join [c] parts) = parts.
Proof.
  intros Hne H. induction H as [|p parts Hp H IH]; [done|].
  destruct parts as [|q parts]; [by apply split_on_none|].
  change (join [c] (p :: q :: parts)) with (p ++ c :: join [c] (q :: parts)).
  rewrite split_on_app by done. by rewrite IH.
Qed.

(** ** ASCII text *)
Definition ascii (s : str) : Prop := Forall (fun b => 0 <= b < 128) s.
(** A character that is neither white space nor a control character. *)
Definition visible (b : Z) : bool := in_range 33 126 b.
(** A non-empty run of visible characters without commas. *)
Definition token (s : str) : Prop := s <> [] /\ Forall (fun b => visible b = true /\ b <> 44) s.

Lemma chars_go_ascii s cur :
  ascii s -> chars_go 0 [cur] s = [cur] :: map (fun b => [b]) s.
Proof.
  revert cur. induction s as [|b s IH]; intros cur Hs; simpl; [done|]. inv Hs.
  replace (char_len b - 1)%nat with 0%nat; [by rewrite IH|].
  unfold char_len. rewrite (proj2 (Z.ltb_lt b 192)) by lia. done.
Qed.

Lemma chars_ascii s : ascii s -> chars s = map (fun b => [b]) s.
Proof.
  destruct s as [|b s]; intros Hs; [done|]. inv Hs. unfold chars. simpl.
  replace (char_len b - 1)%nat with 0%nat; [by apply chars_go_ascii|].
  unfold char_len. rewrite (proj2 (Z.ltb_lt b 192)) by lia. done.
Qed.

Lemma visible_not_ws b : visible b = true -> is_whitespace [b] = false.
Proof.
  unfold visible, in_range. intros H. bools. unfold is_whitespace.
  rewrite (proj2 (Z.leb_gt b 13)), (proj2 (Z.eqb_neq b 32)) by lia.
  by rewrite andb_false_r.
Qed.

Lemma visible_ascii b : visible b = true -> 0 <= b < 128.
Proof. unfold visible, in_range. intros H. bools. lia. Qed.

Lemma token_ascii s : token s -> ascii s.
Proof.
  intros [_ H]. eapply Forall_impl; [exact H|]. intros b [Hv _]. by apply visible_ascii.
Qed.

Lemma map_singleton_concat (s : str) : concat (map (fun b => [b]) s) = s.
Proof. induction s; simpl; congruence. Qed.

Lemma tokens_go_run cur s cs :
  Forall (fun b => visible b = true) s ->
  tokens_go cur (map (fun b => [b]) s ++ cs) = tokens_go (cur ++ s) cs.
Proof.
  revert cur. induction s as [|b s IH]; intros cur Hs; cbn [map app tokens_go];
    [by rewrite app_nil_r|]. inv Hs. rewrite visible_not_ws by done. rewrite IH by done. by rewrite <- app_assoc.
Qed.

Lemma token_visible s : token s -> Forall (fun b => visible b = true) s.
Proof. intros [_ H]. eapply Forall_impl; [exact H|]. naive_solver. Qed.

Lemma tokens_go_join ts :
  Forall token ts -> tokens_go [] (map (fun b => [b]) (join [32] ts)) = ts.
Proof.
  intros H. induction H as [|t ts Ht H IH]; [done|].
  pose proof (token_visible t Ht) as Hv. destruct Ht as [Hne _].
  destruct ts as [|u ts].
  - cbn [join]. rewrite <- (app_nil_r (map _ t)), tokens_go_run by done. simpl. by destruct t.
  - change (join [32] (t :: u :: ts)) with (t ++ [32] ++ join [32] (u :: ts)).
    rewrite !map_app, tokens_go_run by done. cbn [app map tokens_go].
    change (is_whitespace [32]) with true. cbn [app]. destruct t; [done|]. by rewrite IH.
Qed.

Lemma join_ascii ts : Forall token ts -> ascii (join [32] ts).
Proof.
  intros H. induction H as [|t ts Ht H IH]; [constructor|].
  apply token_ascii in Ht. destruct ts as [|u ts]; [done|].
  change (ascii (t ++ [32] ++ join [32] (u :: ts))). apply Forall_app. split; [done|].
  constructor; [lia|done].
Qed.

(** [split_whitespace] inverts joining with single spaces. *)
Lemma split_whitespace_join ts : Forall token ts -> split_whitespace (join [32] ts) = ts.
Proof.
  intros H. unfold split_whitespace. rewrite chars_ascii by (by apply join_ascii).
  by apply tokens_go_join.
Qed.

(** [trim] keeps text that starts and ends with a visible character. *)
Lemma drop_ws_visible b s : visible b = true ->
  drop_ws (map (fun b => [b]) (b :: s)) = map (fun b => [b]) (b :: s).
Proof. intros H. cbn [map drop_ws]. by rewrite visible_not_ws. Qed.

Lemma trim_visible s b e :
  ascii s -> head s = Some b -> last s = Some e -> visible b = true -> visible e = true ->
  trim s = s.
Proof.
  intros Ha Hh Hl Hb He. unfold trim. rewrite chars_ascii by done.
  destruct s as [|b' s]; [done|]. simpl in Hh. inv Hh. rewrite drop_ws_visible by done.
  apply last_Some in Hl as [s' Hs']. rewrite Hs', <- map_rev, rev_app_distr. cbn [rev app].
  rewrite drop_ws_visible by done. rewrite <- map_rev. cbn [rev].
  by rewrite rev_involutive, map_singleton_concat.
Qed.

(** ** Decimal round trip *)
Lemma parse_digits_app w acc s t :
  parse_digits w acc (s ++ t) = parse_digits w acc s ≫= fun a => parse_digits w a t.
Proof.
  revert acc. induction s as [|b s IH]; intros acc; simpl; [done|].
  destruct (digit b); simpl; [|done]. destruct (_ <? _); [apply IH|done].
Qed.

Lemma digit_char d : 0 <= d < 10 -> digit (48 + d) = Some d.
Proof.
  intros Hd. unfold digit, in_range.
  rewrite (proj2 (Z.leb_le 48 (48 + d))), (proj2 (Z.leb_le (48 + d) 57)) by lia.
  simpl. f_equal. lia.
Qed.

Lemma parse_dec_digits w f z :
  0 <= z < 2 ^ w -> z < 10 ^ Z.of_nat f -> (0 < f)%nat -> parse_digits w 0 (dec_digits f z) = Some z.
Proof.
  revert z. induction f as [|f IH]; intros z Hz Hf H0; [lia|]. cbn [dec_digits].
  destruct (z <? 10) eqn:Hlt; bools.
  - cbn [parse_digits]. rewrite digit_char by lia. simpl.
    rewrite (proj2 (Z.ltb_lt z _)) by lia. done.
  - pose proof (Z.div_mod z 10 ltac:(lia)). pose proof (Z.mod_pos_bound z 10 ltac:(lia)).
    assert (f <> 0%nat) by (intros ->; simpl in Hf; lia).
    rewrite parse_digits_app, IH; [|lia| |lia].
    + cbn [mbind option_bind parse_digits]. rewrite digit_char by lia.
      cbn [mbind option_bind]. rewrite (proj2 (Z.ltb_lt _ _)) by lia. f_equal. lia.
    + replace (Z.of_nat (S f)) with (1 + Z.of_nat f) in Hf by lia.
      rewrite Z.pow_add_r in Hf by lia. change (10 ^ 1) with 10 in Hf.
      apply Z.div_lt_upper_bound; lia.
Qed.

Lemma dec_digits_shape f z : 0 <= z -> (0 < f)%nat ->
  dec_digits f z <> [] /\ Forall (fun b => 48 <= b <= 57) (dec_digits f z).
Proof.
  revert z. induction f as [|f IH]; intros z Hz H0; [lia|]. cbn [dec_digits].
  destruct (z <? 10) eqn:Hlt; bools.
  - split; [done|]. repeat constructor; lia.
  - split; [by destruct (dec_digits f (z / 10))|].
    pose proof (Z.mod_pos_bound z 10 ltac:(lia)). apply Forall_app. split.
    + destruct f; [constructor|]. apply IH; [apply Z.div_pos; lia|lia].
    + repeat constructor; lia.
Qed.

Lemma fmt_dec_digits z : 0 <= z ->
  fmt_dec z <> [] /\ Forall (fun b => 48 <= b <= 57) (fmt_dec z).
Proof. intros. apply dec_digits_shape; lia. Qed.

(** [parse] inverts [format!] for integers of up to 128 bits. *)
Lemma parse_uint_fmt w z : 0 <= w <= 128 -> uint w z -> parse_uint w (fmt_dec z) = Some z.
Proof.
  intros Hw Hz. unfold uint in Hz. destruct (fmt_dec_digits z) as [Hne Hd]; [lia|].
  assert (parse_digits w 0 (fmt_dec z) = Some z) as Hp.
  { apply parse_dec_digits; [done| |lia].
    assert (2 ^ w <= 2 ^ 128) by (apply Z.pow_le_mono_r; lia).
    change (2 ^ 128) with 340282366920938463463374607431768211456 in *.
    change (10 ^ Z.of_nat 40) with 10000000000000000000000000000000000000000. lia. }
  unfold parse_uint. destruct (fmt_dec z) as [|b s]; [done|]. inv Hd.
  by rewrite (proj2 (Z.eqb_neq b 43)) by lia.
Qed.

Lemma fmt_dec_token z : 0 <= z -> token (fmt_dec z).
Proof.
  intros Hz. destruct (fmt_dec_digits z Hz) as [Hne Hd]. split; [done|].
  eapply Forall_impl; [exact Hd|]. intros b Hb. cbn beta in Hb. split; [|lia].
  unfold visible, in_range. rewrite (proj2 (Z.leb_le 33 b)), (proj2 (Z.leb_le b 126)) by lia. done.
Qed.

(** ** UTF-8 of concatenations *)

(** A valid non-empty string starts with a character that can be split off. *)
Lemma utf8_head b s : utf8_valid (b :: s) = true ->
  exists p r, b :: s = p ++ r /\ p <> [] /\ utf8_valid r = true /\
    forall u, utf8_valid (p ++ u) = utf8_valid u.
Proof.
  cbn [utf8_valid]. destruct (in_range 0 127 b) eqn:H1.
  { intros H. exists [b], s. split_and!; try done. intros u. cbn. by rewrite H1. }
  destruct s as [|c s]; [done|]. destruct (in_range 194 223 b) eqn:H2.
  { intros H. bools. exists [b; c], s. split_and!; try done. intros u. cbn. rewrite H1, H2.
    by match goal with H : cont c = true |- _ => rewrite H end. }
  destruct s as [|d s]; [done|].
  destruct ((b =? 224) && in_range 160 191 c || in_range 225 236 b && cont c
                 || (b =? 237) && in_range 128 159 c || in_range 238 239 b && cont c) eqn:H3.
  { intros H. bools. exists [b; c; d], s. split_and!; try done. intros u.
    cbn [app utf8_valid]. rewrite H1, H2, H3.
    by match goal with H : cont d = true |- _ => rewrite H end. }
  destruct s as [|e s]; [done|].
  destruct ((b =? 240) && in_range 144 191 c || in_range 241 243 b && cont c
                     || (b =? 244) && in_range 128 143 c) eqn:H4; [|done].
  intros H. apply andb_true_iff in H as [H Hs]. apply andb_true_iff in H as [Hd He].
  exists [b; c; d; e], s. split_and!; try done. intros u.
  cbn [app utf8_valid]. by rewrite H1, H2, H3, H4, Hd, He.
Qed.

Lemma utf8_valid_app s t : utf8_valid s = true -> utf8_valid t = true -> utf8_valid (s ++ t) = true.
Proof.
  intros Hs Ht. remember (length s) as n eqn:Hn. revert s Hs Hn.
  induction (lt_wf n) as [n _ IH]. intros s Hs ->. destruct s as [|b s]; [done|].
  destruct (utf8_head b s Hs) as (p & r & E & Hp & Hr & Hu).
  rewrite E, <- app_assoc, Hu. eapply IH; [|done|reflexivity].
  apply (f_equal length) in E. rewrite length_app in E. rewrite E. destruct p; [done|]. simpl. lia.
Qed.

(** Removing the terminator that was appended. *)
Lemma trim_end_nul s : last s <> Some 0 -> trim_end_matches 0 (s ++ [0]) = s.
Proof.
  intros Hl. unfold trim_end_matches. rewrite rev_app_distr. cbn [rev app drop_while Z.eqb].
  destruct (rev s) as [|b r] eqn:Hr.
  - apply (f_equal (@rev Z)) in Hr. rewrite rev_involutive in Hr. by rewrite Hr.
  - assert (s = rev r ++ [b]) as -> by (rewrite <- (rev_involutive s), Hr; done).
    rewrite last_snoc in Hl. cbn [drop_while]. rewrite (proj2 (Z.eqb_neq b 0)) by congruence. done.
Qed.

(** ** Tokens of addresses *)
Lemma join_split_on c s : join [c] (split_on c s) = s.
Proof.
  induction s as [|b s IH]; [done|]. cbn [split_on]. pose proof (split_on_cons c s).
  destruct (b =? c) eqn:Hb; bools.
  - destruct (split_on c s) as [|p ps]; [done|].
    change (join [c] ([] :: p :: ps)) with (c :: join [c] (p :: ps)). congruence.
  - destruct (split_on c s) as [|p ps]; [done|]. destruct ps as [|q ps].
    + cbn [join] in *. congruence.
    + change (join [c] (p :: q :: ps)) with (p ++ c :: join [c] (q :: ps)) in IH.
      change (join [c] ((b :: p) :: q :: ps)) with (b :: p ++ c :: join [c] (q :: ps)). congruence.
Qed.

Lemma token_app s t : token s -> token t -> token (s ++ t).
Proof.
  intros [Hs Fs] [Ht Ft]. split; [by destruct s|]. by apply Forall_app.
Qed.

Lemma parse_digits_visible w acc s z :
  parse_digits w acc s = Some z -> Forall (fun b => visible b = true /\ b <> 44) s.
Proof.
  revert acc. induction s as [|b s IH]; intros acc H; [constructor|]. cbn [parse_digits] in H.
  unfold digit in H. destruct (in_range 48 57 b) eqn:Hb; [|done]. cbn [mbind option_bind] in H.
  case_match; [|done]. constructor; [|by eapply IH].
  unfold visible, in_range in *. bools. split; [|lia].
  by rewrite (proj2 (Z.leb_le 33 b)), (proj2 (Z.leb_le b 126)) by lia.
Qed.

Lemma parse_octet_token s z : parse_octet s = Some z -> token s.
Proof.
  unfold parse_octet. destruct s as [|b s]; [done|]. intros H. repeat case_match; try done.
  split; [done|]. by eapply parse_digits_visible.
Qed.

(** ** Text made of tokens *)
Lemma token_no_comma s : token s -> 44 ∉ s.
Proof.
  intros [_ H] Hin. rewrite Forall_forall in H. by destruct (H 44 Hin).
Qed.

Lemma join_tokens_no_comma ts : Forall token ts -> 44 ∉ join [32] ts.
Proof.
  intros H. induction H as [|t ts Ht H IH]; [by apply not_elem_of_nil|].
  apply token_no_comma in Ht. destruct ts as [|u ts]; [done|].
  change (44 ∉ t ++ [32] ++ join [32] (u :: ts)). set_solver.
Qed.

Lemma join_tokens_last ts e :
  Forall token ts -> last (join [32] ts) = Some e -> visible e = true.
Proof.
  intros H. induction H as [|t ts Ht H IH]; [done|].
  pose proof (token_visible t Ht) as Hv. rewrite Forall_forall in Hv.
  destruct ts as [|u ts].
  - intros Hl. apply Hv. apply last_Some_elem_of. exact Hl.
  - change (join [32] (t :: u :: ts)) with (t ++ [32] ++ join [32] (u :: ts)).
    assert (join [32] (u :: ts) <> []) as Hne.
    { apply Forall_inv in H as [Hu _]. destruct u; [done|]. by destruct ts. }
    destruct (last (join [32] (u :: ts))) as [x|] eqn:Hx; [|by apply last_None in Hx].
    rewrite app_assoc, last_app, Hx. exact IH.
Qed.

Lemma trim_join ts : Forall token ts -> trim (join [32] ts) = join [32] ts.
Proof.
  intros H. destruct ts as [|t ts]; [done|].
  destruct (last (join [32] (t :: ts))) as [e|] eqn:He.
  - pose proof (Forall_inv H) as [Hne Hv]. destruct t as [|b t]; [done|].
    apply (trim_visible _ b e); [by apply join_ascii|by destruct ts|done| |].
    + by destruct (Forall_inv Hv).
    + by eapply join_tokens_last.
  - apply last_None in He. by rewrite He.
Qed.

Lemma join_cons_ne sep t ts : t <> [] -> join sep (t :: ts) <> [].
Proof. intros Ht. destruct t; [done|]. by destruct ts. Qed.
