(* ===== verification/Opcode.v ===== *)
(** * Opcodes and key ids (src/crates/corevpn-protocol/src/opcode.rs)

    The first byte of every OpenVPN datagram: five opcode bits and three key
    id bits. *)
From S2P Require Import Prelude Errors.

Inductive OpCode :=
| ControlV1
| AckV1
| DataV1
| HardResetClientV2
| HardResetServerV2
| SoftResetV1
| DataV2
| HardResetClientV3
| ControlWkcV1.

#[export] Instance OpCode_eq_dec : EqDecision OpCode.
Proof. solve_decision. Defined.

(** [self as u8]: the discriminants of the [#[repr(u8)]] enum. *)
Definition OpCode_as_u8 (o : OpCode) : Z :=
  match o with
  | ControlV1 => 4
  | AckV1 => 5
  | DataV1 => 6
  | HardResetClientV2 => 7
  | HardResetServerV2 => 8
  | SoftResetV1 => 3
  | DataV2 => 9
  | HardResetClientV3 => 10
  | ControlWkcV1 => 11
  end%Z.

(** [KeyId(pub u8)]. *)
Record KeyId := mkKeyId { key_id_0 : Z }.

#[export] Instance KeyId_eq_dec : EqDecision KeyId.
Proof. solve_decision. Defined.

Definition KeyId_default : KeyId := mkKeyId 0.
Definition KeyId_new (id : Z) : KeyId := mkKeyId (Z.land id 7).
Definition KeyId_from_byte (byte : Z) : KeyId := mkKeyId (Z.land byte 7).
Definition KeyId_next (k : KeyId) : KeyId := mkKeyId (Z.land (wrap 8 (key_id_0 k + 1)) 7).

(** Well-formed key ids: three bits. *)
Definition KeyId_ok (k : KeyId) : Prop := uint 3 (key_id_0 k).

Definition OpCode_from_byte (byte : Z) : res ProtocolError OpCode :=
  let opcode := Z.shiftr byte 3 in
  match opcode with
  | 3 => Ok SoftResetV1
  | 4 => Ok ControlV1
  | 5 => Ok AckV1
  | 6 => Ok DataV1
  | 7 => Ok HardResetClientV2
  | 8 => Ok HardResetServerV2
  | 9 => Ok DataV2
  | 10 => Ok HardResetClientV3
  | 11 => Ok ControlWkcV1
  | _ => Err (UnknownOpcode opcode)
  end%Z.

Definition OpCode_to_byte (o : OpCode) (key_id : KeyId) : Z :=
  Z.lor (wrap 8 (Z.shiftl (OpCode_as_u8 o) 3)) (Z.land (key_id_0 key_id) 7).

Definition OpCode_is_control (o : OpCode) : bool :=
  match o with
  | ControlV1 | AckV1 | HardResetClientV2 | HardResetServerV2 | SoftResetV1
  | HardResetClientV3 | ControlWkcV1 => true
  | _ => false
  end.

Definition OpCode_is_data (o : OpCode) : bool :=
  match o with DataV1 | DataV2 => true | _ => false end.

Definition OpCode_is_hard_reset (o : OpCode) : bool :=
  match o with
  | HardResetClientV2 | HardResetServerV2 | HardResetClientV3 => true
  | _ => false
  end.

(** [Display]. *)
Definition OpCode_fmt (o : OpCode) : str :=
  match o with
  | ControlV1 => lit "P_CONTROL_V1"
  | AckV1 => lit "P_ACK_V1"
  | DataV1 => lit "P_DATA_V1"
  | HardResetClientV2 => lit "P_CONTROL_HARD_RESET_CLIENT_V2"
  | HardResetServerV2 => lit "P_CONTROL_HARD_RESET_SERVER_V2"
  | SoftResetV1 => lit "P_CONTROL_SOFT_RESET_V1"
  | DataV2 => lit "P_DATA_V2"
  | HardResetClientV3 => lit "P_CONTROL_HARD_RESET_CLIENT_V3"
  | ControlWkcV1 => lit "P_CONTROL_WKC_V1"
  end.

(** ** Lemmas *)
Section Lemmas.
Local Open Scope Z_scope.

Lemma KeyId_eta k : mkKeyId (key_id_0 k) = k.
Proof. by destruct k. Qed.

Lemma KeyId_from_byte_ok b : KeyId_ok (KeyId_from_byte b).
Proof. unfold KeyId_ok, KeyId_from_byte, uint. simpl. rewrite land_7. apply Z.mod_pos_bound. lia. Qed.

Lemma KeyId_next_ok k : KeyId_ok (KeyId_next k).
Proof. unfold KeyId_ok, KeyId_next, uint. simpl. rewrite land_7. apply Z.mod_pos_bound. lia. Qed.

Lemma KeyId_default_ok : KeyId_ok KeyId_default.
Proof. unfold KeyId_ok, uint. simpl. lia. Qed.

Lemma OpCode_as_u8_range o : 3 <= OpCode_as_u8 o <= 11.
Proof. destruct o; simpl; lia. Qed.

(** The first byte, arithmetically. *)
Lemma OpCode_to_byte_eq o k :
  OpCode_to_byte o k = OpCode_as_u8 o * 8 + key_id_0 k mod 8.
Proof.
  unfold OpCode_to_byte. pose proof (OpCode_as_u8_range o).
  rewrite wrap_small.
  - rewrite (lor_shiftl_add 3); [by rewrite land_7|lia|].
    rewrite land_7. unfold uint. apply Z.mod_pos_bound. lia.
  - unfold uint. rewrite Z.shiftl_mul_pow2 by lia. lia.
Qed.

Lemma OpCode_to_byte_u8 o k : u8 (OpCode_to_byte o k).
Proof.
  rewrite OpCode_to_byte_eq. pose proof (OpCode_as_u8_range o).
  pose proof (Z.mod_pos_bound (key_id_0 k) 8 ltac:(lia)). unfold uint. lia.
Qed.

Lemma OpCode_from_to_byte o k : OpCode_from_byte (OpCode_to_byte o k) = Ok o.
Proof.
  rewrite OpCode_to_byte_eq. unfold OpCode_from_byte.
  rewrite Z.shiftr_div_pow2 by lia. change (2 ^ 3) with 8.
  rewrite Z.div_add_l, Z.mod_div, Z.add_0_r by lia. by destruct o.
Qed.

Lemma KeyId_from_to_byte o k : KeyId_ok k -> KeyId_from_byte (OpCode_to_byte o k) = k.
Proof.
  intros Hk. rewrite OpCode_to_byte_eq. unfold KeyId_from_byte.
  rewrite land_7, Z.add_comm, Z.mod_add, Z.mod_mod, Z.mod_small by (lia || exact Hk).
  apply KeyId_eta.
Qed.

Lemma OpCode_from_byte_no_panic b : no_panic (OpCode_from_byte b).
Proof. unfold OpCode_from_byte, no_panic. repeat case_match; discriminate. Qed.

Lemma OpCode_data_control o : OpCode_is_data o = negb (OpCode_is_control o).
Proof. by destruct o. Qed.

End Lemmas.

#[export] Hint Resolve KeyId_from_byte_ok KeyId_next_ok KeyId_default_ok
  OpCode_to_byte_u8 OpCode_from_byte_no_panic : vpn.
#[export] Hint Rewrite OpCode_from_to_byte : vpn_rw.
