(* ===== verification/Packet.v ===== *)
(** * Packets (src/crates/corevpn-protocol/src/packet.rs)

    Parsing and serialization of control and data channel packets, over byte
    sequences with explicit offsets and with the panic of every slice
    operation, so that panic freedom on arbitrary network input is a
    theorem. *)
From S2P Require Import Prelude Errors Text Opcode.
Local Open Scope nat_scope.

(** [SessionId = [u8; 8]] and [PacketId = u32]. *)
Abbreviation SessionId := bytes.
Abbreviation PacketId := Z.

Record PacketHeader := mkPacketHeader {
  ph_opcode : OpCode;
  ph_key_id : KeyId;
  ph_session_id : option SessionId;
  ph_hmac : option bytes;
  ph_packet_id : option PacketId;
  ph_timestamp : option Z;
}.

Definition too_short {A} (expected got : nat) : res ProtocolError A :=
  Err (PacketTooShort expected got).

(** The tls-auth fields [HMAC(32) pid(4) time(4)] of a control header; [None]s
    when tls-auth is off. *)
Definition PacketHeader_parse_tls_auth (data : bytes) (has_tls_auth : bool) (offset : nat)
    : res ProtocolError (option bytes * option PacketId * option Z * nat) :=
  if has_tls_auth then
    if length data <? offset + 32 then too_short (offset + 32) (length data) else
    h ← slice data offset (offset + 32);
    let offset := offset + 32 in
    if length data <? offset + 4 then too_short (offset + 4) (length data) else
    pid ← slice data offset (offset + 4);
    let offset := offset + 4 in
    if length data <? offset + 4 then too_short (offset + 4) (length data) else
    ts ← slice data offset (offset + 4);
    let offset := offset + 4 in
    Ok (Some h, Some (from_be pid), Some (from_be ts), offset)
  else Ok (None, None, None, offset).

Definition PacketHeader_parse (data : bytes) (has_tls_auth : bool)
    : res ProtocolError (PacketHeader * nat) :=
  if length data =? 0 then too_short 1 0 else
  b0 ← idx data 0;
  opcode ← OpCode_from_byte b0;
  let key_id := KeyId_from_byte b0 in
  if OpCode_is_data opcode then
    Ok (mkPacketHeader opcode key_id None None None None, 1)
  else
    let offset := 1 in
    if length data <? offset + 8 then too_short (offset + 8) (length data) else
    session_id ← slice data offset (offset + 8);
    let offset := offset + 8 in
    '(hmac, packet_id, timestamp, offset) ←
      PacketHeader_parse_tls_auth data has_tls_auth offset;
    Ok (mkPacketHeader opcode key_id (Some session_id) hmac packet_id timestamp, offset).

(** [put_slice] / [put_u32] of an optional field. *)
Definition put_opt {A} (f : A -> bytes) (o : option A) : bytes :=
  match o with Some a => f a | None => [] end.

Definition PacketHeader_serialize (h : PacketHeader) : bytes :=
  OpCode_to_byte (ph_opcode h) (ph_key_id h)
    :: put_opt id (ph_session_id h)
    ++ put_opt id (ph_hmac h)
    ++ put_opt (to_be 4) (ph_packet_id h)
    ++ put_opt (to_be 4) (ph_timestamp h).

Record ControlPacketData := mkControl {
  cp_header : PacketHeader;
  cp_remote_session_id : option SessionId;
  cp_acks : list PacketId;
  cp_message_packet_id : option PacketId;
  cp_payload : bytes;
}.

Record DataPacketData := mkData {
  dp_header : PacketHeader;
  dp_peer_id : option Z;
  dp_payload : bytes;
}.

Inductive Packet :=
| Control (c : ControlPacketData)
| Data (d : DataPacketData).

(** The 24-bit peer id of [P_DATA_V2]. *)
Definition peer_id_of (b0 b1 b2 : Z) : Z :=
  Z.lor (Z.lor (Z.shiftl b0 16) (Z.shiftl b1 8)) b2.

Definition peer_id_bytes (pid : Z) : bytes :=
  [wrap 8 (Z.shiftr pid 16); wrap 8 (Z.shiftr pid 8); wrap 8 pid].

(** The data branch of [Packet::parse]. *)
Definition Packet_parse_data (data : bytes) (header : PacketHeader) (offset : nat)
    : res ProtocolError Packet :=
  '(peer_id, offset) ←
    (if decide (ph_opcode header = DataV2) then
       if length data <? offset + 3 then too_short (offset + 3) (length data) else
       b0 ← idx data offset;
       b1 ← idx data (offset + 1);
       b2 ← idx data (offset + 2);
       Ok (Some (peer_id_of b0 b1 b2), offset + 3)
     else Ok (None, offset));
  if length data <? offset then too_short offset (length data) else
  payload ← slice_from data offset;
  Ok (Data (mkData header peer_id payload)).

Definition MAX_ACK_COUNT : Z := 16.

(** [for _ in 0..ack_count], with the accumulator [acks]. *)
Fixpoint Packet_parse_acks (data : bytes) (ack_count : nat) (offset : nat)
    (acks : list PacketId) : res ProtocolError (list PacketId * nat) :=
  match ack_count with
  | O => Ok (acks, offset)
  | S n =>
      if length data <? offset + 4 then too_short (offset + 4) (length data) else
      a ← slice data offset (offset + 4);
      Packet_parse_acks data n (offset + 4) (acks ++ [from_be a])
  end.

(** The tail of the control branch: message packet id and payload. *)
Definition Packet_parse_tail (data : bytes) (header : PacketHeader) (offset : nat)
    : res ProtocolError (option PacketId * bytes) :=
  '(message_packet_id, offset) ←
    (if negb (bool_decide (ph_opcode header = AckV1)) && (offset + 4 <=? length data) then
       m ← slice data offset (offset + 4);
       Ok (Some (from_be m), offset + 4)
     else Ok (None, offset));
  payload ← (if offset <? length data then slice_from data offset else Ok []);
  Ok (message_packet_id, payload).

(** The control branch of [Packet::parse]. *)
Definition Packet_parse_control (data : bytes) (header : PacketHeader) (offset : nat)
    : res ProtocolError Packet :=
  if length data <? offset + 1 then too_short (offset + 1) (length data) else
  ack_count ← idx data offset;
  if (MAX_ACK_COUNT <? ack_count)%Z then
    Err (InvalidPacket (lit "ACK count " ++ fmt_dec ack_count ++ lit " exceeds maximum "
      ++ fmt_dec MAX_ACK_COUNT)) else
  let offset := offset + 1 in
  '(acks, remote_session_id, offset) ←
    (if (0 <? ack_count)%Z then
       '(acks, offset) ← Packet_parse_acks data (Z.to_nat ack_count) offset [];
       if length data <? offset + 8 then too_short (offset + 8) (length data) else
       rsid ← slice data offset (offset + 8);
       Ok (acks, Some rsid, offset + 8)
     else Ok ([], None, offset));
  '(message_packet_id, payload) ← Packet_parse_tail data header offset;
  Ok (Control (mkControl header remote_session_id acks message_packet_id payload)).

Definition Packet_parse (data : bytes) (has_tls_auth : bool) : res ProtocolError Packet :=
  '(header, offset) ← PacketHeader_parse data has_tls_auth;
  if OpCode_is_data (ph_opcode header)
  then Packet_parse_data data header offset
  else Packet_parse_control data header offset.

Definition Packet_serialize (p : Packet) : bytes :=
  match p with
  | Control ctrl =>
      PacketHeader_serialize (cp_header ctrl)
        ++ [wrap 8 (Z.of_nat (length (cp_acks ctrl)))]
        ++ concat (map (to_be 4) (cp_acks ctrl))
        ++ (match cp_acks ctrl with
            | [] => []
            | _ => put_opt id (cp_remote_session_id ctrl)
            end)
        ++ put_opt (to_be 4) (cp_message_packet_id ctrl)
        ++ cp_payload ctrl
  | Data data =>
      PacketHeader_serialize (dp_header data)
        ++ put_opt peer_id_bytes (dp_peer_id data)
        ++ dp_payload data
  end.

Definition Packet_opcode (p : Packet) : OpCode :=
  match p with
  | Control c => ph_opcode (cp_header c)
  | Data d => ph_opcode (dp_header d)
  end.

Definition Packet_key_id (p : Packet) : KeyId :=
  match p with
  | Control c => ph_key_id (cp_header c)
  | Data d => ph_key_id (dp_header d)
  end.

(** ** Panic freedom *)
Lemma PacketHeader_parse_tls_auth_no_panic data t off :
  no_panic (PacketHeader_parse_tls_auth data t off).
Proof. unfold PacketHeader_parse_tls_auth, too_short. np. Qed.

Lemma PacketHeader_parse_no_panic data t : no_panic (PacketHeader_parse data t).
Proof.
  unfold PacketHeader_parse, too_short. np.
  - apply OpCode_from_byte_no_panic.
  - apply PacketHeader_parse_tls_auth_no_panic.
Qed.

Lemma Packet_parse_acks_no_panic data n off acks :
  no_panic (Packet_parse_acks data n off acks).
Proof.
  revert off acks. induction n as [|n IH]; intros off acks; simpl; unfold too_short; np.
  apply IH.
Qed.

(** ** Well-formed packets: the image of [parse] *)

(** The optional header fields as the opcode and tls-auth determine them. *)
Definition header_wf (t : bool) (h : PacketHeader) : Prop :=
  KeyId_ok (ph_key_id h) /\
  match ph_session_id h, ph_hmac h, ph_packet_id h, ph_timestamp h with
  | None, None, None, None => OpCode_is_data (ph_opcode h) = true
  | Some sid, None, None, None =>
      OpCode_is_data (ph_opcode h) = false /\ t = false /\ length sid = 8
  | Some sid, Some hm, Some pid, Some ts =>
      OpCode_is_data (ph_opcode h) = false /\ t = true /\ length sid = 8 /\
      length hm = 32 /\ u32 pid /\ u32 ts
  | _, _, _, _ => False
  end.

Definition control_wf (t : bool) (c : ControlPacketData) : Prop :=
  header_wf t (cp_header c) /\
  OpCode_is_data (ph_opcode (cp_header c)) = false /\
  length (cp_acks c) <= 16 /\ Forall u32 (cp_acks c) /\
  match cp_acks c, cp_remote_session_id c with
  | [], None => True
  | _ :: _, Some sid => length sid = 8
  | _, _ => False
  end /\
  match cp_message_packet_id c with
  | Some m => ph_opcode (cp_header c) <> AckV1 /\ u32 m
  | None => ph_opcode (cp_header c) = AckV1 \/ length (cp_payload c) < 4
  end.

Definition data_wf (t : bool) (d : DataPacketData) : Prop :=
  header_wf t (dp_header d) /\
  OpCode_is_data (ph_opcode (dp_header d)) = true /\
  match dp_peer_id d with
  | Some p => ph_opcode (dp_header d) = DataV2 /\ uint 24 p
  | None => ph_opcode (dp_header d) <> DataV2
  end.

Definition packet_wf (t : bool) (p : Packet) : Prop :=
  match p with Control c => control_wf t c | Data d => data_wf t d end.

(** ** Headers round trip *)
Lemma PacketHeader_parse_tls_auth_serialize b0 sid hm pid ts rest :
  length sid = 8 -> length hm = 32 -> u32 pid -> u32 ts ->
  PacketHeader_parse_tls_auth (b0 :: sid ++ hm ++ to_be 4 pid ++ to_be 4 ts ++ rest) true 9
  = Ok (Some hm, Some pid, Some ts, 49).
Proof.
  intros Hsid Hhm Hpid Hts. unfold PacketHeader_parse_tls_auth.
  guard_false. slice_is (b0 :: sid) hm (to_be 4 pid ++ to_be 4 ts ++ rest).
  guard_false. slice_is (b0 :: sid ++ hm) (to_be 4 pid) (to_be 4 ts ++ rest).
  guard_false. slice_is (b0 :: sid ++ hm ++ to_be 4 pid) (to_be 4 ts) rest.
  by rewrite !from_to_be.
Qed.

Lemma PacketHeader_parse_serialize t h rest :
  header_wf t h ->
  PacketHeader_parse (PacketHeader_serialize h ++ rest) t
  = Ok (h, length (PacketHeader_serialize h)).
Proof.
  destruct h as [op k sid hm pid ts]. intros [Hk Hf]. cbn in Hk, Hf.
  unfold PacketHeader_parse, PacketHeader_serialize.
  cbn [ph_opcode ph_key_id ph_session_id ph_hmac ph_packet_id ph_timestamp].
  guard_false. idx_is (@nil Z) (OpCode_to_byte op k)
    ((put_opt id sid ++ put_opt id hm ++ put_opt (to_be 4) pid ++ put_opt (to_be 4) ts) ++ rest).
  rewrite OpCode_from_to_byte, KeyId_from_to_byte by done. rsimp.
  destruct sid as [sid|], hm as [hm|], pid as [pid|], ts as [ts|]; try done.
  - destruct Hf as (-> & -> & Hsid & Hhm & Hpid & Hts). rsimp. cbn [put_opt]. unfold id.
    guard_false. slice_is [OpCode_to_byte op k] sid (hm ++ to_be 4 pid ++ to_be 4 ts ++ rest).
    cbn [app]. rewrite <- !app_assoc.
    rewrite PacketHeader_parse_tls_auth_serialize by (done || len).
    rsimp.
    do 2 f_equal. len.
  - destruct Hf as (-> & -> & Hsid). rsimp. cbn [put_opt]. unfold id.
    guard_false. slice_is [OpCode_to_byte op k] sid rest.
    unfold PacketHeader_parse_tls_auth. rsimp. do 2 f_equal. len.
  - rewrite Hf. done.
Qed.

(** ** Bodies round trip *)
Lemma acks_length l : length (concat (map (to_be 4) l)) = 4 * length l.
Proof. induction l; cbn [map concat length]; [done|]. rewrite length_app, to_be_length. lia. Qed.

Lemma Packet_parse_acks_serialize pre l post acks0 off :
  length pre = off -> Forall u32 l ->
  Packet_parse_acks (pre ++ concat (map (to_be 4) l) ++ post) (length l) off acks0
  = Ok (acks0 ++ l, off + 4 * length l).
Proof.
  revert pre acks0 off. induction l as [|a l IH]; intros pre acks0 off Hoff Hl.
  - simpl. by rewrite app_nil_r, Nat.add_0_r.
  - inv Hl. cbn [length Packet_parse_acks map concat].
    guard_false. slice_is pre (to_be 4 a) (concat (map (to_be 4) l) ++ post).
    rewrite from_to_be by done.
    replace (pre ++ (to_be 4 a ++ concat (map (to_be 4) l)) ++ post)
      with ((pre ++ to_be 4 a) ++ concat (map (to_be 4) l) ++ post)
      by (by rewrite <- !app_assoc).
    rewrite IH by (done || len). rewrite <- app_assoc. simpl app. do 2 f_equal. lia.
Qed.

Lemma peer_id_of_bytes p : uint 24 p ->
  peer_id_of (wrap 8 (Z.shiftr p 16)) (wrap 8 (Z.shiftr p 8)) (wrap 8 p) = p.
Proof.
  intros Hp.
  assert (forall z, wrap 8 z = Z.land z 255) as Hw by (intros; symmetry; apply land_255).
  rewrite !Hw. transitivity (from_be (to_be 3 p)); [|by apply from_to_be].
  unfold peer_id_of, from_be, to_be. cbn [fold_left].
  change (8 * Z.of_nat 2)%Z with 16%Z. change (8 * Z.of_nat 1)%Z with 8%Z.
  change (8 * Z.of_nat 0)%Z with 0%Z. rewrite Z.shiftr_0_r, Z.shiftl_0_l, Z.lor_0_l.
  by rewrite Z.shiftl_lor, Z.shiftl_shiftl by lia.
Qed.

Lemma Packet_parse_data_serialize t d :
  data_wf t d ->
  Packet_parse_data (Packet_serialize (Data d)) (dp_header d)
    (length (PacketHeader_serialize (dp_header d))) = Ok (Data d).
Proof.
  destruct d as [h p payload]. intros (Hh & _ & Hp).
  cbn [dp_header dp_peer_id dp_payload Packet_serialize] in *.
  unfold Packet_parse_data. set (H := PacketHeader_serialize h). destruct p as [p|].
  - destruct Hp as [-> Hp]. rewrite decide_True by done. cbn [put_opt]. unfold peer_id_bytes.
    rewrite (if_false (_ <? _)) by (apply Nat.ltb_ge; len).
    set (b0 := wrap 8 (Z.shiftr p 16)). set (b1 := wrap 8 (Z.shiftr p 8)). set (b2 := wrap 8 p).
    rewrite (idx_at _ H b0 (b1 :: b2 :: payload) (length H)) by done. rsimp.
    rewrite (idx_at _ (H ++ [b0]) b1 (b2 :: payload) (length H + 1))
      by (by rewrite <- app_assoc || len). rsimp.
    rewrite (idx_at _ (H ++ [b0; b1]) b2 payload (length H + 2))
      by (by rewrite <- app_assoc || len). rsimp.
    subst b0 b1 b2. rewrite peer_id_of_bytes by done. guard_false.
    by slice_is (H ++ [wrap 8 (Z.shiftr p 16); wrap 8 (Z.shiftr p 8); wrap 8 p])
      (@nil Z) payload.
  - rewrite decide_False by done. rsimp. cbn [put_opt app]. guard_false.
    by rewrite (slice_from_at _ H payload).
Qed.

Lemma Packet_parse_tail_serialize h pre mid payload off :
  length pre = off ->
  match mid with
  | Some m => ph_opcode h <> AckV1 /\ u32 m
  | None => ph_opcode h = AckV1 \/ length payload < 4
  end ->
  Packet_parse_tail (pre ++ put_opt (to_be 4) mid ++ payload) h off = Ok (mid, payload).
Proof.
  intros Hoff Hm. unfold Packet_parse_tail.
  assert (forall pre' off', length pre' = off' ->
    (if off' <? length (pre' ++ payload) then slice_from (pre' ++ payload) off'
     else Ok []) = Ok (E := ProtocolError) payload) as Hpay.
  { intros pre' off' Hl. destruct (off' <? _) eqn:?; bools.
    - by apply (slice_from_at _ pre').
    - rewrite length_app in *. destruct payload; [done|simpl in *; lia]. }
  destruct mid as [m|]; cbn [put_opt].
  - destruct Hm as [Hop Hm]. rewrite bool_decide_eq_false_2 by done. simpl negb.
    rewrite (if_true (_ && _)) by (apply Nat.leb_le; len).
    rewrite (slice_at _ pre (to_be 4 m) payload off) by (done || len). rsimp.
    rewrite from_to_be by done. rewrite app_assoc, Hpay by len. done.
  - rewrite (if_false (_ && _)); [rsimp; by rewrite app_nil_l, Hpay|].
    destruct Hm as [->|Hl]; [done|]. apply andb_false_iff. right.
    apply Nat.leb_gt. len.
Qed.

Lemma Packet_parse_control_serialize t c :
  control_wf t c ->
  Packet_parse_control (Packet_serialize (Control c)) (cp_header c)
    (length (PacketHeader_serialize (cp_header c))) = Ok (Control c).
Proof.
  destruct c as [h rsid acks mid payload]. intros (_ & _ & Hlen & Hacks & Hrsid & Hmid).
  cbn [cp_header cp_remote_session_id cp_acks cp_message_packet_id cp_payload
    Packet_serialize] in *.
  unfold Packet_parse_control, MAX_ACK_COUNT. set (H := PacketHeader_serialize h).
  set (tail := put_opt (to_be 4) mid ++ payload).
  assert (wrap 8 (Z.of_nat (length acks)) = Z.of_nat (length acks)) as ->
    by (apply wrap_small; unfold uint; lia).
  guard_false. idx_is H (Z.of_nat (length acks))
    (concat (map (to_be 4) acks) ++ match acks with [] => [] | _ => put_opt id rsid end ++ tail).
  guard_false. destruct acks as [|a acks], rsid as [rsid|]; try done; cbn [length map concat].
  - change (0 <? Z.of_nat 0)%Z with false. rsimp.
    replace (H ++ [Z.of_nat 0] ++ [] ++ [] ++ tail) with ((H ++ [0%Z]) ++ tail)
      by (by rewrite <- app_assoc).
    unfold tail. by rewrite Packet_parse_tail_serialize by (done || len).
  - rewrite (if_true (0 <? _)%Z) by (apply Z.ltb_lt; lia). rewrite Nat2Z.id.
    change (S (length acks)) with (length (a :: acks)).
    change (to_be 4 a ++ concat (map (to_be 4) acks)) with (concat (map (to_be 4) (a :: acks))).
    set (l := a :: acks) in *. set (L := length l) in *.
    set (pre := H ++ [Z.of_nat L]). cbn [put_opt]. unfold id.
    replace (H ++ [Z.of_nat L] ++ concat (map (to_be 4) l) ++ rsid ++ tail)
      with (pre ++ concat (map (to_be 4) l) ++ rsid ++ tail) by (unfold pre; by rewrite <- app_assoc).
    rewrite Packet_parse_acks_serialize by (done || unfold pre; len). rsimp.
    pose proof (acks_length l) as Hl. change (length l) with L in Hl |- *.
    assert (length pre = length H + 1) as Hpre by (unfold pre; len).
    set (C := concat (map (to_be 4) l)) in *. clearbody C pre L.
    rewrite (if_false (_ <? _)%nat) by (apply Nat.ltb_ge; len).
    rewrite (slice_at _ (pre ++ C) rsid tail) by (rewrite <- ?app_assoc; done || len).
    rsimp. replace (pre ++ C ++ rsid ++ tail) with ((pre ++ C ++ rsid) ++ tail)
      by (by rewrite <- !app_assoc).
    unfold tail. by rewrite Packet_parse_tail_serialize by (done || len).
Qed.

(** ** Parsing loses nothing *)
Lemma OpCode_to_from_byte b o :
  OpCode_from_byte b = Ok o -> OpCode_to_byte o (KeyId_from_byte b) = b.
Proof.
  intros H. rewrite OpCode_to_byte_eq. unfold KeyId_from_byte. cbn [key_id_0].
  rewrite land_7, Z.mod_mod by lia.
  assert (OpCode_as_u8 o = b / 8)%Z as ->; [|pose proof (Z.div_mod b 8); lia].
  unfold OpCode_from_byte in H. rewrite Z.shiftr_div_pow2 in H by lia.
  change (2 ^ 3)%Z with 8%Z in H.
  repeat (case_match; try discriminate); by inv H.
Qed.

Lemma PacketHeader_parse_tls_auth_inv data t off hm pid ts off' :
  bytes_ok data ->
  PacketHeader_parse_tls_auth data t off = Ok (hm, pid, ts, off') ->
  drop off data = put_opt id hm ++ put_opt (to_be 4) pid ++ put_opt (to_be 4) ts
    ++ drop off' data /\
  match hm, pid, ts with
  | None, None, None => t = false
  | Some hm, Some pid, Some ts => t = true /\ length hm = 32 /\ u32 pid /\ u32 ts
  | _, _, _ => False
  end.
Proof.
  intros Hd H. unfold PacketHeader_parse_tls_auth, too_short in H. bind_inv H; inv H; [|done].
  cbn [put_opt]. unfold id.
  repeat match goal with
  | H : slice _ ?a (?a + 4) = Ok _ |- _ =>
      pose proof (from_be_slice_u32 _ _ _ Hd H) as [? ->];
      apply slice_drop in H
  end.
  match goal with H : slice _ _ _ = Ok ?h |- _ =>
    pose proof (slice_length _ _ _ _ H); apply slice_drop in H end.
  split; [congruence|]. split_and!; done || lia.
Qed.

Lemma PacketHeader_parse_inv data t h off :
  bytes_ok data -> PacketHeader_parse data t = Ok (h, off) ->
  data = PacketHeader_serialize h ++ drop off data /\ header_wf t h.
Proof.
  intros Hd H. unfold PacketHeader_parse, too_short in H.
  bind_inv H; inv H; unfold PacketHeader_serialize, header_wf;
    cbn [ph_opcode ph_key_id ph_session_id ph_hmac ph_packet_id ph_timestamp put_opt app];
    erewrite OpCode_to_from_byte by done;
    match goal with H : idx data 0 = _ |- _ => apply idx_drop in H; rename H into H0 end.
  - by auto with vpn.
  - match goal with H : PacketHeader_parse_tls_auth _ _ _ = _ |- _ =>
      apply PacketHeader_parse_tls_auth_inv in H as [Hr Ho]; [|done] end.
    match goal with H : slice _ _ _ = Ok ?h |- _ =>
      pose proof (slice_length _ _ _ _ H); apply slice_drop in H; rename H into Hs end.
    split.
    + rewrite drop_0 in H0. simpl in H0, Hs. rewrite H0 at 1. f_equal. unfold id.
      rewrite Hs, <- !app_assoc. f_equal. apply Hr.
    + split; [auto with vpn|]. destruct o, o0, o1; naive_solver.
Qed.

Lemma Packet_parse_acks_inv data n off acks0 acks off' :
  bytes_ok data -> Packet_parse_acks data n off acks0 = Ok (acks, off') ->
  exists l, acks = acks0 ++ l /\ length l = n /\ Forall u32 l /\
    drop off data = concat (map (to_be 4) l) ++ drop off' data.
Proof.
  intros Hd. revert off acks0. induction n as [|n IH]; intros off acks0 H.
  - inv H. exists []. by rewrite app_nil_r.
  - cbn [Packet_parse_acks] in H. unfold too_short in H. bind_inv H.
    match goal with H : slice _ _ _ = Ok ?m |- _ =>
      pose proof (from_be_slice_u32 _ _ _ Hd H) as [Hu Hb];
      apply slice_drop in H; rename H into Hs; rename m into x end.
    apply IH in H as (l & -> & Hl & Hf & Hr). exists (from_be x :: l).
    split_and!; [by rewrite <- app_assoc|simpl; lia|by constructor|].
    cbn [map concat]. by rewrite Hb, Hs, Hr, app_assoc.
Qed.

Lemma peer_id_of_inv b0 b1 b2 : u8 b0 -> u8 b1 -> u8 b2 ->
  uint 24 (peer_id_of b0 b1 b2) /\ peer_id_bytes (peer_id_of b0 b1 b2) = [b0; b1; b2].
Proof.
  intros H0 H1 H2. assert (bytes_ok [b0; b1; b2]) as Hb
    by (do 3 (constructor; [done|]); constructor).
  assert (peer_id_of b0 b1 b2 = from_be [b0; b1; b2]) as ->.
  { unfold peer_id_of, from_be. cbn [fold_left]. rewrite Z.shiftl_0_l, Z.lor_0_l.
    by rewrite Z.shiftl_lor, Z.shiftl_shiftl by lia. }
  split; [apply (from_be_uint _ Hb)|].
  etransitivity; [|apply (to_from_be 3 _ Hb); done].
  unfold peer_id_bytes, to_be. rewrite !land_255, Z.shiftr_0_r. done.
Qed.

Lemma Packet_parse_data_inv data t h off p :
  bytes_ok data -> header_wf t h -> OpCode_is_data (ph_opcode h) = true ->
  Packet_parse_data data h off = Ok p ->
  PacketHeader_serialize h ++ drop off data = Packet_serialize p /\ packet_wf t p.
Proof.
  intros Hd Hh Hop H. unfold Packet_parse_data, too_short in H. bind_inv H; inv H;
    match goal with H : slice_from _ _ = _ |- _ => apply slice_from_drop in H; rename H into Hs end;
    case_decide; bind_inv H0; simplify_eq.
  - cbn [Packet_serialize dp_header dp_peer_id dp_payload put_opt].
    match goal with
    | H0 : idx _ off = Ok ?b0, H1 : idx _ (off + 1) = Ok ?b1, H2 : idx _ (off + 2) = Ok ?b2 |- _ =>
        destruct (peer_id_of_inv b0 b1 b2) as [Hu Hb]; [by eapply idx_u8..|];
        apply idx_drop in H0; apply idx_drop in H1; apply idx_drop in H2
    end.
    split; [|by split_and!]. f_equal. rewrite Hb. cbn [app].
    rewrite <- !Nat.add_assoc in *. simpl Nat.add in *. congruence.
  - split; [done|]. by split_and!.
Qed.

Lemma Packet_parse_tail_inv data h off mid payload :
  bytes_ok data -> Packet_parse_tail data h off = Ok (mid, payload) ->
  drop off data = put_opt (to_be 4) mid ++ payload /\
  match mid with
  | Some m => ph_opcode h <> AckV1 /\ u32 m
  | None => ph_opcode h = AckV1 \/ length payload < 4
  end.
Proof.
  intros Hd H. unfold Packet_parse_tail in H. bind_inv H. inv H.
  assert (forall o, (if o <? length data then slice_from data o else Ok [])
      = Ok (E := ProtocolError) payload ->
    drop o data = payload) as Hpay.
  { intros o Hp. destruct (o <? length data) eqn:?; bools.
    - by apply slice_from_drop in Hp.
    - inv Hp. by apply drop_ge. }
  match goal with H : (if _ && _ then _ else _) = _ |- _ => rename H into Hm end.
  match goal with H : (if _ <? _ then _ else _) = _ |- _ => apply Hpay in H; rename H into Hp end.
  destruct (_ && _) eqn:Hg in Hm; bind_inv Hm; simplify_eq.
  - bools. match goal with H : bool_decide _ = false |- _ => apply bool_decide_eq_false in H end.
    match goal with H : slice _ _ _ = Ok ?m |- _ =>
      pose proof (from_be_slice_u32 _ _ _ Hd H) as [Hu Hb]; apply slice_drop in H;
      rename H into Hs end.
    cbn [put_opt]. split; [by rewrite Hb|done].
  - split; [done|]. apply andb_false_iff in Hg as [Hg|Hg]; bools.
    + left. by apply bool_decide_eq_true in Hg.
    + right. rewrite length_drop. lia.
Qed.

Lemma Packet_parse_control_inv data t h off p :
  bytes_ok data -> header_wf t h -> OpCode_is_data (ph_opcode h) = false ->
  Packet_parse_control data h off = Ok p ->
  PacketHeader_serialize h ++ drop off data = Packet_serialize p /\ packet_wf t p.
Proof.
  intros Hd Hh Hop H. unfold Packet_parse_control, too_short, MAX_ACK_COUNT in H.
  bind_inv H; inv H.
  match goal with H : idx _ _ = _ |- _ => pose proof (idx_u8 _ _ _ Hd H) as Hu8;
    apply idx_drop in H; rename H into Hi end.
  match goal with H : Packet_parse_tail _ _ _ = _ |- _ =>
    apply Packet_parse_tail_inv in H as [Ht Hmid]; [|done] end.
  cbn [Packet_serialize cp_header cp_remote_session_id cp_acks cp_message_packet_id cp_payload].
  match goal with H : (if _ then _ else _) = _ |- _ => rename H into Ha end.
  unfold packet_wf, control_wf.
  cbn [cp_header cp_remote_session_id cp_acks cp_message_packet_id cp_payload].
  bind_inv Ha; simplify_eq.
  - match goal with H : Packet_parse_acks _ _ _ _ = _ |- _ =>
      apply Packet_parse_acks_inv in H as (acks & -> & Hn & Hacks & Hr); [|done] end.
    match goal with H : slice _ _ _ = Ok ?s |- _ => pose proof (slice_length _ _ _ _ H);
      apply slice_drop in H; rename H into Hs end.
    cbn [app]. destruct acks as [|a acks]; [simpl in Hn; lia|]. split.
    + f_equal. rewrite Hi. rewrite wrap_small by (unfold uint; lia).
      rewrite Hn, Z2Nat.id by lia. cbn [app put_opt]. unfold id. congruence.
    + split_and!; done || lia.
  - assert (x = 0%Z) as -> by (unfold uint in *; lia). split.
    + f_equal. rewrite Hi. cbn [app map concat]. by rewrite Ht.
    + split_and!; done || (simpl; lia).
Qed.

Lemma Packet_parse_total data t : no_panic (Packet_parse data t).
Proof.
  unfold Packet_parse, Packet_parse_data, Packet_parse_control, Packet_parse_tail, too_short.
  np; auto using PacketHeader_parse_no_panic, Packet_parse_acks_no_panic.
Qed.

Lemma Packet_parse_of_serialize t p :
  packet_wf t p -> Packet_parse (Packet_serialize p) t = Ok p.
Proof.
  intros Hwf. unfold Packet_parse.
  assert (exists h body, Packet_serialize p = PacketHeader_serialize h ++ body /\
    header_wf t h /\ h = match p with Control c => cp_header c | Data d => dp_header d end)
    as (h & body & Hs & Hh & ->).
  { destruct p; eexists _, _; (split; [reflexivity|]); split; [apply Hwf|done..|apply Hwf|done]. }
  rewrite Hs, PacketHeader_parse_serialize, <- Hs by done. rsimp. destruct p as [c|d].
  - destruct Hwf as (? & Hop & ?). rewrite Hop. by eapply Packet_parse_control_serialize.
  - destruct Hwf as (? & Hop & ?). rewrite Hop. by eapply Packet_parse_data_serialize.
Qed.

Lemma Packet_parse_inv t data p :
  bytes_ok data -> Packet_parse data t = Ok p ->
  Packet_serialize p = data /\ packet_wf t p.
Proof.
  intros Hd H. unfold Packet_parse in H.
  apply bind_Ok in H as ([h off] & Hh & H). apply PacketHeader_parse_inv in Hh as [He Hw]; [|done].
  destruct (OpCode_is_data (ph_opcode h)) eqn:Hop.
  - eapply Packet_parse_data_inv in H as [<- ?]; done.
  - eapply Packet_parse_control_inv in H as [<- ?]; done.
Qed.

(** ** The wire format *)

(** Parsing never panics: for every datagram an attacker can send and
    both tls-auth settings, [Packet::parse] returns a packet or an error. *)
Theorem Packet_parse_no_panic data t : no_panic (Packet_parse data t).
Proof. apply Packet_parse_total. Qed.

(** C18. Serialization followed by parsing gives the packet back, for every
    well-formed control or data packet, with and without tls-auth. *)
Theorem Packet_parse_serialize t p :
  packet_wf t p -> Packet_parse (Packet_serialize p) t = Ok p.
Proof. apply Packet_parse_of_serialize. Qed.

(** C19. Parsing loses nothing: a datagram that parses is exactly the
    serialization of the packet it parses to, and that packet is well formed;
    so [parse] is injective and well-formed packets are its image. *)
Theorem Packet_serialize_parse t data p :
  bytes_ok data -> Packet_parse data t = Ok p ->
  Packet_serialize p = data /\ packet_wf t p.
Proof. apply Packet_parse_inv. Qed.

Definition sample_control : Packet :=
  Control (mkControl (mkPacketHeader ControlV1 KeyId_default (Some [1; 2; 3; 4; 5; 6; 7; 8]%Z) None None None)
             (Some [9; 9; 9; 9; 9; 9; 9; 9]%Z) [5; 6]%Z (Some 7%Z) [22; 3; 3]%Z).

Lemma Packet_parse_serialize_witness :
  Packet_parse (Packet_serialize sample_control) false = Ok sample_control.
Proof.
  apply (Packet_parse_serialize false sample_control).
  unfold sample_control, packet_wf, control_wf, header_wf, KeyId_ok. simpl.
  split_and!; try done; try lia; repeat constructor; unfold uint; lia.
Defined.

Lemma Packet_serialize_parse_witness :
  exists p, Packet_parse [32; 1; 2; 3; 4; 5; 6; 7; 8; 0; 0; 0; 0; 1; 22]%Z false = Ok p /\
    Packet_serialize p = [32; 1; 2; 3; 4; 5; 6; 7; 8; 0; 0; 0; 0; 1; 22]%Z.
Proof.
  eexists. split; [vm_compute; reflexivity|].
  eapply (Packet_serialize_parse false); [|vm_compute; reflexivity].
  repeat constructor; unfold uint; lia.
Defined.
