(* ===== verification/Replay.v ===== *)
(** * Replay windows

    The sliding-window replay filter occurs twice in the source with different
    widths: the control channel's (64 ids, src/crates/corevpn-protocol/src/
    session.rs) and the data channel's (128 ids, src/crates/corevpn-crypto/
    src/cipher.rs).  Both are the instance of one definition, parametric in
    the window size; the bitmap is an integer of that width, with the bits a
    left shift pushes out dropped.

    The abstract specification keeps the set of all accepted ids; the window
    refines it. *)
From S2P Require Import Prelude.
Local Open Scope Z_scope.

Record ReplayWindow := mkReplay { rw_highest : Z; rw_bitmap : Z }.

Definition ReplayWindow_new : ReplayWindow := mkReplay 0 0.
Definition ReplayWindow_reset (w : ReplayWindow) : ReplayWindow := mkReplay 0 0.

Section Window.
Context (WINDOW_SIZE : Z).

Definition check_and_update (w : ReplayWindow) (packet_id : Z) : ReplayWindow * bool :=
  if packet_id =? 0 then (w, false)
  else if rw_highest w <? packet_id then
    let shift := packet_id - rw_highest w in
    let bitmap :=
      if WINDOW_SIZE <=? shift then 1
      else Z.lor (wrap WINDOW_SIZE (Z.shiftl (rw_bitmap w) shift)) 1 in
    (mkReplay packet_id bitmap, true)
  else
    let diff := rw_highest w - packet_id in
    if WINDOW_SIZE <=? diff then (w, false) else
    let mask := Z.shiftl 1 diff in
    if negb (Z.land (rw_bitmap w) mask =? 0) then (w, false)
    else (mkReplay (rw_highest w) (Z.lor (rw_bitmap w) mask), true).

(** ** Specification: the set of accepted ids *)
Record ReplaySpec := mkSpec { sp_highest : Z; sp_seen : gset Z }.

Definition spec_new : ReplaySpec := mkSpec 0 ∅.

(** An id is fresh when it is positive, not older than the window, and was
    not accepted before. *)
Definition spec_fresh (s : ReplaySpec) (id : Z) : bool :=
  (0 <? id) && (sp_highest s - id <? WINDOW_SIZE) && negb (bool_decide (id ∈ sp_seen s)).

Definition spec_step (s : ReplaySpec) (id : Z) : ReplaySpec * bool :=
  if spec_fresh s id
  then (mkSpec (Z.max (sp_highest s) id) ({[id]} ∪ sp_seen s), true)
  else (s, false).

(** The refinement relation: bit [n] of the bitmap says whether
    [highest - n] was accepted. *)
Record window_repr (w : ReplayWindow) (s : ReplaySpec) : Prop := {
  wr_highest : rw_highest w = sp_highest s;
  wr_highest_nonneg : 0 <= rw_highest w;
  wr_seen_range i : i ∈ sp_seen s -> 0 < i <= sp_highest s;
  wr_bitmap_range : uint WINDOW_SIZE (rw_bitmap w);
  wr_bits n : 0 <= n < WINDOW_SIZE ->
    Z.testbit (rw_bitmap w) n = bool_decide (rw_highest w - n ∈ sp_seen s);
}.

Context (HW : 0 < WINDOW_SIZE).

Lemma window_new_repr : window_repr ReplayWindow_new spec_new.
Proof.
  split; simpl; try done; try set_solver.
  - unfold uint. pose proof (Z.pow_pos_nonneg 2 WINDOW_SIZE). lia.
  - intros n Hn. rewrite Z.bits_0. symmetry. apply bool_decide_eq_false. set_solver.
Qed.

(** The mask test of the code is a bit test. *)
Lemma mask_test b n : 0 <= n -> negb (Z.land b (Z.shiftl 1 n) =? 0) = Z.testbit b n.
Proof.
  intros Hn. rewrite Z.shiftl_1_l. destruct (Z.testbit b n) eqn:Hb.
  - apply negb_true_iff, Z.eqb_neq. intros H.
    assert (Z.testbit (Z.land b (2 ^ n)) n = false) as Hf by (by rewrite H, Z.bits_0).
    by rewrite Z.land_spec, Hb, Z.pow2_bits_true in Hf.
  - apply negb_false_iff, Z.eqb_eq, Z.bits_inj'. intros m Hm.
    rewrite Z.land_spec, Z.bits_0, Z.pow2_bits_eqb by lia.
    destruct (Z.eqb_spec n m) as [<-|]; [by rewrite Hb|by rewrite andb_false_r].
Qed.

Lemma testbit_1 n : 0 <= n -> Z.testbit 1 n = (n =? 0).
Proof.
  intros. change 1 with (2 ^ 0). rewrite Z.pow2_bits_eqb by lia.
  destruct (Z.eqb_spec 0 n), (Z.eqb_spec n 0); done || lia.
Qed.

Lemma lor_uint w a b : 0 < w -> uint w a -> uint w b -> uint w (Z.lor a b).
Proof.
  unfold uint. intros Hw Ha Hb. split; [apply Z.lor_nonneg; lia|].
  destruct (decide (Z.lor a b = 0)) as [->|]; [lia|].
  assert (0 < Z.lor a b) by (pose proof (proj2 (Z.lor_nonneg a b)); lia).
  apply Z.log2_lt_pow2; [done|]. rewrite Z.log2_lor by lia.
  assert (forall x, 0 <= x < 2 ^ w -> Z.log2 x < w) as Hl; [|apply Z.max_lub_lt; by apply Hl].
  intros x Hx. destruct (decide (x = 0)) as [->|]; [simpl; lia|]. apply Z.log2_lt_pow2; lia.
Qed.

(** The shifted bitmap, bit by bit. *)
Lemma advance_bits b shift n :
  0 < shift -> 0 <= n < WINDOW_SIZE ->
  Z.testbit (if WINDOW_SIZE <=? shift then 1
             else Z.lor (wrap WINDOW_SIZE (Z.shiftl b shift)) 1) n
  = (n =? 0) || ((shift <=? n) && Z.testbit b (n - shift)).
Proof.
  intros Hs Hn. destruct (WINDOW_SIZE <=? shift) eqn:?; bools.
  - rewrite testbit_1 by lia. rewrite (proj2 (Z.leb_gt shift n)) by lia. by rewrite orb_false_r.
  - rewrite Z.lor_spec, testbit_1, orb_comm by lia. f_equal.
    unfold wrap. rewrite Z.mod_pow2_bits_low, Z.shiftl_spec by lia.
    destruct (shift <=? n) eqn:?; [done|]; bools. by rewrite Z.testbit_neg_r by lia.
Qed.

Lemma advance_uint b shift :
  uint WINDOW_SIZE
    (if WINDOW_SIZE <=? shift then 1
     else Z.lor (wrap WINDOW_SIZE (Z.shiftl b shift)) 1).
Proof.
  assert (uint WINDOW_SIZE 1) as H1.
  { unfold uint. pose proof (Z.pow_gt_1 2 WINDOW_SIZE). lia. }
  case_match; [done|]. apply lor_uint; [done|apply wrap_uint; lia|done].
Qed.

Lemma spec_fresh_new s id :
  (forall i, i ∈ sp_seen s -> 0 < i <= sp_highest s) ->
  0 <= sp_highest s -> sp_highest s < id -> spec_fresh s id = true.
Proof.
  intros Hr H0 Hid. unfold spec_fresh.
  rewrite (bool_decide_eq_false_2 (id ∈ _)) by (intros ?%Hr; lia).
  rewrite !andb_true_iff, Z.ltb_lt, Z.ltb_lt. done || lia.
Qed.

(** A newer id is accepted and the window advances. *)
Lemma check_newer w s id :
  window_repr w s -> rw_highest w < id ->
  exists w', check_and_update w id = (w', true) /\
    window_repr w' (mkSpec id ({[id]} ∪ sp_seen s)).
Proof.
  intros [Hh H0 Hr Hb Hbits] Hid. unfold check_and_update.
  rewrite (proj2 (Z.eqb_neq id 0)), (proj2 (Z.ltb_lt _ _)) by lia.
  eexists. split; [reflexivity|]. split; cbn [rw_highest rw_bitmap sp_highest sp_seen]; try done.
  - lia.
  - intros i [->%elem_of_singleton|Hi]%elem_of_union; [lia|]. apply Hr in Hi. lia.
  - apply advance_uint.
  - intros n Hn. rewrite advance_bits by lia. destruct (Z.eqb_spec n 0) as [->|Hn0]; simpl.
    + symmetry. apply bool_decide_eq_true. rewrite Z.sub_0_r. set_solver.
    + destruct (Z.leb_spec (id - rw_highest w) n) as [Hge|Hlt]; simpl.
      * rewrite Hbits by lia. apply bool_decide_ext.
        replace (rw_highest w - (n - (id - rw_highest w))) with (id - n) by lia.
        rewrite elem_of_union, elem_of_singleton. split; [by right|intros [|]; [lia|done]].
      * symmetry. apply bool_decide_eq_false.
        rewrite elem_of_union, elem_of_singleton. intros [|Hi%Hr]; lia.
Qed.

(** An id inside the window is accepted exactly when its bit is clear. *)
Lemma check_window w s id :
  window_repr w s -> 0 < id <= rw_highest w -> rw_highest w - id < WINDOW_SIZE ->
  exists w', check_and_update w id = (w', negb (bool_decide (id ∈ sp_seen s))) /\
    window_repr w' (if bool_decide (id ∈ sp_seen s) then s
                    else mkSpec (sp_highest s) ({[id]} ∪ sp_seen s)).
Proof.
  intros Hrep Hid Hwin. pose proof Hrep as [Hh H0 Hr Hb Hbits]. unfold check_and_update.
  rewrite (proj2 (Z.eqb_neq id 0)), (proj2 (Z.ltb_ge _ _)), (proj2 (Z.leb_gt _ _)) by lia.
  rewrite mask_test, Hbits by lia.
  replace (rw_highest w - (rw_highest w - id)) with id by lia.
  destruct (bool_decide (id ∈ sp_seen s)) eqn:Hin; [by exists w|].
  eexists. split; [reflexivity|]. split; cbn [rw_highest rw_bitmap sp_highest sp_seen]; try done.
  - intros i [->%elem_of_singleton|Hi]%elem_of_union; [lia|by apply Hr].
  - apply lor_uint; [done..|]. unfold uint. rewrite Z.shiftl_1_l. split; [lia|].
    apply Z.pow_lt_mono_r; lia.
  - intros n Hn. rewrite Z.lor_spec, Hbits, Z.shiftl_1_l, Z.pow2_bits_eqb by lia.
    destruct (Z.eqb_spec (rw_highest w - id) n) as [<-|Hne].
    + rewrite orb_true_r. symmetry. apply bool_decide_eq_true.
      replace (rw_highest w - (rw_highest w - id)) with id by lia. set_solver.
    + rewrite orb_false_r. apply bool_decide_ext.
      rewrite elem_of_union, elem_of_singleton. split; [by right|intros [|]; [lia|done]].
Qed.

(** One step of the window is one step of the specification. *)
Lemma check_refines w s id :
  window_repr w s -> 0 <= id ->
  exists w', check_and_update w id = (w', snd (spec_step s id)) /\
    window_repr w' (fst (spec_step s id)).
Proof.
  intros Hrep Hid. pose proof Hrep as [Hh H0 Hr Hb Hbits]. unfold spec_step.
  destruct (Z.lt_ge_cases (rw_highest w) id) as [Hlt|Hge].
  { rewrite spec_fresh_new by (done || lia). simpl. rewrite Z.max_r by lia. by apply check_newer. }
  unfold spec_fresh. destruct (Z.ltb_spec 0 id) as [Hpos|Hz]; simpl.
  - destruct (Z.ltb_spec (sp_highest s - id) WINDOW_SIZE) as [Hw|Hw]; simpl.
    + destruct (check_window w s id) as (w' & He & Hr'); [done|lia..|].
      exists w'. rewrite He. destruct (bool_decide _); simpl; [done|].
      by rewrite Z.max_l by lia.
    + exists w. unfold check_and_update.
      by rewrite (proj2 (Z.eqb_neq id 0)), (proj2 (Z.ltb_ge _ _)), (proj2 (Z.leb_le _ _)) by lia.
  - exists w. by replace id with 0 by lia.
Qed.

(** ** Traces *)

(** The verdicts of the window on a sequence of ids. *)
Fixpoint verdicts (w : ReplayWindow) (ids : list Z) : list bool :=
  match ids with
  | [] => []
  | i :: ids' => let '(w', b) := check_and_update w i in b :: verdicts w' ids'
  end.

Fixpoint spec_verdicts (s : ReplaySpec) (ids : list Z) : list bool :=
  match ids with
  | [] => []
  | i :: ids' => let '(s', b) := spec_step s i in b :: spec_verdicts s' ids'
  end.

(** The ids that were let through. *)
Definition accepted (ids : list Z) (vs : list bool) : list Z :=
  omap (M := list) (fun p : Z * bool => if snd p then Some (fst p) else None) (zip ids vs).

Lemma verdicts_refine w s ids :
  window_repr w s -> Forall (fun i => 0 <= i) ids -> verdicts w ids = spec_verdicts s ids.
Proof.
  revert w s. induction ids as [|i ids IH]; intros w s Hrep Hids; [done|]. inv Hids. simpl.
  destruct (check_refines w s i) as (w' & -> & Hrep'); [done..|].
  destruct (spec_step s i) as [s' b]. simpl. f_equal. by apply IH.
Qed.

(** The ids the specification accepts were not in its set. *)
Lemma spec_accepted_fresh s ids i :
  i ∈ sp_seen s -> i ∉ accepted ids (spec_verdicts s ids).
Proof.
  revert s. induction ids as [|j ids IH]; intros s Hi; [apply not_elem_of_nil|].
  cbn [spec_verdicts]. unfold spec_step.
  destruct (spec_fresh s j) eqn:Hf; unfold accepted; simpl.
  - unfold spec_fresh in Hf. bools. apply not_elem_of_cons. split.
    + intros ->. by rewrite bool_decide_eq_true_2 in *.
    + apply (IH (mkSpec _ _)). set_solver.
  - by apply IH.
Qed.

Lemma spec_accepted_nodup s ids : NoDup (accepted ids (spec_verdicts s ids)).
Proof.
  revert s. induction ids as [|j ids IH]; intros s; [apply NoDup_nil_2|].
  cbn [spec_verdicts]. unfold spec_step. destruct (spec_fresh s j); unfold accepted; simpl.
  - apply NoDup_cons. split; [|apply IH]. apply (spec_accepted_fresh (mkSpec _ _)). set_solver.
  - apply IH.
Qed.

(** The window after a sequence of ids. *)
Definition after (w : ReplayWindow) (ids : list Z) : ReplayWindow :=
  fold_left (fun w i => fst (check_and_update w i)) ids w.

Definition spec_after (s : ReplaySpec) (ids : list Z) : ReplaySpec :=
  fold_left (fun s i => fst (spec_step s i)) ids s.

Lemma after_refines w s ids :
  window_repr w s -> Forall (fun i => 0 <= i) ids ->
  window_repr (after w ids) (spec_after s ids).
Proof.
  revert w s. induction ids as [|i ids IH]; intros w s Hrep Hids; [done|]. inv Hids.
  destruct (check_refines w s i) as (w' & He & Hrep'); [done..|].
  unfold after, spec_after. cbn [fold_left]. rewrite He. by apply IH.
Qed.

(** Everything the specification holds was offered. *)
Lemma spec_after_seen s ids i :
  i ∈ sp_seen (spec_after s ids) -> i ∈ sp_seen s \/ i ∈ ids.
Proof.
  revert s. induction ids as [|j ids IH]; intros s Hi; [by left|].
  destruct (IH _ Hi) as [Hs|]; [|right; by constructor].
  unfold spec_step in Hs. case_match; simpl in Hs; [|by left].
  apply elem_of_union in Hs as [->%elem_of_singleton|]; [right; by constructor|by left].
Qed.

Lemma spec_after_highest s ids m :
  sp_highest s <= m -> Forall (fun i => i <= m) ids -> sp_highest (spec_after s ids) <= m.
Proof.
  revert s. induction ids as [|j ids IH]; intros s Hs Hids; [done|]. inv Hids.
  apply IH; [|done]. unfold spec_step. case_match; simpl; lia.
Qed.

End Window.

(** ** The two instances *)
Definition tls_check_and_update : ReplayWindow -> Z -> ReplayWindow * bool :=
  check_and_update 64.
Definition data_check_and_update : ReplayWindow -> Z -> ReplayWindow * bool :=
  check_and_update 128.

(** An id that was never offered and lies inside the window is let through. *)
Lemma fresh_accepted W ids id m :
  0 < W -> Forall (fun i => 0 <= i <= m) ids -> 0 < id -> id ∉ ids -> m - id < W -> 0 <= m ->
  snd (check_and_update W (after W ReplayWindow_new ids) id) = true.
Proof.
  intros HW Hids Hid Hnew Hm Hm0.
  destruct (check_refines W HW (after W ReplayWindow_new ids) (spec_after W spec_new ids) id)
    as (w' & -> & _); [|lia|].
  { apply after_refines; [done|by apply window_new_repr|].
    eapply Forall_impl; [done|]. simpl. lia. }
  assert (sp_highest (spec_after W spec_new ids) <= m) as Hh.
  { apply spec_after_highest; [done|]. eapply Forall_impl; [done|]. simpl. lia. }
  unfold spec_step, spec_fresh.
  rewrite (bool_decide_eq_false_2 (id ∈ _)).
  2: { intros [?|]%spec_after_seen; set_solver. }
  by rewrite (proj2 (Z.ltb_lt 0 id)), (proj2 (Z.ltb_lt _ W)) by lia.
Qed.

(** C12: both replay windows implement the accepted-set specification: on
    every sequence of packet ids, the bitmap of 64 (tls-auth) or 128 (data
    channel) bits gives at each id the verdict of the specification that
    remembers every accepted id. *)
Theorem replay_window_refines_set (ids : list Z) (Hids : Forall u32 ids) :
  verdicts 64 ReplayWindow_new ids = spec_verdicts 64 spec_new ids /\
  verdicts 128 ReplayWindow_new ids = spec_verdicts 128 spec_new ids.
Proof.
  assert (Forall (fun i => 0 <= i) ids) by (eapply Forall_impl; [done|]; unfold uint; naive_solver).
  split; apply verdicts_refine; (done || by apply window_new_repr).
Qed.

Lemma replay_window_refines_set_witness :
  verdicts 64 ReplayWindow_new [3; 1; 3; 70; 1; 6; 7; 7] =
    [true; true; false; true; false; false; true; false] /\
  verdicts 128 ReplayWindow_new [3; 1; 3; 70; 1; 6; 7; 7] =
    [true; true; false; true; false; true; true; false].
Proof.
  destruct (replay_window_refines_set [3; 1; 3; 70; 1; 6; 7; 7]) as [H1 H2].
  - repeat constructor; unfold uint; lia.
  - rewrite H1, H2. split; vm_compute; reflexivity.
Defined.

(** No packet id is let through twice, whatever sequence of ids
    arrives. *)
Theorem replay_no_id_accepted_twice (ids : list Z) (Hids : Forall u32 ids) :
  NoDup (accepted ids (verdicts 64 ReplayWindow_new ids)) /\
  NoDup (accepted ids (verdicts 128 ReplayWindow_new ids)).
Proof.
  assert (Forall (fun i => 0 <= i) ids) by (eapply Forall_impl; [done|]; unfold uint; naive_solver).
  split; erewrite verdicts_refine; eauto using window_new_repr, spec_accepted_nodup with lia.
Qed.


(** C40: reordering inside the window costs nothing: after any sequence of
    ids bounded by [m], a positive id that has not arrived yet and is less
    than a window behind [m] is let through. *)
Theorem replay_fresh_id_accepted (ids : list Z) (id m : Z)
    (Hids : Forall (fun i => 0 <= i <= m) ids) (Hid : 0 < id) (Hnew : id ∉ ids) (Hm : 0 <= m) :
  (m - id < 64 -> snd (tls_check_and_update (after 64 ReplayWindow_new ids) id) = true) /\
  (m - id < 128 -> snd (data_check_and_update (after 128 ReplayWindow_new ids) id) = true).
Proof. split; intros ?; by apply (fresh_accepted _ ids id m). Qed.

Lemma replay_fresh_id_accepted_witness :
  snd (tls_check_and_update (after 64 ReplayWindow_new [1; 5; 2; 60]) 3) = true.
Proof.
  apply (replay_fresh_id_accepted [1; 5; 2; 60] 3 60); try lia.
  - repeat constructor; lia.
  - rewrite !elem_of_cons, elem_of_nil. lia.
Defined.

