(* ===== verification/Float.v ===== *)
(** * Durations and their [f64] conversions

    The retransmission code converts [Duration]s to [f64] seconds and back
    (src/crates/corevpn-protocol/src/reliable.rs).  A [Duration] or [Instant]
    is a number of nanoseconds.  A finite double is the rational it denotes;
    [rn] is the IEEE-754 rounding to nearest, ties to even, with 53 bits of
    precision and the subnormal exponent -1074, applied after every
    operation.  [from_secs_f64] rounds to the nearest nanosecond, ties to
    even, and panics on negative and on too large values, as its
    documentation says. *)
From Stdlib Require Import QArith Qround Qpower Lqa.
From S2P Require Import Prelude.
Local Open Scope Q_scope.

Definition NANOS_PER_SEC : Z := 1000000000.

(** [2 ^ e] for an integer [e]. *)
Definition pow2 (e : Z) : Q := Qpower 2 e.

(** Nearest integer, ties to even. *)
Definition round_half_even (x : Q) : Z :=
  let f := Qfloor x in
  let r := x - inject_Z f in
  match Qcompare r (1 # 2) with
  | Lt => f
  | Gt => (f + 1)%Z
  | Eq => if Z.even f then f else (f + 1)%Z
  end.

(** Floor of the binary logarithm of a positive rational. *)
Definition ilog2 (x : Q) : Z :=
  let k := (Z.log2 (Qnum x) - Z.log2 (Zpos (Qden x)))%Z in
  if Qle_bool (pow2 k) x then k else (k - 1)%Z.

(** The exponent of the last place of the double nearest to [x]. *)
Definition ulp_exp (x : Q) : Z := Z.max (-1074) (ilog2 x - 52).

(** Rounding a non-negative rational to a double. *)
Definition rn (x : Q) : Q :=
  if Qle_bool x 0 then 0
  else Qred (inject_Z (round_half_even (x * pow2 (- ulp_exp x))) * pow2 (ulp_exp x)).

(** [Duration::as_secs_f64]. *)
Definition as_secs_f64 (d : Z) : Q :=
  rn (rn (inject_Z (d / NANOS_PER_SEC))
      + rn (inject_Z (d mod NANOS_PER_SEC) / inject_Z NANOS_PER_SEC)).

(** [Duration::from_secs_f64]. *)
Definition from_secs_f64 {E} (x : Q) : res E Z :=
  let ns := round_half_even (x * inject_Z NANOS_PER_SEC) in
  if Qle_bool 0 x && (ns <? 2 ^ 64 * NANOS_PER_SEC)%Z then Ok ns else Panic.

(** [f64::min] on numbers. *)
Definition fmin (x y : Q) : Q := if Qle_bool x y then x else y.

(** ** Bounds of the roundings *)
Lemma round_half_even_le x n : x <= inject_Z n -> (round_half_even x <= n)%Z.
Proof.
  intros Hx. unfold round_half_even.
  assert (Qfloor x <= n)%Z as Hf.
  { rewrite <- (Qfloor_Z n). by apply Qfloor_resp_le. }
  destruct (decide (Qfloor x = n)) as [->|Hne].
  - assert (x - inject_Z n <= 0) as Hr by lra.
    destruct (Qcompare_spec (x - inject_Z n) (1 # 2)); try lra; lia.
  - destruct (Qcompare (x - inject_Z (Qfloor x)) (1 # 2)); [case_match|..]; lia.
Qed.

Lemma round_half_even_ge x n : inject_Z n <= x -> (n <= round_half_even x)%Z.
Proof.
  intros Hx. unfold round_half_even.
  assert (n <= Qfloor x)%Z as Hf.
  { rewrite <- (Qfloor_Z n). by apply Qfloor_resp_le. }
  destruct (Qcompare (x - inject_Z (Qfloor x)) (1 # 2)); [case_match|..]; lia.
Qed.

Lemma pow2_pos e : 0 < pow2 e.
Proof. apply Qpower_0_lt. lra. Qed.

Lemma pow2_add a b : pow2 (a + b) == pow2 a * pow2 b.
Proof. apply Qpower_plus. lra. Qed.

Lemma pow2_opp e : pow2 (- e) * pow2 e == 1.
Proof. rewrite <- pow2_add. by replace (- e + e)%Z with 0%Z by lia. Qed.

Lemma pow2_nonneg_Z e : (0 <= e)%Z -> pow2 e == inject_Z (2 ^ e).
Proof. intros. unfold pow2. by rewrite Zpower_Qpower. Qed.

Lemma pow2_le a b : (a <= b)%Z -> pow2 a <= pow2 b.
Proof.
  intros. replace b with (a + (b - a))%Z by lia. rewrite pow2_add, (pow2_nonneg_Z (b - a)) by lia.
  assert (1 <= inject_Z (2 ^ (b - a))).
  { change 1 with (inject_Z 1). rewrite <- Zle_Qle. assert (0 < 2 ^ (b - a))%Z by lia. lia. }
  pose proof (pow2_pos a). nra.
Qed.

Lemma ilog2_le x : 0 < x -> pow2 (ilog2 x) <= x.
Proof.
  intros Hx. unfold ilog2. destruct (Qle_bool _ _) eqn:H; [by apply Qle_bool_iff|]. clear H.
  destruct x as [p q]. cbn [Qnum Qden]. assert (0 < p)%Z as Hp by (unfold Qlt in Hx; simpl in Hx; lia).
  pose proof (Z.log2_spec p Hp) as [Hlp _]. pose proof (Z.log2_spec (Zpos q) eq_refl) as [_ Hlq].
  pose proof (Z.log2_nonneg p). pose proof (Z.log2_nonneg (Zpos q)).
  set (a := Z.log2 p) in *. set (b := Z.log2 (Zpos q)) in *.
  assert (pow2 (a - b - 1) * pow2 (b + 1) == pow2 a) as He.
  { rewrite <- pow2_add. by replace (a - b - 1 + (b + 1))%Z with a by lia. }
  rewrite (pow2_nonneg_Z (b + 1)), (pow2_nonneg_Z a) in He by lia.
  rewrite Zle_Qle in Hlp.
  assert (inject_Z (Zpos q) <= inject_Z (2 ^ (b + 1))) as Hq by (rewrite <- Zle_Qle; lia).
  assert (p # q == inject_Z p / inject_Z (Zpos q)) as -> by apply Qmake_Qdiv.
  apply Qle_shift_div_l; [reflexivity|]. pose proof (pow2_pos (a - b - 1)). nra.
Qed.

(** Rounding does not leave a range bounded by a double. *)
Lemma rn_le x c j :
  (0 <= c < 2 ^ 53)%Z -> (-1074 <= j)%Z -> x <= inject_Z c * pow2 j ->
  rn x <= inject_Z c * pow2 j.
Proof.
  intros Hc Hj Hx. unfold rn. pose proof (pow2_pos j) as Hpj.
  assert (0 <= inject_Z c) as Hc0 by (change 0 with (inject_Z 0); rewrite <- Zle_Qle; lia).
  destruct (Qle_bool x 0) eqn:H0; [nra|].
  assert (0 < x) as Hpos.
  { apply Qnot_le_lt. intros Hle. apply Qle_bool_iff in Hle. congruence. }
  rewrite Qred_correct. set (e := ulp_exp x). pose proof (pow2_pos e) as Hpe.
  destruct (Z.le_gt_cases e j) as [Hej|Hej].
  - assert (inject_Z c * pow2 j == inject_Z (c * 2 ^ (j - e)) * pow2 e) as HT.
    { rewrite inject_Z_mult, <- pow2_nonneg_Z by lia. rewrite <- Qmult_assoc, <- pow2_add.
      by replace (j - e + e)%Z with j by lia. }
    rewrite HT. rewrite Qmult_le_r by done. rewrite <- Zle_Qle. apply round_half_even_le.
    rewrite HT in Hx. pose proof (pow2_opp e) as Ho. pose proof (pow2_pos (- e)).
    apply Qle_trans with (inject_Z (c * 2 ^ (j - e)) * pow2 e * pow2 (- e)).
    + apply Qmult_le_compat_r; [done|lra].
    + rewrite <- Qmult_assoc, (Qmult_comm (pow2 e)), Ho. lra.
  - exfalso. assert (e = ilog2 x - 52)%Z as He by (unfold e, ulp_exp in *; lia).
    pose proof (ilog2_le x Hpos) as Hl. replace (ilog2 x) with (e + 52)%Z in Hl by lia.
    assert (pow2 (53 + j) <= x) as Hb by (apply (Qle_trans _ (pow2 (e + 52))); [apply pow2_le; lia|exact Hl]).
    rewrite pow2_add, (pow2_nonneg_Z 53) in Hb by lia.
    assert (inject_Z c < inject_Z (2 ^ 53)) by (rewrite <- Zlt_Qlt; lia). nra.
Qed.

Lemma rn_nonneg x : 0 <= rn x.
Proof.
  unfold rn. destruct (Qle_bool x 0) eqn:H0; [lra|]. rewrite Qred_correct.
  assert (0 < x) as Hpos.
  { apply Qnot_le_lt. intros Hle. apply Qle_bool_iff in Hle. congruence. }
  pose proof (pow2_pos (ulp_exp x)). pose proof (pow2_pos (- ulp_exp x)).
  assert (0 <= round_half_even (x * pow2 (- ulp_exp x)))%Z as Hr.
  { apply round_half_even_ge. change (inject_Z 0) with 0. nra. }
  rewrite Zle_Qle in Hr. change (inject_Z 0) with 0 in Hr. nra.
Qed.

Lemma rn_le_Z x c : (0 <= c < 2 ^ 53)%Z -> x <= inject_Z c -> rn x <= inject_Z c.
Proof.
  intros Hc Hx. assert (inject_Z c * pow2 0 == inject_Z c) as He by (unfold pow2; simpl; lra).
  rewrite <- He. apply rn_le; [done|lia|]. by rewrite He.
Qed.

(** A bound, in seconds, far above any time the process can run. *)
Definition MAX_SECS : Z := 2 ^ 32.
Definition duration_ok (d : Z) : Prop := (0 <= d <= MAX_SECS * NANOS_PER_SEC)%Z.

Lemma as_secs_f64_nonneg d : 0 <= as_secs_f64 d.
Proof. apply rn_nonneg. Qed.

Lemma as_secs_f64_le d : duration_ok d -> as_secs_f64 d <= inject_Z MAX_SECS.
Proof.
  unfold duration_ok, MAX_SECS, NANOS_PER_SEC. intros Hd. unfold as_secs_f64.
  pose proof (Z.div_mod d 1000000000 ltac:(lia)) as Hdm.
  pose proof (Z.mod_pos_bound d 1000000000 ltac:(lia)) as Hm.
  fold NANOS_PER_SEC in *. set (s := (d / NANOS_PER_SEC)%Z) in *.
  set (n := (d mod NANOS_PER_SEC)%Z) in *. unfold NANOS_PER_SEC in *.
  assert (rn (inject_Z s) <= inject_Z s) as Hs by (apply rn_le_Z; [lia|lra]).
  apply rn_le_Z; [lia|]. destruct (decide (s = 2 ^ 32)%Z) as [He|Hne].
  - assert (n = 0)%Z as -> by lia. rewrite He in *.
    assert (rn (inject_Z 0 / inject_Z 1000000000) == 0) by reflexivity. lra.
  - assert (rn (inject_Z n / inject_Z 1000000000) <= inject_Z 1) as Hn.
    { apply rn_le_Z; [lia|]. apply Qle_shift_div_r; [reflexivity|].
      rewrite <- inject_Z_mult, <- Zle_Qle. lia. }
    assert (inject_Z s + inject_Z 1 <= inject_Z (2 ^ 32)) by (rewrite <- inject_Z_plus, <- Zle_Qle; lia).
    lra.
Qed.

Lemma from_secs_f64_ok {E} x :
  0 <= x -> x <= inject_Z MAX_SECS ->
  exists d, from_secs_f64 (E := E) x = Ok d /\ duration_ok d.
Proof.
  intros H0 Hx. unfold from_secs_f64, duration_ok.
  assert (0 <= round_half_even (x * inject_Z NANOS_PER_SEC) <= MAX_SECS * NANOS_PER_SEC)%Z as Hr.
  { assert (0 < inject_Z NANOS_PER_SEC) by reflexivity. split.
    - apply round_half_even_ge. change (inject_Z 0) with 0. nra.
    - apply round_half_even_le. rewrite inject_Z_mult. apply Qmult_le_compat_r; [done|lra]. }
  exists (round_half_even (x * inject_Z NANOS_PER_SEC)). split; [|done].
  rewrite (proj2 (Qle_bool_iff 0 x) H0), (proj2 (Z.ltb_lt _ _)); [done|].
  unfold MAX_SECS, NANOS_PER_SEC in *. lia.
Qed.
