(* ===== verification/Reliable.v ===== *)
(** * Reliable transport of the control channel

    [ReliableTransport] and [TlsRecordReassembler] of
    src/crates/corevpn-protocol/src/reliable.rs.  [Instant::now()] is an
    argument of the methods that call it; a [BTreeMap] is a [gmap] iterated
    in key order. *)
From Stdlib Require Import QArith Lqa.
From S2P Require Import Prelude Errors Float.
From stdpp Require Import sorting.
Local Open Scope Z_scope.

(** ** Configuration and state *)
Record ReliableConfig := mkReliableConfig {
  rc_initial_rto : Z;
  rc_max_rto : Z;
  rc_rto_backoff : Q;
  rc_max_retransmits : Z;
  rc_window_size : Z;
  rc_ack_delay : Z;
}.

Definition from_secs (s : Z) : Z := s * NANOS_PER_SEC.
Definition from_millis (ms : Z) : Z := ms * 1000000.

Definition ReliableConfig_default : ReliableConfig :=
  mkReliableConfig (from_secs 2) (from_secs 60) 2 10 8 (from_millis 100).

Record PendingPacket := mkPending {
  pp_data : bytes;
  pp_sent_at : Z;
  pp_next_retransmit : Z;
  pp_rto : Z;
  pp_retransmits : Z;
}.

Record ReliableTransport := mkReliable {
  rt_config : ReliableConfig;
  rt_next_send_id : Z;
  rt_next_recv_id : Z;
  rt_pending : gmap Z PendingPacket;
  rt_pending_acks : list Z;
  rt_out_of_order : gmap Z bytes;
  rt_last_ack_sent : option Z;
  rt_srtt : option Z;
  rt_rttvar : Z;
}.

Definition ReliableTransport_new (config : ReliableConfig) : ReliableTransport :=
  mkReliable config 0 0 ∅ [] ∅ None None (from_millis 500).

(** Field updates. *)
Definition rt_set_pending (p : gmap Z PendingPacket) (t : ReliableTransport) :=
  mkReliable (rt_config t) (rt_next_send_id t) (rt_next_recv_id t) p (rt_pending_acks t)
    (rt_out_of_order t) (rt_last_ack_sent t) (rt_srtt t) (rt_rttvar t).
Definition rt_set_next_send (n : Z) (t : ReliableTransport) :=
  mkReliable (rt_config t) n (rt_next_recv_id t) (rt_pending t) (rt_pending_acks t)
    (rt_out_of_order t) (rt_last_ack_sent t) (rt_srtt t) (rt_rttvar t).
Definition rt_set_recv (n : Z) (ooo : gmap Z bytes) (t : ReliableTransport) :=
  mkReliable (rt_config t) (rt_next_send_id t) n (rt_pending t) (rt_pending_acks t)
    ooo (rt_last_ack_sent t) (rt_srtt t) (rt_rttvar t).
Definition rt_set_acks (acks : list Z) (t : ReliableTransport) :=
  mkReliable (rt_config t) (rt_next_send_id t) (rt_next_recv_id t) (rt_pending t) acks
    (rt_out_of_order t) (rt_last_ack_sent t) (rt_srtt t) (rt_rttvar t).
Definition rt_set_last_ack (now : Z) (t : ReliableTransport) :=
  mkReliable (rt_config t) (rt_next_send_id t) (rt_next_recv_id t) (rt_pending t)
    (rt_pending_acks t) (rt_out_of_order t) (Some now) (rt_srtt t) (rt_rttvar t).
Definition rt_set_rtt (srtt rttvar : Z) (t : ReliableTransport) :=
  mkReliable (rt_config t) (rt_next_send_id t) (rt_next_recv_id t) (rt_pending t)
    (rt_pending_acks t) (rt_out_of_order t) (rt_last_ack_sent t) (Some srtt) rttvar.

(** [Duration] arithmetic panics past 2^64 seconds. *)
Definition checked_duration {E} (d : Z) : res E Z :=
  if d <? 2 ^ 64 * NANOS_PER_SEC then Ok d else Panic.

(** [BTreeMap::iter]: in key order. *)
Definition key_le {A} (x y : Z * A) : Prop := fst x <= fst y.
#[export] Instance key_le_dec {A} (x y : Z * A) : Decision (key_le x y).
Proof. unfold key_le. apply _. Defined.
Definition btree_iter {A} (m : gmap Z A) : list (Z * A) := merge_sort key_le (map_to_list m).

(** ** Sending *)
Definition ReliableTransport_calculate_rto (t : ReliableTransport) : res ProtocolError Z :=
  match rt_srtt t with
  | Some srtt =>
      var4 ← checked_duration (rt_rttvar t * 4);
      rto ← checked_duration (srtt + var4);
      Ok (Z.min (Z.max rto (rc_initial_rto (rt_config t))) (rc_max_rto (rt_config t)))
  | None => Ok (rc_initial_rto (rt_config t))
  end.

Definition ReliableTransport_send (now : Z) (data : bytes) :
    M ReliableTransport ProtocolError (Z * bytes) := fun t =>
  if rc_window_size (rt_config t) <=? Z.of_nat (size (rt_pending t))
  then (t, Err (InvalidPacket (lit "send window full"))) else
  let packet_id := rt_next_send_id t in
  let t := rt_set_next_send (wrap 32 (rt_next_send_id t + 1)) t in
  match ReliableTransport_calculate_rto t with
  | Ok rto =>
      (rt_set_pending (<[packet_id := mkPending data now (now + rto) rto 0]> (rt_pending t)) t,
       Ok (packet_id, data))
  | Err e => (t, Err e)
  | Panic => (t, Panic)
  end.

(** ** Receiving *)
Definition MAX_OUT_OF_ORDER : nat := 100.

(** The loop that drops the buffered packets that follow; every turn removes
    an entry, so [fuel = size ooo] turns are enough. *)
Fixpoint drain_buffered (fuel : nat) (next : Z) (ooo : gmap Z bytes) : Z * gmap Z bytes :=
  match fuel with
  | O => (next, ooo)
  | S f =>
      match ooo !! next with
      | Some _ => drain_buffered f (wrap 32 (next + 1)) (delete next ooo)
      | None => (next, ooo)
      end
  end.

Definition ReliableTransport_receive (packet_id : Z) (data : bytes) :
    M ReliableTransport ProtocolError (option bytes) := fun t =>
  let t := rt_set_acks (rt_pending_acks t ++ [packet_id]) t in
  if packet_id =? rt_next_recv_id t then
    let next := wrap 32 (rt_next_recv_id t + 1) in
    let '(next, ooo) := drain_buffered (size (rt_out_of_order t)) next (rt_out_of_order t) in
    (rt_set_recv next ooo t, Ok (Some data))
  else if rt_next_recv_id t <? packet_id then
    if (MAX_OUT_OF_ORDER <=? size (rt_out_of_order t))%nat
    then (t, Err (InvalidPacket (lit "too many out-of-order packets")))
    else (rt_set_recv (rt_next_recv_id t) (<[packet_id := data]> (rt_out_of_order t)) t, Ok None)
  else (t, Ok None).

(** ** Acknowledgements *)
Definition ReliableTransport_update_rtt (rtt : Z) (t : ReliableTransport) :
    res ProtocolError ReliableTransport :=
  match rt_srtt t with
  | Some srtt =>
      let diff := Z.abs (rtt - srtt) in
      rttvar ← from_secs_f64 (rn (rn ((3 # 4) * as_secs_f64 (rt_rttvar t)) +
                                   rn ((1 # 4) * as_secs_f64 diff)));
      srtt' ← from_secs_f64 (rn (rn ((7 # 8) * as_secs_f64 srtt) +
                                  rn ((1 # 8) * as_secs_f64 rtt)));
      Ok (rt_set_rtt srtt' rttvar t)
  | None => Ok (rt_set_rtt rtt (rtt / 2) t)
  end.

(** One turn of the loop of [process_acks]. *)
Definition process_ack (now : Z) (t : ReliableTransport) (ack_id : Z) :
    res ProtocolError ReliableTransport :=
  match rt_pending t !! ack_id with
  | Some p =>
      let t := rt_set_pending (delete ack_id (rt_pending t)) t in
      if pp_retransmits p =? 0
      then ReliableTransport_update_rtt (Z.max 0 (now - pp_sent_at p)) t
      else Ok t
  | None => Ok t
  end.

Fixpoint ReliableTransport_process_acks (now : Z) (acks : list Z) (t : ReliableTransport) :
    res ProtocolError ReliableTransport :=
  match acks with
  | [] => Ok t
  | a :: acks' => t' ← process_ack now t a; ReliableTransport_process_acks now acks' t'
  end.

Definition ReliableTransport_get_acks (t : ReliableTransport) : ReliableTransport * list Z :=
  (rt_set_acks [] t, rt_pending_acks t).

Definition ReliableTransport_should_send_ack (now : Z) (t : ReliableTransport) : bool :=
  if bool_decide (rt_pending_acks t = []) then false else
  match rt_last_ack_sent t with
  | Some last => rc_ack_delay (rt_config t) <=? Z.max 0 (now - last)
  | None => true
  end.

Definition ReliableTransport_ack_sent (now : Z) (t : ReliableTransport) : ReliableTransport :=
  rt_set_last_ack now t.

(** ** Retransmission *)

(** One pending packet at time [now]: its new state, and whether it is sent
    again. *)
Definition retransmit_one (c : ReliableConfig) (now : Z) (p : PendingPacket) :
    res ProtocolError (PendingPacket * bool) :=
  if pp_next_retransmit p <=? now then
    if rc_max_retransmits c <=? pp_retransmits p then Ok (p, false) else
    rto ← from_secs_f64 (fmin (rn (as_secs_f64 (pp_rto p) * rc_rto_backoff c))
                              (as_secs_f64 (rc_max_rto c)));
    Ok (mkPending (pp_data p) (pp_sent_at p) (now + rto) rto (pp_retransmits p + 1), true)
  else Ok (p, false).

Fixpoint retransmit_loop (c : ReliableConfig) (now : Z) (ps : list (Z * PendingPacket)) :
    res ProtocolError (list (Z * PendingPacket) * list (Z * bytes)) :=
  match ps with
  | [] => Ok ([], [])
  | (id, p) :: ps' =>
      r ← retransmit_one c now p;
      rest ← retransmit_loop c now ps';
      let '(p', sent) := r in
      let '(qs, out) := rest in
      Ok ((id, p') :: qs, if sent : bool then (id, pp_data p) :: out else out)
  end.

Definition ReliableTransport_get_retransmits (now : Z) :
    M ReliableTransport ProtocolError (list (Z * bytes)) := fun t =>
  match retransmit_loop (rt_config t) now (btree_iter (rt_pending t)) with
  | Ok (ps, out) => (rt_set_pending (list_to_map ps) t, Ok out)
  | Err e => (t, Err e)
  | Panic => (t, Panic)
  end.

Definition ReliableTransport_has_pending (t : ReliableTransport) : bool :=
  negb (bool_decide (rt_pending t = ∅)).

Definition ReliableTransport_next_timeout (now : Z) (t : ReliableTransport) : option Z :=
  match map (fun p => pp_next_retransmit (snd p)) (btree_iter (rt_pending t)) with
  | [] => None
  | x :: xs => Some (Z.max 0 (fold_left Z.min xs x - now))
  end.

(** ** Reassembly of TLS records *)
Record TlsRecordReassembler := mkReassembler { tr_buffer : bytes; tr_max_size : nat }.

Definition TlsRecordReassembler_new (max_size : nat) : TlsRecordReassembler :=
  mkReassembler [] max_size.

Definition TlsRecordReassembler_add (data : bytes) : M TlsRecordReassembler ProtocolError unit :=
  fun r =>
  if (tr_max_size r <? length (tr_buffer r) + length data)%nat
  then (r, Err (InvalidPacket (lit "TLS record too large")))
  else (mkReassembler (tr_buffer r ++ data) (tr_max_size r), Ok tt).

(** The extraction loop; every turn consumes at least five bytes, so
    [fuel = length buffer] turns are enough. *)
Fixpoint extract_loop (fuel : nat) (buffer : bytes) : res ProtocolError (list bytes * bytes) :=
  match fuel with
  | O => Ok ([], buffer)
  | S f =>
      if (5 <=? length buffer)%nat then
        b3 ← idx buffer 3; b4 ← idx buffer 4;
        let len := Z.to_nat (from_be [b3; b4]) in
        if (length buffer <? 5 + len)%nat then Ok ([], buffer) else
        '(records, rest) ← extract_loop f (drop (5 + len) buffer);
        Ok (take (5 + len) buffer :: records, rest)
      else Ok ([], buffer)
  end.

Definition TlsRecordReassembler_extract_records : M TlsRecordReassembler ProtocolError (list bytes) :=
  fun r =>
  match extract_loop (length (tr_buffer r)) (tr_buffer r) with
  | Ok (records, rest) => (mkReassembler rest (tr_max_size r), Ok records)
  | Err e => (r, Err e)
  | Panic => (r, Panic)
  end.

Definition TlsRecordReassembler_len (r : TlsRecordReassembler) : nat := length (tr_buffer r).
Definition TlsRecordReassembler_is_empty (r : TlsRecordReassembler) : bool :=
  bool_decide (tr_buffer r = []).
Definition TlsRecordReassembler_clear (r : TlsRecordReassembler) : TlsRecordReassembler :=
  mkReassembler [] (tr_max_size r).

(** Read and write fields, and nothing else. *)
Ltac rt_simpl :=
  cbv zeta;
  cbn [rt_config rt_next_send_id rt_next_recv_id rt_pending rt_pending_acks rt_out_of_order
       rt_last_ack_sent rt_srtt rt_rttvar rt_set_pending rt_set_next_send rt_set_recv
       rt_set_acks rt_set_last_ack rt_set_rtt fst snd].

(** ** Invariant *)
Definition config_ok (c : ReliableConfig) : Prop :=
  duration_ok (rc_initial_rto c) /\ duration_ok (rc_max_rto c) /\
  0 <= rc_max_retransmits c /\ 0 <= rc_window_size c /\ (0 <= rc_rto_backoff c)%Q.

Definition pending_ok (c : ReliableConfig) (id : Z) (p : PendingPacket) : Prop :=
  u32 id /\ 0 <= pp_sent_at p /\ duration_ok (pp_rto p) /\
  0 <= pp_retransmits p <= rc_max_retransmits c.

Record rel_inv (t : ReliableTransport) : Prop := {
  ri_config : config_ok (rt_config t);
  ri_send : u32 (rt_next_send_id t);
  ri_recv : u32 (rt_next_recv_id t);
  ri_window : Z.of_nat (size (rt_pending t)) <= rc_window_size (rt_config t);
  ri_pending : map_Forall (pending_ok (rt_config t)) (rt_pending t);
  ri_buffer : (size (rt_out_of_order t) <= MAX_OUT_OF_ORDER)%nat;
  ri_srtt : from_option duration_ok True (rt_srtt t);
  ri_rttvar : duration_ok (rt_rttvar t);
}.

Lemma config_default_ok : config_ok ReliableConfig_default.
Proof. unfold config_ok, duration_ok, Qle. simpl. vm_compute. intuition congruence. Qed.

Lemma rel_inv_new c : config_ok c -> rel_inv (ReliableTransport_new c).
Proof.
  intros Hc. split; cbn; try done; try (unfold uint; lia).
  - rewrite map_size_empty. destruct Hc as (_ & _ & _ & ? & _). simpl. lia.
  - rewrite map_size_empty. simpl. unfold MAX_OUT_OF_ORDER. lia.
Qed.

Lemma calculate_rto_ok t :
  rel_inv t -> exists rto, ReliableTransport_calculate_rto t = Ok rto /\ duration_ok rto.
Proof.
  intros [(Hi & Hm & _) _ _ _ _ _ Hs Hv]. unfold ReliableTransport_calculate_rto.
  destruct (rt_srtt t) as [srtt|]; [|by eexists]. simpl in Hs.
  unfold duration_ok, MAX_SECS, NANOS_PER_SEC in *. unfold checked_duration, NANOS_PER_SEC.
  rewrite (proj2 (Z.ltb_lt (rt_rttvar t * 4) _)) by lia. rsimp.
  rewrite (proj2 (Z.ltb_lt (srtt + _) _)) by lia. rsimp. eexists. split; [done|]. lia.
Qed.

(** Every branch of [send]. *)
Lemma send_spec now data t :
  rel_inv t ->
  (Z.of_nat (size (rt_pending t)) = rc_window_size (rt_config t) /\
   ReliableTransport_send now data t = (t, Err (InvalidPacket (lit "send window full")))) \/
  (Z.of_nat (size (rt_pending t)) < rc_window_size (rt_config t) /\
   exists rto, duration_ok rto /\
   ReliableTransport_send now data t =
     (rt_set_pending (<[rt_next_send_id t := mkPending data now (now + rto) rto 0]> (rt_pending t))
        (rt_set_next_send (wrap 32 (rt_next_send_id t + 1)) t),
      Ok (rt_next_send_id t, data))).
Proof.
  intros Hinv. unfold ReliableTransport_send. pose proof (ri_window _ Hinv).
  destruct (rc_window_size (rt_config t) <=? _) eqn:Hw; bools; [left; split; [lia|done]|right].
  split; [done|]. destruct (calculate_rto_ok t Hinv) as (rto & He & Hr).
  exists rto. split; [done|].
  assert (ReliableTransport_calculate_rto (rt_set_next_send (wrap 32 (rt_next_send_id t + 1)) t)
    = Ok rto) as -> by exact He. done.
Qed.

Lemma send_inv now data t : rel_inv t -> duration_ok now ->
  rel_inv (fst (ReliableTransport_send now data t)) /\
  no_panic (snd (ReliableTransport_send now data t)).
Proof.
  intros Hinv Hnow. destruct (send_spec now data t Hinv) as [(_ & ->)|(Hw & rto & Hr & ->)]; [done|].
  split; [|done]. destruct Hinv as [Hc Hs Hr' Hw' Hp Hb Hs' Hv]. split; cbn; try done.
  - apply wrap_uint. lia.
  - pose proof (map_size_insert (rt_next_send_id t) (mkPending data now (now + rto) rto 0)
      (rt_pending t)) as He. destruct (rt_pending t !! _); cbv [Datatypes.id] in He; lia.
  - apply map_Forall_insert_2; [|done]. unfold pending_ok, duration_ok in *. cbn.
    destruct Hc as (_ & _ & ? & _). split_and!; done || lia.
Qed.

(** The draining loop removes entries and exits because the next id is not
    buffered. *)
Lemma drain_buffered_spec fuel next ooo :
  (size ooo <= fuel)%nat ->
  let '(n, m) := drain_buffered fuel next ooo in
  m !! n = None /\ m ⊆ ooo.
Proof.
  revert next ooo. induction fuel as [|f IH]; intros next ooo Hf; simpl.
  - split; [|done]. assert (ooo = ∅) as -> by (apply map_size_empty_inv; lia). done.
  - destruct (ooo !! next) as [d|] eqn:Hn; [|done].
    specialize (IH (wrap 32 (next + 1)) (delete next ooo)).
    destruct (drain_buffered f _ _) as [n m]. destruct IH as [? ?].
    + rewrite map_size_delete_Some by done. lia.
    + split; [done|]. etransitivity; [done|]. apply delete_subseteq.
Qed.

Lemma drain_buffered_u32 fuel next ooo :
  u32 next -> u32 (fst (drain_buffered fuel next ooo)).
Proof.
  revert next ooo. induction fuel as [|f IH]; intros next ooo Hn; simpl; [done|].
  destruct (ooo !! next); [|done]. apply IH, wrap_uint. lia.
Qed.

Lemma map_size_mono {A} (m1 m2 : gmap Z A) : m1 ⊆ m2 -> (size m1 <= size m2)%nat.
Proof. intros H. rewrite <- !size_dom. by apply subseteq_size, subseteq_dom. Qed.

Lemma receive_inv id data t : rel_inv t ->
  rel_inv (fst (ReliableTransport_receive id data t)) /\
  no_panic (snd (ReliableTransport_receive id data t)).
Proof.
  intros [Hc Hs Hr Hw Hp Hb Hs' Hv]. unfold ReliableTransport_receive. rt_simpl.
  destruct (id =? rt_next_recv_id t).
  - pose proof (drain_buffered_spec (size (rt_out_of_order t))
      (wrap 32 (rt_next_recv_id t + 1)) (rt_out_of_order t) (Nat.le_refl _)) as Hd.
    pose proof (drain_buffered_u32 (size (rt_out_of_order t))
      (wrap 32 (rt_next_recv_id t + 1)) (rt_out_of_order t)
      (wrap_uint 32 _ ltac:(lia))) as Hu.
    destruct (drain_buffered _ _ _) as [n m]. destruct Hd as [_ Hsub%map_size_mono].
    split; [|done]. split; try done. rt_simpl. etransitivity; done.
  - destruct (rt_next_recv_id t <? id); [|done].
    destruct (MAX_OUT_OF_ORDER <=? _)%nat eqn:Hm; bools; [done|]. split; [|done].
    split; try done. rt_simpl.
    pose proof (map_size_insert id data (rt_out_of_order t)) as He.
    destruct (rt_out_of_order t !! id); cbv [Datatypes.id] in He; lia.
Qed.

Lemma combine_duration {E : Type} (a b : Q) (x y : Z) :
  (0 <= a)%Q -> (0 <= b)%Q -> duration_ok x -> duration_ok y ->
  (exists u v, 0 <= u /\ 0 <= v /\ u + v = MAX_SECS /\
     (a * inject_Z MAX_SECS == inject_Z u)%Q /\ (b * inject_Z MAX_SECS == inject_Z v)%Q) ->
  exists d, from_secs_f64 (E := E) (rn (rn (a * as_secs_f64 x) + rn (b * as_secs_f64 y))) = Ok d /\
    duration_ok d.
Proof.
  intros Ha Hb Hx Hy (u & v & Hu & Hv & Huv & Hau & Hbv).
  apply from_secs_f64_ok; [apply rn_nonneg|].
  pose proof (as_secs_f64_le x Hx). pose proof (as_secs_f64_le y Hy).
  pose proof (as_secs_f64_nonneg x). pose proof (as_secs_f64_nonneg y).
  assert (rn (a * as_secs_f64 x) <= inject_Z u)%Q.
  { apply rn_le_Z; [unfold MAX_SECS in *; lia|]. nra. }
  assert (rn (b * as_secs_f64 y) <= inject_Z v)%Q.
  { apply rn_le_Z; [unfold MAX_SECS in *; lia|]. nra. }
  apply rn_le_Z; [unfold MAX_SECS; lia|]. rewrite <- Huv, inject_Z_plus. lra.
Qed.

Lemma update_rtt_inv rtt t : rel_inv t -> duration_ok rtt ->
  exists t', ReliableTransport_update_rtt rtt t = Ok t' /\ rel_inv t' /\
    rt_pending t' = rt_pending t /\ rt_config t' = rt_config t.
Proof.
  intros Hinv Hrtt. pose proof Hinv as [Hc Hs Hr Hw Hp Hb Hs' Hv].
  unfold ReliableTransport_update_rtt. destruct (rt_srtt t) as [srtt|]; simpl in Hs'.
  - destruct (combine_duration (E := ProtocolError) (3 # 4) (1 # 4) (rt_rttvar t) (Z.abs (rtt - srtt)))
      as (rttvar & Hvar & Hrv); [done|done|done|unfold duration_ok in *; lia| |].
    { exists (3 * 2 ^ 30), (2 ^ 30). split_and!; by vm_compute. }
    rewrite (bind_of_Ok _ _ _ Hvar).
    destruct (combine_duration (E := ProtocolError) (7 # 8) (1 # 8) srtt rtt)
      as (srtt' & Hsrtt & Hsr); [done..| |].
    { exists (7 * 2 ^ 29), (2 ^ 29). split_and!; by vm_compute. }
    rewrite (bind_of_Ok _ _ _ Hsrtt). eexists. split; [reflexivity|]. split; [|done]. by split.
  - eexists. split; [done|]. split; [|done]. split; try done. rt_simpl.
    unfold duration_ok in *. pose proof (Z.div_pos rtt 2). pose proof (Z.div_le_upper_bound rtt 2 rtt).
    lia.
Qed.

Lemma process_ack_inv now t a : rel_inv t -> duration_ok now ->
  exists t', process_ack now t a = Ok t' /\ rel_inv t' /\
    rt_pending t' = delete a (rt_pending t) /\ rt_config t' = rt_config t.
Proof.
  intros Hinv Hnow. unfold process_ack. destruct (rt_pending t !! a) as [p|] eqn:Hp.
  2: { exists t. rewrite delete_id by done. done. }
  pose proof Hinv as [Hc Hs Hr Hw Hpe Hb Hs' Hv].
  pose proof (map_Forall_lookup_1 _ _ _ _ Hpe Hp) as (Hid & Hsent & _).
  assert (rel_inv (rt_set_pending (delete a (rt_pending t)) t)) as Hinv'.
  { split; try done; rt_simpl.
    - rewrite map_size_delete_Some by done. lia.
    - by apply map_Forall_delete. }
  destruct (pp_retransmits p =? 0).
  - destruct (update_rtt_inv (Z.max 0 (now - pp_sent_at p)) _ Hinv') as (t' & He & Ht' & Hpe' & Hc').
    { unfold duration_ok in *. lia. }
    exists t'. split_and!; done.
  - eexists. split_and!; done.
Qed.

(** Acknowledged packets leave the window, whatever else the list holds, and
    the round-trip estimator does not panic. *)
Lemma process_acks_inv now acks t : rel_inv t -> duration_ok now ->
  exists t', ReliableTransport_process_acks now acks t = Ok t' /\ rel_inv t' /\
    rt_pending t' = filter (fun kv => fst kv ∉ acks) (rt_pending t) /\
    rt_config t' = rt_config t.
Proof.
  intros Hinv Hnow. revert t Hinv. induction acks as [|a acks IH]; intros t Hinv; simpl.
  - exists t. split_and!; try done. symmetry. apply map_filter_id. intros. apply not_elem_of_nil.
  - destruct (process_ack_inv now t a Hinv Hnow) as (t1 & -> & H1 & Hp1 & Hc1). rsimp.
    destruct (IH t1 H1) as (t2 & -> & H2 & Hp2 & Hc2). exists t2. split_and!; try done.
    + rewrite Hp2, Hp1. apply map_eq. intros i. apply option_eq. intros p.
      rewrite !map_lookup_filter_Some, lookup_delete_Some, not_elem_of_cons. naive_solver.
    + by rewrite Hc2.
Qed.

(** Acknowledgements touch only the window and the estimator. *)
Lemma process_acks_frame now acks t t' :
  ReliableTransport_process_acks now acks t = Ok t' ->
  rt_next_recv_id t' = rt_next_recv_id t /\ rt_next_send_id t' = rt_next_send_id t /\
  rt_out_of_order t' = rt_out_of_order t /\ rt_pending_acks t' = rt_pending_acks t.
Proof.
  revert t. induction acks as [|a acks IH]; intros t H; cbn [ReliableTransport_process_acks] in H;
    [by inv H|]. apply bind_Ok in H as (t1 & H1 & H). apply IH in H as (-> & -> & -> & ->).
  unfold process_ack in H1. destruct (rt_pending t !! a) as [p|]; [|by inv H1].
  destruct (_ =? 0); [|by inv H1]. unfold ReliableTransport_update_rtt in H1.
  revert H1. rt_simpl. destruct (rt_srtt t); intros H1; [|by inv H1].
  apply bind_Ok in H1 as (? & _ & H1). apply bind_Ok in H1 as (? & _ & H1). by inv H1.
Qed.

(** *** Retransmission *)
Lemma retransmit_one_ok c now p : config_ok c ->
  duration_ok (pp_rto p) -> 0 <= pp_retransmits p <= rc_max_retransmits c ->
  exists p' sent, retransmit_one c now p = Ok (p', sent) /\
    pp_data p' = pp_data p /\ pp_sent_at p' = pp_sent_at p /\ duration_ok (pp_rto p') /\
    pp_retransmits p' = pp_retransmits p + (if sent : bool then 1 else 0) /\
    pp_retransmits p' <= rc_max_retransmits c.
Proof.
  intros (_ & Hm & _ & _ & Hbo) Hr Hn. unfold retransmit_one.
  destruct (_ <=? now); [|exists p, false; split_and!; done || lia].
  destruct (_ <=? pp_retransmits p) eqn:He; bools; [exists p, false; split_and!; done || lia|].
  destruct (from_secs_f64_ok (E := ProtocolError)
    (fmin (rn (as_secs_f64 (pp_rto p) * rc_rto_backoff c)) (as_secs_f64 (rc_max_rto c))))
    as (rto & -> & Hrto).
  - unfold fmin. destruct (Qle_bool _ _); [apply rn_nonneg|apply as_secs_f64_nonneg].
  - unfold fmin. destruct (Qle_bool _ _) eqn:Hle.
    + apply Qle_bool_iff in Hle. eapply Qle_trans; [exact Hle|by apply as_secs_f64_le].
    + by apply as_secs_f64_le.
  - rsimp. eexists _, true. split; [done|]. cbn. split_and!; done || lia.
Qed.

(** What one entry contributes to the loop. *)
Definition retransmit_rel (c : ReliableConfig) (now : Z) (x y : Z * PendingPacket) : Prop :=
  fst x = fst y /\ exists sent, retransmit_one c now (snd x) = Ok (snd y, sent).

Lemma retransmit_loop_ok c now ps : config_ok c ->
  Forall (fun x => pending_ok c (fst x) (snd x)) ps ->
  exists qs out, retransmit_loop c now ps = Ok (qs, out) /\
    Forall2 (retransmit_rel c now) ps qs /\
    out = omap (M := list) (fun x => match retransmit_one c now (snd x) with
                        | Ok (_, true) => Some (fst x, pp_data (snd x))
                        | _ => None
                        end) ps.
Proof.
  intros Hc. induction ps as [|[id p] ps IH]; intros Hps; [by eexists _, _|]. inv Hps. simpl.
  destruct (retransmit_one_ok c now p Hc) as (p' & sent & He & _); [by destruct H1 as (_&_&?&?)..|].
  destruct IH as (qs & out & -> & Hr & Ho); [done|]. rewrite He. rsimp.
  eexists _, _. split; [done|]. split.
  - constructor; [|done]. split; [done|]. by exists sent.
  - rewrite Ho. by destruct sent.
Qed.

Lemma btree_iter_perm {A} (m : gmap Z A) : btree_iter m ≡ₚ map_to_list m.
Proof. apply merge_sort_Permutation. Qed.

Lemma btree_iter_nodup {A} (m : gmap Z A) : NoDup (btree_iter m).*1.
Proof. rewrite (btree_iter_perm m). apply NoDup_fst_map_to_list. Qed.

Lemma elem_of_btree_iter {A} (m : gmap Z A) i x : (i, x) ∈ btree_iter m <-> m !! i = Some x.
Proof. rewrite (btree_iter_perm m). apply elem_of_map_to_list. Qed.

Lemma retransmit_rel_keys c now ps qs :
  Forall2 (retransmit_rel c now) ps qs -> qs.*1 = ps.*1.
Proof. induction 1 as [|x y ps qs [Hk _] _ IH]; csimpl; congruence. Qed.

(** The effect of [get_retransmits] on one entry of the window. *)
Lemma get_retransmits_spec now t : rel_inv t ->
  exists t' out, ReliableTransport_get_retransmits now t = (t', Ok out) /\
    rt_config t' = rt_config t /\ t' = rt_set_pending (rt_pending t') t /\
    dom (rt_pending t') = dom (rt_pending t) /\
    (forall id p', rt_pending t' !! id = Some p' ->
       exists p sent, rt_pending t !! id = Some p /\ retransmit_one (rt_config t) now p = Ok (p', sent)) /\
    NoDup out.*1 /\
    (forall id d, (id, d) ∈ out <-> exists p p', rt_pending t !! id = Some p /\
       retransmit_one (rt_config t) now p = Ok (p', true) /\ d = pp_data p).
Proof.
  intros Hinv. unfold ReliableTransport_get_retransmits.
  destruct (retransmit_loop_ok (rt_config t) now (btree_iter (rt_pending t)))
    as (qs & out & -> & Hr & Ho).
  { apply Hinv. }
  { apply Forall_forall. intros [i p] Hi%elem_of_btree_iter. by apply (ri_pending _ Hinv). }
  pose proof (retransmit_rel_keys _ _ _ _ Hr) as Hk.
  assert (NoDup qs.*1) as Hnd by (rewrite Hk; apply btree_iter_nodup).
  eexists _, _. split; [done|]. rt_simpl. split; [done|]. split; [done|]. split; [|split; [|split]].
  - apply set_eq. intros i. rewrite dom_list_to_map, elem_of_list_to_set, Hk, elem_of_dom.
    rewrite list_elem_of_fmap. split.
    + intros ([j p] & -> & Hj%elem_of_btree_iter). by exists p.
    + intros [p Hp%elem_of_btree_iter]. by exists (i, p).
  - intros id p' Hp'%elem_of_list_to_map; [|done].
    apply list_elem_of_lookup in Hp' as [k Hk'].
    destruct (Forall2_lookup_r _ _ _ _ _ Hr Hk') as ([j p] & Hj & Heq & sent & Hs).
    simpl in *. subst j. exists p, sent. split; [|done].
    apply elem_of_btree_iter, list_elem_of_lookup. by exists k.
  - rewrite Ho. clear -Hinv. pose proof (btree_iter_nodup (rt_pending t)) as Hnd.
    induction (btree_iter (rt_pending t)) as [|[i p] ps IH]; simpl; [apply NoDup_nil_2|].
    simpl in Hnd. apply NoDup_cons in Hnd as [Hi Hnd]. specialize (IH Hnd).
    destruct (retransmit_one _ now p) as [[p' []]| |]; try done. csimpl.
    apply NoDup_cons. split; [|done].
    intros Hin. apply Hi. apply list_elem_of_fmap in Hin as ([j d] & -> & Hj).
    apply list_elem_of_omap in Hj as ([j' q] & Hj & He). simpl in He. apply list_elem_of_fmap.
    exists (j', q). split; [|done]. simpl. repeat case_match; congruence.
  - intros id d. rewrite Ho, list_elem_of_omap. split.
    + intros ([i p] & Hi%elem_of_btree_iter & He). simpl in He.
      destruct (retransmit_one _ now p) as [[p' []]| |] eqn:Hs; simplify_eq. eauto.
    + intros (p & p' & Hp & Hs & ->). exists (id, p).
      split; [by apply elem_of_btree_iter|]. simpl. by rewrite Hs.
Qed.

Lemma get_retransmits_inv now t : rel_inv t ->
  exists t' out, ReliableTransport_get_retransmits now t = (t', Ok out) /\ rel_inv t'.
Proof.
  intros Hinv. destruct (get_retransmits_spec now t Hinv)
    as (t' & out & He & Hc & Ht & Hd & Hp & _ & _).
  exists t', out. split; [done|]. pose proof Hinv as [? ? ? Hw Hpe ? ? ?].
  rewrite Ht in *. split; try done; revert Hd Hp; rt_simpl; intros Hd Hp.
  - by rewrite <- size_dom, Hd, size_dom.
  - intros i p' Hi. destruct (Hp i p' Hi) as (p & sent & Hlk & Hs).
    destruct (Hpe _ _ Hlk) as (? & ? & ? & ?).
    destruct (retransmit_one_ok (rt_config t) now p) as (p1 & s1 & He1 & Hrest); [done..|].
    rewrite He1 in Hs. simplify_eq. destruct Hrest as (_ & Hs1 & ? & Hn & ?).
    unfold pending_ok. rewrite Hs1. split_and!; try done. destruct sent; lia.
Qed.

(** ** Events: what a session asks of its transport *)
Inductive rel_event :=
| EvSend (now : Z) (data : bytes)
| EvReceive (packet_id : Z) (data : bytes)
| EvAcks (now : Z) (acks : list Z)
| EvGetAcks
| EvAckSent (now : Z)
| EvRetransmits (now : Z).

(** Clock readings fit the bound on durations. *)
Definition event_ok (e : rel_event) : Prop :=
  match e with
  | EvSend now _ | EvAcks now _ | EvAckSent now | EvRetransmits now => duration_ok now
  | EvReceive _ _ | EvGetAcks => True
  end.

(** The state after one event and whether the call panicked; errors are
    returned to the caller and leave the transport usable. *)
Definition settle {A} (r : ReliableTransport * res ProtocolError A) :
    res ProtocolError ReliableTransport :=
  match snd r with Panic => Panic | _ => Ok (fst r) end.

Definition rel_apply (e : rel_event) (t : ReliableTransport) :
    res ProtocolError ReliableTransport :=
  match e with
  | EvSend now data => settle (ReliableTransport_send now data t)
  | EvReceive id data => settle (ReliableTransport_receive id data t)
  | EvAcks now acks => ReliableTransport_process_acks now acks t
  | EvGetAcks => Ok (fst (ReliableTransport_get_acks t))
  | EvAckSent now => Ok (ReliableTransport_ack_sent now t)
  | EvRetransmits now => settle (ReliableTransport_get_retransmits now t)
  end.

Fixpoint rel_run (es : list rel_event) (t : ReliableTransport) :
    res ProtocolError ReliableTransport :=
  match es with
  | [] => Ok t
  | e :: es' => t' ← rel_apply e t; rel_run es' t'
  end.

Lemma settle_ok {A} (r : ReliableTransport * res ProtocolError A) :
  no_panic (snd r) -> settle r = Ok (fst r).
Proof. unfold settle, no_panic. by destruct (snd r). Qed.

Lemma rel_apply_inv e t : rel_inv t -> event_ok e ->
  exists t', rel_apply e t = Ok t' /\ rel_inv t'.
Proof.
  intros Hinv He. destruct e as [now data|id data|now acks| |now|now]; simpl in *.
  - destruct (send_inv now data t Hinv He). rewrite settle_ok by done. by eexists.
  - destruct (receive_inv id data t Hinv). rewrite settle_ok by done. by eexists.
  - destruct (process_acks_inv now acks t Hinv He) as (t' & -> & ? & _). by eexists.
  - eexists. split; [done|]. destruct Hinv. by split.
  - eexists. split; [done|]. destruct Hinv. by split.
  - destruct (get_retransmits_inv now t Hinv) as (t' & out & -> & ?). by exists t'.
Qed.

Lemma rel_run_inv es t : rel_inv t -> Forall event_ok es ->
  exists t', rel_run es t = Ok t' /\ rel_inv t'.
Proof.
  revert t. induction es as [|e es IH]; intros t Hinv Hes; [by exists t|]. inv Hes. simpl.
  destruct (rel_apply_inv e t) as (t' & -> & ?); [done..|]. rsimp. by apply IH.
Qed.

(** ** Retransmission counts *)

(** The packets returned by a sequence of polls. *)
Fixpoint polls (nows : list Z) (t : ReliableTransport) : list (Z * bytes) :=
  match nows with
  | [] => []
  | now :: nows' =>
      match ReliableTransport_get_retransmits now t with
      | (t', Ok out) => out ++ polls nows' t'
      | _ => []
      end
  end.

Definition times_sent (id : Z) (out : list (Z * bytes)) : Z :=
  Z.of_nat (length (filter (fun x => fst x = id) out)).

Lemma times_sent_app id xs ys : times_sent id (xs ++ ys) = times_sent id xs + times_sent id ys.
Proof. unfold times_sent. rewrite filter_app, length_app. lia. Qed.

Lemma times_sent_absent id (out : list (Z * bytes)) :
  (forall d, (id, d) ∉ out) -> times_sent id out = 0.
Proof.
  intros H. unfold times_sent. induction out as [|[i d] out IH]; [done|].
  rewrite filter_cons_False.
  - apply IH. intros d' Hd. apply (H d'). by right.
  - simpl. intros ->. apply (H d). by left.
Qed.

Lemma times_sent_nodup id (out : list (Z * bytes)) : NoDup out.*1 -> times_sent id out <= 1.
Proof.
  induction out as [|[i d] out IH]; intros Hnd; [unfold times_sent; simpl; lia|].
  csimpl in *. apply NoDup_cons in Hnd as [Hi Hnd]. destruct (decide (i = id)) as [->|].
  - change ((id, d) :: out) with ([(id, d)] ++ out). rewrite times_sent_app.
    rewrite (times_sent_absent id out).
    + unfold times_sent. rewrite filter_cons_True by done. simpl. lia.
    + intros d' Hd. apply Hi, list_elem_of_fmap. by exists (id, d').
  - unfold times_sent. rewrite filter_cons_False by done. by apply IH.
Qed.

Lemma polls_bounded id nows t : rel_inv t ->
  times_sent id (polls nows t) <=
  match rt_pending t !! id with
  | Some p => rc_max_retransmits (rt_config t) - pp_retransmits p
  | None => 0
  end.
Proof.
  revert t. induction nows as [|now nows IH]; intros t Hinv; cbn [polls].
  - unfold times_sent. simpl. case_match; [|lia].
    destruct (ri_pending _ Hinv id p) as (_ & _ & _ & ?); [done|lia].
  - destruct (get_retransmits_inv now t Hinv) as (t' & out & He & Hinv'). rewrite He.
    rewrite times_sent_app. specialize (IH t' Hinv').
    destruct (get_retransmits_spec now t Hinv) as (t1 & out1 & He1 & Hc & _ & Hd & Hp & Hnd & Ho).
    rewrite He in He1. simplify_eq. destruct (rt_pending t !! id) as [p|] eqn:Hlk.
    + assert (is_Some (rt_pending t1 !! id)) as [p' Hlk'].
      { apply elem_of_dom. rewrite Hd. apply elem_of_dom. by eexists. }
      rewrite Hlk', Hc in IH. destruct (Hp id p' Hlk') as (p0 & sent & Hlk0 & Hs). simplify_eq.
      destruct (ri_pending _ Hinv id p) as (_ & _ & ? & ?); [done|].
      destruct (retransmit_one_ok (rt_config t) now p) as (p1 & s1 & Hs1 & _ & _ & _ & Hn & _);
        [apply Hinv|done..|]. rewrite Hs in Hs1. simplify_eq. destruct s1.
      * pose proof (times_sent_nodup id out1 Hnd). lia.
      * rewrite (times_sent_absent id out1); [lia|].
        intros d (q & q' & Hq & Hq' & _)%Ho. congruence.
    + assert (rt_pending t1 !! id = None) as Hlk'.
      { apply not_elem_of_dom. rewrite Hd. by apply not_elem_of_dom. }
      rewrite Hlk' in IH. rewrite (times_sent_absent id out1); [lia|].
      intros d (q & q' & Hq & _)%Ho. congruence.
Qed.

(** ** Claims on the transport *)

(** C17: whatever sequence of sends, receptions, acknowledgements and timer
    polls a session performs, no call panics (in particular not the [f64]
    conversions of the round-trip estimator and of the backoff), and the
    transport keeps its invariant: at most [window_size] packets unacknowledged,
    at most 100 buffered, no packet retransmitted more than [max_retransmits]
    times, estimator and timeouts in range. *)
Theorem reliable_run_invariant (es : list rel_event) (Hes : Forall event_ok es) :
  exists t, rel_run es (ReliableTransport_new ReliableConfig_default) = Ok t /\ rel_inv t.
Proof. apply rel_run_inv; [apply rel_inv_new, config_default_ok|done]. Qed.

Lemma reliable_run_invariant_witness :
  exists t, rel_run [EvSend 0 [1]; EvRetransmits (from_secs 3); EvSend (from_secs 3) [2];
      EvAcks (from_secs 4) [1]; EvSend (from_secs 4) [3]; EvAcks (from_secs 5) [2];
      EvReceive 1 [7]; EvReceive 0 [6]]
    (ReliableTransport_new ReliableConfig_default) = Ok t /\ rel_inv t.
Proof.
  apply reliable_run_invariant.
  repeat constructor; unfold duration_ok, from_secs, MAX_SECS, NANOS_PER_SEC; lia.
Defined.

(** A packet is retransmitted at most [max_retransmits] times (10 with
    the default configuration), however often the retransmission timer is
    polled. *)
Lemma retransmissions_bounded (t : ReliableTransport) (Hinv : rel_inv t)
    (id : Z) (p : PendingPacket) (Hp : rt_pending t !! id = Some p) (nows : list Z) :
  times_sent id (polls nows t) <= rc_max_retransmits (rt_config t) - pp_retransmits p.
Proof. pose proof (polls_bounded id nows t Hinv) as H. by rewrite Hp in H. Qed.

(** Seconds at which a packet sent at 0 and never acknowledged is due under the
    default configuration: timeouts of 2, 4, 8, 16, 32, then 60 seconds. *)
Definition due_times : list Z :=
  map from_secs [2; 6; 14; 30; 62; 122; 182; 242; 302; 362; 422; 482].

Definition sent_one : ReliableTransport :=
  fst (ReliableTransport_send 0 [42] (ReliableTransport_new ReliableConfig_default)).

Lemma retransmissions_bounded_witness :
  times_sent 0 (polls due_times sent_one) = 10 /\
  times_sent 0 (polls due_times sent_one) <= 10.
Proof.
  split; [vm_compute; reflexivity|].
  apply (retransmissions_bounded sent_one) with (p := mkPending [42] 0 (from_secs 2) (from_secs 2) 0);
    [|vm_compute; reflexivity].
  apply (send_inv 0 [42]); [apply rel_inv_new, config_default_ok|].
  unfold duration_ok, MAX_SECS, NANOS_PER_SEC. lia.
Defined.

(** ** The receiving side *)
Fixpoint receive_all (pkts : list (Z * bytes)) (t : ReliableTransport) :
    ReliableTransport * list (res ProtocolError (option bytes)) :=
  match pkts with
  | [] => (t, [])
  | (id, data) :: pkts' =>
      let '(t1, r) := ReliableTransport_receive id data t in
      let '(t2, rs) := receive_all pkts' t1 in (t2, r :: rs)
  end.

(** The expected packet, with nothing buffered. *)
Lemma receive_expected data t :
  rt_out_of_order t = ∅ ->
  ReliableTransport_receive (rt_next_recv_id t) data t =
    (rt_set_recv (wrap 32 (rt_next_recv_id t + 1)) ∅
       (rt_set_acks (rt_pending_acks t ++ [rt_next_recv_id t]) t), Ok (Some data)).
Proof.
  intros Ho. unfold ReliableTransport_receive. rt_simpl.
  by rewrite Z.eqb_refl, Ho, map_size_empty.
Qed.

Lemma rt_set_recv_twice n1 o1 n2 o2 a t :
  rt_set_recv n2 o2 (rt_set_acks a (rt_set_recv n1 o1 t)) = rt_set_recv n2 o2 (rt_set_acks a t).
Proof. by destruct t. Qed.

Lemma receive_all_in_order datas t :
  rt_out_of_order t = ∅ -> 0 <= rt_next_recv_id t ->
  rt_next_recv_id t + Z.of_nat (length datas) < 2 ^ 32 ->
  receive_all (imap (fun i d => (rt_next_recv_id t + Z.of_nat i, d)) datas) t =
    (rt_set_recv (rt_next_recv_id t + Z.of_nat (length datas)) ∅
       (rt_set_acks (rt_pending_acks t ++
          imap (fun i _ => rt_next_recv_id t + Z.of_nat i) datas) t),
     map (fun d => Ok (Some d)) datas).
Proof.
  revert t. induction datas as [|d datas IH]; intros t Ho H0 Hn.
  - cbn. rewrite app_nil_r, Z.add_0_r. destruct t. simpl in *. by subst.
  - cbn [imap receive_all]. rewrite Z.add_0_r, receive_expected by done.
    rewrite wrap_small by (unfold uint; cbn in *; lia).
    specialize (IH (rt_set_recv (rt_next_recv_id t + 1) ∅
      (rt_set_acks (rt_pending_acks t ++ [rt_next_recv_id t]) t)) eq_refl).
    cbn [rt_next_recv_id rt_set_recv rt_set_acks rt_pending_acks] in IH. cbn in Hn.
    specialize (IH ltac:(lia) ltac:(lia)).
    assert (forall A (f : Z -> bytes -> A), imap (compose (fun i d => f (rt_next_recv_id t + Z.of_nat i) d) S) datas =
      imap (fun i d => f (rt_next_recv_id t + 1 + Z.of_nat i) d) datas) as Hs.
    { intros A f. apply imap_ext. intros i x _. simpl. f_equal. lia. }
    rewrite (Hs _ (fun z d => (z, d))). cbv beta.
    lazymatch goal with
    | |- context [receive_all ?a ?b] => assert (receive_all a b = _) as -> by exact IH
    end.
    rewrite (Hs _ (fun z _ => z)). cbv beta.
    unfold rt_set_recv, rt_set_acks. cbn. rewrite <- app_assoc. cbn.
    do 2 f_equal. lia.
Qed.

(** Packets that arrive in order are delivered, every one, in order, and
    every one is queued for acknowledgement; the next expected id advances
    past them. *)
Theorem receive_in_order_delivers_all (datas : list bytes) (t : ReliableTransport)
    (Hbuf : rt_out_of_order t = ∅) (Hrecv : 0 <= rt_next_recv_id t)
    (Hwrap : rt_next_recv_id t + Z.of_nat (length datas) < 2 ^ 32) :
  let '(t', rs) :=
    receive_all (imap (fun i d => (rt_next_recv_id t + Z.of_nat i, d)) datas) t in
  rs = map (fun d => Ok (Some d)) datas /\
  rt_next_recv_id t' = rt_next_recv_id t + Z.of_nat (length datas) /\
  rt_pending_acks t' =
    rt_pending_acks t ++ imap (fun i _ => rt_next_recv_id t + Z.of_nat i) datas.
Proof. by rewrite receive_all_in_order. Qed.


(** A payload that arrives one place early is acknowledged but never
    delivered: it is buffered, the draining loop discards it when the gap
    closes, and its retransmission is then a duplicate. *)
Lemma receive_loses_reordered_payload (t : ReliableTransport) (d0 d1 : bytes)
    (Hbuf : rt_out_of_order t = ∅) (Hrecv : 0 <= rt_next_recv_id t < 2 ^ 32 - 2) :
  let n := rt_next_recv_id t in
  let '(t', rs) := receive_all [(n + 1, d1); (n, d0); (n + 1, d1)] t in
  rs = [Ok None; Ok (Some d0); Ok None] /\
  rt_next_recv_id t' = n + 2 /\
  rt_out_of_order t' = ∅ /\
  rt_pending_acks t' = rt_pending_acks t ++ [n + 1; n; n + 1].
Proof.
  cbv zeta. cbn [receive_all]. unfold ReliableTransport_receive at 1. rt_simpl.
  rewrite (proj2 (Z.eqb_neq (_ + 1) _)), (proj2 (Z.ltb_lt _ (_ + 1))), Hbuf, map_size_empty by lia.
  cbn [Nat.leb MAX_OUT_OF_ORDER]. unfold ReliableTransport_receive at 1. rt_simpl.
  rewrite Z.eqb_refl, map_size_insert_None, map_size_empty by apply lookup_empty.
  cbn [drain_buffered]. rewrite (wrap_small 32 (rt_next_recv_id t + 1)) by (unfold uint; lia).
  rewrite lookup_insert_eq, delete_insert_id by apply lookup_empty.
  rewrite wrap_small by (unfold uint; lia). unfold ReliableTransport_receive at 1. rt_simpl.
  rewrite (proj2 (Z.eqb_neq _ _)), (proj2 (Z.ltb_ge _ _)) by lia. rt_simpl.
  rewrite <- !app_assoc. split_and!; try done. lia.
Qed.

Lemma receive_loses_reordered_payload_witness :
  snd (receive_all [(0 + 1, [2]); (0, [1]); (0 + 1, [2])]
        (ReliableTransport_new ReliableConfig_default))
  = [Ok None; Ok (Some [1]); Ok None].
Proof.
  pose proof (receive_loses_reordered_payload (ReliableTransport_new ReliableConfig_default)
    [1] [2] eq_refl) as H. specialize (H ltac:(simpl; lia)). exact (proj1 H).
Defined.

(** ** Reassembly *)

(** The length the header of a record announces. *)
Definition announced (b : bytes) : nat :=
  match b with
  | _ :: _ :: _ :: b3 :: b4 :: _ => Z.to_nat (from_be [b3; b4])
  | _ => 0%nat
  end.

Definition complete_record (r : bytes) : Prop :=
  (5 <= length r)%nat /\ (length r = 5 + announced r)%nat.
Definition incomplete (b : bytes) : Prop :=
  (length b < 5)%nat \/ (length b < 5 + announced b)%nat.

Lemma announced_idx b : (5 <= length b)%nat ->
  exists b3 b4, idx (E := ProtocolError) b 3 = Ok b3 /\ idx (E := ProtocolError) b 4 = Ok b4 /\
    announced b = Z.to_nat (from_be [b3; b4]).
Proof. intros Hl. destruct b as [|? [|? [|? [|b3 [|b4 b]]]]]; simpl in Hl; try lia. by exists b3, b4. Qed.

Lemma announced_app b c : (5 <= length b)%nat -> announced (b ++ c) = announced b.
Proof. intros Hl. destruct b as [|? [|? [|? [|b3 [|b4 b]]]]]; simpl in *; done || lia. Qed.

(** The loop splits the buffer into complete records and an incomplete rest. *)
Lemma extract_loop_spec fuel b : (length b <= fuel)%nat ->
  exists records rest, extract_loop fuel b = Ok (records, rest) /\
    b = concat records ++ rest /\ Forall complete_record records /\ incomplete rest.
Proof.
  revert b. induction fuel as [|f IH]; intros b Hf; cbn [extract_loop].
  - exists [], b. split_and!; [done|done|by constructor|left; lia].
  - destruct (Nat.leb_spec 5 (length b)) as [Hl|Hl].
    2: { exists [], b. split_and!; [done|done|by constructor|left; lia]. }
    destruct (announced_idx b) as (b3 & b4 & -> & -> & Ha); [lia|]. rsimp. rewrite <- Ha.
    destruct (Nat.ltb_spec (length b) (5 + announced b)) as [Hi|Hc].
    { exists [], b. split_and!; [done|done|by constructor|right; lia]. }
    set (k := (5 + announced b)%nat) in *.
    assert (length (take k b) = k) as Hk by (rewrite length_take; lia).
    destruct (IH (drop k b)) as (rs & rest & -> & Hb & Hrs & Hi).
    { rewrite length_drop. unfold k. lia. }
    rsimp. eexists _, _. split; [done|]. split; [|split; [|done]].
    + cbn [concat]. by rewrite <- app_assoc, <- Hb, take_drop.
    + constructor; [|done]. split; [unfold k in *; lia|]. rewrite Hk. unfold k at 1. f_equal.
      rewrite <- (take_drop k b) at 1. apply announced_app. unfold k in *. lia.
Qed.

(** Such a splitting is unique. *)
Lemma records_unique rs1 rest1 rs2 rest2 :
  Forall complete_record rs1 -> Forall complete_record rs2 ->
  incomplete rest1 -> incomplete rest2 ->
  concat rs1 ++ rest1 = concat rs2 ++ rest2 -> rs1 = rs2 /\ rest1 = rest2.
Proof.
  assert (forall r b rest, complete_record r -> incomplete rest -> rest <> r ++ b) as Hno.
  { intros r b rest [Hl Ha] Hi ->. destruct Hi as [Hi|Hi]; rewrite length_app in Hi; [lia|].
    rewrite announced_app in Hi by done. lia. }
  intros H1. revert rs2. induction H1 as [|r1 rs1 Hr1 H1 IH]; intros rs2 H2 Hi1 Hi2 He.
  - destruct H2 as [|r2 rs2 Hr2 H2]; [done|]. cbn in He. rewrite <- app_assoc in He.
    by apply Hno in He.
  - destruct H2 as [|r2 rs2 Hr2 H2]; cbn in He.
    { rewrite <- app_assoc in He. symmetry in He. by apply Hno in He. }
    rewrite <- !app_assoc in He.
    assert (length r1 = length r2) as Hl.
    { destruct Hr1 as [Hl1 Ha1], Hr2 as [Hl2 Ha2]. rewrite Ha1, Ha2. f_equal.
      rewrite <- (announced_app r1 (concat rs1 ++ rest1)) by done.
      rewrite <- (announced_app r2 (concat rs2 ++ rest2)) by done. by rewrite He. }
    apply app_inj_1 in He as [-> He]; [|done].
    by destruct (IH rs2 H2 Hi1 Hi2 He) as [-> ->].
Qed.

Lemma incomplete_extract b : incomplete b ->
  extract_loop (length b) b = Ok ([], b).
Proof.
  intros Hi. destruct (extract_loop_spec (length b) b) as (rs & rest & -> & Hb & Hrs & Hi'); [done|].
  destruct (records_unique [] b rs rest) as [<- <-]; done || by constructor.
Qed.

(** Feeding a sequence of fragments, extracting after each one. *)
Fixpoint feed (chunks : list bytes) (r : TlsRecordReassembler) :
    TlsRecordReassembler * res ProtocolError (list bytes) :=
  match chunks with
  | [] => (r, Ok [])
  | c :: chunks' =>
      match TlsRecordReassembler_add c r with
      | (r1, Ok _) =>
          match TlsRecordReassembler_extract_records r1 with
          | (r2, Ok records) =>
              match feed chunks' r2 with
              | (r3, Ok more) => (r3, Ok (records ++ more))
              | other => other
              end
          | (r2, Err e) => (r2, Err e)
          | (r2, Panic) => (r2, Panic)
          end
      | (r1, Err e) => (r1, Err e)
      | (r1, Panic) => (r1, Panic)
      end
  end.

Lemma feed_spec chunks r :
  incomplete (tr_buffer r) ->
  (length (tr_buffer r) + length (concat chunks) <= tr_max_size r)%nat ->
  exists records rest, feed chunks r = (mkReassembler rest (tr_max_size r), Ok records) /\
    tr_buffer r ++ concat chunks = concat records ++ rest /\
    Forall complete_record records /\ incomplete rest.
Proof.
  revert r. induction chunks as [|c chunks IH]; intros r Hi Hmax; cbn [feed].
  - exists [], (tr_buffer r). cbn. rewrite app_nil_r. destruct r. by split_and!.
  - cbn [concat] in *. rewrite length_app in Hmax.
    unfold TlsRecordReassembler_add. rewrite (proj2 (Nat.ltb_ge _ _)) by lia.
    unfold TlsRecordReassembler_extract_records. cbn [tr_buffer tr_max_size].
    destruct (extract_loop_spec (length (tr_buffer r ++ c)) (tr_buffer r ++ c))
      as (rs & rest & -> & Hb & Hrs & Hi'); [done|].
    assert (length rest <= length (tr_buffer r) + length c)%nat.
    { rewrite <- length_app, Hb, length_app. lia. }
    destruct (IH (mkReassembler rest (tr_max_size r)))
      as (more & rest' & He & Hb' & Hmore & Hi''); [done|cbn; lia|]. cbn in He, Hb'.
    rewrite He. exists (rs ++ more), rest'. split; [done|]. split; [|split; [|done]].
    + rewrite app_assoc, Hb, <- app_assoc, Hb', concat_app. by rewrite app_assoc.
    + by apply Forall_app.
Qed.

(** C16: however the TLS byte stream is cut into fragments, the reassembler
    returns the same complete records, in order, byte for byte, and keeps the
    same incomplete rest as if the whole stream had arrived at once; nothing
    panics while the stream fits the buffer. *)
Theorem reassembly_fragmentation_independent (chunks : list bytes) (max_size : nat)
    (Hmax : (length (concat chunks) <= max_size)%nat) :
  feed chunks (TlsRecordReassembler_new max_size) =
    feed [concat chunks] (TlsRecordReassembler_new max_size) /\
  exists records rest,
    feed chunks (TlsRecordReassembler_new max_size) = (mkReassembler rest max_size, Ok records) /\
    concat chunks = concat records ++ rest /\
    Forall complete_record records /\ incomplete rest.
Proof.
  assert (incomplete (tr_buffer (TlsRecordReassembler_new max_size))) as Hi by (left; cbn; lia).
  destruct (feed_spec chunks (TlsRecordReassembler_new max_size) Hi Hmax)
    as (rs1 & rest1 & He1 & Hb1 & Hr1 & Hi1).
  destruct (feed_spec [concat chunks] (TlsRecordReassembler_new max_size) Hi)
    as (rs2 & rest2 & He2 & Hb2 & Hr2 & Hi2); [cbn; by rewrite app_nil_r|].
  cbn in Hb1, Hb2. rewrite app_nil_r in Hb2.
  destruct (records_unique rs1 rest1 rs2 rest2) as [-> ->]; [done..|congruence|].
  rewrite He1, He2. split; [done|]. exists rs2, rest2. by split_and!.
Qed.

Lemma reassembly_fragmentation_independent_witness :
  feed [[22; 3]; [3; 0; 2; 7]; [8; 21; 3; 3]] (TlsRecordReassembler_new 64) =
    feed [[22; 3; 3; 0; 2; 7; 8; 21; 3; 3]] (TlsRecordReassembler_new 64) /\
  snd (feed [[22; 3]; [3; 0; 2; 7]; [8; 21; 3; 3]] (TlsRecordReassembler_new 64))
    = Ok [[22; 3; 3; 0; 2; 7; 8]].
Proof.
  split; [|vm_compute; reflexivity].
  apply (reassembly_fragmentation_independent [[22; 3]; [3; 0; 2; 7]; [8; 21; 3; 3]] 64).
  simpl. lia.
Defined.
