(* ===== verification/Cipher.v ===== *)
(** * Data channel cipher

    [CipherSuite], [DataChannelKey], [Cipher] and [PacketCipher] of
    src/crates/corevpn-crypto/src/cipher.rs.  The AEADs themselves (crates
    [aes-gcm] and [chacha20poly1305]) are an interface, [Aead], with what the
    code relies on as its laws, [AeadLaws].  The diagnostics on standard error
    are not modelled. *)
From S2P Require Import Prelude Errors Replay.
Local Open Scope Z_scope.

Inductive CipherSuite := ChaCha20Poly1305 | Aes256Gcm.
#[export] Instance CipherSuite_eq_dec : EqDecision CipherSuite.
Proof. solve_decision. Defined.

Definition CipherSuite_default : CipherSuite := ChaCha20Poly1305.
Definition KEY_SIZE : nat := 32.
Definition NONCE_SIZE : nat := 12.
Definition TAG_SIZE : nat := 16.
Definition PACKET_ID_SIZE : nat := 4.

(** ** The AEAD interface *)
Class Aead := {
  aead_encrypt : CipherSuite -> bytes -> bytes -> bytes -> bytes -> option bytes;
  aead_decrypt : CipherSuite -> bytes -> bytes -> bytes -> bytes -> option bytes;
}.

(** The output is the ciphertext, as long as the message, and a 16-byte tag;
    decryption inverts encryption; encryption succeeds below the length
    limits of both AEADs. *)
Class AeadLaws (A : Aead) : Prop := {
  aead_encrypt_length s k n m a c :
    aead_encrypt s k n m a = Some c -> length c = (length m + TAG_SIZE)%nat;
  aead_decrypt_encrypt s k n m a c :
    aead_encrypt s k n m a = Some c -> aead_decrypt s k n c a = Some m;
  aead_encrypt_total s k n m a :
    length k = KEY_SIZE -> length n = NONCE_SIZE ->
    Z.of_nat (length m) <= 2 ^ 32 -> Z.of_nat (length a) <= 2 ^ 32 ->
    is_Some (aead_encrypt s k n m a);
}.

(** ** Keys *)
Record DataChannelKey := mkDataKey {
  dk_key : bytes;
  dk_implicit_iv : bytes;
  dk_cipher_suite : CipherSuite;
}.

Definition DataChannelKey_new (key : bytes) (suite : CipherSuite) : DataChannelKey :=
  mkDataKey key (replicate 12 0) suite.
Definition DataChannelKey_new_with_iv (key implicit_iv : bytes) (suite : CipherSuite) :
    DataChannelKey :=
  mkDataKey key implicit_iv suite.

(** ** Ciphers: the key schedule is a function of the key *)
Record Cipher := mkCipher { ci_key : bytes; ci_suite : CipherSuite }.

Definition Cipher_new (key : bytes) (suite : CipherSuite) : Cipher := mkCipher key suite.
Definition DataChannelKey_cipher (k : DataChannelKey) : Cipher :=
  Cipher_new (dk_key k) (dk_cipher_suite k).

Section Cipher.
Context {AEAD : Aead}.

Definition Cipher_encrypt (c : Cipher) (nonce plaintext aad : bytes) : res CryptoError bytes :=
  match ci_suite c with
  | ChaCha20Poly1305 =>
      ok_or (aead_encrypt ChaCha20Poly1305 (ci_key c) nonce plaintext aad)
        (EncryptionFailed (lit "ChaCha20-Poly1305 encryption failed"))
  | Aes256Gcm =>
      ok_or (aead_encrypt Aes256Gcm (ci_key c) nonce plaintext aad)
        (EncryptionFailed (lit "AES-256-GCM encryption failed"))
  end.

Definition Cipher_encrypt_into (c : Cipher) (nonce plaintext aad out : bytes) :
    res CryptoError (bytes * nat) :=
  let start_len := length out in
  ciphertext ← Cipher_encrypt c nonce plaintext aad;
  let out := out ++ ciphertext in
  Ok (out, (length out - start_len)%nat).

Definition Cipher_decrypt (c : Cipher) (nonce ciphertext aad : bytes) : res CryptoError bytes :=
  ok_or (aead_decrypt (ci_suite c) (ci_key c) nonce ciphertext aad) DecryptionFailed.

(** ** Packet cipher *)
Record PacketCipher := mkPacketCipher {
  pc_cipher : Cipher;
  pc_implicit_iv : bytes;
  pc_tx_counter : Z;
  pc_rx_window : ReplayWindow;
  pc_debug_key_prefix : bytes;
}.

Definition pc_set_tx (n : Z) (c : PacketCipher) : PacketCipher :=
  mkPacketCipher (pc_cipher c) (pc_implicit_iv c) n (pc_rx_window c) (pc_debug_key_prefix c).
Definition pc_set_rx (w : ReplayWindow) (c : PacketCipher) : PacketCipher :=
  mkPacketCipher (pc_cipher c) (pc_implicit_iv c) (pc_tx_counter c) w (pc_debug_key_prefix c).

Definition PacketCipher_new (key : DataChannelKey) : PacketCipher :=
  mkPacketCipher (DataChannelKey_cipher key) (dk_implicit_iv key) 0 ReplayWindow_new
    (take 8 (dk_key key)).

(** The first four bytes of the IV, XORed with the packet id. *)
Definition PacketCipher_build_nonce (c : PacketCipher) (pid_bytes : bytes) : bytes :=
  zip_with Z.lxor (take 4 (pc_implicit_iv c)) pid_bytes ++ drop 4 (pc_implicit_iv c).

(** [tx_counter.checked_add(1)]. *)
Definition next_counter (n : Z) : option Z := if n + 1 <? 2 ^ 32 then Some (n + 1) else None.

(** [packet_id || tag || ciphertext] from [ciphertext || tag]; [len - 16]
    underflows when the AEAD returned less than a tag, and the slice panics. *)
Definition reorder (pid_bytes ct_tag : bytes) : res CryptoError bytes :=
  if (length ct_tag <? TAG_SIZE)%nat then Panic else
  let ct_len := (length ct_tag - TAG_SIZE)%nat in
  ciphertext ← slice ct_tag 0 ct_len;
  tag ← slice_from ct_tag ct_len;
  Ok (pid_bytes ++ tag ++ ciphertext).

Definition PacketCipher_encrypt (plaintext ad_prefix : bytes) : M PacketCipher CryptoError bytes :=
  fun c =>
  match next_counter (pc_tx_counter c) with
  | None => (c, Err (EncryptionFailed (lit "packet counter overflow")))
  | Some n =>
      let c := pc_set_tx n c in
      let pid_bytes := to_be 4 (pc_tx_counter c) in
      let nonce := PacketCipher_build_nonce c pid_bytes in
      let aad := ad_prefix ++ pid_bytes in
      (c, ct_tag ← Cipher_encrypt (pc_cipher c) nonce plaintext aad; reorder pid_bytes ct_tag)
  end.

Definition PacketCipher_encrypt_into (plaintext ad_prefix output : bytes) :
    M PacketCipher CryptoError (bytes * nat) :=
  fun c =>
  match next_counter (pc_tx_counter c) with
  | None => (c, Err (EncryptionFailed (lit "packet counter overflow")))
  | Some n =>
      let c := pc_set_tx n c in
      let pid_bytes := to_be 4 (pc_tx_counter c) in
      let nonce := PacketCipher_build_nonce c pid_bytes in
      let aad := ad_prefix ++ pid_bytes in
      (c, ct_tag ← Cipher_encrypt (pc_cipher c) nonce plaintext aad;
          let total := (PACKET_ID_SIZE + length ct_tag)%nat in
          packet ← reorder pid_bytes ct_tag;
          Ok (output ++ packet, total))
  end.

Definition PacketCipher_decrypt (packet ad_prefix : bytes) : M PacketCipher CryptoError bytes :=
  fun c =>
  if (length packet <? PACKET_ID_SIZE + TAG_SIZE)%nat then (c, Err DecryptionFailed) else
  match slice packet 0 4 with
  | Ok pid_bytes =>
      let counter := from_be pid_bytes in
      let '(w, fresh) := data_check_and_update (pc_rx_window c) counter in
      let c := pc_set_rx w c in
      if negb fresh then (c, Err CryptoReplayDetected) else
      let nonce := PacketCipher_build_nonce c pid_bytes in
      let aad := ad_prefix ++ pid_bytes in
      (c, tag ← slice packet PACKET_ID_SIZE (PACKET_ID_SIZE + TAG_SIZE);
          ct ← slice_from packet (PACKET_ID_SIZE + TAG_SIZE);
          let ct_tag_reordered := ct ++ tag in
          ct_tag_end ← slice_from packet PACKET_ID_SIZE;
          match Cipher_decrypt (pc_cipher c) nonce ct_tag_end aad with
          | Ok plaintext => Ok plaintext
          | Err _ => Cipher_decrypt (pc_cipher c) nonce ct_tag_reordered aad
          | Panic => Panic
          end)
  | Err e => (c, Err e)
  | Panic => (c, Panic)
  end.

Definition PacketCipher_tx_counter (c : PacketCipher) : Z := pc_tx_counter c.

End Cipher.

(** ** A concrete AEAD, to instantiate the interface

    The ciphertext is the message and the tag a polynomial hash of all
    inputs: no secrecy, but it satisfies the laws. *)
Definition toy_tag (s : CipherSuite) (k n m a : bytes) : bytes :=
  to_be 16 (fold_left (fun h b => (h * 257 + b + 1) mod (2 ^ 127 - 1))
              (k ++ n ++ m ++ a ++ [Z.of_nat (length m); if decide (s = Aes256Gcm) then 1 else 0]) 7).

Lemma toy_tag_length s k n m a : length (toy_tag s k n m a) = TAG_SIZE.
Proof. apply to_be_length. Qed.

Definition toy_aead : Aead := {|
  aead_encrypt s k n m a := Some (m ++ toy_tag s k n m a);
  aead_decrypt s k n c a :=
    if (length c <? TAG_SIZE)%nat then None else
    let m := take (length c - TAG_SIZE) c in
    if decide (drop (length c - TAG_SIZE) c = toy_tag s k n m a) then Some m else None;
|}.

Lemma toy_aead_laws : AeadLaws toy_aead.
Proof.
  split; simpl.
  - intros s k n m a c [= <-]. by rewrite length_app, toy_tag_length.
  - intros s k n m a c [= <-]. rewrite length_app, toy_tag_length.
    rewrite (proj2 (Nat.ltb_ge _ _)), Nat.add_sub, take_app_length, drop_app_length by lia.
    by rewrite decide_True.
  - by eauto.
Qed.

(** ** Lemmas *)
Section CipherLemmas.
Context {AEAD : Aead} {LAWS : AeadLaws AEAD}.
Implicit Types (c : PacketCipher).

(** A cipher whose arrays have their Rust sizes. *)
Definition cipher_wf (c : PacketCipher) : Prop :=
  length (ci_key (pc_cipher c)) = KEY_SIZE /\
  length (pc_implicit_iv c) = NONCE_SIZE /\ bytes_ok (pc_implicit_iv c) /\
  u32 (pc_tx_counter c).

Lemma build_nonce_length c pid :
  length (pc_implicit_iv c) = NONCE_SIZE -> length pid = 4%nat ->
  length (PacketCipher_build_nonce c pid) = NONCE_SIZE.
Proof.
  intros Hiv Hp. unfold PacketCipher_build_nonce, NONCE_SIZE in *.
  rewrite length_app, length_zip_with, length_take, length_drop. lia.
Qed.

Lemma zip_lxor_inj (k x y : bytes) :
  length x = length k -> length y = length k ->
  zip_with Z.lxor k x = zip_with Z.lxor k y -> x = y.
Proof.
  revert x y. induction k as [|b k IH]; intros [|b1 x] [|b2 y] Hx Hy He; simplify_eq/=; [done|].
  f_equal; [|by apply IH].
  match goal with H : Z.lxor _ _ = Z.lxor _ _ |- _ => apply (f_equal (Z.lxor b)) in H end.
  rewrite <- !Z.lxor_assoc, !Z.lxor_nilpotent, !Z.lxor_0_l in *. done.
Qed.

(** Distinct packet ids give distinct nonces. *)
Lemma build_nonce_inj c p1 p2 :
  length (pc_implicit_iv c) = NONCE_SIZE -> length p1 = 4%nat -> length p2 = 4%nat ->
  PacketCipher_build_nonce c p1 = PacketCipher_build_nonce c p2 -> p1 = p2.
Proof.
  intros Hiv H1 H2 He. unfold PacketCipher_build_nonce in He.
  assert (length (take 4 (pc_implicit_iv c)) = 4)%nat as Hl.
  { rewrite length_take, Hiv. done. }
  apply app_inj_1 in He as [He _]; [|rewrite !length_zip_with; lia].
  apply zip_lxor_inj in He; [done|lia..].
Qed.

Lemma Cipher_encrypt_ok ci nonce m a :
  length (ci_key ci) = KEY_SIZE -> length nonce = NONCE_SIZE ->
  Z.of_nat (length m) <= 2 ^ 32 -> Z.of_nat (length a) <= 2 ^ 32 ->
  exists ct tag, aead_encrypt (ci_suite ci) (ci_key ci) nonce m a = Some (ct ++ tag) /\
    Cipher_encrypt ci nonce m a = Ok (ct ++ tag) /\
    length ct = length m /\ length tag = TAG_SIZE.
Proof.
  intros Hk Hn Hm Ha.
  destruct (aead_encrypt_total (ci_suite ci) _ _ m a Hk Hn Hm Ha) as [c Hc].
  pose proof (aead_encrypt_length _ _ _ _ _ _ Hc) as Hl.
  exists (take (length m) c), (drop (length m) c). rewrite take_drop. split_and!; [done| | |].
  - unfold Cipher_encrypt. destruct (ci_suite ci); by rewrite Hc.
  - rewrite length_take. lia.
  - rewrite length_drop. lia.
Qed.

Lemma reorder_ok pid ct tag :
  length tag = TAG_SIZE -> reorder pid (ct ++ tag) = Ok (pid ++ tag ++ ct).
Proof.
  intros Ht. unfold reorder. rewrite length_app, Ht.
  rewrite (proj2 (Nat.ltb_ge _ _)), Nat.add_sub by lia.
  rewrite (slice_at (ct ++ tag) [] ct tag 0 (length ct)) by done. rsimp.
  by rewrite (slice_from_at (ct ++ tag) ct tag).
Qed.

(** One successful encryption: the id counts up, and the packet carries the
    AEAD's output for the nonce built from that id. *)
Lemma encrypt_spec c m ad :
  cipher_wf c -> pc_tx_counter c + 1 < 2 ^ 32 ->
  Z.of_nat (length m) <= 2 ^ 32 -> Z.of_nat (length ad) + 4 <= 2 ^ 32 ->
  let pid := to_be 4 (pc_tx_counter c + 1) in
  exists ct tag,
    aead_encrypt (ci_suite (pc_cipher c)) (ci_key (pc_cipher c))
      (PacketCipher_build_nonce c pid) m (ad ++ pid) = Some (ct ++ tag) /\
    length ct = length m /\ length tag = TAG_SIZE /\
    PacketCipher_encrypt m ad c = (pc_set_tx (pc_tx_counter c + 1) c, Ok (pid ++ tag ++ ct)).
Proof.
  intros (Hk & Hiv & _ & Htx) Hn Hm Ha pid.
  destruct (Cipher_encrypt_ok (pc_cipher c) (PacketCipher_build_nonce c pid) m (ad ++ pid))
    as (ct & tag & He & Hce & Hl & Ht); [done| |done| |].
  { apply build_nonce_length; [done|apply to_be_length]. }
  { unfold pid. rewrite length_app, to_be_length. lia. }
  exists ct, tag. split_and!; try done.
  unfold PacketCipher_encrypt, next_counter. rewrite (proj2 (Z.ltb_lt _ _)) by done. cbv zeta.
  change (pc_tx_counter (pc_set_tx _ c)) with (pc_tx_counter c + 1). fold pid.
  change (PacketCipher_build_nonce (pc_set_tx _ c) pid) with (PacketCipher_build_nonce c pid).
  change (pc_cipher (pc_set_tx _ c)) with (pc_cipher c).
  by rewrite Hce, bind_of_Ok with (a := ct ++ tag), reorder_ok.
Qed.

(** What [decrypt] does with [pid || tag || ct] depends on the id through the
    window and otherwise on the AEAD. *)
Lemma decrypt_spec c pid tag ct ad :
  length pid = 4%nat -> length tag = TAG_SIZE ->
  PacketCipher_decrypt (pid ++ tag ++ ct) ad c =
  let '(w, fresh) := data_check_and_update (pc_rx_window c) (from_be pid) in
  (pc_set_rx w c,
   if negb fresh then Err CryptoReplayDetected
   else match Cipher_decrypt (pc_cipher c) (PacketCipher_build_nonce c pid) (tag ++ ct) (ad ++ pid) with
        | Ok m => Ok m
        | Err _ => Cipher_decrypt (pc_cipher c) (PacketCipher_build_nonce c pid) (ct ++ tag) (ad ++ pid)
        | Panic => Panic
        end).
Proof.
  intros Hp Ht. unfold PacketCipher_decrypt.
  rewrite (proj2 (Nat.ltb_ge _ _)) by (rewrite !length_app; unfold PACKET_ID_SIZE; lia).
  rewrite (slice_at (pid ++ tag ++ ct) [] pid (tag ++ ct) 0 4) by (done || lia).
  destruct (data_check_and_update _ _) as [w fresh]. cbv zeta. destruct fresh; [|done]. simpl negb.
  f_equal. unfold PACKET_ID_SIZE, TAG_SIZE in *.
  rewrite (slice_at (pid ++ tag ++ ct) pid tag ct 4 (4 + 16)) by (done || lia). rsimp.
  rewrite (slice_from_at (pid ++ tag ++ ct) (pid ++ tag) ct (4 + 16))
    by (rewrite <- ?app_assoc, ?length_app; done || lia). rsimp.
  by rewrite (slice_from_at (pid ++ tag ++ ct) pid (tag ++ ct) 4).
Qed.

(** [decrypt] does not panic, whatever the packet. *)
Lemma decrypt_no_panic c packet ad : no_panic (snd (PacketCipher_decrypt packet ad c)).
Proof.
  unfold PacketCipher_decrypt.
  destruct (Nat.ltb_spec (length packet) (PACKET_ID_SIZE + TAG_SIZE)) as [|Hl]; [done|].
  unfold PACKET_ID_SIZE, TAG_SIZE in *. rewrite slice_ok by lia.
  destruct (data_check_and_update _ _) as [w []]; cbv zeta; cbn [negb snd]; [|done].
  rewrite slice_ok by lia. rsimp. rewrite slice_from_ok by lia. rsimp.
  rewrite slice_from_ok by lia. rsimp. unfold Cipher_decrypt.
  destruct (aead_decrypt _ _ _ _ _); cbn [ok_or]; [done|].
  by destruct (aead_decrypt _ _ _ _ _).
Qed.

(** Decryption changes only the window. *)
Lemma decrypt_state c packet ad :
  exists w, fst (PacketCipher_decrypt packet ad c) = pc_set_rx w c.
Proof.
  assert (c = pc_set_rx (pc_rx_window c) c) as Hc by (by destruct c).
  unfold PacketCipher_decrypt. destruct (_ <? _)%nat; [by eexists|].
  destruct (slice _ _ _); [|by eexists..]. destruct (data_check_and_update _ _) as [w fresh].
  destruct (negb fresh); by eexists.
Qed.

(** ** Streams of packets *)
Fixpoint encrypt_all (ms : list bytes) (ad : bytes) (c : PacketCipher) :
    PacketCipher * res CryptoError (list bytes) :=
  match ms with
  | [] => (c, Ok [])
  | m :: ms' =>
      match PacketCipher_encrypt m ad c with
      | (c1, Ok p) =>
          match encrypt_all ms' ad c1 with
          | (c2, Ok ps) => (c2, Ok (p :: ps))
          | other => other
          end
      | (c1, Err e) => (c1, Err e)
      | (c1, Panic) => (c1, Panic)
      end
  end.

Fixpoint decrypt_all (packets : list bytes) (ad : bytes) (c : PacketCipher) :
    PacketCipher * list (res CryptoError bytes) :=
  match packets with
  | [] => (c, [])
  | p :: packets' =>
      let '(c1, r) := PacketCipher_decrypt p ad c in
      let '(c2, rs) := decrypt_all packets' ad c1 in (c2, r :: rs)
  end.

(** The packet [encrypt] makes of the message with id [i]. *)
Record packet_of (ci : Cipher) (iv ad : bytes) (i : Z) (m p : bytes) : Prop := {
  po_pid : u32 i;
  po_parts : exists ct tag,
    p = to_be 4 i ++ tag ++ ct /\ length tag = TAG_SIZE /\
    aead_encrypt (ci_suite ci) (ci_key ci)
      (PacketCipher_build_nonce (mkPacketCipher ci iv 0 ReplayWindow_new []) (to_be 4 i))
      m (ad ++ to_be 4 i) = Some (ct ++ tag);
}.

Lemma build_nonce_iv c pid :
  PacketCipher_build_nonce c pid =
  PacketCipher_build_nonce (mkPacketCipher (pc_cipher c) (pc_implicit_iv c) 0 ReplayWindow_new []) pid.
Proof. done. Qed.

Lemma encrypt_all_ok ms ad c :
  cipher_wf c -> pc_tx_counter c + Z.of_nat (length ms) < 2 ^ 32 ->
  Forall (fun m : bytes => Z.of_nat (length m) <= 2 ^ 32) ms -> Z.of_nat (length ad) + 4 <= 2 ^ 32 ->
  exists ps, encrypt_all ms ad c =
      (pc_set_tx (pc_tx_counter c + Z.of_nat (length ms)) c, Ok ps) /\
    length ps = length ms /\
    (forall i m p, ms !! i = Some m -> ps !! i = Some p ->
       packet_of (pc_cipher c) (pc_implicit_iv c) ad (pc_tx_counter c + 1 + Z.of_nat i) m p).
Proof.
  revert c. induction ms as [|m ms IH]; intros c Hwf Hn Hms Ha.
  - exists []. split_and!; [|done|intros ? ? ? Hm; by rewrite lookup_nil in Hm].
    cbn. rewrite Z.add_0_r. by destruct c.
  - inv Hms. cbn [length] in Hn.
    destruct (encrypt_spec c m ad Hwf) as (ct & tag & He & Hct & Ht & Henc); [lia|done..|].
    cbn [encrypt_all]. rewrite Henc. set (c1 := pc_set_tx (pc_tx_counter c + 1) c).
    assert (cipher_wf c1) as Hwf1.
    { destruct Hwf as (? & ? & ? & Hu). split_and!; try done.
      unfold uint in *. cbn [c1 pc_set_tx pc_tx_counter]. lia. }
    destruct (IH c1 Hwf1) as (ps & Hps & Hl & Hrel); [cbn; lia|done..|].
    rewrite Hps. eexists (_ :: ps). split; [|split; [cbn; by rewrite Hl|]].
    + replace (pc_tx_counter c + Z.of_nat (length (m :: ms)))
        with (pc_tx_counter c1 + Z.of_nat (length ms)) by (cbn; lia). done.
    + intros [|i] mi p Hm Hp; simplify_eq/=.
      * rewrite Z.add_0_r. split; [destruct Hwf as (_&_&_&Hu); unfold uint in *; lia|].
        by exists ct, tag.
      * specialize (Hrel i mi p Hm Hp). cbn in Hrel.
        by replace (pc_tx_counter c + 1 + Z.of_nat (S i))
          with (pc_tx_counter c + 1 + 1 + Z.of_nat i) by lia.
Qed.

(** No other reading: trying the tag at the wrong end does not produce a
    different message.  For a packet made by [encrypt] this fails only when
    the AEAD is forged by chance. *)
Definition unambiguous (ci : Cipher) (iv ad : bytes) (i : Z) (m p : bytes) : Prop :=
  forall m', aead_decrypt (ci_suite ci) (ci_key ci)
    (PacketCipher_build_nonce (mkPacketCipher ci iv 0 ReplayWindow_new []) (to_be 4 i))
    (drop 4 p) (ad ++ to_be 4 i) = Some m' -> m' = m.

(** A genuine packet decrypts to its message when the window lets it through. *)
Lemma decrypt_genuine c ad i m p :
  packet_of (pc_cipher c) (pc_implicit_iv c) ad i m p ->
  unambiguous (pc_cipher c) (pc_implicit_iv c) ad i m p ->
  PacketCipher_decrypt p ad c =
  let '(w, fresh) := data_check_and_update (pc_rx_window c) i in
  (pc_set_rx w c, if fresh then Ok m else Err CryptoReplayDetected).
Proof.
  intros [Hi (ct & tag & -> & Ht & He)] Hun. unfold unambiguous in Hun.
  rewrite drop_app_length' in Hun by (by rewrite to_be_length).
  rewrite decrypt_spec by (done || apply to_be_length). rewrite from_to_be by done.
  destruct (data_check_and_update _ _) as [w []]; cbn [negb]; [|done]. f_equal.
  unfold Cipher_decrypt. rewrite (build_nonce_iv c).
  destruct (aead_decrypt _ _ _ (tag ++ ct) _) as [m'|] eqn:Hd; cbn [ok_or].
  - by rewrite (Hun m').
  - by rewrite (aead_decrypt_encrypt _ _ _ _ _ _ He).
Qed.

Lemma decrypt_all_genuine c ad (l : list (Z * bytes * bytes)) :
  Forall (fun '(i, m, p) => packet_of (pc_cipher c) (pc_implicit_iv c) ad i m p /\
    unambiguous (pc_cipher c) (pc_implicit_iv c) ad i m p) l ->
  snd (decrypt_all (map (fun '(_, _, p) => p) l) ad c) =
  zip_with (fun '(_, m, _) (fresh : bool) => if fresh then Ok m else Err CryptoReplayDetected)
    l (verdicts 128 (pc_rx_window c) (map (fun '(i, _, _) => i) l)).
Proof.
  revert c. induction l as [|[[i m] p] l IH]; intros c Hl; [done|]. inv Hl.
  cbn [map decrypt_all verdicts]. rewrite decrypt_genuine with (i := i) (m := m) by naive_solver.
  unfold data_check_and_update. destruct (check_and_update 128 _ i) as [w fresh].
  specialize (IH (pc_set_rx w c)). destruct (decrypt_all _ _ _) as [c2 rs].
  cbn in *. f_equal. by apply IH.
Qed.

(** ** Claims on the data channel cipher *)

(** C13: end to end over a network that reorders, duplicates and loses
    packets: a fresh sender encrypts the messages [ms]; the network delivers
    the packets at the positions [order] names; a fresh receiver with the same
    key returns, for each delivery, the original message if the replay
    specification accepts its id and [ReplayDetected] otherwise. *)
Theorem data_channel_stream (key : DataChannelKey) (ad : bytes) (ms : list bytes) (order : list nat)
    (Hkey : length (dk_key key) = KEY_SIZE)
    (Hiv : length (dk_implicit_iv key) = NONCE_SIZE /\ bytes_ok (dk_implicit_iv key))
    (Hms : Forall (fun m : bytes => Z.of_nat (length m) <= 2 ^ 32) ms)
    (Hn : Z.of_nat (length ms) < 2 ^ 32) (Had : Z.of_nat (length ad) + 4 <= 2 ^ 32)
    (Horder : Forall (fun i => (i < length ms)%nat) order)
    (Hun : forall ps i m p, snd (encrypt_all ms ad (PacketCipher_new key)) = Ok ps ->
       ms !! i = Some m -> ps !! i = Some p ->
       unambiguous (DataChannelKey_cipher key) (dk_implicit_iv key) ad (Z.of_nat i + 1) m p) :
  exists ps, snd (encrypt_all ms ad (PacketCipher_new key)) = Ok ps /\
    length ps = length ms /\
    snd (decrypt_all (omap (fun i => ps !! i) order) ad (PacketCipher_new key)) =
      zip_with (fun m (fresh : bool) => if fresh then Ok m else Err CryptoReplayDetected)
        (omap (fun i => ms !! i) order)
        (spec_verdicts 128 spec_new (map (fun i => Z.of_nat i + 1) order)).
Proof.
  destruct (encrypt_all_ok ms ad (PacketCipher_new key)) as (ps & He & Hl & Hrel);
    [|cbn; lia|done..|].
  { destruct Hiv. split_and!; try done. }
  exists ps. rewrite He. cbn [snd]. split; [done|]. split; [done|].
  set (l := omap (M := list) (fun i => m ← ms !! i; p ← ps !! i; Some (Z.of_nat i + 1, m, p)) order).
  assert (omap (fun i => ps !! i) order = map (fun '(_, _, p) => p) l /\
          omap (fun i => ms !! i) order = map (fun '(_, m, _) => m) l /\
          map (fun i => Z.of_nat i + 1) order = map (fun '(i, _, _) => i) l /\
          Forall (fun '(i, m, p) => exists k : nat, i = Z.of_nat k + 1 /\
                    ms !! k = Some m /\ ps !! k = Some p) l) as (-> & -> & -> & Hfl).
  { subst l. clear -Horder Hl. induction Horder as [|i order Hi _ IH]; [by repeat constructor|].
    destruct (lookup_lt_is_Some_2 ms i Hi) as [m Hm].
    destruct (lookup_lt_is_Some_2 ps i) as [p Hp]; [lia|].
    destruct IH as (I1 & I2 & I3 & I4).
    csimpl. rewrite Hm, Hp. csimpl. rewrite I1, I2, I3. split_and!; try done.
    constructor; [|done]. by exists i. }
  rewrite decrypt_all_genuine.
  - rewrite <- verdicts_refine with (w := ReplayWindow_new).
    + cbn [pc_rx_window PacketCipher_new].
      clear. generalize ReplayWindow_new. induction l as [|[[i m] p] l IH]; intros w; [done|].
      cbn [map verdicts]. destruct (check_and_update 128 w i) as [w' b]. cbn. f_equal. apply IH.
    + lia.
    + by apply window_new_repr.
    + apply Forall_map. eapply Forall_impl; [exact Hfl|].
      intros [[i m] p] (k & -> & _). simpl. lia.
  - eapply Forall_impl; [exact Hfl|]. intros [[i m] p] (k & -> & Hm & Hp). split.
    + specialize (Hrel k m p Hm Hp). cbn in Hrel.
      by replace (Z.of_nat k + 1) with (0 + 1 + Z.of_nat k) by lia.
    + apply (Hun ps); [by rewrite He|done..].
Qed.

(** C14: the AEAD never sees a nonce twice under one key: for the messages a
    packet cipher encrypts from any state on, there are pairwise distinct
    nonces such that each packet is its id, with the tag and the ciphertext
    that the AEAD returns for the key, that nonce, the message and the
    additional data. *)
Theorem nonces_never_repeat (c : PacketCipher) (ms : list bytes) (ad : bytes)
    (Hwf : cipher_wf c) (Hn : pc_tx_counter c + Z.of_nat (length ms) < 2 ^ 32)
    (Hms : Forall (fun m : bytes => Z.of_nat (length m) <= 2 ^ 32) ms)
    (Had : Z.of_nat (length ad) + 4 <= 2 ^ 32) :
  exists ps nonces, snd (encrypt_all ms ad c) = Ok ps /\
    length ps = length ms /\ length nonces = length ms /\ NoDup nonces /\
    forall k m p nonce, ms !! k = Some m -> ps !! k = Some p -> nonces !! k = Some nonce ->
      exists pid ct tag, p = pid ++ tag ++ ct /\ length pid = 4%nat /\ length tag = TAG_SIZE /\
        aead_encrypt (ci_suite (pc_cipher c)) (ci_key (pc_cipher c)) nonce m (ad ++ pid) = Some (ct ++ tag).
Proof.
  destruct (encrypt_all_ok ms ad c Hwf Hn Hms Had) as (ps & He & Hl & Hrel).
  set (ids := map (fun k => pc_tx_counter c + 1 + Z.of_nat k) (seq 0 (length ms))).
  assert (forall k i, ids !! k = Some i -> i = pc_tx_counter c + 1 + Z.of_nat k /\ u32 i) as Hids.
  { intros k i Hk. unfold ids in Hk. rewrite list_lookup_fmap in Hk.
    apply fmap_Some in Hk as (j & Hj & ->). apply lookup_seq in Hj as [-> Hj]. split; [f_equal; lia|].
    destruct Hwf as (_ & _ & _ & Htx). unfold u32, uint in *. lia. }
  exists ps, (map (fun i => PacketCipher_build_nonce c (to_be 4 i)) ids). rewrite He.
  split; [done|]. split; [done|]. split; [unfold ids; by rewrite !length_map, length_seq|]. split.
  - apply NoDup_alt. intros i j n Hi Hj. rewrite list_lookup_fmap in Hi, Hj.
    apply fmap_Some in Hi as (x & Hi & ->), Hj as (y & Hj & Heq).
    apply Hids in Hi as [Hx Hux], Hj as [Hy Huy].
    apply build_nonce_inj in Heq; [|apply Hwf|by rewrite to_be_length..].
    apply (f_equal from_be) in Heq. rewrite !from_to_be in Heq by done. lia.
  - intros k m p nonce Hm Hp Hk. rewrite list_lookup_fmap in Hk. apply fmap_Some in Hk as (i & Hi & ->).
    apply Hids in Hi as [-> _]. destruct (Hrel k m p Hm Hp) as [_ (ct & tag & -> & Ht & Henc)].
    exists (to_be 4 (pc_tx_counter c + 1 + Z.of_nat k)), ct, tag. split_and!; [done|by rewrite to_be_length|done|].
    by rewrite build_nonce_iv.
Qed.

(** The packet counter cannot wrap: when it is exhausted, [encrypt] and
    [encrypt_into] return an error and change nothing, so no id is reused. *)
Theorem encrypt_counter_exhausted (c : PacketCipher) (m ad out : bytes)
    (Hmax : pc_tx_counter c = 2 ^ 32 - 1) :
  PacketCipher_encrypt m ad c = (c, Err (EncryptionFailed (lit "packet counter overflow"))) /\
  PacketCipher_encrypt_into m ad out c =
    (c, Err (EncryptionFailed (lit "packet counter overflow"))).
Proof.
  unfold PacketCipher_encrypt, PacketCipher_encrypt_into, next_counter.
  by rewrite Hmax.
Qed.

(** [encrypt_into] appends what [encrypt] returns. *)
Lemma encrypt_into_spec c m ad out :
  PacketCipher_encrypt_into m ad out c =
  let '(c', r) := PacketCipher_encrypt m ad c in
  (c', p ← r; Ok (out ++ p, length p)).
Proof.
  unfold PacketCipher_encrypt_into, PacketCipher_encrypt. destruct (next_counter _) as [n|]; [|done].
  cbv zeta. f_equal. destruct (Cipher_encrypt _ _ _ _) as [ct| |]; [|done..]. rsimp.
  unfold reorder, TAG_SIZE. destruct (Nat.ltb_spec (length ct) 16); [done|].
  rewrite slice_ok, slice_from_ok by lia. rsimp.
  rewrite !length_app, to_be_length, length_drop, length_take, length_drop.
  unfold PACKET_ID_SIZE. do 2 f_equal. lia.
Qed.

(** The replay window is updated before the packet is authenticated: an
    attacker who knows no key can send one packet of 20 bytes with id
    [2^32 - 1]; it is rejected, but from then on every genuine packet whose id
    is not among the last 128 ids is rejected as a replay. *)
Lemma forged_packet_blocks_channel (c : PacketCipher) (ad body p : bytes) (i : Z) (m : bytes)
    (Hwin : 0 <= rw_highest (pc_rx_window c) < 2 ^ 32 - 1)
    (Hbody : (16 <= length body)%nat)
    (Hforged : forall nonce ct aad, nonce = PacketCipher_build_nonce c (to_be 4 (2 ^ 32 - 1)) ->
       aead_decrypt (ci_suite (pc_cipher c)) (ci_key (pc_cipher c)) nonce ct aad = None)
    (Hp : packet_of (pc_cipher c) (pc_implicit_iv c) ad i m p) (Hi : 0 < i < 2 ^ 32 - 128) :
  let '(c', r) := PacketCipher_decrypt (to_be 4 (2 ^ 32 - 1) ++ body) ad c in
  r = Err DecryptionFailed /\ snd (PacketCipher_decrypt p ad c') = Err CryptoReplayDetected.
Proof.
  rewrite <- (take_drop 16 body).
  rewrite decrypt_spec by (rewrite ?to_be_length, ?length_take; unfold TAG_SIZE; done || lia).
  rewrite from_to_be by done. unfold data_check_and_update, check_and_update at 1.
  rewrite (proj2 (Z.eqb_neq (2 ^ 32 - 1) 0)), (proj2 (Z.ltb_lt _ _)) by lia.
  cbn [negb]. unfold Cipher_decrypt at 1. rewrite Hforged by done. cbn [ok_or].
  unfold Cipher_decrypt at 1. rewrite Hforged by done. cbn [ok_or]. split; [done|].
  destruct Hp as [Hu (ct & tag & -> & Ht & _)].
  rewrite decrypt_spec by (done || apply to_be_length). rewrite from_to_be by done.
  unfold data_check_and_update, check_and_update.
  cbn [pc_rx_window pc_set_rx rw_highest].
  by rewrite (proj2 (Z.eqb_neq i 0)), (proj2 (Z.ltb_ge _ _)), (proj2 (Z.leb_le _ _)) by lia.
Qed.

End CipherLemmas.

(** ** The claims at concrete inputs *)
#[local] Existing Instance toy_aead.
#[local] Existing Instance toy_aead_laws.

Definition sample_key : DataChannelKey :=
  DataChannelKey_new_with_iv (replicate 32 66) (replicate 12 171) ChaCha20Poly1305.

Lemma sample_key_wf : cipher_wf (PacketCipher_new sample_key).
Proof. split_and!; try done. repeat constructor; unfold uint; lia. Qed.

Lemma data_channel_stream_witness :
  exists ps, snd (encrypt_all [[1]; [2; 2]; [3]] [48] (PacketCipher_new sample_key)) = Ok ps /\
    length ps = 3%nat /\
    snd (decrypt_all (omap (fun i => ps !! i) [1; 0; 1; 2]%nat) [48] (PacketCipher_new sample_key)) =
      [Ok [2; 2]; Ok [1]; Err CryptoReplayDetected; Ok [3]].
Proof.
  destruct (data_channel_stream sample_key [48] [[1]; [2; 2]; [3]] [1; 0; 1; 2]%nat)
    as (ps & H1 & H2 & H3); try done; try lia.
  - split; [done|]. repeat constructor; unfold uint; lia.
  - repeat constructor; simpl; lia.
  - repeat constructor; simpl; lia.
  - intros ps i m p He Hm Hp. vm_compute in He. injection He as <-.
    destruct i as [|[|[|i]]]; [| | |by vm_compute in Hm];
      injection Hm as <-; injection Hp as <-; intros m' Hd; vm_compute in Hd; discriminate Hd.
  - exists ps. split; [done|]. split; [done|]. rewrite H3. vm_compute. reflexivity.
Defined.

Lemma nonces_never_repeat_witness :
  exists ps nonces, snd (encrypt_all [[1]; [2]; [3]] [] (PacketCipher_new sample_key)) = Ok ps /\
    length ps = 3%nat /\ length nonces = 3%nat /\ NoDup nonces /\
    forall k m p nonce, [[1]; [2]; [3]] !! k = Some m -> ps !! k = Some p -> nonces !! k = Some nonce ->
      exists pid ct tag, p = pid ++ tag ++ ct /\ length pid = 4%nat /\ length tag = TAG_SIZE /\
        aead_encrypt (ci_suite (pc_cipher (PacketCipher_new sample_key)))
          (ci_key (pc_cipher (PacketCipher_new sample_key))) nonce m ([] ++ pid) = Some (ct ++ tag).
Proof.
  apply (nonces_never_repeat (PacketCipher_new sample_key) [[1]; [2]; [3]] []).
  - apply sample_key_wf.
  - simpl. lia.
  - repeat constructor; simpl; lia.
  - simpl. lia.
Defined.


(** An AEAD for which the attacker's nonce authenticates nothing. *)
Definition wary_aead : Aead := {|
  aead_encrypt s k n m a := aead_encrypt (Aead := toy_aead) s k n m a;
  aead_decrypt s k n c a :=
    if decide (n = PacketCipher_build_nonce (PacketCipher_new sample_key) (to_be 4 (2 ^ 32 - 1)))
    then None else aead_decrypt (Aead := toy_aead) s k n c a;
|}.

Lemma forged_packet_blocks_channel_witness :
  let forged := to_be 4 (2 ^ 32 - 1) ++ replicate 16 0 in
  let genuine := to_be 4 1 ++ toy_tag ChaCha20Poly1305 (dk_key sample_key)
    (PacketCipher_build_nonce (PacketCipher_new sample_key) (to_be 4 1)) [5] (to_be 4 1) ++ [5] in
  let '(c', r) := PacketCipher_decrypt (AEAD := wary_aead) forged [] (PacketCipher_new sample_key) in
  r = Err DecryptionFailed /\
  snd (PacketCipher_decrypt (AEAD := wary_aead) genuine [] c') = Err CryptoReplayDetected.
Proof.
  cbv zeta. apply (forged_packet_blocks_channel (AEAD := wary_aead) (PacketCipher_new sample_key) []
    (replicate 16 0) _ 1 [5]); try (simpl; lia).
  - intros nonce ct aad ->. cbn [aead_decrypt wary_aead]. by rewrite decide_True.
  - split; [unfold uint; lia|]. eexists [5], _. split; [reflexivity|].
    split; [apply toy_tag_length|]. reflexivity.
Defined.
