(* ===== verification/HmacAuth.v ===== *)
(** * tls-auth and tls-crypt keys

    [HmacAuth] and [TlsCryptKey] of src/crates/corevpn-crypto/src/hmac_auth.rs.
    HMAC (crate [hmac]) is an interface, [Hmac]: [Mac::new_from_slice] takes
    keys of every length, [update] twice is [update] of the concatenation.
    The random nonce of [TlsCryptKey::wrap] is an argument. *)
From S2P Require Import Prelude Errors Text Replay Cipher.

(** ** The HMAC interface *)
Class Hmac := {
  hmac_sha256 : bytes -> bytes -> bytes;
  hmac_sha1 : bytes -> bytes -> bytes;
  hmac_md5 : bytes -> bytes -> bytes;
}.

Class HmacLaws (H : Hmac) : Prop := {
  hmac_sha256_length k m : length (hmac_sha256 k m) = 32;
  hmac_sha1_length k m : length (hmac_sha1 k m) = 20;
  hmac_md5_length k m : length (hmac_md5 k m) = 16;
  hmac_sha256_bytes k m : bytes_ok (hmac_sha256 k m);
  hmac_sha1_bytes k m : bytes_ok (hmac_sha1 k m);
  hmac_md5_bytes k m : bytes_ok (hmac_md5 k m);
}.

(** ** [HmacAuth] *)
Record HmacAuth := mkHmacAuth { ha_tx_key : bytes; ha_rx_key : bytes }.

Definition HMAC_SIZE : nat := 32.

Definition HmacAuth_new (tx_key rx_key : bytes) : HmacAuth := mkHmacAuth tx_key rx_key.
Definition HmacAuth_from_single_key (key : bytes) : HmacAuth := mkHmacAuth key key.

Definition fmt_bool (b : bool) : str := lit (if b then "true" else "false").
Definition fmt_option_u8 (o : option Z) : str :=
  match o with
  | Some d => lit "Some(" ++ fmt_dec d ++ lit ")"
  | None => lit "None"
  end.

Definition HmacAuth_from_ta_key (ta_key : bytes) (is_server : bool) (key_direction : option Z) :
    res CryptoError HmacAuth :=
  let normal :=
    tx ← slice ta_key 64 96; rx ← slice ta_key 192 224; Ok (mkHmacAuth tx rx) in
  let inverse :=
    tx ← slice ta_key 192 224; rx ← slice ta_key 64 96; Ok (mkHmacAuth tx rx) in
  match is_server, key_direction with
  | true, Some 0%Z | true, None => normal
  | true, Some 1%Z => inverse
  | false, Some 1%Z | false, None => inverse
  | false, Some 0%Z => normal
  | _, _ =>
      Err (InvalidPem (lit "Invalid key direction: is_server=" ++ fmt_bool is_server ++
                       lit ", key_direction=" ++ fmt_option_u8 key_direction))
  end.

Section HmacAuth.
Context {HMAC : Hmac}.

Definition HmacAuth_authenticate (h : HmacAuth) (data : bytes) : bytes :=
  hmac_sha256 (ha_tx_key h) data.

Definition HmacAuth_verify (h : HmacAuth) (data expected_hmac : bytes) : res CryptoError unit :=
  if decide (hmac_sha256 (ha_rx_key h) data = expected_hmac)
  then Ok tt else Err HmacVerificationFailed.

Definition HmacAuth_wrap (h : HmacAuth) (data : bytes) : bytes :=
  HmacAuth_authenticate h data ++ data.

Definition HmacAuth_unwrap (h : HmacAuth) (packet : bytes) : res CryptoError bytes :=
  if length packet <? HMAC_SIZE then Err HmacVerificationFailed else
  hmac ← slice packet 0 HMAC_SIZE;
  data ← slice_from packet HMAC_SIZE;
  _ ← HmacAuth_verify h data hmac;
  Ok data.

(** ** [TlsCryptKey] *)
Record TlsCryptKey := mkTlsCryptKey { tk_cipher_key : bytes; tk_hmac_key : bytes }.

Definition TlsCryptKey_new (cipher_key hmac_key : bytes) : TlsCryptKey :=
  mkTlsCryptKey cipher_key hmac_key.

Definition TlsCryptKey_from_combined (key : bytes) : res CryptoError TlsCryptKey :=
  cipher_key ← slice key 0 32;
  hmac_key ← slice key 32 64;
  Ok (mkTlsCryptKey cipher_key hmac_key).

Context {AEAD : Aead}.

Definition TlsCryptKey_wrap (k : TlsCryptKey) (nonce plaintext : bytes) : res CryptoError bytes :=
  let cipher := Cipher_new (tk_cipher_key k) ChaCha20Poly1305 in
  ciphertext ← Cipher_encrypt cipher nonce plaintext [];
  let hmac_input := nonce ++ ciphertext in
  let hmac := hmac_sha256 (tk_hmac_key k) hmac_input in
  Ok (hmac ++ nonce ++ ciphertext).

Definition TlsCryptKey_unwrap (k : TlsCryptKey) (packet : bytes) : res CryptoError bytes :=
  if length packet <? 32 + 12 + 16 then Err DecryptionFailed else
  hmac ← slice packet 0 32;
  rest ← slice_from packet 32;
  nonce ← slice rest 0 12;
  ciphertext ← slice_from rest 12;
  if decide (hmac_sha256 (tk_hmac_key k) (nonce ++ ciphertext) = hmac)
  then Cipher_decrypt (Cipher_new (tk_cipher_key k) ChaCha20Poly1305) nonce ciphertext []
  else Err HmacVerificationFailed.

End HmacAuth.

(** ** A concrete HMAC, to instantiate the interface *)
Definition toy_hash (n : nat) (k m : bytes) : bytes :=
  to_be n (fold_left (fun h b => (h * 257 + b + 1) mod (2 ^ 255 - 19))
             (k ++ [Z.of_nat (length k)] ++ m) 7)%Z.

Definition toy_hmac : Hmac := {|
  hmac_sha256 := toy_hash 32;
  hmac_sha1 := toy_hash 20;
  hmac_md5 := toy_hash 16;
|}.

Lemma toy_hmac_laws : HmacLaws toy_hmac.
Proof. split; intros; (apply to_be_length || apply to_be_ok). Qed.

(** ** Lemmas *)
Section HmacLemmas.
Context {HMAC : Hmac} {HLAWS : HmacLaws HMAC}.

(** The direction a side uses when none is configured. *)
Definition effective_direction (is_server : bool) (d : option Z) : option Z :=
  match d with
  | None => Some (if is_server then 0 else 1)%Z
  | d => d
  end.

Lemma from_ta_key_ok ta is_server (d : option Z) :
  length ta = 256 -> effective_direction is_server d = Some 0%Z \/ effective_direction is_server d = Some 1%Z ->
  HmacAuth_from_ta_key ta is_server d =
  let k0 := take 32 (drop 64 ta) in let k1 := take 32 (drop 192 ta) in
  Ok (if decide (effective_direction is_server d = Some 0%Z)
      then mkHmacAuth k0 k1 else mkHmacAuth k1 k0).
Proof.
  intros Hl Hd. unfold HmacAuth_from_ta_key. rewrite !slice_ok by lia. cbv zeta. rsimp.
  change (96 - 64) with 32. change (224 - 192) with 32.
  destruct is_server, d as [d|]; destruct Hd as [Hd|Hd]; simplify_eq/=; done.
Qed.

Lemma verify_authenticate h1 h2 data :
  ha_tx_key h1 = ha_rx_key h2 ->
  HmacAuth_verify h2 data (HmacAuth_authenticate h1 data) = Ok tt.
Proof.
  intros Hk. unfold HmacAuth_verify, HmacAuth_authenticate. rewrite Hk.
  by rewrite decide_True.
Qed.

Lemma unwrap_wrap h1 h2 data :
  ha_tx_key h1 = ha_rx_key h2 -> HmacAuth_unwrap h2 (HmacAuth_wrap h1 data) = Ok data.
Proof.
  intros Hk. unfold HmacAuth_unwrap, HmacAuth_wrap.
  pose proof (hmac_sha256_length (ha_tx_key h1) data) as Hl.
  fold (HmacAuth_authenticate h1 data) in Hl.
  rewrite (proj2 (Nat.ltb_ge _ _)) by (rewrite length_app; unfold HMAC_SIZE; lia).
  unfold HMAC_SIZE.
  rewrite (slice_at _ [] (HmacAuth_authenticate h1 data) data 0 32) by (done || lia). rsimp.
  rewrite (slice_from_at _ (HmacAuth_authenticate h1 data) data 32) by done. rsimp.
  by rewrite verify_authenticate.
Qed.

(** Opposite directions give complementary keys. *)
Lemma complementary_pair (ta : bytes) (ds dc : option Z) : length ta = 256 ->
  (effective_direction true ds = Some 0%Z /\ effective_direction false dc = Some 1%Z) \/
  (effective_direction true ds = Some 1%Z /\ effective_direction false dc = Some 0%Z) ->
  exists s c, HmacAuth_from_ta_key ta true ds = Ok s /\ HmacAuth_from_ta_key ta false dc = Ok c /\
    ha_tx_key s = ha_rx_key c /\ ha_tx_key c = ha_rx_key s.
Proof.
  intros Hta Hdir. rewrite !from_ta_key_ok by (done || naive_solver). cbv zeta.
  destruct Hdir as [[-> ->]|[-> ->]]; do 2 eexists; by split_and!.
Qed.

(** One static key, opposite directions: for every 256-byte key, a server
    and a client with the default directions, or with any pair of opposite
    ones, hold complementary keys, so what one wraps the other unwraps, in
    both directions. *)
Theorem ta_key_directions_complementary (ta data : bytes) (ds dc : option Z)
    (Hta : length ta = 256)
    (Hdir : (effective_direction true ds = Some 0%Z /\ effective_direction false dc = Some 1%Z) \/
            (effective_direction true ds = Some 1%Z /\ effective_direction false dc = Some 0%Z)) :
  exists s c, HmacAuth_from_ta_key ta true ds = Ok s /\ HmacAuth_from_ta_key ta false dc = Ok c /\
    HmacAuth_unwrap c (HmacAuth_wrap s data) = Ok data /\
    HmacAuth_unwrap s (HmacAuth_wrap c data) = Ok data.
Proof.
  destruct (complementary_pair ta ds dc Hta Hdir) as (s & c & Hs & Hc & H1 & H2).
  exists s, c. split_and!; by try apply unwrap_wrap.
Qed.

Context {AEAD : Aead} {LAWS : AeadLaws AEAD}.

(** tls-crypt round trip: what [wrap] produces under any 12-byte nonce,
    [unwrap] with the same key returns. *)
Theorem tls_crypt_unwrap_wrap (k : TlsCryptKey) (nonce plaintext : bytes)
    (Hkey : length (tk_cipher_key k) = KEY_SIZE) (Hnonce : length nonce = NONCE_SIZE)
    (Hlen : (Z.of_nat (length plaintext) <= 2 ^ 32)%Z) :
  exists packet, TlsCryptKey_wrap k nonce plaintext = Ok packet /\
    length packet = 60 + length plaintext /\
    TlsCryptKey_unwrap k packet = Ok plaintext.
Proof.
  destruct (Cipher_encrypt_ok (Cipher_new (tk_cipher_key k) ChaCha20Poly1305) nonce plaintext [])
    as (ct & tag & He & Hce & Hct & Ht); [done|done|done|simpl; lia|].
  unfold TlsCryptKey_wrap. rewrite Hce. rsimp. cbv zeta.
  set (ciphertext := ct ++ tag) in *. set (mac := hmac_sha256 _ _).
  assert (length mac = 32) as Hm by apply hmac_sha256_length.
  assert (length ciphertext = length plaintext + 16) as Hc.
  { unfold ciphertext. rewrite length_app, Hct, Ht. done. }
  unfold NONCE_SIZE in Hnonce. eexists. split; [done|]. split; [rewrite !length_app; lia|].
  unfold TlsCryptKey_unwrap. rewrite (proj2 (Nat.ltb_ge _ _)) by (rewrite !length_app; lia).
  rewrite (slice_at _ [] mac (nonce ++ ciphertext) 0 32) by done. rsimp.
  rewrite (slice_from_at _ mac (nonce ++ ciphertext) 32) by done. rsimp.
  rewrite (slice_at _ [] nonce ciphertext 0 12) by done. rsimp.
  rewrite (slice_from_at _ nonce ciphertext 12) by done. rsimp.
  rewrite decide_True by done. unfold Cipher_decrypt. cbn [Cipher_new ci_suite ci_key] in *.
  by rewrite (aead_decrypt_encrypt _ _ _ _ _ _ He).
Qed.

End HmacLemmas.

(** ** The claims at concrete inputs *)
#[local] Existing Instances toy_hmac toy_hmac_laws toy_aead toy_aead_laws.

Definition sample_ta_key : bytes := map Z.of_nat (seq 0 256).

