(* ===== verification/Kdf.v ===== *)
(** * Key derivation

    [KeyMaterial], [derive_keys], [derive_single_key], [openvpn_prf] and
    [p_hash] of src/crates/corevpn-crypto/src/kdf.rs.  HKDF (crate [hkdf]) is
    an interface; the PRF is built from the [Hmac] interface.  Zeroization of
    intermediate buffers has no functional effect. *)
From S2P Require Import Prelude Errors Text Replay Cipher HmacAuth.

(** ** HKDF *)
Class Hkdf := {
  (** salt, input key material, info, output length *)
  hkdf_expand : bytes -> bytes -> bytes -> nat -> option bytes;
}.

Class HkdfLaws (H : Hkdf) : Prop := {
  hkdf_expand_length s ikm info n okm : hkdf_expand s ikm info n = Some okm -> length okm = n;
  hkdf_expand_total s ikm info n : n <= 255 * 32 -> is_Some (hkdf_expand s ikm info n);
}.

(** ** Key material *)
Record KeyMaterial := mkKeyMaterial {
  km_client_write_key : bytes;
  km_server_write_key : bytes;
  km_client_hmac_key : bytes;
  km_server_hmac_key : bytes;
  km_client_implicit_iv : bytes;
  km_server_implicit_iv : bytes;
}.

Definition zeros (n : nat) : bytes := replicate n 0%Z.

Definition KeyMaterial_from_raw_block (block : bytes) : res CryptoError KeyMaterial :=
  client_write_key ← slice block 0 32;
  server_write_key ← slice block 32 64;
  client_hmac_key ← slice block 64 96;
  server_hmac_key ← slice block 96 128;
  Ok (mkKeyMaterial client_write_key server_write_key client_hmac_key server_hmac_key
        (zeros 12) (zeros 12)).

Definition KeyMaterial_from_openvpn_aead_key_block (block : bytes) : res CryptoError KeyMaterial :=
  if length block <? 88 then Panic else
  client_write_key ← slice block 0 32;
  client_implicit_iv ← slice block 32 44;
  server_write_key ← slice block 44 76;
  server_implicit_iv ← slice block 76 88;
  Ok (mkKeyMaterial client_write_key server_write_key (zeros 32) (zeros 32)
        client_implicit_iv server_implicit_iv).

Definition KeyMaterial_from_openvpn_key2_block (block : bytes) : res CryptoError KeyMaterial :=
  if length block <? 256 then Panic else
  client_write_key ← slice block 0 32;
  client_iv ← slice block 64 72;
  server_write_key ← slice block 128 160;
  server_iv ← slice block 192 200;
  Ok (mkKeyMaterial client_write_key server_write_key (zeros 32) (zeros 32)
        (zeros 4 ++ client_iv) (zeros 4 ++ server_iv)).

Definition KeyMaterial_client_data_key (k : KeyMaterial) (suite : CipherSuite) : DataChannelKey :=
  DataChannelKey_new_with_iv (km_client_write_key k) (km_client_implicit_iv k) suite.
Definition KeyMaterial_server_data_key (k : KeyMaterial) (suite : CipherSuite) : DataChannelKey :=
  DataChannelKey_new_with_iv (km_server_write_key k) (km_server_implicit_iv k) suite.

Section Derive.
Context {HKDF : Hkdf}.

Definition derive_keys (shared_secret client_random server_random info : bytes) :
    res CryptoError KeyMaterial :=
  let salt := client_random ++ server_random in
  okm ← ok_or (hkdf_expand salt shared_secret info 128)
          (KeyDerivationFailed (lit "HKDF expansion failed"));
  client_write_key ← slice okm 0 32;
  server_write_key ← slice okm 32 64;
  client_hmac_key ← slice okm 64 96;
  server_hmac_key ← slice okm 96 128;
  Ok (mkKeyMaterial client_write_key server_write_key client_hmac_key server_hmac_key
        (zeros 12) (zeros 12)).

Definition derive_single_key (ikm salt info : bytes) : res CryptoError bytes :=
  ok_or (hkdf_expand salt ikm info 32) (KeyDerivationFailed (lit "HKDF expansion failed")).

End Derive.

(** ** The TLS 1.0 PRF *)

(** The loop of [p_hash]; every turn adds a digest, so [output_len] turns are
    enough for a digest that is not empty. *)
Fixpoint p_hash_loop (mac : bytes -> bytes -> bytes) (fuel : nat) (secret seed a output : bytes)
    (output_len : nat) : bytes :=
  match fuel with
  | O => output
  | S f =>
      if length output <? output_len then
        let a := mac secret a in
        p_hash_loop mac f secret seed a (output ++ mac secret (a ++ seed)) output_len
      else output
  end.

Definition p_hash (mac : bytes -> bytes -> bytes) (secret seed : bytes) (output_len : nat) :
    res CryptoError bytes :=
  let output := p_hash_loop mac output_len secret seed seed [] output_len in
  Ok (take output_len output).

(** [for i in 0..output_len { output.push(x[i] ^ y[i]) }]. *)
Fixpoint xor_loop (x y : bytes) (i n : nat) : res CryptoError bytes :=
  match n with
  | O => Ok []
  | S n' =>
      a ← idx x i; b ← idx y i;
      rest ← xor_loop x y (S i) n';
      Ok (Z.lxor a b :: rest)
  end.

Definition openvpn_prf {HMAC : Hmac} (secret label seed : bytes) (output_len : nat) :
    res CryptoError bytes :=
  let combined_seed := label ++ seed in
  let half := (length secret + 1) / 2 in
  s1 ← slice secret 0 half;
  s2 ← slice_from secret (length secret / 2);
  p_md5 ← p_hash hmac_md5 s1 combined_seed output_len;
  p_sha1 ← p_hash hmac_sha1 s2 combined_seed output_len;
  xor_loop p_md5 p_sha1 0 output_len.

(** ** RFC 2246, section 5 *)
Section Rfc2246.
Context (mac : bytes -> bytes -> bytes) (secret seed : bytes).

Fixpoint rfc_A (i : nat) : bytes :=
  match i with
  | O => seed
  | S i' => mac secret (rfc_A i')
  end.

Definition rfc_block (i : nat) : bytes := mac secret (rfc_A i ++ seed).

(** The first [n] bytes of [HMAC(A(1) + seed) + HMAC(A(2) + seed) + ...]. *)
Definition rfc_P_hash (n : nat) : bytes := take n (concat (map rfc_block (seq 1 n))).

Context (size : nat) (Hsize : 0 < size) (Hmac : forall k m, length (mac k m) = size).

Lemma concat_blocks_length i n : length (concat (map rfc_block (seq i n))) = n * size.
Proof.
  revert i. induction n as [|n IH]; intros i; simpl; [done|].
  rewrite length_app, IH. unfold rfc_block. by rewrite Hmac.
Qed.

(** The state of the loop after [i] turns. *)
Lemma p_hash_loop_spec fuel i n :
  n <= (i + fuel) * size ->
  take n (p_hash_loop mac fuel secret seed (rfc_A i) (concat (map rfc_block (seq 1 i))) n) =
  take n (concat (map rfc_block (seq 1 (i + fuel)))).
Proof.
  revert i. induction fuel as [|f IH]; intros i Hn; cbn [p_hash_loop].
  - by rewrite Nat.add_0_r.
  - rewrite concat_blocks_length. destruct (Nat.ltb_spec (i * size) n) as [Hlt|Hge].
    + cbv zeta. change (mac secret (rfc_A i)) with (rfc_A (S i)).
      assert (concat (map rfc_block (seq 1 i)) ++ mac secret (rfc_A (S i) ++ seed) =
              concat (map rfc_block (seq 1 (S i)))) as ->.
      { rewrite seq_S, map_app, concat_app. cbn [map concat]. by rewrite app_nil_r. }
      rewrite IH by lia. by replace (S i + f) with (i + S f) by lia.
    + rewrite seq_app, map_app, concat_app, take_app_le; [done|].
      rewrite concat_blocks_length. lia.
Qed.

Lemma p_hash_rfc n : p_hash mac secret seed n = Ok (rfc_P_hash n).
Proof.
  unfold p_hash, rfc_P_hash. f_equal. apply (p_hash_loop_spec n 0). simpl. nia.
Qed.

Lemma rfc_P_hash_length n : length (rfc_P_hash n) = n.
Proof. unfold rfc_P_hash. rewrite length_take, concat_blocks_length. nia. Qed.

End Rfc2246.

Lemma xor_loop_spec x y i n :
  i + n <= length x -> i + n <= length y ->
  xor_loop x y i n = Ok (zip_with Z.lxor (take n (drop i x)) (take n (drop i y))).
Proof.
  revert i. induction n as [|n IH]; intros i Hx Hy; [done|]. cbn [xor_loop].
  destruct (lookup_lt_is_Some_2 x i) as [a Ha]; [lia|].
  destruct (lookup_lt_is_Some_2 y i) as [b Hb]; [lia|].
  rewrite (idx_ok x i a), (idx_ok y i b) by done. rsimp. rewrite IH by lia. rsimp.
  by rewrite (drop_S x a i), (drop_S y b i).
Qed.

Section KdfClaims.
Context {HMAC : Hmac} {HLAWS : HmacLaws HMAC}.

Lemma P_MD5_length secret seed n : length (rfc_P_hash hmac_md5 secret seed n) = n.
Proof. apply (rfc_P_hash_length _ _ _ 16); [lia|apply hmac_md5_length]. Qed.
Lemma P_SHA1_length secret seed n : length (rfc_P_hash hmac_sha1 secret seed n) = n.
Proof. apply (rfc_P_hash_length _ _ _ 20); [lia|apply hmac_sha1_length]. Qed.
Lemma p_hash_md5 secret seed n : p_hash hmac_md5 secret seed n = Ok (rfc_P_hash hmac_md5 secret seed n).
Proof. apply (p_hash_rfc _ _ _ 16); [lia|apply hmac_md5_length]. Qed.
Lemma p_hash_sha1 secret seed n : p_hash hmac_sha1 secret seed n = Ok (rfc_P_hash hmac_sha1 secret seed n).
Proof. apply (p_hash_rfc _ _ _ 20); [lia|apply hmac_sha1_length]. Qed.

Lemma openvpn_prf_eq (secret label seed : bytes) (n : nat) :
  openvpn_prf secret label seed n =
    Ok (zip_with Z.lxor
          (rfc_P_hash hmac_md5 (take ((length secret + 1) / 2) secret) (label ++ seed) n)
          (rfc_P_hash hmac_sha1 (drop (length secret / 2) secret) (label ++ seed) n)).
Proof.
  unfold openvpn_prf.
  pose proof (Nat.div_mod_eq (length secret) 2). pose proof (Nat.div_mod_eq (length secret + 1) 2).
  pose proof (Nat.mod_upper_bound (length secret) 2). pose proof (Nat.mod_upper_bound (length secret + 1) 2).
  rewrite slice_ok by lia. rewrite drop_0, Nat.sub_0_r. rsimp.
  rewrite slice_from_ok by lia. rsimp.
  rewrite p_hash_md5, p_hash_sha1. rsimp.
  rewrite xor_loop_spec by (rewrite ?P_MD5_length, ?P_SHA1_length; lia).
  rewrite !drop_0.
  by rewrite (take_ge (rfc_P_hash hmac_md5 _ _ _)), (take_ge (rfc_P_hash hmac_sha1 _ _ _))
    by (rewrite ?P_MD5_length, ?P_SHA1_length; lia).
Qed.

Lemma openvpn_prf_length secret label seed n block :
  openvpn_prf secret label seed n = Ok block -> length block = n.
Proof.
  rewrite openvpn_prf_eq. intros [= <-].
  rewrite length_zip_with, P_MD5_length, P_SHA1_length. lia.
Qed.

Lemma zip_lxor_bytes x y : bytes_ok x -> bytes_ok y -> bytes_ok (zip_with Z.lxor x y).
Proof.
  intros Hx. revert y. induction Hx as [|a x Ha Hx IH]; intros y Hy; [constructor|].
  destruct Hy as [|b y Hb Hy]; [constructor|]. cbn. constructor; [|by apply IH].
  unfold uint in *. split; [apply Z.lxor_nonneg; lia|].
  destruct (Z.eq_dec (Z.lxor a b) 0) as [->|Hz]; [lia|].
  assert (0 <= Z.lxor a b)%Z by (apply Z.lxor_nonneg; lia).
  apply Z.log2_lt_pow2; [lia|]. pose proof (Z.log2_lxor a b).
  assert (forall z, 0 <= z < 2 ^ 8 -> Z.log2 z < 8)%Z as Hl.
  { intros z Hz'. destruct (Z.eq_dec z 0) as [->|]; [done|]. apply Z.log2_lt_pow2; lia. }
  pose proof (Hl a Ha). pose proof (Hl b Hb). lia.
Qed.

Lemma openvpn_prf_bytes secret label seed n block :
  openvpn_prf secret label seed n = Ok block -> bytes_ok block.
Proof.
  rewrite openvpn_prf_eq. intros [= <-].
  assert (forall mac k s m, (forall k' m', bytes_ok (mac k' m')) -> bytes_ok (rfc_P_hash mac k s m)) as H.
  { intros mac k s m Hm. unfold rfc_P_hash. apply Forall_take.
    generalize 1. generalize m. intros l. induction l as [|l IH]; intros i; [constructor|].
    cbn [seq map concat]. apply Forall_app. split; [apply Hm|apply IH]. }
  apply zip_lxor_bytes; apply H; [apply hmac_md5_bytes|apply hmac_sha1_bytes].
Qed.

Lemma prf_ok secret label seed n :
  exists out, openvpn_prf secret label seed n = Ok out /\ length out = n.
Proof.
  destruct (openvpn_prf secret label seed n) as [out| |] eqn:H;
    [|by rewrite openvpn_prf_eq in H..]. exists out. split; [done|]. by eapply openvpn_prf_length.
Qed.

(** C30: the PRF is the TLS 1.0 PRF: for every secret, label, seed and length
    it returns (it neither fails nor panics, and its loops terminate) the XOR
    of RFC 2246's [P_MD5] over the first half of the secret and [P_SHA1] over
    the second half, the halves sharing the middle byte of a secret of odd
    length. *)
Theorem openvpn_prf_is_tls1_prf (secret label seed : bytes) (n : nat) :
  openvpn_prf secret label seed n =
    Ok (zip_with Z.lxor
          (rfc_P_hash hmac_md5 (take ((length secret + 1) / 2) secret) (label ++ seed) n)
          (rfc_P_hash hmac_sha1 (drop (length secret / 2) secret) (label ++ seed) n)).
Proof. apply openvpn_prf_eq. Qed.

End KdfClaims.

(** ** Layout of the key block *)
Lemma key2_block_ok block : length block >= 256 ->
  exists k, KeyMaterial_from_openvpn_key2_block block = Ok k /\
    km_client_write_key k = take 32 block /\
    km_server_write_key k = take 32 (drop 128 block) /\
    km_client_implicit_iv k = zeros 4 ++ take 8 (drop 64 block) /\
    km_server_implicit_iv k = zeros 4 ++ take 8 (drop 192 block).
Proof.
  intros Hl. unfold KeyMaterial_from_openvpn_key2_block.
  rewrite (proj2 (Nat.ltb_ge _ _)) by lia. rewrite !slice_ok by lia. rsimp.
  eexists. split; [done|]. cbn. by rewrite drop_0.
Qed.

(** Both data keys have the sizes the cipher needs. *)
Definition material_wf (k : KeyMaterial) : Prop :=
  length (km_client_write_key k) = KEY_SIZE /\ length (km_server_write_key k) = KEY_SIZE /\
  length (km_client_implicit_iv k) = NONCE_SIZE /\ length (km_server_implicit_iv k) = NONCE_SIZE /\
  bytes_ok (km_client_implicit_iv k) /\ bytes_ok (km_server_implicit_iv k).

Lemma key2_block_wf block k : length block >= 256 -> bytes_ok block ->
  KeyMaterial_from_openvpn_key2_block block = Ok k -> material_wf k.
Proof.
  intros Hl Hb Hk. destruct (key2_block_ok block Hl) as (k' & Hk' & Hc & Hs & Hci & Hsi).
  rewrite Hk in Hk'. simplify_eq. unfold material_wf, KEY_SIZE, NONCE_SIZE, bytes_ok in *.
  rewrite Hc, Hs, Hci, Hsi.
  rewrite ?length_app, ?length_take, ?length_drop. unfold zeros. rewrite length_replicate.
  split_and!; try lia; apply Forall_app;
    (split; [repeat constructor; unfold uint; lia|by apply Forall_take, Forall_drop]).
Qed.

(** A concrete HKDF, to instantiate the interface. *)
Definition toy_hkdf : Hkdf := {|
  hkdf_expand salt ikm info n := Some (toy_hash n (salt ++ ikm) info);
|}.
Lemma toy_hkdf_laws : HkdfLaws toy_hkdf.
Proof. split; simpl; [|by eauto]. intros ? ? ? ? ? [= <-]. apply to_be_length. Qed.

Lemma openvpn_prf_is_tls1_prf_witness :
  openvpn_prf (HMAC := toy_hmac) [1; 2; 3]%Z [4]%Z [5]%Z 40 =
    Ok (zip_with Z.lxor
          (rfc_P_hash (toy_hash 16) [1; 2]%Z [4; 5]%Z 40)
          (rfc_P_hash (toy_hash 20) [2; 3]%Z [4; 5]%Z 40)).
Proof. exact (openvpn_prf_is_tls1_prf (HLAWS := toy_hmac_laws) [1; 2; 3]%Z [4]%Z [5]%Z 40). Defined.
