(* ===== verification/DataChannel.v ===== *)
(** * Data channel

    [DataPacket], [DataChannel] and [Compression] of
    src/crates/corevpn-protocol/src/data.rs. *)
From S2P Require Import Prelude Errors Opcode Packet Replay Cipher Kdf.

(** ** Data packets *)
Record DataPacket := mkDataPacket {
  dpk_key_id : KeyId;
  dpk_peer_id : option Z;
  dpk_payload : bytes;
}.

Definition DataPacket_new (key_id : KeyId) (payload : bytes) : DataPacket :=
  mkDataPacket key_id None payload.
Definition DataPacket_new_v2 (key_id : KeyId) (peer_id : Z) (payload : bytes) : DataPacket :=
  mkDataPacket key_id (Some peer_id) payload.

Definition DataPacket_parse (data : bytes) : res ProtocolError DataPacket :=
  if length data =? 0 then Err (PacketTooShort 1 0) else
  b0 ← idx data 0;
  opcode ← OpCode_from_byte b0;
  let key_id := KeyId_from_byte b0 in
  '(peer_id, payload_start) ←
    (if decide (opcode = DataV2) then
       if length data <? 4 then Err (PacketTooShort 4 (length data)) else
       b1 ← idx data 1; b2 ← idx data 2; b3 ← idx data 3;
       Ok (Some (peer_id_of b1 b2 b3), 4)
     else Ok (None, 1));
  payload ← slice_from data payload_start;
  Ok (mkDataPacket key_id peer_id payload).

Definition DataPacket_serialize (p : DataPacket) : bytes :=
  let opcode := match dpk_peer_id p with Some _ => DataV2 | None => DataV1 end in
  OpCode_to_byte opcode (dpk_key_id p) ::
  match dpk_peer_id p with Some pid => peer_id_bytes pid | None => [] end ++
  dpk_payload p.

(** ** Data channels *)
Record DataChannel := mkDataChannel {
  dc_key_id : KeyId;
  dc_peer_id : option Z;
  dc_encrypt_cipher : PacketCipher;
  dc_decrypt_cipher : PacketCipher;
  dc_use_v2 : bool;
  dc_encrypt_ad_prefix : bytes;
}.

Definition dc_set_encrypt (c : PacketCipher) (d : DataChannel) : DataChannel :=
  mkDataChannel (dc_key_id d) (dc_peer_id d) c (dc_decrypt_cipher d) (dc_use_v2 d)
    (dc_encrypt_ad_prefix d).
Definition dc_set_decrypt (c : PacketCipher) (d : DataChannel) : DataChannel :=
  mkDataChannel (dc_key_id d) (dc_peer_id d) (dc_encrypt_cipher d) c (dc_use_v2 d)
    (dc_encrypt_ad_prefix d).

Definition DataChannel_new (key_id : KeyId) (encrypt_key decrypt_key : DataChannelKey)
    (use_v2 : bool) (peer_id : option Z) : DataChannel :=
  let encrypt_ad_prefix :=
    if use_v2 then OpCode_to_byte DataV2 key_id :: peer_id_bytes (default 0%Z peer_id) else [] in
  mkDataChannel key_id peer_id (PacketCipher_new encrypt_key) (PacketCipher_new decrypt_key)
    use_v2 encrypt_ad_prefix.

Definition DataChannel_key_id (d : DataChannel) : KeyId := dc_key_id d.

Definition DataChannel_decrypt_ad_prefix (packet : DataPacket) : bytes :=
  match dpk_peer_id packet with
  | Some pid => OpCode_to_byte DataV2 (dpk_key_id packet) :: peer_id_bytes pid
  | None => []
  end.

Section DataChannel.
Context {AEAD : Aead}.

Definition DataChannel_encrypt (ip_packet : bytes) : M DataChannel ProtocolError DataPacket :=
  fun d =>
  match PacketCipher_encrypt ip_packet (dc_encrypt_ad_prefix d) (dc_encrypt_cipher d) with
  | (c, r) =>
      (dc_set_encrypt c d,
       encrypted ← map_err ProtoCryptoError r;
       Ok (mkDataPacket (dc_key_id d) (if dc_use_v2 d then dc_peer_id d else None) encrypted))
  end.

Definition DataChannel_decrypt (packet : DataPacket) : M DataChannel ProtocolError bytes :=
  fun d =>
  if decide (dpk_key_id packet = dc_key_id d) then
    let ad_prefix := DataChannel_decrypt_ad_prefix packet in
    match PacketCipher_decrypt (dpk_payload packet) ad_prefix (dc_decrypt_cipher d) with
    | (c, r) => (dc_set_decrypt c d, map_err ProtoCryptoError r)
    end
  else (d, Err (KeyNotAvailable (key_id_0 (dpk_key_id packet)))).

End DataChannel.

(** ** Compression stub *)
Inductive Compression := CompNone | LzoStub | Lz4Stub.

Definition Compression_is_compressed (byte : Z) : bool := ((byte =? 250) || (byte =? 251))%Z.

Definition Compression_strip_header (data : bytes) : res ProtocolError bytes :=
  if length data =? 0 then Ok data else
  b ← idx data 0;
  if ((b =? 250) || (b =? 251))%Z then Err (InvalidPacket (lit "compressed data not supported"))
  else if (b =? 0)%Z then slice_from data 1
  else Ok data.

Definition Compression_add_header (data : bytes) (comp : Compression) : bytes :=
  match comp with
  | CompNone => data
  | LzoStub | Lz4Stub => 0%Z :: data
  end.

(** ** Lemmas *)
Definition data_packet_wf (p : DataPacket) : Prop :=
  KeyId_ok (dpk_key_id p) /\ from_option (uint 24) True (dpk_peer_id p).

Lemma DataPacket_parse_serialize p :
  data_packet_wf p -> DataPacket_parse (DataPacket_serialize p) = Ok p.
Proof.
  destruct p as [k o payload]. intros [Hk Hp]. cbn [dpk_key_id dpk_peer_id] in *.
  unfold DataPacket_parse, DataPacket_serialize. cbn [dpk_key_id dpk_peer_id dpk_payload].
  cbv zeta. destruct o as [pid|]; cbn [length Nat.eqb].
  - rewrite (idx_ok _ 0 (OpCode_to_byte DataV2 k)) by done. rsimp.
    rewrite OpCode_from_to_byte. rsimp. rewrite KeyId_from_to_byte, decide_True by done.
    unfold peer_id_bytes. cbn [app length Nat.ltb Nat.leb].
    rewrite (idx_ok _ 1 (wrap 8 (Z.shiftr pid 16))), (idx_ok _ 2 (wrap 8 (Z.shiftr pid 8))),
      (idx_ok _ 3 (wrap 8 pid)) by done. rsimp.
    rewrite peer_id_of_bytes, slice_from_ok by (done || (cbn; lia)). done.
  - rewrite (idx_ok _ 0 (OpCode_to_byte DataV1 k)) by done. rsimp.
    rewrite OpCode_from_to_byte. rsimp. rewrite KeyId_from_to_byte, decide_False by done. done.
Qed.

Section DataChannelLemmas.
Context {AEAD : Aead} {LAWS : AeadLaws AEAD}.

(** The sending half of [s] and the receiving half of [r] share a key. *)
Definition channels_match (s r : DataChannel) : Prop :=
  dc_key_id s = dc_key_id r /\
  pc_cipher (dc_encrypt_cipher s) = pc_cipher (dc_decrypt_cipher r) /\
  pc_implicit_iv (dc_encrypt_cipher s) = pc_implicit_iv (dc_decrypt_cipher r) /\
  (dc_use_v2 s = true -> is_Some (dc_peer_id s)) /\
  dc_encrypt_ad_prefix s =
    DataChannel_decrypt_ad_prefix
      (mkDataPacket (dc_key_id s) (if dc_use_v2 s then dc_peer_id s else None) []).

(** Channels made from the same key material are complementary, both ways. *)
Lemma channels_match_new kid k1 k2 peer_id v2 peer_id' v2' :
  v2 = bool_decide (is_Some peer_id) ->
  channels_match (DataChannel_new kid k1 k2 v2 peer_id) (DataChannel_new kid k2 k1 v2' peer_id').
Proof.
  intros ->. unfold channels_match, DataChannel_new. cbn.
  split_and!; try done; case_bool_decide as Hp; try done; by destruct Hp as [pid ->].
Qed.

Definition channel_wf (s : DataChannel) : Prop :=
  cipher_wf (dc_encrypt_cipher s) /\ KeyId_ok (dc_key_id s) /\
  from_option (uint 24) True (dc_peer_id s).

(** The packet of one [encrypt], on both sides. *)
Lemma channel_encrypt_decrypt s r m :
  channel_wf s -> channels_match s r ->
  (pc_tx_counter (dc_encrypt_cipher s) + 1 < 2 ^ 32)%Z -> (Z.of_nat (length m) <= 2 ^ 32)%Z ->
  exists p, DataChannel_encrypt m s =
      (dc_set_encrypt (pc_set_tx (pc_tx_counter (dc_encrypt_cipher s) + 1) (dc_encrypt_cipher s)) s, Ok p) /\
    data_packet_wf p /\ dpk_key_id p = dc_key_id s /\
    dpk_peer_id p = (if dc_use_v2 s then dc_peer_id s else None) /\
    packet_of (pc_cipher (dc_encrypt_cipher s)) (pc_implicit_iv (dc_encrypt_cipher s))
      (dc_encrypt_ad_prefix s) (pc_tx_counter (dc_encrypt_cipher s) + 1) m (dpk_payload p) /\
    (unambiguous (pc_cipher (dc_encrypt_cipher s)) (pc_implicit_iv (dc_encrypt_cipher s))
       (dc_encrypt_ad_prefix s) (pc_tx_counter (dc_encrypt_cipher s) + 1) m (dpk_payload p) ->
     DataChannel_decrypt p r =
     let '(w, fresh) := data_check_and_update (pc_rx_window (dc_decrypt_cipher r))
                          (pc_tx_counter (dc_encrypt_cipher s) + 1) in
     (dc_set_decrypt (pc_set_rx w (dc_decrypt_cipher r)) r,
      if fresh then Ok m else Err (ProtoCryptoError CryptoReplayDetected))).
Proof.
  intros (Hwf & Hk & Hpeer) (Hkid & Hci & Hiv & Hv2 & Had) Htx Hm.
  assert (Z.of_nat (length (dc_encrypt_ad_prefix s)) + 4 <= 2 ^ 32)%Z as Hal.
  { rewrite Had. unfold DataChannel_decrypt_ad_prefix, peer_id_bytes. cbn [dpk_peer_id].
    repeat case_match; cbn [length]; lia. }
  destruct (encrypt_spec _ m (dc_encrypt_ad_prefix s) Hwf Htx Hm Hal)
    as (ct & tag & He & Hct & Ht & Henc).
  unfold DataChannel_encrypt. rewrite Henc. rsimp. eexists. split; [reflexivity|].
  cbn [dpk_key_id dpk_peer_id dpk_payload].
  assert (packet_of (pc_cipher (dc_encrypt_cipher s)) (pc_implicit_iv (dc_encrypt_cipher s))
      (dc_encrypt_ad_prefix s) (pc_tx_counter (dc_encrypt_cipher s) + 1) m
      (to_be 4 (pc_tx_counter (dc_encrypt_cipher s) + 1) ++ tag ++ ct)) as Hpo.
  { split; [destruct Hwf as (_&_&_&Hu); unfold uint in *; lia|]. by exists ct, tag. }
  split_and!; try done.
  { split; [done|]. cbn. by destruct (dc_use_v2 s). }
  intros Hun. unfold DataChannel_decrypt. cbn [dpk_key_id dpk_payload]. rewrite decide_True by done.
  cbv zeta. rewrite Hci, Hiv, Had in Hpo, Hun.
  unfold DataChannel_decrypt_ad_prefix in *. cbn [dpk_peer_id dpk_key_id] in *.
  rewrite (decrypt_genuine _ _ _ _ _ Hpo Hun).
  by destruct (data_check_and_update _ _) as [w []].
Qed.

End DataChannelLemmas.
