(* ===== verification/Session.v ===== *)
(** * Protocol sessions

    [ProtocolSession] of src/crates/corevpn-protocol/src/session.rs: the
    composition of packet parsing, tls-auth, reliable transport, TLS record
    reassembly and the data channels.  [Instant::now()] is the argument [now],
    the wall clock of the tls-auth header the argument [time], the random
    session id an argument of the constructors. *)
From S2P Require Import Prelude Errors Opcode Packet Replay Float Reliable Cipher HmacAuth Kdf DataChannel.

Inductive ProtocolState :=
| Initial | TlsHandshake | KeyExchange | Authenticating | Established | Rekeying | Terminated.
#[export] Instance ProtocolState_eq_dec : EqDecision ProtocolState.
Proof. solve_decision. Defined.

Inductive ProcessedPacket :=
| PNone
| PHardReset (session_id : bytes)
| PHardResetAck
| PTlsData (records : list bytes)
| PData (data : bytes)
| PSoftReset.

Record ProtocolSession := mkSession {
  ps_local_session_id : bytes;
  ps_remote_session_id : option bytes;
  ps_state : ProtocolState;
  ps_current_key_id : KeyId;
  ps_reliable : ReliableTransport;
  ps_tls_reassembler : TlsRecordReassembler;
  ps_data_channels : list (option DataChannel);
  ps_peer_id : option Z;
  ps_use_tls_auth : bool;
  ps_tls_auth_key : option HmacAuth;
  ps_replay_window : ReplayWindow;
  ps_tls_auth_packet_id : Z;
  ps_created_at : Z;
  ps_last_activity : Z;
  ps_cipher_suite : CipherSuite;
}.

(** ** Field updates *)
Section Updates.
Implicit Types s : ProtocolSession.
Definition ps_set_remote r s :=
  mkSession (ps_local_session_id s) r (ps_state s) (ps_current_key_id s) (ps_reliable s)
    (ps_tls_reassembler s) (ps_data_channels s) (ps_peer_id s) (ps_use_tls_auth s)
    (ps_tls_auth_key s) (ps_replay_window s) (ps_tls_auth_packet_id s) (ps_created_at s)
    (ps_last_activity s) (ps_cipher_suite s).
Definition ps_put_state st s :=
  mkSession (ps_local_session_id s) (ps_remote_session_id s) st (ps_current_key_id s) (ps_reliable s)
    (ps_tls_reassembler s) (ps_data_channels s) (ps_peer_id s) (ps_use_tls_auth s)
    (ps_tls_auth_key s) (ps_replay_window s) (ps_tls_auth_packet_id s) (ps_created_at s)
    (ps_last_activity s) (ps_cipher_suite s).
Definition ps_set_key_id k s :=
  mkSession (ps_local_session_id s) (ps_remote_session_id s) (ps_state s) k (ps_reliable s)
    (ps_tls_reassembler s) (ps_data_channels s) (ps_peer_id s) (ps_use_tls_auth s)
    (ps_tls_auth_key s) (ps_replay_window s) (ps_tls_auth_packet_id s) (ps_created_at s)
    (ps_last_activity s) (ps_cipher_suite s).
Definition ps_set_reliable r s :=
  mkSession (ps_local_session_id s) (ps_remote_session_id s) (ps_state s) (ps_current_key_id s) r
    (ps_tls_reassembler s) (ps_data_channels s) (ps_peer_id s) (ps_use_tls_auth s)
    (ps_tls_auth_key s) (ps_replay_window s) (ps_tls_auth_packet_id s) (ps_created_at s)
    (ps_last_activity s) (ps_cipher_suite s).
Definition ps_set_reassembler r s :=
  mkSession (ps_local_session_id s) (ps_remote_session_id s) (ps_state s) (ps_current_key_id s)
    (ps_reliable s) r (ps_data_channels s) (ps_peer_id s) (ps_use_tls_auth s)
    (ps_tls_auth_key s) (ps_replay_window s) (ps_tls_auth_packet_id s) (ps_created_at s)
    (ps_last_activity s) (ps_cipher_suite s).
Definition ps_set_channels cs s :=
  mkSession (ps_local_session_id s) (ps_remote_session_id s) (ps_state s) (ps_current_key_id s)
    (ps_reliable s) (ps_tls_reassembler s) cs (ps_peer_id s) (ps_use_tls_auth s)
    (ps_tls_auth_key s) (ps_replay_window s) (ps_tls_auth_packet_id s) (ps_created_at s)
    (ps_last_activity s) (ps_cipher_suite s).
Definition ps_set_auth k s :=
  mkSession (ps_local_session_id s) (ps_remote_session_id s) (ps_state s) (ps_current_key_id s)
    (ps_reliable s) (ps_tls_reassembler s) (ps_data_channels s) (ps_peer_id s) true
    (Some k) (ps_replay_window s) (ps_tls_auth_packet_id s) (ps_created_at s)
    (ps_last_activity s) (ps_cipher_suite s).
Definition ps_set_window w s :=
  mkSession (ps_local_session_id s) (ps_remote_session_id s) (ps_state s) (ps_current_key_id s)
    (ps_reliable s) (ps_tls_reassembler s) (ps_data_channels s) (ps_peer_id s) (ps_use_tls_auth s)
    (ps_tls_auth_key s) w (ps_tls_auth_packet_id s) (ps_created_at s)
    (ps_last_activity s) (ps_cipher_suite s).
Definition ps_set_auth_id n s :=
  mkSession (ps_local_session_id s) (ps_remote_session_id s) (ps_state s) (ps_current_key_id s)
    (ps_reliable s) (ps_tls_reassembler s) (ps_data_channels s) (ps_peer_id s) (ps_use_tls_auth s)
    (ps_tls_auth_key s) (ps_replay_window s) n (ps_created_at s)
    (ps_last_activity s) (ps_cipher_suite s).
Definition ps_set_activity t s :=
  mkSession (ps_local_session_id s) (ps_remote_session_id s) (ps_state s) (ps_current_key_id s)
    (ps_reliable s) (ps_tls_reassembler s) (ps_data_channels s) (ps_peer_id s) (ps_use_tls_auth s)
    (ps_tls_auth_key s) (ps_replay_window s) (ps_tls_auth_packet_id s) (ps_created_at s)
    t (ps_cipher_suite s).
Definition ps_set_suite c s :=
  mkSession (ps_local_session_id s) (ps_remote_session_id s) (ps_state s) (ps_current_key_id s)
    (ps_reliable s) (ps_tls_reassembler s) (ps_data_channels s) (ps_peer_id s) (ps_use_tls_auth s)
    (ps_tls_auth_key s) (ps_replay_window s) (ps_tls_auth_packet_id s) (ps_created_at s)
    (ps_last_activity s) c.
End Updates.

(** Read and write fields, and nothing else. *)
Ltac ps_simpl :=
  cbn [ps_local_session_id ps_remote_session_id ps_state ps_current_key_id ps_reliable
       ps_tls_reassembler ps_data_channels ps_peer_id ps_use_tls_auth ps_tls_auth_key
       ps_replay_window ps_tls_auth_packet_id ps_created_at ps_last_activity ps_cipher_suite
       ps_set_remote ps_put_state ps_set_key_id ps_set_reliable ps_set_reassembler
       ps_set_channels ps_set_auth ps_set_window ps_set_auth_id ps_set_activity ps_set_suite
       fst snd].

(** ** Construction and configuration *)
Definition ProtocolSession_new_server (session_id : bytes) (now : Z) (suite : CipherSuite) :
    ProtocolSession :=
  mkSession session_id None Initial KeyId_default
    (ReliableTransport_new ReliableConfig_default)
    (TlsRecordReassembler_new (Z.to_nat 65536)) (replicate 8 None) None false None
    ReplayWindow_new 1 now now suite.

Definition ProtocolSession_new_client (session_id : bytes) (now : Z) (suite : CipherSuite) :
    ProtocolSession :=
  ps_put_state Initial (ProtocolSession_new_server session_id now suite).

Definition ProtocolSession_set_state (now : Z) (st : ProtocolState) (s : ProtocolSession) :
    ProtocolSession :=
  ps_set_activity now (ps_put_state st s).
Definition ProtocolSession_set_remote_session_id (id : bytes) (s : ProtocolSession) : ProtocolSession :=
  ps_set_remote (Some id) s.
Definition ProtocolSession_set_tls_auth (key : HmacAuth) (s : ProtocolSession) : ProtocolSession :=
  ps_set_auth key s.
Definition ProtocolSession_set_cipher_suite (suite : CipherSuite) (s : ProtocolSession) :
    ProtocolSession :=
  ps_set_suite suite s.

Section Session.
Context {AEAD : Aead} {HMAC : Hmac}.

(** ** Receiving *)

(** The tls-auth check at the head of [process_packet]. *)
Definition ProtocolSession_verify_tls_auth (s : ProtocolSession) (data : bytes) :
    res ProtocolError unit :=
  if negb (ps_use_tls_auth s) then Ok tt else
  match ps_tls_auth_key s with
  | None => Ok tt
  | Some key =>
      if length data =? 0 then Ok tt else
      b0 ← idx data 0;
      opcode ← OpCode_from_byte b0;
      if OpCode_is_control opcode then
        if length data <? 49 then Err (PacketTooShort 49 (length data)) else
        hmac ← slice data 9 41;
        a ← slice data 41 49; b ← slice data 0 9; c ← slice_from data 49;
        map_err ProtoCryptoError (HmacAuth_verify key (a ++ b ++ c) hmac)
      else Ok tt
  end.

(** A call on the reliable transport of the session. *)
Definition on_reliable {A} (m : M ReliableTransport ProtocolError A) : M ProtocolSession ProtocolError A :=
  zoom ps_reliable ps_set_reliable id m.

Definition acks_call (now : Z) (acks : list Z) : M ReliableTransport ProtocolError unit := fun t =>
  match ReliableTransport_process_acks now acks t with
  | Ok t' => (t', Ok tt)
  | Err e => (t, Err e)
  | Panic => (t, Panic)
  end.

(** [if let Some(packet_id) = ... { let _ = self.reliable.receive(packet_id, Bytes::new())?; }] *)
Definition receive_empty (message_packet_id : option Z) : M ProtocolSession ProtocolError unit :=
  match message_packet_id with
  | Some packet_id => _ ← on_reliable (ReliableTransport_receive packet_id []); mret tt
  | None => mret tt
  end.

Definition ProtocolSession_check_replay (header_packet_id : option Z) :
    M ProtocolSession ProtocolError unit := fun s =>
  if ps_use_tls_auth s then
    match header_packet_id with
    | Some packet_id =>
        let '(w, fresh) := tls_check_and_update (ps_replay_window s) packet_id in
        (ps_set_window w s, if (fresh : bool) then Ok tt else Err ReplayDetected)
    | None => (s, Ok tt)
    end
  else (s, Ok tt).

(** The [ControlV1] branch. *)
Definition ProtocolSession_process_tls (ctrl : ControlPacketData) :
    M ProtocolSession ProtocolError ProcessedPacket :=
  match cp_message_packet_id ctrl with
  | Some packet_id =>
      delivered ← on_reliable (ReliableTransport_receive packet_id (cp_payload ctrl));
      match delivered with
      | Some data =>
          _ ← zoom ps_tls_reassembler ps_set_reassembler id (TlsRecordReassembler_add data);
          records ← zoom ps_tls_reassembler ps_set_reassembler id TlsRecordReassembler_extract_records;
          if (length records =? 0) then mret PNone else mret (PTlsData records)
      | None => mret PNone
      end
  | None => mret PNone
  end.

(** The match on the opcode at the end of [process_control_packet]. *)
Definition ProtocolSession_handle_opcode (ctrl : ControlPacketData) :
    M ProtocolSession ProtocolError ProcessedPacket :=
  match ph_opcode (cp_header ctrl) with
  | HardResetClientV2 | HardResetClientV3 =>
      _ ← (match ph_session_id (cp_header ctrl) with
           | Some remote_sid =>
               if decide (remote_sid = replicate 8 0%Z) then fail InvalidSessionId
               else modify (ps_set_remote (Some remote_sid))
           | None => mret tt
           end);
      _ ← receive_empty (cp_message_packet_id ctrl);
      _ ← modify (ps_put_state TlsHandshake);
      s ← get;
      mret (PHardReset (ps_local_session_id s))
  | HardResetServerV2 =>
      _ ← (match ph_session_id (cp_header ctrl) with
           | Some remote_sid => modify (ps_set_remote (Some remote_sid))
           | None => mret tt
           end);
      _ ← receive_empty (cp_message_packet_id ctrl);
      _ ← modify (ps_put_state TlsHandshake);
      mret PHardResetAck
  | ControlV1 => ProtocolSession_process_tls ctrl
  | AckV1 => mret PNone
  | SoftResetV1 =>
      _ ← modify (ps_put_state Rekeying);
      mret PSoftReset
  | opcode => fail (UnknownOpcode (OpCode_as_u8 opcode))
  end.

(** [if !ctrl.acks.is_empty() { self.reliable.process_acks(&ctrl.acks) }] *)
Definition ProtocolSession_handle_acks (now : Z) (acks : list Z) : M ProtocolSession ProtocolError unit :=
  match acks with
  | [] => mret tt
  | _ => on_reliable (acks_call now acks)
  end.

Definition ProtocolSession_process_control_packet (now : Z) (ctrl : ControlPacketData) :
    M ProtocolSession ProtocolError ProcessedPacket :=
  _ ← ProtocolSession_check_replay (ph_packet_id (cp_header ctrl));
  _ ← ProtocolSession_handle_acks now (cp_acks ctrl);
  ProtocolSession_handle_opcode ctrl.

Definition ProtocolSession_process_data_packet (data_pkt : DataPacketData) :
    M ProtocolSession ProtocolError ProcessedPacket := fun s =>
  let packet := mkDataPacket (ph_key_id (dp_header data_pkt)) (dp_peer_id data_pkt)
                  (dp_payload data_pkt) in
  let key_id := Z.to_nat (key_id_0 (dpk_key_id packet)) in
  match ps_data_channels s !! key_id with
  | None => (s, Panic)
  | Some None => (s, Err (KeyNotAvailable (key_id_0 (dpk_key_id packet))))
  | Some (Some channel) =>
      let '(channel', r) := DataChannel_decrypt packet channel in
      (ps_set_channels (<[key_id := Some channel']> (ps_data_channels s)) s,
       decrypted ← r; Ok (PData decrypted))
  end.

Definition ProtocolSession_process_packet (now : Z) (data : bytes) :
    M ProtocolSession ProtocolError ProcessedPacket :=
  _ ← modify (ps_set_activity now);
  s ← get;
  _ ← lift (ProtocolSession_verify_tls_auth s data);
  packet ← lift (Packet_parse data (ps_use_tls_auth s));
  match packet with
  | Control ctrl => ProtocolSession_process_control_packet now ctrl
  | Data data_pkt => ProtocolSession_process_data_packet data_pkt
  end.

(** ** Sending *)
Definition ProtocolSession_maybe_wrap_tls_auth (time : Z) (data : bytes) :
    M ProtocolSession ProtocolError bytes := fun s =>
  match ps_use_tls_auth s, ps_tls_auth_key s with
  | true, Some key =>
      if length data <? 9 then (s, Ok data) else
      let packet_id := ps_tls_auth_packet_id s in
      let s := ps_set_auth_id (wrap 32 (ps_tls_auth_packet_id s + 1)) s in
      let timestamp := wrap 32 time in
      let pid_bytes := to_be 4 packet_id in
      let time_bytes := to_be 4 timestamp in
      let hmac := HmacAuth_authenticate key (pid_bytes ++ time_bytes ++ data) in
      (s, a ← slice data 0 9; b ← slice_from data 9;
          Ok (a ++ hmac ++ pid_bytes ++ time_bytes ++ b))
  | _, _ => (s, Ok data)
  end.

(** The header of every outgoing control packet. *)
Definition control_header (opcode : OpCode) (key_id : KeyId) (local_session_id : bytes) : PacketHeader :=
  mkPacketHeader opcode key_id (Some local_session_id) None None None.

Definition get_acks_call : M ReliableTransport ProtocolError (list Z) := fun t =>
  let '(t', acks) := ReliableTransport_get_acks t in (t', Ok acks).

Definition ProtocolSession_create_hard_reset_client (now time : Z) :
    M ProtocolSession ProtocolError bytes :=
  '(packet_id, _) ← on_reliable (ReliableTransport_send now []);
  s ← get;
  let packet := mkControl (control_header HardResetClientV2 KeyId_default (ps_local_session_id s))
                  None [] (Some packet_id) [] in
  ProtocolSession_maybe_wrap_tls_auth time (Packet_serialize (Control packet)).

Definition ProtocolSession_create_hard_reset_response (now time : Z) :
    M ProtocolSession ProtocolError bytes :=
  '(packet_id, _) ← on_reliable (ReliableTransport_send now []);
  acks ← on_reliable get_acks_call;
  s ← get;
  let packet := mkControl (control_header HardResetServerV2 KeyId_default (ps_local_session_id s))
                  (ps_remote_session_id s) acks (Some packet_id) [] in
  ProtocolSession_maybe_wrap_tls_auth time (Packet_serialize (Control packet)).

Definition ProtocolSession_create_single_control_packet (now time : Z) (tls_data : bytes) :
    M ProtocolSession ProtocolError bytes :=
  '(packet_id, _) ← on_reliable (ReliableTransport_send now tls_data);
  acks ← on_reliable get_acks_call;
  s ← get;
  let packet := mkControl (control_header ControlV1 (ps_current_key_id s) (ps_local_session_id s))
                  (ps_remote_session_id s) acks (Some packet_id) tls_data in
  ProtocolSession_maybe_wrap_tls_auth time (Packet_serialize (Control packet)).

Definition ProtocolSession_create_control_packet := ProtocolSession_create_single_control_packet.

Definition MAX_CONTROL_PAYLOAD : nat := Z.to_nat 1100.

(** The splitting loop; every turn advances [offset], so [length tls_data]
    turns are enough. *)
Fixpoint create_control_packets_loop (fuel : nat) (now time : Z) (tls_data : bytes) (offset : nat) :
    M ProtocolSession ProtocolError (list bytes) :=
  match fuel with
  | O => mret []
  | S f =>
      if offset <? length tls_data then
        let end_ := Nat.min (offset + MAX_CONTROL_PAYLOAD) (length tls_data) in
        chunk ← lift (slice tls_data offset end_);
        packet ← ProtocolSession_create_single_control_packet now time chunk;
        packets ← create_control_packets_loop f now time tls_data end_;
        mret (packet :: packets)
      else mret []
  end.

Definition ProtocolSession_create_control_packets (now time : Z) (tls_data : bytes) :
    M ProtocolSession ProtocolError (list bytes) :=
  if length tls_data <=? MAX_CONTROL_PAYLOAD then
    packet ← ProtocolSession_create_single_control_packet now time tls_data;
    mret [packet]
  else create_control_packets_loop (length tls_data) now time tls_data 0.

Definition ProtocolSession_create_ack_packet (now time : Z) :
    M ProtocolSession ProtocolError (option bytes) :=
  acks ← on_reliable get_acks_call;
  match acks with
  | [] => mret None
  | _ =>
      s ← get;
      let packet := mkControl (control_header AckV1 (ps_current_key_id s) (ps_local_session_id s))
                      (ps_remote_session_id s) acks None [] in
      _ ← modify (fun s => ps_set_reliable (ReliableTransport_ack_sent now (ps_reliable s)) s);
      wire ← ProtocolSession_maybe_wrap_tls_auth time (Packet_serialize (Control packet));
      mret (Some wire)
  end.

(** The closure of [get_retransmits], mapped over the due packets. *)
Fixpoint rebuild_retransmits (time : Z) (due : list (Z * bytes)) :
    M ProtocolSession ProtocolError (list bytes) :=
  match due with
  | [] => mret []
  | (id, data) :: due' =>
      s ← get;
      let packet := mkControl (control_header ControlV1 (ps_current_key_id s) (ps_local_session_id s))
                      (ps_remote_session_id s) [] (Some id) data in
      wire ← ProtocolSession_maybe_wrap_tls_auth time (Packet_serialize (Control packet));
      wires ← rebuild_retransmits time due';
      mret (wire :: wires)
  end.

Definition ProtocolSession_get_retransmits (now time : Z) :
    M ProtocolSession ProtocolError (list bytes) :=
  due ← on_reliable (ReliableTransport_get_retransmits now);
  rebuild_retransmits time due.

(** ** Keys and data *)
Definition ProtocolSession_install_keys (key_material : KeyMaterial) (is_server : bool) :
    M ProtocolSession ProtocolError unit := fun s =>
  let key_id := ps_current_key_id s in
  let idx := Z.to_nat (key_id_0 key_id) in
  let '(encrypt_key, decrypt_key) :=
    if is_server
    then (KeyMaterial_server_data_key key_material (ps_cipher_suite s),
          KeyMaterial_client_data_key key_material (ps_cipher_suite s))
    else (KeyMaterial_client_data_key key_material (ps_cipher_suite s),
          KeyMaterial_server_data_key key_material (ps_cipher_suite s)) in
  let use_v2 := bool_decide (is_Some (ps_peer_id s)) in
  if idx <? length (ps_data_channels s) then
    (ps_set_channels
       (<[idx := Some (DataChannel_new key_id encrypt_key decrypt_key use_v2 (ps_peer_id s))]>
          (ps_data_channels s)) s, Ok tt)
  else (s, Panic).

Definition ProtocolSession_encrypt_data (data : bytes) : M ProtocolSession ProtocolError bytes :=
  fun s =>
  let idx := Z.to_nat (key_id_0 (ps_current_key_id s)) in
  match ps_data_channels s !! idx with
  | None => (s, Panic)
  | Some None => (s, Err (KeyNotAvailable (key_id_0 (ps_current_key_id s))))
  | Some (Some channel) =>
      let '(channel', r) := DataChannel_encrypt data channel in
      (ps_set_channels (<[idx := Some channel']> (ps_data_channels s)) s,
       packet ← r; Ok (DataPacket_serialize packet))
  end.

Definition ProtocolSession_rotate_key (s : ProtocolSession) : ProtocolSession :=
  ps_set_window (ReplayWindow_reset (ps_replay_window s))
    (ps_set_key_id (KeyId_next (ps_current_key_id s)) s).

End Session.

(** ** Queries *)
Definition ProtocolSession_is_established (s : ProtocolSession) : bool :=
  bool_decide (ps_state s = Established).
Definition ProtocolSession_should_send_ack (now : Z) (s : ProtocolSession) : bool :=
  ReliableTransport_should_send_ack now (ps_reliable s).
Definition ProtocolSession_next_timeout (now : Z) (s : ProtocolSession) : option Z :=
  ReliableTransport_next_timeout now (ps_reliable s).
Definition ProtocolSession_duration (now : Z) (s : ProtocolSession) : Z :=
  Z.max 0 (now - ps_created_at s).
Definition ProtocolSession_idle_time (now : Z) (s : ProtocolSession) : Z :=
  Z.max 0 (now - ps_last_activity s).
