(* ===== verification/SessionProofs.v ===== *)
(** * Theorems on protocol sessions

    Safety of [process_packet] on arbitrary datagrams, what tls-auth rules
    out, and the two-party runs: hard reset handshake, TLS stream, data
    channel.  The definitions are in Session.v. *)
From S2P Require Import Prelude Errors Opcode Packet Replay Float Reliable Cipher HmacAuth Kdf DataChannel Session.

(** ** Invariant *)
Record sess_inv (s : ProtocolSession) : Prop := {
  si_local : length (ps_local_session_id s) = 8;
  si_remote : from_option (fun r => length r = 8) True (ps_remote_session_id s);
  si_key : KeyId_ok (ps_current_key_id s);
  si_channels : length (ps_data_channels s) = 8;
  si_reliable : rel_inv (ps_reliable s);
  si_buffer : incomplete (tr_buffer (ps_tls_reassembler s));
}.

Lemma sess_inv_new sid now suite :
  length sid = 8 -> sess_inv (ProtocolSession_new_server sid now suite).
Proof.
  intros Hs. split; try done.
  - apply rel_inv_new, config_default_ok.
  - left. cbn. lia.
Qed.

Lemma KeyId_index k (A : Type) (l : list A) :
  KeyId_ok k -> length l = 8 -> is_Some (l !! Z.to_nat (key_id_0 k)).
Proof. intros Hk Hl. apply lookup_lt_is_Some_2. unfold KeyId_ok, uint in Hk. lia. Qed.

(** The updates of the session that keep the invariant. *)
Lemma inv_activity t s : sess_inv s -> sess_inv (ps_set_activity t s).
Proof. by intros []. Qed.
Lemma inv_state st s : sess_inv s -> sess_inv (ps_put_state st s).
Proof. by intros []. Qed.
Lemma inv_window w s : sess_inv s -> sess_inv (ps_set_window w s).
Proof. by intros []. Qed.
Lemma inv_auth_id n s : sess_inv s -> sess_inv (ps_set_auth_id n s).
Proof. by intros []. Qed.
Lemma inv_remote r s : length r = 8 -> sess_inv s -> sess_inv (ps_set_remote (Some r) s).
Proof. by intros ? []. Qed.
Lemma inv_reliable t s : rel_inv t -> sess_inv s -> sess_inv (ps_set_reliable t s).
Proof. by intros ? []. Qed.
Lemma inv_channels i c s : sess_inv s -> sess_inv (ps_set_channels (<[i := c]> (ps_data_channels s)) s).
Proof. intros []. split; try done. ps_simpl. by rewrite length_insert. Qed.

#[export] Hint Resolve inv_activity inv_state inv_window inv_auth_id inv_remote inv_reliable
  inv_channels : vpn.

Section Safety.
Context {AEAD : Aead} {HMAC : Hmac}.

Lemma safe_on_reliable {A} (m : M ReliableTransport ProtocolError A) :
  safe rel_inv m -> safe sess_inv (on_reliable m).
Proof.
  intros Hm. eapply safe_zoom; [done|apply si_reliable|]. intros s t Hs Ht. by apply inv_reliable.
Qed.

Lemma safe_receive id data : safe rel_inv (ReliableTransport_receive id data).
Proof. intros t Ht. by apply receive_inv. Qed.

Lemma safe_acks now acks : duration_ok now -> safe rel_inv (acks_call now acks).
Proof.
  intros Hnow t Ht. unfold acks_call.
  by destruct (process_acks_inv now acks t Ht Hnow) as (t' & -> & ? & _).
Qed.

Lemma safe_receive_empty o : safe sess_inv (receive_empty o).
Proof.
  destruct o as [id|]; [|apply safe_ret]. apply safe_bind; [|intros; apply safe_ret].
  apply safe_on_reliable, safe_receive.
Qed.

Lemma safe_check_replay o : safe sess_inv (ProtocolSession_check_replay o).
Proof.
  intros s Hs. unfold ProtocolSession_check_replay.
  destruct (ps_use_tls_auth s), o as [id|]; try done.
  destruct (tls_check_and_update _ _) as [w []]; split; by try apply inv_window.
Qed.

(** The two calls on the reassembler of the [ControlV1] branch. *)
Lemma safe_reassemble data :
  safe sess_inv
    (_ ← zoom ps_tls_reassembler ps_set_reassembler id (TlsRecordReassembler_add data);
     zoom ps_tls_reassembler ps_set_reassembler id TlsRecordReassembler_extract_records).
Proof.
  intros s Hs. unfold mbind, M_bind, zoom, TlsRecordReassembler_add.
  destruct (_ <? _); cbn [map_err].
  { split; [by destruct Hs|done]. }
  unfold TlsRecordReassembler_extract_records. ps_simpl. cbn [tr_buffer tr_max_size].
  destruct (extract_loop_spec (length (tr_buffer (ps_tls_reassembler s) ++ data))
    (tr_buffer (ps_tls_reassembler s) ++ data)) as (rs & rest & -> & _ & _ & Hi); [done|].
  split; [by destruct Hs|done].
Qed.

Lemma bind_assoc {S E A B C} (m : M S E A) (f : A -> M S E B) (g : B -> M S E C) s :
  ((m ≫= f) ≫= g) s = (m ≫= (fun a => f a ≫= g)) s.
Proof. unfold mbind, M_bind. by destruct (m s) as [s' []]. Qed.

Lemma safe_process_tls ctrl : safe sess_inv (ProtocolSession_process_tls ctrl).
Proof.
  unfold ProtocolSession_process_tls. destruct (cp_message_packet_id ctrl); [|apply safe_ret].
  apply safe_bind; [apply safe_on_reliable, safe_receive|]. intros [data|]; [|apply safe_ret].
  intros s Hs. rewrite <- bind_assoc. revert s Hs. apply safe_bind; [apply safe_reassemble|].
  intros records. destruct (length records =? 0); apply safe_ret.
Qed.

Lemma safe_control now t ctrl :
  duration_ok now -> control_wf t ctrl -> safe sess_inv (ProtocolSession_process_control_packet now ctrl).
Proof.
  intros Hnow (Hh & _). unfold ProtocolSession_process_control_packet, ProtocolSession_handle_acks,
    ProtocolSession_handle_opcode.
  assert (forall sid, ph_session_id (cp_header ctrl) = Some sid -> length sid = 8) as Hsid.
  { intros sid Hs. unfold header_wf in Hh. rewrite Hs in Hh. destruct Hh as [_ Hh].
    repeat case_match; naive_solver. }
  apply safe_bind; [apply safe_check_replay|intros _].
  apply safe_bind; [destruct (cp_acks ctrl); [apply safe_ret|by apply safe_on_reliable, safe_acks]|intros _].
  assert (forall st, safe (E := ProtocolError) sess_inv (modify (ps_put_state st))) as Hst
    by (intros st; apply safe_modify, inv_state).
  assert (forall sid, ph_session_id (cp_header ctrl) = Some sid ->
    safe (E := ProtocolError) sess_inv (modify (ps_set_remote (Some sid)))) as Hrem
    by (intros sid Hs; apply safe_modify; intros s; apply inv_remote; by apply Hsid).
  destruct (ph_opcode (cp_header ctrl)); try apply safe_fail; try apply safe_ret;
    try apply safe_process_tls;
    repeat (apply safe_bind; [first [apply Hst|apply safe_receive_empty|apply safe_get|idtac]|intros ?]);
    try apply safe_ret;
    destruct (ph_session_id (cp_header ctrl)) as [sid|]; try apply safe_ret;
    try destruct (decide _); try apply safe_fail; by apply Hrem.
Qed.

Lemma safe_data d : KeyId_ok (ph_key_id (dp_header d)) ->
  safe sess_inv (ProtocolSession_process_data_packet d).
Proof.
  intros Hk s Hs. unfold ProtocolSession_process_data_packet. cbv zeta. cbn [dpk_key_id].
  destruct (KeyId_index _ _ _ Hk (si_channels _ Hs)) as [[ch|] ->]; [|done].
  unfold DataChannel_decrypt. cbn [dpk_key_id dpk_payload].
  destruct (decide _); [|split; [by apply inv_channels|done]].
  pose proof (decrypt_no_panic (dc_decrypt_cipher ch) (dp_payload d)
    (DataChannel_decrypt_ad_prefix (mkDataPacket (ph_key_id (dp_header d)) (dp_peer_id d) (dp_payload d)))) as Hnp.
  destruct (PacketCipher_decrypt _ _ _) as [c r]. split; [by apply inv_channels|].
  unfold no_panic in *. by destruct r.
Qed.

Lemma verify_tls_auth_no_panic s data : no_panic (ProtocolSession_verify_tls_auth s data).
Proof.
  unfold ProtocolSession_verify_tls_auth. destruct (negb _); [done|].
  destruct (ps_tls_auth_key s) as [key|]; [|done].
  destruct (Nat.eqb_spec (length data) 0) as [|Hl]; [done|].
  destruct (idx_total (E := ProtocolError) data 0) as [b ->]; [lia|]. rsimp.
  pose proof (OpCode_from_byte_no_panic b). destruct (OpCode_from_byte b) as [o| |]; [|done..]. rsimp.
  destruct (OpCode_is_control o); [|done].
  destruct (Nat.ltb_spec (length data) 49); [done|].
  rewrite !slice_ok, slice_from_ok by lia. rsimp. unfold HmacAuth_verify.
  by destruct (decide _).
Qed.

Lemma safe_process_packet now data :
  duration_ok now -> bytes_ok data -> safe sess_inv (ProtocolSession_process_packet now data).
Proof.
  intros Hnow Hd. unfold ProtocolSession_process_packet.
  apply safe_bind; [by auto with vpn|intros _]. apply safe_bind; [apply safe_get|intros s].
  apply safe_bind; [apply safe_lift, verify_tls_auth_no_panic|intros _].
  intros s1 Hs1. unfold mbind, M_bind, lift.
  pose proof (Packet_parse_total data (ps_use_tls_auth s)) as Hnp.
  destruct (Packet_parse data (ps_use_tls_auth s)) as [p| |] eqn:Hp; [|done..].
  apply Packet_parse_inv in Hp as [_ Hwf]; [|done]. destruct p as [c|d].
  - by eapply safe_control.
  - apply safe_data; [|done]. apply Hwf.
Qed.

(** A sequence of datagrams, the clock read at each. *)
Fixpoint process_all (pkts : list (Z * bytes)) (s : ProtocolSession) :
    ProtocolSession * list (res ProtocolError ProcessedPacket) :=
  match pkts with
  | [] => (s, [])
  | (now, data) :: pkts' =>
      let '(s1, r) := ProtocolSession_process_packet now data s in
      let '(s2, rs) := process_all pkts' s1 in (s2, r :: rs)
  end.

(** A session survives every input: whatever datagrams arrive, in any
    number and order, with or without tls-auth, no call of [process_packet]
    panics, and the session keeps its invariant (bounded windows and buffers,
    eight key slots, eight-byte session ids). *)
Lemma process_packet_never_panics (s : ProtocolSession) (pkts : list (Z * bytes))
    (Hs : sess_inv s)
    (Hpkts : Forall (fun p => duration_ok (fst p) /\ bytes_ok (snd p)) pkts) :
  sess_inv (fst (process_all pkts s)) /\ Forall no_panic (snd (process_all pkts s)).
Proof.
  revert s Hs. induction Hpkts as [|[now data] pkts [Hn Hd] _ IH]; intros s Hs; [by split|].
  cbn [process_all]. destruct (safe_process_packet now data Hn Hd s Hs) as [H1 H2].
  destruct (ProtocolSession_process_packet now data s) as [s1 r].
  destruct (IH s1 H1) as [H3 H4]. destruct (process_all pkts s1) as [s2 rs]. split; [done|].
  by constructor.
Qed.

(** ** What tls-auth rules out *)

(** The bytes the HMAC of a tls-auth packet covers. *)
Definition authenticated_bytes (data : bytes) : bytes :=
  take 8 (drop 41 data) ++ take 9 data ++ drop 49 data.

Lemma verify_tls_auth_eq s key b rest o :
  ps_use_tls_auth s = true -> ps_tls_auth_key s = Some key ->
  OpCode_from_byte b = Ok o -> OpCode_is_control o = true -> 49 <= length (b :: rest) ->
  ProtocolSession_verify_tls_auth s (b :: rest) =
  map_err ProtoCryptoError
    (HmacAuth_verify key (authenticated_bytes (b :: rest)) (take 32 (drop 9 (b :: rest)))).
Proof.
  intros Hu Hk Ho Hc Hl. unfold ProtocolSession_verify_tls_auth, authenticated_bytes.
  rewrite Hu, Hk. cbn [negb]. rewrite (proj2 (Nat.eqb_neq (length (b :: rest)) 0)) by lia.
  rewrite (idx_ok (b :: rest) 0 b) by done. rsimp. rewrite Ho. rsimp. rewrite Hc.
  rewrite (proj2 (Nat.ltb_ge (length (b :: rest)) 49)) by lia.
  rewrite !slice_ok, slice_from_ok by lia. rsimp. by rewrite drop_0.
Qed.

(** C9: with tls-auth enabled, a control datagram whose HMAC field is not the
    HMAC of its contents under the receive key has no effect on the session
    but the time of last activity: it reaches neither the parser, the replay
    window, the acknowledgement processing nor the state machine. *)
Theorem unauthenticated_packet_has_no_effect (s : ProtocolSession) (key : HmacAuth) (now : Z)
    (b : Z) (rest : bytes) (o : OpCode)
    (Hu : ps_use_tls_auth s = true) (Hk : ps_tls_auth_key s = Some key)
    (Ho : OpCode_from_byte b = Ok o) (Hc : OpCode_is_control o = true)
    (Hbad : 49 <= length (b :: rest) ->
       hmac_sha256 (ha_rx_key key) (authenticated_bytes (b :: rest)) <> take 32 (drop 9 (b :: rest))) :
  exists e, ProtocolSession_process_packet now (b :: rest) s = (ps_set_activity now s, Err e) /\
    e = if length (b :: rest) <? 49 then PacketTooShort 49 (length (b :: rest))
        else ProtoCryptoError HmacVerificationFailed.
Proof.
  eexists. split; [|reflexivity].
  unfold ProtocolSession_process_packet, mbind, M_bind, modify, get, lift.
  change (ProtocolSession_verify_tls_auth (ps_set_activity now s) (b :: rest))
    with (ProtocolSession_verify_tls_auth s (b :: rest)).
  destruct (Nat.ltb_spec (length (b :: rest)) 49) as [Hl|Hl].
  - unfold ProtocolSession_verify_tls_auth. rewrite Hu, Hk. cbn [negb].
    rewrite (proj2 (Nat.eqb_neq (length (b :: rest)) 0)) by (cbn; lia).
    rewrite (idx_ok (b :: rest) 0 b) by done. rsimp. rewrite Ho. rsimp. rewrite Hc.
    by rewrite (proj2 (Nat.ltb_lt (length (b :: rest)) 49)) by lia.
  - rewrite (verify_tls_auth_eq s key b rest o) by done. unfold HmacAuth_verify.
    by rewrite decide_False by auto.
Qed.

End Safety.

(** ** One control packet from one session to the other *)
Section Wire.
Context {AEAD : Aead} {HMAC : Hmac} {HLAWS : HmacLaws HMAC}.

(** What the sending code puts into a control packet. *)
Record outgoing (c : ControlPacketData) : Prop := {
  og_header : exists op k sid, cp_header c = control_header op k sid /\
    OpCode_is_data op = false /\ KeyId_ok k /\ length sid = 8 /\
    match cp_message_packet_id c with
    | Some m => op <> AckV1 /\ u32 m
    | None => op = AckV1
    end;
  og_acks : length (cp_acks c) <= 16 /\ Forall u32 (cp_acks c);
  og_remote : cp_acks c <> [] -> exists r, cp_remote_session_id c = Some r /\ length r = 8;
}.

(** tls-auth is off on both sides, or on with the sender's transmit key as
    the receiver's receive key. *)
Definition auth_match (s r : ProtocolSession) : Prop :=
  (ps_use_tls_auth s = false /\ ps_use_tls_auth r = false) \/
  (ps_use_tls_auth s = true /\ ps_use_tls_auth r = true /\
   exists ks kr, ps_tls_auth_key s = Some ks /\ ps_tls_auth_key r = Some kr /\
     ha_tx_key ks = ha_rx_key kr).

(** The sender after one wrapped packet. *)
Definition after_wrap (s : ProtocolSession) : ProtocolSession :=
  if ps_use_tls_auth s then ps_set_auth_id (wrap 32 (ps_tls_auth_packet_id s + 1)) s else s.

(** The packet as the receiver parses it: the tls-auth fields filled in, the
    remote session id dropped when there are no acknowledgements. *)
Record received (s : ProtocolSession) (c c' : ControlPacketData) : Prop := {
  rc_opcode : ph_opcode (cp_header c') = ph_opcode (cp_header c);
  rc_sid : ph_session_id (cp_header c') = ph_session_id (cp_header c);
  rc_pid : ph_packet_id (cp_header c') =
    (if ps_use_tls_auth s then Some (ps_tls_auth_packet_id s) else None);
  rc_acks : cp_acks c' = cp_acks c;
  rc_mid : cp_message_packet_id c' = cp_message_packet_id c;
  rc_payload : cp_payload c' = cp_payload c;
}.

Definition with_auth (c : ControlPacketData) (auth : option (bytes * Z * Z)) : ControlPacketData :=
  let h := cp_header c in
  mkControl
    (mkPacketHeader (ph_opcode h) (ph_key_id h) (ph_session_id h)
       (fst ∘ fst <$> auth) (snd ∘ fst <$> auth) (snd <$> auth))
    (match cp_acks c with [] => None | _ => cp_remote_session_id c end)
    (cp_acks c) (cp_message_packet_id c) (cp_payload c).

Lemma with_auth_wf c auth :
  outgoing c ->
  match auth with
  | Some (hm, pid, ts) => length hm = 32 /\ u32 pid /\ u32 ts
  | None => True
  end ->
  packet_wf (bool_decide (is_Some auth)) (Control (with_auth c auth)).
Proof.
  intros [(op & k & sid & Hh & Hop & Hk & Hsid & Hm) [Ha1 Ha2] Hr] Hauth.
  unfold packet_wf, control_wf, with_auth. rewrite Hh. cbn. split_and!; try done.
  - unfold header_wf. cbn. split; [done|]. destruct auth as [[[hm pid] ts]|]; cbn; naive_solver.
  - destruct (cp_acks c); [done|]. destruct Hr as (r & -> & ?); done.
  - destruct (cp_message_packet_id c); naive_solver.
Qed.

(** Serialized, a control packet starts with opcode and session id. *)
Lemma serialize_split c auth :
  outgoing c ->
  exists b sid rest, Packet_serialize (Control c) = b :: sid ++ rest /\ length sid = 8 /\
    OpCode_from_byte b = Ok (ph_opcode (cp_header c)) /\
    Packet_serialize (Control (with_auth c auth)) =
      b :: sid ++ match auth with
                  | Some (hm, pid, ts) => hm ++ to_be 4 pid ++ to_be 4 ts
                  | None => []
                  end ++ rest.
Proof.
  intros [(op & k & sid & Hh & Hop & Hk & Hsid & Hm) _ _].
  exists (OpCode_to_byte op k), sid,
    ([wrap 8 (Z.of_nat (length (cp_acks c)))] ++ concat (map (to_be 4) (cp_acks c)) ++
      (match cp_acks c with [] => [] | _ => put_opt id (cp_remote_session_id c) end) ++
      put_opt (to_be 4) (cp_message_packet_id c) ++ cp_payload c).
  cbn [Packet_serialize]. unfold PacketHeader_serialize, with_auth. rewrite Hh.
  cbn [cp_header cp_acks cp_remote_session_id cp_message_packet_id cp_payload control_header
       ph_opcode ph_key_id ph_session_id ph_hmac ph_packet_id ph_timestamp put_opt].
  split; [cbn [app]; unfold id at 1; by rewrite <- !app_assoc|]. split; [done|].
  split; [apply OpCode_from_to_byte|].
  destruct auth as [[[hm pid] ts]|]; cbn [fmap option_fmap option_map compose fst snd put_opt];
      unfold id; cbn [app]; rewrite <- ?app_assoc, ?app_nil_r; by destruct (cp_acks c).
Qed.

(** Where the tls-auth fields are in a wrapped packet. *)
Lemma wrapped_layout (b : Z) (sid hm pid ts rest : bytes) :
  length sid = 8 -> length hm = 32 -> length pid = 4 -> length ts = 4 ->
  let wire := b :: sid ++ (hm ++ pid ++ ts) ++ rest in
  authenticated_bytes wire = pid ++ ts ++ b :: sid ++ rest /\ take 32 (drop 9 wire) = hm.
Proof.
  intros Hsid Hhm Hpid Hts wire. assert (length (b :: sid) = 9) as H9 by (cbn; lia).
  assert (length (pid ++ ts) = 8) as H8 by (rewrite length_app; lia).
  assert (wire = (b :: sid) ++ hm ++ (pid ++ ts) ++ rest) as Hw
    by (unfold wire; cbn; by rewrite <- !app_assoc).
  assert (drop 9 wire = hm ++ (pid ++ ts) ++ rest) as Hd9 by (by rewrite Hw, drop_app_length').
  assert (drop 41 wire = (pid ++ ts) ++ rest) as Hd41
    by (rewrite Hw, app_assoc, drop_app_length'; [done|rewrite length_app; lia]).
  assert (drop 49 wire = rest) as Hd49
    by (rewrite Hw, app_assoc, (app_assoc _ (pid ++ ts)), drop_app_length'; [done|rewrite !length_app in *; lia]).
  split; [|by rewrite Hd9, take_app_length'].
  unfold authenticated_bytes. rewrite Hd41, Hd49, take_app_length' by done.
  rewrite Hw, take_app_length' by done. by rewrite <- !app_assoc.
Qed.

(** The wire bytes of a control packet: the receiver's tls-auth check passes
    and its parser returns the packet. *)
Lemma wire_spec s r time c :
  outgoing c -> auth_match s r -> u32 (ps_tls_auth_packet_id s) ->
  exists wire c', ProtocolSession_maybe_wrap_tls_auth time (Packet_serialize (Control c)) s =
      (after_wrap s, Ok wire) /\ received s c c' /\
    ProtocolSession_verify_tls_auth r wire = Ok tt /\
    Packet_parse wire (ps_use_tls_auth r) = Ok (Control c').
Proof.
  intros Hc Hauth Hpid. unfold ProtocolSession_maybe_wrap_tls_auth, after_wrap.
  destruct Hauth as [[Hs Hr]|(Hs & Hr & ks & kr & Hks & Hkr & Hk)]; rewrite Hs.
  - exists (Packet_serialize (Control c)), (with_auth c None).
    destruct (serialize_split c None Hc) as (b & sid & rest & He & Hl & Ho & He').
    assert (Packet_serialize (Control c) = Packet_serialize (Control (with_auth c None))) as Heq
      by (by rewrite He, He'). cbn [app] in He'.
    split; [done|]. split; [split; try done; by rewrite Hs|]. split.
    + unfold ProtocolSession_verify_tls_auth. by rewrite Hr.
    + rewrite Hr, Heq. apply Packet_parse_of_serialize. by apply (with_auth_wf c None).
  - rewrite Hks. set (pid := to_be 4 (ps_tls_auth_packet_id s)).
    set (ts := to_be 4 (wrap 32 time)).
    set (hm := HmacAuth_authenticate ks (pid ++ ts ++ Packet_serialize (Control c))).
    set (auth := Some (hm, ps_tls_auth_packet_id s, wrap 32 time)).
    assert (length hm = 32) as Hhm by apply hmac_sha256_length.
    assert (length pid = 4 /\ length ts = 4) as [Hp4 Ht4] by (split; apply to_be_length).
    destruct (serialize_split c auth Hc) as (b & sid & rest & He & Hl & Ho & He').
    cbn [auth] in He'. fold pid ts in He'.
    exists (Packet_serialize (Control (with_auth c auth))), (with_auth c auth).
    split; [|split; [split; try done; by rewrite Hs|split]].
    + rewrite (proj2 (Nat.ltb_ge _ _)) by (rewrite He; cbn; rewrite length_app; lia).
      cbv zeta. fold pid ts hm. f_equal. rewrite He'.
      rewrite (slice_at _ [] (b :: sid) rest 0 9)
        by (rewrite ?He; done || (cbn; lia)). rsimp.
      rewrite (slice_from_at _ (b :: sid) rest 9) by (rewrite ?He; done || (cbn; lia)). rsimp.
      cbn [app]. by rewrite <- !app_assoc.
    + rewrite He'. rewrite (verify_tls_auth_eq r kr b _ (ph_opcode (cp_header c))); try done.
      * destruct (wrapped_layout b sid hm pid ts rest) as [-> ->]; try done. rewrite <- He.
        unfold hm. by rewrite verify_authenticate.
      * destruct Hc as [(op & k & sid' & Hh & Hop & _) _ _]. rewrite Hh. cbn.
        rewrite OpCode_data_control in Hop. by apply negb_false_iff.
      * rewrite length_cons, !length_app. lia.
    + rewrite Hr. replace true with (bool_decide (is_Some auth)) by done.
      apply Packet_parse_of_serialize, with_auth_wf; [done|]. cbn. split_and!; [done..|].
      apply wrap_uint. lia.
Qed.

Lemma process_wire r now c' wire :
  ProtocolSession_verify_tls_auth r wire = Ok tt ->
  Packet_parse wire (ps_use_tls_auth r) = Ok (Control c') ->
  ProtocolSession_process_packet now wire r =
  ProtocolSession_process_control_packet now c' (ps_set_activity now r).
Proof.
  intros Hv Hp. unfold ProtocolSession_process_packet, mbind at 1, M_bind at 1, modify at 1.
  unfold mbind at 1, M_bind at 1, get at 1. unfold mbind at 1, M_bind at 1, lift at 1.
  change (ProtocolSession_verify_tls_auth (ps_set_activity now r) wire)
    with (ProtocolSession_verify_tls_auth r wire). rewrite Hv.
  change (ps_use_tls_auth (ps_set_activity now r)) with (ps_use_tls_auth r).
  unfold mbind at 1, M_bind at 1, lift at 1. by rewrite Hp.
Qed.

(** ** Links: what one session sends next is what the other expects *)
Record auth_linked (s r : ProtocolSession) : Prop := {
  lk_auth : auth_match s r;
  lk_pid : u32 (ps_tls_auth_packet_id s);
  lk_window : ps_use_tls_auth s = true ->
    (0 <= rw_highest (ps_replay_window r) < ps_tls_auth_packet_id s)%Z;
}.

Record linked (s r : ProtocolSession) : Prop := {
  lk_authed : auth_linked s r;
  lk_recv : rt_next_recv_id (ps_reliable r) = rt_next_send_id (ps_reliable s);
  lk_ooo : rt_out_of_order (ps_reliable r) = ∅;
}.

(** The link reads only these fields. *)
Lemma auth_linked_fields s s' r :
  auth_linked s r -> ps_use_tls_auth s' = ps_use_tls_auth s -> ps_tls_auth_key s' = ps_tls_auth_key s ->
  ps_tls_auth_packet_id s' = ps_tls_auth_packet_id s -> auth_linked s' r.
Proof.
  intros [Hm Hp Hw] Hu Hk Hi. split; [|by rewrite Hi|by rewrite Hu, Hi].
  unfold auth_match in *. by rewrite Hu, Hk.
Qed.

(** The next packet's id is above the window, whether the one before it
    arrived or was lost. *)
Lemma auth_linked_advance s r r' :
  auth_linked s r -> (ps_tls_auth_packet_id s + 1 < 2 ^ 32)%Z ->
  ps_use_tls_auth r' = ps_use_tls_auth r -> ps_tls_auth_key r' = ps_tls_auth_key r ->
  (ps_use_tls_auth s = true -> (0 <= rw_highest (ps_replay_window r') <= ps_tls_auth_packet_id s)%Z) ->
  auth_linked (after_wrap s) r'.
Proof.
  intros [Hm Hp Hw] Hlt Hu Hk Hwin. unfold uint in Hp.
  assert (wrap 32 (ps_tls_auth_packet_id s + 1) = ps_tls_auth_packet_id s + 1)%Z as Hn
    by (apply wrap_small; unfold uint; lia).
  unfold after_wrap. destruct (ps_use_tls_auth s) eqn:Hs; split.
  - unfold auth_match in *. ps_simpl. by rewrite Hu, Hk.
  - ps_simpl. unfold uint. lia.
  - ps_simpl. intros _. specialize (Hwin eq_refl). lia.
  - unfold auth_match in *. by rewrite Hu, Hk.
  - done.
  - by rewrite Hs.
Qed.

Lemma set_window_id s : ps_set_window (ps_replay_window s) s = s.
Proof. by destruct s. Qed.

(** A control packet crosses the link: the checks pass and the receiver
    continues with acknowledgements and opcode. *)
Lemma deliver s r now time c :
  outgoing c -> auth_linked s r ->
  exists wire c' w, ProtocolSession_maybe_wrap_tls_auth time (Packet_serialize (Control c)) s =
      (after_wrap s, Ok wire) /\ received s c c' /\
    (ps_use_tls_auth s = true -> rw_highest w = ps_tls_auth_packet_id s) /\
    ProtocolSession_process_packet now wire r =
      (_ ← ProtocolSession_handle_acks now (cp_acks c'); ProtocolSession_handle_opcode c')
        (ps_set_window w (ps_set_activity now r)).
Proof.
  intros Hc [Hauth Hpid Hwin].
  destruct (wire_spec s r time c Hc Hauth Hpid) as (wire & c' & Hw & Hrc & Hv & Hp).
  assert (exists w, (ps_use_tls_auth s = true -> rw_highest w = ps_tls_auth_packet_id s) /\
    ProtocolSession_check_replay (ph_packet_id (cp_header c')) (ps_set_activity now r) =
    (ps_set_window w (ps_set_activity now r), Ok tt)) as (w & Hhw & Hck).
  { rewrite (rc_pid _ _ _ Hrc). unfold ProtocolSession_check_replay.
    destruct Hauth as [[Hs Hr]|(Hs & Hr & _)]; rewrite Hs in *; ps_simpl; rewrite Hr.
    - exists (ps_replay_window r). split; [done|]. by destruct r.
    - unfold tls_check_and_update, check_and_update. specialize (Hwin eq_refl).
      rewrite (proj2 (Z.eqb_neq _ 0)), (proj2 (Z.ltb_lt _ _)) by lia.
      eexists. split; [|reflexivity]. done. }
  exists wire, c', w. split; [done|]. split; [done|]. split; [done|].
  rewrite (process_wire r now c' wire Hv Hp). unfold ProtocolSession_process_control_packet.
  unfold mbind at 1, M_bind at 1. by rewrite Hck.
Qed.

(** [receive] of the expected packet, in the session. *)
Lemma on_reliable_receive s data id :
  rt_out_of_order (ps_reliable s) = ∅ -> id = rt_next_recv_id (ps_reliable s) ->
  on_reliable (ReliableTransport_receive id data) s =
    (ps_set_reliable
       (rt_set_recv (wrap 32 (id + 1)) ∅
          (rt_set_acks (rt_pending_acks (ps_reliable s) ++ [id]) (ps_reliable s))) s,
     Ok (Some data)).
Proof.
  intros Ho ->. unfold on_reliable, zoom. by rewrite receive_expected.
Qed.

(** ** The hard reset handshake *)

(** A session of either role with an optional tls-auth key. *)
Definition fresh_session (sid : bytes) (now : Z) (suite : CipherSuite) (auth : option HmacAuth) :
    ProtocolSession :=
  let s := ProtocolSession_new_server sid now suite in
  match auth with Some k => ProtocolSession_set_tls_auth k s | None => s end.

(** Both sides have tls-auth off, or on with complementary keys. *)
Definition auth_pair (ac as_ : option HmacAuth) : Prop :=
  match ac, as_ with
  | None, None => True
  | Some kc, Some ks => ha_tx_key kc = ha_rx_key ks /\ ha_tx_key ks = ha_rx_key kc
  | _, _ => False
  end.

Lemma send_first now :
  ReliableTransport_send now [] (ReliableTransport_new ReliableConfig_default) =
  (mkReliable ReliableConfig_default 1 0
     {[0%Z := mkPending [] now (now + from_secs 2) (from_secs 2) 0]} [] ∅ None None
     (from_millis 500), Ok (0%Z, [])).
Proof. reflexivity. Qed.

Lemma outgoing_control op k sid remote acks mid payload :
  OpCode_is_data op = false -> op <> AckV1 -> KeyId_ok k -> length sid = 8 -> u32 mid ->
  length acks <= 16 -> Forall u32 acks ->
  (acks <> [] -> exists r, remote = Some r /\ length r = 8) ->
  outgoing (mkControl (control_header op k sid) remote acks (Some mid) payload).
Proof. intros. split; cbn; [|done..]. by exists op, k, sid. Qed.

(** The client's side of the reset: its first packet. *)
Lemma create_hard_reset_client_fresh sid t0 suite auth now time :
  ProtocolSession_create_hard_reset_client now time (fresh_session sid t0 suite auth) =
  ProtocolSession_maybe_wrap_tls_auth time
    (Packet_serialize (Control (mkControl (control_header HardResetClientV2 KeyId_default sid)
       None [] (Some 0%Z) [])))
    (ps_set_reliable (fst (ReliableTransport_send now [] (ReliableTransport_new ReliableConfig_default)))
       (fresh_session sid t0 suite auth)).
Proof.
  unfold ProtocolSession_create_hard_reset_client, mbind, M_bind, on_reliable, zoom, get.
  replace (ps_reliable (fresh_session sid t0 suite auth))
    with (ReliableTransport_new ReliableConfig_default) by (by destruct auth).
  rewrite send_first. cbn [map_err fst snd]. by destruct auth.
Qed.

Lemma handle_hard_reset_client c sid mid s :
  ph_opcode (cp_header c) = HardResetClientV2 -> ph_session_id (cp_header c) = Some sid ->
  sid <> replicate 8 0%Z -> cp_message_packet_id c = Some mid ->
  rt_out_of_order (ps_reliable s) = ∅ -> mid = rt_next_recv_id (ps_reliable s) ->
  ProtocolSession_handle_opcode c s =
    (ps_put_state TlsHandshake
       (ps_set_reliable
          (rt_set_recv (wrap 32 (mid + 1)) ∅
             (rt_set_acks (rt_pending_acks (ps_reliable s) ++ [mid]) (ps_reliable s)))
          (ps_set_remote (Some sid) s)), Ok (PHardReset (ps_local_session_id s))).
Proof.
  intros Hop Hsid Hz Hm Ho Hn. unfold ProtocolSession_handle_opcode, receive_empty. rewrite Hop, Hsid, Hm.
  rewrite decide_False by done. unfold mbind, M_bind, modify, get, mret, M_ret.
  by rewrite on_reliable_receive.
Qed.

Lemma handle_hard_reset_server c sid mid s :
  ph_opcode (cp_header c) = HardResetServerV2 -> ph_session_id (cp_header c) = Some sid ->
  cp_message_packet_id c = Some mid ->
  rt_out_of_order (ps_reliable s) = ∅ -> mid = rt_next_recv_id (ps_reliable s) ->
  ProtocolSession_handle_opcode c s =
    (ps_put_state TlsHandshake
       (ps_set_reliable
          (rt_set_recv (wrap 32 (mid + 1)) ∅
             (rt_set_acks (rt_pending_acks (ps_reliable s) ++ [mid]) (ps_reliable s)))
          (ps_set_remote (Some sid) s)), Ok PHardResetAck).
Proof.
  intros Hop Hsid Hm Ho Hn. unfold ProtocolSession_handle_opcode, receive_empty. rewrite Hop, Hsid, Hm.
  unfold mbind, M_bind, modify, get, mret, M_ret. by rewrite on_reliable_receive.
Qed.

(** The transport of the server after the client's reset, and of the client
    after the server's. *)
Definition server_transport (t3 : Z) : ReliableTransport :=
  mkReliable ReliableConfig_default 1 1
    {[0%Z := mkPending [] t3 (t3 + from_secs 2) (from_secs 2) 0]} [] ∅ None None (from_millis 500).
Definition client_transport (rtt : Z) : ReliableTransport :=
  mkReliable ReliableConfig_default 1 1 ∅ [0%Z] ∅ None (Some rtt) (rtt / 2).

Lemma after_wrap_fields s :
  ps_reliable (after_wrap s) = ps_reliable s /\ ps_state (after_wrap s) = ps_state s /\
  ps_remote_session_id (after_wrap s) = ps_remote_session_id s /\
  ps_replay_window (after_wrap s) = ps_replay_window s /\
  ps_use_tls_auth (after_wrap s) = ps_use_tls_auth s /\
  ps_tls_auth_key (after_wrap s) = ps_tls_auth_key s /\
  ps_local_session_id (after_wrap s) = ps_local_session_id s /\
  ps_current_key_id (after_wrap s) = ps_current_key_id s /\
  ps_tls_reassembler (after_wrap s) = ps_tls_reassembler s.
Proof. unfold after_wrap. destruct (ps_use_tls_auth s) eqn:Hu; by split_and!. Qed.

Lemma after_wrap_id s :
  ps_tls_auth_packet_id (after_wrap s) =
  if ps_use_tls_auth s then wrap 32 (ps_tls_auth_packet_id s + 1) else ps_tls_auth_packet_id s.
Proof. unfold after_wrap. by destruct (ps_use_tls_auth s). Qed.

Lemma fresh_auth_match sid1 sid2 t1 t2 su1 su2 a1 a2 :
  auth_pair a1 a2 ->
  auth_match (fresh_session sid1 t1 su1 a1) (fresh_session sid2 t2 su2 a2) /\
  auth_match (fresh_session sid2 t2 su2 a2) (fresh_session sid1 t1 su1 a1).
Proof.
  unfold auth_match. destruct a1 as [k1|], a2 as [k2|]; cbn; try done; [|by intros _; split; left].
  intros [H1 H2]. split; right; (split; [done|]); (split; [done|]).
  - by exists k1, k2.
  - by exists k2, k1.
Qed.

Lemma handle_acks_first now t1 s :
  ps_reliable s = mkReliable ReliableConfig_default 1 0
     {[0%Z := mkPending [] t1 (t1 + from_secs 2) (from_secs 2) 0]} [] ∅ None None (from_millis 500) ->
  ProtocolSession_handle_acks now [0%Z] s =
    (ps_set_reliable (mkReliable ReliableConfig_default 1 0 ∅ [] ∅ None
       (Some (Z.max 0 (now - t1))) (Z.max 0 (now - t1) / 2)) s, Ok tt).
Proof.
  intros Hr. unfold ProtocolSession_handle_acks, on_reliable, zoom, acks_call. by rewrite Hr.
Qed.

(** Both sides start with packet id 1 and an empty window. *)
Lemma fresh_linked sid1 sid2 t1 t2 su1 su2 a1 a2 :
  auth_pair a1 a2 ->
  auth_linked (fresh_session sid1 t1 su1 a1) (fresh_session sid2 t2 su2 a2) /\
  auth_linked (fresh_session sid2 t2 su2 a2) (fresh_session sid1 t1 su1 a1).
Proof.
  intros H. destruct (fresh_auth_match sid1 sid2 t1 t2 su1 su2 a1 a2 H) as [H1 H2].
  split; (split; [done|by destruct a1, a2|by destruct a1, a2]).
Qed.

Lemma fresh_fields sid t0 suite auth :
  let s := fresh_session sid t0 suite auth in
  ps_reliable s = ReliableTransport_new ReliableConfig_default /\ ps_local_session_id s = sid /\
  ps_tls_auth_packet_id s = 1%Z /\ ps_state s = Initial /\ ps_remote_session_id s = None.
Proof. by destruct auth. Qed.

(** The client after its reset is queued. *)
Definition client_transport1 (t1 : Z) : ReliableTransport :=
  mkReliable ReliableConfig_default 1 0
    {[0%Z := mkPending [] t1 (t1 + from_secs 2) (from_secs 2) 0]} [] ∅ None None (from_millis 500).

(** First half: the client's reset reaches a fresh server. *)
Lemma reset_reaches_server c0 sids ts sus as_ sidc t1 t2 time1 :
  let s0 := fresh_session sids ts sus as_ in
  auth_linked c0 s0 -> length sidc = 8 -> sidc <> replicate 8 0%Z ->
  let c0' := ps_set_reliable (client_transport1 t1) c0 in
  exists w1 win,
    ProtocolSession_maybe_wrap_tls_auth time1
      (Packet_serialize (Control (mkControl (control_header HardResetClientV2 KeyId_default sidc)
         None [] (Some 0%Z) []))) c0' = (after_wrap c0', Ok w1) /\
    (ps_use_tls_auth c0 = true -> rw_highest win = ps_tls_auth_packet_id c0) /\
    ProtocolSession_process_packet t2 w1 s0 =
      (ps_put_state TlsHandshake (ps_set_reliable
         (rt_set_recv 1 ∅ (rt_set_acks [0%Z] (ReliableTransport_new ReliableConfig_default)))
         (ps_set_remote (Some sidc) (ps_set_window win (ps_set_activity t2 s0)))),
       Ok (PHardReset sids)).
Proof.
  intros s0 Hl Hsid Hz c0'. destruct (fresh_fields sids ts sus as_) as (Hr0 & Hl0 & _). fold s0 in Hr0, Hl0.
  destruct (deliver c0' s0 t2 time1 (mkControl (control_header HardResetClientV2 KeyId_default sidc)
       None [] (Some 0%Z) [])) as (w1 & m1 & win & Hwrap & [Ho Hs _ Ha Hm _] & Hwin & Hproc);
    [apply outgoing_control; try done; cbn; lia|by eapply auth_linked_fields|].
  cbn in Ho, Hs, Ha, Hm. rewrite Ha in Hproc. unfold mbind, M_bind in Hproc.
  cbn [ProtocolSession_handle_acks mret M_ret] in Hproc.
  rewrite (handle_hard_reset_client m1 sidc 0 _ Ho Hs Hz Hm) in Hproc by (ps_simpl; by rewrite Hr0).
  exists w1, win. split; [done|]. split; [done|]. rewrite Hproc. ps_simpl. by rewrite Hr0, Hl0.
Qed.

(** Second half: the server's answer, which acknowledges the reset, reaches
    the client. *)
Lemma response_reaches_client c1 s1 sidc sids t1 t3 t4 time2 :
  auth_linked s1 c1 -> length sidc = 8 -> length sids = 8 -> ps_reliable c1 = client_transport1 t1 ->
  let s1' := ps_set_reliable (server_transport t3) s1 in
  exists w2 win,
    ProtocolSession_maybe_wrap_tls_auth time2
      (Packet_serialize (Control (mkControl (control_header HardResetServerV2 KeyId_default sids)
         (Some sidc) [0%Z] (Some 0%Z) []))) s1' = (after_wrap s1', Ok w2) /\
    (ps_use_tls_auth s1 = true -> rw_highest win = ps_tls_auth_packet_id s1) /\
    ProtocolSession_process_packet t4 w2 c1 =
      (ps_put_state TlsHandshake (ps_set_reliable (client_transport (Z.max 0 (t4 - t1)))
         (ps_set_remote (Some sids) (ps_set_reliable (mkReliable ReliableConfig_default 1 0 ∅ [] ∅ None
             (Some (Z.max 0 (t4 - t1))) (Z.max 0 (t4 - t1) / 2))
            (ps_set_window win (ps_set_activity t4 c1))))), Ok PHardResetAck).
Proof.
  intros Hl Hsidc Hsids Hrel s1'.
  destruct (deliver s1' c1 t4 time2 (mkControl (control_header HardResetServerV2 KeyId_default sids)
      (Some sidc) [0%Z] (Some 0%Z) [])) as (w2 & m2 & win & Hwrap & [Ho Hs _ Ha Hm _] & Hwin & Hproc).
  { apply outgoing_control; try done; [cbn; lia|by repeat constructor|]. intros _. by exists sidc. }
  { by eapply auth_linked_fields. }
  cbn in Ho, Hs, Ha, Hm. rewrite Ha in Hproc. unfold mbind, M_bind in Hproc.
  rewrite (handle_acks_first t4 t1) in Hproc by (ps_simpl; by rewrite Hrel).
  rewrite (handle_hard_reset_server m2 sids 0 _ Ho Hs Hm) in Hproc by done.
  exists w2, win. split; [done|]. split; [done|]. rewrite Hproc. done.
Qed.

(** C10: the hard reset handshake completes: for fresh sessions, with tls-auth
    off or with complementary keys, and whatever the clocks say, the client's
    reset is accepted by the server, the server's answer is accepted by the
    client, both end in the TLS handshake state knowing each other's session
    id, the client's packet is acknowledged, and both directions are ready
    for the TLS stream. *)
Theorem hard_reset_handshake (sidc sids : bytes) (tc ts t1 t2 t3 t4 time1 time2 : Z)
    (suc sus : CipherSuite) (ac as_ : option HmacAuth)
    (Hsidc : length sidc = 8) (Hsids : length sids = 8) (Hz : sidc <> replicate 8 0%Z)
    (Hauth : auth_pair ac as_) :
  exists w1 w2 c1 s1 s2 c2,
    ProtocolSession_create_hard_reset_client t1 time1 (fresh_session sidc tc suc ac) = (c1, Ok w1) /\
    ProtocolSession_process_packet t2 w1 (fresh_session sids ts sus as_) = (s1, Ok (PHardReset sids)) /\
    ProtocolSession_create_hard_reset_response t3 time2 s1 = (s2, Ok w2) /\
    ProtocolSession_process_packet t4 w2 c1 = (c2, Ok PHardResetAck) /\
    ps_state s2 = TlsHandshake /\ ps_state c2 = TlsHandshake /\
    ps_remote_session_id s2 = Some sidc /\ ps_remote_session_id c2 = Some sids /\
    rt_pending (ps_reliable c2) = ∅ /\ linked c2 s2 /\ linked s2 c2.
Proof.
  destruct (fresh_linked sidc sids tc ts suc sus ac as_ Hauth) as [Hcs Hsc].
  destruct (fresh_fields sidc tc suc ac) as (_ & _ & Hpc & _).
  destruct (fresh_fields sids ts sus as_) as (_ & Hl0 & Hps & _).
  rewrite create_hard_reset_client_fresh, send_first. cbn [fst].
  destruct (reset_reaches_server _ _ _ _ _ sidc t1 t2 time1 Hcs Hsidc Hz)
    as (w1 & win1 & Hwrap1 & Hwin1 & Hproc1).
  set (c0 := fresh_session sidc tc suc ac) in *. set (s0 := fresh_session sids ts sus as_) in *.
  set (c0' := ps_set_reliable (client_transport1 t1) c0) in *.
  pose proof (after_wrap_fields c0') as (Hrel & _ & _ & Hw & Hu & Hk & _).
  set (s1 := ps_put_state _ _) in Hproc1.
  assert (auth_linked (after_wrap c0') s1) as Hcs1.
  { apply (auth_linked_advance c0' s0); [by eapply auth_linked_fields|unfold c0'; ps_simpl; lia|done|done|].
    intros Hc. unfold s1. ps_simpl. rewrite (Hwin1 Hc). unfold c0'. ps_simpl. lia. }
  assert (auth_linked s1 (after_wrap c0')) as Hsc1.
  { destruct Hsc as [Hm Hp Hwd]. split; [|done|by rewrite Hw]. unfold auth_match in *. by rewrite Hu, Hk. }
  destruct (response_reaches_client (after_wrap c0') s1 sidc sids t1 t3 t4 time2 Hsc1 Hsidc Hsids Hrel)
    as (w2 & win2 & Hwrap2 & Hwin2 & Hproc2).
  set (s1' := ps_set_reliable (server_transport t3) s1) in *.
  assert (ProtocolSession_create_hard_reset_response t3 time2 s1 =
    ProtocolSession_maybe_wrap_tls_auth time2
      (Packet_serialize (Control (mkControl (control_header HardResetServerV2 KeyId_default sids)
         (Some sidc) [0%Z] (Some 0%Z) []))) s1') as Hresp.
  { unfold s1', s1. rewrite <- Hl0. by destruct as_. }
  pose proof (after_wrap_fields s1') as (Hrel' & Hst' & Hrem' & Hwd' & Hu' & Hk' & _).
  exists w1, w2. do 4 eexists. split; [exact Hwrap1|]. split; [exact Hproc1|].
  split; [rewrite Hresp; exact Hwrap2|]. split; [exact Hproc2|].
  split_and!; try (rewrite ?Hst', ?Hrem'; reflexivity).
  - split; [|ps_simpl; by rewrite Hrel'|by rewrite Hrel'].
    destruct Hcs1 as [Hm Hp Hwd]. split; [|done|by rewrite Hwd'].
    unfold auth_match in *. by rewrite Hu', Hk'.
  - split; [|ps_simpl; by rewrite Hrel'|done].
    apply (auth_linked_advance s1' (after_wrap c0')); [by eapply auth_linked_fields|unfold s1', s1; ps_simpl; lia|done|done|].
    intros Hc. ps_simpl. rewrite (Hwin2 Hc). unfold s1', s1. ps_simpl. lia.
Qed.

(** ** The TLS stream *)

(** A session that can send: its pending acknowledgements fit one packet. *)
Record can_send (s : ProtocolSession) : Prop := {
  cs_inv : sess_inv s;
  cs_acks : length (rt_pending_acks (ps_reliable s)) <= 16;
  cs_acks_u32 : Forall u32 (rt_pending_acks (ps_reliable s));
  cs_remote : is_Some (ps_remote_session_id s);
}.

Definition packets_left (s : ProtocolSession) : Z :=
  rc_window_size (rt_config (ps_reliable s)) - Z.of_nat (size (rt_pending (ps_reliable s))).

(** Neither counter of the sender wraps during [k] packets. *)
Definition no_wrap (s : ProtocolSession) (k : Z) : Prop :=
  (rt_next_send_id (ps_reliable s) + k < 2 ^ 32)%Z /\ (ps_tls_auth_packet_id s + k < 2 ^ 32)%Z.

(** The state after creating one control packet. *)
Lemma create_single_spec s now time data :
  can_send s -> (0 < packets_left s)%Z -> no_wrap s 1 -> duration_ok now ->
  exists s1, ProtocolSession_create_single_control_packet now time data s =
      ProtocolSession_maybe_wrap_tls_auth time
        (Packet_serialize (Control (mkControl
           (control_header ControlV1 (ps_current_key_id s) (ps_local_session_id s))
           (ps_remote_session_id s) (rt_pending_acks (ps_reliable s))
           (Some (rt_next_send_id (ps_reliable s))) data))) s1 /\
    s1 = ps_set_reliable (ps_reliable s1) s /\ rel_inv (ps_reliable s1) /\
    rt_pending_acks (ps_reliable s1) = [] /\
    rt_next_send_id (ps_reliable s1) = (rt_next_send_id (ps_reliable s) + 1)%Z /\
    (packets_left s1 >= packets_left s - 1)%Z.
Proof.
  intros [Hinv _ _ _] Hleft [Hns _] Hnow. pose proof (si_reliable _ Hinv) as Hrel.
  unfold ProtocolSession_create_single_control_packet, mbind, M_bind, on_reliable, zoom, get.
  pose proof (send_inv now data _ Hrel Hnow) as [Hinv1 _].
  destruct (send_spec now data _ Hrel) as [(Hw & _)|(Hw & rto & Hrto & He)].
  { unfold packets_left in Hleft. lia. }
  rewrite He in *. cbn [map_err]. unfold get_acks_call, ReliableTransport_get_acks. ps_simpl.
  cbn [map_err]. eexists. split; [reflexivity|]. ps_simpl. split; [done|].
  split; [by destruct Hinv1|]. split; [done|]. split.
  - rt_simpl. rewrite wrap_small; [done|]. pose proof (ri_send _ Hrel). unfold uint in *. lia.
  - unfold packets_left. ps_simpl. rt_simpl.
    pose proof (map_size_insert (rt_next_send_id (ps_reliable s))
      (mkPending data now (now + rto) rto 0) (rt_pending (ps_reliable s))) as Hsz.
    destruct (rt_pending (ps_reliable s) !! _); cbv [Datatypes.id] in Hsz; lia.
Qed.

(** The receiver's side of one TLS fragment. *)
Lemma handle_tls c s data :
  ph_opcode (cp_header c) = ControlV1 -> cp_payload c = data ->
  cp_message_packet_id c = Some (rt_next_recv_id (ps_reliable s)) ->
  rt_out_of_order (ps_reliable s) = ∅ ->
  length (tr_buffer (ps_tls_reassembler s)) + length data <= tr_max_size (ps_tls_reassembler s) ->
  exists records rest r',
    ProtocolSession_handle_opcode c s = (r', Ok (if length records =? 0 then PNone else PTlsData records)) /\
    r' = ps_set_reassembler (mkReassembler rest (tr_max_size (ps_tls_reassembler s)))
           (ps_set_reliable
              (rt_set_recv (wrap 32 (rt_next_recv_id (ps_reliable s) + 1)) ∅
                 (rt_set_acks (rt_pending_acks (ps_reliable s) ++ [rt_next_recv_id (ps_reliable s)])
                    (ps_reliable s))) s) /\
    tr_buffer (ps_tls_reassembler s) ++ data = concat records ++ rest /\
    Forall complete_record records /\ incomplete rest.
Proof.
  intros Hop Hpl Hm Ho Hmax. unfold ProtocolSession_handle_opcode, ProtocolSession_process_tls.
  rewrite Hop, Hm, Hpl. unfold mbind, M_bind. rewrite on_reliable_receive by done.
  unfold zoom, TlsRecordReassembler_add. ps_simpl.
  rewrite (proj2 (Nat.ltb_ge _ _)) by done. cbn [map_err].
  unfold TlsRecordReassembler_extract_records. ps_simpl. cbn [tr_buffer tr_max_size].
  destruct (extract_loop_spec (length (tr_buffer (ps_tls_reassembler s) ++ data))
    (tr_buffer (ps_tls_reassembler s) ++ data)) as (rs & rest & -> & Hb & Hc & Hi); [done|].
  exists rs, rest. eexists. cbn [map_err]. split; [|split; [reflexivity|done]].
  by destruct (length rs =? 0).
Qed.

Lemma handle_acks_frame now acks s :
  rel_inv (ps_reliable s) -> duration_ok now ->
  exists t, ProtocolSession_handle_acks now acks s = (ps_set_reliable t s, Ok tt) /\ rel_inv t /\
    rt_next_recv_id t = rt_next_recv_id (ps_reliable s) /\
    rt_out_of_order t = rt_out_of_order (ps_reliable s).
Proof.
  intros Hrel Hnow. destruct acks as [|a acks].
  - exists (ps_reliable s). split; [by destruct s|done].
  - destruct (process_acks_inv now (a :: acks) _ Hrel Hnow) as (t & He & Ht & _).
    exists t. unfold ProtocolSession_handle_acks, on_reliable, zoom, acks_call. rewrite He.
    apply process_acks_frame in He as (? & _ & ? & _). done.
Qed.

Definition records_of (rs : list (res ProtocolError ProcessedPacket)) : list bytes :=
  concat (map (fun r => match r with Ok (PTlsData l) => l | _ => [] end) rs).

Definition quiet (r : res ProtocolError ProcessedPacket) : Prop :=
  match r with Ok PNone | Ok (PTlsData _) => True | _ => False end.

Lemma can_send_created s s1 :
  can_send s -> s1 = ps_set_reliable (ps_reliable s1) s -> rel_inv (ps_reliable s1) ->
  rt_pending_acks (ps_reliable s1) = [] -> can_send (after_wrap s1).
Proof.
  intros [Hi _ _ Hrm] Hs1 Hrel Hack. pose proof (after_wrap_fields s1) as (Hf1 & _ & Hf3 & _).
  assert (sess_inv s1) as Hi1 by (rewrite Hs1; by apply inv_reliable).
  split; rewrite ?Hf1, ?Hf3, ?Hack; [|cbn; lia|constructor|by rewrite Hs1].
  unfold after_wrap. destruct (ps_use_tls_auth s1); [by apply inv_auth_id|done].
Qed.

(** The receiver's transport after an expected packet. *)
Lemma rel_inv_received t id acks :
  rel_inv t -> rel_inv (rt_set_recv (wrap 32 id) ∅ (rt_set_acks acks t)).
Proof.
  intros []. split; try done; rt_simpl; [apply wrap_uint; lia|].
  rewrite map_size_empty. unfold MAX_OUT_OF_ORDER. lia.
Qed.

(** One fragment from [s] to [r]. *)
Lemma stream_step s r now now' time data :
  can_send s -> sess_inv r -> linked s r -> (0 < packets_left s)%Z -> no_wrap s 1 ->
  duration_ok now -> duration_ok now' ->
  length (tr_buffer (ps_tls_reassembler r)) + length data <= tr_max_size (ps_tls_reassembler r) ->
  exists s' wire r' out,
    ProtocolSession_create_single_control_packet now time data s = (s', Ok wire) /\
    ProtocolSession_process_packet now' wire r = (r', out) /\ quiet out /\
    tr_buffer (ps_tls_reassembler r) ++ data =
      concat (records_of [out]) ++ tr_buffer (ps_tls_reassembler r') /\
    Forall complete_record (records_of [out]) /\
    tr_max_size (ps_tls_reassembler r') = tr_max_size (ps_tls_reassembler r) /\
    can_send s' /\ sess_inv r' /\ linked s' r' /\ (packets_left s' >= packets_left s - 1)%Z /\
    rt_next_send_id (ps_reliable s') = (rt_next_send_id (ps_reliable s) + 1)%Z /\
    (ps_tls_auth_packet_id s' <= ps_tls_auth_packet_id s + 1)%Z.
Proof.
  intros Hs Hr [Hal Hrecv Hooo] Hleft Hnw Hnow Hnow' Hmax.
  destruct (create_single_spec s now time data Hs Hleft Hnw Hnow)
    as (s1 & Hcr & Hs1 & Hrel1 & Hack1 & Hid1 & Hleft1).
  pose proof (can_send_created s s1 Hs Hs1 Hrel1 Hack1) as Hcs1.
  assert (ps_tls_auth_packet_id s1 = ps_tls_auth_packet_id s) as Hpid1 by (by rewrite Hs1).
  assert (auth_linked s1 r) as Hal1 by (eapply auth_linked_fields; [exact Hal|by rewrite Hs1..]).
  destruct (deliver s1 r now' time (mkControl
     (control_header ControlV1 (ps_current_key_id s) (ps_local_session_id s))
     (ps_remote_session_id s) (rt_pending_acks (ps_reliable s))
     (Some (rt_next_send_id (ps_reliable s))) data)) as (wire & c' & w & Hw & Hrc & Hwin & Hproc);
    [|done|].
  { destruct Hs as [Hi Ha Hau [rm Hrm]]. apply outgoing_control; try done; try apply Hi.
    intros _. exists rm. split; [done|]. pose proof (si_remote _ Hi) as Hl. by rewrite Hrm in Hl. }
  rewrite Hw in Hcr. destruct Hrc as [Ho _ _ Ha Hm Hpl]. cbn in Ho, Ha, Hm, Hpl.
  destruct (handle_acks_frame now' (cp_acks c') (ps_set_window w (ps_set_activity now' r)))
    as (t & Hha & Ht & Htr & Hto); [apply Hr|done|].
  unfold mbind, M_bind in Hproc. rewrite Hha in Hproc.
  set (r1 := ps_set_reliable t (ps_set_window w (ps_set_activity now' r))) in *.
  destruct (handle_tls c' r1 data Ho Hpl) as (recs & rest & r' & Hh & Hr' & Hb & Hc & Hi);
    [unfold r1; ps_simpl; rewrite Htr; ps_simpl; by rewrite Hrecv|unfold r1; ps_simpl; by rewrite Hto|done|].
  exists (after_wrap s1), wire, r', (Ok (if length recs =? 0 then PNone else PTlsData recs)).
  assert (records_of [Ok (if length recs =? 0 then PNone else PTlsData recs)] = recs) as Hro.
  { unfold records_of. destruct recs; cbn; [done|]. by rewrite app_nil_r. }
  pose proof (after_wrap_fields s1) as (Hf1 & _). destruct Hnw as [Hn1 Hn2].
  split; [done|]. split; [by rewrite Hproc|]. split; [by destruct (length recs =? 0)|].
  rewrite Hro, Hr'. ps_simpl. cbn [tr_buffer tr_max_size]. split_and!; try done.
  - destruct Hr as [? ? ? ? ? ?]. split; try done. by apply rel_inv_received.
  - split; [apply (auth_linked_advance s1 r); [done|by rewrite Hpid1|done|done|]| |].
    + intros Hu. unfold r1. ps_simpl. rewrite (Hwin Hu). destruct Hal1 as [_ Hp1 _]. unfold uint in Hp1. lia.
    + rewrite Hf1, Hid1. unfold r1. ps_simpl. rt_simpl. rewrite Htr. ps_simpl. rewrite Hrecv, wrap_small; [done|].
      pose proof (ri_send _ (si_reliable _ (cs_inv _ Hs))). unfold uint in *. lia.
    + unfold r1. by ps_simpl.
  - unfold packets_left in *. by rewrite Hf1.
  - by rewrite Hf1.
  - rewrite after_wrap_id, Hpid1. destruct (ps_use_tls_auth s1); [|lia].
    destruct Hal as [_ Hp _]. rewrite wrap_small; [lia|]. unfold uint in *. lia.
Qed.

Lemma records_of_app xs ys : records_of (xs ++ ys) = records_of xs ++ records_of ys.
Proof. unfold records_of. by rewrite map_app, concat_app. Qed.

(** What a run of the stream guarantees. *)
Record streamed (s r : ProtocolSession) (data : bytes) (s' r' : ProtocolSession)
    (outs : list (res ProtocolError ProcessedPacket)) : Prop := {
  st_quiet : Forall quiet outs;
  st_bytes : tr_buffer (ps_tls_reassembler r) ++ data =
    concat (records_of outs) ++ tr_buffer (ps_tls_reassembler r');
  st_complete : Forall complete_record (records_of outs);
  st_sender : can_send s';
  st_receiver : sess_inv r';
  st_linked : linked s' r';
}.

Lemma stream_loop fuel s r now now' time tls off :
  length tls - off <= fuel -> off <= length tls ->
  can_send s -> sess_inv r -> linked s r ->
  (Z.of_nat (length tls - off) <= 1100 * packets_left s)%Z ->
  no_wrap s (Z.of_nat (length tls - off)) -> duration_ok now -> duration_ok now' ->
  length (tr_buffer (ps_tls_reassembler r)) + (length tls - off) <= tr_max_size (ps_tls_reassembler r) ->
  exists s' wires r' outs,
    create_control_packets_loop fuel now time tls off s = (s', Ok wires) /\
    process_all (map (pair now') wires) r = (r', outs) /\
    streamed s r (drop off tls) s' r' outs.
Proof.
  revert s r off. induction fuel as [|f IH]; intros s r off Hf Hoff Hs Hr Hl Hp Hnw Hnow Hnow' Hmax.
  all: cbn [create_control_packets_loop].
  1: assert (off = length tls) as -> by lia.
  2: destruct (Nat.ltb_spec off (length tls)) as [Hlt|Hge]; [|assert (off = length tls) as -> by lia].
  1, 3: exists s, [], r, []; split; [done|]; split; [done|];
    split; try done; by rewrite ?drop_all, ?app_nil_r.
  assert (MAX_CONTROL_PAYLOAD = Z.to_nat 1100) as HM by done.
  set (end_ := Nat.min (off + MAX_CONTROL_PAYLOAD) (length tls)).
  assert (off < end_ <= length tls) as He by (unfold end_; lia).
  set (chunk := take (end_ - off) (drop off tls)).
  assert (length chunk = end_ - off) as Hcl.
  { unfold chunk. rewrite length_take, length_drop. lia. }
  destruct (stream_step s r now now' time chunk)
    as (s1 & wire & r1 & out & Hcr & Hpr & Hq & Hb & Hc & Hmx & Hs1 & Hr1 & Hl1 & Hp1 & Hn1 & Ha1);
    try done; try lia.
  { destruct Hnw. split; lia. }
  assert (length (tr_buffer (ps_tls_reassembler r1)) <=
    length (tr_buffer (ps_tls_reassembler r)) + length chunk) as Hbl.
  { rewrite <- length_app, Hb, length_app. lia. }
  destruct (IH s1 r1 end_) as (s' & wires & r' & outs & Hcr' & Hpr' & Hst);
    try done; try lia.
  { destruct Hnw. split; lia. }
  exists s', (wire :: wires), r', (out :: outs).
  split; [|split].
  - unfold mbind, M_bind, lift. rewrite slice_ok by lia. fold chunk. rewrite Hcr, Hcr'. done.
  - cbn [map process_all]. by rewrite Hpr, Hpr'.
  - destruct Hst as [Hq' Hb' Hc' ? ? ?]. change (out :: outs) with ([out] ++ outs). split; try done.
    + by constructor.
    + rewrite records_of_app, concat_app, <- app_assoc, <- Hb', app_assoc, <- Hb, <- app_assoc.
      f_equal. unfold chunk. rewrite <- (take_drop (end_ - off) (drop off tls)) at 1.
      rewrite drop_drop. do 2 f_equal. lia.
    + rewrite records_of_app. by apply Forall_app.
Qed.

(** C11: the TLS stream arrives intact: control packets created for any TLS
    data that fits the send window, delivered in order over a link, make the
    receiver return exactly the TLS records of that data, in order and byte
    for byte (with what was buffered before in front and the incomplete rest
    kept), with tls-auth off or on; no packet is rejected, and the link is
    ready for more. *)
Theorem tls_stream_delivered (s r : ProtocolSession) (now now' time : Z) (tls_data : bytes)
    (Hs : can_send s) (Hr : sess_inv r) (Hl : linked s r)
    (Hwin : (0 < packets_left s /\ Z.of_nat (length tls_data) <= 1100 * packets_left s)%Z)
    (Hnw : no_wrap s (Z.of_nat (length tls_data) + 1))
    (Hnow : duration_ok now) (Hnow' : duration_ok now')
    (Hmax : length (tr_buffer (ps_tls_reassembler r)) + length tls_data
            <= tr_max_size (ps_tls_reassembler r)) :
  exists s' wires r' outs,
    ProtocolSession_create_control_packets now time tls_data s = (s', Ok wires) /\
    process_all (map (pair now') wires) r = (r', outs) /\
    streamed s r tls_data s' r' outs.
Proof.
  unfold ProtocolSession_create_control_packets.
  destruct (Nat.leb_spec (length tls_data) MAX_CONTROL_PAYLOAD) as [Hle|Hgt].
  - destruct (stream_step s r now now' time tls_data)
      as (s1 & wire & r1 & out & Hcr & Hpr & Hq & Hb & Hc & _ & Hs1 & Hr1 & Hl1 & _);
      try done; [apply Hwin|destruct Hnw; split; lia|].
    exists s1, [wire], r1, [out]. split; [|split].
    + unfold mbind, M_bind. by rewrite Hcr.
    + cbn. by rewrite Hpr.
    + split; try done. by repeat constructor.
  - destruct (stream_loop (length tls_data) s r now now' time tls_data 0)
      as (s' & wires & r' & outs & H1 & H2 & H3); rewrite ?Nat.sub_0_r; try done; try lia.
    { destruct Hnw. split; lia. }
    exists s', wires, r', outs. by rewrite drop_0 in H3.
Qed.

End Wire.

(** ** The state machine *)
Section StateMachine.
Context {AEAD : Aead} {HMAC : Hmac}.

Lemma keeps_state_reliable {A} (m : M ReliableTransport ProtocolError A) :
  keeps ps_state (on_reliable m).
Proof. by apply keeps_zoom. Qed.

Lemma keeps_state_receive_empty o : keeps ps_state (receive_empty o).
Proof.
  destruct o; [|apply keeps_ret]. apply keeps_bind; [apply keeps_state_reliable|intros; apply keeps_ret].
Qed.

Lemma keeps_state_check_replay o : keeps ps_state (ProtocolSession_check_replay o).
Proof.
  intros s. unfold ProtocolSession_check_replay. destruct (ps_use_tls_auth s), o as [id|]; try done.
  by destruct (tls_check_and_update _ _).
Qed.

Lemma keeps_state_acks now acks : keeps ps_state (ProtocolSession_handle_acks now acks).
Proof. destruct acks; [apply keeps_ret|apply keeps_state_reliable]. Qed.

Lemma keeps_state_tls c : keeps ps_state (ProtocolSession_process_tls c).
Proof.
  unfold ProtocolSession_process_tls. destruct (cp_message_packet_id c); [|apply keeps_ret].
  apply keeps_bind; [apply keeps_state_reliable|]. intros [data|]; [|apply keeps_ret].
  apply keeps_bind; [by apply keeps_zoom|intros _]. apply keeps_bind; [by apply keeps_zoom|].
  intros records. destruct (_ =? 0); apply keeps_ret.
Qed.

(** The state after a call, read off its result. *)
Definition state_after (before : ProtocolState) (r : res ProtocolError ProcessedPacket) : ProtocolState :=
  match r with
  | Ok (PHardReset _) | Ok PHardResetAck => TlsHandshake
  | Ok PSoftReset => Rekeying
  | _ => before
  end.

Definition signals {A} (m : M ProtocolSession ProtocolError A)
    (st : ProtocolState -> res ProtocolError A -> ProtocolState) : Prop :=
  forall s, ps_state (fst (m s)) = st (ps_state s) (snd (m s)).

Lemma signals_bind {A} (m : M ProtocolSession ProtocolError A)
    (k : A -> M ProtocolSession ProtocolError ProcessedPacket) :
  keeps ps_state m -> (forall a, signals (k a) state_after) -> signals (m ≫= k) state_after.
Proof.
  intros Hm Hk s. unfold mbind, M_bind. specialize (Hm s).
  destruct (m s) as [s' [a| |]]; cbn in *; [|done..]. by rewrite Hk, Hm.
Qed.

Lemma process_tls_quiet c s : quiet (snd (ProtocolSession_process_tls c s)) \/
  is_ok (snd (ProtocolSession_process_tls c s)) = false.
Proof.
  unfold ProtocolSession_process_tls. destruct (cp_message_packet_id c); [|by left].
  unfold mbind, M_bind, on_reliable, zoom. destruct (ReliableTransport_receive _ _ _) as [t [[d|]| |]];
    [|by left|by right..]. cbn [map_err].
  destruct (TlsRecordReassembler_add _ _) as [? [[]| |]]; [|by right..]. cbn [map_err].
  destruct (TlsRecordReassembler_extract_records _) as [? [l| |]]; [|by right..]. cbn [map_err].
  left. by destruct (_ =? 0).
Qed.

Lemma signals_opcode c : signals (ProtocolSession_handle_opcode c) state_after.
Proof.
  assert (forall f : ProtocolSession -> ProtocolSession, (forall s, ps_state (f s) = ps_state s) ->
    keeps (E := ProtocolError) ps_state (modify f)) as Hmod by (intros; by apply keeps_modify).
  unfold ProtocolSession_handle_opcode. destruct (ph_opcode (cp_header c)); try done;
    try (intros s; unfold signals;
         pose proof (process_tls_quiet c s) as Hq; rewrite keeps_state_tls;
         destruct (snd (ProtocolSession_process_tls c s)) as [[]| |]; destruct Hq; done).
  all: apply signals_bind;
    [destruct (ph_session_id (cp_header c)); try apply keeps_ret; try destruct (decide _);
     try apply keeps_fail; by apply Hmod
    |intros _; apply signals_bind; [apply keeps_state_receive_empty|done]].
Qed.

Lemma signals_process_packet now data : signals (ProtocolSession_process_packet now data) state_after.
Proof.
  unfold ProtocolSession_process_packet.
  apply signals_bind; [by apply keeps_modify|intros _].
  apply signals_bind; [apply keeps_get|intros s1].
  apply signals_bind; [apply keeps_lift|intros _].
  apply signals_bind; [apply keeps_lift|intros [c|d]].
  - unfold ProtocolSession_process_control_packet.
    apply signals_bind; [apply keeps_state_check_replay|intros _].
    apply signals_bind; [apply keeps_state_acks|intros _]. apply signals_opcode.
  - intros s2. unfold ProtocolSession_process_data_packet. cbv zeta.
    destruct (ps_data_channels s2 !! _) as [[ch|]|]; try done.
    destruct (DataChannel_decrypt _ _) as [ch' [m| |]]; done.
Qed.

(** The session's state changes exactly when the result says so: a hard
    reset (either side) leads to [TlsHandshake], a soft reset to [Rekeying],
    and every other result, errors included, leaves the state as it was; so no
    sequence of datagrams alone brings a session to [Established]. *)
Theorem process_packet_transitions (now : Z) (data : bytes) (s : ProtocolSession) :
  let '(s', r) := ProtocolSession_process_packet now data s in
  ps_state s' = state_after (ps_state s) r /\
  (ps_state s' = Established -> ps_state s = Established).
Proof.
  pose proof (signals_process_packet now data s) as Hsig.
  destruct (ProtocolSession_process_packet now data s) as [s' r].
  cbn in Hsig. split; [done|]. rewrite Hsig. unfold state_after. by destruct r as [[]| |].
Qed.

End StateMachine.

(** ** The data channel between two sessions *)
Section DataLink.
Context {AEAD : Aead} {LAWS : AeadLaws AEAD} {HMAC : Hmac}.

(** The channel of [s] at its current key matches the one of [r] at the same
    slot, and [r] has seen no id that [s] has not used. *)
Record data_linked (s r : ProtocolSession) (cs cr : DataChannel) : Prop := {
  dl_send : ps_data_channels s !! Z.to_nat (key_id_0 (ps_current_key_id s)) = Some (Some cs);
  dl_recv : ps_data_channels r !! Z.to_nat (key_id_0 (ps_current_key_id s)) = Some (Some cr);
  dl_key : dc_key_id cs = ps_current_key_id s;
  dl_wf : channel_wf cs;
  dl_match : channels_match cs cr;
  dl_window : (0 <= rw_highest (pc_rx_window (dc_decrypt_cipher cr))
               <= pc_tx_counter (dc_encrypt_cipher cs))%Z;
}.

(** The slot a session writes. *)
Definition channel_at (s : ProtocolSession) : option DataChannel :=
  mjoin (ps_data_channels s !! Z.to_nat (key_id_0 (ps_current_key_id s))).

Lemma install_keys_data_linked (c s : ProtocolSession) (k : KeyMaterial)
    (Hc : sess_inv c) (Hs : sess_inv s) (Hk : material_wf k)
    (Hkey : ps_current_key_id c = ps_current_key_id s)
    (Hsuite : ps_cipher_suite c = ps_cipher_suite s)
    (Hpeer : ps_peer_id c = ps_peer_id s) (Hpid : from_option (uint 24) True (ps_peer_id c)) :
  exists c' s' cc cs,
    ProtocolSession_install_keys k false c = (c', Ok tt) /\
    ProtocolSession_install_keys k true s = (s', Ok tt) /\
    data_linked c' s' cc cs /\ data_linked s' c' cs cc.
Proof.
  unfold ProtocolSession_install_keys. destruct Hk as (Hk1 & Hk2 & Hi1 & Hi2 & Hb1 & Hb2).
  pose proof (si_key _ Hc) as Hkc. pose proof (si_channels _ Hc) as Hlc.
  pose proof (si_channels _ Hs) as Hls. rewrite <- Hkey, <- Hsuite, <- Hpeer.
  unfold KeyId_ok, uint in Hkc.
  rewrite (proj2 (Nat.ltb_lt _ (length (ps_data_channels c)))) by lia.
  rewrite (proj2 (Nat.ltb_lt _ (length (ps_data_channels s)))) by lia.
  do 4 eexists. split; [reflexivity|]. split; [reflexivity|].
  assert (forall k1 k2 v2, length (dk_key k1) = KEY_SIZE -> length (dk_implicit_iv k1) = NONCE_SIZE ->
    bytes_ok (dk_implicit_iv k1) ->
    channel_wf (DataChannel_new (ps_current_key_id c) k1 k2 v2 (ps_peer_id c))) as Hwf.
  { intros k1 k2 v2 H1 H2 H3. split; [|split; [apply (si_key _ Hc)|done]]. by split_and!. }
  split; split; ps_simpl; rewrite <- ?Hkey; try apply list_lookup_insert_eq; try lia; try done;
    try (by apply Hwf); by apply channels_match_new.
Qed.

(** Installing keys succeeds; the slot of the current key holds a channel of
    the session's cipher suite. *)
Lemma install_keys_slot k b s : sess_inv s ->
  exists s' ch, ProtocolSession_install_keys k b s = (s', Ok tt) /\
    ps_current_key_id s' = ps_current_key_id s /\
    ps_data_channels s' !! Z.to_nat (key_id_0 (ps_current_key_id s)) = Some (Some ch) /\
    ci_suite (pc_cipher (dc_encrypt_cipher ch)) = ps_cipher_suite s /\
    ci_suite (pc_cipher (dc_decrypt_cipher ch)) = ps_cipher_suite s.
Proof.
  intros Hs. unfold ProtocolSession_install_keys. pose proof (si_key _ Hs) as Hk.
  pose proof (si_channels _ Hs) as Hl. unfold KeyId_ok, uint in Hk.
  rewrite (proj2 (Nat.ltb_lt _ (length (ps_data_channels s)))) by lia.
  destruct b; do 2 eexists; (split; [reflexivity|]); ps_simpl;
    (split; [done|]); rewrite list_lookup_insert_eq by lia; done.
Qed.

(** Channels of different suites do not match. *)
Lemma install_keys_suites c s k c' s' cc cs : sess_inv c -> sess_inv s ->
  ps_current_key_id c = ps_current_key_id s ->
  ProtocolSession_install_keys k false c = (c', Ok tt) -> ProtocolSession_install_keys k true s = (s', Ok tt) ->
  data_linked c' s' cc cs -> ps_cipher_suite c = ps_cipher_suite s.
Proof.
  intros Hc Hs Hkey Hic His [Hsend Hrecv _ _ (_ & Hm & _) _].
  destruct (install_keys_slot k false c Hc) as (c1 & ch1 & H1 & Hk1 & Hch1 & Hs1 & _).
  destruct (install_keys_slot k true s Hs) as (s1 & ch2 & H2 & _ & Hch2 & _ & Hs2).
  rewrite H1 in Hic. injection Hic as ->. rewrite H2 in His. injection His as ->.
  rewrite Hk1 in Hsend, Hrecv. rewrite <- Hkey in Hch2. congruence.
Qed.

(** Keys installed from the same material on the two ends, one as server
    and one as client, give matching data channels in both directions, for
    either cipher suite. *)
Theorem install_keys_links (c s : ProtocolSession) (k : KeyMaterial)
    (Hc : sess_inv c) (Hs : sess_inv s) (Hk : material_wf k)
    (Hkey : ps_current_key_id c = ps_current_key_id s)
    (Hsuite : ps_cipher_suite c = ps_cipher_suite s)
    (Hpeer : ps_peer_id c = ps_peer_id s) (Hpid : from_option (uint 24) True (ps_peer_id c)) :
  exists c' s' cc cs,
    ProtocolSession_install_keys k false c = (c', Ok tt) /\
    ProtocolSession_install_keys k true s = (s', Ok tt) /\
    data_linked c' s' cc cs /\ data_linked s' c' cs cc.
Proof. by apply install_keys_data_linked. Qed.

(** A data packet on the wire: it parses to its fields and is exempt from the
    tls-auth check. *)
Definition data_on_wire (p : DataPacket) : DataPacketData :=
  mkData (mkPacketHeader (match dpk_peer_id p with Some _ => DataV2 | None => DataV1 end)
    (dpk_key_id p) None None None None) (dpk_peer_id p) (dpk_payload p).

Lemma data_wire_parses p t :
  KeyId_ok (dpk_key_id p) -> match dpk_peer_id p with Some i => uint 24 i | None => True end ->
  Packet_parse (DataPacket_serialize p) t = Ok (Data (data_on_wire p)).
Proof.
  intros Hk Hp.
  assert (DataPacket_serialize p = Packet_serialize (Data (data_on_wire p))) as ->
    by (unfold DataPacket_serialize, data_on_wire; cbn; by destruct (dpk_peer_id p)).
  apply Packet_parse_of_serialize. unfold data_on_wire, packet_wf, data_wf, header_wf. cbn.
  destruct (dpk_peer_id p); split_and!; done.
Qed.

Lemma data_wire_verified s p : ProtocolSession_verify_tls_auth s (DataPacket_serialize p) = Ok tt.
Proof.
  unfold ProtocolSession_verify_tls_auth, DataPacket_serialize. destruct (negb _); [done|].
  destruct (ps_tls_auth_key _); [|done]. cbn [length Nat.eqb].
  match goal with |- context [idx (?b :: ?l) 0] => rewrite (idx_ok (b :: l) 0 b) by done end.
  rsimp. rewrite OpCode_from_to_byte. rsimp. by destruct (dpk_peer_id p).
Qed.

Lemma data_packet_across (s r : ProtocolSession) (cs cr : DataChannel) (now : Z) (m : bytes)
    (Hs : sess_inv s) (Hr : sess_inv r) (Hl : data_linked s r cs cr)
    (Htx : (pc_tx_counter (dc_encrypt_cipher cs) + 1 < 2 ^ 32)%Z)
    (Hm : (Z.of_nat (length m) <= 2 ^ 32)%Z)
    (Hun : forall p, snd (DataChannel_encrypt m cs) = Ok p ->
       unambiguous (pc_cipher (dc_encrypt_cipher cs)) (pc_implicit_iv (dc_encrypt_cipher cs))
         (dc_encrypt_ad_prefix cs) (pc_tx_counter (dc_encrypt_cipher cs) + 1) m (dpk_payload p)) :
  exists s' wire r' cs' cr',
    ProtocolSession_encrypt_data m s = (s', Ok wire) /\
    ProtocolSession_process_packet now wire r = (r', Ok (PData m)) /\
    data_linked s' r' cs' cr' /\
    pc_tx_counter (dc_encrypt_cipher cs') = (pc_tx_counter (dc_encrypt_cipher cs) + 1)%Z /\
    sess_inv r'.
Proof.
  destruct Hl as [Hls Hlr Hkey Hwf Hmatch Hwin].
  destruct (channel_encrypt_decrypt cs cr m Hwf Hmatch Htx Hm)
    as (p & Henc & Hpwf & Hpk & Hpp & _ & Hdec). specialize (Hdec (Hun p ltac:(by rewrite Henc))).
  unfold ProtocolSession_encrypt_data. rewrite Hls, Henc. rsimp.
  assert (exists w, data_check_and_update (pc_rx_window (dc_decrypt_cipher cr))
    (pc_tx_counter (dc_encrypt_cipher cs) + 1) = (w, true) /\
    rw_highest w = (pc_tx_counter (dc_encrypt_cipher cs) + 1)%Z) as (w & Hck & Hhw).
  { unfold data_check_and_update, check_and_update.
    rewrite (proj2 (Z.eqb_neq _ 0)), (proj2 (Z.ltb_lt _ _)) by lia. by eexists. }
  rewrite Hck in Hdec.
  do 3 eexists. exists (dc_set_encrypt (pc_set_tx (pc_tx_counter (dc_encrypt_cipher cs) + 1)
    (dc_encrypt_cipher cs)) cs), (dc_set_decrypt (pc_set_rx w (dc_decrypt_cipher cr)) cr).
  split; [reflexivity|]. split; [|split; [|split; [done|]]].
  - unfold ProtocolSession_process_packet, mbind, M_bind, modify, get, lift.
    rewrite data_wire_verified, data_wire_parses by apply Hpwf.
    unfold ProtocolSession_process_data_packet. cbv zeta.
    cbn [data_on_wire dp_header ph_key_id dp_peer_id dp_payload dpk_key_id].
    rewrite Hpk, Hkey. ps_simpl. rewrite Hlr.
    replace (mkDataPacket (ps_current_key_id s) (dpk_peer_id p) (dpk_payload p)) with p
      by (rewrite <- Hkey, <- Hpk; by destruct p).
    by rewrite Hdec.
  - apply lookup_lt_Some in Hls as Hi1, Hlr as Hi2. split; ps_simpl; try done.
    + by rewrite list_lookup_insert_eq.
    + by rewrite list_lookup_insert_eq.
    + destruct Hwf as ((? & ? & ? & Hu) & ? & ?). split; [|done]. split_and!; try done.
      unfold uint in *. cbn. lia.
    + cbn. rewrite Hhw. lia.
  - apply (inv_channels _ _ (ps_set_activity now r)). by apply inv_activity.
Qed.

(** The first byte of an encrypted packet. *)
Lemma encrypt_data_opcode m s s' wire : ProtocolSession_encrypt_data m s = (s', Ok wire) ->
  exists b0 rest, wire = b0 :: rest /\ (OpCode_from_byte b0 = Ok DataV1 \/ OpCode_from_byte b0 = Ok DataV2).
Proof.
  unfold ProtocolSession_encrypt_data. destruct (_ !! _) as [[ch|]|]; [|done..].
  destruct (DataChannel_encrypt m ch) as [ch' r]. intros H.
  assert ((packet ← r; Ok (DataPacket_serialize packet)) = Ok wire) as (p & _ & [= <-])%bind_Ok by congruence.
  unfold DataPacket_serialize. do 2 eexists. split; [reflexivity|]. rewrite OpCode_from_to_byte.
  destruct (dpk_peer_id p); [by right|by left].
Qed.

(** An IP packet crosses the tunnel: over matching channels, what
    [encrypt_data] sends, [process_packet] at the other end returns unchanged,
    with or without tls-auth, and the channels stay matched for the next
    packet. *)
Lemma data_packet_delivered (s r : ProtocolSession) (cs cr : DataChannel) (now : Z) (m : bytes)
    (Hs : sess_inv s) (Hr : sess_inv r) (Hl : data_linked s r cs cr)
    (Htx : (pc_tx_counter (dc_encrypt_cipher cs) + 1 < 2 ^ 32)%Z)
    (Hm : (Z.of_nat (length m) <= 2 ^ 32)%Z)
    (Hun : forall p, snd (DataChannel_encrypt m cs) = Ok p ->
       unambiguous (pc_cipher (dc_encrypt_cipher cs)) (pc_implicit_iv (dc_encrypt_cipher cs))
         (dc_encrypt_ad_prefix cs) (pc_tx_counter (dc_encrypt_cipher cs) + 1) m (dpk_payload p)) :
  exists s' wire r' cs' cr',
    ProtocolSession_encrypt_data m s = (s', Ok wire) /\
    ProtocolSession_process_packet now wire r = (r', Ok (PData m)) /\
    data_linked s' r' cs' cr' /\
    pc_tx_counter (dc_encrypt_cipher cs') = (pc_tx_counter (dc_encrypt_cipher cs) + 1)%Z.
Proof.
  destruct (data_packet_across s r cs cr now m Hs Hr Hl Htx Hm Hun)
    as (s' & wire & r' & cs' & cr' & H1 & H2 & H3 & H4 & _).
  by exists s', wire, r', cs', cr'.
Qed.

End DataLink.

(** ** Two things that do not work *)
Section Limits.
Context {AEAD : Aead} {HMAC : Hmac} {HLAWS : HmacLaws HMAC}.

Lemma retransmit_first now t1 :
  (t1 + from_secs 2 <= now)%Z ->
  retransmit_one ReliableConfig_default now (mkPending [] t1 (t1 + from_secs 2) (from_secs 2) 0) =
  Ok (mkPending [] t1 (now + from_secs 4) (from_secs 4) 1, true).
Proof.
  intros Hn. unfold retransmit_one. cbn [pp_next_retransmit pp_retransmits pp_rto pp_data pp_sent_at].
  rewrite (proj2 (Z.leb_le _ _)) by done.
  assert (from_secs_f64 (E := ProtocolError)
    (fmin (rn (QArith_base.Qmult (as_secs_f64 (from_secs 2)) (rc_rto_backoff ReliableConfig_default)))
          (as_secs_f64 (rc_max_rto ReliableConfig_default))) = Ok (from_secs 4)) as He
    by (vm_compute; reflexivity).
  rewrite (bind_of_Ok _ _ _ He). done.
Qed.

Lemma get_retransmits_first now t1 :
  (t1 + from_secs 2 <= now)%Z ->
  ReliableTransport_get_retransmits now
    (fst (ReliableTransport_send t1 [] (ReliableTransport_new ReliableConfig_default))) =
  (mkReliable ReliableConfig_default 1 0
     {[0%Z := mkPending [] t1 (now + from_secs 4) (from_secs 4) 1]} [] ∅ None None (from_millis 500),
   Ok [(0%Z, [])]).
Proof.
  intros Hn. rewrite send_first. unfold ReliableTransport_get_retransmits. rt_simpl.
  assert (btree_iter {[0%Z := mkPending [] t1 (t1 + from_secs 2) (from_secs 2) 0]} =
    [(0%Z, mkPending [] t1 (t1 + from_secs 2) (from_secs 2) 0)]) as ->.
  { unfold btree_iter. by rewrite map_to_list_singleton. }
  cbn [retransmit_loop]. rewrite retransmit_first by done. done.
Qed.

(** A control packet without payload gives a fresh session nothing. *)
Lemma empty_fragment_ignored m win now s sid t0 suite auth :
  s = fresh_session sid t0 suite auth ->
  ph_opcode (cp_header m) = ControlV1 -> cp_payload m = [] -> cp_message_packet_id m = Some 0%Z ->
  exists s', ProtocolSession_handle_opcode m (ps_set_window win (ps_set_activity now s)) = (s', Ok PNone) /\
    ps_state s' = Initial /\ ps_remote_session_id s' = None.
Proof.
  intros -> Ho Hpl Hm. set (r1 := ps_set_window win _).
  destruct (handle_tls m r1 [] Ho Hpl) as (recs & rest & r' & Hh & -> & Hb & Hc & _);
    [rewrite Hm; by destruct auth|by destruct auth|destruct auth; cbn; lia|].
  replace (tr_buffer (ps_tls_reassembler r1)) with ([] : bytes) in Hb by (by destruct auth).
  destruct recs as [|rec recs]; [eexists; split; [exact Hh|by destruct auth]|].
  exfalso. inv Hc. destruct H1 as [Hl _]. destruct rec; [cbn in Hl; lia|done].
Qed.

(** A lost hard reset is not recovered by retransmission: the reset is
    queued with an empty payload and [get_retransmits] rebuilds every due
    packet as [P_CONTROL_V1], so what the client sends after its timeout is
    not a reset.  A fresh server that receives it returns nothing, stays in
    [Initial] and does not learn the client's session id. *)
Theorem hard_reset_retransmission_is_no_reset (sidc sids : bytes) (tc ts t1 t2 t3 time1 time2 : Z)
    (suc sus : CipherSuite) (ac as_ : option HmacAuth)
    (Hsidc : length sidc = 8) (Hsids : length sids = 8) (Hauth : auth_pair ac as_)
    (Hdue : (t1 + from_secs 2 <= t2)%Z) (Ht3 : duration_ok t3) :
  exists w1 c1 w2 c2 s1,
    ProtocolSession_create_hard_reset_client t1 time1 (fresh_session sidc tc suc ac) = (c1, Ok w1) /\
    ProtocolSession_get_retransmits t2 time2 c1 = (c2, Ok [w2]) /\
    ProtocolSession_process_packet t3 w2 (fresh_session sids ts sus as_) = (s1, Ok PNone) /\
    ps_state s1 = Initial /\ ps_remote_session_id s1 = None.
Proof.
  destruct (fresh_linked sidc sids tc ts suc sus ac as_ Hauth) as [Hcs _].
  destruct (fresh_fields sidc tc suc ac) as (_ & _ & Hpc & _).
  rewrite create_hard_reset_client_fresh, send_first. cbn [fst].
  set (c0 := fresh_session sidc tc suc ac) in *. set (s0 := fresh_session sids ts sus as_) in *.
  set (c0' := ps_set_reliable (client_transport1 t1) c0).
  assert (auth_linked c0' s0) as Hl0 by (by eapply auth_linked_fields).
  destruct (wire_spec c0' s0 time1 (mkControl (control_header HardResetClientV2 KeyId_default sidc)
       None [] (Some 0%Z) [])) as (w1 & m1 & Hwrap1 & _);
    [apply outgoing_control; try done; cbn; lia|apply Hl0|apply Hl0|].
  pose proof (after_wrap_fields c0') as (Hrel & _ & Hrem & _ & Hu & Hk & Hloc & Hkid & _).
  assert (auth_linked (after_wrap c0') s0) as Hl1.
  { apply (auth_linked_advance _ s0); try done; [unfold c0'; ps_simpl; lia|].
    intros Hc. apply Hl0 in Hc. lia. }
  set (c1 := after_wrap c0') in *.
  set (c1' := ps_set_reliable (fst (ReliableTransport_get_retransmits t2 (ps_reliable c1))) c1).
  destruct (deliver c1' s0 t3 time2 (mkControl
    (control_header ControlV1 (ps_current_key_id c1) (ps_local_session_id c1))
    (ps_remote_session_id c1) [] (Some 0%Z) [])) as (w2 & m2 & win & Hwrap2 & [Ho _ _ Ha Hm Hpl] & _ & Hproc);
    [|by eapply auth_linked_fields|].
  { rewrite Hkid, Hloc. apply outgoing_control; try done; [|by destruct ac|cbn; lia].
    destruct ac; apply KeyId_default_ok. }
  assert (ProtocolSession_get_retransmits t2 time2 c1 = (after_wrap c1', Ok [w2])) as Hret.
  { unfold ProtocolSession_get_retransmits, mbind, M_bind, on_reliable, zoom. revert Hwrap2. unfold c1'.
    pose proof (get_retransmits_first t2 t1 Hdue) as Hg. rewrite send_first in Hg. cbn [fst] in Hg.
    rewrite Hrel. change (ps_reliable c0') with (client_transport1 t1). unfold client_transport1.
    rewrite Hg. cbn [fst map_err rebuild_retransmits].
    unfold mbind, M_bind, get. ps_simpl. intros ->. done. }
  cbn in Ho, Ha, Hm, Hpl. rewrite Ha in Hproc. unfold mbind, M_bind in Hproc.
  cbn [ProtocolSession_handle_acks mret M_ret] in Hproc.
  destruct (empty_fragment_ignored m2 win t3 _ sids ts sus as_ eq_refl Ho Hpl Hm) as (s1 & Hs1 & Hst & Hrs).
  exists w1, c1, w2, (after_wrap c1'), s1. rewrite Hproc. done.
Qed.

End Limits.


(** ** The claims at concrete inputs *)
#[local] Existing Instances toy_hmac toy_hmac_laws toy_aead toy_aead_laws.

Definition sid_a : bytes := [1; 2; 3; 4; 5; 6; 7; 8]%Z.
Definition sid_b : bytes := [8; 7; 6; 5; 4; 3; 2; 1]%Z.
Definition key_a : HmacAuth := HmacAuth_new (replicate 32 5%Z) (replicate 32 6%Z).
Definition key_b : HmacAuth := HmacAuth_new (replicate 32 6%Z) (replicate 32 5%Z).
Definition sample_session : ProtocolSession :=
  ProtocolSession_new_server sid_a 0 ChaCha20Poly1305.

Lemma zero_duration : duration_ok 0.
Proof. unfold duration_ok, MAX_SECS, NANOS_PER_SEC. lia. Qed.

Lemma process_packet_never_panics_witness :
  sess_inv (fst (process_all [(0%Z, []); (0%Z, [255%Z]); (0%Z, 56%Z :: sid_b ++ [0; 0; 0; 0; 0]%Z)]
                   sample_session)) /\
  Forall no_panic (snd (process_all [(0%Z, []); (0%Z, [255%Z]); (0%Z, 56%Z :: sid_b ++ [0; 0; 0; 0; 0]%Z)]
                   sample_session)).
Proof.
  apply (process_packet_never_panics sample_session).
  - by apply sess_inv_new.
  - pose proof zero_duration. repeat constructor; try done; unfold uint; lia.
Defined.

Lemma unauthenticated_packet_has_no_effect_witness :
  exists e, ProtocolSession_process_packet 7 (56%Z :: replicate 50 0%Z)
      (ProtocolSession_set_tls_auth key_a sample_session) =
    (ps_set_activity 7 (ProtocolSession_set_tls_auth key_a sample_session), Err e) /\
    e = ProtoCryptoError HmacVerificationFailed.
Proof.
  apply (unauthenticated_packet_has_no_effect (ProtocolSession_set_tls_auth key_a sample_session)
    key_a 7 56%Z (replicate 50 0%Z) HardResetClientV2); try reflexivity.
  intros _ H. vm_compute in H. discriminate H.
Defined.

Lemma hard_reset_handshake_witness :
  exists w1 w2 c1 s1 s2 c2,
    ProtocolSession_create_hard_reset_client 1 100 (fresh_session sid_a 0 ChaCha20Poly1305 (Some key_a))
      = (c1, Ok w1) /\
    ProtocolSession_process_packet 2 w1 (fresh_session sid_b 0 ChaCha20Poly1305 (Some key_b))
      = (s1, Ok (PHardReset sid_b)) /\
    ProtocolSession_create_hard_reset_response 3 100 s1 = (s2, Ok w2) /\
    ProtocolSession_process_packet 4 w2 c1 = (c2, Ok PHardResetAck) /\
    ps_state s2 = TlsHandshake /\ ps_state c2 = TlsHandshake /\
    ps_remote_session_id s2 = Some sid_a /\ ps_remote_session_id c2 = Some sid_b /\
    rt_pending (ps_reliable c2) = ∅ /\ linked c2 s2 /\ linked s2 c2.
Proof.
  apply (hard_reset_handshake sid_a sid_b 0 0 1 2 3 4 100 100 ChaCha20Poly1305 ChaCha20Poly1305
    (Some key_a) (Some key_b)); try reflexivity; [discriminate|by split].
Defined.

(** Two sessions past the handshake. *)
Definition peer_a : ProtocolSession :=
  ProtocolSession_set_remote_session_id sid_b (fresh_session sid_a 0 ChaCha20Poly1305 (Some key_a)).
Definition peer_b : ProtocolSession :=
  ProtocolSession_set_remote_session_id sid_a (fresh_session sid_b 0 ChaCha20Poly1305 (Some key_b)).

Lemma peers_linked : can_send peer_a /\ sess_inv peer_b /\ linked peer_a peer_b.
Proof.
  assert (sess_inv peer_a /\ sess_inv peer_b) as [Ha Hb].
  { split; (split; try done; try (left; cbn; lia); apply rel_inv_new, config_default_ok). }
  split; [|split; [done|]].
  - split; try done. cbn. lia.
  - split; [split|..]; try done. right. split; [done|]. split; [done|]. by exists key_a, key_b.
Qed.

Lemma tls_stream_delivered_witness :
  exists s' wires r' outs,
    ProtocolSession_create_control_packets 0 100 [22; 3; 3; 0; 1; 9; 22; 3]%Z peer_a = (s', Ok wires) /\
    process_all (map (pair 0%Z) wires) peer_b = (r', outs) /\
    streamed peer_a peer_b [22; 3; 3; 0; 1; 9; 22; 3]%Z s' r' outs.
Proof.
  destruct peers_linked as (Ha & Hb & Hl).
  apply (tls_stream_delivered peer_a peer_b 0 0 100 [22; 3; 3; 0; 1; 9; 22; 3]%Z Ha Hb Hl).
  - vm_compute. split; [reflexivity|discriminate].
  - split; vm_compute; reflexivity.
  - apply zero_duration.
  - apply zero_duration.
  - change (0 + 8 <= Z.to_nat 65536). lia.
Defined.

Definition sample_material : KeyMaterial :=
  mkKeyMaterial (replicate 32 1%Z) (replicate 32 2%Z) (zeros 32) (zeros 32)
    (replicate 12 3%Z) (replicate 12 4%Z).

Lemma sample_material_wf : material_wf sample_material.
Proof. split_and!; try done; repeat constructor; unfold uint; lia. Qed.


Definition keyed_a : ProtocolSession := fst (ProtocolSession_install_keys sample_material false peer_a).
Definition keyed_b : ProtocolSession := fst (ProtocolSession_install_keys sample_material true peer_b).

Definition sample_channel : DataChannel :=
  DataChannel_new KeyId_default (KeyMaterial_client_data_key sample_material ChaCha20Poly1305)
    (KeyMaterial_server_data_key sample_material ChaCha20Poly1305) false None.

Lemma data_packet_delivered_witness :
  exists s' wire r' cs' cr',
    ProtocolSession_encrypt_data [69; 0; 0; 20]%Z keyed_a = (s', Ok wire) /\
    ProtocolSession_process_packet 0 wire keyed_b = (r', Ok (PData [69; 0; 0; 20]%Z)) /\
    data_linked s' r' cs' cr' /\ pc_tx_counter (dc_encrypt_cipher cs') = 1%Z.
Proof.
  destruct peers_linked as (Ha & Hb & _).
  destruct (install_keys_data_linked peer_a peer_b sample_material (cs_inv _ Ha) Hb
    sample_material_wf eq_refl eq_refl eq_refl I) as (c' & s' & cc & cs & H1 & H2 & H3 & _).
  assert (keyed_a = c') as <- by (unfold keyed_a; by rewrite H1).
  assert (keyed_b = s') as <- by (unfold keyed_b; by rewrite H2).
  pose proof (dl_send _ _ _ _ H3) as Hcc.
  assert (Some (Some cc) = Some (Some sample_channel)) as Hs by (rewrite <- Hcc; reflexivity).
  injection Hs as ->.
  apply (data_packet_delivered keyed_a keyed_b sample_channel cs 0 [69; 0; 0; 20]%Z).
  - apply inv_channels, (cs_inv _ Ha).
  - by apply inv_channels.
  - exact H3.
  - reflexivity.
  - cbn. lia.
  - intros p Hp m' Hd. vm_compute in Hp. injection Hp as <-. vm_compute in Hd. discriminate Hd.
Defined.

