(* ===== verification/SessionSend.v ===== *)
(** * Safety of the sending side of protocol sessions

    What a session does when it creates packets, acknowledges, retransmits,
    installs keys and encrypts: the invariant of SessionProofs.v is kept,
    nothing panics, and the state of the handshake does not change. *)
From S2P Require Import Prelude Errors Opcode Packet Replay Float Reliable Cipher HmacAuth Kdf DataChannel Session SessionProofs.

Section Sending.
Context {AEAD : Aead} {ALaws : AeadLaws AEAD} {HMAC : Hmac}.

Lemma cipher_encrypt_no_panic m ad c : no_panic (snd (PacketCipher_encrypt m ad c)).
Proof.
  unfold PacketCipher_encrypt. destruct (next_counter _) as [n|]; [|done]. cbn [snd].
  apply bind_no_panic.
  { unfold Cipher_encrypt. by destruct (ci_suite _), (aead_encrypt _ _ _ _ _). }
  intros ct Hct. unfold Cipher_encrypt in Hct.
  assert (length ct = length m + TAG_SIZE) as Hl.
  { destruct (ci_suite _), (aead_encrypt _ _ _ _ _) as [ct'|] eqn:He; try done; cbn in Hct;
      injection Hct as <-; by eapply aead_encrypt_length. }
  unfold reorder. rewrite (proj2 (Nat.ltb_ge _ _)) by lia.
  rewrite slice_ok, slice_from_ok by lia. done.
Qed.

Lemma safe_send now data : duration_ok now -> safe rel_inv (ReliableTransport_send now data).
Proof. intros Hnow t Ht. by apply send_inv. Qed.

Lemma safe_get_acks : safe rel_inv get_acks_call.
Proof.
  intros t Ht. unfold get_acks_call, ReliableTransport_get_acks. split; [|done]. by destruct Ht.
Qed.

Lemma safe_retransmits now : safe rel_inv (ReliableTransport_get_retransmits now).
Proof. intros t Ht. by destruct (get_retransmits_inv now t Ht) as (t' & out & -> & ?). Qed.

Lemma safe_wrap time data : safe sess_inv (ProtocolSession_maybe_wrap_tls_auth time data).
Proof.
  intros s Hs. unfold ProtocolSession_maybe_wrap_tls_auth.
  destruct (ps_use_tls_auth s), (ps_tls_auth_key s) as [key|]; try done.
  destruct (Nat.ltb_spec (length data) 9); [done|]. split; [by apply inv_auth_id|].
  rewrite slice_ok, slice_from_ok by lia. done.
Qed.

Lemma safe_create_single now time data : duration_ok now ->
  safe sess_inv (ProtocolSession_create_single_control_packet now time data).
Proof.
  intros Hnow. unfold ProtocolSession_create_single_control_packet.
  apply safe_bind; [by apply safe_on_reliable, safe_send|intros [id d]].
  apply safe_bind; [apply safe_on_reliable, safe_get_acks|intros acks].
  apply safe_bind; [apply safe_get|intros s]. apply safe_wrap.
Qed.

Lemma safe_create_loop fuel now time data off : duration_ok now ->
  safe sess_inv (create_control_packets_loop fuel now time data off).
Proof.
  intros Hnow. revert off. induction fuel as [|f IH]; intros off; cbn [create_control_packets_loop];
    [apply safe_ret|].
  destruct (Nat.ltb_spec off (length data)); [|apply safe_ret]. cbv zeta.
  apply safe_bind; [apply safe_lift, slice_no_panic; unfold MAX_CONTROL_PAYLOAD in *; lia|intros chunk].
  apply safe_bind; [by apply safe_create_single|intros p].
  apply safe_bind; [apply IH|intros ps]. apply safe_ret.
Qed.

Lemma safe_create_packets now time data : duration_ok now ->
  safe sess_inv (ProtocolSession_create_control_packets now time data).
Proof.
  intros Hnow. unfold ProtocolSession_create_control_packets.
  destruct (_ <=? _); [|by apply safe_create_loop].
  apply safe_bind; [by apply safe_create_single|intros p]. apply safe_ret.
Qed.

Lemma safe_hard_reset_client now time : duration_ok now ->
  safe sess_inv (ProtocolSession_create_hard_reset_client now time).
Proof.
  intros Hnow. unfold ProtocolSession_create_hard_reset_client.
  apply safe_bind; [by apply safe_on_reliable, safe_send|intros [id d]].
  apply safe_bind; [apply safe_get|intros s]. apply safe_wrap.
Qed.

Lemma safe_hard_reset_response now time : duration_ok now ->
  safe sess_inv (ProtocolSession_create_hard_reset_response now time).
Proof.
  intros Hnow. unfold ProtocolSession_create_hard_reset_response.
  apply safe_bind; [by apply safe_on_reliable, safe_send|intros [id d]].
  apply safe_bind; [apply safe_on_reliable, safe_get_acks|intros acks].
  apply safe_bind; [apply safe_get|intros s]. apply safe_wrap.
Qed.

Lemma safe_create_ack now time : safe sess_inv (ProtocolSession_create_ack_packet now time).
Proof.
  unfold ProtocolSession_create_ack_packet.
  apply safe_bind; [apply safe_on_reliable, safe_get_acks|intros [|a acks]]; [apply safe_ret|].
  apply safe_bind; [apply safe_get|intros s].
  apply safe_bind; [|intros _; apply safe_bind; [apply safe_wrap|intros; apply safe_ret]].
  apply safe_modify. intros s' Hs'. apply inv_reliable; [|done].
  by destruct (si_reliable _ Hs').
Qed.

Lemma safe_rebuild time due : safe sess_inv (rebuild_retransmits time due).
Proof.
  induction due as [|[id d] due IH]; cbn [rebuild_retransmits]; [apply safe_ret|].
  apply safe_bind; [apply safe_get|intros s].
  apply safe_bind; [apply safe_wrap|intros wire].
  apply safe_bind; [apply IH|intros wires]. apply safe_ret.
Qed.

Lemma safe_get_retransmits now time : safe sess_inv (ProtocolSession_get_retransmits now time).
Proof.
  unfold ProtocolSession_get_retransmits.
  apply safe_bind; [apply safe_on_reliable, safe_retransmits|intros due]. apply safe_rebuild.
Qed.

Lemma safe_install_keys km b : safe sess_inv (ProtocolSession_install_keys km b).
Proof.
  intros s Hs. unfold ProtocolSession_install_keys. cbv zeta.
  destruct (if b then _ else _) as [ek dk].
  destruct (Nat.ltb_spec (Z.to_nat (key_id_0 (ps_current_key_id s))) (length (ps_data_channels s))) as [|Hge].
  - split; [by apply inv_channels|done].
  - exfalso. pose proof (si_key _ Hs) as Hk. pose proof (si_channels _ Hs) as Hc.
    unfold KeyId_ok, uint in Hk. lia.
Qed.

Lemma safe_encrypt_data data : safe sess_inv (ProtocolSession_encrypt_data data).
Proof.
  intros s Hs. unfold ProtocolSession_encrypt_data. cbv zeta.
  destruct (KeyId_index _ _ _ (si_key _ Hs) (si_channels _ Hs)) as [[ch|] ->]; [|done].
  assert (no_panic (snd (DataChannel_encrypt data ch))) as Hn.
  { unfold DataChannel_encrypt.
    pose proof (cipher_encrypt_no_panic data (dc_encrypt_ad_prefix ch) (dc_encrypt_cipher ch)) as Hn.
    destruct (PacketCipher_encrypt _ _ _) as [c r]. unfold no_panic in *. cbn in *. by destruct r. }
  destruct (DataChannel_encrypt data ch) as [ch' r]. split; [by apply inv_channels|].
  unfold no_panic in *. cbn in Hn |- *. by destruct r.
Qed.

(** ** The state of the handshake is left alone *)
Lemma keeps_wrap {X} (f : ProtocolSession -> X) time data :
  (forall n s, f (ps_set_auth_id n s) = f s) -> keeps f (ProtocolSession_maybe_wrap_tls_auth time data).
Proof.
  intros Hf s. unfold ProtocolSession_maybe_wrap_tls_auth.
  destruct (ps_use_tls_auth s), (ps_tls_auth_key s) as [key|]; try done.
  destruct (_ <? _); [done|]. cbn. apply Hf.
Qed.

Lemma keeps_state_wrap time data : keeps ps_state (ProtocolSession_maybe_wrap_tls_auth time data).
Proof. by apply keeps_wrap. Qed.

Lemma keeps_state_single now time data :
  keeps ps_state (ProtocolSession_create_single_control_packet now time data).
Proof.
  apply keeps_bind; [apply keeps_state_reliable|intros [id d]].
  apply keeps_bind; [apply keeps_state_reliable|intros acks].
  apply keeps_bind; [apply keeps_get|intros s]. apply keeps_state_wrap.
Qed.

Lemma keeps_state_loop fuel now time data off :
  keeps ps_state (create_control_packets_loop fuel now time data off).
Proof.
  revert off. induction fuel as [|f IH]; intros off; cbn [create_control_packets_loop]; [apply keeps_ret|].
  destruct (_ <? _); [|apply keeps_ret]. cbv zeta.
  apply keeps_bind; [apply keeps_lift|intros chunk].
  apply keeps_bind; [apply keeps_state_single|intros p].
  apply keeps_bind; [apply IH|intros ps]. apply keeps_ret.
Qed.

Lemma keeps_state_packets now time data :
  keeps ps_state (ProtocolSession_create_control_packets now time data).
Proof.
  unfold ProtocolSession_create_control_packets. destruct (_ <=? _); [|apply keeps_state_loop].
  apply keeps_bind; [apply keeps_state_single|intros p]. apply keeps_ret.
Qed.

Lemma keeps_state_response now time : keeps ps_state (ProtocolSession_create_hard_reset_response now time).
Proof.
  apply keeps_bind; [apply keeps_state_reliable|intros [id d]].
  apply keeps_bind; [apply keeps_state_reliable|intros acks].
  apply keeps_bind; [apply keeps_get|intros s]. apply keeps_state_wrap.
Qed.

Lemma keeps_state_ack now time : keeps ps_state (ProtocolSession_create_ack_packet now time).
Proof.
  apply keeps_bind; [apply keeps_state_reliable|intros [|a acks]]; [apply keeps_ret|].
  apply keeps_bind; [apply keeps_get|intros s].
  apply keeps_bind; [by apply keeps_modify|intros _].
  apply keeps_bind; [apply keeps_state_wrap|intros w]. apply keeps_ret.
Qed.

Lemma keeps_state_rebuild time due : keeps ps_state (rebuild_retransmits time due).
Proof.
  induction due as [|[id d] due IH]; cbn [rebuild_retransmits]; [apply keeps_ret|].
  apply keeps_bind; [apply keeps_get|intros s]. apply keeps_bind; [apply keeps_state_wrap|intros w].
  apply keeps_bind; [apply IH|intros ws]. apply keeps_ret.
Qed.

Lemma keeps_state_retransmits now time : keeps ps_state (ProtocolSession_get_retransmits now time).
Proof.
  apply keeps_bind; [apply keeps_state_reliable|intros due]. apply keeps_state_rebuild.
Qed.

Lemma keeps_state_install km b : keeps ps_state (ProtocolSession_install_keys km b).
Proof.
  intros s. unfold ProtocolSession_install_keys. cbv zeta.
  destruct (if b then _ else _) as [ek dk]. by destruct (_ <? _).
Qed.

Lemma keeps_state_encrypt data : keeps ps_state (ProtocolSession_encrypt_data data).
Proof.
  intros s. unfold ProtocolSession_encrypt_data. cbv zeta.
  destruct (ps_data_channels s !! _) as [[ch|]|]; try done. by destruct (DataChannel_encrypt data ch).
Qed.

End Sending.
