(* ===== verification/Runs.v ===== *)
(** * Pre- and postconditions of methods

    Rules for methods in the state and error monad of the prelude. *)
From S2P Require Import Prelude.

(** [runs P m Q]: started in [P], the method does not panic and leaves [Q],
    also when it returns an error. *)
Definition runs {S E A} (P : S -> Prop) (m : M S E A) (Q : S -> Prop) : Prop :=
  forall s, P s -> Q (fst (m s)) /\ no_panic (snd (m s)).

Section Runs.
Context {S E : Type}.
Implicit Types P Q R : S -> Prop.

Lemma runs_bind {A B} P R Q (m : M S E A) (k : A -> M S E B) :
  runs P m R -> (forall a, runs R (k a) Q) -> (forall s, R s -> Q s) -> runs P (m ≫= k) Q.
Proof.
  intros Hm Hk HRQ s Hs. unfold mbind, M_bind. specialize (Hm s Hs).
  destruct (m s) as [s' [a| |]]; destruct Hm as [Hr Hn]; cbn [fst snd] in *; [by apply Hk|..].
  - split; [by apply HRQ|done].
  - done.
Qed.

Lemma runs_ret {A} P Q (a : A) : (forall s, P s -> Q s) -> runs (E := E) P (mret a) Q.
Proof. intros H s Hs. split; [by apply H|done]. Qed.

(** A read of the state: the rest of the method may use what was read, and
    that it is still the state. *)
Lemma runs_get {A} P Q (k : S -> M S E A) :
  (forall s0, P s0 -> runs (fun s => P s /\ s = s0) (k s0) Q) -> runs P (get ≫= k) Q.
Proof. intros H s Hs. by apply (H s Hs s). Qed.

Lemma runs_read {A} P Q (k : S -> M S E A) :
  (forall s0, P s0 -> runs P (k s0) Q) -> runs P (get ≫= k) Q.
Proof. intros H s Hs. by apply (H s Hs s). Qed.

Lemma bind_step {A B} (m : M S E A) (k : A -> M S E B) s s' a :
  m s = (s', Ok a) -> (m ≫= k) s = k a s'.
Proof. unfold mbind, M_bind. by intros ->. Qed.

Lemma M_bind_Ok {A B} (m : M S E A) (k : A -> M S E B) s s' b :
  (m ≫= k) s = (s', Ok b) -> exists s1 a, m s = (s1, Ok a) /\ k a s1 = (s', Ok b).
Proof. unfold mbind, M_bind. destruct (m s) as [s1 [a| |]]; [|done..]. by exists s1, a. Qed.

Lemma runs_modify P Q f : (forall s, P s -> Q (f s)) -> runs (E := E) P (modify f) Q.
Proof. intros H s Hs. split; [by apply H|done]. Qed.

Lemma runs_weaken {A} P P' Q Q' (m : M S E A) :
  runs P m Q -> (forall s, P' s -> P s) -> (forall s, Q s -> Q' s) -> runs P' m Q'.
Proof. intros H HP HQ s Hs. destruct (H s (HP s Hs)). auto. Qed.

Lemma runs_lift {A} P Q (r : res E A) : no_panic r -> (forall s, P s -> Q s) -> runs P (lift r) Q.
Proof. intros Hr H s Hs. split; [by apply H|done]. Qed.

Lemma runs_zoom {T F A} (proj : S -> T) upd (conv : F -> E) (I : T -> Prop) P Q (m : M T F A) :
  safe I m -> (forall s, P s -> I (proj s)) ->
  (forall s, P s -> I (fst (m (proj s))) -> Q (upd (fst (m (proj s))) s)) ->
  runs P (zoom proj upd conv m) Q.
Proof.
  intros Hm HI HQ s Hs. destruct (Hm _ (HI s Hs)) as [Ht Hn]. specialize (HQ s Hs Ht).
  unfold zoom. destruct (m (proj s)) as [t r]. cbn [fst snd] in *. split; [done|]. by destruct r.
Qed.

Lemma runs_attempt {T F A} (P Q : T -> Prop) (m : M T F A) :
  runs P m Q -> runs (E := E) P (attempt m) Q.
Proof.
  intros H s Hs. specialize (H s Hs). unfold attempt. destruct (m s) as [s' [a| |]]; destruct H; by split.
Qed.
End Runs.

Lemma safe_runs {S E A} (P : S -> Prop) (m : M S E A) : safe P m <-> runs P m P.
Proof. done. Qed.

