(* ===== verification/Control.v ===== *)
(** * Control channel messages

    [PushReply], [PushRoute], [Topology], [AuthMessage] and [KeyMethodV2] of
    src/crates/corevpn-protocol/src/control.rs.  Strings are byte strings
    (Text.v).  [str::to_lowercase] in [Topology::parse] is compared only with
    [net30], [p2p] and [subnet], none of whose letters is the lower case of a
    non-ASCII character, so the ASCII mapping decides it. *)
From S2P Require Import Prelude Errors Text.
Local Open Scope Z_scope.

Definition validate_ipv4 (s : str) : res ProtocolError unit :=
  match parse_ipv4 s with
  | Some _ => Ok tt
  | None => Err (InvalidPacket (lit "invalid IPv4 address: " ++ s))
  end.

(** ** Topology *)
Inductive Topology := Net30 | P2P | Subnet.
#[export] Instance Topology_eq_dec : EqDecision Topology.
Proof. solve_decision. Defined.

Definition Topology_parse (s : str) : Topology :=
  let l := map ascii_lower s in
  if decide (l = lit "net30") then Net30
  else if decide (l = lit "p2p") then P2P
  else if decide (l = lit "subnet") then Subnet
  else Subnet.

Definition Topology_as_str (t : Topology) : str :=
  match t with
  | Net30 => lit "net30"
  | P2P => lit "p2p"
  | Subnet => lit "subnet"
  end.

(** ** Routes *)
Record PushRoute := mkPushRoute {
  pr_network : str;
  pr_netmask : str;
  pr_gateway : option str;
  pr_metric : option Z;
}.

Definition PushRoute_new (network netmask : str) : PushRoute :=
  mkPushRoute network netmask None None.

Definition PushRoute_encode (r : PushRoute) : str :=
  lit "route " ++ pr_network r ++ lit " " ++ pr_netmask r ++
  match pr_gateway r with
  | Some gw => lit " " ++ gw
  | None => lit " vpn_gateway"
  end ++
  match pr_metric r with
  | Some metric => lit " " ++ fmt_dec metric
  | None => []
  end.

Definition PushRoute_parse (s : str) : res ProtocolError PushRoute :=
  let tokens := split_whitespace s in
  network ← ok_or (tokens !! 1%nat) (InvalidPacket (lit "missing network in route"));
  _ ← validate_ipv4 network;
  netmask ← ok_or (tokens !! 2%nat) (InvalidPacket (lit "missing netmask in route"));
  _ ← validate_ipv4 netmask;
  let gateway :=
    g ← tokens !! 3%nat;
    if decide (g = lit "vpn_gateway") then None
    else if is_ok (validate_ipv4 g) then Some g else None in
  let metric :=
    t ← tokens !! 4%nat;
    n ← parse_uint 32 t;
    if n <=? 9999 then Some n else None in
  Ok (mkPushRoute network netmask gateway metric).

(** ** Push replies *)
Record PushReply := mkPushReply {
  pl_routes : list PushRoute;
  pl_ifconfig : option (str * str);
  pl_ifconfig_ipv6 : option str;
  pl_dns : list str;
  pl_dns_search : list str;
  pl_redirect_gateway : bool;
  pl_route_gateway : option str;
  pl_topology : Topology;
  pl_ping : Z;
  pl_ping_restart : Z;
  pl_options : list str;
}.

Definition PushReply_default : PushReply :=
  mkPushReply [] None None [] [] false None Subnet 10 60 [].

(** The parts before the join. *)
Definition PushReply_parts (r : PushReply) : list str :=
  [lit "topology " ++ Topology_as_str (pl_topology r)] ++
  match pl_ifconfig r with
  | Some (ip, mask) => [lit "ifconfig " ++ ip ++ lit " " ++ mask]
  | None => []
  end ++
  match pl_ifconfig_ipv6 r with
  | Some ipv6 => [lit "ifconfig-ipv6 " ++ ipv6]
  | None => []
  end ++
  map PushRoute_encode (pl_routes r) ++
  match pl_route_gateway r with
  | Some gw => [lit "route-gateway " ++ gw]
  | None => []
  end ++
  (if pl_redirect_gateway r then [lit "redirect-gateway def1"] else []) ++
  map (fun d => lit "dhcp-option DNS " ++ d) (pl_dns r) ++
  map (fun d => lit "dhcp-option DOMAIN " ++ d) (pl_dns_search r) ++
  [lit "ping " ++ fmt_dec (pl_ping r)] ++
  [lit "ping-restart " ++ fmt_dec (pl_ping_restart r)] ++
  pl_options r.

Definition PushReply_encode (r : PushReply) : str :=
  join (lit ",") (lit "PUSH_REPLY" :: PushReply_parts r).

(** Field updates of the parsing loop. *)
Definition pl_set_topology t r :=
  mkPushReply (pl_routes r) (pl_ifconfig r) (pl_ifconfig_ipv6 r) (pl_dns r) (pl_dns_search r)
    (pl_redirect_gateway r) (pl_route_gateway r) t (pl_ping r) (pl_ping_restart r) (pl_options r).
Definition pl_set_ifconfig i r :=
  mkPushReply (pl_routes r) i (pl_ifconfig_ipv6 r) (pl_dns r) (pl_dns_search r)
    (pl_redirect_gateway r) (pl_route_gateway r) (pl_topology r) (pl_ping r) (pl_ping_restart r)
    (pl_options r).
Definition pl_set_ipv6 i r :=
  mkPushReply (pl_routes r) (pl_ifconfig r) i (pl_dns r) (pl_dns_search r)
    (pl_redirect_gateway r) (pl_route_gateway r) (pl_topology r) (pl_ping r) (pl_ping_restart r)
    (pl_options r).
Definition pl_set_routes l r :=
  mkPushReply l (pl_ifconfig r) (pl_ifconfig_ipv6 r) (pl_dns r) (pl_dns_search r)
    (pl_redirect_gateway r) (pl_route_gateway r) (pl_topology r) (pl_ping r) (pl_ping_restart r) (pl_options r).
Definition pl_add_route x r := pl_set_routes (pl_routes r ++ [x]) r.
Definition pl_set_gateway g r :=
  mkPushReply (pl_routes r) (pl_ifconfig r) (pl_ifconfig_ipv6 r) (pl_dns r) (pl_dns_search r)
    (pl_redirect_gateway r) g (pl_topology r) (pl_ping r) (pl_ping_restart r) (pl_options r).
Definition pl_set_redirect r :=
  mkPushReply (pl_routes r) (pl_ifconfig r) (pl_ifconfig_ipv6 r) (pl_dns r) (pl_dns_search r)
    true (pl_route_gateway r) (pl_topology r) (pl_ping r) (pl_ping_restart r) (pl_options r).
Definition pl_set_dns l r :=
  mkPushReply (pl_routes r) (pl_ifconfig r) (pl_ifconfig_ipv6 r) l (pl_dns_search r)
    (pl_redirect_gateway r) (pl_route_gateway r) (pl_topology r) (pl_ping r) (pl_ping_restart r) (pl_options r).
Definition pl_add_dns d r := pl_set_dns (pl_dns r ++ [d]) r.
Definition pl_set_domains l r :=
  mkPushReply (pl_routes r) (pl_ifconfig r) (pl_ifconfig_ipv6 r) (pl_dns r) l
    (pl_redirect_gateway r) (pl_route_gateway r) (pl_topology r) (pl_ping r) (pl_ping_restart r) (pl_options r).
Definition pl_add_domain d r := pl_set_domains (pl_dns_search r ++ [d]) r.
Definition pl_set_ping n r :=
  mkPushReply (pl_routes r) (pl_ifconfig r) (pl_ifconfig_ipv6 r) (pl_dns r) (pl_dns_search r)
    (pl_redirect_gateway r) (pl_route_gateway r) (pl_topology r) n (pl_ping_restart r) (pl_options r).
Definition pl_set_ping_restart n r :=
  mkPushReply (pl_routes r) (pl_ifconfig r) (pl_ifconfig_ipv6 r) (pl_dns r) (pl_dns_search r)
    (pl_redirect_gateway r) (pl_route_gateway r) (pl_topology r) (pl_ping r) n (pl_options r).
Definition pl_set_options l r :=
  mkPushReply (pl_routes r) (pl_ifconfig r) (pl_ifconfig_ipv6 r) (pl_dns r) (pl_dns_search r)
    (pl_redirect_gateway r) (pl_route_gateway r) (pl_topology r) (pl_ping r) (pl_ping_restart r) l.
Definition pl_add_option o r := pl_set_options (pl_options r ++ [o]) r.

(** The keywords [PushReply::parse] knows. *)
Inductive Keyword :=
| KwTopology | KwIfconfig | KwIfconfigIpv6 | KwRoute | KwRouteGateway | KwRedirectGateway
| KwDhcpOption | KwPing | KwPingRestart.

Definition keyword (t : str) : option Keyword :=
  if decide (t = lit "topology") then Some KwTopology
  else if decide (t = lit "ifconfig") then Some KwIfconfig
  else if decide (t = lit "ifconfig-ipv6") then Some KwIfconfigIpv6
  else if decide (t = lit "route") then Some KwRoute
  else if decide (t = lit "route-gateway") then Some KwRouteGateway
  else if decide (t = lit "redirect-gateway") then Some KwRedirectGateway
  else if decide (t = lit "dhcp-option") then Some KwDhcpOption
  else if decide (t = lit "ping") then Some KwPing
  else if decide (t = lit "ping-restart") then Some KwPingRestart
  else None.

(** One turn of the loop of [PushReply::parse], on the trimmed part and its
    tokens. *)
Definition PushReply_apply (r : PushReply) (part : str) : PushReply :=
  match split_whitespace part with
  | [] => pl_add_option part r
  | t :: tokens =>
      match keyword t with
      | Some KwTopology =>
          match tokens !! 0%nat with Some topo => pl_set_topology (Topology_parse topo) r | None => r end
      | Some KwIfconfig =>
          pl_set_ifconfig (Some (default [] (tokens !! 0%nat), default [] (tokens !! 1%nat))) r
      | Some KwIfconfigIpv6 =>
          match tokens !! 0%nat with Some ipv6 => pl_set_ipv6 (Some ipv6) r | None => r end
      | Some KwRoute =>
          match PushRoute_parse part with Ok route => pl_add_route route r | _ => r end
      | Some KwRouteGateway =>
          match tokens !! 0%nat with Some gw => pl_set_gateway (Some gw) r | None => r end
      | Some KwRedirectGateway => pl_set_redirect r
      | Some KwDhcpOption =>
          match tokens !! 0%nat with
          | Some k =>
              if decide (k = lit "DNS") then
                match tokens !! 1%nat with Some dns => pl_add_dns dns r | None => r end
              else if decide (k = lit "DOMAIN") then
                match tokens !! 1%nat with Some domain => pl_add_domain domain r | None => r end
              else r
          | None => r
          end
      | Some KwPing =>
          match tokens !! 0%nat ≫= parse_uint 32 with Some p => pl_set_ping p r | None => r end
      | Some KwPingRestart =>
          match tokens !! 0%nat ≫= parse_uint 32 with Some p => pl_set_ping_restart p r | None => r end
      | None => pl_add_option part r
      end
  end.

Definition PushReply_step (r : PushReply) (part : str) : PushReply :=
  let part := trim part in
  if decide (part = []) then r else PushReply_apply r part.

Definition PushReply_parse (s : str) : res ProtocolError PushReply :=
  let s := default s (strip_prefix (lit "PUSH_REPLY,") s) in
  Ok (fold_left PushReply_step (split_on 44 s) PushReply_default).

(** ** Authentication messages *)
Record AuthMessage := mkAuthMessage { am_username : str; am_password : str }.

Definition MAX_USERNAME_LEN : nat := Z.to_nat 256.
Definition MAX_PASSWORD_LEN : nat := Z.to_nat 1024.

Definition AuthMessage_parse (data : bytes) : res ProtocolError AuthMessage :=
  if (MAX_USERNAME_LEN + MAX_PASSWORD_LEN + 2 <? length data)%nat
  then Err (InvalidPacket (lit "auth data too long")) else
  if negb (utf8_valid data) then Err (InvalidPacket (lit "invalid UTF-8 in auth")) else
  match split_on 0 data with
  | username :: password :: _ =>
      if (MAX_USERNAME_LEN <? length username)%nat
      then Err (InvalidPacket (lit "username too long (max 256 bytes)")) else
      if (MAX_PASSWORD_LEN <? length password)%nat
      then Err (InvalidPacket (lit "password too long (max 1024 bytes)")) else
      Ok (mkAuthMessage username password)
  | _ => Err (InvalidPacket (lit "missing auth fields"))
  end.

Definition AuthMessage_encode (m : AuthMessage) : bytes :=
  am_username m ++ [0] ++ am_password m ++ [0].

(** ** Key method v2 *)
Record KeyMethodV2 := mkKeyMethodV2 {
  k2_pre_master : bytes;
  k2_random1 : bytes;
  k2_random2 : bytes;
  k2_options : str;
  k2_username : option str;
  k2_password : option str;
  k2_peer_info : option str;
}.

Definition KeyMethodV2_read_length_prefixed_string (data : bytes) (offset : nat) :
    res ProtocolError (str * nat) :=
  if (length data <? offset + 2)%nat then Err (PacketTooShort (offset + 2) (length data)) else
  b0 ← idx data offset; b1 ← idx data (offset + 1);
  let len := Z.to_nat (from_be [b0; b1]) in
  let offset := (offset + 2)%nat in
  if (length data <? offset + len)%nat then Err (PacketTooShort (offset + len) (length data)) else
  s ← slice data offset (offset + len);
  if negb (utf8_valid s) then Err (InvalidPacket (lit "invalid UTF-8 in key method v2")) else
  Ok (trim_end_matches 0 s, (offset + len)%nat).

(** A trailing optional string: [None] when absent or empty. *)
Definition KeyMethodV2_read_optional (data : bytes) (offset : nat) :
    res ProtocolError (option str * nat) :=
  if (offset + 2 <=? length data)%nat then
    '(s, offset) ← KeyMethodV2_read_length_prefixed_string data offset;
    Ok (if decide (s = []) then None else Some s, offset)
  else Ok (None, offset).

Definition unsupported_key_method (key_method : Z) : ProtocolError :=
  InvalidPacket (lit "unsupported key method: " ++ fmt_dec key_method).

Definition KeyMethodV2_parse (data : bytes) : res ProtocolError KeyMethodV2 :=
  if (length data <? 119)%nat then Err (PacketTooShort 119 (length data)) else
  key_method ← idx data 4;
  if negb (key_method =? 2) then Err (unsupported_key_method key_method) else
  pre_master ← slice data 5 53;
  random1 ← slice data 53 85;
  random2 ← slice data 85 117;
  '(options, offset) ← KeyMethodV2_read_length_prefixed_string data 117;
  '(username, offset) ← KeyMethodV2_read_optional data offset;
  '(password, offset) ← KeyMethodV2_read_optional data offset;
  '(peer_info, offset) ← KeyMethodV2_read_optional data offset;
  Ok (mkKeyMethodV2 pre_master random1 random2 options username password peer_info).

Definition KeyMethodV2_parse_from_server (data : bytes) : res ProtocolError KeyMethodV2 :=
  if (length data <? 71)%nat then Err (PacketTooShort 71 (length data)) else
  key_method ← idx data 4;
  if negb (key_method =? 2) then Err (unsupported_key_method key_method) else
  random1 ← slice data 5 37;
  random2 ← slice data 37 69;
  '(options, _) ← KeyMethodV2_read_length_prefixed_string data 69;
  Ok (mkKeyMethodV2 (replicate 48 0) random1 random2 options None None None).

(** [len as u16] truncates. *)
Definition KeyMethodV2_write_string (s : str) : bytes :=
  to_be 2 (wrap 16 (Z.of_nat (length s) + 1)) ++ s ++ [0].

Definition KeyMethodV2_encode (k : KeyMethodV2) (is_server : bool) : bytes :=
  [0; 0; 0; 0] ++ [2] ++
  (if is_server then [] else k2_pre_master k) ++
  k2_random1 k ++ k2_random2 k ++
  KeyMethodV2_write_string (k2_options k) ++
  KeyMethodV2_write_string (default [] (k2_username k)) ++
  KeyMethodV2_write_string (default [] (k2_password k)) ++
  match k2_peer_info k with Some p => KeyMethodV2_write_string p | None => [] end.

(** * Key method v2 on the wire *)

(** A string the wire format carries: UTF-8, not ending in the terminator, and
    short enough for the 16-bit length. *)
Definition wire_string (s : str) : Prop :=
  utf8_valid s = true /\ last s <> Some 0 /\ (length s + 1 < Z.to_nat 65536)%nat.

Definition wire_option (o : option str) : Prop := wire_string (default [] o).

(** The reader does not tell an empty field from an absent one. *)
Definition nonempty (o : option str) : option str :=
  match o with Some [] => None | _ => o end.

Definition k2_wf (k : KeyMethodV2) : Prop :=
  length (k2_pre_master k) = 48%nat /\ length (k2_random1 k) = 32%nat /\
  length (k2_random2 k) = 32%nat /\ wire_string (k2_options k) /\
  wire_option (k2_username k) /\ wire_option (k2_password k) /\ wire_option (k2_peer_info k).

Lemma write_string_length s : length (KeyMethodV2_write_string s) = (length s + 3)%nat.
Proof. unfold KeyMethodV2_write_string. rewrite !length_app, to_be_length. simpl. lia. Qed.

Lemma read_written data pre s post off :
  wire_string s -> data = pre ++ KeyMethodV2_write_string s ++ post -> length pre = off ->
  KeyMethodV2_read_length_prefixed_string data off = Ok (s, (off + length s + 3)%nat).
Proof.
  intros (Hu & Hl & Hs) -> <-. unfold KeyMethodV2_read_length_prefixed_string.
  set (data := pre ++ _). set (n := Z.of_nat (length s) + 1).
  assert (length data = length pre + (length s + 3) + length post)%nat as Hd
    by (unfold data; rewrite !length_app, write_string_length; lia).
  assert (to_be 2 (wrap 16 n) = to_be 2 n) as Hw.
  { unfold wrap. by rewrite Z.mod_small by (unfold n; lia). }
  assert (data = pre ++ to_be 2 n ++ (s ++ [0]) ++ post) as Hdata.
  { unfold data, KeyMethodV2_write_string. fold n. rewrite Hw, <- !app_assoc. done. }
  pose proof (from_to_be 2 n) as Hn. destruct (to_be 2 n) as [|x [|y [|]]] eqn:Hb; try done.
  rewrite if_false by (apply Nat.ltb_ge; lia).
  rewrite (bind_of_Ok _ _ x) by (eapply idx_at; [exact Hdata|done]).
  rewrite (bind_of_Ok _ _ y)
    by (apply (idx_at _ (pre ++ [x]) _ ((s ++ [0]) ++ post)); [by rewrite Hdata, <- !app_assoc|len]).
  rewrite Hn by (unfold uint, n; lia). unfold n. replace (Z.to_nat _) with (length s + 1)%nat by lia.
  cbv zeta. rewrite if_false by (apply Nat.ltb_ge; lia).
  rewrite (bind_of_Ok _ _ (s ++ [0]))
    by (eapply (slice_at _ (pre ++ [x; y])); [by rewrite Hdata, <- !app_assoc|len|len]).
  rewrite utf8_valid_app by done. cbn [negb]. rewrite trim_end_nul by done.
  f_equal. f_equal. lia.
Qed.

Lemma read_optional_written data pre o post off :
  wire_option o -> data = pre ++ KeyMethodV2_write_string (default [] o) ++ post -> length pre = off ->
  KeyMethodV2_read_optional data off
  = Ok (nonempty o, (off + length (default [] o : str) + 3)%nat).
Proof.
  intros Ho Hdata Hoff. unfold KeyMethodV2_read_optional.
  rewrite if_true by (apply Nat.leb_le; subst; rewrite !length_app, write_string_length; lia).
  rewrite (bind_of_Ok _ _ _ (read_written _ _ _ _ _ Ho Hdata Hoff)). by destruct o as [[|]|].
Qed.

Lemma read_optional_end data off :
  length data = off -> KeyMethodV2_read_optional data off = Ok (None, off).
Proof.
  intros <-. unfold KeyMethodV2_read_optional. by rewrite if_false by (apply Nat.leb_gt; lia).
Qed.

(** The optional peer info at the end of a client message. *)
Lemma read_peer_info data pre o off :
  wire_option o -> length pre = off ->
  data = pre ++ match o with Some p => KeyMethodV2_write_string p | None => [] end ->
  exists off', KeyMethodV2_read_optional data off = Ok (nonempty o, off').
Proof.
  intros Ho Hoff Hd. destruct o as [p|].
  - eexists. eapply (read_optional_written _ pre (Some p) []); [done|by rewrite app_nil_r|done].
  - eexists. apply read_optional_end. by rewrite Hd, app_nil_r.
Qed.

(** What a client writes with [encode(false)] is what [parse] reads: the
    key material and every string come back, where an empty optional field
    reads as an absent one. *)
Lemma key_method_client_roundtrip k : k2_wf k ->
  KeyMethodV2_parse (KeyMethodV2_encode k false)
  = Ok (mkKeyMethodV2 (k2_pre_master k) (k2_random1 k) (k2_random2 k) (k2_options k)
          (nonempty (k2_username k)) (nonempty (k2_password k)) (nonempty (k2_peer_info k))).
Proof.
  intros (Hp & H1 & H2 & Ho & Hu & Hw & Hi). unfold KeyMethodV2_parse.
  set (data := KeyMethodV2_encode k false). unfold KeyMethodV2_encode in data.
  set (pi := match k2_peer_info k with Some p => _ | None => [] end) in data.
  assert (119 <= length data)%nat as Hlen
    by (unfold data; rewrite !length_app, !write_string_length; cbn [length]; lia).
  rewrite if_false by (apply Nat.ltb_ge; lia).
  rewrite (bind_of_Ok _ _ 2) by (by eapply (idx_at _ [0; 0; 0; 0])). cbn [Z.eqb Pos.eqb negb].
  rewrite (bind_of_Ok _ _ (k2_pre_master k))
    by (eapply (slice_at _ ([0; 0; 0; 0] ++ [2])); [reflexivity|done|lia]).
  rewrite (bind_of_Ok _ _ (k2_random1 k))
    by (eapply (slice_at _ ([0; 0; 0; 0] ++ [2] ++ k2_pre_master k)); [by rewrite <- !app_assoc|len|lia]).
  rewrite (bind_of_Ok _ _ (k2_random2 k))
    by (eapply (slice_at _ ([0; 0; 0; 0] ++ [2] ++ k2_pre_master k ++ k2_random1 k));
        [by rewrite <- !app_assoc|len|lia]).
  set (pre := [0; 0; 0; 0] ++ [2] ++ k2_pre_master k ++ k2_random1 k ++ k2_random2 k).
  assert (length pre = 117%nat) by (unfold pre; len).
  rewrite (bind_of_Ok _ _ (k2_options k, (117 + length (k2_options k) + 3)%nat))
    by (eapply (read_written _ pre); [done|by unfold pre; rewrite <- !app_assoc|done]).
  set (off := (117 + length (k2_options k) + 3)%nat). cbv iota beta.
  rewrite (bind_of_Ok _ _ (nonempty (k2_username k), (off + length (default [] (k2_username k) : str) + 3)%nat))
    by (eapply (read_optional_written _ (pre ++ KeyMethodV2_write_string (k2_options k)));
        [done|by unfold pre; rewrite <- !app_assoc|rewrite length_app, write_string_length; lia]).
  set (off2 := (off + _ + 3)%nat). cbv iota beta.
  rewrite (bind_of_Ok _ _ (nonempty (k2_password k), (off2 + length (default [] (k2_password k) : str) + 3)%nat))
    by (eapply (read_optional_written _ (pre ++ KeyMethodV2_write_string (k2_options k) ++
          KeyMethodV2_write_string (default [] (k2_username k))));
        [done|by unfold pre; rewrite <- !app_assoc|rewrite !length_app, !write_string_length; lia]).
  cbv iota beta.
  destruct (read_peer_info data (pre ++ KeyMethodV2_write_string (k2_options k) ++
     KeyMethodV2_write_string (default [] (k2_username k)) ++
     KeyMethodV2_write_string (default [] (k2_password k))) (k2_peer_info k)
     (off2 + length (default [] (k2_password k) : str) + 3)) as [off' ->];
    [done|rewrite !length_app, !write_string_length; lia|by unfold pre; rewrite <- !app_assoc|done].
Qed.

(** What a server writes with [encode(true)], which leaves the pre-master
    secret out, is what [parse_from_server] reads, whatever follows it: both
    randoms and the options, and nothing else. *)
Lemma key_method_server_roundtrip k rest : k2_wf k ->
  KeyMethodV2_parse_from_server (KeyMethodV2_encode k true ++ rest)
  = Ok (mkKeyMethodV2 (replicate 48 0) (k2_random1 k) (k2_random2 k) (k2_options k) None None None).
Proof.
  intros (Hp & H1 & H2 & Ho & Hu & Hw & Hi). unfold KeyMethodV2_parse_from_server.
  set (data := KeyMethodV2_encode k true ++ rest). unfold KeyMethodV2_encode in data.
  assert (71 <= length data)%nat as Hlen
    by (unfold data; rewrite !length_app, !write_string_length; cbn [length]; lia).
  rewrite if_false by (apply Nat.ltb_ge; lia).
  rewrite (bind_of_Ok _ _ 2) by (eapply (idx_at _ [0; 0; 0; 0]); [unfold data; by rewrite <- !app_assoc|done]). cbn [Z.eqb Pos.eqb negb].
  rewrite (bind_of_Ok _ _ (k2_random1 k))
    by (eapply (slice_at _ ([0; 0; 0; 0] ++ [2])); [unfold data; by rewrite <- !app_assoc|len|lia]).
  rewrite (bind_of_Ok _ _ (k2_random2 k))
    by (eapply (slice_at _ ([0; 0; 0; 0] ++ [2] ++ k2_random1 k)); [unfold data; by rewrite <- !app_assoc|len|lia]).
  set (pre := [0; 0; 0; 0] ++ [2] ++ k2_random1 k ++ k2_random2 k).
  rewrite (bind_of_Ok _ _ (k2_options k, (69 + length (k2_options k) + 3)%nat))
    by (eapply (read_written _ pre); [done|by unfold data, pre; rewrite <- !app_assoc|unfold pre; len]).
  done.
Qed.

(** ** Errors of the readers *)
Lemma read_string_no_panic data off :
  no_panic (KeyMethodV2_read_length_prefixed_string data off).
Proof. unfold KeyMethodV2_read_length_prefixed_string. np. Qed.

Lemma read_optional_no_panic data off : no_panic (KeyMethodV2_read_optional data off).
Proof.
  unfold KeyMethodV2_read_optional. case_match; [|done].
  apply bind_no_panic; [apply read_string_no_panic|]. intros [s o] _. done.
Qed.

Lemma KeyMethodV2_parse_no_panic data : no_panic (KeyMethodV2_parse data).
Proof.
  unfold KeyMethodV2_parse. np; first [apply read_string_no_panic | apply read_optional_no_panic].
Qed.

Lemma KeyMethodV2_parse_from_server_no_panic data : no_panic (KeyMethodV2_parse_from_server data).
Proof. unfold KeyMethodV2_parse_from_server. np. apply read_string_no_panic. Qed.

(** The readers of peer-controlled bytes return on every input, with a
    message or with an error: no index or slice is out of range, whatever the
    length prefixes say. *)
Theorem control_readers_never_panic (data : bytes) :
  no_panic (KeyMethodV2_parse data) /\ no_panic (KeyMethodV2_parse_from_server data) /\
  no_panic (AuthMessage_parse data).
Proof.
  split_and!.
  - apply KeyMethodV2_parse_no_panic.
  - apply KeyMethodV2_parse_from_server_no_panic.
  - unfold AuthMessage_parse. np.
Qed.

(** * Authentication messages *)
Definition auth_wf (m : AuthMessage) : Prop :=
  utf8_valid (am_username m) = true /\ utf8_valid (am_password m) = true /\
  (0 ∉ am_username m) /\ (0 ∉ am_password m) /\
  (length (am_username m) <= MAX_USERNAME_LEN)%nat /\
  (length (am_password m) <= MAX_PASSWORD_LEN)%nat.

(** [encode] followed by [parse] gives back every user name and password
    within the limits, the longest ones included. *)
Theorem auth_message_roundtrip m : auth_wf m -> AuthMessage_parse (AuthMessage_encode m) = Ok m.
Proof.
  intros (Hu & Hp & Nu & Np & Lu & Lp). unfold AuthMessage_parse, AuthMessage_encode.
  rewrite if_false by (apply Nat.ltb_ge; rewrite !length_app; cbn [length]; lia).
  assert (utf8_valid (am_username m ++ [0] ++ am_password m ++ [0]) = true) as ->
    by (repeat apply utf8_valid_app; done).
  cbn [negb app]. rewrite !split_on_app by done. cbn [split_on].
  do 2 rewrite if_false by (apply Nat.ltb_ge; lia). by destruct m.
Qed.

(** * Push replies *)

Definition is_ipv4 (s : str) : Prop := parse_ipv4 s <> None.

Definition route_wf (r : PushRoute) : Prop :=
  is_ipv4 (pr_network r) /\ is_ipv4 (pr_netmask r) /\
  match pr_gateway r with Some g => is_ipv4 g | None => True end /\
  match pr_metric r with Some m => 0 <= m <= 9999 | None => True end.

(** An extra option that [parse] keeps: trimmed, without commas, and not one
    of the directives it interprets. *)
Definition option_wf (o : str) : Prop :=
  o <> [] /\ (44 ∉ o) /\ trim o = o /\ head (split_whitespace o) ≫= keyword = None.

Definition reply_wf (r : PushReply) : Prop :=
  Forall route_wf (pl_routes r) /\
  match pl_ifconfig r with Some (ip, mask) => token ip /\ token mask | None => True end /\
  match pl_ifconfig_ipv6 r with Some i => token i | None => True end /\
  Forall token (pl_dns r) /\ Forall token (pl_dns_search r) /\
  match pl_route_gateway r with Some g => token g | None => True end /\
  u32 (pl_ping r) /\ u32 (pl_ping_restart r) /\ Forall option_wf (pl_options r).

Ltac token_lit := split; [done|repeat constructor; done].

Lemma ipv4_token s : is_ipv4 s -> token s.
Proof.
  unfold is_ipv4, parse_ipv4. intros H. case_match; [done|].
  pose proof (join_split_on 46 s) as Hj.
  destruct (split_on 46 s) as [|a [|b [|c [|d [|]]]]]; try done.
  destruct (parse_octet a) eqn:Ha; [|done]. destruct (parse_octet b) eqn:Hb; [|done].
  destruct (parse_octet c) eqn:Hc; [|done]. destruct (parse_octet d) eqn:Hd; [|done].
  apply parse_octet_token in Ha, Hb, Hc, Hd. rewrite <- Hj.
  assert (token [46]) as Hdot by token_lit.
  cbn [join]. eauto 10 using token_app.
Qed.

(** A directive is its words joined with single spaces. *)
Lemma PushReply_step_words r t ts :
  Forall token (t :: ts) -> PushReply_step r (join [32] (t :: ts)) = PushReply_apply r (join [32] (t :: ts)).
Proof.
  intros H. unfold PushReply_step. rewrite trim_join by done. rewrite decide_False; [done|].
  apply join_cons_ne. by destruct (Forall_inv H).
Qed.

Definition route_words (r : PushRoute) : list str :=
  [lit "route"; pr_network r; pr_netmask r; default (lit "vpn_gateway") (pr_gateway r)] ++
  match pr_metric r with Some m => [fmt_dec m] | None => [] end.

Lemma PushRoute_encode_words r : PushRoute_encode r = join [32] (route_words r).
Proof.
  unfold PushRoute_encode, route_words.
  destruct (pr_gateway r), (pr_metric r); cbn [join app default]; rewrite ?app_nil_r, <- ?app_assoc; done.
Qed.

Lemma route_words_tokens r : route_wf r -> Forall token (route_words r).
Proof.
  intros (Hn & Hm & Hg & Hk). unfold route_words.
  repeat apply Forall_cons_2; try (by apply ipv4_token); try token_lit.
  - destruct (pr_gateway r); [by apply ipv4_token|token_lit].
  - destruct (pr_metric r); [|constructor]. apply Forall_singleton, fmt_dec_token. lia.
Qed.

Lemma validate_ipv4_ok s : is_ipv4 s -> validate_ipv4 s = Ok tt.
Proof. unfold is_ipv4, validate_ipv4. by destruct (parse_ipv4 s). Qed.

Lemma PushRoute_parse_encode r : route_wf r -> PushRoute_parse (PushRoute_encode r) = Ok r.
Proof.
  intros H. pose proof (route_words_tokens r H) as Ht. destruct H as (Hn & Hm & Hg & Hk).
  rewrite PushRoute_encode_words. unfold PushRoute_parse. rewrite split_whitespace_join by done.
  unfold route_words. cbn [app lookup list_lookup ok_or]. destruct r as [n m g k]. cbn [pr_network pr_netmask pr_gateway pr_metric] in *.
  rewrite (bind_of_Ok _ _ n) by done. rewrite (bind_of_Ok _ _ tt) by (by apply validate_ipv4_ok).
  rewrite (bind_of_Ok _ _ m) by done. rewrite (bind_of_Ok _ _ tt) by (by apply validate_ipv4_ok).
  f_equal. f_equal.
  - destruct g as [g|]; [|done]. cbn [default mbind option_bind id].
    rewrite decide_False by (intros ->; by apply Hg). by rewrite validate_ipv4_ok.
  - destruct k as [k|]; [|done]. change (_ !! _) with (Some (fmt_dec k)). cbn [mbind option_bind]. rewrite parse_uint_fmt by (unfold uint; lia).
    cbn [mbind option_bind]. by rewrite (proj2 (Z.leb_le k 9999)) by lia.
Qed.

(** ** Effect of each directive on the reply being built *)
Section Directives.
Implicit Types (r : PushReply) (ip mask s : str).

(** Run one turn of the loop on a directive given by its words. *)
Ltac directive ws :=
  lazymatch goal with
  | |- PushReply_step _ ?p = _ =>
      change p with (join [32] ws);
      assert (Forall token ws) as Hws
        by (repeat apply Forall_cons_2; try done; first [by apply fmt_dec_token; lia | token_lit]);
      rewrite PushReply_step_words by exact Hws; unfold PushReply_apply;
      rewrite split_whitespace_join by exact Hws; clear Hws
  end.

Lemma step_topology r t :
  PushReply_step r (lit "topology " ++ Topology_as_str t) = pl_set_topology t r.
Proof. by destruct t. Qed.

Lemma step_ifconfig r ip mask : token ip -> token mask ->
  PushReply_step r (lit "ifconfig " ++ ip ++ lit " " ++ mask) = pl_set_ifconfig (Some (ip, mask)) r.
Proof. intros. by directive [lit "ifconfig"; ip; mask]. Qed.

Lemma step_ipv6 r s : token s ->
  PushReply_step r (lit "ifconfig-ipv6 " ++ s) = pl_set_ipv6 (Some s) r.
Proof. intros. by directive [lit "ifconfig-ipv6"; s]. Qed.

Lemma step_gateway r s : token s ->
  PushReply_step r (lit "route-gateway " ++ s) = pl_set_gateway (Some s) r.
Proof. intros. by directive [lit "route-gateway"; s]. Qed.

Lemma step_redirect r : PushReply_step r (lit "redirect-gateway def1") = pl_set_redirect r.
Proof. by directive [lit "redirect-gateway"; lit "def1"]. Qed.

Lemma step_dns r s : token s -> PushReply_step r (lit "dhcp-option DNS " ++ s) = pl_add_dns s r.
Proof. intros. by directive [lit "dhcp-option"; lit "DNS"; s]. Qed.

Lemma step_domain r s : token s ->
  PushReply_step r (lit "dhcp-option DOMAIN " ++ s) = pl_add_domain s r.
Proof. intros. by directive [lit "dhcp-option"; lit "DOMAIN"; s]. Qed.

Lemma step_ping r n : u32 n -> PushReply_step r (lit "ping " ++ fmt_dec n) = pl_set_ping n r.
Proof.
  intros Hn. unfold uint in Hn. directive [lit "ping"; fmt_dec n].
  change (keyword (lit "ping")) with (Some KwPing). cbn [lookup list_lookup mbind option_bind].
  by rewrite parse_uint_fmt by (unfold uint; lia).
Qed.

Lemma step_ping_restart r n : u32 n ->
  PushReply_step r (lit "ping-restart " ++ fmt_dec n) = pl_set_ping_restart n r.
Proof.
  intros Hn. unfold uint in Hn. directive [lit "ping-restart"; fmt_dec n].
  change (keyword (lit "ping-restart")) with (Some KwPingRestart).
  cbn [lookup list_lookup mbind option_bind].
  by rewrite parse_uint_fmt by (unfold uint; lia).
Qed.

Lemma step_route r x : route_wf x -> PushReply_step r (PushRoute_encode x) = pl_add_route x r.
Proof.
  intros Hx. pose proof (route_words_tokens x Hx) as Hw. rewrite PushRoute_encode_words.
  change (route_words x) with (lit "route" :: tail (route_words x)) in *.
  rewrite PushReply_step_words by done. unfold PushReply_apply. rewrite split_whitespace_join by done.
  change (keyword (lit "route")) with (Some KwRoute). cbv iota.
  change (lit "route" :: tail (route_words x)) with (route_words x).
  by rewrite <- PushRoute_encode_words, PushRoute_parse_encode.
Qed.

Lemma step_option r s : option_wf s -> PushReply_step r s = pl_add_option s r.
Proof.
  intros (Hne & _ & Ht & Hk). unfold PushReply_step. rewrite Ht, decide_False by done.
  unfold PushReply_apply. destruct (split_whitespace s) as [|t ts]; [done|]. cbn in Hk. by rewrite Hk.
Qed.
End Directives.

(** Appending one element at a time to a list field. *)
Lemma fold_append {A} (get : PushReply -> list A) (set : list A -> PushReply -> PushReply) xs r :
  (forall r, set (get r) r = r) -> (forall l r, get (set l r) = l) ->
  (forall l l' r, set l (set l' r) = set l r) ->
  fold_left (fun r x => set (get r ++ [x]) r) xs r = set (get r ++ xs) r.
Proof.
  intros Hid Hget Hset. revert r. induction xs as [|x xs IH]; intros r; cbn [fold_left].
  - by rewrite app_nil_r.
  - by rewrite IH, Hget, Hset, <- app_assoc.
Qed.

(** A run of directives of one kind appends their values to its field. *)
Lemma fold_list_directives {A} (enc : A -> str) get set (P : A -> Prop) (xs : list A) r :
  (forall r x, P x -> PushReply_step r (enc x) = set (get r ++ [x]) r) ->
  (forall r, set (get r) r = r) -> (forall l r, get (set l r) = l) ->
  (forall l l' r, set l (set l' r) = set l r) -> Forall P xs ->
  fold_left PushReply_step (map enc xs) r = set (get r ++ xs) r.
Proof.
  intros Hstep Hid Hget Hset H. rewrite <- (fold_append get set xs r Hid Hget Hset).
  revert r. induction H as [|x xs Hx H IH]; intros r; [done|].
  cbn [map fold_left]. rewrite Hstep by done. apply IH.
Qed.

(** The loop rebuilds the reply from its parts. *)
Lemma fold_parts r : reply_wf r ->
  fold_left PushReply_step (PushReply_parts r) PushReply_default = r.
Proof.
  intros (Hr & Hi & H6 & Hd & Hs & Hg & Hp & Hq & Ho). unfold PushReply_parts.
  rewrite !fold_left_app. cbn [fold_left]. rewrite step_topology.
  rewrite <- (map_id (pl_options r)) at 1.
  rewrite (fold_list_directives _ pl_options pl_set_options option_wf)
    by (done || apply step_option || by intros []).
  rewrite (fold_list_directives _ pl_dns_search pl_set_domains token)
    by (done || apply step_domain || by intros []).
  rewrite (fold_list_directives _ pl_dns pl_set_dns token)
    by (done || apply step_dns || by intros []).
  rewrite (fold_list_directives _ pl_routes pl_set_routes route_wf)
    by (done || apply step_route || by intros []).
  rewrite step_ping, step_ping_restart by done.
  destruct r as [? i i6 ? ? rd g ? ? ? ?].
  cbn [pl_routes pl_ifconfig pl_ifconfig_ipv6 pl_dns pl_dns_search pl_redirect_gateway
    pl_route_gateway pl_topology pl_ping pl_ping_restart pl_options] in *.
  destruct i as [[ip mask]|], i6, g, rd; cbn [fold_left]; rewrite ?step_redirect;
    try rewrite step_ifconfig by (apply Hi); try rewrite step_gateway by done;
    try rewrite step_ipv6 by done; done.
Qed.

Lemma lit_app_no_comma (p s : str) : 44 ∉ p -> token s -> 44 ∉ p ++ s.
Proof. intros Hp Hs%token_no_comma. set_solver. Qed.

Ltac no_comma := refine (bool_decide_unpack _ _); vm_compute; exact I.

Lemma parts_no_comma r : reply_wf r -> Forall (fun p => 44 ∉ p) (PushReply_parts r).
Proof.
  intros (Hr & Hi & H6 & Hd & Hs & Hg & Hp & Hq & Ho). unfold uint in Hp, Hq. unfold PushReply_parts.
  repeat apply Forall_app_2.
  - apply Forall_singleton. destruct (pl_topology r); no_comma.
  - destruct (pl_ifconfig r) as [[ip mask]|]; [|constructor]. apply Forall_singleton.
    apply (join_tokens_no_comma [lit "ifconfig"; ip; mask]).
    destruct Hi. repeat apply Forall_cons_2; try done. token_lit.
  - destruct (pl_ifconfig_ipv6 r); [|constructor].
    apply Forall_singleton, lit_app_no_comma; [no_comma|done].
  - apply Forall_map. eapply Forall_impl; [exact Hr|]. intros x Hx. cbn beta.
    rewrite PushRoute_encode_words. by apply join_tokens_no_comma, route_words_tokens.
  - destruct (pl_route_gateway r); [|constructor].
    apply Forall_singleton, lit_app_no_comma; [no_comma|done].
  - destruct (pl_redirect_gateway r); [|constructor]. apply Forall_singleton. no_comma.
  - apply Forall_map. eapply Forall_impl; [exact Hd|]. intros x Hx. apply lit_app_no_comma; [no_comma|done].
  - apply Forall_map. eapply Forall_impl; [exact Hs|]. intros x Hx. apply lit_app_no_comma; [no_comma|done].
  - apply Forall_singleton, lit_app_no_comma; [no_comma|]. apply fmt_dec_token. lia.
  - apply Forall_singleton, lit_app_no_comma; [no_comma|]. apply fmt_dec_token. lia.
  - eapply Forall_impl; [exact Ho|]. by intros x (_ & Hx & _).
Qed.

(** A push reply survives the wire: [parse] gives back every field of an
    encoded reply (addresses, routes with gateways and metrics up to 9999,
    name servers, search domains, timers and options that are not directives). *)
Lemma push_reply_roundtrip r : reply_wf r -> PushReply_parse (PushReply_encode r) = Ok r.
Proof.
  intros Hr. unfold PushReply_parse, PushReply_encode.
  pose proof (parts_no_comma r Hr) as Hc. pose proof (fold_parts r Hr) as Hf.
  assert (PushReply_parts r <> []) as Hne by done.
  destruct (PushReply_parts r) as [|p ps]; [done|].
  change (join (lit ",") (lit "PUSH_REPLY" :: p :: ps)) with (lit "PUSH_REPLY," ++ join [44] (p :: ps)).
  unfold strip_prefix. rewrite take_app_length, decide_True, drop_app_length by done.
  cbn [default id]. rewrite split_on_join by done. by rewrite Hf.
Qed.

(** ** Instances *)
Section Witnesses.

Definition sample_key_method : KeyMethodV2 :=
  mkKeyMethodV2 (replicate 48 7) (replicate 32 8) (replicate 32 9) (lit "V4,dev-type tun")
    (Some (lit "alice")) None (Some (lit "IV_VER=2.6")).

Lemma sample_key_method_wf : k2_wf sample_key_method.
Proof.
  unfold k2_wf, wire_option, wire_string.
  split_and!; first [reflexivity | discriminate | (simpl; lia)].
Qed.


Definition sample_reply : PushReply :=
  mkPushReply
    [mkPushRoute (lit "192.168.1.0") (lit "255.255.255.0") None None;
     mkPushRoute (lit "10.0.0.0") (lit "255.0.0.0") (Some (lit "10.8.0.1")) (Some 100)]
    (Some (lit "10.8.0.2", lit "255.255.255.0")) (Some (lit "fd00::2/64"))
    [lit "1.1.1.1"] [lit "corp.example"] true (Some (lit "10.8.0.1")) Subnet 10 60
    [lit "block-outside-dns"; lit "peer-id 3"].

Lemma sample_reply_wf : reply_wf sample_reply.
Proof.
  unfold reply_wf, sample_reply. cbn [pl_routes pl_ifconfig pl_ifconfig_ipv6 pl_dns pl_dns_search
    pl_route_gateway pl_ping pl_ping_restart pl_options].
  split_and!; repeat first [apply Forall_nil_2 | apply Forall_cons_2]; try token_lit;
    unfold route_wf, is_ipv4, option_wf, uint; cbn [pr_network pr_netmask pr_gateway pr_metric];
    split_and!; first [lia | no_comma | (vm_compute; done)].
Qed.

End Witnesses.
