(* ===== verification/Network.v ===== *)
(** * Address pools

    [VpnAddress], [Route] and [AddressPool] of
    src/crates/corevpn-core/src/network.rs.  Addresses are the integers the
    source converts them to ([u32] and [u128]).  The network types of the
    crate [ipnet] are an interface, [IpNet], with their documented meaning as
    its laws, [IpNetLaws]; [Ipv4Addr] and [Ipv6Addr] are the standard
    library's.

    The two sets of allocated addresses are behind two locks.  Every method is
    composed of critical sections that each hold one lock; a run ([pool_run])
    is any sequence of critical sections, so it also covers callers on
    different threads whose methods interleave. *)
From S2P Require Import Prelude Errors Text.
Local Open Scope Z_scope.

(** ** The standard library's addresses *)
Definition v4_octet (a : Z) (i : nat) : Z := default 0 (to_be 4 a !! i).
Definition v4_is_loopback (a : Z) : bool := v4_octet a 0 =? 127.
Definition v4_is_unspecified (a : Z) : bool := a =? 0.
Definition v4_is_multicast (a : Z) : bool := (224 <=? v4_octet a 0) && (v4_octet a 0 <=? 239).

Definition v6_segment (a : Z) (i : nat) : Z :=
  Z.land (Z.shiftr a (16 * (7 - Z.of_nat i))) 65535.
Definition v6_is_loopback (a : Z) : bool := a =? 1.
Definition v6_is_unspecified (a : Z) : bool := a =? 0.
Definition v6_is_multicast (a : Z) : bool := Z.shiftr a 120 =? 255.

(** [Display] of [Ipv6Addr]: an IPv4-mapped address ends in dotted form;
    otherwise the first longest run of at least two zero segments is
    abbreviated. *)
Definition v6_segments (a : Z) : list Z := map (v6_segment a) (seq 0 8).

Definition hex_digit (d : Z) : Z := if d <? 10 then 48 + d else 87 + d.
Fixpoint fmt_hex_go (fuel : nat) (z : Z) : str :=
  match fuel with
  | O => []
  | S f => if z <? 16 then [hex_digit z] else fmt_hex_go f (z / 16) ++ [hex_digit (z mod 16)]
  end.
Definition fmt_segments (l : list Z) : str := join [58] (map (fmt_hex_go 4) l).

Fixpoint zero_run (l : list Z) : nat :=
  match l with 0 :: l' => S (zero_run l') | _ => O end.

(** Start and length of the first longest run of zeros. *)
Fixpoint longest_zeros (i : nat) (l : list Z) : nat * nat :=
  match l with
  | [] => (i, 0%nat)
  | _ :: l' =>
      let n := zero_run l in
      let '(j, m) := longest_zeros (S i) l' in
      if (m <=? n)%nat then (i, n) else (j, m)
  end.

Definition fmt_ipv6 (a : Z) : str :=
  if Z.shiftr a 32 =? 65535 then lit "::ffff:" ++ fmt_ipv4 (Z.land a (2 ^ 32 - 1)) else
  let segs := v6_segments a in
  let '(i, n) := longest_zeros 0 segs in
  if (1 <? n)%nat
  then fmt_segments (take i segs) ++ lit "::" ++ fmt_segments (drop (i + n) segs)
  else fmt_segments segs.

(** ** Networks of the crate [ipnet] *)
Class IpNet (w : Z) (N : Type) := {
  prefix_len : N -> Z;
  network : N -> Z;
  broadcast : N -> Z;
  net_contains : N -> Z -> bool;
  (** [hosts().count()] *)
  hosts_count : N -> nat;
  net_display : N -> str;
}.

Class IpNetLaws (w : Z) (N : Type) `{IpNet w N} : Prop := {
  prefix_len_range n : 0 <= prefix_len n <= w;
  network_range n : uint w (network n);
  network_aligned n : (2 ^ (w - prefix_len n) | network n);
  broadcast_eq n : broadcast n = network n + 2 ^ (w - prefix_len n) - 1;
  contains_iff n a : net_contains n a = true <-> network n <= a <= broadcast n;
  (** The network and the broadcast address of an IPv4 network are not hosts
      below /31. *)
  hosts_count_eq n :
    w = 32 -> prefix_len n <= w - 2 -> Z.of_nat (hosts_count n) = 2 ^ (w - prefix_len n) - 2;
}.

(** ** Addresses and routes *)
Record VpnAddress := mkVpnAddress { va_ipv4 : option Z; va_ipv6 : option Z }.
#[export] Instance VpnAddress_eq_dec : EqDecision VpnAddress.
Proof. solve_decision. Defined.

Inductive IpAddr := V4 (a : Z) | V6 (a : Z).

Definition VpnAddress_v4 (addr : Z) : VpnAddress := mkVpnAddress (Some addr) None.
Definition VpnAddress_v6 (addr : Z) : VpnAddress := mkVpnAddress None (Some addr).
Definition VpnAddress_dual (ipv4 ipv6 : Z) : VpnAddress := mkVpnAddress (Some ipv4) (Some ipv6).
Definition VpnAddress_primary (a : VpnAddress) : option IpAddr :=
  match va_ipv4 a with
  | Some v4 => Some (V4 v4)
  | None => V6 <$> va_ipv6 a
  end.

Section Pool.
Context {N4 N6 : Type} `{Net4 : !IpNet 32 N4} `{Net6 : !IpNet 128 N6}.

Inductive AnyNet := NetV4 (n : N4) | NetV6 (n : N6).

Record Route := mkRoute { rt_network : AnyNet; rt_gateway : option IpAddr; rt_metric : Z }.

Definition Route_validate_network (n : AnyNet) : res CoreError unit :=
  match n with
  | NetV4 v4_net =>
      if 32 <? prefix_len v4_net then Err (ConfigError (lit "Invalid IPv4 network prefix length"))
      else Ok tt
  | NetV6 v6_net =>
      if 128 <? prefix_len v6_net then Err (ConfigError (lit "Invalid IPv6 network prefix length"))
      else Ok tt
  end.

Definition Route_new (n : AnyNet) : res CoreError Route :=
  _ ← Route_validate_network n;
  Ok (mkRoute n None 0).
Definition Route_with_gateway (r : Route) (g : IpAddr) : Route :=
  mkRoute (rt_network r) (Some g) (rt_metric r).
Definition Route_with_metric (r : Route) (m : Z) : Route :=
  mkRoute (rt_network r) (rt_gateway r) m.

(** ** The pool *)
Record AddressPool := mkPool {
  ap_ipv4_net : option N4;
  ap_ipv6_net : option N6;
  ap_allocated_v4 : gset Z;
  ap_allocated_v6 : gset Z;
  ap_reserved_v4 : gset Z;
  ap_reserved_v6 : gset Z;
}.

Definition set_allocated_v4 (s : gset Z) (p : AddressPool) : AddressPool :=
  mkPool (ap_ipv4_net p) (ap_ipv6_net p) s (ap_allocated_v6 p) (ap_reserved_v4 p) (ap_reserved_v6 p).
Definition set_allocated_v6 (s : gset Z) (p : AddressPool) : AddressPool :=
  mkPool (ap_ipv4_net p) (ap_ipv6_net p) (ap_allocated_v4 p) s (ap_reserved_v4 p) (ap_reserved_v6 p).

(** The gateway address, [network + 1] on the integer type. *)
Definition gateway_addr (w : Z) {N} `{!IpNet w N} (n : N) : Z := wrap w (network n + 1).

Definition AddressPool_new_unchecked (ipv4_net : option N4) (ipv6_net : option N6) : AddressPool :=
  mkPool ipv4_net ipv6_net ∅ ∅
    match ipv4_net with
    | Some net => {[ gateway_addr 32 net ]} ∪ ({[ broadcast net ]} ∪ {[ network net ]})
    | None => ∅
    end
    match ipv6_net with
    | Some net => {[ gateway_addr 128 net ]}
    | None => ∅
    end.

Definition AddressPool_validate_ipv4_net (net : N4) : res CoreError unit :=
  if prefix_len net <? 8 then
    Err (ConfigError (lit "IPv4 network prefix length " ++ fmt_dec (prefix_len net) ++
                      lit " is too small (minimum 8)")) else
  if 30 <? prefix_len net then
    Err (ConfigError (lit "IPv4 network prefix length " ++ fmt_dec (prefix_len net) ++
                      lit " is too large (maximum 30)")) else
  let network_addr := network net in
  if v4_is_loopback network_addr || v4_is_unspecified network_addr then
    Err (ConfigError (lit "IPv4 network cannot be a loopback or unspecified address")) else
  if v4_is_multicast network_addr then
    Err (ConfigError (lit "IPv4 network cannot be a multicast address")) else
  if (v4_octet network_addr 0 =? 169) && (v4_octet network_addr 1 =? 254) then
    Err (ConfigError (lit "IPv4 network cannot be in the link-local range (169.254.0.0/16)")) else
  Ok tt.

Definition AddressPool_validate_ipv6_net (net : N6) : res CoreError unit :=
  if prefix_len net <? 48 then
    Err (ConfigError (lit "IPv6 network prefix length " ++ fmt_dec (prefix_len net) ++
                      lit " is too small (minimum 48)")) else
  if 120 <? prefix_len net then
    Err (ConfigError (lit "IPv6 network prefix length " ++ fmt_dec (prefix_len net) ++
                      lit " is too large (maximum 120)")) else
  let network_addr := network net in
  if v6_is_loopback network_addr || v6_is_unspecified network_addr then
    Err (ConfigError (lit "IPv6 network cannot be a loopback or unspecified address")) else
  if v6_is_multicast network_addr then
    Err (ConfigError (lit "IPv6 network cannot be a multicast address")) else
  if Z.land (v6_segment network_addr 0) 65472 =? 65152 then
    Err (ConfigError (lit "IPv6 network cannot be in the link-local range (fe80::/10)")) else
  Ok tt.

Definition AddressPool_new (ipv4_net : option N4) (ipv6_net : option N6) :
    res CoreError AddressPool :=
  _ ← match ipv4_net with Some net => AddressPool_validate_ipv4_net net | None => Ok tt end;
  _ ← match ipv6_net with Some net => AddressPool_validate_ipv6_net net | None => Ok tt end;
  if negb (is_some ipv4_net) && negb (is_some ipv6_net) then
    Err (ConfigError (lit "At least one network (IPv4 or IPv6) must be provided"))
  else Ok (AddressPool_new_unchecked ipv4_net ipv6_net).

Definition AddressPool_gateway_v4 (p : AddressPool) : option Z :=
  gateway_addr 32 <$> ap_ipv4_net p.
Definition AddressPool_gateway_v6 (p : AddressPool) : option Z :=
  gateway_addr 128 <$> ap_ipv6_net p.

(** The search loop: the first of the [n] addresses from [a] on that is
    neither reserved nor allocated. *)
Fixpoint find_free (reserved allocated : gset Z) (a : Z) (n : nat) : option Z :=
  match n with
  | O => None
  | S n' =>
      if decide (a ∉ reserved) then
        if decide (a ∉ allocated) then Some a else find_free reserved allocated (a + 1) n'
      else find_free reserved allocated (a + 1) n'
  end.

Definition AddressPool_allocate_v4 (net : N4) : M AddressPool CoreError Z := fun p =>
  let start := wrap 32 (network net + 2) in
  let end_ := broadcast net in
  match find_free (ap_reserved_v4 p) (ap_allocated_v4 p) start (Z.to_nat (end_ - start)) with
  | Some addr => (set_allocated_v4 ({[ addr ]} ∪ ap_allocated_v4 p) p, Ok addr)
  | None => (p, Err AddressPoolExhausted)
  end.

Definition AddressPool_allocate_v6 (net : N6) : M AddressPool CoreError Z := fun p =>
  let start := wrap 128 (network net + 2) in
  let end_ := wrap 128 (start + 65534) in
  match find_free (ap_reserved_v6 p) (ap_allocated_v6 p) start (Z.to_nat (end_ - start)) with
  | Some addr => (set_allocated_v6 ({[ addr ]} ∪ ap_allocated_v6 p) p, Ok addr)
  | None => (p, Err AddressPoolExhausted)
  end.

Definition AddressPool_allocate : M AddressPool CoreError VpnAddress :=
  p ← get;
  ipv4 ← match ap_ipv4_net p with
         | Some net => a ← AddressPool_allocate_v4 net; mret (Some a)
         | None => mret None
         end;
  ipv6 ← match ap_ipv6_net p with
         | Some net => a ← AddressPool_allocate_v6 net; mret (Some a)
         | None => mret None
         end;
  if negb (is_some ipv4) && negb (is_some ipv6)
  then fail (ConfigError (lit "No address pools configured"))
  else mret (mkVpnAddress ipv4 ipv6).

(** The two critical sections of [allocate_specific]. *)
Definition allocate_specific_v4 (v4 : Z) : M AddressPool CoreError unit := fun p =>
  let taken :=
    if bool_decide (v4 ∈ ap_reserved_v4 p) || bool_decide (v4 ∈ ap_allocated_v4 p)
    then (p, Err (InvalidAddress (fmt_ipv4 v4 ++ lit " is reserved or already allocated")))
    else (set_allocated_v4 ({[ v4 ]} ∪ ap_allocated_v4 p) p, Ok tt) in
  match ap_ipv4_net p with
  | Some net =>
      if negb (net_contains net v4)
      then (p, Err (InvalidAddress (fmt_ipv4 v4 ++ lit " not in pool " ++ net_display net)))
      else taken
  | None => taken
  end.

Definition allocate_specific_v6 (v6 : Z) : M AddressPool CoreError unit := fun p =>
  let taken :=
    if bool_decide (v6 ∈ ap_reserved_v6 p) || bool_decide (v6 ∈ ap_allocated_v6 p)
    then (p, Err (InvalidAddress (fmt_ipv6 v6 ++ lit " is reserved or already allocated")))
    else (set_allocated_v6 ({[ v6 ]} ∪ ap_allocated_v6 p) p, Ok tt) in
  match ap_ipv6_net p with
  | Some net =>
      if negb (net_contains net v6)
      then (p, Err (InvalidAddress (fmt_ipv6 v6 ++ lit " not in pool " ++ net_display net)))
      else taken
  | None => taken
  end.

Definition AddressPool_allocate_specific (addr : VpnAddress) : M AddressPool CoreError VpnAddress :=
  _ ← match va_ipv4 addr with Some v4 => allocate_specific_v4 v4 | None => mret tt end;
  _ ← match va_ipv6 addr with Some v6 => allocate_specific_v6 v6 | None => mret tt end;
  mret addr.

Definition release_v4 (v4 : Z) (p : AddressPool) : AddressPool :=
  set_allocated_v4 (ap_allocated_v4 p ∖ {[ v4 ]}) p.
Definition release_v6 (v6 : Z) (p : AddressPool) : AddressPool :=
  set_allocated_v6 (ap_allocated_v6 p ∖ {[ v6 ]}) p.

Definition AddressPool_release (addr : VpnAddress) (p : AddressPool) : AddressPool :=
  let p := match va_ipv4 addr with Some v4 => release_v4 v4 p | None => p end in
  match va_ipv6 addr with Some v6 => release_v6 v6 p | None => p end.

(** [saturating_sub] on [usize] is the subtraction of [nat]. *)
Definition AddressPool_available_v4 (p : AddressPool) : nat :=
  match ap_ipv4_net p with
  | Some net => hosts_count net - size (ap_reserved_v4 p) - size (ap_allocated_v4 p)
  | None => 0
  end.

Definition AddressPool_available_v6 (p : AddressPool) : nat :=
  match ap_ipv6_net p with
  | Some _ => Z.to_nat 65534 - size (ap_allocated_v6 p)
  | None => 0
  end.

Record PoolStats := mkPoolStats {
  ps_ipv4_total : nat; ps_ipv4_allocated : nat; ps_ipv4_available : nat;
  ps_ipv6_allocated : nat; ps_ipv6_available : nat;
}.

Definition AddressPool_stats (p : AddressPool) : PoolStats :=
  mkPoolStats (default 0%nat (hosts_count <$> ap_ipv4_net p)) (size (ap_allocated_v4 p))
    (AddressPool_available_v4 p) (size (ap_allocated_v6 p)) (AddressPool_available_v6 p).
End Pool.

(** * Runs of a pool *)

(** What a critical section does to the ledger of leases. *)
Inductive PoolEvent :=
| Leased4 (a : Z) | Leased6 (a : Z)
| Released4 (a : Z) | Released6 (a : Z)
| Refused.
#[export] Instance PoolEvent_eq_dec : EqDecision PoolEvent.
Proof. solve_decision. Defined.

Section Runs.
Context {N4 N6 : Type} `{Net4 : !IpNet 32 N4} `{Net6 : !IpNet 128 N6}.
Abbreviation Pool := (@AddressPool N4 N6).
Implicit Types p q : Pool.

(** One critical section of some caller. *)
Inductive pool_step : Pool -> PoolEvent -> Pool -> Prop :=
| step_allocate_v4 p net q a :
    ap_ipv4_net p = Some net -> AddressPool_allocate_v4 net p = (q, Ok a) ->
    pool_step p (Leased4 a) q
| step_allocate_v6 p net q a :
    ap_ipv6_net p = Some net -> AddressPool_allocate_v6 net p = (q, Ok a) ->
    pool_step p (Leased6 a) q
| step_specific_v4 p q a :
    allocate_specific_v4 a p = (q, Ok tt) -> pool_step p (Leased4 a) q
| step_specific_v6 p q a :
    allocate_specific_v6 a p = (q, Ok tt) -> pool_step p (Leased6 a) q
| step_release_v4 p a : pool_step p (Released4 a) (release_v4 a p)
| step_release_v6 p a : pool_step p (Released6 a) (release_v6 a p)
| step_refused p : pool_step p Refused p.

Inductive pool_run : Pool -> list PoolEvent -> Pool -> Prop :=
| run_nil p : pool_run p [] p
| run_cons p e q es r : pool_step p e q -> pool_run q es r -> pool_run p (e :: es) r.

Lemma pool_run_one p e q : pool_step p e q -> pool_run p [e] q.
Proof. intros. eapply run_cons; [done|constructor]. Qed.

Lemma pool_run_app p es q fs r : pool_run p es q -> pool_run q fs r -> pool_run p (es ++ fs) r.
Proof. intros H. revert fs r. induction H; intros; [done|]. eapply run_cons; eauto. Qed.

Lemma pool_run_split p es fs r :
  pool_run p (es ++ fs) r -> exists q, pool_run p es q /\ pool_run q fs r.
Proof.
  revert p. induction es as [|e es IH]; intros p H; [eexists; split; [constructor|done]|].
  inv H. destruct (IH _ ltac:(eassumption)) as (q' & ? & ?). exists q'. split; [|done].
  by eapply run_cons.
Qed.

(** ** The search *)
Lemma find_free_Some res al a n b :
  find_free res al a n = Some b ->
  a <= b < a + Z.of_nat n /\ (b ∉ res) /\ (b ∉ al) /\ (forall c, a <= c < b -> c ∈ res ∪ al).
Proof.
  revert a. induction n as [|n IH]; intros a H; [done|]. cbn [find_free] in H.
  assert (forall c, (a ∈ res ∪ al) -> (forall d, a + 1 <= d < b -> d ∈ res ∪ al) ->
            a <= c < b -> c ∈ res ∪ al) as Hstep.
  { intros c Ha Hd Hc. destruct (decide (c = a)) as [->|]; [done|apply Hd; lia]. }
  destruct (decide (a ∉ res)) as [Hr|Hr]; [destruct (decide (a ∉ al)) as [Ha|Ha]|].
  - simplify_eq. split_and!; try done; lia.
  - apply dec_stable in Ha. apply IH in H as (? & ? & ? & Hc). split_and!; try done; [lia|lia|].
    intros c. apply Hstep; [by apply elem_of_union_r|done].
  - apply dec_stable in Hr. apply IH in H as (? & ? & ? & Hc). split_and!; try done; [lia|lia|].
    intros c. apply Hstep; [by apply elem_of_union_l|done].
Qed.

Lemma find_free_None res al a n :
  find_free res al a n = None -> forall c, a <= c < a + Z.of_nat n -> c ∈ res ∪ al.
Proof.
  revert a. induction n as [|n IH]; intros a H c Hc; [lia|]. cbn [find_free] in H.
  destruct (decide (a ∉ res)) as [Hr|Hr]; [destruct (decide (a ∉ al)) as [Ha|Ha]; [done|]|];
    (destruct (decide (c = a)) as [->|]; [|apply (IH (a + 1)); [done|lia]]).
  - by apply elem_of_union_r, dec_stable.
  - by apply elem_of_union_l, dec_stable.
Qed.

(** ** The methods are runs of their critical sections *)
Ltac split_pair := let H := fresh in cbv beta iota; intros H; apply pair_equal_spec in H as [<- <-].

Lemma allocate_v4_inv net p q r :
  AddressPool_allocate_v4 net p = (q, r) ->
  (q = p /\ r = Err AddressPoolExhausted) \/ exists a, r = Ok a.
Proof.
  unfold AddressPool_allocate_v4. cbv zeta.
  destruct (find_free _ _ _ _); split_pair; eauto.
Qed.

Lemma allocate_v6_inv net p q r :
  AddressPool_allocate_v6 net p = (q, r) ->
  (q = p /\ r = Err AddressPoolExhausted) \/ exists a, r = Ok a.
Proof.
  unfold AddressPool_allocate_v6. cbv zeta.
  destruct (find_free _ _ _ _); split_pair; eauto.
Qed.

Lemma specific_v4_inv a p q r :
  allocate_specific_v4 a p = (q, r) -> (q = p /\ exists e, r = Err e) \/ r = Ok tt.
Proof.
  unfold allocate_specific_v4. cbv zeta.
  destruct (ap_ipv4_net p) as [net|]; [destruct (negb _)|];
    try destruct (_ || _); split_pair; eauto.
Qed.

Lemma specific_v6_inv a p q r :
  allocate_specific_v6 a p = (q, r) -> (q = p /\ exists e, r = Err e) \/ r = Ok tt.
Proof.
  unfold allocate_specific_v6. cbv zeta.
  destruct (ap_ipv6_net p) as [net|]; [destruct (negb _)|];
    try destruct (_ || _); split_pair; eauto.
Qed.

(** The two halves of [allocate]. *)
Lemma allocate_half_v4 p q r :
  match ap_ipv4_net p with
  | Some net => a ← AddressPool_allocate_v4 net; mret (Some a)
  | None => mret None
  end p = (q, r) -> exists es, pool_run p es q.
Proof.
  destruct (ap_ipv4_net p) as [net|] eqn:Hn; unfold mbind, M_bind, mret, M_ret.
  - destruct (AddressPool_allocate_v4 net p) as [p' r'] eqn:Ha.
    destruct (allocate_v4_inv _ _ _ _ Ha) as [[-> ->]|[a ->]]; split_pair.
    + exists []. constructor.
    + exists [Leased4 a]. eapply pool_run_one, step_allocate_v4; eauto.
  - split_pair. exists []. constructor.
Qed.

Lemma allocate_half_v6 p q o r :
  match o with
  | Some net => a ← AddressPool_allocate_v6 net; mret (Some a)
  | None => mret None
  end p = (q, r) -> ap_ipv6_net p = o -> exists es, pool_run p es q.
Proof.
  intros H Hn. revert H. destruct o as [net|]; unfold mbind, M_bind, mret, M_ret.
  - destruct (AddressPool_allocate_v6 net p) as [p' r'] eqn:Ha.
    destruct (allocate_v6_inv _ _ _ _ Ha) as [[-> ->]|[a ->]]; split_pair.
    + exists []. constructor.
    + exists [Leased6 a]. eapply pool_run_one, step_allocate_v6; eauto.
  - split_pair. exists []. constructor.
Qed.

(** ** Effect of a successful lease *)
Lemma allocate_v4_ok net p q a :
  AddressPool_allocate_v4 net p = (q, Ok a) ->
  find_free (ap_reserved_v4 p) (ap_allocated_v4 p) (wrap 32 (network net + 2))
    (Z.to_nat (broadcast net - wrap 32 (network net + 2))) = Some a /\
  q = set_allocated_v4 ({[ a ]} ∪ ap_allocated_v4 p) p.
Proof.
  unfold AddressPool_allocate_v4. cbv zeta.
  destruct (find_free _ _ _ _); intros H; apply pair_equal_spec in H as [<- H]; by inv H.
Qed.

Lemma allocate_v6_ok net p q a :
  AddressPool_allocate_v6 net p = (q, Ok a) ->
  find_free (ap_reserved_v6 p) (ap_allocated_v6 p) (wrap 128 (network net + 2))
    (Z.to_nat (wrap 128 (wrap 128 (network net + 2) + 65534) - wrap 128 (network net + 2))) = Some a /\
  q = set_allocated_v6 ({[ a ]} ∪ ap_allocated_v6 p) p.
Proof.
  unfold AddressPool_allocate_v6. cbv zeta.
  destruct (find_free _ _ _ _); intros H; apply pair_equal_spec in H as [<- H]; by inv H.
Qed.

Lemma specific_v4_ok a p q :
  allocate_specific_v4 a p = (q, Ok tt) ->
  (a ∉ ap_reserved_v4 p) /\ (a ∉ ap_allocated_v4 p) /\
  (forall net, ap_ipv4_net p = Some net -> net_contains net a = true) /\
  q = set_allocated_v4 ({[ a ]} ∪ ap_allocated_v4 p) p.
Proof.
  unfold allocate_specific_v4. cbv zeta. intros H.
  destruct (bool_decide (a ∈ ap_reserved_v4 p)) eqn:Hr, (bool_decide (a ∈ ap_allocated_v4 p)) eqn:Ha;
    destruct (ap_ipv4_net p) as [net|]; try destruct (net_contains net a) eqn:Hc; cbn [orb negb] in H;
    apply pair_equal_spec in H as [<- H]; try discriminate H;
    apply bool_decide_eq_false in Hr, Ha; split_and!; try done; by intros ? [= <-].
Qed.

Lemma specific_v6_ok a p q :
  allocate_specific_v6 a p = (q, Ok tt) ->
  (a ∉ ap_reserved_v6 p) /\ (a ∉ ap_allocated_v6 p) /\
  (forall net, ap_ipv6_net p = Some net -> net_contains net a = true) /\
  q = set_allocated_v6 ({[ a ]} ∪ ap_allocated_v6 p) p.
Proof.
  unfold allocate_specific_v6. cbv zeta. intros H.
  destruct (bool_decide (a ∈ ap_reserved_v6 p)) eqn:Hr, (bool_decide (a ∈ ap_allocated_v6 p)) eqn:Ha;
    destruct (ap_ipv6_net p) as [net|]; try destruct (net_contains net a) eqn:Hc; cbn [orb negb] in H;
    apply pair_equal_spec in H as [<- H]; try discriminate H;
    apply bool_decide_eq_false in Hr, Ha; split_and!; try done; by intros ? [= <-].
Qed.

(** Every lease is new to the ledger of its family, which grows by it; a
    release removes the address; nothing else changes. *)
Definition ledger_step (p : Pool) (e : PoolEvent) (q : Pool) : Prop :=
  match e with
  | Leased4 a => (a ∉ ap_allocated_v4 p) /\ q = set_allocated_v4 ({[ a ]} ∪ ap_allocated_v4 p) p
  | Leased6 a => (a ∉ ap_allocated_v6 p) /\ q = set_allocated_v6 ({[ a ]} ∪ ap_allocated_v6 p) p
  | Released4 a => q = release_v4 a p
  | Released6 a => q = release_v6 a p
  | Refused => q = p
  end.

Lemma pool_step_ledger p e q : pool_step p e q -> ledger_step p e q.
Proof.
  destruct 1 as [p net q a _ Ha|p net q a _ Ha|p q a Ha|p q a Ha| | |]; try done; simpl.
  - apply allocate_v4_ok in Ha as [(_ & _ & ? & _)%find_free_Some ?]. done.
  - apply allocate_v6_ok in Ha as [(_ & _ & ? & _)%find_free_Some ?]. done.
  - apply specific_v4_ok in Ha as (_ & ? & _ & ?). done.
  - apply specific_v6_ok in Ha as (_ & ? & _ & ?). done.
Qed.

Lemma pool_step_nets p e q :
  pool_step p e q -> ap_ipv4_net q = ap_ipv4_net p /\ ap_ipv6_net q = ap_ipv6_net p /\
    ap_reserved_v4 q = ap_reserved_v4 p /\ ap_reserved_v6 q = ap_reserved_v6 p.
Proof.
  intros H%pool_step_ledger. destruct e; simpl in H; [destruct H as [_ ->]..| | |]; try (subst q; done); done.
Qed.

Lemma pool_run_nets p es q :
  pool_run p es q -> ap_ipv4_net q = ap_ipv4_net p /\ ap_ipv6_net q = ap_ipv6_net p /\
    ap_reserved_v4 q = ap_reserved_v4 p /\ ap_reserved_v6 q = ap_reserved_v6 p.
Proof.
  induction 1 as [|p e q es r Hs H IH]; [done|].
  destruct IH as (-> & -> & -> & ->). by eapply pool_step_nets.
Qed.

(** [allocate], [allocate_specific] and [release] are runs, also when they
    fail. *)
Lemma allocate_is_run p q r : AddressPool_allocate p = (q, r) -> exists es, pool_run p es q.
Proof.
  unfold AddressPool_allocate. unfold mbind at 1, M_bind at 1, get at 1. cbv beta iota.
  unfold mbind at 1, M_bind at 1. cbv beta.
  destruct (_ p) as [p1 r1] eqn:H1. destruct (allocate_half_v4 _ _ _ H1) as [es Hes].
  destruct r1 as [o4|e|]; [|split_pair; eauto..].
  unfold mbind at 1, M_bind at 1. cbv beta. destruct (_ p1) as [p2 r2] eqn:H2.
  destruct (allocate_half_v6 _ _ _ _ H2) as [fs Hfs]; [by apply (pool_run_nets _ _ _ Hes)|].
  pose proof (pool_run_app _ _ _ _ _ Hes Hfs).
  destruct r2 as [o6|e|]; [|split_pair; eauto..].
  destruct (_ && _); unfold fail, mret, M_ret; split_pair; eauto.
Qed.

Lemma specific_v4_is_run a p q r : allocate_specific_v4 a p = (q, r) -> exists es, pool_run p es q.
Proof.
  intros H. destruct (specific_v4_inv _ _ _ _ H) as [[-> _]| ->]; [exists []; constructor|].
  eexists. by eapply pool_run_one, step_specific_v4.
Qed.

Lemma specific_v6_is_run a p q r : allocate_specific_v6 a p = (q, r) -> exists es, pool_run p es q.
Proof.
  intros H. destruct (specific_v6_inv _ _ _ _ H) as [[-> _]| ->]; [exists []; constructor|].
  eexists. by eapply pool_run_one, step_specific_v6.
Qed.

Lemma allocate_specific_is_run a p q r :
  AddressPool_allocate_specific a p = (q, r) -> exists es, pool_run p es q.
Proof.
  unfold AddressPool_allocate_specific, mbind, M_bind. cbv beta.
  destruct (_ p) as [p1 r1] eqn:H1.
  assert (exists es, pool_run p es p1) as [es Hes].
  { destruct (va_ipv4 a); [by eapply specific_v4_is_run|]. revert H1.
    unfold mret, M_ret. split_pair. exists []. constructor. }
  destruct r1 as [[]|e|]; [|split_pair; eauto..].
  destruct (_ p1) as [p2 r2] eqn:H2.
  assert (exists fs, pool_run p1 fs p2) as [fs Hfs].
  { destruct (va_ipv6 a); [by eapply specific_v6_is_run|]. revert H2.
    unfold mret, M_ret. split_pair. exists []. constructor. }
  pose proof (pool_run_app _ _ _ _ _ Hes Hfs).
  destruct r2 as [[]|e|]; unfold mret, M_ret; split_pair; eauto.
Qed.

Lemma release_is_run a p : exists es, pool_run p es (AddressPool_release a p).
Proof.
  unfold AddressPool_release. destruct (va_ipv4 a) as [x|], (va_ipv6 a) as [y|].
  - exists [Released4 x; Released6 y]. repeat econstructor.
  - exists [Released4 x]. repeat econstructor.
  - exists [Released6 y]. repeat econstructor.
  - exists []. constructor.
Qed.

(** ** No address is leased twice *)
Lemma held_until_released4 p es q a :
  pool_run p es q -> a ∈ ap_allocated_v4 p -> Released4 a ∉ es -> a ∈ ap_allocated_v4 q.
Proof.
  induction 1 as [|p e q es r Hs H IH]; intros Ha Hr; [done|].
  apply not_elem_of_cons in Hr as [Hne Hr]. apply IH; [|done]. apply pool_step_ledger in Hs.
  destruct e as [b|b|b|b|]; simpl in Hs; [destruct Hs as [_ ->]..|subst q|subst q|subst q];
    simpl; try done; [by apply elem_of_union_r|].
  apply elem_of_difference. split; [done|]. rewrite elem_of_singleton. congruence.
Qed.

Lemma held_until_released6 p es q a :
  pool_run p es q -> a ∈ ap_allocated_v6 p -> Released6 a ∉ es -> a ∈ ap_allocated_v6 q.
Proof.
  induction 1 as [|p e q es r Hs H IH]; intros Ha Hr; [done|].
  apply not_elem_of_cons in Hr as [Hne Hr]. apply IH; [|done]. apply pool_step_ledger in Hs.
  destruct e as [b|b|b|b|]; simpl in Hs; [destruct Hs as [_ ->]..|subst q|subst q|subst q];
    simpl; try done; [by apply elem_of_union_r|].
  apply elem_of_difference. split; [done|]. rewrite elem_of_singleton. congruence.
Qed.

(** Whatever the callers do and however their critical sections
    interleave, an address that is leased a second time was released in
    between: no two clients hold one address. *)
Lemma lease_is_exclusive p q a es fs gs :
  (pool_run p (es ++ Leased4 a :: fs ++ Leased4 a :: gs) q -> Released4 a ∈ fs) /\
  (pool_run p (es ++ Leased6 a :: fs ++ Leased6 a :: gs) q -> Released6 a ∈ fs).
Proof.
  split; intros (p1 & _ & H)%pool_run_split; inv H;
    match goal with H : pool_step _ _ _ |- _ => apply pool_step_ledger in H as [_ ->] end;
    match goal with H : pool_run _ (_ ++ _) _ |- _ =>
      apply pool_run_split in H as (p2 & Hfs & H); inv H end;
    match goal with H : pool_step _ _ _ |- _ => apply pool_step_ledger in H as [Hn _] end;
    apply dec_stable; intros Hr; apply Hn.
  - eapply held_until_released4; [exact Hfs| |done]. simpl. set_solver.
  - eapply held_until_released6; [exact Hfs| |done]. simpl. set_solver.
Qed.
End Runs.

(** * Leases lie in the network *)

(** A network is aligned, so its last address fits the type. *)
Lemma aligned_end w e n : 0 <= e <= w -> uint w n -> (2 ^ e | n) -> n + 2 ^ e <= 2 ^ w.
Proof.
  intros He Hn [k ->]. unfold uint in Hn.
  assert (2 ^ w = 2 ^ (w - e) * 2 ^ e) as E by (rewrite <- Z.pow_add_r by lia; f_equal; lia).
  assert (0 < 2 ^ e) by (apply Z.pow_pos_nonneg; lia). rewrite E in *.
  assert (k < 2 ^ (w - e)) by (apply (Z.mul_lt_mono_pos_r (2 ^ e)); lia). nia.
Qed.

Section Valid.
Context {N4 N6 : Type} `{Net4 : !IpNet 32 N4} `{Net6 : !IpNet 128 N6}.
Context `{Laws4 : !IpNetLaws 32 N4} `{Laws6 : !IpNetLaws 128 N6}.
Abbreviation Pool := (@AddressPool N4 N6).
Implicit Types p q : Pool.

(** Number of addresses a network has. *)
Definition net_size (w : Z) {N} `{!IpNet w N} (n : N) : Z := 2 ^ (w - prefix_len n).

Lemma v4_net_bounds (net : N4) :
  AddressPool_validate_ipv4_net net = Ok tt ->
  4 <= net_size 32 net <= 2 ^ 24 /\ 0 <= network net /\ network net + net_size 32 net <= 2 ^ 32.
Proof.
  unfold AddressPool_validate_ipv4_net. intros H.
  destruct (prefix_len net <? 8) eqn:H8; [done|]. destruct (30 <? prefix_len net) eqn:H30; [done|].
  clear H. bools. pose proof (network_range net) as Hn. unfold uint in Hn. unfold net_size.
  change 4 with (2 ^ 2). split_and!; [apply Z.pow_le_mono_r; lia..|lia|].
  apply aligned_end; [lia|done|apply network_aligned].
Qed.

Lemma v6_net_bounds (net : N6) :
  AddressPool_validate_ipv6_net net = Ok tt ->
  256 <= net_size 128 net <= 2 ^ 80 /\ 0 <= network net /\
  network net + net_size 128 net <= 2 ^ 128 /\ network net + 65536 < 2 ^ 128.
Proof.
  unfold AddressPool_validate_ipv6_net. intros H.
  destruct (prefix_len net <? 48) eqn:H8; [done|]. destruct (120 <? prefix_len net) eqn:H30; [done|].
  cbv zeta in H. destruct (_ || _); [done|].
  destruct (v6_is_multicast (network net)) eqn:Hm; [done|]. clear H. bools.
  pose proof (network_range net) as Hn. unfold uint in Hn. unfold net_size.
  change 256 with (2 ^ 8). split_and!; [apply Z.pow_le_mono_r; lia..|lia| |].
  - apply aligned_end; [lia|done|apply network_aligned].
  - unfold v6_is_multicast in Hm. bools. rewrite Z.shiftr_div_pow2 in Hm by lia.
    assert (network net / 2 ^ 120 < 256) by (apply Z.div_lt_upper_bound; lia).
    assert (0 <= network net / 2 ^ 120) by (apply Z.div_pos; lia).
    pose proof (Z.div_mod (network net) (2 ^ 120) ltac:(lia)).
    pose proof (Z.mod_pos_bound (network net) (2 ^ 120) ltac:(lia)). lia.
Qed.

(** Host addresses: above the gateway and below the broadcast address (for
    IPv6, inside the range that is searched). *)
Definition valid_v4 (net : N4) (a : Z) : Prop := network net + 1 < a < broadcast net.
Definition valid_v6 (net : N6) (a : Z) : Prop :=
  a <> gateway_addr 128 net /\
  (net_contains net a = true \/ network net + 2 <= a < network net + 65536).

Definition pool_wf p : Prop :=
  (forall net, ap_ipv4_net p = Some net ->
     AddressPool_validate_ipv4_net net = Ok tt /\
     ap_reserved_v4 p = {[ gateway_addr 32 net ]} ∪ ({[ broadcast net ]} ∪ {[ network net ]})) /\
  (forall net, ap_ipv6_net p = Some net ->
     AddressPool_validate_ipv6_net net = Ok tt /\ ap_reserved_v6 p = {[ gateway_addr 128 net ]}).

Lemma AddressPool_new_wf n4 n6 p : AddressPool_new n4 n6 = Ok p ->
  pool_wf p /\ p = AddressPool_new_unchecked n4 n6.
Proof.
  unfold AddressPool_new. intros H.
  apply bind_Ok in H as ([] & H4 & H). apply bind_Ok in H as ([] & H6 & H).
  destruct (_ && _); [done|]. apply (f_equal (fun r => match r with Ok x => Some x | _ => None end)) in H.
  apply Some_inj in H as <-. split; [|done]. split; intros net Hn; simpl in Hn; subst; done.
Qed.

Lemma pool_wf_step p e q : pool_wf p -> pool_step p e q -> pool_wf q.
Proof.
  intros [H4 H6] (E4 & E6 & R4 & R6)%pool_step_nets. unfold pool_wf.
  by rewrite E4, E6, R4, R6.
Qed.

(** The bounds of the two searches, without wrap-around. *)
Lemma search_bounds_v4 net : AddressPool_validate_ipv4_net net = Ok tt ->
  wrap 32 (network net + 2) = network net + 2 /\ gateway_addr 32 net = network net + 1 /\
  broadcast net = network net + net_size 32 net - 1.
Proof.
  intros H%v4_net_bounds. unfold gateway_addr. rewrite !wrap_small by (unfold uint; lia).
  split_and!; [done|done|]. apply broadcast_eq.
Qed.

Lemma search_bounds_v6 net : AddressPool_validate_ipv6_net net = Ok tt ->
  wrap 128 (network net + 2) = network net + 2 /\
  wrap 128 (wrap 128 (network net + 2) + 65534) = network net + 65536 /\
  gateway_addr 128 net = network net + 1 /\
  broadcast net = network net + net_size 128 net - 1.
Proof.
  intros H%v6_net_bounds. unfold gateway_addr. rewrite !wrap_small by (rewrite ?wrap_small; unfold uint; lia).
  split_and!; [done|lia|done|]. apply broadcast_eq.
Qed.

Lemma step_valid_v4 p net a q : pool_wf p -> ap_ipv4_net p = Some net ->
  pool_step p (Leased4 a) q -> valid_v4 net a.
Proof.
  intros [Hwf _] Hn Hs. destruct (Hwf net Hn) as [Hv Hr]. unfold valid_v4.
  destruct (search_bounds_v4 net Hv) as (Hw & Hg & Hb). inv Hs.
  - match goal with H : AddressPool_allocate_v4 net p = _ |- _ => apply allocate_v4_ok in H as [Hf _] end.
    rewrite Hw in Hf. apply find_free_Some in Hf as (? & _). lia.
  - match goal with H : allocate_specific_v4 a p = _ |- _ =>
      apply specific_v4_ok in H as (Hres & _ & Hc & _) end.
    apply Hc, contains_iff in Hn. rewrite Hr, Hg in Hres.
    assert (a <> network net) by set_solver. assert (a <> network net + 1) by set_solver.
    assert (a <> broadcast net) by set_solver. lia.
Qed.

Lemma step_valid_v6 p net a q : pool_wf p -> ap_ipv6_net p = Some net ->
  pool_step p (Leased6 a) q ->
  valid_v6 net a /\ (prefix_len net <= 112 -> net_contains net a = true).
Proof.
  intros [_ Hwf] Hn Hs. destruct (Hwf net Hn) as [Hv Hr]. unfold valid_v6.
  destruct (search_bounds_v6 net Hv) as (Hw & He & Hg & Hb).
  destruct (v6_net_bounds net Hv) as (Hsz & _). inv Hs.
  - match goal with H : AddressPool_allocate_v6 net p = _ |- _ => apply allocate_v6_ok in H as [Hf _] end.
    rewrite He, Hw in Hf. apply find_free_Some in Hf as (? & ? & _).
    split_and!; [rewrite Hg; lia|right; lia|]. intros Hp. apply contains_iff.
    assert (2 ^ 16 <= net_size 128 net) by (apply Z.pow_le_mono_r; lia). lia.
  - match goal with H : allocate_specific_v6 a p = _ |- _ =>
      apply specific_v6_ok in H as (Hres & _ & Hc & _) end.
    rewrite Hr in Hres. split_and!; [set_solver|left; by apply Hc|by intros; apply Hc].
Qed.

Lemma run_valid p es q : pool_wf p -> pool_run p es q ->
  (forall net a, ap_ipv4_net p = Some net -> Leased4 a ∈ es -> valid_v4 net a) /\
  (forall net a, ap_ipv6_net p = Some net -> Leased6 a ∈ es ->
     valid_v6 net a /\ (prefix_len net <= 112 -> net_contains net a = true)).
Proof.
  intros Hwf H. induction H as [|p e q es r Hs H IH]; [split; set_solver|].
  destruct (IH (pool_wf_step _ _ _ Hwf Hs)) as [IH4 IH6].
  destruct (pool_step_nets _ _ _ Hs) as (E4 & E6 & _). rewrite E4 in IH4. rewrite E6 in IH6.
  split; intros net a Hn [<-|Hin]%elem_of_cons; eauto.
  - by eapply step_valid_v4.
  - by eapply step_valid_v6.
Qed.

(** From a pool that [new] accepted, every IPv4 address that is leased is
    a host address of the network, never the network, gateway or broadcast
    address.  An IPv6 lease is never the gateway, and it is in the network
    when the prefix is at most 112 bits; for longer prefixes it is within the
    65534 addresses that are searched. *)
Theorem leases_are_host_addresses n4 n6 p es q :
  AddressPool_new n4 n6 = Ok p -> pool_run p es q ->
  (forall net a, n4 = Some net -> Leased4 a ∈ es -> valid_v4 net a) /\
  (forall net a, n6 = Some net -> Leased6 a ∈ es ->
     valid_v6 net a /\ (prefix_len net <= 112 -> net_contains net a = true)).
Proof. intros [Hwf ->]%AddressPool_new_wf Hr. by apply (run_valid _ _ _ Hwf) in Hr. Qed.

(** * Capacity *)

(** [n] calls of [allocate], with their results. *)
Fixpoint allocate_many (n : nat) p : Pool * list (res CoreError VpnAddress) :=
  match n with
  | O => (p, [])
  | S n' =>
      let '(q, r) := AddressPool_allocate p in
      let '(q', rs) := allocate_many n' q in (q', r :: rs)
  end.

(** A pool with only an IPv4 network whose first [k] hosts are leased. *)
Definition filled (net : N4) (k : Z) p : Prop :=
  ap_ipv4_net p = Some net /\ ap_ipv6_net p = None /\
  ap_reserved_v4 p = {[ gateway_addr 32 net ]} ∪ ({[ broadcast net ]} ∪ {[ network net ]}) /\
  (forall a, a ∈ ap_allocated_v4 p <-> network net + 2 <= a < network net + 2 + k).

Lemma allocate_v4_only p net : ap_ipv4_net p = Some net -> ap_ipv6_net p = None ->
  AddressPool_allocate p =
  match AddressPool_allocate_v4 net p with
  | (q, Ok a) => (q, Ok (VpnAddress_v4 a))
  | (q, Err e) => (q, Err e)
  | (q, Panic) => (q, Panic)
  end.
Proof.
  intros H4 H6. unfold AddressPool_allocate, mbind, M_bind, get, mret, M_ret. rewrite H4, H6.
  destruct (AddressPool_allocate_v4 net p) as [q [a|e|]]; done.
Qed.

Lemma filled_next net k p : AddressPool_validate_ipv4_net net = Ok tt ->
  filled net k p -> 0 <= k < net_size 32 net - 3 ->
  exists q, AddressPool_allocate p = (q, Ok (VpnAddress_v4 (network net + 2 + k))) /\
    filled net (k + 1) q.
Proof.
  intros Hv (H4 & H6 & Hr & Ha) Hk. destruct (search_bounds_v4 net Hv) as (Hw & Hg & Hb).
  rewrite (allocate_v4_only p net H4 H6). unfold AddressPool_allocate_v4. cbv zeta. rewrite Hw.
  destruct (find_free _ _ _ _) as [a|] eqn:Hf.
  - apply find_free_Some in Hf as (Hra & Hna & Hal & Hlow).
    assert (a = network net + 2 + k) as ->.
    { rewrite Ha in Hal. destruct (decide (a = network net + 2 + k)); [done|].
      assert (network net + 2 + k ∈ ap_reserved_v4 p ∪ ap_allocated_v4 p) as Hin by (apply Hlow; lia).
      rewrite Hr, Hg in Hin. rewrite !elem_of_union, !elem_of_singleton, Ha in Hin. lia. }
    eexists. split; [done|]. unfold filled. split_and!; [done..|]. intros b. cbn [ap_allocated_v4 set_allocated_v4].
    rewrite elem_of_union, elem_of_singleton, Ha. lia.
  - exfalso. pose proof (find_free_None _ _ _ _ Hf (network net + 2 + k) ltac:(lia)) as Hin.
    rewrite Hr, Hg in Hin. rewrite !elem_of_union, !elem_of_singleton, Ha in Hin. lia.
Qed.

Lemma filled_full net p : AddressPool_validate_ipv4_net net = Ok tt ->
  filled net (net_size 32 net - 3) p -> AddressPool_allocate p = (p, Err AddressPoolExhausted).
Proof.
  intros Hv (H4 & H6 & Hr & Ha). destruct (search_bounds_v4 net Hv) as (Hw & Hg & Hb).
  rewrite (allocate_v4_only p net H4 H6). unfold AddressPool_allocate_v4. cbv zeta. rewrite Hw.
  destruct (find_free _ _ _ _) as [a|] eqn:Hf; [|done].
  apply find_free_Some in Hf as (Hra & _ & Hal & _). rewrite Ha in Hal. lia.
Qed.

Lemma allocate_many_filled net (n : nat) (k : Z) p :
  AddressPool_validate_ipv4_net net = Ok tt -> filled net k p -> 0 <= k ->
  k + Z.of_nat n = net_size 32 net - 3 ->
  snd (allocate_many (S n) p)
  = map (fun i => Ok (VpnAddress_v4 (network net + 2 + k + Z.of_nat i))) (seq 0 n) ++
    [Err AddressPoolExhausted].
Proof.
  intros Hv. revert k p. induction n as [|n IH]; intros k p Hf Hk Hn.
  - cbn [allocate_many]. replace k with (net_size 32 net - 3) in Hf by lia.
    by rewrite (filled_full net p Hv Hf).
  - destruct (filled_next net k p Hv Hf ltac:(lia)) as (q & Hq & Hf').
    remember (S n) as m. cbn [allocate_many]. rewrite Hq.
    pose proof (IH (k + 1) q Hf' ltac:(lia) ltac:(lia)) as IHq.
    destruct (allocate_many m q) as [q' rs]. cbn [snd] in *. rewrite IHq, Heqm.
    cbn [seq map app]. rewrite <- fmap_S_seq. rewrite map_map.
    f_equal; [do 2 f_equal; lia|]. f_equal. apply map_ext. intros i. do 2 f_equal. lia.
Qed.

(** A pool with an IPv4 network of prefix length [l] serves exactly
    [2^(32 - l) - 3] clients: the hosts are handed out in ascending order from
    [network + 2], and the next call reports exhaustion. *)
Theorem pool_capacity net p :
  AddressPool_new (Some net) None = Ok p ->
  let n := Z.to_nat (net_size 32 net - 3) in
  snd (allocate_many (S n) p)
  = map (fun i => Ok (VpnAddress_v4 (network net + 2 + Z.of_nat i))) (seq 0 n) ++
    [Err AddressPoolExhausted].
Proof.
  intros [[Hwf _] ->]%AddressPool_new_wf n. destruct (Hwf net eq_refl) as [Hv _].
  pose proof (v4_net_bounds net Hv) as [? _].
  rewrite (allocate_many_filled net n 0) by (done || (unfold n; lia) || (unfold filled; split_and!; try done; set_solver by lia)).
  f_equal. apply map_ext. intros i. do 2 f_equal. lia.
Qed.

(** * What the pool reports as available *)
Lemma run_allocated_valid p es q net : pool_wf p -> pool_run p es q -> ap_ipv4_net p = Some net ->
  (forall a, a ∈ ap_allocated_v4 p -> valid_v4 net a) ->
  forall a, a ∈ ap_allocated_v4 q -> valid_v4 net a.
Proof.
  intros Hwf H. induction H as [|p e q es r Hs H IH]; intros Hn Hp; [done|].
  pose proof (pool_step_nets _ _ _ Hs) as (E4 & _).
  apply IH; [by eapply pool_wf_step|by rewrite E4|]. intros a Ha.
  pose proof (pool_step_ledger _ _ _ Hs) as Hl.
  destruct e as [b|b|b|b|]; simpl in Hl; [destruct Hl as [_ ->]..|subst q|subst q|subst q]; simpl in Ha; auto.
  - apply elem_of_union in Ha as [->%elem_of_singleton|Ha]; [|auto]. by eapply step_valid_v4.
  - apply elem_of_difference in Ha as [Ha _]. auto.
Qed.

(** The hosts [allocate_v4] can still hand out. *)
Definition free_v4 (net : N4) p : list Z :=
  filter (fun a => a ∉ ap_allocated_v4 p) (seqZ (network net + 2) (net_size 32 net - 3)).

Lemma free_v4_length net p : AddressPool_validate_ipv4_net net = Ok tt ->
  (forall a, a ∈ ap_allocated_v4 p -> valid_v4 net a) ->
  Z.of_nat (length (free_v4 net p)) + Z.of_nat (size (ap_allocated_v4 p)) = net_size 32 net - 3.
Proof.
  intros Hv Ha. destruct (search_bounds_v4 net Hv) as (_ & _ & Hb).
  pose proof (v4_net_bounds net Hv) as [Hs _].
  set (l := seqZ (network net + 2) (net_size 32 net - 3)).
  assert (NoDup (free_v4 net p)) as Hnd by (apply NoDup_filter, NoDup_seqZ).
  assert (list_to_set l = list_to_set (free_v4 net p) ∪ ap_allocated_v4 p) as Hu.
  { apply set_eq. intros x. rewrite elem_of_union, !elem_of_list_to_set. unfold free_v4.
    rewrite list_elem_of_filter. fold l. unfold l. rewrite !elem_of_seqZ.
    destruct (decide (x ∈ ap_allocated_v4 p)) as [Hx|]; [|tauto].
    apply Ha in Hx as Hx'. unfold valid_v4 in Hx'. split; [by right|lia]. }
  apply (f_equal size) in Hu. rewrite size_union in Hu.
  - rewrite !size_list_to_set in Hu by (done || apply NoDup_seqZ).
    unfold l in Hu. rewrite length_seqZ in Hu. lia.
  - intros x Hx Hx'. apply elem_of_list_to_set, list_elem_of_filter in Hx as [Hx _]. done.
Qed.

Lemma reserved_size net : AddressPool_validate_ipv4_net net = Ok tt ->
  size ({[ gateway_addr 32 net ]} ∪ ({[ broadcast net ]} ∪ {[ network net ]}) : gset Z) = 3%nat.
Proof.
  intros Hv. destruct (search_bounds_v4 net Hv) as (_ & Hg & Hb).
  pose proof (v4_net_bounds net Hv) as [Hs _]. rewrite Hg.
  rewrite !size_union, !size_singleton; [done|..].
  - apply disjoint_singleton_l. rewrite elem_of_singleton. lia.
  - apply disjoint_singleton_l. rewrite elem_of_union, !elem_of_singleton. lia.
Qed.

(** In every state a pool reaches, [available_v4] is two less than the
    number of hosts that can still be leased (and zero when two or fewer are
    left): the network and the broadcast address are subtracted a second time,
    as reserved addresses, although [hosts()] does not count them. *)
Theorem available_v4_misses_two net n6 p es q :
  AddressPool_new (Some net) n6 = Ok p -> pool_run p es q ->
  Z.of_nat (AddressPool_available_v4 q) = Z.max 0 (Z.of_nat (length (free_v4 net q)) - 2).
Proof.
  intros [Hwf ->]%AddressPool_new_wf Hr. pose proof (proj1 Hwf net eq_refl) as [Hv _].
  pose proof (run_allocated_valid _ _ _ net Hwf Hr eq_refl ltac:(set_solver)) as Ha.
  pose proof (free_v4_length net q Hv Ha) as Hl. pose proof (v4_net_bounds net Hv) as [Hs _].
  apply pool_run_nets in Hr as (E4 & _ & R4 & _). unfold AddressPool_available_v4.
  rewrite E4, R4. cbn [ap_ipv4_net ap_reserved_v4 AddressPool_new_unchecked].
  rewrite reserved_size by done. pose proof (hosts_count_eq net eq_refl) as Hh.
  assert (prefix_len net <= 32 - 2) as Hp.
  { revert Hv. unfold AddressPool_validate_ipv4_net.
    destruct (prefix_len net <? 8); [done|]. destruct (30 <? prefix_len net) eqn:H30; [done|].
    bools. lia. }
  apply Hh in Hp. unfold net_size in *. lia.
Qed.

(** * Limits of the code *)

(** With a prefix longer than 112 bits the search runs past the network: once
    the network's hosts are leased, the next lease is outside it. *)
Lemma allocate_v6_leaves_network net p :
  pool_wf p -> ap_ipv6_net p = Some net -> 112 < prefix_len net ->
  (forall a, a ∈ ap_allocated_v6 p <-> network net + 2 <= a <= broadcast net) ->
  exists q, AddressPool_allocate_v6 net p = (q, Ok (broadcast net + 1)) /\
    net_contains net (broadcast net + 1) = false.
Proof.
  intros [_ Hwf] Hn Hp Ha. destruct (Hwf net Hn) as [Hv Hr].
  destruct (search_bounds_v6 net Hv) as (Hw & He & Hg & Hb).
  destruct (v6_net_bounds net Hv) as (Hs & _).
  assert (net_size 128 net < 65536) as Hsmall
    by (apply (Z.pow_lt_mono_r 2 (128 - prefix_len net) 16); lia).
  unfold AddressPool_allocate_v6. cbv zeta. rewrite He, Hw, Hr.
  assert (net_contains net (broadcast net + 1) = false) as Hc
    by (apply not_true_is_false; rewrite contains_iff; lia).
  destruct (find_free _ _ _ _) as [a|] eqn:Hf.
  - apply find_free_Some in Hf as (Hra & _ & Hal & Hlow). rewrite Ha in Hal.
    destruct (decide (a = broadcast net + 1)) as [->|]; [by eexists|].
    assert (broadcast net + 1 ∈ {[ gateway_addr 128 net ]} ∪ ap_allocated_v6 p) as Hin by (apply Hlow; lia).
    rewrite elem_of_union, elem_of_singleton, Ha in Hin. lia.
  - pose proof (find_free_None _ _ _ _ Hf (broadcast net + 1) ltac:(lia)) as Hin.
    rewrite elem_of_union, elem_of_singleton, Ha in Hin. lia.
Qed.

(** When the IPv6 half of [allocate] fails, the IPv4 address it has taken
    stays in the ledger although no caller was given it. *)
Lemma allocate_leaks_v4 n4 n6 p p1 a :
  ap_ipv4_net p = Some n4 -> ap_ipv6_net p = Some n6 ->
  AddressPool_allocate_v4 n4 p = (p1, Ok a) ->
  AddressPool_allocate_v6 n6 p1 = (p1, Err AddressPoolExhausted) ->
  AddressPool_allocate p = (p1, Err AddressPoolExhausted) /\
  (a ∉ ap_allocated_v4 p) /\ (a ∈ ap_allocated_v4 p1).
Proof.
  intros H4 H6 Ha Hx. unfold AddressPool_allocate, mbind, M_bind, get, mret, M_ret.
  rewrite H4, H6, Ha, Hx. split; [done|].
  apply allocate_v4_ok in Ha as [(_ & _ & ? & _)%find_free_Some ->]. split; [done|]. simpl. set_solver.
Qed.
End Valid.

(** * Instances: networks as an address and a prefix length *)
Section Witnesses.

Definition toy_prefix (w : Z) (n : Z * Z) : Z := Z.max 0 (Z.min w (snd n)).
Definition toy_size (w : Z) (n : Z * Z) : Z := 2 ^ (w - toy_prefix w n).
Definition toy_network (w : Z) (n : Z * Z) : Z := wrap w (fst n) / toy_size w n * toy_size w n.

Definition toy_net (w : Z) : IpNet w (Z * Z) :=
  {| prefix_len := toy_prefix w;
     network := toy_network w;
     broadcast n := toy_network w n + toy_size w n - 1;
     net_contains n a := (toy_network w n <=? a) && (a <=? toy_network w n + toy_size w n - 1);
     hosts_count n := Z.to_nat (toy_size w n - 2);
     net_display n := fmt_ipv4 (fst n) ++ lit "/" ++ fmt_dec (snd n) |}.
#[local] Existing Instance toy_net.

Lemma toy_net_laws w : 0 <= w -> IpNetLaws w (Z * Z).
Proof.
  intros Hw.
  assert (forall n, 0 < toy_size w n) as Hs
    by (intros; apply Z.pow_pos_nonneg; unfold toy_prefix; lia).
  assert (forall n, 0 <= toy_network w n <= wrap w (fst n)) as Hn.
  { intros n. pose proof (wrap_uint w (fst n) Hw) as Hu. unfold uint in Hu. unfold toy_network.
    pose proof (Z.mul_div_le (wrap w (fst n)) _ (Hs n)).
    pose proof (Z.div_pos (wrap w (fst n)) _ (proj1 Hu) (Hs n)). specialize (Hs n). nia. }
  split; simpl.
  - intros n. unfold toy_prefix. lia.
  - intros n. pose proof (wrap_uint w (fst n) Hw) as Hu. specialize (Hn n). unfold uint in *. lia.
  - intros n. exists (wrap w (fst n) / toy_size w n). done.
  - done.
  - intros n a. rewrite andb_true_iff, !Z.leb_le. done.
  - intros n _ Hp. unfold toy_size in *.
    assert (2 ^ 2 <= 2 ^ (w - toy_prefix w n)) by (apply Z.pow_le_mono_r; lia). lia.
Qed.

(** 10.8.0.0/29 and fd00::/64. *)
Definition office : Z * Z := (from_be [10; 8; 0; 0], 29).
Definition office6 : Z * Z := (Z.shiftl 64768 112, 64).
Definition office_pool : AddressPool := AddressPool_new_unchecked (Some office) (Some office6).

Lemma lease_is_exclusive_witness :
  let p := AddressPool_new_unchecked (N4 := Z * Z) (N6 := Z * Z) (Some office) None in
  let a := network (w := 32) office + 2 in
  Released4 a ∈ [Released4 a].
Proof.
  intros p a. refine (proj1 (lease_is_exclusive p _ a [] [Released4 a] []) _).
  eapply run_cons; [eapply (step_allocate_v4 _ office); [reflexivity|vm_compute; reflexivity]|].
  eapply run_cons; [apply step_release_v4|].
  eapply run_cons; [eapply (step_allocate_v4 _ office); [reflexivity|vm_compute; reflexivity]|].
  apply run_nil.
Defined.

End Witnesses.
