(* ===== verification/CoreSession.v ===== *)
(** * VPN sessions and the session table

    [SessionState], [Session] and [SessionManager] of
    src/crates/corevpn-core/src/session.rs.  The crates [chrono] and [uuid]
    are interfaces: [Chrono] has instants, the comparison and the addition that
    panics on overflow; [Uuids] has identifiers and their [Display].  Every
    reading of the clock and every random identifier is an argument of the
    operation that takes it; a pass over the table reads the clock once for
    each entry, so it takes a reading for each identifier. *)
From S2P Require Import Prelude Errors Text Network.
Local Open Scope Z_scope.

Class Chrono := {
  DateTime : Type;
  TimeDelta : Type;
  dt_gt : DateTime -> DateTime -> bool;
  dt_add : DateTime -> TimeDelta -> option DateTime;
  dt_sub : DateTime -> DateTime -> TimeDelta;
}.

Class Uuids := {
  Uuid : Type;
  Uuid_eq_dec :: EqDecision Uuid;
  Uuid_countable :: Countable Uuid;
  uuid_fmt : Uuid -> str;
}.

(** ** States *)
Inductive SessionState :=
| Connecting | Handshaking | Authenticating | Active | Disconnecting | Terminated.
#[export] Instance SessionState_eq_dec : EqDecision SessionState.
Proof. solve_decision. Defined.

Definition SessionState_debug (s : SessionState) : str :=
  match s with
  | Connecting => lit "Connecting"
  | Handshaking => lit "Handshaking"
  | Authenticating => lit "Authenticating"
  | Active => lit "Active"
  | Disconnecting => lit "Disconnecting"
  | Terminated => lit "Terminated"
  end.

Section Sessions.
Context {Ch : Chrono} {Uu : Uuids}.

Abbreviation SessionId := Uuid.
(** [UserId] wraps a string; the token is a string as well. *)
Abbreviation UserId := str.

Record Session := mkSession {
  se_id : SessionId;
  se_user_id : option UserId;
  se_state : SessionState;
  se_vpn_address : option VpnAddress;
  se_client_ip : IpAddr;
  se_client_port : Z;
  se_created_at : DateTime;
  se_last_activity : DateTime;
  se_expires_at : DateTime;
  se_bytes_rx : Z;
  se_bytes_tx : Z;
  se_packets_rx : Z;
  se_packets_tx : Z;
  se_client_version : option str;
  se_oauth_token : option str;
}.

(** [Session::new], with the identifier and the clock reading; [now +
    lifetime] panics when it overflows. *)
Definition Session_new (id : SessionId) (now : DateTime) (client_ip : IpAddr) (client_port : Z)
    (lifetime : TimeDelta) : res CoreError Session :=
  match dt_add now lifetime with
  | Some expires =>
      Ok (mkSession id None Connecting None client_ip client_port now now expires 0 0 0 0 None None)
  | None => Panic
  end.

Definition Session_is_expired (now : DateTime) (s : Session) : bool := dt_gt now (se_expires_at s).

Definition Session_is_active (now : DateTime) (s : Session) : bool :=
  bool_decide (se_state s = Active) && negb (Session_is_expired now s).

Definition Session_set_state (st : SessionState) (s : Session) : Session :=
  mkSession (se_id s) (se_user_id s) st (se_vpn_address s) (se_client_ip s) (se_client_port s)
    (se_created_at s) (se_last_activity s) (se_expires_at s) (se_bytes_rx s) (se_bytes_tx s)
    (se_packets_rx s) (se_packets_tx s) (se_client_version s) (se_oauth_token s).

Definition Session_touch (now : DateTime) (s : Session) : Session :=
  mkSession (se_id s) (se_user_id s) (se_state s) (se_vpn_address s) (se_client_ip s)
    (se_client_port s) (se_created_at s) now (se_expires_at s) (se_bytes_rx s) (se_bytes_tx s)
    (se_packets_rx s) (se_packets_tx s) (se_client_version s) (se_oauth_token s).

(** The counters are [u64] and wrap around. *)
Definition Session_record_rx (now : DateTime) (bytes : Z) (s : Session) : Session :=
  Session_touch now
    (mkSession (se_id s) (se_user_id s) (se_state s) (se_vpn_address s) (se_client_ip s)
      (se_client_port s) (se_created_at s) (se_last_activity s) (se_expires_at s)
      (wrap 64 (se_bytes_rx s + bytes)) (se_bytes_tx s) (wrap 64 (se_packets_rx s + 1))
      (se_packets_tx s) (se_client_version s) (se_oauth_token s)).

Definition Session_record_tx (now : DateTime) (bytes : Z) (s : Session) : Session :=
  Session_touch now
    (mkSession (se_id s) (se_user_id s) (se_state s) (se_vpn_address s) (se_client_ip s)
      (se_client_port s) (se_created_at s) (se_last_activity s) (se_expires_at s)
      (se_bytes_rx s) (wrap 64 (se_bytes_tx s + bytes)) (se_packets_rx s)
      (wrap 64 (se_packets_tx s + 1)) (se_client_version s) (se_oauth_token s)).

Definition valid_transition (from to : SessionState) : bool :=
  match from, to with
  | Connecting, Handshaking => true
  | Handshaking, Authenticating => true
  | Authenticating, Active => true
  | Active, Disconnecting => true
  | _, Terminated => true
  | _, _ => false
  end.

Definition Session_transition (new_state : SessionState) : M Session CoreError unit := fun s =>
  if valid_transition (se_state s) new_state then (Session_set_state new_state s, Ok tt)
  else (s, Err (Internal (lit "Invalid state transition: " ++ SessionState_debug (se_state s) ++
                          lit " -> " ++ SessionState_debug new_state))).

Definition Session_duration (now : DateTime) (s : Session) : TimeDelta := dt_sub now (se_created_at s).
Definition Session_idle_time (now : DateTime) (s : Session) : TimeDelta := dt_sub now (se_last_activity s).

Definition Session_extend (now : DateTime) (duration : TimeDelta) : M Session CoreError unit := fun s =>
  match dt_add now duration with
  | Some expires =>
      (mkSession (se_id s) (se_user_id s) (se_state s) (se_vpn_address s) (se_client_ip s)
        (se_client_port s) (se_created_at s) (se_last_activity s) expires (se_bytes_rx s)
        (se_bytes_tx s) (se_packets_rx s) (se_packets_tx s) (se_client_version s)
        (se_oauth_token s), Ok tt)
  | None => (s, Panic)
  end.

(** ** The table *)
Record SessionManager := mkSessionManager {
  sm_sessions : gmap SessionId Session;
  sm_max_sessions : nat;
  sm_default_lifetime : TimeDelta;
}.

Definition SessionManager_new (max_sessions : nat) (default_lifetime : TimeDelta) : SessionManager :=
  mkSessionManager ∅ max_sessions default_lifetime.

Definition sm_set (sessions : gmap SessionId Session) (m : SessionManager) : SessionManager :=
  mkSessionManager sessions (sm_max_sessions m) (sm_default_lifetime m).

(** [sessions.retain(|_, s| !s.is_expired())]. *)
Definition retain_unexpired (clock : SessionId -> DateTime) (t : gmap SessionId Session) :
    gmap SessionId Session :=
  filter (fun e => Session_is_expired (clock (fst e)) (snd e) = false) t.

Definition SessionManager_create_session (clock : SessionId -> DateTime) (id : SessionId)
    (now : DateTime) (client_ip : IpAddr) (client_port : Z) : M SessionManager CoreError Session :=
  fun m =>
  let insert_new (m : SessionManager) :=
    match Session_new id now client_ip client_port (sm_default_lifetime m) with
    | Ok session => (sm_set (<[se_id session := session]> (sm_sessions m)) m, Ok session)
    | Err e => (m, Err e)
    | Panic => (m, Panic)
    end in
  if (sm_max_sessions m <=? size (sm_sessions m))%nat then
    let m := sm_set (retain_unexpired clock (sm_sessions m)) m in
    if (sm_max_sessions m <=? size (sm_sessions m))%nat
    then (m, Err (Internal (lit "Maximum sessions reached")))
    else insert_new m
  else insert_new m.

Definition SessionManager_get_session (id : SessionId) (m : SessionManager) : option Session :=
  sm_sessions m !! id.

Definition SessionManager_update_session (session : Session) : M SessionManager CoreError unit :=
  fun m =>
  match sm_sessions m !! se_id session with
  | Some _ => (sm_set (<[se_id session := session]> (sm_sessions m)) m, Ok tt)
  | None => (m, Err (CoreSessionNotFound (uuid_fmt (se_id session))))
  end.

Definition SessionManager_remove_session (id : SessionId) (m : SessionManager) :
    SessionManager * option Session :=
  (sm_set (delete id (sm_sessions m)) m, sm_sessions m !! id).

(** The iteration order of a [HashMap] is not specified; the lists are in the
    order of [map_to_list]. *)
Definition SessionManager_active_sessions (clock : SessionId -> DateTime) (m : SessionManager) :
    list Session :=
  filter (fun s => Session_is_active (clock (se_id s)) s = true)
    (snd <$> map_to_list (sm_sessions m)).

Definition SessionManager_session_count (m : SessionManager) : nat := size (sm_sessions m).

Definition SessionManager_cleanup_expired (clock : SessionId -> DateTime) (m : SessionManager) :
    SessionManager * nat :=
  let after := retain_unexpired clock (sm_sessions m) in
  (sm_set after m, (size (sm_sessions m) - size after)%nat).

Definition of_user (user_id : UserId) (s : Session) : bool :=
  bool_decide (se_user_id s = Some user_id).

Definition SessionManager_get_user_sessions (user_id : UserId) (m : SessionManager) : list Session :=
  filter (fun s => of_user user_id s = true) (snd <$> map_to_list (sm_sessions m)).

Definition SessionManager_terminate_user_sessions (user_id : UserId) (m : SessionManager) :
    SessionManager * nat :=
  (sm_set ((fun s => if of_user user_id s then Session_set_state Terminated s else s)
             <$> sm_sessions m) m,
   size (filter (fun e => of_user user_id (snd e) = true) (sm_sessions m))).
End Sessions.

(** * The life of a session *)
Section Lifecycle.
Context {Ch : Chrono} {Uu : Uuids}.
Implicit Types s : Session.

(** A sequence of requested transitions, with the ones that were accepted. *)
Fixpoint drive (requests : list SessionState) s : Session * list SessionState :=
  match requests with
  | [] => (s, [])
  | st :: requests' =>
      match Session_transition st s with
      | (s1, Ok _) => let '(s2, acc) := drive requests' s1 in (s2, st :: acc)
      | (s1, _) => drive requests' s1
      end
  end.

(** The states a session passes on its way to [st]. *)
Definition path_to (st : SessionState) : list SessionState :=
  match st with
  | Connecting | Terminated => []
  | Handshaking => [Handshaking]
  | Authenticating => [Handshaking; Authenticating]
  | Active => [Handshaking; Authenticating; Active]
  | Disconnecting => [Handshaking; Authenticating; Active; Disconnecting]
  end.

Lemma drive_from requests s s' acc :
  drive requests s = (s', acc) ->
  (se_state s = Terminated -> se_state s' = Terminated) /\
  (se_state s' <> Terminated -> path_to (se_state s') = path_to (se_state s) ++ acc).
Proof.
  revert s acc. induction requests as [|st requests IH]; intros s acc; cbn [drive].
  { intros [= <- <-]. by rewrite app_nil_r. }
  unfold Session_transition. destruct (valid_transition (se_state s) st) eqn:Hv; [|apply IH].
  destruct (drive requests _) as [s2 acc2] eqn:Hd. intros [= <- <-].
  destruct (IH _ _ Hd) as [Ht Hp]. cbn [se_state Session_set_state] in *. split.
  - intros Hs. rewrite Hs in Hv. apply Ht. by destruct st.
  - intros Hne. specialize (Hp Hne). destruct (se_state s), st; try done;
      first [by rewrite Hp | by destruct Hne; apply Ht].
Qed.

(** However transitions are requested, a session that is not terminated
    has passed exactly the states before its own, in order: it is [Active]
    only after [Handshaking] and [Authenticating].  A terminated session stays
    terminated. *)
Theorem session_reaches_active_in_order requests s s' acc :
  drive requests s = (s', acc) ->
  (se_state s = Terminated -> se_state s' = Terminated) /\
  (se_state s = Connecting -> se_state s' <> Terminated -> acc = path_to (se_state s')).
Proof.
  intros [Ht Hp]%drive_from. split; [done|]. intros Hs Hne. rewrite (Hp Hne), Hs. done.
Qed.
End Lifecycle.

(** * The session table *)
Section Table.
Context {Ch : Chrono} {Uu : Uuids}.
Implicit Types (m : SessionManager) (s : Session).

(** The critical sections of the manager. *)
Inductive table_step : SessionManager -> SessionManager -> Prop :=
| table_create m clock id now ip port m' r :
    SessionManager_create_session clock id now ip port m = (m', r) -> table_step m m'
| table_update m s m' r :
    SessionManager_update_session s m = (m', r) -> table_step m m'
| table_remove m id : table_step m (fst (SessionManager_remove_session id m))
| table_cleanup m clock : table_step m (fst (SessionManager_cleanup_expired clock m))
| table_terminate m u : table_step m (fst (SessionManager_terminate_user_sessions u m)).

(** Every session is stored under its identifier, and the table is not over
    its capacity. *)
Definition table_ok m : Prop :=
  map_Forall (fun id s => se_id s = id) (sm_sessions m) /\
  (size (sm_sessions m) <= sm_max_sessions m)%nat.

Lemma retain_size clock (t : gmap Uuid Session) : (size (retain_unexpired clock t) <= size t)%nat.
Proof. apply map_subseteq_size, map_filter_subseteq. Qed.

Lemma retain_ok clock m : table_ok m -> table_ok (sm_set (retain_unexpired clock (sm_sessions m)) m).
Proof.
  intros [Hk Hs]. split.
  { intros i x [Hi _]%map_lookup_filter_Some. by apply Hk. }
  simpl. pose proof (retain_size clock (sm_sessions m)). lia.
Qed.

Lemma insert_size (t : gmap Uuid Session) id s : (size (<[id := s]> t) <= S (size t))%nat.
Proof. rewrite map_size_insert. destruct (t !! id); unfold Datatypes.id; lia. Qed.

(** Insertion of the new session, the last step of [create_session]. *)
Lemma insert_new_ok id now ip port m :
  table_ok m -> (size (sm_sessions m) < sm_max_sessions m)%nat ->
  table_ok (fst match Session_new id now ip port (sm_default_lifetime m) with
                | Ok session => (sm_set (<[se_id session := session]> (sm_sessions m)) m, Ok session)
                | Err e => (m, Err e)
                | Panic => (m, Panic)
                end).
Proof.
  intros Hm Hlt. destruct (Session_new _ _ _ _ _) as [s|e|]; try done.
  destruct Hm as [Hk Hs]. split; simpl.
  - by apply map_Forall_insert_2.
  - pose proof (insert_size (sm_sessions m) (se_id s) s). lia.
Qed.

Lemma table_step_ok m m' : table_ok m -> table_step m m' -> table_ok m'.
Proof.
  intros Hm Hs. pose proof Hm as [Hk Hz]. destruct Hs as [m clock id now ip port m' r Hc|m s m' r Hu|m id|m clock|m u].
  - apply (f_equal fst) in Hc. cbn [fst] in Hc. rewrite <- Hc. unfold SessionManager_create_session.
    destruct (Nat.leb_spec (sm_max_sessions m) (size (sm_sessions m))); [|by apply insert_new_ok].
    cbv zeta. pose proof (retain_ok clock m Hm) as Hr.
    destruct (Nat.leb_spec (sm_max_sessions (sm_set (retain_unexpired clock (sm_sessions m)) m))
      (size (sm_sessions (sm_set (retain_unexpired clock (sm_sessions m)) m)))); [done|by apply insert_new_ok].
  - unfold SessionManager_update_session in Hu. destruct (sm_sessions m !! se_id s) eqn:Hl; simplify_eq; [|done].
    split; simpl; [by apply map_Forall_insert_2|]. rewrite map_size_insert_Some by eauto. done.
  - split; simpl; [by apply map_Forall_delete|]. rewrite map_size_delete. destruct (_ !! id); unfold Datatypes.id; lia.
  - by apply retain_ok.
  - split; simpl.
    + apply map_Forall_fmap. eapply map_Forall_impl; [exact Hk|]. intros i x Hx. simpl. by destruct (of_user u x).
    + by rewrite map_size_fmap.
Qed.

(** Over any sequence of creations, updates, removals, clean-ups and
    terminations, at any clock readings and with any identifiers, the table
    never holds more than [max_sessions] sessions and stores every session
    under its own identifier. *)
Lemma session_table_invariant max lifetime m :
  rtc table_step (SessionManager_new max lifetime) m -> table_ok m.
Proof.
  intros H. assert (table_ok (SessionManager_new max lifetime)) as Hnew.
  { split; simpl; [apply map_Forall_empty|rewrite map_size_empty; lia]. }
  revert Hnew. induction H as [|m1 m2 m3 Hs H IH]; [done|]. intros Hok. by eapply IH, table_step_ok.
Qed.

(** Admission.  [create_session] refuses exactly when the sessions that
    have not expired fill the table, and then it has only dropped expired
    ones.  Otherwise it returns a fresh session in [Connecting], which
    [get_session] finds, and every other session that has not expired is
    kept. *)
Theorem create_session_admission clock id now ip port m expires :
  dt_add now (sm_default_lifetime m) = Some expires ->
  let '(m', r) := SessionManager_create_session clock id now ip port m in
  (r = Err (Internal (lit "Maximum sessions reached")) <->
   (sm_max_sessions m <= size (retain_unexpired clock (sm_sessions m)))%nat) /\
  (forall sid s, sm_sessions m !! sid = Some s -> Session_is_expired (clock sid) s = false ->
     sid = id \/ SessionManager_get_session sid m' = Some s) /\
  ((size (retain_unexpired clock (sm_sessions m)) < sm_max_sessions m)%nat ->
   exists s, r = Ok s /\ SessionManager_get_session id m' = Some s /\
     se_id s = id /\ se_state s = Connecting /\ se_expires_at s = expires).
Proof.
  intros Hadd. unfold SessionManager_create_session, Session_new, sm_set. cbv zeta.
  cbn [sm_default_lifetime]. rewrite Hadd. pose proof (retain_size clock (sm_sessions m)).
  assert (forall sid s, sm_sessions m !! sid = Some s -> Session_is_expired (clock sid) s = false ->
            retain_unexpired clock (sm_sessions m) !! sid = Some s) as Hret
    by (intros; by apply map_lookup_filter_Some).
  cbn [sm_max_sessions sm_sessions].
  destruct (Nat.leb_spec (sm_max_sessions m) (size (sm_sessions m)));
    [destruct (Nat.leb_spec (sm_max_sessions m) (size (retain_unexpired clock (sm_sessions m))))|];
    unfold SessionManager_get_session; cbv beta iota; cbn [sm_sessions se_id].
  - split_and!; [by split|by eauto|lia].
  - split_and!; [split; [done|lia]| |].
    + intros sid s Hs He. destruct (decide (sid = id)); [by left|right]. rewrite lookup_insert_ne by done. auto.
    + intros _. eexists. split; [done|]. by rewrite lookup_insert_eq.
  - split_and!; [split; [done|lia]| |].
    + intros sid s Hs He. destruct (decide (sid = id)); [by left|right]. by rewrite lookup_insert_ne.
    + intros _. eexists. split; [done|]. by rewrite lookup_insert_eq.
Qed.
End Table.

(** * Instances: a clock in seconds and numbers as identifiers *)
Section Witnesses.

Definition toy_chrono : Chrono :=
  {| DateTime := Z; TimeDelta := Z; dt_gt a b := b <? a;
     dt_add a d := if a + d <? 2 ^ 63 then Some (a + d) else None; dt_sub a b := a - b |}.
Definition toy_uuids : Uuids := {| Uuid := N; uuid_fmt n := fmt_dec (Z.of_N n) |}.
#[local] Existing Instance toy_chrono.
#[local] Existing Instance toy_uuids.

Definition toy_session (id : N) (expires : Z) : Session :=
  mkSession (Uu := toy_uuids) (Ch := toy_chrono) id None Connecting None (V4 0) 1194 0 0 expires 0 0 0 0 None None.


(** A table of one session is full until that session expires. *)
Definition empty_table : SessionManager := SessionManager_new (Ch := toy_chrono) (Uu := toy_uuids) 1 60.
Definition full_table : SessionManager :=
  fst (SessionManager_create_session (Ch := toy_chrono) (Uu := toy_uuids) (fun _ => 0) 1%N 0 (V4 0) 1194 empty_table).

Lemma session_table_invariant_witness : table_ok full_table.
Proof.
  apply (session_table_invariant (Ch := toy_chrono) (Uu := toy_uuids) 1 60). eapply rtc_l; [|apply rtc_refl].
  eapply (table_create (Ch := toy_chrono) (Uu := toy_uuids) _ (fun _ => 0) 1%N 0 (V4 0) 1194). apply surjective_pairing.
Defined.

End Witnesses.
