(* ===== verification/Addr.v ===== *)
(** * Socket addresses and the textual forms of IP addresses

    What the source uses of [std::net]: [IpAddr] and [SocketAddr] with
    [FromStr] and [Display], and what it uses of Unicode tables in [str] and
    [char], which are an interface with their documented meaning on ASCII. *)
From S2P Require Import Prelude Text Network.
Local Open Scope Z_scope.

#[export] Instance IpAddr_eq_dec : EqDecision IpAddr.
Proof. solve_decision. Defined.

(** [SocketAddrV6] also has a flow label and a scope. *)
Inductive SocketAddr :=
| SockV4 (ip port : Z)
| SockV6 (ip port flowinfo scope_id : Z).
#[export] Instance SocketAddr_eq_dec : EqDecision SocketAddr.
Proof. solve_decision. Defined.
#[export] Instance SocketAddr_countable : Countable SocketAddr.
Proof.
  refine (inj_countable'
    (fun a => match a with
              | SockV4 i p => inl (i, p)
              | SockV6 i p f s => inr (i, p, f, s)
              end)
    (fun x => match x with
              | inl (i, p) => SockV4 i p
              | inr (i, p, f, s) => SockV6 i p f s
              end) _).
  by intros [].
Defined.

Definition SocketAddr_ip (a : SocketAddr) : IpAddr :=
  match a with SockV4 ip _ => V4 ip | SockV6 ip _ _ _ => V6 ip end.
Definition SocketAddr_port (a : SocketAddr) : Z :=
  match a with SockV4 _ p => p | SockV6 _ p _ _ => p end.
Definition SocketAddr_new (ip : IpAddr) (port : Z) : SocketAddr :=
  match ip with V4 a => SockV4 a port | V6 a => SockV6 a port 0 0 end.

Definition fmt_ip (a : IpAddr) : str :=
  match a with V4 a => fmt_ipv4 a | V6 a => fmt_ipv6 a end.

(** ** Reading: each reader consumes a prefix of its input *)
Definition read_char (c : Z) (s : str) : option str :=
  match s with b :: s' => if b =? c then Some s' else None | [] => None end.

Definition hex_value (b : Z) : option Z :=
  if in_range 48 57 b then Some (b - 48)
  else if in_range 97 102 b then Some (b - 87)
  else if in_range 65 70 b then Some (b - 55) else None.

(** [read_number(16, Some(4), true)]: at most four digits. *)
Fixpoint read_hex (n : nat) (acc : Z) (s : str) : option (Z * str) :=
  match s with
  | b :: s' =>
      match hex_value b with
      | Some d => match n with O => None | S n' => read_hex n' (acc * 16 + d) s' end
      | None => Some (acc, s)
      end
  | [] => Some (acc, [])
  end.
Definition read_group (s : str) : option (Z * str) :=
  match s with
  | b :: _ => match hex_value b with Some _ => read_hex 4 0 s | None => None end
  | [] => None
  end.

(** [read_number(10, Some(3), false)] of a [u8]: the digits at the head, at
    most three, no leading zero, below 256. *)
Fixpoint take_digits (s : str) : str :=
  match s with
  | b :: s' => if in_range 48 57 b then b :: take_digits s' else []
  | [] => []
  end.
Definition read_octet (s : str) : option (Z * str) :=
  let ds := take_digits s in
  v ← parse_octet ds; Some (v, drop (length ds) s).

Definition read_dot_octet (s : str) : option (Z * str) := s ← read_char 46 s; read_octet s.

(** [read_ipv4_addr]. *)
Definition read_ipv4 (s : str) : option (Z * str) :=
  '(a, s) ← read_octet s;
  '(b, s) ← read_dot_octet s;
  '(c, s) ← read_dot_octet s;
  '(d, s) ← read_dot_octet s;
  Some (from_be [a; b; c; d], s).

(** [read_separator(':', i, inner)]. *)
Definition read_colon {A} (i : nat) (inner : str -> option (A * str)) (s : str) : option (A * str) :=
  match i with O => inner s | S _ => s ← read_char 58 s; inner s end.

(** [read_groups]: the groups read, whether they end in an IPv4 address, and
    the rest; [left] groups are still free, [i] have been read. *)
Fixpoint read_groups (left i : nat) (s : str) : list Z * bool * str :=
  match left with
  | O => ([], false, s)
  | S left' =>
      match (if (1 <=? left')%nat then read_colon i read_ipv4 s else None) with
      | Some (v4, s') => ([v4 / 65536; v4 mod 65536], true, s')
      | None =>
          match read_colon i read_group s with
          | Some (g, s') =>
              let '(gs, v4, rest) := read_groups left' (S i) s' in (g :: gs, v4, rest)
          | None => ([], false, s)
          end
      end
  end.

Definition of_segments (l : list Z) : Z := fold_left (fun acc g => acc * 65536 + g) l 0.

(** [read_ipv6_addr]. *)
Definition read_ipv6 (s : str) : option (Z * str) :=
  let '(head, head_ipv4, s) := read_groups 8 0 s in
  if (length head =? 8)%nat then Some (of_segments head, s) else
  if (head_ipv4 : bool) then None else
  s ← read_char 58 s; s ← read_char 58 s;
  let '(tail, _, s) := read_groups (7 - length head) 0 s in
  Some (of_segments (head ++ replicate (8 - length head - length tail) 0 ++ tail), s).

(** The whole input must be consumed. *)
Definition parsed {A} (r : option (A * str)) : option A :=
  match r with Some (a, []) => Some a | _ => None end.

Definition parse_ipv6 (s : str) : option Z := parsed (read_ipv6 s).

(** [s.parse::<IpAddr>().ok()]. *)
Definition parse_ip (s : str) : option IpAddr :=
  match parse_ipv4 s with
  | Some a => Some (V4 a)
  | None => V6 <$> parse_ipv6 s
  end.

(** [read_number(10, None, true)] at the end of the input. *)
Definition parse_plain (w : Z) (s : str) : option Z :=
  match s with [] => None | _ => parse_digits w 0 s end.

(** [s.parse::<SocketAddr>().ok()]: [a.b.c.d:port] or [[v6%scope]:port]. *)
Definition parse_socket_v4 (s : str) : option SocketAddr :=
  '(ip, s) ← read_ipv4 s; s ← read_char 58 s;
  port ← parse_plain 16 s; Some (SockV4 ip port).

Definition read_scope (s : str) : option (Z * str) :=
  match read_char 37 s with
  | None => Some (0, s)
  | Some s' =>
      let ds := take_digits s' in
      v ← parse_plain 32 ds; Some (v, drop (length ds) s')
  end.
Definition parse_socket_v6 (s : str) : option SocketAddr :=
  s ← read_char 91 s;
  '(ip, s) ← read_ipv6 s;
  '(scope, s) ← read_scope s;
  s ← read_char 93 s; s ← read_char 58 s;
  port ← parse_plain 16 s; Some (SockV6 ip port 0 scope).

Definition parse_socket_addr (s : str) : option SocketAddr :=
  match parse_socket_v4 s with Some a => Some a | None => parse_socket_v6 s end.

(** ** More of [str] *)
Definition ends_with (p s : str) : bool := starts_with (rev p) (rev s).

(** [s.lines()]: a line ends at a line feed, with a carriage return before it
    if there is one; the last line may have no line feed. *)
Definition strip_cr (l : str) : str :=
  match rev l with 13 :: r => rev r | _ => l end.
Fixpoint strip_lines (parts : list str) : list str :=
  match parts with
  | [] => []
  | [p] => match p with [] => [] | _ => [p] end
  | p :: ps => strip_cr p :: strip_lines ps
  end.
Definition str_lines (s : str) : list str := strip_lines (split_on 10 s).

(** [&s[a..b]]: both ends must be on character boundaries. *)
Definition char_boundary (s : str) (i : nat) : bool :=
  (i =? 0)%nat ||
  match s !! i with
  | Some b => negb (in_range 128 191 b)
  | None => (i =? length s)%nat
  end.
Definition str_slice {E} (s : str) (a b : nat) : res E str :=
  if char_boundary s a && char_boundary s b then slice s a b else Panic.

(** [String::from_utf8_lossy]: every maximal part that begins a character and
    does not end one becomes U+FFFD. *)
Definition REPLACEMENT : str := [239; 191; 189].

(** The second bytes of three- and four-byte characters. *)
Definition second3 (b c : Z) : bool :=
  (b =? 224) && in_range 160 191 c || in_range 225 236 b && cont c
  || (b =? 237) && in_range 128 159 c || in_range 238 239 b && cont c.
Definition second4 (b c : Z) : bool :=
  (b =? 240) && in_range 144 191 c || in_range 241 243 b && cont c || (b =? 244) && in_range 128 143 c.

Fixpoint from_utf8_lossy (s : bytes) : str :=
  match s with
  | [] => []
  | b :: s1 =>
      if in_range 0 127 b then b :: from_utf8_lossy s1 else
      match s1 with
      | [] => REPLACEMENT
      | c :: s2 =>
          if in_range 194 223 b then
            if cont c then b :: c :: from_utf8_lossy s2 else REPLACEMENT ++ from_utf8_lossy s1
          else if second3 b c then
            match s2 with
            | [] => REPLACEMENT
            | d :: s3 =>
                if cont d then b :: c :: d :: from_utf8_lossy s3 else REPLACEMENT ++ from_utf8_lossy s2
            end
          else if second4 b c then
            match s2 with
            | [] => REPLACEMENT
            | d :: s3 =>
                if cont d then
                  match s3 with
                  | [] => REPLACEMENT
                  | e :: s4 =>
                      if cont e then b :: c :: d :: e :: from_utf8_lossy s4
                      else REPLACEMENT ++ from_utf8_lossy s3
                  end
                else REPLACEMENT ++ from_utf8_lossy s2
            end
          else REPLACEMENT ++ from_utf8_lossy s1
      end
  end.

Lemma from_utf8_lossy_valid s : utf8_valid s = true -> from_utf8_lossy s = s.
Proof.
  remember (length s) as n eqn:Hn. assert (length s <= n)%nat as Hle by lia. clear Hn. revert s Hle.
  induction n as [|n IH]; intros s Hle; [destruct s; [done|simpl in Hle; lia]|].
  destruct s as [|b s1]; [done|]. cbn [length] in Hle. cbn [utf8_valid from_utf8_lossy].
  destruct (in_range 0 127 b); [intros H; f_equal; apply IH; [lia|done]|].
  destruct s1 as [|c s2]; [done|]. cbn [length] in Hle.
  destruct (in_range 194 223 b).
  { intros [-> H]%andb_true_iff. do 2 f_equal. apply IH; [lia|done]. }
  destruct s2 as [|d s3]; [by intros|]. cbn [length] in Hle. fold (second3 b c).
  destruct (second3 b c).
  { intros [-> H]%andb_true_iff. do 3 f_equal. apply IH; [lia|done]. }
  destruct s3 as [|e s4]; [by intros|]. cbn [length] in Hle. fold (second4 b c).
  destruct (second4 b c); [|done].
  intros [[-> ->]%andb_true_iff H]%andb_true_iff. do 4 f_equal. apply IH; [lia|done].
Qed.

(** [s.find(p)]: the position of the first occurrence. *)
Fixpoint find_str (p s : str) : option nat :=
  if starts_with p s then Some O
  else match s with [] => None | _ :: s' => S <$> find_str p s' end.
(** [s.rfind(p)]: the position of the last occurrence. *)
Definition rfind_str (p s : str) : option nat :=
  (fun i => length s - length p - i)%nat <$> find_str (rev p) (rev s).
(** [str::rsplit_once] at an ASCII character. *)
Definition rsplit_once (c : Z) (s : str) : option (str * str) :=
  (fun i => (take i s, drop (S i) s)) <$> rfind_str [c] s.

(** [u8::from_str_radix(s, 16).ok()]. *)
Fixpoint hex_digits (acc : Z) (s : str) : option Z :=
  match s with
  | [] => Some acc
  | b :: s' => d ← hex_value b; let v := acc * 16 + d in if v <? 256 then hex_digits v s' else None
  end.
Definition u8_from_hex (s : str) : option Z :=
  match s with
  | [] => None
  | b :: s' => if b =? 43 then match s' with [] => None | _ => hex_digits 0 s' end else hex_digits 0 s
  end.

(** [Path::join] of a relative name, on the bytes of the path. *)
Definition path_join (dir name : str) : str :=
  match dir with
  | [] => name
  | _ => if ends_with [47] dir then dir ++ name else dir ++ [47] ++ name
  end.

(** ** Unicode tables of [char] and [str] *)
Class Unicode := {
  (** [char::is_alphanumeric], of a character given by its bytes. *)
  uc_alphanumeric : str -> bool;
  (** [str::to_uppercase] and [str::to_lowercase]. *)
  to_uppercase : str -> str;
  to_lowercase : str -> str;
}.

Definition ascii_alphanumeric (b : Z) : bool :=
  in_range 48 57 b || in_range 65 90 b || in_range 97 122 b.

Class UnicodeLaws (U : Unicode) : Prop := {
  alphanumeric_ascii b : 0 <= b < 128 -> uc_alphanumeric [b] = ascii_alphanumeric b;
  uppercase_ascii s : ascii s -> to_uppercase s = map ascii_upper s;
  lowercase_ascii s : ascii s -> to_lowercase s = map ascii_lower s;
}.

(** The tables restricted to ASCII. *)
Definition ascii_unicode : Unicode := {|
  uc_alphanumeric c := match c with [b] => ascii_alphanumeric b | _ => false end;
  to_uppercase := map ascii_upper;
  to_lowercase := map ascii_lower;
|}.
Lemma ascii_unicode_laws : UnicodeLaws ascii_unicode.
Proof. by constructor. Qed.

(** ** Reading back what is printed *)
Lemma take_digits_app ds s :
  Forall (fun b => 48 <= b <= 57) ds ->
  match s with b :: _ => in_range 48 57 b = false | [] => True end ->
  take_digits (ds ++ s) = ds.
Proof.
  intros H Hs. induction H as [|b ds Hb H IH]; cbn [app take_digits].
  - destruct s; [done|]. cbn [take_digits]. by rewrite Hs.
  - unfold in_range. rewrite (proj2 (Z.leb_le 48 b)), (proj2 (Z.leb_le b 57)) by lia.
    simpl. by rewrite IH.
Qed.

Lemma fmt_dec_octet v : 0 <= v < 256 -> parse_octet (fmt_dec v) = Some v.
Proof.
  intros Hv.
  assert (Forall (fun n => parse_octet (fmt_dec (Z.of_nat n)) = Some (Z.of_nat n)) (seq 0 256)) as H.
  { apply (bool_decide_unpack _). vm_compute. exact I. }
  rewrite Forall_forall in H. specialize (H (Z.to_nat v)). rewrite Z2Nat.id in H by lia.
  apply H. apply elem_of_seq. lia.
Qed.

Lemma read_octet_fmt v s : 0 <= v < 256 ->
  match s with b :: _ => in_range 48 57 b = false | [] => True end ->
  read_octet (fmt_dec v ++ s) = Some (v, s).
Proof.
  intros Hv Hs. unfold read_octet.
  rewrite take_digits_app by (done || by apply fmt_dec_digits; lia).
  rewrite fmt_dec_octet by done. cbn [mbind option_bind]. by rewrite drop_app_length.
Qed.

Lemma read_ipv4_fmt a s : u32 a ->
  match s with b :: _ => in_range 48 57 b = false | [] => True end ->
  read_ipv4 (fmt_ipv4 a ++ s) = Some (a, s).
Proof.
  intros Ha Hs. unfold fmt_ipv4, octets.
  pose proof (to_be_ok 4 a) as Ho. pose proof (from_to_be 4 a Ha) as Hf.
  destruct (to_be 4 a) as [|x [|y [|z [|t [|]]]]] eqn:Hl;
    try (apply (f_equal length) in Hl; rewrite to_be_length in Hl; discriminate Hl).
  unfold bytes_ok in Ho. rewrite !Forall_cons in Ho.
  destruct Ho as (Hx & Hy & Hz & Ht & _). unfold uint in Hx, Hy, Hz, Ht.
  change (2 ^ 8) with 256 in *.
  cbn [map join]. rewrite <- !app_assoc. cbn [app]. unfold read_ipv4, read_dot_octet, read_char.
  rewrite read_octet_fmt by done. cbn [mbind option_bind]. rewrite Z.eqb_refl. cbn [mbind option_bind].
  rewrite <- ?app_assoc. cbn [app].
  rewrite read_octet_fmt by done. cbn [mbind option_bind]. rewrite Z.eqb_refl. cbn [mbind option_bind].
  rewrite <- ?app_assoc. cbn [app].
  rewrite read_octet_fmt by done. cbn [mbind option_bind]. rewrite Z.eqb_refl. cbn [mbind option_bind].
  rewrite read_octet_fmt by done. cbn [mbind option_bind]. by rewrite Hf.
Qed.

(** A printed IPv4 socket address reads back. *)
Lemma parse_socket_v4_fmt a p : u32 a -> u16 p ->
  parse_socket_addr (fmt_ipv4 a ++ [58] ++ fmt_dec p) = Some (SockV4 a p).
Proof.
  intros Ha Hp. unfold parse_socket_addr, parse_socket_v4.
  rewrite read_ipv4_fmt by done. cbn [app mbind option_bind read_char]. rewrite Z.eqb_refl.
  cbn [mbind option_bind]. unfold uint in Hp.
  destruct (fmt_dec_digits p) as [Hne _]; [lia|].
  assert (parse_digits 16 0 (fmt_dec p) = Some p) as Hd.
  { apply parse_dec_digits; [lia| |lia]. change (10 ^ Z.of_nat 40) with 10000000000000000000000000000000000000000. lia. }
  unfold parse_plain. destruct (fmt_dec p); [done|]. by rewrite Hd.
Qed.

(** ** The first of a character *)
Lemma find_first c s r : c ∉ s -> find_str [c] (s ++ c :: r) = Some (length s).
Proof.
  induction s as [|b s IH]; intros Hc; cbn.
  - unfold starts_with. cbn. by rewrite ?take_0, bool_decide_eq_true_2.
  - apply not_elem_of_cons in Hc as [Hb Hs]. unfold starts_with. cbn.
    rewrite ?take_0, bool_decide_eq_false_2 by congruence. by rewrite IH.
Qed.
