(* ===== verification/AddrText.v ===== *)
(** * Socket addresses as text

    [Display] of [SocketAddr] of the Standard Library, and that the parsers of
    Addr.v read back what it and [Display] of [IpAddr] print, for IPv4 and
    IPv6 with all abbreviations. *)
From S2P Require Import Prelude Text Network Addr.
Local Open Scope Z_scope.

(** The flow label of an IPv6 address is not printed. *)
Definition SocketAddr_fmt (a : SocketAddr) : str :=
  match a with
  | SockV4 ip port => fmt_ipv4 ip ++ [58] ++ fmt_dec port
  | SockV6 ip port _ scope =>
      lit "[" ++ fmt_ipv6 ip ++ (if scope =? 0 then [] else lit "%" ++ fmt_dec scope) ++ lit "]:" ++ fmt_dec port
  end.

(** ** Groups of hexadecimal digits *)
Definition is_hex (b : Z) : bool := is_some (hex_value b).
(** [s] does not go on with a character of [f]. *)
Definition stops (f : Z -> bool) (s : str) : Prop := match s with b :: _ => f b = false | [] => True end.

Lemma hex_digit_value d : 0 <= d < 16 -> hex_value (hex_digit d) = Some d.
Proof.
  intros Hd. unfold hex_digit, hex_value, in_range. destruct (d <? 10) eqn:E; bools.
  - replace (48 <=? 48 + d) with true by lia. replace (48 + d <=? 57) with true by lia. cbn. f_equal. lia.
  - replace (87 + d <=? 57) with false by lia. rewrite andb_false_r.
    replace (97 <=? 87 + d) with true by lia. replace (87 + d <=? 102) with true by lia. cbn. f_equal. lia.
Qed.

Lemma read_hex_stop n acc s : stops is_hex s -> read_hex n acc s = Some (acc, s).
Proof. destruct n, s as [|b s]; try done; cbn; unfold is_hex; by destruct (hex_value b). Qed.

(** Reading printed digits goes on from the number they make. *)
Lemma read_hex_digits k n acc z s : (0 < k)%nat -> 0 <= z < 16 ^ Z.of_nat k ->
  exists m, (m <= k)%nat /\ read_hex (m + n) acc (fmt_hex_go k z ++ s) = read_hex n (acc * 16 ^ Z.of_nat m + z) s.
Proof.
  revert n z s. induction k as [|k IH]; intros n z s Hk Hz; [lia|]. cbn [fmt_hex_go].
  destruct (z <? 16) eqn:E; bools.
  - exists 1%nat. split; [lia|]. cbn. rewrite hex_digit_value by lia. destruct n, s; f_equal; f_equal; lia.
  - destruct k as [|k]; [change (16 ^ Z.of_nat 1) with 16 in Hz; lia|].
    rewrite <- app_assoc. cbn [app].
    destruct (IH (S n) (z / 16) (hex_digit (z mod 16) :: s)) as (m & Hm & Hr); [lia| |].
    { rewrite (Nat2Z.inj_succ (S k)), Z.pow_succ_r in Hz by lia.
      split; [apply Z.div_pos; lia|apply Z.div_lt_upper_bound; lia]. }
    exists (S m). split; [lia|]. replace (S m + n)%nat with (m + S n)%nat by lia. rewrite Hr. cbn.
    rewrite hex_digit_value by (apply Z.mod_pos_bound; lia). f_equal.
    rewrite Nat2Z.inj_succ, Z.pow_succ_r by lia. pose proof (Z.div_mod z 16). lia.
Qed.

Lemma read_hex_more j n acc s r : read_hex n acc s = Some r -> read_hex (j + n) acc s = Some r.
Proof.
  revert n acc. induction s as [|b s IH]; intros n acc; [by destruct n, j|].
  destruct n as [|n]; cbn.
  - destruct (hex_value b) eqn:E; [done|]. intros [= <-]. destruct j; cbn; by rewrite E.
  - rewrite Nat.add_succ_r. cbn. destruct (hex_value b); [apply IH|done].
Qed.

Lemma fmt_hex_head k z : (0 < k)%nat -> 0 <= z < 16 ^ Z.of_nat k ->
  exists b r, fmt_hex_go k z = b :: r /\ is_hex b = true.
Proof.
  revert z. induction k as [|k IH]; intros z Hk Hz; [lia|]. cbn [fmt_hex_go]. destruct (z <? 16) eqn:E; bools.
  - exists (hex_digit z), []. split; [done|]. unfold is_hex. by rewrite hex_digit_value by lia.
  - destruct k as [|k]; [change (16 ^ Z.of_nat 1) with 16 in Hz; lia|].
    destruct (IH (z / 16)) as (b & r & -> & Hb); [lia| |by exists b, (r ++ [hex_digit (z mod 16)])].
    rewrite (Nat2Z.inj_succ (S k)), Z.pow_succ_r in Hz by lia.
    split; [apply Z.div_pos; lia|apply Z.div_lt_upper_bound; lia].
Qed.

Lemma read_group_fmt g s : u16 g -> stops is_hex s -> read_group (fmt_hex_go 4 g ++ s) = Some (g, s).
Proof.
  intros Hg Hs. unfold uint in Hg. change (2 ^ 16) with (16 ^ Z.of_nat 4) in Hg.
  destruct (fmt_hex_head 4 g ltac:(lia) Hg) as (b & r & E & Hb).
  destruct (read_hex_digits 4 0 0 g s ltac:(lia) Hg) as (m & Hm & Hr). rewrite (read_hex_stop 0 _ s Hs) in Hr.
  apply (read_hex_more (4 - m)) in Hr. replace (4 - m + (m + 0))%nat with 4%nat in Hr by lia.
  unfold read_group. rewrite E in Hr |- *. cbn [app]. unfold is_hex in Hb. destruct (hex_value b); [|done]. exact Hr.
Qed.

(** ** An IPv6 address *)

(** Text in which no dot follows the leading digits is no IPv4 address. *)
Lemma read_ipv4_none s : stops (Z.eqb 46) (drop (length (take_digits s)) s) -> read_ipv4 s = None.
Proof.
  intros H. unfold read_ipv4, read_octet. destruct (parse_octet _) as [v|]; [|done]. cbn [mbind option_bind].
  unfold read_dot_octet, read_char. destruct (drop _ s) as [|b r]; [done|]. unfold stops in H.
  by rewrite Z.eqb_sym, H.
Qed.

(** A separator: none before the first group. *)
Definition sep (i : nat) : str := match i with O => [] | S _ => [58] end.
(** What may follow the last group that is read. *)
Definition ends_groups (s : str) : Prop :=
  match s with 58 :: s' => match s' with 58 :: _ => True | _ => False end | _ => stops is_hex s /\ stops (Z.eqb 46) s end.
Lemma ends_stops s : ends_groups s -> stops is_hex s /\ stops (Z.eqb 46) s.
Proof. destruct s as [|b s]; [done|]. intros H. destruct (decide (b = 58)) as [->|Hb]; [done|]. cbn in H. repeat (case_match; try done). Qed.

Lemma take_digits_hex h s : Forall (fun b => is_hex b = true) h -> stops is_hex s ->
  stops (Z.eqb 46) s -> stops (Z.eqb 46) (drop (length (take_digits (h ++ s))) (h ++ s)).
Proof.
  intros Hh Hs H46. induction Hh as [|b h Hb Hh IH]; cbn [app take_digits].
  - destruct s as [|b s]; [done|]. cbn [take_digits]. cbn in Hs. unfold is_hex, hex_value in Hs.
    destruct (in_range 48 57 b); done.
  - destruct (in_range 48 57 b) eqn:E; [exact IH|]. cbn [length drop stops]. apply Z.eqb_neq. intros <-. done.
Qed.
Lemma fmt_hex_all k z : 0 <= z -> Forall (fun b => is_hex b = true) (fmt_hex_go k z).
Proof.
  revert z. induction k as [|k IH]; intros z Hz; [constructor|]. cbn [fmt_hex_go].
  assert (forall d, 0 <= d < 16 -> is_hex (hex_digit d) = true) as Hd by (intros d ?; unfold is_hex; by rewrite hex_digit_value).
  destruct (z <? 16) eqn:E; bools; [repeat constructor; apply Hd; lia|].
  apply Forall_app. split; [apply IH, Z.div_pos; lia|]. repeat constructor. apply Hd, Z.mod_pos_bound. lia.
Qed.

Lemma read_no_group left i s : ends_groups s -> read_groups left i s = ([], false, s).
Proof.
  intros Hs. destruct left as [|left]; [done|]. cbn [read_groups].
  assert (read_colon i read_ipv4 s = None /\ read_colon i read_group s = None) as [-> ->].
  { destruct (ends_stops s Hs) as [Hh Hd]. destruct i as [|i]; cbn [read_colon].
    - destruct s as [|b s]; [done|]. cbn in Hh. unfold is_hex, hex_value in Hh. split.
      + apply read_ipv4_none. cbn [take_digits]. by destruct (in_range 48 57 b).
      + unfold read_group, hex_value. by repeat (case_match; try done).
    - destruct s as [|b s]; [done|]. cbn [read_char]. destruct (b =? 58) eqn:E; [|done]. bools. subst b.
      destruct s as [|c s]; [done|]. assert (c = 58) as -> by (cbn in Hs; by repeat (case_match; try done)). done. }
  by destruct (1 <=? left)%nat.
Qed.

Lemma read_groups_fmt l left i s : Forall u16 l -> (length l <= left)%nat -> l <> [] ->
  (length l = left /\ stops is_hex s /\ stops (Z.eqb 46) s \/ ends_groups s) ->
  read_groups left i (sep i ++ fmt_segments l ++ s) = (l, false, s).
Proof.
  intros Hl. revert left i. induction Hl as [|g l Hg Hl IH]; intros left i Hlen Hne Hs; [done|].
  destruct left as [|left]; cbn [length] in Hlen; [lia|]. cbn [read_groups].
  set (rest := match l with [] => s | _ => [58] ++ fmt_segments l ++ s end).
  assert (fmt_segments (g :: l) ++ s = fmt_hex_go 4 g ++ rest) as ->.
  { unfold fmt_segments, rest. destruct l; [done|]. cbn [map join]. by rewrite <- !app_assoc. }
  assert (stops is_hex rest /\ stops (Z.eqb 46) rest) as [Hr1 Hr2].
  { unfold rest. destruct l; [|done]. destruct Hs as [(_ & ? & ?)|?]; [done|by apply ends_stops]. }
  assert (forall A (f : str -> option (A * str)), read_colon i f (sep i ++ fmt_hex_go 4 g ++ rest) = f (fmt_hex_go 4 g ++ rest)) as Hc.
  { intros A f. by destruct i. }
  rewrite !Hc, read_group_fmt, read_ipv4_none; try done.
  2:{ apply take_digits_hex; [apply fmt_hex_all; unfold uint in Hg; lia|done|done]. }
  assert (read_groups left (S i) rest = (l, false, s)) as ->; [|by destruct (1 <=? left)%nat].
  unfold rest. destruct l as [|h l].
  - destruct Hs as [(E & _ & _)|Hs]; [|by apply read_no_group]. cbn in E. by replace left with 0%nat by lia.
  - change [58] with (sep (S i)). apply IH; [lia|done|]. destruct Hs as [(E & ?)|?]; [left; cbn in E |- *; split; [lia|done]|by right].
Qed.

(** *** The segments of an address, and the run that is abbreviated *)
Lemma v6_segment_u16 a i : u16 (v6_segment a i).
Proof. unfold v6_segment, uint. change 65535 with (Z.ones 16). rewrite Z.land_ones by lia. apply Z.mod_pos_bound. lia. Qed.
Lemma v6_segments_u16 a : Forall u16 (v6_segments a).
Proof. apply Forall_map, Forall_forall. intros i _. apply v6_segment_u16. Qed.

Lemma of_segments_v6 a : uint 128 a -> of_segments (v6_segments a) = a.
Proof.
  intros Ha. unfold uint in Ha. unfold of_segments, v6_segments, v6_segment. cbn [seq map fold_left].
  change 65535 with (Z.ones 16). rewrite !Z.land_ones, !Z.shiftr_div_pow2 by lia.
  repeat match goal with |- context [2 ^ (16 * ?e)] => let v := eval compute in (2 ^ (16 * e)) in change (2 ^ (16 * e)) with v end.
  change (2 ^ 16) with 65536. change (2 ^ 128) with 340282366920938463463374607431768211456 in Ha.
  rewrite Z.div_1_r. Z.div_mod_to_equations. lia.
Qed.

Lemma zero_run_spec l : take (zero_run l) l = replicate (zero_run l) 0 /\ (zero_run l <= length l)%nat.
Proof.
  induction l as [|z l [IH1 IH2]]; [done|]. cbn [zero_run]. destruct z; cbn; (split; [|lia]); try done. by rewrite IH1.
Qed.
Lemma longest_zeros_spec l k : let '(j, n) := longest_zeros k l in
  (k <= j)%nat /\ (j - k + n <= length l)%nat /\ take n (drop (j - k) l) = replicate n 0.
Proof.
  revert k. induction l as [|z l IH]; intros k; cbn [longest_zeros]; [rewrite Nat.sub_diag; cbn; auto with lia|].
  specialize (IH (S k)). destruct (longest_zeros (S k) l) as [j m]. destruct IH as (Hj & Hn & Hz).
  destruct (m <=? zero_run (z :: l))%nat.
  - rewrite Nat.sub_diag. destruct (zero_run_spec (z :: l)) as [H1 H2]. split_and!; [lia|lia|exact H1].
  - replace (j - k)%nat with (S (j - S k)) by lia. cbn [length drop]. split_and!; [lia|lia|exact Hz].
Qed.
Lemma abbreviated l : let '(j, n) := longest_zeros 0 l in
  (j + n <= length l)%nat /\ l = take j l ++ replicate n 0 ++ drop (j + n) l.
Proof.
  pose proof (longest_zeros_spec l 0) as H. destruct (longest_zeros 0 l) as [j n]. rewrite Nat.sub_0_r in H.
  destruct H as (_ & Hn & Hz). split; [lia|]. rewrite <- Hz, <- (take_drop j l) at 1. f_equal.
  rewrite <- (take_drop n (drop j l)) at 1. by rewrite drop_drop.
Qed.

Lemma read_groups_some l left s : Forall u16 l -> (length l <= left)%nat -> ends_groups s ->
  read_groups left 0 (fmt_segments l ++ s) = (l, false, s).
Proof.
  intros Hl Hn Hs. destruct l as [|g l]; [by apply read_no_group|]. apply (read_groups_fmt (g :: l) left 0); auto.
Qed.

(** The address that follows is neither a group nor a colon. *)
Definition ends_addr (s : str) : Prop := stops (fun b => is_hex b || (b =? 46) || (b =? 58)) s.
Lemma ends_addr_groups s : ends_addr s -> ends_groups s /\ stops is_hex s /\ stops (Z.eqb 46) s.
Proof.
  destruct s as [|b s]; [done|]. unfold ends_addr, stops. rewrite !orb_false_iff. intros [[H1 H2] H3].
  rewrite Z.eqb_sym in H2. split; [|done]. unfold ends_groups. apply Z.eqb_neq in H3. repeat (case_match; try done).
Qed.

Lemma read_abbreviated h t n s : Forall u16 h -> Forall u16 t -> (length h + n + length t = 8)%nat -> (2 <= n)%nat -> ends_groups s ->
  read_ipv6 (fmt_segments h ++ lit "::" ++ fmt_segments t ++ s) = Some (of_segments (h ++ replicate n 0 ++ t), s).
Proof.
  intros Hh Ht Hn H2 Hs. unfold read_ipv6. rewrite read_groups_some by (done || lia).
  rewrite (proj2 (Nat.eqb_neq _ _)) by lia.
  change (lit "::" ++ fmt_segments t ++ s) with (58 :: 58 :: fmt_segments t ++ s).
  cbn [read_char]. rewrite Z.eqb_refl. cbn [mbind option_bind read_char]. rewrite Z.eqb_refl. cbn [mbind option_bind].
  rewrite read_groups_some by (done || lia). by replace (8 - length h - length t)%nat with n by lia.
Qed.

Lemma read_mapped v s : u32 v -> ends_addr s ->
  read_ipv6 (lit "::ffff:" ++ fmt_ipv4 v ++ s) = Some (65535 * 2 ^ 32 + v, s).
Proof.
  intros Hv Hs. unfold read_ipv6. rewrite read_no_group by done. cbn [length Nat.eqb mbind option_bind].
  change (lit "::ffff:" ++ fmt_ipv4 v ++ s) with (58 :: 58 :: lit "ffff:" ++ fmt_ipv4 v ++ s).
  cbn [read_char]. rewrite Z.eqb_refl. cbn [mbind option_bind read_char]. rewrite Z.eqb_refl.
  cbn [mbind option_bind length]. replace (7 - 0)%nat with 7%nat by lia.
  change (lit "ffff:" ++ fmt_ipv4 v ++ s) with (fmt_hex_go 4 65535 ++ 58 :: fmt_ipv4 v ++ s).
  cbn [read_groups]. rewrite read_ipv4_none by (apply take_digits_hex; [by apply fmt_hex_all|done|done]).
  cbn [Nat.leb read_colon]. rewrite read_group_fmt by done. cbn [read_groups read_colon read_char Nat.leb].
  rewrite Z.eqb_refl. cbn [mbind option_bind]. rewrite read_ipv4_fmt; [|done|].
  2:{ destruct s as [|b s]; [done|]. unfold ends_addr, stops, is_hex, hex_value in Hs. by destruct (in_range 48 57 b). }
  cbn [length app replicate Nat.sub]. unfold of_segments. cbn [fold_left]. f_equal. f_equal.
  pose proof (Z.div_mod v 65536). lia.
Qed.

Lemma read_ipv6_fmt a s : uint 128 a -> ends_addr s -> read_ipv6 (fmt_ipv6 a ++ s) = Some (a, s).
Proof.
  intros Ha Hs. destruct (ends_addr_groups s Hs) as (Hg & Hh & Hd). unfold fmt_ipv6. destruct (Z.shiftr a 32 =? 65535) eqn:E.
  - bools. rewrite <- app_assoc. rewrite Z.shiftr_div_pow2 in E by lia. change (2 ^ 32 - 1) with (Z.ones 32). rewrite Z.land_ones by lia.
    rewrite read_mapped by (done || apply Z.mod_pos_bound; lia). do 2 f_equal. rewrite <- E. pose proof (Z.div_mod a (2 ^ 32)). lia.
  - pose proof (abbreviated (v6_segments a)) as H. destruct (longest_zeros 0 (v6_segments a)) as [j n]. destruct H as [Hn Hl].
    pose proof (v6_segments_u16 a) as H16. change (length (v6_segments a)) with 8%nat in Hn.
    destruct (1 <? n)%nat eqn:E1; bools.
    + rewrite <- !app_assoc. rewrite (read_abbreviated _ _ n); [rewrite <- Hl; by rewrite of_segments_v6| | | |lia|done].
      { by apply Forall_take. } { by apply Forall_drop. }
      rewrite length_take, length_drop. change (length (v6_segments a)) with 8%nat. lia.
    + unfold read_ipv6. pose proof (read_groups_fmt (v6_segments a) 8 0 s H16 ltac:(done) ltac:(done) ltac:(by left)) as Hr.
      cbn [sep app] in Hr. rewrite Hr.
      change (length (v6_segments a)) with 8%nat. by rewrite Nat.eqb_refl, of_segments_v6.
Qed.

(** ** Addresses read back *)
Definition ip_ok (a : IpAddr) : Prop := match a with V4 a => u32 a | V6 a => uint 128 a end.
Definition socket_ok (a : SocketAddr) : Prop :=
  match a with
  | SockV4 ip port => u32 ip /\ u16 port
  | SockV6 ip port flowinfo scope => uint 128 ip /\ u16 port /\ flowinfo = 0 /\ u32 scope
  end.

Lemma parse_plain_fmt w z : 0 <= w <= 128 -> uint w z -> parse_plain w (fmt_dec z) = Some z.
Proof.
  intros Hw Hz. unfold uint in Hz. destruct (fmt_dec_digits z) as [Hne _]; [lia|]. unfold parse_plain.
  destruct (fmt_dec z) eqn:E; [done|]. rewrite <- E. apply parse_dec_digits; [lia| |lia].
  eapply Z.lt_le_trans; [apply Hz|]. transitivity (2 ^ 128); [apply Z.pow_le_mono_r; lia|by apply Z.leb_le; vm_compute].
Qed.

Lemma read_scope_fmt scope s : u32 scope -> stops (in_range 48 57) s -> stops (Z.eqb 37) s ->
  read_scope ((if scope =? 0 then [] else lit "%" ++ fmt_dec scope) ++ s) = Some (scope, s).
Proof.
  intros Hu Hs H37. unfold read_scope. destruct (scope =? 0) eqn:E; bools.
  - subst. cbn [app]. unfold read_char. destruct s as [|b s]; [done|]. unfold stops in H37. by rewrite Z.eqb_sym, H37.
  - change ((lit "%" ++ fmt_dec scope) ++ s) with (37 :: fmt_dec scope ++ s). cbn [read_char]. rewrite Z.eqb_refl.
    rewrite take_digits_app; [|apply fmt_dec_digits; unfold uint in Hu; lia|exact Hs].
    rewrite parse_plain_fmt by (done || lia). cbn [mbind option_bind]. by rewrite drop_app_length.
Qed.

(** Every socket address is read back from its text; the flow label is lost. *)
Lemma socket_reads_back a : socket_ok a -> parse_socket_addr (SocketAddr_fmt a) = Some a.
Proof.
  destruct a as [ip port|ip port flow scope]; intros H.
  - destruct H. by apply parse_socket_v4_fmt.
  - destruct H as (Hi & Hp & -> & Hs). unfold parse_socket_addr. cbn [SocketAddr_fmt].
    set (t := fmt_ipv6 ip ++ (if scope =? 0 then [] else lit "%" ++ fmt_dec scope) ++ lit "]:" ++ fmt_dec port).
    change (lit "[" ++ t) with (91 :: t).
    replace (parse_socket_v4 (91 :: t)) with (@None SocketAddr) by (unfold parse_socket_v4; by rewrite read_ipv4_none).
    unfold parse_socket_v6. cbn [read_char]. rewrite Z.eqb_refl. cbn [mbind option_bind]. unfold t.
    rewrite read_ipv6_fmt; [|done|by destruct (scope =? 0)]. cbn [mbind option_bind].
    rewrite read_scope_fmt by done. cbn [mbind option_bind].
    change (lit "]:" ++ fmt_dec port) with (93 :: 58 :: fmt_dec port). cbn [read_char]. rewrite Z.eqb_refl.
    cbn [mbind option_bind read_char]. rewrite Z.eqb_refl. cbn [mbind option_bind].
    by rewrite parse_plain_fmt by (done || lia).
Qed.

Lemma fmt_segments_no_dot l : Forall u16 l -> 46 ∉ fmt_segments l.
Proof.
  intros Hl. unfold fmt_segments. induction Hl as [|g l Hg Hl IH]; [by apply not_elem_of_nil|].
  assert (46 ∉ fmt_hex_go 4 g) as Hh.
  { intros H. assert (0 <= g) as H0 by (unfold uint in Hg; lia). pose proof (fmt_hex_all 4 g H0) as Ha.
    rewrite Forall_forall in Ha. by specialize (Ha 46 H). }
  destruct l as [|h l]; [done|]. cbn [map join] in *. rewrite !elem_of_app. intros [?|[?|?]]; [done| |done]. set_solver.
Qed.

Lemma parse_octet_long s : (3 < length s)%nat -> parse_octet s = None.
Proof. intros H. destruct s as [|b s]; [done|]. unfold parse_octet. case_match; [done|]. rewrite (proj2 (Z.ltb_lt _ _)); [done|lia]. Qed.

Lemma fmt_ipv6_no_v4 a : uint 128 a -> parse_ipv4 (fmt_ipv6 a) = None.
Proof.
  intros Ha. unfold parse_ipv4, fmt_ipv6. destruct (Z.shiftr a 32 =? 65535).
  - case_match; [done|]. set (v := Z.land a (2 ^ 32 - 1)). unfold fmt_ipv4, octets.
    pose proof (to_be_length 4 v) as Hl. pose proof (to_be_ok 4 v) as Hb. destruct (to_be 4 v) as [|x [|y [|z [|t [|]]]]]; try done.
    assert (Forall (fun p => 46 ∉ p) (map fmt_dec [x; y; z; t])) as Hd.
    { apply Forall_map. eapply Forall_impl; [exact Hb|]. intros b Hu H46. destruct (fmt_dec_digits b) as [_ Hf]; [unfold uint in Hu; lia|].
      rewrite Forall_forall in Hf. specialize (Hf 46 H46). lia. }
    cbn [map] in Hd |- *. apply Forall_cons in Hd as [Hx Hd].
    assert (lit "::ffff:" ++ join [46] [fmt_dec x; fmt_dec y; fmt_dec z; fmt_dec t]
      = join [46] ((lit "::ffff:" ++ fmt_dec x) :: map fmt_dec [y; z; t])) as -> by reflexivity.
    rewrite split_on_join; [|done|].
    + cbn [map]. replace (parse_octet (lit "::ffff:" ++ fmt_dec x)) with (@None Z); [done|].
      symmetry. apply parse_octet_long. rewrite length_app. change (length (lit "::ffff:")) with 7%nat. lia.
    + constructor; [|done]. rewrite elem_of_app. intros [H46|?]; [|done]. revert H46. by apply (bool_decide_unpack (46 ∉ lit "::ffff:")); vm_compute.
  - case_match; [done|]. pose proof (v6_segments_u16 a) as Hs. destruct (longest_zeros 0 (v6_segments a)) as [j n].
    rewrite split_on_none; [done|]. destruct (1 <? n)%nat; [|by apply fmt_segments_no_dot].
    rewrite !elem_of_app. intros [Q|[Q|Q]]; revert Q; [by apply fmt_segments_no_dot, Forall_take| |by apply fmt_segments_no_dot, Forall_drop].
    by apply (bool_decide_unpack (46 ∉ lit "::")); vm_compute.
Qed.

(** ** Addresses as text *)
Definition octet_ok (o : Z) : bool :=
  bool_decide (parse_octet (fmt_dec o) = Some o) && (length (fmt_dec o) <=? 3)%nat && bool_decide (46 ∉ fmt_dec o).
Lemma octets_ok o : u8 o -> octet_ok o = true.
Proof.
  assert (Forall (fun o => octet_ok o = true) (map Z.of_nat (seq 0 256))) as H by (apply (bool_decide_unpack _); vm_compute; exact I).
  intros Ho. apply (proj1 (Forall_forall _ _) H). replace o with (Z.of_nat (Z.to_nat o)) by (unfold uint in Ho; lia).
  apply list_elem_of_In, in_map, in_seq. unfold uint in Ho. lia.
Qed.
Lemma octet_parts o : u8 o -> parse_octet (fmt_dec o) = Some o /\ (length (fmt_dec o) <= 3)%nat /\ 46 ∉ fmt_dec o.
Proof.
  intros Ho. pose proof (octets_ok o Ho) as H. unfold octet_ok in H.
  rewrite !andb_true_iff, !bool_decide_eq_true, Nat.leb_le in H. tauto.
Qed.
Lemma parse_fmt_ipv4 a : uint 32 a -> parse_ipv4 (fmt_ipv4 a) = Some a.
Proof.
  intros Ha. pose proof (to_be_ok 4 a) as Hok. pose proof (from_to_be 4 a Ha) as Hfrom.
  unfold fmt_ipv4, octets. pose proof (to_be_length 4 a) as Hlen. revert Hok Hfrom Hlen. generalize (to_be 4 a). intros l Hok Hfrom Hlen.
  destruct l as [|o1 [|o2 [|o3 [|o4 [|]]]]]; try done. inv Hok. repeat match goal with H : Forall _ (_ :: _) |- _ => inv H end.
  destruct (octet_parts o1) as (P1 & L1 & D1), (octet_parts o2) as (P2 & L2 & D2), (octet_parts o3) as (P3 & L3 & D3),
    (octet_parts o4) as (P4 & L4 & D4); [done..|].
  unfold parse_ipv4. rewrite split_on_join; [|done|by repeat constructor].
  destruct (Z.ltb_spec 15 (Z.of_nat (length (join [46] (map fmt_dec [o1; o2; o3; o4]))))) as [Hl|_].
  { cbn [map join] in Hl. rewrite !length_app in Hl. cbn [length] in Hl. lia. }
  cbn [map]. rewrite P1. cbn [mbind option_bind]. rewrite P2. cbn [mbind option_bind]. rewrite P3. cbn [mbind option_bind]. rewrite P4.
  done.
Qed.

Lemma ip_reads_back a : ip_ok a -> parse_ip (fmt_ip a) = Some a.
Proof.
  destruct a as [a|a]; intros Ha; unfold parse_ip; cbn [fmt_ip].
  - by rewrite parse_fmt_ipv4.
  - rewrite fmt_ipv6_no_v4 by done. unfold parse_ipv6, parsed. rewrite <- (app_nil_r (fmt_ipv6 a)). by rewrite read_ipv6_fmt.
Qed.
