(* ===== verification/ServerConfig.v ===== *)
(** * Server configuration

    src/crates/corevpn-config/src/server.rs: the settings with their default
    values and [ServerConfig::validate]; the files are in ServerToml.v.  A
    [SecretString] is the string it
    holds, a [PathBuf] the bytes of the path.  Networks are those of the crate
    [ipnet]; [IpNetText] adds their [FromStr] and [netmask] to the interface
    [IpNet]. *)
From S2P Require Import Prelude Text Network Addr.
Local Open Scope Z_scope.

(** [ConfigError]; [std::io::Error] carries no payload. *)
Inductive ConfigError :=
| ConfigIoError
| SerializationError (msg : str)
| ValidationError (msg : str)
| MissingField (field : str).

(** [Display] of [ConfigError]; the message of an I/O error is the system's. *)
Definition ConfigError_fmt (io : str) (e : ConfigError) : str :=
  match e with
  | ConfigIoError => lit "IO error: " ++ io
  | SerializationError m => lit "serialization error: " ++ m
  | ValidationError m => lit "validation error: " ++ m
  | MissingField m => lit "missing required field: " ++ m
  end.

(** [FromStr] (the network or the message of the error) and [netmask]. *)
Class IpNetText (w : Z) (N : Type) := {
  net_parse : str -> N + str;
  net_netmask : N -> Z;
}.
Class IpNetTextLaws (w : Z) (N : Type) `{IpNet w N} `{IpNetText w N} : Prop := {
  netmask_eq n : net_netmask n = 2 ^ w - 2 ^ (w - prefix_len n);
}.

(** ** Settings *)
Record ServerSettings := mkServerSettings {
  sv_listen_addr : SocketAddr;
  sv_tcp_listen_addr : option SocketAddr;
  sv_public_host : str;
  sv_protocol : str;
  sv_max_clients : Z;
  sv_data_dir : str;
  sv_idle_timeout_sec : Z;
}.

Record NetworkSettings := mkNetworkSettings {
  nw_subnet : str;
  nw_subnet_v6 : option str;
  nw_dns : list str;
  nw_dns_search : list str;
  nw_push_routes : list str;
  nw_redirect_gateway : bool;
  nw_mtu : Z;
}.

Record SecuritySettings := mkSecuritySettings {
  sc_cipher : str;
  sc_tls_min_version : str;
  sc_tls_auth : bool;
  sc_tls_crypt : bool;
  sc_cert_lifetime_days : Z;
  sc_client_cert_lifetime_days : Z;
  sc_reneg_sec : Z;
  sc_pfs : bool;
}.

Record OAuthSettings := mkOAuthSettings {
  oa_enabled : bool;
  oa_provider : str;
  oa_client_id : str;
  oa_client_secret : str;
  oa_issuer_url : option str;
  oa_tenant_id : option str;
  oa_domain : option str;
  oa_allowed_domains : list str;
  oa_required_groups : list str;
  oa_oauth_port : Z;
  oa_external_url : option str;
  oa_session_lifetime_sec : Z;
}.

Inductive ConnectionLogMode := LogNone | LogMemory | LogFile | LogDatabase | LogBoth.

Record ConnectionLogEvents := mkLogEvents {
  le_attempts : bool;
  le_connects : bool;
  le_disconnects : bool;
  le_auth_events : bool;
  le_transfer_stats : bool;
  le_ip_changes : bool;
  le_renegotiations : bool;
}.

Record ConnectionLogAnonymization := mkLogAnonymization {
  an_hash_client_ips : bool;
  an_truncate_client_ips : bool;
  an_hash_usernames : bool;
  an_round_timestamps : bool;
  an_aggregate_transfer_stats : bool;
}.

Record ConnectionLogRetention := mkLogRetention {
  rt_days : Z;
  rt_max_file_size_mb : Z;
  rt_max_files : Z;
  rt_auto_purge : bool;
  rt_secure_delete : bool;
}.

Record LoggingSettings := mkLogging {
  lg_level : str;
  lg_format : str;
  lg_file : option str;
  lg_connection_mode : ConnectionLogMode;
  lg_connection_log_file : option str;
  lg_connection_log_db : option str;
  lg_connection_events : ConnectionLogEvents;
  lg_anonymization : ConnectionLogAnonymization;
  lg_retention : ConnectionLogRetention;
  lg_log_connections : bool;
}.

Record AdminSettings := mkAdmin {
  ad_enabled : bool;
  ad_listen_addr : SocketAddr;
  ad_api_key : option str;
  ad_allowed_ips : list str;
}.

Inductive AuditSinkConfig :=
| AwsCloudwatch (region log_group log_stream : str) (profile role_arn : option str)
| AwsS3 (region bucket prefix : str) (profile : option str)
| AwsSecurityHub (region account_id : str) (profile : option str)
| AwsEventBridge (region event_bus : str) (profile : option str)
| AzureMonitor (workspace_id shared_key log_type : str)
| AzureEventHub (namespace event_hub policy_name policy_key : str)
| AzureSentinel (workspace_id shared_key log_type : str)
| OracleLogging (region log_id tenancy_id user_id fingerprint private_key : str)
| OracleStreaming (region stream_id tenancy_id user_id fingerprint private_key : str)
| Elasticsearch (urls : list str) (index : str) (username password api_key : option str)
| Splunk (url token sourcetype : str) (index : option str)
| Kafka (brokers : list str) (topic : str) (sasl_username sasl_password : option str)
| Syslog (address : str) (port : Z) (protocol : str) (use_cef use_leef : bool)
| Webhook (url : str) (headers : gmap str str) (bearer_token api_key_header api_key_value : option str)
| AuditFile (path format : str) (max_size_mb max_files : Z).

Record AuditSettings := mkAudit {
  au_enabled : bool;
  au_buffer_size : Z;
  au_include_source_ip : bool;
  au_include_user_identity : bool;
  au_hash_sensitive_fields : bool;
  au_sinks : list AuditSinkConfig;
}.

Record ServerConfig := mkServerConfig {
  cfg_server : ServerSettings;
  cfg_network : NetworkSettings;
  cfg_security : SecuritySettings;
  cfg_oauth : option OAuthSettings;
  cfg_logging : LoggingSettings;
  cfg_admin : AdminSettings;
  cfg_audit : AuditSettings;
}.

(** ** Default values *)
Definition default_idle_timeout : Z := 300.
Definition default_listen_addr : SocketAddr := SocketAddr_new (V4 0) 1194.
Definition default_protocol : str := lit "udp".
Definition default_max_clients : Z := 1000.
Definition default_data_dir : str := lit "/var/lib/corevpn".
Definition default_subnet : str := lit "10.8.0.0/24".
Definition default_dns : list str := [lit "1.1.1.1"; lit "1.0.0.1"].
Definition default_redirect_gateway : bool := true.
Definition default_mtu : Z := 1420.
Definition default_cipher : str := lit "chacha20-poly1305".
Definition default_tls_version : str := lit "1.3".
Definition default_true : bool := true.
Definition default_cert_lifetime : Z := 3650.
Definition default_client_cert_lifetime : Z := 90.
Definition default_reneg_sec : Z := 3600.
Definition default_session_lifetime : Z := 86400.
Definition default_oauth_port : Z := 9000.
Definition default_retention_days : Z := 7.
Definition default_max_log_size_mb : Z := 100.
Definition default_max_log_files : Z := 5.
Definition default_log_level : str := lit "info".
Definition default_log_format : str := lit "pretty".
Definition default_admin_addr : SocketAddr := SocketAddr_new (V4 (from_be [127; 0; 0; 1])) 8443.
Definition default_audit_buffer : Z := 10000.
Definition default_cloudwatch_stream : str := lit "corevpn-audit-{date}".
Definition default_s3_prefix : str := lit "audit-logs/{date}/{hour}/".
Definition default_event_bus : str := lit "default".
Definition default_azure_log_type : str := lit "CoreVPNAudit".
Definition default_sentinel_log_type : str := lit "CoreVPNSecurity".
Definition default_es_index : str := lit "corevpn-audit-{date}".
Definition default_splunk_sourcetype : str := lit "corevpn:audit".
Definition default_syslog_port : Z := 514.
Definition default_syslog_protocol : str := lit "udp".
Definition default_audit_format : str := lit "json".
Definition default_max_size : Z := 100.
Definition default_max_files : Z := 10.

(** The derived [Default] of both sets of switches is all [false]. *)
Definition ConnectionLogEvents_default : ConnectionLogEvents :=
  mkLogEvents false false false false false false false.
(** What an empty [connection_events] table of the file is read as. *)
Definition ConnectionLogEvents_from_empty : ConnectionLogEvents :=
  mkLogEvents false default_true default_true false false false false.
Definition ConnectionLogAnonymization_default : ConnectionLogAnonymization :=
  mkLogAnonymization false false false false false.
Definition ConnectionLogMode_default : ConnectionLogMode := LogMemory.
Definition ConnectionLogRetention_default : ConnectionLogRetention :=
  mkLogRetention default_retention_days default_max_log_size_mb default_max_log_files true false.
Definition LoggingSettings_default : LoggingSettings :=
  mkLogging default_log_level default_log_format None ConnectionLogMode_default None None
    ConnectionLogEvents_default ConnectionLogAnonymization_default ConnectionLogRetention_default true.
Definition AdminSettings_default : AdminSettings :=
  mkAdmin false default_admin_addr None [lit "127.0.0.1"].
Definition AuditSettings_default : AuditSettings := mkAudit false 10000 true true false [].

Definition ServerConfig_default_config (public_host : str) : ServerConfig :=
  mkServerConfig
    (mkServerSettings default_listen_addr None public_host default_protocol default_max_clients
       default_data_dir default_idle_timeout)
    (mkNetworkSettings default_subnet None default_dns [] [] default_redirect_gateway default_mtu)
    (mkSecuritySettings default_cipher default_tls_version true false default_cert_lifetime
       default_client_cert_lifetime default_reneg_sec true)
    None LoggingSettings_default AdminSettings_default AuditSettings_default.

(** ** Paths *)
Definition ServerConfig_data_dir (c : ServerConfig) : str := sv_data_dir (cfg_server c).
Definition ServerConfig_ca_cert_path (c : ServerConfig) : str :=
  path_join (sv_data_dir (cfg_server c)) (lit "ca.crt").
Definition ServerConfig_ca_key_path (c : ServerConfig) : str :=
  path_join (sv_data_dir (cfg_server c)) (lit "ca.key").
Definition ServerConfig_server_cert_path (c : ServerConfig) : str :=
  path_join (sv_data_dir (cfg_server c)) (lit "server.crt").
Definition ServerConfig_server_key_path (c : ServerConfig) : str :=
  path_join (sv_data_dir (cfg_server c)) (lit "server.key").
Definition ServerConfig_ta_key_path (c : ServerConfig) : str :=
  path_join (sv_data_dir (cfg_server c)) (lit "ta.key").
Definition ServerConfig_dh_path (c : ServerConfig) : str :=
  path_join (sv_data_dir (cfg_server c)) (lit "dh.pem").

(** ** Validation *)
(** [if bad { return Err(..) }] *)
Definition reject (bad : bool) (e : ConfigError) : res ConfigError unit := if bad then Err e else Ok tt.

(** [for (idx, x) in l.iter().enumerate() { f(idx, x)?; }] *)
Fixpoint for_each {A} (f : nat -> A -> res ConfigError unit) (idx : nat) (l : list A) :
    res ConfigError unit :=
  match l with
  | [] => Ok tt
  | x :: l' => _ ← f idx x; for_each f (S idx) l'
  end.

Section Validate.
Context {N4 N6 : Type} `{Net4 : !IpNetText 32 N4} `{Net6 : !IpNetText 128 N6} {UC : Unicode}.

Definition hostname_char (c : str) : bool :=
  uc_alphanumeric c || bool_decide (c = lit "-") || bool_decide (c = lit ".").

Definition validate_label (label : str) : res ConfigError unit :=
  _ ← reject (bool_decide (label = [])) (ValidationError (lit "Hostname labels cannot be empty"));
  reject (63 <? length label)%nat
    (ValidationError (lit "Hostname label '" ++ label ++ lit "' exceeds maximum length (63 characters)")).

Definition ServerConfig_validate_hostname_or_ip (host : str) : res ConfigError unit :=
  if is_some (parse_ip host) then Ok tt else
  _ ← reject (bool_decide (host = [])) (ValidationError (lit "Hostname cannot be empty"));
  _ ← reject (253 <? length host)%nat
        (ValidationError (lit "Hostname exceeds maximum length (253 characters)"));
  _ ← reject (negb (forallb hostname_char (chars host)))
        (ValidationError (lit "Hostname contains invalid characters"));
  _ ← reject (starts_with (lit ".") host || ends_with (lit ".") host)
        (ValidationError (lit "Hostname cannot start or end with a dot"));
  _ ← reject (starts_with (lit "-") host || ends_with (lit "-") host)
        (ValidationError (lit "Hostname cannot start or end with a hyphen"));
  _ ← reject (contains (lit "..") host)
        (ValidationError (lit "Hostname cannot contain consecutive dots"));
  for_each (fun _ label => validate_label label) 0 (split_on 46 host).

Definition validate_subnet (s : str) : res ConfigError unit :=
  match net_parse (w := 32) (N := N4) s with
  | inl _ => Ok tt
  | inr e => Err (ValidationError (lit "invalid subnet: " ++ e))
  end.
Definition validate_subnet_v6 (o : option str) : res ConfigError unit :=
  match o with
  | None => Ok tt
  | Some s =>
      match net_parse (w := 128) (N := N6) s with
      | inl _ => Ok tt
      | inr e => Err (ValidationError (lit "invalid IPv6 subnet: " ++ e))
      end
  end.
Definition validate_dns (idx : nat) (dns : str) : res ConfigError unit :=
  match parse_ip dns with
  | Some _ => Ok tt
  | None =>
      Err (ValidationError (lit "invalid DNS server #" ++ fmt_dec (Z.of_nat idx + 1) ++ lit " '" ++ dns
             ++ lit "': invalid IP address syntax"))
  end.
Definition validate_search (idx : nat) (domain : str) : res ConfigError unit :=
  _ ← reject (bool_decide (domain = []))
        (ValidationError (lit "DNS search domain #" ++ fmt_dec (Z.of_nat idx + 1) ++ lit " cannot be empty"));
  reject (253 <? length domain)%nat
    (ValidationError (lit "DNS search domain #" ++ fmt_dec (Z.of_nat idx + 1)
       ++ lit " exceeds maximum length (253 characters)")).
(** [parse().is_ok()]. *)
Definition is_v4_net (s : str) : bool :=
  match net_parse (w := 32) (N := N4) s with inl _ => true | inr _ => false end.
Definition is_v6_net (s : str) : bool :=
  match net_parse (w := 128) (N := N6) s with inl _ => true | inr _ => false end.
Definition validate_route (idx : nat) (route : str) : res ConfigError unit :=
  reject (negb (is_v4_net route) && negb (is_v6_net route))
    (ValidationError (lit "invalid push route #" ++ fmt_dec (Z.of_nat idx + 1) ++ lit " '" ++ route
       ++ lit "': must be valid IPv4 or IPv6 network")).
Definition validate_oauth (o : option OAuthSettings) : res ConfigError unit :=
  match o with
  | Some oauth =>
      if oa_enabled oauth then
        _ ← reject (bool_decide (oa_client_id oauth = [])) (MissingField (lit "oauth.client_id"));
        reject (bool_decide (oa_client_secret oauth = [])) (MissingField (lit "oauth.client_secret"))
      else Ok tt
  | None => Ok tt
  end.
Definition validate_ports (c : ServerConfig) : res ConfigError unit :=
  _ ← reject (SocketAddr_port (sv_listen_addr (cfg_server c)) =? 0)
        (ValidationError (lit "Server listen port cannot be 0"));
  _ ← (match sv_tcp_listen_addr (cfg_server c) with
       | Some tcp_addr => reject (SocketAddr_port tcp_addr =? 0)
                            (ValidationError (lit "TCP listen port cannot be 0"))
       | None => Ok tt
       end);
  reject (SocketAddr_port (ad_listen_addr (cfg_admin c)) =? 0)
    (ValidationError (lit "Admin API listen port cannot be 0")).
Definition validate_limits (c : ServerConfig) : res ConfigError unit :=
  _ ← reject (sv_max_clients (cfg_server c) =? 0)
        (ValidationError (lit "max_clients must be greater than 0"));
  _ ← reject (100000 <? sv_max_clients (cfg_server c))
        (ValidationError (lit "max_clients exceeds maximum allowed value (100000)"));
  let sec := cfg_security c in
  _ ← reject (sc_cert_lifetime_days sec =? 0)
        (ValidationError (lit "cert_lifetime_days must be greater than 0"));
  _ ← reject (sc_client_cert_lifetime_days sec =? 0)
        (ValidationError (lit "client_cert_lifetime_days must be greater than 0"));
  _ ← reject (sc_cert_lifetime_days sec <? sc_client_cert_lifetime_days sec)
        (ValidationError (lit "client_cert_lifetime_days cannot exceed cert_lifetime_days"));
  _ ← reject (sc_reneg_sec sec =? 0) (ValidationError (lit "reneg_sec must be greater than 0"));
  reject ((nw_mtu (cfg_network c) <? 68) || (1500 <? nw_mtu (cfg_network c)))
    (ValidationError (lit "MTU must be between 68 and 1500")).

Definition ServerConfig_validate (c : ServerConfig) : res ConfigError unit :=
  _ ← reject (bool_decide (sv_public_host (cfg_server c) = [])) (MissingField (lit "server.public_host"));
  _ ← ServerConfig_validate_hostname_or_ip (sv_public_host (cfg_server c));
  _ ← validate_subnet (nw_subnet (cfg_network c));
  _ ← validate_subnet_v6 (nw_subnet_v6 (cfg_network c));
  _ ← for_each validate_dns 0 (nw_dns (cfg_network c));
  _ ← for_each validate_search 0 (nw_dns_search (cfg_network c));
  _ ← for_each validate_route 0 (nw_push_routes (cfg_network c));
  _ ← validate_oauth (cfg_oauth c);
  _ ← validate_ports c;
  validate_limits c.

(** ** What validation establishes *)

(** A host name: labels of 1 to 63 bytes of letters, digits and hyphens,
    separated by dots, with no hyphen at either end of the name. *)
Record hostname_ok (host : str) : Prop := {
  hn_length : (length host <= 253)%nat;
  hn_chars : Forall (fun c => hostname_char c = true) (chars host);
  hn_labels : Forall (fun l => (1 <= length l <= 63)%nat) (split_on 46 host);
  hn_first : head host <> Some 45;
  hn_last : last host <> Some 45;
}.

Record valid_config (c : ServerConfig) : Prop := {
  vc_host : is_Some (parse_ip (sv_public_host (cfg_server c)))
            \/ hostname_ok (sv_public_host (cfg_server c));
  vc_subnet : exists n : N4, net_parse (w := 32) (nw_subnet (cfg_network c)) = inl n;
  vc_subnet_v6 : forall s, nw_subnet_v6 (cfg_network c) = Some s ->
    exists n : N6, net_parse (w := 128) s = inl n;
  vc_dns : Forall (fun d => is_Some (parse_ip d)) (nw_dns (cfg_network c));
  vc_search : Forall (fun d => (1 <= length d <= 253)%nat) (nw_dns_search (cfg_network c));
  vc_routes : Forall (fun r => is_v4_net r = true \/ is_v6_net r = true) (nw_push_routes (cfg_network c));
  vc_oauth : forall o, cfg_oauth c = Some o -> oa_enabled o = true ->
    oa_client_id o <> [] /\ oa_client_secret o <> [];
  vc_port : SocketAddr_port (sv_listen_addr (cfg_server c)) <> 0;
  vc_tcp_port : forall a, sv_tcp_listen_addr (cfg_server c) = Some a -> SocketAddr_port a <> 0;
  vc_admin_port : SocketAddr_port (ad_listen_addr (cfg_admin c)) <> 0;
  vc_clients : sv_max_clients (cfg_server c) <> 0 /\ sv_max_clients (cfg_server c) <= 100000;
  vc_lifetimes : sc_cert_lifetime_days (cfg_security c) <> 0
    /\ sc_client_cert_lifetime_days (cfg_security c) <> 0
    /\ sc_client_cert_lifetime_days (cfg_security c) <= sc_cert_lifetime_days (cfg_security c);
  vc_reneg : sc_reneg_sec (cfg_security c) <> 0;
  vc_mtu : 68 <= nw_mtu (cfg_network c) <= 1500;
}.

Lemma reject_ok b e : reject b e = Ok tt <-> b = false.
Proof. by destruct b. Qed.

Lemma seq_ok (m k : res ConfigError unit) : (_ ← m; k) = Ok tt <-> m = Ok tt /\ k = Ok tt.
Proof. destruct m as [[]| |]; cbn; naive_solver. Qed.

Lemma for_each_ok {A} (f : nat -> A -> res ConfigError unit) (P : A -> Prop) i l :
  (forall i x, f i x = Ok tt <-> P x) -> for_each f i l = Ok tt <-> Forall P l.
Proof.
  intros Hf. revert i. induction l as [|x l IH]; intros i; cbn [for_each]; [done|].
  rewrite seq_ok, Hf, IH, Forall_cons. done.
Qed.

Lemma nonempty_length (s : str) : bool_decide (s = []) = false <-> (1 <= length s)%nat.
Proof. rewrite bool_decide_eq_false. destruct s; simpl; naive_solver lia. Qed.

Lemma starts_with_one b s : starts_with [b] s = false <-> head s <> Some b.
Proof.
  unfold starts_with. rewrite bool_decide_eq_false. destruct s as [|x s]; simpl; [done|].
  rewrite take_0. naive_solver.
Qed.

Lemma last_rev {A} (l : list A) : head (rev l) = last l.
Proof.
  induction l as [|x l IH] using rev_ind; [done|]. by rewrite rev_app_distr, last_snoc.
Qed.

Lemma ends_with_one b s : ends_with [b] s = false <-> last s <> Some b.
Proof. unfold ends_with. cbn [rev app]. by rewrite starts_with_one, last_rev. Qed.

(** Labels are not empty, so no dot is at an end or next to another. *)
Lemma labels_head c s : Forall (fun l => (1 <= length l)%nat) (split_on c s) -> head s <> Some c.
Proof.
  destruct s as [|b s]; [done|]. cbn [split_on head]. destruct (b =? c) eqn:Hb; bools.
  - rewrite Forall_cons. intros [H _]. simpl in H. lia.
  - congruence.
Qed.

Lemma labels_tail c b s :
  Forall (fun l => (1 <= length l)%nat) (split_on c (b :: s)) -> s <> [] -> b <> c ->
  head s = Some c \/ Forall (fun l => (1 <= length l)%nat) (split_on c s).
Proof.
  intros H Hs Hb. cbn [split_on] in H. rewrite (proj2 (Z.eqb_neq b c)) in H by done.
  destruct s as [|x s]; [done|]. cbn [split_on] in *. destruct (x =? c) eqn:Hx; bools.
  - left. by subst.
  - right. pose proof (split_on_cons c s). destruct (split_on c s) as [|p ps]; [done|].
    rewrite Forall_cons in *. destruct H as [_ H]. split; [simpl; lia|done].
Qed.

Lemma labels_after_dot c s :
  Forall (fun l => (1 <= length l)%nat) (split_on c (c :: s)) -> False.
Proof. cbn [split_on]. rewrite Z.eqb_refl, Forall_cons. intros [H _]. simpl in H. lia. Qed.

(** What follows a label and its dot is again a name. *)
Lemma labels_drop c s : Forall (fun l => (1 <= length l)%nat) (split_on c s) ->
  last s <> Some c /\ contains [c; c] s = false.
Proof.
  assert (forall n s, (length s <= n)%nat -> Forall (fun l => (1 <= length l)%nat) (split_on c s) ->
    last s <> Some c /\ contains [c; c] s = false) as Hn; [|intros; by eapply Hn].
  clear s. induction n as [|n IH]; intros s Hlen H.
  { destruct s; [done|]. simpl in Hlen. lia. }
  destruct s as [|b s]; [done|]. cbn [length] in Hlen.
  pose proof (labels_head c _ H) as Hb. cbn [head] in Hb.
  assert (b <> c) as Hbc by congruence. clear Hb.
  assert (starts_with [c; c] (b :: s) = false) as Hst.
  { unfold starts_with. apply bool_decide_eq_false. cbn. congruence. }
  cbn [contains]. rewrite Hst. cbn [orb].
  destruct s as [|x s]; [split; [simpl; congruence|done]|].
  change (last (b :: x :: s)) with (last (x :: s)).
  destruct (decide (x = c)) as [->|Hx].
  - cbn [split_on] in H. rewrite Z.eqb_refl, (proj2 (Z.eqb_neq b c)) in H by done.
    rewrite Forall_cons in H. destruct H as [_ H].
    destruct s as [|y s]; [cbn [split_on] in H; rewrite Forall_cons in H; simpl in H; lia|].
    pose proof (labels_head c _ H) as Hy. cbn [head] in Hy.
    destruct (IH (y :: s)) as [H1 H2]; [cbn [length] in *; lia|done|].
    change (last (c :: y :: s)) with (last (y :: s)). split; [done|]. cbn [contains] in H2 |- *.
    rewrite H2, orb_false_r. unfold starts_with. apply bool_decide_eq_false. cbn. congruence.
  - destruct (labels_tail c b (x :: s) H) as [Hh|Hl]; [done|done|simpl in Hh; congruence|].
    apply IH; [cbn [length] in *; lia|done].
Qed.

Lemma validate_label_ok i l : (fun (_ : nat) => validate_label) i l = Ok tt <-> (1 <= length l <= 63)%nat.
Proof.
  unfold validate_label. rewrite seq_ok, !reject_ok, nonempty_length, Nat.ltb_ge. lia.
Qed.

Lemma forallb_Forall {A} (f : A -> bool) l : forallb f l = true <-> Forall (fun x => f x = true) l.
Proof. induction l; cbn; [done|]. rewrite andb_true_iff, Forall_cons. naive_solver. Qed.

Lemma validate_hostname_ok host : host <> [] ->
  ServerConfig_validate_hostname_or_ip host = Ok tt
  <-> is_Some (parse_ip host) \/ hostname_ok host.
Proof.
  intros Hne. unfold ServerConfig_validate_hostname_or_ip.
  destruct (parse_ip host) as [a|] eqn:Hip; cbn [is_some].
  { split; [|done]. intros _. left. eauto. }
  change (lit ".") with [46]. change (lit "-") with [45]. change (lit "..") with [46; 46].
  rewrite !seq_ok, !reject_ok. rewrite bool_decide_eq_false, Nat.ltb_ge, negb_false_iff.
  rewrite !orb_false_iff, !starts_with_one, !ends_with_one, (for_each_ok _ _ _ _ validate_label_ok).
  rewrite forallb_Forall.
  split.
  - intros (_ & H1 & H2 & _ & [H3 H4] & _ & H5). right. by constructor.
  - intros [[? [=]]|[]]. 
    assert (Forall (fun l => (1 <= length l)%nat) (split_on 46 host)) as Hl.
    { eapply Forall_impl; [done|]. simpl. lia. }
    pose proof (labels_head _ _ Hl). pose proof (labels_drop _ _ Hl) as [].
    by split_and!.
Qed.

Lemma validate_dns_ok i d : validate_dns i d = Ok tt <-> is_Some (parse_ip d).
Proof. unfold validate_dns. destruct (parse_ip d); split; done. Qed.

Lemma validate_search_ok i d : validate_search i d = Ok tt <-> (1 <= length d <= 253)%nat.
Proof. unfold validate_search. rewrite seq_ok, !reject_ok, nonempty_length, Nat.ltb_ge. lia. Qed.

Lemma validate_route_ok i r : validate_route i r = Ok tt <-> is_v4_net r = true \/ is_v6_net r = true.
Proof.
  unfold validate_route. rewrite reject_ok. destruct (is_v4_net r), (is_v6_net r); simpl; naive_solver.
Qed.

Lemma validate_subnet_ok s :
  validate_subnet s = Ok tt <-> exists n : N4, net_parse (w := 32) s = inl n.
Proof. unfold validate_subnet. destruct (net_parse _); naive_solver. Qed.

Lemma validate_subnet_v6_ok o :
  validate_subnet_v6 o = Ok tt <-> forall s, o = Some s -> exists n : N6, net_parse (w := 128) s = inl n.
Proof.
  unfold validate_subnet_v6. destruct o as [s|]; [|naive_solver].
  destruct (net_parse s) as [n|e] eqn:Hs.
  - split; [|done]. intros _ s' [= <-]. eauto.
  - split; [done|]. intros H. destruct (H s eq_refl) as [n Hn]. congruence.
Qed.

Lemma validate_oauth_ok o :
  validate_oauth o = Ok tt
  <-> forall x, o = Some x -> oa_enabled x = true -> oa_client_id x <> [] /\ oa_client_secret x <> [].
Proof.
  unfold validate_oauth. destruct o as [x|]; [|done].
  destruct (oa_enabled x) eqn:He.
  - rewrite seq_ok, !reject_ok, !bool_decide_eq_false. split; [by intros H y [= <-]|].
    intros H. by apply (H x).
  - split; [|done]. intros _ y [= <-]. congruence.
Qed.

Lemma validate_valid (c : ServerConfig) :
  ServerConfig_validate c = Ok tt <-> sv_public_host (cfg_server c) <> [] /\ valid_config c.
Proof.
  unfold ServerConfig_validate. rewrite !seq_ok, reject_ok, bool_decide_eq_false.
  rewrite (for_each_ok _ _ _ _ validate_dns_ok), (for_each_ok _ _ _ _ validate_search_ok),
    (for_each_ok _ _ _ _ validate_route_ok).
  unfold validate_ports, validate_limits. cbv zeta. rewrite !seq_ok, !reject_ok, orb_false_iff.
  rewrite !Z.eqb_neq, !Z.ltb_ge.
  rewrite validate_subnet_ok, validate_subnet_v6_ok, validate_oauth_ok.
  split.
  - intros (Hne & Hh & ? & ? & ? & ? & ? & ? & (? & Ht & ?) & ?). split; [done|].
    rewrite (validate_hostname_ok _ Hne) in Hh. constructor; try done; try lia.
    intros a Ha. rewrite Ha in Ht. by apply reject_ok, Z.eqb_neq in Ht.
  - intros [Hne [? ? ? ? ? ? ? ? Ht ? [] (? & ? & ?) ? []]]. split_and!; try done.
    + by apply validate_hostname_ok.
    + destruct (sv_tcp_listen_addr (cfg_server c)); [|done]. apply reject_ok, Z.eqb_neq. by apply Ht.
Qed.

End Validate.
