(* ===== verification/ServerToml.v ===== *)
(** * Configuration files

    src/crates/corevpn-config/src/server.rs: what the derived [Serialize] and
    [Deserialize] of the settings do with the attributes of the fields, and
    [ServerConfig::save] and [load].  A [Codec] is one derived pair; [field]
    and its variants are the attributes [default], [skip_serializing] and
    [deserialize_with].

    The text is the work of the crate [toml]: the class [Toml] prints and
    parses tables, which are unordered.  Of several errors in a file the model
    reports the one of the field declared first.  The array form in which
    serde also accepts a struct is left out. *)
From S2P Require Import Prelude Text Network Addr AddrText ServerConfig.
Local Open Scope Z_scope.

(** [toml::Value]; floats and dates, which no setting has, as their text. *)
Inductive Value :=
| VString (s : str)
| VInteger (z : Z)
| VBoolean (b : bool)
| VOther (text : str)
| VArray (l : list Value)
| VTable (t : gmap str Value).
Abbreviation TomlTable := (gmap str Value).

(** The errors of serde. *)
Inductive DeError :=
| DeMissing (field : str)
| DeInvalidType
| DeInvalidValue
| DeUnknownVariant (name : str).
Inductive SeError :=
| SeOutOfRange
| SeInvalidUtf8.

(** The crate [toml]: [to_string_pretty] and [from_str] on tables, the text of
    an error with its place in the file, and the name of a unit variant. *)
Class Toml := {
  toml_print : TomlTable -> str;
  toml_parse : str -> TomlTable + str;
  toml_se_error : SeError -> str;
  toml_de_error : str -> DeError -> str;
  toml_unit_variant : Value -> str + DeError;
}.
Class TomlLaws (TM : Toml) : Prop := {
  toml_reads t : toml_parse (toml_print t) = inl t;
  toml_variant_string s : toml_unit_variant (VString s) = inl s;
}.

(** ** Types of fields

    [to_value false] is [Serialize].  [to_value true] is the value with the
    fields that [skip_serializing] leaves out, as a file has it that is
    written by hand. *)
Record Serde (A : Type) := mkSerde {
  to_value : bool -> A -> res SeError Value;
  of_value : Value -> res DeError A;
}.
Arguments mkSerde {A} _ _.
Arguments to_value {A} _ _ _.
Arguments of_value {A} _ _.

Definition string_serde : Serde str :=
  mkSerde (fun _ s => Ok (VString s))
    (fun v => match v with VString s => Ok s | _ => Err DeInvalidType end).
Definition bool_serde : Serde bool :=
  mkSerde (fun _ b => Ok (VBoolean b))
    (fun v => match v with VBoolean b => Ok b | _ => Err DeInvalidType end).
(** [u16], [u32], [u64] and [usize]; a number of TOML is an [i64]. *)
Definition int_serde (w : Z) : Serde Z :=
  mkSerde (fun _ z => if z <? 2 ^ 63 then Ok (VInteger z) else Err SeOutOfRange)
    (fun v => match v with
              | VInteger z => if bool_decide (uint w z) then Ok z else Err DeInvalidValue
              | _ => Err DeInvalidType
              end).
(** [SocketAddr] in its human-readable form. *)
Definition socket_serde : Serde SocketAddr :=
  mkSerde (fun _ a => Ok (VString (SocketAddr_fmt a)))
    (fun v => match v with VString s => ok_or (parse_socket_addr s) DeInvalidValue | _ => Err DeInvalidType end).
Definition path_serde : Serde str :=
  mkSerde (fun _ p => if utf8_valid p then Ok (VString p) else Err SeInvalidUtf8)
    (fun v => match v with VString s => Ok s | _ => Err DeInvalidType end).
Definition vec_serde {A} (ty : Serde A) : Serde (list A) :=
  mkSerde (fun full l => VArray <$> mapM (to_value ty full) l)
    (fun v => match v with VArray l => mapM (of_value ty) l | _ => Err DeInvalidType end).
Definition is_string (v : Value) : bool := match v with VString _ => true | _ => false end.
Definition string_of (v : Value) : option str := match v with VString s => Some s | _ => None end.
(** [HashMap<String, String>]. *)
Definition map_serde : Serde (gmap str str) :=
  mkSerde (fun _ m => Ok (VTable (VString <$> m)))
    (fun v => match v with
              | VTable t => if decide (map_Forall (fun _ v => is_string v = true) t)
                            then Ok (omap string_of t) else Err DeInvalidType
              | _ => Err DeInvalidType
              end).

(** ** Fields and structs *)
Record Codec (S A : Type) := mkCodec {
  cd_names : list str;
  cd_put : bool -> S -> TomlTable -> res SeError TomlTable;
  cd_get : TomlTable -> res DeError A;
}.
Arguments mkCodec {S A} _ _ _.
Arguments cd_names {S A} _.
Arguments cd_put {S A} _ _ _ _.
Arguments cd_get {S A} _ _.

Definition derive {S A} (a : A) : Codec S A := mkCodec [] (fun _ _ t => Ok t) (fun _ => Ok a).
Definition with_field {S A B} (c : Codec S (A -> B)) (d : Codec S A) : Codec S B :=
  mkCodec (cd_names c ++ cd_names d)
    (fun full s t => t' ← cd_put c full s t; cd_put d full s t')
    (fun t => f ← cd_get c t; a ← cd_get d t; Ok (f a)).
#[local] Infix "<*>" := with_field (at level 61, left associativity).

Definition put_value {A} (ty : Serde A) (full : bool) (name : str) (a : A) (t : TomlTable) : res SeError TomlTable :=
  v ← to_value ty full a; Ok (<[name := v]> t).

(** A field with [#[serde(default = ..)]], or without. *)
Definition field {S A} (name : string) (get : S -> A) (ty : Serde A) (missing : option A) : Codec S A :=
  mkCodec [lit name] (fun full s => put_value ty full (lit name) (get s))
    (fun t => match t !! lit name with
              | Some v => of_value ty v
              | None => ok_or missing (DeMissing (lit name))
              end).
Definition opt_put {A} (ty : Serde A) (full : bool) (name : str) (o : option A) (t : TomlTable) : res SeError TomlTable :=
  match o with Some a => put_value ty full name a t | None => Ok t end.
(** [Option<T>]: TOML has no null, so [None] is not written. *)
Definition field_opt {S A} (name : string) (get : S -> option A) (ty : Serde A) : Codec S (option A) :=
  mkCodec [lit name] (fun full s => opt_put ty full (lit name) (get s))
    (fun t => match t !! lit name with Some v => Some <$> of_value ty v | None => Ok None end).
(** [#[serde(skip_serializing, deserialize_with = ..)]] with no [default]:
    never written, always required. *)
Definition field_secret {S} (name : string) (get : S -> str) : Codec S str :=
  mkCodec [lit name] (fun full s t => if full then put_value string_serde full (lit name) (get s) t else Ok t)
    (fun t => match t !! lit name with
              | Some v => of_value string_serde v
              | None => Err (DeMissing (lit name))
              end).
(** The same of an [Option]: [deserialize_with] takes the default of [Option]
    away. *)
Definition field_secret_opt {S} (name : string) (get : S -> option str) : Codec S (option str) :=
  mkCodec [lit name] (fun full s t => if full then opt_put string_serde full (lit name) (get s) t else Ok t)
    (fun t => match t !! lit name with
              | Some v => Some <$> of_value string_serde v
              | None => Err (DeMissing (lit name))
              end).

Definition struct {S} (c : Codec S S) : Serde S :=
  mkSerde (fun full s => VTable <$> cd_put c full s ∅)
    (fun v => match v with VTable t => cd_get c t | _ => Err DeInvalidType end).

(** ** The settings *)
Definition ServerSettings_codec : Codec ServerSettings ServerSettings :=
  derive mkServerSettings
  <*> field "listen_addr" sv_listen_addr socket_serde (Some default_listen_addr)
  <*> field_opt "tcp_listen_addr" sv_tcp_listen_addr socket_serde
  <*> field "public_host" sv_public_host string_serde None
  <*> field "protocol" sv_protocol string_serde (Some default_protocol)
  <*> field "max_clients" sv_max_clients (int_serde 32) (Some default_max_clients)
  <*> field "data_dir" sv_data_dir path_serde (Some default_data_dir)
  <*> field "idle_timeout_sec" sv_idle_timeout_sec (int_serde 64) (Some default_idle_timeout).

Definition NetworkSettings_codec : Codec NetworkSettings NetworkSettings :=
  derive mkNetworkSettings
  <*> field "subnet" nw_subnet string_serde (Some default_subnet)
  <*> field_opt "subnet_v6" nw_subnet_v6 string_serde
  <*> field "dns" nw_dns (vec_serde string_serde) (Some default_dns)
  <*> field "dns_search" nw_dns_search (vec_serde string_serde) (Some [])
  <*> field "push_routes" nw_push_routes (vec_serde string_serde) (Some [])
  <*> field "redirect_gateway" nw_redirect_gateway bool_serde (Some default_redirect_gateway)
  <*> field "mtu" nw_mtu (int_serde 16) (Some default_mtu).

Definition SecuritySettings_codec : Codec SecuritySettings SecuritySettings :=
  derive mkSecuritySettings
  <*> field "cipher" sc_cipher string_serde (Some default_cipher)
  <*> field "tls_min_version" sc_tls_min_version string_serde (Some default_tls_version)
  <*> field "tls_auth" sc_tls_auth bool_serde (Some default_true)
  <*> field "tls_crypt" sc_tls_crypt bool_serde (Some false)
  <*> field "cert_lifetime_days" sc_cert_lifetime_days (int_serde 32) (Some default_cert_lifetime)
  <*> field "client_cert_lifetime_days" sc_client_cert_lifetime_days (int_serde 32) (Some default_client_cert_lifetime)
  <*> field "reneg_sec" sc_reneg_sec (int_serde 32) (Some default_reneg_sec)
  <*> field "pfs" sc_pfs bool_serde (Some default_true).

Definition OAuthSettings_codec : Codec OAuthSettings OAuthSettings :=
  derive mkOAuthSettings
  <*> field "enabled" oa_enabled bool_serde (Some false)
  <*> field "provider" oa_provider string_serde None
  <*> field "client_id" oa_client_id string_serde None
  <*> field_secret "client_secret" oa_client_secret
  <*> field_opt "issuer_url" oa_issuer_url string_serde
  <*> field_opt "tenant_id" oa_tenant_id string_serde
  <*> field_opt "domain" oa_domain string_serde
  <*> field "allowed_domains" oa_allowed_domains (vec_serde string_serde) (Some [])
  <*> field "required_groups" oa_required_groups (vec_serde string_serde) (Some [])
  <*> field "oauth_port" oa_oauth_port (int_serde 16) (Some default_oauth_port)
  <*> field_opt "external_url" oa_external_url string_serde
  <*> field "session_lifetime_sec" oa_session_lifetime_sec (int_serde 64) (Some default_session_lifetime).

Definition ConnectionLogEvents_codec : Codec ConnectionLogEvents ConnectionLogEvents :=
  derive mkLogEvents
  <*> field "attempts" le_attempts bool_serde (Some false)
  <*> field "connects" le_connects bool_serde (Some default_true)
  <*> field "disconnects" le_disconnects bool_serde (Some default_true)
  <*> field "auth_events" le_auth_events bool_serde (Some false)
  <*> field "transfer_stats" le_transfer_stats bool_serde (Some false)
  <*> field "ip_changes" le_ip_changes bool_serde (Some false)
  <*> field "renegotiations" le_renegotiations bool_serde (Some false).

Definition ConnectionLogAnonymization_codec : Codec ConnectionLogAnonymization ConnectionLogAnonymization :=
  derive mkLogAnonymization
  <*> field "hash_client_ips" an_hash_client_ips bool_serde (Some false)
  <*> field "truncate_client_ips" an_truncate_client_ips bool_serde (Some false)
  <*> field "hash_usernames" an_hash_usernames bool_serde (Some false)
  <*> field "round_timestamps" an_round_timestamps bool_serde (Some false)
  <*> field "aggregate_transfer_stats" an_aggregate_transfer_stats bool_serde (Some false).

Definition ConnectionLogRetention_codec : Codec ConnectionLogRetention ConnectionLogRetention :=
  derive mkLogRetention
  <*> field "days" rt_days (int_serde 32) (Some default_retention_days)
  <*> field "max_file_size_mb" rt_max_file_size_mb (int_serde 32) (Some default_max_log_size_mb)
  <*> field "max_files" rt_max_files (int_serde 32) (Some default_max_log_files)
  <*> field "auto_purge" rt_auto_purge bool_serde (Some default_true)
  <*> field "secure_delete" rt_secure_delete bool_serde (Some false).

Definition AdminSettings_codec : Codec AdminSettings AdminSettings :=
  derive mkAdmin
  <*> field "enabled" ad_enabled bool_serde (Some false)
  <*> field "listen_addr" ad_listen_addr socket_serde (Some default_admin_addr)
  <*> field_secret_opt "api_key" ad_api_key
  <*> field "allowed_ips" ad_allowed_ips (vec_serde string_serde) (Some []).

(** ** Audit sinks: an internally tagged enum *)

(** The variants, [rename_all = "snake_case"]. *)
Definition AwsCloudwatch_codec : Codec (str * str * str * option str * option str) AuditSinkConfig :=
  derive AwsCloudwatch
  <*> field "region" (fun '(r, _, _, _, _) => r) string_serde None
  <*> field "log_group" (fun '(_, g, _, _, _) => g) string_serde None
  <*> field "log_stream" (fun '(_, _, s, _, _) => s) string_serde (Some default_cloudwatch_stream)
  <*> field_opt "profile" (fun '(_, _, _, p, _) => p) string_serde
  <*> field_opt "role_arn" (fun '(_, _, _, _, a) => a) string_serde.
Definition AwsS3_codec : Codec (str * str * str * option str) AuditSinkConfig :=
  derive AwsS3
  <*> field "region" (fun '(r, _, _, _) => r) string_serde None
  <*> field "bucket" (fun '(_, b, _, _) => b) string_serde None
  <*> field "prefix" (fun '(_, _, p, _) => p) string_serde (Some default_s3_prefix)
  <*> field_opt "profile" (fun '(_, _, _, p) => p) string_serde.
Definition AwsSecurityHub_codec : Codec (str * str * option str) AuditSinkConfig :=
  derive AwsSecurityHub
  <*> field "region" (fun '(r, _, _) => r) string_serde None
  <*> field "account_id" (fun '(_, a, _) => a) string_serde None
  <*> field_opt "profile" (fun '(_, _, p) => p) string_serde.
Definition AwsEventBridge_codec : Codec (str * str * option str) AuditSinkConfig :=
  derive AwsEventBridge
  <*> field "region" (fun '(r, _, _) => r) string_serde None
  <*> field "event_bus" (fun '(_, e, _) => e) string_serde (Some default_event_bus)
  <*> field_opt "profile" (fun '(_, _, p) => p) string_serde.
(** The fields of both Azure workspaces. *)
Definition workspace_codec (variant : str -> str -> str -> AuditSinkConfig) (log_type : str) :
    Codec (str * str * str) AuditSinkConfig :=
  derive variant
  <*> field "workspace_id" (fun '(w, _, _) => w) string_serde None
  <*> field "shared_key" (fun '(_, k, _) => k) string_serde None
  <*> field "log_type" (fun '(_, _, t) => t) string_serde (Some log_type).
Definition AzureMonitor_codec : Codec (str * str * str) AuditSinkConfig :=
  workspace_codec AzureMonitor default_azure_log_type.
Definition AzureEventHub_codec : Codec (str * str * str * str) AuditSinkConfig :=
  derive AzureEventHub
  <*> field "namespace" (fun '(n, _, _, _) => n) string_serde None
  <*> field "event_hub" (fun '(_, h, _, _) => h) string_serde None
  <*> field "policy_name" (fun '(_, _, p, _) => p) string_serde None
  <*> field "policy_key" (fun '(_, _, _, k) => k) string_serde None.
Definition AzureSentinel_codec : Codec (str * str * str) AuditSinkConfig :=
  workspace_codec AzureSentinel default_sentinel_log_type.
(** The fields of both Oracle services, with the name of the target. *)
Definition oracle_codec (variant : str -> str -> str -> str -> str -> str -> AuditSinkConfig) (target : string) :
    Codec (str * str * str * str * str * str) AuditSinkConfig :=
  derive variant
  <*> field "region" (fun '(r, _, _, _, _, _) => r) string_serde None
  <*> field target (fun '(_, i, _, _, _, _) => i) string_serde None
  <*> field "tenancy_id" (fun '(_, _, t, _, _, _) => t) string_serde None
  <*> field "user_id" (fun '(_, _, _, u, _, _) => u) string_serde None
  <*> field "fingerprint" (fun '(_, _, _, _, f, _) => f) string_serde None
  <*> field "private_key" (fun '(_, _, _, _, _, k) => k) string_serde None.
Definition OracleLogging_codec : Codec (str * str * str * str * str * str) AuditSinkConfig :=
  oracle_codec OracleLogging "log_id".
Definition OracleStreaming_codec : Codec (str * str * str * str * str * str) AuditSinkConfig :=
  oracle_codec OracleStreaming "stream_id".
Definition Elasticsearch_codec :
    Codec (list str * str * option str * option str * option str) AuditSinkConfig :=
  derive Elasticsearch
  <*> field "urls" (fun '(u, _, _, _, _) => u) (vec_serde string_serde) None
  <*> field "index" (fun '(_, i, _, _, _) => i) string_serde (Some default_es_index)
  <*> field_opt "username" (fun '(_, _, u, _, _) => u) string_serde
  <*> field_opt "password" (fun '(_, _, _, p, _) => p) string_serde
  <*> field_opt "api_key" (fun '(_, _, _, _, k) => k) string_serde.
Definition Splunk_codec : Codec (str * str * str * option str) AuditSinkConfig :=
  derive Splunk
  <*> field "url" (fun '(u, _, _, _) => u) string_serde None
  <*> field "token" (fun '(_, t, _, _) => t) string_serde None
  <*> field "sourcetype" (fun '(_, _, s, _) => s) string_serde (Some default_splunk_sourcetype)
  <*> field_opt "index" (fun '(_, _, _, i) => i) string_serde.
Definition Kafka_codec : Codec (list str * str * option str * option str) AuditSinkConfig :=
  derive Kafka
  <*> field "brokers" (fun '(b, _, _, _) => b) (vec_serde string_serde) None
  <*> field "topic" (fun '(_, t, _, _) => t) string_serde None
  <*> field_opt "sasl_username" (fun '(_, _, u, _) => u) string_serde
  <*> field_opt "sasl_password" (fun '(_, _, _, p) => p) string_serde.
Definition Syslog_codec : Codec (str * Z * str * bool * bool) AuditSinkConfig :=
  derive Syslog
  <*> field "address" (fun '(a, _, _, _, _) => a) string_serde None
  <*> field "port" (fun '(_, p, _, _, _) => p) (int_serde 16) (Some default_syslog_port)
  <*> field "protocol" (fun '(_, _, p, _, _) => p) string_serde (Some default_syslog_protocol)
  <*> field "use_cef" (fun '(_, _, _, c, _) => c) bool_serde (Some false)
  <*> field "use_leef" (fun '(_, _, _, _, l) => l) bool_serde (Some false).
Definition Webhook_codec : Codec (str * gmap str str * option str * option str * option str) AuditSinkConfig :=
  derive Webhook
  <*> field "url" (fun '(u, _, _, _, _) => u) string_serde None
  <*> field "headers" (fun '(_, h, _, _, _) => h) map_serde (Some ∅)
  <*> field_opt "bearer_token" (fun '(_, _, b, _, _) => b) string_serde
  <*> field_opt "api_key_header" (fun '(_, _, _, h, _) => h) string_serde
  <*> field_opt "api_key_value" (fun '(_, _, _, _, v) => v) string_serde.
Definition AuditFile_codec : Codec (str * str * Z * Z) AuditSinkConfig :=
  derive AuditFile
  <*> field "path" (fun '(p, _, _, _) => p) string_serde None
  <*> field "format" (fun '(_, f, _, _) => f) string_serde (Some default_audit_format)
  <*> field "max_size_mb" (fun '(_, _, s, _) => s) (int_serde 64) (Some default_max_size)
  <*> field "max_files" (fun '(_, _, _, n) => n) (int_serde 32) (Some default_max_files).

(** [#[serde(tag = "type")]]. *)
Definition tagged {S} (name : string) (c : Codec S AuditSinkConfig) (full : bool) (s : S) : res SeError Value :=
  VTable <$> cd_put c full s {[lit "type" := VString (lit name)]}.
Definition AuditSinkConfig_to_value (full : bool) (c : AuditSinkConfig) : res SeError Value :=
  match c with
  | AwsCloudwatch r g s p a => tagged "aws_cloudwatch" AwsCloudwatch_codec full (r, g, s, p, a)
  | AwsS3 r b x p => tagged "aws_s3" AwsS3_codec full (r, b, x, p)
  | AwsSecurityHub r a p => tagged "aws_security_hub" AwsSecurityHub_codec full (r, a, p)
  | AwsEventBridge r e p => tagged "aws_event_bridge" AwsEventBridge_codec full (r, e, p)
  | AzureMonitor w k t => tagged "azure_monitor" AzureMonitor_codec full (w, k, t)
  | AzureEventHub n h p k => tagged "azure_event_hub" AzureEventHub_codec full (n, h, p, k)
  | AzureSentinel w k t => tagged "azure_sentinel" AzureSentinel_codec full (w, k, t)
  | OracleLogging r i t u f k => tagged "oracle_logging" OracleLogging_codec full (r, i, t, u, f, k)
  | OracleStreaming r i t u f k => tagged "oracle_streaming" OracleStreaming_codec full (r, i, t, u, f, k)
  | Elasticsearch us i u p k => tagged "elasticsearch" Elasticsearch_codec full (us, i, u, p, k)
  | Splunk u t s i => tagged "splunk" Splunk_codec full (u, t, s, i)
  | Kafka b t u p => tagged "kafka" Kafka_codec full (b, t, u, p)
  | Syslog a p pr c l => tagged "syslog" Syslog_codec full (a, p, pr, c, l)
  | Webhook u h b kh kv => tagged "webhook" Webhook_codec full (u, h, b, kh, kv)
  | AuditFile p f s n => tagged "file" AuditFile_codec full (p, f, s, n)
  end.
Definition sink_variants : list (str * (TomlTable -> res DeError AuditSinkConfig)) :=
  [ (lit "aws_cloudwatch", cd_get AwsCloudwatch_codec); (lit "aws_s3", cd_get AwsS3_codec);
    (lit "aws_security_hub", cd_get AwsSecurityHub_codec); (lit "aws_event_bridge", cd_get AwsEventBridge_codec);
    (lit "azure_monitor", cd_get AzureMonitor_codec); (lit "azure_event_hub", cd_get AzureEventHub_codec);
    (lit "azure_sentinel", cd_get AzureSentinel_codec); (lit "oracle_logging", cd_get OracleLogging_codec);
    (lit "oracle_streaming", cd_get OracleStreaming_codec); (lit "elasticsearch", cd_get Elasticsearch_codec);
    (lit "splunk", cd_get Splunk_codec); (lit "kafka", cd_get Kafka_codec); (lit "syslog", cd_get Syslog_codec);
    (lit "webhook", cd_get Webhook_codec); (lit "file", cd_get AuditFile_codec) ].
Fixpoint variant_of {A} (name : str) (l : list (str * A)) : option A :=
  match l with
  | [] => None
  | (n, a) :: l' => if decide (n = name) then Some a else variant_of name l'
  end.
Definition AuditSinkConfig_of_value (v : Value) : res DeError AuditSinkConfig :=
  match v with
  | VTable t =>
      match t !! lit "type" with
      | Some (VString name) =>
          match variant_of name sink_variants with Some get => get t | None => Err (DeUnknownVariant name) end
      | Some _ => Err DeInvalidType
      | None => Err (DeMissing (lit "type"))
      end
  | _ => Err DeInvalidType
  end.
Definition AuditSinkConfig_serde : Serde AuditSinkConfig := mkSerde AuditSinkConfig_to_value AuditSinkConfig_of_value.

Definition AuditSettings_codec : Codec AuditSettings AuditSettings :=
  derive mkAudit
  <*> field "enabled" au_enabled bool_serde (Some false)
  <*> field "buffer_size" au_buffer_size (int_serde 64) (Some default_audit_buffer)
  <*> field "include_source_ip" au_include_source_ip bool_serde (Some default_true)
  <*> field "include_user_identity" au_include_user_identity bool_serde (Some default_true)
  <*> field "hash_sensitive_fields" au_hash_sensitive_fields bool_serde (Some false)
  <*> field "sinks" au_sinks (vec_serde AuditSinkConfig_serde) (Some []).

Section Files.
Context {TM : Toml}.

Definition mode_name (m : ConnectionLogMode) : str :=
  match m with
  | LogNone => lit "none" | LogMemory => lit "memory" | LogFile => lit "file"
  | LogDatabase => lit "database" | LogBoth => lit "both"
  end.
Definition ConnectionLogMode_serde : Serde ConnectionLogMode :=
  mkSerde (fun _ m => Ok (VString (mode_name m)))
    (fun v => name ← (match toml_unit_variant v with inl name => Ok name | inr e => Err e end);
              ok_or (variant_of name ((fun m => (mode_name m, m)) <$> [LogNone; LogMemory; LogFile; LogDatabase; LogBoth]))
                (DeUnknownVariant name)).

Definition LoggingSettings_codec : Codec LoggingSettings LoggingSettings :=
  derive mkLogging
  <*> field "level" lg_level string_serde (Some default_log_level)
  <*> field "format" lg_format string_serde (Some default_log_format)
  <*> field_opt "file" lg_file path_serde
  <*> field "connection_mode" lg_connection_mode ConnectionLogMode_serde (Some ConnectionLogMode_default)
  <*> field_opt "connection_log_file" lg_connection_log_file path_serde
  <*> field_opt "connection_log_db" lg_connection_log_db path_serde
  <*> field "connection_events" lg_connection_events (struct ConnectionLogEvents_codec) (Some ConnectionLogEvents_default)
  <*> field "anonymization" lg_anonymization (struct ConnectionLogAnonymization_codec)
        (Some ConnectionLogAnonymization_default)
  <*> field "retention" lg_retention (struct ConnectionLogRetention_codec) (Some ConnectionLogRetention_default)
  <*> field "log_connections" lg_log_connections bool_serde (Some default_true).

Definition ServerConfig_codec : Codec ServerConfig ServerConfig :=
  derive mkServerConfig
  <*> field "server" cfg_server (struct ServerSettings_codec) None
  <*> field "network" cfg_network (struct NetworkSettings_codec) None
  <*> field "security" cfg_security (struct SecuritySettings_codec) None
  <*> field_opt "oauth" cfg_oauth (struct OAuthSettings_codec)
  <*> field "logging" cfg_logging (struct LoggingSettings_codec) (Some LoggingSettings_default)
  <*> field "admin" cfg_admin (struct AdminSettings_codec) (Some AdminSettings_default)
  <*> field "audit" cfg_audit (struct AuditSettings_codec) (Some AuditSettings_default).

(** [toml::to_string_pretty] and [toml::from_str], with the conversions of
    their errors to [ConfigError]. *)
Definition config_to_string (c : ServerConfig) : res ConfigError str :=
  toml_print <$> map_err (fun e => SerializationError (toml_se_error e)) (cd_put ServerConfig_codec false c ∅).
Definition config_from_str (content : str) : res ConfigError ServerConfig :=
  match toml_parse content with
  | inl t => map_err (fun e => SerializationError (toml_de_error content e)) (cd_get ServerConfig_codec t)
  | inr e => Err (SerializationError e)
  end.

Section Load.
Context {N4 N6 : Type} `{Net4 : !IpNetText 32 N4} `{Net6 : !IpNetText 128 N6} {UC : Unicode}.

(** [files] has the files that can be read as text. *)
Definition ServerConfig_load (files : gmap str str) (path : str) : res ConfigError ServerConfig :=
  content ← ok_or (files !! path) ConfigIoError;
  config ← config_from_str content;
  _ ← ServerConfig_validate (N4 := N4) (N6 := N6) config;
  Ok config.
End Load.
End Files.
