(* ===== verification/ServerTomlProofs.v ===== *)
(** * Configuration files: round trip

    A law per type of field and per attribute, from which the law of every
    struct follows by composition: a file with all its fields is read back.
    What [save] writes has no secrets, and [load] requires them. *)
From S2P Require Import Prelude Text Network Addr AddrText ServerConfig ServerToml.
Local Open Scope Z_scope.

(** ** Laws of types *)
Definition serde_ok {A} (ty : Serde A) (P : A -> Prop) : Prop :=
  forall a, P a -> exists v, to_value ty true a = Ok v /\ of_value ty v = Ok a.

Lemma serde_weaken {A} (ty : Serde A) (P Q : A -> Prop) : serde_ok ty P -> (forall a, Q a -> P a) -> serde_ok ty Q.
Proof. unfold serde_ok. eauto. Qed.
Lemma string_ok : serde_ok string_serde (fun _ => True).
Proof. intros s _. by eexists. Qed.
Lemma bool_ok : serde_ok bool_serde (fun _ => True).
Proof. intros b _. by eexists. Qed.
Lemma int_ok w : serde_ok (int_serde w) (fun z => uint w z /\ z < 2 ^ 63).
Proof.
  intros z [Hw Hz]. exists (VInteger z). cbn [int_serde to_value of_value].
  rewrite bool_decide_eq_true_2 by done. by destruct (Z.ltb_spec z (2 ^ 63)); [|lia].
Qed.
Lemma socket_serde_ok : serde_ok socket_serde socket_ok.
Proof.
  intros a Ha. exists (VString (SocketAddr_fmt a)). cbn [socket_serde to_value of_value].
  by rewrite socket_reads_back.
Qed.
Lemma path_ok : serde_ok path_serde (fun p => utf8_valid p = true).
Proof. intros p Hp. exists (VString p). cbn [path_serde to_value of_value]. by rewrite Hp. Qed.
Lemma vec_ok {A} (ty : Serde A) P : serde_ok ty P -> serde_ok (vec_serde ty) (Forall P).
Proof.
  intros Hty l Hl. cut (exists vs, mapM (to_value ty true) l = Ok vs /\ mapM (of_value ty) vs = Ok l).
  { intros (vs & H1 & H2). exists (VArray vs). cbn [vec_serde to_value of_value]. by rewrite H1. }
  induction Hl as [|a l (v & Hv & Ha)%Hty _ (vs & H1 & H2)]; [by exists []|].
  exists (v :: vs). cbn [mapM]. by rewrite Hv, H1, Ha, H2.
Qed.
Lemma map_ok : serde_ok map_serde (fun _ => True).
Proof.
  intros m _. exists (VTable (VString <$> m)). split; [done|]. cbn [map_serde of_value].
  rewrite decide_True.
  - f_equal. apply map_eq. intros k. rewrite lookup_omap, lookup_fmap. by destruct (m !! k).
  - intros k v. rewrite lookup_fmap. destruct (m !! k); [|done]. by intros [= <-].
Qed.

(** ** Laws of fields

    [c] adds its own names to a table, and reads [h s] from every table that
    agrees with the result on them. *)
Definition codec_ok {S A} (c : Codec S A) (P : S -> Prop) (h : S -> A) : Prop :=
  forall s t, P s -> exists t', cd_put c true s t = Ok t' /\
    (forall n, n ∉ cd_names c -> t' !! n = t !! n) /\
    ((forall n, n ∈ cd_names c -> t !! n = None) ->
     forall u, (forall n, n ∈ cd_names c -> u !! n = t' !! n) -> cd_get c u = Ok (h s)).

Lemma derive_law {S A} (a : A) : codec_ok (derive (S := S) a) (fun _ => True) (fun _ => a).
Proof. intros s t _. exists t. done. Qed.

Lemma with_field_ok {S A B} (c : Codec S (A -> B)) (d : Codec S A) P Q h k :
  codec_ok c P h -> codec_ok d Q k -> forallb (fun n => bool_decide (n ∉ cd_names c)) (cd_names d) = true ->
  codec_ok (with_field c d) (fun s => P s /\ Q s) (fun s => h s (k s)).
Proof.
  intros Hc Hd Hdis s t [HP HQ].
  assert (forall n, n ∈ cd_names d -> n ∉ cd_names c) as Hn.
  { intros n Hin. rewrite forallb_forall in Hdis. eapply bool_decide_eq_true, Hdis. by apply list_elem_of_In. }
  destruct (Hc s t HP) as (t1 & E1 & F1 & G1), (Hd s t1 HQ) as (t2 & E2 & F2 & G2).
  exists t2. cbn [with_field cd_put cd_get cd_names]. split_and!.
  - by rewrite E1.
  - intros n [H1 H2]%not_elem_of_app. by rewrite F2, F1.
  - intros Habs u Hu.
    assert (cd_get c u = Ok (h s)) as ->.
    { apply G1; [set_solver|]. intros n H. rewrite Hu by set_solver. apply F2. intros H'. by apply (Hn n). }
    assert (cd_get d u = Ok (k s)) as ->; [|done].
    apply G2; [|set_solver]. intros n H. rewrite F1 by auto. set_solver.
Qed.

(** A field that reads from its own name what it put there. *)
Lemma one_field_ok {S A} (c : Codec S A) name (P : S -> Prop) (h : S -> A) : cd_names c = [name] ->
  (forall s t, P s -> exists o, cd_put c true s t = Ok (match o with Some v => <[name := v]> t | None => t end) /\
     forall u, u !! name = o -> cd_get c u = Ok (h s)) -> codec_ok c P h.
Proof.
  intros Hn Hc s t HP. destruct (Hc s t HP) as (o & Ho & Hg). eexists. split; [done|]. rewrite Hn. split.
  - intros n H. rewrite list_elem_of_singleton in H. destruct o; [by rewrite lookup_insert_ne|done].
  - intros Habs u Hu. apply Hg. rewrite Hu by by apply list_elem_of_singleton.
    destruct o; [by rewrite lookup_insert_eq|]. apply Habs. by apply list_elem_of_singleton.
Qed.

Lemma field_ok {S A} name (get : S -> A) ty missing Q : serde_ok ty Q ->
  codec_ok (field name get ty missing) (fun s => Q (get s)) get.
Proof.
  intros Hty. apply (one_field_ok _ (lit name)); [done|]. intros s t (v & Hv & Ha)%Hty. exists (Some v).
  cbn [field cd_put cd_get]. unfold put_value. rewrite Hv. split; [done|]. by intros u ->.
Qed.

(** What holds of a value that is there. *)
Definition if_some {A} (Q : A -> Prop) (o : option A) : Prop := from_option Q True o.

Lemma field_opt_ok {S A} name (get : S -> option A) ty Q : serde_ok ty Q ->
  codec_ok (field_opt name get ty) (fun s => if_some Q (get s)) get.
Proof.
  intros Hty. apply (one_field_ok _ (lit name)); [done|]. intros s t HQ. cbn [field_opt cd_put cd_get].
  destruct (get s) as [a|] eqn:Hg.
  - destruct (Hty a HQ) as (v & Hv & Ha). exists (Some v). cbn [opt_put]. unfold put_value. rewrite Hv.
    split; [done|]. intros u ->. by rewrite Ha.
  - exists None. split; [done|]. by intros u ->.
Qed.
Lemma field_secret_ok {S} name (get : S -> str) : codec_ok (field_secret name get) (fun _ => True) get.
Proof.
  apply (one_field_ok _ (lit name)); [done|]. intros s t _. exists (Some (VString (get s))). split; [done|].
  intros u Hu. cbn [field_secret cd_get]. by rewrite Hu.
Qed.
Lemma field_secret_opt_ok {S} name (get : S -> option str) :
  codec_ok (field_secret_opt name get) (fun s => get s <> None) get.
Proof.
  apply (one_field_ok _ (lit name)); [done|]. intros s t Hs. destruct (get s) as [k|] eqn:Hg; [|done].
  exists (Some (VString k)). cbn [field_secret_opt cd_put cd_get opt_put]. rewrite Hg. split; [done|].
  intros u ->. done.
Qed.

Lemma struct_ok {S} (c : Codec S S) P h : codec_ok c P h -> (forall s, h s = s) -> serde_ok (struct c) P.
Proof.
  intros Hc Hh s HP. destruct (Hc s ∅ HP) as (t & Ht & _ & Hg). exists (VTable t).
  cbn [struct to_value of_value]. rewrite Ht. split; [done|].
  rewrite (Hg ltac:(intros; apply lookup_empty) t) by done. by rewrite Hh.
Qed.

Lemma codec_weaken {S A} (c : Codec S A) (P Q : S -> Prop) h k :
  codec_ok c P h -> (forall s, Q s -> P s) -> (forall s, h s = k s) -> codec_ok c Q k.
Proof. intros Hc HQ Hk s t Hs. destruct (Hc s t (HQ s Hs)) as (t' & ? & ? & ?). exists t'. by rewrite <- Hk. Qed.

(** Reading never panics. *)
Definition total {A B} (f : A -> res DeError B) : Prop := forall a, f a <> Panic.
Lemma bind_total {A B} (m : res DeError A) (f : A -> res DeError B) : m <> Panic -> total f -> (m ≫= f) <> Panic.
Proof. intros Hm Hf. destruct m; [apply Hf|done|done]. Qed.
Lemma string_total : total (of_value string_serde).
Proof. by intros []. Qed.
Lemma bool_total : total (of_value bool_serde).
Proof. by intros []. Qed.
Lemma int_total w : total (of_value (int_serde w)).
Proof. intros []; try done. cbn. by case_bool_decide. Qed.
Lemma socket_total : total (of_value socket_serde).
Proof. intros []; try done. cbn. by destruct (parse_socket_addr _). Qed.
Lemma path_total : total (of_value path_serde).
Proof. by intros []. Qed.
Lemma map_total : total (of_value map_serde).
Proof. intros []; try done. cbn [map_serde of_value]. by case_decide. Qed.
Lemma mapM_total {A B} (f : A -> res DeError B) : total f -> total (mapM f).
Proof. intros Hf l. induction l as [|a l IH]; [done|]. cbn [mapM]. apply bind_total; [done|]. intros b. by apply bind_total. Qed.
Lemma vec_total {A} (ty : Serde A) : total (of_value ty) -> total (of_value (vec_serde ty)).
Proof. intros H []; try done. by apply mapM_total. Qed.
Lemma derive_total {S A} (a : A) : total (cd_get (derive (S := S) a)).
Proof. done. Qed.
Lemma with_field_total {S A B} (c : Codec S (A -> B)) (d : Codec S A) :
  total (cd_get c) -> total (cd_get d) -> total (cd_get (with_field c d)).
Proof. intros Hc Hd t. cbn [with_field cd_get]. apply bind_total; [done|]. intros f. by apply bind_total. Qed.
Lemma field_total {S A} name (get : S -> A) ty missing : total (of_value ty) -> total (cd_get (field name get ty missing)).
Proof. intros H t. cbn [field cd_get]. destruct (t !! _); [done|]. by destruct missing. Qed.
Lemma field_opt_total {S A} name (get : S -> option A) ty : total (of_value ty) -> total (cd_get (field_opt name get ty)).
Proof.
  intros H t. cbn [field_opt cd_get]. destruct (t !! _) as [v|]; [|done]. specialize (H v). by destruct (of_value ty v).
Qed.
Lemma field_secret_total {S} name (get : S -> str) : total (cd_get (field_secret name get)).
Proof. intros t. cbn [field_secret cd_get]. destruct (t !! _) as [[]|]; done. Qed.
Lemma field_secret_opt_total {S} name (get : S -> option str) : total (cd_get (field_secret_opt name get)).
Proof. intros t. cbn [field_secret_opt cd_get]. destruct (t !! _) as [[]|]; done. Qed.
Lemma struct_total {S} (c : Codec S S) : total (cd_get c) -> total (of_value (struct c)).
Proof. intros H []; try done. apply H. Qed.
Create HintDb total.
#[export] Hint Resolve string_total bool_total int_total socket_total path_total map_total vec_total derive_total
  field_secret_total field_secret_opt_total : total.
Ltac reads_total :=
  repeat first [apply with_field_total | apply field_total | apply field_opt_total | apply struct_total];
  eauto with total.

(** Composes the laws of the fields of a struct. *)
Create HintDb serde.
#[export] Hint Resolve string_ok bool_ok int_ok socket_serde_ok path_ok map_ok vec_ok : serde.
Ltac codec :=
  repeat first
    [ apply derive_law
    | apply with_field_ok; [| |vm_compute; reflexivity]
    | apply field_secret_ok | apply field_secret_opt_ok
    | apply field_opt_ok; eauto with serde
    | apply field_ok; eauto with serde ].

(** ** The settings *)
Record server_fits (s : ServerSettings) : Prop := {
  sf_listen : socket_ok (sv_listen_addr s);
  sf_tcp : if_some socket_ok (sv_tcp_listen_addr s);
  sf_clients : u32 (sv_max_clients s);
  sf_dir : utf8_valid (sv_data_dir s) = true;
  sf_idle : 0 <= sv_idle_timeout_sec s < 2 ^ 63;
}.
Record security_fits (s : SecuritySettings) : Prop := {
  cf_cert : u32 (sc_cert_lifetime_days s);
  cf_client : u32 (sc_client_cert_lifetime_days s);
  cf_reneg : u32 (sc_reneg_sec s);
}.
Record oauth_fits (o : OAuthSettings) : Prop := {
  of_port : u16 (oa_oauth_port o);
  of_lifetime : 0 <= oa_session_lifetime_sec o < 2 ^ 63;
}.
Record logging_fits (l : LoggingSettings) : Prop := {
  lf_file : if_some (fun p => utf8_valid p = true) (lg_file l);
  lf_log : if_some (fun p => utf8_valid p = true) (lg_connection_log_file l);
  lf_db : if_some (fun p => utf8_valid p = true) (lg_connection_log_db l);
  lf_days : u32 (rt_days (lg_retention l));
  lf_size : u32 (rt_max_file_size_mb (lg_retention l));
  lf_files : u32 (rt_max_files (lg_retention l));
}.
Definition sink_fits (c : AuditSinkConfig) : Prop :=
  match c with
  | Syslog _ port _ _ _ => u16 port
  | AuditFile _ _ size files => 0 <= size < 2 ^ 63 /\ u32 files
  | _ => True
  end.
(** The values of the types of the fields, numbers in the range of TOML, paths
    in UTF-8.  Without an API key no [admin] table can be read. *)
Record config_fits (c : ServerConfig) : Prop := {
  fit_server : server_fits (cfg_server c);
  fit_mtu : u16 (nw_mtu (cfg_network c));
  fit_security : security_fits (cfg_security c);
  fit_oauth : if_some oauth_fits (cfg_oauth c);
  fit_logging : logging_fits (cfg_logging c);
  fit_admin : socket_ok (ad_listen_addr (cfg_admin c));
  fit_key : ad_api_key (cfg_admin c) <> None;
  fit_buffer : 0 <= au_buffer_size (cfg_audit c) < 2 ^ 63;
  fit_sinks : Forall sink_fits (au_sinks (cfg_audit c));
}.

Lemma small_fits w z : 0 <= w <= 63 -> uint w z -> uint w z /\ z < 2 ^ 63.
Proof. intros Hw [H1 H2]. split; [done|]. pose proof (Z.pow_le_mono_r 2 w 63). lia. Qed.
Lemma u64_fits z : 0 <= z < 2 ^ 63 -> uint 64 z /\ z < 2 ^ 63.
Proof. unfold uint. lia. Qed.
Lemma all_true {A} (l : list A) : Forall (fun _ => True) l.
Proof. by apply Forall_true. Qed.
Lemma some_true {A} (o : option A) : if_some (fun _ => True) o.
Proof. by destruct o. Qed.
#[export] Hint Resolve all_true some_true I : serde.

(** Splits what the fields ask for, but for the ranges of numbers. *)
Ltac fits H :=
  lazymatch type of H with
  | uint _ _ => idtac
  | True => idtac
  | _ /\ _ => decompose [and] H; clear H
  | _ => destruct H
  end;
  repeat lazymatch goal with
    | |- uint _ _ /\ _ => first [apply small_fits; [lia|assumption] | apply u64_fits; lia]
    | |- _ /\ _ => split
    end; auto with serde.

(** Proves the law of a struct, for the predicate of its fields. *)
Ltac struct_law :=
  eapply serde_weaken; [eapply struct_ok; [codec|by intros []]|];
  let s := fresh "s" in let H := fresh "H" in intros s H; cbn beta; fits H.

Lemma server_ok : serde_ok (struct ServerSettings_codec) server_fits.
Proof. struct_law. Qed.
Lemma network_ok : serde_ok (struct NetworkSettings_codec) (fun s => u16 (nw_mtu s)).
Proof. struct_law. Qed.
Lemma security_ok : serde_ok (struct SecuritySettings_codec) security_fits.
Proof. struct_law. Qed.
Lemma oauth_ok : serde_ok (struct OAuthSettings_codec) oauth_fits.
Proof. struct_law. Qed.
Lemma events_ok : serde_ok (struct ConnectionLogEvents_codec) (fun _ => True).
Proof. struct_law. Qed.
Lemma anonymization_ok : serde_ok (struct ConnectionLogAnonymization_codec) (fun _ => True).
Proof. struct_law. Qed.
Lemma retention_ok : serde_ok (struct ConnectionLogRetention_codec)
  (fun r => u32 (rt_days r) /\ u32 (rt_max_file_size_mb r) /\ u32 (rt_max_files r)).
Proof. struct_law. Qed.
Lemma admin_ok : serde_ok (struct AdminSettings_codec)
  (fun a => socket_ok (ad_listen_addr a) /\ ad_api_key a <> None).
Proof. struct_law. Qed.

(** ** Sinks *)
Lemma tagged_ok {S} (name : string) (c : Codec S AuditSinkConfig) P h s sink :
  codec_ok c P h -> bool_decide (lit "type" ∉ cd_names c) = true -> P s ->
  variant_of (lit name) sink_variants = Some (cd_get c) -> h s = sink ->
  exists v, tagged name c true s = Ok v /\ AuditSinkConfig_of_value v = Ok sink.
Proof.
  intros Hc Hn HP Hv <-. apply bool_decide_eq_true in Hn.
  destruct (Hc s {[lit "type" := VString (lit name)]} HP) as (t & Ht & Hf & Hg).
  exists (VTable t). unfold tagged. rewrite Ht. split; [done|]. cbn [AuditSinkConfig_of_value].
  rewrite (Hf _ Hn), lookup_singleton_eq. rewrite Hv. apply Hg; [|done].
  intros n Hin. rewrite lookup_singleton_ne; [done|]. by intros <-.
Qed.
(** The law of one variant. *)
Ltac variant_law H :=
  eapply tagged_ok;
    [unfold AzureMonitor_codec, AzureSentinel_codec, OracleLogging_codec, OracleStreaming_codec,
       workspace_codec, oracle_codec; codec
    |vm_compute; reflexivity
    |cbn beta iota; cbn [sink_fits] in H; fits H
    |reflexivity
    |reflexivity].

Lemma sinks_ok : serde_ok AuditSinkConfig_serde sink_fits.
Proof.
  intros c Hc. cbn [AuditSinkConfig_serde to_value of_value].
  destruct c; cbn [AuditSinkConfig_to_value]; variant_law Hc.
Qed.
#[export] Hint Resolve server_ok network_ok security_ok oauth_ok events_ok anonymization_ok retention_ok admin_ok
  sinks_ok : serde.

Lemma audit_ok : serde_ok (struct AuditSettings_codec)
  (fun a => 0 <= au_buffer_size a < 2 ^ 63 /\ Forall sink_fits (au_sinks a)).
Proof. struct_law. Qed.
#[export] Hint Resolve audit_ok : serde.

Section Files.
Context {TM : Toml} {TL : TomlLaws TM}.

Lemma mode_ok : serde_ok ConnectionLogMode_serde (fun _ => True).
Proof.
  intros m _. eexists. split; [done|]. cbn [ConnectionLogMode_serde of_value]. rewrite toml_variant_string.
  by destruct m.
Qed.
Hint Resolve mode_ok : serde.
Lemma logging_ok : serde_ok (struct LoggingSettings_codec) logging_fits.
Proof. struct_law. Qed.
Hint Resolve logging_ok : serde.
Lemma config_codec_ok : codec_ok ServerConfig_codec config_fits (fun c => c).
Proof.
  eapply codec_weaken; [codec| |by intros []].
  intros c []. cbn beta. split_and!; auto with serde; lia.
Qed.

Lemma variant_of_elem {A} name (l : list (str * A)) a : variant_of name l = Some a -> (name, a) ∈ l.
Proof.
  induction l as [|[n b] l IH]; [done|]. cbn [variant_of]. case_decide; [|set_solver].
  intros H'. injection H' as <-. subst. set_solver.
Qed.
Lemma variants_total : Forall (fun p => total (snd p)) sink_variants.
Proof. unfold sink_variants. repeat (constructor; [cbn [snd]; reads_total|]). constructor. Qed.
Lemma sink_total : total (of_value AuditSinkConfig_serde).
Proof.
  intros []; try done. cbn [AuditSinkConfig_serde of_value AuditSinkConfig_of_value].
  destruct (t !! _) as [[name| | | | |]|]; try done. destruct (variant_of name sink_variants) as [get|] eqn:Hv; [|done].
  apply variant_of_elem in Hv. pose proof variants_total as Hall. rewrite Forall_forall in Hall. apply (Hall _ Hv).
Qed.
Lemma mode_total : total (of_value ConnectionLogMode_serde).
Proof.
  intros v. cbn [ConnectionLogMode_serde of_value]. apply bind_total; [by destruct (toml_unit_variant v)|].
  intros name. by destruct (variant_of _ _).
Qed.
Hint Resolve sink_total mode_total : total.
Lemma config_total : total (cd_get ServerConfig_codec).
Proof. reads_total. Qed.

(** ** Saved files *)
Lemma get_with_field {S A B} (c : Codec S (A -> B)) (d : Codec S A) t b :
  cd_get (with_field c d) t = Ok b -> (exists f, cd_get c t = Ok f) /\ exists a, cd_get d t = Ok a.
Proof. cbn [with_field cd_get]. intros H. apply bind_Ok in H as (f & Hf & (a & Ha & _)%bind_Ok). eauto. Qed.

Lemma put_with_field {S A B} (c : Codec S (A -> B)) (d : Codec S A) full s t t' :
  cd_put (with_field c d) full s t = Ok t' -> exists t1, cd_put c full s t = Ok t1 /\ cd_put d full s t1 = Ok t'.
Proof. cbn [with_field cd_put]. intros H. by apply bind_Ok in H. Qed.
Lemma put_field {S A} name (get : S -> A) ty missing full s t t' :
  cd_put (field name get ty missing) full s t = Ok t' ->
  exists v, to_value ty full (get s) = Ok v /\ t' = <[lit name := v]> t.
Proof. cbn [field cd_put]. unfold put_value. intros (v & Hv & [= <-])%bind_Ok. eauto. Qed.

(** An [admin] table as [save] writes it is not read. *)
Lemma saved_admin_refused a t b : cd_put AdminSettings_codec false a ∅ = Ok t -> cd_get AdminSettings_codec t <> Ok b.
Proof.
  intros Hp Hg. apply get_with_field in Hg as [[f Hg] _]. apply get_with_field in Hg as [_ [k Hk]].
  apply put_with_field in Hp as (t3 & Hp & (v3 & _ & ->)%put_field).
  apply put_with_field in Hp as (t2 & Hp & [= <-]).
  apply put_with_field in Hp as (t1 & Hp & (v2 & _ & ->)%put_field).
  apply put_with_field in Hp as (t0 & [= <-] & (v1 & _ & ->)%put_field).
  revert Hk. cbn [field_secret_opt cd_get]. by rewrite !lookup_insert_ne, lookup_empty by by vm_compute.
Qed.

(** What [save] writes, [load] refuses: the secrets are missing. *)
Lemma saved_text_is_refused c text : config_to_string c = Ok text ->
  exists e, config_from_str text = Err (SerializationError (toml_de_error text e)).
Proof.
  unfold config_to_string, config_from_str. intros H.
  destruct (cd_put ServerConfig_codec false c ∅) as [t| |] eqn:Hp; [|done..]. injection H as <-. rewrite toml_reads.
  pose proof (config_total t) as Ht. destruct (cd_get ServerConfig_codec t) as [c'|e|] eqn:Hg; [exfalso|by exists e|done].
  apply get_with_field in Hg as [[f Hg] _]. apply get_with_field in Hg as [_ [a Ha]].
  apply put_with_field in Hp as (t6 & Hp & (v6 & _ & ->)%put_field).
  apply put_with_field in Hp as (t5 & _ & (v5 & Hv & ->)%put_field).
  revert Ha. cbn [field cd_get]. rewrite lookup_insert_ne, lookup_insert_eq by by vm_compute.
  cbn [struct to_value] in Hv. destruct (cd_put AdminSettings_codec false _ ∅) as [ta| |] eqn:Hta; [|done..].
  injection Hv as <-. cbn [struct of_value]. intros Ha. by apply (saved_admin_refused _ _ a Hta).
Qed.

(** C34 Reading and writing configuration files.  A file in which every field
    has its value, secrets included, is read back as that configuration, for
    every configuration with an API key, numbers that fit the integers of TOML
    and their fields, and paths in UTF-8.  The file that [save] writes, of
    whatever configuration, is refused: the [admin] table it has lacks the API
    key, which [save] leaves out and [load] requires. *)
Theorem config_file_reads_back :
  (forall c : ServerConfig, config_fits c ->
     exists t, cd_put ServerConfig_codec true c ∅ = Ok t /\ config_from_str (toml_print t) = Ok c) /\
  (forall (c : ServerConfig) text, config_to_string c = Ok text ->
     exists e, config_from_str text = Err (SerializationError (toml_de_error text e))).
Proof.
  split; [|exact saved_text_is_refused]. intros c Hfit.
  destruct (config_codec_ok c ∅ Hfit) as (t & Ht & _ & Hg). exists t. split; [done|].
  unfold config_from_str. rewrite toml_reads, Hg; [done|intros; apply lookup_empty|done].
Qed.

(** An empty table of the log events is not the default of the field. *)
Lemma empty_events_read : of_value (struct ConnectionLogEvents_codec) (VTable ∅) = Ok ConnectionLogEvents_from_empty.
Proof. reflexivity. Qed.

(** The smallest file: everything but the host has a default. *)
Lemma minimal_file_reads host :
  cd_get ServerConfig_codec
    (<[lit "server" := VTable {[lit "public_host" := VString host]}]>
       (<[lit "network" := VTable ∅]> {[lit "security" := VTable ∅]})) = Ok (ServerConfig_default_config host).
Proof. reflexivity. Qed.
End Files.

(** ** A concrete format: the tree of a table as one number *)
Section Concrete.
Abbreviation Leaf := (str + Z + bool)%type.

Fixpoint value_tree (v : Value) : gen_tree Leaf :=
  match v with
  | VString s => GenLeaf (inl (inl s))
  | VInteger z => GenLeaf (inl (inr z))
  | VBoolean b => GenLeaf (inr b)
  | VOther s => GenNode 0 [GenLeaf (inl (inl s))]
  | VArray l => GenNode 1 (value_tree <$> l)
  | VTable t => GenNode 2 (map_fold (fun k v acc => GenNode 3 [GenLeaf (inl (inl k)); value_tree v] :: acc) [] t)
  end.
Fixpoint tree_value (t : gen_tree Leaf) : Value :=
  match t with
  | GenLeaf (inl (inl s)) => VString s
  | GenLeaf (inl (inr z)) => VInteger z
  | GenLeaf (inr b) => VBoolean b
  | GenNode 0 [GenLeaf (inl (inl s))] => VOther s
  | GenNode 1 l => VArray (tree_value <$> l)
  | GenNode 2 l =>
      VTable (list_to_map ((fun e => match e with
                                     | GenNode 3 [GenLeaf (inl (inl k)); v] => (k, tree_value v)
                                     | _ => ([], VBoolean false)
                                     end) <$> l))
  | _ => VBoolean false
  end.
Fixpoint value_size (v : Value) : nat :=
  match v with
  | VArray l => S (sum_list (value_size <$> l))
  | VTable t => S (map_fold (fun _ v n => (value_size v + n)%nat) 0%nat t)
  | _ => 1
  end.

Lemma foldr_size (l : list (str * Value)) k v : (k, v) ∈ l ->
  (value_size v <= foldr (uncurry (fun _ v n => value_size v + n)) 0 l)%nat.
Proof. induction l as [|[k' v'] l IH]; [by intros ?%elem_of_nil|]. intros [[= <- <-]|H%IH]%elem_of_cons; cbn; lia. Qed.
Lemma tree_reads n v : (value_size v <= n)%nat -> tree_value (value_tree v) = v.
Proof.
  revert v. induction n as [|n IH]; intros v Hn; [destruct v; cbn in Hn; lia|].
  destruct v as [| | | |l|t]; try done; cbn [value_tree tree_value].
  - f_equal. rewrite <- list_fmap_compose. cbn [value_size] in Hn. induction l as [|v l IHl]; [done|].
    cbn in *. rewrite IH by lia. f_equal. apply IHl. lia.
  - f_equal. rewrite map_fold_foldr. cbn [value_size] in Hn. rewrite map_fold_foldr in Hn.
    transitivity (list_to_map (M := gmap str Value) (map_to_list t)); [|apply list_to_map_to_list].
    f_equal. pose proof (foldr_size (map_to_list t)) as Hs.
    assert (forall k v, (k, v) ∈ map_to_list t -> tree_value (value_tree v) = v) as He.
    { intros k v H%Hs. apply IH. lia. }
    clear Hs Hn IH. induction (map_to_list t) as [|[k v] l IHl]; [done|]. cbn.
    rewrite (He k v) by set_solver. f_equal. apply IHl. set_solver.
Qed.
Definition number_toml : Toml := {|
  toml_print t := [Z.pos (encode (value_tree (VTable t)))];
  toml_parse s := match s with
                  | [Z.pos p] => match tree_value <$> decode p with Some (VTable t) => inl t | _ => inr [] end
                  | _ => inr []
                  end;
  toml_se_error _ := lit "out of range";
  toml_de_error _ e := match e with DeMissing f => lit "missing field " ++ f | _ => lit "invalid" end;
  toml_unit_variant v := match v with VString s => inl s | _ => inr DeInvalidType end;
|}.
Lemma number_toml_laws : TomlLaws number_toml.
Proof.
  split; [|done]. intros t. cbn [toml_parse toml_print number_toml]. rewrite decode_encode. cbn [fmap option_fmap option_map].
  by rewrite (tree_reads (value_size (VTable t))).
Qed.
End Concrete.

Section TomlWitness.
#[local] Existing Instances number_toml number_toml_laws.

(** A server with a login, a sink of its own and an API key. *)
Definition file_config : ServerConfig :=
  let c := ServerConfig_default_config (lit "vpn.example.com") in
  mkServerConfig (cfg_server c) (cfg_network c) (cfg_security c)
    (Some (mkOAuthSettings true (lit "google") (lit "id") (lit "secret") None None None [lit "example.com"] [] 9000 None 86400))
    (cfg_logging c) (mkAdmin false default_admin_addr (Some (lit "key")) [])
    (mkAudit true 10000 true true false [Syslog (lit "10.0.0.1") 514 (lit "udp") true false;
       Webhook (lit "https://log.example.com") {[lit "X-Kind" := lit "audit"]} None None (Some (lit "k"))]).

Lemma file_config_fits : config_fits file_config.
Proof. split; try by_compute; try done; repeat constructor; by_compute. Qed.

Lemma config_file_reads_back_witness :
  (exists t, cd_put ServerConfig_codec true file_config ∅ = Ok t /\ config_from_str (toml_print t) = Ok file_config) /\
  let c := ServerConfig_default_config (lit "vpn.example.com") in
  is_ok (config_to_string c) = true /\
  (forall text, config_to_string c = Ok text ->
     exists e, config_from_str text = Err (SerializationError (toml_de_error text e))).
Proof.
  destruct config_file_reads_back as [H1 H2]. split; [exact (H1 file_config file_config_fits)|].
  intros c. split; [vm_compute; reflexivity|exact (H2 c)].
Defined.
End TomlWitness.
