(* ===== verification/ConnLog.v ===== *)
(** * Connection events, their anonymization and the loggers

    src/crates/corevpn-server/src/connection_log: events.rs, anonymizer.rs,
    logger.rs (the trait, the factory, the composite), memory_logger.rs and
    null_logger.rs.  The file and the database logger are in ConnFile.v and
    ConnDb.v.  Clock readings and the random secret of an
    anonymizer are arguments; SHA-256 (crate [sha2]) and the calendar fields
    of a [DateTime] (crate [chrono]) are interfaces. *)
From S2P Require Import Prelude Errors Text Network CoreSession Replay Cipher HmacAuth Addr ServerConfig.
Local Open Scope Z_scope.

Class Sha256 := { sha256 : bytes -> bytes }.
Class Sha256Laws (S : Sha256) : Prop := { sha256_length m : length (sha256 m) = 32%nat }.

(** [Datelike] and [Timelike] of [DateTime<Utc>].  [dt_fields] are the hours
    since the epoch, the minute, the second and the nanosecond. *)
Class ChronoFields {Ch : Chrono} := {
  dt_ordinal : DateTime -> Z;
  with_minute : Z -> DateTime -> option DateTime;
  with_second : Z -> DateTime -> option DateTime;
  with_nanosecond : Z -> DateTime -> option DateTime;
  dt_fields : DateTime -> Z * Z * Z * Z;
}.
Class ChronoFieldsLaws {Ch : Chrono} (F : ChronoFields) : Prop := {
  fields_inj :: Inj (=) (=) dt_fields;
  with_minute_ok h m s n t : dt_fields t = (h, m, s, n) ->
    exists t', with_minute 0 t = Some t' /\ dt_fields t' = (h, 0, s, n);
  with_second_ok h m s n t : dt_fields t = (h, m, s, n) ->
    exists t', with_second 0 t = Some t' /\ dt_fields t' = (h, m, 0, n);
  with_nanosecond_ok h m s n t : dt_fields t = (h, m, s, n) ->
    exists t', with_nanosecond 0 t = Some t' /\ dt_fields t' = (h, m, s, 0);
}.

(** ** Events *)
Inductive AuthMethod := Certificate | UsernamePassword | OAuth2 | Saml | Psk | AuthUnknown.
#[export] Instance AuthMethod_eq_dec : EqDecision AuthMethod.
Proof. solve_decision. Defined.

Inductive DisconnectReason :=
| ClientDisconnect | ServerDisconnect | IdleTimeout | SessionTimeout | AuthFailure
| DisconnectProtocolError | DisconnectReset | ServerShutdown | AdminTerminated
| RenegotiationFailure | DisconnectUnknown.

Inductive AuthResult :=
| AuthSuccess | InvalidCredentials | AuthExpired | NotAuthorized | RateLimited | ProviderError
| AuthTimeout | AuthResultUnknown.

Record TransferStats := mkStats {
  ts_bytes_rx : Z; ts_bytes_tx : Z; ts_packets_rx : Z; ts_packets_tx : Z;
}.
Definition TransferStats_default : TransferStats := mkStats 0 0 0 0.
(** Sums of [u64] wrap. *)
Definition TransferStats_total_bytes (s : TransferStats) : Z := wrap 64 (ts_bytes_rx s + ts_bytes_tx s).
Definition TransferStats_total_packets (s : TransferStats) : Z :=
  wrap 64 (ts_packets_rx s + ts_packets_tx s).

Section Events.
Context {Ch : Chrono} {Uu : Uuids}.

Abbreviation ConnectionId := Uuid.

(** [duration] is a [std::time::Duration], in nanoseconds. *)
Inductive ConnectionEvent :=
| ConnectionAttempt (connection_id : ConnectionId) (timestamp : DateTime) (client_addr : SocketAddr)
    (protocol_version : option str)
| Authentication (connection_id : ConnectionId) (timestamp : DateTime) (client_addr : SocketAddr)
    (username : option str) (auth_method : AuthMethod) (result : AuthResult) (details : option str)
| Connected (connection_id : ConnectionId) (timestamp : DateTime) (client_addr : SocketAddr)
    (username : option str) (vpn_ip : IpAddr) (auth_method : AuthMethod) (client_info : option str)
| Disconnected (connection_id : ConnectionId) (timestamp : DateTime) (client_addr : SocketAddr)
    (username : option str) (reason : DisconnectReason) (duration : Z) (stats : option TransferStats)
| IpChange (connection_id : ConnectionId) (timestamp : DateTime) (old_addr new_addr : SocketAddr)
    (username : option str)
| Renegotiation (connection_id : ConnectionId) (timestamp : DateTime) (client_addr : SocketAddr)
    (success : bool).

Definition ConnectionEvent_connection_id (e : ConnectionEvent) : ConnectionId :=
  match e with
  | ConnectionAttempt i _ _ _ => i
  | Authentication i _ _ _ _ _ _ => i
  | Connected i _ _ _ _ _ _ => i
  | Disconnected i _ _ _ _ _ _ => i
  | IpChange i _ _ _ _ => i
  | Renegotiation i _ _ _ => i
  end.
Definition ConnectionEvent_timestamp (e : ConnectionEvent) : DateTime :=
  match e with
  | ConnectionAttempt _ t _ _ => t
  | Authentication _ t _ _ _ _ _ => t
  | Connected _ t _ _ _ _ _ => t
  | Disconnected _ t _ _ _ _ _ => t
  | IpChange _ t _ _ _ => t
  | Renegotiation _ t _ _ => t
  end.
Definition ConnectionEvent_event_type (e : ConnectionEvent) : str :=
  match e with
  | ConnectionAttempt _ _ _ _ => lit "connection_attempt"
  | Authentication _ _ _ _ _ _ _ => lit "authentication"
  | Connected _ _ _ _ _ _ _ => lit "connected"
  | Disconnected _ _ _ _ _ _ _ => lit "disconnected"
  | IpChange _ _ _ _ _ => lit "ip_change"
  | Renegotiation _ _ _ _ => lit "renegotiation"
  end.
Definition ConnectionEvent_client_addr (e : ConnectionEvent) : option SocketAddr :=
  match e with
  | ConnectionAttempt _ _ a _ => Some a
  | Authentication _ _ a _ _ _ _ => Some a
  | Connected _ _ a _ _ _ _ => Some a
  | Disconnected _ _ a _ _ _ _ => Some a
  | IpChange _ _ _ a _ => Some a
  | Renegotiation _ _ a _ => Some a
  end.

(** [ConnectionEventBuilder] holds the connection id and is consumed. *)
Record ConnectionEventBuilder := mkBuilder { eb_connection_id : ConnectionId }.
Definition ConnectionEventBuilder_new (fresh : ConnectionId) : ConnectionEventBuilder := mkBuilder fresh.
Definition ConnectionEventBuilder_with_id (id : ConnectionId) : ConnectionEventBuilder := mkBuilder id.
Definition ConnectionEventBuilder_connection_id (b : ConnectionEventBuilder) : ConnectionId :=
  eb_connection_id b.
Definition ConnectionEventBuilder_attempt (now : DateTime) (client_addr : SocketAddr)
    (b : ConnectionEventBuilder) : ConnectionEvent :=
  ConnectionAttempt (eb_connection_id b) now client_addr None.
Definition ConnectionEventBuilder_authentication (now : DateTime) (client_addr : SocketAddr)
    (username : option str) (auth_method : AuthMethod) (result : AuthResult)
    (b : ConnectionEventBuilder) : ConnectionEvent :=
  Authentication (eb_connection_id b) now client_addr username auth_method result None.
Definition ConnectionEventBuilder_connected (now : DateTime) (client_addr : SocketAddr) (vpn_ip : IpAddr)
    (username : option str) (auth_method : AuthMethod) (b : ConnectionEventBuilder) : ConnectionEvent :=
  Connected (eb_connection_id b) now client_addr username vpn_ip auth_method None.
Definition ConnectionEventBuilder_disconnected (now : DateTime) (client_addr : SocketAddr)
    (username : option str) (reason : DisconnectReason) (duration : Z) (stats : option TransferStats)
    (b : ConnectionEventBuilder) : ConnectionEvent :=
  Disconnected (eb_connection_id b) now client_addr username reason duration stats.
Definition ConnectionEventBuilder_ip_change (now : DateTime) (old_addr new_addr : SocketAddr)
    (username : option str) (b : ConnectionEventBuilder) : ConnectionEvent :=
  IpChange (eb_connection_id b) now old_addr new_addr username.
Definition ConnectionEventBuilder_renegotiation (now : DateTime) (client_addr : SocketAddr)
    (success : bool) (b : ConnectionEventBuilder) : ConnectionEvent :=
  Renegotiation (eb_connection_id b) now client_addr success.

(** ** Loggers *)
Record LoggerStats := mkLoggerStats {
  ls_events_logged : Z;
  ls_pending_events : Z;
  ls_storage_bytes : option Z;
  ls_oldest_event : option DateTime;
  ls_newest_event : option DateTime;
}.
Definition LoggerStats_default : LoggerStats := mkLoggerStats 0 0 None None None.

(** The trait: a logger is a state [L]; errors carry their message. *)
Class ConnectionLogger (L : Type) := {
  cl_log : ConnectionEvent -> M L str unit;
  cl_query_recent : nat -> M L str (option (list ConnectionEvent));
  cl_query_connection : ConnectionId -> M L str (option (list ConnectionEvent));
  cl_flush : M L str unit;
  cl_cleanup : M L str unit;
  cl_stats : L -> LoggerStats;
  cl_is_null : bool;
  cl_logger_type : str;
}.

(** *** Ghost mode *)
Inductive NullConnectionLogger := NullConnectionLogger_new.
#[export] Instance null_logger : ConnectionLogger NullConnectionLogger := {|
  cl_log _ := mret tt;
  cl_query_recent _ := mret None;
  cl_query_connection _ := mret None;
  cl_flush := mret tt;
  cl_cleanup := mret tt;
  cl_stats _ := LoggerStats_default;
  cl_is_null := true;
  cl_logger_type := lit "null";
|}.

(** *** In memory: a bounded queue, oldest first *)
Record MemoryConnectionLogger := mkMemory {
  ml_max_events : nat;
  ml_events : list ConnectionEvent;
  ml_total_logged : Z;
  ml_first_event : option DateTime;
  ml_last_event : option DateTime;
}.
Definition MemoryConnectionLogger_new (max_events : nat) : MemoryConnectionLogger :=
  mkMemory (Nat.max max_events 100) [] 0 None None.

Definition MemoryConnectionLogger_log (event : ConnectionEvent) : M MemoryConnectionLogger str unit :=
  fun l =>
  let timestamp := ConnectionEvent_timestamp event in
  let first := match ml_first_event l with None => Some timestamp | f => f end in
  let events := if (ml_max_events l <=? length (ml_events l))%nat
                then drop 1 (ml_events l) else ml_events l in
  (mkMemory (ml_max_events l) (events ++ [event]) (wrap 64 (ml_total_logged l + 1)) first
     (Some timestamp), Ok tt).

Definition MemoryConnectionLogger_query_recent (limit : nat) :
    M MemoryConnectionLogger str (option (list ConnectionEvent)) := fun l => (l, Ok (Some (take limit (rev (ml_events l))))).
Definition MemoryConnectionLogger_query_connection (id : ConnectionId) :
    M MemoryConnectionLogger str (option (list ConnectionEvent)) := fun l =>
  (l, Ok (Some (filter (fun e => ConnectionEvent_connection_id e = id) (ml_events l)))).
Definition MemoryConnectionLogger_stats (l : MemoryConnectionLogger) : LoggerStats :=
  let n := Z.of_nat (length (ml_events l)) in
  mkLoggerStats (ml_total_logged l) n (Some (n * 256)) (ml_first_event l) (ml_last_event l).

#[export] Instance memory_logger : ConnectionLogger MemoryConnectionLogger := {|
  cl_log := MemoryConnectionLogger_log;
  cl_query_recent := MemoryConnectionLogger_query_recent;
  cl_query_connection := MemoryConnectionLogger_query_connection;
  cl_flush := mret tt;
  cl_cleanup := mret tt;
  cl_stats := MemoryConnectionLogger_stats;
  cl_is_null := false;
  cl_logger_type := lit "memory";
|}.

(** *** File and database together *)
Section Composite.
Context {F D : Type} `{FL : !ConnectionLogger F} `{DL : !ConnectionLogger D}.

Record CompositeLogger := mkComposite { cm_file_logger : F; cm_db_logger : D }.

(** Both are written; the file logger's error is returned when both fail. *)
Definition CompositeLogger_log (event : ConnectionEvent) : M CompositeLogger str unit := fun l =>
  let '(f, file_result) := cl_log event (cm_file_logger l) in
  match file_result with
  | Panic => (mkComposite f (cm_db_logger l), Panic)
  | _ =>
      let '(d, db_result) := cl_log event (cm_db_logger l) in
      (mkComposite f d,
       match file_result, db_result with
       | _, Panic => Panic
       | Err e, Err _ => Err e
       | _, _ => Ok tt
       end)
  end.

Definition on_file {A} (m : M F str A) : M CompositeLogger str A :=
  zoom cm_file_logger (fun f l => mkComposite f (cm_db_logger l)) id m.
Definition on_db {A} (m : M D str A) : M CompositeLogger str A :=
  zoom cm_db_logger (fun d l => mkComposite (cm_file_logger l) d) id m.
Definition CompositeLogger_flush : M CompositeLogger str unit :=
  _ ← on_file cl_flush; _ ← on_db cl_flush; mret tt.
Definition CompositeLogger_cleanup : M CompositeLogger str unit :=
  _ ← on_file cl_cleanup; _ ← on_db cl_cleanup; mret tt.

(** [Some(a + b)], [Some(a)], [Some(b)] or [None]. *)
Definition merge_stat {A} (f : A -> A -> A) (x y : option A) : option A :=
  match x, y with
  | Some a, Some b => Some (f a b)
  | Some a, None => Some a
  | None, Some b => Some b
  | None, None => None
  end.
Definition dt_min (a b : DateTime) : DateTime := if dt_gt a b then b else a.
Definition dt_max (a b : DateTime) : DateTime := if dt_gt a b then a else b.

Definition CompositeLogger_stats (l : CompositeLogger) : LoggerStats :=
  let f := cl_stats (cm_file_logger l) in
  let d := cl_stats (cm_db_logger l) in
  mkLoggerStats (Z.max (ls_events_logged f) (ls_events_logged d))
    (wrap 64 (ls_pending_events f + ls_pending_events d))
    (merge_stat (fun a b => wrap 64 (a + b)) (ls_storage_bytes f) (ls_storage_bytes d))
    (merge_stat dt_min (ls_oldest_event f) (ls_oldest_event d))
    (merge_stat dt_max (ls_newest_event f) (ls_newest_event d)).

#[export] Instance composite_logger : ConnectionLogger CompositeLogger := {|
  cl_log := CompositeLogger_log;
  cl_query_recent limit := on_db (cl_query_recent limit);
  cl_query_connection id := on_db (cl_query_connection id);
  cl_flush := CompositeLogger_flush;
  cl_cleanup := CompositeLogger_cleanup;
  cl_stats := CompositeLogger_stats;
  cl_is_null := false;
  cl_logger_type := lit "composite";
|}.
End Composite.

(** *** The factory: which logger it builds, with which parameters *)
Inductive LoggerChoice :=
| UseNull
| UseMemory (max_events : Z)
| UseFile (path : str) (max_size max_files : Z) (secure_delete : bool)
| UseDatabase (path : str) (days : Z) (auto_purge : bool)
| UseBoth (file db : LoggerChoice).

Definition choose_file (settings : LoggingSettings) : LoggerChoice :=
  let r := lg_retention settings in
  UseFile (default (lit "/var/log/corevpn/connections.log") (lg_connection_log_file settings))
    (rt_max_file_size_mb r * 1024 * 1024) (rt_max_files r) (rt_secure_delete r).
Definition choose_database (settings : LoggingSettings) : LoggerChoice :=
  let r := lg_retention settings in
  UseDatabase (default (lit "/var/lib/corevpn/connections.db") (lg_connection_log_db settings))
    (rt_days r) (rt_auto_purge r).
Definition create_logger (settings : LoggingSettings) : LoggerChoice :=
  match lg_connection_mode settings with
  | LogNone => UseNull
  | LogMemory => UseMemory (rt_days (lg_retention settings) * 24 * 60)
  | LogFile => choose_file settings
  | LogDatabase => choose_database settings
  | LogBoth => UseBoth (choose_file settings) (choose_database settings)
  end.

End Events.

(** ** Anonymization *)
Definition from_le (l : bytes) : Z := from_be (rev l).
Definition to_le (n : nat) (z : Z) : bytes := rev (to_be n z).

(** [format!("{:0nx}", z)] of a [z] below [16^n]. *)
Fixpoint hex_pad (n : nat) (z : Z) : str :=
  match n with
  | O => []
  | S n' => hex_digit (Z.land (Z.shiftr z (4 * Z.of_nat n')) 15) :: hex_pad n' z
  end.

(** The size classes of [anonymize_stats]. *)
Definition bucket (n : Z) : Z :=
  if n <=? 1023 then 512
  else if n <=? 10239 then 5 * 1024
  else if n <=? 102399 then 50 * 1024
  else if n <=? 1048575 then 500 * 1024
  else if n <=? 10485759 then 5 * 1024 * 1024
  else if n <=? 104857599 then 50 * 1024 * 1024
  else if n <=? 1073741823 then 500 * 1024 * 1024
  else 1024 * 1024 * 1024.

Section Anonymizer.
Context {Ch : Chrono} {ChF : ChronoFields} {Uu : Uuids} {HMAC : Hmac} {SHA : Sha256}.

Record Anonymizer := mkAnonymizer {
  az_config : ConnectionLogAnonymization;
  az_daily_salt : bytes;
  az_current_day : Z;
  az_instance_secret : bytes;
}.

Definition Anonymizer_generate_salt (day : Z) (instance_secret : bytes) : bytes :=
  take 32 (sha256 (instance_secret ++ to_le 4 day ++ lit "corevpn-anonymizer-salt")).

Definition Anonymizer_new (now : DateTime) (instance_secret : bytes) (config : ConnectionLogAnonymization) :
    Anonymizer :=
  let day := dt_ordinal now in
  mkAnonymizer config (Anonymizer_generate_salt day instance_secret) day instance_secret.

Definition Anonymizer_rotate_salt_if_needed (now : DateTime) (a : Anonymizer) : Anonymizer :=
  let day := dt_ordinal now in
  if negb (day =? az_current_day a)
  then mkAnonymizer (az_config a) (Anonymizer_generate_salt day (az_instance_secret a)) day
         (az_instance_secret a)
  else a.

Definition Anonymizer_anonymize_timestamp (a : Anonymizer) (timestamp : DateTime) : DateTime :=
  if an_round_timestamps (az_config a)
  then default timestamp
         (t ← with_minute 0 timestamp; t ← with_second 0 t; with_nanosecond 0 t)
  else timestamp.

Definition Anonymizer_hash_ip (a : Anonymizer) (ip : IpAddr) : IpAddr :=
  let ip_bytes := match ip with
                  | V4 v4 => octets v4 ++ replicate 12 0
                  | V6 v6 => to_be 16 v6
                  end in
  let hash := from_le (take 8 (hmac_sha256 (az_daily_salt a) ip_bytes)) in
  let byte (k : Z) := Z.land (Z.shiftr hash k) 255 in
  match ip with
  | V4 _ => V4 (from_be [0; byte 8; byte 16; byte 24])
  | V6 _ => V6 (from_be [32; 1; 13; 184; byte 32; byte 40; byte 48; byte 56;
                         byte 0; byte 8; byte 16; byte 24; 0; 0; 0; 0])
  end.

Definition Anonymizer_truncate_ip (ip : IpAddr) : IpAddr :=
  match ip with
  | V4 v4 => V4 (from_be [v4_octet v4 0; v4_octet v4 1; v4_octet v4 2; 0])
  | V6 v6 => V6 (of_segments [v6_segment v6 0; v6_segment v6 1; v6_segment v6 2; 0; 0; 0; 0; 0])
  end.

Definition Anonymizer_anonymize_socket_addr (a : Anonymizer) (addr : SocketAddr) : SocketAddr :=
  let ip := if an_hash_client_ips (az_config a) then Anonymizer_hash_ip a (SocketAddr_ip addr)
            else if an_truncate_client_ips (az_config a) then Anonymizer_truncate_ip (SocketAddr_ip addr)
            else SocketAddr_ip addr in
  SocketAddr_new ip 0.

Definition Anonymizer_anonymize_username (a : Anonymizer) (username : option str) : option str :=
  if negb (an_hash_usernames (az_config a)) then username else
  (fun u => lit "user_" ++ hex_pad 16 (from_le (take 8 (hmac_sha256 (az_daily_salt a) u)))) <$> username.

Definition Anonymizer_anonymize_stats (a : Anonymizer) (stats : option TransferStats) :
    option TransferStats :=
  if negb (an_aggregate_transfer_stats (az_config a)) then stats else
  (fun s => mkStats (bucket (ts_bytes_rx s)) (bucket (ts_bytes_tx s)) 0 0) <$> stats.

(** The match of [anonymize], after the rotation of the salt. *)
Definition anonymize_event (a : Anonymizer) (event : ConnectionEvent) : ConnectionEvent :=
  match event with
  | ConnectionAttempt i t addr v =>
      ConnectionAttempt i (Anonymizer_anonymize_timestamp a t) (Anonymizer_anonymize_socket_addr a addr) v
  | Authentication i t addr user m r _ =>
      Authentication i (Anonymizer_anonymize_timestamp a t) (Anonymizer_anonymize_socket_addr a addr)
        (Anonymizer_anonymize_username a user) m r None
  | Connected i t addr user ip m _ =>
      Connected i (Anonymizer_anonymize_timestamp a t) (Anonymizer_anonymize_socket_addr a addr)
        (Anonymizer_anonymize_username a user) ip m None
  | Disconnected i t addr user r d stats =>
      Disconnected i (Anonymizer_anonymize_timestamp a t) (Anonymizer_anonymize_socket_addr a addr)
        (Anonymizer_anonymize_username a user) r d (Anonymizer_anonymize_stats a stats)
  | IpChange i t old new user =>
      IpChange i (Anonymizer_anonymize_timestamp a t) (Anonymizer_anonymize_socket_addr a old)
        (Anonymizer_anonymize_socket_addr a new) (Anonymizer_anonymize_username a user)
  | Renegotiation i t addr ok =>
      Renegotiation i (Anonymizer_anonymize_timestamp a t) (Anonymizer_anonymize_socket_addr a addr) ok
  end.

Definition Anonymizer_anonymize (now : DateTime) (event : ConnectionEvent) (a : Anonymizer) :
    Anonymizer * ConnectionEvent :=
  let a := Anonymizer_rotate_salt_if_needed now a in (a, anonymize_event a event).

End Anonymizer.

(** ** The in-memory log keeps the latest events *)
Section MemoryLog.
Context {Ch : Chrono} {Uu : Uuids}.

Fixpoint log_all (es : list ConnectionEvent) (l : MemoryConnectionLogger) : MemoryConnectionLogger :=
  match es with
  | [] => l
  | e :: es' => log_all es' (fst (MemoryConnectionLogger_log e l))
  end.

Lemma log_all_app es fs l : log_all (es ++ fs) l = log_all fs (log_all es l).
Proof. revert l. induction es as [|e es IH]; intros l; cbn [app log_all]; [done|apply IH]. Qed.

(** After any sequence of events the in-memory log holds exactly the latest
    [max(max_events, 100)] of them, in order, has counted all of them, and
    remembers the times of the first and of the last event ever logged. *)
Theorem memory_logger_keeps_latest (n : nat) (es : list ConnectionEvent) :
  let l := log_all es (MemoryConnectionLogger_new n) in
  ml_events l = drop (length es - Nat.max n 100) es /\
  ml_total_logged l = wrap 64 (Z.of_nat (length es)) /\
  ml_first_event l = ConnectionEvent_timestamp <$> head es /\
  ml_last_event l = ConnectionEvent_timestamp <$> last es /\
  ml_max_events l = Nat.max n 100.
Proof.
  cbv zeta. induction es as [|e es IH] using rev_ind; [done|].
  rewrite log_all_app. cbn [log_all]. set (l := log_all es _) in *.
  destruct IH as (He & Ht & Hf & Hl & Hm).
  unfold MemoryConnectionLogger_log. cbn [fst ml_events ml_total_logged ml_first_event ml_last_event ml_max_events].
  rewrite He, Ht, Hf, Hm. rewrite length_app, last_snoc. cbn [length]. split_and!; try done.
  - rewrite length_drop. destruct (_ <=? _)%nat eqn:Hle; bools.
    + rewrite drop_drop, drop_app_le by lia. do 2 f_equal. lia.
    + rewrite !(drop_app_le _ e) || rewrite drop_app_le by lia.
      by replace (length es - Nat.max n 100)%nat with 0%nat by lia;
        replace (length es + 1 - Nat.max n 100)%nat with 0%nat by lia.
  - unfold wrap. rewrite Nat2Z.inj_add, Zplus_mod_idemp_l. done.
  - by destruct es.
Qed.
End MemoryLog.

(** ** What anonymized events reveal *)
Section Unlinkable.
Context {Ch : Chrono} {ChF : ChronoFields} {ChL : ChronoFieldsLaws ChF} {Uu : Uuids}
  {HMAC : Hmac} {SHA : Sha256}.

Definition same_hour (t u : DateTime) : Prop := fst (fst (fst (dt_fields t))) = fst (fst (fst (dt_fields u))).

(** Addresses of one /24 or one /48; ports, flow labels and scopes are free. *)
Definition same_site (a b : SocketAddr) : Prop :=
  match SocketAddr_ip a, SocketAddr_ip b with
  | V4 x, V4 y => take 3 (octets x) = take 3 (octets y)
  | V6 x, V6 y => take 3 (v6_segments x) = take 3 (v6_segments y)
  | _, _ => False
  end.

(** The size classes that the configuration promises: below 1 KB, 10 KB, 100 KB,
    1 MB, 10 MB, 100 MB, 1 GB, and above. *)
Definition VOLUME_LIMITS : list Z :=
  [2 ^ 10; 10 * 2 ^ 10; 100 * 2 ^ 10; 2 ^ 20; 10 * 2 ^ 20; 100 * 2 ^ 20; 2 ^ 30].
Definition same_class (n m : Z) : Prop := Forall (fun limit => n < limit <-> m < limit) VOLUME_LIMITS.
Definition same_volume (s t : option TransferStats) : Prop :=
  match s, t with
  | Some s, Some t => same_class (ts_bytes_rx s) (ts_bytes_rx t) /\ same_class (ts_bytes_tx s) (ts_bytes_tx t)
  | None, None => True
  | _, _ => False
  end.

Lemma same_class_bucket n m : same_class n m -> bucket n = bucket m.
Proof.
  unfold same_class, VOLUME_LIMITS. rewrite !Forall_cons. intros (H1 & H2 & H3 & H4 & H5 & H6 & H7 & _).
  unfold bucket.
  repeat match goal with |- context [?x <=? ?k] => destruct (Z.leb_spec x k) end; lia.
Qed.

(** Events that differ only in what is meant to be hidden. *)
Inductive alike : ConnectionEvent -> ConnectionEvent -> Prop :=
| alike_attempt i t u a b v : same_hour t u -> same_site a b ->
    alike (ConnectionAttempt i t a v) (ConnectionAttempt i u b v)
| alike_auth i t u a b n m r x y : same_hour t u -> same_site a b ->
    alike (Authentication i t a n m r x) (Authentication i u b n m r y)
| alike_connected i t u a b n ip m x y : same_hour t u -> same_site a b ->
    alike (Connected i t a n ip m x) (Connected i u b n ip m y)
| alike_disconnected i t u a b n r d s s' : same_hour t u -> same_site a b -> same_volume s s' ->
    alike (Disconnected i t a n r d s) (Disconnected i u b n r d s')
| alike_ip_change i t u a b a' b' n : same_hour t u -> same_site a b -> same_site a' b' ->
    alike (IpChange i t a a' n) (IpChange i u b b' n)
| alike_renegotiation i t u a b ok : same_hour t u -> same_site a b ->
    alike (Renegotiation i t a ok) (Renegotiation i u b ok).

Lemma rounded_fields a t : an_round_timestamps (az_config a) = true ->
  dt_fields (Anonymizer_anonymize_timestamp a t) = (fst (fst (fst (dt_fields t))), 0, 0, 0).
Proof.
  intros Hr. unfold Anonymizer_anonymize_timestamp. rewrite Hr.
  destruct (dt_fields t) as [[[h m] s] n] eqn:Ht.
  destruct (with_minute_ok _ _ _ _ _ Ht) as (t1 & -> & H1). cbn [mbind option_bind].
  destruct (with_second_ok _ _ _ _ _ H1) as (t2 & -> & H2). cbn [mbind option_bind].
  destruct (with_nanosecond_ok _ _ _ _ _ H2) as (t3 & -> & H3). done.
Qed.

Lemma rounded_same a t u : an_round_timestamps (az_config a) = true -> same_hour t u ->
  Anonymizer_anonymize_timestamp a t = Anonymizer_anonymize_timestamp a u.
Proof. intros Hr H. apply (inj dt_fields). rewrite !rounded_fields by done. by rewrite H. Qed.

Lemma truncated_same a b :
  same_site a b -> Anonymizer_truncate_ip (SocketAddr_ip a) = Anonymizer_truncate_ip (SocketAddr_ip b).
Proof.
  unfold same_site, Anonymizer_truncate_ip.
  destruct (SocketAddr_ip a) as [x|x], (SocketAddr_ip b) as [y|y]; try done.
  - unfold octets. intros H. do 2 f_equal. unfold v4_octet. cbn [to_be lookup list_lookup] in *.
    cbn in H. cbn. congruence.
  - unfold v6_segments. cbn [seq map take]. intros [= H0 H1 H2]. by rewrite H0, H1, H2.
Qed.

Lemma stats_same a s t : an_aggregate_transfer_stats (az_config a) = true -> same_volume s t ->
  Anonymizer_anonymize_stats a s = Anonymizer_anonymize_stats a t.
Proof.
  intros Ha. unfold Anonymizer_anonymize_stats. rewrite Ha. destruct s, t; cbn; try done.
  by intros [->%same_class_bucket ->%same_class_bucket].
Qed.

Lemma rotated_config (a : Anonymizer) now : az_config (Anonymizer_rotate_salt_if_needed now a) = az_config a.
Proof. unfold Anonymizer_rotate_salt_if_needed. by case_match. Qed.

Lemma alike_anonymized (a : Anonymizer) e1 e2 : an_truncate_client_ips (az_config a) = true ->
  an_hash_client_ips (az_config a) = false -> an_round_timestamps (az_config a) = true ->
  an_aggregate_transfer_stats (az_config a) = true -> alike e1 e2 -> anonymize_event a e1 = anonymize_event a e2.
Proof.
  intros Htrunc Hhash Hround Hstats Halike.
  assert (forall x y, same_site x y ->
    Anonymizer_anonymize_socket_addr a x = Anonymizer_anonymize_socket_addr a y) as Haddr.
  { intros x y Hxy. unfold Anonymizer_anonymize_socket_addr. rewrite Htrunc, Hhash. by rewrite (truncated_same x y). }
  assert (forall t u, same_hour t u ->
    Anonymizer_anonymize_timestamp a t = Anonymizer_anonymize_timestamp a u) as Htime.
  { intros. by apply rounded_same. }
  destruct Halike; cbn [anonymize_event]; f_equal; auto. by apply stats_same.
Qed.

(** C38 With truncated addresses, rounded times and aggregated volumes, the log
    does not distinguish two events that differ only in the last octet (or
    the last 80 bits) and the port of the client, in the minutes of the hour,
    in the details removed, and in volumes of the same class, below 1 KB,
    10 KB, 100 KB, 1 MB, 10 MB, 100 MB or 1 GB.  The time that is logged is
    the beginning of the hour of the event: minutes are cut off, where the
    comments speak of the nearest hour. *)
Theorem anonymize_unlinkable (a : Anonymizer) (now : DateTime) (e1 e2 : ConnectionEvent)
    (Htrunc : an_truncate_client_ips (az_config a) = true)
    (Hhash : an_hash_client_ips (az_config a) = false)
    (Hround : an_round_timestamps (az_config a) = true)
    (Hstats : an_aggregate_transfer_stats (az_config a) = true)
    (Halike : alike e1 e2) :
  Anonymizer_anonymize now e1 a = Anonymizer_anonymize now e2 a /\
  dt_fields (ConnectionEvent_timestamp (snd (Anonymizer_anonymize now e1 a)))
    = (fst (fst (fst (dt_fields (ConnectionEvent_timestamp e1)))), 0, 0, 0).
Proof.
  pose proof (rotated_config a now) as Hc. unfold Anonymizer_anonymize. cbn [snd]. split.
  - f_equal. by apply alike_anonymized; rewrite ?Hc.
  - destruct e1; cbn [anonymize_event ConnectionEvent_timestamp]; apply rounded_fields; by rewrite Hc.
Qed.

(** The addresses of an event. *)
Definition event_addrs (e : ConnectionEvent) : list SocketAddr :=
  match e with
  | ConnectionAttempt _ _ a _ => [a]
  | Authentication _ _ a _ _ _ _ => [a]
  | Connected _ _ a _ _ _ _ => [a]
  | Disconnected _ _ a _ _ _ _ => [a]
  | IpChange _ _ a b _ => [a; b]
  | Renegotiation _ _ a _ => [a]
  end.

(** The port never reaches the log. *)
Lemma anonymized_port (a : Anonymizer) now e :
  Forall (fun x => SocketAddr_port x = 0) (event_addrs (snd (Anonymizer_anonymize now e a))).
Proof.
  assert (forall a' x, SocketAddr_port (Anonymizer_anonymize_socket_addr a' x) = 0) as H.
  { intros a' x. unfold Anonymizer_anonymize_socket_addr. by destruct (if _ : bool then _ else _). }
  unfold Anonymizer_anonymize. cbn [snd]. destruct e; cbn; auto.
Qed.
End Unlinkable.

(** ** Calendar fields of a concrete clock *)
Section LogWitnesses.

(** The clock of CoreSession.v read as nanoseconds since the epoch. *)
Definition nanos_fields (t : Z) : Z * Z * Z * Z :=
  let s := t / 1000000000 in
  (s / 3600, s / 60 mod 60, s mod 60, t mod 1000000000).
Definition of_fields (f : Z * Z * Z * Z) : Z :=
  let '(h, m, s, n) := f in ((h * 60 + m) * 60 + s) * 1000000000 + n.

Lemma of_nanos_fields t : of_fields (nanos_fields t) = t.
Proof.
  unfold of_fields, nanos_fields.
  pose proof (Z.div_mod t 1000000000). set (s := t / 1000000000) in *.
  pose proof (Z.div_mod s 60). pose proof (Z.div_mod (s / 60) 60).
  rewrite (Z.div_div s 60 60) in * by lia. change (60 * 60) with 3600 in *. lia.
Qed.

Lemma nanos_of_fields h m s n :
  0 <= m < 60 -> 0 <= s < 60 -> 0 <= n < 1000000000 -> nanos_fields (of_fields (h, m, s, n)) = (h, m, s, n).
Proof.
  intros Hm Hs Hn. unfold of_fields, nanos_fields.
  rewrite Z.div_add_l, (Z.div_small n) by lia. rewrite Z.add_0_r.
  rewrite <- (Z.div_div _ 60 60) by lia.
  rewrite (Z.div_add_l _ 60 s), (Z.div_small s), Z.add_0_r by lia.
  rewrite (Z.div_add_l h 60 m), (Z.div_small m), Z.add_0_r by lia.
  rewrite !(Z.add_comm (_ * _)), !Z.mod_add, !Z.mod_small by lia. done.
Qed.

Definition toy_fields : @ChronoFields toy_chrono := {|
  dt_ordinal := fun t : @DateTime toy_chrono => t / (24 * 3600 * 1000000000) mod 365 + 1;
  with_minute := fun v t => let '(h, _, s, n) := nanos_fields t in Some (of_fields (h, v, s, n));
  with_second := fun v t => let '(h, m, _, n) := nanos_fields t in Some (of_fields (h, m, v, n));
  with_nanosecond := fun v t => let '(h, m, s, _) := nanos_fields t in Some (of_fields (h, m, s, v));
  dt_fields := nanos_fields;
|}.
Lemma toy_fields_laws : ChronoFieldsLaws toy_fields.
Proof.
  assert (forall t h m s n, nanos_fields t = (h, m, s, n) -> 0 <= m < 60 /\ 0 <= s < 60 /\ 0 <= n < 1000000000)
    as Hr.
  { unfold nanos_fields. intros t h m s n [= <- <- <- <-].
    split_and!; apply Z.mod_pos_bound; lia. }
  constructor.
  - intros t u H. rewrite <- (of_nanos_fields t), <- (of_nanos_fields u). exact (f_equal of_fields H).
  - intros h m s n t Ht. exists (of_fields (h, 0, s, n)). cbn [with_minute dt_fields toy_fields] in *.
    rewrite Ht. split; [done|]. apply Hr in Ht. apply nanos_of_fields; lia.
  - intros h m s n t Ht. exists (of_fields (h, m, 0, n)). cbn [with_second dt_fields toy_fields] in *.
    rewrite Ht. split; [done|]. apply Hr in Ht. apply nanos_of_fields; lia.
  - intros h m s n t Ht. exists (of_fields (h, m, s, 0)). cbn [with_nanosecond dt_fields toy_fields] in *.
    rewrite Ht. split; [done|]. apply Hr in Ht. apply nanos_of_fields; lia.
Qed.

Definition toy_sha : Sha256 := {| sha256 m := toy_hash 32 [] m |}.

#[local] Existing Instances toy_chrono toy_uuids toy_fields toy_fields_laws toy_hmac toy_sha.

Definition private_config : ConnectionLogAnonymization := mkLogAnonymization false true true true true.
Definition private_anonymizer : Anonymizer := mkAnonymizer private_config [] 1 [].
Definition attempt_at (t host : Z) : ConnectionEvent :=
  ConnectionAttempt (7%N : @Uuid toy_uuids) (t : @DateTime toy_chrono) (SockV4 (from_be [192; 168; 1; host]) 4000) None.

Lemma anonymize_unlinkable_witness :
  alike (attempt_at 5 10) (attempt_at 60000000000 77) /\
  Anonymizer_anonymize (0 : @DateTime toy_chrono) (attempt_at 5 10) private_anonymizer
    = Anonymizer_anonymize (0 : @DateTime toy_chrono) (attempt_at 60000000000 77) private_anonymizer.
Proof.
  assert (alike (attempt_at 5 10) (attempt_at 60000000000 77)) as H.
  { apply alike_attempt; reflexivity. }
  split; [exact H|]. by apply (anonymize_unlinkable private_anonymizer (0 : @DateTime toy_chrono) _ _ eq_refl eq_refl eq_refl eq_refl H).
Defined.
End LogWitnesses.

(** ** Loggers that do not panic *)
Class LoggerSafe {Ch : Chrono} {Uu : Uuids} {L : Type} (LG : ConnectionLogger L) : Prop := {
  log_no_panic e l : no_panic (snd (cl_log e l));
}.
Section Safe.
Context {Ch : Chrono} {Uu : Uuids}.

#[export] Instance null_logger_safe : LoggerSafe null_logger.
Proof. by constructor. Qed.
#[export] Instance memory_logger_safe : LoggerSafe memory_logger.
Proof. by constructor. Qed.
#[export] Instance composite_logger_safe {F D : Type} {FL : ConnectionLogger F} {DL : ConnectionLogger D}
    {FS : LoggerSafe FL} {DS : LoggerSafe DL} : LoggerSafe (composite_logger (F := F) (D := D)).
Proof.
  constructor. intros e [f d]. cbn. unfold CompositeLogger_log. cbn.
  pose proof (log_no_panic (LG := FL) e f) as Hf. pose proof (log_no_panic (LG := DL) e d) as Hd.
  destruct (cl_log e f) as [f' [[]| |]]; [| |done]; destruct (cl_log e d) as [d' [[]| |]]; done.
Qed.
End Safe.
