(* ===== verification/RateLimit.v ===== *)
(** * The rate limiter

    [RateLimiter] of src/crates/corevpn-auth/src/session.rs: a fixed window per
    key.  Times are nanoseconds since 1970; readings of the clock are arguments.
    The table is behind a lock, so the calls of a limiter form a sequence. *)
From S2P Require Import Prelude.
Local Open Scope Z_scope.

Record RateLimitEntry := mkLimit { le_count : Z; le_reset_at : Z }.
Record RateLimiter := mkLimiter {
  rl_max_attempts : Z;
  rl_window : Z;
  rl_entries : gmap str RateLimitEntry;
}.

Definition RateLimiter_new (max_attempts window : Z) : RateLimiter := mkLimiter max_attempts window ∅.

Definition rl_retain (now : Z) (entries : gmap str RateLimitEntry) : gmap str RateLimitEntry :=
  filter (fun e => now < le_reset_at e.2) entries.

Definition RateLimiter_check (now : Z) (key : str) (l : RateLimiter) : RateLimiter * bool :=
  let entries := rl_retain now (rl_entries l) in
  let entry := default (mkLimit 0 (now + rl_window l)) (entries !! key) in
  let entry := if le_reset_at entry <=? now then mkLimit 0 (now + rl_window l) else entry in
  let entry := mkLimit (wrap 32 (le_count entry + 1)) (le_reset_at entry) in
  (mkLimiter (rl_max_attempts l) (rl_window l) (<[key := entry]> entries), le_count entry <=? rl_max_attempts l).

Definition RateLimiter_reset (key : str) (l : RateLimiter) : RateLimiter :=
  mkLimiter (rl_max_attempts l) (rl_window l) (delete key (rl_entries l)).

Definition RateLimiter_cleanup (now : Z) (l : RateLimiter) : RateLimiter :=
  mkLimiter (rl_max_attempts l) (rl_window l) (rl_retain now (rl_entries l)).

(** ** Runs *)
Inductive LimiterCall :=
| CallCheck (now : Z) (key : str)
| CallReset (key : str)
| CallCleanup (now : Z).

(** The state after a call, and the verdict of a check with its key. *)
Definition limiter_call (c : LimiterCall) (l : RateLimiter) : RateLimiter * list (str * bool) :=
  match c with
  | CallCheck now key => let '(l, v) := RateLimiter_check now key l in (l, [(key, v)])
  | CallReset key => (RateLimiter_reset key l, [])
  | CallCleanup now => (RateLimiter_cleanup now l, [])
  end.
Fixpoint limiter_run (cs : list LimiterCall) (l : RateLimiter) : RateLimiter * list (str * bool) :=
  match cs with
  | [] => (l, [])
  | c :: cs => let '(l, v) := limiter_call c l in let '(l, vs) := limiter_run cs l in (l, v ++ vs)
  end.

Definition verdicts (key : str) (vs : list (str * bool)) : list bool := (filter (fun v => v.1 = key) vs).*2.
Definition allowed (key : str) (vs : list (str * bool)) : nat := length (filter (fun b => b = true) (verdicts key vs)).

(** The clock readings of the calls do not go back from [t]. *)
Fixpoint in_order (t : Z) (cs : list LimiterCall) : Prop :=
  match cs with
  | [] => True
  | (CallCheck now _ | CallCleanup now) :: cs => t <= now /\ in_order now cs
  | CallReset _ :: cs => in_order t cs
  end.
(** The calls between [a] and [b]. *)
Definition call_within (a b : Z) (c : LimiterCall) : Prop :=
  match c with CallCheck now _ | CallCleanup now => a <= now < b | CallReset _ => True end.
(** The checks of [key] from [a] on. *)
Definition check_from (key : str) (a : Z) (c : LimiterCall) : Prop :=
  match c with CallCheck now k => k = key /\ a <= now | _ => False end.
#[export] Instance check_from_dec key a c : Decision (check_from key a c).
Proof. destruct c; cbn; apply _. Defined.
Definition checks_from (key : str) (a : Z) (cs : list LimiterCall) : nat := length (filter (check_from key a) cs).
Definition resets (key : str) (c : LimiterCall) : Prop :=
  match c with CallReset k => k = key | _ => False end.
#[export] Instance resets_dec key c : Decision (resets key c).
Proof. destruct c; cbn; apply _. Defined.

(** ** One key at a time *)

(** What the other keys do to the entry of a key is to drop it once it has
    expired, which a check does as well. *)
Definition live (now : Z) (o : option RateLimitEntry) : option RateLimitEntry :=
  e ← o; if now <? le_reset_at e then Some e else None.

Lemma retain_lookup now m key : rl_retain now m !! key = live now (m !! key).
Proof.
  unfold rl_retain, live. rewrite map_lookup_filter. destruct (m !! key) as [e|]; [|done]. cbn.
  unfold guard. case_decide as H; cbn; destruct (Z.ltb_spec now (le_reset_at e)); done || lia.
Qed.

Lemma live_live t now o : t <= now -> live now (live t o) = live now o.
Proof.
  intros Ht. destruct o as [e|]; [|done]. cbn. destruct (Z.ltb_spec t (le_reset_at e)); [done|]. cbn.
  destruct (Z.ltb_spec now (le_reset_at e)); [lia|done].
Qed.

(** The entry of a key after its check. *)
Definition counted (window now : Z) (o : option RateLimitEntry) : RateLimitEntry :=
  match live now o with
  | Some e => mkLimit (wrap 32 (le_count e + 1)) (le_reset_at e)
  | None => mkLimit 1 (now + window)
  end.

Lemma check_counted now key l :
  RateLimiter_check now key l =
    (mkLimiter (rl_max_attempts l) (rl_window l)
       (<[key := counted (rl_window l) now (rl_entries l !! key)]> (rl_retain now (rl_entries l))),
     le_count (counted (rl_window l) now (rl_entries l !! key)) <=? rl_max_attempts l).
Proof.
  unfold RateLimiter_check, counted. rewrite retain_lookup.
  destruct (live now (rl_entries l !! key)) as [e|] eqn:He; cbn [default from_option id].
  - assert (now < le_reset_at e) as H.
    { destruct (rl_entries l !! key) as [e'|]; [|done]. cbn in He.
      destruct (Z.ltb_spec now (le_reset_at e')); by simplify_eq. }
    by rewrite (proj2 (Z.leb_gt (le_reset_at e) now)) by lia.
  - by destruct (_ <=? now).
Qed.

(** The entry of [key] after a call. *)
Definition entry_after (window : Z) (key : str) (c : LimiterCall) (o : option RateLimitEntry) : option RateLimitEntry :=
  match c with
  | CallCheck now k => if decide (k = key) then Some (counted window now o) else live now o
  | CallReset k => if decide (k = key) then None else o
  | CallCleanup now => live now o
  end.
Definition verdict_of (max window : Z) (key : str) (c : LimiterCall) (o : option RateLimitEntry) : list bool :=
  match c with
  | CallCheck now k => if decide (k = key) then [le_count (counted window now o) <=? max] else []
  | _ => []
  end.

(** A limiter keeps its settings, and a call acts on the entry of [key] as on
    nothing else. *)
Lemma call_on_key key c l :
  rl_max_attempts (limiter_call c l).1 = rl_max_attempts l /\
  rl_window (limiter_call c l).1 = rl_window l /\
  rl_entries (limiter_call c l).1 !! key = entry_after (rl_window l) key c (rl_entries l !! key) /\
  verdicts key (limiter_call c l).2 = verdict_of (rl_max_attempts l) (rl_window l) key c (rl_entries l !! key).
Proof.
  destruct c as [now k|k|now]; cbn [limiter_call entry_after verdict_of].
  - rewrite check_counted. cbn [fst snd rl_max_attempts rl_window rl_entries]. split_and!; try done;
      unfold verdicts; rewrite ?filter_cons; cbn [fst]; case_decide as Hk; subst;
      rewrite ?lookup_insert_eq, ?lookup_insert_ne, ?retain_lookup by done; done.
  - cbn. split_and!; try done. case_decide; subst; [apply lookup_delete_eq|by rewrite lookup_delete_ne].
  - cbn. split_and!; try done. apply retain_lookup.
Qed.

Lemma verdicts_app key a b : verdicts key (a ++ b) = verdicts key a ++ verdicts key b.
Proof. unfold verdicts. by rewrite filter_app, fmap_app. Qed.

Lemma allowed_app key a b : allowed key (a ++ b) = (allowed key a + allowed key b)%nat.
Proof. unfold allowed. by rewrite verdicts_app, filter_app, length_app. Qed.

Lemma limiter_run_app cs ds l :
  limiter_run (cs ++ ds) l =
    let '(l1, v) := limiter_run cs l in let '(l2, w) := limiter_run ds l1 in (l2, v ++ w).
Proof.
  revert l. induction cs as [|c cs IH]; intros l; cbn [app limiter_run]; [by destruct (limiter_run ds l)|].
  destruct (limiter_call c l) as [l1 v]. rewrite IH. destruct (limiter_run cs l1) as [l2 w].
  destruct (limiter_run ds l2). by rewrite app_assoc.
Qed.

(** ** How often a key is let through *)
Section Bound.
Context (max window t : Z) (key : str) (Hmax : 0 <= max) (Hw : 0 <= window).

(** How often [key] may still be let through before [t + window]. *)
Definition room (o : option RateLimitEntry) : Z :=
  match o with
  | None => max
  | Some e => (max - Z.min (le_count e) max) + (if t + window <=? le_reset_at e then 0 else max)
  end.
(** No counter wraps within [n] calls. *)
Definition counts_to (n : nat) (o : option RateLimitEntry) : Prop :=
  from_option (fun e => 0 <= le_count e /\ le_count e + Z.of_nat n < 2 ^ 32) (Z.of_nat n < 2 ^ 32) o.

Lemma counts_live n now o : counts_to n o -> counts_to n (live now o).
Proof. destruct o as [e|]; [|done]. cbn. destruct (_ <? _); cbn; lia. Qed.

Lemma live_room now o : now < t + window -> room (live now o) <= room o.
Proof.
  intros Hn. destruct o as [e|]; [|done]. cbn [live mbind option_bind]. cbn.
  destruct (Z.ltb_spec now (le_reset_at e)); cbn; [lia|].
  destruct (Z.leb_spec (t + window) (le_reset_at e)); lia.
Qed.

Lemma counts_entry n c o : counts_to (S n) o -> counts_to n (entry_after window key c o).
Proof.
  assert (forall o, counts_to (S n) o -> counts_to n o) as Hle by (intros [e|]; cbn; lia).
  intros H. destruct c as [now k|k|now]; cbn [entry_after]; try case_decide; auto using counts_live.
  - apply (counts_live _ now) in H. unfold counted. destruct (live now o) as [e|]; cbn in *; [|lia].
    rewrite wrap_small by (unfold uint; lia). lia.
  - apply (Hle o) in H. destruct o as [e|]; cbn in *; lia.
Qed.

Lemma room_counted now o n : t <= now < t + window -> counts_to (S n) o ->
  let e := counted window now o in
  (if le_count e <=? max then 1 else 0) + room (Some e) <= room o.
Proof.
  intros Hn Hc. pose proof (live_room now o ltac:(lia)) as Hr. apply (counts_live _ now) in Hc. unfold counted.
  destruct (live now o) as [e|]; cbn in *.
  - rewrite wrap_small by (unfold uint; lia). destruct (Z.leb_spec (le_count e + 1) max); lia.
  - rewrite (proj2 (Z.leb_le (t + window) (now + window))) by lia. destruct (Z.leb_spec 1 max); lia.
Qed.

Lemma run_bounded cs : forall l,
  Forall (call_within t (t + window)) cs -> Forall (fun c => ~ resets key c) cs ->
  rl_max_attempts l = max -> rl_window l = window -> counts_to (length cs) (rl_entries l !! key) ->
  Z.of_nat (allowed key (limiter_run cs l).2) <= room (rl_entries l !! key).
Proof.
  induction cs as [|c cs IH]; intros l Hb Hr Hm Hwl Hc.
  - cbn. destruct (rl_entries l !! key) as [e|]; cbn in *; [|lia]. destruct (_ <=? _); lia.
  - inv Hb. inv Hr. cbn [length] in Hc. pose proof (counts_entry _ c _ Hc) as Hc'.
    destruct (call_on_key key c l) as (E1 & E2 & E3 & E4). rewrite Hm, Hwl in *. cbn [limiter_run].
    destruct (limiter_call c l) as [l1 v]. cbn [fst snd] in *. rewrite <- E3 in Hc'.
    specialize (IH l1). destruct (limiter_run cs l1) as [l2 vs]. cbn [snd] in *.
    rewrite allowed_app, Nat2Z.inj_add. unfold allowed at 1. rewrite E4.
    etransitivity; [apply Z.add_le_mono_l, IH; done|]. rewrite E3.
    destruct c as [now k|k|now]; cbn [verdict_of entry_after call_within resets] in *.
    + case_decide; [|cbn; apply live_room; lia].
      etransitivity; [|apply (room_counted now _ (length cs)); [lia|done]]. rewrite filter_cons, filter_nil.
      destruct (_ <=? max); cbn [length]; rewrite ?decide_True, ?decide_False by done; cbn; lia.
    + case_decide; [done|]. cbn. lia.
    + cbn. apply live_room. lia.
Qed.

Lemma run_counts cs : forall n l, rl_window l = window ->
  counts_to (length cs + n) (rl_entries l !! key) ->
  rl_max_attempts (limiter_run cs l).1 = rl_max_attempts l /\ rl_window (limiter_run cs l).1 = window /\
  counts_to n (rl_entries (limiter_run cs l).1 !! key).
Proof.
  induction cs as [|c cs IH]; intros n l Hwl Hc; [done|]. cbn [length plus] in Hc. apply (counts_entry _ c) in Hc.
  destruct (call_on_key key c l) as (E1 & E2 & E3 & _). cbn [limiter_run]. rewrite Hwl in *. rewrite <- E3 in Hc.
  destruct (limiter_call c l) as [l1 v]. destruct (IH n l1 E2 Hc) as (F1 & F2 & F3).
  destruct (limiter_run cs l1). cbn [fst] in *. split_and!; congruence || done.
Qed.
End Bound.

(** ** Whom the limiter refuses *)
Section Fair.
Context (key : str).

(** The counter is at most the number of checks since its window began. *)
Definition counts_past (past : list LimiterCall) (now : Z) (l : RateLimiter) : Prop :=
  forall e, rl_entries l !! key = Some e ->
    0 <= le_count e <= Z.of_nat (checks_from key (le_reset_at e - rl_window l) past) /\
    le_reset_at e - rl_window l <= now.

Lemma checks_app a cs ds : checks_from key a (cs ++ ds) = (checks_from key a cs + checks_from key a ds)%nat.
Proof. unfold checks_from. by rewrite filter_app, length_app. Qed.

Lemma checks_mono a b cs : a <= b -> (checks_from key b cs <= checks_from key a cs)%nat.
Proof.
  intros Hab. unfold checks_from. induction cs as [|c cs IH]; [done|]. rewrite !filter_cons.
  destruct (decide (check_from key b c)) as [Hb|]; [|case_decide; cbn [length]; lia].
  rewrite decide_True by (destruct c; cbn in *; try done; split; [tauto|lia]). cbn [length]. lia.
Qed.

Lemma live_some now o e : live now o = Some e -> o = Some e /\ now < le_reset_at e.
Proof. destruct o as [e'|]; [|done]. cbn. destruct (Z.ltb_spec now (le_reset_at e')); intros H'; by simplify_eq. Qed.

Lemma checks_one a now : a <= now -> checks_from key a [CallCheck now key] = 1%nat.
Proof. intros Ha. unfold checks_from. rewrite filter_cons, decide_True by done. by rewrite filter_nil. Qed.

Lemma call_counts_past past now c l : counts_past past now l ->
  (match c with CallCheck t _ | CallCleanup t => now <= t | CallReset _ => True end) ->
  counts_past (past ++ [c]) (match c with CallCheck t _ | CallCleanup t => t | CallReset _ => now end) (limiter_call c l).1.
Proof.
  intros Hp Ht e He. destruct (call_on_key key c l) as (_ & Hw & E & _). rewrite E in He. rewrite Hw, checks_app. clear E Hw.
  assert (forall t, now <= t -> rl_entries l !! key = Some e ->
    0 <= le_count e <= Z.of_nat (checks_from key (le_reset_at e - rl_window l) past + checks_from key (le_reset_at e - rl_window l) [c])
    /\ le_reset_at e - rl_window l <= t) as Hk by (intros t ? He'; apply Hp in He'; lia).
  destruct c as [t k|k|t]; cbn [entry_after] in He.
  - case_decide; [subst k|apply live_some in He as [He _]; by apply Hk]. injection He as <-. unfold counted.
    destruct (live t (rl_entries l !! key)) as [e'|] eqn:Hl; cbn [le_count le_reset_at].
    + apply live_some in Hl as [Hl _]. apply Hp in Hl as [Hl1 Hl2]. rewrite checks_one by lia.
      pose proof (Z.mod_pos_bound (le_count e' + 1) (2 ^ 32) ltac:(lia)).
      pose proof (Z.mod_le (le_count e' + 1) (2 ^ 32) ltac:(lia) ltac:(lia)). unfold wrap. lia.
    + rewrite checks_one by lia. lia.
  - case_decide; [done|]. by apply Hk.
  - apply live_some in He as [He _]. by apply Hk.
Qed.

(** A check is allowed when fewer than the permitted number of checks fell in
    the window that ends with it. *)
Lemma recent_allowed cs : forall past now l t post, counts_past past now l ->
  in_order now (cs ++ CallCheck t key :: post) ->
  Z.of_nat (checks_from key (t - rl_window l + 1) (past ++ cs)) < rl_max_attempts l ->
  (RateLimiter_check t key (limiter_run cs l).1).2 = true.
Proof.
  induction cs as [|c cs IH]; intros past now l t post Hp Ho Hn.
  - rewrite app_nil_r in Hn. destruct Ho as [Ht _]. cbn [limiter_run fst]. rewrite check_counted. cbn [snd].
    apply Z.leb_le. unfold counted. destruct (live t (rl_entries l !! key)) as [e|] eqn:Hl; cbn [le_count]; [|lia].
    apply live_some in Hl as [Hl Hlt]. apply Hp in Hl as [Hl1 Hl2].
    assert (checks_from key (le_reset_at e - rl_window l) past <= checks_from key (t - rl_window l + 1) past)%nat as Hle.
    { apply checks_mono. lia. }
    pose proof (Z.mod_le (le_count e + 1) (2 ^ 32) ltac:(lia) ltac:(lia)). unfold wrap. lia.
  - assert (Hstep := call_counts_past past now c l Hp). destruct (call_on_key key c l) as (E1 & E2 & _).
    cbn [limiter_run]. destruct (limiter_call c l) as [l1 v]. cbn [fst] in *. rewrite <- E2, <- E1 in Hn.
    rewrite (cons_middle c past cs), app_assoc in Hn.
    destruct (limiter_run cs l1) eqn:Er. cbn [fst]. change r with (r, l0).1. rewrite <- Er.
    destruct c; cbn [app in_order] in Ho; eapply IH; eauto; try apply Hstep; try apply Ho; done.
Qed.
End Fair.

(** C29 The limiter is bounded and fair.  Between two resets of a key, whatever
    else is called, the checks of the key inside an interval as long as the
    window succeed at most twice as often as configured; and a check is refused
    only if the configured number of checks fell in the window before it. *)
Theorem limiter_bounds_attempts (max window t0 : Z) (key : str) (calls : list LimiterCall)
    (Hmax : 0 <= max) (Hw : 0 <= window) (Ho : in_order t0 calls) (Hn : Z.of_nat (length calls) < 2 ^ 32) :
  (forall pre seg post t, calls = pre ++ seg ++ post -> Forall (call_within t (t + window)) seg ->
     Forall (fun c => ~ resets key c) seg ->
     Z.of_nat (allowed key (limiter_run seg (limiter_run pre (RateLimiter_new max window)).1).2) <= 2 * max) /\
  (forall pre now post, calls = pre ++ CallCheck now key :: post ->
     Z.of_nat (checks_from key (now - window + 1) pre) < max ->
     (RateLimiter_check now key (limiter_run pre (RateLimiter_new max window)).1).2 = true).
Proof.
  split.
  - intros pre seg post t -> Hs Hr. rewrite !length_app in Hn.
    destruct (run_counts window key pre (length seg) (RateLimiter_new max window)) as (E1 & E2 & E3);
      [done|cbn [rl_entries RateLimiter_new]; rewrite lookup_empty; cbn; lia|].
    etransitivity; [apply (run_bounded max window t); done|].
    destruct (rl_entries _ !! key) as [e|]; cbn in *; [|lia]. destruct (_ <=? _); lia.
  - intros pre now post -> Hp. apply (recent_allowed key pre [] t0 (RateLimiter_new max window) now post); done.
Qed.

Lemma limiter_bounds_attempts_witness :
  let key := lit "10.0.0.9" in
  let calls := map (fun t => CallCheck t key) [0; 59; 60; 61; 62] in
  Z.of_nat (allowed key (limiter_run (drop 1 calls) (limiter_run (take 1 calls) (RateLimiter_new 2 60)).1).2) <= 4 /\
  (RateLimiter_check 59 key (limiter_run (take 1 calls) (RateLimiter_new 2 60)).1).2 = true.
Proof.
  intros key calls. destruct (limiter_bounds_attempts 2 60 0 key calls) as [H1 H2]; [lia..| |reflexivity|].
  - cbn. lia.
  - split.
    + apply (H1 (take 1 calls) (drop 1 calls) [] 59); [reflexivity|repeat constructor; lia|].
      repeat constructor; cbn; tauto.
    + apply (H2 (take 1 calls) 59 (drop 2 calls)); reflexivity.
Defined.
