(* ===== verification/AuditEvents.v ===== *)
(** * Audit events and their formats

    src/crates/corevpn-server/src/audit: events.rs and formats.rs.  The JSON
    value of an event is the one serde derives for the struct; writing it as
    text (crate serde_json) and the calendar formats (crate chrono) are
    interfaces. *)
From S2P Require Import Prelude Errors Text CoreSession.
Local Open Scope Z_scope.

(** ** JSON values *)
Inductive Json :=
| JNull | JBool (b : bool) | JNum (z : Z) | JReal (q : QArith_base.Q) | JStr (s : str)
| JArr (l : list Json) | JObj (fields : list (str * Json)).
Abbreviation JsonMap := (gmap str Json).

Class JsonText := {
  json_to_string : Json -> str + str;
  json_to_string_pretty : Json -> str + str;
  json_from_str : str -> Json + str;
}.
Class AuditClock {Ch : Chrono} := {
  timestamp_millis : DateTime -> Z;
  rfc3339 : DateTime -> str;
  rfc3339_millis : DateTime -> str;
  rfc3339_micros : DateTime -> str;
  dt_serde : DateTime -> str;
}.

(** ** mod.rs: errors *)
Inductive AuditError :=
| AuditConfiguration (s : str) | AuditConnection (s : str) | AuditAuthentication (s : str) | AuditSerialization (s : str)
| AuditIo (s : str) | AuditHttp (s : str) | AuditCloudProvider (s : str) | AuditSinkError (s : str).
Definition AuditError_fmt (e : AuditError) : str :=
  match e with
  | AuditConfiguration s => lit "Configuration error: " ++ s
  | AuditConnection s => lit "Connection error: " ++ s
  | AuditAuthentication s => lit "Authentication error: " ++ s
  | AuditSerialization s => lit "Serialization error: " ++ s
  | AuditIo s => lit "IO error: " ++ s
  | AuditHttp s => lit "HTTP error: " ++ s
  | AuditCloudProvider s => lit "Cloud provider error: " ++ s
  | AuditSinkError s => lit "Sink error: " ++ s
  end.

(** ** events.rs *)
Inductive AuditSeverity := SevInfo | SevLow | SevMedium | SevHigh | SevCritical.
Definition AuditSeverity_to_syslog_severity (s : AuditSeverity) : Z :=
  match s with SevInfo => 6 | SevLow => 5 | SevMedium => 4 | SevHigh => 3 | SevCritical => 2 end.
Definition AuditSeverity_to_cef_severity (s : AuditSeverity) : Z :=
  match s with SevInfo => 1 | SevLow => 3 | SevMedium => 5 | SevHigh => 7 | SevCritical => 10 end.
Definition AuditSeverity_serde (s : AuditSeverity) : str :=
  match s with
  | SevInfo => lit "info" | SevLow => lit "low" | SevMedium => lit "medium" | SevHigh => lit "high"
  | SevCritical => lit "critical"
  end.

Inductive AuditCategory :=
| CatAuthentication | CatAuthorization | CatConnection | CatConfiguration | CatSecurity | CatAdministrative
| CatCertificate | CatNetwork | CatSystem.
(** serde's names for the categories are the same. *)
Definition AuditCategory_as_str (c : AuditCategory) : str :=
  match c with
  | CatAuthentication => lit "authentication" | CatAuthorization => lit "authorization"
  | CatConnection => lit "connection" | CatConfiguration => lit "configuration" | CatSecurity => lit "security"
  | CatAdministrative => lit "administrative" | CatCertificate => lit "certificate" | CatNetwork => lit "network"
  | CatSystem => lit "system"
  end.

Inductive AuditOutcome := Success | Failure | Unknown.
Definition AuditOutcome_debug (o : AuditOutcome) : str :=
  match o with Success => lit "Success" | Failure => lit "Failure" | Unknown => lit "Unknown" end.
Definition AuditOutcome_serde (o : AuditOutcome) : str :=
  match o with Success => lit "success" | Failure => lit "failure" | Unknown => lit "unknown" end.

Record AuditActor := mkActor {
  ac_type : str; ac_id : option str; ac_name : option str; ac_email : option str; ac_source_ip : option str;
  ac_user_agent : option str; ac_session_id : option str; ac_auth_method : option str;
}.
Record AuditTarget := mkTarget { ta_type : str; ta_id : option str; ta_name : option str; ta_attributes : JsonMap }.
(** [events::AuditError]. *)
Record EventError := mkEventError { ee_code : str; ee_message : str; ee_details : JsonMap }.

Record AuditEvent {Ch : Chrono} := mkEvent {
  ev_id : str;
  ev_timestamp : DateTime;
  ev_version : str;
  ev_category : AuditCategory;
  ev_action : str;
  ev_severity : AuditSeverity;
  ev_outcome : AuditOutcome;
  ev_message : str;
  ev_actor : option AuditActor;
  ev_target : option AuditTarget;
  ev_service : str;
  ev_host : str;
  ev_data : JsonMap;
  ev_tags : list str;
  ev_error : option EventError;
  ev_duration_ms : option Z;
  ev_request_id : option str;
  ev_trace_id : option str;
}.

Record AuditEventBuilder := mkEventBuilder {
  eb_category : AuditCategory;
  eb_action : option str;
  eb_severity : AuditSeverity;
  eb_outcome : AuditOutcome;
  eb_message : option str;
  eb_actor : option AuditActor;
  eb_target : option AuditTarget;
  eb_data : JsonMap;
  eb_tags : list str;
  eb_error : option EventError;
  eb_duration_ms : option Z;
  eb_request_id : option str;
  eb_trace_id : option str;
}.
Definition AuditEventBuilder_new (category : AuditCategory) : AuditEventBuilder :=
  mkEventBuilder category None SevInfo Success None None None ∅ [] None None None None.
Definition AuditEventBuilder_action (action : str) (b : AuditEventBuilder) : AuditEventBuilder :=
  let 'mkEventBuilder c _ s o m a t d g e u r i := b in mkEventBuilder c (Some action) s o m a t d g e u r i.
Definition AuditEventBuilder_severity (severity : AuditSeverity) (b : AuditEventBuilder) : AuditEventBuilder :=
  let 'mkEventBuilder c n _ o m a t d g e u r i := b in mkEventBuilder c n severity o m a t d g e u r i.
Definition AuditEventBuilder_outcome (outcome : AuditOutcome) (b : AuditEventBuilder) : AuditEventBuilder :=
  let 'mkEventBuilder c n s _ m a t d g e u r i := b in mkEventBuilder c n s outcome m a t d g e u r i.
Definition AuditEventBuilder_success (b : AuditEventBuilder) : AuditEventBuilder := AuditEventBuilder_outcome Success b.
Definition AuditEventBuilder_failure (code message : str) (b : AuditEventBuilder) : AuditEventBuilder :=
  let 'mkEventBuilder c n s _ m a t d g _ u r i := b in
  mkEventBuilder c n s Failure m a t d g (Some (mkEventError code message ∅)) u r i.
Definition AuditEventBuilder_message (message : str) (b : AuditEventBuilder) : AuditEventBuilder :=
  let 'mkEventBuilder c n s o _ a t d g e u r i := b in mkEventBuilder c n s o (Some message) a t d g e u r i.
Definition AuditEventBuilder_actor (actor : AuditActor) (b : AuditEventBuilder) : AuditEventBuilder :=
  let 'mkEventBuilder c n s o m _ t d g e u r i := b in mkEventBuilder c n s o m (Some actor) t d g e u r i.
Definition AuditEventBuilder_actor_user (username : str) (source_ip : option str) : AuditEventBuilder -> AuditEventBuilder :=
  AuditEventBuilder_actor (mkActor (lit "user") None (Some username) None source_ip None None None).
Definition AuditEventBuilder_actor_system : AuditEventBuilder -> AuditEventBuilder :=
  AuditEventBuilder_actor (mkActor (lit "system") None (Some (lit "corevpn-server")) None None None None None).
Definition AuditEventBuilder_target (target : AuditTarget) (b : AuditEventBuilder) : AuditEventBuilder :=
  let 'mkEventBuilder c n s o m a _ d g e u r i := b in mkEventBuilder c n s o m a (Some target) d g e u r i.
Definition AuditEventBuilder_target_resource (target_type id : str) : AuditEventBuilder -> AuditEventBuilder :=
  AuditEventBuilder_target (mkTarget target_type (Some id) None ∅).
(** [value] is what [to_value] gives: a value that does not serialize is left out. *)
Definition AuditEventBuilder_data (key : str) (value : option Json) (b : AuditEventBuilder) : AuditEventBuilder :=
  let 'mkEventBuilder c n s o m a t d g e u r i := b in
  mkEventBuilder c n s o m a t (match value with Some v => <[key := v]> d | None => d end) g e u r i.
Definition AuditEventBuilder_tags (tags : list str) (b : AuditEventBuilder) : AuditEventBuilder :=
  let 'mkEventBuilder c n s o m a t d g e u r i := b in mkEventBuilder c n s o m a t d (g ++ tags) e u r i.
Definition AuditEventBuilder_tag (tag : str) : AuditEventBuilder -> AuditEventBuilder := AuditEventBuilder_tags [tag].
Definition AuditEventBuilder_duration_ms (duration : Z) (b : AuditEventBuilder) : AuditEventBuilder :=
  let 'mkEventBuilder c n s o m a t d g e _ r i := b in mkEventBuilder c n s o m a t d g e (Some duration) r i.
Definition AuditEventBuilder_request_id (id : str) (b : AuditEventBuilder) : AuditEventBuilder :=
  let 'mkEventBuilder c n s o m a t d g e u _ i := b in mkEventBuilder c n s o m a t d g e u (Some id) i.
Definition AuditEventBuilder_trace_id (id : str) (b : AuditEventBuilder) : AuditEventBuilder :=
  let 'mkEventBuilder c n s o m a t d g e u r _ := b in mkEventBuilder c n s o m a t d g e u r (Some id).

Section Events.
Context {Ch : Chrono} {Uu : Uuids}.

(** [hostname] is what the operating system answers, [id] a fresh UUID and
    [now] the reading of the clock. *)
Definition AuditEventBuilder_build (hostname : option str) (id : Uuid) (now : DateTime) (b : AuditEventBuilder) : AuditEvent :=
  mkEvent Ch (uuid_fmt id) now (lit "1.0") (eb_category b) (default (lit "unknown") (eb_action b)) (eb_severity b)
    (eb_outcome b) (default [] (eb_message b)) (eb_actor b) (eb_target b) (lit "corevpn")
    (default (lit "unknown") hostname) (eb_data b) (eb_tags b) (eb_error b) (eb_duration_ms b) (eb_request_id b)
    (eb_trace_id b).
End Events.

(** Steps are written in the order of the calls. *)
Definition with_text (key : string) (value : str) : AuditEventBuilder -> AuditEventBuilder :=
  AuditEventBuilder_data (lit key) (Some (JStr value)).
Definition started (category : AuditCategory) (action : str) : AuditEventBuilder :=
  AuditEventBuilder_action action (AuditEventBuilder_new category).

Definition AuditEventBuilder_auth_attempt (username : str) (source_ip : option str) : AuditEventBuilder :=
  AuditEventBuilder_message (lit "Authentication attempt for user: " ++ username)
    (AuditEventBuilder_actor_user username source_ip (started CatAuthentication (lit "auth.attempt"))).
Definition AuditEventBuilder_auth_success (username : str) (source_ip : option str) (method : str) : AuditEventBuilder :=
  with_text "auth_method" method
    (AuditEventBuilder_message (lit "User " ++ username ++ lit " authenticated successfully via " ++ method)
      (AuditEventBuilder_actor_user username source_ip (started CatAuthentication (lit "auth.success")))).
Definition AuditEventBuilder_auth_failure (username : str) (source_ip : option str) (reason : str) : AuditEventBuilder :=
  AuditEventBuilder_message (lit "Authentication failed for user " ++ username ++ lit ": " ++ reason)
    (AuditEventBuilder_failure (lit "AUTH_FAILED") reason
      (AuditEventBuilder_actor_user username source_ip
        (AuditEventBuilder_severity SevMedium (started CatAuthentication (lit "auth.failure"))))).
Definition AuditEventBuilder_vpn_connect (username source_ip assigned_ip : str) : AuditEventBuilder :=
  with_text "source_ip" source_ip (with_text "assigned_ip" assigned_ip
    (AuditEventBuilder_message (lit "VPN connection established for " ++ username)
      (AuditEventBuilder_actor_user username (Some source_ip) (started CatConnection (lit "vpn.connect"))))).
Definition AuditEventBuilder_vpn_disconnect (username source_ip reason : str) (duration_secs : Z) : AuditEventBuilder :=
  AuditEventBuilder_data (lit "session_duration_secs") (Some (JNum duration_secs))
    (with_text "disconnect_reason" reason
      (AuditEventBuilder_message (lit "VPN connection terminated for " ++ username ++ lit ": " ++ reason)
        (AuditEventBuilder_actor_user username (Some source_ip) (started CatConnection (lit "vpn.disconnect"))))).
Definition AuditEventBuilder_config_change (admin setting old_value new_value : str) : AuditEventBuilder :=
  with_text "new_value" new_value (with_text "old_value" old_value
    (AuditEventBuilder_message (lit "Configuration changed: " ++ setting ++ lit " by " ++ admin)
      (AuditEventBuilder_target_resource (lit "configuration") setting
        (AuditEventBuilder_actor_user admin None
          (AuditEventBuilder_severity SevMedium (started CatConfiguration (lit "config.change"))))))).
Definition AuditEventBuilder_security_alert (alert_type description : str) (source_ip : option str) : AuditEventBuilder :=
  with_text "source_ip" (default [] source_ip) (with_text "alert_type" alert_type
    (AuditEventBuilder_message description
      (AuditEventBuilder_severity SevHigh (started CatSecurity (lit "security." ++ alert_type))))).
Definition AuditEventBuilder_cert_issued (admin client_name expires_at : str) : AuditEventBuilder :=
  with_text "expires_at" expires_at
    (AuditEventBuilder_message (lit "Certificate issued for client: " ++ client_name)
      (AuditEventBuilder_target_resource (lit "certificate") client_name
        (AuditEventBuilder_actor_user admin None (started CatCertificate (lit "cert.issued"))))).
Definition AuditEventBuilder_cert_revoked (admin client_name reason : str) : AuditEventBuilder :=
  with_text "revocation_reason" reason
    (AuditEventBuilder_message (lit "Certificate revoked for client: " ++ client_name)
      (AuditEventBuilder_target_resource (lit "certificate") client_name
        (AuditEventBuilder_actor_user admin None
          (AuditEventBuilder_severity SevMedium (started CatCertificate (lit "cert.revoked")))))).

(** ** The JSON value of an event, as serde derives it *)
Definition json_opt (s : option str) : Json := match s with Some s => JStr s | None => JNull end.
Definition json_map (m : JsonMap) : Json := JObj (map_to_list m).
Definition AuditActor_json (a : AuditActor) : Json :=
  JObj [(lit "type", JStr (ac_type a)); (lit "id", json_opt (ac_id a)); (lit "name", json_opt (ac_name a));
        (lit "email", json_opt (ac_email a)); (lit "source_ip", json_opt (ac_source_ip a));
        (lit "user_agent", json_opt (ac_user_agent a)); (lit "session_id", json_opt (ac_session_id a));
        (lit "auth_method", json_opt (ac_auth_method a))].
(** The attributes are flattened. *)
Definition AuditTarget_json (t : AuditTarget) : Json :=
  JObj ([(lit "type", JStr (ta_type t)); (lit "id", json_opt (ta_id t)); (lit "name", json_opt (ta_name t))]
        ++ map_to_list (ta_attributes t)).
Definition EventError_json (e : EventError) : Json :=
  JObj [(lit "code", JStr (ee_code e)); (lit "message", JStr (ee_message e)); (lit "details", json_map (ee_details e))].

(** ** formats.rs *)
Inductive AuditFormat := Fmt_Json | Fmt_JsonLines | Fmt_Cef | Fmt_Leef | Fmt_Syslog | Fmt_CloudWatch | Fmt_AzureMonitor | Fmt_Ocsf.
Record FormatConfig := mkFormat {
  fo_format : AuditFormat; fo_pretty : bool; fo_include_nulls : bool; fo_cef_vendor : str; fo_cef_product : str;
  fo_cef_version : str; fo_syslog_facility : Z; fo_syslog_app_name : str;
}.
Definition default_vendor : str := lit "PegasusHeavy".
Definition default_product : str := lit "CoreVPN".
Definition default_version : str := lit "1.0".
Definition default_facility : Z := 4.
Definition default_app_name : str := lit "corevpn".
Definition FormatConfig_default : FormatConfig :=
  mkFormat Fmt_Json false false default_vendor default_product default_version default_facility default_app_name.
(** [FormatConfig { format, ..config }]. *)
Definition fo_with_format (format : AuditFormat) (c : FormatConfig) : FormatConfig :=
  mkFormat format (fo_pretty c) (fo_include_nulls c) (fo_cef_vendor c) (fo_cef_product c) (fo_cef_version c)
    (fo_syslog_facility c) (fo_syslog_app_name c).

Definition escape_cef (s : str) : str :=
  replace_char 61 (lit "\=") (replace_char 13 (lit "\r") (replace_char 10 (lit "\n") (replace_char 124 (lit "\|")
    (replace_char 92 (lit "\\") s)))).
Definition escape_leef (s : str) : str :=
  replace_char 13 (lit "\r") (replace_char 10 (lit "\n") (replace_char 9 (lit "\t") (replace_char 124 (lit "\|")
    (replace_char 92 (lit "\\") s)))).
Definition escape_syslog_sd (s : str) : str :=
  replace_char 93 (lit "\]") (replace_char 34 [92; 34] (replace_char 92 (lit "\\") s)).

(** A signed number in decimal. *)
Definition fmt_int (z : Z) : str := if z <? 0 then 45 :: fmt_dec (- z) else fmt_dec z.

Section Formats.
Context {Ch : Chrono} {AC : AuditClock} {JT : JsonText}.
Implicit Types (event : AuditEvent) (config : FormatConfig).

Definition event_fields event : list (str * Json) :=
  [(lit "id", JStr (ev_id event)); (lit "timestamp", JStr (dt_serde (ev_timestamp event)));
   (lit "version", JStr (ev_version event)); (lit "category", JStr (AuditCategory_as_str (ev_category event)));
   (lit "action", JStr (ev_action event)); (lit "severity", JStr (AuditSeverity_serde (ev_severity event)));
   (lit "outcome", JStr (AuditOutcome_serde (ev_outcome event))); (lit "message", JStr (ev_message event));
   (lit "actor", from_option AuditActor_json JNull (ev_actor event));
   (lit "target", from_option AuditTarget_json JNull (ev_target event)); (lit "service", JStr (ev_service event));
   (lit "host", JStr (ev_host event)); (lit "data", json_map (ev_data event)); (lit "tags", JArr (map JStr (ev_tags event)));
   (lit "error", from_option EventError_json JNull (ev_error event));
   (lit "duration_ms", from_option JNum JNull (ev_duration_ms event)); (lit "request_id", json_opt (ev_request_id event));
   (lit "trace_id", json_opt (ev_trace_id event))].
Definition AuditEvent_json event : Json := JObj (event_fields event).

Definition to_string (j : Json) : res AuditError str :=
  match json_to_string j with inl s => Ok s | inr e => Err (AuditSerialization e) end.

Definition FormatEncoder_encode_json config event : res AuditError str :=
  if fo_pretty config
  then match json_to_string_pretty (AuditEvent_json event) with inl s => Ok s | inr e => Err (AuditSerialization e) end
  else to_string (AuditEvent_json event).
Definition FormatEncoder_encode_json_lines config event : res AuditError str :=
  json ← to_string (AuditEvent_json event); mret (json ++ [10]).

(** A field, and one that is only written when there is a value. *)
Definition kv (key : string) (value : str) : str * str := (lit key, value).
Definition kv_opt (key : string) (escape : str -> str) (value : option str) : list (str * str) :=
  match value with Some v => [kv key (escape v)] | None => [] end.
Definition assign (f : str * str) : str := f.1 ++ [61] ++ f.2.
Definition event_name event : str := AuditCategory_as_str (ev_category event) ++ [46] ++ ev_action event.

Definition cef_extensions event : list (str * str) :=
  [kv "rt" (fmt_int (timestamp_millis (ev_timestamp event))); kv "msg" (escape_cef (ev_message event));
   kv "outcome" (AuditOutcome_debug (ev_outcome event)); kv "cat" (AuditCategory_as_str (ev_category event))]
  ++ from_option (fun a => kv_opt "suser" escape_cef (ac_name a) ++ kv_opt "src" id (ac_source_ip a)
                           ++ kv_opt "sproc" escape_cef (ac_session_id a)) [] (ev_actor event)
  ++ from_option (fun t => kv_opt "duid" escape_cef (ta_id t) ++ kv_opt "duser" escape_cef (ta_name t)) [] (ev_target event)
  ++ [kv "dvchost" (escape_cef (ev_host event)); kv "externalId" (ev_id event)].
Definition cef_header config event : list str :=
  [lit "CEF:0"; escape_cef (fo_cef_vendor config); escape_cef (fo_cef_product config); escape_cef (fo_cef_version config);
   escape_cef (event_name event); escape_cef (ev_action event); fmt_dec (AuditSeverity_to_cef_severity (ev_severity event))].
Definition FormatEncoder_encode_cef config event : res AuditError str :=
  Ok (join [124] (cef_header config event ++ [join [32] (map assign (cef_extensions event))])).

Definition leef_extensions event : list (str * str) :=
  [kv "devTime" (rfc3339_millis (ev_timestamp event)); kv "cat" (AuditCategory_as_str (ev_category event));
   kv "sev" (fmt_dec (AuditSeverity_to_cef_severity (ev_severity event))); kv "msg" (escape_leef (ev_message event))]
  ++ from_option (fun a => kv_opt "usrName" escape_leef (ac_name a) ++ kv_opt "src" id (ac_source_ip a)) [] (ev_actor event)
  ++ [kv "identHostName" (escape_leef (ev_host event))].
Definition leef_header config event : list str :=
  [lit "LEEF:2.0"; escape_leef (fo_cef_vendor config); escape_leef (fo_cef_product config);
   escape_leef (fo_cef_version config); escape_leef (event_name event)].
Definition FormatEncoder_encode_leef config event : res AuditError str :=
  Ok (join [124] (leef_header config event ++ [join [9] (map assign (leef_extensions event))])).

(** A parameter of structured data, after its space. *)
Definition sd_param (name : string) (value : str) : str := lit name ++ [61; 34] ++ value ++ [34].
Definition structured_data event : str :=
  lit "[corevpn@32473 " ++ sd_param "eventId" (ev_id event) ++ [32]
    ++ sd_param "outcome" (AuditOutcome_debug (ev_outcome event)) ++ [32]
    ++ sd_param "category" (AuditCategory_as_str (ev_category event)) ++ [93]
  ++ from_option (fun a =>
       lit "[actor@32473 " ++ sd_param "type" (ac_type a)
       ++ from_option (fun name => [32] ++ sd_param "name" (escape_syslog_sd name)) [] (ac_name a)
       ++ from_option (fun ip => [32] ++ sd_param "sourceIp" ip) [] (ac_source_ip a) ++ [93]) [] (ev_actor event).
(** The arithmetic on bytes wraps. *)
Definition syslog_priority config event : Z :=
  wrap 8 (wrap 8 (fo_syslog_facility config * 8) + AuditSeverity_to_syslog_severity (ev_severity event)).
Definition FormatEncoder_encode_syslog config event : res AuditError str :=
  Ok ([60] ++ fmt_dec (syslog_priority config event) ++ lit ">1 " ++ rfc3339_micros (ev_timestamp event) ++ [32]
      ++ ev_host event ++ [32] ++ fo_syslog_app_name config ++ lit " - " ++ event_name event ++ [32]
      ++ structured_data event ++ [32] ++ ev_message event).

Definition cloudwatch_fields event : list (str * Json) :=
  [(lit "timestamp", JNum (timestamp_millis (ev_timestamp event))); (lit "message", JStr (ev_message event))]
  ++ event_fields event.
Definition FormatEncoder_encode_cloudwatch event : res AuditError str := to_string (JObj (cloudwatch_fields event)).

Definition azure_fields event : list (str * Json) :=
  [(lit "TimeGenerated", JStr (rfc3339_millis (ev_timestamp event))); (lit "SourceSystem", JStr (lit "CoreVPN"));
   (lit "Category", JStr (AuditCategory_as_str (ev_category event))); (lit "OperationName", JStr (ev_action event));
   (lit "ResultType", JStr (AuditOutcome_debug (ev_outcome event)));
   (lit "CallerIpAddress", json_opt (ev_actor event ≫= ac_source_ip));
   (lit "CallerIdentity", json_opt (ev_actor event ≫= ac_name)); (lit "ResourceId", json_opt (ev_target event ≫= ta_id))]
  ++ event_fields event.
Definition FormatEncoder_encode_azure_monitor event : res AuditError str := to_string (JObj (azure_fields event)).

Definition ocsf_class (c : AuditCategory) : Z * str :=
  match c with
  | CatAuthentication => (3002, lit "Authentication")
  | CatAuthorization => (3003, lit "Authorization")
  | CatNetwork | CatConnection => (4001, lit "Network Activity")
  | CatConfiguration => (5001, lit "Configuration")
  | _ => (1001, lit "Security Finding")
  end.
Definition ocsf_severity (s : AuditSeverity) : Z :=
  match s with SevInfo => 1 | SevLow => 2 | SevMedium => 3 | SevHigh => 4 | SevCritical => 5 end.
Definition ocsf_status (o : AuditOutcome) : Z := match o with Success => 1 | Failure => 2 | Unknown => 0 end.
Definition ocsf_fields event : list (str * Json) :=
  let '(class_uid, class_name) := ocsf_class (ev_category event) in
  [(lit "class_uid", JNum class_uid); (lit "class_name", JStr class_name); (lit "category_uid", JNum (class_uid / 1000));
   (lit "category_name", JStr (AuditCategory_as_str (ev_category event)));
   (lit "severity_id", JNum (ocsf_severity (ev_severity event))); (lit "activity_id", JNum 1);
   (lit "activity_name", JStr (ev_action event)); (lit "status_id", JNum (ocsf_status (ev_outcome event)));
   (lit "message", JStr (ev_message event)); (lit "time", JNum (timestamp_millis (ev_timestamp event)));
   (lit "timezone_offset", JNum 0);
   (lit "metadata", JObj [(lit "version", JStr (lit "1.0.0"));
      (lit "product", JObj [(lit "name", JStr (lit "CoreVPN")); (lit "vendor_name", JStr (lit "Pegasus Heavy Industries"));
                            (lit "version", JStr (lit "0.1.0"))]); (lit "uid", JStr (ev_id event))]);
   (lit "actor", from_option (fun a => JObj [(lit "user", JObj [(lit "name", json_opt (ac_name a)); (lit "uid", json_opt (ac_id a))])])
                   JNull (ev_actor event))]
  ++ event_fields event.
Definition FormatEncoder_encode_ocsf event : res AuditError str := to_string (JObj (ocsf_fields event)).

Definition FormatEncoder_encode config event : res AuditError str :=
  match fo_format config with
  | Fmt_Json => FormatEncoder_encode_json config event
  | Fmt_JsonLines => FormatEncoder_encode_json_lines config event
  | Fmt_Cef => FormatEncoder_encode_cef config event
  | Fmt_Leef => FormatEncoder_encode_leef config event
  | Fmt_Syslog => FormatEncoder_encode_syslog config event
  | Fmt_CloudWatch => FormatEncoder_encode_cloudwatch event
  | Fmt_AzureMonitor => FormatEncoder_encode_azure_monitor event
  | Fmt_Ocsf => FormatEncoder_encode_ocsf event
  end.
End Formats.
