(* ===== verification/ConnDb.v ===== *)
(** * The connection log in a database

    src/crates/corevpn-server/src/connection_log/db_logger.rs.  The table is a
    list of rows, one option per column that may be NULL; the crate [sqlx] and
    SQLite are the interface [Sqlite] (ORDER BY), the outcomes of the
    statements to come and the clock are part of the state of the logger.
    Text, identifiers and times go through the interfaces of the crates
    [chrono] and [uuid]. *)
From S2P Require Import Prelude Errors Text Network CoreSession Replay Addr AddrText ServerConfig ConnLog AuditEvents.
Local Open Scope Z_scope.

(** ** Library interfaces *)
Class LogTime {Ch : Chrono} := {
  (** [DateTime::parse_from_rfc3339(s).ok()], in UTC. *)
  from_rfc3339 : str -> option DateTime;
  (** [DateTime - chrono::Duration::days]; out of range it panics. *)
  minus_days : DateTime -> Z -> option DateTime;
  (** [Datelike::year] is between 0 and 9999. *)
  four_digit_year : DateTime -> Prop;
}.
Class UuidText {Uu : Uuids} := { uuid_parse : str -> option Uuid }.

(** Text is compared byte by byte. *)
Fixpoint str_ltb (s t : str) : bool :=
  match s, t with
  | _, [] => false
  | [], _ :: _ => true
  | a :: s, b :: t => (a <? b) || (a =? b) && str_ltb s t
  end.

(** ** Rows *)
Record EventRow := mkRow {
  rw_connection_id : str; rw_event_type : str; rw_timestamp : str;
  rw_client_addr : option str; rw_username : option str; rw_vpn_ip : option str;
  rw_auth_method : option str; rw_auth_result : option str; rw_disconnect_reason : option str;
  rw_duration_secs : option Z; rw_bytes_rx : option Z; rw_bytes_tx : option Z; rw_packets_rx : option Z; rw_packets_tx : option Z;
  rw_old_addr : option str; rw_new_addr : option str; rw_success : option Z;
  rw_protocol_version : option str; rw_client_info : option str; rw_details : option str;
}.

(** [SELECT ... ORDER BY timestamp], ascending and descending. *)
Class Sqlite := {
  order_by_timestamp : list EventRow -> list EventRow;
  order_by_timestamp_desc : list EventRow -> list EventRow;
}.

(** [{:?}] of the enumerations. *)
Definition AuthMethod_debug (a : AuthMethod) : str :=
  lit match a with Certificate => "Certificate" | UsernamePassword => "UsernamePassword" | OAuth2 => "OAuth2" | Saml => "Saml"
      | Psk => "Psk" | AuthUnknown => "Unknown" end.
Definition AuthResult_debug (r : AuthResult) : str :=
  lit match r with AuthSuccess => "Success" | InvalidCredentials => "InvalidCredentials" | AuthExpired => "Expired"
      | NotAuthorized => "NotAuthorized" | RateLimited => "RateLimited" | ProviderError => "ProviderError" | AuthTimeout => "Timeout"
      | AuthResultUnknown => "Unknown" end.
Definition DisconnectReason_debug (r : DisconnectReason) : str :=
  lit match r with ClientDisconnect => "ClientDisconnect" | ServerDisconnect => "ServerDisconnect" | IdleTimeout => "IdleTimeout"
      | SessionTimeout => "SessionTimeout" | AuthFailure => "AuthFailure" | DisconnectProtocolError => "ProtocolError"
      | DisconnectReset => "ConnectionReset" | ServerShutdown => "ServerShutdown" | AdminTerminated => "AdminTerminated"
      | RenegotiationFailure => "RenegotiationFailure" | DisconnectUnknown => "Unknown" end.

(** [as u64] of an [i64]. *)
Definition as_u64 (z : Z) : Z := wrap 64 z.
(** [Duration::as_secs] of a duration in nanoseconds. *)
Definition as_secs (duration : Z) : Z := duration / 1000000000.

Section Database.
Context {Ch : Chrono} {Uu : Uuids} {AC : AuditClock} {LT : LogTime} {UT : UuidText} {Uc : Unicode} {Sq : Sqlite}.

(** The common columns; the others are NULL. *)
Definition bare_row (e : ConnectionEvent) : EventRow :=
  mkRow (uuid_fmt (ConnectionEvent_connection_id e)) (ConnectionEvent_event_type e) (rfc3339 (ConnectionEvent_timestamp e))
    None None None None None None None None None None None None None None None None None.

(** The row that [insert_event] inserts. *)
Definition row_of (e : ConnectionEvent) : EventRow :=
  let '(mkRow id ty ts _ _ _ _ _ _ _ _ _ _ _ _ _ _ _ _ _) := bare_row e in
  match e with
  | ConnectionAttempt _ _ client_addr protocol_version =>
      mkRow id ty ts (Some (SocketAddr_fmt client_addr)) None None None None None None None None None None None None None
        protocol_version None None
  | Authentication _ _ client_addr username auth_method result details =>
      mkRow id ty ts (Some (SocketAddr_fmt client_addr)) username None (Some (AuthMethod_debug auth_method))
        (Some (AuthResult_debug result)) None None None None None None None None None None None details
  | Connected _ _ client_addr username vpn_ip auth_method client_info =>
      mkRow id ty ts (Some (SocketAddr_fmt client_addr)) username (Some (fmt_ip vpn_ip)) (Some (AuthMethod_debug auth_method))
        None None None None None None None None None None None client_info None
  | Disconnected _ _ client_addr username reason duration stats =>
      mkRow id ty ts (Some (SocketAddr_fmt client_addr)) username None None None (Some (DisconnectReason_debug reason))
        (Some (as_i64 (as_secs duration))) (as_i64 ∘ ts_bytes_rx <$> stats) (as_i64 ∘ ts_bytes_tx <$> stats)
        (as_i64 ∘ ts_packets_rx <$> stats) (as_i64 ∘ ts_packets_tx <$> stats) None None None None None None
  | IpChange _ _ old_addr new_addr username =>
      mkRow id ty ts None username None None None None None None None None None
        (Some (SocketAddr_fmt old_addr)) (Some (SocketAddr_fmt new_addr)) None None None None
  | Renegotiation _ _ client_addr success =>
      mkRow id ty ts (Some (SocketAddr_fmt client_addr)) None None None None None None None None None None None None
        (Some (if success then 1 else 0)) None None None
  end.

Definition parse_auth_method (s : str) : AuthMethod :=
  let l := to_lowercase s in
  if bool_decide (l = lit "certificate") then Certificate else if bool_decide (l = lit "usernamepassword") then UsernamePassword
  else if bool_decide (l = lit "oauth2") then OAuth2 else if bool_decide (l = lit "saml") then Saml
  else if bool_decide (l = lit "psk") then Psk else AuthUnknown.
Definition parse_auth_result (s : str) : AuthResult :=
  let l := to_lowercase s in
  if bool_decide (l = lit "success") then AuthSuccess else if bool_decide (l = lit "invalidcredentials") then InvalidCredentials
  else if bool_decide (l = lit "expired") then AuthExpired else if bool_decide (l = lit "notauthorized") then NotAuthorized
  else if bool_decide (l = lit "ratelimited") then RateLimited else if bool_decide (l = lit "providererror") then ProviderError
  else if bool_decide (l = lit "timeout") then AuthTimeout else AuthResultUnknown.
Definition parse_disconnect_reason (s : str) : DisconnectReason :=
  let l := to_lowercase s in
  if bool_decide (l = lit "clientdisconnect") then ClientDisconnect else if bool_decide (l = lit "serverdisconnect") then ServerDisconnect
  else if bool_decide (l = lit "idletimeout") then IdleTimeout else if bool_decide (l = lit "sessiontimeout") then SessionTimeout
  else if bool_decide (l = lit "authfailure") then AuthFailure else if bool_decide (l = lit "protocolerror") then DisconnectProtocolError
  else if bool_decide (l = lit "connectionreset") then DisconnectReset else if bool_decide (l = lit "servershutdown") then ServerShutdown
  else if bool_decide (l = lit "adminterminated") then AdminTerminated
  else if bool_decide (l = lit "renegotiationfailure") then RenegotiationFailure else DisconnectUnknown.

(** [None] also where a value does not parse. *)
Definition parse_event_row (r : EventRow) : option ConnectionEvent :=
  connection_id ← uuid_parse (rw_connection_id r);
  timestamp ← from_rfc3339 (rw_timestamp r);
  let ty := rw_event_type r in
  if bool_decide (ty = lit "connection_attempt") then
    client_addr ← rw_client_addr r ≫= parse_socket_addr;
    Some (ConnectionAttempt connection_id timestamp client_addr (rw_protocol_version r))
  else if bool_decide (ty = lit "authentication") then
    client_addr ← rw_client_addr r ≫= parse_socket_addr;
    Some (Authentication connection_id timestamp client_addr (rw_username r) (parse_auth_method (default [] (rw_auth_method r)))
            (parse_auth_result (default [] (rw_auth_result r))) (rw_details r))
  else if bool_decide (ty = lit "connected") then
    client_addr ← rw_client_addr r ≫= parse_socket_addr;
    vpn_ip ← rw_vpn_ip r ≫= parse_ip;
    Some (Connected connection_id timestamp client_addr (rw_username r) vpn_ip (parse_auth_method (default [] (rw_auth_method r)))
            (rw_client_info r))
  else if bool_decide (ty = lit "disconnected") then
    client_addr ← rw_client_addr r ≫= parse_socket_addr;
    let stats := if is_some (rw_bytes_rx r) || is_some (rw_bytes_tx r)
                 then Some (mkStats (as_u64 (default 0 (rw_bytes_rx r))) (as_u64 (default 0 (rw_bytes_tx r)))
                              (as_u64 (default 0 (rw_packets_rx r))) (as_u64 (default 0 (rw_packets_tx r)))) else None in
    Some (Disconnected connection_id timestamp client_addr (rw_username r)
            (parse_disconnect_reason (default [] (rw_disconnect_reason r)))
            (as_u64 (default 0 (rw_duration_secs r)) * 1000000000) stats)
  else if bool_decide (ty = lit "ip_change") then
    old_addr ← rw_old_addr r ≫= parse_socket_addr;
    new_addr ← rw_new_addr r ≫= parse_socket_addr;
    Some (IpChange connection_id timestamp old_addr new_addr (rw_username r))
  else if bool_decide (ty = lit "renegotiation") then
    client_addr ← rw_client_addr r ≫= parse_socket_addr;
    Some (Renegotiation connection_id timestamp client_addr (negb (default 0 (rw_success r) =? 0)))
  else None.

(** ** The logger.  [db_faults] says how the statements to come end ([None]:
    they succeed, as do all after its end); [db_now] is the clock. *)
Record DatabaseConnectionLogger := mkDatabase {
  db_rows : list EventRow;
  db_total_logged : Z;
  db_first_event : option DateTime;
  db_last_event : option DateTime;
  db_faults : list (option str);
  db_now : DateTime;
}.
Implicit Types (l : DatabaseConnectionLogger).
Abbreviation D := (M DatabaseConnectionLogger str).

Definition db_set_rows (rows : list EventRow) l : DatabaseConnectionLogger :=
  mkDatabase rows (db_total_logged l) (db_first_event l) (db_last_event l) (db_faults l) (db_now l).
Definition db_set_stats (total : Z) (first last : option DateTime) l : DatabaseConnectionLogger :=
  mkDatabase (db_rows l) total first last (db_faults l) (db_now l).
(** Execute a statement that changes the rows by [f]. *)
Definition execute (f : list EventRow -> list EventRow) : D unit := fun l =>
  let l' := mkDatabase (db_rows l) (db_total_logged l) (db_first_event l) (db_last_event l) (drop 1 (db_faults l)) (db_now l) in
  match db_faults l with
  | Some e :: _ => (l', Err e)
  | _ => (db_set_rows (f (db_rows l)) l', Ok tt)
  end.

(** [SELECT MIN(timestamp)] and [MAX]: NULL in an empty table. *)
Definition sql_min (l : list str) : option str :=
  foldr (fun s m => match m with None => Some s | Some t => Some (if str_ltb t s then t else s) end) None l.
Definition sql_max (l : list str) : option str :=
  foldr (fun s m => match m with None => Some s | Some t => Some (if str_ltb s t then t else s) end) None l.
Definition load_stats : D unit :=
  _ ← execute id; _ ← execute id; _ ← execute id;
  modify (fun l => db_set_stats (as_u64 (Z.of_nat (length (db_rows l)))) (sql_min (map rw_timestamp (db_rows l)) ≫= from_rfc3339)
                     (sql_max (map rw_timestamp (db_rows l)) ≫= from_rfc3339) l).
(** [new]: [mkdir] and [connect] are the outcomes of making the directory and
    of opening the database, in which [rows] were stored before. *)
Definition DatabaseConnectionLogger_new (mkdir connect : option str) (rows : list EventRow) (faults : list (option str))
    (now : DateTime) : res str DatabaseConnectionLogger :=
  if is_some mkdir then Err (lit "Failed to create database directory") else
  if is_some connect then Err (lit "Failed to connect to database") else
  match execute id (mkDatabase rows 0 None None faults now) with
  | (_, Err _) => Err (lit "Failed to create schema")
  | (_, Panic) => Panic
  | (l, Ok _) =>
      match load_stats l with
      | (l, Ok _) => Ok l
      | (_, Err e) => Err e
      | (_, Panic) => Panic
      end
  end.

Context (retention_days : Z) (auto_purge : bool).

Definition insert_event (event : ConnectionEvent) : D unit := execute (fun rows => rows ++ [row_of event]).
Definition purge_old_events : D unit :=
  if retention_days =? 0 then mret tt else
  l ← get;
  match minus_days (db_now l) retention_days with
  | None => lift Panic
  | Some cutoff => execute (filter (fun r => str_ltb (rw_timestamp r) (rfc3339 cutoff) = false))
  end.

Definition DatabaseConnectionLogger_log (event : ConnectionEvent) : D unit :=
  let timestamp := ConnectionEvent_timestamp event in
  _ ← modify (fun l => db_set_stats (db_total_logged l)
                (match db_first_event l with None => Some timestamp | f => f end) (Some timestamp) l);
  _ ← insert_event event;
  _ ← modify (fun l => db_set_stats (wrap 64 (db_total_logged l + 1)) (db_first_event l) (db_last_event l) l);
  l ← get;
  if auto_purge && (db_total_logged l mod 1000 =? 0) then purge_old_events else mret tt.

(** [SELECT * ... ] of rows chosen by [f]. *)
Definition select (f : list EventRow -> list EventRow) : D (option (list ConnectionEvent)) :=
  l ← get; _ ← execute id; mret (Some (omap parse_event_row (f (db_rows l)))).
(** [limit as i64]: a negative limit is none. *)
Definition sql_limit {A} (limit : nat) (rows : list A) : list A :=
  if as_i64 (Z.of_nat limit) <? 0 then rows else take limit rows.
Definition DatabaseConnectionLogger_query_recent (limit : nat) : D (option (list ConnectionEvent)) :=
  select (fun rows => sql_limit limit (order_by_timestamp_desc rows)).
Definition DatabaseConnectionLogger_query_connection (id : Uuid) : D (option (list ConnectionEvent)) :=
  select (fun rows => order_by_timestamp (filter (fun r => rw_connection_id r = uuid_fmt id) rows)).
(** VACUUM may fail; its error is dropped. *)
Definition DatabaseConnectionLogger_cleanup : D unit :=
  _ ← purge_old_events;
  ((fun l => (fst (execute id l), Ok tt)) : D unit).
Definition DatabaseConnectionLogger_stats l : LoggerStats :=
  mkLoggerStats (db_total_logged l) 0 None (db_first_event l) (db_last_event l).

Definition database_logger : ConnectionLogger DatabaseConnectionLogger := {|
  cl_log := DatabaseConnectionLogger_log;
  cl_query_recent := DatabaseConnectionLogger_query_recent;
  cl_query_connection := DatabaseConnectionLogger_query_connection;
  cl_flush := mret tt;
  cl_cleanup := DatabaseConnectionLogger_cleanup;
  cl_stats := DatabaseConnectionLogger_stats;
  cl_is_null := false;
  cl_logger_type := lit "database";
|}.
End Database.
