(* ===== verification/ConnFile.v ===== *)
(** * The connection log in files

    src/crates/corevpn-server/src/connection_log/file_logger.rs.  The state of
    the logger holds the files of its directory, the bytes in the buffer of the
    writer ([None]: no file is open) and the outcomes of the file operations to
    come: [None] is success, as after the end of the list; [Some (k, e)] is the
    error [e], with [k] bytes written before it.  JSON is an interface. *)
From S2P Require Import Prelude Errors Text Network CoreSession Replay Addr ServerConfig ConnLog.
Local Open Scope Z_scope.

(** [serde_json] on [ConnectionEvent]. *)
Class EventJson {Ch : Chrono} {Uu : Uuids} := {
  event_to_json : ConnectionEvent -> str + str;
  event_from_json : str -> option ConnectionEvent;
}.

(** [Path::with_extension] of a path that ends in a file name: its last
    extension is replaced; the dot of a hidden file starts no extension. *)
Definition with_extension (path ext : str) : str :=
  let '(dir, name) := match rsplit_once 47 path with Some (d, n) => (d ++ [47], n) | None => ([], path) end in
  let stem := match rsplit_once 46 name with Some ([], _) | None => name | Some (s, _) => s end in
  dir ++ stem ++ [46] ++ ext.

Record FileConnectionLogger {Ch : Chrono} := mkFileLog {
  fl_files : gmap str bytes;
  fl_writer : option bytes;
  fl_total_logged : Z;
  fl_pending : Z;
  fl_first_event : option DateTime;
  fl_last_event : option DateTime;
  fl_faults : list (option (nat * str));
  (** What [sync_all] has put on the disk while files were deleted. *)
  fl_synced : list (str * bytes);
}.
Arguments mkFileLog {_}.

Section FileLogger.
Context {Ch : Chrono} {Uu : Uuids} {EJ : EventJson}.
Abbreviation F := (M FileConnectionLogger str).
Implicit Types (l : FileConnectionLogger).

Definition fl_set (files : gmap str bytes) (writer : option bytes) l : FileConnectionLogger :=
  mkFileLog files writer (fl_total_logged l) (fl_pending l) (fl_first_event l) (fl_last_event l) (fl_faults l) (fl_synced l).
Definition fl_set_stats (total pending : Z) (first last : option DateTime) l : FileConnectionLogger :=
  mkFileLog (fl_files l) (fl_writer l) total pending first last (fl_faults l) (fl_synced l).
(** The outcome of the next operation. *)
Definition outcome : F (option (nat * str)) := fun l =>
  (mkFileLog (fl_files l) (fl_writer l) (fl_total_logged l) (fl_pending l) (fl_first_event l) (fl_last_event l) (drop 1 (fl_faults l))
     (fl_synced l), Ok (default None (head (fl_faults l)))).

(** ** Deletion *)

(** [while remaining > 0] writing the head of a block of 4096 bytes; a turn
    writes at least one byte. *)
Fixpoint blocks (fuel : nat) (block : bytes) (remaining : nat) : bytes :=
  match fuel, remaining with
  | S fuel, S _ => let to_write := Nat.min remaining (Z.to_nat 4096) in take to_write block ++ blocks fuel block (remaining - to_write)
  | _, _ => []
  end.
Definition zero_block : bytes := replicate (Z.to_nat 4096) 0.
Definition pattern (pass : Z) : bytes := map (fun i => Z.land (Z.of_nat i * 90 + pass) 255) (seq 0 (Z.to_nat 4096)).
Definition overwrite (file : str) (size : nat) (block : bytes) : F unit :=
  let data := blocks size block size in
  o ← outcome; l ← get;
  let old := default [] (fl_files l !! file) in
  match o with
  | None => _ ← modify (fun l => fl_set (<[file := data ++ drop size old]> (fl_files l)) (fl_writer l) l); mret tt
  | Some (k, e) => _ ← modify (fun l => fl_set (<[file := take k data ++ drop (Nat.min k size) old]> (fl_files l)) (fl_writer l) l); fail e
  end.
Definition sync_all (file : str) : F unit :=
  o ← outcome; l ← get;
  match o with
  | None => modify (fun l => mkFileLog (fl_files l) (fl_writer l) (fl_total_logged l) (fl_pending l) (fl_first_event l)
                               (fl_last_event l) (fl_faults l) (fl_synced l ++ [(file, default [] (fl_files l !! file))]))
  | Some (_, e) => fail e
  end.
Definition remove_file (file : str) : F (option str) :=
  o ← outcome;
  match o with
  | None => _ ← modify (fun l => fl_set (delete file (fl_files l)) (fl_writer l) l); mret None
  | Some (_, e) => mret (Some e)
  end.
Definition secure_delete_file (file : str) : F unit :=
  l ← get;
  match fl_files l !! file with
  | None => mret tt
  | Some content =>
      let file_size := length content in
      if (file_size =? 0)%nat then _ ← remove_file file; mret tt else
      o ← outcome;
      if is_some o then fail (lit "Failed to open file for secure delete") else
      _ ← overwrite file file_size zero_block; _ ← sync_all file;
      _ ← overwrite file file_size (pattern 0); _ ← sync_all file;
      _ ← overwrite file file_size zero_block; _ ← sync_all file;
      _ ← overwrite file file_size (pattern 1); _ ← sync_all file;
      _ ← overwrite file file_size zero_block; _ ← sync_all file;
      r ← remove_file file;
      match r with None => mret tt | Some e => fail e end
  end.

(** ** The logger of one configuration *)
Context (path : str) (max_size : Z) (max_files : nat) (secure_delete : bool).
Definition numbered (i : nat) : str := with_extension path (lit "log." ++ fmt_dec (Z.of_nat i)).

(** Bytes that reach the file that is open, at its end. *)
Definition append_bytes (data : bytes) : F (option (nat * str)) :=
  o ← outcome;
  let written := match o with None => data | Some (k, _) => take k data end in
  _ ← modify (fun l => fl_set (<[path := default [] (fl_files l !! path) ++ written]> (fl_files l)) (fl_writer l) l);
  mret o.
(** [flush_buf]: what was not written stays in the buffer. *)
Definition flush_buf (buf : bytes) : F unit :=
  match buf with
  | [] => mret tt
  | _ =>
      o ← append_bytes buf;
      match o with
      | None => modify (fun l => fl_set (fl_files l) (Some []) l)
      | Some (k, e) => _ ← modify (fun l => fl_set (fl_files l) (Some (drop k buf)) l); fail e
      end
  end.
(** [BufWriter::write_all] with a capacity of 8192 bytes. *)
Definition write_all (data : bytes) : F unit :=
  l ← get;
  let buf := default [] (fl_writer l) in
  let spare := 8192 - Z.of_nat (length buf) in
  let n := Z.of_nat (length data) in
  if n <? spare then modify (fun l => fl_set (fl_files l) (Some (buf ++ data)) l) else
  _ ← (if spare <? n then flush_buf buf else mret tt);
  if 8192 <=? n then
    o ← append_bytes data; match o with None => mret tt | Some (_, e) => fail e end
  else modify (fun l => fl_set (fl_files l) (Some (default [] (fl_writer l) ++ data)) l).

Definition open_file : F unit :=
  o ← outcome;
  if is_some o then fail (lit "Failed to open log file") else
  modify (fun l => fl_set (match fl_files l !! path with Some _ => fl_files l | None => <[path := []]> (fl_files l) end) (Some []) l).
(** [mkdir] is the outcome of making the directory. *)
Definition FileConnectionLogger_new (mkdir : option str) (files : gmap str bytes) (faults : list (option (nat * str))) :
    res str FileConnectionLogger :=
  if is_some mkdir then Err (lit "Failed to create log directory") else
  match open_file (mkFileLog files None 0 0 None None faults []) with
  | (l, Ok _) => Ok l
  | (_, Err e) => Err e
  | (_, Panic) => Panic
  end.

(** [fs::rename(..).ok()]. *)
Definition rename (from to : str) : F unit :=
  o ← outcome;
  if is_some o then mret tt else
  modify (fun l => match fl_files l !! from with
                   | Some c => fl_set (<[to := c]> (delete from (fl_files l))) (fl_writer l) l
                   | None => l
                   end).
(** The loop over [(1..max_files).rev()], from [i] down. *)
Fixpoint rotate_files (i : nat) : F unit :=
  match i with
  | O => mret tt
  | S i' =>
      let from := if (i =? 1)%nat then path else numbered i' in
      let to := numbered i in
      l ← get;
      _ ← (if is_some (fl_files l !! from) then
             _ ← (if is_some (fl_files l !! to) && secure_delete then secure_delete_file to else mret tt);
             rename from to
           else mret tt);
      rotate_files i'
  end.
Definition delete_oldest : F unit :=
  let oldest := numbered max_files in
  l ← get;
  if is_some (fl_files l !! oldest) then
    if secure_delete then secure_delete_file oldest else _ ← remove_file oldest; mret tt
  else mret tt.
Definition rotate_if_needed : F unit :=
  o ← outcome; l ← get;
  match o, fl_files l !! path with
  | Some _, _ | None, None => mret tt
  | None, Some content =>
      if Z.of_nat (length content) <? max_size then mret tt else
      _ ← (match fl_writer l with Some buf => flush_buf buf | None => mret tt end);
      _ ← modify (fun l => fl_set (fl_files l) None l);
      _ ← rotate_files (max_files - 1);
      _ ← delete_oldest;
      open_file
  end.

Definition write_event (event : ConnectionEvent) : F unit :=
  l ← get;
  match fl_writer l with
  | None => fail (lit "Log file not open")
  | Some _ =>
      match event_to_json event with
      | inr e => fail e
      | inl json =>
          _ ← write_all json; _ ← write_all [10];
          modify (fun l => fl_set_stats (fl_total_logged l) (wrap 64 (fl_pending l + 1)) (fl_first_event l) (fl_last_event l) l)
      end
  end.
Definition FileConnectionLogger_flush : F unit :=
  l ← get;
  match fl_writer l with
  | None => mret tt
  | Some buf =>
      _ ← flush_buf buf;
      modify (fun l => fl_set_stats (fl_total_logged l) 0 (fl_first_event l) (fl_last_event l) l)
  end.
Definition FileConnectionLogger_log (event : ConnectionEvent) : F unit :=
  let timestamp := ConnectionEvent_timestamp event in
  _ ← modify (fun l => fl_set_stats (fl_total_logged l) (fl_pending l)
                (match fl_first_event l with None => Some timestamp | f => f end) (Some timestamp) l);
  _ ← rotate_if_needed;
  _ ← write_event event;
  _ ← modify (fun l => fl_set_stats (wrap 64 (fl_total_logged l + 1)) (fl_pending l) (fl_first_event l) (fl_last_event l) l);
  l ← get;
  if 100 <=? fl_pending l then FileConnectionLogger_flush else mret tt.

(** [read_to_string]. *)
Definition read_log : F str :=
  o ← outcome; l ← get;
  match o, fl_files l !! path with
  | Some (_, e), _ => fail e
  | None, None => fail (lit "No such file or directory (os error 2)")
  | None, Some content => if utf8_valid content then mret content else fail (lit "stream did not contain valid UTF-8")
  end.
Definition FileConnectionLogger_query_recent (limit : nat) : F (option (list ConnectionEvent)) :=
  _ ← FileConnectionLogger_flush;
  content ← read_log;
  mret (Some (omap event_from_json (take limit (rev (str_lines content))))).
Definition FileConnectionLogger_query_connection (id : Uuid) : F (option (list ConnectionEvent)) :=
  _ ← FileConnectionLogger_flush;
  content ← read_log;
  mret (Some (filter (fun e => ConnectionEvent_connection_id e = id) (omap event_from_json (str_lines content)))).
Definition FileConnectionLogger_stats l : LoggerStats :=
  mkLoggerStats (fl_total_logged l) (fl_pending l) (Z.of_nat ∘ length <$> fl_files l !! path) (fl_first_event l) (fl_last_event l).
(** [Drop]. *)
Definition FileConnectionLogger_drop l : FileConnectionLogger :=
  match fl_writer l with Some buf => fst (flush_buf buf l) | None => l end.

Definition file_logger : ConnectionLogger FileConnectionLogger := {|
  cl_log := FileConnectionLogger_log;
  cl_query_recent := FileConnectionLogger_query_recent;
  cl_query_connection := FileConnectionLogger_query_connection;
  cl_flush := FileConnectionLogger_flush;
  cl_cleanup := rotate_if_needed;
  cl_stats := FileConnectionLogger_stats;
  cl_is_null := false;
  cl_logger_type := lit "file";
|}.
End FileLogger.

(** What [new] makes of the configured limits. *)
Definition effective_max_size (max_size : Z) : Z := Z.max max_size (1024 * 1024).
Definition effective_max_files (max_files : nat) : nat := Nat.max max_files 1.
