(* ===== verification/AuditProofs.v ===== *)
(** * What the audit formats guarantee

    Readers for the CEF and LEEF lines that AuditEvents.v writes, and what they find
    in them. *)
From S2P Require Import Prelude Errors Text CoreSession Addr AuditEvents.
Local Open Scope Z_scope.

(** ** Escaped text *)

(** Pieces between separators that no backslash protects; escapes stay. *)
Fixpoint split_raw (sep : Z) (s : str) : list str :=
  match s with
  | [] => [[]]
  | b :: s' =>
      if b =? 92 then
        match s' with
        | [] => [[92]]
        | c :: s'' => match split_raw sep s'' with p :: ps => (92 :: c :: p) :: ps | [] => [[92; c]] end
        end
      else if b =? sep then [] :: split_raw sep s'
      else match split_raw sep s' with p :: ps => (b :: p) :: ps | [] => [[b]] end
  end.
(** Text without its escapes: [\n], [\r] and [\t] are the control characters. *)
Fixpoint unescape (s : str) : str :=
  match s with
  | [] => []
  | b :: s' =>
      if b =? 92 then
        match s' with
        | [] => [92]
        | c :: s'' => (if c =? 110 then 10 else if c =? 114 then 13 else if c =? 116 then 9 else c) :: unescape s''
        end
      else b :: unescape s'
  end.

Lemma split_raw_cons sep s : split_raw sep s <> [].
Proof. destruct s as [|b s]; [done|]. cbn. repeat case_match; done. Qed.

(** Text that the reader passes over without splitting it. *)
Definition closed (sep : Z) (s : str) : Prop := forall t,
  split_raw sep (s ++ t) = match split_raw sep t with p :: ps => (s ++ p) :: ps | [] => [s] end.

Lemma closed_nil sep : closed sep [].
Proof. intros t. cbn. pose proof (split_raw_cons sep t). by destruct (split_raw sep t). Qed.
Lemma closed_app sep s t : closed sep s -> closed sep t -> closed sep (s ++ t).
Proof.
  intros Hs Ht u. rewrite <- app_assoc, Hs, Ht. pose proof (split_raw_cons sep u).
  destruct (split_raw sep u); [done|]. by rewrite app_assoc.
Qed.
Lemma closed_byte sep b : b <> 92 -> b <> sep -> closed sep [b].
Proof. intros H1 H2 t. cbn. rewrite (proj2 (Z.eqb_neq _ _) H1), (proj2 (Z.eqb_neq _ _) H2). done. Qed.
Lemma closed_escape sep c : closed sep [92; c].
Proof. done. Qed.
Lemma closed_plain sep s : 92 ∉ s -> sep ∉ s -> closed sep s.
Proof.
  induction s as [|b s IH]; intros H1 H2; [apply closed_nil|].
  apply not_elem_of_cons in H1 as [? ?]. apply not_elem_of_cons in H2 as [? ?].
  apply (closed_app sep [b] s); [by apply closed_byte|by apply IH].
Qed.
Lemma closed_join sep sep' parts : closed sep [sep'] -> Forall (closed sep) parts -> closed sep (join [sep'] parts).
Proof.
  intros Hs. induction parts as [|p [|q parts] IH]; intros H; [apply closed_nil|by inv H|].
  change (join [sep'] (p :: q :: parts)) with (p ++ [sep'] ++ join [sep'] (q :: parts)).
  inv H. repeat apply closed_app; auto.
Qed.

Lemma split_raw_sep sep p t : sep <> 92 -> closed sep p -> split_raw sep (p ++ sep :: t) = p :: split_raw sep t.
Proof.
  intros Hs Hp. rewrite Hp. cbn. rewrite (proj2 (Z.eqb_neq _ _) Hs), Z.eqb_refl. by rewrite app_nil_r.
Qed.
Lemma split_raw_one sep p : closed sep p -> split_raw sep p = [p].
Proof. intros Hp. specialize (Hp []). rewrite !app_nil_r in Hp. by rewrite Hp; cbn; rewrite app_nil_r. Qed.
Lemma split_raw_join sep parts : sep <> 92 -> parts <> [] -> Forall (closed sep) parts ->
  split_raw sep (join [sep] parts) = parts.
Proof.
  intros Hs. induction parts as [|p [|q parts] IH]; intros Hne H; [done|inv H; by apply split_raw_one|].
  change (join [sep] (p :: q :: parts)) with (p ++ sep :: join [sep] (q :: parts)).
  inv H. rewrite split_raw_sep by done. f_equal. by apply IH.
Qed.

(** Escaping byte by byte. *)
Definition escaping (f : Z -> str) (stops : list Z) : Prop := forall b,
  (exists c, f b = [92; c] /\ unescape [92; c] = [b] /\ c <> 10 /\ c <> 13 /\ c <> 9) \/
  (f b = [b] /\ b <> 92 /\ b ∉ stops).
Lemma escaped_closed f stops sep s : escaping f stops -> sep ∈ stops -> closed sep (flat_map f s).
Proof.
  intros Hf Hsep. induction s as [|b s IH]; [apply closed_nil|]. cbn [flat_map]. apply closed_app; [|done].
  destruct (Hf b) as [(c & -> & _)|(-> & Hb & Hn)]; [apply closed_escape|]. apply closed_byte; [done|].
  intros ->. by apply Hn.
Qed.
Lemma unescape_escaped f stops s : escaping f stops -> unescape (flat_map f s) = s.
Proof.
  intros Hf. induction s as [|b s IH]; [done|]. cbn [flat_map].
  destruct (Hf b) as [(c & -> & Hc & _)|(-> & Hb & Hn)].
  - cbn in Hc |- *. injection Hc as Hc. by rewrite Hc, IH.
  - cbn. by rewrite (proj2 (Z.eqb_neq _ _) Hb), IH.
Qed.
Lemma escaped_free f stops c s : escaping f stops -> c ∈ stops -> c <> 92 -> c = 10 \/ c = 13 \/ c = 9 -> c ∉ flat_map f s.
Proof.
  intros Hf Hc H92 Hctl. induction s as [|b s IH]; cbn [flat_map]; [apply not_elem_of_nil|].
  rewrite elem_of_app. intros [H|H]; [|done]. destruct (Hf b) as [(d & Hd & _ & ?)|(Hd & _ & Hn)]; rewrite Hd in H; set_solver.
Qed.

Lemma flat_map_flat_map {A B C} (f : B -> list C) (g : A -> list B) l :
  flat_map f (flat_map g l) = flat_map (fun x => flat_map f (g x)) l.
Proof. induction l as [|x l IH]; [done|]. cbn [flat_map]. by rewrite flat_map_app, IH. Qed.

Definition cef_byte (b : Z) : str :=
  if b =? 92 then [92; 92] else if b =? 124 then [92; 124] else if b =? 10 then [92; 110]
  else if b =? 13 then [92; 114] else if b =? 61 then [92; 61] else [b].
Definition leef_byte (b : Z) : str :=
  if b =? 92 then [92; 92] else if b =? 124 then [92; 124] else if b =? 9 then [92; 116] else if b =? 10 then [92; 110]
  else if b =? 13 then [92; 114] else [b].

(** Ask for every byte that is compared. *)
Ltac split_byte b := repeat (match goal with |- context [b =? ?k] => destruct (Z.eqb_spec b k); [subst b|] end; cbn).
Lemma escape_cef_bytes s : escape_cef s = flat_map cef_byte s.
Proof.
  unfold escape_cef, replace_char. rewrite !flat_map_flat_map. apply flat_map_ext. intros b. unfold cef_byte.
  cbn [flat_map app]. split_byte b; done.
Qed.
Lemma escape_leef_bytes s : escape_leef s = flat_map leef_byte s.
Proof.
  unfold escape_leef, replace_char. rewrite !flat_map_flat_map. apply flat_map_ext. intros b. unfold leef_byte.
  cbn [flat_map app]. split_byte b; done.
Qed.
Lemma cef_escaping : escaping cef_byte [124; 61; 10; 13].
Proof.
  intros b. unfold cef_byte. split_byte b; try (left; eexists; split_and!; [reflexivity|reflexivity|done..]).
  right. split_and!; [done|done|]. set_solver.
Qed.
Lemma leef_escaping : escaping leef_byte [124; 9; 10; 13].
Proof.
  intros b. unfold leef_byte. split_byte b; try (left; eexists; split_and!; [reflexivity|reflexivity|done..]).
  right. split_and!; [done|done|]. set_solver.
Qed.

(** ** The readers *)

(** The value and the key that follow each other between two equals signs. *)
Definition at_last_space (s : str) : option (str * str) :=
  (fun i => (rev (drop (S i) (rev s)), rev (take i (rev s)))) <$> find_str [32] (rev s).
Fixpoint read_fields (key : str) (pieces : list str) : option (list (str * str)) :=
  match pieces with
  | [] => None
  | [v] => Some [(key, unescape v)]
  | p :: pieces' =>
      vk ← at_last_space p; rest ← read_fields (snd vk) pieces'; Some ((key, unescape (fst vk)) :: rest)
  end.
Definition cef_read_extension (s : str) : option (list (str * str)) :=
  match split_raw 61 s with key :: pieces => read_fields key pieces | [] => None end.
(** The seven fields of the header and those of the extension. *)
Definition cef_read (line : str) : option (list str * list (str * str)) :=
  match split_raw 124 line with
  | [c; vendor; product; version; signature; name; severity; extension] =>
      (fun fields => (map unescape [c; vendor; product; version; signature; name; severity], fields))
        <$> cef_read_extension extension
  | _ => None
  end.

Definition leef_read_field (s : str) : option (str * str) :=
  (fun i => (take i s, unescape (drop (S i) s))) <$> find_str [61] s.
Definition leef_read (line : str) : option (list str * list (str * str)) :=
  match split_raw 124 line with
  | [c; vendor; product; version; event_id; extension] =>
      (fun fields => (map unescape [c; vendor; product; version; event_id], fields))
        <$> mapM leef_read_field (split_raw 9 extension)
  | _ => None
  end.

(** ** Reading what was written *)
Definition key_ok (k : str) : Prop := Forall (fun b => b ∉ [92; 61; 32; 124; 10; 13; 9]) k.
Definition value_ok (sep : Z) (v : str) : Prop := closed 124 v /\ closed sep v /\ 10 ∉ v /\ 13 ∉ v.

Lemma key_ok_free k c : key_ok k -> c ∈ [92; 61; 32; 124; 10; 13; 9] -> c ∉ k.
Proof. intros Hk Hc Hin. by apply (proj1 (Forall_forall _ _) Hk c Hin). Qed.
Lemma key_ok_closed k sep : key_ok k -> sep ∈ [92; 61; 32; 124; 10; 13; 9] -> closed sep k.
Proof. intros Hk Hs. apply closed_plain; eapply key_ok_free; eauto. set_solver. Qed.

Lemma at_last_space_app v k : 32 ∉ k -> at_last_space (v ++ 32 :: k) = Some (v, k).
Proof.
  intros Hk. unfold at_last_space. rewrite rev_app_distr. cbn [rev]. rewrite <- app_assoc. cbn [app].
  rewrite find_first by (intros H; apply Hk; by rewrite list_elem_of_In in H |- *; apply in_rev). cbn [fmap option_fmap option_map].
  rewrite take_app_length, rev_involutive. do 2 f_equal.
  replace (S (length (rev k))) with (length (rev k ++ [32])) by (rewrite length_app; cbn; lia).
  change (32 :: rev v) with ([32] ++ rev v). by rewrite app_assoc, drop_app_length, rev_involutive.
Qed.

Definition tail_of (fields : list (str * str)) : str :=
  match fields with [] => [] | _ => 32 :: join [32] (map assign fields) end.
Lemma join_assign k v fields : join [32] (map assign ((k, v) :: fields)) = k ++ 61 :: (v ++ tail_of fields).
Proof.
  destruct fields as [|f fields]; [by rewrite app_nil_r|].
  change (join [32] (map assign ((k, v) :: f :: fields))) with ((k ++ [61] ++ v) ++ [32] ++ join [32] (map assign (f :: fields))).
  by rewrite <- !app_assoc.
Qed.

Definition unescaped (f : str * str) : str * str := (f.1, unescape f.2).
Lemma read_fields_pieces fields k v : closed 61 v -> Forall (fun f => key_ok f.1 /\ closed 61 f.2) fields ->
  read_fields k (split_raw 61 (v ++ tail_of fields)) = Some (map unescaped ((k, v) :: fields)).
Proof.
  revert k v. induction fields as [|[k' v'] fields IH]; intros k v Hv Hf.
  - cbn [tail_of]. by rewrite app_nil_r, split_raw_one.
  - inv Hf. destruct H1 as [Hk' Hv']. cbn [fst snd] in Hk', Hv'. specialize (IH k' v' Hv' H2).
    cbn [tail_of]. rewrite join_assign.
    replace (v ++ 32 :: k' ++ 61 :: v' ++ tail_of fields) with ((v ++ [32] ++ k') ++ 61 :: v' ++ tail_of fields)
      by (rewrite <- !app_assoc; done).
    rewrite split_raw_sep; [|done|repeat apply closed_app; [done|by apply closed_byte|]; apply key_ok_closed; [done|set_solver]].
    pose proof (split_raw_cons 61 (v' ++ tail_of fields)). destruct (split_raw 61 (v' ++ tail_of fields)) as [|p ps]; [done|].
    cbn [read_fields]. change (v ++ [32] ++ k') with (v ++ 32 :: k'). rewrite at_last_space_app by (eapply key_ok_free; [done|set_solver]).
    change (Some (v, k') ≫= ?f) with (f (v, k')). cbn [fst snd]. cbn [read_fields] in IH. by rewrite IH.
Qed.
Lemma read_extension_assign fields : fields <> [] -> Forall (fun f => key_ok f.1 /\ closed 61 f.2) fields ->
  cef_read_extension (join [32] (map assign fields)) = Some (map unescaped fields).
Proof.
  destruct fields as [|[k v] fields]; intros Hne Hf; [done|]. inv Hf. destruct H1 as [Hk Hv].
  unfold cef_read_extension. rewrite join_assign, split_raw_sep; [by apply read_fields_pieces|done|].
  apply key_ok_closed; [done|set_solver].
Qed.

(** ** The fields of an event *)
Definition bare (s : str) : Prop := Forall (fun b => b ∉ [92; 124; 61; 9; 10; 13]) s.
Lemma plain_free s c : bare s -> c ∈ [92; 124; 61; 9; 10; 13] -> c ∉ s.
Proof. intros Hs Hc Hin. by apply (proj1 (Forall_forall _ _) Hs c Hin). Qed.
Lemma plain_closed s sep : bare s -> sep ∈ [124; 61; 9] -> closed sep s.
Proof. intros Hs Hsep. apply closed_plain; eapply plain_free; set_solver. Qed.
Lemma fmt_dec_bare z : 0 <= z -> bare (fmt_dec z).
Proof.
  intros Hz. destruct (fmt_dec_digits z Hz) as [_ H]. eapply Forall_impl; [exact H|]. cbn. intros b Hb. set_unfold. lia.
Qed.
Lemma fmt_int_plain z : bare (fmt_int z).
Proof.
  unfold fmt_int. destruct (Z.ltb_spec z 0); [|by apply fmt_dec_bare].
  constructor; [set_unfold; lia|apply fmt_dec_bare; lia].
Qed.
Lemma unescape_plain s : bare s -> unescape s = s.
Proof.
  induction 1 as [|b s Hb Hs IH]; [done|]. cbn. destruct (Z.eqb_spec b 92); [subst; set_solver|]. by rewrite IH.
Qed.

(** A value that is read back as [raw] and keeps to its line. *)
Definition written (sep : Z) (v raw : str) : Prop :=
  closed 124 v /\ closed sep v /\ 10 ∉ v /\ 13 ∉ v /\ unescape v = raw.
Lemma plain_written sep s : sep ∈ [61; 9] -> bare s -> written sep s s.
Proof.
  intros Hsep Hs. split_and!; [apply plain_closed; [done|set_solver]..| | |by apply unescape_plain];
    (eapply plain_free; [done|set_solver]).
Qed.
Lemma escaped_written f stops sep s : escaping f stops -> 124 ∈ stops -> sep ∈ stops -> 10 ∈ stops -> 13 ∈ stops ->
  written sep (flat_map f s) s.
Proof.
  intros Hf H1 H2 H3 H4. split_and!; [by eapply escaped_closed|by eapply escaped_closed|eapply escaped_free; eauto..|
    by eapply unescape_escaped].
Qed.
Lemma cef_written s : written 61 (escape_cef s) s.
Proof.
  rewrite escape_cef_bytes.
  eapply escaped_written; [apply cef_escaping|set_solver..].
Qed.
Lemma leef_written s : written 9 (escape_leef s) s.
Proof.
  rewrite escape_leef_bytes.
  eapply escaped_written; [apply leef_escaping|set_solver..].
Qed.

(** Fields as they are written and as they are meant. *)
Definition means (sep : Z) (f g : str * str) : Prop := f.1 = g.1 /\ key_ok f.1 /\ written sep f.2 g.2.
Lemma means_kv sep (k : string) v raw : key_ok (lit k) -> written sep v raw -> means sep (kv k v) (kv k raw).
Proof. done. Qed.
Lemma means_opt sep (k : string) escape v : key_ok (lit k) -> (forall s, v = Some s -> written sep (escape s) s) ->
  Forall2 (means sep) (kv_opt k escape v) (kv_opt k id v).
Proof. intros Hk Hv. destruct v as [s|]; constructor; [|constructor]. by apply means_kv; [|apply Hv]. Qed.
Lemma means_unescaped sep fs gs : Forall2 (means sep) fs gs -> map unescaped fs = gs.
Proof.
  induction 1 as [|[k v] [k' raw] fs gs (Hk & _ & _ & _ & _ & _ & Hv) _ IH]; [done|]. cbn in *. unfold unescaped at 1. cbn. by subst.
Qed.
Lemma means_fields sep fs gs : Forall2 (means sep) fs gs -> Forall (fun f => key_ok f.1 /\ closed sep f.2) fs.
Proof. induction 1 as [|f g fs gs (_ & Hk & _ & Hc & _) _ IH]; constructor; auto. Qed.
Lemma assign_closed sep f : key_ok f.1 -> closed sep f.2 -> sep = 124 \/ sep = 9 -> closed sep (assign f).
Proof.
  intros Hk Hv Hs. unfold assign. apply closed_app; [apply key_ok_closed; [done|set_solver]|].
  apply closed_app; [apply closed_byte; lia|done].
Qed.
Lemma means_assign sep fs gs : Forall2 (means sep) fs gs ->
  Forall (fun s => closed 124 s /\ 10 ∉ s /\ 13 ∉ s) (map assign fs).
Proof.
  induction 1 as [|[k v] g fs gs (_ & Hk & Hc & _ & H10 & H13 & _) _ IH]; constructor; [|done].
  split; [apply assign_closed; auto|unfold assign; cbn [fst snd] in *; split; rewrite !not_elem_of_app; split_and!; (done || (eapply key_ok_free; [done|set_solver]) || set_solver)].
Qed.
Lemma join_free c sep parts : c <> sep -> Forall (fun s => c ∉ s) parts -> c ∉ join [sep] parts.
Proof.
  intros Hc. induction parts as [|p [|q parts] IH]; intros H; [apply not_elem_of_nil|by inv H|].
  change (join [sep] (p :: q :: parts)) with (p ++ [sep] ++ join [sep] (q :: parts)). inv H.
  rewrite !not_elem_of_app. split_and!; [done|set_solver|by apply IH].
Qed.

(** A line of escaped fields and an extension. *)
Lemma line_shape sep fields facts header : sep ∈ [32; 9] ->
  Forall (fun s => closed 124 s /\ 10 ∉ s /\ 13 ∉ s) header -> Forall2 (means (if sep =? 32 then 61 else 9)) fields facts ->
  let ext := join [sep] (map assign fields) in let line := join [124] (header ++ [ext]) in
  split_raw 124 line = header ++ [ext] /\ 10 ∉ line /\ 13 ∉ line.
Proof.
  intros Hsep Hh Hf ext line. pose proof (means_assign _ _ _ Hf) as Ha.
  assert (Forall (fun s => closed 124 s /\ 10 ∉ s /\ 13 ∉ s) (header ++ [ext])) as Hp.
  { apply Forall_app. split; [done|]. constructor; [|constructor]. unfold ext. split_and!.
    - apply closed_join; [apply closed_byte; set_solver|]. eapply Forall_impl; [exact Ha|]. by intros s (? & _).
    - apply join_free; [set_solver|]. eapply Forall_impl; [exact Ha|]. by intros s (_ & ? & _).
    - apply join_free; [set_solver|]. eapply Forall_impl; [exact Ha|]. by intros s (_ & _ & ?). }
  split_and!.
  - apply split_raw_join; [done|by destruct header|]. eapply Forall_impl; [exact Hp|]. by intros s (? & _).
  - apply join_free; [done|]. eapply Forall_impl; [exact Hp|]. by intros s (_ & ? & _).
  - apply join_free; [done|]. eapply Forall_impl; [exact Hp|]. by intros s (_ & _ & ?).
Qed.

Section Written.
Context {Ch : Chrono} {AC : AuditClock} {JT : JsonText}.
Implicit Types (event : AuditEvent) (config : FormatConfig).

(** What an event says, in the order of the fields. *)
Definition cef_facts event : list (str * str) :=
  [kv "rt" (fmt_int (timestamp_millis (ev_timestamp event))); kv "msg" (ev_message event);
   kv "outcome" (AuditOutcome_debug (ev_outcome event)); kv "cat" (AuditCategory_as_str (ev_category event))]
  ++ from_option (fun a => kv_opt "suser" id (ac_name a) ++ kv_opt "src" id (ac_source_ip a)
                           ++ kv_opt "sproc" id (ac_session_id a)) [] (ev_actor event)
  ++ from_option (fun t => kv_opt "duid" id (ta_id t) ++ kv_opt "duser" id (ta_name t)) [] (ev_target event)
  ++ [kv "dvchost" (ev_host event); kv "externalId" (ev_id event)].
Definition leef_facts event : list (str * str) :=
  [kv "devTime" (rfc3339_millis (ev_timestamp event)); kv "cat" (AuditCategory_as_str (ev_category event));
   kv "sev" (fmt_dec (AuditSeverity_to_cef_severity (ev_severity event))); kv "msg" (ev_message event)]
  ++ from_option (fun a => kv_opt "usrName" id (ac_name a) ++ kv_opt "src" id (ac_source_ip a)) [] (ev_actor event)
  ++ [kv "identHostName" (ev_host event)].
(** The texts that are written without escaping. *)
Definition plain_ip event : Prop := forall a ip, ev_actor event = Some a -> ac_source_ip a = Some ip -> bare ip.

Lemma category_plain c : bare (AuditCategory_as_str c).
Proof. destruct c; apply (bool_decide_unpack _); vm_compute; exact I. Qed.
Lemma outcome_plain o : bare (AuditOutcome_debug o).
Proof. destruct o; apply (bool_decide_unpack _); vm_compute; exact I. Qed.
Lemma severity_plain s : bare (fmt_dec (AuditSeverity_to_cef_severity s)).
Proof. apply fmt_dec_bare. by destruct s. Qed.

Ltac key := apply (bool_decide_unpack _); vm_compute; exact I.
Lemma cef_extensions_mean event : bare (ev_id event) -> plain_ip event ->
  Forall2 (means 61) (cef_extensions event) (cef_facts event).
Proof.
  intros Hid Hip. assert (61 ∈ [61; 9]) as Hs by set_solver. unfold cef_extensions, cef_facts.
  apply Forall2_app; [repeat apply Forall2_cons_2; [..|apply Forall2_nil_2]; (apply means_kv; [key|]);
    first [ apply cef_written | apply plain_written, fmt_int_plain; done | apply plain_written, outcome_plain; done
          | apply plain_written, category_plain; done ]|].
  apply Forall2_app; [|apply Forall2_app].
  - destruct (ev_actor event) as [a|] eqn:Ha; [cbn [from_option]|constructor].
    repeat apply Forall2_app; (apply means_opt; [key|intros s E]); [apply cef_written| |apply cef_written].
    apply plain_written; [done|by eapply Hip].
  - destruct (ev_target event) as [t|]; [cbn [from_option]|constructor].
    repeat apply Forall2_app; (apply means_opt; [key|intros s E]); apply cef_written.
  - repeat apply Forall2_cons_2; [..|apply Forall2_nil_2]; (apply means_kv; [key|]); [apply cef_written|by apply plain_written].
Qed.

Lemma leef_extensions_mean event : bare (rfc3339_millis (ev_timestamp event)) -> plain_ip event ->
  Forall2 (means 9) (leef_extensions event) (leef_facts event).
Proof.
  intros Ht Hip. assert (9 ∈ [61; 9]) as Hs by set_solver. unfold leef_extensions, leef_facts.
  apply Forall2_app; [repeat apply Forall2_cons_2; [..|apply Forall2_nil_2]; (apply means_kv; [key|]);
    first [ apply leef_written | by apply plain_written | apply plain_written, severity_plain; done
          | apply plain_written, category_plain; done ]|].
  apply Forall2_app.
  - destruct (ev_actor event) as [a|] eqn:Ha; [cbn [from_option]|constructor].
    repeat apply Forall2_app; (apply means_opt; [key|intros s E]); [apply leef_written|].
    apply plain_written; [done|by eapply Hip].
  - apply Forall2_cons_2, Forall2_nil_2. apply means_kv; [key|apply leef_written].
Qed.

Lemma header_field sep v raw : written sep v raw -> closed 124 v /\ 10 ∉ v /\ 13 ∉ v.
Proof. by intros (? & _ & ? & ? & _). Qed.
Lemma cef_header_line config event :
  Forall (fun s => closed 124 s /\ 10 ∉ s /\ 13 ∉ s) (cef_header config event) /\
  map unescape (cef_header config event) =
    [lit "CEF:0"; fo_cef_vendor config; fo_cef_product config; fo_cef_version config; event_name event; ev_action event;
     fmt_dec (AuditSeverity_to_cef_severity (ev_severity event))].
Proof.
  assert (61 ∈ [61; 9]) as Hs by set_solver. unfold cef_header. split.
  - repeat apply Forall_cons_2; [..|apply Forall_nil_2]; eapply header_field;
      first [ apply cef_written | apply (plain_written 61); [done|]; first [apply severity_plain | key] ].
  - cbn [map]. repeat f_equal; first [ apply cef_written | apply unescape_plain; first [apply severity_plain | key] ].
Qed.
Lemma leef_header_line config event :
  Forall (fun s => closed 124 s /\ 10 ∉ s /\ 13 ∉ s) (leef_header config event) /\
  map unescape (leef_header config event) =
    [lit "LEEF:2.0"; fo_cef_vendor config; fo_cef_product config; fo_cef_version config; event_name event].
Proof.
  unfold leef_header. split.
  - repeat apply Forall_cons_2; [..|apply Forall_nil_2]; eapply header_field;
      first [ apply leef_written | apply (plain_written 61); [set_solver|key] ].
  - cbn [map]. repeat f_equal; first [ apply leef_written | apply unescape_plain; key ].
Qed.

Lemma leef_read_fields fs gs : Forall2 (means 9) fs gs -> mapM leef_read_field (map assign fs) = Some gs.
Proof.
  intros H. apply mapM_Some_2. induction H as [|[k v] [k' raw] fs gs (Hk & Hok & _ & _ & _ & _ & Hv) _ IH]; constructor; [|done].
  cbn in Hk, Hok, Hv. subst k' raw. unfold leef_read_field, assign. cbn [fst snd]. change ([61] ++ v) with (61 :: v).
  rewrite find_first by (eapply key_ok_free; [done|set_solver]). cbn [fmap option_fmap option_map].
  rewrite take_app_length. do 3 f_equal. by rewrite drop_app_ge by lia; replace (S (length k) - length k)%nat with 1%nat by lia.
Qed.

Lemma cef_one_line config event : bare (ev_id event) -> plain_ip event ->
  exists line, FormatEncoder_encode (fo_with_format Fmt_Cef config) event = Ok line /\ 10 ∉ line.
Proof.
  intros Hid Hip. destruct (cef_header_line config event) as [Hh _].
  destruct (line_shape 32 _ _ _ ltac:(set_solver) Hh (cef_extensions_mean event Hid Hip)) as (_ & H10 & _).
  by eexists.
Qed.

(** C26 A CEF line says what the event says.  Whatever the user names, messages
    and identifiers contain, the encoder writes one line; splitting it at the
    bars and the equals signs that no backslash protects and removing the
    escapes gives back the seven fields of the header and every field of the
    extension, in order.  The identifier and the source address are written
    as they are. *)
Theorem cef_reads_back config event (Hid : bare (ev_id event)) (Hip : plain_ip event) :
  exists line, FormatEncoder_encode (fo_with_format Fmt_Cef config) event = Ok line /\ 10 ∉ line /\ 13 ∉ line /\
    cef_read line =
    Some ([lit "CEF:0"; fo_cef_vendor config; fo_cef_product config; fo_cef_version config; event_name event; ev_action event;
           fmt_dec (AuditSeverity_to_cef_severity (ev_severity event))], cef_facts event).
Proof.
  pose proof (cef_extensions_mean event Hid Hip) as Hm. destruct (cef_header_line config event) as [Hh Hu].
  destruct (line_shape 32 _ _ _ ltac:(set_solver) Hh Hm) as (Hs & H10 & H13).
  exists (join [124] (cef_header config event ++ [join [32] (map assign (cef_extensions event))])).
  split_and!; [reflexivity|done|done|]. unfold cef_read. rewrite Hs.
  unfold cef_header in Hu |- *. cbn [app]. rewrite Hu.
  rewrite read_extension_assign; [|done|by eapply means_fields]. by rewrite (means_unescaped _ _ _ Hm).
Qed.

(** LEEF lines likewise: the reader splits at bars and tabs that no
    backslash protects and at the first equals sign of a field. *)
Lemma leef_reads_back config event (Ht : bare (rfc3339_millis (ev_timestamp event))) (Hip : plain_ip event) :
  exists line, FormatEncoder_encode (fo_with_format Fmt_Leef config) event = Ok line /\ 10 ∉ line /\ 13 ∉ line /\
    leef_read line =
    Some ([lit "LEEF:2.0"; fo_cef_vendor config; fo_cef_product config; fo_cef_version config; event_name event],
          leef_facts event).
Proof.
  pose proof (leef_extensions_mean event Ht Hip) as Hm. destruct (leef_header_line config event) as [Hh Hu].
  destruct (line_shape 9 _ _ _ ltac:(set_solver) Hh Hm) as (Hs & H10 & H13).
  exists (join [124] (leef_header config event ++ [join [9] (map assign (leef_extensions event))])).
  split_and!; [reflexivity|done|done|]. unfold leef_read. rewrite Hs.
  unfold leef_header in Hu |- *. cbn [app]. rewrite Hu.
  rewrite split_raw_join; [by rewrite (leef_read_fields _ _ Hm)|done|done|].
  apply Forall_map. eapply Forall_impl; [by eapply means_fields|]. intros f [Hk Hv]. by apply assign_closed; [| |right].
Qed.
End Written.

(** ** The claims at concrete inputs *)
Section FormatWitnesses.
#[local] Existing Instances toy_chrono toy_uuids.
Definition one_clock : @AuditClock toy_chrono :=
  {| timestamp_millis t := t; rfc3339 t := fmt_dec t; rfc3339_millis t := fmt_dec t; rfc3339_micros t := fmt_dec t; dt_serde t := fmt_dec t |}.
Definition short_json : JsonText := {| json_to_string _ := inl (lit "{}"); json_to_string_pretty _ := inl (lit "{}"); json_from_str _ := inl JNull |}.
#[local] Existing Instances one_clock short_json.
Definition login_event : AuditEvent :=
  AuditEventBuilder_build None 7%N (5 : @DateTime toy_chrono) (AuditEventBuilder_auth_attempt (lit "al|ice=") (Some (lit "192.0.2.1"))).

Lemma login_event_plain : bare (ev_id login_event) /\ plain_ip login_event.
Proof.
  split; [apply (bool_decide_unpack _); vm_compute; exact I|]. intros a ip [= <-] [= <-].
  apply (bool_decide_unpack _). vm_compute. exact I.
Qed.
Lemma cef_reads_back_witness :
  exists line, FormatEncoder_encode (fo_with_format Fmt_Cef FormatConfig_default) login_event = Ok line /\
    from_option snd [] (cef_read line) = cef_facts login_event.
Proof.
  destruct login_event_plain as [H1 H2].
  destruct (cef_reads_back FormatConfig_default login_event H1 H2) as (line & E & _ & _ & H).
  exists line. split; [exact E|]. by rewrite H.
Defined.
End FormatWitnesses.
