(* ===== verification/OAuth.v ===== *)
(** * OAuth 2 and OpenID Connect

    src/crates/corevpn-auth/src: error.rs, provider.rs, token.rs, flow.rs and
    the providers of lib.rs.  Requests to the provider go through an
    [HttpClient]; the crates url, addr, base64, sha2, jsonwebtoken, urlencoding,
    serde_json and chrono are interfaces.  Readings of the clock and random
    values are arguments. *)
From S2P Require Import Prelude Text Network CoreSession Addr ConnLog RateLimit.
Local Open Scope Z_scope.

(** ** error.rs *)
Inductive AuthError :=
| OAuth2Error (m : str)
| TokenValidationFailed (m : str)
| TokenExpired
| TokenRefreshFailed (m : str)
| InvalidStateParameter
| InvalidNonce
| ProviderNotConfigured (m : str)
| DiscoveryFailed (m : str)
| UnauthorizedDomain (m : str)
| NotInRequiredGroup
| UserDisabled
| AuthSessionNotFound
| AuthSessionExpired
| AuthorizationPending
| DeviceAuthExpired
| HttpError (m : str)
| SerializationError (m : str)
| AuthConfigError (m : str).

Definition AuthError_fmt (e : AuthError) : str :=
  match e with
  | OAuth2Error m => lit "OAuth2 error: " ++ m
  | TokenValidationFailed m => lit "token validation failed: " ++ m
  | TokenExpired => lit "token expired"
  | TokenRefreshFailed m => lit "token refresh failed: " ++ m
  | InvalidStateParameter => lit "invalid state parameter"
  | InvalidNonce => lit "invalid nonce"
  | ProviderNotConfigured m => lit "provider not configured: " ++ m
  | DiscoveryFailed m => lit "OIDC discovery failed: " ++ m
  | UnauthorizedDomain m => lit "domain not allowed: " ++ m
  | NotInRequiredGroup => lit "user not in required group"
  | UserDisabled => lit "user account is disabled"
  | AuthSessionNotFound => lit "auth session not found"
  | AuthSessionExpired => lit "auth session expired"
  | AuthorizationPending => lit "authorization pending"
  | DeviceAuthExpired => lit "device authorization expired"
  | HttpError m => lit "HTTP error: " ++ m
  | SerializationError m => lit "serialization error: " ++ m
  | AuthConfigError m => lit "configuration error: " ++ m
  end.

(** ** lib.rs: known providers *)
Inductive KnownProvider :=
| KnownGoogle (client_id client_secret : str) (allowed_domain : option str)
| KnownMicrosoft (client_id client_secret tenant_id : str)
| KnownOkta (client_id client_secret domain : str) (auth_server_id : option str)
| KnownGeneric (name client_id client_secret issuer_url : str).

Definition KnownProvider_issuer_url (p : KnownProvider) : str :=
  match p with
  | KnownGoogle _ _ _ => lit "https://accounts.google.com"
  | KnownMicrosoft _ _ tenant_id => lit "https://login.microsoftonline.com/" ++ tenant_id ++ lit "/v2.0"
  | KnownOkta _ _ domain (Some id) => lit "https://" ++ domain ++ lit "/oauth2/" ++ id
  | KnownOkta _ _ domain None => lit "https://" ++ domain ++ lit "/oauth2/default"
  | KnownGeneric _ _ _ issuer_url => issuer_url
  end.
Definition KnownProvider_client_id (p : KnownProvider) : str :=
  match p with
  | KnownGoogle client_id _ _ | KnownMicrosoft client_id _ _ | KnownOkta client_id _ _ _
  | KnownGeneric _ client_id _ _ => client_id
  end.
Definition KnownProvider_client_secret (p : KnownProvider) : str :=
  match p with
  | KnownGoogle _ client_secret _ | KnownMicrosoft _ client_secret _ | KnownOkta _ client_secret _ _
  | KnownGeneric _ _ client_secret _ => client_secret
  end.
Definition KnownProvider_provider_type (p : KnownProvider) : str :=
  match p with
  | KnownGoogle _ _ _ => lit "google"
  | KnownMicrosoft _ _ _ => lit "microsoft"
  | KnownOkta _ _ _ _ => lit "okta"
  | KnownGeneric _ _ _ _ => lit "generic"
  end.

(** ** provider.rs: configuration *)
Inductive ProviderType := Google | Microsoft | Okta | Generic.
Definition ProviderType_fmt (t : ProviderType) : str :=
  match t with
  | Google => lit "google"
  | Microsoft => lit "microsoft"
  | Okta => lit "okta"
  | Generic => lit "generic"
  end.

(** The additional parameters are in the order in which the map is iterated. *)
Record ProviderConfig := mkProviderConfig {
  pr_provider_type : ProviderType;
  pr_client_id : str;
  pr_client_secret : str;
  pr_issuer_url : str;
  pr_authorization_endpoint : option str;
  pr_token_endpoint : option str;
  pr_userinfo_endpoint : option str;
  pr_device_authorization_endpoint : option str;
  pr_jwks_uri : option str;
  pr_scopes : list str;
  pr_allowed_domains : list str;
  pr_required_groups : list str;
  pr_group_claim : str;
  pr_email_claim : str;
  pr_name_claim : str;
  pr_additional_params : list (str * str);
}.

Definition ProviderConfig_google (client_id client_secret : str) (allowed_domain : option str) : ProviderConfig :=
  mkProviderConfig Google client_id client_secret (lit "https://accounts.google.com")
    (Some (lit "https://accounts.google.com/o/oauth2/v2/auth")) (Some (lit "https://oauth2.googleapis.com/token"))
    (Some (lit "https://openidconnect.googleapis.com/v1/userinfo"))
    (Some (lit "https://oauth2.googleapis.com/device/code"))
    (Some (lit "https://www.googleapis.com/oauth2/v3/certs"))
    [lit "openid"; lit "email"; lit "profile"]
    (match allowed_domain with Some domain => [domain] | None => [] end)
    [] (lit "groups") (lit "email") (lit "name")
    (match allowed_domain with Some domain => [(lit "hd", domain)] | None => [] end).

Definition ProviderConfig_microsoft (client_id client_secret tenant_id : str) : ProviderConfig :=
  let base_url := lit "https://login.microsoftonline.com/" ++ tenant_id in
  mkProviderConfig Microsoft client_id client_secret (base_url ++ lit "/v2.0")
    (Some (base_url ++ lit "/oauth2/v2.0/authorize")) (Some (base_url ++ lit "/oauth2/v2.0/token"))
    (Some (lit "https://graph.microsoft.com/oidc/userinfo"))
    (Some (base_url ++ lit "/oauth2/v2.0/devicecode")) (Some (base_url ++ lit "/discovery/v2.0/keys"))
    [lit "openid"; lit "email"; lit "profile"; lit "offline_access"]
    [] [] (lit "groups") (lit "email") (lit "name") [].

Definition ProviderConfig_okta (client_id client_secret domain : str) (auth_server_id : option str) : ProviderConfig :=
  let auth_server := default (lit "default") auth_server_id in
  let base_url := lit "https://" ++ domain ++ lit "/oauth2/" ++ auth_server in
  mkProviderConfig Okta client_id client_secret base_url
    (Some (base_url ++ lit "/v1/authorize")) (Some (base_url ++ lit "/v1/token"))
    (Some (base_url ++ lit "/v1/userinfo")) (Some (base_url ++ lit "/v1/device/authorize"))
    (Some (base_url ++ lit "/v1/keys"))
    [lit "openid"; lit "email"; lit "profile"; lit "groups"; lit "offline_access"]
    [] [] (lit "groups") (lit "email") (lit "name") [].

Definition ProviderConfig_generic (client_id client_secret issuer_url : str) : ProviderConfig :=
  mkProviderConfig Generic client_id client_secret issuer_url None None None None None
    [lit "openid"; lit "email"; lit "profile"] [] [] (lit "groups") (lit "email") (lit "name") [].

Definition required (value : str) (name : string) : res AuthError unit :=
  if bool_decide (value = []) then Err (AuthConfigError (lit name ++ lit " is required")) else Ok tt.
Definition ProviderConfig_validate (c : ProviderConfig) : res AuthError unit :=
  _ ← required (pr_client_id c) "client_id";
  _ ← required (pr_client_secret c) "client_secret";
  required (pr_issuer_url c) "issuer_url".

(** ** Requests *)
Record HttpResponse := mkHttpResponse { hr_status : Z; hr_body : bytes + str }.
Definition is_success (r : HttpResponse) : bool := (200 <=? hr_status r) && (hr_status r <=? 299).

(** What a request is answered with: a response, or the text of an error. *)
Record HttpClient := mkHttpClient {
  hc_get : str -> HttpResponse + str;
  hc_post : str -> list (str * str) -> HttpResponse + str;
}.

(** [response.json().await]: reading the body may fail as well. *)
Definition response_json {A} (decode : bytes -> A + str) (r : HttpResponse) : A + str :=
  match hr_body r with inl body => decode body | inr e => inr e end.
Definition or_fail {E A} (wrap : str -> E) (r : A + str) : res E A :=
  match r with inl a => Ok a | inr e => Err (wrap e) end.

(** The crate url: scheme and host of a URL. *)
Inductive Host := Domain (d : str) | Ipv4Host (a : Z) | Ipv6Host (a : Z).
Class UrlParser := { url_parse : str -> (str * option Host) + str }.
(** The crate addr: whether the text is an e-mail address. *)
Class EmailParser := { email_valid : str -> bool }.

(** ** provider.rs: checks of URLs and the provider *)

(** [Ipv6Addr::is_unicast_link_local]. *)
Definition v6_is_unicast_link_local (a : Z) : bool := Z.land (v6_segment a 0) 65472 =? 65152.

Definition is_private_ip (ip : IpAddr) : bool :=
  match ip with
  | V4 a =>
      let o0 := v4_octet a 0 in
      let o1 := v4_octet a 1 in
      (o0 =? 10) || ((o0 =? 172) && (16 <=? o1) && (o1 <=? 31)) || ((o0 =? 192) && (o1 =? 168)) || (o0 =? 127)
        || ((o0 =? 169) && (o1 =? 254)) || (o0 =? 0)
  | V6 a => v6_is_loopback a || v6_is_unicast_link_local a || (Z.land (v6_segment a 0) 65024 =? 64512)
  end.

(** Metadata of the discovery. *)
Record OidcMetadata := mkMetadata {
  om_issuer : str;
  om_authorization_endpoint : str;
  om_token_endpoint : str;
  om_userinfo_endpoint : option str;
  om_device_authorization_endpoint : option str;
  om_jwks_uri : str;
  om_scopes_supported : list str;
  om_response_types_supported : list str;
  om_grant_types_supported : list str;
}.

Record OAuthProvider := mkOAuthProvider { op_config : ProviderConfig; op_metadata : option OidcMetadata }.
Definition OAuthProvider_new (config : ProviderConfig) : OAuthProvider := mkOAuthProvider config None.

(** [self.config] with the discovered endpoints. *)
Definition with_endpoints (c : ProviderConfig) (m : OidcMetadata) : ProviderConfig :=
  mkProviderConfig (pr_provider_type c) (pr_client_id c) (pr_client_secret c) (pr_issuer_url c)
    (Some (om_authorization_endpoint m)) (Some (om_token_endpoint m)) (om_userinfo_endpoint m)
    (om_device_authorization_endpoint m) (Some (om_jwks_uri m)) (pr_scopes c) (pr_allowed_domains c)
    (pr_required_groups c) (pr_group_claim c) (pr_email_claim c) (pr_name_claim c) (pr_additional_params c).

Definition endpoint (o : option str) (name : string) : res AuthError str :=
  ok_or o (AuthConfigError (lit name ++ lit " not configured")).
Definition OAuthProvider_authorization_endpoint (p : OAuthProvider) : res AuthError str :=
  endpoint (pr_authorization_endpoint (op_config p)) "authorization_endpoint".
Definition OAuthProvider_token_endpoint (p : OAuthProvider) : res AuthError str :=
  endpoint (pr_token_endpoint (op_config p)) "token_endpoint".
Definition OAuthProvider_device_authorization_endpoint (p : OAuthProvider) : res AuthError str :=
  endpoint (pr_device_authorization_endpoint (op_config p)) "device_authorization_endpoint".

Definition OAuthProvider_is_in_required_group (p : OAuthProvider) (groups : list str) : bool :=
  match pr_required_groups (op_config p) with
  | [] => true
  | gs => existsb (fun g => bool_decide (g ∈ groups)) gs
  end.

Section Provider.
Context {UP : UrlParser} {EP : EmailParser} {UC : Unicode} (json_metadata : bytes -> OidcMetadata + str).

Definition validate_url_for_ssrf (url_str : str) : res AuthError unit :=
  match url_parse url_str with
  | inr e => Err (AuthConfigError (lit "Invalid URL: " ++ e))
  | inl (scheme, host) =>
      if negb (bool_decide (scheme = lit "https"))
      then Err (AuthConfigError (lit "Only HTTPS URLs are allowed for security"))
      else
        match host with
        | None => Ok tt
        | Some (Domain domain) =>
            if bool_decide (domain = lit "localhost") || ends_with (lit ".localhost") domain
            then Err (AuthConfigError (lit "localhost URLs are not allowed"))
            else if ends_with (lit ".local") domain
            then Err (AuthConfigError (lit ".local domains are not allowed"))
            else Ok tt
        | Some (Ipv4Host ip) =>
            if is_private_ip (V4 ip) then Err (AuthConfigError (lit "Private IP addresses are not allowed")) else Ok tt
        | Some (Ipv6Host ip) =>
            if is_private_ip (V6 ip) then Err (AuthConfigError (lit "Private IP addresses are not allowed")) else Ok tt
        end
  end.

(** The requests, the answers and the checks of [discover]. *)
Definition discovered (http : HttpClient) (p : OAuthProvider) : res AuthError OidcMetadata :=
  let discovery_url := pr_issuer_url (op_config p) ++ lit "/.well-known/openid-configuration" in
  _ ← validate_url_for_ssrf discovery_url;
  response ← or_fail (fun _ => DiscoveryFailed (lit "Failed to connect to provider")) (hc_get http discovery_url);
  if negb (is_success response) then Err (DiscoveryFailed (lit "Provider discovery failed")) else
  metadata ← or_fail (fun _ => DiscoveryFailed (lit "Invalid provider response")) (response_json json_metadata response);
  _ ← validate_url_for_ssrf (om_authorization_endpoint metadata);
  _ ← validate_url_for_ssrf (om_token_endpoint metadata);
  _ ← validate_url_for_ssrf (om_jwks_uri metadata);
  _ ← match om_userinfo_endpoint metadata with Some uri => validate_url_for_ssrf uri | None => Ok tt end;
  Ok metadata.

Definition OAuthProvider_discover (http : HttpClient) : M OAuthProvider AuthError unit :=
  p ← get;
  metadata ← lift (discovered http p);
  modify (fun p => mkOAuthProvider (with_endpoints (op_config p) metadata) (Some metadata)).

Definition OAuthProvider_is_domain_allowed (p : OAuthProvider) (email : str) : bool :=
  match pr_allowed_domains (op_config p) with
  | [] => true
  | ds =>
      if negb (email_valid email) then false else
      match rsplit_once 64 email with
      | None => false
      | Some (_, domain) => existsb (fun d => bool_decide (to_lowercase d = to_lowercase domain)) ds
      end
  end.
End Provider.

(** ** token.rs *)

(** Durations of the crate chrono: from [std::time::Duration] in nanoseconds
    and from seconds, when in range; seconds since 1970. *)
Class ChronoDelta {Ch : Chrono} := {
  delta_from_std : Z -> option TimeDelta;
  delta_seconds : Z -> option TimeDelta;
  dt_timestamp : DateTime -> Z;
}.

Inductive StringOrArray := AudString (s : str) | AudArray (l : list str).
Definition StringOrArray_contains (a : StringOrArray) (value : str) : bool :=
  match a with
  | AudString s => bool_decide (s = value)
  | AudArray arr => existsb (fun s => bool_decide (s = value)) arr
  end.

(** The claims that are not named are left out; nothing reads them. *)
Record IdTokenClaims := mkClaims {
  ic_iss : str;
  ic_sub : str;
  ic_aud : StringOrArray;
  ic_exp : Z;
  ic_iat : Z;
  ic_nonce : option str;
  ic_email : option str;
  ic_email_verified : option bool;
  ic_name : option str;
  ic_given_name : option str;
  ic_family_name : option str;
  ic_picture : option str;
  ic_groups : list str;
}.

Record UserInfo := mkUserInfo {
  ui_sub : str;
  ui_email : option str;
  ui_email_verified : bool;
  ui_name : option str;
  ui_given_name : option str;
  ui_family_name : option str;
  ui_picture : option str;
  ui_groups : list str;
  ui_provider : str;
}.
Definition UserInfo_from_claims (claims : IdTokenClaims) (provider : str) : UserInfo :=
  mkUserInfo (ic_sub claims) (ic_email claims) (default false (ic_email_verified claims)) (ic_name claims)
    (ic_given_name claims) (ic_family_name claims) (ic_picture claims) (ic_groups claims) provider.
(** [e.split('@').nth(1)]. *)
Definition UserInfo_email_domain (u : UserInfo) : option str := e ← ui_email u; split_on 64 e !! 1%nat.

Record Jwk := mkJwk {
  jk_kid : option str; jk_kty : str; jk_alg : option str; jk_n : option str; jk_e : option str; jk_use : option str;
}.
Abbreviation JwkSet := (list Jwk).

Record JwksCacheEntry := mkJwksEntry { je_jwks : JwkSet; je_expires_at : Z }.
Record JwksCache := mkJwksCache { jc_entries : gmap str JwksCacheEntry; jc_ttl : Z }.
Definition JwksCache_new (ttl : Z) : JwksCache := mkJwksCache ∅ ttl.
Definition JwksCache_get (now : Z) (jwks_uri : str) (c : JwksCache) : option JwkSet :=
  entry ← jc_entries c !! jwks_uri; if now <? je_expires_at entry then Some (je_jwks entry) else None.
Definition JwksCache_insert (now : Z) (jwks_uri : str) (jwks : JwkSet) (c : JwksCache) : JwksCache :=
  mkJwksCache (<[jwks_uri := mkJwksEntry jwks (now + jc_ttl c)]> (jc_entries c)) (jc_ttl c).
Definition JwksCache_clear_expired (now : Z) (c : JwksCache) : JwksCache :=
  mkJwksCache (filter (fun e => now < je_expires_at e.2) (jc_entries c)) (jc_ttl c).

(** The validator; its cache is shared behind a lock. *)
Record TokenValidator := mkValidator {
  tv_issuer : str;
  tv_audience : str;
  tv_clock_skew : Z;
  tv_jwks_uri : option str;
  tv_jwks_cache : JwksCache;
}.
Definition nanos (secs : Z) : Z := secs * 1000000000.
Definition TokenValidator_new (issuer audience : str) : TokenValidator :=
  mkValidator issuer audience 60 None (JwksCache_new (nanos 3600)).
Definition TokenValidator_with_jwks_uri (issuer audience jwks_uri : str) : TokenValidator :=
  mkValidator issuer audience 60 (Some jwks_uri) (JwksCache_new (nanos 3600)).
Definition TokenValidator_with_clock_skew (seconds : Z) (v : TokenValidator) : TokenValidator :=
  mkValidator (tv_issuer v) (tv_audience v) seconds (tv_jwks_uri v) (tv_jwks_cache v).
Definition tv_set_cache (c : JwksCache) (v : TokenValidator) : TokenValidator :=
  mkValidator (tv_issuer v) (tv_audience v) (tv_clock_skew v) (tv_jwks_uri v) c.

Definition i64_sum (a b : Z) : Z := as_i64 (wrap 64 (a + b)).

Definition TokenValidator_validate_claims (now : Z) (v : TokenValidator) (claims : IdTokenClaims)
    (expected_nonce : option str) : res AuthError unit :=
  if negb (bool_decide (ic_iss claims = tv_issuer v)) then
    Err (TokenValidationFailed (lit "invalid issuer: expected " ++ tv_issuer v ++ lit ", got " ++ ic_iss claims))
  else if negb (StringOrArray_contains (ic_aud claims) (tv_audience v)) then
    Err (TokenValidationFailed (lit "token audience mismatch"))
  else if ic_exp claims <? i64_sum now (- tv_clock_skew v) then Err TokenExpired
  else if i64_sum now (tv_clock_skew v) <? ic_iat claims then
    Err (TokenValidationFailed (lit "token issued in the future"))
  else
    match expected_nonce with
    | Some expected =>
        if negb (bool_decide (ic_nonce claims = Some expected)) then Err InvalidNonce else Ok tt
    | None => Ok tt
    end.

(** The crates jsonwebtoken, base64 (URL-safe without padding, and standard)
    and serde_json, as far as tokens go.  [jwt_decode] checks the signature
    with the key, the issuer, the audience and the times with a leeway. *)
Class Jwt := {
  JwtAlgorithm : Type;
  DecodingKey : Type;
  jwt_decode_header : str -> (JwtAlgorithm * option str) + str;
  from_rsa_components : str -> str -> DecodingKey + str;
  jwt_decode : str -> DecodingKey -> JwtAlgorithm -> str -> str -> Z -> unit + str;
  json_claims : bytes -> IdTokenClaims + str;
  json_jwks : bytes -> JwkSet + str;
}.
Class Base64 := {
  b64url_encode : bytes -> str;
  b64url_decode : str -> bytes + str;
  b64_encode : bytes -> str;
  b64_decode : str -> bytes + str;
}.

Section Tokens.
Context {JW : Jwt} {B64 : Base64} (status_fmt : Z -> str).

Definition Jwk_to_decoding_key (k : Jwk) : DecodingKey + str :=
  if decide (jk_kty k = lit "RSA") then
    match jk_n k, jk_e k with
    | None, _ => inr (lit "Missing 'n' in RSA key")
    | Some _, None => inr (lit "Missing 'e' in RSA key")
    | Some n, Some e =>
        match from_rsa_components n e with
        | inl key => inl key
        | inr e => inr (lit "Failed to create RSA key: " ++ e)
        end
    end
  else inr (lit "Unsupported key type: " ++ jk_kty k).

(** The clock is read when the cache is read, when it is written and when it
    is cleared. *)
Definition TokenValidator_fetch_jwks (read_at insert_at clear_at : Z) (http : HttpClient) (jwks_uri : str) :
    M TokenValidator AuthError JwkSet := fun v =>
  match JwksCache_get read_at jwks_uri (tv_jwks_cache v) with
  | Some jwks => (v, Ok jwks)
  | None =>
      match
        (response ← or_fail (fun e => HttpError (lit "Failed to fetch JWKS: " ++ e)) (hc_get http jwks_uri);
         if negb (is_success response) then
           Err (HttpError (lit "JWKS fetch failed with status: " ++ status_fmt (hr_status response)))
         else or_fail (fun e => HttpError (lit "Failed to parse JWKS: " ++ e)) (response_json json_jwks response))
      with
      | Ok jwks =>
          (tv_set_cache (JwksCache_clear_expired clear_at (JwksCache_insert insert_at jwks_uri jwks (tv_jwks_cache v))) v,
           Ok jwks)
      | Err e => (v, Err e)
      | Panic => (v, Panic)
      end
  end.

Definition find_key (kid : str) (jwks : JwkSet) : option Jwk := List.find (fun k => bool_decide (jk_kid k = Some kid)) jwks.

Definition TokenValidator_verify_signature (read_at insert_at clear_at : Z) (http : HttpClient) (token : str) :
    M TokenValidator AuthError unit :=
  v ← get;
  jwks_uri ← lift (ok_or (tv_jwks_uri v) (TokenValidationFailed (lit "JWKS URI not configured")));
  header ← lift (or_fail (fun e => TokenValidationFailed (lit "Invalid JWT header: " ++ e)) (jwt_decode_header token));
  kid ← lift (ok_or (snd header) (TokenValidationFailed (lit "JWT missing key ID (kid)")));
  jwks ← TokenValidator_fetch_jwks read_at insert_at clear_at http jwks_uri;
  jwk ← lift (ok_or (find_key kid jwks) (TokenValidationFailed (lit "Key " ++ kid ++ lit " not found in JWKS")));
  key ← lift (or_fail TokenValidationFailed (Jwk_to_decoding_key jwk));
  lift (or_fail (fun e => TokenValidationFailed (lit "JWT signature verification failed: " ++ e))
    (jwt_decode token key (fst header) (tv_issuer v) (tv_audience v) (wrap 64 (tv_clock_skew v)))).

Definition TokenValidator_decode_jwt_claims (token : str) : res AuthError IdTokenClaims :=
  match split_on 46 token with
  | [_; payload; _] =>
      payload ← or_fail (fun e => TokenValidationFailed (lit "base64 decode error: " ++ e)) (b64url_decode payload);
      or_fail SerializationError (json_claims payload)
  | _ => Err (TokenValidationFailed (lit "invalid JWT format"))
  end.

Definition TokenValidator_decode_and_verify_jwt (read_at insert_at clear_at : Z) (http : HttpClient) (token : str) :
    M TokenValidator AuthError IdTokenClaims :=
  v ← get;
  _ ← (if is_some (tv_jwks_uri v) then TokenValidator_verify_signature read_at insert_at clear_at http token
       else mret tt);
  lift (TokenValidator_decode_jwt_claims token).
End Tokens.

Section TokenSets.
Context {Ch : Chrono} {CD : ChronoDelta}.

Record TokenSet := mkTokenSet {
  tk_access_token : str;
  tk_refresh_token : option str;
  tk_id_token : option str;
  tk_expires_at : DateTime;
  tk_token_type : str;
  tk_scopes : list str;
}.
Definition TokenSet_is_expired (now : DateTime) (t : TokenSet) : bool := dt_gt now (tk_expires_at t).
(** The sum of the clock and the duration panics out of range. *)
Definition TokenSet_expires_within (now : DateTime) (duration : TimeDelta) (t : TokenSet) : res AuthError bool :=
  match dt_add now duration with Some later => Ok (dt_gt later (tk_expires_at t)) | None => Panic end.
Definition TokenSet_remaining_lifetime (now : DateTime) (t : TokenSet) : TimeDelta := dt_sub (tk_expires_at t) now.

(** ** flow.rs *)
Record TokenResponse := mkTokenResponse {
  tr_access_token : str;
  tr_refresh_token : option str;
  tr_id_token : option str;
  tr_expires_in : option Z;
  tr_token_type : str;
  tr_scope : option str;
}.
Record DeviceAuthResponse := mkDeviceResponse {
  dr_device_code : str;
  dr_user_code : str;
  dr_verification_uri : str;
  dr_verification_uri_complete : option str;
  dr_expires_in : Z;
  dr_interval : Z;
}.
Definition default_interval : Z := 5.
Record ErrorResponse := mkErrorResponse { er_error : str; er_error_description : option str }.

(** What the three token requests make of the response; [Duration::seconds]
    and the sum panic out of range. *)
Definition token_set (now : DateTime) (t : TokenResponse) : res AuthError TokenSet :=
  match delta_seconds (as_i64 (default 3600 (tr_expires_in t))) with
  | None => Panic
  | Some lifetime =>
      match dt_add now lifetime with
      | None => Panic
      | Some expires_at =>
          Ok (mkTokenSet (tr_access_token t) (tr_refresh_token t) (tr_id_token t) expires_at (tr_token_type t)
                (from_option (split_on 32) [] (tr_scope t)))
      end
  end.

Record AuthState := mkAuthState {
  as_state : str;
  as_nonce : str;
  as_code_verifier : str;
  as_created_at : DateTime;
  as_expires_at : DateTime;
  as_metadata : gmap str str;
}.

(** [now + Duration::from_std(lifetime).unwrap_or_else(..)]; a lifetime out of
    range is replaced by [fallback] seconds. *)
Definition expiry (now : DateTime) (lifetime fallback : Z) : res AuthError DateTime :=
  match (match delta_from_std lifetime with Some d => Some d | None => delta_seconds fallback end) with
  | None => Panic
  | Some d => match dt_add now d with Some t => Ok t | None => Panic end
  end.
End TokenSets.

(** The crate urlencoding. *)
Class UrlEncoding := { url_encode : str -> str }.
Class FlowJson := {
  json_token : bytes -> TokenResponse + str;
  json_device : bytes -> DeviceAuthResponse + str;
  json_error : bytes -> ErrorResponse + str;
}.

Section Flows.
Context {Ch : Chrono} {CD : ChronoDelta} {SHA : Sha256} {B64 : Base64} {UE : UrlEncoding} {FJ : FlowJson}.

Definition AuthState_generate_code_verifier (random : bytes) : str := b64url_encode random.

(** [state] and [nonce] are the texts of two random UUIDs. *)
Definition AuthState_new (now : DateTime) (state nonce : str) (random : bytes) (lifetime : Z) : res AuthError AuthState :=
  expires_at ← expiry now lifetime 600;
  Ok (mkAuthState state nonce (AuthState_generate_code_verifier random) now expires_at ∅).
Definition AuthState_is_expired (now : DateTime) (s : AuthState) : bool := dt_gt now (as_expires_at s).
Definition AuthState_code_challenge (s : AuthState) : str := b64url_encode (sha256 (as_code_verifier s)).

Record AuthFlow := mkAuthFlow { af_provider : OAuthProvider; af_redirect_uri : str; af_rate_limiter : RateLimiter }.
Definition AuthFlow_new (provider : OAuthProvider) (redirect_uri : str) : AuthFlow :=
  mkAuthFlow provider redirect_uri (RateLimiter_new 5 (nanos 300)).
Definition AuthFlow_with_rate_limiter (provider : OAuthProvider) (redirect_uri : str) (limiter : RateLimiter) : AuthFlow :=
  mkAuthFlow provider redirect_uri limiter.

Definition query_pair (p : str * str) : str := fst p ++ [61] ++ url_encode (snd p).

Definition url_params (f : AuthFlow) (state : AuthState) : list (str * str) :=
  let config := op_config (af_provider f) in
  [(lit "client_id", pr_client_id config); (lit "response_type", lit "code");
   (lit "redirect_uri", af_redirect_uri f); (lit "state", as_state state); (lit "nonce", as_nonce state);
   (lit "code_challenge", AuthState_code_challenge state); (lit "code_challenge_method", lit "S256");
   (lit "scope", join [32] (pr_scopes config))].

Definition AuthFlow_authorization_url (f : AuthFlow) (state : AuthState) : res AuthError str :=
  endpoint ← OAuthProvider_authorization_endpoint (af_provider f);
  Ok (endpoint ++ [63] ++ join [38] (map query_pair (url_params f state))
        ++ concat (map (fun p => [38] ++ query_pair p) (pr_additional_params (op_config (af_provider f))))).

(** A POST to the token endpoint: [unreachable] and [refused] are the errors
    when the request or its status fails. *)
Definition token_request (now : DateTime) (http : HttpClient) (endpoint : str) (params : list (str * str))
    (unreachable : str -> AuthError) (refused : HttpResponse -> AuthError) : res AuthError TokenSet :=
  response ← or_fail unreachable (hc_post http endpoint params);
  if negb (is_success response) then Err (refused response) else
  token_response ← or_fail HttpError (response_json json_token response);
  token_set now token_response.

Definition AuthFlow_exchange_code (now : DateTime) (http : HttpClient) (f : AuthFlow) (code : str) (state : AuthState) :
    res AuthError TokenSet :=
  let config := op_config (af_provider f) in
  endpoint ← OAuthProvider_token_endpoint (af_provider f);
  token_request now http endpoint
    [(lit "grant_type", lit "authorization_code"); (lit "client_id", pr_client_id config);
     (lit "client_secret", pr_client_secret config); (lit "code", code);
     (lit "redirect_uri", af_redirect_uri f); (lit "code_verifier", as_code_verifier state)]
    (fun _ => OAuth2Error (lit "Authentication failed")) (fun _ => OAuth2Error (lit "Authentication failed")).

Definition AuthFlow_refresh_token (now : DateTime) (http : HttpClient) (f : AuthFlow) (refresh_token : str) :
    res AuthError TokenSet :=
  let config := op_config (af_provider f) in
  endpoint ← OAuthProvider_token_endpoint (af_provider f);
  token_request now http endpoint
    [(lit "grant_type", lit "refresh_token"); (lit "client_id", pr_client_id config);
     (lit "client_secret", pr_client_secret config); (lit "refresh_token", refresh_token)]
    (fun _ => TokenRefreshFailed (lit "Token refresh failed"))
    (fun _ => TokenRefreshFailed (lit "Token refresh failed")).

(** *** Devices; the limiter is shared by both requests *)
Record DeviceAuthFlow := mkDeviceFlow { df_provider : OAuthProvider; df_rate_limiter : RateLimiter }.
Definition DeviceAuthFlow_new (provider : OAuthProvider) : DeviceAuthFlow :=
  mkDeviceFlow provider (RateLimiter_new 10 (nanos 600)).

(** The check that both requests start with. *)
Definition limited {A} (at_ : Z) (key : str) (refusal : str) (m : DeviceAuthFlow -> res AuthError A) :
    M DeviceAuthFlow AuthError A := fun f =>
  let '(limiter, allowed) := RateLimiter_check at_ key (df_rate_limiter f) in
  let f := mkDeviceFlow (df_provider f) limiter in
  (f, if allowed then m f else Err (OAuth2Error refusal)).

Definition DeviceAuthFlow_start (at_ : Z) (http : HttpClient) (client_ip : option str) :
    M DeviceAuthFlow AuthError DeviceAuthResponse :=
  limited at_ (default (lit "unknown") client_ip) (lit "Too many device authorization attempts") (fun f =>
    let config := op_config (df_provider f) in
    endpoint ← OAuthProvider_device_authorization_endpoint (df_provider f);
    response ← or_fail HttpError (hc_post http endpoint
      [(lit "client_id", pr_client_id config); (lit "scope", join [32] (pr_scopes config))]);
    if negb (is_success response) then Err (OAuth2Error (lit "Device authorization failed"))
    else or_fail HttpError (response_json json_device response)).

(** The error of a refused poll. *)
Definition poll_refused (response : HttpResponse) : AuthError :=
  match response_json json_error response with
  | inr _ => OAuth2Error (lit "Device authorization failed")
  | inl e =>
      if decide (er_error e = lit "authorization_pending") then AuthorizationPending
      else if decide (er_error e = lit "slow_down") then AuthorizationPending
      else if decide (er_error e = lit "expired_token") then DeviceAuthExpired
      else OAuth2Error (lit "Device authorization failed")
  end.

Definition DeviceAuthFlow_poll (at_ : Z) (now : DateTime) (http : HttpClient) (device_code : str) (client_ip : option str) :
    M DeviceAuthFlow AuthError TokenSet :=
  limited at_ (default device_code client_ip) (lit "Too many polling attempts") (fun f =>
    let config := op_config (df_provider f) in
    endpoint ← OAuthProvider_token_endpoint (df_provider f);
    token_request now http endpoint
      [(lit "grant_type", lit "urn:ietf:params:oauth:grant-type:device_code"); (lit "client_id", pr_client_id config);
       (lit "client_secret", pr_client_secret config); (lit "device_code", device_code)]
      HttpError poll_refused).

Definition generate_vpn_auth_challenge (r : DeviceAuthResponse) : str :=
  lit "CRV1:R,E:" ++ b64_encode (dr_device_code r) ++ lit ":Please visit " ++ dr_verification_uri r
    ++ lit " and enter code: " ++ dr_user_code r.
End Flows.
