(* ===== verification/OAuthProofs.v ===== *)
(** * What the OAuth client guarantees

    Theorems about OAuth.v: the endpoints that a discovery installs, the
    tokens that are accepted, the authorization URL, and the polling of the
    device flow. *)
From S2P Require Import Prelude Text Network CoreSession Addr ConnLog RateLimit OAuth.
Local Open Scope Z_scope.

(** ** Internal addresses *)

(** The private, loopback and link-local blocks as intervals. *)
Definition in_block (prefix len width a : Z) : Prop := prefix <= a < prefix + 2 ^ (width - len).
Definition v4_block (o0 o1 len a : Z) : Prop := in_block (o0 * 2 ^ 24 + o1 * 2 ^ 16) len 32 a.
Definition private_v4 (a : Z) : Prop :=
  v4_block 10 0 8 a \/ v4_block 172 16 12 a \/ v4_block 192 168 16 a \/ v4_block 127 0 8 a \/
  v4_block 169 254 16 a \/ v4_block 0 0 8 a.
Definition private_v6 (a : Z) : Prop :=
  a = 1 \/ in_block (65152 * 2 ^ 112) 10 128 a \/ in_block (64512 * 2 ^ 112) 7 128 a.

Lemma v4_octets a : u32 a -> v4_octet a 0 = a / 2 ^ 24 /\ v4_octet a 1 = a / 2 ^ 16 mod 256.
Proof.
  unfold uint. intros Ha. unfold v4_octet. cbn [to_be lookup list_lookup default].
  rewrite !land_255, !Z.shiftr_div_pow2 by lia. cbn. split; [|done]. apply Z.mod_small.
  split; [apply Z.div_pos; lia|]. apply Z.div_lt_upper_bound; lia.
Qed.

Lemma private_v4_spec a : u32 a -> is_private_ip (V4 a) = true <-> private_v4 a.
Proof.
  intros Ha. destruct (v4_octets a Ha) as [E0 E1]. cbn [is_private_ip]. rewrite E0, E1. unfold uint in Ha.
  unfold private_v4, v4_block, in_block. rewrite !orb_true_iff, !andb_true_iff, !Z.eqb_eq, !Z.leb_le.
  pose proof (Z.div_mod a (2 ^ 24) ltac:(lia)). pose proof (Z.mod_pos_bound a (2 ^ 24) ltac:(lia)).
  pose proof (Z.div_mod a (2 ^ 16) ltac:(lia)). pose proof (Z.mod_pos_bound a (2 ^ 16) ltac:(lia)).
  pose proof (Z.div_mod (a / 2 ^ 16) 256 ltac:(lia)). pose proof (Z.mod_pos_bound (a / 2 ^ 16) 256 ltac:(lia)).
  assert (a / 2 ^ 16 / 256 = a / 2 ^ 24) by (rewrite Z.div_div by lia; done).
  lia.
Qed.

Lemma land_high k n x : 0 <= k <= n -> uint n x -> Z.land x (2 ^ n - 2 ^ k) = x / 2 ^ k * 2 ^ k.
Proof.
  intros Hk Hx. rewrite <- Z.shiftl_mul_pow2, <- Z.shiftr_div_pow2 by lia. apply Z.bits_inj'. intros i Hi.
  replace (2 ^ n - 2 ^ k) with (Z.shiftl (Z.ones (n - k)) k).
  2:{ rewrite Z.shiftl_mul_pow2, Z.ones_equiv by lia. rewrite Z.mul_pred_l, <- Z.pow_add_r by lia.
      replace (n - k + k) with n by lia. lia. }
  rewrite Z.land_spec. destruct (Z.ltb_spec i k).
  - rewrite !Z.shiftl_spec_low by lia. apply andb_false_r.
  - rewrite !Z.shiftl_spec, Z.shiftr_spec by lia. replace (i - k + k) with i by lia.
    destruct (Z.ltb_spec i n).
    + rewrite Z.ones_spec_low by lia. apply andb_true_r.
    + rewrite Z.ones_spec_high, andb_false_r by lia.
      rewrite <- (Z.mod_small x (2 ^ n)) by exact Hx. by rewrite Z.mod_pow2_bits_high by lia.
Qed.

Lemma v6_segment_0 a : uint 128 a -> v6_segment a 0 = a / 2 ^ 112 /\ uint 16 (a / 2 ^ 112).
Proof.
  unfold uint. intros Ha. assert (0 <= a / 2 ^ 112 < 2 ^ 16) as H.
  { split; [apply Z.div_pos; lia|]. apply Z.div_lt_upper_bound; lia. }
  split; [|done]. unfold v6_segment. rewrite Z.shiftr_div_pow2 by lia.
  change 65535 with (Z.ones 16). rewrite Z.land_ones by lia. by apply Z.mod_small.
Qed.

Lemma private_v6_spec a : uint 128 a -> is_private_ip (V6 a) = true <-> private_v6 a.
Proof.
  intros Ha. destruct (v6_segment_0 a Ha) as [E Hs]. cbn [is_private_ip].
  unfold v6_is_loopback, v6_is_unicast_link_local, private_v6, in_block. rewrite E, !orb_true_iff, !Z.eqb_eq.
  change 65472 with (2 ^ 16 - 2 ^ 6). change 65024 with (2 ^ 16 - 2 ^ 9). rewrite !land_high by (lia || done).
  rewrite !Z.div_div by lia. rewrite <- !Z.pow_add_r by lia. 
  change (112 + 6) with 118. change (112 + 9) with 121. change (128 - 10) with 118. change (128 - 7) with 121.
  pose proof (Z.div_mod a (2 ^ 118) ltac:(lia)). pose proof (Z.mod_pos_bound a (2 ^ 118) ltac:(lia)).
  pose proof (Z.div_mod a (2 ^ 121) ltac:(lia)). pose proof (Z.mod_pos_bound a (2 ^ 121) ltac:(lia)).
  lia.
Qed.

Section Discovery.
Context {UP : UrlParser} (json_metadata : bytes -> OidcMetadata + str).

(** The IPv6 address that stands for an IPv4 address, ::ffff:a.b.c.d. *)
Definition mapped (a : Z) : Z := 65535 * 2 ^ 32 + a.

(** A host inside the network of the server: a local name, or an address of
    one of the blocks, also when it is written as an IPv6 address, or ::. *)
Definition internal_host (h : Host) : Prop :=
  match h with
  | Domain d => d = lit "localhost" \/ ends_with (lit ".localhost") d = true \/ ends_with (lit ".local") d = true
  | Ipv4Host a => private_v4 a
  | Ipv6Host a => private_v6 a \/ a = 0 \/ exists b, private_v4 b /\ a = mapped b
  end.
(** The internal addresses that the check does not see: the mapped ones, and
    the unspecified address ::, which connects to the host itself. *)
Definition unseen (h : Host) : Prop :=
  h = Ipv6Host 0 \/ exists b, private_v4 b /\ h = Ipv6Host (mapped b).

(** An https URL with a host that is not internal, but for those. *)
Definition screened (u : str) : Prop :=
  exists h, url_parse u = inl (lit "https", Some h) /\
    (internal_host h -> unseen h).

(** Addresses of parsed URLs have their width, and an https URL has a host. *)
Class UrlLaws : Prop := {
  url_v4 u s a : url_parse u = inl (s, Some (Ipv4Host a)) -> u32 a;
  url_v6 u s a : url_parse u = inl (s, Some (Ipv6Host a)) -> uint 128 a;
  url_host u host : url_parse u = inl (lit "https", host) -> is_Some host;
}.

Lemma mapped_not_private b : private_v4 b -> ~ private_v6 (mapped b).
Proof. unfold private_v4, v4_block, private_v6, in_block, mapped. lia. Qed.

Lemma ssrf_screened {ULaws : UrlLaws} u : validate_url_for_ssrf u = Ok tt <-> screened u.
Proof.
  unfold validate_url_for_ssrf, screened. destruct (url_parse u) as [[scheme host]|e] eqn:Hu.
  2:{ split; [done|]. by intros (h & ? & _). }
  case_bool_decide as Hs; cbn [negb].
  2:{ split; [done|]. intros (h & Hh & _). injection Hh. congruence. }
  subst scheme. destruct (url_host u host Hu) as [h ->].
  trans (internal_host h -> unseen h).
  2:{ split; [by exists h|]. intros (h' & Hh & Hp). by simplify_eq. }
  destruct h as [d|a|a]; unfold unseen; cbn [internal_host].
  - case_bool_decide; cbn [orb]; [naive_solver|]. destruct (ends_with (lit ".localhost") d); [naive_solver|].
    destruct (ends_with (lit ".local") d); naive_solver.
  - rewrite <- private_v4_spec by (by eapply url_v4). destruct (is_private_ip (V4 a)); naive_solver.
  - pose proof (private_v6_spec a ltac:(by eapply url_v6)) as Hp. destruct (is_private_ip (V6 a)) eqn:E.
    + split; [done|]. intros H. destruct H as [[= ->]|(b & Hb & [= ->])]; [left; by apply Hp|by vm_compute in E|].
      by destruct (mapped_not_private b Hb); apply Hp.
    + split; [|done]. intros _ [H%Hp|[->|(b & Hb & ->)]]; [done|by left|right; by exists b].
Qed.

(** Such a URL is accepted. *)
Lemma unseen_is_accepted {ULaws : UrlLaws} u h : unseen h ->
  url_parse u = inl (lit "https", Some h) -> validate_url_for_ssrf u = Ok tt.
Proof. intros Hb Hu. apply ssrf_screened. by exists h. Qed.

(** The endpoints that requests and browsers are sent to. *)
Definition endpoints (c : ProviderConfig) : list str :=
  option_list (pr_authorization_endpoint c) ++ option_list (pr_token_endpoint c)
    ++ option_list (pr_jwks_uri c) ++ option_list (pr_userinfo_endpoint c).

Lemma discovered_screened {ULaws : UrlLaws} http p m : discovered json_metadata http p = Ok m ->
  screened (pr_issuer_url (op_config p) ++ lit "/.well-known/openid-configuration") /\
  Forall screened (endpoints (with_endpoints (op_config p) m)).
Proof.
  unfold discovered. intros E. apply bind_Ok in E as ([] & H0%ssrf_screened & E). split; [exact H0|].
  apply bind_Ok in E as (response & _ & E). destruct (negb (is_success response)); [done|].
  apply bind_Ok in E as (metadata & _ & E). apply bind_Ok in E as ([] & H1%ssrf_screened & E).
  apply bind_Ok in E as ([] & H2%ssrf_screened & E). apply bind_Ok in E as ([] & H3%ssrf_screened & E).
  apply bind_Ok in E as ([] & H4 & E). injection E as <-. unfold endpoints, with_endpoints. cbn.
  destruct (om_userinfo_endpoint metadata); [apply ssrf_screened in H4|]; repeat constructor; done.
Qed.

Lemma ssrf_no_panic u : no_panic (validate_url_for_ssrf u).
Proof. unfold validate_url_for_ssrf. by repeat case_match. Qed.

Lemma or_fail_no_panic {E A} (w : str -> E) (r : A + str) : no_panic (or_fail w r).
Proof. by destruct r. Qed.

Lemma discovered_no_panic http p : no_panic (discovered json_metadata http p).
Proof.
  unfold discovered.
  repeat first [apply ssrf_no_panic | apply or_fail_no_panic | apply ok_no_panic | apply err_no_panic
    | apply bind_no_panic; [|intros ? _] | case_match; try done].
Qed.

(** C28 What a discovery can reach inside the network.  One that succeeds has
    asked an https URL, and installs https URLs as the endpoints for the
    browser, for tokens, for keys and for user data, none of which has an
    internal host (localhost, .localhost, .local, an address of a private,
    loopback or link-local block) except as an IPv4-mapped IPv6 address or the
    unspecified address ::, which the check does not see; one that fails
    changes nothing.  The endpoint for devices is installed unchecked and not
    covered. *)
Theorem discovered_endpoints_are_screened {ULaws : UrlLaws} (http : HttpClient) (p p' : OAuthProvider) (r : res AuthError unit)
    (Hr : OAuthProvider_discover json_metadata http p = (p', r)) :
  match r with
  | Ok _ => Forall (fun u => exists h, url_parse u = inl (lit "https", Some h) /\
              (internal_host h -> unseen h))
              ((pr_issuer_url (op_config p) ++ lit "/.well-known/openid-configuration") :: endpoints (op_config p'))
  | Err _ => p' = p
  | Panic => False
  end.
Proof.
  unfold OAuthProvider_discover, mbind, M_bind, get, lift, modify in Hr.
  destruct (discovered json_metadata http p) as [m|e|] eqn:Hd; injection Hr as <- <-.
  - apply (discovered_screened http) in Hd as [H1 H2]. by constructor.
  - done.
  - by apply discovered_no_panic in Hd.
Qed.
End Discovery.

(** ** Tokens *)
Section Validated.
Context {JW : Jwt} {B64 : Base64} (status_fmt : Z -> str).

(** One use of a validator, with its clock readings. *)
Record TokenCheck := mkTokenCheck { tc_read : Z; tc_insert : Z; tc_clear : Z; tc_http : HttpClient; tc_token : str }.
Definition check_token (c : TokenCheck) : M TokenValidator AuthError IdTokenClaims :=
  TokenValidator_decode_and_verify_jwt status_fmt (tc_read c) (tc_insert c) (tc_clear c) (tc_http c) (tc_token c).
Definition validator_after (v : TokenValidator) (cs : list TokenCheck) : TokenValidator :=
  foldl (fun v c => fst (check_token c v)) v cs.

(** During the check the provider answered with these keys. *)
Definition serves (c : TokenCheck) (uri : str) (jwks : JwkSet) : Prop :=
  exists response, hc_get (tc_http c) uri = inl response /\ is_success response = true /\
    response_json json_jwks response = inl jwks.

(** A cached key set was served in an earlier check and kept for the lifetime
    of the cache. *)
Definition cache_from (past : list TokenCheck) (c : JwksCache) : Prop :=
  map_Forall (fun uri e => exists tc, tc ∈ past /\ serves tc uri (je_jwks e) /\ je_expires_at e = tc_insert tc + jc_ttl c)
    (jc_entries c).

Lemma cache_grows past tc c : cache_from past c -> cache_from (past ++ [tc]) c.
Proof. intros H uri e He. destruct (H uri e He) as (x & Hx & Hs). exists x. set_solver. Qed.

Lemma fetch_cases c uri v v' r past : cache_from past (tv_jwks_cache v) ->
  TokenValidator_fetch_jwks status_fmt (tc_read c) (tc_insert c) (tc_clear c) (tc_http c) uri v = (v', r) ->
  cache_from (past ++ [c]) (tv_jwks_cache v') /\
  (tv_issuer v', tv_audience v', tv_clock_skew v', tv_jwks_uri v', jc_ttl (tv_jwks_cache v')) =
  (tv_issuer v, tv_audience v, tv_clock_skew v, tv_jwks_uri v, jc_ttl (tv_jwks_cache v)) /\
  (forall jwks, r = Ok jwks -> serves c uri jwks \/
     exists tc, tc ∈ past /\ serves tc uri jwks /\ tc_read c < tc_insert tc + jc_ttl (tv_jwks_cache v)).
Proof.
  intros Hc Hf. unfold TokenValidator_fetch_jwks, JwksCache_get in Hf.
  destruct (jc_entries (tv_jwks_cache v) !! uri ≫= _) as [jwks|] eqn:Hget.
  - injection Hf as <- <-. split_and!; [by apply cache_grows|done|]. intros ? [= <-]. right.
    destruct (jc_entries (tv_jwks_cache v) !! uri) as [e|] eqn:He; [|done]. cbn in Hget.
    destruct (Z.ltb_spec (tc_read c) (je_expires_at e)); [|done]. injection Hget as <-.
    destruct (Hc uri e He) as (tc & Htc & Hs & Hx). exists tc. split_and!; [done..|lia].
  - destruct (hc_get (tc_http c) uri) as [response|e] eqn:Hh; cbn [or_fail mbind res_bind] in Hf.
    2:{ injection Hf as <- <-. split_and!; [by apply cache_grows|done|done]. }
    destruct (is_success response) eqn:Hs; cbn [negb] in Hf.
    2:{ injection Hf as <- <-. split_and!; [by apply cache_grows|done|done]. }
    destruct (response_json json_jwks response) as [jwks|e] eqn:Hj; cbn [or_fail] in Hf.
    2:{ injection Hf as <- <-. split_and!; [by apply cache_grows|done|done]. }
    injection Hf as <- <-. assert (serves c uri jwks) as Hsv by (by exists response).
    split_and!; [|done|intros ? [= <-]; by left]. cbn.
    intros u x [Hx _]%map_lookup_filter_Some. cbn in Hx. apply lookup_insert_Some in Hx as [[<- <-]|[_ Hx]].
    + exists c. split_and!; [set_solver|done|done].
    + destruct (Hc u x Hx) as (tc & Htc & Hs' & Hx'). exists tc. split_and!; [set_solver|done|done].
Qed.

Lemma signature_cases c v v' r past : cache_from past (tv_jwks_cache v) ->
  TokenValidator_verify_signature status_fmt (tc_read c) (tc_insert c) (tc_clear c) (tc_http c) (tc_token c) v = (v', r) ->
  cache_from (past ++ [c]) (tv_jwks_cache v') /\
  (tv_issuer v', tv_audience v', tv_clock_skew v', tv_jwks_uri v', jc_ttl (tv_jwks_cache v')) =
  (tv_issuer v, tv_audience v, tv_clock_skew v, tv_jwks_uri v, jc_ttl (tv_jwks_cache v)) /\
  (r = Ok tt -> exists uri jwks alg kid jwk key, tv_jwks_uri v = Some uri /\
     (serves c uri jwks \/
      exists tc, tc ∈ past /\ serves tc uri jwks /\ tc_read c < tc_insert tc + jc_ttl (tv_jwks_cache v)) /\
     jwt_decode_header (tc_token c) = inl (alg, Some kid) /\ jwk ∈ jwks /\ jk_kid jwk = Some kid /\
     Jwk_to_decoding_key jwk = inl key /\
     jwt_decode (tc_token c) key alg (tv_issuer v) (tv_audience v) (wrap 64 (tv_clock_skew v)) = inl tt).
Proof.
  intros Hc Hv. unfold TokenValidator_verify_signature, mbind, M_bind, get, lift in Hv.
  assert (cache_from (past ++ [c]) (tv_jwks_cache v)) as Hc' by (by apply cache_grows).
  destruct (tv_jwks_uri v) as [uri|] eqn:Hu; cbn [ok_or] in Hv; [|injection Hv as <- <-; rewrite Hu; by split_and!].
  destruct (jwt_decode_header (tc_token c)) as [[alg kid]|e] eqn:Hh; cbn [or_fail fst snd] in Hv; [|injection Hv as <- <-; rewrite <- Hu; by split_and!].
  destruct kid as [kid|]; cbn [ok_or] in Hv; [|injection Hv as <- <-; rewrite <- Hu; by split_and!].
  destruct (TokenValidator_fetch_jwks _ _ _ _ _ _ _) as [v1 r1] eqn:Hf.
  destruct (fetch_cases _ _ _ _ _ _ Hc Hf) as (H1 & H2 & H3). rewrite <- Hu.
  destruct r1 as [jwks|e|]; [|injection Hv as <- <-; by split_and!..].
  assert (v' = v1) as -> by (by repeat case_match; simplify_eq/=).
  split_and!; [done|done|]. intros ->. exists uri, jwks, alg, kid.
  destruct (find_key kid jwks) as [jwk|] eqn:Hk; cbn [ok_or] in Hv; [|done].
  destruct (Jwk_to_decoding_key jwk) as [key|] eqn:Hkey; cbn [or_fail] in Hv; [|done].
  destruct (jwt_decode _ _ _ _ _ _) as [[]|] eqn:Hd; [|done]. exists jwk, key.
  apply List.find_some in Hk as [Hin Hkid%bool_decide_eq_true]. apply list_elem_of_In in Hin.
  split_and!; auto.
Qed.

(** What does not change in a validator. *)
Definition settings (v : TokenValidator) := (tv_issuer v, tv_audience v, tv_clock_skew v, tv_jwks_uri v, jc_ttl (tv_jwks_cache v)).

Lemma check_keeps c v past : cache_from past (tv_jwks_cache v) ->
  cache_from (past ++ [c]) (tv_jwks_cache (fst (check_token c v))) /\ settings (fst (check_token c v)) = settings v.
Proof.
  intros Hc. unfold check_token, TokenValidator_decode_and_verify_jwt, mbind, M_bind, get, lift.
  destruct (is_some (tv_jwks_uri v)); [|by split; [apply cache_grows|]].
  destruct (TokenValidator_verify_signature _ _ _ _ _ _ _) as [v1 r] eqn:Hv.
  destruct (signature_cases _ _ _ _ _ Hc Hv) as (H1 & H2 & _). destruct r; by split.
Qed.

Lemma after_keeps v cs : cache_from [] (tv_jwks_cache v) ->
  cache_from cs (tv_jwks_cache (validator_after v cs)) /\ settings (validator_after v cs) = settings v.
Proof.
  intros Hc. induction cs as [|c cs [H1 H2]] using rev_ind; [done|]. unfold validator_after in *.
  rewrite foldl_app. cbn [foldl]. destruct (check_keeps c _ _ H1) as [H3 H4]. split; [done|congruence].
Qed.

(** C15 A validator with a key URI accepts only signed tokens: whatever was
    validated before, the claims it returns are those of a token whose
    signature, issuer, audience and times the JWT library accepted with the key
    that the token names, and that key was served at the URI, during this check
    or less than an hour earlier. *)
Theorem verified_tokens_are_signed (issuer audience uri : str) (past : list TokenCheck) (c : TokenCheck)
    (v' : TokenValidator) (claims : IdTokenClaims)
    (Hv : check_token c (validator_after (TokenValidator_with_jwks_uri issuer audience uri) past) = (v', Ok claims)) :
  TokenValidator_decode_jwt_claims (tc_token c) = Ok claims /\
  exists jwks alg kid jwk key,
    (serves c uri jwks \/ exists tc, tc ∈ past /\ serves tc uri jwks /\ tc_read c < tc_insert tc + nanos 3600) /\
    jwt_decode_header (tc_token c) = inl (alg, Some kid) /\ jwk ∈ jwks /\ jk_kid jwk = Some kid /\
    Jwk_to_decoding_key jwk = inl key /\ jwt_decode (tc_token c) key alg issuer audience 60 = inl tt.
Proof.
  destruct (after_keeps (TokenValidator_with_jwks_uri issuer audience uri) past) as [Hc Hs].
  { apply map_Forall_empty. }
  revert Hv Hc Hs. generalize (validator_after (TokenValidator_with_jwks_uri issuer audience uri) past). intros v Hv Hc Hs.
  unfold settings in Hs. cbn in Hs. injection Hs as Es Ea Ek Eu Et.
  unfold check_token, TokenValidator_decode_and_verify_jwt, mbind, M_bind, get, lift in Hv.
  rewrite Eu in Hv. cbn [is_some] in Hv.
  destruct (TokenValidator_verify_signature _ _ _ _ _ _ _) as [v1 [[]|e|]] eqn:Hsig; [|done..].
  injection Hv as _ Hcl. split; [done|].
  destruct (signature_cases _ _ _ _ _ Hc Hsig) as (_ & _ & H).
  destruct (H eq_refl) as (uri' & jwks & alg & kid & jwk & key & Hu & Hk & H1 & H2 & H3 & H4 & H5).
  rewrite Es, Ea, Ek in H5. rewrite Et in Hk. assert (uri' = uri) as -> by congruence.
  exists jwks, alg, kid, jwk, key. by split_and!.
Qed.
End Validated.

(** The sums of the clock and the tolerance do not overflow. *)
Definition skew_ok (now : Z) (v : TokenValidator) : Prop :=
  - 2 ^ 63 <= now - tv_clock_skew v < 2 ^ 63 /\ - 2 ^ 63 <= now + tv_clock_skew v < 2 ^ 63.

Lemma i64_sum_small a b : - 2 ^ 63 <= a + b < 2 ^ 63 -> i64_sum a b = a + b.
Proof.
  intros H. unfold i64_sum, as_i64, wrap. rewrite Zplus_mod_idemp_l, Z.mod_small by lia. lia.
Qed.

(** Which claims are accepted. *)
Lemma validate_claims_iff now v claims nonce : skew_ok now v ->
  TokenValidator_validate_claims now v claims nonce = Ok tt <->
  ic_iss claims = tv_issuer v /\ StringOrArray_contains (ic_aud claims) (tv_audience v) = true /\
  now - tv_clock_skew v <= ic_exp claims /\ ic_iat claims <= now + tv_clock_skew v /\
  from_option (fun n => ic_nonce claims = Some n) True nonce.
Proof.
  intros [H1 H2]. unfold TokenValidator_validate_claims. rewrite !i64_sum_small by lia.
  case_bool_decide; cbn [negb]; [|naive_solver]. destruct (StringOrArray_contains _ _); cbn [negb]; [|naive_solver].
  destruct (Z.ltb_spec (ic_exp claims) (now + - tv_clock_skew v)); [split; [done|lia]|].
  destruct (Z.ltb_spec (now + tv_clock_skew v) (ic_iat claims)); [split; [done|lia]|].
  destruct nonce as [n|]; cbn [from_option]; [case_bool_decide; cbn [negb]|].
  - split; [intros _; split_and!; done || lia|done].
  - split; [done|naive_solver].
  - split; [intros _; split_and!; done || lia|done].
Qed.

(** ** The authorization URL *)

(** [urlencoding::decode] inverts the encoding, which escapes the separators
    of a query. *)
Class UrlEncodingLaws {UE : UrlEncoding} (url_decode : str -> option str) : Prop := {
  url_decode_encode s : url_decode (url_encode s) = Some s;
  url_encode_plain s : 38 ∉ url_encode s /\ 61 ∉ url_encode s;
}.

Section Url.
Context {Ch : Chrono} {SHA : Sha256} {B64 : Base64} {UE : UrlEncoding} (url_decode : str -> option str)
  {UL : UrlEncodingLaws url_decode}.

(** How the provider reads a pair of the query. *)
Definition read_pair (s : str) : option (str * str) :=
  i ← find_str [61] s; v ← url_decode (drop (S i) s); Some (take i s, v).

Definition plain_key (k : str) : Prop := 38 ∉ k /\ 61 ∉ k.

Lemma read_query_pair p : plain_key (fst p) -> read_pair (query_pair p) = Some p.
Proof.
  destruct p as [k v]. intros [_ Hk]. unfold read_pair, query_pair. cbn [fst snd app]. rewrite find_first by done.
  cbn [mbind option_bind]. replace (drop (S (length k)) (k ++ 61 :: url_encode v)) with (url_encode v).
  - rewrite url_decode_encode. cbn. by rewrite take_app_length.
  - by rewrite (drop_app_ge k) by lia; replace (S (length k) - length k)%nat with 1%nat by lia.
Qed.

Lemma query_pair_no_amp p : plain_key (fst p) -> 38 ∉ query_pair p.
Proof. intros [Hk _]. unfold query_pair. pose proof (proj1 (url_encode_plain (snd p))). set_solver. Qed.

(** The query, as a list of pairs joined by [&]. *)
Lemma split_query ps : ps <> [] -> Forall (fun p => plain_key (fst p)) ps ->
  split_on 38 (join [38] (map query_pair ps)) = map query_pair ps.
Proof.
  intros Hne H. induction H as [|p ps Hp H IH]; [done|]. destruct ps as [|q ps]; cbn [map join].
  - by apply split_on_none, query_pair_no_amp.
  - cbn [app]. rewrite split_on_app by (by apply query_pair_no_amp). f_equal. by apply IH.
Qed.

Lemma join_more ps qs : ps <> [] ->
  join [38] (map query_pair ps) ++ concat (map (fun p => [38] ++ query_pair p) qs)
    = join [38] (map query_pair (ps ++ qs)).
Proof.
  intros Hne. induction ps as [|p ps IH]; [done|]. destruct ps as [|p' ps].
  - clear IH Hne. revert p. induction qs as [|q qs IH]; intros p; cbn [map concat join app]; [apply app_nil_r|].
    f_equal. f_equal. exact (IH q).
  - specialize (IH ltac:(done)). cbn [map join app] in *. rewrite <- IH. rewrite <- !app_assoc. done.
Qed.

Lemma read_query ps : Forall (fun p => plain_key (fst p)) ps -> mapM read_pair (map query_pair ps) = Some ps.
Proof.
  intros H. induction H as [|p ps Hp H IH]; [done|]. cbn [map mapM]. rewrite read_query_pair by done. cbn. by rewrite IH.
Qed.

(** The provider reads back what the authorization URL was built from: after
    the endpoint and a question mark, the query decodes to the client id, the
    redirect URI, the state, the nonce, the PKCE challenge, the scopes and the
    additional parameters of the configuration, in this order. *)
Theorem authorization_url_reads_back (f : AuthFlow) (state : AuthState) (url : str)
    (Hurl : AuthFlow_authorization_url f state = Ok url)
    (Hkeys : Forall (fun p => plain_key (fst p)) (pr_additional_params (op_config (af_provider f)))) :
  exists endpoint query, pr_authorization_endpoint (op_config (af_provider f)) = Some endpoint /\
    url = endpoint ++ [63] ++ query /\
    mapM read_pair (split_on 38 query) = Some (url_params f state ++ pr_additional_params (op_config (af_provider f))).
Proof.
  unfold AuthFlow_authorization_url, OAuthProvider_authorization_endpoint, endpoint in Hurl.
  destruct (pr_authorization_endpoint _) as [e|]; [|done]. cbn [ok_or mbind res_bind] in Hurl. rewrite join_more in Hurl by done.
  exists e, (join [38] (map query_pair (url_params f state ++ pr_additional_params (op_config (af_provider f))))).
  split_and!; [done|congruence|].
  assert (Forall (fun p => plain_key (fst p)) (url_params f state ++ pr_additional_params (op_config (af_provider f)))) as H.
  { apply Forall_app. split; [|done]. unfold url_params.
    repeat constructor; cbn [fst]; apply (bool_decide_unpack _); vm_compute; exact I. }
  rewrite split_query by done. by apply read_query.
Qed.
End Url.

(** ** Polling *)
Lemma limiter_counts max window key t0 ts : Forall (fun t => t0 <= t < t0 + window) ts ->
  Z.of_nat (length ts) + 1 < 2 ^ 32 -> 0 < window ->
  rl_entries (limiter_run (CallCheck t0 key :: map (fun t => CallCheck t key) ts) (RateLimiter_new max window)).1 !! key
    = Some (mkLimit (Z.of_nat (length ts) + 1) (t0 + window)) /\
  rl_max_attempts (limiter_run (CallCheck t0 key :: map (fun t => CallCheck t key) ts) (RateLimiter_new max window)).1 = max.
Proof.
  intros H Hlen Hw. induction ts as [|t ts IH] using rev_ind.
  - cbn [map length limiter_run limiter_call]. rewrite check_counted. cbn. rewrite lookup_insert_eq, lookup_empty. done.
  - apply Forall_app in H as [Hts Ht]. inv Ht. rewrite length_app in Hlen. cbn [length] in Hlen.
    destruct IH as [IH1 IH2]; [done|lia|]. rewrite map_app. cbn [map].
    rewrite app_comm_cons, limiter_run_app.
    destruct (limiter_run (CallCheck t0 key :: map (fun t => CallCheck t key) ts) (RateLimiter_new max window)) as [l v].
    cbn [fst] in *. cbn [limiter_run limiter_call]. rewrite check_counted, IH1, IH2. cbn [fst rl_entries rl_max_attempts].
    rewrite lookup_insert_eq. split; [|done]. unfold counted, live. cbn [mbind option_bind le_reset_at].
    rewrite (proj2 (Z.ltb_lt _ _)) by lia. cbn [le_count le_reset_at]. rewrite wrap_small by (unfold uint; lia).
    rewrite length_app. cbn [length]. do 2 f_equal. lia.
Qed.

Section Polling.
Context {Ch : Chrono} {CD : ChronoDelta} {FJ : FlowJson} (device_code : str) (client_ip : option str).

(** A poll, with its times and the answer of the provider. *)
Record Poll := mkPoll { pl_at : Z; pl_now : DateTime; pl_http : HttpClient }.
Definition poll (p : Poll) : M DeviceAuthFlow AuthError TokenSet :=
  DeviceAuthFlow_poll (pl_at p) (pl_now p) (pl_http p) device_code client_ip.

Lemma polls_limiter ps f :
  df_rate_limiter (foldl (fun f p => fst (poll p f)) f ps) =
  (limiter_run (map (fun p => CallCheck (pl_at p) (default device_code client_ip)) ps) (df_rate_limiter f)).1.
Proof.
  revert f. induction ps as [|p ps IH]; intros f; [done|]. cbn [foldl map limiter_run limiter_call]. rewrite IH.
  unfold poll, DeviceAuthFlow_poll, limited. destruct (RateLimiter_check _ _ _) as [l ok]. cbn [fst df_rate_limiter].
  by destruct (limiter_run _ l).
Qed.

(** Polling for a device runs dry: after ten polls, every further poll of
    that client within ten minutes of the first is refused before the provider
    is asked.  At the default interval of five seconds the eleventh poll comes
    after fifty seconds. *)
Theorem device_polling_runs_dry (provider : OAuthProvider) (first : Poll) (more : list Poll) (p : Poll)
    (Hten : (9 <= length more)%nat) (Hfew : Z.of_nat (length more) + 2 < 2 ^ 32)
    (Hin : Forall (fun q => pl_at first <= pl_at q < pl_at first + nanos 600) (more ++ [p])) :
  snd (poll p (foldl (fun f q => fst (poll q f)) (DeviceAuthFlow_new provider) (first :: more)))
    = Err (OAuth2Error (lit "Too many polling attempts")).
Proof.
  apply Forall_app in Hin as [Hm Hp]. inv Hp. set (key := default device_code client_ip).
  destruct (limiter_counts 10 (nanos 600) key (pl_at first) (map pl_at more)) as [E1 E2].
  { by apply Forall_map. } { rewrite length_map. lia. } { unfold nanos. lia. }
  rewrite map_map, length_map in *.
  pose proof (polls_limiter (first :: more) (DeviceAuthFlow_new provider)) as El. cbn [map] in El. fold key in El.
  unfold poll at 1, DeviceAuthFlow_poll, limited. fold key. rewrite El. cbn [df_rate_limiter DeviceAuthFlow_new].
  rewrite check_counted. cbn [snd]. rewrite E1, E2. unfold counted, live. cbn [mbind option_bind le_reset_at].
  rewrite (proj2 (Z.ltb_lt _ _)) by lia. cbn [le_count]. rewrite wrap_small by (unfold uint; lia).
  by rewrite (proj2 (Z.leb_gt _ _)) by lia.
Qed.
End Polling.

(** ** The claims at concrete inputs *)
Section OAuthWitnesses.

(** A URL parser that reads a scheme and a domain. *)
Definition toy_url : UrlParser := {|
  url_parse u := if starts_with (lit "https://") u
                 then inl (lit "https", Some (Domain (match split_on 47 (drop 8 u) with d :: _ => d | [] => [] end)))
                 else inr (lit "scheme") |}.
#[local] Existing Instance toy_url.
Lemma toy_url_laws : UrlLaws.
Proof. split; [intros u s a|intros u s a|intros u host]; cbn; destruct (starts_with _ _); try done. intros [= <-]. by eexists. Qed.

Definition shop_metadata : OidcMetadata :=
  mkMetadata (lit "https://id.example.com") (lit "https://id.example.com/auth") (lit "https://id.example.com/token")
    None None (lit "https://id.example.com/keys") [] [] [].
Definition answering (body : bytes) : HttpClient :=
  mkHttpClient (fun _ => inl (mkHttpResponse 200 (inl body))) (fun _ _ => inl (mkHttpResponse 200 (inl body))).

Lemma discovered_endpoints_are_screened_witness :
  let p := OAuthProvider_new (ProviderConfig_generic (lit "id") (lit "secret") (lit "https://id.example.com")) in
  let r := OAuthProvider_discover (fun _ => inl shop_metadata) (answering []) p in
  snd r = Ok tt /\
  Forall (fun u => exists h, url_parse u = inl (lit "https", Some h) /\
    (internal_host h -> unseen h))
    ((lit "https://id.example.com" ++ lit "/.well-known/openid-configuration") :: endpoints (op_config (fst r))).
Proof.
  intros p r. assert (snd r = Ok tt) as Hr by (vm_compute; reflexivity). split; [exact Hr|].
  pose proof (discovered_endpoints_are_screened (ULaws := toy_url_laws) (fun _ => inl shop_metadata) (answering []) p
    (fst r) (snd r) (surjective_pairing _)) as H.
  rewrite Hr in H. exact H.
Defined.

(** Tokens whose header is their first part and whose signature is the number
    of the key. *)
Definition toy_claims : IdTokenClaims :=
  mkClaims (lit "iss") (lit "sub") (AudString (lit "vpn")) 0 0 None None None None None None None [].
Definition toy_jwt : Jwt := {|
  JwtAlgorithm := unit;
  DecodingKey := str;
  jwt_decode_header t := match split_on 46 t with [k; _; _] => inl (tt, Some k) | _ => inr [] end;
  from_rsa_components n e := inl n;
  jwt_decode t key _ _ _ _ :=
    match split_on 46 t with [_; _; s] => if bool_decide (s = key) then inl tt else inr [] | _ => inr [] end;
  json_claims _ := inl toy_claims;
  json_jwks _ := inl [mkJwk (Some (lit "k1")) (lit "RSA") None (Some (lit "n1")) (Some (lit "AQAB")) None];
|}.
Definition toy_base64 : Base64 := {| b64url_encode s := s; b64url_decode := inl; b64_encode s := s; b64_decode := inl |}.
#[local] Existing Instances toy_jwt toy_base64.

Lemma verified_tokens_are_signed_witness :
  let c := mkTokenCheck 5 6 7 (answering []) (lit "k1.e30.n1") in
  let v := validator_after fmt_dec (TokenValidator_with_jwks_uri (lit "iss") (lit "vpn") (lit "u")) [c] in
  snd (check_token fmt_dec c v) = Ok toy_claims /\
  exists jwks alg kid jwk key,
    (serves c (lit "u") jwks \/ exists tc, tc ∈ [c] /\ serves tc (lit "u") jwks /\ tc_read c < tc_insert tc + nanos 3600) /\
    jwt_decode_header (tc_token c) = inl (alg, Some kid) /\ jwk ∈ jwks /\ jk_kid jwk = Some kid /\
    Jwk_to_decoding_key jwk = inl key /\ jwt_decode (tc_token c) key alg (lit "iss") (lit "vpn") 60 = inl tt.
Proof.
  intros c v. assert (check_token fmt_dec c v = (fst (check_token fmt_dec c v), Ok toy_claims)) as H by (vm_compute; reflexivity).
  split; [vm_compute; reflexivity|].
  exact (proj2 (verified_tokens_are_signed fmt_dec (lit "iss") (lit "vpn") (lit "u") [c] c _ _ H)).
Defined.

(** An encoding that avoids the separators. *)
Definition toy_urlencoding : UrlEncoding := {| url_encode := map (fun b => b * 100 + 1) |}.
#[local] Existing Instance toy_urlencoding.
Definition toy_urldecode (s : str) : option str := Some (map (fun b => b / 100) s).
Lemma toy_urlencoding_laws : UrlEncodingLaws toy_urldecode.
Proof.
  split.
  - intros s. unfold toy_urldecode. cbn. rewrite map_map. f_equal. rewrite <- (map_id s) at 2. apply map_ext. intros b.
    symmetry. apply (Z.div_unique _ _ _ 1); lia.
  - intros s. cbn. split; intros H; apply list_elem_of_In, in_map_iff in H as (b & H & _); lia.
Qed.
#[local] Existing Instances toy_chrono toy_sha.

Definition shop_flow : AuthFlow :=
  AuthFlow_new (OAuthProvider_new (ProviderConfig_google (lit "id") (lit "secret") (Some (lit "example.com"))))
    (lit "https://vpn.example.com/callback").
Definition shop_state : AuthState :=
  mkAuthState (lit "s1") (lit "n1") (lit "v1") (0 : @DateTime toy_chrono) (600 : @DateTime toy_chrono) ∅.

Lemma authorization_url_reads_back_witness :
  exists url endpoint query, AuthFlow_authorization_url shop_flow shop_state = Ok url /\ url = endpoint ++ [63] ++ query /\
    mapM (read_pair toy_urldecode) (split_on 38 query)
      = Some (url_params shop_flow shop_state ++ [(lit "hd", lit "example.com")]).
Proof.
  eexists. destruct (authorization_url_reads_back toy_urldecode (UL := toy_urlencoding_laws) shop_flow shop_state _ eq_refl)
    as (endpoint & query & _ & H1 & H2).
  - repeat constructor; apply (bool_decide_unpack _); vm_compute; exact I.
  - exists endpoint, query. split; [reflexivity|]. split; [exact H1|exact H2].
Defined.

Definition toy_delta : @ChronoDelta toy_chrono := {|
  delta_from_std n := Some (n : @TimeDelta toy_chrono);
  delta_seconds n := Some (n * 1000000000 : @TimeDelta toy_chrono);
  dt_timestamp t := (t : Z) / 1000000000 |}.
Definition toy_flow_json : FlowJson := {|
  json_token _ := inl (mkTokenResponse (lit "t") None None None (lit "Bearer") None);
  json_device _ := inr [];
  json_error _ := inl (mkErrorResponse (lit "authorization_pending") None) |}.

(** Every five seconds. *)
Definition poll_no (k : nat) : @Poll toy_chrono :=
  mkPoll (nanos (5 * Z.of_nat k)) (0 : @DateTime toy_chrono) (answering []).
Lemma device_polling_runs_dry_witness :
  let poll := poll (CD := toy_delta) (FJ := toy_flow_json) (lit "code") (Some (lit "203.0.113.9")) in
  snd (poll (poll_no 10) (foldl (fun f q => fst (poll q f))
        (DeviceAuthFlow_new (OAuthProvider_new (ProviderConfig_google (lit "id") (lit "secret") None)))
        (map poll_no (seq 0 10)))) = Err (OAuth2Error (lit "Too many polling attempts")).
Proof.
  apply (device_polling_runs_dry (CD := toy_delta) (FJ := toy_flow_json) (lit "code") (Some (lit "203.0.113.9"))
    _ (poll_no 0) (map poll_no (seq 1 9)) (poll_no 10)).
  - reflexivity.
  - reflexivity.
  - apply Forall_forall. intros q Hq. apply list_elem_of_In in Hq. cbn in Hq.
    repeat destruct Hq as [<-|Hq]; [vm_compute; split; [discriminate|reflexivity]..|destruct Hq].
Defined.
End OAuthWitnesses.
