(* ===== verification/AuthSession.v ===== *)
(** * Login sessions

    [AuthSession] and [AuthSessionManager] of
    src/crates/corevpn-auth/src/session.rs (its rate limiter is RateLimit.v).
    Session identifiers and OAuth states are the texts of random UUIDs; whether
    a text is a random (version 4) UUID is a parameter of the lookups.  Every
    method holds the locks of the tables it uses, so the calls form a
    sequence. *)
From S2P Require Import Prelude Text CoreSession ConnLog RateLimit OAuth.
Local Open Scope Z_scope.

Section AuthSessions.
Context {Ch : Chrono} {CD : ChronoDelta} {B64 : Base64} (uuid_v4 : str -> bool).

Record AuthSession := mkAuthSession {
  au_id : str;
  au_auth_state : option AuthState;
  au_tokens : option TokenSet;
  au_user_info : option UserInfo;
  au_provider : str;
  au_created_at : DateTime;
  au_expires_at : DateTime;
  au_last_activity : DateTime;
  au_vpn_session_id : option str;
  au_client_ip : option str;
  au_metadata : gmap str str;
}.

(** What a new session draws at random. *)
Record SessionEntropy := mkSessionEntropy { sn_id : str; sn_state : str; sn_nonce : str; sn_verifier : bytes }.

(** The clock is read for the session and for its state. *)
Definition AuthSession_new (now state_now : DateTime) (rnd : SessionEntropy) (provider : str) (lifetime : Z) :
    res AuthError AuthSession :=
  auth_state ← AuthState_new state_now (sn_state rnd) (sn_nonce rnd) (sn_verifier rnd) (nanos 600);
  expires_at ← expiry now lifetime 86400;
  Ok (mkAuthSession (sn_id rnd) (Some auth_state) None None provider now expires_at now None None ∅).

Definition AuthSession_is_expired (now : DateTime) (s : AuthSession) : bool := dt_gt now (au_expires_at s).
Definition AuthSession_is_authenticated (s : AuthSession) : bool := is_some (au_tokens s) && is_some (au_user_info s).
(** [Duration::minutes(5)] and its sum with the clock. *)
Definition AuthSession_needs_token_refresh (now : DateTime) (s : AuthSession) : res AuthError bool :=
  match au_tokens s with
  | Some tokens =>
      match delta_seconds 300 with Some d => TokenSet_expires_within now d tokens | None => Panic end
  | None => Ok false
  end.

Definition AuthSession_update_tokens (now : DateTime) (tokens : TokenSet) (s : AuthSession) : AuthSession :=
  mkAuthSession (au_id s) (au_auth_state s) (Some tokens) (au_user_info s) (au_provider s) (au_created_at s)
    (au_expires_at s) now (au_vpn_session_id s) (au_client_ip s) (au_metadata s).
Definition AuthSession_update_user_info (now : DateTime) (user_info : UserInfo) (s : AuthSession) : AuthSession :=
  mkAuthSession (au_id s) (au_auth_state s) (au_tokens s) (Some user_info) (au_provider s) (au_created_at s)
    (au_expires_at s) now (au_vpn_session_id s) (au_client_ip s) (au_metadata s).
Definition AuthSession_complete_auth (now : DateTime) (tokens : TokenSet) (user_info : UserInfo) (s : AuthSession) :
    AuthSession :=
  mkAuthSession (au_id s) None (Some tokens) (Some user_info) (au_provider s) (au_created_at s)
    (au_expires_at s) now (au_vpn_session_id s) (au_client_ip s) (au_metadata s).
Definition AuthSession_associate_vpn_session (now : DateTime) (vpn_session_id : str) (s : AuthSession) : AuthSession :=
  mkAuthSession (au_id s) (au_auth_state s) (au_tokens s) (au_user_info s) (au_provider s) (au_created_at s)
    (au_expires_at s) now (Some vpn_session_id) (au_client_ip s) (au_metadata s).
(** [from_std(duration).unwrap()] panics out of range. *)
Definition AuthSession_extend (now : DateTime) (duration : Z) : M AuthSession AuthError unit := fun s =>
  match delta_from_std duration ≫= dt_add now with
  | Some expires_at =>
      (mkAuthSession (au_id s) (au_auth_state s) (au_tokens s) (au_user_info s) (au_provider s) (au_created_at s)
         expires_at (au_last_activity s) (au_vpn_session_id s) (au_client_ip s) (au_metadata s), Ok tt)
  | None => (s, Panic)
  end.
Definition AuthSession_touch (now : DateTime) (s : AuthSession) : AuthSession :=
  mkAuthSession (au_id s) (au_auth_state s) (au_tokens s) (au_user_info s) (au_provider s) (au_created_at s)
    (au_expires_at s) now (au_vpn_session_id s) (au_client_ip s) (au_metadata s).
Definition AuthSession_duration (now : DateTime) (s : AuthSession) : TimeDelta := dt_sub now (au_created_at s).
Definition AuthSession_idle_time (now : DateTime) (s : AuthSession) : TimeDelta := dt_sub now (au_last_activity s).
Definition AuthSession_state (s : AuthSession) : option str := as_state <$> au_auth_state s.
Definition AuthSession_email (s : AuthSession) : option str := u ← au_user_info s; ui_email u.
Definition AuthSession_display_name (s : AuthSession) : option str := u ← au_user_info s; ui_name u.

(** ** The manager *)
Record AuthSessionManager := mkAuthManager {
  am_sessions : gmap str AuthSession;
  am_by_state : gmap str str;
  am_default_lifetime : Z;
  am_max_sessions_per_user : nat;
  am_lookup_rate_limiter : RateLimiter;
}.
Definition AuthSessionManager_new (default_lifetime : Z) (max_sessions_per_user : nat) : AuthSessionManager :=
  mkAuthManager ∅ ∅ default_lifetime max_sessions_per_user (RateLimiter_new 100 (nanos 60)).
Definition AuthSessionManager_default : AuthSessionManager := AuthSessionManager_new (nanos 86400) 5.

Definition am_set (sessions : gmap str AuthSession) (by_state : gmap str str) (m : AuthSessionManager) : AuthSessionManager :=
  mkAuthManager sessions by_state (am_default_lifetime m) (am_max_sessions_per_user m) (am_lookup_rate_limiter m).
Definition am_set_limiter (l : RateLimiter) (m : AuthSessionManager) : AuthSessionManager :=
  mkAuthManager (am_sessions m) (am_by_state m) (am_default_lifetime m) (am_max_sessions_per_user m) l.

Definition AuthSessionManager_create_session (now state_now : DateTime) (rnd : SessionEntropy) (provider : str) :
    M AuthSessionManager AuthError AuthSession := fun m =>
  match AuthSession_new now state_now rnd provider (am_default_lifetime m) with
  | Ok session =>
      let by_state := match AuthSession_state session with
                      | Some state => <[state := au_id session]> (am_by_state m)
                      | None => am_by_state m
                      end in
      (am_set (<[au_id session := session]> (am_sessions m)) by_state m, Ok session)
  | Err e => (m, Err e)
  | Panic => (m, Panic)
  end.

(** The limiter is asked first; [at_] is its clock. *)
Definition am_limited {A} (at_ : Z) (key : str) (refused : A) (found : AuthSessionManager -> AuthSessionManager * A)
    (m : AuthSessionManager) : AuthSessionManager * A :=
  let '(limiter, allowed) := RateLimiter_check at_ key (am_lookup_rate_limiter m) in
  let m := am_set_limiter limiter m in
  if allowed then found m else (m, refused).

Definition AuthSessionManager_get_session (at_ : Z) (id : str) (client_ip : option str) (m : AuthSessionManager) :
    AuthSessionManager * option AuthSession :=
  am_limited at_ (default id client_ip) None
    (fun m => (m, if negb (uuid_v4 id) then None else am_sessions m !! id)) m.

(** Both checks of the limiter have their own clock reading. *)
Definition AuthSessionManager_get_session_by_state (at_ at2 : Z) (state : str) (client_ip : option str)
    (m : AuthSessionManager) : AuthSessionManager * option AuthSession :=
  am_limited at_ (default state client_ip) None
    (fun m => match am_by_state m !! state with
              | None => (m, None)
              | Some session_id => AuthSessionManager_get_session at2 session_id client_ip m
              end) m.

Definition AuthSessionManager_update_session (session : AuthSession) : M AuthSessionManager AuthError unit := fun m =>
  match am_sessions m !! au_id session with
  | Some _ => (am_set (<[au_id session := session]> (am_sessions m)) (am_by_state m) m, Ok tt)
  | None => (m, Err AuthSessionNotFound)
  end.

Definition AuthSessionManager_remove_session (id : str) (m : AuthSessionManager) :
    AuthSessionManager * option AuthSession :=
  match am_sessions m !! id with
  | Some session =>
      let by_state := match AuthSession_state session with
                      | Some state => delete state (am_by_state m)
                      | None => am_by_state m
                      end in
      (am_set (delete id (am_sessions m)) by_state m, Some session)
  | None => (m, None)
  end.

Definition has_email (email : str) (s : AuthSession) : bool := bool_decide (AuthSession_email s = Some email).

Definition AuthSessionManager_get_user_sessions (at_ : Z) (email : str) (client_ip : option str) (m : AuthSessionManager) :
    AuthSessionManager * list AuthSession :=
  am_limited at_ (default email client_ip) []
    (fun m => (m, filter (fun s => has_email email s = true) (snd <$> map_to_list (am_sessions m)))) m.

(** The loop that removes the selected sessions. *)
Definition remove_selected (selected : list (str * option str)) (m : AuthSessionManager) : AuthSessionManager :=
  foldl (fun m e =>
    am_set (delete (fst e) (am_sessions m))
      (match snd e with Some state => delete state (am_by_state m) | None => am_by_state m end) m) m selected.
Definition select_sessions (p : AuthSession -> bool) (m : AuthSessionManager) : list (str * option str) :=
  (fun e => (e.1, AuthSession_state e.2)) <$> filter (fun e => p e.2 = true) (map_to_list (am_sessions m)).

Definition AuthSessionManager_remove_user_sessions (email : str) (m : AuthSessionManager) : AuthSessionManager * nat :=
  let to_remove := select_sessions (has_email email) m in
  (remove_selected to_remove m, length to_remove).

(** The clock is read for each session. *)
Definition AuthSessionManager_cleanup_expired (clock : str -> DateTime) (m : AuthSessionManager) :
    AuthSessionManager * nat :=
  let expired := select_sessions (fun s => AuthSession_is_expired (clock (au_id s)) s) m in
  let m' := remove_selected expired m in
  (m', (size (am_sessions m) - size (am_sessions m'))%nat).

Definition AuthSessionManager_session_count (m : AuthSessionManager) : nat := size (am_sessions m).
Definition AuthSessionManager_active_sessions (clock : str -> DateTime) (m : AuthSessionManager) : list AuthSession :=
  filter (fun s => negb (AuthSession_is_expired (clock (au_id s)) s) && AuthSession_is_authenticated s = true)
    (snd <$> map_to_list (am_sessions m)).
End AuthSessions.

(** ** Pending logins are found by their state *)
Section Lookup.
Context {Ch : Chrono} {CD : ChronoDelta} {B64 : Base64} (uuid_v4 : str -> bool).
Implicit Types (m : AuthSessionManager) (s : AuthSession) (c : gmap str AuthState).

(** A step of the manager, with the states of all sessions ever created.
    Identifiers and states are fresh.  A caller stores a session with the state
    it was created with, or, once the login is complete, with none. *)
Inductive login_step : AuthSessionManager * gmap str AuthState -> AuthSessionManager * gmap str AuthState -> Prop :=
| login_create m c now now' rnd provider m' s a :
    AuthSessionManager_create_session now now' rnd provider m = (m', Ok s) -> au_auth_state s = Some a ->
    c !! sn_id rnd = None -> map_Forall (fun _ b => as_state b <> sn_state rnd) c ->
    login_step (m, c) (m', <[au_id s := a]> c)
| login_lookup m c l : login_step (m, c) (am_set_limiter l m, c)
| login_update m c s m' r :
    AuthSessionManager_update_session s m = (m', r) -> au_auth_state s = None \/ au_auth_state s = c !! au_id s ->
    login_step (m, c) (m', c)
| login_remove m c id : login_step (m, c) (fst (AuthSessionManager_remove_session id m), c)
| login_remove_user m c email : login_step (m, c) (fst (AuthSessionManager_remove_user_sessions email m), c)
| login_cleanup m c clock : login_step (m, c) (fst (AuthSessionManager_cleanup_expired clock m), c).

Definition session_ok c (id : str) s : Prop :=
  au_id s = id /\ is_Some (c !! id) /\ (au_auth_state s = None \/ au_auth_state s = c !! id).
Definition distinct_states c : Prop :=
  forall i j a b, c !! i = Some a -> c !! j = Some b -> as_state a = as_state b -> i = j.
Definition indexed m c : Prop :=
  forall id a, is_Some (am_sessions m !! id) -> c !! id = Some a -> am_by_state m !! as_state a = Some id.
Definition logins_ok (mc : AuthSessionManager * gmap str AuthState) : Prop :=
  map_Forall (session_ok mc.2) (am_sessions mc.1) /\ distinct_states mc.2 /\ indexed mc.1 mc.2.

(** Dropping a session, with its state or without. *)
Lemma drop_ok m c id o : logins_ok (m, c) -> o = None \/ o = as_state <$> c !! id ->
  logins_ok (am_set (delete id (am_sessions m))
               (match o with Some state => delete state (am_by_state m) | None => am_by_state m end) m, c).
Proof.
  intros (H1 & H2 & H3) Ho. split_and!; cbn in *; [by apply map_Forall_delete|done|]. intros id' a Hs Hc.
  cbn [am_set am_sessions am_by_state] in *. apply lookup_delete_is_Some in Hs as [Hne Hs]. specialize (H3 id' a Hs Hc).
  destruct o as [state|]; [|done]. destruct Ho as [?|Ho]; [done|].
  destruct (c !! id) as [b|] eqn:Hb; [|done]. injection Ho as ->. cbn. rewrite lookup_delete_ne; [done|].
  intros He. apply Hne. by apply (H2 id id' b a).
Qed.

Lemma remove_selected_ok es m c : logins_ok (m, c) ->
  Forall (fun e => snd e = None \/ snd e = as_state <$> c !! fst e) es -> logins_ok (remove_selected es m, c).
Proof.
  intros Hm H. revert m Hm. induction H as [|e es He H IH]; intros m Hm; [done|]. cbn [remove_selected foldl].
  by apply IH, drop_ok.
Qed.

Lemma session_state_ok c id s : session_ok c id s ->
  AuthSession_state s = None \/ AuthSession_state s = as_state <$> c !! id.
Proof. intros (_ & _ & [H|H]); unfold AuthSession_state; rewrite H; auto. Qed.

Lemma select_ok p m c : logins_ok (m, c) ->
  Forall (fun e => snd e = None \/ snd e = as_state <$> c !! fst e) (select_sessions p m).
Proof.
  intros (H1 & _). apply Forall_forall. intros e He. apply list_elem_of_fmap in He as ([id s] & -> & He).
  apply list_elem_of_filter in He as [_ He]. apply elem_of_map_to_list in He. by apply session_state_ok, (H1 id s).
Qed.

Lemma session_new_shape now now' rnd provider lifetime s a :
  AuthSession_new now now' rnd provider lifetime = Ok s -> au_auth_state s = Some a ->
  au_id s = sn_id rnd /\ as_state a = sn_state rnd.
Proof.
  unfold AuthSession_new, AuthState_new. intros H Ha. apply bind_Ok in H as (st & Hst & H).
  apply bind_Ok in Hst as (e & _ & Hst). injection Hst as <-. apply bind_Ok in H as (x & _ & H). injection H as <-.
  cbn in Ha. by injection Ha as <-.
Qed.

Lemma create_ok m c now now' rnd provider m' s a : logins_ok (m, c) ->
  AuthSessionManager_create_session now now' rnd provider m = (m', Ok s) -> au_auth_state s = Some a ->
  c !! sn_id rnd = None -> map_Forall (fun _ b => as_state b <> sn_state rnd) c ->
  logins_ok (m', <[au_id s := a]> c).
Proof.
  intros (H1 & H2 & H3) Hc Ha Hid Hst. unfold AuthSessionManager_create_session in Hc.
  destruct (AuthSession_new _ _ _ _ _) as [s0|e|] eqn:Hn; [|done..].
  unfold AuthSession_state in Hc. injection Hc as <- ->. rewrite Ha.
  destruct (session_new_shape _ _ _ _ _ _ _ Hn Ha) as [Ei Es]. rewrite Ei in *. split_and!; cbn in *.
  - apply map_Forall_insert_2; [split_and!; [done|rewrite lookup_insert_eq; by eexists|right; by rewrite lookup_insert_eq]|].
    intros id s' Hs'. destruct (H1 id s' Hs') as (? & Hx & ?). unfold session_ok.
    rewrite lookup_insert_ne by (intros <-; rewrite Hid in Hx; by destruct Hx). done.
  - intros i j x y Hi Hj Hxy. apply lookup_insert_Some in Hi as [[<- <-]|[? Hi]], Hj as [[<- <-]|[? Hj]]; try done.
    + destruct (Hst j y Hj). congruence.
    + destruct (Hst i x Hi). congruence.
    + by apply (H2 i j x y).
  - intros id x Hs Hx. cbn [am_set am_sessions am_by_state] in *. apply lookup_insert_Some in Hx as [[<- <-]|[Hne Hx]]; [by rewrite lookup_insert_eq|].
    rewrite lookup_insert_ne by (intros E; apply (Hst id x Hx); congruence). apply H3; [|done].
    by rewrite lookup_insert_ne in Hs.
Qed.

Lemma login_step_ok mc mc' : logins_ok mc -> login_step mc mc' -> logins_ok mc'.
Proof.
  intros Hm Hs. destruct Hs as [m c now now' rnd provider m' s a Hc Ha Hi Hst|m c l|m c s m' r Hu Hst|m c id|m c email|m c clock].
  - by eapply create_ok.
  - done.
  - unfold AuthSessionManager_update_session in Hu. destruct (am_sessions m !! au_id s) as [s0|] eqn:He; [|by simplify_eq].
    injection Hu as <- <-. destruct Hm as (H1 & H2 & H3). cbn in *. split_and!; cbn; [|done|].
    + apply map_Forall_insert_2; [|done]. split_and!; [done| |done]. by destruct (H1 _ _ He) as (_ & ? & _).
    + intros id a Hid Ha. cbn [am_set am_sessions am_by_state] in *. apply H3; [|done]. destruct (decide (id = au_id s)) as [->|]; [by eexists|].
      by rewrite lookup_insert_ne in Hid.
  - unfold AuthSessionManager_remove_session. destruct (am_sessions m !! id) as [s|] eqn:He; [|done]. cbn [fst].
    apply drop_ok; [done|]. by apply session_state_ok, Hm.
  - cbn. apply remove_selected_ok; [done|]. by apply select_ok.
  - cbn. apply remove_selected_ok; [done|]. by apply select_ok.
Qed.

(** A login in progress is found by its OAuth state.  Over every sequence of
    operations of the manager, a stored session that still has its state is the
    one that [get_session_by_state] returns for it, unless the rate limiter
    refuses one of its two checks; no other session is returned instead. *)
Theorem login_state_resolves (lifetime : Z) (max : nat) m c id s a (at_ at2 : Z) (ip : option str)
    (Hrun : rtc login_step (AuthSessionManager_new lifetime max, ∅) (m, c))
    (Hs : am_sessions m !! id = Some s) (Ha : au_auth_state s = Some a) (Hv : uuid_v4 id = true)
    (l1 := RateLimiter_check at_ (default (as_state a) ip) (am_lookup_rate_limiter m))
    (Hl1 : snd l1 = true) (Hl2 : snd (RateLimiter_check at2 (default id ip) (fst l1)) = true) :
  snd (AuthSessionManager_get_session_by_state uuid_v4 at_ at2 (as_state a) ip m) = Some s.
Proof.
  assert (logins_ok (m, c)) as (H1 & _ & H3).
  { remember (AuthSessionManager_new lifetime max, ∅) as x eqn:Ex. remember (m, c) as y eqn:Ey.
    assert (logins_ok x) as Hx.
    { subst x. split_and!; cbn; [apply map_Forall_empty|intros i j a1 a2 Hi; by rewrite lookup_empty in Hi|].
      intros i a1 _ Hi. by rewrite lookup_empty in Hi. }
    clear Ex Ey. induction Hrun; [done|]. eauto using login_step_ok. }
  destruct (H1 id s Hs) as (_ & _ & [Hn|Hc]); [congruence|]. rewrite Ha in Hc. symmetry in Hc. cbn in Hc.
  specialize (H3 id a (ex_intro _ _ Hs) Hc). cbn in H3.
  unfold AuthSessionManager_get_session_by_state, am_limited. subst l1. revert Hl1 Hl2.
  destruct (RateLimiter_check at_ _ _) as [l ok]. cbn [fst snd]. intros -> Hl2.
  cbn [am_set_limiter am_by_state]. rewrite H3. unfold AuthSessionManager_get_session, am_limited.
  cbn [am_set_limiter am_lookup_rate_limiter am_sessions].
  destruct (RateLimiter_check at2 (default id ip) l) as [l' ok]. cbn [snd] in Hl2. subst ok. cbn. by rewrite Hv.
Qed.

(** The state stays usable after the login: once [complete_auth] has cleared
    it and the session is stored, the state still leads to the session, which
    is now authenticated; and when the session is removed, the entry stays. *)
Lemma used_state_still_resolves m m1 m2 s now now' rnd provider now2 tokens user :
  AuthSessionManager_create_session now now' rnd provider m = (m1, Ok s) ->
  AuthSessionManager_update_session (AuthSession_complete_auth now2 tokens user s) m1 = (m2, Ok tt) ->
  am_by_state m2 !! sn_state rnd = Some (sn_id rnd) /\
  am_sessions m2 !! sn_id rnd = Some (AuthSession_complete_auth now2 tokens user s) /\
  am_by_state (fst (AuthSessionManager_remove_session (sn_id rnd) m2)) !! sn_state rnd = Some (sn_id rnd).
Proof.
  intros Hc Hu. unfold AuthSessionManager_create_session in Hc.
  destruct (AuthSession_new _ _ _ _ _) as [s0|e|] eqn:Hn; [|done..]. injection Hc as <- ->.
  destruct (au_auth_state s) as [a|] eqn:Ha.
  2:{ unfold AuthSession_new in Hn. apply bind_Ok in Hn as (st & _ & Hn). apply bind_Ok in Hn as (x & _ & Hn).
      by injection Hn as <-. }
  destruct (session_new_shape _ _ _ _ _ _ _ Hn Ha) as [Ei Es].
  unfold AuthSessionManager_update_session, AuthSession_state in Hu. rewrite Ha in Hu. cbn [AuthSession_complete_auth au_id am_set am_sessions fmap option_fmap option_map] in Hu.
  rewrite lookup_insert_eq in Hu. injection Hu as <-. rewrite Ei, Es.
  cbn [am_set am_sessions am_by_state]. rewrite !lookup_insert_eq. split_and!; [done|done|].
  unfold AuthSessionManager_remove_session. cbn [am_set am_sessions]. rewrite lookup_insert_eq. cbn.
  by rewrite lookup_insert_eq.
Qed.
End Lookup.

(** ** At concrete inputs *)
Section LoginWitness.
Definition clock_delta : @ChronoDelta toy_chrono := {|
  delta_from_std n := Some (n : @TimeDelta toy_chrono);
  delta_seconds n := Some (n * 1000000000 : @TimeDelta toy_chrono);
  dt_timestamp t := (t : Z) / 1000000000 |}.
Definition plain_base64 : Base64 := {| b64url_encode s := s; b64url_decode := inl; b64_encode s := s; b64_decode := inl |}.
#[local] Existing Instances toy_chrono clock_delta plain_base64.

Definition login_entropy : SessionEntropy := mkSessionEntropy (lit "session-1") (lit "state-1") (lit "nonce-1") [].
Definition one_login := AuthSessionManager_create_session (0 : @DateTime toy_chrono) (0 : @DateTime toy_chrono) login_entropy
  (lit "google") AuthSessionManager_default.
Definition the_login : AuthSession :=
  match snd one_login with
  | Ok s => s
  | _ => mkAuthSession [] None None None [] (0 : @DateTime toy_chrono) (0 : @DateTime toy_chrono)
           (0 : @DateTime toy_chrono) None None ∅
  end.
Definition the_state : AuthState := default (mkAuthState [] [] [] (0 : @DateTime toy_chrono) (0 : @DateTime toy_chrono) ∅)
  (au_auth_state the_login).

Lemma login_state_resolves_witness :
  snd (AuthSessionManager_get_session_by_state (fun _ => true) 5 6 (as_state the_state) (Some (lit "10.0.0.1")) (fst one_login))
    = Some the_login.
Proof.
  apply (login_state_resolves (fun _ => true) (nanos 86400) 5 (fst one_login) {[ lit "session-1" := the_state ]}
    (lit "session-1") the_login the_state 5 6 (Some (lit "10.0.0.1"))).
  - eapply rtc_l; [|apply rtc_refl].
    apply (login_create _ ∅ (0 : @DateTime toy_chrono) (0 : @DateTime toy_chrono) login_entropy (lit "google") _ the_login the_state);
      [reflexivity|reflexivity|reflexivity|apply map_Forall_empty].
  - reflexivity.
  - reflexivity.
  - reflexivity.
  - reflexivity.
  - reflexivity.
Defined.
End LoginWitness.
