(* ===== verification/AuditSinks.v ===== *)
(** * Audit sinks and the audit logger

    src/crates/corevpn-server/src/audit: sinks/ and mod.rs.  The sinks that
    stand for network services collect entries, take them in batches and build
    a request for each; none of them sends it: the source logs that it would
    and drops the batch.  The ghost field [bf_batches] records the batches at
    the moment they leave the buffer, under its lock; what follows, outside the
    lock, has no effect on the state, so that a call of a sink is one step.
    Readings of the clock, the host name and the outcomes of file operations
    are in [SinkEnv]. *)
From Stdlib Require Import QArith.
From S2P Require Import Prelude Errors Text Float CoreSession Addr ServerConfig ConnLog OAuth AuditEvents.
Local Open Scope Z_scope.

(** ** sinks/mod.rs: the trait *)
Abbreviation DiskFiles := (gmap str str).
Record SinkEnv := mkSinkEnv {
  sn_date : str;        (* %Y-%m-%d *)
  sn_hour : str;        (* %H *)
  sn_date_dots : str;   (* %Y.%m.%d *)
  sn_rfc3339 : str;
  sn_host : option str;
  sn_mkdir : str -> option str;
  sn_open : str -> option str;
  sn_flush : str -> option str;
  sn_write : str -> str -> option str;
  sn_rename : str -> str -> bool;
}.

Record AuditSink {Ch : Chrono} (St : Type) := mkAuditSink {
  sink_send : SinkEnv -> AuditEvent -> M (St * DiskFiles) AuditError unit;
  sink_flush : SinkEnv -> M (St * DiskFiles) AuditError unit;
  sink_close : SinkEnv -> M (St * DiskFiles) AuditError unit;
  sink_name : str;
}.
Arguments mkAuditSink {_ _}.
Arguments sink_send {_ _}.
Arguments sink_flush {_ _}.
Arguments sink_close {_ _}.
Arguments sink_name {_ _}.
(** [Arc<dyn AuditSink>]. *)
Record DynSink {Ch : Chrono} := mkDyn { dyn_state : Type; dyn_ops : AuditSink dyn_state; dyn_value : dyn_state }.
Arguments mkDyn {_ _}.

(** ** Sinks that collect entries *)
Record Buffered (I : Type) := mkBuffered { bf_buffer : list I; bf_batches : list (list I) }.
Arguments mkBuffered {_}.
Arguments bf_buffer {_}.
Arguments bf_batches {_}.

Section Buffering.
Context {Ch : Chrono} {I : Type}.
Abbreviation B := (M (Buffered I * DiskFiles) AuditError).

(** [send_batch] returns at once for an empty batch; otherwise the target and
    the body of the request are built, logged and dropped with the batch. *)
Definition send_batch (request : list I -> res AuditError (str * str)) (items : list I) : B unit :=
  match items with
  | [] => mret tt
  | _ => _ ← lift (request items); mret tt
  end.
(** The batch that [send_batch] is about to get. *)
Definition note_batch (items : list I) : B unit :=
  modify (fun s => (mkBuffered (bf_buffer s.1) (bf_batches s.1 ++ [items]), s.2)).
(** [std::mem::take(&mut *buffer)]. *)
Definition take_buffer : B (list I) := fun s =>
  ((mkBuffered [] (bf_batches s.1 ++ [bf_buffer s.1]), s.2), Ok (bf_buffer s.1)).
Definition push_entry (item : I) : B nat := fun s =>
  ((mkBuffered (bf_buffer s.1 ++ [item]) (bf_batches s.1), s.2), Ok (S (length (bf_buffer s.1)))).
Definition flush_buffer (request : list I -> res AuditError (str * str)) : B unit :=
  items ← take_buffer; send_batch request items.
Definition send_buffered (limit : Z) (request : list I -> res AuditError (str * str)) (item : I) : B unit :=
  n ← push_entry item; if limit <=? Z.of_nat n then flush_buffer request else mret tt.

(** The shape shared by the sinks: the entry of an event, the batch size, the
    request of a batch.  Closing flushes. *)
Definition buffered_sink (name : string) (limit : Z) (entry : AuditEvent -> res AuditError I)
    (request : SinkEnv -> list I -> res AuditError (str * str)) : AuditSink (Buffered I) :=
  mkAuditSink (fun env event => item ← lift (entry event); send_buffered limit (request env) item)
    (fun env => flush_buffer (request env)) (fun env => flush_buffer (request env)) (lit name).
(** Without a batch size the entries stay until a flush. *)
Definition unbounded_sink (name : string) (entry : AuditEvent -> res AuditError I)
    (request : SinkEnv -> list I -> res AuditError (str * str)) : AuditSink (Buffered I) :=
  mkAuditSink (fun env event => item ← lift (entry event); _ ← push_entry item; mret tt)
    (fun env => flush_buffer (request env)) (fun env => flush_buffer (request env)) (lit name).
Definition buffered_new : Buffered I := mkBuffered [] [].
End Buffering.

(** ** The configurations *)
Record AwsCloudwatchConfig := mkCloudwatch {
  cw_region : str; cw_log_group : str; cw_log_stream : str; cw_create_log_group : bool; cw_retention_days : Z;
  cw_format : FormatConfig; cw_batch_size : Z; cw_flush_interval_secs : Z; cw_profile : option str; cw_role_arn : option str;
}.
Definition aws_default_stream : str := lit "corevpn-audit-{date}".
Definition aws_default_batch_size : Z := 100.
Definition aws_default_flush_interval : Z := 5.
Inductive S3Encryption := Aes256 | AwsKms (key_id : str).
Record AwsS3Config := mkS3 {
  s3_region : str; s3_bucket : str; s3_prefix : str; s3_format : FormatConfig; s3_compress : bool; s3_max_file_size : Z;
  s3_sse : option S3Encryption; s3_profile : option str;
}.
Definition aws_default_s3_prefix : str := lit "audit-logs/{date}/{hour}/".
Definition aws_default_max_file_size : Z := 100 * 1024 * 1024.
Record AwsSecurityHubConfig := mkHub {
  hub_region : str; hub_product_arn : option str; hub_account_id : str; hub_min_severity : option str; hub_profile : option str;
}.
Record AwsEventBridgeConfig := mkBridge {
  eb_region : str; eb_event_bus : str; eb_source : str; eb_detail_type : str; eb_profile : option str;
}.
Definition aws_default_event_bus : str := lit "default".
Definition aws_default_source : str := lit "corevpn.audit".
Definition aws_default_detail_type : str := lit "CoreVPN Audit Event".
Inductive AzureCloud := AzurePublic | AzureGovernment | AzureChina | AzureGermany.
Definition AzureCloud_log_analytics_endpoint (c : AzureCloud) : str :=
  match c with
  | AzurePublic => lit "ods.opinsights.azure.com" | AzureGovernment => lit "ods.opinsights.azure.us"
  | AzureChina => lit "ods.opinsights.azure.cn" | AzureGermany => lit "ods.opinsights.azure.de"
  end.
Record AzureMonitorConfig := mkAzureMonitor {
  az_workspace_id : str; az_shared_key : str; az_log_type : str; az_azure_cloud : AzureCloud; az_time_field : str;
  az_batch_size : Z; az_flush_interval_secs : Z;
}.
Definition azure_default_log_type : str := lit "CoreVPNAudit".
Definition azure_default_time_field : str := lit "TimeGenerated".
Definition azure_default_batch_size : Z := 100.
Record AzureEventHubConfig := mkEventHub {
  eh_namespace : str; eh_event_hub : str; eh_policy_name : str; eh_policy_key : str; eh_partition_key : option str;
  eh_format : FormatConfig; eh_batch_size : Z; eh_azure_cloud : AzureCloud;
}.
Record AzureSentinelConfig := mkSentinel {
  sl_workspace_id : str; sl_shared_key : str; sl_log_type : str; sl_azure_cloud : AzureCloud; sl_enrich : bool; sl_batch_size : Z;
}.
Definition azure_default_sentinel_log_type : str := lit "CoreVPNSecurity".
Record OracleLoggingConfig := mkOracleLogging {
  ol_region : str; ol_log_id : str; ol_tenancy_id : str; ol_user_id : str; ol_fingerprint : str; ol_private_key : str;
  ol_passphrase : option str; ol_format : FormatConfig; ol_batch_size : Z; ol_flush_interval_secs : Z;
}.
Record OracleStreamingConfig := mkOracleStreaming {
  os_region : str; os_stream_id : str; os_stream_pool_id : option str; os_tenancy_id : str; os_user_id : str;
  os_fingerprint : str; os_private_key : str; os_passphrase : option str; os_partition_key : option str;
  os_format : FormatConfig; os_batch_size : Z;
}.
Record ElasticsearchConfig := mkElastic {
  es_urls : list str; es_index : str; es_username : option str; es_password : option str; es_api_key : option str;
  es_cloud_id : option str; es_tls_verify : bool; es_ca_cert : option str; es_format : FormatConfig; es_batch_size : Z;
  es_flush_interval_secs : Z; es_replicas : Z; es_shards : Z; es_pipeline : option str;
}.
Definition elastic_default_index : str := lit "corevpn-audit-{date}".
Record SplunkConfig := mkSplunk {
  sp_url : str; sp_token : str; sp_sourcetype : str; sp_source : str; sp_index : option str; sp_host : option str;
  sp_tls_verify : bool; sp_format : FormatConfig; sp_batch_size : Z; sp_flush_interval_secs : Z; sp_raw : bool;
  sp_channel : option str;
}.
Definition splunk_default_sourcetype : str := lit "corevpn:audit".
Definition splunk_default_source : str := lit "corevpn".
Record KafkaConfig := mkKafka {
  ka_brokers : list str; ka_topic : str; ka_partition_key : option str; ka_sasl_mechanism : option str;
  ka_sasl_username : option str; ka_sasl_password : option str; ka_tls_enabled : bool; ka_tls_ca_cert : option str;
  ka_tls_client_cert : option str; ka_tls_client_key : option str; ka_format : FormatConfig; ka_batch_size : Z;
  ka_compression : option str; ka_acks : str; ka_linger_ms : Z;
}.
Definition kafka_default_acks : str := lit "all".
Definition kafka_default_linger : Z := 5.
Inductive SyslogProtocol := SyslogUdp | SyslogTcp | SyslogTls.
Record SyslogConfig := mkSyslog {
  sy_address : str; sy_port : Z; sy_protocol : SyslogProtocol; sy_facility : Z; sy_app_name : str;
  sy_tls_ca_cert : option str; sy_tls_client_cert : option str; sy_tls_client_key : option str; sy_tls_insecure : bool;
  sy_use_cef : bool; sy_use_leef : bool; sy_octet_counting : bool; sy_reconnect : bool; sy_reconnect_interval_secs : Z;
}.
Definition syslog_default_port : Z := 514.
Definition syslog_default_reconnect_interval : Z := 5.
Inductive WebhookAuth :=
| WhBearer (token : str) | WhBasic (username password : str) | WhApiKey (header value : str)
| WhOAuth2 (token_url client_id client_secret : str) (scope : option str) | WhHmac (secret algorithm header : str).
Record WebhookConfig := mkWebhook {
  wh_url : str; wh_method : str; wh_headers : gmap str str; wh_auth : option WebhookAuth; wh_format : FormatConfig;
  wh_batch_size : Z; wh_timeout_secs : Z; wh_retries : Z; wh_retry_delay_ms : Z; wh_tls_verify : bool; wh_batch_as_array : bool;
}.
Definition webhook_default_method : str := lit "POST".
Definition webhook_default_timeout : Z := 30.
Definition webhook_default_retries : Z := 3.
Definition webhook_default_retry_delay : Z := 1000.
Inductive RotationStrategy := RotateNone | RotateSize | RotateDaily | RotateHourly | RotateSizeAndDaily.
Record FileConfig := mkFileConfig {
  fc_path : str; fc_format : FormatConfig; fc_rotation : RotationStrategy; fc_max_size : Z; fc_max_files : Z;
  fc_compress : bool; fc_permissions : Z; fc_sync_writes : bool; fc_buffer_size : Z;
}.
Definition file_default_max_size : Z := 100 * 1024 * 1024.
Definition file_default_max_files : Z := 10.
(** 0o600. *)
Definition file_default_permissions : Z := 384.
Definition file_default_buffer_size : Z := 100.

(** ** The sinks *)
Section Sinks.
Context {Ch : Chrono} {AC : AuditClock} {JT : JsonText} {B64 : Base64}.
Implicit Types (event : AuditEvent) (env : SinkEnv).

Definition from_str (s : str) : res AuditError Json :=
  match json_from_str s with inl v => Ok v | inr e => Err (AuditSerialization e) end.
(** [serde_json::to_string(e).unwrap_or_default()]. *)
Definition to_string_or_default (j : Json) : str := match json_to_string j with inl s => s | inr _ => [] end.
(** [value[key] = v]. *)
Definition json_set (key : string) (v : Json) (j : Json) : Json :=
  match j with JObj fields => JObj (filter (fun f => f.1 <> lit key) fields ++ [(lit key, v)]) | _ => j end.
(** An entry that is a JSON value: the encoded event is parsed again. *)
Definition json_entry (format : FormatConfig) event : res AuditError Json :=
  json_str ← FormatEncoder_encode format event; from_str json_str.

(** *** AWS *)
Definition AwsCloudwatch_entry (c : AwsCloudwatchConfig) event : res AuditError (Z * str) :=
  message ← FormatEncoder_encode (fo_with_format Fmt_CloudWatch (cw_format c)) event;
  mret (timestamp_millis (ev_timestamp event), message).
Definition AwsCloudwatchSink (c : AwsCloudwatchConfig) : AuditSink (Buffered (Z * str)) :=
  buffered_sink "aws_cloudwatch" (cw_batch_size c) (AwsCloudwatch_entry c)
    (fun _ _ => Ok (cw_log_group c ++ [47] ++ cw_log_stream c, [])).

Definition AwsS3Sink (c : AwsS3Config) : AuditSink (Buffered str) :=
  unbounded_sink "aws_s3" (FormatEncoder_encode (s3_format c))
    (fun _ lines => Ok (lit "s3://" ++ s3_bucket c ++ [47] ++ s3_prefix c, join [10] lines)).

Definition hub_severity (s : AuditSeverity) : str :=
  match s with
  | SevInfo => lit "INFORMATIONAL" | SevLow => lit "LOW" | SevMedium => lit "MEDIUM" | SevHigh => lit "HIGH"
  | SevCritical => lit "CRITICAL"
  end.
Definition AwsSecurityHubSink_event_to_finding (c : AwsSecurityHubConfig) event : Json :=
  JObj [(lit "SchemaVersion", JStr (lit "2018-10-08")); (lit "Id", JStr (ev_id event));
    (lit "ProductArn", JStr (default (lit "arn:aws:securityhub:::product/pegasusheavy/corevpn") (hub_product_arn c)));
    (lit "GeneratorId", JStr (lit "corevpn")); (lit "AwsAccountId", JStr (hub_account_id c));
    (lit "Types", JArr [JStr (lit "Software and Configuration Checks/VPN/" ++ AuditCategory_as_str (ev_category event))]);
    (lit "CreatedAt", JStr (rfc3339 (ev_timestamp event))); (lit "UpdatedAt", JStr (rfc3339 (ev_timestamp event)));
    (lit "Severity", JObj [(lit "Label", JStr (hub_severity (ev_severity event)))]); (lit "Title", JStr (ev_action event));
    (lit "Description", JStr (ev_message event));
    (lit "Resources", JArr [JObj [(lit "Type", JStr (lit "Other")); (lit "Id", JStr (ev_host event));
       (lit "Details", JObj [(lit "Other", JObj [(lit "Category", JStr (AuditCategory_as_str (ev_category event)));
          (lit "Outcome", JStr (AuditOutcome_debug (ev_outcome event)))])])]])].
(** The finding is logged; flushing and closing do nothing. *)
Definition AwsSecurityHubSink : AuditSink unit :=
  mkAuditSink (fun _ _ => mret tt) (fun _ => mret tt) (fun _ => mret tt) (lit "aws_security_hub").
(** Only the serialization of the event can fail. *)
Definition AwsEventBridgeSink : AuditSink unit :=
  mkAuditSink (fun _ event => _ ← lift (to_string (AuditEvent_json event)); mret tt) (fun _ => mret tt) (fun _ => mret tt)
    (lit "aws_eventbridge").

(** *** Azure *)
Definition AzureMonitorSink_send_batch (c : AzureMonitorConfig) (records : list Json) : res AuditError (str * str) :=
  body ← to_string (JArr records);
  mret (lit "https://" ++ az_workspace_id c ++ [46] ++ AzureCloud_log_analytics_endpoint (az_azure_cloud c)
          ++ lit "/api/logs?api-version=2016-04-01", body).
Definition azure_format : FormatConfig := fo_with_format Fmt_AzureMonitor FormatConfig_default.
Definition AzureMonitorSink (name : string) (c : AzureMonitorConfig) : AuditSink (Buffered Json) :=
  buffered_sink name (az_batch_size c) (json_entry azure_format) (fun _ => AzureMonitorSink_send_batch c).
Definition AzureEventHubSink_get_endpoint (c : AzureEventHubConfig) : str :=
  let suffix := match eh_azure_cloud c with
                | AzurePublic => lit "servicebus.windows.net" | AzureGovernment => lit "servicebus.usgovcloudapi.net"
                | AzureChina => lit "servicebus.chinacloudapi.cn" | AzureGermany => lit "servicebus.cloudapi.de" end in
  lit "https://" ++ eh_namespace c ++ [46] ++ suffix ++ [47] ++ eh_event_hub c ++ lit "/messages".
Definition AzureEventHubSink (c : AzureEventHubConfig) : AuditSink (Buffered str) :=
  buffered_sink "azure_event_hub" (eh_batch_size c) (FormatEncoder_encode (eh_format c))
    (fun _ _ => Ok (AzureEventHubSink_get_endpoint c, [])).
(** The sink of Azure Monitor under another name. *)
Definition sentinel_monitor (c : AzureSentinelConfig) : AzureMonitorConfig :=
  mkAzureMonitor (sl_workspace_id c) (sl_shared_key c) (sl_log_type c) (sl_azure_cloud c) (lit "TimeGenerated") (sl_batch_size c) 5.
Definition AzureSentinelSink (c : AzureSentinelConfig) : AuditSink (Buffered Json) :=
  AzureMonitorSink "azure_sentinel" (sentinel_monitor c).

(** *** Oracle *)
Definition OracleLogging_entry (c : OracleLoggingConfig) event : res AuditError Json :=
  json_str ← FormatEncoder_encode (ol_format c) event;
  mret (JObj [(lit "data", JStr json_str); (lit "id", JStr (ev_id event)); (lit "time", JStr (rfc3339 (ev_timestamp event)))]).
(** The body is built but not printed. *)
Definition OracleLoggingSink (c : OracleLoggingConfig) : AuditSink (Buffered Json) :=
  buffered_sink "oracle_logging" (ol_batch_size c) (OracleLogging_entry c)
    (fun _ _ => Ok (lit "https://ingestion.logging." ++ ol_region c ++ lit ".oci.oraclecloud.com", [])).
Record StreamMessage := mkStreamMessage { sg_key : str; sg_value : str }.
Definition OracleStreaming_entry (c : OracleStreamingConfig) event : res AuditError StreamMessage :=
  value ← FormatEncoder_encode (os_format c) event;
  mret (mkStreamMessage (default (ev_id event) (os_partition_key c)) value).
Definition OracleStreamingSink (c : OracleStreamingConfig) : AuditSink (Buffered StreamMessage) :=
  buffered_sink "oracle_streaming" (os_batch_size c) (OracleStreaming_entry c)
    (fun _ _ => Ok (lit "https://streaming." ++ os_region c ++ lit ".oci.oraclecloud.com/20180418/streams/"
                      ++ os_stream_id c ++ lit "/messages", [])).

(** *** Elasticsearch, Splunk, Kafka *)
Definition ElasticsearchSink_get_index_name (c : ElasticsearchConfig) env : str :=
  replace_str (lit "{date}") (sn_date_dots env) (es_index c).
Fixpoint bulk_body (index : str) (documents : list Json) : res AuditError str :=
  match documents with
  | [] => Ok []
  | doc :: documents' =>
      action ← to_string (JObj [(lit "index", JObj [(lit "_index", JStr index)])]);
      text ← to_string doc;
      rest ← bulk_body index documents';
      mret (action ++ [10] ++ text ++ [10] ++ rest)
  end.
Definition ElasticsearchSink_send_batch (c : ElasticsearchConfig) env (documents : list Json) : res AuditError (str * str) :=
  body ← bulk_body (ElasticsearchSink_get_index_name c env) documents;
  mret (default [] (head (es_urls c)) ++ lit "/_bulk", body).
Definition ElasticsearchSink (c : ElasticsearchConfig) : AuditSink (Buffered Json) :=
  buffered_sink "elasticsearch" (es_batch_size c) (json_entry (es_format c)) (ElasticsearchSink_send_batch c).

(** [timestamp_millis() as f64 / 1000.0]. *)
Definition hec_time (millis : Z) : Q := rn (Qdiv (rn (inject_Z millis)) (inject_Z 1000)).
Definition SplunkSink_build_hec_event (c : SplunkConfig) event (data : Json) : Json :=
  let hec_event := JObj [(lit "time", JReal (hec_time (timestamp_millis (ev_timestamp event))));
                         (lit "sourcetype", JStr (sp_sourcetype c)); (lit "source", JStr (sp_source c)); (lit "event", data)] in
  let hec_event := match sp_index c with Some index => json_set "index" (JStr index) hec_event | None => hec_event end in
  json_set "host" (JStr (default (ev_host event) (sp_host c))) hec_event.
Definition Splunk_entry (c : SplunkConfig) event : res AuditError Json :=
  data ← json_entry (sp_format c) event; mret (SplunkSink_build_hec_event c event data).
Definition SplunkSink_send_batch (c : SplunkConfig) (events : list Json) : res AuditError (str * str) :=
  Ok (sp_url c ++ (if sp_raw c then lit "/services/collector/raw" else lit "/services/collector/event"),
      join [10] (map to_string_or_default events)).
Definition SplunkSink (c : SplunkConfig) : AuditSink (Buffered Json) :=
  buffered_sink "splunk" (sp_batch_size c) (Splunk_entry c) (fun _ => SplunkSink_send_batch c).

Record KafkaMessage := mkKafkaMessage { km_key : option str; km_value : str }.
Definition KafkaSink_extract_partition_key (c : KafkaConfig) event : option str :=
  key_path ← ka_partition_key c;
  if bool_decide (key_path = lit "id") then Some (ev_id event)
  else if bool_decide (key_path = lit "category") then Some (AuditCategory_as_str (ev_category event))
  else if bool_decide (key_path = lit "actor.source_ip") then ev_actor event ≫= ac_source_ip
  else if bool_decide (key_path = lit "actor.name") then ev_actor event ≫= ac_name
  else None.
Definition Kafka_entry (c : KafkaConfig) event : res AuditError KafkaMessage :=
  value ← FormatEncoder_encode (ka_format c) event; mret (mkKafkaMessage (KafkaSink_extract_partition_key c event) value).
Definition KafkaSink (c : KafkaConfig) : AuditSink (Buffered KafkaMessage) :=
  buffered_sink "kafka" (ka_batch_size c) (Kafka_entry c) (fun _ _ => Ok (ka_topic c, [])).

(** *** Syslog *)
Definition syslog_format (c : SyslogConfig) : FormatConfig :=
  mkFormat (if sy_use_cef c then Fmt_Cef else if sy_use_leef c then Fmt_Leef else Fmt_Syslog) false false
    default_vendor default_product default_version (sy_facility c) (sy_app_name c).
Definition SyslogSink_frame_message (c : SyslogConfig) (message : str) : str :=
  if sy_octet_counting c then fmt_dec (Z.of_nat (length message)) ++ [32] ++ message else message ++ [10].
Definition SyslogSink_send_messages (c : SyslogConfig) (messages : list str) : res AuditError (str * str) :=
  Ok (sy_address c ++ [58] ++ fmt_dec (sy_port c), concat (map (SyslogSink_frame_message c) messages)).
(** UDP messages go out at once, the others in batches of ten. *)
Definition SyslogSink (c : SyslogConfig) : AuditSink (Buffered str) :=
  let request := fun (_ : SinkEnv) => SyslogSink_send_messages c in
  let batched := buffered_sink "syslog" 10 (FormatEncoder_encode (syslog_format c)) request in
  match sy_protocol c with
  | SyslogUdp =>
      mkAuditSink (fun env event => message ← lift (FormatEncoder_encode (syslog_format c) event);
                     _ ← note_batch [message]; send_batch (request env) [message])
        (sink_flush batched) (sink_close batched) (sink_name batched)
  | _ => batched
  end.

(** *** Webhook *)
Definition WebhookSink_build_auth_header (c : WebhookConfig) : option (str * str) :=
  match wh_auth c with
  | Some (WhBearer token) => Some (lit "Authorization", lit "Bearer " ++ token)
  | Some (WhBasic username password) => Some (lit "Authorization", lit "Basic " ++ b64_encode (username ++ [58] ++ password))
  | Some (WhApiKey header value) => Some (header, value)
  | _ => None
  end.
Definition WebhookSink_send_batch (c : WebhookConfig) (events : list Json) : res AuditError (str * str) :=
  body ← (if wh_batch_as_array c then to_string (JArr events) else Ok (join [10] (map to_string_or_default events)));
  mret (wh_method c ++ [32] ++ wh_url c, body).
Definition WebhookSink (c : WebhookConfig) : AuditSink (Buffered Json) :=
  buffered_sink "webhook" (wh_batch_size c) (json_entry (wh_format c)) (fun _ => WebhookSink_send_batch c).

(** *** Files *)
Record FileSinkState := mkFileSink {
  fk_buffer : list str;
  fk_current_file : option str; (* the path it was opened at *)
  fk_current_path : str;
  fk_current_size : Z;
}.
Abbreviation F := (M (FileSinkState * DiskFiles) AuditError).
Definition fk_set (file : option str) (path : str) (size : Z) (s : FileSinkState) : FileSinkState :=
  mkFileSink (fk_buffer s) file path size.
Definition io_fail {S} (e : option str) : M S AuditError unit :=
  match e with Some e => lift (Err (AuditIo e)) | None => mret tt end.

Definition FileSink_resolve_path env (template : str) : str :=
  replace_str (lit "{host}") (default (lit "unknown") (sn_host env))
    (replace_str (lit "{hour}") (sn_hour env) (replace_str (lit "{date}") (sn_date env) template)).
Definition file_format (c : FileConfig) : FormatConfig :=
  fo_with_format (match fo_format (fc_format c) with Fmt_Json => Fmt_JsonLines | other => other end) (fc_format c).
(** [path.parent()] of a path that is not empty and does not end in a slash:
    what precedes the last slash, or the empty path. *)
Definition parent_dir (path : str) : str :=
  match rsplit_once 47 path with Some (d, _) => if bool_decide (d = []) then [47] else d | None => [] end.
Definition FileSink_new env (c : FileConfig) : res AuditError FileSinkState :=
  let path := FileSink_resolve_path env (fc_path c) in
  match sn_mkdir env (parent_dir path) with
  | Some e => Err (AuditIo e)
  | None => Ok (mkFileSink [] None path 0)
  end.

(** Close the file that is open. *)
Definition close_file env : F unit :=
  s ← get;
  _ ← (match fk_current_file s.1 with Some p => io_fail (sn_flush env p) | None => mret tt end);
  modify (fun s => (fk_set None (fk_current_path s.1) (fk_current_size s.1) s.1, s.2)).
Definition FileSink_get_or_open_file (c : FileConfig) env : F unit :=
  let new_path := FileSink_resolve_path env (fc_path c) in
  s ← get;
  _ ← (if bool_decide (fk_current_path s.1 = new_path) then mret tt
       else _ ← close_file env; modify (fun s => (fk_set None new_path 0 s.1, s.2)));
  s ← get;
  match fk_current_file s.1 with
  | Some _ => mret tt
  | None =>
      let path := fk_current_path s.1 in
      _ ← io_fail (sn_open env path);
      modify (fun s => let content := default [] (s.2 !! path) in
                       (fk_set (Some path) path (Z.of_nat (length content)) s.1, <[path := content]> s.2))
  end.

Definition FileSink_check_rotation (c : FileConfig) (s : FileSinkState) : bool :=
  match fc_rotation c with RotateSize | RotateSizeAndDaily => fc_max_size c <=? fk_current_size s | _ => false end.

Definition backup_path (path : str) (i : nat) : str := path ++ [46] ++ fmt_dec (Z.of_nat i).
(** [tokio::fs::rename], whose result is ignored. *)
Definition fs_rename env (old new : str) (fs : DiskFiles) : DiskFiles :=
  match fs !! old with Some content => if sn_rename env old new then <[new := content]> (delete old fs) else fs | None => fs end.
(** [for i in (1..max_files).rev()], from [i] down. *)
Fixpoint shift_backups env (path : str) (i : nat) (fs : DiskFiles) : DiskFiles :=
  match i with
  | O => fs
  | S i' => shift_backups env path i' (fs_rename env (backup_path path i) (backup_path path (S i)) fs)
  end.
Definition FileSink_rotate (c : FileConfig) env : F unit :=
  _ ← close_file env;
  modify (fun s => let path := fk_current_path s.1 in
    (fk_set None path 0 s.1,
     fs_rename env path (backup_path path 1) (shift_backups env path (Z.to_nat (fc_max_files c) - 1) s.2))).

(** One turn of the loop: append the line and count its bytes. *)
Definition append_line env (path line : str) : F unit :=
  _ ← io_fail (sn_write env path line);
  modify (fun s => (fk_set (fk_current_file s.1) (fk_current_path s.1)
                      (wrap 64 (fk_current_size s.1 + Z.of_nat (length line))) s.1,
                    <[path := default [] (s.2 !! path) ++ line]> s.2)).
Fixpoint append_lines env (path : str) (lines : list str) : F unit :=
  match lines with [] => mret tt | line :: lines' => _ ← append_line env path line; append_lines env path lines' end.
Definition FileSink_write_lines (c : FileConfig) env (lines : list str) : F unit :=
  match lines with
  | [] => mret tt
  | _ =>
      s ← get;
      _ ← (if FileSink_check_rotation c s.1 then FileSink_rotate c env else mret tt);
      _ ← FileSink_get_or_open_file c env;
      s ← get;
      match fk_current_file s.1 with
      | None => mret tt
      | Some path =>
          _ ← append_lines env path lines;
          if fc_sync_writes c then io_fail (sn_flush env path) else mret tt
      end
  end.

Definition fk_take : F (list str) := fun s =>
  ((mkFileSink [] (fk_current_file s.1) (fk_current_path s.1) (fk_current_size s.1), s.2), Ok (fk_buffer s.1)).
Definition FileSink_send (c : FileConfig) env event : F unit :=
  line ← lift (FormatEncoder_encode (file_format c) event);
  _ ← modify (fun s => (mkFileSink (fk_buffer s.1 ++ [line]) (fk_current_file s.1) (fk_current_path s.1) (fk_current_size s.1), s.2));
  s ← get;
  if fc_buffer_size c <=? Z.of_nat (length (fk_buffer s.1)) then lines ← fk_take; FileSink_write_lines c env lines else mret tt.
Definition FileSink_flush (c : FileConfig) env : F unit :=
  lines ← fk_take;
  _ ← FileSink_write_lines c env lines;
  s ← get;
  match fk_current_file s.1 with Some p => io_fail (sn_flush env p) | None => mret tt end.
Definition FileSink_close (c : FileConfig) env : F unit :=
  _ ← FileSink_flush c env;
  modify (fun s => (fk_set None (fk_current_path s.1) (fk_current_size s.1) s.1, s.2)).
Definition FileSink (c : FileConfig) : AuditSink FileSinkState :=
  mkAuditSink (FileSink_send c) (FileSink_flush c) (FileSink_close c) (lit "file").

(** ** sinks/mod.rs: creation *)
Inductive SinkConfig :=
| SinkAwsCloudwatch (c : AwsCloudwatchConfig) | SinkAwsS3 (c : AwsS3Config) | SinkAwsSecurityHub (c : AwsSecurityHubConfig)
| SinkAwsEventBridge (c : AwsEventBridgeConfig) | SinkAzureMonitor (c : AzureMonitorConfig)
| SinkAzureEventHub (c : AzureEventHubConfig) | SinkAzureSentinel (c : AzureSentinelConfig)
| SinkOracleLogging (c : OracleLoggingConfig) | SinkOracleStreaming (c : OracleStreamingConfig)
| SinkElasticsearch (c : ElasticsearchConfig) | SinkSplunk (c : SplunkConfig) | SinkKafka (c : KafkaConfig)
| SinkSyslog (c : SyslogConfig) | SinkWebhook (c : WebhookConfig) | SinkFile (c : FileConfig).
Definition create_sink env (config : SinkConfig) : res AuditError DynSink :=
  match config with
  | SinkAwsCloudwatch c => Ok (mkDyn (AwsCloudwatchSink c) buffered_new)
  | SinkAwsS3 c => Ok (mkDyn (AwsS3Sink c) buffered_new)
  | SinkAwsSecurityHub c => Ok (mkDyn AwsSecurityHubSink tt)
  | SinkAwsEventBridge c => Ok (mkDyn AwsEventBridgeSink tt)
  | SinkAzureMonitor c => Ok (mkDyn (AzureMonitorSink "azure_monitor" c) buffered_new)
  | SinkAzureEventHub c => Ok (mkDyn (AzureEventHubSink c) buffered_new)
  | SinkAzureSentinel c => Ok (mkDyn (AzureSentinelSink c) buffered_new)
  | SinkOracleLogging c => Ok (mkDyn (OracleLoggingSink c) buffered_new)
  | SinkOracleStreaming c => Ok (mkDyn (OracleStreamingSink c) buffered_new)
  | SinkElasticsearch c => Ok (mkDyn (ElasticsearchSink c) buffered_new)
  | SinkSplunk c => Ok (mkDyn (SplunkSink c) buffered_new)
  | SinkKafka c => Ok (mkDyn (KafkaSink c) buffered_new)
  | SinkSyslog c => Ok (mkDyn (SyslogSink c) buffered_new)
  | SinkWebhook c => Ok (mkDyn (WebhookSink c) buffered_new)
  | SinkFile c => s ← FileSink_new env c; mret (mkDyn (FileSink c) s)
  end.

(** ** mod.rs: the logger *)
Record AuditConfig := mkAuditConfig {
  ad_enabled : bool; ad_buffer_size : Z; ad_sinks : list SinkConfig; ad_default_format : FormatConfig;
  ad_include_source_ip : bool; ad_include_user_identity : bool; ad_hash_sensitive_fields : bool;
  ad_categories : list AuditCategory;
}.
Definition default_categories : list AuditCategory :=
  [CatAuthentication; CatAuthorization; CatConnection; CatConfiguration; CatSecurity].
Definition AuditConfig_default : AuditConfig :=
  mkAuditConfig true 10000 [] FormatConfig_default false false false default_categories.

(** The logger with the channel to its background task. *)
Record AuditLogger := mkLogger {
  al_sinks : list DynSink; al_queue : list AuditEvent; al_capacity : Z; al_enabled : bool;
}.
Fixpoint create_sinks env (configs : list SinkConfig) : res AuditError (list DynSink) :=
  match configs with
  | [] => Ok []
  | config :: configs' => sink ← create_sink env config; rest ← create_sinks env configs'; mret (sink :: rest)
  end.
(** [mpsc::channel] panics on a capacity of zero and above [usize::MAX >> 3]. *)
Definition AuditLogger_new env (config : AuditConfig) : res AuditError AuditLogger :=
  if (ad_buffer_size config =? 0) || (2 ^ 61 - 1 <? ad_buffer_size config) then Panic else
  sinks ← create_sinks env (ad_sinks config);
  mret (mkLogger sinks [] (ad_buffer_size config) (ad_enabled config)).
Definition AuditLogger_null : AuditLogger := mkLogger [] [] 1 false.
Definition AuditLogger_event (category : AuditCategory) : AuditEventBuilder := AuditEventBuilder_new category.

(** A call through the trait object: the state the sink is left in, and whether the call succeeded. *)
Definition dyn_run (call : forall St, AuditSink St -> M (St * DiskFiles) AuditError unit) (d : DynSink) (fs : DiskFiles)
    : DynSink * DiskFiles * res AuditError unit :=
  let '((v, fs'), r) := call _ (dyn_ops d) (dyn_value d, fs) in (mkDyn (dyn_ops d) v, fs', r).

(** Queueing waits while the channel is full: [None]. *)
Definition AuditLogger_log event (l : AuditLogger) : option AuditLogger :=
  if negb (al_enabled l) then Some l
  else if Z.of_nat (length (al_queue l)) <? al_capacity l
  then Some (mkLogger (al_sinks l) (al_queue l ++ [event]) (al_capacity l) (al_enabled l))
  else None.

(** One turn of [process_events]: the next event goes to every sink, and the
    errors are logged. *)
Fixpoint send_to_sinks env event (sinks : list DynSink) (fs : DiskFiles) : list DynSink * DiskFiles :=
  match sinks with
  | [] => ([], fs)
  | d :: sinks' =>
      let '(d', fs1, _) := dyn_run (fun _ ops => sink_send ops env event) d fs in
      let '(rest, fs2) := send_to_sinks env event sinks' fs1 in (d' :: rest, fs2)
  end.
Definition AuditLogger_process_event env (l : AuditLogger) (fs : DiskFiles) : option (AuditLogger * DiskFiles) :=
  match al_queue l with
  | [] => None
  | event :: queue =>
      let '(sinks, fs') := send_to_sinks env event (al_sinks l) fs in
      Some (mkLogger sinks queue (al_capacity l) (al_enabled l), fs')
  end.
(** [flush] and [close] stop at the first sink that fails. *)
Fixpoint call_all (call : forall St, AuditSink St -> M (St * DiskFiles) AuditError unit) (sinks : list DynSink)
    (fs : DiskFiles) : list DynSink * DiskFiles * res AuditError unit :=
  match sinks with
  | [] => ([], fs, Ok tt)
  | d :: sinks' =>
      let '(d', fs1, r) := dyn_run call d fs in
      match r with
      | Ok _ => let '(rest, fs2, r') := call_all call sinks' fs1 in (d' :: rest, fs2, r')
      | _ => (d' :: sinks', fs1, r)
      end
  end.
Definition with_sinks (l : AuditLogger) (sinks : list DynSink) : AuditLogger :=
  mkLogger sinks (al_queue l) (al_capacity l) (al_enabled l).
Definition AuditLogger_flush env (l : AuditLogger) (fs : DiskFiles) : AuditLogger * DiskFiles * res AuditError unit :=
  let '(sinks, fs', r) := call_all (fun _ ops => sink_flush ops env) (al_sinks l) fs in (with_sinks l sinks, fs', r).
Definition AuditLogger_close env (l : AuditLogger) (fs : DiskFiles) : AuditLogger * DiskFiles * res AuditError unit :=
  let '(sinks, fs', r) := call_all (fun _ ops => sink_close ops env) (al_sinks l) fs in (with_sinks l sinks, fs', r).
End Sinks.
