(* ===== verification/AuditSinkProofs.v ===== *)
(** * What the audit logger guarantees

    No event is lost, repeated or reordered on its way through the logger into
    the batches of a sink, which the sinks do not send;
    frames with octet counts are read back; rotation keeps the backups in
    order. *)
From S2P Require Import Prelude Errors Text CoreSession Addr ServerConfig ConnLog OAuth AuditEvents AuditProofs AuditSinks.
Local Open Scope Z_scope.

(** ** Sinks that collect entries *)

(** The entries a sink has been given: those taken in batches, then those
    waiting. *)
Definition trail {I} (b : Buffered I) : list I := concat (bf_batches b) ++ bf_buffer b.
(** The entries of the events that have one. *)
Definition entries {Ch : Chrono} {I} (entry : AuditEvent -> res AuditError I) (events : list AuditEvent) : list I :=
  omap (fun e => match entry e with Ok i => Some i | _ => None end) events.

Lemma entries_snoc {Ch : Chrono} {I} (entry : AuditEvent -> res AuditError I) es e :
  entries entry (es ++ [e]) = entries entry es ++ match entry e with Ok i => [i] | _ => [] end.
Proof. unfold entries. rewrite omap_app. cbn. by destruct (entry e). Qed.

(** What the logger relies on: sending adds the entry of the event, if it has
    one; flushing and closing take what waits as a batch. *)
Class Collecting {Ch : Chrono} {I} (S : AuditSink (Buffered I)) (entry : AuditEvent -> res AuditError I)
    (inv : Buffered I -> Prop) : Prop := {
  collect_new : inv buffered_new;
  collect_send env e b fs : inv b -> exists b',
    fst (sink_send S env e (b, fs)) = (b', fs) /\ inv b' /\ trail b' = trail b ++ entries entry [e];
  collect_flush env b fs : inv b -> exists b',
    sink_flush S env (b, fs) = ((b', fs), Ok tt) /\ inv b' /\ bf_buffer b' = [] /\ trail b' = trail b;
  collect_close env b fs : inv b -> exists b',
    sink_close S env (b, fs) = ((b', fs), Ok tt) /\ inv b' /\ bf_buffer b' = [] /\ trail b' = trail b;
}.

Definition total_request {I} (request : SinkEnv -> list I -> res AuditError (str * str)) : Prop :=
  forall env items, exists r, request env items = Ok r.

Section Collect.
Context {Ch : Chrono} {I : Type} (entry : AuditEvent -> res AuditError I)
  (request : SinkEnv -> list I -> res AuditError (str * str)) (Hr : total_request request).

Lemma take_buffer_trail (b : Buffered I) : trail (mkBuffered [] (bf_batches b ++ [bf_buffer b])) = trail b.
Proof. unfold trail. cbn. by rewrite concat_app, app_nil_r; cbn; rewrite app_nil_r. Qed.

(** What [send_batch] does has no effect on the sink. *)
Lemma send_batch_keeps (r : list I -> res AuditError (str * str)) (items : list I) (s : Buffered I * DiskFiles) : fst (send_batch r items s) = s.
Proof. unfold send_batch, mbind, M_bind, lift. destruct items as [|i items]; [done|]. by destruct (r (i :: items)). Qed.
Lemma flush_buffer_state env b fs :
  fst (flush_buffer (request env) (b, fs)) = (mkBuffered [] (bf_batches b ++ [bf_buffer b]), fs).
Proof. unfold flush_buffer, mbind, M_bind, take_buffer. cbn [fst snd]. apply send_batch_keeps. Qed.
Lemma flush_buffer_run env b fs :
  flush_buffer (request env) (b, fs) = ((mkBuffered [] (bf_batches b ++ [bf_buffer b]), fs), Ok tt).
Proof using Hr.
  pose proof (flush_buffer_state env b fs) as H. destruct (flush_buffer (request env) (b, fs)) as [s r] eqn:E.
  cbn in H. subst s. f_equal. revert E. unfold flush_buffer, mbind, M_bind, take_buffer, send_batch. cbn [fst snd].
  destruct (bf_buffer b) as [|i items]; [by intros [= <-]|].
  destruct (Hr env (i :: items)) as [q Hq]. unfold lift. rewrite Hq. by intros [= <-].
Qed.

Lemma send_buffered_run env limit item b fs : exists b',
  fst (send_buffered limit (request env) item (b, fs)) = (b', fs) /\ trail b' = trail b ++ [item].
Proof.
  unfold send_buffered, mbind, M_bind, push_entry. cbn [fst snd].
  set (b1 := mkBuffered (bf_buffer b ++ [item]) (bf_batches b)).
  assert (trail b1 = trail b ++ [item]) as Ht by (unfold trail; cbn; by rewrite app_assoc).
  case_match; [|by exists b1]. rewrite flush_buffer_state. eexists. split; [reflexivity|]. by rewrite take_buffer_trail.
Qed.

#[global] Instance buffered_collecting name limit : Collecting (buffered_sink name limit entry request) entry (fun _ => True).
Proof using Hr.
  split; [done| | |]; intros; cbn [buffered_sink sink_send sink_flush sink_close].
  - unfold mbind at 1, M_bind, lift. unfold entries. cbn. destruct (entry e) as [item| |].
    + destruct (send_buffered_run env limit item b fs) as (b' & E & Ht). by exists b'.
    + exists b. by rewrite app_nil_r.
    + exists b. by rewrite app_nil_r.
  - rewrite flush_buffer_run. eexists. split; [reflexivity|]. by rewrite take_buffer_trail.
  - rewrite flush_buffer_run. eexists. split; [reflexivity|]. by rewrite take_buffer_trail.
Qed.
#[global] Instance unbounded_collecting name : Collecting (unbounded_sink name entry request) entry (fun _ => True).
Proof using Hr.
  split; [done| | |]; intros; cbn [unbounded_sink sink_send sink_flush sink_close].
  - unfold mbind at 1, M_bind, lift. unfold entries. cbn. destruct (entry e) as [item| |].
    + eexists. split; [reflexivity|]. split; [done|]. unfold trail. cbn. by rewrite app_assoc.
    + exists b. by rewrite app_nil_r.
    + exists b. by rewrite app_nil_r.
  - rewrite flush_buffer_run. eexists. split; [reflexivity|]. by rewrite take_buffer_trail.
  - rewrite flush_buffer_run. eexists. split; [reflexivity|]. by rewrite take_buffer_trail.
Qed.
End Collect.

Section Delivery.
Context {Ch : Chrono} {AC : AuditClock} {JT : JsonText} {B64 : Base64}.
Implicit Types (event : AuditEvent) (env : SinkEnv) (l : AuditLogger) (d : DynSink).

(** Printing a JSON value does not fail. *)
Class JsonPrints : Prop := { json_prints j : exists s, json_to_string j = inl s }.

Definition syslog_inv (c : SyslogConfig) (b : Buffered str) : Prop :=
  match sy_protocol c with SyslogUdp => bf_buffer b = [] | _ => True end.
#[local] Instance syslog_collecting c :
  Collecting (SyslogSink c) (FormatEncoder_encode (syslog_format c)) (syslog_inv c).
Proof.
  assert (total_request (fun (_ : SinkEnv) => SyslogSink_send_messages c)) as Hr by (intros ? ?; by eexists).
  unfold SyslogSink, syslog_inv. destruct (sy_protocol c); try by apply buffered_collecting.
  split; [done| | |]; intros; cbn [sink_send sink_flush sink_close buffered_sink].
  - unfold mbind, M_bind, lift, entries. cbn [omap list_omap]. destruct (FormatEncoder_encode (syslog_format c) e) as [m| |].
    + unfold note_batch, send_batch, mbind, M_bind, lift, modify, SyslogSink_send_messages. cbn. eexists.
      split; [reflexivity|]. split; [done|]. unfold trail. cbn. rewrite concat_app. cbn. by rewrite H, !app_nil_r.
    + exists b. by rewrite app_nil_r.
    + exists b. by rewrite app_nil_r.
  - rewrite (flush_buffer_run _ Hr env). eexists. split; [reflexivity|]. by rewrite take_buffer_trail.
  - rewrite (flush_buffer_run _ Hr env). eexists. split; [reflexivity|]. by rewrite take_buffer_trail.
Qed.

(** A sink of the logger has been given the entries of [events]; with [all],
    they have all left its buffer in batches. *)
Definition collected {I} (S : AuditSink (Buffered I)) (entry : AuditEvent -> res AuditError I) (inv : Buffered I -> Prop)
    (all : bool) (events : list AuditEvent) d : Prop :=
  exists b, d = mkDyn S b /\ inv b /\ trail b = entries entry events /\ (all = true -> bf_buffer b = []).
Abbreviation anything := (fun _ => True).

(** By kind of sink; files are not collected, and two services collect nothing. *)
Definition batched (all : bool) (events : list AuditEvent) (c : SinkConfig) d : Prop :=
  match c with
  | SinkAwsCloudwatch c => collected (AwsCloudwatchSink c) (AwsCloudwatch_entry c) anything all events d
  | SinkAwsS3 c => collected (AwsS3Sink c) (FormatEncoder_encode (s3_format c)) anything all events d
  | SinkAzureMonitor c => collected (AzureMonitorSink "azure_monitor" c) (json_entry azure_format) anything all events d
  | SinkAzureEventHub c => collected (AzureEventHubSink c) (FormatEncoder_encode (eh_format c)) anything all events d
  | SinkAzureSentinel c => collected (AzureSentinelSink c) (json_entry azure_format) anything all events d
  | SinkOracleLogging c => collected (OracleLoggingSink c) (OracleLogging_entry c) anything all events d
  | SinkOracleStreaming c => collected (OracleStreamingSink c) (OracleStreaming_entry c) anything all events d
  | SinkElasticsearch c => collected (ElasticsearchSink c) (json_entry (es_format c)) anything all events d
  | SinkSplunk c => collected (SplunkSink c) (Splunk_entry c) anything all events d
  | SinkKafka c => collected (KafkaSink c) (Kafka_entry c) anything all events d
  | SinkSyslog c => collected (SyslogSink c) (FormatEncoder_encode (syslog_format c)) (syslog_inv c) all events d
  | SinkWebhook c => collected (WebhookSink c) (json_entry (wh_format c)) anything all events d
  | SinkAwsSecurityHub _ | SinkAwsEventBridge _ | SinkFile _ => True
  end.

(** A predicate that sending an event extends and flushing and closing
    complete. *)
Record tracked (P : bool -> list AuditEvent -> DynSink -> Prop) : Prop := {
  tracked_send env e all events d fs : P all events d ->
    P false (events ++ [e]) (dyn_run (fun _ ops => sink_send ops env e) d fs).1.1;
  tracked_flush env all events d fs : P all events d -> P true events (dyn_run (fun _ ops => sink_flush ops env) d fs).1.1;
  tracked_close env all events d fs : P all events d -> P true events (dyn_run (fun _ ops => sink_close ops env) d fs).1.1;
  tracked_weaken all events d : P all events d -> P false events d;
}.
Lemma collected_tracked {I} (S : AuditSink (Buffered I)) entry inv : Collecting S entry inv -> tracked (collected S entry inv).
Proof.
  intros HS. split.
  - intros env e all events d fs (b & -> & Hi & Ht & _). destruct (collect_send env e b fs Hi) as (b' & E & Hi' & Ht').
    unfold dyn_run. cbn. destruct (sink_send S env e (b, fs)) as [[v fs'] r]. injection E as -> ->. exists b'.
    split_and!; [done|done| |done]. rewrite Ht', Ht. unfold entries. by rewrite omap_app.
  - intros env all events d fs (b & -> & Hi & Ht & _). destruct (collect_flush env b fs Hi) as (b' & E & Hi' & Hb & Ht').
    unfold dyn_run. cbn. rewrite E. exists b'. by rewrite Ht'.
  - intros env all events d fs (b & -> & Hi & Ht & _). destruct (collect_close env b fs Hi) as (b' & E & Hi' & Hb & Ht').
    unfold dyn_run. cbn. rewrite E. exists b'. by rewrite Ht'.
  - intros all events d (b & ? & ? & ? & _). by exists b.
Qed.
Lemma true_tracked : tracked (fun _ _ _ => True).
Proof. by split. Qed.

Context {JP : JsonPrints}.
Lemma to_string_ok j : exists s, to_string j = Ok s.
Proof using JP. unfold to_string. destruct (json_prints j) as [s ->]. by exists s. Qed.
Lemma bulk_body_ok index docs : exists s, bulk_body index docs = Ok s.
Proof using JP.
  induction docs as [|doc docs [s IH]]; cbn [bulk_body]; [by eexists|].
  destruct (to_string_ok (JObj [(lit "index", JObj [(lit "_index", JStr index)])])) as [a ->].
  destruct (to_string_ok doc) as [t ->]. rsimp. rewrite IH. by eexists.
Qed.
Lemma batched_tracked c : tracked (fun all events => batched all events c).
Proof using JP.
  destruct c; cbn [batched]; try apply true_tracked; apply collected_tracked;
    try (apply buffered_collecting || apply unbounded_collecting || apply syslog_collecting); intros env items; try by eexists.
  - unfold AzureMonitorSink_send_batch. destruct (to_string_ok (JArr items)) as [s ->]. by eexists.
  - unfold AzureMonitorSink_send_batch. destruct (to_string_ok (JArr items)) as [s ->]. by eexists.
  - unfold ElasticsearchSink_send_batch. destruct (bulk_body_ok (ElasticsearchSink_get_index_name c env) items) as [s ->]. by eexists.
  - unfold WebhookSink_send_batch. destruct (wh_batch_as_array c); [|by eexists].
    destruct (to_string_ok (JArr items)) as [s ->]. by eexists.
Qed.

(** ** Runs of the logger *)

(** Interleavings of calls of [log], turns of the background task, and calls of
    [flush] and [close]; the last argument is what was logged. *)
Inductive audit_run (l0 : AuditLogger) (fs0 : DiskFiles) : AuditLogger -> DiskFiles -> list AuditEvent -> Prop :=
| run_start : audit_run l0 fs0 l0 fs0 []
| run_log l fs h e l' : audit_run l0 fs0 l fs h -> AuditLogger_log e l = Some l' -> audit_run l0 fs0 l' fs (h ++ [e])
| run_process env l fs h l' fs' : audit_run l0 fs0 l fs h -> AuditLogger_process_event env l fs = Some (l', fs') ->
    audit_run l0 fs0 l' fs' h
| run_flush env l fs h l' fs' r : audit_run l0 fs0 l fs h -> AuditLogger_flush env l fs = (l', fs', r) -> audit_run l0 fs0 l' fs' h
| run_close env l fs h l' fs' r : audit_run l0 fs0 l fs h -> AuditLogger_close env l fs = (l', fs', r) -> audit_run l0 fs0 l' fs' h.

Lemma send_to_sinks_batched env e events cs sinks fs : Forall2 (batched false events) cs sinks ->
  Forall2 (batched false (events ++ [e])) cs (send_to_sinks env e sinks fs).1.
Proof using JP.
  intros H. revert fs. induction H as [|c d cs sinks Hd _ IH]; intros fs; cbn [send_to_sinks]; [constructor|].
  pose proof (tracked_send _ (batched_tracked c) env e false events d fs Hd) as Hd'.
  destruct (dyn_run (fun _ ops => sink_send ops env e) d fs) as [[d' fs1] r]. specialize (IH fs1).
  destruct (send_to_sinks env e sinks fs1) as [rest fs2]. by constructor.
Qed.
(** A call that completes every sink, up to the first failure. *)
Lemma call_all_batched (call : forall St, AuditSink St -> M (St * DiskFiles) AuditError unit) events cs sinks fs :
  (forall c d fs, batched false events c d -> batched true events c (dyn_run call d fs).1.1) ->
  Forall2 (batched false events) cs sinks ->
  let '(sinks', _, r) := call_all call sinks fs in Forall2 (batched (is_ok r) events) cs sinks'.
Proof using JP.
  intros Hcall H. revert fs. induction H as [|c d cs sinks Hd Hs IH]; intros fs; cbn [call_all]; [constructor|].
  pose proof (Hcall c d fs Hd) as Hd'. destruct (dyn_run call d fs) as [[d' fs1] r]. cbn [fst] in Hd'.
  destruct r as [u|e|]; [specialize (IH fs1); destruct (call_all call sinks fs1) as [[rest fs2] r]|..];
    (constructor; [|done]); [destruct r; try done|..]; by apply (tracked_weaken _ (batched_tracked c) true).
Qed.

Lemma created_batched env cs sinks : create_sinks env cs = Ok sinks -> Forall2 (batched false []) cs sinks.
Proof.
  revert sinks. induction cs as [|c cs IH]; intros sinks H; cbn [create_sinks] in H; [inv H; constructor|].
  apply bind_Ok in H as (d & Hd & H). apply bind_Ok in H as (rest & Hrest & H). inv H. constructor; [|by apply IH].
  destruct c; try (injection Hd as <-); cbn [batched]; try done; eexists; split_and!; try reflexivity; try done.
  apply collect_new.
Qed.
Lemma flush_batched env events cs l fs : Forall2 (batched false events) cs (al_sinks l) ->
  let '(l', _, r) := AuditLogger_flush env l fs in Forall2 (batched (is_ok r) events) cs (al_sinks l') /\ al_queue l' = al_queue l.
Proof using JP.
  intros H. unfold AuditLogger_flush.
  pose proof (call_all_batched (fun _ ops => sink_flush ops env) events cs (al_sinks l) fs) as Hc.
  destruct (call_all _ (al_sinks l) fs) as [[sinks fs'] r]. split; [|done]. apply Hc; [|done].
  intros c d fs1. apply (tracked_flush _ (batched_tracked c)).
Qed.
Lemma close_batched env events cs l fs : Forall2 (batched false events) cs (al_sinks l) ->
  let '(l', _, r) := AuditLogger_close env l fs in Forall2 (batched (is_ok r) events) cs (al_sinks l') /\ al_queue l' = al_queue l.
Proof using JP.
  intros H. unfold AuditLogger_close.
  pose proof (call_all_batched (fun _ ops => sink_close ops env) events cs (al_sinks l) fs) as Hc.
  destruct (call_all _ (al_sinks l) fs) as [[sinks fs'] r]. split; [|done]. apply Hc; [|done].
  intros c d fs1. apply (tracked_close _ (batched_tracked c)).
Qed.
Lemma weaken_batched all events cs sinks : Forall2 (batched all events) cs sinks -> Forall2 (batched false events) cs sinks.
Proof using JP. intros H. eapply Forall2_impl; [exact H|]. intros c d. apply (tracked_weaken _ (batched_tracked c)). Qed.

Lemma audit_run_inv env0 config l0 fs0 l fs h : AuditLogger_new env0 config = Ok l0 -> ad_enabled config = true ->
  audit_run l0 fs0 l fs h ->
  al_enabled l = true /\ al_capacity l = ad_buffer_size config /\ (length (al_queue l) <= Z.to_nat (ad_buffer_size config))%nat /\
  exists past, h = past ++ al_queue l /\ Forall2 (batched false past) (ad_sinks config) (al_sinks l).
Proof using JP.
  intros Hnew He Hrun.
  induction Hrun as [|l fs h e l' _ IH Hl|env l fs h l' fs' _ IH Hp|env l fs h l' fs' r _ IH Hf|env l fs h l' fs' r _ IH Hc].
  - unfold AuditLogger_new in Hnew. case_match; [done|]. apply bind_Ok in Hnew as (sinks & Hs & Hnew). inv Hnew.
    split_and!; [done|done|cbn; lia|]. exists []. split; [done|]. by eapply created_batched.
  - destruct IH as (Hen & Hcap & Hlen & past & -> & Hd). unfold AuditLogger_log in Hl. rewrite Hen, Hcap in Hl. cbn [negb] in Hl.
    destruct (Z.ltb_spec (Z.of_nat (length (al_queue l))) (ad_buffer_size config)); [|done]. inv Hl. cbn.
    split_and!; [done|done|rewrite length_app; cbn; lia|]. exists past. by rewrite app_assoc.
  - destruct IH as (Hen & Hcap & Hlen & past & -> & Hd). unfold AuditLogger_process_event in Hp.
    destruct (al_queue l) as [|e queue]; [done|]. pose proof (send_to_sinks_batched env e past _ _ fs Hd) as Hd'.
    destruct (send_to_sinks env e (al_sinks l) fs) as [sinks fs1]. inv Hp. cbn in *.
    split_and!; [done|done|lia|]. exists (past ++ [e]). by rewrite <- app_assoc.
  - destruct IH as (Hen & Hcap & Hlen & past & -> & Hd). pose proof (flush_batched env past _ l fs Hd) as Hd'.
    rewrite Hf in Hd'. destruct Hd' as [Hd' Hq]. unfold AuditLogger_flush in Hf. destruct (call_all _ _ _) as [[??]?]. inv Hf.
    split_and!; [done|done|done|]. exists past. split; [done|]. by eapply weaken_batched.
  - destruct IH as (Hen & Hcap & Hlen & past & -> & Hd). pose proof (close_batched env past _ l fs Hd) as Hd'.
    rewrite Hc in Hd'. destruct Hd' as [Hd' Hq]. unfold AuditLogger_close in Hc. destruct (call_all _ _ _) as [[??]?]. inv Hc.
    split_and!; [done|done|done|]. exists past. split; [done|]. by eapply weaken_batched.
Qed.

(** C25 No audit event is lost, repeated or reordered on its way into a batch.
    Over every interleaving of callers that log, the background task, flushes
    and closes, the events logged are those processed followed by those in the
    channel, which never holds more than its capacity; at every collecting
    sink, the batches taken from the buffer so far and then the buffer hold
    exactly the entries of the events processed, in order; and after a flush
    that succeeds the buffer is empty.  The batches go to [send_batch], which
    in this version logs that it would send them and drops them: the theorem
    is about the collecting, not about a delivery.  What is still in the
    channel is not covered by a flush. *)
Theorem audit_batches_are_complete env0 config l0 fs0 l fs h
    (Hnew : AuditLogger_new env0 config = Ok l0) (He : ad_enabled config = true) (Hrun : audit_run l0 fs0 l fs h) :
  exists past, h = past ++ al_queue l /\
    (length (al_queue l) <= Z.to_nat (ad_buffer_size config))%nat /\
    Forall2 (batched false past) (ad_sinks config) (al_sinks l) /\
    forall env l' fs', AuditLogger_flush env l fs = (l', fs', Ok tt) ->
      Forall2 (batched true past) (ad_sinks config) (al_sinks l') /\ al_queue l' = al_queue l.
Proof using JP.
  destruct (audit_run_inv _ _ _ _ _ _ _ Hnew He Hrun) as (_ & _ & Hlen & past & Hh & Hd).
  exists past. split_and!; [done|done|done|]. intros env l' fs' Hf.
  pose proof (flush_batched env past _ l fs Hd) as Hd'. by rewrite Hf in Hd'.
Qed.
End Delivery.

(** ** Frames with octet counts *)
Fixpoint read_frames (fuel : nat) (s : str) : option (list str) :=
  match fuel with
  | O => None
  | S fuel' =>
      match s with
      | [] => Some []
      | _ =>
          i ← find_str [32] s; n ← parse_uint 64 (take i s);
          let rest := drop (S i) s in
          if (length rest <? Z.to_nat n)%nat then None
          else frames ← read_frames fuel' (drop (Z.to_nat n) rest); Some (take (Z.to_nat n) rest :: frames)
      end
  end.

Section Frames.
Context {Ch : Chrono} {AC : AuditClock} {JT : JsonText}.

Lemma read_frame m s fuel : Z.of_nat (length m) < 2 ^ 64 ->
  read_frames (S fuel) (fmt_dec (Z.of_nat (length m)) ++ [32] ++ m ++ s) =
  (fun frames => m :: frames) <$> read_frames fuel s.
Proof.
  intros Hm. set (n := Z.of_nat (length m)). pose proof (fmt_dec_token n ltac:(lia)) as [Hne Ht].
  assert (32 ∉ fmt_dec n) as H32.
  { intros H. apply (proj1 (Forall_forall _ _) Ht) in H as [H _]. by vm_compute in H. }
  cbn [read_frames]. change ([32] ++ m ++ s) with (32 :: m ++ s). rewrite find_first by done.
  destruct (fmt_dec n ++ 32 :: m ++ s) as [|b t] eqn:E; [by destruct (fmt_dec n)|]. rewrite <- E. clear E b t.
  change (Some (length (fmt_dec n)) ≫= ?f) with (f (length (fmt_dec n))). cbv beta.
  rewrite take_app_length, parse_uint_fmt by (unfold uint; lia).
  change (Some n ≫= ?f) with (f n). cbv beta zeta. rewrite (drop_app_ge (fmt_dec n)) by lia.
  replace (S (length (fmt_dec n)) - length (fmt_dec n))%nat with 1%nat by lia. change (drop 1 (32 :: m ++ s)) with (m ++ s).
  unfold n. rewrite Nat2Z.id, take_app_length, drop_app_length.
  destruct (Nat.ltb_spec (length (m ++ s)) (length m)) as [Hl|_]; [rewrite length_app in Hl; lia|]. by destruct (read_frames fuel s).
Qed.

(** With octet counting, the stream of a syslog connection is cut back into
    the messages, whatever they contain. *)
Theorem octet_frames_read_back c messages (Hc : sy_octet_counting c = true)
    (Hm : Forall (fun m => Z.of_nat (length m) < 2 ^ 64) messages) :
  exists target body, SyslogSink_send_messages c messages = Ok (target, body) /\
    read_frames (S (length messages)) body = Some messages.
Proof.
  eexists _, _. split; [reflexivity|]. induction Hm as [|m messages Hm _ IH]; [done|].
  cbn [map concat]. unfold SyslogSink_frame_message at 1. rewrite Hc, <- !app_assoc.
  change (length (m :: messages)) with (S (length messages)). by rewrite read_frame, IH.
Qed.

(** Without them, a line break in the message of an event ends the record: the
    rest of the message is a record of its own. *)
Definition with_message (m : str) (e : AuditEvent) : AuditEvent :=
  let 'mkEvent _ i t v c a s o _ ac ta sv h d g er du r tr := e in mkEvent _ i t v c a s o m ac ta sv h d g er du r tr.
Lemma syslog_ends_with_message config event : exists p, forall m,
  FormatEncoder_encode_syslog config (with_message m event) = Ok (p ++ m).
Proof.
  destruct event as [i t v c a s o m0 ac ta sv h d g er du r tr]. eexists. intros m. unfold FormatEncoder_encode_syslog, syslog_priority, event_name, structured_data.
  cbn [with_message ev_severity ev_timestamp ev_host ev_category ev_action ev_id ev_outcome ev_actor ev_message].
  rewrite !app_assoc. reflexivity.
Qed.
Lemma message_forges_record c config event m forged : sy_octet_counting c = false -> exists line line',
  FormatEncoder_encode_syslog config (with_message (m ++ [10] ++ forged) event) = Ok line' /\
  FormatEncoder_encode_syslog config (with_message m event) = Ok line /\
  SyslogSink_frame_message c line' = SyslogSink_frame_message c line ++ SyslogSink_frame_message c forged.
Proof.
  intros Hc. destruct (syslog_ends_with_message config event) as [p Hp]. exists (p ++ m), (p ++ m ++ [10] ++ forged).
  split_and!; [apply Hp|apply Hp|]. unfold SyslogSink_frame_message. by rewrite Hc, <- !app_assoc.
Qed.
End Frames.

(** ** Rotation *)

(** The backups of a file, newest first. *)
Definition backups (path : str) (n : nat) (fs : DiskFiles) (gs : list str) : Prop :=
  (length gs <= n)%nat /\ forall i, (1 <= i <= n)%nat -> fs !! backup_path path i = gs !! (i - 1)%nat.

Lemma backup_path_inj path i j : Z.of_nat i < 2 ^ 64 -> Z.of_nat j < 2 ^ 64 -> backup_path path i = backup_path path j -> i = j.
Proof.
  intros Hi Hj H. unfold backup_path in H. apply app_inv_head in H. injection H as H.
  apply (f_equal (parse_uint 64)) in H. rewrite !parse_uint_fmt in H by (unfold uint; lia). injection H as H. lia.
Qed.
Lemma backup_path_ne path i : backup_path path i <> path.
Proof. intros H. apply (f_equal length) in H. unfold backup_path in H. rewrite !length_app in H. cbn in H. lia. Qed.

Section Rotation.
Context (env : SinkEnv) (path : str) (Hren : forall a b, sn_rename env a b = true).
Implicit Types (fs : DiskFiles).

Lemma rename_lookup old new fs q : old <> new -> fs_rename env old new fs !! q =
  match fs !! old with
  | Some c => if decide (q = new) then Some c else if decide (q = old) then None else fs !! q
  | None => fs !! q
  end.
Proof using Hren.
  intros Hne. unfold fs_rename. destruct (fs !! old) as [c|] eqn:E; [|done]. rewrite Hren.
  destruct (decide (q = new)) as [->|]; [by rewrite lookup_insert_eq|]. rewrite lookup_insert_ne by congruence.
  destruct (decide (q = old)) as [->|]; [by rewrite lookup_delete_eq|]. by rewrite lookup_delete_ne by congruence.
Qed.

(** Compare the numbers of two backups. *)
Ltac same_backup :=
  repeat match goal with
  | |- context [@decide (backup_path path ?a = backup_path path ?b) ?inst] =>
      let E := fresh "E" in
      destruct (@decide (backup_path path a = backup_path path b) inst) as [E|E];
      [apply backup_path_inj in E; [try (exfalso; lia)|lia|lia] | try (exfalso; apply E; f_equal; lia)]
  end.
Lemma shift_lookup i fs j : Z.of_nat (S i) < 2 ^ 64 -> Z.of_nat j < 2 ^ 64 ->
  shift_backups env path i fs !! backup_path path j =
  if decide (2 <= j <= S i)%nat then
    match fs !! backup_path path (j - 1) with Some c => Some c | None => if decide (j = S i) then fs !! backup_path path j else None end
  else if decide (j = 1 /\ 1 <= i)%nat then None else fs !! backup_path path j.
Proof using Hren.
  intros Hi Hj. revert fs. induction i as [|i IH]; intros fs; cbn [shift_backups].
  { rewrite !decide_False by lia. done. }
  rewrite IH by lia. rewrite !rename_lookup by (intros H; apply backup_path_inj in H; lia).
  destruct (decide (j = S (S i))) as [->|Hj'].
  - rewrite (decide_False (P := (2 <= S (S i) <= S i)%nat)) by lia. rewrite (decide_False (P := (S (S i) = 1 /\ _)%nat)) by lia.
    rewrite (decide_True (P := (2 <= S (S i) <= S (S i))%nat)) by lia. replace (S (S i) - 1)%nat with (S i) by lia.
    same_backup. by destruct (fs !! backup_path path (S i)).
  - destruct (decide (2 <= j <= S i)%nat) as [Hr|Hr].
    + rewrite (decide_True (P := (2 <= j <= S (S i))%nat)) by lia.
      destruct (decide (j = S i)) as [->|]; same_backup;
        [by destruct (fs !! backup_path path (S i)), (fs !! backup_path path (S i - 1))|].
      by destruct (fs !! backup_path path (S i)), (fs !! backup_path path (j - 1)).
    + rewrite (decide_False (P := (2 <= j <= S (S i))%nat)) by lia.
      destruct (decide (j = 1 /\ 1 <= S i)%nat) as [[-> _]|Hn].
      * destruct i as [|i]; [|by rewrite decide_True by lia]. rewrite decide_False by lia. same_backup.
        by destruct (fs !! backup_path path 1).
      * rewrite decide_False by lia. same_backup. by destruct (fs !! backup_path path (S i)).
Qed.
Lemma shift_other i fs q : (forall j, (1 <= j <= S i)%nat -> q <> backup_path path j) -> Z.of_nat (S i) < 2 ^ 64 ->
  shift_backups env path i fs !! q = fs !! q.
Proof using Hren.
  revert fs. induction i as [|i IH]; intros fs Hq Hi; cbn [shift_backups]; [done|].
  rewrite IH by (lia || (intros j Hj; apply Hq; lia)). rewrite rename_lookup by (intros H; apply backup_path_inj in H; lia).
  destruct (fs !! backup_path path (S i)); [|done]. case_decide as E; [by apply Hq in E; [|lia]|].
  case_decide as E'; [by apply Hq in E'; [|lia]|]. done.
Qed.

Lemma rotated_backups n fs content gs (fs' := fs_rename env path (backup_path path 1) (shift_backups env path (n - 1) fs)) :
  (1 <= n)%nat -> Z.of_nat n < 2 ^ 63 -> fs !! path = Some content -> backups path n fs gs ->
  backups path n fs' (take n (content :: gs)) /\ fs' !! path = None /\
  forall q, q <> path -> (forall j, (1 <= j <= n)%nat -> q <> backup_path path j) -> fs' !! q = fs !! q.
Proof using Hren.
  intros Hn Hb Hp [Hlen Hgs]. pose proof (backup_path_ne path 1) as Hne1.
  assert (shift_backups env path (n - 1) fs !! path = Some content) as Hp'.
  { rewrite shift_other; [done| |lia]. intros j _. apply not_eq_sym, backup_path_ne. }
  unfold fs'. split_and!.
  - split; [rewrite length_take; lia|]. intros i Hi. rewrite rename_lookup, Hp' by done.
    destruct n as [|n]; [lia|]. cbn [take]. case_decide as E1.
    + apply backup_path_inj in E1; [subst i; done|lia|lia].
    + rewrite decide_False by apply backup_path_ne. rewrite shift_lookup by lia.
      assert (i <> 1%nat) as Hi1 by (intros ->; done). rewrite decide_True by lia.
      replace (S n - 1)%nat with n in * by lia. destruct i as [|[|i]]; [lia|lia|].
      replace (S (S i) - 1)%nat with (S i) by lia. rewrite (Hgs (S i)) by lia. replace (S i - 1)%nat with i by lia. change ((content :: take n gs) !! S i) with (take n gs !! i).
      rewrite lookup_take_lt by lia. destruct (gs !! i) eqn:Eg; [done|]. case_decide as El; [|done].
      rewrite Hgs by lia. injection El as El. apply lookup_ge_None in Eg. apply lookup_ge_None. lia.
  - rewrite rename_lookup, Hp' by done. rewrite decide_False by done. by rewrite decide_True.
  - intros q Hq Hj. rewrite rename_lookup, Hp' by done. rewrite decide_False by (apply Hj; lia). rewrite decide_False by done.
    apply shift_other; [|lia]. intros j Hjj. apply Hj. lia.
Qed.
End Rotation.

Section FileSink.
Context {Ch : Chrono} {AC : AuditClock} {JT : JsonText}.
Implicit Types (s : FileSinkState) (fs : DiskFiles).

(** Rotation keeps the newest files: when the operations succeed, the current
    file becomes the first backup, every backup moves up by one, and of these
    the configured number is kept; no other file changes, and the next line
    opens a new file. *)
Theorem rotation_keeps_newest c env s fs content gs (path := fk_current_path s) (n := Z.to_nat (fc_max_files c))
    (Hn : 1 <= fc_max_files c < 2 ^ 32) (Hflush : forall p, sn_flush env p = None)
    (Hren : forall a b, sn_rename env a b = true)
    (Hcur : fs !! path = Some content) (Hb : backups path n fs gs) :
  exists fs', FileSink_rotate c env (s, fs) = ((mkFileSink (fk_buffer s) None path 0, fs'), Ok tt) /\
    backups path n fs' (take n (content :: gs)) /\ fs' !! path = None /\
    forall q, q <> path -> (forall j, (1 <= j <= n)%nat -> q <> backup_path path j) -> fs' !! q = fs !! q.
Proof.
  eexists. split; [|eapply rotated_backups; eauto; lia].
  unfold FileSink_rotate, close_file, mbind, M_bind, get, modify, io_fail. cbn [fst snd].
  by destruct (fk_current_file s) as [p|]; [rewrite Hflush|].
Qed.

(** The sink appends the lines as they are. *)
Lemma append_lines_run env path lines s fs : (forall l, sn_write env path l = None) ->
  exists size, append_lines env path lines (s, fs)
    = ((fk_set (fk_current_file s) (fk_current_path s) size s,
        match lines with [] => fs | _ => <[path := default [] (fs !! path) ++ concat lines]> fs end), Ok tt).
Proof.
  intros Hw. revert s fs. induction lines as [|line lines IH]; intros s fs.
  { exists (fk_current_size s). by destruct s. }
  cbn [append_lines]. unfold append_line, io_fail, mbind, M_bind, modify. rewrite Hw. unfold mret, M_ret. cbn [fst snd].
  edestruct IH as [size ->]. exists size. unfold fk_set. cbn. f_equal. f_equal.
  destruct lines; [by rewrite app_nil_r|]. rewrite lookup_insert_eq, insert_insert_eq. cbn [default from_option id].
  by rewrite <- app_assoc.
Qed.
Lemma open_file_run c env s fs (path := fk_current_path s) (content := default [] (fs !! path)) :
  sn_open env path = None -> FileSink_resolve_path env (fc_path c) = path -> fk_current_file s = None ->
  FileSink_get_or_open_file c env (s, fs)
  = ((fk_set (Some path) path (Z.of_nat (length content)) s, <[path := content]> fs), Ok tt).
Proof.
  intros Ho Hpath Hfile. unfold FileSink_get_or_open_file, mbind, M_bind, get. cbn [fst snd].
  rewrite bool_decide_eq_true_2 by done. unfold mret, M_ret. cbn [fst]. rewrite Hfile. unfold io_fail. fold path. by rewrite Ho.
Qed.
Lemma write_lines_run c env s fs line lines (path := fk_current_path s) :
  (forall p, sn_open env p = None /\ sn_flush env p = None /\ forall l, sn_write env p l = None) ->
  FileSink_check_rotation c s = false -> FileSink_resolve_path env (fc_path c) = path -> fk_current_file s = None ->
  exists s', FileSink_write_lines c env (line :: lines) (s, fs)
    = ((s', <[path := default [] (fs !! path) ++ concat (line :: lines)]> fs), Ok tt).
Proof.
  intros Henv Hrot Hpath Hfile. destruct (Henv path) as (Ho & Hf & Hw).
  unfold FileSink_write_lines, mbind, M_bind, get. cbn [fst snd]. rewrite Hrot. unfold mret at 1, M_ret.
  rewrite open_file_run by done. cbn [fst fk_set fk_current_file]. fold path.
  edestruct (append_lines_run env path (line :: lines)) as [size E]; [done|]. rewrite E.
  rewrite lookup_insert_eq, insert_insert_eq. unfold io_fail. destruct (fc_sync_writes c); [rewrite Hf|]; by eexists.
Qed.

(** Only JSON lines end: the events of a CEF file are all on one line. *)
Lemma cef_events_share_a_line c env s fs events lines (path := fk_current_path s) :
  (forall p, sn_open env p = None /\ sn_flush env p = None /\ forall l, sn_write env p l = None) ->
  FileSink_check_rotation c s = false -> FileSink_resolve_path env (fc_path c) = path -> fk_current_file s = None ->
  fo_format (fc_format c) = Fmt_Cef -> fs !! path = None -> lines <> [] ->
  Forall (fun e => bare (ev_id e) /\ plain_ip e) events ->
  Forall2 (fun e l => FormatEncoder_encode (file_format c) e = Ok l) events lines ->
  exists s' text, FileSink_write_lines c env lines (s, fs) = ((s', <[path := text]> fs), Ok tt) /\ text = concat lines /\ 10 ∉ text.
Proof.
  intros Henv Hrot Hpath Hfile Hfmt Hnew Hne Hp Hl.
  assert (10 ∉ concat lines) as H10.
  { clear Hne. revert Hp. induction Hl as [|e l events lines He _ IH]; intros Hp; [apply not_elem_of_nil|]. inv Hp.
    cbn [concat]. rewrite not_elem_of_app. split; [|by apply IH].
    destruct (cef_one_line (fc_format c) e) as (l' & E & H); [apply H1..|].
    unfold file_format in He. rewrite Hfmt in He. rewrite He in E. by injection E as <-. }
  destruct lines as [|line lines]; [done|]. destruct (write_lines_run c env s fs line lines) as [s' E]; [done..|].
  fold path in E. rewrite Hnew in E. by exists s', (concat (line :: lines)).
Qed.
End FileSink.

(** ** The claims at concrete inputs *)
Section SinkWitnesses.
#[local] Existing Instances toy_chrono toy_uuids.
Definition bare_base64 : Base64 := {| b64url_encode s := s; b64url_decode := inl; b64_encode s := s; b64_decode := inl |}.
#[local] Existing Instances one_clock short_json bare_base64.

Definition calm_env : SinkEnv :=
  mkSinkEnv (lit "2025-01-01") (lit "12") (lit "2025.01.01") (lit "2025-01-01T12:00:00Z") None (fun _ => None) (fun _ => None)
    (fun _ => None) (fun _ _ => None) (fun _ _ => true).
Definition kafka_shop : KafkaConfig :=
  mkKafka [] (lit "audit") None None None None false None None None (fo_with_format Fmt_Cef FormatConfig_default) 2 None (lit "all") 5.
Definition shop_audit : AuditConfig :=
  mkAuditConfig true 10 [SinkKafka kafka_shop] FormatConfig_default false false false default_categories.
Definition shop_logger : AuditLogger := mkLogger [mkDyn (KafkaSink kafka_shop) buffered_new] [] 10 true.
Definition shop_queued : AuditLogger := mkLogger [mkDyn (KafkaSink kafka_shop) buffered_new] [login_event] 10 true.

Lemma short_json_prints : JsonPrints.
Proof. split. intros j. by eexists. Qed.

Lemma audit_batches_are_complete_witness :
  exists past, [login_event] = past ++ al_queue shop_queued /\
    Forall2 (batched false past) (ad_sinks shop_audit) (al_sinks shop_queued).
Proof.
  destruct (audit_batches_are_complete (JP := short_json_prints) calm_env shop_audit shop_logger ∅ shop_queued ∅ [login_event])
    as (past & H1 & _ & H2 & _).
  - reflexivity.
  - reflexivity.
  - apply (run_log shop_logger ∅ shop_logger ∅ [] login_event); [apply run_start|reflexivity].
  - by exists past.
Defined.

Definition counted_syslog : SyslogConfig :=
  mkSyslog (lit "192.0.2.1") 514 SyslogTcp 4 (lit "corevpn") None None None false false false true true 5.
Lemma octet_frames_read_back_witness :
  exists target body, SyslogSink_send_messages counted_syslog [lit "a b"; lit "c"] = Ok (target, body) /\
    read_frames 3 body = Some [lit "a b"; lit "c"].
Proof. apply (octet_frames_read_back counted_syslog [lit "a b"; lit "c"]); [reflexivity|repeat constructor; reflexivity]. Defined.

Definition rotating : FileConfig :=
  mkFileConfig (lit "audit.log") FormatConfig_default RotateSize 100 2 false 384 false 1.
Lemma rotation_keeps_newest_witness :
  exists fs', FileSink_rotate rotating calm_env (mkFileSink [] None (lit "audit.log") 200, {[ lit "audit.log" := lit "new"; lit "audit.log.1" := lit "old" ]})
    = ((mkFileSink [] None (lit "audit.log") 0, fs'), Ok tt) /\ backups (lit "audit.log") 2 fs' [lit "new"; lit "old"].
Proof.
  destruct (rotation_keeps_newest rotating calm_env (mkFileSink [] None (lit "audit.log") 200)
    {[ lit "audit.log" := lit "new"; lit "audit.log.1" := lit "old" ]} (lit "new") [lit "old"]) as (fs' & H1 & H2 & _).
  - cbn. lia.
  - reflexivity.
  - reflexivity.
  - vm_compute. reflexivity.
  - split; [cbn; lia|]. intros i Hi. change (Z.to_nat (fc_max_files rotating)) with 2%nat in Hi.
    destruct i as [|[|[|i]]]; [lia|vm_compute; reflexivity|vm_compute; reflexivity|lia].
  - by exists fs'.
Defined.
End SinkWitnesses.
