(* ===== verification/Users.v ===== *)
(** * Users

    src/crates/corevpn-core/src/user.rs: user ids, roles, users, the trait
    [UserStore] and the store in memory.  A store is a state with operations on
    it; a client is proved against the laws of the trait ([UserStoreLaws]), which
    the store in memory satisfies.  Readings of the clock and random ids are
    arguments. *)
From S2P Require Import Prelude Errors Text Network CoreSession Addr.
Local Open Scope Z_scope.

Section UserIds.
Context {UC : Unicode}.
Definition UserId_new (id : str) : str := id.
Definition UserId_from_email (email : str) : str := to_lowercase email.
Definition UserId_random (uuid : str) : str := uuid.
Definition UserId_as_str (id : str) : str := id.
End UserIds.

Inductive UserRole := Admin | RoleUser | Limited | ReadOnly | CustomRole (name : str).
#[export] Instance UserRole_eq_dec : EqDecision UserRole.
Proof. solve_decision. Defined.
Definition UserRole_default : UserRole := RoleUser.

Section Users.
Context {Ch : Chrono} {UC : Unicode} {N4 N6 : Type}.

Record User := mkUser {
  us_id : str;
  us_email : option str;
  us_name : option str;
  us_role : UserRole;
  us_enabled : bool;
  us_oauth_provider : option str;
  us_oauth_subject : option str;
  us_groups : list str;
  us_static_ip : option VpnAddress;
  us_custom_routes : list (@Route N4 N6);
  us_max_sessions : Z;
  us_created_at : DateTime;
  us_last_login : option DateTime;
  us_expires_at : option DateTime;
  us_metadata : gmap str str;
}.

Definition User_new (now : DateTime) (id : str) : User :=
  mkUser id None None UserRole_default true None None [] None [] 3 now None None ∅.

(** The clock is read for the creation and for the login. *)
Definition User_from_oauth (now login : DateTime) (provider subject : str) (email name : option str) (groups : list str) :
    User :=
  let id := match email with Some e => UserId_from_email e | None => UserId_new (provider ++ lit ":" ++ subject) end in
  mkUser id email name RoleUser true (Some provider) (Some subject) groups None [] 3 now (Some login) None ∅.

Definition User_is_expired (now : DateTime) (u : User) : bool :=
  match us_expires_at u with Some exp => dt_gt now exp | None => false end.
Definition User_can_connect (now : DateTime) (u : User) : bool := us_enabled u && negb (User_is_expired now u).
Definition User_in_group (group : str) (u : User) : bool := existsb (fun g => bool_decide (g = group)) (us_groups u).
Definition User_is_admin (u : User) : bool := match us_role u with Admin => true | _ => false end.
Definition us_set_groups (groups : list str) (u : User) : User :=
  mkUser (us_id u) (us_email u) (us_name u) (us_role u) (us_enabled u) (us_oauth_provider u) (us_oauth_subject u) groups
    (us_static_ip u) (us_custom_routes u) (us_max_sessions u) (us_created_at u) (us_last_login u) (us_expires_at u)
    (us_metadata u).
Definition User_record_login (now : DateTime) (u : User) : User :=
  mkUser (us_id u) (us_email u) (us_name u) (us_role u) (us_enabled u) (us_oauth_provider u) (us_oauth_subject u)
    (us_groups u) (us_static_ip u) (us_custom_routes u) (us_max_sessions u) (us_created_at u) (Some now)
    (us_expires_at u) (us_metadata u).
Definition User_with_email (email : str) (u : User) : User :=
  mkUser (us_id u) (Some email) (us_name u) (us_role u) (us_enabled u) (us_oauth_provider u) (us_oauth_subject u)
    (us_groups u) (us_static_ip u) (us_custom_routes u) (us_max_sessions u) (us_created_at u) (us_last_login u)
    (us_expires_at u) (us_metadata u).
Definition User_with_name (name : str) (u : User) : User :=
  mkUser (us_id u) (us_email u) (Some name) (us_role u) (us_enabled u) (us_oauth_provider u) (us_oauth_subject u)
    (us_groups u) (us_static_ip u) (us_custom_routes u) (us_max_sessions u) (us_created_at u) (us_last_login u)
    (us_expires_at u) (us_metadata u).
Definition User_with_role (role : UserRole) (u : User) : User :=
  mkUser (us_id u) (us_email u) (us_name u) role (us_enabled u) (us_oauth_provider u) (us_oauth_subject u)
    (us_groups u) (us_static_ip u) (us_custom_routes u) (us_max_sessions u) (us_created_at u) (us_last_login u)
    (us_expires_at u) (us_metadata u).
Definition User_add_group (group : str) (u : User) : User :=
  if User_in_group group u then u else us_set_groups (us_groups u ++ [group]) u.
Definition User_remove_group (group : str) (u : User) : User :=
  us_set_groups (filter (fun g => g <> group) (us_groups u)) u.

(** ** The trait *)
Class UserStore (S : Type) := {
  get_user : str -> S -> option User;
  get_user_by_email : str -> S -> option User;
  get_user_by_oauth : str -> str -> S -> option User;
  upsert_user : User -> M S CoreError unit;
  delete_user : str -> M S CoreError unit;
  list_users : S -> list User;
  get_users_in_group : str -> S -> list User;
}.

(** ** The store in memory *)
Record MemoryUserStore := mkUserStore { mu_users : gmap str User }.
Definition MemoryUserStore_new : MemoryUserStore := mkUserStore ∅.

(** [users.values()], in the order of [map_to_list]. *)
Definition mu_values (s : MemoryUserStore) : list User := snd <$> map_to_list (mu_users s).

Definition MemoryUserStore_get_user (id : str) (s : MemoryUserStore) : option User := mu_users s !! id.
Definition MemoryUserStore_get_user_by_email (email : str) (s : MemoryUserStore) : option User :=
  List.find (fun u => bool_decide (to_lowercase <$> us_email u = Some (to_lowercase email))) (mu_values s).
Definition MemoryUserStore_get_user_by_oauth (provider subject : str) (s : MemoryUserStore) : option User :=
  List.find (fun u => bool_decide (us_oauth_provider u = Some provider) && bool_decide (us_oauth_subject u = Some subject))
    (mu_values s).
Definition MemoryUserStore_upsert_user (user : User) : M MemoryUserStore CoreError unit :=
  modify (fun s => mkUserStore (<[us_id user := user]> (mu_users s))).
Definition MemoryUserStore_delete_user (id : str) : M MemoryUserStore CoreError unit :=
  modify (fun s => mkUserStore (delete id (mu_users s))).
Definition MemoryUserStore_list_users (s : MemoryUserStore) : list User := mu_values s.
Definition MemoryUserStore_get_users_in_group (group : str) (s : MemoryUserStore) : list User :=
  filter (fun u => User_in_group group u = true) (mu_values s).

#[export] Instance memory_user_store : UserStore MemoryUserStore := {|
  get_user := MemoryUserStore_get_user;
  get_user_by_email := MemoryUserStore_get_user_by_email;
  get_user_by_oauth := MemoryUserStore_get_user_by_oauth;
  upsert_user := MemoryUserStore_upsert_user;
  delete_user := MemoryUserStore_delete_user;
  list_users := MemoryUserStore_list_users;
  get_users_in_group := MemoryUserStore_get_users_in_group;
|}.
End Users.

(** ** What a store promises *)
Section Laws.
Context {Ch : Chrono} {UC : Unicode} {N4 N6 : Type}.
Implicit Types u : (@User Ch N4 N6).

Definition has_email_of (email : str) u : Prop := to_lowercase <$> us_email u = Some (to_lowercase email).
Definition has_oauth_of (provider subject : str) u : Prop :=
  us_oauth_provider u = Some provider /\ us_oauth_subject u = Some subject.

(** A lookup by an attribute finds a user that has it, if there is one. *)
Definition finds (P : (@User Ch N4 N6) -> Prop) (users : list (@User Ch N4 N6)) (r : option (@User Ch N4 N6)) : Prop :=
  match r with Some u => u ∈ users /\ P u | None => Forall (fun u => ~ P u) users end.

Class UserStoreLaws (S : Type) `{US : !UserStore (Ch := Ch) (N4 := N4) (N6 := N6) S} (ok : S -> Prop) : Prop := {
  upsert_law u s : ok s -> exists s', upsert_user u s = (s', Ok tt) /\ ok s' /\
    forall id, get_user id s' = if decide (us_id u = id) then Some u else get_user id s;
  delete_law id s : ok s -> exists s', delete_user id s = (s', Ok tt) /\ ok s' /\
    forall id', get_user id' s' = if decide (id = id') then None else get_user id' s;
  list_law s u : ok s -> u ∈ list_users s <-> get_user (us_id u) s = Some u;
  get_law s id u : ok s -> get_user id s = Some u -> us_id u = id;
  email_law s email : ok s -> finds (has_email_of email) (list_users s) (get_user_by_email email s);
  oauth_law s p q : ok s -> finds (has_oauth_of p q) (list_users s) (get_user_by_oauth p q s);
  group_law s g u : ok s -> u ∈ get_users_in_group g s <-> u ∈ list_users s /\ g ∈ us_groups u;
}.

(** The specification: the latest of the calls that concern an id. *)
Inductive StoreCall := Upsert (u : (@User Ch N4 N6)) | Delete (id : str).
Definition spec_step (id : str) (o : option (@User Ch N4 N6)) (c : StoreCall) : option (@User Ch N4 N6) :=
  match c with
  | Upsert u => if decide (us_id u = id) then Some u else o
  | Delete i => if decide (i = id) then None else o
  end.
Definition spec_user (cs : list StoreCall) (id : str) : option (@User Ch N4 N6) := foldl (spec_step id) None cs.
Definition is_user (cs : list StoreCall) u : Prop := spec_user cs (us_id u) = Some u.

Section Store.
Context {S : Type} `{US : !UserStore (Ch := Ch) (N4 := N4) (N6 := N6) S} {ok : S -> Prop} `{UL : !UserStoreLaws S ok}.

Definition store_call (c : StoreCall) : M S CoreError unit :=
  match c with Upsert u => upsert_user u | Delete id => delete_user id end.
Definition store_after (s : S) (cs : list StoreCall) : S := foldl (fun s c => fst (store_call c s)) s cs.

Lemma store_call_law c s : ok s -> ok (fst (store_call c s)) /\
  forall id, get_user id (fst (store_call c s)) = spec_step id (get_user id s) c.
Proof.
  intros Hs. destruct c as [u|i]; cbn [store_call spec_step].
  - destruct (upsert_law u s Hs) as (s' & -> & Hs' & Hg). split; [done|]. intros id. by rewrite Hg.
  - destruct (delete_law i s Hs) as (s' & -> & Hs' & Hg). split; [done|]. intros id. by rewrite Hg.
Qed.

Lemma store_after_law s cs : ok s -> ok (store_after s cs) /\
  forall id, get_user id (store_after s cs) = foldl (spec_step id) (get_user id s) cs.
Proof.
  revert s. induction cs as [|c cs IH]; intros s Hs; [done|]. cbn [store_after foldl].
  destruct (store_call_law c s Hs) as [Hs' Hg]. destruct (IH _ Hs') as [H1 H2]. split; [done|].
  intros id. rewrite <- Hg. apply H2.
Qed.

(** A store that satisfies the laws answers as the specification does. *)
Lemma store_refines s0 cs : ok s0 -> (forall id, get_user id s0 = None) ->
  let s := store_after s0 cs in
  (forall id, get_user id s = spec_user cs id) /\
  (forall u, u ∈ list_users s <-> is_user cs u) /\
  (forall email, match get_user_by_email email s with
                 | Some u => is_user cs u /\ has_email_of email u
                 | None => forall u, is_user cs u -> ~ has_email_of email u end) /\
  (forall p q, match get_user_by_oauth p q s with
               | Some u => is_user cs u /\ has_oauth_of p q u
               | None => forall u, is_user cs u -> ~ has_oauth_of p q u end) /\
  (forall g u, u ∈ get_users_in_group g s <-> is_user cs u /\ g ∈ us_groups u).
Proof.
  intros H0 Hempty s. destruct (store_after_law s0 cs H0) as [Hok Hg]. fold s in Hok, Hg.
  assert (forall id, get_user id s = spec_user cs id) as Hspec.
  { intros id. rewrite Hg, Hempty. done. }
  assert (forall u, u ∈ list_users s <-> is_user cs u) as Hlist.
  { intros u. rewrite list_law by done. by rewrite Hspec. }
  assert (forall P r, finds P (list_users s) r -> match r with
    | Some u => is_user cs u /\ P u | None => forall u, is_user cs u -> ~ P u end) as Hfind.
  { intros P [u|]; cbn [finds]; [rewrite Hlist; done|]. intros HF u Hu. rewrite Forall_forall in HF. by apply HF, Hlist. }
  split_and!; [done|done|intros; by apply Hfind, email_law|intros; by apply Hfind, oauth_law|].
  intros g u. by rewrite group_law, Hlist.
Qed.
End Store.

(** ** The store in memory keeps the promise *)
Definition keyed (s : (@MemoryUserStore Ch N4 N6)) : Prop := map_Forall (fun id u => us_id u = id) (mu_users s).

Lemma values_iff s u : keyed s -> u ∈ mu_values s <-> mu_users s !! us_id u = Some u.
Proof.
  intros Hs. unfold mu_values. rewrite list_elem_of_fmap. split.
  - intros ([id x] & -> & H%elem_of_map_to_list). cbn in *. by rewrite (Hs id x H).
  - intros H. exists (us_id u, u). split; [done|]. by apply elem_of_map_to_list.
Qed.

Lemma find_finds (P : (@User Ch N4 N6) -> Prop) (f : (@User Ch N4 N6) -> bool) us :
  (forall u, f u = true <-> P u) -> finds P us (List.find f us).
Proof.
  intros Hf. unfold finds. destruct (List.find f us) as [u|] eqn:Hu.
  - apply List.find_some in Hu as [Hin Hu]. split; [by apply list_elem_of_In|by apply Hf].
  - apply Forall_forall. intros u Hin Hp. apply list_elem_of_In in Hin. apply Hf in Hp.
    by rewrite (List.find_none _ _ Hu u Hin) in Hp.
Qed.

#[export] Instance memory_user_store_laws : UserStoreLaws (@MemoryUserStore Ch N4 N6) keyed.
Proof.
  split.
  - intros u s Hs. eexists. split_and!; [done|by apply map_Forall_insert_2|]. intros id. cbn.
    case_decide; subst; [apply lookup_insert_eq|by apply lookup_insert_ne].
  - intros id s Hs. eexists. split_and!; [done|by apply map_Forall_delete|]. intros id'. cbn.
    case_decide; subst; [apply lookup_delete_eq|by apply lookup_delete_ne].
  - intros s u Hs. by apply values_iff.
  - intros s id u Hs Hu. by apply (Hs id u).
  - intros s email Hs. apply find_finds. intros u. apply bool_decide_eq_true.
  - intros s p q Hs. apply find_finds. intros u. by rewrite andb_true_iff, !bool_decide_eq_true.
  - intros s g u Hs. cbn. unfold MemoryUserStore_get_users_in_group. rewrite list_elem_of_filter.
    unfold User_in_group. rewrite existsb_exists. setoid_rewrite bool_decide_eq_true. setoid_rewrite <- list_elem_of_In.
    naive_solver.
Qed.

(** C31 The store in memory is a map from ids to users: after every sequence of
    upserts and deletions each lookup (by id, by e-mail address in any case, by
    OAuth identity, the list, the members of a group) answers from exactly the
    users that were last upserted under their id and not deleted since. *)
Theorem memory_store_refines_history (cs : list StoreCall) :
  let s := store_after (US := memory_user_store) MemoryUserStore_new cs in
  (forall id, MemoryUserStore_get_user id s = spec_user cs id) /\
  (forall u, u ∈ MemoryUserStore_list_users s <-> is_user cs u) /\
  (forall email, match MemoryUserStore_get_user_by_email email s with
                 | Some u => is_user cs u /\ has_email_of email u
                 | None => forall u, is_user cs u -> ~ has_email_of email u end) /\
  (forall p q, match MemoryUserStore_get_user_by_oauth p q s with
               | Some u => is_user cs u /\ has_oauth_of p q u
               | None => forall u, is_user cs u -> ~ has_oauth_of p q u end) /\
  (forall g u, u ∈ MemoryUserStore_get_users_in_group g s <-> is_user cs u /\ g ∈ us_groups u).
Proof.
  refine (store_refines (US := memory_user_store) (UL := memory_user_store_laws) MemoryUserStore_new cs _ _).
  - apply map_Forall_empty.
  - intros id. cbn. unfold MemoryUserStore_get_user. cbn. apply lookup_empty.
Qed.

(** Logins with the same e-mail address share one account, whatever their
    provider: storing the later one replaces the earlier one. *)
Lemma oauth_logins_share_account (s : (@MemoryUserStore Ch N4 N6)) t1 l1 t2 l2 p1 q1 p2 q2 e1 e2 n1 n2 g1 g2 :
  to_lowercase e1 = to_lowercase e2 ->
  let u1 := User_from_oauth t1 l1 p1 q1 (Some e1) n1 g1 in
  let u2 := User_from_oauth t2 l2 p2 q2 (Some e2) n2 g2 in
  MemoryUserStore_get_user (us_id u1)
    (fst (MemoryUserStore_upsert_user u2 (fst (MemoryUserStore_upsert_user u1 s)))) = Some u2.
Proof.
  intros He u1 u2. unfold MemoryUserStore_get_user. cbn [MemoryUserStore_upsert_user modify fst mu_users].
  replace (us_id u1) with (us_id u2) by (cbn; unfold UserId_from_email; congruence). apply lookup_insert_eq.
Qed.
End Laws.
