(* ===== verification/Keys.v ===== *)
(** * Key types

    src/crates/corevpn-crypto/src/keys.rs: the wrappers of X25519 and Ed25519
    keys.  The crates x25519-dalek and ed25519-dalek are the class [Dalek];
    zeroization has no functional effect.  A key is drawn from the random
    bytes that the caller passes. *)
From S2P Require Import Prelude Errors.
Local Open Scope Z_scope.

Class Dalek := {
  XSecret : Type;
  XPublic : Type;
  XShared : Type;
  EdSigning : Type;
  EdVerifying : Type;
  EdSignature : Type;
  (** x25519-dalek: from and to 32 bytes, the public key, the exchange. *)
  xs_from_bytes : bytes -> XSecret;
  xs_to_bytes : XSecret -> bytes;
  xs_public : XSecret -> XPublic;
  xs_diffie_hellman : XSecret -> XPublic -> XShared;
  xp_from_bytes : bytes -> XPublic;
  xp_as_bytes : XPublic -> bytes;
  xsh_as_bytes : XShared -> bytes;
  (** ed25519-dalek; bytes that are no point of the curve are refused. *)
  ed_from_bytes : bytes -> EdSigning;
  ed_to_bytes : EdSigning -> bytes;
  ed_verifying : EdSigning -> EdVerifying;
  ed_sign : EdSigning -> bytes -> EdSignature;
  ev_from_bytes : bytes -> option EdVerifying;
  ev_as_bytes : EdVerifying -> bytes;
  ev_verify : EdVerifying -> bytes -> EdSignature -> bool;
  es_from_bytes : bytes -> EdSignature;
  es_to_bytes : EdSignature -> bytes;
}.
(** Their documented behaviour: the exchange commutes, a signature verifies
    under the key of the signer, and encodings are read back. *)
Class DalekLaws (DK : Dalek) : Prop := {
  dh_commutes a b : xs_diffie_hellman a (xs_public b) = xs_diffie_hellman b (xs_public a);
  sign_verifies k m : ev_verify (ed_verifying k) m (ed_sign k m) = true;
  xs_reads b : length b = 32%nat -> xs_to_bytes (xs_from_bytes b) = b;
  xs_restores s : xs_from_bytes (xs_to_bytes s) = s;
  xp_restores p : xp_from_bytes (xp_as_bytes p) = p;
  xp_length p : length (xp_as_bytes p) = 32%nat;
  ed_restores k : ed_from_bytes (ed_to_bytes k) = k;
  ev_restores v : ev_from_bytes (ev_as_bytes v) = Some v;
  es_restores s : es_from_bytes (es_to_bytes s) = s;
}.

Section Keys.
Context {DK : Dalek}.

Record StaticSecret := mkStaticSecret { ss_inner : XSecret }.
Record PublicKey := mkPublicKey { pk_inner : XPublic }.
Record SharedSecret := mkSharedSecret { sh_inner : XShared }.

(** [random_from_rng(OsRng)] fills 32 bytes. *)
Definition StaticSecret_generate (random : bytes) : StaticSecret := mkStaticSecret (xs_from_bytes random).
Definition StaticSecret_from_bytes (b : bytes) : StaticSecret := mkStaticSecret (xs_from_bytes b).
Definition StaticSecret_public_key (s : StaticSecret) : PublicKey := mkPublicKey (xs_public (ss_inner s)).
Definition StaticSecret_diffie_hellman (s : StaticSecret) (their_public : PublicKey) : SharedSecret :=
  mkSharedSecret (xs_diffie_hellman (ss_inner s) (pk_inner their_public)).
Definition StaticSecret_to_bytes (s : StaticSecret) : bytes := xs_to_bytes (ss_inner s).

Definition PublicKey_from_bytes (b : bytes) : PublicKey := mkPublicKey (xp_from_bytes b).
Definition PublicKey_as_bytes (k : PublicKey) : bytes := xp_as_bytes (pk_inner k).
Definition PublicKey_to_bytes (k : PublicKey) : bytes := xp_as_bytes (pk_inner k).
(** [serde_bytes_array]: an array of 32 bytes. *)
Definition PublicKey_serialize (k : PublicKey) : list Z := xp_as_bytes (pk_inner k).
Definition PublicKey_deserialize (l : list Z) : option PublicKey :=
  if (length l =? 32)%nat && forallb (fun b => bool_decide (u8 b)) l then Some (mkPublicKey (xp_from_bytes l)) else None.

Definition SharedSecret_as_bytes (s : SharedSecret) : bytes := xsh_as_bytes (sh_inner s).

Record SigningKey := mkSigningKey { sk_inner : EdSigning }.
Record VerifyingKey := mkVerifyingKey { vk_inner : EdVerifying }.
Record Signature := mkSignature { sig_inner : EdSignature }.

Definition SigningKey_generate (random : bytes) : SigningKey := mkSigningKey (ed_from_bytes random).
Definition SigningKey_from_bytes (b : bytes) : SigningKey := mkSigningKey (ed_from_bytes b).
Definition SigningKey_verifying_key (k : SigningKey) : VerifyingKey := mkVerifyingKey (ed_verifying (sk_inner k)).
Definition SigningKey_sign (k : SigningKey) (message : bytes) : Signature := mkSignature (ed_sign (sk_inner k) message).
Definition SigningKey_to_bytes (k : SigningKey) : bytes := ed_to_bytes (sk_inner k).

Definition VerifyingKey_from_bytes (b : bytes) : res CryptoError VerifyingKey :=
  match ev_from_bytes b with
  | Some inner => Ok (mkVerifyingKey inner)
  | None => Err (InvalidKeyLength 32 (length b))
  end.
Definition VerifyingKey_verify (k : VerifyingKey) (message : bytes) (signature : Signature) : res CryptoError unit :=
  if ev_verify (vk_inner k) message (sig_inner signature) then Ok tt else Err InvalidSignature.
Definition VerifyingKey_as_bytes (k : VerifyingKey) : bytes := ev_as_bytes (vk_inner k).

Definition Signature_from_bytes (b : bytes) : Signature := mkSignature (es_from_bytes b).
Definition Signature_to_bytes (s : Signature) : bytes := es_to_bytes (sig_inner s).

Record KeyPair := mkKeyPair { kp_exchange : StaticSecret; kp_signing : SigningKey }.
Definition KeyPair_generate (r1 r2 : bytes) : KeyPair := mkKeyPair (StaticSecret_generate r1) (SigningKey_generate r2).

Record EphemeralKeyPair := mkEphemeral { ek_secret : StaticSecret; ek_public : PublicKey }.
Definition EphemeralKeyPair_generate (random : bytes) : EphemeralKeyPair :=
  let secret := StaticSecret_generate random in
  mkEphemeral secret (StaticSecret_public_key secret).
Definition EphemeralKeyPair_public_key (e : EphemeralKeyPair) : PublicKey := ek_public e.
Definition EphemeralKeyPair_diffie_hellman (e : EphemeralKeyPair) (their_public : PublicKey) : SharedSecret :=
  StaticSecret_diffie_hellman (ek_secret e) their_public.

Context {DL : DalekLaws DK}.

(** An ephemeral key and a static one agree on a secret when each has the
    bytes of the other's public key, as they go over the network. *)
Lemma ephemeral_exchange_agrees random (server : StaticSecret) :
  let client := EphemeralKeyPair_generate random in
  EphemeralKeyPair_diffie_hellman client (PublicKey_from_bytes (PublicKey_to_bytes (StaticSecret_public_key server))) =
  StaticSecret_diffie_hellman server (PublicKey_from_bytes (PublicKey_to_bytes (EphemeralKeyPair_public_key client))).
Proof.
  destruct server as [s]. cbn.
  unfold EphemeralKeyPair_diffie_hellman, StaticSecret_diffie_hellman, PublicKey_from_bytes, PublicKey_to_bytes. cbn.
  by rewrite !xp_restores, dh_commutes.
Qed.

(** A signature and the key that checks it survive their encodings, and a
    restored signing key signs for the same verifying key. *)
Lemma signature_crosses_the_wire (k : SigningKey) message :
  exists v, VerifyingKey_from_bytes (VerifyingKey_as_bytes (SigningKey_verifying_key (SigningKey_from_bytes (SigningKey_to_bytes k))))
            = Ok v /\
    VerifyingKey_verify v message (Signature_from_bytes (Signature_to_bytes (SigningKey_sign k message))) = Ok tt.
Proof.
  destruct k as [k]. unfold VerifyingKey_from_bytes, VerifyingKey_as_bytes, SigningKey_from_bytes, SigningKey_to_bytes. cbn.
  rewrite ed_restores, ev_restores. eexists. split; [done|]. unfold VerifyingKey_verify, Signature_from_bytes. cbn.
  unfold Signature_to_bytes. cbn. by rewrite es_restores, sign_verifies.
Qed.

(** Bytes of the right length that are no key are reported as of the wrong
    length: 32 instead of 32. *)
Lemma bad_point_is_a_length_error b : length b = 32%nat -> ev_from_bytes b = None ->
  VerifyingKey_from_bytes b = Err (InvalidKeyLength 32 32).
Proof. intros Hl Hb. unfold VerifyingKey_from_bytes. by rewrite Hb, Hl. Qed.

Lemma public_key_reads_back k : bytes_ok (PublicKey_as_bytes k) -> PublicKey_deserialize (PublicKey_serialize k) = Some k.
Proof.
  intros Hb. destruct k as [p]. unfold PublicKey_deserialize, PublicKey_serialize. cbn [pk_inner] in *.
  rewrite xp_length, xp_restores. cbn [Nat.eqb andb].
  replace (forallb _ _) with true; [done|]. symmetry. apply forallb_forall. intros x Hx. apply bool_decide_eq_true.
  unfold bytes_ok in Hb. rewrite Forall_forall in Hb. apply Hb. by apply list_elem_of_In.
Qed.
End Keys.

(** The laws are consistent: an exchange with one public key. *)
Definition unit_dalek : Dalek := {|
  XSecret := bytes; XPublic := unit; XShared := unit; EdSigning := bytes; EdVerifying := unit; EdSignature := bytes;
  xs_from_bytes b := b; xs_to_bytes s := s; xs_public _ := tt; xs_diffie_hellman _ _ := tt;
  xp_from_bytes _ := tt; xp_as_bytes _ := replicate 32 9; xsh_as_bytes _ := replicate 32 0;
  ed_from_bytes b := b; ed_to_bytes k := k; ed_verifying _ := tt; ed_sign k m := m;
  ev_from_bytes b := if bool_decide (b = replicate 32 1) then Some tt else None; ev_as_bytes _ := replicate 32 1;
  ev_verify _ m s := bool_decide (m = s); es_from_bytes b := b; es_to_bytes s := s;
|}.
Lemma unit_dalek_laws : DalekLaws unit_dalek.
Proof. split; try done; try (by intros []). intros k m. by apply bool_decide_eq_true. Qed.
