(* ===== verification/TlsDriver.v ===== *)
(** * The TLS driver

    src/crates/corevpn-protocol/src/tls.rs: [TlsHandler] and
    [TlsClientHandler], which move TLS records between the control channel
    and a rustls connection, the loading of certificates and keys, and the
    client's certificate verifier.

    rustls and rustls-pemfile are interfaces.  A rustls connection is a state
    machine with the operations the driver calls; [rl_buffered] is the number
    of bytes of TLS data that wait to be written.  The client and the server
    side of the source are the same code over two connection types, so the
    operations are defined once, over the class, and named for both. *)
From S2P Require Import Prelude Errors Text.

(** [std::io::Error], as far as the driver looks at it. *)
Inductive io_error := WouldBlock | OtherIo (msg : str).

(** [rustls::ProtocolVersion], by the name the driver distinguishes. *)
Inductive ProtocolVersion := TLSv1_0 | TLSv1_2 | TLSv1_3 | OtherVersion.

Class Rustls (Config Conn : Type) := {
  (** [Connection::new]; an error is its message. *)
  rl_new : Config -> Conn + str;
  (** [read_tls] from a slice: how many bytes were consumed. *)
  rl_read_tls : bytes -> Conn -> Conn * (nat + io_error);
  rl_process_new_packets : Conn -> Conn * (unit + str);
  (** [write_tls] to a writer that accepts everything: what was written. *)
  rl_write_tls : Conn -> Conn * (bytes * (nat + io_error));
  (** [reader().read(buf)] into a buffer of the given size: what was read. *)
  rl_read : nat -> Conn -> Conn * (bytes + io_error);
  (** [writer().write(data)]. *)
  rl_write : bytes -> Conn -> Conn * (nat + io_error);
  rl_is_handshaking : Conn -> bool;
  rl_wants_write : Conn -> bool;
  rl_export : Conn -> nat -> bytes -> option bytes -> bytes + str;
  rl_peer_certificates : Conn -> option (list bytes);
  (** The negotiated suite, with its name if it has one. *)
  rl_cipher_suite : Conn -> option (option str);
  rl_protocol_version : Conn -> option ProtocolVersion;
  rl_buffered : Conn -> nat;
}.

Class RustlsLaws {Config Conn : Type} (R : Rustls Config Conn) : Prop := {
  (** The contract of [Read]: no more than was offered. *)
  read_tls_le d c c' n : rl_read_tls d c = (c', inl n) -> n <= length d;
  (** [write_tls] returns the number of bytes it wrote; they leave the buffer. *)
  write_tls_eq c c' out n : rl_write_tls c = (c', (out, inl n)) ->
    length out = n /\ rl_buffered c = n + rl_buffered c';
  read_le n c c' bs : rl_read n c = (c', inl bs) -> length bs <= n;
  write_le d c c' n : rl_write d c = (c', inl n) -> n <= length d;
}.

Section Handler.
Context {Config Conn : Type} `{RL : !Rustls Config Conn}.

Record TlsHandler := mkTls {
  th_conn : Conn;
  th_incoming : bytes;
  th_outgoing : bytes;
  th_handshake_complete : bool;
}.
Definition th_set_conn c h := mkTls c (th_incoming h) (th_outgoing h) (th_handshake_complete h).
Definition th_set_incoming b h := mkTls (th_conn h) b (th_outgoing h) (th_handshake_complete h).
Definition th_set_outgoing b h := mkTls (th_conn h) (th_incoming h) b (th_handshake_complete h).
Definition th_set_complete b h := mkTls (th_conn h) (th_incoming h) (th_outgoing h) b.

Definition TlsHandler_new (config : Config) : res ProtocolError TlsHandler :=
  match rl_new config with
  | inl conn => Ok (mkTls conn [] [] false)
  | inr e => Err (TlsError e)
  end.

(** The read at the head of [process_tls]; [split_to(n)] panics when [n] is
    past the end. *)
Definition TlsHandler_feed : M TlsHandler ProtocolError unit := fun h =>
  let '(c, r) := rl_read_tls (th_incoming h) (th_conn h) in
  let h := th_set_conn c h in
  match r with
  | inl O => (h, Ok tt)
  | inl n =>
      if n <=? length (th_incoming h)
      then (th_set_incoming (drop n (th_incoming h)) h, Ok tt) else (h, Panic)
  | inr WouldBlock => (h, Ok tt)
  | inr (OtherIo e) => (h, Err (TlsError e))
  end.

(** The state changes after the read. *)
Definition TlsHandler_advance : M TlsHandler ProtocolError unit := fun h =>
  let '(c, r) := rl_process_new_packets (th_conn h) in
  let h := th_set_conn c h in
  match r with
  | inl _ =>
      (if negb (th_handshake_complete h) && negb (rl_is_handshaking c)
       then th_set_complete true h else h, Ok tt)
  | inr e => (h, Err (TlsError e))
  end.

Definition TlsHandler_process_tls : M TlsHandler ProtocolError unit :=
  _ ← TlsHandler_feed;
  TlsHandler_advance.

Definition TlsHandler_process_incoming (data : bytes) : M TlsHandler ProtocolError unit :=
  _ ← modify (fun h => th_set_incoming (th_incoming h ++ data) h);
  TlsHandler_process_tls.

Definition TlsHandler_process_tls_records (records : list bytes) : M TlsHandler ProtocolError unit :=
  _ ← modify (fun h => th_set_incoming
                (fold_left (fun buf record => buf ++ record) records (th_incoming h)) h);
  TlsHandler_process_tls.

(** [VecWriter] appends everything to the buffer it wraps. *)
Definition VecWriter_write (buf data : bytes) : bytes * nat := (buf ++ data, length data).

Definition TlsHandler_get_outgoing : M TlsHandler ProtocolError (option bytes) := fun h =>
  let h := th_set_outgoing [] h in
  let '(c, (out, r)) := rl_write_tls (th_conn h) in
  let h := th_set_outgoing (fst (VecWriter_write (th_outgoing h) out)) (th_set_conn c h) in
  (h, match r with
      | inl O => Ok None
      | inl _ => Ok (Some (th_outgoing h))
      | inr WouldBlock => Ok None
      | inr (OtherIo e) => Err (TlsError e)
      end).

Definition TlsHandler_is_handshake_complete (h : TlsHandler) : bool := th_handshake_complete h.
Definition TlsHandler_is_handshaking (h : TlsHandler) : bool := rl_is_handshaking (th_conn h).
Definition TlsHandler_wants_write (h : TlsHandler) : bool := rl_wants_write (th_conn h).

(** The bytes put into a buffer of [size] bytes; none when it would block. *)
Definition TlsHandler_read_plaintext (size : nat) : M TlsHandler ProtocolError bytes := fun h =>
  let '(c, r) := rl_read size (th_conn h) in
  (th_set_conn c h,
   match r with
   | inl bs => Ok bs
   | inr WouldBlock => Ok []
   | inr (OtherIo e) => Err (TlsError e)
   end).

(** The message of an I/O error; [WouldBlock] is the system's. *)
Definition io_message (would_block : str) (e : io_error) : str :=
  match e with WouldBlock => would_block | OtherIo m => m end.

Definition TlsHandler_write_plaintext (data : bytes) : M TlsHandler ProtocolError nat := fun h =>
  let '(c, r) := rl_write data (th_conn h) in
  (th_set_conn c h,
   match r with
   | inl n => Ok n
   | inr e => Err (TlsError (io_message (lit "operation would block") e))
   end).

Definition TlsHandler_export_keying_material (h : TlsHandler) (size : nat) (label : bytes)
    (context : option bytes) : res ProtocolError bytes :=
  match rl_export (th_conn h) size label context with
  | inl out => Ok out
  | inr e => Err (TlsError (lit "EKM export failed: " ++ e))
  end.

Definition TlsHandler_peer_certificates (h : TlsHandler) : option (list bytes) :=
  rl_peer_certificates (th_conn h).
Definition TlsHandler_cipher_suite (h : TlsHandler) : option str :=
  default (lit "unknown") <$> rl_cipher_suite (th_conn h).
Definition TlsHandler_protocol_version (h : TlsHandler) : option str :=
  (fun v => match v with
            | TLSv1_0 => lit "TLS 1.0"
            | TLSv1_2 => lit "TLS 1.2"
            | TLSv1_3 => lit "TLS 1.3"
            | OtherVersion => lit "unknown"
            end) <$> rl_protocol_version (th_conn h).

End Handler.
Arguments TlsHandler : clear implicits.

(** ** The client side: the same operations over a client connection *)
Section ClientHandler.
Context {Config Conn : Type} `{RL : !Rustls Config Conn}.

Definition TlsClientHandler : Type := TlsHandler Conn.
(** [config] stands for the client configuration and the server name. *)
Definition TlsClientHandler_new : Config -> res ProtocolError TlsClientHandler := TlsHandler_new.
Definition TlsClientHandler_process_tls : M TlsClientHandler ProtocolError unit := TlsHandler_process_tls.
Definition TlsClientHandler_process_incoming : bytes -> M TlsClientHandler ProtocolError unit :=
  TlsHandler_process_incoming.
Definition TlsClientHandler_process_tls_records : list bytes -> M TlsClientHandler ProtocolError unit :=
  TlsHandler_process_tls_records.
Definition TlsClientHandler_get_outgoing : M TlsClientHandler ProtocolError (option bytes) :=
  TlsHandler_get_outgoing.
Definition TlsClientHandler_is_handshake_complete : TlsClientHandler -> bool :=
  TlsHandler_is_handshake_complete.
Definition TlsClientHandler_is_handshaking : TlsClientHandler -> bool := TlsHandler_is_handshaking.
Definition TlsClientHandler_wants_write : TlsClientHandler -> bool := TlsHandler_wants_write.
Definition TlsClientHandler_read_plaintext : nat -> M TlsClientHandler ProtocolError bytes :=
  TlsHandler_read_plaintext.
Definition TlsClientHandler_write_plaintext : bytes -> M TlsClientHandler ProtocolError nat :=
  TlsHandler_write_plaintext.
Definition TlsClientHandler_export_keying_material :
    TlsClientHandler -> nat -> bytes -> option bytes -> res ProtocolError bytes :=
  TlsHandler_export_keying_material.
Definition TlsClientHandler_cipher_suite : TlsClientHandler -> option str := TlsHandler_cipher_suite.
Definition TlsClientHandler_protocol_version : TlsClientHandler -> option str :=
  TlsHandler_protocol_version.
End ClientHandler.

(** ** Certificates and keys *)
Inductive PrivateKeyDer := Pkcs8 (der : bytes) | Pkcs1 (der : bytes) | Sec1 (der : bytes).

(** [rustls_pemfile::Item]: the three kinds of key, or another item. *)
Inductive PemItem := Pkcs8Key (der : bytes) | Pkcs1Key (der : bytes) | Sec1Key (der : bytes) | OtherItem.

Class RustlsPki := {
  (** [rustls_pemfile::certs] and [read_all]. *)
  pem_certs : str -> list (bytes + str);
  pem_read_all : str -> list (PemItem + str);
  (** A trust anchor and [RootCertStore::add], which parses a certificate. *)
  TrustAnchor : Type;
  anchor_of_cert : bytes -> TrustAnchor + str;
  (** [with_single_cert] of a server configuration, with the client verifier. *)
  ServerTlsConfig : Type;
  ClientVerifier : Type;
  build_server_config : option ClientVerifier -> list bytes -> PrivateKeyDer -> ServerTlsConfig + str;
}.

Section Pki.
Context {PKI : RustlsPki}.

Definition create_server_config (cert_chain : list bytes) (key : PrivateKeyDer)
    (client_cert_verifier : option ClientVerifier) : res ProtocolError ServerTlsConfig :=
  match build_server_config client_cert_verifier cert_chain key with
  | inl config => Ok config
  | inr e => Err (TlsError e)
  end.

Fixpoint collect_certs (items : list (bytes + str)) : res ProtocolError (list bytes) :=
  match items with
  | [] => Ok []
  | inl c :: items' => certs ← collect_certs items'; Ok (c :: certs)
  | inr e :: _ => Err (TlsError (lit "Failed to parse cert: " ++ e))
  end.
Definition load_certs_from_pem (pem : str) : res ProtocolError (list bytes) :=
  collect_certs (pem_certs pem).

Fixpoint first_key (items : list (PemItem + str)) : res ProtocolError PrivateKeyDer :=
  match items with
  | [] => Err (TlsError (lit "No private key found in PEM"))
  | inl (Pkcs8Key key) :: _ => Ok (Pkcs8 key)
  | inl (Pkcs1Key key) :: _ => Ok (Pkcs1 key)
  | inl (Sec1Key key) :: _ => Ok (Sec1 key)
  | _ :: items' => first_key items'
  end.
Definition load_key_from_pem (pem : str) : res ProtocolError PrivateKeyDer := first_key (pem_read_all pem).

(** *** The client's verifier *)
Record CoreVpnServerVerifier := mkVerifier { vf_roots : list TrustAnchor }.
Definition CoreVpnServerVerifier_new (roots : list TrustAnchor) : CoreVpnServerVerifier := mkVerifier roots.

(** The result is an assertion; an error is its message. *)
Definition CoreVpnServerVerifier_verify_server_cert (v : CoreVpnServerVerifier) (end_entity : bytes)
    (intermediates : list bytes) (server_name : str) (ocsp_response : bytes) (now : Z) : unit + str :=
  let chain := end_entity :: intermediates in
  let trust_anchors := map id (vf_roots v) in
  match trust_anchors with
  | [] => inr (lit "no trust anchors configured")
  | _ => inl tt
  end.
Definition CoreVpnServerVerifier_verify_tls12_signature (v : CoreVpnServerVerifier)
    (message cert dss : bytes) : unit + str := inl tt.
Definition CoreVpnServerVerifier_verify_tls13_signature (v : CoreVpnServerVerifier)
    (message cert dss : bytes) : unit + str := inl tt.

(** *** The client configuration: its verifier and its own certificate *)
Record ClientTlsConfig := mkClientTls {
  ct_verifier : CoreVpnServerVerifier;
  ct_client_auth : option (list bytes * PrivateKeyDer);
}.

Fixpoint add_roots (certs : list bytes) (store : list TrustAnchor) : res ProtocolError (list TrustAnchor) :=
  match certs with
  | [] => Ok store
  | cert :: certs' =>
      match anchor_of_cert cert with
      | inl a => add_roots certs' (store ++ [a])
      | inr e => Err (TlsError (lit "Failed to add CA cert to root store: " ++ e))
      end
  end.

(** [check_client] is the check [with_client_auth_cert] makes of the chain and
    its key. *)
Definition create_client_config (check_client : list bytes -> PrivateKeyDer -> option str)
    (ca_certs : list bytes) (client_cert : option (list bytes * PrivateKeyDer)) :
    res ProtocolError ClientTlsConfig :=
  root_store ← add_roots ca_certs [];
  let verifier := CoreVpnServerVerifier_new root_store in
  match client_cert with
  | Some (cert_chain, key) =>
      match check_client cert_chain key with
      | None => Ok (mkClientTls verifier (Some (cert_chain, key)))
      | Some e => Err (TlsError e)
      end
  | None => Ok (mkClientTls verifier None)
  end.

Lemma add_roots_length certs store roots :
  add_roots certs store = Ok roots -> length roots = length store + length certs.
Proof.
  revert store. induction certs as [|c certs IH]; intros store; cbn [add_roots length].
  - intros [= <-]. lia.
  - destruct (anchor_of_cert c); [|done]. intros H. apply IH in H. rewrite length_app in H.
    cbn [length] in H. lia.
Qed.

(** The certificate check of the client does not depend on the certificate:
    a configuration built from at least one CA certificate accepts every
    server certificate and every handshake signature, whoever made them, and
    one built from none accepts no certificate. *)
Lemma server_certificate_is_not_verified (check : list bytes -> PrivateKeyDer -> option str)
    (ca_certs : list bytes) (auth : option (list bytes * PrivateKeyDer)) (cfg : ClientTlsConfig)
    (end_entity : bytes) (intermediates : list bytes) (name : str) (ocsp : bytes) (now : Z)
    (message dss : bytes)
    (Hcfg : create_client_config check ca_certs auth = Ok cfg) :
  let v := ct_verifier cfg in
  CoreVpnServerVerifier_verify_server_cert v end_entity intermediates name ocsp now
    = (match ca_certs with [] => inr (lit "no trust anchors configured") | _ => inl tt end) /\
  CoreVpnServerVerifier_verify_tls12_signature v message end_entity dss = inl tt /\
  CoreVpnServerVerifier_verify_tls13_signature v message end_entity dss = inl tt.
Proof.
  unfold create_client_config in Hcfg. apply bind_Ok in Hcfg as (roots & Hroots & Hcfg).
  pose proof (add_roots_length _ _ _ Hroots) as Hlen. cbn [length] in Hlen.
  assert (vf_roots (ct_verifier cfg) = roots) as Hv.
  { destruct auth as [[ch k]|]; [destruct (check ch k)|]; by inv Hcfg. }
  cbv zeta. split; [|done]. unfold CoreVpnServerVerifier_verify_server_cert. rewrite Hv, map_id.
  destruct ca_certs, roots; done.
Qed.

End Pki.

(** ** What the driver keeps *)
Section DriverFacts.
Context {Config Conn : Type} `{RL : !Rustls Config Conn} {RLaws : RustlsLaws RL}.

Lemma tls_feed_spec (h : TlsHandler Conn) :
  exists n, n <= length (th_incoming h) /\
    th_incoming (fst (TlsHandler_feed h)) = drop n (th_incoming h) /\
    th_handshake_complete (fst (TlsHandler_feed h)) = th_handshake_complete h /\
    no_panic (snd (TlsHandler_feed h)).
Proof.
  unfold TlsHandler_feed. destruct (rl_read_tls (th_incoming h) (th_conn h)) as [c [[|n]|[|e]]] eqn:Hr;
    cbn [fst snd]; try (exists 0; rewrite drop_0; split_and!; [lia|done..]).
  pose proof (read_tls_le _ _ _ _ Hr) as Hle. change (th_incoming (th_set_conn c h)) with (th_incoming h).
  rewrite (proj2 (Nat.leb_le _ _)) by done. exists (S n). by split_and!.
Qed.

Lemma process_tls_spec (h : TlsHandler Conn) :
  exists n, n <= length (th_incoming h) /\
    th_incoming (fst (TlsHandler_process_tls h)) = drop n (th_incoming h) /\
    no_panic (snd (TlsHandler_process_tls h)).
Proof.
  destruct (tls_feed_spec h) as (n & Hn & Hi & _ & Hp). exists n. split; [done|].
  unfold TlsHandler_process_tls, TlsHandler_advance, mbind, M_bind.
  destruct (TlsHandler_feed h) as [h1 [[]| |]]; cbn [fst snd] in *; [|done..].
  destruct (rl_process_new_packets (th_conn h1)) as [c [|e]]; cbn [fst snd]; [|done].
  split; [|done]. by case_match.
Qed.

Lemma fold_app (records : list bytes) buf :
  fold_left (fun buf record => buf ++ record) records buf = buf ++ concat records.
Proof.
  revert buf. induction records as [|r rs IH]; intros buf; cbn; [by rewrite app_nil_r|].
  by rewrite IH, app_assoc.
Qed.

Lemma process_tls_records_spec records (h : TlsHandler Conn) :
  let all := th_incoming h ++ concat records in
  exists n, n <= length all /\
    th_incoming (fst (TlsHandler_process_tls_records records h)) = drop n all /\
    no_panic (snd (TlsHandler_process_tls_records records h)).
Proof.
  cbv zeta. pose proof (process_tls_spec (th_set_incoming (th_incoming h ++ concat records) h)) as H.
  by rewrite <- (fold_app records (th_incoming h)) in H |- *.
Qed.

Lemma get_outgoing_spec (h : TlsHandler Conn) :
  no_panic (snd (TlsHandler_get_outgoing h)) /\
  th_incoming (fst (TlsHandler_get_outgoing h)) = th_incoming h /\
  th_handshake_complete (fst (TlsHandler_get_outgoing h)) = th_handshake_complete h /\
  forall out, snd (TlsHandler_get_outgoing h) = Ok (Some out) ->
    out <> [] /\
    rl_buffered (th_conn h) = length out + rl_buffered (th_conn (fst (TlsHandler_get_outgoing h))).
Proof.
  unfold TlsHandler_get_outgoing. change (th_conn (th_set_outgoing [] h)) with (th_conn h).
  destruct (rl_write_tls (th_conn h)) as [c [out [[|n]|[|e]]]] eqn:Hw; cbn [fst snd]; try by split_and!.
  destruct (write_tls_eq _ _ _ _ Hw) as [Hl Hb]. cbn in *. split_and!; try done.
  intros o [= <-]. split; [by intros ->|lia].
Qed.

End DriverFacts.

(** ** Instances: a connection without encryption

    The first bytes that arrive are the handshake; they are answered with one
    byte.  What follows is application data. *)
Section DriverWitnesses.

Record PlainConn := mkPlain {
  pc_unread : bytes; pc_plain : bytes; pc_out : bytes; pc_handshaking : bool;
}.

Definition plain_rustls : Rustls unit PlainConn := {|
  rl_new _ := inl (mkPlain [] [] [] true);
  rl_read_tls d c := (mkPlain (pc_unread c ++ d) (pc_plain c) (pc_out c) (pc_handshaking c), inl (length d));
  rl_process_new_packets c :=
    (match pc_unread c with
     | [] => c
     | d => if pc_handshaking c then mkPlain [] (pc_plain c) (pc_out c ++ [22%Z]) false
            else mkPlain [] (pc_plain c ++ d) (pc_out c) false
     end, inl tt);
  rl_write_tls c :=
    (mkPlain (pc_unread c) (pc_plain c) [] (pc_handshaking c), (pc_out c, inl (length (pc_out c))));
  rl_read n c :=
    (mkPlain (pc_unread c) (drop n (pc_plain c)) (pc_out c) (pc_handshaking c),
     match pc_plain c with [] => inr WouldBlock | d => inl (take n d) end);
  rl_write d c :=
    (mkPlain (pc_unread c) (pc_plain c) (pc_out c ++ d) (pc_handshaking c), inl (length d));
  rl_is_handshaking := pc_handshaking;
  rl_wants_write c := match pc_out c with [] => false | _ => true end;
  rl_export c n _ _ := inl (replicate n 0%Z);
  rl_peer_certificates _ := None;
  rl_cipher_suite _ := None;
  rl_protocol_version _ := Some TLSv1_3;
  rl_buffered c := length (pc_out c);
|}.

Lemma plain_rustls_laws : RustlsLaws plain_rustls.
Proof.
  constructor; cbn.
  - intros d c c' n [= _ <-]. lia.
  - intros c c' out n [= <- <- <-]. cbn. split; [done|lia].
  - intros n c c' bs. destruct (pc_plain c) eqn:Hp; intros [= _ <-]. rewrite length_take. lia.
  - intros d c c' n [= _ <-]. lia.
Qed.

Definition plain_pki : RustlsPki := {|
  pem_certs pem := [inl pem]; pem_read_all pem := [inl (Pkcs8Key pem)];
  TrustAnchor := bytes; anchor_of_cert c := inl c;
  ServerTlsConfig := unit; ClientVerifier := unit; build_server_config _ _ _ := inl tt;
|}.

Lemma server_certificate_is_not_verified_witness :
  let PKI := plain_pki in
  let cfg := mkClientTls (mkVerifier (PKI := PKI) [lit "our CA"]) None in
  create_client_config (PKI := PKI) (fun _ _ => None) [lit "our CA"] None = Ok cfg /\
  CoreVpnServerVerifier_verify_server_cert (ct_verifier cfg) (lit "certificate of another CA") []
    (lit "vpn.example.com") [] 0 = inl tt.
Proof.
  split; [reflexivity|].
  exact (proj1 (server_certificate_is_not_verified (PKI := plain_pki) (fun _ _ => None) [lit "our CA"] None
    (mkClientTls (mkVerifier (PKI := plain_pki) [lit "our CA"]) None)
    (lit "certificate of another CA") [] (lit "vpn.example.com") [] 0%Z [] [] eq_refl)).
Defined.
End DriverWitnesses.
