(* ===== verification/Cert.v ===== *)
(** * Certificates and static keys

    src/crates/corevpn-crypto/src/cert.rs: the static key file format. *)
From S2P Require Import Prelude Errors Text Network Addr.
Local Open Scope Z_scope.

(** ** The static key format of tls-auth *)

(** [{:02x}]. *)
Definition hex_byte (b : Z) : str := [hex_digit (b / 16); hex_digit (b mod 16)].

(** [key.chunks(16)]. *)
Fixpoint chunks (fuel size : nat) (l : bytes) : list bytes :=
  match fuel, l with
  | O, _ | _, [] => []
  | S f, _ => take size l :: chunks f size (drop size l)
  end.

Definition static_key_lines (key : bytes) : list str :=
  [lit "#"; lit "# 2048 bit OpenVPN static key"; lit "#"; lit "-----BEGIN OpenVPN Static key V1-----"] ++
  map (fun chunk => concat (map hex_byte chunk)) (chunks (length key) 16 key) ++
  [lit "-----END OpenVPN Static key V1-----"].

Definition format_static_key (key : bytes) : str :=
  concat (map (fun line => line ++ [10]) (static_key_lines key)).

(** The loop over the pairs of a line; the bytes read so far are the filled
    part of the key. *)
Fixpoint read_pairs (fuel i : nat) (line : str) (key : bytes) : res CryptoError bytes :=
  match fuel with
  | O => Ok key
  | S f =>
      if (i <? length line)%nat then
        if (256 <=? length key)%nat then Ok key else
        if (length line <? i + 2)%nat then Ok key else
        pair ← str_slice line i (i + 2);
        byte ← ok_or (u8_from_hex pair) (InvalidPem (lit "Invalid hex in static key"));
        read_pairs f (i + 2) line (key ++ [byte])
      else Ok key
  end.

Fixpoint read_key_lines (lines : list str) (key : bytes) : res CryptoError bytes :=
  match lines with
  | [] => Ok key
  | line :: lines' =>
      let line := trim line in
      if starts_with (lit "#") line || starts_with (lit "-") line || bool_decide (line = [])
      then read_key_lines lines' key
      else key ← read_pairs (length line) 0 line key; read_key_lines lines' key
  end.

Definition parse_static_key (pem : str) : res CryptoError bytes :=
  key ← read_key_lines (str_lines pem) [];
  if negb (length key =? 256)%nat then
    Err (InvalidPem (lit "Static key wrong length: expected 256, got " ++ fmt_dec (Z.of_nat (length key))))
  else Ok key.

(** ** Reading back a formatted key *)
Lemma all_bytes (P : Z -> Prop) :
  Forall (fun n => P (Z.of_nat n)) (seq 0 256) -> forall b, u8 b -> P b.
Proof.
  intros H b Hb. unfold uint in Hb. rewrite Forall_forall in H. specialize (H (Z.to_nat b)).
  rewrite Z2Nat.id in H by lia. apply H, elem_of_seq. lia.
Qed.

Definition hex_char (c : Z) : Prop :=
  visible c = true /\ c <> 10 /\ c <> 35 /\ c <> 45 /\ c <> 44 /\ c <> 60.
#[local] Instance hex_char_dec c : Decision (hex_char c).
Proof. unfold hex_char. apply _. Defined.

Lemma hex_byte_chars b : u8 b -> Forall hex_char (hex_byte b).
Proof.
  revert b. apply (all_bytes (fun b => Forall hex_char (hex_byte b))).
  apply (bool_decide_unpack _). vm_compute. exact I.
Qed.

Lemma u8_from_hex_byte b : u8 b -> u8_from_hex (hex_byte b) = Some b.
Proof.
  revert b. apply (all_bytes (fun b => u8_from_hex (hex_byte b) = Some b)).
  apply (bool_decide_unpack _). vm_compute. exact I.
Qed.

Definition hex_line (l : bytes) : str := concat (map hex_byte l).

Lemma hex_line_chars l : bytes_ok l -> Forall hex_char (hex_line l).
Proof.
  intros H. induction H as [|b l Hb H IH]; [constructor|].
  apply Forall_app. split; [by apply hex_byte_chars|done].
Qed.

Lemma hex_line_app l m : hex_line (l ++ m) = hex_line l ++ hex_line m.
Proof. unfold hex_line. by rewrite map_app, concat_app. Qed.

Lemma hex_line_length l : length (hex_line l) = (2 * length l)%nat.
Proof. induction l as [|b l IH]; [done|]. unfold hex_line in *. cbn. rewrite IH. lia. Qed.

Lemma hex_chars_ascii s : Forall hex_char s -> ascii s.
Proof. intros H. eapply Forall_impl; [exact H|]. intros c [Hv _]. by apply visible_ascii. Qed.

Lemma ascii_boundary s i : ascii s -> (i <= length s)%nat -> char_boundary s i = true.
Proof.
  intros Hs Hi. unfold char_boundary. apply orb_true_iff. right. destruct (s !! i) as [b|] eqn:Hb.
  - pose proof (Forall_lookup_1 _ _ _ _ Hs Hb) as H. cbn in H. unfold in_range.
    by rewrite (proj2 (Z.leb_gt 128 b)) by lia.
  - apply lookup_ge_None_1 in Hb. apply Nat.eqb_eq. lia.
Qed.

Lemma ascii_slice {E} s a b : ascii s -> (a <= b)%nat -> (b <= length s)%nat ->
  str_slice (E := E) s a b = slice s a b.
Proof. intros Hs Ha Hb. unfold str_slice. by rewrite !ascii_boundary by (done || lia). Qed.

Lemma read_pairs_hex fuel pre cs key :
  bytes_ok (pre ++ cs) -> (length cs <= fuel)%nat -> (length key + length cs <= 256)%nat ->
  read_pairs fuel (2 * length pre) (hex_line (pre ++ cs)) key = Ok (key ++ cs).
Proof.
  revert pre cs key. induction fuel as [|f IH]; intros pre cs key Hok Hf Hk; cbn [read_pairs].
  { destruct cs; [by rewrite app_nil_r|simpl in Hf; lia]. }
  rewrite !hex_line_length, !length_app. destruct cs as [|b cs].
  { cbn [length]. rewrite if_false by (apply Nat.ltb_ge; lia). by rewrite app_nil_r. }
  cbn [length] in *. rewrite if_true by (apply Nat.ltb_lt; lia).
  rewrite if_false by (apply Nat.leb_gt; lia). rewrite if_false by (apply Nat.ltb_ge; lia).
  rewrite ascii_slice; [|by apply hex_chars_ascii, hex_line_chars|lia|
    rewrite hex_line_length, length_app; cbn [length]; lia].
  rewrite (slice_at _ (hex_line pre) (hex_byte b) (hex_line cs)).
  - assert (u8 b) as Hb by (apply Forall_app in Hok as [_ Hok]; by apply Forall_cons in Hok as [? _]).
    rsimp. rewrite (u8_from_hex_byte b Hb). cbn [ok_or]. rsimp.
    specialize (IH (pre ++ [b]) cs (key ++ [b])). rewrite <- !app_assoc in IH. cbn [app] in IH.
    rewrite !length_app in IH. cbn [length] in IH.
    replace (2 * length pre + 2)%nat with (2 * (length pre + 1))%nat by lia. apply IH; [done|lia..].
  - by rewrite hex_line_app.
  - apply hex_line_length.
  - cbn [length hex_byte]. lia.
Qed.

(** ** Lines *)
Definition line_ok (l : str) : Prop := (10 ∉ l) /\ last l <> Some 13.

Lemma strip_cr_id l : last l <> Some 13 -> strip_cr l = l.
Proof.
  unfold strip_cr. destruct l as [|x l] using rev_ind; [done|]. rewrite last_snoc, rev_app_distr.
  cbn [rev app]. intros Hx. repeat case_match; congruence.
Qed.

Lemma split_on_lines ls : Forall line_ok ls ->
  split_on 10 (concat (map (fun l => l ++ [10]) ls)) = ls ++ [[]].
Proof.
  intros H. induction H as [|l ls [Hl _] H IH]; [done|]. cbn [map concat app].
  rewrite <- app_assoc. cbn [app]. by rewrite split_on_app, IH.
Qed.

Lemma str_lines_concat ls : Forall line_ok ls ->
  str_lines (concat (map (fun l => l ++ [10]) ls)) = ls.
Proof.
  intros H. unfold str_lines. rewrite split_on_lines by done.
  induction H as [|l ls [Hl Hr] H IH]; [done|]. cbn [app strip_lines].
  destruct (ls ++ [[]]) as [|x xs] eqn:E; [by destruct ls|]. by rewrite IH, strip_cr_id.
Qed.

(** A line of hexadecimal digits is read as it is. *)
Lemma hex_line_plain l : bytes_ok l -> l <> [] ->
  line_ok (hex_line l) /\ trim (hex_line l) = hex_line l /\
  starts_with (lit "#") (hex_line l) || starts_with (lit "-") (hex_line l)
    || bool_decide (hex_line l = []) = false.
Proof.
  intros Hok Hne. pose proof (hex_line_chars l Hok) as Hc. pose proof (hex_chars_ascii _ Hc) as Ha.
  destruct (hex_line l) as [|x s] eqn:Hs; [destruct l; [done|discriminate Hs]|].
  destruct (last (x :: s)) as [e|] eqn:He; [|by apply last_None in He].
  assert (hex_char e) as He'. { rewrite Forall_forall in Hc. by apply Hc, last_Some_elem_of. }
  pose proof (Forall_inv Hc) as Hx.
  split_and!.
  - split; [|intros H; rewrite He in H; inv H; destruct He' as [Hv _]; by vm_compute in Hv].
    intros Hin. rewrite Forall_forall in Hc. by destruct (Hc _ Hin) as (_ & ? & _).
  - apply (trim_visible _ x e); [done..|apply Hx|apply He'].
  - destruct Hx as (_ & _ & H35 & H45 & _). unfold starts_with.
    change (lit "#") with [35]. change (lit "-") with [45]. cbn [take length]. rewrite take_0.
    by rewrite !bool_decide_eq_false_2 by congruence.
Qed.

Lemma read_key_chunks cs key rest :
  Forall (fun c => bytes_ok c /\ c <> []) cs -> (length key + length (concat cs) <= 256)%nat ->
  read_key_lines (map hex_line cs ++ rest) key = read_key_lines rest (key ++ concat cs).
Proof.
  intros H. revert key. induction H as [|c cs [Hc Hne] H IH]; intros key Hk; cbn [map app concat].
  { by rewrite app_nil_r. }
  destruct (hex_line_plain c Hc Hne) as (_ & Ht & Hs). cbn [concat] in Hk. rewrite length_app in Hk.
  cbn [read_key_lines]. rewrite Ht, Hs.
  rewrite (read_pairs_hex _ [] c key) by (done || (rewrite ?hex_line_length; lia)). rsimp.
  rewrite IH by (rewrite length_app; lia). by rewrite app_assoc.
Qed.

Lemma chunks_spec fuel l : (length l <= fuel)%nat ->
  concat (chunks fuel 16 l) = l /\ (bytes_ok l -> Forall (fun c => bytes_ok c /\ c <> []) (chunks fuel 16 l)).
Proof.
  revert l. induction fuel as [|f IH]; intros l Hl.
  { destruct l; [|simpl in Hl; lia]. split; [done|constructor]. }
  destruct l as [|x l]; [split; [done|constructor]|]. cbn [chunks].
  destruct (IH (drop 16 (x :: l))) as [H1 H2]; [rewrite length_drop; cbn [length] in *; lia|].
  split.
  - cbn [concat]. by rewrite H1, take_drop.
  - intros Hok. constructor; [split; [by apply Forall_take|done]|]. by apply H2, Forall_drop.
Qed.

Lemma static_key_lines_ok key : bytes_ok key -> Forall line_ok (static_key_lines key).
Proof.
  intros Hok. unfold static_key_lines. apply Forall_app. split.
  { repeat constructor; try (apply (bool_decide_unpack _); vm_compute; exact I). }
  apply Forall_app. split.
  - destruct (chunks_spec (length key) key (le_n _)) as [_ H]. specialize (H Hok).
    apply Forall_map. eapply Forall_impl; [exact H|]. intros c [Hc Hne]. by apply hex_line_plain.
  - repeat constructor; apply (bool_decide_unpack _); vm_compute; exact I.
Qed.

Lemma parse_format_static_key key : length key = 256%nat -> bytes_ok key ->
  parse_static_key (format_static_key key) = Ok key.
Proof.
  intros Hlen Hok. unfold parse_static_key, format_static_key. rewrite str_lines_concat by by apply static_key_lines_ok.
  destruct (chunks_spec (length key) key (le_n _)) as [Hcat Hch]. specialize (Hch Hok).
  unfold static_key_lines. cbn [app read_key_lines].
  change (map (fun chunk => concat (map hex_byte chunk)) (chunks (length key) 16 key))
    with (map hex_line (chunks (length key) 16 key)).
  repeat (rewrite if_true by (vm_compute; reflexivity)).
  rewrite read_key_chunks by (done || (rewrite Hcat; cbn [length]; lia)). rewrite Hcat.
  cbn [app read_key_lines]. rewrite if_true by (vm_compute; reflexivity). rsimp.
  by rewrite Hlen.
Qed.

(** A static key file written by [format_static_key] is read back as the
    same key. *)
Theorem static_key_roundtrip (key : bytes) (Hlen : length key = 256%nat) (Hok : bytes_ok key) :
  parse_static_key (format_static_key key) = Ok key.
Proof. by apply parse_format_static_key. Qed.

(** A file whose text is not ASCII can stop the server: the pair of bytes
    [&line[i..i + 2]] is cut inside a character. *)
Theorem static_key_reader_panics (rest : str) :
  parse_static_key (lit "0" ++ [226; 130; 172] ++ [10] ++ rest) = Panic.
Proof.
  unfold parse_static_key, str_lines.
  change (lit "0" ++ [226; 130; 172] ++ [10] ++ rest) with ([48; 226; 130; 172] ++ 10 :: rest).
  rewrite split_on_app by (apply (bool_decide_unpack _); vm_compute; exact I).
  pose proof (split_on_cons 10 rest). destruct (split_on 10 rest) as [|p ps] eqn:Hp; [done|].
  cbn [strip_lines]. by vm_compute.
Qed.
