(* ===== verification/ConnFileProofs.v ===== *)
(** * The log files keep the newest events

    While the file operations succeed: deletion overwrites what it deletes,
    rotation shifts the files, and the files with the buffer of the writer hold
    the newest events, oldest file first, which queries read back. *)
From S2P Require Import Prelude Errors Text Network CoreSession Replay Addr ServerConfig ConnLog Cert ConnFile.
Local Open Scope Z_scope.

(** ** The names of the files *)
Lemma find_char_shape c s i : find_str [c] s = Some i -> exists b r, s = b ++ c :: r /\ c ∉ b /\ length b = i.
Proof.
  revert i. induction s as [|x s IH]; intros i; cbn [find_str]; unfold starts_with; case_bool_decide as E; try done.
  - intros [= <-]. cbn in E. injection E as <-. exists [], s. split_and!; [done|apply not_elem_of_nil|done].
  - destruct (find_str [c] s) as [j|]; [|done]. intros [= <-]. destruct (IH j eq_refl) as (b & r & -> & Hb & <-).
    exists (x :: b), r. split_and!; [done| |done]. apply not_elem_of_cons. split; [|done]. intros ->. by cbn in E.
Qed.
Lemma rsplit_once_shape c s a b : rsplit_once c s = Some (a, b) -> s = a ++ c :: b /\ c ∉ b.
Proof.
  unfold rsplit_once, rfind_str. cbn [rev app]. destruct (find_str [c] (rev s)) as [i|] eqn:E; [|done].
  destruct (find_char_shape _ _ _ E) as (q & r & Hs & Hq & <-). apply (f_equal (@rev Z)) in Hs.
  rewrite rev_involutive, rev_app_distr in Hs. cbn [rev] in Hs. rewrite <- app_assoc in Hs. cbn [app] in Hs.
  cbn [fmap option_fmap option_map]. rewrite Hs. rewrite length_app. cbn [length]. rewrite !length_rev.
  replace (length r + S (length q) - 1 - length q)%nat with (length (rev r)) by (rewrite length_rev; lia).
  intros [= <- <-]. rewrite take_app_length. rewrite <- (Nat.add_1_r (length (rev r))). rewrite drop_app_add. cbn [drop].
  split; [done|]. intros H%list_elem_of_In. apply Hq, list_elem_of_In, in_rev. done.
Qed.

Section Names.
Context (path : str).
(** The paths of the files, newest first. *)
Definition slot (i : nat) : str := match i with O => path | S _ => numbered path i end.

Lemma numbered_eq : exists pre, (forall i, numbered path i = pre ++ lit ".log." ++ fmt_dec (Z.of_nat i)) /\
  (path = pre \/ exists ext, path = pre ++ [46] ++ ext /\ 46 ∉ ext).
Proof.
  unfold numbered, with_extension.
  assert (exists dir name, (match rsplit_once 47 path with Some (d, n) => (d ++ [47], n) | None => ([], path) end) = (dir, name) /\
    path = dir ++ name) as (dir & name & -> & Hp).
  { destruct (rsplit_once 47 path) as [[d n]|] eqn:E; [|by exists [], path]. apply rsplit_once_shape in E as [-> _].
    exists (d ++ [47]), n. by rewrite <- app_assoc. }
  destruct (rsplit_once 46 name) as [[st ext]|] eqn:E.
  - apply rsplit_once_shape in E as [Hn He]. destruct st as [|x st].
    + exists (dir ++ name). split; [intros i; by rewrite <- !app_assoc|by left].
    + exists (dir ++ x :: st). split; [intros i; by rewrite <- !app_assoc|]. right. exists ext. split; [|done].
      by rewrite Hp, Hn, <- app_assoc.
  - exists (dir ++ name). split; [intros i; by rewrite <- !app_assoc|by left].
Qed.

Lemma numbered_ne i : numbered path i <> path.
Proof.
  destruct numbered_eq as (pre & Hn & Hp). rewrite Hn. destruct Hp as [->|(ext & -> & He)]; intros H.
  - apply (f_equal length) in H. rewrite !length_app in H. cbn in H. lia.
  - apply app_inv_head in H. change (lit ".log.") with ([46] ++ lit "log.") in H. rewrite <- app_assoc in H. apply app_inv_head in H.
    apply He. rewrite <- H. apply elem_of_app. left. by apply (bool_decide_unpack _); vm_compute.
Qed.
Lemma numbered_inj i j : Z.of_nat i < 2 ^ 64 -> Z.of_nat j < 2 ^ 64 -> numbered path i = numbered path j -> i = j.
Proof.
  intros Hi Hj H. destruct numbered_eq as (pre & Hn & _). rewrite !Hn in H. do 2 apply app_inv_head in H.
  apply (f_equal (parse_uint 64)) in H. rewrite !parse_uint_fmt in H by (unfold uint; lia). injection H as H. lia.
Qed.
Lemma slot_inj i j : Z.of_nat i < 2 ^ 64 -> Z.of_nat j < 2 ^ 64 -> slot i = slot j -> i = j.
Proof.
  destruct i, j; cbn [slot]; intros Hi Hj H; [done| | |by apply numbered_inj in H].
  - symmetry in H. by apply numbered_ne in H. - by apply numbered_ne in H.
Qed.
End Names.

(** ** Deletion *)
Lemma bind_to {S E A B} (m : M S E A) (f : A -> M S E B) s s' a : m s = (s', Ok a) -> (m ≫= f) s = f a s'.
Proof. intros H. unfold mbind, M_bind. by rewrite H. Qed.

Lemma blocks_step fuel block r : (0 < r)%nat ->
  blocks (S fuel) block r = take (Nat.min r (Z.to_nat 4096)) block ++ blocks fuel block (r - Nat.min r (Z.to_nat 4096)).
Proof. by destruct r; [lia|]. Qed.
Lemma blocks_end fuel block : blocks fuel block 0 = [].
Proof. by destruct fuel. Qed.
(** The loop writes as many bytes as the file has. *)
Lemma length_blocks fuel block r : length block = Z.to_nat 4096 -> (r <= fuel)%nat -> length (blocks fuel block r) = r.
Proof.
  intros Hb. revert r. induction fuel as [|fuel IH]; intros r Hr; [by replace r with 0%nat by lia|].
  destruct (decide (r = 0)%nat) as [->|]; [done|]. rewrite blocks_step by lia. rewrite length_app, length_take, IH by lia. lia.
Qed.
Lemma zero_blocks fuel r : (r <= fuel)%nat -> blocks fuel zero_block r = replicate r 0.
Proof.
  revert r. induction fuel as [|fuel IH]; intros r Hr; [by replace r with 0%nat by lia|].
  destruct (decide (r = 0)%nat) as [->|]; [done|]. rewrite blocks_step by lia. rewrite IH by lia.
  unfold zero_block. rewrite take_replicate, <- replicate_add. f_equal. lia.
Qed.
Lemma length_zero_block : length zero_block = Z.to_nat 4096.
Proof. apply length_replicate. Qed.
Lemma length_pattern pass : length (pattern pass) = Z.to_nat 4096.
Proof. unfold pattern. by rewrite length_map, length_seq. Qed.

Section Quiet.
Context {Ch : Chrono} {Uu : Uuids} {EJ : EventJson}.
Implicit Types (l : FileConnectionLogger).
(** The operations to come succeed. *)
Definition quiet l : Prop := fl_faults l = [].
(** Only the files, the writer and the record of deletions differ. *)
Definition same_counts l l' : Prop :=
  fl_total_logged l' = fl_total_logged l /\ fl_pending l' = fl_pending l /\ fl_first_event l' = fl_first_event l /\ fl_last_event l' = fl_last_event l.
Lemma outcome_quiet l : quiet l -> outcome l = (l, Ok None).
Proof. destruct l. unfold quiet. cbn. by intros ->. Qed.

Lemma pass_quiet file content block l : quiet l -> fl_files l !! file = Some content -> length block = Z.to_nat 4096 ->
  let data := blocks (length content) block (length content) in
  exists l', (overwrite file (length content) block ≫= fun _ => sync_all file) l = (l', Ok tt) /\
    quiet l' /\ fl_files l' = <[file := data]> (fl_files l) /\ fl_writer l' = fl_writer l /\ last (fl_synced l') = Some (file, data).
Proof.
  intros Hq Hc Hb data.
  assert (overwrite file (length content) block l = (fl_set (<[file := data]> (fl_files l)) (fl_writer l) l, Ok tt)) as Ho.
  { unfold overwrite. erewrite bind_to by by apply outcome_quiet. unfold mbind, M_bind, get, modify. cbn -[blocks].
    rewrite Hc. cbn -[blocks]. by rewrite drop_all, app_nil_r. }
  erewrite bind_to by exact Ho. unfold sync_all. erewrite bind_to by by apply outcome_quiet.
  unfold mbind, M_bind, get, modify. eexists. split; [reflexivity|]. cbn. rewrite lookup_insert_eq. cbn. by rewrite last_snoc.
Qed.

Lemma pass_then {B} (k : M FileConnectionLogger str B) file size block content fs l : quiet l -> fl_files l = <[file := content]> fs ->
  length content = size -> length block = Z.to_nat 4096 ->
  exists l', (_ ← overwrite file size block; _ ← sync_all file; k) l = k l' /\ quiet l' /\
    fl_files l' = <[file := blocks size block size]> fs /\ fl_writer l' = fl_writer l /\ last (fl_synced l') = Some (file, blocks size block size) /\
    length (blocks size block size) = size.
Proof.
  intros Hq Hf <- Hb. destruct (pass_quiet file content block l Hq) as (l' & E & Hq' & Hf' & Hw & Hs); [by rewrite Hf, lookup_insert_eq|done|].
  exists l'. split_and!; [|done| |done|done|by apply length_blocks].
  - unfold mbind, M_bind in E |- *. destruct (overwrite file (length content) block l) as [l3 [u|e|]]; [|done|done]. by rewrite E.
  - by rewrite Hf', Hf, insert_insert_eq.
Qed.

Ltac pass l Hq Hf Hl Hb :=
  match goal with
  | |- context [@mbind _ _ _ _ (fun _ => @mbind _ _ _ _ (fun _ => ?k) (sync_all ?f)) (overwrite ?f ?s ?b) l] =>
      let F := fresh "F" in let Hl' := fresh "Hl" in let l' := fresh "l'" in let Hq' := fresh "Hq'" in let W := fresh "W" in let S := fresh "S" in
      destruct (pass_then k f s b _ _ l Hq Hf Hl Hb) as (l' & -> & Hq' & F & W & S & Hl')
  end.
(** What a file contained is overwritten, and zeros are on the disk, before the
    file is removed. *)
Lemma secure_delete_overwrites file content l : quiet l -> fl_files l !! file = Some content ->
  exists l', secure_delete_file file l = (l', Ok tt) /\ quiet l' /\ fl_files l' = delete file (fl_files l) /\ fl_writer l' = fl_writer l /\
    (content <> [] -> last (fl_synced l') = Some (file, replicate (length content) 0)).
Proof.
  intros Hq Hc. unfold secure_delete_file. unfold mbind at 1, M_bind at 1, get. rewrite Hc. destruct (length content =? 0)%nat eqn:E; bools.
  - destruct content; [|done]. unfold remove_file, mbind, M_bind. rewrite outcome_quiet by done. unfold modify. cbn. by eexists.
  - erewrite bind_to by by apply outcome_quiet. cbn [is_some]. set (size := length content).
    pose proof length_zero_block as Hz. pose proof (length_pattern 0) as H0. pose proof (length_pattern 1) as H1.
    assert (fl_files l = <[file := content]> (fl_files l)) as F0 by by rewrite insert_id.
    pass l Hq F0 (eq_refl size) Hz. pass l' Hq' F Hl H0. pass l'0 Hq'0 F1 Hl0 Hz. pass l'1 Hq'1 F2 Hl1 H1. pass l'2 Hq'2 F3 Hl2 Hz.
    unfold remove_file, mbind, M_bind. rewrite outcome_quiet by done. unfold modify. eexists. split; [reflexivity|].
    split_and!; [done|cbn; by rewrite F4, delete_insert_eq|cbn; congruence|]. intros _. cbn. by rewrite S3, zero_blocks.
Qed.
End Quiet.

(** ** Rotation *)
Section Rotation.
Context {Ch : Chrono} {Uu : Uuids} {EJ : EventJson} (path : str).
Implicit Types (l : FileConnectionLogger) (fs : gmap str bytes).

(** What the loop does to the files. *)
Fixpoint shifted (i : nat) fs : gmap str bytes :=
  match i with
  | O => fs
  | S i' => shifted i' (match fs !! slot path i' with Some c => <[slot path i := c]> (delete (slot path i') fs) | None => fs end)
  end.

Lemma rotate_files_quiet secure i l : quiet l -> Z.of_nat i < 2 ^ 64 ->
  exists l', rotate_files path secure i l = (l', Ok tt) /\ quiet l' /\ fl_files l' = shifted i (fl_files l) /\ fl_writer l' = fl_writer l.
Proof.
  revert l. induction i as [|i IH]; intros l Hq Hi; [by exists l|]. cbn [rotate_files shifted].
  assert ((if (S i =? 1)%nat then path else numbered path i) = slot path i) as -> by by destruct i.
  change (numbered path (S i)) with (slot path (S i)).
  assert (slot path i <> slot path (S i)) as Hne by (intros H; apply slot_inj in H; lia).
  unfold mbind at 1, M_bind at 1, get. destruct (fl_files l !! slot path i) as [c|] eqn:Ec; cbn [is_some].
  2:{ unfold mbind, M_bind. cbn. apply IH; [done|lia]. }
  assert (exists l1, (_ ← (if is_some (fl_files l !! slot path (S i)) && secure then secure_delete_file (slot path (S i)) else mret tt);
      rename (slot path i) (slot path (S i))) l = (l1, Ok tt) /\ quiet l1 /\
      fl_files l1 = <[slot path (S i) := c]> (delete (slot path i) (fl_files l)) /\ fl_writer l1 = fl_writer l) as (l1 & E1 & Q1 & F1 & W1).
  { assert (forall l2, quiet l2 -> fl_files l2 !! slot path i = Some c ->
      rename (slot path i) (slot path (S i)) l2 = (fl_set (<[slot path (S i) := c]> (delete (slot path i) (fl_files l2))) (fl_writer l2) l2, Ok tt)) as Hr.
    { intros l2 Q2 E2. unfold rename, mbind, M_bind. rewrite outcome_quiet by done. cbn. unfold modify. by rewrite E2. }
    destruct (fl_files l !! slot path (S i)) as [old|] eqn:Eo; [destruct secure|]; cbn [is_some andb].
    2-3: erewrite bind_to by reflexivity; rewrite Hr by done; by eexists.
    destruct (secure_delete_overwrites _ _ l Hq Eo) as (l2 & E2 & Q2 & F2 & W2 & _). erewrite bind_to by exact E2.
    rewrite Hr by (done || by rewrite F2, lookup_delete_ne by congruence). eexists. split; [reflexivity|]. split_and!; [done| |done].
    cbn. rewrite F2, delete_delete, insert_delete_eq. done. }
  erewrite bind_to by exact E1. destruct (IH l1 Q1 ltac:(lia)) as (l2 & E2 & Q2 & F2 & W2). exists l2.
  rewrite F1 in F2. split_and!; [done|done|done|congruence].
Qed.

Lemma shifted_slots i fs (cs : list bytes) : Z.of_nat i < 2 ^ 63 -> (forall j, (j <= i)%nat -> fs !! slot path j = cs !! j) ->
  (forall j, (j < i)%nat -> shifted i fs !! slot path (S j) = cs !! j) /\ ((0 < i)%nat -> shifted i fs !! slot path 0 = None) /\
  (forall q, (forall j, (j <= i)%nat -> q <> slot path j) -> shifted i fs !! q = fs !! q).
Proof.
  revert fs cs. induction i as [|i IH]; intros fs cs Hi Hs; [by split_and!; [lia|lia|]|]. cbn [shifted].
  assert (forall a b, (a < b <= S i)%nat -> slot path b <> slot path a) as Hne by (intros a b Hab H; apply slot_inj in H; lia).
  destruct (fs !! slot path i) as [c|] eqn:Ec; pose proof (Hs i ltac:(lia)) as Ei; rewrite Ec in Ei.
  - set (fs1 := <[slot path (S i) := c]> (delete (slot path i) fs)).
    destruct (IH fs1 (take i cs)) as (H1 & H2 & H3); [lia| |].
    { intros j Hj. unfold fs1. rewrite lookup_insert_ne by (apply Hne; lia). destruct (decide (j = i)) as [->|].
      - rewrite lookup_delete_eq. symmetry. apply lookup_ge_None. rewrite length_take. lia.
      - rewrite lookup_delete_ne by (apply Hne; lia). rewrite Hs by lia. by rewrite lookup_take_lt by lia. }
    split_and!.
    + intros j Hj. destruct (decide (j = i)) as [->|].
      * rewrite H3 by (intros j Hj'; apply Hne; lia). unfold fs1. by rewrite lookup_insert_eq.
      * rewrite H1 by lia. by rewrite lookup_take_lt by lia.
    + intros _. destruct i as [|i]; [|apply H2; lia]. cbn [shifted]. unfold fs1.
      rewrite lookup_insert_ne by (apply Hne; lia). apply lookup_delete_eq.
    + intros q Hq. rewrite H3 by (intros j Hj; apply Hq; lia). unfold fs1.
      rewrite lookup_insert_ne by (apply not_eq_sym, Hq; lia). apply lookup_delete_ne, not_eq_sym, Hq. lia.
  - destruct (IH fs cs) as (H1 & H2 & H3); [lia|intros j Hj; apply Hs; lia|]. split_and!.
    + intros j Hj. destruct (decide (j = i)) as [->|]; [|apply H1; lia].
      rewrite H3 by (intros j Hj'; apply Hne; lia). rewrite Hs by lia. rewrite <- Ei. symmetry in Ei. apply lookup_ge_None in Ei.
      apply lookup_ge_None. lia.
    + intros _. destruct i as [|i]; [done|apply H2; lia].
    + intros q Hq. apply H3. intros j Hj. apply Hq. lia.
Qed.
End Rotation.

(** ** Writing *)
Section Kept.
Context {Ch : Chrono} {Uu : Uuids} {EJ : EventJson} (path : str) (max_size : Z) (n : nat) (secure : bool).
Implicit Types (l : FileConnectionLogger) (fs : gmap str bytes) (e : ConnectionEvent) (c buf data : bytes).

(** The writer is open on the file with [c] on disk and [buf] in its buffer. *)
Definition writing fs c buf l : Prop :=
  quiet l /\ fl_files l = <[path := c]> fs /\ fl_writer l = Some buf /\ Z.of_nat (length buf) <= 8192.

Lemma append_quiet fs c buf data l : writing fs c buf l ->
  exists l', append_bytes path data l = (l', Ok None) /\ writing fs (c ++ data) buf l'.
Proof.
  intros (Hq & Hf & Hw & Hb). unfold append_bytes, mbind, M_bind. rewrite outcome_quiet by done. unfold modify, mret, M_ret.
  eexists. split; [reflexivity|]. split_and!; [done| |done|done]. cbn. rewrite Hf, lookup_insert_eq. cbn. apply insert_insert_eq.
Qed.
Lemma writing_set fs c buf buf' l : writing fs c buf l -> Z.of_nat (length buf') <= 8192 -> writing fs c buf' (fl_set (fl_files l) (Some buf') l).
Proof. intros (Hq & Hf & Hw & Hb) H. by split_and!. Qed.
Lemma flush_quiet fs c buf l : writing fs c buf l -> exists l', flush_buf path buf l = (l', Ok tt) /\ writing fs (c ++ buf) [] l'.
Proof.
  intros H. unfold flush_buf. destruct buf as [|b buf]; [exists l; by rewrite app_nil_r|].
  destruct (append_quiet fs c _ (b :: buf) l H) as (l1 & E1 & H1). erewrite bind_to by exact E1. unfold modify. eexists.
  split; [reflexivity|]. by eapply writing_set.
Qed.
Lemma write_all_quiet fs c buf data l : writing fs c buf l ->
  exists c' buf' l', write_all path data l = (l', Ok tt) /\ writing fs c' buf' l' /\ c' ++ buf' = c ++ buf ++ data.
Proof.
  intros H. pose proof H as (_ & _ & Hw & Hb). unfold write_all, mbind at 1, M_bind at 1, get. rewrite Hw. cbn [from_option id].
  destruct (Z.of_nat (length data) <? 8192 - Z.of_nat (length buf)) eqn:E1; bools.
  { unfold modify. exists c, (buf ++ data). eexists. split; [reflexivity|]. split; [|done].
    eapply writing_set; [exact H|]. rewrite length_app. lia. }
  assert (exists c1 buf1 l1, (if 8192 - Z.of_nat (length buf) <? Z.of_nat (length data) then flush_buf path buf else mret tt) l = (l1, Ok tt) /\
    writing fs c1 buf1 l1 /\ c1 ++ buf1 = c ++ buf /\ (buf1 = [] \/ Z.of_nat (length buf1) + Z.of_nat (length data) = 8192))
    as (c1 & buf1 & l1 & E2 & H1 & Hc & Hs).
  { destruct (_ <? Z.of_nat (length data)) eqn:E2; bools.
    - destruct (flush_quiet _ _ _ _ H) as (l1 & E3 & H1). exists (c ++ buf), [], l1. rewrite app_nil_r. auto.
    - exists c, buf, l. split_and!; [done|done|done|]. right. lia. }
  erewrite bind_to by exact E2. destruct (8192 <=? Z.of_nat (length data)) eqn:E3; bools.
  - assert (buf1 = []) as -> by (destruct Hs as [?|Hs]; [done|]; destruct buf1; [done|]; cbn [length] in Hs; lia).
    destruct (append_quiet _ _ _ data _ H1) as (l2 & E4 & H2). erewrite bind_to by exact E4. exists (c1 ++ data), [], l2.
    split_and!; [reflexivity|done|]. rewrite app_nil_r in Hc. by rewrite app_nil_r, Hc, <- app_assoc.
  - unfold modify. pose proof H1 as (_ & _ & Hw1 & Hb1). rewrite Hw1. cbn [from_option id]. exists c1, (buf1 ++ data). eexists. split; [reflexivity|].
    split; [|by rewrite !app_assoc, Hc]. eapply writing_set; [exact H1|]. rewrite length_app. destruct Hs as [->|Hs]; cbn [length]; lia.
Qed.

(** ** Events as lines *)
Definition json e : str := match event_to_json e with inl s => s | inr _ => [] end.
(** The event is printed on one line, from which it reads back. *)
Definition json_exact e : Prop :=
  exists s, event_to_json e = inl s /\ event_from_json s = Some e /\ line_ok s /\ utf8_valid s = true.
Definition text (es : list ConnectionEvent) : str := concat (map (fun e => json e ++ [10]) es).
Lemma text_app es es' : text (es ++ es') = text es ++ text es'.
Proof. unfold text. by rewrite map_app, concat_app. Qed.
Lemma text_snoc es e : text (es ++ [e]) = text es ++ json e ++ [10].
Proof. rewrite text_app. unfold text at 2. cbn. by rewrite app_nil_r. Qed.

Lemma text_reads_back es : Forall json_exact es -> utf8_valid (text es) = true /\ str_lines (text es) = map json es /\
  omap event_from_json (map json es) = es.
Proof.
  intros H. split_and!.
  - induction H as [|e es (s & Hs & _ & _ & Hu) H IH]; [done|]. unfold text in *. cbn [map concat]. apply utf8_valid_app; [|done].
    apply utf8_valid_app; [|done]. unfold json. by rewrite Hs.
  - unfold text. rewrite <- (map_map json (fun s => s ++ [10])). apply str_lines_concat. apply Forall_map.
    eapply Forall_impl; [exact H|]. intros e (s & Hs & _ & Hl & _). unfold json. by rewrite Hs.
  - induction H as [|e es (s & Hs & Hf & _ & _) H IH]; [done|]. cbn [map omap list_omap]. unfold json at 1. rewrite Hs. by rewrite Hf, IH.
Qed.

Lemma write_event_quiet fs c buf e l : writing fs c buf l -> json_exact e ->
  exists c' buf' l', write_event path e l = (l', Ok tt) /\ writing fs c' buf' l' /\ c' ++ buf' = c ++ buf ++ json e ++ [10].
Proof.
  intros H (s & Hs & _). pose proof H as (_ & _ & Hw & _). unfold write_event, mbind at 1, M_bind at 1, get, json. rewrite Hw, Hs.
  destruct (write_all_quiet _ _ _ s _ H) as (c1 & b1 & l1 & E1 & H1 & Hc1). erewrite bind_to by exact E1.
  destruct (write_all_quiet _ _ _ [10] _ H1) as (c2 & b2 & l2 & E2 & H2 & Hc2). erewrite bind_to by exact E2.
  unfold modify. exists c2, b2. eexists. split; [reflexivity|]. split; [by split_and!; apply H2|].
  rewrite Hc2, (app_assoc c1), Hc1. by rewrite <- !app_assoc.
Qed.

(** ** The files hold the newest events *)
Context (longest : Z) (Hmax : 0 < max_size) (Hlong : 0 <= longest) (Hn : (1 <= n)%nat) (Hn64 : Z.of_nat n < 2 ^ 63).

(** Of the events [es], those in [dropped] are gone, [gs] are in the numbered
    files, newest file first, and [cur] is in the file that is open: [c] on the
    disk, [buf] in the buffer.  With more than one file, files are bounded. *)
Definition files_hold l (es dropped : list ConnectionEvent) (gs : list (list ConnectionEvent)) (cur : list ConnectionEvent) c buf : Prop :=
  quiet l /\ fl_writer l = Some buf /\ Z.of_nat (length buf) <= 8192 /\
  es = dropped ++ concat (rev gs) ++ cur /\
  fl_files l !! path = Some c /\ c ++ buf = text cur /\
  (forall j, (1 <= j <= n)%nat -> fl_files l !! numbered path j = text <$> gs !! (j - 1)%nat) /\
  (length gs < n)%nat /\ (dropped <> [] -> (length gs + 1 = n)%nat /\ (2 <= n)%nat) /\
  ((2 <= n)%nat -> Forall (fun g => Z.of_nat (length (text g)) < max_size + 8192 + longest) (cur :: gs)).

Lemma hold_writing l es d gs cur c buf : files_hold l es d gs cur c buf -> writing (fl_files l) c buf l.
Proof. intros (Hq & Hw & Hb & _ & Hf & _). split_and!; [done|by rewrite insert_id|done|done]. Qed.
(** The open file may be replaced by one with other events. *)
Lemma writing_hold l l' es es' d gs cur cur' c buf c' buf' : files_hold l es d gs cur c buf -> writing (fl_files l) c' buf' l' ->
  c' ++ buf' = text cur' -> es' = d ++ concat (rev gs) ++ cur' ->
  ((2 <= n)%nat -> Z.of_nat (length (text cur')) < max_size + 8192 + longest) -> files_hold l' es' d gs cur' c' buf'.
Proof.
  intros (_ & _ & _ & _ & _ & _ & Hg & Hlen & Hd & Hs) (Hq & Hf & Hw & Hb) Hc Hes Hb'. split_and!; try done.
  - by rewrite Hf, lookup_insert_eq.
  - intros j Hj. rewrite Hf, lookup_insert_ne by apply not_eq_sym, numbered_ne. by apply Hg.
  - intros H2. specialize (Hs H2). inv Hs. constructor; [by apply Hb'|done].
Qed.

Lemma hold_flush l es d gs cur c buf : files_hold l es d gs cur c buf ->
  exists l', flush_buf path buf l = (l', Ok tt) /\ files_hold l' es d gs cur (c ++ buf) [].
Proof.
  intros H. pose proof H as (_ & _ & _ & Hes & _ & Hc & _ & _ & _ & Hs). destruct (flush_quiet _ _ _ _ (hold_writing _ _ _ _ _ _ _ H)) as (l' & E & Hw).
  exists l'. split; [done|]. eapply writing_hold; [exact H|exact Hw|by rewrite app_nil_r|done|].
  intros H2. specialize (Hs H2). by inv Hs.
Qed.

(** The events after a shift: the oldest file goes when there are enough. *)
Lemma shifted_events (d : list ConnectionEvent) gs cur : (length gs < n)%nat -> (2 <= n)%nat -> (d <> [] -> (length gs + 1 = n)%nat) ->
  exists d', d ++ concat (rev gs) ++ cur = d' ++ concat (rev (take (n - 1) (cur :: gs))) ++ [] /\
    (d' <> [] -> (length (take (n - 1) (cur :: gs)) + 1 = n)%nat).
Proof using Hn Hn64.
  intros Hlen H2 Hd. destruct (decide (length gs + 1 = n)%nat) as [He|He].
  - destruct gs as [|x gs' _] using rev_ind; [cbn in He; lia|]. rewrite length_app in He. cbn [length] in He. exists (d ++ x).
    destruct n as [|[|m]]; [lia|lia|]. replace (S (S m) - 1)%nat with (S m) by lia. cbn [take]. rewrite take_app_le by lia.
    rewrite take_ge by lia. cbn [rev length]. split; [|lia].
    rewrite rev_app_distr. cbn [rev app concat]. rewrite concat_app. cbn [concat]. by rewrite !app_nil_r, <- !app_assoc.
  - exists d. rewrite take_ge by (cbn [length]; lia). split; [|intros Hx; specialize (Hd Hx); lia].
    cbn [rev]. rewrite concat_app. cbn [concat]. by rewrite !app_nil_r.
Qed.

(** Closing the file and shifting the numbered ones. *)
Lemma hold_rotate l es d gs cur c : files_hold l es d gs cur c [] ->
  exists l' d' gs' cur' c', (_ ← modify (fun l => fl_set (fl_files l) None l); _ ← rotate_files path secure (n - 1); _ ← delete_oldest path n secure;
      open_file path) l = (l', Ok tt) /\ files_hold l' es d' gs' cur' c' [] /\ ((2 <= n)%nat -> c' = []).
Proof using Hmax Hlong Hn Hn64.
  intros (Hq & _ & _ & Hes & Hf & Hc & Hg & Hlen & Hd & Hs). rewrite app_nil_r in Hc. unfold mbind at 1, M_bind at 1, modify.
  set (l1 := fl_set (fl_files l) None l). destruct (rotate_files_quiet path secure (n - 1) l1 Hq) as (l2 & E2 & Q2 & F2 & W2); [lia|].
  erewrite bind_to by exact E2. change (fl_files l1) with (fl_files l) in F2.
  destruct (shifted_slots path (n - 1) (fl_files l) (text <$> (cur :: gs))) as (H1 & H2 & H3); [lia| |].
  { intros [|j] Hj; [cbn [slot]; by rewrite Hf, Hc|]. cbn [slot]. rewrite Hg by lia. replace (S j - 1)%nat with j by lia. by rewrite list_lookup_fmap. }
  rewrite <- F2 in H1, H2, H3.
  assert (fl_files l2 !! numbered path n = None) as Hold.
  { rewrite H3.
    - rewrite Hg by lia. by rewrite (proj2 (lookup_ge_None gs (n - 1))) by lia.
    - intros j Hj. assert (numbered path n = slot path n) as -> by by (destruct n; [lia|]). intros E. apply slot_inj in E; lia. }
  erewrite bind_to; [|unfold delete_oldest, mbind, M_bind, get; rewrite Hold; reflexivity].
  unfold open_file. erewrite bind_to by by apply outcome_quiet. cbn [is_some]. unfold modify.
  destruct (decide (n = 1)%nat) as [En|En].
  - rewrite En in F2. cbn [Nat.sub shifted] in F2. rewrite F2, Hf. eexists _, d, gs, cur, c. split; [reflexivity|].
    split; [|lia]. split_and!; try done. by rewrite app_nil_r.
  - change (slot path 0) with path in H2. rewrite H2 by lia. destruct (shifted_events d gs cur Hlen ltac:(lia) ltac:(naive_solver)) as (d' & He & Hd').
    eexists _, d', (take (n - 1) (cur :: gs)), [], []. split; [reflexivity|]. split; [|done]. unfold files_hold. cbn [fl_set quiet fl_writer fl_files].
    split_and!; [done|done|done|congruence|by rewrite lookup_insert_eq|done| | | |].
    + intros j Hj. rewrite lookup_insert_ne by apply not_eq_sym, numbered_ne. destruct (decide (j = n)) as [->|].
      { rewrite Hold. symmetry. rewrite (proj2 (lookup_ge_None _ (n - 1))) by (rewrite length_take; lia). done. }
      destruct j as [|j]; [lia|]. change (numbered path (S j)) with (slot path (S j)). rewrite H1 by lia.
      replace (S j - 1)%nat with j by lia. rewrite lookup_take_lt by lia. by rewrite list_lookup_fmap.
    + rewrite length_take. lia.
    + intros Hx. split; [by apply Hd'|lia].
    + intros _. constructor; [cbn; lia|]. apply Forall_take, Hs. lia.
Qed.

Lemma hold_rotate_if_needed l es d gs cur c buf : files_hold l es d gs cur c buf ->
  exists l' d' gs' cur' c' buf', rotate_if_needed path max_size n secure l = (l', Ok tt) /\ files_hold l' es d' gs' cur' c' buf' /\
    ((2 <= n)%nat -> Z.of_nat (length c') < max_size).
Proof using Hmax Hlong Hn Hn64.
  intros H. pose proof H as (Hq & Hw & _ & _ & Hf & _). unfold rotate_if_needed. erewrite bind_to by by apply outcome_quiet.
  unfold mbind at 1, M_bind at 1, get. rewrite Hf. destruct (Z.of_nat (length c) <? max_size) eqn:E; bools; [by exists l, d, gs, cur, c, buf|].
  rewrite Hw. destruct (hold_flush _ _ _ _ _ _ _ H) as (l1 & E1 & H1). erewrite bind_to by exact E1.
  destruct (hold_rotate _ _ _ _ _ _ H1) as (l2 & d' & gs' & cur' & c' & E2 & H2 & H3). rewrite E2.
  exists l2, d', gs', cur', c', []. split_and!; [done|done|]. intros Hx. rewrite (H3 Hx). done.
Qed.

Lemma hold_stats total pending first last l es d gs cur c buf : files_hold l es d gs cur c buf ->
  files_hold (fl_set_stats total pending first last l) es d gs cur c buf.
Proof. intros H. exact H. Qed.
Lemma hold_flush_op l es d gs cur c buf : files_hold l es d gs cur c buf ->
  exists l', FileConnectionLogger_flush path l = (l', Ok tt) /\ files_hold l' es d gs cur (c ++ buf) [].
Proof.
  intros H. pose proof H as (_ & Hw & _). unfold FileConnectionLogger_flush, mbind at 1, M_bind at 1, get. rewrite Hw.
  destruct (hold_flush _ _ _ _ _ _ _ H) as (l1 & E1 & H1). erewrite bind_to by exact E1. unfold modify. eexists. split; [reflexivity|].
  by apply hold_stats.
Qed.

Lemma hold_log e l es d gs cur c buf : files_hold l es d gs cur c buf -> json_exact e -> Z.of_nat (length (json e)) < longest ->
  exists l' d' gs' cur' c' buf', FileConnectionLogger_log path max_size n secure e l = (l', Ok tt) /\ files_hold l' (es ++ [e]) d' gs' cur' c' buf'.
Proof using Hmax Hlong Hn Hn64.
  intros H He Hb. unfold FileConnectionLogger_log. unfold mbind at 1, M_bind at 1, modify at 1.
  destruct (hold_rotate_if_needed _ _ _ _ _ _ _ (hold_stats (fl_total_logged l) (fl_pending l)
    (match fl_first_event l with None => Some (ConnectionEvent_timestamp e) | f => f end) (Some (ConnectionEvent_timestamp e)) _ _ _ _ _ _ _ H))
    as (l1 & d1 & gs1 & cur1 & c1 & b1 & E1 & H1 & Hc1). erewrite bind_to by exact E1.
  destruct (write_event_quiet _ _ _ e _ (hold_writing _ _ _ _ _ _ _ H1) He) as (c2 & b2 & l2 & E2 & H2 & Hc2). erewrite bind_to by exact E2.
  assert (files_hold l2 (es ++ [e]) d1 gs1 (cur1 ++ [e]) c2 b2) as H3.
  { pose proof H1 as (_ & _ & Hb1 & Hes & _ & Ht & _). eapply writing_hold; [exact H1|exact H2| | |].
    - by rewrite Hc2, text_snoc, <- Ht, <- !app_assoc.
    - by rewrite Hes, <- !app_assoc.
    - intros Hx. specialize (Hc1 Hx). rewrite text_snoc, <- Ht, !length_app. cbn [length]. lia. }
  unfold mbind at 1, M_bind at 1, modify at 1. unfold mbind at 1, M_bind at 1, get. cbv beta iota. destruct (100 <=? _).
  - destruct (hold_flush_op _ _ _ _ _ _ _ (hold_stats (wrap 64 (fl_total_logged l2 + 1)) (fl_pending l2) (fl_first_event l2) (fl_last_event l2)
      _ _ _ _ _ _ _ H3)) as (l4 & E4 & H4). rewrite E4. by eexists _, _, _, _, _, _.
  - eexists _, _, _, _, _, _. split; [reflexivity|]. apply hold_stats, H3.
Qed.

(** Queries flush and read the file that is open. *)
Lemma hold_read l es d gs cur c buf : files_hold l es d gs cur c buf -> Forall json_exact cur ->
  exists l', (_ ← FileConnectionLogger_flush path; read_log path) l = (l', Ok (text cur)) /\ files_hold l' es d gs cur (c ++ buf) [].
Proof.
  intros H Hc. destruct (hold_flush_op _ _ _ _ _ _ _ H) as (l1 & E1 & H1). exists l1. erewrite bind_to by exact E1. split; [|done].
  pose proof H1 as (Hq & _ & _ & _ & Hf & Ht & _). rewrite app_nil_r in Ht. unfold read_log. erewrite bind_to by by apply outcome_quiet.
  unfold mbind, M_bind, get. rewrite Hf, Ht. by rewrite (proj1 (text_reads_back cur Hc)).
Qed.

(** A call of the logger. *)
Inductive FileCall := FileLog (event : ConnectionEvent) | FileFlush | FileCleanup | FileQuery (limit : nat).
Definition file_call (k : FileCall) l : FileConnectionLogger :=
  match k with
  | FileLog event => fst (FileConnectionLogger_log path max_size n secure event l)
  | FileFlush => fst (FileConnectionLogger_flush path l)
  | FileCleanup => fst (rotate_if_needed path max_size n secure l)
  | FileQuery limit => fst (FileConnectionLogger_query_recent path limit l)
  end.
Definition logged (ks : list FileCall) : list ConnectionEvent := omap (fun k => match k with FileLog e => Some e | _ => None end) ks.
Definition fits_line e : Prop := json_exact e /\ Z.of_nat (length (json e)) < longest.

Lemma hold_exact l es d gs cur c buf : files_hold l es d gs cur c buf -> Forall fits_line es -> Forall json_exact cur.
Proof.
  intros (_ & _ & _ & -> & _) H. rewrite !Forall_app in H. destruct H as (_ & _ & H). eapply Forall_impl; [exact H|]. by intros e [He _].
Qed.
Lemma call_hold k l es d gs cur c buf : files_hold l es d gs cur c buf -> Forall fits_line (es ++ logged [k]) ->
  exists d' gs' cur' c' buf', files_hold (file_call k l) (es ++ logged [k]) d' gs' cur' c' buf'.
Proof using Hmax Hlong Hn Hn64.
  intros H Hf. apply Forall_app in Hf as [He Hk]. destruct k as [e| | |limit]; cbn [file_call logged omap list_omap app] in *; rewrite ?app_nil_r.
  - inv Hk. match goal with F : fits_line e |- _ => destruct F as [F1 F2] end.
    destruct (hold_log e _ _ _ _ _ _ _ H F1 F2) as (l' & d' & gs' & cur' & c' & buf' & -> & H'). by exists d', gs', cur', c', buf'.
  - destruct (hold_flush_op _ _ _ _ _ _ _ H) as (l' & -> & H'). by eexists _, _, _, _, _.
  - destruct (hold_rotate_if_needed _ _ _ _ _ _ _ H) as (l' & d' & gs' & cur' & c' & buf' & -> & H' & _). by exists d', gs', cur', c', buf'.
  - destruct (hold_read _ _ _ _ _ _ _ H (hold_exact _ _ _ _ _ _ _ H He)) as (l' & E & H').
    exists d, gs, cur, (c ++ buf), []. replace (fst _) with l'; [done|]. unfold FileConnectionLogger_query_recent. unfold mbind, M_bind in E |- *.
    destruct (FileConnectionLogger_flush path l) as [l1 [u|err|]]; [|done|done]. by rewrite E.
Qed.

Lemma calls_hold l0 ks : files_hold l0 [] [] [] [] [] [] -> Forall fits_line (logged ks) ->
  exists d gs cur c buf, files_hold (foldl (fun l k => file_call k l) l0 ks) (logged ks) d gs cur c buf.
Proof using Hmax Hlong Hn Hn64.
  intros H0. induction ks as [|k ks IH] using rev_ind; intros Hf; [by exists [], [], [], [], []|].
  assert (logged (ks ++ [k]) = logged ks ++ logged [k]) as El by apply omap_app. rewrite El in Hf |- *. rewrite foldl_app. cbn [foldl].
  destruct IH as (d & gs & cur & c & buf & H); [by apply Forall_app in Hf as [? _]|]. by eapply call_hold.
Qed.
Lemma new_hold files l0 : FileConnectionLogger_new path None files [] = Ok l0 -> files !! path = None ->
  (forall j, files !! numbered path j = None) -> files_hold l0 [] [] [] [] [] [].
Proof using Hmax Hlong Hn.
  unfold FileConnectionLogger_new, open_file, mbind, M_bind, outcome, modify. intros Hnew H1 H2.
  cbn [is_some fl_files fl_faults head from_option default] in Hnew. rewrite H1 in Hnew. injection Hnew as <-.
  split_and!; try done; cbn [fl_files fl_set]; [apply lookup_insert_eq| |intros _; constructor; [cbn; lia|constructor]].
  intros j Hj. rewrite lookup_insert_ne by apply not_eq_sym, numbered_ne. by rewrite H2.
Qed.

(** C24 The log files hold the newest events.  While the file operations succeed,
    after any sequence of events, flushes, clean-ups and queries the numbered
    files, the open file and the buffer of its writer hold, oldest first and on
    whole lines, all events but a number of the oldest; some are dropped only
    when there are as many files as configured, and then every file is bounded
    by the configured size, a buffer and a line.  A log of one file is never
    rotated and has no bound.  A query answers with the newest events of the
    open file, newest first. *)
Theorem file_log_keeps_newest (files : gmap str bytes) (l0 : FileConnectionLogger) (calls : list FileCall)
    (Hnew : FileConnectionLogger_new path None files [] = Ok l0)
    (Hnone : files !! path = None /\ forall j, files !! numbered path j = None)
    (Hfit : Forall fits_line (logged calls)) (l := foldl (fun l k => file_call k l) l0 calls) :
  exists dropped gs cur c buf, files_hold l (logged calls) dropped gs cur c buf /\
    forall limit, snd (FileConnectionLogger_query_recent path limit l) = Ok (Some (take limit (rev cur))).
Proof using Hmax Hlong Hn Hn64.
  destruct Hnone as [H1 H2]. destruct (calls_hold l0 calls (new_hold _ _ Hnew H1 H2) Hfit) as (d & gs & cur & c & buf & H). fold l in H.
  exists d, gs, cur, c, buf. split; [done|]. intros limit. pose proof (hold_exact _ _ _ _ _ _ _ H Hfit) as Hx.
  destruct (hold_read _ _ _ _ _ _ _ H Hx) as (l' & E & _). destruct (text_reads_back cur Hx) as (_ & Hl & _).
  unfold FileConnectionLogger_query_recent. unfold mbind, M_bind in E |- *.
  destruct (FileConnectionLogger_flush path l) as [l1 [u|err|]]; [|done|done]. rewrite E. cbn. do 2 f_equal.
  rewrite Hl, <- map_rev, <- fmap_take. apply text_reads_back. apply Forall_take. by apply Forall_rev.
Qed.
End Kept.

(** The logger does not panic, whatever the file operations do. *)
Section Safe.
Context {Ch : Chrono} {Uu : Uuids} {EJ : EventJson}.
Ltac steady_step :=
  first [apply safe_ret | apply safe_get | apply safe_fail | apply safe_modify; done | apply safe_bind; [|intros ?] | by intros ? ?
    | case_match].
Create HintDb steady.
Ltac steadily := repeat first [progress eauto 1 with steady nocore | steady_step].
Lemma steady_overwrite file size block : safe (fun _ => True) (overwrite file size block).
Proof. unfold overwrite. steadily. Qed.
Lemma steady_sync file : safe (fun _ => True) (sync_all file).
Proof. unfold sync_all. steadily. Qed.
#[local] Hint Resolve steady_overwrite steady_sync : steady.
Lemma steady_secure_delete file : safe (fun _ => True) (secure_delete_file file).
Proof. unfold secure_delete_file, remove_file. steadily. Qed.
Lemma steady_flush_buf path buf : safe (fun _ => True) (flush_buf path buf).
Proof. unfold flush_buf, append_bytes. steadily. Qed.
#[local] Hint Resolve steady_secure_delete steady_flush_buf : steady.
Lemma steady_write_all path data : safe (fun _ => True) (write_all path data).
Proof. unfold write_all, append_bytes. steadily. Qed.
Lemma steady_rotate_files path secure i : safe (fun _ => True) (rotate_files path secure i).
Proof. induction i as [|i IH]; cbn [rotate_files]; unfold rename; steadily; apply IH. Qed.
#[local] Hint Resolve steady_write_all steady_rotate_files : steady.

#[export] Instance file_logger_safe path max_size max_files secure : LoggerSafe (file_logger path max_size max_files secure).
Proof.
  constructor. intros e l. cbn [cl_log file_logger].
  assert (safe (fun _ => True) (FileConnectionLogger_log path max_size max_files secure e)) as H; [|by apply H].
  unfold FileConnectionLogger_log, rotate_if_needed, delete_oldest, open_file, remove_file, write_event, FileConnectionLogger_flush.
  steadily.
Qed.
End Safe.

Section FileWitness.
#[local] Existing Instances toy_chrono toy_uuids.
Definition attempt_n (t : @DateTime toy_chrono) : ConnectionEvent := ConnectionAttempt (Uu := toy_uuids) 0%N t (SockV4 1 1) None.
Definition number_json : @EventJson toy_chrono toy_uuids := {|
  event_to_json e := inl (fmt_dec (ConnectionEvent_timestamp e : Z));
  event_from_json s := attempt_n <$> parse_uint 64 s;
|}.
#[local] Existing Instance number_json.
Definition few_calls : list FileCall :=
  [FileLog (attempt_n 1); FileFlush; FileLog (attempt_n 2); FileCleanup; FileFlush; FileLog (attempt_n 3); FileQuery 1].
Lemma attempt_n_fits t : t ∈ [1; 2; 3] -> fits_line 10 (attempt_n t).
Proof.
  intros Ht. split.
  - exists (fmt_dec t). split; [done|].
    assert (Forall (fun t => event_from_json (fmt_dec t) = Some (attempt_n t) /\ line_ok (fmt_dec t) /\ utf8_valid (fmt_dec t) = true) [1; 2; 3]) as H.
    { repeat constructor; try done; apply (bool_decide_unpack _); vm_compute; exact I. }
    rewrite Forall_forall in H. by apply H.
  - assert (Forall (fun t => Z.of_nat (length (json (attempt_n t))) < 10) [1; 2; 3]) as H by by repeat constructor.
    rewrite Forall_forall in H. by apply H.
Qed.
Lemma few_calls_fit : Forall (fits_line 10) (logged few_calls).
Proof. repeat constructor; apply attempt_n_fits; set_solver. Qed.
Definition few_start : FileConnectionLogger :=
  match FileConnectionLogger_new (lit "/log/c.log") None ∅ [] with Ok l => l | _ => mkFileLog ∅ None 0 0 None None [] [] end.

Lemma file_log_keeps_newest_witness :
  exists dropped gs cur c buf,
    files_hold (lit "/log/c.log") 2 2 10 (foldl (fun l k => file_call (lit "/log/c.log") 2 2 true k l) few_start few_calls)
      (map attempt_n [1; 2; 3]) dropped gs cur c buf /\
    forall limit, snd (FileConnectionLogger_query_recent (lit "/log/c.log") limit
        (foldl (fun l k => file_call (lit "/log/c.log") 2 2 true k l) few_start few_calls)) = Ok (Some (take limit (rev cur))).
Proof.
  apply (file_log_keeps_newest (lit "/log/c.log") 2 2 true 10 ltac:(lia) ltac:(lia) ltac:(lia) ltac:(lia) ∅ few_start few_calls).
  - reflexivity.
  - split; [apply lookup_empty|intros j; apply lookup_empty].
  - exact few_calls_fit.
Defined.
(** The first event is gone, with zeros written over it; the second is in the numbered file. *)
Example few_calls_end :
  let l := foldl (fun l k => file_call (lit "/log/c.log") 2 2 true k l) few_start few_calls in
  fl_files l !! lit "/log/c.log" = Some (lit "3" ++ [10]) /\ fl_files l !! lit "/log/c.log.1" = Some (lit "2" ++ [10]) /\
  last (fl_synced l) = Some (lit "/log/c.log.1", [0; 0]).
Proof. vm_compute. done. Qed.
End FileWitness.
