(* ===== verification/ClientConfig.v ===== *)
(** * Client configuration

    src/crates/corevpn-config/src/client.rs: the settings of a client, their
    validation, the builder and the text of an .ovpn file. *)
From S2P Require Import Prelude Text Network Addr ServerConfig.
Local Open Scope Z_scope.

Record ClientConfig := mkClientConfig {
  cc_name : str;
  cc_remote_host : str;
  cc_remote_port : Z;
  cc_protocol : str;
  cc_ca_cert : str;
  cc_client_cert : str;
  cc_client_key : str;
  cc_tls_auth_key : option str;
  cc_tls_crypt_key : option str;
  cc_cipher : str;
  cc_auth : str;
  cc_key_direction : option Z;
  cc_reneg_sec : Z;
  cc_extra_options : list str;
}.

(** ** Validation *)
Definition ClientConfig_validate_pem (content expected_type : str) : res ConfigError unit :=
  let content := trim content in
  let header := lit "-----BEGIN " ++ expected_type in
  let footer := lit "-----END " ++ expected_type ++ lit "-----" in
  _ ← reject (negb (starts_with header content))
        (ValidationError (lit "Invalid PEM format: missing BEGIN " ++ expected_type ++ lit " header"));
  _ ← reject (negb (ends_with footer content))
        (ValidationError (lit "Invalid PEM format: missing END " ++ expected_type ++ lit " footer"));
  match (match find_str [10] content with Some i => Some i | None => find_str [13] content end) with
  | None => Ok tt
  | Some header_end =>
      match rfind_str footer content with
      | None => Ok tt
      | Some footer_start =>
          _ ← reject (footer_start <=? header_end)%nat
                (ValidationError (lit "Invalid PEM format: empty or malformed " ++ expected_type ++ lit " content"));
          body ← str_slice content (header_end + 1) footer_start;
          reject (bool_decide (trim body = []))
            (ValidationError (lit "Invalid PEM format: empty " ++ expected_type ++ lit " content"))
      end
  end.

(** [.map_err(|e| ValidationError(format!("{}: {}", text, e)))]; the errors
    that are wrapped are never I/O errors. *)
Definition wrap_error {A} (text : string) (m : res ConfigError A) : res ConfigError A :=
  map_err (fun e => ValidationError (lit text ++ ConfigError_fmt [] e)) m.

Definition validate_static (name : string) (key : option str) : res ConfigError unit :=
  match key with
  | None => Ok tt
  | Some key =>
      _ ← reject (bool_decide (trim key = [])) (ValidationError (lit name ++ lit " key cannot be empty"));
      reject (length (trim key) <? 32)%nat (ValidationError (lit name ++ lit " key appears to be too short"))
  end.

(** [is_ok()] of a call, lazily, as [||] evaluates it. *)
Definition or_else_ok (m n : res ConfigError bool) : res ConfigError bool :=
  match m with Ok true => Ok true | Ok false => n | Err e => Err e | Panic => Panic end.
Definition pem_is_ok (content expected_type : str) : res ConfigError bool :=
  match ClientConfig_validate_pem content expected_type with
  | Ok _ => Ok true
  | Err _ => Ok false
  | Panic => Panic
  end.

Definition ClientConfig_validate (c : ClientConfig) : res ConfigError unit :=
  _ ← wrap_error "CA certificate: " (ClientConfig_validate_pem (cc_ca_cert c) (lit "CERTIFICATE"));
  _ ← wrap_error "Client certificate: " (ClientConfig_validate_pem (cc_client_cert c) (lit "CERTIFICATE"));
  key_valid ← or_else_ok (pem_is_ok (cc_client_key c) (lit "PRIVATE KEY"))
                (or_else_ok (pem_is_ok (cc_client_key c) (lit "RSA PRIVATE KEY"))
                   (pem_is_ok (cc_client_key c) (lit "EC PRIVATE KEY")));
  _ ← reject (negb key_valid)
        (ValidationError (lit "Client key: Invalid PEM format - must be PRIVATE KEY, RSA PRIVATE KEY, or EC PRIVATE KEY"));
  _ ← validate_static "tls-auth" (cc_tls_auth_key c);
  validate_static "tls-crypt" (cc_tls_crypt_key c).

(** ** The file *)

(** The lines pushed for the certificates and for the static key. *)
Definition inline_block (tag : string) (text : str) : list str :=
  [lit "<" ++ lit tag ++ lit ">"; trim text; lit "</" ++ lit tag ++ lit ">"].

Definition static_key_block (c : ClientConfig) : list str :=
  match cc_tls_crypt_key c, cc_tls_auth_key c with
  | Some key, _ => inline_block "tls-crypt" key
  | None, Some key =>
      (match cc_key_direction c with Some dir => [lit "key-direction " ++ fmt_dec dir] | None => [] end)
        ++ inline_block "tls-auth" key
  | None, None => []
  end.

Definition ovpn_directives (c : ClientConfig) : list str :=
  [lit "# CoreVPN Client Configuration"; lit "# Generated automatically - do not edit"; [];
   lit "client"; lit "dev tun"; lit "proto " ++ cc_protocol c;
   lit "remote " ++ cc_remote_host c ++ lit " " ++ fmt_dec (cc_remote_port c);
   lit "resolv-retry infinite"; lit "nobind"; lit "persist-key"; lit "persist-tun";
   lit "remote-cert-tls server"; lit "cipher " ++ cc_cipher c; lit "auth " ++ cc_auth c; lit "verb 3"; [];
   lit "# Security settings"; lit "tls-client"; lit "tls-version-min 1.3"]
  ++ (if 0 <? cc_reneg_sec c then [lit "reneg-sec " ++ fmt_dec (cc_reneg_sec c)] else [])
  ++ [[]] ++ cc_extra_options c ++ [[]].

Definition ovpn_lines (c : ClientConfig) : list str :=
  ovpn_directives c
  ++ inline_block "ca" (cc_ca_cert c) ++ [[]]
  ++ inline_block "cert" (cc_client_cert c) ++ [[]]
  ++ inline_block "key" (cc_client_key c) ++ [[]]
  ++ static_key_block c.

(** [self.validate().expect(..)]: an invalid configuration panics. *)
Definition ClientConfig_to_ovpn (c : ClientConfig) : res ConfigError str :=
  match ClientConfig_validate c with
  | Ok _ => Ok (join [10] (ovpn_lines c))
  | Err _ | Panic => Panic
  end.

Definition cc_add_options (opts : list str) (c : ClientConfig) : ClientConfig :=
  mkClientConfig (cc_name c) (cc_remote_host c) (cc_remote_port c) (cc_protocol c) (cc_ca_cert c)
    (cc_client_cert c) (cc_client_key c) (cc_tls_auth_key c) (cc_tls_crypt_key c) (cc_cipher c) (cc_auth c)
    (cc_key_direction c) (cc_reneg_sec c) (cc_extra_options c ++ opts).

Definition ClientConfig_to_ovpn_mobile (c : ClientConfig) : res ConfigError str :=
  ClientConfig_to_ovpn (cc_add_options
    [lit "# Mobile optimizations"; lit "connect-retry 2"; lit "connect-retry-max 5"; lit "auth-retry interact"] c).

(** ** The builder

    It has the fields of the configuration; [build] moves them. *)
Record ClientConfigBuilder := mkCcb { ccb_config : ClientConfig }.

Definition ClientConfigBuilder_new (name remote_host : str) : ClientConfigBuilder :=
  mkCcb (mkClientConfig name remote_host 1194 (lit "udp") [] [] [] None None (lit "AES-256-GCM") (lit "SHA256")
           (Some 1) 0 []).
Definition ClientConfigBuilder_port (port : Z) (b : ClientConfigBuilder) : ClientConfigBuilder :=
  let c := ccb_config b in
  mkCcb (mkClientConfig (cc_name c) (cc_remote_host c) port (cc_protocol c) (cc_ca_cert c) (cc_client_cert c)
    (cc_client_key c) (cc_tls_auth_key c) (cc_tls_crypt_key c) (cc_cipher c) (cc_auth c) (cc_key_direction c)
    (cc_reneg_sec c) (cc_extra_options c)).
Definition ClientConfigBuilder_protocol (proto : str) (b : ClientConfigBuilder) : ClientConfigBuilder :=
  let c := ccb_config b in
  mkCcb (mkClientConfig (cc_name c) (cc_remote_host c) (cc_remote_port c) proto (cc_ca_cert c) (cc_client_cert c)
    (cc_client_key c) (cc_tls_auth_key c) (cc_tls_crypt_key c) (cc_cipher c) (cc_auth c) (cc_key_direction c)
    (cc_reneg_sec c) (cc_extra_options c)).
Definition ClientConfigBuilder_ca_cert (cert : str) (b : ClientConfigBuilder) : ClientConfigBuilder :=
  let c := ccb_config b in
  mkCcb (mkClientConfig (cc_name c) (cc_remote_host c) (cc_remote_port c) (cc_protocol c) cert (cc_client_cert c)
    (cc_client_key c) (cc_tls_auth_key c) (cc_tls_crypt_key c) (cc_cipher c) (cc_auth c) (cc_key_direction c)
    (cc_reneg_sec c) (cc_extra_options c)).
Definition ClientConfigBuilder_client_cert (cert : str) (b : ClientConfigBuilder) : ClientConfigBuilder :=
  let c := ccb_config b in
  mkCcb (mkClientConfig (cc_name c) (cc_remote_host c) (cc_remote_port c) (cc_protocol c) (cc_ca_cert c) cert
    (cc_client_key c) (cc_tls_auth_key c) (cc_tls_crypt_key c) (cc_cipher c) (cc_auth c) (cc_key_direction c)
    (cc_reneg_sec c) (cc_extra_options c)).
Definition ClientConfigBuilder_client_key (key : str) (b : ClientConfigBuilder) : ClientConfigBuilder :=
  let c := ccb_config b in
  mkCcb (mkClientConfig (cc_name c) (cc_remote_host c) (cc_remote_port c) (cc_protocol c) (cc_ca_cert c)
    (cc_client_cert c) key (cc_tls_auth_key c) (cc_tls_crypt_key c) (cc_cipher c) (cc_auth c) (cc_key_direction c)
    (cc_reneg_sec c) (cc_extra_options c)).
Definition ClientConfigBuilder_tls_auth (key : str) (direction : Z) (b : ClientConfigBuilder) : ClientConfigBuilder :=
  let c := ccb_config b in
  mkCcb (mkClientConfig (cc_name c) (cc_remote_host c) (cc_remote_port c) (cc_protocol c) (cc_ca_cert c)
    (cc_client_cert c) (cc_client_key c) (Some key) (cc_tls_crypt_key c) (cc_cipher c) (cc_auth c) (Some direction)
    (cc_reneg_sec c) (cc_extra_options c)).
Definition ClientConfigBuilder_tls_crypt (key : str) (b : ClientConfigBuilder) : ClientConfigBuilder :=
  let c := ccb_config b in
  mkCcb (mkClientConfig (cc_name c) (cc_remote_host c) (cc_remote_port c) (cc_protocol c) (cc_ca_cert c)
    (cc_client_cert c) (cc_client_key c) None (Some key) (cc_cipher c) (cc_auth c) (cc_key_direction c)
    (cc_reneg_sec c) (cc_extra_options c)).
Definition ClientConfigBuilder_cipher (cipher : str) (b : ClientConfigBuilder) : ClientConfigBuilder :=
  let c := ccb_config b in
  mkCcb (mkClientConfig (cc_name c) (cc_remote_host c) (cc_remote_port c) (cc_protocol c) (cc_ca_cert c)
    (cc_client_cert c) (cc_client_key c) (cc_tls_auth_key c) (cc_tls_crypt_key c) cipher (cc_auth c)
    (cc_key_direction c) (cc_reneg_sec c) (cc_extra_options c)).
Definition ClientConfigBuilder_extra_option (opt : str) (b : ClientConfigBuilder) : ClientConfigBuilder :=
  mkCcb (cc_add_options [opt] (ccb_config b)).
Definition ClientConfigBuilder_reneg_sec (secs : Z) (b : ClientConfigBuilder) : ClientConfigBuilder :=
  let c := ccb_config b in
  mkCcb (mkClientConfig (cc_name c) (cc_remote_host c) (cc_remote_port c) (cc_protocol c) (cc_ca_cert c)
    (cc_client_cert c) (cc_client_key c) (cc_tls_auth_key c) (cc_tls_crypt_key c) (cc_cipher c) (cc_auth c)
    (cc_key_direction c) secs (cc_extra_options c)).
Definition ClientConfigBuilder_build (b : ClientConfigBuilder) : ClientConfig := ccb_config b.
