(* ===== verification/Pki.v ===== *)
(** * The certificate authority

    src/crates/corevpn-crypto/src/cert.rs, except the static keys (Cert.v):
    issuing certificates, loading the authority from its files, and the checks
    of validity and chain.  Certificates are made by the crate [rcgen] and read
    by the crates [pem] and [x509-cert]; the interface [Rcgen] has what the
    source uses of them.  Times are nanoseconds since 1970.  The outcome of
    generating a key pair is an argument. *)
From S2P Require Import Prelude Errors Text Network Addr Cert.
Local Open Scope Z_scope.

Inductive DnType := CommonName | OrganizationName.
#[export] Instance DnType_eq_dec : EqDecision DnType.
Proof. solve_decision. Defined.
#[export] Instance DnType_countable : Countable DnType.
Proof.
  refine (inj_countable' (fun d => match d with CommonName => true | OrganizationName => false end)
            (fun b => if (b : bool) then CommonName else OrganizationName) _); by intros [].
Defined.

(** The entries in the order of the pushes. *)
Abbreviation DistinguishedName := (list (DnType * str)).

Inductive KeyUsagePurpose := KeyCertSign | CrlSign | DigitalSignature | KeyEncipherment.
Inductive ExtendedKeyUsagePurpose := ServerAuth | ClientAuth.
Inductive SanType := DnsName (s : str) | SanIpAddress (ip : IpAddr) | Rfc822Name (s : str).

Record CertificateParams := mkParams {
  cp_distinguished_name : DistinguishedName;
  cp_is_ca : bool;
  cp_key_usages : list KeyUsagePurpose;
  cp_extended_key_usages : list ExtendedKeyUsagePurpose;
  cp_subject_alt_names : list SanType;
  cp_not_before : Z;
  cp_not_after : Z;
}.

(** What [x509-cert] reads of a certificate: the encoded names, and the
    period of validity in seconds. *)
Record X509Certificate := mkX509 {
  x5_issuer : bytes;
  x5_subject : bytes;
  x5_not_before : Z;
  x5_not_after : Z;
}.

(** The lines between the markers of a PEM text. *)
Definition base64_char (b : Z) : bool :=
  ascii_alphanumeric b || (b =? 43) || (b =? 47) || (b =? 61).
Definition pem_lines (label : str) (body : list str) : list str :=
  [lit "-----BEGIN " ++ label ++ lit "-----"] ++ body ++ [lit "-----END " ++ label ++ lit "-----"].
Definition pem_text (label : str) (body : list str) : str :=
  concat (map (fun l => l ++ [10]) (pem_lines label body)).
Definition pem_body (body : list str) : Prop :=
  body <> [] /\ Forall (fun l => l <> [] /\ Forall (fun b => base64_char b = true) l) body.

Class Rcgen := {
  KeyPair : Type;
  RcgenCertificate : Type;
  kp_from_pem : str -> KeyPair + str;
  kp_serialize_pem : KeyPair -> str;
  (** [CertificateParams::new(vec![])]. *)
  params_new : CertificateParams + str;
  rc_self_signed : CertificateParams -> KeyPair -> RcgenCertificate + str;
  rc_signed_by : CertificateParams -> KeyPair -> RcgenCertificate -> KeyPair -> RcgenCertificate + str;
  rc_pem : RcgenCertificate -> str;
  (** [OffsetDateTime::from(SystemTime)] panics out of its range. *)
  offset_date_time : Z -> option Z;
  (** Whether the text is a valid [Ia5String]. *)
  is_ia5 : str -> bool;
  pem_parse : str -> bytes + str;
  x509_from_der : bytes -> X509Certificate + str;
  (** The encoding of a name. *)
  name_of_dn : DistinguishedName -> bytes;
  (** The subject an issued certificate carries. *)
  rc_subject : RcgenCertificate -> bytes;
}.

Definition reads_as {R : Rcgen} (pem : str) (x : X509Certificate) : Prop :=
  exists der, pem_parse pem = inl der /\ x509_from_der der = inl x.
Definition seconds (t : Z) : Z := t / 1000000000.

Class RcgenLaws (R : Rcgen) : Prop := {
  name_of_dn_inj dn dn' : name_of_dn dn = name_of_dn dn' -> dn = dn';
  self_signed_reads p k c : rc_self_signed p k = inl c ->
    rc_subject c = name_of_dn (cp_distinguished_name p) /\
    reads_as (rc_pem c) (mkX509 (name_of_dn (cp_distinguished_name p)) (name_of_dn (cp_distinguished_name p))
                           (seconds (cp_not_before p)) (seconds (cp_not_after p)));
  signed_by_reads p k ic ik c : rc_signed_by p k ic ik = inl c ->
    reads_as (rc_pem c) (mkX509 (rc_subject ic) (name_of_dn (cp_distinguished_name p))
                           (seconds (cp_not_before p)) (seconds (cp_not_after p)));
  cert_pem_shape c : exists body, pem_body body /\ rc_pem c = pem_text (lit "CERTIFICATE") body;
  key_pem_shape k : exists body, pem_body body /\ kp_serialize_pem k = pem_text (lit "PRIVATE KEY") body;
  key_pem_roundtrip k : kp_from_pem (kp_serialize_pem k) = inl k;
  (** The range ends with the year 9999. *)
  offset_date_time_range t : 0 <= t < 253402300800 * 1000000000 -> offset_date_time t = Some t;
}.

Section Authority.
Context {R : Rcgen}.

(** [.map_err(|e| ..(e.to_string()))?]. *)
Definition of_sum {A} (wrap : str -> CryptoError) (r : A + str) : res CryptoError A :=
  match r with inl a => Ok a | inr e => Err (wrap e) end.
(** A conversion that panics. *)
Definition or_panic {A} (o : option A) : res CryptoError A :=
  match o with Some a => Ok a | None => Panic end.

(** [for line in pem.lines()]: the first line with both texts. *)
Fixpoint first_cn (lines : list str) : res CryptoError (option str) :=
  match lines with
  | [] => Ok None
  | line :: lines' =>
      if contains (lit "Subject:") line && contains (lit "CN=") line then
        match find_str (lit "CN=") line with
        | Some start =>
            rest ← str_slice line (start + 3) (length line);
            let end_ := default (length rest) (find_str [44] rest) in
            name ← str_slice rest 0 end_;
            Ok (Some (trim name))
        | None => first_cn lines'
        end
      else first_cn lines'
  end.
Definition extract_cn_from_pem (pem : str) : res CryptoError (option str) := first_cn (str_lines pem).

Record CertificateAuthority := mkCa {
  ca_cert : RcgenCertificate;
  ca_key_pair : KeyPair;
  ca_cert_pem : str;
}.

Record Certificate := mkCert {
  crt_cert_pem : str;
  crt_key_pem : str;
  crt_ca_pem : str;
}.

Definition from_days (days : Z) : Z := days * 24 * 60 * 60 * 1000000000.

(** The end of the validity that starts at [now], as [.into()] gives it. *)
Definition validity (now days : Z) : res CryptoError (Z * Z) :=
  not_before ← or_panic (offset_date_time now);
  not_after ← or_panic (offset_date_time (now + from_days days));
  Ok (not_before, not_after).

Definition ca_usages : list KeyUsagePurpose := [KeyCertSign; CrlSign; DigitalSignature].

Definition CertificateAuthority_new (now : Z) (fresh : KeyPair + str) (common_name organization : str)
    (validity_days : Z) : res CryptoError CertificateAuthority :=
  key_pair ← of_sum CertificateError fresh;
  params ← of_sum CertificateError params_new;
  let dn := [(CommonName, common_name); (OrganizationName, organization)] in
  period ← validity now validity_days;
  let params := mkParams dn true ca_usages (cp_extended_key_usages params) (cp_subject_alt_names params)
                  (fst period) (snd period) in
  cert ← of_sum CertificateError (rc_self_signed params key_pair);
  Ok (mkCa cert key_pair (rc_pem cert)).

(** ** Checks of a certificate *)
Definition read_certificate (pem_error cert_error : string) (pem : str) : res CryptoError X509Certificate :=
  der ← of_sum (fun e => InvalidPem (lit pem_error ++ e)) (pem_parse pem);
  of_sum (fun e => CertificateError (lit cert_error ++ e)) (x509_from_der der).

Definition Certificate_validate_expiration (now : Z) (c : Certificate) : res CryptoError unit :=
  cert ← read_certificate "Failed to parse certificate PEM: " "Failed to parse certificate: " (crt_cert_pem c);
  if now <? x5_not_before cert * 1000000000 then Err (CertificateError (lit "Certificate not yet valid"))
  else if x5_not_after cert * 1000000000 <? now then Err (CertificateError (lit "Certificate expired"))
  else Ok tt.

Definition Certificate_validate_chain (c : Certificate) : res CryptoError unit :=
  cert ← read_certificate "Failed to parse certificate PEM: " "Failed to parse certificate: " (crt_cert_pem c);
  ca_cert ← read_certificate "Failed to parse CA certificate PEM: " "Failed to parse CA certificate: " (crt_ca_pem c);
  if negb (bool_decide (x5_issuer cert = x5_subject ca_cert))
  then Err (CertificateError (lit "Certificate issuer does not match CA subject"))
  else Ok tt.

Definition Certificate_validate (now : Z) (c : Certificate) : res CryptoError unit :=
  _ ← Certificate_validate_expiration now c;
  Certificate_validate_chain c.

Definition Certificate_from_pem (now : Z) (cert_pem key_pem ca_pem : str) : res CryptoError Certificate :=
  let cert := mkCert cert_pem key_pem ca_pem in
  _ ← Certificate_validate now cert;
  Ok cert.

Definition Certificate_to_ovpn_inline (c : Certificate) : str :=
  lit "<ca>" ++ [10] ++ trim (crt_ca_pem c) ++ lit "</ca>" ++ [10; 10] ++
  lit "<cert>" ++ [10] ++ trim (crt_cert_pem c) ++ lit "</cert>" ++ [10; 10] ++
  lit "<key>" ++ [10] ++ trim (crt_key_pem c) ++ lit "</key>".

(** ** Loading and issuing *)
Definition CertificateAuthority_from_pem (now : Z) (cert_pem key_pem : str) : res CryptoError CertificateAuthority :=
  key_pair ← of_sum InvalidPem (kp_from_pem key_pem);
  cn ← extract_cn_from_pem cert_pem;
  let common_name := default (lit "CoreVPN CA") cn in
  params ← of_sum CertificateError params_new;
  let dn := [(CommonName, common_name)] in
  period ← validity now (365 * 10);
  let params := mkParams dn true ca_usages (cp_extended_key_usages params) (cp_subject_alt_names params)
                  (fst period) (snd period) in
  cert ← of_sum CertificateError (rc_self_signed params key_pair);
  let ca := mkCa cert key_pair cert_pem in
  _ ← Certificate_validate_expiration now (mkCert cert_pem [] cert_pem);
  Ok ca.

Definition CertificateAuthority_certificate_pem (ca : CertificateAuthority) : str := ca_cert_pem ca.
Definition CertificateAuthority_private_key_pem (ca : CertificateAuthority) : str :=
  kp_serialize_pem (ca_key_pair ca).

Definition CertificateAuthority_issue_server_certificate (now : Z) (fresh : KeyPair + str) (ca : CertificateAuthority)
    (common_name : str) (san_dns : list str) (san_ips : list IpAddr) (validity_days : Z) :
    res CryptoError Certificate :=
  server_key ← of_sum CertificateError fresh;
  let sans := map DnsName (filter (fun s => is_ia5 s = true) san_dns) ++ map SanIpAddress san_ips in
  _ ← of_sum CertificateError params_new;
  let dn := [(CommonName, common_name)] in
  period ← validity now validity_days;
  let params := mkParams dn false [DigitalSignature; KeyEncipherment] [ServerAuth] sans (fst period) (snd period) in
  cert ← of_sum CertificateError (rc_signed_by params server_key (ca_cert ca) (ca_key_pair ca));
  Ok (mkCert (rc_pem cert) (kp_serialize_pem server_key) (ca_cert_pem ca)).

(** The alternative name of a client: its address, when it is an IA5 string. *)
Definition email_sans (email : option str) : list SanType :=
  match email with
  | Some email => if is_ia5 email then [Rfc822Name email] else []
  | None => []
  end.

Definition CertificateAuthority_issue_client_certificate (now : Z) (fresh : KeyPair + str) (ca : CertificateAuthority)
    (common_name : str) (email : option str) (validity_days : Z) : res CryptoError Certificate :=
  client_key ← of_sum CertificateError fresh;
  let sans := email_sans email in
  _ ← of_sum CertificateError params_new;
  let dn := [(CommonName, common_name)] in
  period ← validity now validity_days;
  let params := mkParams dn false [DigitalSignature] [ClientAuth] sans (fst period) (snd period) in
  cert ← of_sum CertificateError (rc_signed_by params client_key (ca_cert ca) (ca_key_pair ca));
  Ok (mkCert (rc_pem cert) (kp_serialize_pem client_key) (ca_cert_pem ca)).

Record CertificateRequest := mkCsr { csr_pem : str; csr_key_pem : str }.

Definition CertificateRequest_new_client (fresh : KeyPair + str) (common_name : str) (email : option str) :
    res CryptoError CertificateRequest :=
  key_pair ← of_sum CertificateError fresh;
  let sans := email_sans email in
  params ← of_sum CertificateError params_new;
  let params := mkParams [(CommonName, common_name)] (cp_is_ca params) (cp_key_usages params)
                  (cp_extended_key_usages params) sans (cp_not_before params) (cp_not_after params) in
  cert ← of_sum CertificateError (rc_self_signed params key_pair);
  Ok (mkCsr (rc_pem cert) (kp_serialize_pem key_pair)).
End Authority.

(** ** What is issued *)
Lemma contains_missing c p s : c ∈ p -> c ∉ s -> contains p s = false.
Proof.
  intros Hp. induction s as [|b s IH]; intros Hs; cbn [contains].
  - rewrite orb_false_r. apply bool_decide_eq_false_2. rewrite take_nil. intros <-. by apply not_elem_of_nil in Hp.
  - rewrite IH by set_solver. rewrite orb_false_r. apply bool_decide_eq_false_2. intros H. apply Hs.
    rewrite <- (take_drop (length p) (b :: s)), H. set_solver.
Qed.

Section Issued.
Context {R : Rcgen} {RL : RcgenLaws R}.

(** A PEM text has no line that names the subject. *)
Lemma base64_no c l : base64_char c = false -> Forall (fun b => base64_char b = true) l -> c ∉ l.
Proof. intros Hc H Hin. rewrite Forall_forall in H. specialize (H c Hin). congruence. Qed.

Lemma pem_lines_no c label body : base64_char c = false -> c ∉ lit "-----BEGIN " -> c ∉ lit "-----END " ->
  c ∉ label -> pem_body body -> Forall (fun l => c ∉ l) (pem_lines label body).
Proof.
  intros Hc H1 H2 H3 [_ Hb]. unfold pem_lines. assert (c ∉ lit "-----") as H4 by set_solver.
  apply Forall_app. split; [|apply Forall_app; split].
  - repeat constructor. set_solver.
  - eapply Forall_impl; [exact Hb|]. intros l [_ Hl]. by apply (base64_no c).
  - repeat constructor. set_solver.
Qed.

Lemma first_cn_none ls : Forall (fun l => 58 ∉ l) ls -> first_cn ls = Ok None.
Proof.
  intros H. induction H as [|l ls Hl H IH]; [done|]. cbn [first_cn].
  rewrite (contains_missing 58) by (done || (apply (bool_decide_unpack _); vm_compute; exact I)). done.
Qed.

(** Lines of the text of a PEM file, as they are read. *)
Lemma strip_cr_no c l : c ∉ l -> c ∉ strip_cr l.
Proof.
  unfold strip_cr. repeat case_match; intros Hc; try done. intros Hin. apply Hc.
  apply list_elem_of_In, in_rev. apply list_elem_of_In, in_rev in Hin.
  match goal with H : rev l = _ |- _ => rewrite H end. by right.
Qed.

Lemma strip_lines_no c ps : Forall (fun l => c ∉ l) ps -> Forall (fun l => c ∉ l) (strip_lines ps).
Proof.
  intros H. induction H as [|p ps Hp H IH]; [constructor|]. cbn [strip_lines].
  repeat case_match; repeat constructor; auto using strip_cr_no.
Qed.

Lemma split_on_no c d s : c ∉ s -> Forall (fun l => c ∉ l) (split_on d s).
Proof.
  induction s as [|b s IH]; intros Hs; cbn [split_on]; [by repeat constructor|].
  apply not_elem_of_cons in Hs as [Hb Hs]. specialize (IH Hs).
  case_match; [by constructor; [apply not_elem_of_nil|]|].
  destruct (split_on d s) as [|p ps]; [repeat constructor; set_solver|].
  inv IH. constructor; [set_solver|done].
Qed.

Lemma str_lines_no c s : c ∉ s -> Forall (fun l => c ∉ l) (str_lines s).
Proof. intros H. by apply strip_lines_no, split_on_no. Qed.

Lemma cert_pem_no_cn c : extract_cn_from_pem (rc_pem c) = Ok None.
Proof.
  destruct (cert_pem_shape c) as (body & Hb & ->). apply first_cn_none, str_lines_no.
  unfold pem_text. intros H. apply list_elem_of_In, in_concat in H as (l & Hl & Hin).
  apply in_map_iff in Hl as (l' & <- & Hl'). apply list_elem_of_In in Hin. apply list_elem_of_In in Hl'.
  pose proof (pem_lines_no 58 (lit "CERTIFICATE") body eq_refl) as Hno.
  rewrite Forall_forall in Hno. apply elem_of_app in Hin as [Hin|Hin].
  - revert Hin. apply Hno; try done; apply (bool_decide_unpack _); vm_compute; exact I.
  - by apply list_elem_of_singleton in Hin.
Qed.

(** Take a computation apart that has succeeded. *)
Lemma of_sum_ok {A} w (r : A + str) a : of_sum w r = Ok a -> r = inl a.
Proof. destruct r; intros H; by inv H. Qed.

Lemma new_reads now fresh cn org days ca :
  CertificateAuthority_new now fresh cn org days = Ok ca ->
  let name := name_of_dn [(CommonName, cn); (OrganizationName, org)] in
  ca_cert_pem ca = rc_pem (ca_cert ca) /\ rc_subject (ca_cert ca) = name /\
  exists nb na, validity now days = Ok (nb, na) /\
    reads_as (ca_cert_pem ca) (mkX509 name name (seconds nb) (seconds na)).
Proof.
  intros H. unfold CertificateAuthority_new in H.
  apply bind_Ok in H as (k & _ & H). apply bind_Ok in H as (p & _ & H).
  apply bind_Ok in H as ([nb na] & Hv & H). apply bind_Ok in H as (c & Hc & H). inv H. cbn.
  apply of_sum_ok, self_signed_reads in Hc as [Hs Hr]. cbn in Hs, Hr. eauto 6.
Qed.

Lemma issue_client_reads now fresh ca cn email days cert :
  CertificateAuthority_issue_client_certificate now fresh ca cn email days = Ok cert ->
  crt_ca_pem cert = ca_cert_pem ca /\
  exists nb na, validity now days = Ok (nb, na) /\
    reads_as (crt_cert_pem cert)
      (mkX509 (rc_subject (ca_cert ca)) (name_of_dn [(CommonName, cn)]) (seconds nb) (seconds na)).
Proof.
  intros H. unfold CertificateAuthority_issue_client_certificate in H.
  apply bind_Ok in H as (k & _ & H). apply bind_Ok in H as (p & _ & H).
  apply bind_Ok in H as ([nb na] & Hv & H). apply bind_Ok in H as (c & Hc & H). inv H. cbn.
  apply of_sum_ok, signed_by_reads in Hc. eauto 6.
Qed.

Lemma from_pem_reads now cert_pem key_pem ca :
  CertificateAuthority_from_pem now cert_pem key_pem = Ok ca ->
  ca_cert_pem ca = cert_pem /\
  (extract_cn_from_pem cert_pem = Ok None ->
   rc_subject (ca_cert ca) = name_of_dn [(CommonName, lit "CoreVPN CA")]).
Proof.
  intros H. unfold CertificateAuthority_from_pem in H.
  apply bind_Ok in H as (k & _ & H). apply bind_Ok in H as (cn & Hcn & H).
  apply bind_Ok in H as (p & _ & H). apply bind_Ok in H as ([nb na] & _ & H).
  apply bind_Ok in H as (c & Hc & H). apply bind_Ok in H as ([] & _ & H). inv H. cbn.
  split; [done|]. rewrite Hcn. intros [= ->]. apply of_sum_ok, self_signed_reads in Hc as [Hs _]. done.
Qed.

Lemma read_certificate_ok e1 e2 pem x : reads_as pem x -> read_certificate e1 e2 pem = Ok x.
Proof. intros (der & H1 & H2). unfold read_certificate. rewrite H1. cbn. by rewrite H2. Qed.

Lemma validate_chain_reads cert x ca :
  reads_as (crt_cert_pem cert) x -> reads_as (crt_ca_pem cert) ca ->
  Certificate_validate_chain cert =
  (if negb (bool_decide (x5_issuer x = x5_subject ca))
   then Err (CertificateError (lit "Certificate issuer does not match CA subject")) else Ok tt).
Proof.
  intros H1 H2. unfold Certificate_validate_chain.
  by rewrite (read_certificate_ok _ _ _ _ H1), (read_certificate_ok _ _ _ _ H2).
Qed.

(** The certificates that a new authority issues pass the chain check, until
    it is loaded from its files: then the subject of the authority is rebuilt
    as CN=CoreVPN CA, and no certificate it issues names the distributed CA
    certificate as its issuer. *)
Lemma reloaded_authority_breaks_chain (t0 t1 t2 t3 : Z) (k0 k1 k3 : KeyPair + str) (cn org user user' : str)
    (email email' : option str) (days0 days days' : Z) (ca ca' : CertificateAuthority) (cert cert' : Certificate)
    (Hnew : CertificateAuthority_new t0 k0 cn org days0 = Ok ca)
    (Hissue : CertificateAuthority_issue_client_certificate t1 k1 ca user email days = Ok cert)
    (Hload : CertificateAuthority_from_pem t2 (CertificateAuthority_certificate_pem ca)
               (CertificateAuthority_private_key_pem ca) = Ok ca')
    (Hissue' : CertificateAuthority_issue_client_certificate t3 k3 ca' user' email' days' = Ok cert') :
  Certificate_validate_chain cert = Ok tt /\
  crt_ca_pem cert' = crt_ca_pem cert /\
  Certificate_validate_chain cert' = Err (CertificateError (lit "Certificate issuer does not match CA subject")).
Proof.
  destruct (new_reads _ _ _ _ _ _ Hnew) as (Hpem & Hsub & nb & na & _ & Hca).
  destruct (issue_client_reads _ _ _ _ _ _ _ Hissue) as (Hc & nb1 & na1 & _ & Hr).
  destruct (from_pem_reads _ _ _ _ Hload) as [Hp' Hs'].
  destruct (issue_client_reads _ _ _ _ _ _ _ Hissue') as (Hc' & nb3 & na3 & _ & Hr').
  unfold CertificateAuthority_certificate_pem in *. rewrite Hpem in Hs'. specialize (Hs' (cert_pem_no_cn _)).
  split_and!; [|congruence|].
  - rewrite (validate_chain_reads _ _ _ Hr) by (rewrite Hc; exact Hca). cbn. by rewrite bool_decide_eq_true_2.
  - rewrite (validate_chain_reads _ _ _ Hr') by (rewrite Hc', Hp'; exact Hca). cbn.
    rewrite bool_decide_eq_false_2; [done|]. rewrite Hs'. intros H. by apply name_of_dn_inj in H.
Qed.

(** A certificate is valid from the second it was issued in to the end of
    its lifetime, and at no other time. *)
Theorem issued_certificate_lifetime (t0 t1 now : Z) (k0 k1 : KeyPair + str) (cn org user : str)
    (email : option str) (days0 days : Z) (ca : CertificateAuthority) (cert : Certificate)
    (Hnew : CertificateAuthority_new t0 k0 cn org days0 = Ok ca)
    (Hissue : CertificateAuthority_issue_client_certificate t1 k1 ca user email days = Ok cert)
    (Ht : 0 <= t1) (Hd : 0 <= days) (Hend : t1 + from_days days < 253402300800 * 1000000000) :
  Certificate_validate now cert = Ok tt <->
  seconds t1 * 1000000000 <= now <= (seconds t1 + days * 86400) * 1000000000.
Proof.
  destruct (new_reads _ _ _ _ _ _ Hnew) as (Hpem & Hsub & nb & na & _ & Hca).
  destruct (issue_client_reads _ _ _ _ _ _ _ Hissue) as (Hc & nb1 & na1 & Hv & Hr).
  unfold validity in Hv. assert (0 <= from_days days) by (unfold from_days; lia).
  rewrite !offset_date_time_range in Hv by lia. cbn in Hv. injection Hv as <- <-.
  assert (seconds (t1 + from_days days) = seconds t1 + days * 86400) as Hs.
  { unfold seconds, from_days. rewrite <- Z.div_add by lia. f_equal. lia. }
  unfold Certificate_validate. rewrite (validate_chain_reads _ _ _ Hr) by (rewrite Hc; exact Hca). cbn.
  rewrite bool_decide_eq_true_2 by done. unfold Certificate_validate_expiration.
  rewrite (read_certificate_ok _ _ _ _ Hr). cbn. rewrite Hs.
  destruct (Z.ltb_spec now (seconds t1 * 1000000000)); [split; [done|lia]|].
  destruct (Z.ltb_spec ((seconds t1 + days * 86400) * 1000000000) now); [split; [done|lia]|].
  split; [lia|done].
Qed.
End Issued.

(** ** PEM texts *)
Lemma base64_line_ok l : l <> [] -> Forall (fun b => base64_char b = true) l -> line_ok l.
Proof.
  intros _ H. split; [by apply base64_no|]. intros Hl. apply last_Some_elem_of in Hl.
  rewrite Forall_forall in H. specialize (H _ Hl). by vm_compute in H.
Qed.

Lemma marker_line_ok label : line_ok label ->
  line_ok (lit "-----BEGIN " ++ label ++ lit "-----") /\ line_ok (lit "-----END " ++ label ++ lit "-----").
Proof.
  intros [H _]. unfold line_ok. rewrite !not_elem_of_app.
  split; (split; [split_and!; try done; apply (bool_decide_unpack _); vm_compute; exact I|]);
    rewrite !last_app; done.
Qed.

Lemma pem_lines_ok label body : line_ok label -> pem_body body -> Forall line_ok (pem_lines label body).
Proof.
  intros Hl [_ Hb]. destruct (marker_line_ok label Hl) as [H1 H2].
  unfold pem_lines. rewrite !Forall_app, !Forall_singleton. split_and!; [done| |done].
  eapply Forall_impl; [exact Hb|]. intros l []. by apply base64_line_ok.
Qed.

Lemma pem_text_lines label body : line_ok label -> pem_body body ->
  str_lines (pem_text label body) = pem_lines label body.
Proof. intros. by apply str_lines_concat, pem_lines_ok. Qed.

(** ** A concrete authority

    Key pairs are numbers; a certificate is the tuple of its issuer, subject
    and times, written in binary. *)
Fixpoint bits (p : positive) : str :=
  match p with xH => [50] | xO p => 48 :: bits p | xI p => 49 :: bits p end.
Fixpoint of_bits (s : str) : option positive :=
  match s with
  | [] => None
  | b :: s' => if b =? 48 then xO <$> of_bits s' else if b =? 49 then xI <$> of_bits s' else Some xH
  end.
Lemma of_bits_bits p : of_bits (bits p) = Some p.
Proof. induction p; cbn; by rewrite ?IHp. Qed.
Lemma bits_body p : pem_body [bits p].
Proof.
  split; [done|]. repeat constructor; [by destruct p|].
  induction p; repeat constructor; done.
Qed.

Definition toy_pem (label : str) (p : positive) : str := pem_text label [bits p].
Definition toy_pem_parse (s : str) : bytes + str :=
  match str_lines s with _ :: l :: _ => inl l | _ => inr [] end.
Definition toy_cert : Type := positive * positive * Z * Z.
Definition toy_decode (der : bytes) : X509Certificate + str :=
  match (p ← of_bits der; decode p : option toy_cert) with
  | Some (issuer, subject, nb, na) => inl (mkX509 (bits issuer) (bits subject) (seconds nb) (seconds na))
  | None => inr []
  end.
Definition toy_name (dn : DistinguishedName) : bytes := bits (encode dn).

Definition toy_rcgen : Rcgen := {|
  KeyPair := positive;
  RcgenCertificate := toy_cert;
  kp_from_pem s :=
    match toy_pem_parse s with
    | inl l => match of_bits l with Some p => inl p | None => inr [] end
    | inr e => inr e
    end;
  kp_serialize_pem := toy_pem (lit "PRIVATE KEY");
  params_new := inl (mkParams [] false [] [] [] 0 0);
  rc_self_signed p _ :=
    let n := encode (cp_distinguished_name p) in inl (n, n, cp_not_before p, cp_not_after p);
  rc_signed_by p _ ic _ := inl (ic.1.1.2, encode (cp_distinguished_name p), cp_not_before p, cp_not_after p);
  rc_pem c := toy_pem (lit "CERTIFICATE") (encode c);
  offset_date_time t := if decide (0 <= t < 253402300800 * 1000000000) then Some t else None;
  is_ia5 s := forallb (in_range 0 127) s;
  pem_parse := toy_pem_parse;
  x509_from_der := toy_decode;
  name_of_dn := toy_name;
  rc_subject c := bits c.1.1.2;
|}.

Lemma toy_pem_parse_pem label p : line_ok label -> toy_pem_parse (toy_pem label p) = inl (bits p).
Proof. intros H. unfold toy_pem_parse, toy_pem. rewrite pem_text_lines; [done..|apply bits_body]. Qed.

Lemma toy_reads (c : toy_cert) : reads_as (R := toy_rcgen) (toy_pem (lit "CERTIFICATE") (encode c))
  (mkX509 (bits c.1.1.1) (bits c.1.1.2) (seconds c.1.2) (seconds c.2)).
Proof.
  exists (bits (encode c)). split.
  - apply toy_pem_parse_pem. apply (bool_decide_unpack _). vm_compute. exact I.
  - cbn. unfold toy_decode. rewrite of_bits_bits. cbn. rewrite decode_encode. by destruct c as [[[]]].
Qed.

Lemma toy_rcgen_laws : RcgenLaws toy_rcgen.
Proof.
  split; cbn.
  - intros dn dn' H. apply (inj encode). unfold toy_name in H.
    apply (inj Some). by rewrite <- !of_bits_bits, H.
  - intros p k c [= <-]. split; [done|]. apply (toy_reads (_, _, _, _)).
  - intros p k ic ik c [= <-]. apply (toy_reads (_, _, _, _)).
  - intros c. eexists. split; [apply bits_body|done].
  - intros k. eexists. split; [apply bits_body|done].
  - intros k. change (match toy_pem_parse (toy_pem (lit "PRIVATE KEY") k) with
      | inl l => match of_bits l with Some p => inl p | None => inr [] end
      | inr e => inr e
      end = (inl k : positive + str)).
    rewrite toy_pem_parse_pem; [by rewrite of_bits_bits|].
    apply (bool_decide_unpack _). vm_compute. exact I.
  - intros t Ht. by rewrite decide_True.
Qed.

(** ** The claims at concrete inputs *)
Section PkiWitnesses.
#[local] Existing Instances toy_rcgen toy_rcgen_laws.


Definition ok_or_else {E A} (d : A) (m : res E A) : A := match m with Ok a => a | _ => d end.
Lemma ok_or_else_eq {E A} (d : A) (m : res E A) : is_ok m = true -> m = Ok (ok_or_else d m).
Proof. by destruct m. Qed.
Definition sample_ca : CertificateAuthority :=
  ok_or_else (mkCa (1%positive, 1%positive, 0, 0) 1%positive [])
    (CertificateAuthority_new 5 (inl 1%positive) (lit "CA") (lit "Org") 10).
Definition reloaded_ca : CertificateAuthority :=
  ok_or_else sample_ca (CertificateAuthority_from_pem 7000000000 (CertificateAuthority_certificate_pem sample_ca)
    (CertificateAuthority_private_key_pem sample_ca)).
Definition issue_sample (ca : CertificateAuthority) : Certificate :=
  ok_or_else (mkCert [] [] [])
    (CertificateAuthority_issue_client_certificate 1500000000 (inl 2%positive) ca (lit "bob") None 1).

Lemma sample_ca_eq : CertificateAuthority_new 5 (inl 1%positive) (lit "CA") (lit "Org") 10 = Ok sample_ca.
Proof. apply ok_or_else_eq. vm_compute. reflexivity. Qed.
Lemma sample_cert_eq :
  CertificateAuthority_issue_client_certificate 1500000000 (inl 2%positive) sample_ca (lit "bob") None 1
    = Ok (issue_sample sample_ca).
Proof. apply ok_or_else_eq. vm_compute. reflexivity. Qed.

Lemma reloaded_authority_breaks_chain_witness :
  Certificate_validate_chain (issue_sample sample_ca) = Ok tt /\
  crt_ca_pem (issue_sample reloaded_ca) = crt_ca_pem (issue_sample sample_ca) /\
  Certificate_validate_chain (issue_sample reloaded_ca)
    = Err (CertificateError (lit "Certificate issuer does not match CA subject")).
Proof.
  apply (reloaded_authority_breaks_chain (R := toy_rcgen) 5 1500000000 7000000000 1500000000 (inl 1%positive) (inl 2%positive)
           (inl 2%positive) (lit "CA") (lit "Org") (lit "bob") (lit "bob") None None 10 1 1 sample_ca reloaded_ca
           (issue_sample sample_ca) (issue_sample reloaded_ca));
    [exact sample_ca_eq|exact sample_cert_eq|apply ok_or_else_eq; vm_compute; reflexivity..].
Defined.

Lemma issued_certificate_lifetime_witness :
  Certificate_validate 1000000000 (issue_sample sample_ca) = Ok tt <-> 1000000000 <= 1000000000 <= 86401000000000.
Proof.
  apply (issued_certificate_lifetime (R := toy_rcgen) 5 1500000000 1000000000 (inl 1%positive) (inl 2%positive) (lit "CA") (lit "Org")
           (lit "bob") None 10 1 sample_ca (issue_sample sample_ca));
    [exact sample_ca_eq|exact sample_cert_eq|lia|lia|vm_compute; reflexivity].
Defined.
End PkiWitnesses.
