(* ===== verification/Generator.v ===== *)
(** * Generation of client files

    src/crates/corevpn-config/src/generator.rs: client configurations from the
    server's, saving them, and the files of a new server.  The files written
    are a map from paths to contents; what the file system answers is a
    parameter ([Disk]). *)
From S2P Require Import Prelude Errors Text Network Addr ServerConfig Cert ClientConfig Pki.
Local Open Scope Z_scope.

(** [Display] of [CryptoError]. *)
Definition CryptoError_fmt (e : CryptoError) : str :=
  match e with
  | InvalidKeyLength expected got =>
      lit "invalid key length: expected " ++ fmt_dec (Z.of_nat expected) ++ lit ", got " ++ fmt_dec (Z.of_nat got)
  | InvalidSignature => lit "invalid signature"
  | DecryptionFailed => lit "decryption failed: authentication tag mismatch"
  | EncryptionFailed m => lit "encryption failed: " ++ m
  | InvalidNonceLength => lit "invalid nonce length"
  | KeyDerivationFailed m => lit "key derivation failed: " ++ m
  | CertificateError m => lit "certificate error: " ++ m
  | InvalidPem m => lit "invalid PEM format: " ++ m
  | HmacVerificationFailed => lit "HMAC verification failed"
  | CryptoReplayDetected => lit "replay attack detected: packet ID already seen"
  | KeyExpired => lit "key has expired"
  | RngFailed => lit "random number generation failed"
  end.

(** ** Paths *)
(** [Path::parent] of a path whose components are separated by single
    separators. *)
Definition path_parent (p : str) : option str :=
  match rev (split_on 47 p) with
  | [] => None
  | [_] => match p with [] => None | _ => Some [] end
  | _ :: rest => Some (match join [47] (rev rest) with [] => lit "/" | d => d end)
  end.
Definition path_components (p : str) : list str := filter (fun c => c <> []) (split_on 47 p).
(** [Path::starts_with], of absolute paths. *)
Definition path_starts_with (p base : str) : bool :=
  let b := path_components base in bool_decide (take (length b) (path_components p) = b).

(** What the file system answers. *)
Record Disk := mkDisk {
  dk_exists : str -> bool;
  dk_is_dir : str -> bool;
  dk_create_dir_all : str -> bool;
  dk_canonicalize : str -> option str;
  dk_write : str -> bool;
}.
Abbreviation Written := (gmap str str).

Definition io_check (ok : bool) : M Written ConfigError unit :=
  if ok then mret tt else fail ConfigIoError.
Definition io_result {A} (o : option A) : M Written ConfigError A :=
  match o with Some a => mret a | None => fail ConfigIoError end.
Definition fs_write (disk : Disk) (path contents : str) : M Written ConfigError unit :=
  if dk_write disk path then modify <[path := contents]> else fail ConfigIoError.

Section Generator.
Context {R : Rcgen} {UC : Unicode}.

Record ConfigGenerator := mkGenerator {
  cg_server_config : ServerConfig;
  cg_ca : CertificateAuthority;
  cg_ca_cert_pem : str;
  cg_ta_key : option str;
}.
Definition ConfigGenerator_new (server_config : ServerConfig) (ca : CertificateAuthority) (ta_key : option str) :
    ConfigGenerator :=
  mkGenerator server_config ca (CertificateAuthority_certificate_pem ca) ta_key.

Definition ConfigGenerator_map_cipher (cipher : str) : str :=
  let lower := to_lowercase cipher in
  if decide (lower = lit "chacha20-poly1305") then lit "CHACHA20-POLY1305"
  else if decide (lower = lit "aes-256-gcm") then lit "AES-256-GCM"
  else lit "AES-256-GCM".

Record GeneratedConfig := mkGenerated {
  gc_username : str;
  gc_ovpn_content : str;
  gc_certificate : Certificate;
}.

(** The builder with the settings both kinds of file share. *)
Definition base_builder (g : ConfigGenerator) (username : str) (cert : Certificate) : ClientConfigBuilder :=
  let sc := cg_server_config g in
  ClientConfigBuilder_reneg_sec (sc_reneg_sec (cfg_security sc))
    (ClientConfigBuilder_cipher (ConfigGenerator_map_cipher (sc_cipher (cfg_security sc)))
      (ClientConfigBuilder_client_key (crt_key_pem cert)
        (ClientConfigBuilder_client_cert (crt_cert_pem cert)
          (ClientConfigBuilder_ca_cert (cg_ca_cert_pem g)
            (ClientConfigBuilder_protocol (sv_protocol (cfg_server sc))
              (ClientConfigBuilder_port (SocketAddr_port (sv_listen_addr (cfg_server sc)))
                (ClientConfigBuilder_new username (sv_public_host (cfg_server sc))))))))).

Definition add_tls_auth (g : ConfigGenerator) (b : ClientConfigBuilder) : ClientConfigBuilder :=
  match cg_ta_key g with Some ta_key => ClientConfigBuilder_tls_auth ta_key 1 b | None => b end.

Definition ConfigGenerator_generate_client_config (now : Z) (fresh : KeyPair + str) (g : ConfigGenerator)
    (username : str) (email : option str) : res ConfigError GeneratedConfig :=
  cert ← map_err (fun e => ValidationError (CryptoError_fmt e))
    (CertificateAuthority_issue_client_certificate now fresh (cg_ca g) username email
       (sc_client_cert_lifetime_days (cfg_security (cg_server_config g))));
  let builder := ClientConfigBuilder_extra_option (lit "compress stub-v2")
                   (add_tls_auth g (base_builder g username cert)) in
  let config := ClientConfigBuilder_build builder in
  _ ← wrap_error "Invalid client config: " (ClientConfig_validate config);
  ovpn_content ← ClientConfig_to_ovpn config;
  Ok (mkGenerated username ovpn_content cert).

Definition ConfigGenerator_generate_mobile_config (now : Z) (fresh : KeyPair + str) (g : ConfigGenerator)
    (username : str) (email : option str) : res ConfigError GeneratedConfig :=
  generated ← ConfigGenerator_generate_client_config now fresh g username email;
  let cert := gc_certificate generated in
  let builder := add_tls_auth g
    (ClientConfigBuilder_extra_option (lit "compress stub-v2")
      (ClientConfigBuilder_extra_option (lit "auth-retry interact")
        (ClientConfigBuilder_extra_option (lit "connect-retry-max 5")
          (ClientConfigBuilder_extra_option (lit "connect-retry 2") (base_builder g username cert))))) in
  let config := ClientConfigBuilder_build builder in
  _ ← wrap_error "Invalid mobile config: " (ClientConfig_validate config);
  ovpn_content ← ClientConfig_to_ovpn config;
  Ok (mkGenerated (gc_username generated) ovpn_content cert).

(** [replace(['@', '.', ' '], "_")]. *)
Definition GeneratedConfig_filename (g : GeneratedConfig) : str :=
  map (fun b => if (b =? 64) || (b =? 46) || (b =? 32) then 95 else b) (gc_username g) ++ lit ".ovpn".

Definition GeneratedConfig_save (disk : Disk) (g : GeneratedConfig) (dir : str) : M Written ConfigError str :=
  let filename := GeneratedConfig_filename g in
  if contains (lit "/") filename || contains (lit "..") filename then
    fail (ValidationError (lit "Invalid filename: contains path separators or parent directory references"))
  else
  _ ← (if dk_exists disk dir then mret tt else io_check (dk_create_dir_all disk dir));
  if negb (dk_is_dir disk dir) then fail (ValidationError (lit "Target path is not a directory")) else
  canonical_dir ← io_result (dk_canonicalize disk dir);
  let path := path_join canonical_dir filename in
  match path_parent path with
  | None => fail (ValidationError (lit "Invalid path: no parent directory"))
  | Some parent =>
      canonical_parent ← io_result (dk_canonicalize disk parent);
      if negb (path_starts_with canonical_parent canonical_dir) then
        fail (ValidationError (lit "Path traversal detected: final path outside target directory"))
      else if negb (bool_decide (path = path_join canonical_dir filename)) then
        fail (ValidationError (lit "Path traversal detected: invalid path construction"))
      else
      _ ← fs_write disk path (gc_ovpn_content g);
      mret path
  end.

(** What a new server draws at random: two key pairs and the static key. *)
Record PkiEntropy := mkEntropy {
  pe_ca_key : KeyPair + str;
  pe_server_key : KeyPair + str;
  pe_static_key : bytes;
}.

Definition of_crypto {A} (m : res CryptoError A) : M Written ConfigError A :=
  lift (map_err (fun e => ValidationError (CryptoError_fmt e)) m).

Definition initialize_pki (now : Z) (disk : Disk) (rnd : PkiEntropy) (data_dir server_cn organization : str) :
    M Written ConfigError (CertificateAuthority * str) :=
  _ ← io_check (dk_create_dir_all disk data_dir);
  ca ← of_crypto (CertificateAuthority_new now (pe_ca_key rnd) (organization ++ lit " CA") organization 3650);
  _ ← fs_write disk (path_join data_dir (lit "ca.crt")) (CertificateAuthority_certificate_pem ca);
  _ ← fs_write disk (path_join data_dir (lit "ca.key")) (CertificateAuthority_private_key_pem ca);
  server_cert ← of_crypto (CertificateAuthority_issue_server_certificate now (pe_server_key rnd) ca server_cn
                             [server_cn] [] 365);
  _ ← fs_write disk (path_join data_dir (lit "server.crt")) (crt_cert_pem server_cert);
  _ ← fs_write disk (path_join data_dir (lit "server.key")) (crt_key_pem server_cert);
  let ta_key := format_static_key (pe_static_key rnd) in
  _ ← fs_write disk (path_join data_dir (lit "ta.key")) ta_key;
  mret (ca, ta_key).
End Generator.

(** ** Saving *)
Section Saving.
Context {R : Rcgen}.

Lemma contains_char c s : contains [c] s = false -> c ∉ s.
Proof.
  induction s as [|b s IH]; intros H; [apply not_elem_of_nil|]. cbn [contains] in H.
  apply orb_false_iff in H as [Hb Hs]. apply bool_decide_eq_false in Hb. cbn [length take] in Hb.
  apply not_elem_of_cons. split; [|by apply IH]. intros ->. apply Hb. cbn. by rewrite take_0.
Qed.

(** [save] writes one file, directly in the directory, or nothing. *)
Lemma save_writes_in_directory disk g dir w w' r : GeneratedConfig_save disk g dir w = (w', r) ->
  match r with
  | Ok path => exists d, dk_canonicalize disk dir = Some d /\ 47 ∉ GeneratedConfig_filename g /\
                 path = path_join d (GeneratedConfig_filename g) /\ w' = <[path := gc_ovpn_content g]> w
  | Err _ => w' = w
  | Panic => False
  end.
Proof.
  unfold GeneratedConfig_save. destruct (contains (lit "/") _) eqn:Hs; [intros H; by inv H|].
  apply contains_char in Hs. cbn [orb]. destruct (contains (lit "..") _); [intros H; by inv H|].
  intros H. unfold mbind, M_bind, io_check, io_result, fs_write, fail, modify, mret, M_ret in H.
  destruct (dk_exists disk dir), (dk_create_dir_all disk dir); try (by inv H);
    (destruct (dk_is_dir disk dir); cbn [negb] in H; [|by inv H]);
    (destruct (dk_canonicalize disk dir) as [d|] eqn:Hd; [|by inv H]);
    (destruct (path_parent _) as [parent|]; [|by inv H]);
    (destruct (dk_canonicalize disk parent); [|by inv H]);
    (destruct (path_starts_with _ _); cbn [negb] in H; [|by inv H]);
    rewrite bool_decide_eq_true_2 in H by done; cbn [negb] in H;
    (destruct (dk_write disk _); [|by inv H]); injection H as <- <-; by exists d.
Qed.

(** Different users can have the same file name. *)
Lemma filenames_collide content cert :
  GeneratedConfig_filename (mkGenerated (lit "a.b@c") content cert) =
  GeneratedConfig_filename (mkGenerated (lit "a_b@c") content cert).
Proof. done. Qed.
End Saving.
