(* ===== verification/Server.v ===== *)
(** * The server

    src/crates/corevpn-server/src/server.rs: the table of connections, the
    handlers of datagrams, of packets from the TUN device, of the keep-alive
    timer, of OAuth completions and of the clean-up timer, and the OAuth
    pages.

    A handler is a function from the server's state to the next state, what
    it sends, and its result; what it reads from outside (clocks, random
    numbers, whether a send succeeds) is in its [Env].  A handler takes the
    lock on the connection table for the whole of its state changes, so its
    steps are not interleaved with those of another handler.  Sockets, the
    TUN device, the process set-up of [run_server], resource limits and
    privileges are I/O and are left out, as are log messages; the events of
    the connection log are not. *)
From S2P Require Import Prelude Errors Text Network CoreSession Opcode Packet Replay Float Reliable Cipher HmacAuth Kdf DataChannel Session Control Addr ServerConfig ConnLog TlsDriver Cert.
Local Open Scope Z_scope.

Definition OPENVPN_PING_PAYLOAD : bytes :=
  [42; 24; 123; 243; 100; 30; 180; 203; 7; 237; 45; 10; 152; 31; 199; 72].

(** [anyhow::Error]: an error of the protocol crate as it is, or with a text
    in front of it; a failed [send_to]. *)
Inductive ServerError :=
| FromProtocol (e : ProtocolError)
| Context (text : str) (e : ProtocolError)
| CryptoContext (text : str) (e : CryptoError)
| SendFailed.

(** ** Text *)

(** [s.trim_start_matches(p)]: every turn removes a prefix. *)
Fixpoint trim_start_str (fuel : nat) (p s : str) : str :=
  match fuel with
  | O => s
  | S f => match strip_prefix p s with Some s' => trim_start_str f p s' | None => s end
  end.

(** The mask [!0u32 << (32 - prefix_len)]. *)
Definition prefix_mask (prefix_len : Z) : Z :=
  if prefix_len =? 0 then 0 else Z.land (Z.shiftl (2 ^ 32 - 1) (32 - prefix_len)) (2 ^ 32 - 1).

Definition cidr_to_netmask (cidr : str) : option (str * str) :=
  match split_on 47 cidr with
  | [network; prefix] =>
      prefix_len ← parse_uint 32 prefix;
      if 32 <? prefix_len then None else
      let mask := prefix_mask prefix_len in
      let octet (k : Z) := fmt_dec (Z.land (Z.shiftr mask k) 255) in
      Some (network, join (lit ".") [octet 24; octet 16; octet 8; octet 0])
  | _ => None
  end.

(** [get_default_interface], of the contents of /proc/net/route. *)
Fixpoint default_route (lines : list str) : option str :=
  match lines with
  | [] => None
  | line :: lines' =>
      match split_whitespace line with
      | iface :: dest :: _ => if decide (dest = lit "00000000") then Some iface else default_route lines'
      | _ => default_route lines'
      end
  end.
Definition get_default_interface (route_file : option str) : option str :=
  content ← route_file; default_route (drop 1 (str_lines content)).

Definition build_oauth_base_url (oauth : OAuthSettings) (public_host : str) : str :=
  match oa_external_url oauth with
  | Some ext => trim_end_matches 47 ext
  | None =>
      if oa_oauth_port oauth =? 443 then lit "https://" ++ public_host
      else lit "https://" ++ public_host ++ lit ":" ++ fmt_dec (oa_oauth_port oauth)
  end.

Definition oauth_enabled (c : ServerConfig) : bool :=
  match cfg_oauth c with Some o => oa_enabled o | None => false end.

(** A message that is not valid UTF-8 is compared after its invalid parts are
    replaced by U+FFFD, which is not trimmed, so it equals no ASCII text. *)
Definition is_push_request (msg : bytes) : bool :=
  utf8_valid msg && bool_decide (trim (trim_end_matches 0 msg) = lit "PUSH_REQUEST").

Section Server.
Context {AEAD : Aead} {HMAC : Hmac} {SHA : Sha256} {UC : Unicode}
  {Ch : Chrono} {ChF : ChronoFields} {Uu : Uuids}
  {N4 N6 : Type} {Net4 : IpNet 32 N4} {Net6 : IpNet 128 N6} {Txt4 : IpNetText 32 N4}
  {TlsConfig TlsConn : Type} {RL : Rustls TlsConfig TlsConn}
  {L : Type} {LG : ConnectionLogger L}.

(** ** Negotiation of the data cipher *)
Definition supported_ciphers : list str :=
  [lit "AES-256-GCM"; lit "AES-128-GCM"; lit "CHACHA20-POLY1305"].

Definition client_ciphers (peer_info : str) : list str :=
  let line := default [] (trim_start_str (length peer_info) (lit "IV_CIPHERS=") <$>
                head (filter (fun l => starts_with (lit "IV_CIPHERS=") l = true) (str_lines peer_info))) in
  filter (fun s => s <> []) (split_on 58 line).

Definition negotiate_cipher (config : ServerConfig) (peer_info : option str) : str :=
  let server_cipher := to_uppercase (sc_cipher (cfg_security config)) in
  match peer_info with
  | Some pi =>
      default server_cipher (head (filter (fun c => to_uppercase c ∈ supported_ciphers) (client_ciphers pi)))
  | None => server_cipher
  end.

Definition negotiated_suite (negotiated_cipher : str) : CipherSuite :=
  if contains (lit "CHACHA") negotiated_cipher then ChaCha20Poly1305 else Aes256Gcm.

(** ** The key exchange *)
Definition server_key_method (random1 random2 : bytes) (negotiated_cipher : str) : KeyMethodV2 :=
  mkKeyMethodV2 (replicate 48 0) random1 random2
    (lit "V4,dev-type tun,link-mtu 1560,tun-mtu 1500,proto UDPv4,cipher " ++ negotiated_cipher
      ++ lit ",auth [null-digest],keysize 256,key-method 2,tls-server")
    None None None.

Definition derive_key_material (client_km : KeyMethodV2) (server_random1 server_random2 client_sid server_sid : bytes) :
    res ServerError KeyMaterial :=
  let seed1 := k2_random1 client_km ++ server_random1 in
  master_secret ← map_err (CryptoContext (lit "PRF master secret failed: "))
    (openvpn_prf (k2_pre_master client_km) (lit "OpenVPN master secret") seed1 48);
  let seed2 := k2_random2 client_km ++ server_random2 ++ client_sid ++ server_sid in
  key_block ← map_err (CryptoContext (lit "PRF key expansion failed: "))
    (openvpn_prf master_secret (lit "OpenVPN key expansion") seed2 256);
  map_err (CryptoContext []) (KeyMaterial_from_openvpn_key2_block key_block).

(** The routes of the configuration that have a mask. *)
Definition push_routes (config : ServerConfig) : list PushRoute :=
  omap (fun cidr => (fun '(network, netmask) => PushRoute_new network netmask) <$> cidr_to_netmask cidr)
    (nw_push_routes (cfg_network config)).

Definition subnet_mask (config : ServerConfig) : str :=
  match net_parse (w := 32) (N := N4) (nw_subnet (cfg_network config)) with
  | inl net => fmt_ipv4 (net_netmask net)
  | inr _ => lit "255.255.255.0"
  end.

Definition build_push_reply (config : ServerConfig) (gateway : option Z) (vpn_addr : VpnAddress)
    (negotiated_cipher : str) : PushReply :=
  let net := cfg_network config in
  let client_ip := from_option fmt_ipv4 [] (va_ipv4 vpn_addr) in
  let gateway_ip := from_option fmt_ipv4 (lit "10.8.0.1") gateway in
  mkPushReply (push_routes config) (Some (client_ip, subnet_mask config)) None (nw_dns net) []
    (nw_redirect_gateway net) (if nw_redirect_gateway net then Some gateway_ip else None) Subnet 10 60
    [lit "reneg-sec " ++ fmt_dec (sc_reneg_sec (cfg_security config));
     lit "cipher " ++ negotiated_cipher].

(** ** Connections *)
Record Connection := mkConnection {
  co_protocol : ProtocolSession;
  co_tls : option (TlsHandler TlsConn);
  co_last_activity : Z;
  co_connected_at : Z;
  co_peer_addr : SocketAddr;
  co_vpn_ip : option Z;
  co_connection_id : Uuid;
  co_username : option str;
  co_auth_method : AuthMethod;
  co_stats : TransferStats;
  co_hard_reset_response : option bytes;
  co_pending_push_reply : option str;
  co_oauth_state : option str;
  co_negotiated_cipher : option str;
}.

Definition co_set_protocol (x : ProtocolSession) (c : Connection) : Connection :=
  mkConnection x (co_tls c) (co_last_activity c) (co_connected_at c) (co_peer_addr c) (co_vpn_ip
    c) (co_connection_id c) (co_username c) (co_auth_method c) (co_stats c) (co_hard_reset_response
    c) (co_pending_push_reply c) (co_oauth_state c) (co_negotiated_cipher c).
Definition co_set_tls (x : option (TlsHandler TlsConn)) (c : Connection) : Connection :=
  mkConnection (co_protocol c) x (co_last_activity c) (co_connected_at c) (co_peer_addr c)
    (co_vpn_ip c) (co_connection_id c) (co_username c) (co_auth_method c) (co_stats c)
    (co_hard_reset_response c) (co_pending_push_reply c) (co_oauth_state c) (co_negotiated_cipher c).
Definition co_set_last_activity (x : Z) (c : Connection) : Connection :=
  mkConnection (co_protocol c) (co_tls c) x (co_connected_at c) (co_peer_addr c) (co_vpn_ip c)
    (co_connection_id c) (co_username c) (co_auth_method c) (co_stats c) (co_hard_reset_response c)
    (co_pending_push_reply c) (co_oauth_state c) (co_negotiated_cipher c).
Definition co_set_vpn_ip (x : option Z) (c : Connection) : Connection :=
  mkConnection (co_protocol c) (co_tls c) (co_last_activity c) (co_connected_at c) (co_peer_addr
    c) x (co_connection_id c) (co_username c) (co_auth_method c) (co_stats c)
    (co_hard_reset_response c) (co_pending_push_reply c) (co_oauth_state c) (co_negotiated_cipher c).
Definition co_set_username (x : option str) (c : Connection) : Connection :=
  mkConnection (co_protocol c) (co_tls c) (co_last_activity c) (co_connected_at c) (co_peer_addr
    c) (co_vpn_ip c) (co_connection_id c) x (co_auth_method c) (co_stats c) (co_hard_reset_response
    c) (co_pending_push_reply c) (co_oauth_state c) (co_negotiated_cipher c).
Definition co_set_auth_method (x : AuthMethod) (c : Connection) : Connection :=
  mkConnection (co_protocol c) (co_tls c) (co_last_activity c) (co_connected_at c) (co_peer_addr
    c) (co_vpn_ip c) (co_connection_id c) (co_username c) x (co_stats c) (co_hard_reset_response c)
    (co_pending_push_reply c) (co_oauth_state c) (co_negotiated_cipher c).
Definition co_set_stats (x : TransferStats) (c : Connection) : Connection :=
  mkConnection (co_protocol c) (co_tls c) (co_last_activity c) (co_connected_at c) (co_peer_addr
    c) (co_vpn_ip c) (co_connection_id c) (co_username c) (co_auth_method c) x
    (co_hard_reset_response c) (co_pending_push_reply c) (co_oauth_state c) (co_negotiated_cipher c).
Definition co_set_hard_reset_response (x : option bytes) (c : Connection) : Connection :=
  mkConnection (co_protocol c) (co_tls c) (co_last_activity c) (co_connected_at c) (co_peer_addr
    c) (co_vpn_ip c) (co_connection_id c) (co_username c) (co_auth_method c) (co_stats c) x
    (co_pending_push_reply c) (co_oauth_state c) (co_negotiated_cipher c).
Definition co_set_pending_push_reply (x : option str) (c : Connection) : Connection :=
  mkConnection (co_protocol c) (co_tls c) (co_last_activity c) (co_connected_at c) (co_peer_addr
    c) (co_vpn_ip c) (co_connection_id c) (co_username c) (co_auth_method c) (co_stats c)
    (co_hard_reset_response c) x (co_oauth_state c) (co_negotiated_cipher c).
Definition co_set_oauth_state (x : option str) (c : Connection) : Connection :=
  mkConnection (co_protocol c) (co_tls c) (co_last_activity c) (co_connected_at c) (co_peer_addr
    c) (co_vpn_ip c) (co_connection_id c) (co_username c) (co_auth_method c) (co_stats c)
    (co_hard_reset_response c) (co_pending_push_reply c) x (co_negotiated_cipher c).
Definition co_set_negotiated_cipher (x : option str) (c : Connection) : Connection :=
  mkConnection (co_protocol c) (co_tls c) (co_last_activity c) (co_connected_at c) (co_peer_addr
    c) (co_vpn_ip c) (co_connection_id c) (co_username c) (co_auth_method c) (co_stats c)
    (co_hard_reset_response c) (co_pending_push_reply c) (co_oauth_state c) x.

(** [Instant::elapsed] saturates; times are nanoseconds. *)
Definition elapsed (now since : Z) : Z := Z.max 0 (now - since).

Definition Connection_new (now : Z) (session_id : bytes) (peer_addr : SocketAddr) (suite : CipherSuite)
    (connection_id : Uuid) : Connection :=
  mkConnection (ProtocolSession_new_server session_id now suite) None now now peer_addr None connection_id
    None AuthUnknown TransferStats_default None None None None.
Definition Connection_touch (now : Z) (c : Connection) : Connection := co_set_last_activity now c.
Definition Connection_is_stale (now timeout : Z) (c : Connection) : bool :=
  timeout <? elapsed now (co_last_activity c).
Definition Connection_duration (now : Z) (c : Connection) : Z := elapsed now (co_connected_at c).
Definition Connection_add_bytes_rx (n : Z) (c : Connection) : Connection :=
  let s := co_stats c in
  co_set_stats (mkStats (wrap 64 (ts_bytes_rx s + n)) (ts_bytes_tx s) (wrap 64 (ts_packets_rx s + 1))
                  (ts_packets_tx s)) c.
Definition Connection_add_bytes_tx (n : Z) (c : Connection) : Connection :=
  let s := co_stats c in
  co_set_stats (mkStats (ts_bytes_rx s) (wrap 64 (ts_bytes_tx s + n)) (ts_packets_rx s)
                  (wrap 64 (ts_packets_tx s + 1))) c.

Record AuthCompleted := mkAuthCompleted { ac_state : str; ac_email : str }.
Record PendingOAuth := mkPendingOAuth { po_peer_addr : SocketAddr; po_created_at : Z }.

(** ** The server's state *)
Record VpnServer := mkVpnServer {
  vs_config : ServerConfig;
  vs_session_manager : SessionManager;
  vs_address_pool : AddressPool (N4 := N4) (N6 := N6);
  vs_connections : gmap SocketAddr Connection;
  vs_tls_config : option TlsConfig;
  vs_tls_auth_key : option bytes;
  vs_connection_logger : L;
  vs_anonymizer : option Anonymizer;
  vs_pending_oauths : gmap str PendingOAuth;
}.

(** What a handler reads from outside: the monotonic clock, the seconds of
    the wall clock in the tls-auth header, the wall clock of the log, a random
    session id, connection id, the two randoms of the key exchange and the
    OAuth token ([u128]), and which sends succeed. *)
Record Env := mkEnv {
  ev_now : Z;
  ev_time : Z;
  ev_utc : DateTime;
  ev_session_id : bytes;
  ev_connection_id : Uuid;
  ev_random1 : bytes;
  ev_random2 : bytes;
  ev_token : Z;
  ev_send_ok : SocketAddr -> bytes -> bool;
  ev_tun_ok : bytes -> bool;
}.

(** What a handler sends. *)
Inductive Output := SendTo (addr : SocketAddr) (packet : bytes) | TunWrite (packet : bytes).

(** The server and what has been sent. *)
Record World := mkWorld { wd_server : VpnServer; wd_out : list Output }.

Definition vs_set_connections m s :=
  mkVpnServer (vs_config s) (vs_session_manager s) (vs_address_pool s) m (vs_tls_config s)
    (vs_tls_auth_key s) (vs_connection_logger s) (vs_anonymizer s) (vs_pending_oauths s).
Definition vs_set_log l a s :=
  mkVpnServer (vs_config s) (vs_session_manager s) (vs_address_pool s) (vs_connections s)
    (vs_tls_config s) (vs_tls_auth_key s) l a (vs_pending_oauths s).
Definition vs_set_pool p s :=
  mkVpnServer (vs_config s) (vs_session_manager s) p (vs_connections s) (vs_tls_config s)
    (vs_tls_auth_key s) (vs_connection_logger s) (vs_anonymizer s) (vs_pending_oauths s).
Definition vs_set_oauths m s :=
  mkVpnServer (vs_config s) (vs_session_manager s) (vs_address_pool s) (vs_connections s)
    (vs_tls_config s) (vs_tls_auth_key s) (vs_connection_logger s) (vs_anonymizer s) m.
Definition on_server (f : VpnServer -> VpnServer) (w : World) : World :=
  mkWorld (f (wd_server w)) (wd_out w).
Definition emit (o : Output) (w : World) : World := mkWorld (wd_server w) (wd_out w ++ [o]).

(** [socket.send_to(&packet, addr).await?]. *)
Definition send_to (env : Env) (addr : SocketAddr) (packet : bytes) : M World ServerError unit := fun w =>
  if ev_send_ok env addr packet then (emit (SendTo addr packet) w, Ok tt) else (w, Err SendFailed).
(** The same with the error logged. *)
Definition send_or_warn (env : Env) (addr : SocketAddr) (packet : bytes) : M World ServerError unit := fun w =>
  if ev_send_ok env addr packet then (emit (SendTo addr packet) w, Ok tt) else (w, Ok tt).
Fixpoint send_all (send : bytes -> M World ServerError unit) (packets : list bytes) :
    M World ServerError unit :=
  match packets with
  | [] => mret tt
  | p :: ps => _ ← send p; send_all send ps
  end.

Definition VpnServer_get_cipher_suite (s : VpnServer) : CipherSuite :=
  if contains (lit "chacha") (sc_cipher (cfg_security (vs_config s))) then ChaCha20Poly1305 else Aes256Gcm.

(** A logger's error is a warning. *)
Definition VpnServer_log_event (env : Env) (event : ConnectionEvent) : M World ServerError unit := fun w =>
  let s := wd_server w in
  let '(a, event) :=
    match vs_anonymizer s with
    | Some a => let '(a, e) := Anonymizer_anonymize (ev_utc env) event a in (Some a, e)
    | None => (None, event)
    end in
  let '(l, r) := cl_log event (vs_connection_logger s) in
  (on_server (vs_set_log l a) w, match r with Panic => Panic | _ => Ok tt end).
Fixpoint log_events (env : Env) (events : list ConnectionEvent) : M World ServerError unit :=
  match events with
  | [] => mret tt
  | e :: es => _ ← VpnServer_log_event env e; log_events env es
  end.

(** ** The critical section of [handle_control_packet]

    The work on one connection: the connection, the shared pool and the
    pending authentications, the packets and the log events collected.  While
    a TLS handler is borrowed from the connection it is held beside it. *)
Record Work := mkWork {
  wk_conn : Connection;
  wk_pool : AddressPool (N4 := N4) (N6 := N6);
  wk_oauths : gmap str PendingOAuth;
  wk_packets : list bytes;
  wk_events : list ConnectionEvent;
}.
Record TlsWork := mkTlsWork { tw_work : Work; tw_tls : TlsHandler TlsConn }.

Definition wk_set_conn c w := mkWork c (wk_pool w) (wk_oauths w) (wk_packets w) (wk_events w).
Definition wk_set_pool p w := mkWork (wk_conn w) p (wk_oauths w) (wk_packets w) (wk_events w).
Definition wk_set_oauths m w := mkWork (wk_conn w) (wk_pool w) m (wk_packets w) (wk_events w).
Definition wk_add_packets ps w :=
  mkWork (wk_conn w) (wk_pool w) (wk_oauths w) (wk_packets w ++ ps) (wk_events w).
Definition wk_add_event e w :=
  mkWork (wk_conn w) (wk_pool w) (wk_oauths w) (wk_packets w) (wk_events w ++ [e]).
Definition wk_on_conn (f : Connection -> Connection) (w : Work) : Work := wk_set_conn (f (wk_conn w)) w.
Definition tw_on_work (f : Work -> Work) (t : TlsWork) : TlsWork := mkTlsWork (f (tw_work t)) (tw_tls t).
Definition tw_on_conn (f : Connection -> Connection) : TlsWork -> TlsWork := tw_on_work (wk_on_conn f).

(** Calls on the protocol session of the connection. *)
Definition wk_set_protocol (p : ProtocolSession) : Work -> Work := wk_on_conn (co_set_protocol p).
Definition on_protocol {A} (m : M ProtocolSession ProtocolError A) : M Work ServerError A :=
  zoom (fun w => co_protocol (wk_conn w)) wk_set_protocol FromProtocol m.
Definition on_work {A} (m : M Work ServerError A) : M TlsWork ServerError A :=
  zoom tw_work (fun w t => mkTlsWork w (tw_tls t)) id m.
(** Calls on the TLS handler. *)
Definition on_tls {A} (text : str) (m : M (TlsHandler TlsConn) ProtocolError A) : M TlsWork ServerError A :=
  zoom tw_tls (fun h t => mkTlsWork (tw_work t) h) (Context text) m.
(** A write whose error is only logged. *)
Definition write_or_warn (data : bytes) : M TlsWork ServerError bool :=
  r ← on_tls [] (attempt (TlsHandler_write_plaintext data));
  mret (match r with inl _ => true | inr _ => false end).

(** [while tls.wants_write() { if let Some(tls_out) = tls.get_outgoing()? { ..
    } else { break } }]: a turn that continues writes at least one byte of
    the buffered ones, so one turn more than there are bytes is enough. *)
Fixpoint flush_loop (fuel : nat) (env : Env) : M TlsWork ServerError unit :=
  match fuel with
  | O => mret tt
  | S f =>
      t ← get;
      if TlsHandler_wants_write (tw_tls t) then
        out ← on_tls (lit "TLS outgoing failed: ") TlsHandler_get_outgoing;
        match out with
        | Some tls_out =>
            ctrl_packets ← on_work (on_protocol
              (ProtocolSession_create_control_packets (ev_now env) (ev_time env) tls_out));
            _ ← modify (tw_on_work (wk_add_packets ctrl_packets));
            flush_loop f env
        | None => mret tt
        end
      else mret tt
  end.
Definition flush_tls (env : Env) : M TlsWork ServerError unit :=
  t ← get; flush_loop (S (rl_buffered (th_conn (tw_tls t)))) env.

Definition set_state (env : Env) (st : ProtocolState) : M TlsWork ServerError unit :=
  modify (tw_on_conn (fun c => co_set_protocol (ProtocolSession_set_state (ev_now env) st (co_protocol c)) c)).

(** Steps 1 and 2 of the PRF flow and [install_keys]. *)
Definition install_data_keys (client_km : KeyMethodV2) (server_random1 server_random2 : bytes) :
    M TlsWork ServerError unit :=
  t ← get;
  let s := co_protocol (wk_conn (tw_work t)) in
  let client_sid := default (replicate 8 0) (ps_remote_session_id s) in
  let server_sid := ps_local_session_id s in
  km ← lift (derive_key_material client_km server_random1 server_random2 client_sid server_sid);
  on_work (on_protocol (ProtocolSession_install_keys km true)).

(** The OAuth branch: the reply is kept until the authentication completes. *)
Definition defer_to_oauth (config : ServerConfig) (oauth : OAuthSettings) (env : Env)
    (reply_str negotiated_cipher : str) : M TlsWork ServerError unit :=
  t ← get;
  let peer_addr := co_peer_addr (wk_conn (tw_work t)) in
  let state_token := hex_pad 32 (ev_token env) in
  _ ← modify (tw_on_conn (fun c => co_set_negotiated_cipher (Some negotiated_cipher)
        (co_set_oauth_state (Some state_token) (co_set_pending_push_reply (Some reply_str) c))));
  _ ← modify (tw_on_work (fun w =>
        wk_set_oauths (<[state_token := mkPendingOAuth peer_addr (ev_now env)]> (wk_oauths w)) w));
  let oauth_base := build_oauth_base_url oauth (sv_public_host (cfg_server config)) in
  let auth_url := oauth_base ++ lit "/auth/start?state=" ++ state_token in
  _ ← write_or_warn (lit "AUTH_PENDING,timeout 120" ++ [0]);
  _ ← write_or_warn (lit "INFO_PRE,WEB_AUTH::" ++ auth_url ++ [0]);
  flush_tls env.

(** The branch without OAuth. *)
Definition establish (env : Env) (reply_str : str) : M TlsWork ServerError unit :=
  _ ← write_or_warn (reply_str ++ [0]);
  _ ← modify (tw_on_conn (co_set_pending_push_reply (Some reply_str)));
  _ ← flush_tls env;
  set_state env Established.

(** [server.address_pool.allocate()] and what follows; an exhausted pool is
    logged. *)
Definition assign_address (config : ServerConfig) (env : Env) (negotiated_cipher : str) :
    M TlsWork ServerError unit :=
  r ← on_work (zoom wk_pool wk_set_pool id (attempt AddressPool_allocate));
  match r with
  | inr _ => mret tt
  | inl vpn_addr =>
      t ← get;
      let gateway := AddressPool_gateway_v4 (wk_pool (tw_work t)) in
      _ ← modify (tw_on_conn (co_set_vpn_ip (va_ipv4 vpn_addr)));
      let reply_str := PushReply_encode (build_push_reply config gateway vpn_addr negotiated_cipher) in
      match cfg_oauth config with
      | Some oauth =>
          if oa_enabled oauth then defer_to_oauth config oauth env reply_str negotiated_cipher
          else establish env reply_str
      | None => establish env reply_str
      end
  end.

(** The body of [match KeyMethodV2::parse(..) { Ok(client_km) => .. }]. *)
Definition exchange_keys (config : ServerConfig) (env : Env) (client_km : KeyMethodV2) :
    M TlsWork ServerError unit :=
  _ ← (match k2_username client_km with
       | Some user => modify (tw_on_conn (co_set_username (Some user)))
       | None => mret tt
       end);
  let negotiated_cipher := negotiate_cipher config (k2_peer_info client_km) in
  _ ← modify (tw_on_conn (fun c => co_set_protocol
        (ProtocolSession_set_cipher_suite (negotiated_suite negotiated_cipher) (co_protocol c)) c));
  let server_km := server_key_method (ev_random1 env) (ev_random2 env) negotiated_cipher in
  _ ← write_or_warn (KeyMethodV2_encode server_km true);
  _ ← flush_tls env;
  _ ← install_data_keys client_km (ev_random1 env) (ev_random2 env);
  assign_address config env negotiated_cipher.

Definition BUF_SIZE : nat := Z.to_nat 4096.

(** The part under [should_try_km]. *)
Definition try_key_method (config : ServerConfig) (env : Env) : M TlsWork ServerError unit :=
  t ← get;
  _ ← (if decide (ps_state (co_protocol (wk_conn (tw_work t))) = TlsHandshake) then
         _ ← set_state env KeyExchange;
         modify (tw_on_conn (co_set_auth_method Certificate))
       else mret tt);
  r ← on_tls [] (attempt (TlsHandler_read_plaintext BUF_SIZE));
  _ ← (match r with
       | inr _ => mret tt
       | inl [] => mret tt
       | inl buf =>
           match KeyMethodV2_parse buf with
           | Ok client_km => exchange_keys config env client_km
           | Err _ => mret tt
           | Panic => lift Panic
           end
       end);
  t ← get;
  let c := wk_conn (tw_work t) in
  if le_auth_events (lg_connection_events (cfg_logging config)) then
    modify (tw_on_work (wk_add_event
      (ConnectionEventBuilder_authentication (ev_utc env) (co_peer_addr c) (co_username c)
         (co_auth_method c) AuthSuccess (ConnectionEventBuilder_with_id (co_connection_id c)))))
  else mret tt.

(** A single post-handshake message. *)
Definition answer_push_request (env : Env) : M TlsWork ServerError unit :=
  r ← on_tls [] (attempt (TlsHandler_read_plaintext BUF_SIZE));
  match r with
  | inl (b :: bs) =>
      if is_push_request (b :: bs) then
        t ← get;
        match co_pending_push_reply (wk_conn (tw_work t)) with
        | Some reply_str =>
            ok ← write_or_warn (reply_str ++ [0]);
            if (ok : bool) then flush_tls env else mret tt
        | None => mret tt
        end
      else mret tt
  | _ => mret tt
  end.

(** The [TlsData] branch with a TLS handler. *)
Definition handle_tls_records (config : ServerConfig) (env : Env) (records : list bytes) :
    M TlsWork ServerError unit :=
  _ ← on_tls (lit "TLS processing failed: ") (TlsHandler_process_tls_records records);
  _ ← flush_tls env;
  t ← get;
  let st := ps_state (co_protocol (wk_conn (tw_work t))) in
  _ ← (if TlsHandler_is_handshake_complete (tw_tls t)
          && (bool_decide (st = TlsHandshake) || bool_decide (st = KeyExchange))
       then try_key_method config env else mret tt);
  t ← get;
  if TlsHandler_is_handshake_complete (tw_tls t)
     && bool_decide (ps_state (co_protocol (wk_conn (tw_work t))) = Established)
  then answer_push_request env else mret tt.

(** [if let Some(ref mut tls) = conn.tls { .. }]. *)
Definition with_tls (m : M TlsWork ServerError unit) : M Work ServerError unit := fun w =>
  match co_tls (wk_conn w) with
  | None => (w, Ok tt)
  | Some tls =>
      let '(t, r) := m (mkTlsWork w tls) in
      (wk_on_conn (co_set_tls (Some (tw_tls t))) (tw_work t), r)
  end.

(** Acknowledgements and retransmissions at the end of the section. *)
Definition collect_acks (env : Env) : M Work ServerError unit :=
  w ← get;
  if ProtocolSession_should_send_ack (ev_now env) (co_protocol (wk_conn w)) then
    ack ← on_protocol (ProtocolSession_create_ack_packet (ev_now env) (ev_time env));
    match ack with
    | Some ack => modify (wk_add_packets [ack])
    | None => mret tt
    end
  else mret tt.
Definition collect_retransmits (env : Env) : M Work ServerError unit :=
  retransmits ← on_protocol (ProtocolSession_get_retransmits (ev_now env) (ev_time env));
  modify (wk_add_packets retransmits).

Definition control_section (config : ServerConfig) (env : Env) (data : bytes) : M Work ServerError unit :=
  _ ← modify (wk_on_conn (Connection_touch (ev_now env)));
  result ← on_protocol (ProtocolSession_process_packet (ev_now env) data);
  _ ← (match result with
       | PTlsData records => with_tls (handle_tls_records config env records)
       | PSoftReset =>
           if le_renegotiations (lg_connection_events (cfg_logging config)) then
             w ← get;
             let c := wk_conn w in
             modify (wk_add_event (ConnectionEventBuilder_renegotiation (ev_utc env) (co_peer_addr c) true
                       (ConnectionEventBuilder_with_id (co_connection_id c))))
           else mret tt
       | _ => mret tt
       end);
  _ ← collect_acks env;
  collect_retransmits env.

Definition handle_control_packet (env : Env) (peer_addr : SocketAddr) (data : bytes) :
    M World ServerError unit := fun w =>
  let s := wd_server w in
  match vs_connections s !! peer_addr with
  | None => (w, Ok tt)
  | Some conn =>
      let '(k, r) := control_section (vs_config s) env data
                       (mkWork conn (vs_address_pool s) (vs_pending_oauths s) [] []) in
      let w := on_server (fun s => vs_set_oauths (wk_oauths k) (vs_set_pool (wk_pool k)
                 (vs_set_connections (<[peer_addr := wk_conn k]> (vs_connections s)) s))) w in
      match r with
      | Ok _ => (_ ← log_events env (wk_events k);
                 send_all (send_to env peer_addr) (wk_packets k)) w
      | Err e => (w, Err e)
      | Panic => (w, Panic)
      end
  end.

(** ** Hard resets *)
Definition handle_hard_reset (env : Env) (peer_addr : SocketAddr) (data : bytes) :
    M World ServerError unit :=
  w ← get;
  let s := wd_server w in
  let cached_response :=
    existing ← vs_connections s !! peer_addr;
    if negb (Connection_is_stale (ev_now env) (from_secs 30) existing)
    then co_hard_reset_response existing else None in
  match cached_response with
  | Some response => send_to env peer_addr response
  | None =>
      let builder := ConnectionEventBuilder_new (ev_connection_id env) in
      let connection_id := ConnectionEventBuilder_connection_id builder in
      _ ← (if le_attempts (lg_connection_events (cfg_logging (vs_config s)))
           then VpnServer_log_event env (ConnectionEventBuilder_attempt (ev_utc env) peer_addr builder)
           else mret tt);
      let conn := Connection_new (ev_now env) (ev_session_id env) peer_addr (VpnServer_get_cipher_suite s)
                    connection_id in
      let protocol :=
        match vs_tls_auth_key s with
        | Some ta_key =>
            match HmacAuth_from_ta_key ta_key true None with
            | Ok hmac_auth => Ok (ProtocolSession_set_tls_auth hmac_auth (co_protocol conn))
            | Err _ => Ok (co_protocol conn)
            | Panic => Panic
            end
        | None => Ok (co_protocol conn)
        end in
      protocol ← lift protocol;
      let '(protocol, result) := ProtocolSession_process_packet (ev_now env) data protocol in
      _ ← lift (map_err FromProtocol result);
      tls ← lift (match vs_tls_config s with
                  | Some tls_config =>
                      map_err (Context (lit "TLS init failed: ")) (Some <$> TlsHandler_new tls_config)
                  | None => Ok None
                  end);
      let '(protocol, response) :=
        ProtocolSession_create_hard_reset_response (ev_now env) (ev_time env) protocol in
      response ← lift (map_err FromProtocol response);
      _ ← send_to env peer_addr response;
      let conn := co_set_hard_reset_response (Some response) (co_set_tls tls (co_set_protocol protocol conn)) in
      modify (on_server (fun s => vs_set_connections (<[peer_addr := conn]> (vs_connections s)) s))
  end.

(** ** Data packets

    The critical section: the connection, the packet for the TUN device and
    the packets for the peer. *)
Definition data_section (env : Env) (data : bytes) :
    M Connection ServerError (option bytes * list bytes) := fun conn =>
  let conn := Connection_touch (ev_now env) conn in
  if negb (bool_decide (ps_state (co_protocol conn) = Established)) then (conn, Ok (None, [])) else
  let conn := Connection_add_bytes_rx (Z.of_nat (length data)) conn in
  let '(p, result) := ProtocolSession_process_packet (ev_now env) data (co_protocol conn) in
  let conn := co_set_protocol p conn in
  match result with
  | Panic => (conn, Panic)
  | Err e => (conn, Err (FromProtocol e))
  | Ok (PData ip_packet) =>
      if (length ip_packet =? length OPENVPN_PING_PAYLOAD)%nat
         && bool_decide (ip_packet = OPENVPN_PING_PAYLOAD) then
        let '(p, encrypted) := ProtocolSession_encrypt_data OPENVPN_PING_PAYLOAD (co_protocol conn) in
        let conn := co_set_protocol p conn in
        match encrypted with
        | Ok encrypted =>
            (Connection_add_bytes_tx (Z.of_nat (length encrypted)) conn, Ok (None, [encrypted]))
        | Err _ => (conn, Ok (None, []))
        | Panic => (conn, Panic)
        end
      else if (20 <=? length ip_packet)%nat then (conn, Ok (Some ip_packet, []))
      else (conn, Ok (None, []))
  | Ok _ => (conn, Ok (None, []))
  end.

(** [try_send] to the task that writes to the TUN device; a full channel is a
    warning. *)
Definition tun_write (env : Env) (packet : bytes) : M World ServerError unit := fun w =>
  (if ev_tun_ok env packet then emit (TunWrite packet) w else w, Ok tt).

Definition handle_data_packet (env : Env) (peer_addr : SocketAddr) (data : bytes) :
    M World ServerError unit := fun w =>
  match vs_connections (wd_server w) !! peer_addr with
  | None => (w, Ok tt)
  | Some conn =>
      let '(conn, r) := data_section env data conn in
      let w := on_server (fun s => vs_set_connections (<[peer_addr := conn]> (vs_connections s)) s) w in
      match r with
      | Ok (tun_data, response_packets) =>
          (_ ← send_all (send_or_warn env peer_addr) response_packets;
           match tun_data with
           | Some ip_data => tun_write env ip_data
           | None => mret tt
           end) w
      | Err e => (w, Err e)
      | Panic => (w, Panic)
      end
  end.

Definition handle_packet (env : Env) (peer_addr : SocketAddr) (data : bytes) : M World ServerError unit :=
  match data with
  | [] => mret tt
  | b0 :: _ =>
      opcode ← lift (map_err FromProtocol (OpCode_from_byte b0));
      match opcode with
      | HardResetClientV2 | HardResetClientV3 => handle_hard_reset env peer_addr data
      | ControlV1 | AckV1 | SoftResetV1 => handle_control_packet env peer_addr data
      | DataV1 | DataV2 => handle_data_packet env peer_addr data
      | _ => mret tt
      end
  end.

(** ** Packets from the TUN device *)
Definition routes_to (dest_ip : Z) (c : Connection) : bool :=
  bool_decide (co_vpn_ip c = Some dest_ip) && bool_decide (ps_state (co_protocol c) = Established).

(** [values_mut().find(..)]: the order of a [HashMap] is not specified; a
    model of it is the order of [map_to_list]. *)
Definition find_route (dest_ip : Z) (m : gmap SocketAddr Connection) : option (SocketAddr * Connection) :=
  head (filter (fun kc => routes_to dest_ip (snd kc) = true) (map_to_list m)).

Definition handle_tun_packet (env : Env) (ip_packet : bytes) : M World ServerError unit := fun w =>
  if (length ip_packet <? 20)%nat then (w, Ok tt) else
  match ip_packet !! 0%nat, take 4 (drop 16 ip_packet) with
  | Some b0, [b16; b17; b18; b19] =>
      if negb (Z.shiftr b0 4 =? 4) then (w, Ok tt) else
      let dest_ip := from_be [b16; b17; b18; b19] in
      match find_route dest_ip (vs_connections (wd_server w)) with
      | None => (w, Ok tt)
      | Some (key, conn) =>
          let '(p, r) := ProtocolSession_encrypt_data ip_packet (co_protocol conn) in
          let conn := co_set_protocol p conn in
          let store c := on_server (fun s => vs_set_connections (<[key := c]> (vs_connections s)) s) w in
          match r with
          | Ok encrypted =>
              let conn := Connection_add_bytes_tx (Z.of_nat (length encrypted)) conn in
              send_or_warn env (co_peer_addr conn) encrypted (store conn)
          | Err _ => (store conn, Ok tt)
          | Panic => (store conn, Panic)
          end
      end
  | _, _ => (w, Panic)
  end.

(** ** The keep-alive timer *)

(** The closure of [filter_map] on one connection. *)
Definition ping_one (c : Connection) : Connection * res ServerError (option (SocketAddr * bytes)) :=
  if negb (bool_decide (ps_state (co_protocol c) = Established)) then (c, Ok None) else
  let '(p, r) := ProtocolSession_encrypt_data OPENVPN_PING_PAYLOAD (co_protocol c) in
  let c := co_set_protocol p c in
  match r with
  | Ok encrypted =>
      (Connection_add_bytes_tx (Z.of_nat (length encrypted)) c, Ok (Some (co_peer_addr c, encrypted)))
  | Err _ => (c, Ok None)
  | Panic => (c, Panic)
  end.

Fixpoint ping_each (cs : list (SocketAddr * Connection)) :
    M (gmap SocketAddr Connection) ServerError (list (SocketAddr * bytes)) :=
  match cs with
  | [] => mret []
  | (key, c) :: cs' =>
      let '(c, r) := ping_one c in
      _ ← modify (fun m => <[key := c]> m);
      p ← lift r;
      ps ← ping_each cs';
      mret (match p with Some p => p :: ps | None => ps end)
  end.

Fixpoint send_pings (env : Env) (pings : list (SocketAddr * bytes)) : M World ServerError unit :=
  match pings with
  | [] => mret tt
  | (addr, packet) :: ps => _ ← send_or_warn env addr packet; send_pings env ps
  end.

Definition send_keepalive_pings (env : Env) : M World ServerError unit := fun w =>
  let m := vs_connections (wd_server w) in
  let '(m, r) := ping_each (map_to_list m) m in
  let w := on_server (vs_set_connections m) w in
  match r with
  | Ok pings => send_pings env pings w
  | Err e => (w, Err e)
  | Panic => (w, Panic)
  end.

(** ** The clean-up timer

    The task of the timer collects the stale connections under the read lock,
    logs them one by one, and removes them under the write lock without
    looking at them again; the other tasks run between these steps. *)
Record Stale := mkStale {
  sl_addr : SocketAddr;
  sl_connection_id : Uuid;
  sl_username : option str;
  sl_duration : Z;
  sl_stats : TransferStats;
}.
Inductive CleanupPhase := Waiting | Cleaning (to_log stale : list Stale).

Definition collect_stale (now timeout : Z) (m : gmap SocketAddr Connection) : list Stale :=
  map (fun kc => mkStale (fst kc) (co_connection_id (snd kc)) (co_username (snd kc))
                   (Connection_duration now (snd kc)) (co_stats (snd kc)))
    (filter (fun kc => Connection_is_stale now timeout (snd kc) = true) (map_to_list m)).
Definition log_stale (env : Env) (x : Stale) : M World ServerError unit :=
  VpnServer_log_event env
    (ConnectionEventBuilder_disconnected (ev_utc env) (sl_addr x) (sl_username x) IdleTimeout
       (sl_duration x) (Some (sl_stats x)) (ConnectionEventBuilder_with_id (sl_connection_id x))).
Definition remove_stale (stale : list Stale) (m : gmap SocketAddr Connection) : gmap SocketAddr Connection :=
  foldl (fun m x => delete (sl_addr x) m) m stale.

(** One step of the task, to its next point of suspension. *)
Definition cleanup_stale_connections (env : Env) (timeout : Z) (task : CleanupPhase) :
    M World ServerError CleanupPhase :=
  match task with
  | Waiting =>
      w ← get;
      match collect_stale (ev_now env) timeout (vs_connections (wd_server w)) with
      | [] => mret Waiting
      | stale => mret (Cleaning stale stale)
      end
  | Cleaning (x :: to_log) stale => _ ← log_stale env x; mret (Cleaning to_log stale)
  | Cleaning [] stale =>
      _ ← modify (on_server (fun s => vs_set_connections (remove_stale stale (vs_connections s)) s));
      mret Waiting
  end.

(** ** OAuth completion *)
Definition complete_section (env : Env) (email : str) : M Work ServerError unit := fun w =>
  match co_pending_push_reply (wk_conn w) with
  | None => (w, Ok tt)
  | Some push_reply_str =>
      let w := wk_on_conn (fun c => co_set_auth_method OAuth2 (co_set_username (Some email)
                 (co_set_pending_push_reply None c))) w in
      with_tls
        (ok ← write_or_warn (push_reply_str ++ [0]);
         if (ok : bool) then
           _ ← flush_tls env;
           set_state env Established
         else mret tt) w
  end.

Definition handle_auth_completed (env : Env) (auth : AuthCompleted) : M World ServerError unit := fun w =>
  let s := wd_server w in
  match vs_pending_oauths s !! ac_state auth with
  | None => (w, Ok tt)
  | Some pending =>
      let peer_addr := po_peer_addr pending in
      let w := on_server (fun s => vs_set_oauths (delete (ac_state auth) (vs_pending_oauths s)) s) w in
      match vs_connections s !! peer_addr with
      | None => (w, Ok tt)
      | Some conn =>
          let '(k, r) := complete_section env (ac_email auth)
                           (mkWork conn (vs_address_pool s) (vs_pending_oauths (wd_server w)) [] []) in
          let w := on_server (fun s => vs_set_connections (<[peer_addr := wk_conn k]> (vs_connections s)) s) w in
          match r with
          | Ok _ => send_all (send_to env peer_addr) (wk_packets k) w
          | Err e => (w, Err e)
          | Panic => (w, Panic)
          end
      end
  end.

(** ** Statistics *)
Record ServerStats := mkServerStats {
  ss_connections : Z; ss_active_sessions : Z; ss_bytes_rx : Z; ss_bytes_tx : Z;
  ss_packets_rx : Z; ss_packets_tx : Z;
}.
Definition ServerStats_from_server (s : VpnServer) : ServerStats :=
  let active := filter (fun kc => ProtocolSession_is_established (co_protocol (snd kc)) = true)
                  (map_to_list (vs_connections s)) in
  mkServerStats (Z.of_nat (size (vs_connections s))) (Z.of_nat (length active)) 0 0 0 0.

(** ** The OAuth pages *)

Definition escape_html (s : str) : str :=
  replace_char 39 (lit "&#x27;") (replace_char 34 (lit "&quot;") (replace_char 62 (lit "&gt;")
    (replace_char 60 (lit "&lt;") (replace_char 38 (lit "&amp;") s)))).

(** The JSON values of the crate [serde_json]: reading, the keys of an
    object, replacing the value of a key by a string, printing. *)
Class SerdeJson := {
  JsonValue : Type;
  json_parse : str -> option JsonValue;
  json_keys : JsonValue -> option (list str);
  json_insert : str -> str -> JsonValue -> JsonValue;
  json_print : JsonValue -> str;
}.
Context {JS : SerdeJson}.

Definition truncate_200 (s : str) : res ServerError str :=
  if (200 <? length s)%nat then p ← str_slice s 0 200; Ok (p ++ lit "...") else Ok s.

(** The values of the fields whose names mention a token or a secret. *)
Definition redact_fields (value : JsonValue) : JsonValue :=
  match json_keys value with
  | Some keys =>
      foldl (fun v key =>
        let lower := to_lowercase key in
        if contains (lit "token") lower || contains (lit "secret") lower
        then json_insert key (lit "[REDACTED]") v else v) value keys
  | None => value
  end.
Definition redact_oauth_error (body : str) : res ServerError str :=
  match json_parse body with
  | Some value => truncate_200 (json_print (redact_fields value))
  | None => truncate_200 body
  end.

(** What the identity provider answers: to the exchange of the code, with the
    body of an error or the field [access_token]; to the request for the
    user's data, with the field [email]. *)
Inductive TokenAnswer := TokenUnreachable | TokenRefused (body : str) | TokenNotJson | TokenFields (access_token : option str).
Inductive UserAnswer := UserUnreachable | UserRefused | UserNotJson | UserFields (email : option str).
Record Provider := mkProvider {
  pv_token : list (str * str) -> TokenAnswer;
  pv_userinfo : str -> UserAnswer;
}.

(** The reasons a flow stops, and the answers to the browser. *)
Inductive OAuthFailure :=
| InvalidState | ExchangeFailed | TokenParseFailed | NoAccessToken | UserinfoParseFailed
| UserinfoFailed | NoEmail | DomainDenied | ChannelClosed.
Inductive StatusCode := BAD_REQUEST | FORBIDDEN | INTERNAL_SERVER_ERROR | STATUS_OK | TEMPORARY_REDIRECT.
Inductive Body := Html (s : str) | Plain (s : str) | JsonError (msg : str) | JsonOk (email : str) | Location (url : str).
Record Response := mkResponse { rs_status : StatusCode; rs_body : Body }.

Record OAuthState := mkOAuthState { os_config : OAuthSettings; os_base_url : str }.

Definition oauth_start (encode : str -> str) (st : OAuthState) (pending : gmap str PendingOAuth) (state : str) :
    Response :=
  match pending !! state with
  | None => mkResponse BAD_REQUEST (Plain (lit "Invalid or expired authentication state"))
  | Some _ =>
      let redirect_uri := os_base_url st ++ lit "/auth/callback" in
      mkResponse TEMPORARY_REDIRECT (Location
        (lit "https://accounts.google.com/o/oauth2/v2/auth?client_id=" ++ encode (oa_client_id (os_config st))
          ++ lit "&redirect_uri=" ++ encode redirect_uri
          ++ lit "&response_type=code&scope=openid%20email%20profile&state=" ++ encode state
          ++ lit "&access_type=online&prompt=consent"))
  end.

(** [email.split('@').next_back().unwrap_or("")]. *)
Definition email_domain (email : str) : str := default [] (last (split_on 64 email)).

Definition domain_allowed (config : OAuthSettings) (email : str) : bool :=
  match oa_allowed_domains config with
  | [] => true
  | ds => bool_decide (email_domain email ∈ ds)
  end.

(** The form of the exchange of the code. *)
Definition token_form (st : OAuthState) (code : str) : list (str * str) :=
  [(lit "code", code); (lit "client_id", oa_client_id (os_config st));
   (lit "client_secret", oa_client_secret (os_config st));
   (lit "redirect_uri", os_base_url st ++ lit "/auth/callback");
   (lit "grant_type", lit "authorization_code")].

(** The flow both handlers share: the message for the server, or the reason
    it stopped. *)
Definition oauth_flow (st : OAuthState) (provider : Provider) (channel_open : bool)
    (pending : gmap str PendingOAuth) (code state : str) : res ServerError (AuthCompleted + OAuthFailure) :=
  match pending !! state with
  | None => Ok (inr InvalidState)
  | Some _ =>
      match pv_token provider (token_form st code) with
      | TokenUnreachable => Ok (inr ExchangeFailed)
      | TokenRefused body => _ ← redact_oauth_error body; Ok (inr ExchangeFailed)
      | TokenNotJson => Ok (inr TokenParseFailed)
      | TokenFields None => Ok (inr NoAccessToken)
      | TokenFields (Some access_token) =>
          match pv_userinfo provider access_token with
          | UserUnreachable | UserRefused => Ok (inr UserinfoFailed)
          | UserNotJson => Ok (inr UserinfoParseFailed)
          | UserFields None => Ok (inr NoEmail)
          | UserFields (Some email) =>
              if negb (domain_allowed (os_config st) email) then Ok (inr DomainDenied)
              else if channel_open then Ok (inl (mkAuthCompleted state email)) else Ok (inr ChannelClosed)
          end
      end
  end.

Definition failed_page (title text : string) : Body :=
  Html (lit "<html><body><h1>" ++ lit title ++ lit "</h1><p>" ++ lit text ++ lit "</p></body></html>").

(** The answers of /auth/callback. *)
Definition callback_failure (f : OAuthFailure) : Response :=
  let failed s t := mkResponse s (failed_page "Authentication Failed" t) in
  match f with
  | InvalidState => failed BAD_REQUEST "Invalid or expired authentication state. Please try connecting again."
  | ExchangeFailed => failed INTERNAL_SERVER_ERROR "Token exchange failed. Please try again."
  | TokenParseFailed | UserinfoParseFailed | ChannelClosed =>
      failed INTERNAL_SERVER_ERROR "Internal error. Please try again."
  | NoAccessToken => failed INTERNAL_SERVER_ERROR "No access token received. Please try again."
  | UserinfoFailed => failed INTERNAL_SERVER_ERROR "Could not verify identity. Please try again."
  | NoEmail => failed FORBIDDEN "No email in profile."
  | DomainDenied =>
      mkResponse FORBIDDEN (failed_page "Access Denied" "Your email domain is not authorized for VPN access.")
  end.
Definition callback_success (email : str) : Response :=
  mkResponse STATUS_OK (Html
    (lit "<html><body style=" ++ [34] ++ lit "font-family: sans-serif; text-align: center; margin-top: 80px;"
      ++ [34] ++ lit "><h1>VPN Authentication Successful</h1><p>Authenticated as <strong>" ++ escape_html email
      ++ lit "</strong></p><p>Your VPN connection is being established. You can close this window.</p></body></html>")).

(** The answers of /auth/complete. *)
Definition complete_failure (f : OAuthFailure) : Response :=
  match f with
  | InvalidState => mkResponse BAD_REQUEST (JsonError (lit "Invalid or expired authentication state"))
  | ExchangeFailed => mkResponse INTERNAL_SERVER_ERROR (JsonError (lit "Token exchange failed"))
  | TokenParseFailed => mkResponse INTERNAL_SERVER_ERROR (JsonError (lit "Token parse failed"))
  | NoAccessToken => mkResponse INTERNAL_SERVER_ERROR (JsonError (lit "No access token"))
  | UserinfoParseFailed => mkResponse INTERNAL_SERVER_ERROR (JsonError (lit "Userinfo parse failed"))
  | UserinfoFailed => mkResponse INTERNAL_SERVER_ERROR (JsonError (lit "Userinfo request failed"))
  | NoEmail => mkResponse FORBIDDEN (JsonError (lit "No email in profile"))
  | DomainDenied =>
      mkResponse FORBIDDEN (JsonError (lit "Your email domain is not authorized for VPN access"))
  | ChannelClosed => mkResponse INTERNAL_SERVER_ERROR (JsonError (lit "Internal error"))
  end.

Definition answer (success : str -> Response) (failure : OAuthFailure -> Response)
    (r : AuthCompleted + OAuthFailure) : Response * option AuthCompleted :=
  match r with
  | inl auth => (success (ac_email auth), Some auth)
  | inr f => (failure f, None)
  end.
Definition oauth_callback (st : OAuthState) (provider : Provider) (channel_open : bool)
    (pending : gmap str PendingOAuth) (code state : str) : res ServerError (Response * option AuthCompleted) :=
  r ← oauth_flow st provider channel_open pending code state;
  Ok (answer callback_success callback_failure r).
Definition oauth_complete (st : OAuthState) (provider : Provider) (channel_open : bool)
    (pending : gmap str PendingOAuth) (code state : str) : res ServerError (Response * option AuthCompleted) :=
  r ← oauth_flow st provider channel_open pending code state;
  Ok (answer (fun email => mkResponse STATUS_OK (JsonOk email)) complete_failure r).

(** ** The event loop of [run_server]

    The server, the channel from the OAuth pages to it and the clean-up task.
    The pages and the clean-up run in tasks of their own; the pages read the
    pending authentications and send on the channel.  An error of a handler
    is logged; a panic in any task ends the process, as the release profile
    has [panic = "abort"]. *)
Record Sys := mkSys { sy_world : World; sy_channel : list AuthCompleted; sy_cleanup : CleanupPhase }.

Inductive Event :=
| EvUdp (env : Env) (peer_addr : SocketAddr) (data : bytes)
| EvTun (env : Env) (ip_packet : bytes)
| EvPing (env : Env)
| EvAuth (env : Env)
| EvCleanup (env : Env)
| EvCallback (provider : Provider) (channel_open : bool) (code state : str)
| EvComplete (provider : Provider) (channel_open : bool) (code state : str).

Definition on_world (m : M World ServerError unit) : M Sys ServerError unit :=
  zoom sy_world (fun w s => mkSys w (sy_channel s) (sy_cleanup s)) id m.

(** The task of the OAuth server exists when OAuth is enabled. *)
Definition oauth_request (page : OAuthState -> gmap str PendingOAuth ->
      res ServerError (Response * option AuthCompleted)) : M Sys ServerError unit := fun s =>
  let srv := wd_server (sy_world s) in
  match cfg_oauth (vs_config srv) with
  | Some oauth =>
      if oa_enabled oauth then
        let st := mkOAuthState oauth (build_oauth_base_url oauth (sv_public_host (cfg_server (vs_config srv)))) in
        match page st (vs_pending_oauths srv) with
        | Ok (_, Some auth) => (mkSys (sy_world s) (sy_channel s ++ [auth]) (sy_cleanup s), Ok tt)
        | Ok (_, None) => (s, Ok tt)
        | Err e => (s, Err e)
        | Panic => (s, Panic)
        end
      else (s, Ok tt)
  | None => (s, Ok tt)
  end.

Definition step (e : Event) : M Sys ServerError unit :=
  match e with
  | EvUdp env peer_addr data => on_world (handle_packet env peer_addr data)
  | EvTun env ip_packet => on_world (handle_tun_packet env ip_packet)
  | EvPing env => on_world (send_keepalive_pings env)
  | EvAuth env => fun s =>
      match sy_channel s with
      | [] => (s, Ok tt)
      | auth :: rest => on_world (handle_auth_completed env auth) (mkSys (sy_world s) rest (sy_cleanup s))
      end
  | EvCleanup env => fun s =>
      let idle_timeout_sec := sv_idle_timeout_sec (cfg_server (vs_config (wd_server (sy_world s)))) in
      if 0 <? idle_timeout_sec then
        let '(w, r) := cleanup_stale_connections env (from_secs idle_timeout_sec) (sy_cleanup s) (sy_world s) in
        match r with
        | Ok task => (mkSys w (sy_channel s) task, Ok tt)
        | Err e => (mkSys w (sy_channel s) (sy_cleanup s), Err e)
        | Panic => (mkSys w (sy_channel s) (sy_cleanup s), Panic)
        end
      else (s, Ok tt)
  | EvCallback provider channel_open code state =>
      oauth_request (fun st pending => oauth_callback st provider channel_open pending code state)
  | EvComplete provider channel_open code state =>
      oauth_request (fun st pending => oauth_complete st provider channel_open pending code state)
  end.

(** The state after a sequence of events, and whether the loop still runs. *)
Fixpoint run_events (es : list Event) (s : Sys) : Sys * bool :=
  match es with
  | [] => (s, true)
  | e :: es' =>
      match step e s with
      | (s', Panic) => (s', false)
      | (s', _) => run_events es' s'
      end
  end.

(** ** Start *)
Record Files := mkFiles { fl_exists : str -> bool; fl_read : str -> str + str }.
Context {PKI : RustlsPki} (config_of_rustls : ServerTlsConfig -> TlsConfig).
Context (logger_of : LoggerChoice -> res str L) (td_seconds : Z -> option TimeDelta).

(** An error of the start, as its text. *)
Definition message {A} (text : string) (m : res str A) : res str A := map_err (fun e => lit text ++ e) m.

Definition of_file (r : str + str) : res str str := match r with inl s => Ok s | inr e => Err e end.

(** The texts of protocol errors are not modelled; [fmt] prints them. *)
Definition VpnServer_load_tls_config (fmt : ProtocolError -> str) (files : Files) (config : ServerConfig) :
    res str (option TlsConfig) :=
  let cert_path := ServerConfig_server_cert_path config in
  let key_path := ServerConfig_server_key_path config in
  if negb (fl_exists files cert_path) || negb (fl_exists files key_path) then Ok None else
  cert_pem ← message "Failed to read server cert: " (of_file (fl_read files cert_path));
  key_pem ← message "Failed to read server key: " (of_file (fl_read files key_path));
  certs ← message "Failed to parse server cert: " (map_err fmt (load_certs_from_pem cert_pem));
  key ← message "Failed to parse server key: " (map_err fmt (load_key_from_pem key_pem));
  tls_config ← message "Failed to create TLS config: " (map_err fmt (create_server_config certs key None));
  Ok (Some (config_of_rustls tls_config)).

Definition VpnServer_load_tls_auth_key (files : Files) (config : ServerConfig) : res str (option bytes) :=
  if negb (sc_tls_auth (cfg_security config)) then Ok None else
  let ta_path := ServerConfig_ta_key_path config in
  if negb (fl_exists files ta_path) then Ok None else
  match fl_read files ta_path with
  | inl pem =>
      match parse_static_key pem with
      | Ok key => Ok (Some key)
      | Err _ => Ok None
      | Panic => Panic
      end
  | inr _ => Ok None
  end.

Definition anonymizes (a : ConnectionLogAnonymization) : bool :=
  an_hash_client_ips a || an_truncate_client_ips a || an_hash_usernames a || an_round_timestamps a
  || an_aggregate_transfer_stats a.

(** [utc] and [secret] are read by [Anonymizer::new]. *)
Definition VpnServer_new (fmt : ProtocolError -> str) (fmt_core : CoreError -> str) (files : Files)
    (utc : DateTime) (secret : bytes) (config : ServerConfig) : res str VpnServer :=
  let session_lifetime_sec := from_option (fun o => as_i64 (oa_session_lifetime_sec o)) 86400 (cfg_oauth config) in
  lifetime ← (match td_seconds session_lifetime_sec with Some d => Ok d | None => Panic end);
  let session_manager := SessionManager_new (Z.to_nat (sv_max_clients (cfg_server config))) lifetime in
  subnet ← (match net_parse (w := 32) (N := N4) (nw_subnet (cfg_network config)) with
            | inl n => Ok n
            | inr e => Err (lit "Invalid subnet: " ++ e)
            end);
  address_pool ← message "Invalid address pool configuration: "
                   (map_err fmt_core (AddressPool_new (N6 := N6) (Some subnet) None));
  tls_config ← VpnServer_load_tls_config fmt files config;
  tls_auth_key ← VpnServer_load_tls_auth_key files config;
  connection_logger ← logger_of (create_logger (cfg_logging config));
  let anonymization := lg_anonymization (cfg_logging config) in
  let anonymizer := if anonymizes anonymization then Some (Anonymizer_new utc secret anonymization) else None in
  Ok (mkVpnServer config session_manager address_pool ∅ tls_config tls_auth_key connection_logger anonymizer ∅).

End Server.

(** Read and write the fields of a connection, and nothing else. *)
Ltac co_simpl :=
  cbn [co_protocol co_tls co_last_activity co_connected_at co_peer_addr co_vpn_ip co_connection_id co_username co_auth_method co_stats co_hard_reset_response co_pending_push_reply co_oauth_state co_negotiated_cipher
       co_set_protocol co_set_tls co_set_last_activity co_set_vpn_ip co_set_username co_set_auth_method co_set_stats co_set_hard_reset_response co_set_pending_push_reply co_set_oauth_state co_set_negotiated_cipher fst snd].
