(* ===== verification/ServerProofs.v ===== *)
(** * Theorems on the server

    The invariant of the server over every sequence of events: datagrams from
    anywhere, packets from the TUN device, timers and OAuth requests, with
    errors of the socket and of the TLS library.  The definitions are in
    Server.v. *)
From S2P Require Import Prelude Errors Text Network CoreSession Opcode Packet Replay Float Reliable Cipher HmacAuth Kdf DataChannel Session SessionProofs SessionSend Runs Control Addr ServerConfig ConnLog TlsDriver Cert Server.
Local Open Scope Z_scope.

(** ** What the handlers see of a connection *)
Section Proofs.
Context {AEAD : Aead} {ALaws : AeadLaws AEAD} {HMAC : Hmac} {HLaws : HmacLaws HMAC} {SHA : Sha256}
  {UC : Unicode} {Ch : Chrono} {ChF : ChronoFields} {Uu : Uuids}
  {N4 N6 : Type} {Net4 : IpNet 32 N4} {Net6 : IpNet 128 N6} {Txt4 : IpNetText 32 N4}
  {TlsConfig TlsConn : Type} {RL : Rustls TlsConfig TlsConn} {RLaws : RustlsLaws RL}
  {L : Type} {LG : ConnectionLogger L} {LSafe : LoggerSafe LG}.

Abbreviation Conn := (Connection (Uu := Uu) (TlsConn := TlsConn)).
Abbreviation Wk := (Work (Ch := Ch) (Uu := Uu) (N4 := N4) (N6 := N6) (TlsConn := TlsConn)).
Abbreviation TWk := (TlsWork (Ch := Ch) (Uu := Uu) (N4 := N4) (N6 := N6) (TlsConn := TlsConn)).

Record View := mkView {
  vw_state : ProtocolState;
  vw_peer : SocketAddr;
  vw_ip : option Z;
  vw_user : option str;
  vw_auth : AuthMethod;
  vw_pending : option str;
  vw_pool : AddressPool (N4 := N4) (N6 := N6);
}.
Definition view (w : Wk) : View :=
  let c := wk_conn w in
  mkView (ps_state (co_protocol c)) (co_peer_addr c) (co_vpn_ip c) (co_username c) (co_auth_method c)
    (co_pending_push_reply c) (wk_pool w).
Definition vw_set_state st v :=
  mkView st (vw_peer v) (vw_ip v) (vw_user v) (vw_auth v) (vw_pending v) (vw_pool v).

(** A property of the view, and the invariant of the session. *)
Definition holds (F : View -> Prop) (w : Wk) : Prop := sess_inv (co_protocol (wk_conn w)) /\ F (view w).
Definition holds_tls (F : View -> Prop) (t : TWk) : Prop := holds F (tw_work t).

Record env_ok (env : Env (Ch := Ch) (Uu := Uu)) : Prop := {
  eo_now : duration_ok (ev_now env);
  eo_session_id : length (ev_session_id env) = 8%nat;
}.

Implicit Types (F G : View -> Prop) (env : Env (Ch := Ch) (Uu := Uu)).

(** *** Calls on the session *)
Lemma runs_protocol {A} F G (m : M ProtocolSession ProtocolError A) :
  safe sess_inv m ->
  (forall s v, F v -> vw_state v = ps_state s -> G (vw_set_state (ps_state (fst (m s))) v)) ->
  runs (holds F) (on_protocol m) (holds G).
Proof.
  intros Hm HG. eapply (runs_zoom _ _ _ sess_inv); [done|by intros w []|].
  intros w [_ Hf] Hs. split; [exact Hs|].
  exact (HG (co_protocol (wk_conn w)) (view w) Hf eq_refl).
Qed.

Lemma runs_protocol_quiet {A} F (m : M ProtocolSession ProtocolError A) :
  safe sess_inv m -> keeps ps_state m -> runs (holds F) (on_protocol m) (holds F).
Proof.
  intros Hm Hk. apply runs_protocol; [done|]. intros s v Hf Hv. rewrite Hk, <- Hv. by destruct v.
Qed.

Lemma runs_on_work {A} F G (m : M Wk ServerError A) :
  runs (holds F) m (holds G) -> runs (holds_tls F) (on_work m) (holds_tls G).
Proof.
  intros H t Ht. specialize (H (tw_work t) Ht). unfold on_work, zoom.
  destruct (m (tw_work t)) as [w r]. destruct H as [Hw Hn]. split; [exact Hw|]. by destruct r.
Qed.

(** *** Calls on the TLS handler *)
Lemma runs_on_tls {A} F text (m : M (TlsHandler TlsConn) ProtocolError A) :
  (forall h, no_panic (snd (m h))) -> runs (holds_tls F) (on_tls text m) (holds_tls F).
Proof.
  intros Hm t Ht. unfold on_tls, zoom. specialize (Hm (tw_tls t)).
  destruct (m (tw_tls t)) as [h r]. split; [exact Ht|]. by destruct r.
Qed.

Lemma attempt_no_panic {S E E' A} (m : M S E A) s :
  no_panic (snd (m s)) -> no_panic (snd (attempt (F := E') m s)).
Proof. unfold attempt. by destruct (m s) as [s' []]. Qed.

Lemma write_plaintext_no_panic data (h : TlsHandler TlsConn) :
  no_panic (snd (TlsHandler_write_plaintext data h)).
Proof. unfold TlsHandler_write_plaintext. by destruct (rl_write data (th_conn h)) as [c []]. Qed.

Lemma read_plaintext_no_panic n (h : TlsHandler TlsConn) :
  no_panic (snd (TlsHandler_read_plaintext n h)).
Proof. unfold TlsHandler_read_plaintext. by destruct (rl_read n (th_conn h)) as [c [|[]]]. Qed.

Lemma runs_write F data : runs (holds_tls F) (write_or_warn data) (holds_tls F).
Proof.
  eapply runs_bind; [|intros [|]; by apply runs_ret|done].
  apply runs_on_tls. intros h. apply attempt_no_panic, write_plaintext_no_panic.
Qed.

Lemma runs_flush_loop F fuel env : env_ok env -> runs (holds_tls F) (flush_loop fuel env) (holds_tls F).
Proof.
  intros [Hnow _]. induction fuel as [|f IH]; cbn [flush_loop]; [by apply runs_ret|].
  apply runs_read. intros t0 _. destruct (TlsHandler_wants_write _); [|by apply runs_ret].
  eapply runs_bind; [apply runs_on_tls; intros h; apply get_outgoing_spec| |done].
  intros [out|]; [|by apply runs_ret].
  eapply runs_bind; [|intros ps|done].
  { apply runs_on_work, runs_protocol_quiet; [by apply safe_create_packets|apply keeps_state_packets]. }
  eapply runs_bind; [by apply (runs_modify _ (holds_tls F))|intros _; apply IH|done].
Qed.

Lemma runs_flush F env : env_ok env -> runs (holds_tls F) (flush_tls env) (holds_tls F).
Proof. intros He t Ht. unfold flush_tls. by apply runs_flush_loop. Qed.

Lemma runs_set_state F G env st :
  (forall v, F v -> G (vw_set_state st v)) -> runs (holds_tls F) (set_state env st) (holds_tls G).
Proof.
  intros H. apply runs_modify. intros t [Hs Hf]. split; [|by apply H in Hf].
  apply inv_activity, inv_state, Hs.
Qed.

(** A change of the connection that leaves the session alone. *)
Lemma runs_conn F G (f : Conn -> Conn) :
  (forall c, co_protocol (f c) = co_protocol c) ->
  (forall w, F (view w) -> G (view (wk_on_conn f w))) ->
  runs (E := ServerError) (holds_tls F) (modify (tw_on_conn f)) (holds_tls G).
Proof.
  intros Hp H. apply runs_modify. intros t [Hs Hf]. split; [|by apply H].
  cbn. by rewrite Hp.
Qed.

(** ** The invariant of one connection

    [V] are the e-mail addresses the identity provider has vouched for,
    [others] the addresses of the other connections, [base] addresses leased
    before. *)
Section Connection.
Context (cfg : ServerConfig) (V : str -> Prop) (net : N4).

Definition authorized (v : View) : Prop :=
  vw_auth v = OAuth2 /\ exists email, vw_user v = Some email /\ V email.

Record vinv (a : SocketAddr) (others base : gset Z) (v : View) : Prop := {
  vi_peer : vw_peer v = a;
  vi_auth : oauth_enabled cfg = true -> vw_state v = Established -> authorized v;
  vi_addressed : vw_state v = Established \/ is_Some (vw_pending v) -> is_Some (vw_ip v);
  vi_net4 : ap_ipv4_net (vw_pool v) = Some net;
  vi_net6 : ap_ipv6_net (vw_pool v) = None;
  vi_base : base ⊆ ap_allocated_v4 (vw_pool v);
  vi_others : others ⊆ ap_allocated_v4 (vw_pool v);
  vi_own : forall x, vw_ip v = Some x -> x ∈ ap_allocated_v4 (vw_pool v) /\ (x ∉ others);
}.

Context (a : SocketAddr) (others base : gset Z).
Abbreviation I := (vinv a others base).
(** Not yet established. *)
Definition unestablished (v : View) : Prop := I v /\ vw_state v <> Established.

Lemma vinv_state st v : I v -> (st = Established -> vw_state v = Established) -> I (vw_set_state st v).
Proof.
  intros [Hpe Hau Had H4 H6 Hb Ho Hown] Hst. constructor; cbn; try done.
  - intros Hoa He. by apply Hau, Hst.
  - intros [He|Hp]; apply Had; [left; by apply Hst|by right].
Qed.

Lemma unestablished_state st v : I v -> st <> Established -> unestablished (vw_set_state st v).
Proof. intros Hv Hst. split; [by apply vinv_state|done]. Qed.

Lemma unestablished_inv v : unestablished v -> I v.
Proof. by intros []. Qed.

Lemma holds_mono F G w : (forall v, F v -> G v) -> holds F w -> holds G w.
Proof. intros H [Hs Hf]. split; [done|by apply H]. Qed.

(** *** The end of the key exchange *)
Lemma runs_defer oauth env reply cipher : env_ok env ->
  runs (holds_tls (fun v => unestablished v /\ is_Some (vw_ip v)))
    (defer_to_oauth cfg oauth env reply cipher) (holds_tls I).
Proof.
  intros He. unfold defer_to_oauth. apply runs_read. intros t0 _. cbv zeta.
  eapply runs_bind; [|intros _|intros ?; exact id].
  { apply (runs_conn _ I); [done|]. intros w [[[] Hst] Hip]. constructor; cbn in *; done. }
  eapply runs_bind; [by apply (runs_modify _ (holds_tls I))|intros _|intros ?; exact id].
  eapply runs_bind; [apply runs_write|intros _|intros ?; exact id].
  eapply runs_bind; [apply runs_write|intros _|intros ?; exact id]. by apply runs_flush.
Qed.

Lemma runs_establish env reply : env_ok env -> oauth_enabled cfg = false ->
  runs (holds_tls (fun v => unestablished v /\ is_Some (vw_ip v))) (establish env reply) (holds_tls I).
Proof.
  intros He Ho. unfold establish.
  assert (forall t, holds_tls (fun v => I v /\ is_Some (vw_ip v)) t -> holds_tls I t) as Hw.
  { intros t. apply holds_mono. tauto. }
  eapply (runs_bind _ (holds_tls (fun v => unestablished v /\ is_Some (vw_ip v))));
    [apply runs_write|intros _|intros t; apply holds_mono; unfold unestablished; tauto].
  eapply (runs_bind _ (holds_tls (fun v => I v /\ is_Some (vw_ip v)))); [|intros _|done].
  { apply runs_conn; [done|]. intros w [[[] Hst] Hip]. split; [|done]. constructor; cbn in *; done. }
  eapply (runs_bind _ (holds_tls (fun v => I v /\ is_Some (vw_ip v)))); [by apply runs_flush|intros _|done].
  apply runs_set_state. intros v [[] Hip]. constructor; cbn in *; try done. congruence.
Qed.

Lemma allocate_step (t : TWk) : holds_tls unestablished t ->
  exists t' r, on_work (zoom wk_pool wk_set_pool id (attempt AddressPool_allocate)) t = (t', Ok r) /\
    holds_tls unestablished t' /\
    forall va, r = inl va -> exists x, va = VpnAddress_v4 x /\
      x ∈ ap_allocated_v4 (wk_pool (tw_work t')) /\ (x ∉ others).
Proof.
  intros [Hs [[Hpe Hau Had H4 H6 Hb Ho Hown] Hst]]. unfold on_work, zoom, attempt.
  change (vw_pool (view (tw_work t))) with (wk_pool (tw_work t)) in *.
  rewrite (allocate_v4_only _ _ H4 H6).
  destruct (AddressPool_allocate_v4 net (wk_pool (tw_work t))) as [q r] eqn:Hq.
  destruct (allocate_v4_inv _ _ _ _ Hq) as [[-> ->]|[x ->]].
  - eexists _, _. split; [reflexivity|]. split; [|done]. split; [done|]. by split.
  - apply allocate_v4_ok in Hq as [Hf ->]. apply find_free_Some in Hf as (_ & _ & Hfresh & _).
    eexists _, _. split; [reflexivity|]. cbn [tw_work]. split.
    + split; [done|]. split; [|done]. constructor; cbn in *; try done.
      * by apply union_subseteq_r'.
      * by apply union_subseteq_r'.
      * intros y Hy. destruct (Hown y Hy). split; [by apply elem_of_union_r|done].
    + intros va [= <-]. exists x. split; [done|]. cbn. split; [by apply elem_of_union_l, elem_of_singleton|].
      intros Hx. by apply Hfresh, Ho.
Qed.

Lemma runs_assign env cipher : env_ok env ->
  runs (holds_tls unestablished) (assign_address cfg env cipher) (holds_tls I).
Proof.
  intros He t Ht. unfold assign_address.
  destruct (allocate_step t Ht) as (t' & r & Hstep & Ht' & Hr). rewrite (bind_step _ _ _ _ _ Hstep).
  destruct r as [va|e]; [|split; [by eapply holds_mono; [apply unestablished_inv|]|done]].
  destruct (Hr va eq_refl) as (x & -> & Hx & Hxo). clear Hr.
  assert (runs (fun s => s = t') 
    (t ← get;
     let gateway := AddressPool_gateway_v4 (wk_pool (tw_work t)) in
     _ ← modify (tw_on_conn (co_set_vpn_ip (Some x)));
     let reply_str := PushReply_encode (build_push_reply cfg gateway (VpnAddress_v4 x) cipher) in
     match cfg_oauth cfg with
     | Some oauth =>
         if oa_enabled oauth then defer_to_oauth cfg oauth env reply_str cipher
         else establish env reply_str
     | None => establish env reply_str
     end) (holds_tls I)) as H; [|by apply H].
  apply runs_read. intros t0 ->. cbv zeta.
  eapply (runs_bind _ (holds_tls (fun v => unestablished v /\ is_Some (vw_ip v)))).
  - apply runs_modify. intros s ->. destruct Ht' as [Hs [[Hpe Hau Had H4 H6 Hb Ho Hown] Hst]].
    split; [exact Hs|]. split; [|by eexists]. split; [|done].
    constructor; cbn in *; try done. by intros y [= <-].
  - intros _. destruct (cfg_oauth cfg) as [oauth|] eqn:Hc; [destruct (oa_enabled oauth) eqn:Hoe|].
    + by apply runs_defer.
    + apply runs_establish; [done|]. unfold oauth_enabled. by rewrite Hc.
    + apply runs_establish; [done|]. unfold oauth_enabled. by rewrite Hc.
  - intros s. apply holds_mono. unfold unestablished. tauto.
Qed.

Lemma derive_ok km r1 r2 sc ss : exists k, derive_key_material km r1 r2 sc ss = Ok k.
Proof.
  unfold derive_key_material. cbv zeta.
  destruct (prf_ok (k2_pre_master km) (lit "OpenVPN master secret") (k2_random1 km ++ r1) 48) as (ms & -> & _).
  cbn [map_err]. rsimp.
  destruct (prf_ok ms (lit "OpenVPN key expansion") (k2_random2 km ++ r2 ++ sc ++ ss) 256) as (block & -> & Hl).
  cbn [map_err]. rsimp. destruct (key2_block_ok block) as (k & -> & _); [lia|]. by exists k.
Qed.

Lemma derive_no_panic km r1 r2 sc ss : no_panic (derive_key_material km r1 r2 sc ss).
Proof. by destruct (derive_ok km r1 r2 sc ss) as [k ->]. Qed.

Lemma runs_install km r1 r2 F : runs (holds_tls F) (install_data_keys km r1 r2) (holds_tls F).
Proof.
  unfold install_data_keys. apply runs_read. intros t0 _. cbv zeta.
  eapply runs_bind; [apply runs_lift; [apply derive_no_panic|intros ?; exact id]|intros m|intros ?; exact id].
  apply runs_on_work, runs_protocol_quiet; [apply safe_install_keys|apply keeps_state_install].
Qed.

Lemma inv_suite su s : sess_inv s -> sess_inv (ps_set_suite su s).
Proof. by intros []. Qed.

Lemma runs_exchange env km : env_ok env ->
  runs (holds_tls unestablished) (exchange_keys cfg env km) (holds_tls I).
Proof.
  intros He. unfold exchange_keys.
  assert (forall t, holds_tls unestablished t -> holds_tls I t) as Hw.
  { intros t. apply holds_mono, unestablished_inv. }
  eapply (runs_bind _ (holds_tls unestablished)); [|intros _|done].
  { destruct (k2_username km) as [user|]; [|by apply runs_ret].
    apply runs_conn; [done|]. intros w [[] Hst]. split; [|done]. constructor; cbn in *; done. }
  cbv zeta. eapply (runs_bind _ (holds_tls unestablished)); [|intros _|done].
  { apply runs_modify. intros t [Hs Hv]. split; [by apply inv_suite|exact Hv]. }
  eapply (runs_bind _ (holds_tls unestablished)); [apply runs_write|intros _|done].
  eapply (runs_bind _ (holds_tls unestablished)); [by apply runs_flush|intros _|done].
  eapply (runs_bind _ (holds_tls unestablished)); [apply runs_install|intros _|done].
  by apply runs_assign.
Qed.

Lemma runs_key_method env : env_ok env ->
  runs (holds_tls unestablished) (try_key_method cfg env) (holds_tls I).
Proof.
  intros He. unfold try_key_method.
  assert (forall t, holds_tls unestablished t -> holds_tls I t) as Hw.
  { intros t. apply holds_mono, unestablished_inv. }
  apply runs_read. intros t0 _. eapply (runs_bind _ (holds_tls unestablished)); [|intros _|done].
  { destruct (decide _); [|by apply runs_ret].
    eapply (runs_bind _ (holds_tls unestablished)); [|intros _|done].
    - apply runs_set_state. intros v [Hv _]. by apply unestablished_state.
    - apply runs_conn; [done|]. intros w [[] Hst]. split; [|done]. constructor; cbn in *; done. }
  eapply (runs_bind _ (holds_tls unestablished)); [|intros r|done].
  { apply runs_on_tls. intros h. apply attempt_no_panic, read_plaintext_no_panic. }
  eapply (runs_bind _ (holds_tls I)); [|intros _|done].
  { destruct r as [[|b buf]|e]; try (by apply runs_ret).
    pose proof (KeyMethodV2_parse_no_panic (b :: buf)).
    destruct (KeyMethodV2_parse (b :: buf)); [by apply runs_exchange|by apply runs_ret|done]. }
  apply runs_read. intros t1 _. cbv zeta. destruct (le_auth_events _); [|by apply runs_ret].
  by apply runs_modify.
Qed.

Lemma runs_push_request env : env_ok env -> runs (holds_tls I) (answer_push_request env) (holds_tls I).
Proof.
  intros He. unfold answer_push_request. eapply runs_bind; [|intros r|intros ?; exact id].
  { apply runs_on_tls. intros h. apply attempt_no_panic, read_plaintext_no_panic. }
  destruct r as [[|b bs]|e]; try (by apply runs_ret).
  destruct (is_push_request _); [|by apply runs_ret].
  apply runs_read. intros t0 _. destruct (co_pending_push_reply _) as [reply|]; [|by apply runs_ret].
  eapply runs_bind; [apply runs_write|intros [|]|intros ?; exact id]; [by apply runs_flush|by apply runs_ret].
Qed.

Lemma runs_tls_records env records : env_ok env ->
  runs (holds_tls I) (handle_tls_records cfg env records) (holds_tls I).
Proof.
  intros He. unfold handle_tls_records. eapply runs_bind; [|intros _|intros ?; exact id].
  { apply runs_on_tls. intros h. by destruct (process_tls_records_spec records h) as (n & _ & _ & Hn). }
  eapply runs_bind; [by apply runs_flush|intros _|intros ?; exact id].
  apply runs_get. intros t0 _. cbv zeta.
  eapply (runs_bind _ (holds_tls I)); [|intros _|done].
  - destruct (_ && _) eqn:Hb; [|by apply runs_ret; intros s []].
    intros t [[Hs Hv] ->]. apply runs_key_method; [done|]. split; [done|]. split; [done|].
    apply andb_true_iff in Hb as [_ Hb]. cbn. intros Heq. rewrite Heq in Hb. by cbn in Hb.
  - apply runs_read. intros t1 _. destruct (_ && _); [by apply runs_push_request|by apply runs_ret].
Qed.

Lemma runs_with_tls F G (m : M TWk ServerError unit) :
  (forall v, F v -> G v) -> runs (holds_tls F) m (holds_tls G) -> runs (holds F) (with_tls m) (holds G).
Proof.
  intros HFG Hm w Hw. unfold with_tls. destruct (co_tls (wk_conn w)) as [tls|].
  - specialize (Hm (mkTlsWork w tls) Hw). destruct (m (mkTlsWork w tls)) as [t r].
    destruct Hm as [[Hs Hv] Hn]. split; [|done]. by split.
  - split; [by eapply holds_mono|done].
Qed.

Lemma runs_process_packet env data F : env_ok env -> bytes_ok data ->
  (forall v, F v -> F (vw_set_state TlsHandshake v) /\ F (vw_set_state Rekeying v)) ->
  runs (holds F) (on_protocol (ProtocolSession_process_packet (ev_now env) data)) (holds F).
Proof.
  intros [Hnow _] Hd HF. apply runs_protocol; [by apply safe_process_packet|].
  intros s v Hv Hst. rewrite signals_process_packet. destruct (HF v Hv) as [H1 H2].
  assert (F (vw_set_state (ps_state s) v)) as H0 by (rewrite <- Hst; by destruct v).
  unfold state_after. by destruct (snd _) as [[]| |].
Qed.

Lemma runs_collect F env : env_ok env ->
  runs (holds F) (_ ← collect_acks env; collect_retransmits env) (holds F).
Proof.
  intros He. eapply (runs_bind _ (holds F)); [|intros _|done].
  { unfold collect_acks. apply runs_read. intros w0 _. destruct (ProtocolSession_should_send_ack _ _);
      [|by apply runs_ret].
    eapply runs_bind; [apply runs_protocol_quiet; [apply safe_create_ack|apply keeps_state_ack]|intros r'|done].
    destruct r'; [by apply runs_modify|by apply runs_ret]. }
  unfold collect_retransmits.
  eapply runs_bind; [apply runs_protocol_quiet; [apply safe_get_retransmits|apply keeps_state_retransmits]
                    |intros ps|done].
  by apply runs_modify.
Qed.

Lemma vinv_reset v : I v -> I (vw_set_state TlsHandshake v) /\ I (vw_set_state Rekeying v).
Proof. intros Hv. split; by apply vinv_state. Qed.

Lemma runs_control_section env data : env_ok env -> bytes_ok data ->
  runs (holds I) (control_section cfg env data) (holds I).
Proof.
  intros He Hd. unfold control_section.
  eapply runs_bind; [by apply (runs_modify _ (holds I))|intros _|done].
  eapply runs_bind; [by apply runs_process_packet; [..|apply vinv_reset]|intros r|done].
  eapply (runs_bind _ (holds I)); [|intros _|done].
  { destruct r; try (by apply runs_ret).
    - apply runs_with_tls; [done|]. by apply runs_tls_records.
    - destruct (le_renegotiations _); [|by apply runs_ret].
      apply runs_read. intros w0 _. by apply runs_modify. }
  by apply runs_collect.
Qed.

(** *** The end of an OAuth authentication *)
Lemma runs_complete_section env email p : env_ok env -> V email ->
  let J := fun v => I v /\ vw_pool v = p in
  runs (holds J) (complete_section env email) (holds J).
Proof.
  intros He HV J w [Hs [Hv Hpool]]. unfold complete_section.
  destruct (co_pending_push_reply (wk_conn w)) as [reply|] eqn:Hp; [|done].
  set (w1 := wk_on_conn _ w).
  pose (F := fun v => J v /\ is_Some (vw_ip v) /\ authorized v).
  assert (holds F w1) as H1.
  { split; [exact Hs|]. destruct Hv as [Hpe Hau Had H4 H6 Hb Ho Hown].
    assert (is_Some (vw_ip (view w1))) as Hip.
    { apply Had. right. cbn. by rewrite Hp. }
    assert (authorized (view w1)) as Hz by (split; [done|by exists email]).
    split_and!; [split; [|done]|done..]. constructor; cbn in *; done. }
  revert H1. generalize w1. clear w1. apply (runs_with_tls F J); [by intros v []|].
  eapply (runs_bind _ (holds_tls F)); [apply runs_write|intros [|]|intros t; apply holds_mono; by intros v []].
  - eapply (runs_bind _ (holds_tls F)); [by apply runs_flush|intros _|intros t; apply holds_mono; by intros v []].
    apply runs_set_state. intros v ([[Hpe Hau Had H4 H6 Hb Ho Hown] Hpo] & Hip & Hz).
    split; [constructor; cbn in *; done|done].
  - apply runs_ret. intros t. apply holds_mono. by intros v [].
Qed.
End Connection.

(** ** The invariant of the server *)
Section Invariant.
Context (cfg : ServerConfig) (V : str -> Prop) (net : N4).
Abbreviation Wd := (World (Ch := Ch) (Uu := Uu) (N4 := N4) (N6 := N6) (TlsConfig := TlsConfig)
  (TlsConn := TlsConn) (L := L)).
Implicit Types (w : Wd) (m : gmap SocketAddr Conn).

(** The VPN addresses of the connections other than [a]. *)
Definition ips_except (a : SocketAddr) m : gset Z :=
  list_to_set (omap (fun kc => co_vpn_ip (snd kc)) (map_to_list (delete a m))).

Lemma elem_of_ips_except a m x :
  x ∈ ips_except a m <-> exists b c, b <> a /\ m !! b = Some c /\ co_vpn_ip c = Some x.
Proof.
  unfold ips_except. rewrite elem_of_list_to_set, list_elem_of_omap. split.
  - intros ([b c] & Hin & Hx). apply elem_of_map_to_list, lookup_delete_Some in Hin as [Hne Hb].
    by exists b, c.
  - intros (b & c & Hne & Hb & Hx). exists (b, c). split; [|done].
    by apply elem_of_map_to_list, lookup_delete_Some.
Qed.

Definition allocated w : gset Z := ap_allocated_v4 (vs_address_pool (wd_server w)).
Definition conns w : gmap SocketAddr Conn := vs_connections (wd_server w).

(** A connection as the work of a handler, with nothing collected. *)
Definition work_of w (c : Conn) : Wk := mkWork c (vs_address_pool (wd_server w)) (vs_pending_oauths (wd_server w)) [] [].

Record srv_inv (base : gset Z) w : Prop := {
  sv_cfg : vs_config (wd_server w) = cfg;
  sv_net4 : ap_ipv4_net (vs_address_pool (wd_server w)) = Some net;
  sv_net6 : ap_ipv6_net (vs_address_pool (wd_server w)) = None;
  sv_base : base ⊆ allocated w;
  sv_key : forall k, vs_tls_auth_key (wd_server w) = Some k -> length k = 256%nat;
  sv_conns : forall a c, conns w !! a = Some c ->
    holds (vinv cfg V net a (ips_except a (conns w)) base) (work_of w c);
}.

Lemma vinv_others a os os' base v :
  (forall x, x ∈ os' -> x ∈ ap_allocated_v4 (vw_pool v) /\ (vw_ip v <> Some x)) ->
  vinv cfg V net a os base v -> vinv cfg V net a os' base v.
Proof.
  intros H [Hpe Hau Had H4 H6 Hb Ho Hown]. constructor; try done.
  - intros x Hx. by apply H.
  - intros x Hx. destruct (Hown x Hx). split; [done|]. intros Hx'. by destruct (H x Hx').
Qed.

(** Storing the connection a handler worked on, and the pool it left. *)
Lemma srv_inv_store base w a (k : Wk) os :
  srv_inv base w -> (forall x, x ∈ ips_except a (conns w) -> x ∈ os) ->
  holds (vinv cfg V net a os (allocated w)) k ->
  srv_inv base (on_server (fun s => vs_set_oauths (wk_oauths k) (vs_set_pool (wk_pool k)
    (vs_set_connections (<[a := wk_conn k]> (vs_connections s)) s))) w).
Proof.
  intros [Hc H4 H6 Hb Hkey Hcs] Hos [Hs [Kpe Kau Kad K4 K6 Kb Ko Kown]].
  constructor; cbn in *; try done.
  - unfold allocated in *. cbn. set_solver.
  - unfold conns. cbn. intros b c. rewrite lookup_insert_Some. intros [[<- <-]|[Hne Hlk]].
    + split; [exact Hs|]. apply (vinv_others _ os); [|constructor; cbn in *; try done; set_solver].
      intros x (d & c' & Hd & Hlk & Hx)%elem_of_ips_except. cbn in *.
      rewrite lookup_insert_ne in Hlk by done.
      assert (x ∈ os) as Hin. { apply Hos, elem_of_ips_except. by exists d, c'. }
      split; [by apply Ko|]. intros Hx'. by destruct (Kown x Hx').
    + destruct (Hcs b c Hlk) as [Hs' [Bpe Bau Bad B4 B6 Bb Bo Bown]].
      split; [exact Hs'|]. constructor; cbn in *; try done.
      * set_solver.
      * intros x (d & c' & Hd & Hlk' & Hx)%elem_of_ips_except.
        destruct (decide (d = a)) as [->|Hda].
        -- rewrite lookup_insert_eq in Hlk'. injection Hlk' as <-. by apply Kown.
        -- rewrite lookup_insert_ne in Hlk' by done. apply Kb, Bo, elem_of_ips_except. by exists d, c'.
      * intros x Hx. destruct (Bown x Hx) as [Hin Hout]. split; [by apply Kb|].
        intros (d & c' & Hd & Hlk' & Hx')%elem_of_ips_except.
        destruct (decide (d = a)) as [->|Hda].
        -- rewrite lookup_insert_eq in Hlk'. injection Hlk' as <-.
           destruct (Kown x Hx') as [_ Hno]. apply Hno, Hos, elem_of_ips_except. by exists b, c.
        -- rewrite lookup_insert_ne in Hlk' by done. apply Hout, elem_of_ips_except. by exists d, c'.
Qed.

(** Only the configuration, the connections and the pool matter. *)
Lemma srv_inv_same base w w' :
  vs_config (wd_server w') = vs_config (wd_server w) ->
  vs_address_pool (wd_server w') = vs_address_pool (wd_server w) ->
  vs_tls_auth_key (wd_server w') = vs_tls_auth_key (wd_server w) ->
  conns w' = conns w -> srv_inv base w -> srv_inv base w'.
Proof.
  intros E1 E2 E0 E3 [Hc H4 H6 Hb Hkey Hcs]. constructor; unfold allocated, conns, work_of in *;
    rewrite ?E1, ?E2, ?E0, ?E3; done.
Qed.

Lemma runs_emit_all base (send : bytes -> M Wd ServerError unit) ps :
  (forall p, safe (srv_inv base) (send p)) -> safe (srv_inv base) (send_all send ps).
Proof.
  intros Hs. induction ps as [|p ps IH]; cbn [send_all]; [apply safe_ret|].
  apply safe_bind; [apply Hs|intros _; apply IH].
Qed.

Lemma safe_send_to base env a p : safe (srv_inv base) (send_to env a p).
Proof. intros w Hw. unfold send_to. destruct (ev_send_ok env a p); split; try done. by apply (srv_inv_same base w). Qed.

Lemma safe_send_or_warn base env a p : safe (srv_inv base) (send_or_warn env a p).
Proof. intros w Hw. unfold send_or_warn. destruct (ev_send_ok env a p); split; try done. by apply (srv_inv_same base w). Qed.

Lemma safe_log_event base env e : safe (srv_inv base) (VpnServer_log_event env e).
Proof.
  intros w Hw. unfold VpnServer_log_event.
  destruct (match vs_anonymizer (wd_server w) with
            | Some a => let '(a, e) := Anonymizer_anonymize (ev_utc env) e a in (Some a, e)
            | None => (None, e)
            end) as [a e'].
  pose proof (log_no_panic e' (vs_connection_logger (wd_server w))) as Hn.
  destruct (cl_log e' (vs_connection_logger (wd_server w))) as [l r]. split; [by apply (srv_inv_same base w)|].
  by destruct r.
Qed.

Lemma safe_log_events base env es : safe (srv_inv base) (log_events env es).
Proof.
  induction es as [|e es IH]; cbn [log_events]; [apply safe_ret|].
  apply safe_bind; [apply safe_log_event|intros _; apply IH].
Qed.

Lemma vinv_rebase a os b b' v : b' ⊆ ap_allocated_v4 (vw_pool v) ->
  vinv cfg V net a os b v -> vinv cfg V net a os b' v.
Proof. intros Hb' []. by constructor. Qed.

(** The work on a connection starts in its invariant. *)
Lemma srv_inv_work base w a c : srv_inv base w -> conns w !! a = Some c ->
  holds (vinv cfg V net a (ips_except a (conns w)) (allocated w)) (work_of w c).
Proof.
  intros Hw Ha. destruct (sv_conns _ _ Hw a c Ha) as [Hs Hv]. split; [done|].
  by eapply vinv_rebase.
Qed.

Lemma safe_handle_control base env a data : env_ok env -> bytes_ok data ->
  safe (srv_inv base) (handle_control_packet env a data).
Proof.
  intros He Hd w Hw. unfold handle_control_packet. fold (conns w).
  destruct (conns w !! a) as [c|] eqn:Ha; [|done].
  rewrite (sv_cfg _ _ Hw). fold (work_of w c).
  destruct (runs_control_section cfg V net a _ _ env data He Hd _ (srv_inv_work base w a c Hw Ha)) as [Hk Hn].
  destruct (control_section cfg env data (work_of w c)) as [k r]. cbn [fst snd] in *.
  pose proof (srv_inv_store base w a k _ Hw (fun x Hx => Hx) Hk) as Hw'.
  destruct r as [u|e|]; [|by split|done].
  revert Hw'. generalize (on_server (fun s => vs_set_oauths (wk_oauths k) (vs_set_pool (wk_pool k)
    (vs_set_connections (<[a := wk_conn k]> (vs_connections s)) s))) w).
  apply safe_bind; [apply safe_log_events|intros _]. apply runs_emit_all. intros p. apply safe_send_to.
Qed.

(** *** Changes that leave the rest of a connection alone *)
Record conn_step (c c' : Conn) : Prop := {
  cs_session : sess_inv (co_protocol c) -> sess_inv (co_protocol c');
  cs_state : ps_state (co_protocol c') = Established -> ps_state (co_protocol c) = Established;
  cs_peer : co_peer_addr c' = co_peer_addr c;
  cs_ip : co_vpn_ip c' = co_vpn_ip c;
  cs_user : co_username c' = co_username c;
  cs_auth : co_auth_method c' = co_auth_method c;
  cs_pending : co_pending_push_reply c' = co_pending_push_reply c;
}.

Lemma conn_step_refl c : conn_step c c.
Proof. by constructor. Qed.
Lemma conn_step_trans c d e : conn_step c d -> conn_step d e -> conn_step c e.
Proof. intros [] []. constructor; try congruence; auto. Qed.
Lemma conn_step_protocol p c :
  (sess_inv (co_protocol c) -> sess_inv p) ->
  (ps_state p = Established -> ps_state (co_protocol c) = Established) ->
  conn_step c (co_set_protocol p c).
Proof. intros. by constructor. Qed.

Lemma srv_inv_step base w a c c' : srv_inv base w -> conns w !! a = Some c -> conn_step c c' ->
  srv_inv base (on_server (fun s => vs_set_connections (<[a := c']> (vs_connections s)) s) w).
Proof.
  intros Hw Ha [Cs Ct Cp Ci Cu Cm Cq].
  destruct (srv_inv_work base w a c Hw Ha) as [Hs [Hpe Hau Had H4 H6 Hb Ho Hown]].
  assert (holds (vinv cfg V net a (ips_except a (conns w)) (allocated w)) (work_of w c')) as Hk.
  { split; [by apply Cs|]. constructor; cbn in *; rewrite ?Cp, ?Ci, ?Cq; try done.
    - intros Hoa Hst. destruct (Hau Hoa (Ct Hst)) as [Hm [e [Hu He]]].
      split; cbn in *; [congruence|]. exists e. split; congruence.
    - intros [Hst|Hp]; apply Had; [left; by apply Ct|by right]. }
  pose proof (srv_inv_store base w a (work_of w c') _ Hw (fun x Hx => Hx) Hk) as Hw'.
  by eapply srv_inv_same, Hw'.
Qed.

(** *** Data packets *)
Lemma add_rx_step n c : conn_step c (Connection_add_bytes_rx n c).
Proof. by constructor. Qed.
Lemma add_tx_step n c : conn_step c (Connection_add_bytes_tx n c).
Proof. by constructor. Qed.
Lemma touch_step t c : conn_step c (Connection_touch t c).
Proof. by constructor. Qed.

Lemma encrypt_step data c : sess_inv (co_protocol c) ->
  let '(p, r) := ProtocolSession_encrypt_data data (co_protocol c) in
  conn_step c (co_set_protocol p c) /\ no_panic r.
Proof.
  intros Hs. destruct (safe_encrypt_data data _ Hs) as [H1 H2].
  pose proof (keeps_state_encrypt data (co_protocol c)) as Hk.
  destruct (ProtocolSession_encrypt_data data (co_protocol c)) as [p r]. cbn in *. split; [|done].
  apply conn_step_protocol; [done|congruence].
Qed.

Lemma process_step env data c : env_ok env -> bytes_ok data -> sess_inv (co_protocol c) ->
  let '(p, r) := ProtocolSession_process_packet (ev_now env) data (co_protocol c) in
  conn_step c (co_set_protocol p c) /\ no_panic r /\ sess_inv p.
Proof.
  intros [Hnow _] Hd Hs. destruct (safe_process_packet _ data Hnow Hd _ Hs) as [H1 H2].
  pose proof (signals_process_packet (ev_now env) data (co_protocol c)) as Hk.
  destruct (ProtocolSession_process_packet (ev_now env) data (co_protocol c)) as [p r]. cbn in *.
  split_and!; [|done..]. apply conn_step_protocol; [done|]. rewrite Hk. unfold state_after.
  by destruct r as [[]| |].
Qed.

Lemma data_section_ok env data c : env_ok env -> bytes_ok data -> sess_inv (co_protocol c) ->
  conn_step c (fst (data_section env data c)) /\ no_panic (snd (data_section env data c)).
Proof.
  intros He Hd Hs. unfold data_section. cbv zeta.
  destruct (negb _); [split; [apply touch_step|done]|].
  set (c1 := Connection_add_bytes_rx _ _).
  assert (conn_step c c1) as H1 by (eapply conn_step_trans; [apply touch_step|apply add_rx_step]).
  pose proof (process_step env data c1 He Hd Hs) as Hp.
  destruct (ProtocolSession_process_packet (ev_now env) data (co_protocol c1)) as [p r].
  destruct Hp as (H2 & Hn & Hsp). pose proof (conn_step_trans _ _ _ H1 H2) as H12.
  destruct r as [[]| |]; try (by split).
  destruct (_ && _); [|by destruct (_ <=? _)%nat].
  pose proof (encrypt_step OPENVPN_PING_PAYLOAD (co_set_protocol p c1) Hsp) as Hen.
  destruct (ProtocolSession_encrypt_data _ _) as [p' r']. destruct Hen as [H3 Hn'].
  pose proof (conn_step_trans _ _ _ H12 H3) as H13.
  destruct r'; [|by split|done]. split; [|done].
  eapply conn_step_trans; [exact H13|apply add_tx_step].
Qed.

Lemma safe_tun_write base env p : safe (srv_inv base) (tun_write env p).
Proof.
  intros w Hw. unfold tun_write. destruct (ev_tun_ok env p); split; try done. by apply (srv_inv_same base w).
Qed.

Lemma srv_inv_session base w a c : srv_inv base w -> conns w !! a = Some c -> sess_inv (co_protocol c).
Proof. intros Hw Ha. by destruct (sv_conns _ _ Hw a c Ha). Qed.

Lemma safe_handle_data base env a data : env_ok env -> bytes_ok data ->
  safe (srv_inv base) (handle_data_packet env a data).
Proof.
  intros He Hd w Hw. unfold handle_data_packet. fold (conns w).
  destruct (conns w !! a) as [c|] eqn:Ha; [|done].
  destruct (data_section_ok env data c He Hd (srv_inv_session _ _ _ _ Hw Ha)) as [Hst Hn].
  destruct (data_section env data c) as [c' r]. cbn [fst snd] in *.
  pose proof (srv_inv_step base w a c c' Hw Ha Hst) as Hw'.
  destruct r as [[tun ps]| |]; [|by split|done].
  revert Hw'. generalize (on_server (fun s => vs_set_connections (<[a := c']> (vs_connections s)) s) w).
  apply safe_bind; [apply runs_emit_all; intros p; apply safe_send_or_warn|intros _].
  destruct tun; [apply safe_tun_write|apply safe_ret].
Qed.

(** *** Hard resets *)
Lemma inv_auth k s : sess_inv s -> sess_inv (ps_set_auth k s).
Proof. by intros []. Qed.

Lemma from_ta_key_no_panic ta b d : length ta = 256%nat -> no_panic (HmacAuth_from_ta_key ta b d).
Proof.
  intros Hl. unfold HmacAuth_from_ta_key. np.
Qed.

(** A fresh connection replaces what was stored at its address. *)
Lemma srv_inv_fresh base w a c : srv_inv base w ->
  sess_inv (co_protocol c) -> ps_state (co_protocol c) <> Established ->
  co_peer_addr c = a -> co_vpn_ip c = None -> co_pending_push_reply c = None ->
  srv_inv base (on_server (fun s => vs_set_connections (<[a := c]> (vs_connections s)) s) w).
Proof.
  intros Hw Hs Hst Hp Hip Hpr.
  assert (holds (vinv cfg V net a (ips_except a (conns w)) (allocated w)) (work_of w c)) as Hk.
  { split; [done|]. constructor; cbn; try done.
    - rewrite Hpr. by intros [?|[]].
    - apply Hw.
    - apply Hw.
    - intros x (b & d & Hb & Hd & Hx)%elem_of_ips_except.
      destruct (sv_conns _ _ Hw b d Hd) as [_ Hv]. by apply (vi_own _ _ _ _ _ _ _ Hv).
    - intros x; congruence. }
  pose proof (srv_inv_store base w a (work_of w c) _ Hw (fun x Hx => Hx) Hk) as Hw'.
  by eapply srv_inv_same, Hw'.
Qed.

Lemma safe_handle_hard_reset base env a data : env_ok env -> bytes_ok data ->
  safe (srv_inv base) (handle_hard_reset env a data).
Proof.
  intros He Hd. unfold handle_hard_reset. apply runs_read. intros w0 Hw0. cbv zeta.
  destruct (x ← _; _) as [cached|]; [apply safe_send_to|].
  apply safe_bind; [destruct (le_attempts _); [apply safe_log_event|apply safe_ret]|intros _].
  set (conn := Connection_new _ _ _ _ _).
  assert (sess_inv (co_protocol conn)) as Hconn by (apply sess_inv_new, He).
  match goal with |- safe _ (protocol ← lift ?m; _) =>
    assert (no_panic m /\ forall p, m = Ok p -> sess_inv p /\ ps_state p = Initial) as [Hnp Hp] end.
  { destruct (vs_tls_auth_key (wd_server w0)) as [ta|] eqn:Hta; [|by split; [|intros p [= <-]]].
    pose proof (from_ta_key_no_panic ta true None (sv_key _ _ Hw0 _ Hta)) as Hn.
    destruct (HmacAuth_from_ta_key ta true None); [..|done]; (split; [done|]); intros p [= <-];
      split; try done. by apply inv_auth. }
  match goal with |- safe _ (protocol ← lift ?m; _) => destruct m as [p| |] end; [|done..].
  destruct (Hp p eq_refl) as [Hsp Hst]. clear Hp Hnp. intros w Hw. rewrite (bind_step _ _ _ w p) by done.
  revert w Hw.
  destruct (safe_process_packet (ev_now env) data (eo_now _ He) Hd p Hsp) as [Hs1 Hn1].
  pose proof (signals_process_packet (ev_now env) data p) as Hk1.
  destruct (ProtocolSession_process_packet (ev_now env) data p) as [p1 r1]. cbn [fst snd] in *.
  assert (ps_state p1 <> Established) as Hst1.
  { rewrite Hk1, Hst. unfold state_after. by destruct r1 as [[]| |]. }
  apply safe_bind; [apply safe_lift; by destruct r1|intros _].
  apply safe_bind; [apply safe_lift|intros tls].
  { destruct (vs_tls_config _) as [tc|]; [|done]. unfold TlsHandler_new. by destruct (rl_new tc). }
  destruct (safe_hard_reset_response (ev_now env) (ev_time env) (eo_now _ He) p1 Hs1) as [Hs2 Hn2].
  pose proof (keeps_state_response (ev_now env) (ev_time env) p1) as Hk2.
  destruct (ProtocolSession_create_hard_reset_response _ _ p1) as [p2 r2]. cbn [fst snd] in *.
  apply safe_bind; [apply safe_lift; by destruct r2|intros response].
  apply safe_bind; [apply safe_send_to|intros _].
  apply safe_modify. intros w Hw. apply srv_inv_fresh; try done. cbn. congruence.
Qed.

Lemma safe_handle_packet base env a data : env_ok env -> bytes_ok data ->
  safe (srv_inv base) (handle_packet env a data).
Proof.
  intros He Hd. unfold handle_packet. destruct data as [|b0 data]; [apply safe_ret|].
  apply safe_bind; [apply safe_lift|intros op].
  { pose proof (OpCode_from_byte_no_panic b0). by destruct (OpCode_from_byte b0). }
  destruct op; try apply safe_ret;
    first [by apply safe_handle_hard_reset | by apply safe_handle_control | by apply safe_handle_data].
Qed.

(** *** Packets from the TUN device *)
Lemma find_route_Some ip (m : gmap SocketAddr Conn) key c : find_route ip m = Some (key, c) ->
  m !! key = Some c /\ co_vpn_ip c = Some ip /\ ps_state (co_protocol c) = Established.
Proof.
  unfold find_route. intros H. destruct (filter _ _) as [|x l] eqn:Hf; [done|]. injection H as ->.
  assert ((key, c) ∈ filter (fun kc => routes_to ip (snd kc) = true) (map_to_list m)) as Hin
    by (rewrite Hf; left).
  apply list_elem_of_filter in Hin as [Hr Hin]. apply elem_of_map_to_list in Hin. cbn in Hr.
  unfold routes_to in Hr. apply andb_true_iff in Hr as [H1 H2]. by apply bool_decide_eq_true in H1, H2.
Qed.

Lemma safe_handle_tun base env p : safe (srv_inv base) (handle_tun_packet env p).
Proof.
  intros w Hw. unfold handle_tun_packet. destruct (Nat.ltb_spec (length p) 20) as [|Hl]; [done|].
  destruct (lookup_lt_is_Some_2 p 0) as [b0 ->]; [lia|].
  destruct (take 4 (drop 16 p)) as [|b16 [|b17 [|b18 [|b19 [|]]]]] eqn:Ht;
    try (apply (f_equal length) in Ht; rewrite length_take, length_drop in Ht; cbn [length] in Ht; lia).
  destruct (negb _); [done|]. cbv zeta. fold (conns w).
  destruct (find_route _ (conns w)) as [[key c]|] eqn:Hr; [|done].
  apply find_route_Some in Hr as (Hlk & _ & _).
  pose proof (encrypt_step p c (srv_inv_session _ _ _ _ Hw Hlk)) as Hen.
  destruct (ProtocolSession_encrypt_data p (co_protocol c)) as [p' r]. destruct Hen as [Hst Hn].
  destruct r as [enc| |]; [| |done].
  - apply safe_send_or_warn, (srv_inv_step base w key c); [done..|].
    eapply conn_step_trans; [exact Hst|apply add_tx_step].
  - split; [|done]. by apply (srv_inv_step base w key c).
Qed.
(** *** Timers *)
Lemma srv_inv_sub base w m : srv_inv base w -> m ⊆ conns w -> srv_inv base (on_server (vs_set_connections m) w).
Proof.
  intros [Hc H4 H6 Hb Hkey Hcs] Hm. constructor; try done. unfold conns. cbn. intros a c Ha.
  destruct (Hcs a c (lookup_weaken _ _ _ _ Ha Hm)) as [Hs Hv]. split; [exact Hs|].
  eapply vinv_others, Hv. intros x (b & d & Hne & Hb' & Hx)%elem_of_ips_except.
  assert (x ∈ ips_except a (conns w)) as Hin.
  { apply elem_of_ips_except. exists b, d. split_and!; [done| |done]. by eapply lookup_weaken. }
  split; [by apply (vi_others _ _ _ _ _ _ _ Hv)|]. intros Hx'. by destruct (vi_own _ _ _ _ _ _ _ Hv x Hx').
Qed.

Lemma ping_one_ok c : sess_inv (co_protocol c) ->
  conn_step c (fst (ping_one c)) /\ no_panic (snd (ping_one c)).
Proof.
  intros Hs. unfold ping_one. destruct (negb _); [split; [apply conn_step_refl|done]|].
  pose proof (encrypt_step OPENVPN_PING_PAYLOAD c Hs) as Hen.
  destruct (ProtocolSession_encrypt_data _ _) as [p r]. destruct Hen as [Hst Hn].
  destruct r; [|by split|done]. split; [|done]. eapply conn_step_trans; [exact Hst|apply add_tx_step].
Qed.

Lemma ping_each_ok base w cs m :
  NoDup cs.*1 -> (forall key c, (key, c) ∈ cs -> m !! key = Some c) ->
  srv_inv base (on_server (vs_set_connections m) w) ->
  srv_inv base (on_server (vs_set_connections (fst (ping_each cs m))) w) /\ no_panic (snd (ping_each cs m)).
Proof.
  revert m. induction cs as [|[key c] cs IH]; intros m Hnd Hin Hw; [by split|]. cbn [ping_each].
  apply NoDup_cons in Hnd as [Hk Hnd].
  assert (m !! key = Some c) as Hm by (apply Hin; left).
  destruct (ping_one_ok c (srv_inv_session _ _ _ _ Hw Hm)) as [Hst Hn].
  destruct (ping_one c) as [c' r]. cbn [fst snd] in *.
  assert (srv_inv base (on_server (vs_set_connections (<[key := c']> m)) w)) as Hw'
    by (eapply srv_inv_same, (srv_inv_step base _ key c c' Hw Hm Hst); done).
  specialize (IH (<[key := c']> m) Hnd). destruct IH as [IH1 IH2]; [|done|].
  { intros k d Hkd. rewrite lookup_insert_ne; [apply Hin; by right|]. intros ->.
    apply Hk, list_elem_of_fmap. by exists (k, d). }
  rewrite (bind_step _ _ _ (<[key := c']> m) tt) by done. unfold mbind, M_bind, lift.
  destruct r as [p| |]; [|done..]. by destruct (ping_each cs (<[key := c']> m)) as [m' [ps| |]].
Qed.

Lemma safe_pings base env : safe (srv_inv base) (send_keepalive_pings env).
Proof.
  intros w Hw. unfold send_keepalive_pings. fold (conns w).
  destruct (ping_each_ok base w (map_to_list (conns w)) (conns w)) as [Hw' Hn].
  - apply NoDup_fst_map_to_list.
  - intros key c. apply elem_of_map_to_list.
  - by apply (srv_inv_same base w).
  - destruct (ping_each (map_to_list (conns w)) (conns w)) as [m r]. cbn [fst snd] in *.
    destruct r as [ps| |]; [|by split|done]. clear Hn. revert Hw'. generalize (on_server (vs_set_connections m) w).
    induction ps as [|[b p] ps IH]; [apply safe_ret|]. cbn [send_pings].
    apply safe_bind; [apply safe_send_or_warn|intros _; exact IH].
Qed.

Lemma remove_stale_subseteq (stale : list Stale) (m : gmap SocketAddr Conn) : remove_stale stale m ⊆ m.
Proof.
  revert m. induction stale as [|x stale IH]; intros m; [done|].
  etransitivity; [apply IH|apply delete_subseteq].
Qed.

(** Each step of the clean-up, whatever has happened since the one before. *)
Lemma safe_cleanup base env timeout task : safe (srv_inv base) (cleanup_stale_connections env timeout task).
Proof.
  destruct task as [|[|x to_log] stale]; cbn [cleanup_stale_connections].
  - apply runs_read. intros w0 _. destruct (collect_stale _ _ _); apply safe_ret.
  - apply safe_bind; [|intros _; apply safe_ret]. apply safe_modify. intros w Hw.
    eapply srv_inv_same, srv_inv_sub; [done..|]. apply remove_stale_subseteq.
  - apply safe_bind; [apply safe_log_event|intros _; apply safe_ret].
Qed.

(** *** The end of an OAuth authentication *)
Lemma safe_auth_completed base env auth : env_ok env -> V (ac_email auth) ->
  safe (srv_inv base) (handle_auth_completed env auth).
Proof.
  intros He HV w Hw. unfold handle_auth_completed. cbv zeta.
  destruct (vs_pending_oauths (wd_server w) !! ac_state auth) as [pending|]; [|done].
  set (w1 := on_server _ w). assert (srv_inv base w1) as Hw1 by by apply (srv_inv_same base w).
  change (vs_connections (wd_server w)) with (conns w1).
  destruct (conns w1 !! po_peer_addr pending) as [c|] eqn:Ha; [|done].
  change (vs_address_pool (wd_server w)) with (vs_address_pool (wd_server w1)). fold (work_of w1 c).
  pose proof (srv_inv_work base w1 _ c Hw1 Ha) as [Hs Hv].
  destruct (runs_complete_section cfg V net (po_peer_addr pending) (ips_except (po_peer_addr pending) (conns w1))
    (allocated w1) env (ac_email auth) (vs_address_pool (wd_server w1)) He HV (work_of w1 c)) as [[Hs' [Hv' Hp]] Hn].
  { by split. }
  destruct (complete_section env (ac_email auth) (work_of w1 c)) as [k r]. cbn [fst snd] in *.
  pose proof (srv_inv_store base w1 _ k _ Hw1 (fun x Hx => Hx) (conj Hs' Hv')) as Hw2.
  assert (srv_inv base (on_server (fun s => vs_set_connections (<[po_peer_addr pending := wk_conn k]>
    (vs_connections s)) s) w1)) as Hw3 by (eapply srv_inv_same, Hw2; try done; cbn in *; congruence).
  destruct r; [|by split|done]. revert Hw3. generalize (on_server (fun s => vs_set_connections
    (<[po_peer_addr pending := wk_conn k]> (vs_connections s)) s) w1).
  apply runs_emit_all. intros p. apply safe_send_to.
Qed.
End Invariant.
End Proofs.
