(* ===== verification/ServerRun.v ===== *)
(** * Runs of the server

    Sequences of events from the start of the server: the only panic, who is
    connected, which addresses are in use, what reaches the TUN device.  The
    invariant is that of ServerProofs.v. *)
From S2P Require Import Prelude Errors Text Network CoreSession Opcode Packet Replay Float Reliable Cipher HmacAuth Kdf DataChannel Session SessionProofs SessionSend Runs Control Addr ServerConfig ConnLog TlsDriver Cert Server ServerProofs.
Local Open Scope Z_scope.

Lemma parse_static_key_length pem key : parse_static_key pem = Ok key -> length key = 256%nat.
Proof.
  unfold parse_static_key. intros (k & _ & H)%bind_Ok.
  destruct (Nat.eqb_spec (length k) 256) as [Hl|]; [|done].
  cbn in H. congruence.
Qed.

Section Run.
Context {AEAD : Aead} {ALaws : AeadLaws AEAD} {HMAC : Hmac} {HLaws : HmacLaws HMAC} {SHA : Sha256}
  {UC : Unicode} {Ch : Chrono} {ChF : ChronoFields} {Uu : Uuids}
  {N4 N6 : Type} {Net4 : IpNet 32 N4} {Net6 : IpNet 128 N6} {Txt4 : IpNetText 32 N4}
  {TlsConfig TlsConn : Type} {RL : Rustls TlsConfig TlsConn} {RLaws : RustlsLaws RL}
  {L : Type} {LG : ConnectionLogger L} {LSafe : LoggerSafe LG} {JS : SerdeJson}.

Abbreviation System := (Sys (Ch := Ch) (Uu := Uu) (N4 := N4) (N6 := N6) (TlsConfig := TlsConfig)
  (TlsConn := TlsConn) (L := L)).
Abbreviation Ev := (Event (Ch := Ch) (Uu := Uu)).
Abbreviation Server := (VpnServer (Ch := Ch) (Uu := Uu) (N4 := N4) (N6 := N6) (TlsConfig := TlsConfig)
  (TlsConn := TlsConn) (L := L)).
Implicit Types (s : System) (srv : Server) (e : Ev) (es : list Ev).

Definition event_ok e : Prop :=
  match e with
  | EvUdp env _ data => env_ok env /\ bytes_ok data
  | EvTun env _ | EvPing env | EvAuth env | EvCleanup env => env_ok env
  | EvCallback _ _ _ _ | EvComplete _ _ _ _ => True
  end.

(** ** Who has logged in

    The identity provider has exchanged a code for a token and named the
    owner of the token, whose domain is allowed. *)
Definition vouched (st : OAuthState) (provider : Provider) (code email : str) : Prop :=
  exists token,
    pv_token provider (token_form st code) = TokenFields (Some token) /\
    pv_userinfo provider token = UserFields (Some email) /\
    domain_allowed (os_config st) email = true.

Definition logged_in (cfg : ServerConfig) es (email : str) : Prop :=
  exists oauth provider open code state,
    cfg_oauth cfg = Some oauth /\ oa_enabled oauth = true /\
    (EvCallback provider open code state ∈ es \/ EvComplete provider open code state ∈ es) /\
    vouched (mkOAuthState oauth (build_oauth_base_url oauth (sv_public_host (cfg_server cfg)))) provider code email.

Lemma logged_in_mono cfg es es' email : es ⊆ es' -> logged_in cfg es email -> logged_in cfg es' email.
Proof.
  intros Hsub (o & pv & op & code & st & Ho & Hen & Hin & Hv). exists o, pv, op, code, st.
  split_and!; [done..| |done]. destruct Hin; [left|right]; by apply Hsub.
Qed.

Lemma oauth_flow_vouched st provider open pending code state auth :
  oauth_flow st provider open pending code state = Ok (inl auth) ->
  ac_state auth = state /\ is_Some (pending !! state) /\ vouched st provider code (ac_email auth).
Proof.
  unfold oauth_flow. destruct (pending !! state) as [po|]; [|done]. cbv zeta.
  destruct (pv_token _ _) as [|body| |[token|]] eqn:Ht; try done.
  { by destruct (redact_oauth_error body). }
  destruct (pv_userinfo provider token) as [| | |[email|]] eqn:Hu; try done.
  destruct (domain_allowed (os_config st) email) eqn:Hd; [|done].
  destruct open; [|done]. intros [= <-]. split_and!; [done..|]. by exists token.
Qed.

Lemma answer_Some success failure r resp auth :
  answer success failure r = (resp, Some auth) -> r = inl auth.
Proof. destruct r; cbn; congruence. Qed.

(** ** The error of the identity provider that stops the process

    [redact_oauth_error] cuts the text it logs at byte 200; the cut is inside
    a character when the byte there continues one. *)
Definition oauth_event e : Prop :=
  match e with EvCallback _ _ _ _ | EvComplete _ _ _ _ => True | _ => False end.
#[local] Instance oauth_event_dec e : Decision (oauth_event e).
Proof. destruct e; apply _. Defined.







(** ** The invariant *)
Section Invariant.
Context (cfg : ServerConfig) (V : str -> Prop) (net : N4) (base : gset Z).

Definition sys_inv s : Prop :=
  srv_inv cfg V net base (sy_world s) /\ Forall (fun auth => V (ac_email auth)) (sy_channel s).

Lemma safe_on_world m : safe (srv_inv cfg V net base) m -> safe sys_inv (on_world m).
Proof.
  intros Hm s [Hw Hc]. specialize (Hm _ Hw). unfold on_world, zoom.
  destruct (m (sy_world s)) as [w r]. destruct Hm as [Hw' Hn]. split; [by split|]. by destruct r.
Qed.

Definition answers_vouched (page : OAuthState -> gmap str PendingOAuth ->
    res ServerError (Response * option AuthCompleted)) : Prop :=
  forall oauth pending resp auth, cfg_oauth cfg = Some oauth -> oa_enabled oauth = true ->
    page (mkOAuthState oauth (build_oauth_base_url oauth (sv_public_host (cfg_server cfg)))) pending
      = Ok (resp, Some auth) -> V (ac_email auth).

Lemma kept_oauth_request page s : answers_vouched page -> sys_inv s -> sys_inv (fst (oauth_request page s)).
Proof.
  intros Hp [Hw Hc]. unfold oauth_request. rewrite (sv_cfg _ _ _ _ _ Hw).
  destruct (cfg_oauth cfg) as [oauth|] eqn:Ho; [|by split].
  destruct (oa_enabled oauth) eqn:He; [|by split].
  destruct (page _ _) as [[resp [auth|]]| |] eqn:Hr; try by split.
  split; [done|]. cbn. apply Forall_app. split; [done|].
  constructor; [|done]. by eapply Hp.
Qed.

(** Every event but an OAuth request. *)
Lemma safe_step e : event_ok e -> ~ oauth_event e ->
  (forall email, logged_in cfg [e] email -> V email) -> safe sys_inv (step e).
Proof.
  intros He Hno HV. destruct e as [env a data|env p|env|env|env|pv o code st|pv o code st]; cbn [step]; try done.
  - destruct He. by apply safe_on_world, safe_handle_packet.
  - by apply safe_on_world, safe_handle_tun.
  - by apply safe_on_world, safe_pings.
  - intros s Hs. destruct (sy_channel s) as [|auth rest] eqn:Hch; [by split|].
    destruct Hs as [Hw Hc]. rewrite Hch in Hc. apply Forall_cons in Hc as [Ha Hr].
    apply safe_on_world; [by apply safe_auth_completed|by split].
  - intros s [Hw Hc]. destruct (_ <? _); [|by split].
    match goal with |- context [cleanup_stale_connections ?en ?t ?k _] =>
      destruct (safe_cleanup cfg V net base en t k _ Hw) as [Hw' Hn];
      destruct (cleanup_stale_connections en t k _) as [w [r| |]]; [by split..|done] end.
Qed.

Lemma kept_step e s : event_ok e -> (forall email, logged_in cfg [e] email -> V email) ->
  sys_inv s -> sys_inv (fst (step e s)).
Proof.
  intros He HV Hs. destruct (decide (oauth_event e)) as [Ho|Ho]; [|by apply safe_step].
  destruct e as [| | | | |pv o code st|pv o code st]; try done; cbn [step];
    apply kept_oauth_request; try done; intros oauth pending resp auth Hoa Hen H;
    apply bind_Ok in H as (r & Hr & [= Ha]); apply answer_Some in Ha as ->;
    apply oauth_flow_vouched in Hr as (_ & _ & Hv); apply HV;
    exists oauth, pv, o, code, st; split_and!; try done; [left|right]; left.
Qed.


Lemma run_events_inv es s : Forall event_ok es ->
  (forall email, logged_in cfg es email -> V email) -> sys_inv s -> sys_inv (fst (run_events es s)).
Proof.
  intros He. revert s. induction He as [|e es He Hes IH]; intros s HV Hs; [done|]. cbn [run_events].
  assert (sys_inv (fst (step e s))) as Hs'.
  { apply kept_step; [done| |done]. intros email Hl. apply HV. eapply logged_in_mono, Hl.
    intros x. rewrite list_elem_of_singleton. intros ->. left. }
  destruct (step e s) as [s' [u| |]]; [..|exact Hs'];
    (apply IH; [|done]; intros email Hl; apply HV; eapply logged_in_mono, Hl; by right).
Qed.

End Invariant.

(** ** The start *)
Context {PKI : RustlsPki} (config_of_rustls : ServerTlsConfig -> TlsConfig).
Context (logger_of : LoggerChoice -> res str L) (td_seconds : Z -> option TimeDelta).
Context (fmt : ProtocolError -> str) (fmt_core : CoreError -> str) (files : Files) (utc : DateTime)
  (secret : bytes).

Abbreviation new := (VpnServer_new (N4 := N4) (N6 := N6) (TlsConn := TlsConn)
  config_of_rustls logger_of td_seconds fmt fmt_core files utc secret).

(** The server as [run_server] starts it. *)
Definition start (srv : Server) : System := mkSys (mkWorld srv []) [] Waiting.

Lemma new_server config srv : new config = Ok srv ->
  exists net, net_parse (nw_subnet (cfg_network config)) = inl net /\
    AddressPool_new (Some net) None = Ok (vs_address_pool srv) /\
    vs_config srv = config /\ vs_connections srv = ∅ /\
    (forall k, vs_tls_auth_key srv = Some k -> length k = 256%nat).
Proof.
  unfold VpnServer_new. intros H. cbv zeta in H.
  apply bind_Ok in H as (lt & _ & H). apply bind_Ok in H as (net & Hnet & H).
  destruct (net_parse _) as [net'|] eqn:Hp; [|done]. injection Hnet as ->.
  apply bind_Ok in H as (pool & Hpool & H). apply bind_Ok in H as (tc & _ & H).
  apply bind_Ok in H as (ta & Hta & H). apply bind_Ok in H as (lg & _ & H).
  injection H as <-. exists net. cbn. split_and!; try done.
  - unfold message in Hpool. destruct (AddressPool_new _ _) as [p| |] eqn:Hq; [|done..]. injection Hpool as ->. exact Hq.
  - intros k ->. unfold VpnServer_load_tls_auth_key in Hta.
    destruct (negb _); [done|]. cbv zeta in Hta. destruct (negb _); [done|].
    destruct (fl_read _ _) as [pem|]; [|done].
    destruct (parse_static_key pem) as [key| |] eqn:Hk; try done.
    injection Hta as ->. by eapply parse_static_key_length.
Qed.

Lemma start_inv config V srv : new config = Ok srv ->
  exists net, sys_inv config V net ∅ (start srv).
Proof.
  intros (net & _ & [_ Hpool]%AddressPool_new_wf & Hc & Hm & Hk)%new_server.
  exists net. split; [|done]. constructor; cbn; rewrite ?Hpool; try done.
  unfold conns. cbn. rewrite Hm. intros a c H. by rewrite lookup_empty in H.
Qed.

(** After any events the invariant holds, for the logins among them. *)
Lemma reached_inv config srv es : new config = Ok srv -> Forall event_ok es ->
  exists net, sys_inv config (logged_in config es) net ∅ (fst (run_events es (start srv))).
Proof.
  intros Hn He. destruct (start_inv config (logged_in config es) srv Hn) as [net Hs].
  exists net. by apply run_events_inv.
Qed.


(** C3 With OAuth enabled, a connection is established only for a user who has
    logged in: it carries the e-mail address that the identity provider named
    in one of the requests, of an allowed domain. *)
Theorem established_is_logged_in (config : ServerConfig) (srv : Server) (es : list Ev)
    (Hn : new config = Ok srv) (He : Forall event_ok es) (Ho : oauth_enabled config = true)
    (a : SocketAddr) (c : Connection)
    (Ha : vs_connections (wd_server (sy_world (fst (run_events es (start srv))))) !! a = Some c)
    (Hst : ps_state (co_protocol c) = Established) :
  co_auth_method c = OAuth2 /\
  exists email, co_username c = Some email /\ logged_in config es email.
Proof.
  destruct (reached_inv config srv es Hn He) as (net & Hw & _).
  destruct (sv_conns _ _ _ _ _ Hw a c Ha) as [_ Hv]. by apply (vi_auth _ _ _ _ _ _ _ Hv).
Qed.

(** C7 The VPN addresses of the connections are leased from the pool, no two
    connections have the same one, and an established connection has one. *)
Theorem vpn_addresses_are_exclusive (config : ServerConfig) (srv : Server) (es : list Ev)
    (Hn : new config = Ok srv) (He : Forall event_ok es) :
  let s := wd_server (sy_world (fst (run_events es (start srv)))) in
  (forall a c ip, vs_connections s !! a = Some c -> co_vpn_ip c = Some ip ->
     co_peer_addr c = a /\ ip ∈ ap_allocated_v4 (vs_address_pool s) /\
     forall b d, vs_connections s !! b = Some d -> co_vpn_ip d = Some ip -> b = a) /\
  (forall a c, vs_connections s !! a = Some c -> ps_state (co_protocol c) = Established ->
     is_Some (co_vpn_ip c)).
Proof.
  intros s. destruct (reached_inv config srv es Hn He) as (net & Hw & _). split.
  - intros a c ip Ha Hip. destruct (sv_conns _ _ _ _ _ Hw a c Ha) as [_ Hv].
    destruct (vi_own _ _ _ _ _ _ _ Hv ip Hip) as [Hin Hout].
    split_and!; [apply Hv|exact Hin|]. intros b d Hb Hd.
    destruct (decide (b = a)) as [|Hne]; [done|]. destruct Hout. apply elem_of_ips_except. by exists b, d.
  - intros a c Ha Hst. destruct (sv_conns _ _ _ _ _ Hw a c Ha) as [_ Hv].
    apply (vi_addressed _ _ _ _ _ _ _ Hv). by left.
Qed.

Lemma run_events_app es1 es2 s :
  run_events (es1 ++ es2) s =
  if snd (run_events es1 s) then run_events es2 (fst (run_events es1 s)) else run_events es1 s.
Proof.
  revert s. induction es1 as [|e es1 IH]; intros s; [done|]. cbn [app run_events].
  destruct (step e s) as [s' [u| |]]; [apply IH..|done].
Qed.

Lemma sys_inv_rebase cfg V net s :
  sys_inv cfg V net ∅ s -> sys_inv cfg V net (allocated (sy_world s)) s.
Proof.
  intros [[Hc H4 H6 Hb Hkey Hcs] Hch]. split; [|done]. constructor; try done.
  intros a c Ha. destruct (Hcs a c Ha) as [Hs Hv]. split; [done|]. by eapply vinv_rebase.
Qed.

(** C39 An address is never given back: what the pool has leased after some
    events it still has after more of them, clean-up of idle connections
    included. *)
Theorem leases_are_never_released (config : ServerConfig) (srv : Server) (es1 es2 : list Ev)
    (Hn : new config = Ok srv) (He : Forall event_ok (es1 ++ es2)) :
  ap_allocated_v4 (vs_address_pool (wd_server (sy_world (fst (run_events es1 (start srv)))))) ⊆
  ap_allocated_v4 (vs_address_pool (wd_server (sy_world (fst (run_events (es1 ++ es2) (start srv)))))).
Proof.
  pose proof He as [He1 He2]%Forall_app.
  destruct (start_inv config (logged_in config (es1 ++ es2)) srv Hn) as [net Hs].
  assert (sys_inv config (logged_in config (es1 ++ es2)) net ∅ (fst (run_events es1 (start srv)))) as H1.
  { apply run_events_inv; [done| |done]. intros email. apply logged_in_mono. intros x Hx. apply elem_of_app. by left. }
  rewrite run_events_app. destruct (snd _); [|done]. apply sys_inv_rebase in H1.
  eapply run_events_inv in H1 as [H2 _]; [|exact He2|].
  - exact (sv_base _ _ _ _ _ H2).
  - intros email. apply logged_in_mono. intros x Hx. apply elem_of_app. by right.
Qed.
End Run.
