(* ===== verification/ServerOut.v ===== *)
(** * What the server sends

    Where a packet written to the TUN device comes from, where a packet from
    it goes, and an IP packet from a client to the device and back.  The
    definitions are in Server.v. *)
From S2P Require Import Prelude Errors Text Network CoreSession Opcode Packet Replay Float Reliable Cipher HmacAuth Kdf DataChannel Session SessionProofs SessionSend Runs Control Addr ServerConfig ConnLog TlsDriver Cert Server ServerProofs ServerRun.
Local Open Scope Z_scope.

Section Out.
Context {AEAD : Aead} {ALaws : AeadLaws AEAD} {HMAC : Hmac} {HLaws : HmacLaws HMAC} {SHA : Sha256}
  {UC : Unicode} {Ch : Chrono} {ChF : ChronoFields} {Uu : Uuids}
  {N4 N6 : Type} {Net4 : IpNet 32 N4} {Net6 : IpNet 128 N6} {Txt4 : IpNetText 32 N4}
  {TlsConfig TlsConn : Type} {RL : Rustls TlsConfig TlsConn} {RLaws : RustlsLaws RL}
  {L : Type} {LG : ConnectionLogger L} {LSafe : LoggerSafe LG} {JS : SerdeJson}.

Abbreviation Wd := (World (Ch := Ch) (Uu := Uu) (N4 := N4) (N6 := N6) (TlsConfig := TlsConfig)
  (TlsConn := TlsConn) (L := L)).
Abbreviation System := (Sys (Ch := Ch) (Uu := Uu) (N4 := N4) (N6 := N6) (TlsConfig := TlsConfig)
  (TlsConn := TlsConn) (L := L)).
Abbreviation Ev := (Event (Ch := Ch) (Uu := Uu)).
Abbreviation Server := (VpnServer (Ch := Ch) (Uu := Uu) (N4 := N4) (N6 := N6) (TlsConfig := TlsConfig)
  (TlsConn := TlsConn) (L := L)).
Abbreviation Conn := (Connection (Uu := Uu) (TlsConn := TlsConn)).
Implicit Types (w : Wd) (Q : Output -> Prop) (env : Env (Ch := Ch) (Uu := Uu)).

(** ** Methods that only send what satisfies [Q] *)
Definition adds Q w w' : Prop := exists new, wd_out w' = wd_out w ++ new /\ Forall Q new.
Definition emits {A} Q (m : M Wd ServerError A) : Prop := forall w, adds Q w (fst (m w)).

Lemma adds_refl Q w w' : wd_out w' = wd_out w -> adds Q w w'.
Proof. intros H. exists []. by rewrite app_nil_r. Qed.
Lemma adds_trans Q w1 w2 w3 : adds Q w1 w2 -> adds Q w2 w3 -> adds Q w1 w3.
Proof.
  intros (n1 & E1 & H1) (n2 & E2 & H2). exists (n1 ++ n2). rewrite E2, E1, app_assoc.
  split; [done|by apply Forall_app].
Qed.
Lemma adds_from Q w1 w1' w2 : wd_out w1' = wd_out w1 -> adds Q w1' w2 -> adds Q w1 w2.
Proof. intros E (n & E' & H). exists n. by rewrite E', E. Qed.

Lemma emits_ret {A} Q (a : A) : emits Q (mret a).
Proof. intros w. by apply adds_refl. Qed.
Lemma emits_lift {A} Q (r : res ServerError A) : emits Q (lift r).
Proof. intros w. by apply adds_refl. Qed.
Lemma emits_modify Q f : emits Q (modify (on_server f)).
Proof. intros w. by apply adds_refl. Qed.
Lemma emits_bind {A B} Q (m : M Wd ServerError A) (k : A -> M Wd ServerError B) :
  emits Q m -> (forall a, emits Q (k a)) -> emits Q (m ≫= k).
Proof.
  intros Hm Hk w. unfold mbind, M_bind. specialize (Hm w).
  destruct (m w) as [w' [a| |]]; [|exact Hm..]. eapply adds_trans; [exact Hm|apply Hk].
Qed.
Lemma emits_read {A} Q (k : Wd -> M Wd ServerError A) : (forall w, emits Q (k w)) -> emits Q (get ≫= k).
Proof. intros H w. apply H. Qed.

Lemma emits_send_to Q env a p : Q (SendTo a p) -> emits Q (send_to env a p).
Proof.
  intros HQ w. unfold send_to. destruct (ev_send_ok env a p); [|by apply adds_refl].
  exists [SendTo a p]. split; [done|by constructor].
Qed.
Lemma emits_send_or_warn Q env a p : Q (SendTo a p) -> emits Q (send_or_warn env a p).
Proof.
  intros HQ w. unfold send_or_warn. destruct (ev_send_ok env a p); [|by apply adds_refl].
  exists [SendTo a p]. split; [done|by constructor].
Qed.
Lemma emits_tun_write Q env p : Q (TunWrite p) -> emits Q (tun_write env p).
Proof.
  intros HQ w. unfold tun_write. destruct (ev_tun_ok env p); [|by apply adds_refl].
  exists [TunWrite p]. split; [done|by constructor].
Qed.
Lemma emits_send_all Q (send : bytes -> M Wd ServerError unit) ps :
  (forall p, emits Q (send p)) -> emits Q (send_all send ps).
Proof.
  intros H. induction ps as [|p ps IH]; [apply emits_ret|]. by apply emits_bind.
Qed.
Lemma emits_log_event Q env e : emits Q (VpnServer_log_event env e).
Proof.
  intros w. apply adds_refl. unfold VpnServer_log_event.
  destruct (match vs_anonymizer (wd_server w) with
            | Some a => let '(a, e) := Anonymizer_anonymize (ev_utc env) e a in (Some a, e)
            | None => (None, e)
            end) as [a e']. by destruct (cl_log e' _) as [l r].
Qed.
Lemma emits_log_events Q env es : emits Q (log_events env es).
Proof. induction es as [|e es IH]; [apply emits_ret|]. apply emits_bind; [apply emits_log_event|by intros _]. Qed.

(** ** Only data packets reach the TUN device *)
Definition is_send (o : Output) : Prop := match o with SendTo _ _ => True | TunWrite _ => False end.

Lemma hard_reset_sends env a data : emits is_send (handle_hard_reset env a data).
Proof.
  unfold handle_hard_reset. apply emits_read. intros w0. cbv zeta.
  destruct (x ← _; _) as [p|]; [by apply emits_send_to|].
  apply emits_bind; [destruct (le_attempts _); [apply emits_log_event|apply emits_ret]|intros _].
  apply emits_bind; [apply emits_lift|intros p].
  destruct (ProtocolSession_process_packet _ _ _) as [p1 r1].
  apply emits_bind; [apply emits_lift|intros _]. apply emits_bind; [apply emits_lift|intros tls].
  destruct (ProtocolSession_create_hard_reset_response _ _ _) as [p2 r2].
  apply emits_bind; [apply emits_lift|intros resp].
  apply emits_bind; [by apply emits_send_to|intros _]. apply emits_modify.
Qed.

Lemma control_sends env a data : emits is_send (handle_control_packet env a data).
Proof.
  intros w. unfold handle_control_packet. destruct (_ !! a) as [c|]; [|by apply adds_refl].
  destruct (control_section _ _ _ _) as [k [u| |]]; [|by apply adds_refl..].
  eapply adds_from; [|apply emits_bind; [apply emits_log_events|intros _; apply emits_send_all; intros p;
    by apply emits_send_to]]. done.
Qed.

Lemma tun_sends env p : emits is_send (handle_tun_packet env p).
Proof.
  intros w. unfold handle_tun_packet. destruct (_ <? _)%nat; [by apply adds_refl|].
  destruct (p !! 0%nat) as [b0|]; [|by apply adds_refl].
  destruct (take 4 (drop 16 p)) as [|b16 [|b17 [|b18 [|b19 [|]]]]]; try (by apply adds_refl).
  destruct (negb _); [by apply adds_refl|]. cbv zeta.
  destruct (find_route _ _) as [[key c]|]; [|by apply adds_refl].
  destruct (ProtocolSession_encrypt_data _ _) as [p' [enc| |]]; [|by apply adds_refl..].
  eapply adds_from; [|by apply emits_send_or_warn]. done.
Qed.

Lemma pings_send env : emits is_send (send_keepalive_pings env).
Proof.
  intros w. unfold send_keepalive_pings. destruct (ping_each _ _) as [m [ps| |]]; [|by apply adds_refl..].
  apply (adds_from _ w (on_server (vs_set_connections m) w)); [done|]. revert ps.
  assert (forall ps, emits is_send (send_pings env ps)) as H; [|intros ps; apply H].
  intros ps. induction ps as [|[a p] ps IH]; [apply emits_ret|]. cbn [send_pings].
  apply emits_bind; [by apply emits_send_or_warn|by intros _].
Qed.

Lemma cleanup_sends env timeout task : emits is_send (cleanup_stale_connections env timeout task).
Proof.
  destruct task as [|[|x to_log] stale]; cbn [cleanup_stale_connections].
  - apply emits_read. intros w0. destruct (collect_stale _ _ _); apply emits_ret.
  - apply emits_bind; [apply emits_modify|intros _; apply emits_ret].
  - apply emits_bind; [apply emits_log_event|intros _; apply emits_ret].
Qed.

Lemma auth_sends env auth : emits is_send (handle_auth_completed env auth).
Proof.
  intros w. unfold handle_auth_completed. cbv zeta. destruct (_ !! _) as [po|]; [|by apply adds_refl].
  destruct (vs_connections (wd_server w) !! po_peer_addr po) as [c|]; [|by apply adds_refl].
  destruct (complete_section _ _ _) as [k [u| |]]; [|by apply adds_refl..].
  eapply adds_from; [|apply emits_send_all; intros p; by apply emits_send_to]. done.
Qed.

(** What a data packet may write: what the session of an established
    connection decrypted, an IP header or more, not the ping. *)
Record tunnelled w env (a : SocketAddr) (data p : bytes) (c : Conn) : Prop := {
  tn_conn : vs_connections (wd_server w) !! a = Some c;
  tn_established : ps_state (co_protocol c) = Established;
  tn_decrypted : snd (ProtocolSession_process_packet (ev_now env) data (co_protocol c)) = Ok (PData p);
  tn_length : (20 <= length p)%nat;
  tn_ping : p <> OPENVPN_PING_PAYLOAD;
}.

Lemma ping_payload_test (p : bytes) :
  (length p =? length OPENVPN_PING_PAYLOAD)%nat && bool_decide (p = OPENVPN_PING_PAYLOAD)
    = bool_decide (p = OPENVPN_PING_PAYLOAD).
Proof.
  case_bool_decide as H; [by rewrite H|]. apply andb_false_r.
Qed.

Lemma data_section_tun env data (c : Conn) c' p ps :
  data_section env data c = (c', Ok (Some p, ps)) ->
  ps_state (co_protocol c) = Established /\
  snd (ProtocolSession_process_packet (ev_now env) data (co_protocol c)) = Ok (PData p) /\
  (20 <= length p)%nat /\ p <> OPENVPN_PING_PAYLOAD.
Proof.
  unfold data_section. cbv zeta. change (co_protocol (Connection_touch (ev_now env) c)) with (co_protocol c).
  case_bool_decide as Hst; cbn [negb]; [|done].
  change (co_protocol (Connection_add_bytes_rx _ _)) with (co_protocol c).
  destruct (ProtocolSession_process_packet _ _ _) as [s [[ | | | |ip| ]| |]]; try done.
  rewrite ping_payload_test. case_bool_decide as Hp.
  { by destruct (ProtocolSession_encrypt_data _ _) as [s' []]. }
  destruct (Nat.leb_spec 20 (length ip)); [|done]. intros [= _ <- _]. split_and!; done.
Qed.

Definition writes_tunnelled w env a data (o : Output) : Prop :=
  match o with SendTo _ _ => True | TunWrite p => exists c, tunnelled w env a data p c end.

Lemma data_writes env a data w : adds (writes_tunnelled w env a data) w (fst (handle_data_packet env a data w)).
Proof.
  unfold handle_data_packet. destruct (_ !! a) as [c|] eqn:Ha; [|by apply adds_refl].
  destruct (data_section env data c) as [c' [[tun ps]| |]] eqn:Hd; [|by apply adds_refl..].
  eapply (adds_from _ w (on_server _ w)); [done|].
  eapply (emits_bind (writes_tunnelled w env a data)).
  { apply emits_send_all. intros p. by apply emits_send_or_warn. }
  intros _. destruct tun as [p|]; [|apply emits_ret]. apply emits_tun_write.
  exists c. apply data_section_tun in Hd as (? & ? & ? & ?). by constructor.
Qed.

Lemma adds_mono (Q Q' : Output -> Prop) w w' : (forall o, Q o -> Q' o) -> adds Q w w' -> adds Q' w w'.
Proof. intros H (n & E & Hn). exists n. split; [done|]. by eapply Forall_impl. Qed.
Lemma adds_sends w w' env a data : adds is_send w w' -> adds (writes_tunnelled w env a data) w w'.
Proof. apply adds_mono. by intros []. Qed.

Lemma packet_writes env a data w : adds (writes_tunnelled w env a data) w (fst (handle_packet env a data w)).
Proof.
  unfold handle_packet. destruct data as [|b0 rest]; [by apply adds_refl|]. unfold mbind, M_bind, lift.
  destruct (OpCode_from_byte b0) as [op| |]; cbn [map_err]; try (by apply adds_refl).
  destruct op; try (by apply adds_refl);
    first [apply adds_sends, hard_reset_sends|apply adds_sends, control_sends|apply data_writes].
Qed.

Definition step_writes (s : System) (e : Ev) (o : Output) : Prop :=
  match e with
  | EvUdp env a data => writes_tunnelled (sy_world s) env a data o
  | _ => is_send o
  end.

Lemma adds_on_world Q (m : M Wd ServerError unit) s :
  adds Q (sy_world s) (fst (m (sy_world s))) -> adds Q (sy_world s) (sy_world (fst (on_world m s))).
Proof. unfold on_world, zoom. by destruct (m (sy_world s)) as [w r]. Qed.

Lemma oauth_request_world page (s : System) : sy_world (fst (oauth_request page s)) = sy_world s.
Proof. unfold oauth_request. by repeat case_match. Qed.

Lemma step_adds e (s : System) : adds (step_writes s e) (sy_world s) (sy_world (fst (step e s))).
Proof.
  destruct e as [env a data|env p|env|env|env|pv o code st|pv o code st]; cbn [step step_writes].
  - apply adds_on_world, packet_writes.
  - apply adds_on_world, tun_sends.
  - apply adds_on_world, pings_send.
  - destruct (sy_channel s) as [|auth rest]; [by apply adds_refl|].
    apply (adds_on_world _ (handle_auth_completed env auth) (mkSys (sy_world s) rest (sy_cleanup s))), auth_sends.
  - destruct (_ <? _); [|by apply adds_refl].
    match goal with |- context [cleanup_stale_connections ?en ?t ?k ?w] =>
      pose proof (cleanup_sends en t k w) as H; by destruct (cleanup_stale_connections en t k w) as [w' [r| |]] end.
  - apply adds_refl. by rewrite oauth_request_world.
  - apply adds_refl. by rewrite oauth_request_world.
Qed.

Section FromStart.
Context {PKI : RustlsPki} (config_of_rustls : ServerTlsConfig -> TlsConfig).
Context (logger_of : LoggerChoice -> res str L) (td_seconds : Z -> option TimeDelta).
Context (fmt : ProtocolError -> str) (fmt_core : CoreError -> str) (files : Files) (utc : DateTime)
  (secret : bytes).
Abbreviation new := (VpnServer_new (N4 := N4) (N6 := N6) (TlsConn := TlsConn)
  config_of_rustls logger_of td_seconds fmt fmt_core files utc secret).

(** C2 A packet reaches the TUN device only through an established connection:
    it is what the session of that connection decrypted from a datagram of
    its peer, at least an IPv4 header long and not the keep-alive ping; and
    with OAuth enabled the connection carries the e-mail address of a user
    who had logged in before. *)
Theorem tun_writes_are_authorized (config : ServerConfig) (srv : Server) (es : list Ev)
    (Hn : new config = Ok srv) (He : Forall event_ok es) (p : bytes)
    (Hp : TunWrite p ∈ wd_out (sy_world (fst (run_events es (start srv))))) :
  exists es1 env a data es2 c,
    es = es1 ++ EvUdp env a data :: es2 /\
    tunnelled (sy_world (fst (run_events es1 (start srv)))) env a data p c /\
    (oauth_enabled config = true ->
       exists email, co_username c = Some email /\ logged_in config es1 email).
Proof.
  induction es as [|e es IH] using rev_ind; [by apply elem_of_nil in Hp|].
  pose proof He as [He1 He2]%Forall_app.
  destruct (reached_inv config_of_rustls logger_of td_seconds fmt fmt_core files utc secret config srv es Hn He1)
    as (net & Hw & _).
  assert (TunWrite p ∈ wd_out (sy_world (fst (run_events es (start srv)))) \/
    TunWrite p ∈ wd_out (sy_world (fst (step e (fst (run_events es (start srv))))))) as Hp'.
  { rewrite run_events_app in Hp. destruct (snd _); [|by left]. right. cbn [run_events] in Hp.
    by destruct (step e (fst (run_events es (start srv)))) as [s' [u| |]]. }
  clear Hp. destruct Hp' as [Hin|Hp'].
  { destruct (IH He1 Hin) as (es1 & env & a & data & es2 & c & -> & Ht & Hl).
    exists es1, env, a, data, (es2 ++ [e]), c. split_and!; [by rewrite <- app_assoc|done..]. }
  destruct (step_adds e (fst (run_events es (start srv)))) as (nw & Ho & Hnw).
  rewrite Ho in Hp'. apply elem_of_app in Hp' as [Hin|Hin].
  - destruct (IH He1 Hin) as (es1 & env & a & data & es2 & c & -> & Ht & Hl).
    exists es1, env, a, data, (es2 ++ [e]), c. split_and!; [by rewrite <- app_assoc|done..].
  - rewrite Forall_forall in Hnw. specialize (Hnw _ Hin). destruct e as [env a data| | | | | | ]; try done.
    destruct Hnw as [c Ht]. exists es, env, a, data, [], c. split_and!; [done..|].
    intros Hoa. destruct Ht as [Ha Hst _ _ _]. destruct (sv_conns _ _ _ _ _ Hw a c Ha) as [_ Hv].
    by destruct (vi_auth _ _ _ _ _ _ _ Hv Hoa Hst) as [_ H].
Qed.
End FromStart.

(** ** Routing *)

(** With one owner of an address, the order of the table does not matter. *)
Lemma find_route_owner ip (m : gmap SocketAddr Conn) a c :
  m !! a = Some c -> co_vpn_ip c = Some ip -> ps_state (co_protocol c) = Established ->
  (forall b d, m !! b = Some d -> co_vpn_ip d = Some ip -> b = a) ->
  find_route ip m = Some (a, c).
Proof.
  intros Ha Hip Hst Hone. destruct (find_route ip m) as [[b d]|] eqn:Hr.
  - apply find_route_Some in Hr as (Hb & Hd & _). assert (b = a) as -> by by eapply Hone. congruence.
  - unfold find_route in Hr. apply head_None in Hr.
    assert ((a, c) ∈ filter (fun kc => routes_to ip (snd kc) = true) (map_to_list m)) as Hin.
    { apply list_elem_of_filter. split; [|by apply elem_of_map_to_list].
      cbn. unfold routes_to. rewrite !bool_decide_eq_true_2 by done. done. }
    rewrite Hr in Hin. by apply elem_of_nil in Hin.
Qed.

(** An IPv4 packet and its destination. *)
Definition ipv4_to (p : bytes) (dest : Z) : Prop :=
  (20 <= length p)%nat /\ Z.shiftr (hd 0 p) 4 = 4 /\ from_be (take 4 (drop 16 p)) = dest.

Lemma handle_tun_ipv4 env p dest w : ipv4_to p dest ->
  handle_tun_packet env p w =
  match find_route dest (vs_connections (wd_server w)) with
  | None => (w, Ok tt)
  | Some (key, conn) =>
      let '(s, r) := ProtocolSession_encrypt_data p (co_protocol conn) in
      let store c := on_server (fun s => vs_set_connections (<[key := c]> (vs_connections s)) s) w in
      match r with
      | Ok enc => send_or_warn env (co_peer_addr conn) enc
                    (store (Connection_add_bytes_tx (Z.of_nat (length enc)) (co_set_protocol s conn)))
      | Err _ => (store (co_set_protocol s conn), Ok tt)
      | Panic => (store (co_set_protocol s conn), Panic)
      end
  end.
Proof.
  intros (Hl & Hv & Hd). unfold handle_tun_packet. rewrite (proj2 (Nat.ltb_ge _ _)) by done.
  destruct p as [|b0 p]; [simpl in Hl; lia|]. cbn [lookup list_lookup]. cbn [hd] in Hv.
  destruct (take 4 (drop 16 (b0 :: p))) as [|b16 [|b17 [|b18 [|b19 [|]]]]] eqn:Ht;
    try (apply (f_equal length) in Ht; rewrite length_take, length_drop in Ht; cbn [length] in *; lia).
  rewrite Hv, Hd. done.
Qed.

(** Answering a ping does not touch what the channel receives with. *)
Lemma encrypt_keeps_link m s r cs cr :
  data_linked s r cs cr ->
  exists cr', data_linked s (fst (ProtocolSession_encrypt_data m r)) cs cr'.
Proof.
  intros [Hs Hr Hk Hwf Hm Hw]. unfold ProtocolSession_encrypt_data.
  destruct (ps_data_channels r !! Z.to_nat (key_id_0 (ps_current_key_id r))) as [[ch|]|] eqn:Hc; try (exists cr; by constructor).
  unfold DataChannel_encrypt.
  destruct (PacketCipher_encrypt m (dc_encrypt_ad_prefix ch) (dc_encrypt_cipher ch)) as [pc rr]. cbn [fst].
  destruct (decide (Z.to_nat (key_id_0 (ps_current_key_id r)) = Z.to_nat (key_id_0 (ps_current_key_id s)))) as [E|E].
  - rewrite E in Hc. assert (ch = cr) as -> by congruence. exists (dc_set_encrypt pc cr).
    constructor; try done. cbn. rewrite E, list_lookup_insert_eq; [done|]. by apply lookup_lt_Some in Hr.
  - exists cr. constructor; try done. cbn. by rewrite list_lookup_insert_ne.
Qed.

(** What the server does with the plaintext of a data packet: the ping is
    answered, and of the rest what can be an IP packet goes to the device, if
    the queue of its writer takes it. *)
Definition plaintext_outputs env (a : SocketAddr) (m : bytes) (out : list Output) : Prop :=
  if decide (m = OPENVPN_PING_PAYLOAD) then out = [] \/ exists pong, out = [SendTo a pong]
  else out = if (20 <=? length m)%nat && ev_tun_ok env m then [TunWrite m] else [].

Lemma handle_plaintext env a (c : Conn) w (client r' : ProtocolSession) cs' cr' wire m :
  vs_connections (wd_server w) !! a = Some c -> ps_state (co_protocol c) = Established ->
  ProtocolSession_process_packet (ev_now env) wire (co_protocol c) = (r', Ok (PData m)) ->
  sess_inv r' -> data_linked client r' cs' cr' ->
  exists w' c' cr'' out,
    handle_data_packet env a wire w = (w', Ok tt) /\
    wd_out w' = wd_out w ++ out /\ plaintext_outputs env a m out /\
    vs_connections (wd_server w') = <[a := c']> (vs_connections (wd_server w)) /\
    ps_state (co_protocol c') = Established /\ data_linked client (co_protocol c') cs' cr''.
Proof.
  intros Ha Hst Hproc Hinv Hl.
  assert (ps_state r' = Established) as Hr'.
  { pose proof (signals_process_packet (ev_now env) wire (co_protocol c)) as Hk. rewrite Hproc in Hk.
    cbn in Hk. congruence. }
  unfold handle_data_packet, plaintext_outputs. rewrite Ha. unfold data_section. cbv zeta.
  change (co_protocol (Connection_touch (ev_now env) c)) with (co_protocol c).
  rewrite bool_decide_eq_true_2 by done. cbn [negb].
  change (co_protocol (Connection_add_bytes_rx _ _)) with (co_protocol c).
  rewrite Hproc, ping_payload_test. destruct (decide (m = OPENVPN_PING_PAYLOAD)) as [Hm|Hm].
  - rewrite bool_decide_eq_true_2 by done. cbn [co_protocol co_set_protocol].
    destruct (encrypt_keeps_link OPENVPN_PING_PAYLOAD client r' cs' cr' Hl) as [cr'' Hl'].
    pose proof (keeps_state_encrypt OPENVPN_PING_PAYLOAD r') as Hk.
    destruct (safe_encrypt_data OPENVPN_PING_PAYLOAD r' Hinv) as [_ Hn].
    destruct (ProtocolSession_encrypt_data OPENVPN_PING_PAYLOAD r') as [r'' [pong| |]]; [..|done];
      cbn [fst] in Hk, Hl'; rewrite Hr' in Hk.
    + cbn. unfold mbind, M_bind, send_or_warn. destruct (ev_send_ok env a pong); cbn; do 4 eexists;
        (split; [reflexivity|]); (split; [first [reflexivity|symmetry; apply app_nil_r]|]); split_and!; eauto.
    + cbn. do 4 eexists. (split; [reflexivity|]). split; [first [reflexivity|symmetry; apply app_nil_r]|]. split_and!; eauto.
  - rewrite bool_decide_eq_false_2 by done. destruct (20 <=? length m)%nat; cbn [andb].
    + cbn. unfold mbind, M_bind, tun_write. destruct (ev_tun_ok env m); cbn; do 4 eexists;
        (split; [reflexivity|]); (split; [first [reflexivity|symmetry; apply app_nil_r]|]); split_and!; eauto.
    + cbn. do 4 eexists. split; [reflexivity|]. split; [first [reflexivity|symmetry; apply app_nil_r]|]. split_and!; eauto.
Qed.

(** C5 A packet of a client crosses the server: what the client's session
    encrypts, sent as a datagram to an established connection with matching
    keys, is written to the TUN device unchanged when it has at least the 20
    bytes of an IPv4 header and the queue of the device takes it; a shorter
    one is dropped, and the keep-alive ping is answered with at most one
    datagram to the client and not written.  In each case the connection
    stays established and the channels matched for the next packet. *)
Theorem client_packet_reaches_tun (client : ProtocolSession) (w : Wd) (env : Env (Ch := Ch) (Uu := Uu))
    (a : SocketAddr) (c : Conn) (cs cr : DataChannel) (m : bytes)
    (Ha : vs_connections (wd_server w) !! a = Some c) (Hst : ps_state (co_protocol c) = Established)
    (Hcl : sess_inv client) (Hsv : sess_inv (co_protocol c))
    (Hl : data_linked client (co_protocol c) cs cr)
    (Htx : pc_tx_counter (dc_encrypt_cipher cs) + 1 < 2 ^ 32)
    (Hm : Z.of_nat (length m) <= 2 ^ 32)
    (Hun : forall p, snd (DataChannel_encrypt m cs) = Ok p ->
       unambiguous (pc_cipher (dc_encrypt_cipher cs)) (pc_implicit_iv (dc_encrypt_cipher cs))
         (dc_encrypt_ad_prefix cs) (pc_tx_counter (dc_encrypt_cipher cs) + 1) m (dpk_payload p)) :
  exists client' wire w' c' cs' cr' out,
    ProtocolSession_encrypt_data m client = (client', Ok wire) /\
    handle_packet env a wire w = (w', Ok tt) /\
    wd_out w' = wd_out w ++ out /\
    (if decide (m = OPENVPN_PING_PAYLOAD) then out = [] \/ exists pong, out = [SendTo a pong]
     else out = if (20 <=? length m)%nat && ev_tun_ok env m then [TunWrite m] else []) /\
    vs_connections (wd_server w') = <[a := c']> (vs_connections (wd_server w)) /\
    ps_state (co_protocol c') = Established /\
    data_linked client' (co_protocol c') cs' cr'.
Proof.
  destruct (data_packet_across client (co_protocol c) cs cr (ev_now env) m Hcl Hsv Hl Htx Hm Hun)
    as (client' & wire & r' & cs' & cr' & Henc & Hproc & Hl' & _ & Hinv).
  destruct (handle_plaintext env a c w client' r' cs' cr' wire m Ha Hst Hproc Hinv Hl')
    as (w' & c' & cr'' & out & Hh & Ho & Hp & Hc & Hs' & Hl'').
  exists client', wire, w', c', cs', cr'', out. split_and!; try done.
  destruct (encrypt_data_opcode _ _ _ _ Henc) as (b0 & rest & -> & Hop). rewrite <- Hh.
  unfold handle_packet, mbind, M_bind, lift. by destruct Hop as [-> | ->].
Qed.

(** C6 A packet from the TUN device reaches the client that owns its
    destination address.  For an IPv4 packet whose destination is the address
    of exactly one connection, established and with keys that match the
    client's: the server sends at most one datagram, to that client alone and
    unless the socket refuses it, and the client's session decrypts the
    datagram to the packet; the channels stay matched. *)
Theorem tun_packet_reaches_client (client : ProtocolSession) (w : Wd) (env : Env (Ch := Ch) (Uu := Uu))
    (now : Z) (a : SocketAddr) (c : Conn) (cs cr : DataChannel) (m : bytes) (dest : Z)
    (Ha : vs_connections (wd_server w) !! a = Some c) (Hst : ps_state (co_protocol c) = Established)
    (Hip : co_vpn_ip c = Some dest) (Hpeer : co_peer_addr c = a)
    (Hone : forall b d, vs_connections (wd_server w) !! b = Some d -> co_vpn_ip d = Some dest -> b = a)
    (Hcl : sess_inv client) (Hsv : sess_inv (co_protocol c))
    (Hl : data_linked (co_protocol c) client cs cr)
    (Htx : pc_tx_counter (dc_encrypt_cipher cs) + 1 < 2 ^ 32)
    (Hm : ipv4_to m dest) (Hm2 : Z.of_nat (length m) <= 2 ^ 32)
    (Hun : forall p, snd (DataChannel_encrypt m cs) = Ok p ->
       unambiguous (pc_cipher (dc_encrypt_cipher cs)) (pc_implicit_iv (dc_encrypt_cipher cs))
         (dc_encrypt_ad_prefix cs) (pc_tx_counter (dc_encrypt_cipher cs) + 1) m (dpk_payload p)) :
  exists wire w' c' client' cs' cr',
    handle_tun_packet env m w = (w', Ok tt) /\
    wd_out w' = wd_out w ++ (if ev_send_ok env a wire then [SendTo a wire] else []) /\
    vs_connections (wd_server w') = <[a := c']> (vs_connections (wd_server w)) /\
    ProtocolSession_process_packet now wire client = (client', Ok (PData m)) /\
    data_linked (co_protocol c') client' cs' cr'.
Proof.
  destruct (data_packet_across (co_protocol c) client cs cr now m Hsv Hcl Hl Htx Hm2 Hun)
    as (s' & wire & client' & cs' & cr' & Henc & Hproc & Hl' & _).
  exists wire. rewrite (handle_tun_ipv4 env m dest) by done. rewrite (find_route_owner dest _ a c) by done.
  rewrite Henc, Hpeer. unfold send_or_warn.
  destruct (ev_send_ok env a wire); do 2 eexists; exists client', cs', cr';
    (split; [reflexivity|]); split_and!; try done. by rewrite app_nil_r.
Qed.
End Out.
