(* ===== verification/ServerSteps.v ===== *)
(** * Single steps of the server

    The loop that drains the TLS connection ends; a repeated hard reset is
    answered from the cache; a connection in renegotiation stays there.  The
    definitions are in Server.v. *)
From S2P Require Import Prelude Errors Text Network CoreSession Opcode Packet Replay Float Reliable Cipher HmacAuth Kdf DataChannel Session SessionProofs SessionSend Runs Control Addr ServerConfig ConnLog TlsDriver Cert Server ServerProofs ServerRun ServerOut.
Local Open Scope Z_scope.

Section Steps.
Context {AEAD : Aead} {ALaws : AeadLaws AEAD} {HMAC : Hmac} {HLaws : HmacLaws HMAC} {SHA : Sha256}
  {UC : Unicode} {Ch : Chrono} {ChF : ChronoFields} {Uu : Uuids}
  {N4 N6 : Type} {Net4 : IpNet 32 N4} {Net6 : IpNet 128 N6} {Txt4 : IpNetText 32 N4}
  {TlsConfig TlsConn : Type} {RL : Rustls TlsConfig TlsConn} {RLaws : RustlsLaws RL}
  {L : Type} {LG : ConnectionLogger L} {LSafe : LoggerSafe LG}.

Abbreviation Wd := (World (Ch := Ch) (Uu := Uu) (N4 := N4) (N6 := N6) (TlsConfig := TlsConfig)
  (TlsConn := TlsConn) (L := L)).
Abbreviation TWk := (TlsWork (Ch := Ch) (Uu := Uu) (N4 := N4) (N6 := N6) (TlsConn := TlsConn)).
Abbreviation Conn := (Connection (Uu := Uu) (TlsConn := TlsConn)).
Implicit Types (w : Wd) (t : TWk) (env : Env (Ch := Ch) (Uu := Uu)).

(** ** The drain loop *)
Definition buffered t : nat := rl_buffered (th_conn (tw_tls t)).

Lemma flush_fuel f1 f2 env t : (buffered t < f1)%nat -> (buffered t < f2)%nat ->
  flush_loop f1 env t = flush_loop f2 env t.
Proof.
  revert f2 t. induction f1 as [|f1 IH]; intros f2 t H1 H2; [lia|].
  destruct f2 as [|f2]; [lia|]. cbn [flush_loop]. unfold get. rewrite !(bind_step _ _ t t t) by done.
  destruct (TlsHandler_wants_write (tw_tls t)); [|done].
  unfold mbind, M_bind, on_tls, zoom.
  destruct (get_outgoing_spec (tw_tls t)) as (_ & _ & _ & Hb).
  destruct (TlsHandler_get_outgoing (tw_tls t)) as [h [[out|]|e|]]; cbn [map_err]; [|done..].
  destruct (Hb out eq_refl) as [Hne Hle]. cbn [fst] in Hle.
  assert (0 < length out)%nat by (destruct out; [done|cbn; lia]).
  unfold on_work, zoom. cbn [tw_work tw_tls].
  destruct (on_protocol _ (tw_work t)) as [wk [ps| |]]; cbn [map_err]; [|done..].
  unfold modify. apply IH; unfold buffered in *; cbn [tw_on_work tw_tls tw_work] in *; lia.
Qed.

(** C33 The loop that drains the TLS connection ends: every turn that continues
    takes at least one of the buffered bytes, so with more turns than
    buffered bytes the result no longer depends on how many there are. *)
Theorem flush_terminates (env : Env (Ch := Ch) (Uu := Uu)) (t : TWk) (fuel : nat)
    (Hf : (rl_buffered (th_conn (tw_tls t)) < fuel)%nat) :
  flush_loop fuel env t = flush_tls env t.
Proof.
  unfold flush_tls, get. rewrite (bind_step _ _ t t t) by done. apply flush_fuel; unfold buffered; lia.
Qed.

(** ** Hard resets *)
Definition is_hard_reset (data : bytes) : Prop :=
  exists b0 rest, data = b0 :: rest /\
    (OpCode_from_byte b0 = Ok HardResetClientV2 \/ OpCode_from_byte b0 = Ok HardResetClientV3).

Lemma handle_hard_reset_packet env a data w : is_hard_reset data ->
  handle_packet env a data w = handle_hard_reset env a data w.
Proof.
  intros (b0 & rest & -> & Hop). unfold handle_packet, mbind, M_bind, lift. by destruct Hop as [-> | ->].
Qed.

(** What an accepted hard reset leaves: the new connection, its answer sent
    and kept. *)
Lemma hard_reset_stores env a data w w' :
  vs_connections (wd_server w) !! a = None -> handle_hard_reset env a data w = (w', Ok tt) ->
  exists c resp, vs_connections (wd_server w') !! a = Some c /\ co_last_activity c = ev_now env /\
    co_hard_reset_response c = Some resp /\ last (wd_out w') = Some (SendTo a resp).
Proof.
  intros Ha. unfold handle_hard_reset, get. rewrite (bind_step _ _ w w w) by done. cbv zeta. rewrite Ha.
  cbn [mbind option_bind].
  intros H. apply M_bind_Ok in H as (w1 & u1 & Hlog & H).
  apply M_bind_Ok in H as (w2 & p & Hp & H). unfold lift in Hp. injection Hp as <- Hp.
  destruct (ProtocolSession_process_packet _ _ _) as [p1 r1].
  apply M_bind_Ok in H as (w2 & u2 & Hp2 & H). injection Hp2 as <- _.
  apply M_bind_Ok in H as (w2 & tls & Hp2 & H). injection Hp2 as <- _.
  destruct (ProtocolSession_create_hard_reset_response _ _ _) as [p2 r2].
  apply M_bind_Ok in H as (w2 & resp & Hp2 & H). injection Hp2 as <- _.
  apply M_bind_Ok in H as (w2 & u3 & Hsend & H). unfold send_to in Hsend.
  destruct (ev_send_ok env a resp); [|done]. injection Hsend as <- _.
  injection H as <-. cbn. do 2 eexists. rewrite lookup_insert_eq. split; [reflexivity|].
  split_and!; [done..|]. by rewrite last_snoc.
Qed.

(** A retransmitted hard reset does not start over: for thirty seconds
    after a hard reset has been accepted, every further one from that address
    is answered with the same bytes, and nothing else changes. *)
Lemma hard_reset_repetition_is_answered_alike (env1 env2 : Env (Ch := Ch) (Uu := Uu)) (a : SocketAddr)
    (data1 data2 : bytes) (w w1 : Wd)
    (Ha : vs_connections (wd_server w) !! a = None)
    (H1 : is_hard_reset data1) (H2 : is_hard_reset data2)
    (Hacc : handle_packet env1 a data1 w = (w1, Ok tt))
    (Ht : ev_now env2 - ev_now env1 <= from_secs 30) :
  exists resp, last (wd_out w1) = Some (SendTo a resp) /\
    handle_packet env2 a data2 w1 = send_to env2 a resp w1.
Proof.
  rewrite handle_hard_reset_packet in Hacc by done.
  destruct (hard_reset_stores _ _ _ _ _ Ha Hacc) as (c & resp & Hc & Hact & Hr & Hl).
  exists resp. split; [done|]. rewrite handle_hard_reset_packet by done.
  unfold handle_hard_reset, get. rewrite (bind_step _ _ w1 w1 w1) by done. cbv zeta. rewrite Hc.
  cbn [mbind option_bind]. unfold Connection_is_stale, elapsed. rewrite Hact, Hr.
  assert (0 <= from_secs 30) by (vm_compute; discriminate). by rewrite (proj2 (Z.ltb_ge _ _)) by lia.
Qed.

(** ** Renegotiation *)
Definition rekeying (s : ProtocolSession) : Prop := ps_state s = Rekeying.
Definition stays {A} (m : M ProtocolSession ProtocolError A) : Prop :=
  forall s, rekeying s -> rekeying (fst (m s)).

Lemma stays_keeps {A} (m : M ProtocolSession ProtocolError A) : keeps ps_state m -> stays m.
Proof. intros H s Hs. unfold rekeying. by rewrite H. Qed.
Lemma stays_bind {A B} (m : M ProtocolSession ProtocolError A) (k : A -> M ProtocolSession ProtocolError B) :
  stays m -> (forall a, stays (k a)) -> stays (m ≫= k).
Proof.
  intros Hm Hk s Hs. unfold mbind, M_bind. specialize (Hm s Hs).
  destruct (m s) as [s' [a| |]]; [by apply Hk|done..].
Qed.

Definition resets (op : OpCode) : bool :=
  match op with HardResetClientV2 | HardResetClientV3 | HardResetServerV2 => true | _ => false end.

Lemma parsed_opcode b0 rest auth p : bytes_ok (b0 :: rest) -> Packet_parse (b0 :: rest) auth = Ok p ->
  OpCode_from_byte b0 = Ok (Packet_opcode p).
Proof.
  intros Hb [Hs _]%Packet_parse_inv; [|done]. destruct p as [c|d]; cbn in Hs.
  - injection Hs as <- _. apply OpCode_from_to_byte.
  - injection Hs as <- _. apply OpCode_from_to_byte.
Qed.

Lemma process_packet_stays now b0 rest op : bytes_ok (b0 :: rest) -> OpCode_from_byte b0 = Ok op ->
  resets op = false -> stays (ProtocolSession_process_packet now (b0 :: rest)).
Proof.
  intros Hb Hop Hr. unfold ProtocolSession_process_packet.
  apply stays_bind; [by apply stays_keeps, keeps_modify|intros _].
  apply stays_bind; [apply stays_keeps, keeps_get|intros s1].
  apply stays_bind; [apply stays_keeps, keeps_lift|intros _].
  intros s Hs. unfold mbind, M_bind, lift.
  destruct (Packet_parse (b0 :: rest) (ps_use_tls_auth s1)) as [p| |] eqn:Hp; [|done..].
  apply parsed_opcode in Hp; [|done]. assert (Packet_opcode p = op) as Ho by congruence. clear Hp.
  revert s Hs. destruct p as [c|d]; cbn [Packet_opcode] in Ho.
  - unfold ProtocolSession_process_control_packet.
    apply stays_bind; [apply stays_keeps, keeps_state_check_replay|intros _].
    apply stays_bind; [apply stays_keeps, keeps_state_acks|intros _].
    unfold ProtocolSession_handle_opcode. rewrite Ho.
    destruct op; try done; try (by intros s).
    apply stays_keeps, keeps_state_tls.
  - intros s Hs. unfold ProtocolSession_process_data_packet. cbv zeta.
    destruct (ps_data_channels s !! _) as [[ch|]|]; [|done..].
    by destruct (DataChannel_decrypt _ _) as [ch' [m| |]].
Qed.

(** *** The handlers *)
Definition in_rekeying (v : View (N4 := N4) (N6 := N6)) : Prop := vw_state v = Rekeying.

Lemma runs_rekeying_tls config env records : env_ok env ->
  runs (holds_tls in_rekeying) (handle_tls_records config env records) (holds_tls in_rekeying).
Proof.
  intros He. unfold handle_tls_records.
  eapply runs_bind; [apply runs_on_tls; intros h; by destruct (process_tls_records_spec records h) as (n & _ & _ & Hn)|intros _|done].
  eapply runs_bind; [by apply runs_flush|intros _|done].
  apply runs_read. intros t [_ Ht]. unfold in_rekeying in Ht. cbn in Ht. rewrite Ht.
  rewrite andb_false_r. eapply (runs_bind _ (holds_tls in_rekeying)); [by apply runs_ret|intros _|done].
  apply runs_read. intros t1 [_ Ht1]. unfold in_rekeying in Ht1. cbn in Ht1. rewrite Ht1.
  rewrite andb_false_r. by apply runs_ret.
Qed.

Lemma runs_rekeying_control config env b0 rest op : env_ok env -> bytes_ok (b0 :: rest) ->
  OpCode_from_byte b0 = Ok op -> resets op = false ->
  runs (holds in_rekeying) (control_section config env (b0 :: rest)) (holds in_rekeying).
Proof.
  intros He Hb Hop Hr. unfold control_section.
  eapply runs_bind; [by apply (runs_modify _ (holds in_rekeying))|intros _|done].
  eapply (runs_bind _ (holds in_rekeying)); [|intros r|done].
  { apply runs_protocol; [apply safe_process_packet; [apply He|done]|].
    intros s v Hv Hst. unfold in_rekeying in *. cbn. eapply process_packet_stays; [done..|].
    unfold rekeying. congruence. }
  eapply (runs_bind _ (holds in_rekeying)); [|intros _|done].
  { destruct r; try (by apply runs_ret).
    - apply runs_with_tls; [done|]. by apply runs_rekeying_tls.
    - destruct (le_renegotiations _); [|by apply runs_ret].
      apply runs_read. intros w0 _. by apply runs_modify. }
  by apply runs_collect.
Qed.

Lemma keeps_connections_log env es :
  keeps (fun w => vs_connections (wd_server w)) (log_events env es).
Proof.
  induction es as [|e es IH]; [by intros w|]. apply keeps_bind; [|by intros _]. intros w.
  unfold VpnServer_log_event.
  destruct (match vs_anonymizer (wd_server w) with
            | Some a => let '(a, e) := Anonymizer_anonymize (ev_utc env) e a in (Some a, e)
            | None => (None, e)
            end) as [a e']. by destruct (cl_log e' _) as [l r].
Qed.
Lemma keeps_connections_send env a ps :
  keeps (fun w => vs_connections (wd_server w)) (send_all (send_to env a) ps).
Proof.
  induction ps as [|p ps IH]; [by intros w|]. apply keeps_bind; [|by intros _]. intros w.
  unfold send_to. by destruct (ev_send_ok env a p).
Qed.

Lemma rekeying_control w env a b0 rest c op : vs_connections (wd_server w) !! a = Some c ->
  ps_state (co_protocol c) = Rekeying -> sess_inv (co_protocol c) -> env_ok env -> bytes_ok (b0 :: rest) ->
  OpCode_from_byte b0 = Ok op -> resets op = false ->
  let w' := fst (handle_control_packet env a (b0 :: rest) w) in
  (exists c', vs_connections (wd_server w') !! a = Some c' /\ ps_state (co_protocol c') = Rekeying) /\
  (forall p, TunWrite p ∈ wd_out w' -> TunWrite p ∈ wd_out w).
Proof.
  intros Hc Hst Hinv He Hb Hop Hr w'. split.
  - subst w'. unfold handle_control_packet. rewrite Hc.
    destruct (runs_rekeying_control (vs_config (wd_server w)) env b0 rest op He Hb Hop Hr
      (mkWork c (vs_address_pool (wd_server w)) (vs_pending_oauths (wd_server w)) [] [])) as [[_ Hk] _];
      [by split|].
    destruct (control_section _ _ _ _) as [k r]. cbn in Hk. exists (wk_conn k). split; [|exact Hk].
    destruct r as [u|e|]; [|apply lookup_insert_eq..].
    match goal with |- context [vs_connections (wd_server (fst (?m ?w0)))] =>
      assert (keeps (fun w => vs_connections (wd_server w)) m) as Hkeep end.
    { apply keeps_bind; [apply keeps_connections_log|intros _; apply keeps_connections_send]. }
    rewrite Hkeep. apply lookup_insert_eq.
  - destruct (control_sends env a (b0 :: rest) w) as (nw & Ho & Hs). intros p. unfold w'. rewrite Ho, elem_of_app.
    intros [Hin|Hin]; [done|]. rewrite Forall_forall in Hs. by apply Hs in Hin.
Qed.

Lemma rekeying_data w env a data c : vs_connections (wd_server w) !! a = Some c ->
  ps_state (co_protocol c) = Rekeying ->
  let w' := fst (handle_data_packet env a data w) in
  (exists c', vs_connections (wd_server w') !! a = Some c' /\ ps_state (co_protocol c') = Rekeying) /\
  (forall p, TunWrite p ∈ wd_out w' -> TunWrite p ∈ wd_out w).
Proof.
  intros Hc Hst. unfold handle_data_packet. rewrite Hc. unfold data_section. cbv zeta.
  change (co_protocol (Connection_touch (ev_now env) c)) with (co_protocol c). rewrite Hst.
  rewrite bool_decide_eq_false_2 by done. cbn [negb]. unfold mbind, M_bind, mret, M_ret.
  cbn [send_all fst wd_server on_server vs_connections vs_set_connections wd_out]. unfold mret, M_ret.
  cbn [fst wd_server on_server vs_connections vs_set_connections wd_out]. rewrite lookup_insert_eq. split; [|done]. by eexists.
Qed.

(** A soft reset has no way back: once a connection is in [Rekeying], no
    datagram other than a hard reset takes it out of that state, and none is
    forwarded to the TUN device. *)
Lemma rekeying_is_a_dead_end (w : Wd) (env : Env (Ch := Ch) (Uu := Uu)) (a : SocketAddr) (data : bytes)
    (c : Conn) (Hc : vs_connections (wd_server w) !! a = Some c)
    (Hst : ps_state (co_protocol c) = Rekeying) (Hinv : sess_inv (co_protocol c))
    (He : env_ok env) (Hd : bytes_ok data) (Hh : ~ is_hard_reset data) :
  let w' := fst (handle_packet env a data w) in
  (exists c', vs_connections (wd_server w') !! a = Some c' /\ ps_state (co_protocol c') = Rekeying) /\
  (forall p, TunWrite p ∈ wd_out w' -> TunWrite p ∈ wd_out w).
Proof.
  assert (forall w', vs_connections (wd_server w') = vs_connections (wd_server w) -> wd_out w' = wd_out w ->
    (exists c', vs_connections (wd_server w') !! a = Some c' /\ ps_state (co_protocol c') = Rekeying) /\
    (forall p, TunWrite p ∈ wd_out w' -> TunWrite p ∈ wd_out w)) as Hsame.
  { intros w' -> ->. split; [by exists c|done]. }
  unfold handle_packet. destruct data as [|b0 rest]; [by apply Hsame|].
  unfold mbind, M_bind, lift. destruct (OpCode_from_byte b0) as [op| |] eqn:Hop; cbn [map_err]; try (by apply Hsame).
  destruct op; try (by apply Hsame); try (destruct Hh; exists b0, rest; split; [done|auto]; fail).
  all: first [by apply (rekeying_control w env a b0 rest c _ Hc Hst Hinv He Hd Hop)
             |by apply (rekeying_data w env a (b0 :: rest) c Hc Hst)].
Qed.
End Steps.
