(* ===== verification/ServerStart.v ===== *)
(** * The start of the server

    src/crates/corevpn-server/src/server.rs: [run_server] up to its event
    loop, with the resource limits, the TUN device, the firewall and the
    privileges, and [run_oauth_server] up to its accept loop.  The operating
    system is a record of answers; the calls that change it are recorded in
    the order in which they are made, also when a later one fails. *)
From S2P Require Import Prelude Errors Text Network CoreSession Cipher HmacAuth Kdf Addr ServerConfig ConnLog TlsDriver Server.
Local Open Scope Z_scope.

Inductive Resource := RlimitNofile | RlimitNproc.

(** The tasks that the start leaves running. *)
Inductive Task := TunWriter | CleanupTask (idle_timeout_sec : Z) | LogCleanupTask | OAuthServer (port : Z) (base_url : str).

Inductive OsCall :=
| SetLimit (resource : Resource) (soft hard : Z)
| BindUdp (addr : SocketAddr)
| BindTcp (addr : str)
| CreateTun (name : str) (address netmask mtu : Z)
| AsyncTun
| WriteProc (path contents : str)
| Iptables (args : list str)
| SetGid (gid : Z)
| SetUid (uid : Z)
| Spawn (task : Task).

(** [os_error] is the error of a call, if it fails; [os_nobody_uid] and
    [os_nobody_gid] are the entries of [nobody] in the user database. *)
Record Os := mkOs {
  os_error : OsCall -> option str;
  os_limit : Resource -> Z * Z + str;
  os_is_root : bool;
  os_env : str -> option str;
  os_nobody_uid : option Z;
  os_nobody_gid : option Z;
  os_tun_name : str + str;
  os_route_file : option str;
}.

Definition Trace : Type := list OsCall.
Definition call (os : Os) (c : OsCall) : M Trace str unit := fun t =>
  (t ++ [c], match os_error os c with Some e => Err e | None => Ok tt end).
(** A call whose result is dropped. *)
Definition call_ignored (os : Os) (c : OsCall) : M Trace str unit := fun t => (t ++ [c], Ok tt).
Definition of_text {A} (prefix : string) (r : A + str) : M Trace str A :=
  lift (match r with inl a => Ok a | inr e => Err (lit prefix ++ e) end).

(** [Ord::clamp] with bounds in order. *)
Definition clamp (x lo hi : Z) : Z := if x <? lo then lo else if hi <? x then hi else x.

Definition set_limit (os : Os) (resource : Resource) (lo hi : Z) : M Trace str unit :=
  limits ← of_text "" (os_limit os resource);
  let hard_limit := snd limits in
  let soft_limit := clamp hard_limit lo hi in
  call os (SetLimit resource soft_limit hard_limit).
Definition set_resource_limits (os : Os) : M Trace str unit :=
  _ ← set_limit os RlimitNofile 1024 65536;
  set_limit os RlimitNproc 256 4096.

(** [std::env::var(name).ok().and_then(|s| s.parse::<u32>().ok())], or the entry
    of [nobody]. *)
Definition target_id (os : Os) (name : string) (nobody : option Z) : option Z :=
  match os_env os (lit name) ≫= parse_uint 32 with Some id => Some id | None => nobody end.
Definition drop_privileges (os : Os) : M Trace str unit :=
  if negb (os_is_root os) then mret tt else
  match target_id os "COREVPN_USER" (os_nobody_uid os), target_id os "COREVPN_GROUP" (os_nobody_gid os) with
  | Some uid, Some gid =>
      _ ← call os (SetGid gid);
      call os (SetUid uid)
  | _, _ => mret tt
  end.

(** Forwarding and masquerading; every failure is ignored. *)
Definition setup_nat (os : Os) (config : ServerConfig) (tun_name : str) : M Trace str unit :=
  let default_iface := default (lit "eth0") (get_default_interface (os_route_file os)) in
  _ ← call_ignored os (WriteProc (lit "/proc/sys/net/ipv4/ip_forward") (lit "1"));
  _ ← call_ignored os (Iptables [lit "-t"; lit "nat"; lit "-A"; lit "POSTROUTING"; lit "-s";
        nw_subnet (cfg_network config); lit "-o"; default_iface; lit "-j"; lit "MASQUERADE"]);
  _ ← call_ignored os (Iptables [lit "-A"; lit "FORWARD"; lit "-i"; tun_name; lit "-o"; default_iface; lit "-j";
        lit "ACCEPT"]);
  call_ignored os (Iptables [lit "-A"; lit "FORWARD"; lit "-i"; default_iface; lit "-o"; tun_name; lit "-m";
        lit "state"; lit "--state"; lit "RELATED,ESTABLISHED"; lit "-j"; lit "ACCEPT"]).

Section Start.
Context {AEAD : Aead} {HMAC : Hmac} {SHA : Sha256} {UC : Unicode}
  {Ch : Chrono} {ChF : ChronoFields} {Uu : Uuids}
  {N4 N6 : Type} {Net4 : IpNet 32 N4} {Net6 : IpNet 128 N6} {Txt4 : IpNetText 32 N4}
  {TlsConfig TlsConn : Type} {RL : Rustls TlsConfig TlsConn} {L : Type} {LG : ConnectionLogger L} {JS : SerdeJson}
  {PKI : RustlsPki} (config_of_rustls : ServerTlsConfig -> TlsConfig)
  (logger_of : LoggerChoice -> res str L) (td_seconds : Z -> option TimeDelta)
  (fmt : ProtocolError -> str) (fmt_core : CoreError -> str) (files : Files) (utc : DateTime) (secret : bytes).
Abbreviation Server := (VpnServer (Ch := Ch) (Uu := Uu) (N4 := N4) (N6 := N6) (TlsConfig := TlsConfig)
  (TlsConn := TlsConn) (L := L)).
Abbreviation new := (VpnServer_new (N4 := N4) (N6 := N6) (TlsConn := TlsConn)
  config_of_rustls logger_of td_seconds fmt fmt_core files utc secret).

(** The TUN device: its address is the gateway of the pool. *)
Definition create_tun (os : Os) (config : ServerConfig) (server : Server) : M Trace str str :=
  subnet_net ← of_text "Invalid subnet for TUN: " (net_parse (w := 32) (N := N4) (nw_subnet (cfg_network config)));
  let gateway_ip := default (from_be [10; 8; 0; 1]) (AddressPool_gateway_v4 (vs_address_pool server)) in
  _ ← zoom id (fun t _ => t) (fun e => lit "Failed to create TUN device: " ++ e)
        (call os (CreateTun (lit "tun0") gateway_ip (net_netmask subnet_net) 1500));
  tun_name ← of_text "Failed to get TUN device name: " (os_tun_name os);
  _ ← zoom id (fun t _ => t) (fun e => lit "Failed to create async TUN device: " ++ e) (call os AsyncTun);
  mret tun_name.

Definition oauth_task (config : ServerConfig) : list Task :=
  match cfg_oauth config with
  | Some oauth =>
      if oa_enabled oauth
      then [OAuthServer (oa_oauth_port oauth) (build_oauth_base_url oauth (sv_public_host (cfg_server config)))]
      else []
  | None => []
  end.
Fixpoint spawn_all (os : Os) (tasks : list Task) : M Trace str unit :=
  match tasks with
  | [] => mret tt
  | task :: tasks' => _ ← call_ignored os (Spawn task); spawn_all os tasks'
  end.

(** The part that needs privileges. *)
Definition prepare (os : Os) (config : ServerConfig) : M Trace str Server :=
  _ ← set_resource_limits os;
  server ← lift (new config);
  _ ← call os (BindUdp (sv_listen_addr (cfg_server config)));
  tun_name ← create_tun os config server;
  _ ← setup_nat os config tun_name;
  _ ← spawn_all os [TunWriter];
  mret server.

(** The server whose event loop then runs. *)
Definition run_server (os : Os) (config : ServerConfig) : M Trace str Server :=
  server ← prepare os config;
  _ ← drop_privileges os;
  _ ← spawn_all os ([CleanupTask (sv_idle_timeout_sec (cfg_server config)); LogCleanupTask] ++ oauth_task config);
  mret server.

(** The pages of the OAuth server. *)
Inductive OAuthPage := PageStart | PageCallback | PageComplete.
Definition oauth_routes : list (str * str * OAuthPage) :=
  [(lit "GET", lit "/auth/start", PageStart); (lit "GET", lit "/auth/callback", PageCallback);
   (lit "POST", lit "/auth/complete", PageComplete)].

(** Up to the accept loop: the state of the pages and the TLS configuration. *)
Definition run_oauth_server (os : Os) (oauth_config : OAuthSettings) (oauth_base_url : str) (listen_port : Z)
    (data_dir : str) : M Trace str (OAuthState * ServerTlsConfig) :=
  let state := mkOAuthState oauth_config oauth_base_url in
  _ ← call os (BindTcp (lit "0.0.0.0:" ++ fmt_dec listen_port));
  cert_pem ← of_text "Failed to read oauth.crt for OAuth HTTPS: " (fl_read files (path_join data_dir (lit "oauth.crt")));
  key_pem ← of_text "Failed to read oauth.key for OAuth HTTPS: " (fl_read files (path_join data_dir (lit "oauth.key")));
  certs ← lift (map_err fmt (load_certs_from_pem cert_pem));
  key ← lift (map_err fmt (load_key_from_pem key_pem));
  tls_config ← of_text "Failed to build TLS config for OAuth: " (build_server_config None certs key);
  mret (state, tls_config).
End Start.
