(* ===== verification/ServerStartProofs.v ===== *)
(** * The start of the server

    The order of its calls, what becomes of its privileges, and that it
    succeeds when nothing fails. *)
From S2P Require Import Prelude Errors Text Network CoreSession Cipher HmacAuth Kdf Addr ServerConfig ConnLog TlsDriver Server.
From S2P Require Import Runs ServerStart.
Local Open Scope Z_scope.

(** [m] only adds calls with [P] to the trace. *)
Definition appends {A} (P : OsCall -> Prop) (m : M Trace str A) : Prop :=
  forall t, exists l, fst (m t) = t ++ l /\ Forall P l.

Section Appends.
Context (P : OsCall -> Prop).
Lemma appends_ret {A} (a : A) : appends P (mret a).
Proof. intros t. exists []. by rewrite app_nil_r. Qed.
Lemma appends_lift {A} (r : res str A) : appends P (lift r).
Proof. intros t. exists []. by rewrite app_nil_r. Qed.
Lemma appends_of_text {A} prefix (r : A + str) : appends P (of_text prefix r).
Proof. apply appends_lift. Qed.
Lemma appends_call os c : P c -> appends P (call os c).
Proof. intros Hc t. exists [c]. by split; [|constructor]. Qed.
Lemma appends_ignored os c : P c -> appends P (call_ignored os c).
Proof. intros Hc t. exists [c]. by split; [|constructor]. Qed.
Lemma appends_zoom {A} (conv : str -> str) (m : M Trace str A) : appends P m -> appends P (zoom id (fun t _ => t) conv m).
Proof. intros Hm t. destruct (Hm t) as (l & Hl & HP). exists l. unfold zoom. cbn [id]. by destruct (m t). Qed.
Lemma appends_bind {A B} (m : M Trace str A) (k : A -> M Trace str B) :
  appends P m -> (forall a, appends P (k a)) -> appends P (m ≫= k).
Proof.
  intros Hm Hk t. destruct (Hm t) as (l & Hl & HP). unfold mbind, M_bind.
  destruct (m t) as [t' [a| |]]; cbn [fst] in Hl; subst t'; [|by exists l..].
  destruct (Hk a (t ++ l)) as (l' & Hl' & HP'). exists (l ++ l'). rewrite Hl', app_assoc. by rewrite Forall_app.
Qed.

(** A bind that fails in its first part, or goes on after it. *)
Lemma appends_split {A B} (m : M Trace str A) (k : A -> M Trace str B) t t' r :
  appends P m -> (m ≫= k) t = (t', r) ->
  (exists l, t' = t ++ l /\ Forall P l /\ forall b, r <> Ok b) \/
  exists a l, Forall P l /\ m t = (t ++ l, Ok a) /\ k a (t ++ l) = (t', r).
Proof.
  intros Hm. destruct (Hm t) as (l & Hl & HP). unfold mbind, M_bind. destruct (m t) as [t1 [a| |]]; cbn [fst] in Hl; subst t1.
  - intros H. right. by exists a, l.
  - intros [= <- <-]. left. by exists l.
  - intros [= <- <-]. left. by exists l.
Qed.
End Appends.
Create HintDb appends.
#[export] Hint Resolve appends_ret appends_lift appends_of_text appends_call appends_ignored appends_zoom appends_bind : appends.

(** What comes before the privileges are dropped: no change of ids, and of the
    tasks only the one that writes to the device. *)
Definition privileged (c : OsCall) : Prop :=
  match c with SetGid _ | SetUid _ => False | Spawn TunWriter => True | Spawn _ => False | _ => True end.
Definition is_spawn (c : OsCall) : Prop := match c with Spawn _ => True | _ => False end.

(** The calls that change the ids: none unless the process is root and both
    ids are known. *)
Definition drop_calls (os : Os) : Trace :=
  if os_is_root os then
    match target_id os "COREVPN_USER" (os_nobody_uid os), target_id os "COREVPN_GROUP" (os_nobody_gid os) with
    | Some uid, Some gid => [SetGid gid; SetUid uid]
    | _, _ => []
    end
  else [].

Lemma drop_privileges_run os t t' r : drop_privileges os t = (t', r) ->
  exists l, t' = t ++ l /\ l `prefix_of` drop_calls os /\
    (forall u, r = Ok u -> l = drop_calls os /\ Forall (fun c => os_error os c = None) l).
Proof.
  unfold drop_privileges, drop_calls. destruct (os_is_root os); cbn [negb]; [|intros [= <- <-]; exists []; by rewrite app_nil_r].
  destruct (target_id os "COREVPN_USER" _) as [uid|]; [|intros [= <- <-]; exists []; by rewrite app_nil_r].
  destruct (target_id os "COREVPN_GROUP" _) as [gid|]; [|intros [= <- <-]; exists []; by rewrite app_nil_r].
  unfold mbind, M_bind, call. destruct (os_error os (SetGid gid)) eqn:Hg.
  - intros [= <- <-]. exists [SetGid gid]. split_and!; [done| |done]. by exists [SetUid uid].
  - intros [= <- <-]. exists [SetGid gid; SetUid uid]. rewrite <- app_assoc. split_and!; [done..|].
    intros u H. destruct (os_error os (SetUid uid)) eqn:Hu; [done|]. by repeat constructor.
Qed.

Lemma limits_append os : appends privileged (set_resource_limits os).
Proof. unfold set_resource_limits, set_limit. repeat (apply appends_bind; [|intros]); auto with appends; by apply appends_call. Qed.
Lemma nat_appends os config name : appends privileged (setup_nat os config name).
Proof. unfold setup_nat. repeat (apply appends_bind; [|intros]); by apply appends_ignored. Qed.
Lemma spawn_all_ok os tasks t : spawn_all os tasks t = (t ++ (Spawn <$> tasks), Ok tt).
Proof.
  revert t. induction tasks as [|x tasks IH]; intros t; [by rewrite app_nil_r|]. cbn [spawn_all fmap list_fmap].
  unfold mbind, M_bind, call_ignored. rewrite IH, <- app_assoc. done.
Qed.

Lemma spawns tasks : Forall is_spawn (Spawn <$> tasks).
Proof. induction tasks; by constructor. Qed.

Section Start.
Context {AEAD : Aead} {HMAC : Hmac} {SHA : Sha256} {UC : Unicode}
  {Ch : Chrono} {ChF : ChronoFields} {Uu : Uuids}
  {N4 N6 : Type} {Net4 : IpNet 32 N4} {Net6 : IpNet 128 N6} {Txt4 : IpNetText 32 N4}
  {TlsConfig TlsConn : Type} {RL : Rustls TlsConfig TlsConn} {L : Type} {LG : ConnectionLogger L} {JS : SerdeJson}
  {PKI : RustlsPki} (config_of_rustls : ServerTlsConfig -> TlsConfig)
  (logger_of : LoggerChoice -> res str L) (td_seconds : Z -> option TimeDelta)
  (fmt : ProtocolError -> str) (fmt_core : CoreError -> str) (files : Files) (utc : DateTime) (secret : bytes).
Abbreviation Server := (VpnServer (Ch := Ch) (Uu := Uu) (N4 := N4) (N6 := N6) (TlsConfig := TlsConfig)
  (TlsConn := TlsConn) (L := L)).
Abbreviation new := (VpnServer_new (N4 := N4) (N6 := N6) (TlsConn := TlsConn)
  config_of_rustls logger_of td_seconds fmt fmt_core files utc secret).
Abbreviation prepare := (prepare (N4 := N4) (N6 := N6) (TlsConn := TlsConn)
  config_of_rustls logger_of td_seconds fmt fmt_core files utc secret).
Abbreviation run_server := (run_server (N4 := N4) (N6 := N6) (TlsConn := TlsConn)
  config_of_rustls logger_of td_seconds fmt fmt_core files utc secret).

Lemma tun_appends os config (srv : Server) : appends privileged (create_tun os config srv).
Proof.
  unfold create_tun. repeat (apply appends_bind; [|intros]); auto with appends;
    apply appends_zoom; by apply appends_call.
Qed.
Lemma prepare_appends os config : appends privileged (prepare os config).
Proof.
  apply appends_bind; [apply limits_append|intros _]. apply appends_bind; [apply appends_lift|intros srv].
  apply appends_bind; [by apply appends_call|intros _]. apply appends_bind; [apply tun_appends|intros name].
  apply appends_bind; [apply nat_appends|intros _]. apply appends_bind; [|intros _; apply appends_ret].
  apply appends_bind; [by apply appends_ignored|intros _; apply appends_ret].
Qed.

(** The device a successful start has created. *)
Definition tun_call (config : ServerConfig) (srv : Server) (net : N4) : OsCall :=
  CreateTun (lit "tun0") (default (from_be [10; 8; 0; 1]) (AddressPool_gateway_v4 (vs_address_pool srv)))
    (net_netmask net) 1500.

Lemma appends_grows {A} P (m : M Trace str A) t t' r : appends P m -> m t = (t', r) -> t ⊆ t'.
Proof. intros Hm Hr. destruct (Hm t) as (l & Hl & _). rewrite Hr in Hl. cbn [fst] in Hl. subst t'. set_solver. Qed.

Lemma create_tun_Ok os config (srv : Server) t t' name : create_tun os config srv t = (t', Ok name) ->
  exists net, net_parse (w := 32) (nw_subnet (cfg_network config)) = inl net /\ tun_call config srv net ∈ t'.
Proof.
  unfold create_tun. intros (t1 & net & Hn & H)%M_bind_Ok. unfold of_text, lift in Hn. injection Hn as <- Hn.
  destruct (net_parse _) as [n|]; [|done]. injection Hn as ->. exists net. split; [done|].
  apply M_bind_Ok in H as (t2 & u & Hc & H). unfold zoom, call in Hc. injection Hc as <- _. cbn [id] in H.
  apply M_bind_Ok in H as (t3 & nm & Hnm & H). unfold of_text, lift in Hnm. injection Hnm as <- _.
  apply M_bind_Ok in H as (t4 & u' & Ha & [= <- _]). unfold zoom, call in Ha. injection Ha as <- _. cbn [id]. set_solver.
Qed.

Lemma prepare_Ok os config t srv : prepare os config [] = (t, Ok srv) ->
  new config = Ok srv /\ BindUdp (sv_listen_addr (cfg_server config)) ∈ t /\
  exists net, net_parse (w := 32) (nw_subnet (cfg_network config)) = inl net /\ tun_call config srv net ∈ t.
Proof.
  unfold ServerStart.prepare. intros (t1 & u1 & _ & H)%M_bind_Ok. apply M_bind_Ok in H as (t2 & srv' & Hn & H).
  unfold lift in Hn. injection Hn as <- Hn. apply M_bind_Ok in H as (t3 & u3 & Hb & H).
  unfold call in Hb. injection Hb as <- _. apply M_bind_Ok in H as (t4 & name & Ht & H).
  pose proof (appends_grows _ _ _ _ _ (tun_appends os config srv') Ht) as G1.
  apply create_tun_Ok in Ht as (net & Hnet & Ht).
  apply M_bind_Ok in H as (t5 & u5 & Hnat & H). apply (appends_grows _ _ _ _ _ (nat_appends os config name)) in Hnat.
  apply M_bind_Ok in H as (t6 & u6 & Hs & [= <- <-]). rewrite spawn_all_ok in Hs. injection Hs as <- _.
  split; [done|]. split; [set_solver|]. exists net. split; [done|]. set_solver.
Qed.

Lemma run_server_trace os config t r : run_server os config [] = (t, r) ->
  exists before dropped after, t = before ++ dropped ++ after /\
    Forall privileged before /\ dropped `prefix_of` drop_calls os /\ Forall is_spawn after /\
    (after <> [] -> dropped = drop_calls os /\ Forall (fun c => os_error os c = None) dropped) /\
    forall srv, r = Ok srv ->
      new config = Ok srv /\ BindUdp (sv_listen_addr (cfg_server config)) ∈ before /\
      (exists net, net_parse (w := 32) (nw_subnet (cfg_network config)) = inl net /\ tun_call config srv net ∈ before) /\
      after = Spawn <$> [CleanupTask (sv_idle_timeout_sec (cfg_server config)); LogCleanupTask] ++ oauth_task config.
Proof.
  intros Hrun.
  destruct (appends_split _ _ _ _ _ _ (prepare_appends os config) Hrun) as [(l & -> & Hl & Hr)|(srv & l & Hl & Hp & H)].
  { exists l, [], []. rewrite app_nil_r. split_and!; try done; [apply prefix_nil|]. intros srv E. by apply Hr in E. }
  cbn [app] in *. destruct (drop_privileges os l) as [t1 r1] eqn:Hd. pose proof (drop_privileges_run _ _ _ _ Hd) as (d & -> & Hpre & Hok).
  unfold mbind, M_bind in H. rewrite Hd in H. destruct r1 as [u| |].
  - destruct (Hok u eq_refl) as [-> He]. rewrite spawn_all_ok in H. injection H as <- <-.
    exists l, (drop_calls os). eexists. rewrite app_assoc. split_and!; try done.
    + apply (spawns (_ :: _ :: oauth_task config)).
    + intros srv' [= <-]. destruct (prepare_Ok _ _ _ _ Hp) as (H1 & H2 & H3). done.
  - injection H as <- <-. exists l, d, []. rewrite app_nil_r. by split_and!.
  - injection H as <- <-. exists l, d, []. rewrite app_nil_r. by split_and!.
Qed.

(** C35 The order of the start, whatever fails.  Limits, sockets, the device, the
    firewall and the task that writes to the device come first; then come the
    calls that change the ids; the tasks for clean-up, logs and logins come
    last.  A process that is root and knows the ids of [nobody] or of the
    environment changes the group and then the user, and starts those tasks
    only when both calls have succeeded; one that is not root changes nothing;
    one that is root and knows no such ids also changes nothing, and serves as
    root.  A start that succeeds has bound the configured address and created
    the device with the gateway of the pool and the mask of the network. *)
Theorem start_order_and_privileges (os : Os) (config : ServerConfig) (t : Trace) (r : res str Server)
    (Hrun : run_server os config [] = (t, r)) :
  exists before dropped after, t = before ++ dropped ++ after /\
    Forall (fun c => match c with
                     | SetGid _ | SetUid _ | Spawn (CleanupTask _) | Spawn LogCleanupTask | Spawn (OAuthServer _ _) => False
                     | _ => True
                     end) before /\
    Forall is_spawn after /\
    (if os_is_root os then
       match target_id os "COREVPN_USER" (os_nobody_uid os), target_id os "COREVPN_GROUP" (os_nobody_gid os) with
       | Some uid, Some gid =>
           dropped `prefix_of` [SetGid gid; SetUid uid] /\
           (after <> [] -> dropped = [SetGid gid; SetUid uid] /\
              os_error os (SetGid gid) = None /\ os_error os (SetUid uid) = None)
       | _, _ => dropped = []
       end
     else dropped = []) /\
    forall srv, r = Ok srv ->
      new config = Ok srv /\ BindUdp (sv_listen_addr (cfg_server config)) ∈ before /\
      (exists net, net_parse (w := 32) (nw_subnet (cfg_network config)) = inl net /\ tun_call config srv net ∈ before) /\
      after = Spawn <$> [CleanupTask (sv_idle_timeout_sec (cfg_server config)); LogCleanupTask] ++ oauth_task config.
Proof.
  destruct (run_server_trace os config t r Hrun) as (before & dropped & after & -> & Hb & Hd & Ha & Hs & Hok).
  exists before, dropped, after. split; [done|]. split.
  { eapply Forall_impl; [exact Hb|]. intros [| | | | | | | | |[]]; done. }
  split; [done|]. split; [|done]. clear Hok Hb Ha. unfold drop_calls in *.
  destruct (os_is_root os); [|by apply prefix_nil_inv in Hd].
  destruct (target_id os "COREVPN_USER" _) as [uid|]; [|by apply prefix_nil_inv in Hd].
  destruct (target_id os "COREVPN_GROUP" _) as [gid|]; [|by apply prefix_nil_inv in Hd].
  split; [done|]. intros Hne. destruct (Hs Hne) as [-> He].
  apply Forall_cons in He as [? He]. apply Forall_cons in He as [? _]. done.
Qed.
(** *** A start on which nothing fails *)

(** Every call succeeds, the limits can be read, and the device has a name. *)
Record os_ready (os : Os) : Prop := {
  or_calls : forall c, os_error os c = None;
  or_limits : forall resource, exists limits, os_limit os resource = inl limits;
  or_tun : exists name, os_tun_name os = inl name;
}.

Definition succeeds {A} (m : M Trace str A) (a : A) : Prop := forall t, exists calls, m t = (t ++ calls, Ok a).
Lemma succeeds_bind {A B} (m : M Trace str A) (k : A -> M Trace str B) a b :
  succeeds m a -> succeeds (k a) b -> succeeds (m ≫= k) b.
Proof.
  intros Hm Hk t. destruct (Hm t) as [l1 H1]. destruct (Hk (t ++ l1)) as [l2 H2].
  exists (l1 ++ l2). unfold mbind, M_bind. by rewrite H1, H2, app_assoc.
Qed.
Lemma succeeds_ret {A} (a : A) : succeeds (mret a) a.
Proof. intros t. exists []. by rewrite app_nil_r. Qed.
Lemma succeeds_text {A} prefix (a : A) : succeeds (of_text prefix (inl a)) a.
Proof. apply succeeds_ret. Qed.
Lemma succeeds_ignored os c : succeeds (call_ignored os c) tt.
Proof. intros t. by exists [c]. Qed.
Lemma succeeds_call os c : os_ready os -> succeeds (call os c) tt.
Proof. intros H t. exists [c]. unfold call. by rewrite (or_calls os H). Qed.
Lemma succeeds_zoom {A} (conv : str -> str) (m : M Trace str A) a : succeeds m a -> succeeds (zoom id (fun t _ => t) conv m) a.
Proof. intros Hm t. destruct (Hm t) as [l Hl]. exists l. unfold zoom. cbn [id]. by rewrite Hl. Qed.
Lemma succeeds_spawn os tasks : succeeds (spawn_all os tasks) tt.
Proof. intros t. exists (Spawn <$> tasks). apply spawn_all_ok. Qed.
Lemma succeeds_limit os resource lo hi : os_ready os -> succeeds (set_limit os resource lo hi) tt.
Proof.
  intros H. unfold set_limit. destruct (or_limits os H resource) as [l ->].
  eapply succeeds_bind; [apply succeeds_text|by apply succeeds_call].
Qed.
Lemma succeeds_drop os : os_ready os -> succeeds (drop_privileges os) tt.
Proof.
  intros H. unfold drop_privileges. destruct (os_is_root os); [|apply succeeds_ret]. cbn [negb].
  destruct (target_id os "COREVPN_USER" (os_nobody_uid os)), (target_id os "COREVPN_GROUP" (os_nobody_gid os));
    try apply succeeds_ret.
  eapply succeeds_bind; by apply succeeds_call.
Qed.
Lemma succeeds_tun os config (srv : Server) net : os_ready os ->
  net_parse (w := 32) (N := N4) (nw_subnet (cfg_network config)) = inl net ->
  exists name, succeeds (create_tun os config srv) name.
Proof.
  intros H Hn. destruct (or_tun os H) as [name Hname]. exists name. unfold create_tun. rewrite Hn, Hname.
  eapply succeeds_bind; [apply succeeds_text|].
  eapply succeeds_bind; [by apply succeeds_zoom, succeeds_call|].
  eapply succeeds_bind; [apply succeeds_text|].
  eapply succeeds_bind; [by apply succeeds_zoom, succeeds_call|apply succeeds_ret].
Qed.

(** The server that [VpnServer::new] makes then serves. *)
Lemma run_server_succeeds os config (srv : Server) net : os_ready os -> new config = Ok srv ->
  net_parse (w := 32) (N := N4) (nw_subnet (cfg_network config)) = inl net -> succeeds (run_server os config) srv.
Proof.
  intros H Hs Hn. destruct (succeeds_tun os config srv net H Hn) as [name Ht].
  eapply succeeds_bind.
  - unfold ServerStart.prepare. eapply succeeds_bind.
    { eapply succeeds_bind; by apply succeeds_limit. }
    eapply succeeds_bind; [rewrite Hs; apply succeeds_ret|].
    eapply succeeds_bind; [by apply succeeds_call|]. eapply succeeds_bind; [exact Ht|].
    eapply succeeds_bind.
    { unfold setup_nat. do 3 (eapply succeeds_bind; [apply succeeds_ignored|]). apply succeeds_ignored. }
    eapply succeeds_bind; [apply succeeds_spawn|apply succeeds_ret].
  - eapply succeeds_bind; [by apply succeeds_drop|]. eapply succeeds_bind; [apply succeeds_spawn|apply succeeds_ret].
Qed.
End Start.

(** A process whose hard limit is low asks for a soft limit above it. *)
Lemma low_hard_limit os soft hard : os_limit os RlimitNofile = inl (soft, hard) -> hard < 1024 ->
  (forall r s h, h < s -> os_error os (SetLimit r s h) <> None) ->
  exists e, set_resource_limits os [] = ([SetLimit RlimitNofile 1024 hard], Err e).
Proof.
  intros Hl Hh Hos. unfold set_resource_limits, set_limit, mbind, M_bind, of_text, lift, call. rewrite Hl. cbn [snd].
  unfold clamp. rewrite (proj2 (Z.ltb_lt hard 1024)) by done.
  destruct (os_error os (SetLimit RlimitNofile 1024 hard)) as [e|] eqn:He; [by exists e|]. by apply Hos in He.
Qed.

(** Without an entry for [nobody] the server goes on as root. *)
Lemma root_without_nobody os : os_is_root os = true -> os_env os (lit "COREVPN_USER") = None -> os_nobody_uid os = None ->
  forall t, drop_privileges os t = (t, Ok tt).
Proof. intros Hr He Hn t. unfold drop_privileges, target_id. by rewrite Hr, He, Hn. Qed.
