(* ===== verification/WebUi.v ===== *)
(** * The administration pages

    src/crates/corevpn-server/src/webui: auth.rs, csrf.rs, state.rs, the
    handlers and the router of routes.rs, and the encodings of templates.rs.
    A page is the call of its template; the HTML text around the arguments is
    not modelled.  Readings of the clock, random values, files and the
    environment variable with the password are in [WebEnv]; decoding of forms,
    path segments, base64 and UUIDs (crates axum, serde, base64, uuid) is an
    interface. *)
From Stdlib Require Import QArith.
From S2P Require Import Prelude Errors Text Float Network CoreSession Addr ServerConfig ConnLog OAuth Cert ClientConfig Pki Generator Server.
Local Open Scope Z_scope.

(** ** templates.rs: encodings *)
Definition ALPHABET : str := lit "ABCDEFGHIJKLMNOPQRSTUVWXYZabcdefghijklmnopqrstuvwxyz0123456789+/".
Definition base64_digit (n : Z) : Z := default 0 (ALPHABET !! Z.to_nat (Z.land n 63)).

(** One turn of the loop, for a chunk of one to three bytes. *)
Definition base64_chunk (chunk : bytes) : str :=
  match chunk with
  | [a; b; c] =>
      let n := Z.lor (Z.lor (Z.shiftl a 16) (Z.shiftl b 8)) c in
      [base64_digit (Z.shiftr n 18); base64_digit (Z.shiftr n 12); base64_digit (Z.shiftr n 6); base64_digit n]
  | [a; b] =>
      let n := Z.lor (Z.shiftl a 16) (Z.shiftl b 8) in
      [base64_digit (Z.shiftr n 18); base64_digit (Z.shiftr n 12); base64_digit (Z.shiftr n 6); 61]
  | [a] =>
      let n := Z.shiftl a 16 in
      [base64_digit (Z.shiftr n 18); base64_digit (Z.shiftr n 12); 61; 61]
  | _ => []
  end.
Fixpoint base64_encode (data : bytes) : str :=
  match data with
  | a :: b :: c :: data' => base64_chunk [a; b; c] ++ base64_encode data'
  | [] => []
  | chunk => base64_chunk chunk
  end.

Definition html_escape (s : str) : str :=
  replace_char 39 (lit "&#39;") (replace_char 34 (lit "&quot;") (replace_char 62 (lit "&gt;")
    (replace_char 60 (lit "&lt;") (replace_char 38 (lit "&amp;") s)))).

(** [format!("{:.d$}", x)] of a non-negative [x]: the exact value, rounded half
    to even. *)
Fixpoint pad_dec (d : nat) (z : Z) : str :=
  match d with O => [] | S d' => pad_dec d' (z / 10) ++ [48 + z mod 10] end.
Definition fmt_fixed (d : nat) (x : Q) : str :=
  let scaled := round_half_even (Qmult x (inject_Z (10 ^ Z.of_nat d))) in
  fmt_dec (scaled / 10 ^ Z.of_nat d) ++ [46] ++ pad_dec d scaled.
(** [bytes as f64 / unit as f64]. *)
Definition in_units (bytes unit : Z) : Q := rn (Qdiv (rn (inject_Z bytes)) (rn (inject_Z unit))).

(** ** routes.rs: helpers *)
Definition format_bytes (bytes : Z) : str :=
  if 1073741824 <=? bytes then fmt_fixed 1 (in_units bytes 1073741824) ++ lit " GB"
  else if 1048576 <=? bytes then fmt_fixed 1 (in_units bytes 1048576) ++ lit " MB"
  else if 1024 <=? bytes then fmt_fixed 1 (in_units bytes 1024) ++ lit " KB"
  else fmt_dec bytes ++ lit " B".
(** The sum wraps. *)
Definition format_data_usage (rx tx : Z) : str := format_bytes (wrap 64 (rx + tx)).

(** The characters 0 to 1f and 7f to 9f. *)
Definition control_char (c : str) : bool :=
  match c with
  | [b] => (b <=? 31) || (b =? 127)
  | [194; b] => (128 <=? b) && (b <=? 159)
  | _ => false
  end.
Definition one_of (l : str) (c : str) : bool := match c with [b] => bool_decide (b ∈ l) | _ => false end.

Definition sanitize_filename_for_download (filename : str) : str :=
  let kept := filter (fun c => negb (one_of (lit "/\") c || control_char c) = true) (chars filename) in
  concat (take 255 (chars (trim (concat kept)))).
Section Sanitize.
Context {UC : Unicode}.
Definition sanitize_filename (input : str) : str :=
  concat (take 64 (filter (fun c => uc_alphanumeric c || one_of (lit "-_.") c = true) (chars input))).
Definition sanitize_email (input : str) : str :=
  concat (take 255 (filter (fun c => uc_alphanumeric c || one_of (lit "@.-_+") c = true) (chars input))).
End Sanitize.
Definition sanitize_path_param (input : str) : str :=
  concat (take 64 (filter (fun c => negb (one_of (lit "/\.") c || control_char c) = true) (chars input))).

(** [replace(['@', '.', ' '], "_")]. *)
Definition underscored (s : str) : str := map (fun b => if (b =? 64) || (b =? 46) || (b =? 32) then 95 else b) s.

(** ** csrf.rs *)
Abbreviation CsrfStore := (gmap str (str * Z)).
Definition CsrfStore_cleanup_expired (now : Z) (s : CsrfStore) : CsrfStore := filter (fun e => now < e.2.2) s.
(** [now] is read for the expiry and [clean] for the clean-up. *)
Definition CsrfStore_generate_token (now clean : Z) (token session_id : str) (s : CsrfStore) : CsrfStore * str :=
  (CsrfStore_cleanup_expired clean (<[session_id := (token, now + nanos 3600)]> s), token).
Definition CsrfStore_validate_token (now : Z) (session_id token : str) (s : CsrfStore) : CsrfStore * bool :=
  let s := CsrfStore_cleanup_expired now s in
  (s, match s !! session_id with Some (stored_token, _) => bool_decide (stored_token = token) | None => false end).

(** ** auth.rs *)
Definition ADMIN_USERNAME : str := lit "admin".

(** [credentials.splitn(2, ':')]. *)
Definition credential_parts (credentials : str) : str * str :=
  match find_str [58] credentials with
  | Some i => (take i credentials, drop (S i) credentials)
  | None => (credentials, [])
  end.
Definition constant_time_eq (a b : str) : bool :=
  if negb (length a =? length b)%nat then false else bool_decide (a = b).

(** Whether [require_auth] lets a request through, and the body of its answer
    when it does not. *)
Definition auth_check {B64 : Base64} (admin_password : option str) (authorization : option str) : option str :=
  let unauthorized := Some (lit "Unauthorized. Please provide valid credentials.") in
  match admin_password with
  | Some ((_ :: _) as expected_password) =>
      match authorization with
      | Some auth =>
          if starts_with (lit "Basic ") auth then
            match b64_decode (drop 6 auth) with
            | inr _ => unauthorized
            | inl decoded =>
                if negb (utf8_valid decoded) then unauthorized else
                let '(username, password) := credential_parts decoded in
                if bool_decide (username = ADMIN_USERNAME) && constant_time_eq password expected_password
                then None else unauthorized
            end
          else unauthorized
      | None => unauthorized
      end
  | _ => Some (lit "Admin password not configured. Set COREVPN_ADMIN_PASSWORD environment variable.")
  end.

(** ** state.rs *)
Definition uptime_text (secs : Z) : str :=
  if secs <? 60 then fmt_dec secs ++ lit "s"
  else if secs <? 3600 then fmt_dec (secs / 60) ++ lit "m " ++ fmt_dec (secs mod 60) ++ lit "s"
  else if secs <? 86400 then fmt_dec (secs / 3600) ++ lit "h " ++ fmt_dec (secs mod 3600 / 60) ++ lit "m"
  else fmt_dec (secs / 86400) ++ lit "d " ++ fmt_dec (secs mod 86400 / 3600) ++ lit "h".

(** ** routes.rs: requests and answers *)
Record ClientInfo := mkClientInfo {
  ci_id : str; ci_name : str; ci_email : str; ci_connected : bool; ci_vpn_ip : option str; ci_last_seen : option str;
}.
Record SessionInfo := mkSessionInfo {
  si_id : str; si_client_name : str; si_vpn_ip : str; si_real_ip : str; si_connected_at : str; si_data_usage : str;
}.

(** The templates and their arguments. *)
Inductive Page :=
| DashboardPage (uptime : str) (active_clients total_connections bytes_rx bytes_tx : Z) (public_host : str) (port : Z)
    (protocol subnet : str)
| ClientsPage (clients : list ClientInfo) (csrf_token : str)
| NewClientPage (csrf_token : str)
| SessionsPage (sessions : list SessionInfo) (csrf_token : str)
| SettingsPage (public_host : str) (port : Z) (protocol subnet : str) (max_clients : Z) (oauth_enabled : bool)
    (oauth_provider : option str) (csrf_token : str)
| ClientDownloadPage (client_name filename ovpn_content : str)
| QuickGeneratePage (csrf_token : str)
| ErrorPage (status : Z) (message : str).

Inductive WebBody := PageBody (p : Page) | FileBody (content : str) | TextBody (text : str) | NoBody.
Record WebResponse := mkWebResponse { wr_status : Z; wr_headers : list (str * str); wr_body : WebBody }.
Definition html (p : Page) : WebResponse := mkWebResponse 200 [] (PageBody p).
Definition redirect_to (uri : string) : WebResponse := mkWebResponse 303 [(lit "location", lit uri)] NoBody.

Definition error_response (status : Z) (message : string) : WebResponse :=
  let safe_message := if status =? 500 then lit "An internal error occurred. Please try again later." else lit message in
  mkWebResponse status [] (PageBody (ErrorPage status safe_message)).
Definition unauthorized_response (body : str) : WebResponse :=
  mkWebResponse 401
    [(lit "www-authenticate", lit "Basic realm=" ++ [34] ++ lit "CoreVPN Admin" ++ [34] ++ lit ", charset=" ++ [34] ++ lit "UTF-8" ++ [34]);
     (lit "content-type", lit "text/plain; charset=utf-8")] (TextBody body).
Definition not_found : WebResponse := html (ErrorPage 404 (lit "The page you're looking for doesn't exist.")).

(** The file as an attachment; [header_ok] is the check of header values. *)
Definition attachment (header_ok : str -> bool) (filename content : str) : WebResponse :=
  let disposition := lit "attachment; filename=" ++ [34] ++ filename ++ [34] in
  if header_ok disposition
  then mkWebResponse 200 [(lit "content-type", lit "application/x-openvpn-profile"); (lit "content-disposition", disposition)]
         (FileBody content)
  else error_response 500 "Failed to build response".

Record CreateClientForm := mkCreateForm { cf_name : str; cf_email : str; cf_expires : Z; cf_csrf_token : str }.
Definition default_expires : Z := 365.
Record QuickGenerateForm := mkQuickForm { qf_name : str; qf_mobile : bool; qf_csrf_token : str }.
(** [RevokeClientForm], [DisconnectSessionForm] and [DisconnectAllForm]. *)
Record TokenForm := mkTokenForm { tf_csrf_token : str }.

Inductive Method := GET | HEAD | POST | OtherMethod.
#[export] Instance Method_eq_dec : EqDecision Method.
Proof. solve_decision. Defined.
Record WebRequest := mkWebRequest {
  rq_method : Method; rq_path : str; rq_authorization : option str; rq_body : bytes;
}.

(** The extractors: a form or the answer that rejects it, the captures of a
    path likewise; the router, which refuses a pattern or picks one of the
    patterns for a path; UUIDs; the calendar format of the session list. *)
Class WebLib {Ch : Chrono} {Uu : Uuids} := {
  form_create : bytes -> CreateClientForm + WebResponse;
  form_quick : bytes -> QuickGenerateForm + WebResponse;
  form_token : bytes -> TokenForm + WebResponse;
  path_segment : list str -> str + WebResponse;
  router_accepts : str -> bool;
  router_pick : list str -> str -> option (str * list str);
  uuid_parse : str -> option Uuid;
  dt_format_minutes : DateTime -> str;
  header_value_ok : str -> bool;
  method_not_allowed : WebResponse;
}.

Section Pages.
Context {Ch : Chrono} {Uu : Uuids} {WL : WebLib} {R : Rcgen} {UC : Unicode} {B64 : Base64}.

Record WebEnv := mkWebEnv {
  we_password : option str;
  we_now : Z;
  we_clean : Z;
  we_token : str;
  we_uptime_secs : Z;
  we_clock : Uuid -> DateTime;
  we_files : Files;
  we_load_time : Z;
  we_issue_time : Z;
  we_fresh_key : KeyPair + str;
}.

(** [WebUiState] and the global store of tokens. *)
Record WebUiState := mkWebState {
  ws_config : ServerConfig;
  ws_session_manager : SessionManager;
  ws_csrf : CsrfStore;
}.
Definition ws_set_csrf (s : CsrfStore) (w : WebUiState) : WebUiState := mkWebState (ws_config w) (ws_session_manager w) s.
Definition ws_set_sessions (m : SessionManager) (w : WebUiState) : WebUiState := mkWebState (ws_config w) m (ws_csrf w).

(** Pages return an answer; the generation of certificates can panic. *)
Abbreviation Handler := (M WebUiState Empty_set WebResponse).

Definition get_session_id_from_state : str := lit "default".
Definition new_token (env : WebEnv) : M WebUiState Empty_set str := fun w =>
  let '(s, t) := CsrfStore_generate_token (we_now env) (we_clean env) (we_token env) get_session_id_from_state (ws_csrf w) in
  (ws_set_csrf s w, Ok t).
Definition token_valid (env : WebEnv) (token : str) : M WebUiState Empty_set bool := fun w =>
  let '(s, ok) := CsrfStore_validate_token (we_now env) get_session_id_from_state token (ws_csrf w) in
  (ws_set_csrf s w, Ok ok).

Definition dashboard (env : WebEnv) : Handler :=
  w ← get;
  let config := ws_config w in
  let sm := ws_session_manager w in
  mret (html (DashboardPage (uptime_text (we_uptime_secs env))
    (wrap 32 (Z.of_nat (length (SessionManager_active_sessions (we_clock env) sm))))
    (Z.of_nat (SessionManager_session_count sm)) 0 0 (sv_public_host (cfg_server config))
    (SocketAddr_port (sv_listen_addr (cfg_server config))) (sv_protocol (cfg_server config))
    (nw_subnet (cfg_network config)))).

Definition clients_list (env : WebEnv) : Handler := token ← new_token env; mret (html (ClientsPage [] token)).
Definition new_client_form (env : WebEnv) : Handler := token ← new_token env; mret (html (NewClientPage token)).
Definition quick_generate_form (env : WebEnv) : Handler := token ← new_token env; mret (html (QuickGeneratePage token)).

(** The authority and the static key from the data directory, as the four
    handlers that generate files load them. *)
Definition load_generator (env : WebEnv) (config : ServerConfig) : res Empty_set (ConfigGenerator + WebResponse) :=
  match fl_read (we_files env) (ServerConfig_ca_cert_path config) with
  | inr _ => Ok (inr (error_response 500 "Failed to read CA certificate"))
  | inl ca_cert =>
      match fl_read (we_files env) (ServerConfig_ca_key_path config) with
      | inr _ => Ok (inr (error_response 500 "Failed to read CA key"))
      | inl ca_key =>
          match CertificateAuthority_from_pem (we_load_time env) ca_cert ca_key with
          | Panic => Panic
          | Err _ => Ok (inr (error_response 500 "Failed to load CA"))
          | Ok ca =>
              let ta_key := match fl_read (we_files env) (ServerConfig_ta_key_path config) with
                            | inl k => Some k | inr _ => None end in
              Ok (inl (ConfigGenerator_new config ca ta_key))
          end
      end
  end.

(** Generate and answer with [k]. *)
Definition generate_or (env : WebEnv) (config : ServerConfig)
    (generate : ConfigGenerator -> res ConfigError GeneratedConfig) (k : GeneratedConfig -> WebResponse) : res Empty_set WebResponse :=
  g ← load_generator env config;
  match g with
  | inr response => Ok response
  | inl generator =>
      match generate generator with
      | Panic => Panic
      | Err _ => Ok (error_response 500 "Failed to generate configuration")
      | Ok generated => Ok (k generated)
      end
  end.

Definition create_client (env : WebEnv) (form : CreateClientForm) : Handler :=
  ok ← token_valid env (cf_csrf_token form);
  if negb ok then mret (error_response 403 "Invalid CSRF token") else
  let name := sanitize_filename (cf_name form) in
  let email := sanitize_email (cf_email form) in
  if bool_decide (name = []) || (64 <? length name)%nat then mret (error_response 400 "Invalid client name") else
  w ← get;
  lift (generate_or env (ws_config w)
    (fun g => ConfigGenerator_generate_client_config (we_issue_time env) (we_fresh_key env) g name (Some email))
    (fun generated => html (ClientDownloadPage name (sanitize_filename_for_download (GeneratedConfig_filename generated))
                              (gc_ovpn_content generated)))).

Definition download_client_config (env : WebEnv) (id : str) : Handler :=
  let id := sanitize_path_param id in
  if bool_decide (id = []) || (64 <? length id)%nat then mret (error_response 400 "Invalid client ID") else
  w ← get;
  lift (generate_or env (ws_config w)
    (fun g => ConfigGenerator_generate_client_config (we_issue_time env) (we_fresh_key env) g id (Some id))
    (fun generated => attachment header_value_ok (sanitize_filename_for_download (GeneratedConfig_filename generated))
                        (gc_ovpn_content generated))).

Definition mobile_filename (name : str) : str := sanitize_filename_for_download (underscored name ++ lit "-mobile.ovpn").

Definition download_client_config_mobile (env : WebEnv) (id : str) : Handler :=
  let id := sanitize_path_param id in
  if bool_decide (id = []) || (64 <? length id)%nat then mret (error_response 400 "Invalid client ID") else
  w ← get;
  lift (generate_or env (ws_config w)
    (fun g => ConfigGenerator_generate_mobile_config (we_issue_time env) (we_fresh_key env) g id (Some id))
    (fun generated => attachment header_value_ok (mobile_filename id) (gc_ovpn_content generated))).

Definition quick_generate_download (env : WebEnv) (form : QuickGenerateForm) : Handler :=
  ok ← token_valid env (qf_csrf_token form);
  if negb ok then mret (error_response 403 "Invalid CSRF token") else
  let name := sanitize_filename (trim (qf_name form)) in
  if bool_decide (name = []) || (64 <? length name)%nat
  then mret (error_response 400 "Invalid client name. Must be 1-64 characters.") else
  w ← get;
  lift (generate_or env (ws_config w)
    (fun g => if qf_mobile form
              then ConfigGenerator_generate_mobile_config (we_issue_time env) (we_fresh_key env) g name None
              else ConfigGenerator_generate_client_config (we_issue_time env) (we_fresh_key env) g name None)
    (fun generated => attachment header_value_ok
       (if qf_mobile form then mobile_filename name
        else sanitize_filename_for_download (GeneratedConfig_filename generated))
       (gc_ovpn_content generated))).

Definition revoke_client (env : WebEnv) (id : str) (form : TokenForm) : Handler :=
  ok ← token_valid env (tf_csrf_token form);
  if negb ok then mret (redirect_to "/admin/clients?error=csrf") else
  if bool_decide (sanitize_path_param id = []) then mret (redirect_to "/admin/clients?error=invalid_id")
  else mret (redirect_to "/admin/clients").

Definition session_info (s : Session) : SessionInfo :=
  let vpn_ip := default (lit "-")
    (addr ← se_vpn_address s;
     match va_ipv4 addr with Some ip => Some (fmt_ipv4 ip) | None => fmt_ipv6 <$> va_ipv6 addr end) in
  mkSessionInfo (uuid_fmt (se_id s)) (default (lit "Unknown") (se_user_id s)) vpn_ip
    (fmt_ip (se_client_ip s) ++ [58] ++ fmt_dec (se_client_port s)) (dt_format_minutes (se_created_at s))
    (format_data_usage (se_bytes_rx s) (se_bytes_tx s)).
Definition sessions_list (env : WebEnv) : Handler :=
  w ← get;
  let infos := map session_info (SessionManager_active_sessions (we_clock env) (ws_session_manager w)) in
  token ← new_token env;
  mret (html (SessionsPage infos token)).

Definition drop_session (id : Uuid) : M WebUiState Empty_set unit :=
  modify (fun w => ws_set_sessions (fst (SessionManager_remove_session id (ws_session_manager w))) w).
Definition disconnect_session (env : WebEnv) (id : str) (form : TokenForm) : Handler :=
  ok ← token_valid env (tf_csrf_token form);
  if negb ok then mret (redirect_to "/admin/sessions?error=csrf") else
  let id := sanitize_path_param id in
  if bool_decide (id = []) then mret (redirect_to "/admin/sessions?error=invalid_id") else
  _ ← (match uuid_parse id with Some uuid => drop_session uuid | None => mret tt end);
  mret (redirect_to "/admin/sessions").
Definition disconnect_all_sessions (env : WebEnv) (form : TokenForm) : Handler :=
  ok ← token_valid env (tf_csrf_token form);
  if negb ok then mret (redirect_to "/admin/sessions?error=csrf") else
  w ← get;
  let session_ids := map se_id (SessionManager_active_sessions (we_clock env) (ws_session_manager w)) in
  _ ← modify (fun w => ws_set_sessions
        (foldl (fun m id => fst (SessionManager_remove_session id m)) (ws_session_manager w) session_ids) w);
  mret (redirect_to "/admin/sessions").

Definition settings_page (env : WebEnv) : Handler :=
  w ← get;
  let config := ws_config w in
  token ← new_token env;
  mret (html (SettingsPage (sv_public_host (cfg_server config)) (SocketAddr_port (sv_listen_addr (cfg_server config)))
    (sv_protocol (cfg_server config)) (nw_subnet (cfg_network config)) (sv_max_clients (cfg_server config))
    (from_option oa_enabled false (cfg_oauth config)) (oa_provider <$> cfg_oauth config) token)).

(** ** The router *)
Definition with_form {F} (decode : bytes -> F + WebResponse) (req : WebRequest) (k : F -> Handler) : Handler :=
  match decode (rq_body req) with inl form => k form | inr rejection => mret rejection end.
Definition with_segment (captures : list str) (k : str -> Handler) : Handler :=
  match path_segment captures with inl id => k id | inr rejection => mret rejection end.

(** The table of routes: the pattern, the method, and the handler with its
    extractors. *)
Definition WebRoute : Type := str * Method * (WebEnv -> WebRequest -> list str -> Handler).
Definition admin_routes : list WebRoute :=
  [ (lit "/", GET, fun env _ _ => dashboard env);
    (lit "/admin", GET, fun env _ _ => dashboard env);
    (lit "/admin/", GET, fun env _ _ => dashboard env);
    (lit "/admin/clients", GET, fun env _ _ => clients_list env);
    (lit "/admin/clients/", GET, fun env _ _ => clients_list env);
    (lit "/admin/clients/new", GET, fun env _ _ => new_client_form env);
    (lit "/admin/clients", POST, fun env req _ => with_form form_create req (create_client env));
    (lit "/admin/clients/:id/download", GET, fun env _ caps => with_segment caps (download_client_config env));
    (lit "/admin/clients/:id/download/mobile", GET,
     fun env _ caps => with_segment caps (download_client_config_mobile env));
    (lit "/admin/clients/:id/revoke", POST,
     fun env req caps => with_segment caps (fun id => with_form form_token req (revoke_client env id)));
    (lit "/admin/clients/quick-generate", GET, fun env _ _ => quick_generate_form env);
    (lit "/admin/clients/quick-generate", POST,
     fun env req _ => with_form form_quick req (quick_generate_download env));
    (lit "/admin/sessions", GET, fun env _ _ => sessions_list env);
    (lit "/admin/sessions/", GET, fun env _ _ => sessions_list env);
    (lit "/admin/sessions/:id/disconnect", POST,
     fun env req caps => with_segment caps (fun id => with_form form_token req (disconnect_session env id)));
    (lit "/admin/sessions/disconnect-all", POST,
     fun env req _ => with_form form_token req (disconnect_all_sessions env));
    (lit "/admin/settings", GET, fun env _ _ => settings_page env);
    (lit "/admin/settings/", GET, fun env _ _ => settings_page env) ].
Definition patterns : list str := map (fun r : WebRoute => r.1.1) admin_routes.

(** The handler of a request: the router picks the pattern; among the handlers
    of the pattern the method decides, with HEAD answered by the one of GET. *)
Definition route (env : WebEnv) (req : WebRequest) : option Handler :=
  match router_pick patterns (rq_path req) with
  | None => None
  | Some (pattern, captures) =>
      let method := match rq_method req with HEAD => GET | m => m end in
      match List.find (fun r : WebRoute => bool_decide (r.1.1 = pattern /\ r.1.2 = method)) admin_routes with
      | Some r => Some (r.2 env req captures)
      | None => Some (mret method_not_allowed)
      end
  end.

Definition require_auth (env : WebEnv) (req : WebRequest) (next : Handler) : Handler :=
  match auth_check (we_password env) (rq_authorization req) with
  | None => next
  | Some body => mret (unauthorized_response body)
  end.
(** [csrf_middleware] of routes.rs passes every request on. *)
Definition csrf_middleware (next : Handler) : Handler := next.
Definition csp_headers : list (str * str) :=
  [(lit "content-security-policy",
    lit "default-src 'self'; script-src 'self' 'unsafe-inline' https://cdn.tailwindcss.com https://fonts.googleapis.com; style-src 'self' 'unsafe-inline' https://cdn.tailwindcss.com https://fonts.googleapis.com; font-src 'self' https://fonts.gstatic.com; img-src 'self' data:; connect-src 'self'; frame-ancestors 'none'; base-uri 'self'; form-action 'self'");
   (lit "x-content-type-options", lit "nosniff"); (lit "x-frame-options", lit "DENY");
   (lit "x-xss-protection", lit "1; mode=block"); (lit "referrer-policy", lit "strict-origin-when-cross-origin")].
Definition csp_middleware (next : Handler) : Handler :=
  response ← next;
  mret (mkWebResponse (wr_status response) (wr_headers response ++ csp_headers) (wr_body response)).

(** The routes are wrapped in the three layers; the fallback is not. *)
Definition web_request (env : WebEnv) (req : WebRequest) : Handler :=
  match route env req with
  | Some handler => csp_middleware (csrf_middleware (require_auth env req handler))
  | None => mret not_found
  end.

(** [Router::route] panics on a pattern it does not accept. *)
Definition create_router : res Empty_set (WebEnv -> WebRequest -> Handler) :=
  if forallb router_accepts patterns then Ok web_request else Panic.

Definition is_auth_configured (password : option str) : bool := is_some password.
Definition WebUiState_new (config : ServerConfig) (sm : SessionManager) : WebUiState := mkWebState config sm ∅.
(** Up to the binding of the socket: the state and the service it would serve. *)
Definition run_web_ui (one_day : TimeDelta) (password : option str) (config : ServerConfig)
    : res str (WebUiState * (WebEnv -> WebRequest -> Handler)) :=
  if negb (is_auth_configured password)
  then Err (lit "Admin password required. Set COREVPN_ADMIN_PASSWORD environment variable.") else
  let session_manager := SessionManager_new (Z.to_nat (sv_max_clients (cfg_server config))) one_day in
  let state := WebUiState_new config session_manager in
  match create_router with
  | Ok app => Ok (state, app)
  | Err e => match e with end
  | Panic => Panic
  end.
End Pages.
