(* ===== verification/Ovpn.v ===== *)
(** * Client configuration files

    src/crates/corevpn-cli/src/ovpn.rs: the reader of .ovpn files. *)
From S2P Require Import Prelude Errors Text Network Addr.
Local Open Scope Z_scope.

(** [anyhow::Error], as its text; the texts of the wrapped errors are left
    out. *)
Inductive OvpnError := OvpnMessage (text : str).

Record OvpnConfig := mkOvpn {
  ov_remote : SocketAddr;
  ov_protocol : str;
  ov_cipher : str;
  ov_data_ciphers : list str;
  ov_auth : str;
  ov_verb : Z;
  ov_ca_pem : str;
  ov_cert_pem : str;
  ov_key_pem : str;
  ov_tls_auth_key : option bytes;
  ov_key_direction : option Z;
  ov_remote_cert_tls : bool;
  ov_dev : str;
}.

(** ** Inline blocks and the static key *)
Definition extract_inline_block (content tag : str) : res OvpnError (option str) :=
  let start_tag := lit "<" ++ tag ++ lit ">" in
  let end_tag := lit "</" ++ tag ++ lit ">" in
  match find_str start_tag content, find_str end_tag content with
  | Some start_idx, Some end_idx =>
      if (end_idx <=? start_idx)%nat then Ok None else
      let block_start := (start_idx + length start_tag)%nat in
      block ← str_slice content block_start end_idx;
      Ok (Some (trim block))
  | _, _ => Ok None
  end.

(** The pairs from position [i] on; the text has an even number of bytes. *)
Fixpoint hex_pairs (fuel i : nat) (hex : str) : res OvpnError bytes :=
  match fuel with
  | O => Ok []
  | S f =>
      if (i <? length hex)%nat then
        pair ← str_slice hex i (i + 2);
        byte ← ok_or (u8_from_hex pair)
                 (OvpnMessage (lit "Invalid hex at position " ++ fmt_dec (Z.of_nat i)));
        rest ← hex_pairs f (i + 2) hex;
        Ok (byte :: rest)
      else Ok []
  end.
Definition hex_decode (hex : str) : res OvpnError bytes :=
  if negb (length hex mod 2 =? 0)%nat then Err (OvpnMessage (lit "Hex string has odd length"))
  else hex_pairs (length hex) 0 hex.

Definition key_line (line : str) : bool :=
  negb (bool_decide (line = []) || starts_with (lit "#") line || starts_with (lit "-") line
        || contains (lit "OpenVPN Static key") line).
Definition cli_parse_static_key (pem_block : str) : res OvpnError bytes :=
  let hex_data := concat (filter (fun l => key_line l = true) (map trim (str_lines pem_block))) in
  bytes ← map_err (fun _ => OvpnMessage (lit "Failed to decode tls-auth key hex data")) (hex_decode hex_data);
  if negb (length bytes =? 256)%nat then
    Err (OvpnMessage (lit "tls-auth key has wrong length: expected 256 bytes, got "
                      ++ fmt_dec (Z.of_nat (length bytes))))
  else Ok bytes.

(** ** Directives *)
Record Directives := mkDirectives {
  di_host : str;
  di_port : Z;
  di_protocol : str;
  di_cipher : str;
  di_data_ciphers : list str;
  di_auth : str;
  di_verb : Z;
  di_remote_cert_tls : bool;
  di_key_direction : option Z;
  di_dev : str;
}.
Definition Directives_default : Directives :=
  mkDirectives [] 1194 (lit "udp") (lit "AES-256-GCM") [] (lit "SHA256") 3 false None (lit "tun").

Definition apply_directive (d : Directives) (line : str) : Directives :=
  let line := trim line in
  if bool_decide (line = []) || starts_with (lit "#") line || starts_with (lit ";") line then d else
  match split_whitespace line with
  | [] => d
  | word :: args =>
      if decide (word = lit "remote") then
        match args with
        | [] => d
        | host :: args' =>
            mkDirectives host
              (match args' with [] => di_port d | p :: _ => default 1194 (parse_uint 16 p) end)
              (di_protocol d) (di_cipher d) (di_data_ciphers d) (di_auth d) (di_verb d)
              (di_remote_cert_tls d) (di_key_direction d) (di_dev d)
        end
      else if decide (word = lit "proto") then
        match args with
        | [] => d
        | p :: _ => mkDirectives (di_host d) (di_port d) p (di_cipher d) (di_data_ciphers d) (di_auth d)
                      (di_verb d) (di_remote_cert_tls d) (di_key_direction d) (di_dev d)
        end
      else if decide (word = lit "cipher") then
        match args with
        | [] => d
        | c :: _ => mkDirectives (di_host d) (di_port d) (di_protocol d) c (di_data_ciphers d) (di_auth d)
                      (di_verb d) (di_remote_cert_tls d) (di_key_direction d) (di_dev d)
        end
      else if decide (word = lit "data-ciphers") then
        match args with
        | [] => d
        | cs :: _ => mkDirectives (di_host d) (di_port d) (di_protocol d) (di_cipher d) (split_on 58 cs)
                      (di_auth d) (di_verb d) (di_remote_cert_tls d) (di_key_direction d) (di_dev d)
        end
      else if decide (word = lit "auth") then
        match args with
        | [] => d
        | a :: _ => mkDirectives (di_host d) (di_port d) (di_protocol d) (di_cipher d) (di_data_ciphers d) a
                      (di_verb d) (di_remote_cert_tls d) (di_key_direction d) (di_dev d)
        end
      else if decide (word = lit "verb") then
        match args with
        | [] => d
        | v :: _ => mkDirectives (di_host d) (di_port d) (di_protocol d) (di_cipher d) (di_data_ciphers d)
                      (di_auth d) (default 3 (parse_uint 8 v)) (di_remote_cert_tls d) (di_key_direction d)
                      (di_dev d)
        end
      else if decide (word = lit "remote-cert-tls") then
        mkDirectives (di_host d) (di_port d) (di_protocol d) (di_cipher d) (di_data_ciphers d) (di_auth d)
          (di_verb d) true (di_key_direction d) (di_dev d)
      else if decide (word = lit "key-direction") then
        match args with
        | [] => d
        | k :: _ => mkDirectives (di_host d) (di_port d) (di_protocol d) (di_cipher d) (di_data_ciphers d)
                      (di_auth d) (di_verb d) (di_remote_cert_tls d) (Some (default 1 (parse_uint 8 k)))
                      (di_dev d)
        end
      else if decide (word = lit "dev") then
        match args with
        | [] => d
        | v :: _ => mkDirectives (di_host d) (di_port d) (di_protocol d) (di_cipher d) (di_data_ciphers d)
                      (di_auth d) (di_verb d) (di_remote_cert_tls d) (di_key_direction d) v
        end
      else d
  end.
Definition parse_directives (lines : list str) : Directives :=
  fold_left apply_directive lines Directives_default.

(** ** The file *)
Definition missing_block (text : string) (block : res OvpnError (option str)) : res OvpnError str :=
  b ← block; ok_or b (OvpnMessage (lit text)).

(** The last part: the address, and the fields together. *)
Definition resolve_remote (host : str) (port : Z) : res OvpnError SocketAddr :=
  let address := host ++ lit ":" ++ fmt_dec port in
  ok_or (parse_socket_addr address) (OvpnMessage (lit "Invalid remote address: " ++ address)).

Definition OvpnConfig_parse (content : str) : res OvpnError OvpnConfig :=
  ca_pem ← missing_block "Missing <ca> block in .ovpn file" (extract_inline_block content (lit "ca"));
  cert_pem ← missing_block "Missing <cert> block in .ovpn file" (extract_inline_block content (lit "cert"));
  key_pem ← missing_block "Missing <key> block in .ovpn file" (extract_inline_block content (lit "key"));
  tls_auth_raw ← extract_inline_block content (lit "tls-auth");
  tls_auth_key ← (match tls_auth_raw with
                  | Some raw => Some <$> cli_parse_static_key raw
                  | None => Ok None
                  end);
  let d := parse_directives (str_lines content) in
  if decide (di_host d = []) then Err (OvpnMessage (lit "Missing 'remote' directive in .ovpn file")) else
  remote ← resolve_remote (di_host d) (di_port d);
  Ok (mkOvpn remote (di_protocol d) (di_cipher d) (di_data_ciphers d) (di_auth d) (di_verb d) ca_pem cert_pem
        key_pem tls_auth_key (di_key_direction d) (di_remote_cert_tls d) (di_dev d)).

(** [parse_file], of what reading the file gives. *)
Definition OvpnConfig_parse_file (read : str + str) (path : str) : res OvpnError OvpnConfig :=
  match read with
  | inl content => OvpnConfig_parse content
  | inr _ => Err (OvpnMessage (lit "Failed to read .ovpn file: " ++ path))
  end.
