(* ===== verification/OvpnFile.v ===== *)
(** * Generated files are read back

    What [ClientConfig::to_ovpn] (corevpn-config) writes and
    [OvpnConfig::parse] (corevpn-cli) reads. *)
From S2P Require Import Prelude Errors Text Network Addr ServerConfig Cert ClientConfig Pki Ovpn.
Local Open Scope Z_scope.

(** ** Joined lines *)
Lemma join_app sep a b : a <> [] -> b <> [] -> join sep (a ++ b) = join sep a ++ sep ++ join sep b.
Proof.
  intros Ha Hb. induction a as [|x a IH]; [done|]. destruct a as [|y a].
  - cbn [app join]. destruct b; [done|]. by rewrite <- ?app_assoc.
  - change (join sep ((x :: y :: a) ++ b)) with (x ++ sep ++ join sep ((y :: a) ++ b)).
    rewrite IH by done. change (join sep (x :: y :: a)) with (x ++ sep ++ join sep (y :: a)).
    by rewrite <- !app_assoc.
Qed.

Lemma join_cons sep x ls : ls <> [] -> join sep (x :: ls) = x ++ sep ++ join sep ls.
Proof. by destruct ls. Qed.

Lemma concat_lines ls : ls <> [] -> concat (map (fun l => l ++ [10]) ls) = join [10] ls ++ [10].
Proof.
  induction ls as [|x ls IH]; intros H; [done|]. destruct ls as [|y ls]; [cbn; by rewrite app_nil_r|].
  rewrite join_cons by done. cbn [map concat] in *. rewrite IH by done. by rewrite <- !app_assoc.
Qed.

Lemma strip_lines_ok ls : Forall line_ok ls ->
  strip_lines ls = ls \/ exists ls', ls = ls' ++ [[]] /\ strip_lines ls = ls'.
Proof.
  intros H. induction H as [|l ls [Hl Hr] H IH]; [by left|]. destruct ls as [|m ls].
  - destruct l; [right; by exists []|by left].
  - change (strip_lines (l :: m :: ls)) with (strip_cr l :: strip_lines (m :: ls)). rewrite strip_cr_id by done.
    destruct IH as [->|(ls' & Hls & ->)]; [by left|right]. exists (l :: ls'). by rewrite Hls.
Qed.

Lemma str_lines_join ls : ls <> [] -> Forall line_ok ls ->
  str_lines (join [10] ls) = ls \/ exists ls', ls = ls' ++ [[]] /\ str_lines (join [10] ls) = ls'.
Proof.
  intros Hne H. unfold str_lines. rewrite split_on_join; [by apply strip_lines_ok|done|].
  eapply Forall_impl; [exact H|]. by intros l [].
Qed.

(** ** Trimming *)
Lemma drop_ws_newline cs : drop_ws ([10] :: cs) = drop_ws cs.
Proof. done. Qed.

(** Text that starts and ends with a visible character. *)
Definition inked (s : str) : Prop :=
  ascii s /\ exists b e, head s = Some b /\ last s = Some e /\ visible b = true /\ visible e = true.

Lemma inked_app s m t : inked s -> ascii m -> inked t -> inked (s ++ m ++ t).
Proof.
  intros (Hs & b & _ & Hb & _ & Hvb & _) Hm (Ht & _ & e & _ & He & _ & Hve).
  split; [by repeat (apply Forall_app; split)|]. exists b, e. split_and!; try done.
  - destruct s; [done|]. by inv Hb.
  - by rewrite !last_app, He.
Qed.

Lemma visible_inked s : s <> [] -> Forall (fun b => visible b = true) s -> inked s.
Proof.
  intros Hne Hv. split; [eapply Forall_impl; [exact Hv|]; intros b; apply visible_ascii|].
  destruct s as [|b s]; [done|]. destruct (last (b :: s)) as [e|] eqn:He; [|by apply last_None in He].
  exists b, e. split_and!; try done; [by inv Hv|]. rewrite Forall_forall in Hv. by apply Hv, last_Some_elem_of.
Qed.

Lemma token_inked s : token s -> inked s.
Proof. intros Ht. apply visible_inked; [apply Ht|by apply token_visible]. Qed.

Lemma trim_inked s : inked s -> trim s = s.
Proof. intros (Ha & b & e & H1 & H2 & H3 & H4). by apply (trim_visible s b e). Qed.

Lemma ascii_app s t : ascii s -> ascii t -> ascii (s ++ t).
Proof. intros. by apply Forall_app. Qed.

Lemma trim_cons_newline s : ascii s -> trim (10 :: s) = trim s.
Proof.
  intros H. unfold trim. rewrite !chars_ascii by (done || by constructor). cbn [map].
  by rewrite drop_ws_newline.
Qed.

Lemma trim_snoc_newline s : inked s -> trim (s ++ [10]) = s.
Proof.
  intros (Ha & b & e & Hh & Hl & Hb & He). unfold trim.
  rewrite chars_ascii by (apply ascii_app; [done|by repeat constructor]).
  destruct s as [|b' s]; [done|]. inv Hh. rewrite map_app. cbn [map app drop_ws].
  rewrite visible_not_ws by done. change ([b] :: map (fun b => [b]) s ++ [[10]]) with ((map (fun b => [b]) (b :: s)) ++ [[10]]).
  rewrite rev_app_distr. cbn [rev app]. rewrite drop_ws_newline.
  apply last_Some in Hl as [s' Hs']. rewrite Hs', <- map_rev, rev_app_distr. cbn [rev app].
  rewrite drop_ws_visible by done. rewrite <- map_rev. cbn [rev]. by rewrite rev_involutive, map_singleton_concat.
Qed.

(** ** Lines of PEM files and of static keys *)
Lemma base64_token l : l <> [] -> Forall (fun b => base64_char b = true) l -> token l /\ 45 ∉ l /\ 60 ∉ l.
Proof.
  intros Hne H. split_and!; [|by apply base64_no..]. split; [done|]. eapply Forall_impl; [exact H|]. intros b Hb.
  unfold base64_char, ascii_alphanumeric, in_range in Hb. unfold visible, in_range. split; [|intros ->; done].
  apply andb_true_iff. rewrite !orb_true_iff, !andb_true_iff, !Z.leb_le, !Z.eqb_eq in Hb. rewrite !Z.leb_le. lia.
Qed.

Lemma join_inked x ls : inked x -> Forall inked ls -> inked (join [10] (x :: ls)).
Proof.
  intros Hx H. revert x Hx. induction H as [|y ls Hy H IH]; intros x Hx; [done|].
  rewrite join_cons by done. apply inked_app; [done|by repeat constructor|by apply IH].
Qed.

Definition label_ok (label : str) : Prop := inked label /\ 10 ∉ label /\ 60 ∉ label.


Lemma dashes_inked : inked (lit "-----").
Proof. split; [by_compute|]. by exists 45, 45. Qed.

Lemma marker_inked (pre : string) label : label_ok label -> ascii (lit pre) -> head (lit pre) = Some 45 ->
  inked (lit pre ++ label ++ lit "-----").
Proof.
  intros [(Ha & _) _] Hp Hh. destruct dashes_inked as (Hd & _). split; [by repeat apply ascii_app|].
  exists 45, 45. split_and!; try done; [|by rewrite !app_assoc, last_app].
  destruct (lit pre); [done|]. by inv Hh.
Qed.

Lemma pem_body_inked body : pem_body body -> Forall inked body.
Proof.
  intros [_ H]. eapply Forall_impl; [exact H|]. intros l [Hl1 Hl2]. by apply token_inked, base64_token.
Qed.

Lemma pem_inked label body : label_ok label -> pem_body body -> inked (join [10] (pem_lines label body)).
Proof.
  intros Hl Hb. apply join_inked; [by apply (marker_inked "-----BEGIN "); [|by_compute|]|].
  apply Forall_app. split; [by apply pem_body_inked|]. apply Forall_singleton.
  by apply (marker_inked "-----END "); [|by_compute|].
Qed.

Lemma trim_pem label body : label_ok label -> pem_body body ->
  trim (pem_text label body) = join [10] (pem_lines label body).
Proof.
  intros Hl Hb. unfold pem_text. rewrite concat_lines by done. by apply trim_snoc_newline, pem_inked.
Qed.

(** ** Searching *)
Lemma starts_with_app p s : starts_with p (p ++ s) = true.
Proof. apply bool_decide_eq_true_2. by rewrite take_app_length. Qed.

Lemma ends_with_app p s : ends_with p (s ++ p) = true.
Proof. unfold ends_with. rewrite rev_app_distr. apply starts_with_app. Qed.

Lemma find_str_skip c w s r : c ∉ s ->
  find_str (c :: w) (s ++ r) = (fun i => length s + i)%nat <$> find_str (c :: w) r.
Proof.
  induction s as [|b s IH]; intros Hc; [cbn [app length]; by destruct (find_str (c :: w) r)|].
  apply not_elem_of_cons in Hc as [Hb Hc]. cbn [app find_str].
  unfold starts_with at 1. cbn [length take]. rewrite bool_decide_eq_false_2 by congruence.
  rewrite IH by done. by destruct (find_str (c :: w) r).
Qed.

Lemma find_str_here p s : find_str p (p ++ s) = Some 0%nat.
Proof. destruct (p ++ s) eqn:E; cbn [find_str]; by rewrite <- E, starts_with_app. Qed.

Lemma rfind_str_end p s : rfind_str p (s ++ p) = Some (length s).
Proof.
  unfold rfind_str. rewrite rev_app_distr, find_str_here. cbn. rewrite length_app. f_equal. lia.
Qed.

Lemma boundary_at pre b post : b < 128 -> char_boundary (pre ++ b :: post) (length pre) = true.
Proof.
  intros Hb. unfold char_boundary. apply orb_true_iff. right. rewrite list_lookup_middle by done. unfold in_range.
  by rewrite (proj2 (Z.leb_gt 128 b)) by lia.
Qed.

(** A slice between two positions that hold ASCII characters. *)
Lemma str_slice_at {E} data pre mid post :
  data = pre ++ mid ++ post -> from_option (fun b => b < 128) True (head (mid ++ post)) ->
  from_option (fun b => b < 128) True (head post) ->
  str_slice (E := E) data (length pre) (length pre + length mid) = Ok mid.
Proof.
  intros -> H1 H2. unfold str_slice. rewrite (slice_at _ pre mid post) by done.
  assert (char_boundary (pre ++ mid ++ post) (length pre) = true) as ->.
  { destruct (mid ++ post) as [|b r] eqn:Hr; [|by apply boundary_at].
    rewrite app_nil_r. unfold char_boundary. apply orb_true_iff. right. rewrite lookup_ge_None_2 by lia. apply Nat.eqb_refl. }
  assert (char_boundary (pre ++ mid ++ post) (length pre + length mid) = true) as ->; [|done].
  rewrite <- length_app, app_assoc. destruct post as [|b r]; [|by apply boundary_at].
  rewrite app_nil_r. unfold char_boundary. apply orb_true_iff. right. rewrite lookup_ge_None_2 by lia. apply Nat.eqb_refl.
Qed.

Lemma pem_parts label body : body <> [] ->
  join [10] (pem_lines label body)
  = (lit "-----BEGIN " ++ label ++ lit "-----") ++ [10] ++ (join [10] body ++ [10])
    ++ (lit "-----END " ++ label ++ lit "-----").
Proof.
  intros Hne. unfold pem_lines. cbn [app]. rewrite join_cons by by destruct body.
  rewrite join_app by done. cbn [join]. by rewrite <- !app_assoc.
Qed.

Lemma validate_pem_ok label body : label_ok label -> pem_body body ->
  ClientConfig_validate_pem (pem_text label body) label = Ok tt.
Proof.
  intros Hl Hb. unfold ClientConfig_validate_pem. rewrite trim_pem by done.
  pose proof (pem_body_inked body Hb) as Hi. destruct Hb as [Hne _].
  set (hd := lit "-----BEGIN " ++ label ++ lit "-----"). set (ft := lit "-----END " ++ label ++ lit "-----").
  pose proof (pem_parts label body Hne) as Hs. fold hd ft in Hs.
  destruct body as [|l body]; [done|]. inv Hi. set (inner := join [10] (l :: body)) in *.
  assert (inked inner) as Hin by by apply join_inked.
  set (content := join [10] (pem_lines label (l :: body))) in *.
  assert (starts_with (lit "-----BEGIN " ++ label) content = true) as ->.
  { rewrite Hs. unfold hd. rewrite (app_assoc _ label), <- (app_assoc (_ ++ label)). apply starts_with_app. }
  assert (ends_with ft content = true) as ->.
  { rewrite Hs, !app_assoc. apply ends_with_app. }
  assert (find_str [10] content = Some (length hd)) as ->.
  { rewrite Hs, find_str_skip, find_str_here; [cbn; f_equal; lia|].
    destruct Hl as (_ & Hl & _). unfold hd. rewrite !not_elem_of_app. split_and!; [by_compute|done|by_compute]. }
  assert (rfind_str ft content = Some (length (hd ++ [10] ++ inner ++ [10]))) as ->.
  { rewrite Hs, !app_assoc. by rewrite rfind_str_end. }
  cbn [negb reject]. rsimp. rewrite !length_app. cbn [length].
  rewrite (proj2 (Nat.leb_gt _ _)) by lia. cbn [reject]. rsimp.
  replace (length hd + 1)%nat with (length (hd ++ [10%Z])) by (rewrite length_app; done).
  replace (length hd + (1 + (length inner + 1)))%nat with (length (hd ++ [10%Z]) + length (inner ++ [10%Z]))%nat
    by (rewrite !length_app; cbn [length]; lia).
  rewrite (str_slice_at content (hd ++ [10]) (inner ++ [10]) ft); [|by rewrite Hs, <- !app_assoc| |done].
  - rsimp. rewrite trim_snoc_newline by done. destruct Hin as (_ & b & e & Hb & _).
    rewrite bool_decide_eq_false_2; [done|]. by destruct inner.
  - destruct Hin as (Ha & b & e & Hb & _). destruct inner; [done|]. cbn. inv Ha. lia.
Qed.

(** ** Inline blocks

    A text cut at its tags: pieces without an opening bracket, each followed by
    a tag. *)
Definition is_tag (g : str) : Prop := exists w, g = 60 :: w ++ [62] /\ 62 ∉ w /\ 60 ∉ w.
Definition tagged (l : list (str * str)) : str := concat (map (fun p => p.1 ++ p.2) l).
Definition pieces_ok (l : list (str * str)) : Prop := Forall (fun p => 60 ∉ p.1 /\ is_tag p.2) l.

Lemma split_at_first (c : Z) (v w a b : str) : c ∉ v -> c ∉ w -> v ++ c :: a = w ++ c :: b -> v = w.
Proof.
  revert w. induction v as [|x v IH]; intros [|y w] Hv Hw H; cbn in H; try done; inv H.
  - apply not_elem_of_cons in Hw. naive_solver.
  - apply not_elem_of_cons in Hv. naive_solver.
  - apply not_elem_of_cons in Hv as [_ Hv]. apply not_elem_of_cons in Hw as [_ Hw]. f_equal. by apply IH.
Qed.

Lemma starts_with_inv p s : starts_with p s = true -> exists r, s = p ++ r.
Proof.
  intros H. apply bool_decide_eq_true in H. exists (drop (length p) s). by rewrite <- H at 1; rewrite take_drop.
Qed.

Lemma starts_with_tag t g r : is_tag t -> is_tag g -> starts_with t (g ++ r) = true -> t = g.
Proof.
  intros (w & -> & Hw & _) (v & -> & Hv & _) [k Hk]%starts_with_inv. cbn in Hk. injection Hk as Hk.
  rewrite <- !app_assoc in Hk. by rewrite (split_at_first 62 v w r k).
Qed.

Lemma find_tag_skip t g r : is_tag t -> is_tag g -> t <> g ->
  find_str t (g ++ r) = (fun i => length g + i)%nat <$> find_str t r.
Proof.
  intros Ht Hg Hne. destruct Hg as (v & Hg & Hv & Hv'). rewrite Hg at 1. cbn [app find_str].
  assert (starts_with t (60 :: (v ++ [62]) ++ r) = false) as ->.
  { apply not_true_iff_false. intros H. apply Hne, (starts_with_tag t g r); [done|by exists v|by rewrite Hg]. }
  destruct Ht as (w & -> & _ & _). rewrite find_str_skip by (rewrite not_elem_of_app; split; [done|by_compute]).
  rewrite Hg. cbn [length app]. by destruct (find_str _ r).
Qed.

Lemma find_tagged_skip t l r : is_tag t -> pieces_ok l -> t ∉ map snd l ->
  find_str t (tagged l ++ r) = (fun i => length (tagged l) + i)%nat <$> find_str t r.
Proof.
  intros Ht Hl. induction Hl as [|[s g] l [Hs Hg] Hl IH]; intros Hn.
  - cbn [tagged map concat app length]. by destruct (find_str t r).
  - cbn [map] in Hn. apply not_elem_of_cons in Hn as [Hne Hn]. cbn [fst snd] in *.
    change (tagged ((s, g) :: l)) with ((s ++ g) ++ tagged l). rewrite <- !app_assoc.
    pose proof Ht as (w & Hw & _). rewrite Hw at 1. rewrite find_str_skip by done. rewrite <- Hw.
    rewrite find_tag_skip, IH by done. rewrite !length_app. destruct (find_str t r); cbn; [f_equal; lia|done].
Qed.

Lemma find_no_tag t s : is_tag t -> 60 ∉ s -> find_str t s = None.
Proof.
  intros (w & -> & _) Hs. rewrite <- (app_nil_r s), find_str_skip by done. done.
Qed.

Lemma extract_block (tag : string) l1 s body l2 :
  is_tag (lit "<" ++ lit tag ++ lit ">") -> is_tag (lit "</" ++ lit tag ++ lit ">") ->
  pieces_ok l1 -> 60 ∉ s -> 60 ∉ body ->
  lit "<" ++ lit tag ++ lit ">" ∉ map snd l1 -> lit "</" ++ lit tag ++ lit ">" ∉ map snd l1 ->
  lit "</" ++ lit tag ++ lit ">" <> lit "<" ++ lit tag ++ lit ">" -> head body = Some 10 ->
  extract_inline_block
    (tagged l1 ++ s ++ (lit "<" ++ lit tag ++ lit ">") ++ body ++ (lit "</" ++ lit tag ++ lit ">") ++ l2) (lit tag)
  = Ok (Some (trim body)).
Proof.
  intros Ho Hc Hl Hs Hb Hno Hnc Hne Hh. unfold extract_inline_block.
  set (op := lit "<" ++ lit tag ++ lit ">") in *. set (cl := lit "</" ++ lit tag ++ lit ">") in *. clearbody op cl.
  pose proof Ho as (w & Hw & _). pose proof Hc as (v & Hv & _).
  assert (find_str op (tagged l1 ++ s ++ op ++ body ++ cl ++ l2) = Some (length (tagged l1 ++ s))) as ->.
  { rewrite find_tagged_skip by done. rewrite Hw at 1. rewrite find_str_skip, <- Hw, find_str_here by done.
    cbn. rewrite length_app. f_equal. lia. }
  assert (find_str cl (tagged l1 ++ s ++ op ++ body ++ cl ++ l2) =
            Some (length (tagged l1 ++ s ++ op) + length body)%nat) as ->.
  { rewrite find_tagged_skip by done. rewrite Hv at 1. rewrite find_str_skip, <- Hv by done.
    rewrite find_tag_skip by done. rewrite Hv at 1. rewrite find_str_skip, <- Hv, find_str_here by done.
    cbn. rewrite !length_app. f_equal. lia. }
  assert (0 < length op)%nat as Hop by (rewrite Hw; cbn [length]; lia).
  rewrite (proj2 (Nat.leb_gt _ _)) by (rewrite !length_app; lia).
  rewrite <- length_app. rewrite <- app_assoc.
  rewrite (str_slice_at _ (tagged l1 ++ s ++ op) body (cl ++ l2)); [done|by rewrite <- !app_assoc| |].
  - destruct body; [done|]. cbn in *. inv Hh. lia.
  - rewrite Hv. cbn. lia.
Qed.

(** ** The static key of a file *)
Lemma hex_pairs_hex fuel pre cs : bytes_ok (pre ++ cs) -> (length cs < fuel)%nat ->
  hex_pairs fuel (2 * length pre) (hex_line (pre ++ cs)) = Ok cs.
Proof.
  revert pre cs. induction fuel as [|f IH]; intros pre cs Hok Hf; [lia|]. cbn [hex_pairs].
  rewrite !hex_line_length, !length_app. destruct cs as [|b cs].
  { cbn [length]. by rewrite if_false by (apply Nat.ltb_ge; lia). }
  cbn [length] in *. rewrite if_true by (apply Nat.ltb_lt; lia).
  rewrite ascii_slice; [|by apply hex_chars_ascii, hex_line_chars|lia|
    rewrite hex_line_length, length_app; cbn [length]; lia].
  rewrite (slice_at _ (hex_line pre) (hex_byte b) (hex_line cs)).
  - assert (u8 b) as Hb by (apply Forall_app in Hok as [_ Hok]; by apply Forall_cons in Hok as [? _]).
    rsimp. rewrite (u8_from_hex_byte b Hb). cbn [ok_or]. rsimp.
    specialize (IH (pre ++ [b]) cs). rewrite <- !app_assoc in IH. cbn [app] in IH.
    rewrite !length_app in IH. cbn [length] in IH.
    replace (2 * length pre + 2)%nat with (2 * (length pre + 1))%nat by lia. rewrite IH; [done..|lia].
  - by rewrite hex_line_app.
  - apply hex_line_length.
  - cbn [length hex_byte]. lia.
Qed.

Lemma hex_decode_hex key : bytes_ok key -> hex_decode (hex_line key) = Ok key.
Proof.
  intros Hok. unfold hex_decode. rewrite hex_line_length.
  rewrite Nat.mul_comm, Nat.Div0.mod_mul. cbn [negb Nat.eqb].
  destruct key as [|b key]; [done|]. apply (hex_pairs_hex _ [] (b :: key)); [done|cbn [length]; lia].
Qed.

Lemma hex_key_line l : bytes_ok l -> l <> [] -> key_line (hex_line l) = true.
Proof.
  intros Hok Hne. destruct (hex_line_plain l Hok Hne) as (_ & _ & H).
  apply orb_false_iff in H as [[H1 H2]%orb_false_iff H3]. unfold key_line. rewrite H1, H2, H3.
  rewrite (contains_missing 32); [done|by_compute|].
  intros Hin. pose proof (hex_line_chars l Hok) as Hc. rewrite Forall_forall in Hc. by destruct (Hc 32 Hin).
Qed.

Lemma hex_lines_kept cs : Forall (fun c => bytes_ok c /\ c <> []) cs ->
  filter (fun l => key_line l = true) (map trim (map hex_line cs)) = map hex_line cs.
Proof.
  intros H. induction H as [|c cs [Hc Hne] H IH]; [done|]. cbn [map].
  destruct (hex_line_plain c Hc Hne) as (_ & -> & _). rewrite filter_cons_True by by apply hex_key_line.
  by rewrite IH.
Qed.

Lemma concat_hex cs : concat (map hex_line cs) = hex_line (concat cs).
Proof. induction cs as [|c cs IH]; [done|]. cbn [map concat]. by rewrite IH, hex_line_app. Qed.

Lemma static_key_lines_eq key : static_key_lines key =
  [lit "#"; lit "# 2048 bit OpenVPN static key"; lit "#"; lit "-----BEGIN OpenVPN Static key V1-----"]
  ++ map hex_line (chunks (length key) 16 key) ++ [lit "-----END OpenVPN Static key V1-----"].
Proof. done. Qed.

Lemma cli_static_key key : length key = 256%nat -> bytes_ok key ->
  cli_parse_static_key (join [10] (static_key_lines key)) = Ok key.
Proof.
  intros Hlen Hok. unfold cli_parse_static_key.
  destruct (str_lines_join (static_key_lines key)) as [->|(ls & Hls & _)];
    [done|by apply static_key_lines_ok| |].
  - destruct (chunks_spec (length key) key (le_n _)) as [Hcat Hch].
    rewrite static_key_lines_eq, !map_app, !filter_app, hex_lines_kept by by apply Hch.
    rewrite (bool_decide_unpack (filter (fun l => key_line l = true) (map trim
      [lit "#"; lit "# 2048 bit OpenVPN static key"; lit "#"; lit "-----BEGIN OpenVPN Static key V1-----"]) = []))
      by (vm_compute; exact I).
    rewrite (bool_decide_unpack (filter (fun l => key_line l = true) (map trim
      [lit "-----END OpenVPN Static key V1-----"]) = [])) by (vm_compute; exact I).
    cbn [app]. rewrite app_nil_r, concat_hex, Hcat, hex_decode_hex by done. cbn [map_err]. rsimp. by rewrite Hlen.
  - exfalso. rewrite static_key_lines_eq, app_assoc in Hls. by apply app_inj_2 in Hls as [_ Hls].
Qed.

Lemma static_key_inked key : bytes_ok key -> inked (join [10] (static_key_lines key)).
Proof.
  intros Hok. destruct (chunks_spec (length key) key (le_n _)) as [_ Hch]. specialize (Hch Hok).
  rewrite static_key_lines_eq. cbn [app]. apply join_inked; [split; [by_compute|by exists 35, 35]|].
  constructor; [split; [by_compute|by exists 35, 121]|].
  constructor; [split; [by_compute|by exists 35, 35]|].
  constructor; [split; [by_compute|by exists 45, 45]|].
  apply Forall_app. split; [|constructor; [split; [by_compute|by exists 45, 45]|constructor]].
  apply Forall_map. eapply Forall_impl; [exact Hch|]. intros c [Hc Hne]. cbn.
  apply visible_inked; [by destruct c|]. eapply Forall_impl; [by apply hex_line_chars|]. by intros x [].
Qed.

Lemma trim_static_key key : bytes_ok key -> trim (format_static_key key) = join [10] (static_key_lines key).
Proof.
  intros Hok. unfold format_static_key. rewrite concat_lines by done.
  by apply trim_snoc_newline, static_key_inked.
Qed.

Lemma validate_static_ok key : bytes_ok key -> validate_static "tls-auth" (Some (format_static_key key)) = Ok tt.
Proof.
  intros Hok. cbn [validate_static]. rewrite trim_static_key by done. rewrite static_key_lines_eq. cbn [app].
  rewrite join_cons by done. rewrite join_cons by done.
  rewrite bool_decide_eq_false_2 by done. cbn [reject]. rsimp. rewrite !length_app.
  rewrite (proj2 (Nat.ltb_ge _ _)); [done|]. rewrite join_cons by done. rewrite !length_app.
  change (length (lit "#")) with 1%nat. change (length (lit "# 2048 bit OpenVPN static key")) with 29%nat.
  cbn [length]. lia.
Qed.

(** ** Directives *)
Definition inert (l : str) : Prop := forall d, apply_directive d l = d.

Ltac inert_line := intros ?d; vm_compute; reflexivity.

Lemma inert_fold ls d : Forall inert ls -> fold_left apply_directive ls d = d.
Proof. intros H. revert d. induction H as [|l ls Hl H IH]; intros d; [done|]. cbn [fold_left]. by rewrite Hl, IH. Qed.

Lemma inert_empty : inert [].
Proof. inert_line. Qed.

(** The last line of a file may be read or not when it is empty. *)
Lemma fold_str_lines ls d : ls <> [] -> Forall line_ok ls ->
  fold_left apply_directive (str_lines (join [10] ls)) d = fold_left apply_directive ls d.
Proof.
  intros Hne H. destruct (str_lines_join ls Hne H) as [->|(ls' & -> & ->)]; [done|].
  rewrite fold_left_app. cbn [fold_left]. by rewrite inert_empty.
Qed.

(** A word alone takes no effect, but for [remote-cert-tls]. *)
Lemma inert_word l : token l -> 45 ∉ l -> inert l.
Proof.
  intros Ht Hd d. pose proof (trim_join [l]) as Htrim. cbn [join] in Htrim.
  pose proof (split_whitespace_join [l]) as Hsplit. cbn [join] in Hsplit.
  unfold apply_directive. rewrite Htrim, Hsplit by by apply Forall_singleton.
  destruct (_ || _); [done|]. repeat case_decide; try done.
  match goal with H : l = lit "remote-cert-tls" |- _ => rewrite H in Hd; exfalso; apply Hd; by_compute end.
Qed.

Definition keywords : list str :=
  map lit ["remote"; "proto"; "cipher"; "data-ciphers"; "auth"; "verb"; "remote-cert-tls"; "key-direction"; "dev"]%string.

Lemma inert_unknown w args : Forall token (w :: args) -> w ∉ keywords -> inert (join [32] (w :: args)).
Proof.
  intros Ht Hw d. unfold apply_directive. rewrite trim_join, split_whitespace_join by done.
  destruct (_ || _); [done|].
  repeat (rewrite decide_False; [|intros ->; apply Hw; by_compute]). done.
Qed.

Lemma inert_hex l : bytes_ok l -> l <> [] -> inert (hex_line l).
Proof.
  intros Hok Hne. pose proof (hex_line_chars l Hok) as Hc. apply inert_word.
  - split; [by destruct l|]. eapply Forall_impl; [exact Hc|]. intros c (Hv & _ & _ & _ & H44 & _). done.
  - intros Hin. rewrite Forall_forall in Hc. by destruct (Hc 45 Hin) as (_ & _ & _ & H & _).
Qed.

Lemma inert_static_key key : bytes_ok key -> Forall inert (static_key_lines key).
Proof.
  intros Hok. destruct (chunks_spec (length key) key (le_n _)) as [_ Hch]. specialize (Hch Hok).
  rewrite static_key_lines_eq. apply Forall_app. split; [repeat constructor; inert_line|].
  apply Forall_app. split; [|repeat constructor; inert_line].
  apply Forall_map. eapply Forall_impl; [exact Hch|]. intros c [Hc Hne]. by apply inert_hex.
Qed.

Lemma inert_body body : pem_body body -> Forall inert body.
Proof.
  intros [_ H]. eapply Forall_impl; [exact H|]. intros l [H1 H2].
  destruct (base64_token l H1 H2) as (Ht & Hd & _). by apply inert_word.
Qed.

Lemma inert_cert body : pem_body body -> Forall inert (pem_lines (lit "CERTIFICATE") body).
Proof.
  intros Hb. unfold pem_lines. rewrite !Forall_app, !Forall_singleton.
  split_and!; [inert_line|by apply inert_body|inert_line].
Qed.
Lemma inert_key body : pem_body body -> Forall inert (pem_lines (lit "PRIVATE KEY") body).
Proof.
  intros Hb. unfold pem_lines. rewrite !Forall_app, !Forall_singleton.
  split_and!; [inert_line|by apply inert_body|inert_line].
Qed.

(** ** The directives of a generated file *)
Definition word (s : str) : Prop := token s /\ 60 ∉ s.

(** A configuration as the generator builds it: PEM texts, words for the
    settings, options that the reader ignores, and a static key or none. *)
Record file_ok (c : ClientConfig) (ca cert key : list str) (ta : option bytes) : Prop := {
  fk_host : word (cc_remote_host c);
  fk_port : u16 (cc_remote_port c);
  fk_protocol : word (cc_protocol c);
  fk_cipher : word (cc_cipher c);
  fk_auth : word (cc_auth c);
  fk_reneg : u32 (cc_reneg_sec c);
  fk_extra : Forall (fun o => line_ok o /\ 60 ∉ o /\ inert o) (cc_extra_options c);
  fk_ca : pem_body ca /\ cc_ca_cert c = pem_text (lit "CERTIFICATE") ca;
  fk_cert : pem_body cert /\ cc_client_cert c = pem_text (lit "CERTIFICATE") cert;
  fk_key : pem_body key /\ cc_client_key c = pem_text (lit "PRIVATE KEY") key;
  fk_crypt : cc_tls_crypt_key c = None;
  fk_ta : cc_tls_auth_key c = format_static_key <$> ta;
  fk_ta_ok : from_option (fun k => length k = 256%nat /\ bytes_ok k) True ta;
  fk_direction : from_option u8 True (cc_key_direction c);
}.

Lemma lit_label_ok : label_ok (lit "CERTIFICATE") /\ label_ok (lit "PRIVATE KEY").
Proof.
  split; (split; [split; [by_compute|]|split; by_compute]); [by exists 67, 69|by exists 80, 89].
Qed.

(** Evaluate a directive whose first word is known. *)
Ltac directive ts :=
  match goal with |- apply_directive _ ?l = _ => change l with (join [32] ts) end;
  unfold apply_directive; cbv zeta;
  rewrite trim_join, split_whitespace_join by (repeat (apply Forall_cons; split); done);
  rewrite if_false by reflexivity;
  repeat (rewrite decide_False by (vm_compute; discriminate)); rewrite decide_True by done.

Lemma lit_token s : bool_decide (token (lit s)) = true -> token (lit s).
Proof. apply bool_decide_eq_true_1. Qed.

Section Directives.
Context (d : Directives).

Lemma apply_proto p : token p -> apply_directive d (lit "proto " ++ p) =
  mkDirectives (di_host d) (di_port d) p (di_cipher d) (di_data_ciphers d) (di_auth d) (di_verb d)
    (di_remote_cert_tls d) (di_key_direction d) (di_dev d).
Proof. intros Hp. assert (token (lit "proto")) by by_compute. by directive [lit "proto"; p]. Qed.

Lemma apply_remote h p : token h -> u16 p ->
  apply_directive d (lit "remote " ++ h ++ lit " " ++ fmt_dec p) =
  mkDirectives h p (di_protocol d) (di_cipher d) (di_data_ciphers d) (di_auth d) (di_verb d)
    (di_remote_cert_tls d) (di_key_direction d) (di_dev d).
Proof.
  intros Hh Hp. assert (token (lit "remote")) by by_compute.
  assert (token (fmt_dec p)) by (apply fmt_dec_token, Hp).
  directive [lit "remote"; h; fmt_dec p]. rewrite parse_uint_fmt by (done || lia). done.
Qed.

Lemma apply_cipher p : token p -> apply_directive d (lit "cipher " ++ p) =
  mkDirectives (di_host d) (di_port d) (di_protocol d) p (di_data_ciphers d) (di_auth d) (di_verb d)
    (di_remote_cert_tls d) (di_key_direction d) (di_dev d).
Proof. intros Hp. assert (token (lit "cipher")) by by_compute. by directive [lit "cipher"; p]. Qed.

Lemma apply_auth p : token p -> apply_directive d (lit "auth " ++ p) =
  mkDirectives (di_host d) (di_port d) (di_protocol d) (di_cipher d) (di_data_ciphers d) p (di_verb d)
    (di_remote_cert_tls d) (di_key_direction d) (di_dev d).
Proof. intros Hp. assert (token (lit "auth")) by by_compute. by directive [lit "auth"; p]. Qed.

Lemma apply_key_direction k : u8 k -> apply_directive d (lit "key-direction " ++ fmt_dec k) =
  mkDirectives (di_host d) (di_port d) (di_protocol d) (di_cipher d) (di_data_ciphers d) (di_auth d) (di_verb d)
    (di_remote_cert_tls d) (Some k) (di_dev d).
Proof.
  intros Hk. assert (token (lit "key-direction")) by by_compute.
  assert (token (fmt_dec k)) by (apply fmt_dec_token, Hk).
  directive [lit "key-direction"; fmt_dec k]. rewrite parse_uint_fmt by (done || lia). done.
Qed.
End Directives.

Lemma fold_step d l d' ls : apply_directive d l = d' ->
  fold_left apply_directive (l :: ls) d = fold_left apply_directive ls d'.
Proof. by intros <-. Qed.

Ltac fold_line t :=
  erewrite fold_step; [|t];
  cbn [di_host di_port di_protocol di_cipher di_data_ciphers di_auth di_verb di_remote_cert_tls di_key_direction
       di_dev].
Ltac fold_inert :=
  fold_line ltac:(idtac; lazymatch goal with |- apply_directive ?d ?l = _ =>
    let H := fresh in assert (inert l) as H by inert_line; exact (H d) end).

Lemma apply_dev d : apply_directive d (lit "dev tun") =
  mkDirectives (di_host d) (di_port d) (di_protocol d) (di_cipher d) (di_data_ciphers d) (di_auth d) (di_verb d)
    (di_remote_cert_tls d) (di_key_direction d) (lit "tun").
Proof. by vm_compute. Qed.
Lemma apply_cert_tls d : apply_directive d (lit "remote-cert-tls server") =
  mkDirectives (di_host d) (di_port d) (di_protocol d) (di_cipher d) (di_data_ciphers d) (di_auth d) (di_verb d)
    true (di_key_direction d) (di_dev d).
Proof. by vm_compute. Qed.
Lemma apply_verb d : apply_directive d (lit "verb 3") =
  mkDirectives (di_host d) (di_port d) (di_protocol d) (di_cipher d) (di_data_ciphers d) (di_auth d) 3
    (di_remote_cert_tls d) (di_key_direction d) (di_dev d).
Proof. by vm_compute. Qed.

Lemma fold_reneg n d : u32 n ->
  fold_left apply_directive (if 0 <? n then [lit "reneg-sec " ++ fmt_dec n] else []) d = d.
Proof.
  intros Hn. apply inert_fold. destruct (0 <? n); [|done]. constructor; [|done].
  apply (inert_unknown (lit "reneg-sec") [fmt_dec n]); [|by_compute].
  constructor; [by_compute|]. constructor; [|done]. apply fmt_dec_token, Hn.
Qed.

Lemma fold_directives c ca cert key ta : file_ok c ca cert key ta ->
  fold_left apply_directive (ovpn_directives c) Directives_default =
  mkDirectives (cc_remote_host c) (cc_remote_port c) (cc_protocol c) (cc_cipher c) [] (cc_auth c) 3 true None
    (lit "tun").
Proof.
  intros H. unfold ovpn_directives, Directives_default. rewrite fold_left_app.
  do 4 fold_inert. fold_line ltac:(apply apply_dev).
  fold_line ltac:(apply apply_proto, (fk_protocol _ _ _ _ _ H)).
  fold_line ltac:(apply apply_remote; [apply (fk_host _ _ _ _ _ H)|apply (fk_port _ _ _ _ _ H)]).
  do 4 fold_inert. fold_line ltac:(apply apply_cert_tls).
  fold_line ltac:(apply apply_cipher, (fk_cipher _ _ _ _ _ H)).
  fold_line ltac:(apply apply_auth, (fk_auth _ _ _ _ _ H)).
  fold_line ltac:(apply apply_verb). do 4 fold_inert.
  change (fold_left apply_directive []) with (fun d : Directives => d). cbv beta.
  rewrite fold_left_app, fold_reneg by apply (fk_reneg _ _ _ _ _ H). rewrite fold_left_app. fold_inert.
  rewrite fold_left_app, (inert_fold (cc_extra_options c)); [by fold_inert|].
  eapply Forall_impl; [apply (fk_extra _ _ _ _ _ H)|]. by intros o (_ & _ & Ho).
Qed.

(** ** The text of a generated file *)
Definition block_lines (tag : string) (ls : list str) : list str :=
  [lit "<" ++ lit tag ++ lit ">"] ++ ls ++ [lit "</" ++ lit tag ++ lit ">"].

Definition static_lines (c : ClientConfig) (ta : option bytes) : list str :=
  match ta with
  | Some k =>
      (match cc_key_direction c with Some dir => [lit "key-direction " ++ fmt_dec dir] | None => [] end)
        ++ block_lines "tls-auth" (static_key_lines k)
  | None => []
  end.

Definition file_lines (c : ClientConfig) (ca cert key : list str) (ta : option bytes) : list str :=
  ovpn_directives c
  ++ block_lines "ca" (pem_lines (lit "CERTIFICATE") ca) ++ [[]]
  ++ block_lines "cert" (pem_lines (lit "CERTIFICATE") cert) ++ [[]]
  ++ block_lines "key" (pem_lines (lit "PRIVATE KEY") key) ++ [[]]
  ++ static_lines c ta.

(** Joining lines that are joined groups of lines. *)
Lemma join_groups sep gs : Forall (fun g => g <> []) gs -> join sep (map (join sep) gs) = join sep (concat gs).
Proof.
  intros H. induction H as [|g gs Hg H IH]; [done|]. cbn [map concat]. destruct gs as [|g' gs].
  - cbn [map concat join]. by rewrite app_nil_r.
  - rewrite join_cons by done. rewrite IH, join_app; [done..|]. inv H. by destruct g'.
Qed.

Definition singles (ls : list str) : list (list str) := map (fun l => [l]) ls.
Lemma map_join_singles sep ls : map (join sep) (singles ls) = ls.
Proof. induction ls as [|l ls IH]; [done|]. cbn. by f_equal. Qed.
Lemma concat_singles ls : concat (singles ls) = ls.
Proof. induction ls as [|l ls IH]; [done|]. cbn. by f_equal. Qed.
Lemma singles_ne ls : Forall (fun g => g <> []) (singles ls).
Proof. apply Forall_map, Forall_true. done. Qed.

Definition block_groups (tag : string) (ls : list str) : list (list str) :=
  [[lit "<" ++ lit tag ++ lit ">"]; ls; [lit "</" ++ lit tag ++ lit ">"]].

Lemma ovpn_text c ca cert key ta : file_ok c ca cert key ta ->
  join [10] (ovpn_lines c) = join [10] (file_lines c ca cert key ta).
Proof.
  intros H. destruct (fk_ca _ _ _ _ _ H) as [Hca Eca]. destruct (fk_cert _ _ _ _ _ H) as [Hce Ece].
  destruct (fk_key _ _ _ _ _ H) as [Hke Eke]. destruct lit_label_ok as [Lc Lk].
  set (sg := match ta with
             | Some k => singles (match cc_key_direction c with
                                  | Some dir => [lit "key-direction " ++ fmt_dec dir] | None => [] end)
                         ++ block_groups "tls-auth" (static_key_lines k)
             | None => [] end).
  set (gs := singles (ovpn_directives c) ++ block_groups "ca" (pem_lines (lit "CERTIFICATE") ca) ++ [[[]]]
             ++ block_groups "cert" (pem_lines (lit "CERTIFICATE") cert) ++ [[[]]]
             ++ block_groups "key" (pem_lines (lit "PRIVATE KEY") key) ++ [[[]]] ++ sg).
  assert (ovpn_lines c = map (join [10]) gs) as ->.
  { unfold ovpn_lines, gs, inline_block. rewrite Eca, Ece, Eke, !trim_pem, !map_app, map_join_singles by done.
    repeat f_equal. unfold static_key_block, sg. rewrite (fk_crypt _ _ _ _ _ H), (fk_ta _ _ _ _ _ H).
    pose proof (fk_ta_ok _ _ _ _ _ H) as Hk. destruct ta as [k|]; [|done].
    change (format_static_key <$> Some k) with (Some (format_static_key k)). cbn [from_option] in Hk.
    unfold inline_block. rewrite map_app, map_join_singles, trim_static_key by apply Hk. done. }
  rewrite join_groups; [f_equal|].
  - unfold gs, file_lines. rewrite !concat_app, concat_singles. do 7 f_equal. unfold sg, static_lines.
    destruct ta; [|done]. by rewrite concat_app, concat_singles.
  - unfold gs, sg. rewrite !Forall_app. split_and!; try apply singles_ne; try by repeat constructor.
    destruct ta; [|done]. apply Forall_app. split; [apply singles_ne|by repeat constructor].
Qed.

(** ** Lines without line ends and brackets *)
Lemma join_no c sep ls : c ∉ sep -> Forall (fun l => c ∉ l) ls -> c ∉ join sep ls.
Proof.
  intros Hs H. induction H as [|l ls Hl H IH]; [apply not_elem_of_nil|]. destruct ls as [|m ls]; [done|].
  rewrite join_cons by done. rewrite !not_elem_of_app. done.
Qed.

Definition plain (l : str) : Prop := line_ok l /\ 60 ∉ l.

Lemma visible_plain s : Forall (fun b => visible b = true) s -> 60 ∉ s -> plain s.
Proof.
  intros Hv H60. split; [|done]. rewrite Forall_forall in Hv.
  split; [intros Hin; by specialize (Hv _ Hin)|]. intros Hl. apply last_Some_elem_of in Hl. by specialize (Hv _ Hl).
Qed.

Lemma word_plain s : word s -> plain s.
Proof. intros [Ht H]. by apply visible_plain; [apply token_visible|]. Qed.

Lemma fmt_dec_plain z : 0 <= z -> plain (fmt_dec z).
Proof.
  intros Hz. apply visible_plain; [by apply token_visible, fmt_dec_token|].
  destruct (fmt_dec_digits z Hz) as [_ H]. intros Hin. rewrite Forall_forall in H. specialize (H _ Hin).
  cbn in H. lia.
Qed.

Lemma plain_app p s : plain p -> plain s -> s <> [] -> plain (p ++ s).
Proof.
  intros [[H1 _] H2] [[H3 H4] H5] Hne. split; [|by rewrite not_elem_of_app].
  split; [by rewrite not_elem_of_app|]. rewrite last_app.
  destruct (last s) eqn:E; [done|]. by apply last_None in E.
Qed.

Lemma base64_plain l : Forall (fun b => base64_char b = true) l -> plain l.
Proof.
  intros H. split; [|by apply base64_no]. destruct l; [split; [apply not_elem_of_nil|done]|].
  by apply base64_line_ok.
Qed.

Lemma pem_plain label body : plain label -> pem_body body -> Forall plain (pem_lines label body).
Proof.
  intros Hl [_ Hb]. unfold pem_lines. rewrite !Forall_app, !Forall_singleton.
  assert (plain (lit "-----")) as Hd by by_compute. split_and!.
  - apply plain_app; [by_compute| |by destruct label]. by apply plain_app.
  - eapply Forall_impl; [exact Hb|]. intros l [_ H]. by apply base64_plain.
  - apply plain_app; [by_compute| |by destruct label]. by apply plain_app.
Qed.

Lemma static_key_plain key : bytes_ok key -> Forall plain (static_key_lines key).
Proof.
  intros Hok. destruct (chunks_spec (length key) key (le_n _)) as [_ Hch]. specialize (Hch Hok).
  rewrite static_key_lines_eq, !Forall_app. split_and!; [by_compute| |by_compute].
  apply Forall_map. eapply Forall_impl; [exact Hch|]. intros c [Hc _]. cbn.
  pose proof (hex_line_chars c Hc) as Hx. apply visible_plain.
  - eapply Forall_impl; [exact Hx|]. by intros x [].
  - intros Hin. rewrite Forall_forall in Hx. by destruct (Hx _ Hin) as (_ & _ & _ & _ & _ & H).
Qed.

Lemma directives_plain c ca cert key ta : file_ok c ca cert key ta -> Forall plain (ovpn_directives c).
Proof.
  intros H. unfold ovpn_directives.
  assert (forall (p : string) s, plain (lit p) -> word s -> plain (lit p ++ s)) as Hw.
  { intros p s Hp Hs. apply plain_app; [done|by apply word_plain|apply Hs]. }
  assert (forall (p : string) z, plain (lit p) -> 0 <= z -> plain (lit p ++ fmt_dec z)) as Hz.
  { intros p z Hp Hz. apply plain_app; [done|by apply fmt_dec_plain|]. apply fmt_dec_token in Hz. apply Hz. }
  rewrite !Forall_app. split_and!; [|destruct (0 <? cc_reneg_sec c); [|done]|by_compute| |by_compute].
  - repeat (apply Forall_cons; split); try done;
      try match goal with |- plain (lit _) => by_compute | |- plain [] => by_compute end.
    + apply Hw; [by_compute|apply (fk_protocol _ _ _ _ _ H)].
    + pose proof (fk_port _ _ _ _ _ H) as [Hp _]. pose proof (fmt_dec_token _ Hp) as [Hne _].
      apply plain_app; [by_compute| |by destruct (cc_remote_host c)].
      apply plain_app; [apply word_plain, (fk_host _ _ _ _ _ H)|by apply Hz; [by_compute|]|done].
    + apply Hw; [by_compute|apply (fk_cipher _ _ _ _ _ H)].
    + apply Hw; [by_compute|apply (fk_auth _ _ _ _ _ H)].
  - constructor; [|done]. apply Hz; [by_compute|apply (fk_reneg _ _ _ _ _ H)].
  - eapply Forall_impl; [apply (fk_extra _ _ _ _ _ H)|]. by intros o (? & ? & _).
Qed.

(** ** Reading the text *)
Definition open_tag (tag : string) : str := lit "<" ++ lit tag ++ lit ">".
Definition close_tag (tag : string) : str := lit "</" ++ lit tag ++ lit ">".
(** The text between two tags. *)
Definition inner_text (ls : list str) : str := [10] ++ join [10] ls ++ [10].

Lemma join_block (tag : string) ls r : ls <> [] -> r <> [] ->
  join [10] (block_lines tag ls ++ r) = open_tag tag ++ inner_text ls ++ close_tag tag ++ [10] ++ join [10] r.
Proof.
  intros Hls Hr. unfold block_lines, inner_text. fold (open_tag tag) (close_tag tag).
  rewrite <- !app_assoc. rewrite join_app; [|done|by destruct ls].
  rewrite join_app by done. rewrite join_app by done. cbn [join]. by rewrite <- ?app_assoc.
Qed.

Lemma join_block_end (tag : string) ls : ls <> [] ->
  join [10] (block_lines tag ls) = open_tag tag ++ inner_text ls ++ close_tag tag.
Proof.
  intros Hls. unfold block_lines, inner_text. fold (open_tag tag) (close_tag tag).
  rewrite join_app; [|done|by destruct ls].
  rewrite join_app by done. cbn [join]. by rewrite <- ?app_assoc.
Qed.

(** The pieces up to the last certificate, and what follows. *)
Definition file_head (c : ClientConfig) : str := join [10] (ovpn_directives c) ++ [10].
Definition file_pieces (c : ClientConfig) (ca cert key : list str) : list (str * str) :=
  [(file_head c, open_tag "ca"); (inner_text (pem_lines (lit "CERTIFICATE") ca), close_tag "ca");
   ([10; 10], open_tag "cert"); (inner_text (pem_lines (lit "CERTIFICATE") cert), close_tag "cert");
   ([10; 10], open_tag "key"); (inner_text (pem_lines (lit "PRIVATE KEY") key), close_tag "key")].
Definition direction_text (c : ClientConfig) : str :=
  match cc_key_direction c with Some dir => lit "key-direction " ++ fmt_dec dir ++ [10] | None => [] end.
Definition file_tail (c : ClientConfig) (ta : option bytes) : str :=
  match ta with
  | Some k => ([10; 10] ++ direction_text c) ++ open_tag "tls-auth" ++ inner_text (static_key_lines k)
              ++ close_tag "tls-auth" ++ []
  | None => [10]
  end.

Lemma file_text c ca cert key ta :
  join [10] (file_lines c ca cert key ta) = tagged (file_pieces c ca cert key) ++ file_tail c ta.
Proof.
  assert (join [10] ([[]] ++ static_lines c ta) = match ta with Some _ => [10] ++ join [10] (static_lines c ta)
                                                              | None => [] end) as Hs.
  { destruct ta; [|done]. unfold static_lines. rewrite join_app; [done..|]. by destruct (cc_key_direction c). }
  assert (forall k, ta = Some k -> join [10] (static_lines c ta) =
    direction_text c ++ open_tag "tls-auth" ++ inner_text (static_key_lines k) ++ close_tag "tls-auth") as Ht.
  { intros k ->. unfold static_lines, direction_text. destruct (cc_key_direction c) as [dir|].
    - rewrite join_app by done. rewrite join_block_end by done. cbn [join]. by rewrite <- !app_assoc.
    - cbn [app]. by rewrite join_block_end. }
  unfold file_lines. rewrite join_app by done. rewrite join_block by done.
  rewrite (join_app _ [[]]) by done. rewrite join_block by done. rewrite (join_app _ [[]]) by done.
  rewrite join_block by done. rewrite Hs. cbn [join]. unfold tagged, file_pieces, file_head, file_tail.
  cbn [map concat fst snd]. destruct ta as [k|]; [rewrite (Ht k) by done|].
  - rewrite <- !app_assoc. cbn [app]. by rewrite ?app_nil_r.
  - rewrite <- !app_assoc. cbn [app]. by rewrite ?app_nil_r.
Qed.

Lemma tag_ok (tag : string) : 62 ∉ lit tag -> 60 ∉ lit tag ->
  is_tag (open_tag tag) /\ is_tag (close_tag tag).
Proof.
  intros H1 H2. split; [by exists (lit tag)|]. exists (47 :: lit tag). split_and!; [done|set_solver..].
Qed.

Lemma inner_no ls : Forall plain ls -> 60 ∉ inner_text ls.
Proof.
  intros H. unfold inner_text. rewrite !not_elem_of_app. split_and!; [by_compute| |by_compute].
  apply join_no; [by_compute|]. eapply Forall_impl; [exact H|]. by intros l [].
Qed.

Lemma trim_inner ls : inked (join [10] ls) -> trim (inner_text ls) = join [10] ls.
Proof.
  intros H. unfold inner_text. cbn [app]. rewrite trim_cons_newline; [by apply trim_snoc_newline|].
  apply ascii_app; [apply H|by_compute].
Qed.

Lemma tagged_app l1 l2 : tagged (l1 ++ l2) = tagged l1 ++ tagged l2.
Proof. unfold tagged. by rewrite map_app, concat_app. Qed.

(** The block whose tags close two successive pieces. *)
Lemma extract_piece (tag : string) l1 s body l2 tail :
  62 ∉ lit tag -> 60 ∉ lit tag -> pieces_ok (l1 ++ (s, open_tag tag) :: (body, close_tag tag) :: l2) ->
  open_tag tag ∉ map snd l1 -> close_tag tag ∉ map snd l1 -> close_tag tag <> open_tag tag -> head body = Some 10 ->
  extract_inline_block (tagged (l1 ++ (s, open_tag tag) :: (body, close_tag tag) :: l2) ++ tail) (lit tag)
  = Ok (Some (trim body)).
Proof.
  intros T1 T2 Hp Ho Hc Hne Hh. destruct (tag_ok tag T1 T2) as [Hto Htc].
  apply Forall_app in Hp as [Hp1 Hp]. apply Forall_cons in Hp as [[Hs _] Hp]. apply Forall_cons in Hp as [[Hb _] _].
  rewrite tagged_app. change (tagged ((s, open_tag tag) :: (body, close_tag tag) :: l2))
    with ((s ++ open_tag tag) ++ (body ++ close_tag tag) ++ tagged l2).
  rewrite <- !(app_assoc (tagged l1)), <- !app_assoc.
  rewrite <- (extract_block tag l1 s body (tagged l2 ++ tail)) by done.
  done.
Qed.

Section ReadBack.
Context (c : ClientConfig) (ca cert key : list str) (ta : option bytes) (H : file_ok c ca cert key ta).

Lemma pems_plain : Forall plain (pem_lines (lit "CERTIFICATE") ca) /\
  Forall plain (pem_lines (lit "CERTIFICATE") cert) /\ Forall plain (pem_lines (lit "PRIVATE KEY") key).
Proof using H.
  destruct (fk_ca _ _ _ _ _ H) as [Hca _]. destruct (fk_cert _ _ _ _ _ H) as [Hce _].
  destruct (fk_key _ _ _ _ _ H) as [Hke _]. split_and!; (apply pem_plain; [by_compute|done]).
Qed.

Lemma file_pieces_ok : pieces_ok (file_pieces c ca cert key).
Proof using H.
  destruct pems_plain as (H1 & H2 & H3).
  assert (60 ∉ file_head c) as Hh.
  { unfold file_head. rewrite not_elem_of_app. split; [|by_compute]. apply join_no; [by_compute|].
    eapply Forall_impl; [apply (directives_plain _ _ _ _ _ H)|]. by intros l []. }
  unfold file_pieces. repeat (apply Forall_cons; split); try done; cbn [fst snd];
    split; try (by apply inner_no); try done; try by_compute; apply tag_ok; by_compute.
Qed.

Lemma file_blocks : let text := join [10] (file_lines c ca cert key ta) in
  extract_inline_block text (lit "ca") = Ok (Some (join [10] (pem_lines (lit "CERTIFICATE") ca))) /\
  extract_inline_block text (lit "cert") = Ok (Some (join [10] (pem_lines (lit "CERTIFICATE") cert))) /\
  extract_inline_block text (lit "key") = Ok (Some (join [10] (pem_lines (lit "PRIVATE KEY") key))).
Proof using H.
  cbv zeta. rewrite file_text. pose proof file_pieces_ok as Hp.
  destruct (fk_ca _ _ _ _ _ H) as [Hca _]. destruct (fk_cert _ _ _ _ _ H) as [Hce _].
  destruct (fk_key _ _ _ _ _ H) as [Hke _]. destruct lit_label_ok as [Lc Lk].
  split_and!; (rewrite <- trim_inner by by apply pem_inked).
  - apply (extract_piece "ca" []); try done; by_compute.
  - apply (extract_piece "cert" [_; _]); try done; by_compute.
  - apply (extract_piece "key" [_; _; _; _]); try done; by_compute.
Qed.
Lemma file_tls_auth :
  extract_inline_block (join [10] (file_lines c ca cert key ta)) (lit "tls-auth")
  = Ok ((fun k => join [10] (static_key_lines k)) <$> ta).
Proof using H.
  rewrite file_text. pose proof file_pieces_ok as Hp. pose proof (fk_ta_ok _ _ _ _ _ H) as Hk.
  destruct (tag_ok "tls-auth") as [Ho Hc]; [by_compute..|].
  destruct ta as [k|]; cbn [file_tail].
  - destruct Hk as [_ Hk]. set (dir := [10; 10] ++ direction_text c). set (body := inner_text (static_key_lines k)).
    assert (60 ∉ dir) as Hd.
    { unfold dir, direction_text. rewrite not_elem_of_app. split; [by_compute|].
      pose proof (fk_direction _ _ _ _ _ H) as Hdir.
      destruct (cc_key_direction c) as [d|]; [|apply not_elem_of_nil]. rewrite !not_elem_of_app.
      split_and!; [by_compute|apply fmt_dec_plain, Hdir|by_compute]. }
    pose proof (extract_piece "tls-auth" (file_pieces c ca cert key) dir body [] []) as Hx.
    rewrite tagged_app, <- app_assoc in Hx. unfold tagged at 2 in Hx. cbn [map concat fst snd] in Hx.
    rewrite <- !app_assoc in Hx. cbn [app] in Hx.
    change (fmap (fun k => join [10] (static_key_lines k)) (Some k)) with (Some (join [10] (static_key_lines k))).
    rewrite <- trim_inner by by apply static_key_inked. rewrite <- ?app_assoc.
    apply Hx; [by_compute|by_compute| |by_compute|by_compute|by_compute|done].
    apply Forall_app. split; [done|]. constructor; [by split|]. constructor; [|done].
    split; [by apply inner_no, static_key_plain|done].
  - unfold extract_inline_block. fold (open_tag "tls-auth"). rewrite find_tagged_skip; [|done..|by_compute].
    rewrite find_no_tag; [done|done|by_compute].
Qed.

Lemma file_lines_ok : Forall line_ok (file_lines c ca cert key ta).
Proof using H.
  destruct pems_plain as (H1 & H2 & H3).
  assert (forall ls, Forall plain ls -> Forall line_ok ls) as Hpl.
  { intros ls Hls. eapply Forall_impl; [exact Hls|]. by intros l []. }
  unfold file_lines, block_lines. rewrite !Forall_app, !Forall_singleton.
  split_and!; try (by apply Hpl);
    try match goal with |- line_ok (lit _ ++ _) => by_compute | |- line_ok [] => by_compute end.
  - apply Hpl, (directives_plain _ _ _ _ _ H).
  - unfold static_lines. pose proof (fk_ta_ok _ _ _ _ _ H) as Hk. destruct ta as [k|]; [|done].
    destruct Hk as [_ Hk]. unfold block_lines. rewrite !Forall_app, !Forall_singleton.
    split_and!; [|by_compute| |by_compute].
    + pose proof (fk_direction _ _ _ _ _ H) as Hdir. destruct (cc_key_direction c) as [d|]; [|done].
      constructor; [|done]. pose proof (fmt_dec_token d (proj1 Hdir)) as [Hne _].
      by apply plain_app; [by_compute|apply fmt_dec_plain, Hdir|].
    + by apply Hpl, static_key_plain.
Qed.

Lemma block_inert (tag : string) ls d : inert (open_tag tag) -> inert (close_tag tag) -> Forall inert ls ->
  fold_left apply_directive (block_lines tag ls) d = d.
Proof using. intros. apply inert_fold. unfold block_lines. rewrite !Forall_app, !Forall_singleton. done. Qed.

Definition read_direction : option Z := match ta with Some _ => cc_key_direction c | None => None end.

Lemma file_directives :
  parse_directives (str_lines (join [10] (file_lines c ca cert key ta))) =
  mkDirectives (cc_remote_host c) (cc_remote_port c) (cc_protocol c) (cc_cipher c) [] (cc_auth c) 3 true
    read_direction (lit "tun").
Proof using H.
  unfold parse_directives. rewrite fold_str_lines; [|done|by apply file_lines_ok].
  unfold file_lines. rewrite fold_left_app, (fold_directives _ _ _ _ _ H).
  destruct (fk_ca _ _ _ _ _ H) as [Hca _]. destruct (fk_cert _ _ _ _ _ H) as [Hce _].
  destruct (fk_key _ _ _ _ _ H) as [Hke _].
  rewrite fold_left_app, block_inert; [|inert_line|inert_line|by apply inert_cert]. rewrite fold_left_app. fold_inert.
  change (fold_left apply_directive []) with (fun d : Directives => d). cbv beta.
  rewrite fold_left_app, block_inert; [|inert_line|inert_line|by apply inert_cert]. rewrite fold_left_app. fold_inert.
  change (fold_left apply_directive []) with (fun d : Directives => d). cbv beta.
  rewrite fold_left_app, block_inert; [|inert_line|inert_line|by apply inert_key]. rewrite fold_left_app. fold_inert.
  change (fold_left apply_directive []) with (fun d : Directives => d). cbv beta.
  unfold static_lines, read_direction. pose proof (fk_ta_ok _ _ _ _ _ H) as Hk. destruct ta as [k|]; [|done].
  destruct Hk as [_ Hk]. rewrite fold_left_app, block_inert; [|inert_line|inert_line|by apply inert_static_key].
  pose proof (fk_direction _ _ _ _ _ H) as Hdir. destruct (cc_key_direction c) as [d|]; [|done].
  by fold_line ltac:(apply apply_key_direction, Hdir).
Qed.

Lemma file_valid : ClientConfig_validate c = Ok tt.
Proof using H.
  destruct (fk_ca _ _ _ _ _ H) as [Hca Eca]. destruct (fk_cert _ _ _ _ _ H) as [Hce Ece].
  destruct (fk_key _ _ _ _ _ H) as [Hke Eke]. destruct lit_label_ok as [Lc Lk].
  unfold ClientConfig_validate, pem_is_ok. rewrite Eca, Ece, Eke, !validate_pem_ok by done.
  cbn [wrap_error map_err or_else_ok]. rsimp. cbn [negb reject]. rsimp.
  rewrite (fk_crypt _ _ _ _ _ H), (fk_ta _ _ _ _ _ H). pose proof (fk_ta_ok _ _ _ _ _ H) as Hk.
  destruct ta as [k|]; [|done]. change (format_static_key <$> Some k) with (Some (format_static_key k)).
  rewrite validate_static_ok by apply Hk. done.
Qed.
End ReadBack.

(** What the reader makes of a generated file: the settings, with the address
    still to be resolved. *)
Definition read_config (c : ClientConfig) (ta : option bytes) (remote : SocketAddr) : OvpnConfig :=
  mkOvpn remote (cc_protocol c) (cc_cipher c) [] (cc_auth c) 3 (trim (cc_ca_cert c)) (trim (cc_client_cert c))
    (trim (cc_client_key c)) ta (read_direction c ta) true (lit "tun").

Lemma missing_some t s : missing_block t (Ok (Some s)) = Ok s.
Proof. done. Qed.

Lemma file_read_back c ca cert key ta : file_ok c ca cert key ta ->
  exists text, ClientConfig_to_ovpn c = Ok text /\
    OvpnConfig_parse text =
    (remote ← resolve_remote (cc_remote_host c) (cc_remote_port c); Ok (read_config c ta remote)).
Proof.
  intros H. eexists. split.
  { unfold ClientConfig_to_ovpn. rewrite (file_valid _ _ _ _ _ H). by rewrite (ovpn_text _ _ _ _ _ H). }
  destruct (file_blocks _ _ _ _ _ H) as (H1 & H2 & H3). pose proof (file_tls_auth _ _ _ _ _ H) as H4.
  unfold OvpnConfig_parse. rewrite H1, H2, H3, H4, !missing_some. rsimp. rewrite (file_directives _ _ _ _ _ H).
  cbn [di_host di_port di_protocol di_cipher di_data_ciphers di_auth di_verb di_remote_cert_tls di_key_direction di_dev].
  destruct (fk_host _ _ _ _ _ H) as [[Hne _] _].
  destruct (fk_ca _ _ _ _ _ H) as [Hca Eca]. destruct (fk_cert _ _ _ _ _ H) as [Hce Ece].
  destruct (fk_key _ _ _ _ _ H) as [Hke Eke]. destruct lit_label_ok as [Lc Lk].
  unfold read_config. rewrite Eca, Ece, Eke, !trim_pem by done. pose proof (fk_ta_ok _ _ _ _ _ H) as Hk.
  destruct ta as [k|]; cbn [fmap option_fmap option_map].
  - destruct Hk as [Hk1 Hk2]. rewrite cli_static_key by done. cbn [fmap res_fmap]. rsimp. by rewrite decide_False.
  - rsimp. by rewrite decide_False.
Qed.
