(* ===== verification/CliMain.v ===== *)
(** * The command line of the client

    src/crates/corevpn-cli/src/main.rs.  Only [connect] does something; the
    other commands print.  A line is a list of pieces, of which a path that
    is printed with [{:?}] is left as it is. *)
From S2P Require Import Prelude Text Addr Ovpn.
Local Open Scope Z_scope.

Inductive UserAction :=
| UserAdd (username : str) | UserRemove (username : str) | UserList | UserConfig (username : str)
| UserRevoke (username : str).
Inductive OAuthAction :=
| OAuthSetup (provider : str) | OAuthRemove (provider : str) | OAuthList | OAuthTest (provider : str).
Inductive CliCommand :=
| CliConnect (config : str)
| CliInit (data_dir : str)
| CliStart | CliStop | CliRestart | CliStatus
| CliUser (action : UserAction)
| CliOAuth (action : OAuthAction)
| CliDoctor
| CliConfig (user : str) (output : option str).

(** [-v], [-vv]. *)
Definition log_level (verbose : Z) : str :=
  if verbose =? 0 then lit "info" else if verbose =? 1 then lit "debug" else lit "trace".

Inductive Piece := Plain (s : str) | DebugPath (path : str).
Abbreviation Line := (list Piece).
Definition line (s : string) : Line := [Plain (lit s)].
Definition line_of (s : string) (arg : str) : Line := [Plain (lit s); Plain arg].

(** The lines of a command that only prints. *)
Definition user_lines (action : UserAction) : list Line :=
  match action with
  | UserAdd u => [line_of "Adding user: " u]
  | UserRemove u => [line_of "Removing user: " u]
  | UserList => [line "Listing users..."]
  | UserConfig u =>
      [line_of "Generating config for: " u;
       [Plain (lit "Run 'corevpn-server client -u "); Plain u; Plain (lit "' to generate.")]]
  | UserRevoke u => [line_of "Revoking access for: " u]
  end.
Definition oauth_lines (action : OAuthAction) : list Line :=
  match action with
  | OAuthSetup p =>
      [line_of "Setting up OAuth2 provider: " p; []; line "Run 'corevpn-server setup' and select OAuth2 configuration."]
  | OAuthRemove p => [line_of "Removing OAuth2 provider: " p]
  | OAuthList => [line "Configured OAuth2 providers:"]
  | OAuthTest p => [line_of "Testing OAuth2 provider: " p]
  end.
(** What [main] does: it runs a client, or it prints. *)
Inductive CliOutcome := RunsClient (config : OvpnConfig) | Prints (lines : list Line).

Section Cli.
Context {UC : Unicode}.

Definition cli_main (read : str -> str + str) (command : CliCommand) : res OvpnError CliOutcome :=
  match command with
  | CliConnect config =>
      ovpn_config ← OvpnConfig_parse_file (read config) config;
      Ok (RunsClient ovpn_config)
  | CliInit data_dir =>
      Ok (Prints [[Plain (lit "Initializing CoreVPN in "); DebugPath data_dir; Plain (lit "...")]; [];
                  line "Run 'corevpn-server setup' for the interactive setup wizard."])
  | CliStart =>
      Ok (Prints [line "Starting CoreVPN server..."; line "Run 'corevpn-server run' to start the server."])
  | CliStop => Ok (Prints [line "Stopping CoreVPN server..."])
  | CliRestart => Ok (Prints [line "Restarting CoreVPN server..."])
  | CliStatus =>
      Ok (Prints [line "CoreVPN Status"; line "=============="; line "Run 'corevpn-server status' for detailed status."])
  | CliUser action => Ok (Prints (user_lines action))
  | CliOAuth action => Ok (Prints (oauth_lines action))
  | CliDoctor => Ok (Prints [line "Running diagnostics..."; line "Run 'corevpn-server doctor' for full diagnostics."])
  | CliConfig user output =>
      Ok (Prints (line_of "Generating config for: " user
                  :: match output with Some out => [[Plain (lit "Output: "); DebugPath out]] | None => [] end))
  end.

(** Of all commands only [connect] reads anything or can fail: stopping the
    server, revoking a user or writing a configuration report success and do
    nothing. *)
Lemma only_connect_acts read command : (forall c, command <> CliConnect c) ->
  exists lines, cli_main read command = Ok (Prints lines).
Proof. destruct command; intros H; try by eexists. by destruct (H config). Qed.

Lemma connect_reads_file read path config : cli_main read (CliConnect path) = Ok (RunsClient config) <->
  OvpnConfig_parse_file (read path) path = Ok config.
Proof. cbn [cli_main]. destruct (OvpnConfig_parse_file _ _); split; intros H; try done; by injection H as ->. Qed.
End Cli.
