(* ===== verification/Client.v ===== *)
(** * The command line client

    src/crates/corevpn-cli/src/client.rs: the hard reset, the TLS handshake,
    the key exchange, the derivation of the data keys, the set-up of the TUN
    device and the forwarding loop.

    The client is a function of what arrives: a list of datagrams with the
    readings of the clocks when each is read; the end of the list is a time
    out.  Log messages are left out, except for the address a user has to
    open. *)
From S2P Require Import Prelude Errors Text Network Opcode Packet Replay Float Reliable Cipher HmacAuth Kdf DataChannel Session Control Addr TlsDriver Ovpn.
Local Open Scope Z_scope.

(** [anyhow::Error]: a text, or a text in front of an error of a crate. *)
Inductive ClientError :=
| CMessage (text : str)
| CProtocol (text : str) (e : ProtocolError)
| CCrypto (text : str) (e : CryptoError).

(** What [connect_with_info] reports to a listener. *)
Inductive ClientEvent :=
| EventPushReply (ifconfig : option (str * str)) (routes : list (str * str)) (dns : list str)
    (gateway : option str) (redirect_gateway : bool)
| EventConnected (tun_name : str).

(** A datagram and the clocks when it is read. *)
Record Arrival := mkArrival { ar_now : Z; ar_time : Z; ar_data : bytes }.

(** The session and the socket. *)
Record Link := mkLink {
  lk_session : ProtocolSession;
  lk_inbox : list Arrival;
  lk_sent : list bytes;
  lk_now : Z;
  lk_time : Z;
}.
Definition lk_set_session s l := mkLink s (lk_inbox l) (lk_sent l) (lk_now l) (lk_time l).

(** ** Messages of the server *)

(** The loop over the three strings of [calculate_km_size]. *)
Fixpoint skip_strings (n : nat) (data : bytes) (offset : nat) : res ClientError nat :=
  match n with
  | O => Ok offset
  | S n' =>
      if (length data <? offset + 2)%nat then Ok offset else
      hi ← idx data offset; lo ← idx data (offset + 1);
      let str_len := Z.to_nat (from_be [hi; lo]) in
      if (length data <? offset + 2 + str_len)%nat then Ok offset
      else skip_strings n' data (offset + 2 + str_len)
  end.
Definition calculate_km_size (data : bytes) : res ClientError nat :=
  if (length data <? 71)%nat then Err (CMessage (lit "KeyMethodV2 data too short"))
  else skip_strings 3 data 69.

(** What has been read from the TLS stream so far. *)
Record Exchange := mkExchange {
  ex_plaintext : bytes;
  ex_server_km : option KeyMethodV2;
  ex_push_reply : option PushReply;
  ex_urls : list str;
}.

Definition try_parse_key_method (x : Exchange) : res ClientError Exchange :=
  match ex_server_km x with
  | Some _ => Ok x
  | None =>
      if (length (ex_plaintext x) <? 71)%nat then Ok x else
      match KeyMethodV2_parse_from_server (ex_plaintext x) with
      | Ok km =>
          km_size ← calculate_km_size (ex_plaintext x);
          remaining ← slice_from (ex_plaintext x) km_size;
          Ok (mkExchange remaining (Some km) (ex_push_reply x) (ex_urls x))
      | Err _ => Ok x
      | Panic => Panic
      end
  end.

(** The part of [s] after the first colon, or all of it. *)
Fixpoint after_colon (s : str) : option str :=
  match s with
  | [] => None
  | b :: s' => if b =? 58 then Some s' else after_colon s'
  end.

Definition handle_server_message (plaintext : bytes) (x : Exchange) : res ClientError Exchange :=
  let msg_str := trim_end_matches 0 (from_utf8_lossy plaintext) in
  let keep urls := mkExchange [] (ex_server_km x) (ex_push_reply x) urls in
  if starts_with (lit "PUSH_REPLY") msg_str then
    reply ← map_err (CProtocol (lit "Failed to parse PUSH_REPLY: ")) (PushReply_parse msg_str);
    Ok (mkExchange plaintext (ex_server_km x) (Some reply) (ex_urls x))
  else if contains (lit "AUTH_PENDING") msg_str then Ok (keep (ex_urls x))
  else if starts_with (lit "INFO_PRE,WEB_AUTH:") msg_str then
    Ok (keep (ex_urls x ++
      match strip_prefix (lit "INFO_PRE,WEB_AUTH:") msg_str with
      | Some rest => [trim (default rest (after_colon rest))]
      | None => []
      end))
  else if starts_with (lit "INFO_PRE,OPEN_URL:") msg_str then
    Ok (keep (ex_urls x ++ [trim (default [] (strip_prefix (lit "INFO_PRE,OPEN_URL:") msg_str))]))
  else Ok (mkExchange plaintext (ex_server_km x) (ex_push_reply x) (ex_urls x)).

Definition try_parse_server_messages (x : Exchange) : res ClientError Exchange :=
  x ← try_parse_key_method x;
  match ex_server_km x, ex_plaintext x with
  | Some _, _ :: _ =>
      let plaintext := drop_while (fun b => b =? 0) (ex_plaintext x) in
      match plaintext with
      | [] => Ok (mkExchange [] (ex_server_km x) (ex_push_reply x) (ex_urls x))
      | _ => handle_server_message plaintext x
      end
  | _, _ => Ok x
  end.

Definition client_peer_info : str :=
  lit "IV_VER=corevpn-0.4.0" ++ [10] ++ lit "IV_PLAT=linux" ++ [10] ++ lit "IV_NCP=2" ++ [10]
  ++ lit "IV_TCPNL=1" ++ [10] ++ lit "IV_PROTO=30" ++ [10]
  ++ lit "IV_CIPHERS=CHACHA20-POLY1305:AES-256-GCM:AES-128-GCM" ++ [10].

(** ** Routes and the TUN device *)

(** [u32::count_ones]. *)
Fixpoint count_ones (n : nat) (z : Z) : Z :=
  match n with
  | O => 0
  | S n' => (if Z.testbit z (Z.of_nat n') then 1 else 0) + count_ones n' z
  end.

(** The arguments of the [ip] command, on Linux. *)
Definition add_route (network netmask gateway : str) : res ClientError (list str) :=
  mask ← ok_or (parse_ipv4 netmask) (CMessage (lit "invalid IPv4 address syntax"));
  Ok [lit "route"; lit "add"; network ++ lit "/" ++ fmt_dec (count_ones 32 mask); lit "via"; gateway].

Record TunDevice := mkTun { tn_address : Z; tn_netmask : Z; tn_mtu : Z; tn_routes : list (list str) }.

(** A route that fails is a warning. *)
Definition create_tun_device (ip mask : str) (push_reply : PushReply) : res ClientError TunDevice :=
  address ← ok_or (parse_ipv4 ip) (CMessage (lit "invalid IPv4 address syntax"));
  netmask ← ok_or (parse_ipv4 mask) (CMessage (lit "invalid IPv4 address syntax"));
  Ok (mkTun address netmask 1500
        (omap (fun r => match add_route (pr_network r) (pr_netmask r) ip with Ok c => Some c | _ => None end)
           (pl_routes push_reply))).

Section Client.
Context {AEAD : Aead} {HMAC : Hmac} {UC : Unicode} {PKI : RustlsPki}
  {TlsConfig TlsConn : Type} {RL : Rustls TlsConfig TlsConn}.

(** What the client reads from outside: its random values, the check of its
    own certificate, the connection rustls makes of a configuration, and which
    sends succeed. *)
Record ClientEnv := mkClientEnv {
  ce_session_id : bytes;
  ce_pre_master : bytes;
  ce_random1 : bytes;
  ce_random2 : bytes;
  ce_check_client : list bytes -> PrivateKeyDer -> option str;
  ce_tls_config : ClientTlsConfig -> TlsConfig;
  ce_send_ok : bytes -> bool;
}.

Definition client_cipher_suite (config : OvpnConfig) : res ClientError CipherSuite :=
  let name := to_uppercase (ov_cipher config) in
  if decide (name = lit "CHACHA20-POLY1305") then Ok ChaCha20Poly1305
  else if decide (name = lit "AES-256-GCM") then Ok Aes256Gcm
  else Err (CMessage (lit "Unsupported cipher: " ++ name)).

(** The session, with tls-auth if the file has a key. *)
Definition client_session (config : OvpnConfig) (env : ClientEnv) (now : Z) : res ClientError ProtocolSession :=
  suite ← client_cipher_suite config;
  let session := ProtocolSession_new_client (ce_session_id env) now suite in
  match ov_tls_auth_key config with
  | Some key =>
      ta_key ← slice key 0 256;
      hmac_auth ← map_err (CCrypto (lit "Failed to create HMAC auth: "))
                    (HmacAuth_from_ta_key ta_key false (ov_key_direction config));
      Ok (ProtocolSession_set_tls_auth hmac_auth session)
  | None => Ok session
  end.

(** ** The socket *)
Definition client_send (env : ClientEnv) (data : bytes) : M Link ClientError unit := fun l =>
  if ce_send_ok env data
  then (mkLink (lk_session l) (lk_inbox l) (lk_sent l ++ [data]) (lk_now l) (lk_time l), Ok tt)
  else (l, Err (CMessage (lit "send failed"))).
Fixpoint client_send_all (env : ClientEnv) (packets : list bytes) : M Link ClientError unit :=
  match packets with
  | [] => mret tt
  | p :: ps => _ ← client_send env p; client_send_all env ps
  end.

(** [socket.recv(&mut buf)] with a buffer of 4096 bytes. *)
Definition client_recv (timeout : str) : M Link ClientError bytes := fun l =>
  match lk_inbox l with
  | [] => (l, Err (CMessage timeout))
  | a :: inbox =>
      (mkLink (lk_session l) inbox (lk_sent l) (ar_now a) (ar_time a), Ok (take (Z.to_nat 4096) (ar_data a)))
  end.

(** Calls on the session, with the clocks. *)
Definition on_session {A} (text : str) (m : Z -> Z -> M ProtocolSession ProtocolError A) : M Link ClientError A :=
  fun l => zoom lk_session lk_set_session (CProtocol text) (m (lk_now l) (lk_time l)) l.

Definition client_process (text : string) (data : bytes) : M Link ClientError ProcessedPacket :=
  on_session (lit text) (fun now _ => ProtocolSession_process_packet now data).

(** [if let Some(ack) = session.create_ack_packet() { socket.send(&ack).await?; }] *)
Definition client_ack (env : ClientEnv) : M Link ClientError unit :=
  ack ← on_session [] ProtocolSession_create_ack_packet;
  match ack with Some a => client_send env a | None => mret tt end.
Definition client_ack_if_due (env : ClientEnv) : M Link ClientError unit :=
  l ← get;
  if ProtocolSession_should_send_ack (lk_now l) (lk_session l) then client_ack env else mret tt.
Definition client_retransmit (env : ClientEnv) : M Link ClientError unit :=
  packets ← on_session [] ProtocolSession_get_retransmits;
  client_send_all env packets.

(** ** The hard reset: phases 1 and 2 *)

(** Every turn takes one datagram. *)
Fixpoint receive_until (fuel : nat) (condition : ProcessedPacket -> bool) : M Link ClientError ProcessedPacket :=
  match fuel with
  | O => fail (CMessage (lit "Timeout waiting for server hard reset response"))
  | S f =>
      data ← client_recv (lit "Timeout waiting for server hard reset response");
      result ← client_process "Failed to process packet: " data;
      if condition result then mret result else receive_until f condition
  end.
Definition is_hard_reset_ack (p : ProcessedPacket) : bool :=
  match p with PHardResetAck => true | _ => false end.

Definition client_hard_reset (env : ClientEnv) : M Link ClientError unit :=
  hard_reset ← on_session (lit "Failed to create hard reset: ") ProtocolSession_create_hard_reset_client;
  _ ← client_send env hard_reset;
  l ← get;
  _ ← receive_until (S (length (lk_inbox l))) is_hard_reset_ack;
  client_ack env.

(** ** The TLS connection *)
Definition setup_tls_client (config : OvpnConfig) (env : ClientEnv) : res ClientError (TlsHandler TlsConn) :=
  ca_certs ← map_err (CProtocol (lit "Failed to load CA cert: ")) (load_certs_from_pem (ov_ca_pem config));
  client_certs ← map_err (CProtocol (lit "Failed to load client cert: ")) (load_certs_from_pem (ov_cert_pem config));
  client_key ← map_err (CProtocol (lit "Failed to load client key: ")) (load_key_from_pem (ov_key_pem config));
  tls_config ← map_err (CProtocol (lit "Failed to create TLS config: "))
                 (create_client_config (ce_check_client env) ca_certs (Some (client_certs, client_key)));
  map_err (CProtocol (lit "Failed to create TLS handler: "))
    (TlsClientHandler_new (ce_tls_config env tls_config)).

Record Tunnel := mkTunnel { tu_link : Link; tu_tls : TlsHandler TlsConn }.
Definition on_link {A} (m : M Link ClientError A) : M Tunnel ClientError A :=
  zoom tu_link (fun l t => mkTunnel l (tu_tls t)) id m.
Definition on_client_tls {A} (text : string) (m : M (TlsHandler TlsConn) ProtocolError A) : M Tunnel ClientError A :=
  zoom tu_tls (fun h t => mkTunnel (tu_link t) h) (CProtocol (lit text)) m.

Definition send_tls (env : ClientEnv) (tls_out : bytes) : M Tunnel ClientError unit :=
  packets ← on_link (on_session (lit "Failed to create control packets: ")
              (fun now time => ProtocolSession_create_control_packets now time tls_out));
  on_link (client_send_all env packets).

(** The loop of the handshake: every write on its own.  As in the server, a
    turn that continues takes at least one of the buffered bytes. *)
Fixpoint flush_each (fuel : nat) (env : ClientEnv) : M Tunnel ClientError unit :=
  match fuel with
  | O => mret tt
  | S f =>
      t ← get;
      if TlsClientHandler_wants_write (tu_tls t) then
        out ← on_client_tls "TLS outgoing failed: " TlsClientHandler_get_outgoing;
        match out with
        | Some tls_out => _ ← send_tls env tls_out; flush_each f env
        | None => mret tt
        end
      else mret tt
  end.

(** [flush_tls_to_socket]: everything in one batch. *)
Fixpoint collect_tls (fuel : nat) : M Tunnel ClientError bytes :=
  match fuel with
  | O => mret []
  | S f =>
      t ← get;
      if TlsClientHandler_wants_write (tu_tls t) then
        out ← on_client_tls "TLS outgoing failed: " TlsClientHandler_get_outgoing;
        match out with
        | Some tls_out => rest ← collect_tls f; mret (tls_out ++ rest)
        | None => mret []
        end
      else mret []
  end.
Definition tls_turns (t : Tunnel) : nat := S (rl_buffered (th_conn (tu_tls t))).
Definition flush_tls_to_socket (env : ClientEnv) : M Tunnel ClientError unit :=
  t ← get;
  all_tls_data ← collect_tls (tls_turns t);
  match all_tls_data with
  | [] => mret tt
  | _ => send_tls env all_tls_data
  end.

(** ** The handshake: phase 3 *)
Definition client_hello (env : ClientEnv) : M Tunnel ClientError unit :=
  out ← on_client_tls "Failed to get ClientHello: " TlsClientHandler_get_outgoing;
  match out with
  | Some client_hello => send_tls env client_hello
  | None => fail (CMessage (lit "No ClientHello data"))
  end.

Definition client_key_method (config : OvpnConfig) (env : ClientEnv) : KeyMethodV2 :=
  mkKeyMethodV2 (ce_pre_master env) (ce_random1 env) (ce_random2 env)
    (lit "V4,dev-type tun,link-mtu 1560,tun-mtu 1500,proto UDPv4,cipher " ++ ov_cipher config
      ++ lit ",auth [null-digest],keysize 256,key-method 2,tls-client")
    None None (Some client_peer_info).

Definition client_set_state (st : ProtocolState) : M Tunnel ClientError unit :=
  on_link (modify (fun l => lk_set_session (ProtocolSession_set_state (lk_now l) st (lk_session l)) l)).

(** The branch of a [TlsData] packet: whether the handshake is complete. *)
Definition handshake_records (km_bytes : bytes) (env : ClientEnv) (records : list bytes) :
    M Tunnel ClientError bool :=
  _ ← on_client_tls "TLS processing failed: " (TlsClientHandler_process_tls_records records);
  _ ← on_link (client_ack_if_due env);
  t ← get;
  if TlsClientHandler_is_handshake_complete (tu_tls t) then
    _ ← client_set_state KeyExchange;
    _ ← on_client_tls "Failed to write key_method_v2: " (TlsClientHandler_write_plaintext km_bytes);
    _ ← flush_tls_to_socket env;
    mret true
  else
    _ ← flush_each (tls_turns t) env;
    mret false.

(** [left] turns of the loop, of the fifty it may make. *)
Fixpoint handshake_loop (left : nat) (km_bytes : bytes) (env : ClientEnv) : M Tunnel ClientError unit :=
  match left with
  | O => fail (CMessage (lit "TLS handshake failed: too many iterations"))
  | S n =>
      data ← on_link (client_recv (lit "Timeout during TLS handshake"));
      result ← on_link (client_process "Failed to process packet during handshake: " data);
      complete ← (match result with
                  | PTlsData records => handshake_records km_bytes env records
                  | _ => mret false
                  end);
      _ ← on_link (client_retransmit env);
      if (complete : bool) then mret tt else handshake_loop n km_bytes env
  end.
Definition MAX_HANDSHAKE_ATTEMPTS : nat := 50.

(** ** The key exchange: phase 4 *)
Record Exchanging := mkExchanging { xg_tunnel : Tunnel; xg_exchange : Exchange }.
Definition on_tunnel {A} (m : M Tunnel ClientError A) : M Exchanging ClientError A :=
  zoom xg_tunnel (fun t x => mkExchanging t (xg_exchange x)) id m.

(** [try_parse_server_messages] changes its arguments in place. *)
Definition read_messages (data : bytes) : M Exchanging ClientError unit := fun x =>
  let e := xg_exchange x in
  let e := mkExchange (ex_plaintext e ++ data) (ex_server_km e) (ex_push_reply e) (ex_urls e) in
  match try_parse_server_messages e with
  | Ok e' => (mkExchanging (xg_tunnel x) e', Ok tt)
  | Err err => (mkExchanging (xg_tunnel x) e, Err err)
  | Panic => (mkExchanging (xg_tunnel x) e, Panic)
  end.

Definition exchange_packet (env : ClientEnv) (data : bytes) : M Tunnel ClientError unit :=
  result ← on_link (client_process "Failed to process packet during key exchange: " data);
  _ ← (match result with
       | PTlsData records =>
           _ ← on_client_tls "TLS processing failed: " (TlsClientHandler_process_tls_records records);
           _ ← on_link (client_ack_if_due env);
           flush_tls_to_socket env
       | PNone => on_link (client_ack_if_due env)
       | _ => mret tt
       end);
  on_link (client_retransmit env).

(** [left] turns of the hundred. *)
Fixpoint exchange_loop (left : nat) (env : ClientEnv) : M Exchanging ClientError unit :=
  x ← get;
  match ex_push_reply (xg_exchange x) with
  | Some _ => mret tt
  | None =>
      match left with
      | O => fail (CMessage (lit "Timeout waiting for server key exchange and push reply"))
      | S n =>
          plain ← on_tunnel (on_client_tls "TLS read failed: "
                    (TlsClientHandler_read_plaintext (Z.to_nat 8192)));
          match plain with
          | _ :: _ =>
              _ ← read_messages plain;
              exchange_loop n env
          | [] =>
              data ← on_tunnel (on_link (client_recv
                (lit "Timeout waiting for server key exchange (if OAuth, did you complete auth?)")));
              _ ← on_tunnel (exchange_packet env data);
              exchange_loop n env
          end
      end
  end.
Definition MAX_KM_ATTEMPTS : nat := 100.

(** ** The data keys: phase 5 *)
Definition client_derive_keys (env : ClientEnv) (server_km : KeyMethodV2) (client_sid server_sid : bytes) :
    res ClientError KeyMaterial :=
  let seed1 := ce_random1 env ++ k2_random1 server_km in
  master_secret ← map_err (CCrypto (lit "PRF master secret failed: "))
    (openvpn_prf (ce_pre_master env) (lit "OpenVPN master secret") seed1 48);
  let seed2 := ce_random2 env ++ k2_random2 server_km ++ client_sid ++ server_sid in
  key_block ← map_err (CCrypto (lit "PRF key expansion failed: "))
    (openvpn_prf master_secret (lit "OpenVPN key expansion") seed2 256);
  map_err (CCrypto []) (KeyMaterial_from_openvpn_key2_block key_block).

Definition client_install_keys (env : ClientEnv) (server_km : KeyMethodV2) : M Link ClientError unit :=
  l ← get;
  let client_sid := ps_local_session_id (lk_session l) in
  server_sid ← lift (ok_or (ps_remote_session_id (lk_session l)) (CMessage (lit "Missing remote session ID")));
  km ← lift (client_derive_keys env server_km client_sid server_sid);
  on_session [] (fun _ _ => ProtocolSession_install_keys km false).

Definition push_reply_event (p : PushReply) : ClientEvent :=
  EventPushReply (pl_ifconfig p) (map (fun r => (pr_network r, pr_netmask r)) (pl_routes p)) (pl_dns p)
    (pl_route_gateway p) (pl_redirect_gateway p).

(** What [connect_with_info] has at the start of the data plane. *)
Record Connected := mkConnected {
  cn_link : Link;
  cn_tun : TunDevice;
  cn_push_reply : PushReply;
  cn_urls : list str;
  cn_events : list ClientEvent;
}.

Definition run_M {S E A} (m : M S E A) (s : S) : res E (S * A) :=
  match m s with (s', Ok a) => Ok (s', a) | (_, Err e) => Err e | (_, Panic) => Panic end.

(** The phases of [connect_with_info] up to [run_data_plane]: the hard reset,
    with the socket bound at [now]; *)
Definition connect_link (config : OvpnConfig) (env : ClientEnv) (now time : Z) (inbox : list Arrival) :
    res ClientError Link :=
  session ← client_session config env now;
  fst <$> run_M (client_hard_reset env) (mkLink session inbox [] now time).
(** the handshake; *)
Definition connect_tls (config : OvpnConfig) (env : ClientEnv) (l : Link) : res ClientError Tunnel :=
  tls ← setup_tls_client config env;
  let km_bytes := KeyMethodV2_encode (client_key_method config env) false in
  fst <$> run_M (_ ← client_hello env; handshake_loop MAX_HANDSHAKE_ATTEMPTS km_bytes env) (mkTunnel l tls).
(** the key exchange; *)
Definition connect_exchange (env : ClientEnv) (t : Tunnel) : res ClientError Exchanging :=
  fst <$> run_M (exchange_loop MAX_KM_ATTEMPTS env) (mkExchanging t (mkExchange [] None None [])).
(** the keys and the device. *)
Definition connect_finish (env : ClientEnv) (x : Exchanging) : res ClientError Connected :=
  let e := xg_exchange x in
  server_km ← ok_or (ex_server_km e) (CMessage (lit "Never received server KeyMethodV2"));
  push_reply ← (match ex_push_reply e with Some p => Ok p | None => Panic end);
  l ← fst <$> run_M (client_install_keys env server_km) (tu_link (xg_tunnel x));
  '(ip, mask) ← ok_or (pl_ifconfig push_reply) (CMessage (lit "PUSH_REPLY missing ifconfig"));
  let l := lk_set_session (ProtocolSession_set_state (lk_now l) Established (lk_session l)) l in
  tun ← create_tun_device ip mask push_reply;
  Ok (mkConnected l tun push_reply (ex_urls e) [push_reply_event push_reply; EventConnected (lit "tun0")]).

Definition connect_with_info (config : OvpnConfig) (env : ClientEnv) (now time : Z) (inbox : list Arrival) :
    res ClientError Connected :=
  l ← connect_link config env now time inbox;
  t ← connect_tls config env l;
  x ← connect_exchange env t;
  connect_finish env x.

(** ** The data plane: phase 7 *)
Definition CLIENT_PING_PAYLOAD : bytes :=
  [42; 24; 123; 243; 100; 30; 180; 203; 7; 237; 45; 10; 152; 31; 199; 72].

Inductive PlaneEvent :=
| FromTun (data : bytes)
| TunClosed
| TunError
| FromServer (a : Arrival)
| RecvError
| PingTick (now : Z).

Record Plane := mkPlane {
  pn_session : ProtocolSession;
  pn_last_recv : Z;
  pn_sent : list bytes;
  pn_tun : list bytes;
}.
Definition pn_set_session s p := mkPlane s (pn_last_recv p) (pn_sent p) (pn_tun p).
Definition pn_send (env : ClientEnv) (data : bytes) (p : Plane) : Plane :=
  if ce_send_ok env data
  then mkPlane (pn_session p) (pn_last_recv p) (pn_sent p ++ [data]) (pn_tun p) else p.

Definition plane_encrypt (env : ClientEnv) (data : bytes) (p : Plane) : Plane * res ClientError bool :=
  let '(s, r) := ProtocolSession_encrypt_data data (pn_session p) in
  let p := pn_set_session s p in
  match r with
  | Ok encrypted => (pn_send env encrypted p, Ok true)
  | Err _ => (p, Ok true)
  | Panic => (p, Panic)
  end.

Definition plane_ack (env : ClientEnv) (now time : Z) (p : Plane) : Plane * res ClientError bool :=
  if ProtocolSession_should_send_ack now (pn_session p) then
    let '(s, r) := ProtocolSession_create_ack_packet now time (pn_session p) in
    let p := pn_set_session s p in
    match r with
    | Ok (Some ack) => (pn_send env ack p, Ok true)
    | Ok None => (p, Ok true)
    | Err e => (p, Err (CProtocol [] e))
    | Panic => (p, Panic)
    end
  else (p, Ok true).

(** One turn of the loop; [true] when it goes on. *)
Definition plane_step (env : ClientEnv) (ping_restart : Z) (e : PlaneEvent) (p : Plane) :
    Plane * res ClientError bool :=
  match e with
  | FromTun data => plane_encrypt env data p
  | TunClosed | TunError | RecvError => (p, Ok false)
  | FromServer a =>
      let p := mkPlane (pn_session p) (ar_now a) (pn_sent p) (pn_tun p) in
      let '(s, r) := ProtocolSession_process_packet (ar_now a) (take (Z.to_nat 4096) (ar_data a)) (pn_session p) in
      let p := pn_set_session s p in
      match r with
      | Ok (PData decrypted) => (mkPlane s (pn_last_recv p) (pn_sent p) (pn_tun p ++ [decrypted]), Ok true)
      | Ok PNone | Ok (PTlsData _) => plane_ack env (ar_now a) (ar_time a) p
      | Ok _ | Err _ => (p, Ok true)
      | Panic => (p, Panic)
      end
  | PingTick now =>
      if ping_restart <? Z.max 0 (now - pn_last_recv p) then (p, Ok false)
      else plane_encrypt env CLIENT_PING_PAYLOAD p
  end.

Fixpoint plane_loop (env : ClientEnv) (ping_restart : Z) (es : list PlaneEvent) (p : Plane) :
    Plane * res ClientError unit :=
  match es with
  | [] => (p, Ok tt)
  | e :: es' =>
      match plane_step env ping_restart e p with
      | (p', Ok true) => plane_loop env ping_restart es' p'
      | (p', Ok false) => (p', Ok tt)
      | (p', Err err) => (p', Err err)
      | (p', Panic) => (p', Panic)
      end
  end.

(** [tokio::time::interval] panics when the period is zero. *)
Definition run_data_plane (env : ClientEnv) (now : Z) (session : ProtocolSession) (push_reply : PushReply)
    (es : list PlaneEvent) : Plane * res ClientError unit :=
  let p := mkPlane session now [] [] in
  if pl_ping push_reply =? 0 then (p, Panic)
  else plane_loop env (from_secs (pl_ping_restart push_reply)) es p.

End Client.
