(* ===== verification/Provision.v ===== *)
(** * From the server's files to a connecting client

    The generator of client files, the reader of the client and the server's
    own files together: what a server writes when it is set up and what it
    hands to its clients fit each other. *)
From S2P Require Import Prelude Errors Text Cipher HmacAuth Runs Network Addr ServerConfig Cert ClientConfig Pki Generator Server Ovpn OvpnFile Client.
Local Open Scope Z_scope.

(** ** Remote addresses *)
Lemma take_digits_split s : s = take_digits s ++ drop (length (take_digits s)) s.
Proof.
  induction s as [|b s IH]; [done|]. cbn [take_digits]. destruct (in_range 48 57 b); [|done].
  cbn [length drop app]. by f_equal.
Qed.

Lemma take_digits_range s : Forall (fun b => in_range 48 57 b = true) (take_digits s).
Proof. induction s as [|b s IH]; cbn [take_digits]; [done|]. case_match; by constructor. Qed.

Lemma parse_octet_length ds v : parse_octet ds = Some v -> (length ds <= 3)%nat.
Proof. unfold parse_octet. destruct ds as [|b ds]; [done|]. intros. repeat case_match; try done. bools. lia. Qed.

Lemma read_octet_inv s v r : read_octet s = Some (v, r) ->
  exists ds, s = ds ++ r /\ parse_octet ds = Some v /\ Forall (fun b => in_range 48 57 b = true) ds.
Proof.
  unfold read_octet. intros H. destruct (parse_octet (take_digits s)) eqn:Ho; [|done]. inv H.
  exists (take_digits s). split_and!; [apply take_digits_split|done|apply take_digits_range].
Qed.

Lemma read_char_inv c s r : read_char c s = Some r -> s = c :: r.
Proof. unfold read_char. destruct s as [|b s]; [done|]. case_match; [|done]. bools. by intros [= ->]; subst. Qed.

Lemma read_dot_octet_inv s v r : read_dot_octet s = Some (v, r) ->
  exists ds, s = 46 :: ds ++ r /\ parse_octet ds = Some v /\ Forall (fun b => in_range 48 57 b = true) ds.
Proof.
  unfold read_dot_octet. intros H. destruct (read_char 46 s) as [s'|] eqn:Hc; [|done].
  apply read_char_inv in Hc as ->. apply read_octet_inv in H as (ds & -> & H). eauto.
Qed.

Lemma digits_no c ds : in_range 48 57 c = false -> Forall (fun b => in_range 48 57 b = true) ds -> c ∉ ds.
Proof. intros Hc H Hin. rewrite Forall_forall in H. specialize (H _ Hin). congruence. Qed.

(** What [read_ipv4] consumes is an address on its own. *)
Lemma read_ipv4_inv s ip r : read_ipv4 s = Some (ip, r) ->
  exists d, s = d ++ r /\ parse_ipv4 d = Some ip /\ 58 ∉ d.
Proof.
  unfold read_ipv4. intros H.
  destruct (read_octet s) as [[a s1]|] eqn:H1; [|done]. cbn in H.
  destruct (read_dot_octet s1) as [[b s2]|] eqn:H2; [|done]. cbn in H.
  destruct (read_dot_octet s2) as [[e s3]|] eqn:H3; [|done]. cbn in H.
  destruct (read_dot_octet s3) as [[f s4]|] eqn:H4; [|done]. cbn in H. injection H as <- <-.
  apply read_octet_inv in H1 as (d1 & -> & P1 & F1). apply read_dot_octet_inv in H2 as (d2 & -> & P2 & F2).
  apply read_dot_octet_inv in H3 as (d3 & -> & P3 & F3). apply read_dot_octet_inv in H4 as (d4 & -> & P4 & F4).
  exists (join [46] [d1; d2; d3; d4]). split_and!.
  - cbn [join]. by rewrite <- !app_assoc; cbn [app]; rewrite <- ?app_assoc; cbn [app]; rewrite <- ?app_assoc.
  - unfold parse_ipv4.
    assert (length (join [46%Z] [d1; d2; d3; d4]) <= 15)%nat as Hl.
    { apply parse_octet_length in P1, P2, P3, P4. cbn [join]. rewrite !length_app. cbn [length]. lia. }
    rewrite if_false by (apply Z.ltb_ge; lia). rewrite split_on_join; [|done|].
    + rewrite P1, P2, P3, P4. done.
    + repeat constructor; by apply digits_no.
  - apply join_no; [by_compute|]. repeat constructor; by apply digits_no.
Qed.

Lemma parse_digits_range w acc s z : parse_digits w acc s = Some z -> Forall (fun b => 48 <= b <= 57) s.
Proof.
  revert acc. induction s as [|b s IH]; intros acc; [done|]. cbn [parse_digits]. unfold digit, in_range.
  destruct ((48 <=? b) && (b <=? 57)) eqn:Hb; [|done]. cbn. case_match; [|done]. intros Hs. bools.
  constructor; [lia|by eapply IH].
Qed.

Lemma parse_octet_range s z : parse_octet s = Some z -> Forall (fun b => 48 <= b <= 57) s.
Proof.
  unfold parse_octet. destruct s as [|b s]; [done|]. intros. repeat case_match; try done.
  by eapply parse_digits_range.
Qed.

Lemma read_octet_text ds v s : parse_octet ds = Some v ->
  match s with b :: _ => in_range 48 57 b = false | [] => True end -> read_octet (ds ++ s) = Some (v, s).
Proof.
  intros H Hs. unfold read_octet. rewrite take_digits_app by (done || by eapply parse_octet_range).
  rewrite H. cbn [mbind option_bind]. by rewrite drop_app_length.
Qed.

Lemma read_ipv4_text h ip s : parse_ipv4 h = Some ip ->
  match s with b :: _ => in_range 48 57 b = false | [] => True end -> read_ipv4 (h ++ s) = Some (ip, s).
Proof.
  unfold parse_ipv4. intros H Hs. destruct (15 <? _); [done|].
  pose proof (join_split_on 46 h) as Hj.
  destruct (split_on 46 h) as [|a [|b [|e [|f [|]]]]]; try done. rewrite <- Hj.
  destruct (parse_octet a) as [va|] eqn:Ha; [|done]. destruct (parse_octet b) as [vb|] eqn:Hb; [|done].
  destruct (parse_octet e) as [ve|] eqn:He; [|done]. destruct (parse_octet f) as [vf|] eqn:Hf; [|done].
  cbn in H. injection H as <-.
  cbn [join]. rewrite <- !app_assoc. cbn [app]. unfold read_ipv4, read_dot_octet, read_char.
  rewrite (read_octet_text a va) by done. cbn [mbind option_bind]. rewrite Z.eqb_refl. cbn [mbind option_bind].
  rewrite <- ?app_assoc. cbn [app].
  rewrite (read_octet_text b vb) by done. cbn [mbind option_bind]. rewrite Z.eqb_refl. cbn [mbind option_bind].
  rewrite <- ?app_assoc. cbn [app].
  rewrite (read_octet_text e ve) by done. cbn [mbind option_bind]. rewrite Z.eqb_refl. cbn [mbind option_bind].
  by rewrite (read_octet_text f vf).
Qed.

Lemma parse_plain_dec p : u16 p -> parse_plain 16 (fmt_dec p) = Some p.
Proof.
  intros Hp. unfold uint in Hp. destruct (fmt_dec_digits p) as [Hne _]; [lia|].
  assert (parse_digits 16 0 (fmt_dec p) = Some p) as Hd.
  { apply parse_dec_digits; [lia| |lia]. change (10 ^ Z.of_nat 40) with 10000000000000000000000000000000000000000. lia. }
  unfold parse_plain. by destruct (fmt_dec p).
Qed.

(** A host without colons and brackets is accepted exactly when it is an IPv4
    address. *)
Lemma resolve_remote_host host port : 58 ∉ host -> head host <> Some 91 -> host <> [] -> u16 port ->
  resolve_remote host port =
  match parse_ipv4 host with
  | Some ip => Ok (SockV4 ip port)
  | None => Err (OvpnMessage (lit "Invalid remote address: " ++ host ++ lit ":" ++ fmt_dec port))
  end.
Proof.
  intros Hc Hb Hne Hp. unfold resolve_remote. change (lit ":") with [58].
  assert (parse_socket_v6 (host ++ [58] ++ fmt_dec port) = None) as H6.
  { unfold parse_socket_v6, read_char. destruct host as [|x host]; [done|]. cbn [app].
    rewrite (proj2 (Z.eqb_neq x 91)) by (cbn in Hb; congruence). done. }
  unfold parse_socket_addr. rewrite H6. unfold parse_socket_v4.
  destruct (parse_ipv4 host) as [ip|] eqn:Hi.
  - rewrite (read_ipv4_text host ip) by done. cbn [app mbind option_bind read_char]. rewrite Z.eqb_refl.
    cbn [mbind option_bind]. by rewrite parse_plain_dec.
  - destruct (read_ipv4 (host ++ [58] ++ fmt_dec port)) as [[ip r]|] eqn:Hr; [|done]. cbn [mbind option_bind].
    destruct (read_char 58 r) as [r'|] eqn:Hr'; [|done]. exfalso.
    apply read_char_inv in Hr' as ->. apply read_ipv4_inv in Hr as (d & Hd & Hp' & Hd').
    apply split_at_first in Hd; [|done..]. congruence.
Qed.

(** ** Generated files *)
Section Generated.
Context {R : Rcgen} {RL : RcgenLaws R} {UC : Unicode} {UL : UnicodeLaws UC}.

(** The settings of the server that enter a client file, in ASCII. *)
Record server_words (config : ServerConfig) : Prop := {
  sw_host : word (sv_public_host (cfg_server config)) /\ 58 ∉ sv_public_host (cfg_server config)
              /\ head (sv_public_host (cfg_server config)) <> Some 91;
  sw_protocol : word (sv_protocol (cfg_server config));
  sw_port : u16 (SocketAddr_port (sv_listen_addr (cfg_server config)));
  sw_reneg : u32 (sc_reneg_sec (cfg_security config));
}.

(** The certificate the authority distributes is a PEM text. *)
Definition ca_pem_ok (ca : CertificateAuthority) : Prop :=
  exists body, pem_body body /\ ca_cert_pem ca = pem_text (lit "CERTIFICATE") body.

Lemma new_ca_pem_ok now fresh cn org days ca : CertificateAuthority_new now fresh cn org days = Ok ca -> ca_pem_ok ca.
Proof.
  intros H. destruct (new_reads _ _ _ _ _ _ H) as (Hp & _). unfold ca_pem_ok. rewrite Hp. apply cert_pem_shape.
Qed.

Lemma loaded_ca_pem_ok now ca key_pem ca' : ca_pem_ok ca ->
  CertificateAuthority_from_pem now (CertificateAuthority_certificate_pem ca) key_pem = Ok ca' -> ca_pem_ok ca'.
Proof. intros Hok H. destruct (from_pem_reads _ _ _ _ H) as [Hp _]. unfold ca_pem_ok. by rewrite Hp. Qed.

Lemma issued_pem_shapes now fresh ca cn email days cert :
  CertificateAuthority_issue_client_certificate now fresh ca cn email days = Ok cert ->
  (exists body, pem_body body /\ crt_cert_pem cert = pem_text (lit "CERTIFICATE") body) /\
  (exists body, pem_body body /\ crt_key_pem cert = pem_text (lit "PRIVATE KEY") body).
Proof.
  intros H. unfold CertificateAuthority_issue_client_certificate in H.
  apply bind_Ok in H as (k & _ & H). apply bind_Ok in H as (p & _ & H).
  apply bind_Ok in H as (v & _ & H). apply bind_Ok in H as (c & _ & H). inv H. cbn.
  split; [apply cert_pem_shape|apply key_pem_shape].
Qed.

Lemma map_cipher_cases s : ConfigGenerator_map_cipher s = lit "CHACHA20-POLY1305" \/
  ConfigGenerator_map_cipher s = lit "AES-256-GCM".
Proof. unfold ConfigGenerator_map_cipher. repeat case_decide; auto. Qed.

Definition client_file (g : ConfigGenerator) (username : str) (cert : Certificate) : ClientConfig :=
  ClientConfigBuilder_build (ClientConfigBuilder_extra_option (lit "compress stub-v2")
    (add_tls_auth g (base_builder g username cert))).

Lemma client_file_ok config ca ta username now fresh email days cert :
  server_words config -> ca_pem_ok ca ->
  from_option (fun k => length k = 256%nat /\ bytes_ok k) True ta ->
  CertificateAuthority_issue_client_certificate now fresh ca username email days = Ok cert ->
  exists ca_b cert_b key_b,
    file_ok (client_file (ConfigGenerator_new config ca (format_static_key <$> ta)) username cert) ca_b cert_b key_b ta.
Proof.
  intros [Hh Hp Hport Hr] (ca_b & Hca & Eca) Hta Hi.
  destruct (issued_pem_shapes _ _ _ _ _ _ _ Hi) as [(cert_b & Hcb & Ecb) (key_b & Hkb & Ekb)].
  exists ca_b, cert_b, key_b. set (g := ConfigGenerator_new _ _ _).
  assert (Forall (fun o => line_ok o /\ 60 ∉ o /\ inert o) [lit "compress stub-v2"]) as Hx.
  { repeat constructor; by_compute || inert_line. }
  assert (word (ConfigGenerator_map_cipher (sc_cipher (cfg_security config)))) as Hc.
  { destruct (map_cipher_cases (sc_cipher (cfg_security config))) as [-> | ->]; by_compute. }
  destruct ta as [k|]; (split; cbn -[pem_text format_static_key lit u8 u16 u32]; try done; try apply Hh; try by_compute).
  all: done.
Qed.
Lemma client_file_reads config ca ta username email now fresh cert (sc := cfg_server config) :
  server_words config -> ca_pem_ok ca ->
  from_option (fun k => length k = 256%nat /\ bytes_ok k) True ta ->
  CertificateAuthority_issue_client_certificate now fresh ca username email
    (sc_client_cert_lifetime_days (cfg_security config)) = Ok cert ->
  exists g,
    ConfigGenerator_generate_client_config now fresh
      (ConfigGenerator_new config ca (format_static_key <$> ta)) username email = Ok g /\
    gc_certificate g = cert /\
    OvpnConfig_parse (gc_ovpn_content g) =
    match parse_ipv4 (sv_public_host sc) with
    | Some ip =>
        Ok (mkOvpn (SockV4 ip (SocketAddr_port (sv_listen_addr sc))) (sv_protocol sc)
              (ConfigGenerator_map_cipher (sc_cipher (cfg_security config))) [] (lit "SHA256") 3
              (trim (ca_cert_pem ca)) (trim (crt_cert_pem cert)) (trim (crt_key_pem cert)) ta
              (match ta with Some _ => Some 1 | None => None end) true (lit "tun"))
    | None =>
        Err (OvpnMessage (lit "Invalid remote address: " ++ sv_public_host sc ++ lit ":"
                            ++ fmt_dec (SocketAddr_port (sv_listen_addr sc))))
    end.
Proof using RL.
  intros Hw Hca Hta Hi. destruct (client_file_ok _ _ _ _ _ _ _ _ _ Hw Hca Hta Hi) as (b1 & b2 & b3 & Hf).
  destruct (file_read_back _ _ _ _ _ Hf) as (text & Ht & Hp). pose proof (file_valid _ _ _ _ _ Hf) as Hv.
  exists (mkGenerated username text cert). split_and!; [|done|].
  - unfold ConfigGenerator_generate_client_config. cbn [ConfigGenerator_new cg_ca cg_server_config].
    rewrite Hi. cbn [map_err]. rsimp. fold (client_file (ConfigGenerator_new config ca (format_static_key <$> ta)) username cert).
    rewrite Hv. cbn [wrap_error map_err]. rsimp. by rewrite Ht.
  - cbn [gc_ovpn_content]. rewrite Hp. clear Hp Ht Hv Hf. destruct Hw as [(Hh & Hc & Hb) _ Hport _].
    assert (forall T, cc_remote_host (client_file (ConfigGenerator_new config ca T) username cert) = sv_public_host sc
      /\ cc_remote_port (client_file (ConfigGenerator_new config ca T) username cert)
           = SocketAddr_port (sv_listen_addr sc)) as Hrem by (intros [?|]; done).
    destruct (Hrem (format_static_key <$> ta)) as [-> ->].
    rewrite resolve_remote_host; [|done|done|apply Hh|done].
    destruct (parse_ipv4 (sv_public_host sc)) as [ip|]; [|done]. by destruct ta.
Qed.

(** C21 The client reads the files the server generates: every setting comes back,
    the certificates, the static key and its direction included, exactly when
    the public host is an IPv4 address; a host name is refused. *)
Theorem generated_file_reads_back (config : ServerConfig) (ca : CertificateAuthority) (ta : option bytes)
    (username : str) (email : option str) (now : Z) (fresh : KeyPair + str) (cert : Certificate)
    (sc := cfg_server config)
    (Hw : server_words config) (Hca : ca_pem_ok ca)
    (Hta : from_option (fun k => length k = 256%nat /\ bytes_ok k) True ta)
    (Hi : CertificateAuthority_issue_client_certificate now fresh ca username email
            (sc_client_cert_lifetime_days (cfg_security config)) = Ok cert) :
  exists g,
    ConfigGenerator_generate_client_config now fresh
      (ConfigGenerator_new config ca (format_static_key <$> ta)) username email = Ok g /\
    gc_certificate g = cert /\
    OvpnConfig_parse (gc_ovpn_content g) =
    match parse_ipv4 (sv_public_host sc) with
    | Some ip =>
        Ok (mkOvpn (SockV4 ip (SocketAddr_port (sv_listen_addr sc))) (sv_protocol sc)
              (ConfigGenerator_map_cipher (sc_cipher (cfg_security config))) [] (lit "SHA256") 3
              (trim (ca_cert_pem ca)) (trim (crt_cert_pem cert)) (trim (crt_key_pem cert)) ta
              (match ta with Some _ => Some 1 | None => None end) true (lit "tun"))
    | None =>
        Err (OvpnMessage (lit "Invalid remote address: " ++ sv_public_host sc ++ lit ":"
                            ++ fmt_dec (SocketAddr_port (sv_listen_addr sc))))
    end.
Proof. by apply client_file_reads. Qed.
End Generated.

(** ** The files of a new server *)
Lemma fs_write_ok disk p t w w' u : fs_write disk p t w = (w', Ok u) -> w' = <[p := t]> w.
Proof. unfold fs_write. destruct (dk_write disk p); intros H; by inv H. Qed.

Lemma path_join_inj dir a b : path_join dir a = path_join dir b -> a = b.
Proof.
  unfold path_join. destruct dir; [done|]. destruct (ends_with _ _); intros H; [by apply app_inv_head in H|].
  by apply app_inv_head, app_inv_head in H.
Qed.

Lemma of_crypto_ok {A} (m : res CryptoError A) w w' a : of_crypto m w = (w', Ok a) -> w' = w /\ m = Ok a.
Proof. unfold of_crypto, lift. destruct m; intros H; by inv H. Qed.

Section Files.
Context {R : Rcgen}.

(** The files that are written, and nothing else. *)
Lemma initialize_pki_effect now disk rnd dir cn org w w' ca ta_key :
  initialize_pki now disk rnd dir cn org w = (w', Ok (ca, ta_key)) ->
  CertificateAuthority_new now (pe_ca_key rnd) (org ++ lit " CA") org 3650 = Ok ca /\
  ta_key = format_static_key (pe_static_key rnd) /\
  exists cert, w' = <[path_join dir (lit "ta.key") := ta_key]>
    (<[path_join dir (lit "server.key") := crt_key_pem cert]> (<[path_join dir (lit "server.crt") := crt_cert_pem cert]>
      (<[path_join dir (lit "ca.key") := CertificateAuthority_private_key_pem ca]>
        (<[path_join dir (lit "ca.crt") := CertificateAuthority_certificate_pem ca]> w)))).
Proof.
  intros H. unfold initialize_pki in H.
  apply M_bind_Ok in H as (w0 & u0 & Hw0 & H). apply M_bind_Ok in H as (w1 & ca0 & Hca & H).
  apply M_bind_Ok in H as (w2 & u1 & F1%fs_write_ok & H). apply M_bind_Ok in H as (w3 & u2 & F2%fs_write_ok & H).
  apply M_bind_Ok in H as (w4 & sc & Hsc & H). apply M_bind_Ok in H as (w5 & u3 & F3%fs_write_ok & H).
  apply M_bind_Ok in H as (w6 & u4 & F4%fs_write_ok & H). apply M_bind_Ok in H as (w7 & u5 & F5%fs_write_ok & H).
  apply of_crypto_ok in Hca as [-> Hca]. apply of_crypto_ok in Hsc as [-> _]. injection H as <- <- <-. subst.
  unfold io_check in Hw0. destruct (dk_create_dir_all disk dir); [|done]. injection Hw0 as -> _. by split; [|split; [|exists sc]].
Qed.

Lemma data_paths_differ dir (a b : string) : lit a <> lit b -> path_join dir (lit a) <> path_join dir (lit b).
Proof. intros Hne Heq. apply Hne. by apply path_join_inj in Heq. Qed.

Lemma initialize_pki_files now disk rnd dir cn org w w' ca ta_key :
  initialize_pki now disk rnd dir cn org w = (w', Ok (ca, ta_key)) ->
  CertificateAuthority_new now (pe_ca_key rnd) (org ++ lit " CA") org 3650 = Ok ca /\
  ta_key = format_static_key (pe_static_key rnd) /\
  w' !! path_join dir (lit "ca.crt") = Some (CertificateAuthority_certificate_pem ca) /\
  w' !! path_join dir (lit "ca.key") = Some (CertificateAuthority_private_key_pem ca) /\
  w' !! path_join dir (lit "ta.key") = Some ta_key /\
  is_Some (w' !! path_join dir (lit "server.crt")).
Proof.
  intros (Hca & Hta & cert & ->)%initialize_pki_effect.
  split_and!; try done; rewrite ?lookup_insert_eq; try done; try eapply mk_is_Some;
    (repeat (rewrite lookup_insert_ne by (apply data_paths_differ; vm_compute; discriminate))); by rewrite lookup_insert_eq.
Qed.
Lemma initialize_pki_server_key now disk rnd dir cn org w w' ca ta_key :
  initialize_pki now disk rnd dir cn org w = (w', Ok (ca, ta_key)) ->
  is_Some (w' !! path_join dir (lit "server.key")).
Proof.
  intros (_ & _ & cert & ->)%initialize_pki_effect.
  rewrite lookup_insert_ne by (apply data_paths_differ; vm_compute; discriminate). rewrite lookup_insert_eq. by eexists.
Qed.
(** Other names of the directory are left as they were. *)
Lemma initialize_pki_frame now disk rnd dir cn org w w' ca ta_key (name : string) :
  initialize_pki now disk rnd dir cn org w = (w', Ok (ca, ta_key)) ->
  lit name ∉ [lit "ca.crt"; lit "ca.key"; lit "server.crt"; lit "server.key"; lit "ta.key"] ->
  w' !! path_join dir (lit name) = w !! path_join dir (lit name).
Proof.
  intros (_ & _ & cert & ->)%initialize_pki_effect Hn.
  by rewrite !lookup_insert_ne by (apply data_paths_differ; intros Heq; apply Hn; rewrite Heq; set_solver).
Qed.
End Files.

(** What the files of the map read as. *)
Definition files_of (w : Written) : Files :=
  mkFiles (fun p => is_some (w !! p))
    (fun p => match w !! p with Some t => inl t | None => inr (lit "No such file or directory") end).

Section Provisioned.
Context {R : Rcgen} {RL : RcgenLaws R} {UC : Unicode} {HMAC : Hmac} {HL : HmacLaws HMAC}.

(** What the files of a new server and the files of its clients have in
    common. *)
Lemma provisioned_agree (config : ServerConfig) (disk : Disk) (rnd : PkiEntropy)
    (server_cn org username : str) (email : option str) (t0 t1 t2 ip : Z) (w w' : Written)
    (ca ca' : CertificateAuthority) (ta_key cert_pem key_pem : str) (fresh : KeyPair + str) (cert : Certificate)
    (Hinit : initialize_pki t0 disk rnd (sv_data_dir (cfg_server config)) server_cn org w = (w', Ok (ca, ta_key)))
    (Hkey : length (pe_static_key rnd) = 256%nat /\ bytes_ok (pe_static_key rnd))
    (Hcrt : w' !! ServerConfig_ca_cert_path config = Some cert_pem)
    (Hckey : w' !! ServerConfig_ca_key_path config = Some key_pem)
    (Hload : CertificateAuthority_from_pem t1 cert_pem key_pem = Ok ca')
    (Hi : CertificateAuthority_issue_client_certificate t2 fresh ca' username email
            (sc_client_cert_lifetime_days (cfg_security config)) = Ok cert)
    (Hw : server_words config) (Hip : parse_ipv4 (sv_public_host (cfg_server config)) = Some ip)
    (Hta : sc_tls_auth (cfg_security config) = true) :
  exists g o k ck s c,
    ConfigGenerator_generate_client_config t2 fresh
      (ConfigGenerator_new config ca' (w' !! ServerConfig_ta_key_path config)) username email = Ok g /\
    OvpnConfig_parse (gc_ovpn_content g) = Ok o /\
    VpnServer_load_tls_auth_key (files_of w') config = Ok (Some k) /\ ov_tls_auth_key o = Some ck /\
    HmacAuth_from_ta_key k true None = Ok s /\
    HmacAuth_from_ta_key ck false (ov_key_direction o) = Ok c /\
    forall data, HmacAuth_unwrap c (HmacAuth_wrap s data) = Ok data /\
                 HmacAuth_unwrap s (HmacAuth_wrap c data) = Ok data.
Proof.
  destruct (initialize_pki_files _ _ _ _ _ _ _ _ _ _ Hinit) as (Hnew & -> & F1 & F2 & F3 & _).
  unfold ServerConfig_ca_cert_path, ServerConfig_ca_key_path in *. rewrite F1 in Hcrt. rewrite F2 in Hckey.
  injection Hcrt as <-. injection Hckey as <-. destruct Hkey as [Hlen Hok].
  pose proof (loaded_ca_pem_ok _ _ _ _ (new_ca_pem_ok _ _ _ _ _ _ Hnew) Hload) as Hca.
  destruct (client_file_reads config ca' (Some (pe_static_key rnd)) username email t2 fresh cert Hw Hca)
    as (g & Hg & _ & Hp); [done..|]. rewrite Hip in Hp.
  destruct (complementary_pair (pe_static_key rnd) None (Some 1) Hlen) as (s & c & Hs & Hc & H1 & H2); [by left|].
  exists g. eexists. exists (pe_static_key rnd), (pe_static_key rnd), s, c.
  split_and!; [|exact Hp| |done|done|exact Hc|].
  - unfold ServerConfig_ta_key_path. by rewrite F3.
  - unfold VpnServer_load_tls_auth_key, ServerConfig_ta_key_path, files_of. cbn [fl_exists fl_read].
    rewrite Hta, F3. cbn [negb is_some]. by rewrite parse_format_static_key.
  - intros data. split; by apply unwrap_wrap.
Qed.

(** C22 A client that is set up from the server's files passes its tls-auth
    check, and the server the client's: after [initialize_pki], a file that is
    generated with the authority and the static key read from the data
    directory is accepted by the client, and the keys that both ends derive
    from their copies are complementary. *)
Theorem provisioned_client_authenticates (config : ServerConfig) (disk : Disk) (rnd : PkiEntropy)
    (server_cn org username : str) (email : option str) (t0 t1 t2 ip : Z) (w w' : Written)
    (ca ca' : CertificateAuthority) (ta_key cert_pem key_pem : str) (fresh : KeyPair + str) (cert : Certificate)
    (Hinit : initialize_pki t0 disk rnd (sv_data_dir (cfg_server config)) server_cn org w = (w', Ok (ca, ta_key)))
    (Hkey : length (pe_static_key rnd) = 256%nat /\ bytes_ok (pe_static_key rnd))
    (Hcrt : w' !! ServerConfig_ca_cert_path config = Some cert_pem)
    (Hckey : w' !! ServerConfig_ca_key_path config = Some key_pem)
    (Hload : CertificateAuthority_from_pem t1 cert_pem key_pem = Ok ca')
    (Hi : CertificateAuthority_issue_client_certificate t2 fresh ca' username email
            (sc_client_cert_lifetime_days (cfg_security config)) = Ok cert)
    (Hw : server_words config) (Hip : parse_ipv4 (sv_public_host (cfg_server config)) = Some ip)
    (Hta : sc_tls_auth (cfg_security config) = true) :
  exists g o k ck s c,
    ConfigGenerator_generate_client_config t2 fresh
      (ConfigGenerator_new config ca' (w' !! ServerConfig_ta_key_path config)) username email = Ok g /\
    OvpnConfig_parse (gc_ovpn_content g) = Ok o /\
    VpnServer_load_tls_auth_key (files_of w') config = Ok (Some k) /\ ov_tls_auth_key o = Some ck /\
    HmacAuth_from_ta_key k true None = Ok s /\
    HmacAuth_from_ta_key ck false (ov_key_direction o) = Ok c /\
    forall data, HmacAuth_unwrap c (HmacAuth_wrap s data) = Ok data /\
                 HmacAuth_unwrap s (HmacAuth_wrap c data) = Ok data.
Proof. by eapply provisioned_agree. Qed.
End Provisioned.

(** ** The claims at concrete inputs *)
Section ProvisionWitnesses.
#[local] Existing Instances toy_rcgen toy_rcgen_laws ascii_unicode ascii_unicode_laws toy_hmac toy_hmac_laws.

Definition shop_config : ServerConfig := ServerConfig_default_config (lit "203.0.113.7").
Definition shop_cert (ca : CertificateAuthority) : Certificate :=
  ok_or_else (mkCert [] [] [])
    (CertificateAuthority_issue_client_certificate 9 (inl 6%positive) ca (lit "alice") None
       (sc_client_cert_lifetime_days (cfg_security shop_config))).

Lemma shop_words : server_words shop_config.
Proof. split; by_compute. Qed.

Lemma generated_file_reads_back_witness :
  exists g,
    ConfigGenerator_generate_client_config 9 (inl 6%positive)
      (ConfigGenerator_new shop_config sample_ca (Some (format_static_key sample_ta_key))) (lit "alice") None = Ok g /\
    is_ok (OvpnConfig_parse (gc_ovpn_content g)) = true.
Proof.
  destruct (generated_file_reads_back (R := toy_rcgen) shop_config sample_ca (Some sample_ta_key) (lit "alice") None 9
              (inl 6%positive) (shop_cert sample_ca)) as (g & Hg & _ & Hp).
  - exact shop_words.
  - exact (new_ca_pem_ok _ _ _ _ _ _ sample_ca_eq).
  - split; [reflexivity|]. apply (bool_decide_unpack _). vm_compute. exact I.
  - apply ok_or_else_eq. vm_compute. reflexivity.
  - exists g. split; [exact Hg|]. rewrite Hp. reflexivity.
Defined.

Definition open_disk : Disk :=
  mkDisk (fun _ => true) (fun _ => true) (fun _ => true) (fun p => Some p) (fun _ => true).
Definition shop_entropy : PkiEntropy := mkEntropy (inl 1%positive) (inl 2%positive) sample_ta_key.
Definition shop_setup : Written * res ConfigError (CertificateAuthority * str) :=
  initialize_pki 5 open_disk shop_entropy (sv_data_dir (cfg_server shop_config)) (lit "203.0.113.7") (lit "Shop") ∅.
Definition shop_files : Written := fst shop_setup.
Definition shop_file (p : str) : str := default [] (shop_files !! p).
Definition shop_ca : CertificateAuthority :=
  ok_or_else sample_ca (CertificateAuthority_from_pem 7 (shop_file (ServerConfig_ca_cert_path shop_config))
    (shop_file (ServerConfig_ca_key_path shop_config))).

Lemma pair_ok {S E A B} (d : A * B) (p : S * res E (A * B)) : is_ok (snd p) = true ->
  p = (fst p, Ok (fst (ok_or_else d (snd p)), snd (ok_or_else d (snd p)))).
Proof. by destruct p as [s [[a b]|e|]]. Qed.

Lemma default_some {A} (d : A) (o : option A) : is_some o = true -> o = Some (default d o).
Proof. by destruct o. Qed.

Lemma provisioned_client_authenticates_witness :
  exists g o k ck s c,
    ConfigGenerator_generate_client_config 9 (inl 6%positive)
      (ConfigGenerator_new shop_config shop_ca (shop_files !! ServerConfig_ta_key_path shop_config)) (lit "alice") None
      = Ok g /\
    OvpnConfig_parse (gc_ovpn_content g) = Ok o /\
    VpnServer_load_tls_auth_key (files_of shop_files) shop_config = Ok (Some k) /\ ov_tls_auth_key o = Some ck /\
    HmacAuth_from_ta_key k true None = Ok s /\ HmacAuth_from_ta_key ck false (ov_key_direction o) = Ok c /\
    forall data, HmacAuth_unwrap c (HmacAuth_wrap s data) = Ok data /\
                 HmacAuth_unwrap s (HmacAuth_wrap c data) = Ok data.
Proof.
  apply (provisioned_client_authenticates (R := toy_rcgen) shop_config open_disk shop_entropy (lit "203.0.113.7")
           (lit "Shop") (lit "alice") None 5 7 9 (from_be [203; 0; 113; 7]) ∅ shop_files
           (fst (ok_or_else (sample_ca, []) (snd shop_setup))) shop_ca (snd (ok_or_else (sample_ca, []) (snd shop_setup)))
           (shop_file (ServerConfig_ca_cert_path shop_config)) (shop_file (ServerConfig_ca_key_path shop_config))
           (inl 6%positive) (shop_cert shop_ca)).
  - apply (pair_ok (sample_ca, []) shop_setup). vm_compute. reflexivity.
  - split; [reflexivity|]. apply (bool_decide_unpack _). vm_compute. exact I.
  - apply default_some. vm_compute. reflexivity.
  - apply default_some. vm_compute. reflexivity.
  - apply ok_or_else_eq. vm_compute. reflexivity.
  - apply ok_or_else_eq. vm_compute. reflexivity.
  - exact shop_words.
  - vm_compute. reflexivity.
  - reflexivity.
Defined.
End ProvisionWitnesses.
