(* ===== verification/Setup.v ===== *)
(** * Set-up and commands of the server

    src/crates/corevpn-server/src/setup.rs, the set-up dialogue, and
    src/crates/corevpn-server/src/main.rs, the commands.  The crate
    [dialoguer] is the class [Dialog]: the answers of the administrator are in
    its state, with the files and the calls of the operating system.  What is
    only printed is left out; an issue of the doctor is a constructor instead
    of its text. *)
From S2P Require Import Prelude Errors Text Network Addr AddrText CoreSession Cipher HmacAuth ServerConfig ServerToml ConnLog AuditEvents.
From S2P Require Import Cert ClientConfig Pki Generator TlsDriver Server ServerStart Provision.
Local Open Scope Z_scope.

(** ** The terminal

    [Term::clear_screen], [Stdout::flush] and the prompts of dialoguer; an
    [Input] has a default, may allow an empty answer, and a validator; a
    [Select] has items and answers with an index. *)
Class Dialog (D : Type) := {
  dl_clear_screen : M D str unit;
  dl_flush : M D str unit;
  dl_input : option str -> bool -> (str -> bool) -> M D str str;
  dl_select : list str -> nat -> M D str nat;
  dl_confirm : bool -> M D str bool;
}.
(** An answer passes the validator and is empty only if that is allowed; an
    index is in range. *)
Class DialogLaws (D : Type) `{!Dialog D} : Prop := {
  dl_input_valid def empty valid d d' s : dl_input def empty valid d = (d', Ok s) -> valid s = true;
  dl_input_nonempty def valid d d' s :
    dl_input def false valid d = (d', Ok s) -> def <> Some [] -> s <> [];
  dl_select_range items def d d' i : dl_select items def d = (d', Ok i) -> (i < length items)%nat;
}.

(** [anyhow::Error]: of the terminal, of parsing a number, or the text of a
    [context]. *)
Inductive SetupError :=
| TermError (text : str)
| ParseIntError
| SetupContext (text : str).

(** [reqwest]: [None] when the client cannot be built; what a GET answers,
    [None] when it or reading its text fails. *)
Abbreviation IpServices := (option (str -> option str)).

Definition services : list str :=
  [lit "https://api.ipify.org"; lit "https://ifconfig.me/ip"; lit "https://icanhazip.com"].
Fixpoint first_ip (fetch : str -> option str) (l : list str) : option str :=
  match l with
  | [] => None
  | service :: l' =>
      match fetch service with
      | Some text =>
          let ip := trim text in
          if negb (bool_decide (ip = [])) && is_some (parse_ip ip) then Some ip else first_ip fetch l'
      | None => first_ip fetch l'
      end
  end.
Definition detect_public_ip (http : IpServices) : option str :=
  fetch ← http; first_ip fetch services.

Section Dialogue.
Context {D : Type} `{DL : !Dialog D}.

Definition any (_ : str) : bool := true.
(** [interact_text()?] of an [Input] without a default. *)
Definition ask : M D str str := dl_input None false any.

Definition setup_google_oauth : M D str OAuthSettings :=
  client_id ← ask;
  client_secret ← ask;
  domain ← dl_input None true any;
  mret (mkOAuthSettings true (lit "google") client_id client_secret None None None
          (if bool_decide (domain = []) then [] else [domain]) [] 9000 None 86400).
Definition setup_microsoft_oauth : M D str OAuthSettings :=
  client_id ← ask;
  client_secret ← ask;
  tenant_id ← dl_input (Some (lit "common")) false any;
  mret (mkOAuthSettings true (lit "microsoft") client_id client_secret None (Some tenant_id) None [] [] 9000 None 86400).
Definition setup_okta_oauth : M D str OAuthSettings :=
  domain ← ask;
  client_id ← ask;
  client_secret ← ask;
  mret (mkOAuthSettings true (lit "okta") client_id client_secret None None (Some domain) [] [] 9000 None 86400).

Definition port_options : list str :=
  [lit "1194 (Standard OpenVPN port - recommended)"; lit "443 (HTTPS port - works through most firewalls)";
   lit "Custom port"].
Definition protocol_options : list str :=
  [lit "UDP (faster, recommended)"; lit "TCP (works through strict firewalls)"].
Definition auth_options : list str :=
  [lit "Certificate only (simple, secure)"; lit "Google Workspace (recommended for organizations)";
   lit "Microsoft Entra ID (Azure AD)"; lit "Okta"; lit "Skip OAuth2 for now (can add later)"].
Definition tunnel_options : list str :=
  [lit "Full tunnel (all traffic through VPN - most secure)"; lit "Split tunnel (only specific networks through VPN)"].

(** [parse::<u16>().is_ok()], and [parse()?]. *)
Definition port_valid (input : str) : bool := is_some (parse_uint 16 input).

(** The steps 1 to 5 of the dialogue. *)
Record Answers := mkAnswers {
  as_public_host : str;
  as_port : Z;
  as_protocol : str;
  as_oauth_config : option OAuthSettings;
  as_redirect_gateway : bool;
  as_subnet : str;
}.
Definition of_term {A} (m : M D str A) : M D SetupError A := zoom id (fun d _ => d) TermError m.

Definition ask_host (detected_ip : option str) : M D SetupError str :=
  of_term (match detected_ip with
           | Some ip => dl_input (Some ip) false any
           | None => ask
           end).
Definition ask_port : M D SetupError Z :=
  port_selection ← of_term (dl_select port_options 0);
  match port_selection with
  | 0%nat => mret 1194
  | 1%nat => mret 443
  | _ => input ← of_term (dl_input None false port_valid);
         lift (ok_or (parse_uint 16 input) ParseIntError)
  end.
Definition ask_protocol : M D SetupError str :=
  protocol_selection ← of_term (dl_select protocol_options 0);
  mret (if bool_decide (protocol_selection = 0%nat) then lit "udp" else lit "tcp").
Definition ask_oauth : M D SetupError (option OAuthSettings) :=
  auth_selection ← of_term (dl_select auth_options 0);
  match auth_selection with
  | 1%nat => oauth ← of_term setup_google_oauth; mret (Some oauth)
  | 2%nat => oauth ← of_term setup_microsoft_oauth; mret (Some oauth)
  | 3%nat => oauth ← of_term setup_okta_oauth; mret (Some oauth)
  | _ => mret None
  end.
Definition ask_all (http : IpServices) : M D SetupError Answers :=
  _ ← of_term dl_clear_screen;
  public_host ← ask_host (detect_public_ip http);
  port ← ask_port;
  protocol ← ask_protocol;
  oauth_config ← ask_oauth;
  tunnel_mode ← of_term (dl_select tunnel_options 0);
  let redirect_gateway := bool_decide (tunnel_mode = 0%nat) in
  subnet ← of_term (dl_input (Some (lit "10.8.0.0/24")) false any);
  mret (mkAnswers public_host port protocol oauth_config redirect_gateway subnet).

(** The configuration that is saved. *)
Definition wizard_config (a : Answers) (data_dir : str) : ServerConfig :=
  let config := ServerConfig_default_config (as_public_host a) in
  let sv := cfg_server config in
  let nw := cfg_network config in
  mkServerConfig
    (mkServerSettings (SocketAddr_new (V4 0) (as_port a)) (sv_tcp_listen_addr sv) (sv_public_host sv) (as_protocol a)
       (sv_max_clients sv) data_dir (sv_idle_timeout_sec sv))
    (mkNetworkSettings (as_subnet a) (nw_subnet_v6 nw) (nw_dns nw) (nw_dns_search nw) (nw_push_routes nw)
       (as_redirect_gateway a) (nw_mtu nw))
    (cfg_security config)
    (match as_oauth_config a with Some oauth => Some oauth | None => cfg_oauth config end)
    (cfg_logging config) (cfg_admin config) (cfg_audit config).

(** ** The dialogue *)
Record SetupWorld := mkSetupWorld { su_term : D; su_files : Written; su_calls : Trace }.
Definition on_term {A} (m : M D SetupError A) : M SetupWorld SetupError A :=
  zoom su_term (fun d w => mkSetupWorld d (su_files w) (su_calls w)) id m.
(** [.context(text)?] of an operation on files. *)
Definition on_files {A} (text : string) (m : M Written ConfigError A) : M SetupWorld SetupError A :=
  zoom su_files (fun f w => mkSetupWorld (su_term w) f (su_calls w)) (fun _ => SetupContext (lit text)) m.

Context {R : Rcgen} {TM : Toml}.

Definition ServerConfig_save (disk : Disk) (c : ServerConfig) (path : str) : M Written ConfigError unit :=
  content ← lift (config_to_string c);
  fs_write disk path content.

Definition config_dir : str := lit "/etc/corevpn".
Definition config_path : str := path_join config_dir (lit "config.toml").

Definition run_interactive_setup (now : Z) (http : IpServices) (disk : Disk) (rnd : PkiEntropy) (data_dir : str) :
    M SetupWorld SetupError unit :=
  answers ← on_term (ask_all http);
  proceed ← on_term (of_term (dl_confirm true));
  if negb proceed then mret tt else
  _ ← on_files "Failed to create config directory" (io_check (dk_create_dir_all disk config_dir));
  _ ← on_files "Failed to create data directory" (io_check (dk_create_dir_all disk data_dir));
  _ ← on_term (of_term dl_flush);
  _ ← on_files "Failed to initialize PKI"
        (initialize_pki now disk rnd data_dir (as_public_host answers) (lit "CoreVPN"));
  let config := wizard_config answers data_dir in
  _ ← on_term (of_term dl_flush);
  on_files "Failed to save configuration" (ServerConfig_save disk config config_path).
End Dialogue.

(** The page of the web set-up posts its form here. *)
Definition handle_setup (_data : Json) : Json := JObj [(lit "status", JStr (lit "ok"))].

(** ** The commands *)
Inductive Commands :=
| CmdSetup (data_dir : str) (web : bool)
| CmdRun (config : str) (ghost : bool)
| CmdClient (config user : str) (output : option str)
| CmdStatus (config : str)
| CmdDoctor (config : str)
| CmdWeb (config : str) (listen : SocketAddr).

(** [anyhow::Error] of a command. *)
Inductive CommandError :=
| LoadContext (path : str) (e : ConfigError)
| CommandContext (text : str)
| SetupFailed (e : SetupError)
| RunFailed (e : str).

(** What the doctor reports. *)
Inductive Issue :=
| FixConfiguration (e : ConfigError)
| CreateDataDirectory (dir : str)
| InitializePki
| ServerCertificateMissing
| TlsAuthKeyMissing
| FixSubnet
| PortInUse (port : Z).

(** A line of the status: a text, or a text with a list that is printed with
    [{:?}]. *)
Inductive StatusLine := Text (s : str) | WithList (s : str) (l : list str).
Definition text_of (label : string) (value : str) : StatusLine := Text (lit label ++ value).

Definition show_status (c : ServerConfig) : list StatusLine :=
  let sv := cfg_server c in
  let nw := cfg_network c in
  let sc := cfg_security c in
  [ Text (lit "CoreVPN Server Status"); Text (lit "====================="); Text [];
    Text (lit "Configuration:");
    text_of "  Public Host: " (sv_public_host sv);
    text_of "  Listen Address: " (SocketAddr_fmt (sv_listen_addr sv));
    text_of "  Protocol: " (sv_protocol sv);
    text_of "  Max Clients: " (fmt_dec (sv_max_clients sv)); Text [];
    Text (lit "Network:");
    text_of "  Subnet: " (nw_subnet nw);
    WithList (lit "  DNS: ") (nw_dns nw);
    text_of "  Full Tunnel: " (fmt_bool (nw_redirect_gateway nw)); Text [];
    Text (lit "Security:");
    text_of "  Cipher: " (sc_cipher sc);
    text_of "  TLS Version: " (sc_tls_min_version sc);
    text_of "  TLS Auth: " (fmt_bool (sc_tls_auth sc));
    text_of "  PFS: " (fmt_bool (sc_pfs sc)); Text [] ]
  ++ (match cfg_oauth c with
      | Some oauth =>
          [ Text (lit "OAuth2:"); text_of "  Enabled: " (fmt_bool (oa_enabled oauth));
            text_of "  Provider: " (oa_provider oauth) ]
          ++ (if bool_decide (oa_allowed_domains oauth = []) then [] else [WithList (lit "  Allowed Domains: ") (oa_allowed_domains oauth)])
      | None => []
      end)
  ++ [ Text []; Text (lit "Status: Configuration OK") ].

(** How a command ends: it returns, or it enters the service of another
    module; the VPN server in its event loop. *)
Inductive Outcome {Server : Type} :=
| Done
| ServesWebSetup (addr : SocketAddr)
| ServesVpn (server : Server)
| ServesAdmin (config : ServerConfig) (listen : SocketAddr)
| SavedTo (path : str)
| Shows (lines : list StatusLine)
| Reports (issues : list Issue).
Arguments Outcome : clear implicits.

(** [corevpn_config::ConnectionLogMode::None] in place of the configured mode. *)
Definition ghost_mode (ghost : bool) (c : ServerConfig) : ServerConfig :=
  if ghost then
    let l := cfg_logging c in
    mkServerConfig (cfg_server c) (cfg_network c) (cfg_security c) (cfg_oauth c)
      (mkLogging (lg_level l) (lg_format l) (lg_file l) LogNone (lg_connection_log_file l) (lg_connection_log_db l)
         (lg_connection_events l) (lg_anonymization l) (lg_retention l) (lg_log_connections l))
      (cfg_admin c) (cfg_audit c)
  else c.

Section Commands.
Context {N4 N6 : Type} {Net4 : IpNet 32 N4} {Net6 : IpNet 128 N6} {Txt4 : IpNetText 32 N4} {Txt6 : IpNetText 128 N6}
  {UC : Unicode}.
Context {D : Type} `{DL : !Dialog D} {R : Rcgen} {TM : Toml}.
Context {SHA : Sha256} {Ch : Chrono} {ChF : ChronoFields} {Uu : Uuids} {TlsConfig TlsConn L : Type} {PKI : RustlsPki}
  (config_of_rustls : ServerTlsConfig -> TlsConfig) (logger_of : LoggerChoice -> res str L)
  (td_seconds : Z -> option TimeDelta) (fmt : ProtocolError -> str) (fmt_core : CoreError -> str).
Abbreviation Server := (VpnServer (Ch := Ch) (Uu := Uu) (N4 := N4) (N6 := N6) (TlsConfig := TlsConfig)
  (TlsConn := TlsConn) (L := L)).

(** [issues.push(..)] when a check fails. *)
Definition check (ok : bool) (issue : Issue) : list Issue := if ok then [] else [issue].

Definition run_doctor (exists_ : str -> bool) (can_bind : SocketAddr -> bool)
    (config_result : res ConfigError ServerConfig) : list Issue :=
  match config_result with
  | Ok config =>
      check (exists_ (ServerConfig_data_dir config)) (CreateDataDirectory (ServerConfig_data_dir config))
      ++ check (exists_ (ServerConfig_ca_cert_path config)) InitializePki
      ++ check (exists_ (ServerConfig_server_cert_path config)) ServerCertificateMissing
      ++ check (exists_ (ServerConfig_ta_key_path config) || negb (sc_tls_auth (cfg_security config))) TlsAuthKeyMissing
      ++ check (is_v4_net (N4 := N4) (nw_subnet (cfg_network config))) FixSubnet
      ++ check (can_bind (sv_listen_addr (cfg_server config)))
           (PortInUse (SocketAddr_port (sv_listen_addr (cfg_server config))))
  | Err e => [FixConfiguration e]
  | Panic => []
  end.

Definition read_context (text : string) (path : str) : M Written CommandError str := fun w =>
  (w, ok_or (w !! path) (CommandContext (lit text))).

(** What a command takes from its surroundings: the clock, the key it draws
    for a client, the services of [Setup], the files that exist beside those
    written, the ports that can be bound, and for the server the operating
    system, the time and the secret of the anonymizer. *)
Record CommandEnv := mkCommandEnv {
  ce_now : Z;
  ce_fresh : KeyPair + str;
  ce_http : IpServices;
  ce_disk : Disk;
  ce_entropy : PkiEntropy;
  ce_can_bind : SocketAddr -> bool;
  ce_os : Os;
  ce_utc : DateTime;
  ce_secret : bytes;
}.

Definition generate_client_file (env : CommandEnv) (config : ServerConfig) (username : str) (output : option str) :
    M Written CommandError str :=
  ca_cert ← read_context "Failed to read CA certificate" (ServerConfig_ca_cert_path config);
  ca_key ← read_context "Failed to read CA key" (ServerConfig_ca_key_path config);
  ca ← lift (map_err (fun _ => CommandContext (lit "Failed to load CA"))
               (CertificateAuthority_from_pem (ce_now env) ca_cert ca_key));
  files ← get;
  let ta_key := files !! ServerConfig_ta_key_path config in
  let generator := ConfigGenerator_new config ca ta_key in
  generated ← lift (map_err (fun _ => CommandContext (lit "Failed to generate client config"))
                      (ConfigGenerator_generate_client_config (ce_now env) (ce_fresh env) generator username (Some username)));
  let output_path := default (GeneratedConfig_filename generated) output in
  _ ← zoom id (fun w _ => w) (fun _ => CommandContext (lit "Failed to write config file"))
        (fs_write (ce_disk env) output_path (gc_ovpn_content generated));
  mret output_path.

(** [Path::exists] after the writes of this run. *)
Definition exists_now (disk : Disk) (files : Written) (path : str) : bool :=
  is_some (files !! path) || dk_exists disk path.

Definition load_context (path : str) : M (SetupWorld (D := D)) CommandError ServerConfig := fun w =>
  (w, map_err (LoadContext path) (ServerConfig_load (N4 := N4) (N6 := N6) (su_files w) path)).

(** [server::run_server] on the files of this run. *)
Definition serve (env : CommandEnv) (server_config : ServerConfig) : M (SetupWorld (D := D)) CommandError Server :=
  w ← get;
  zoom su_calls (fun calls w => mkSetupWorld (su_term w) (su_files w) calls) RunFailed
    (run_server (N4 := N4) (N6 := N6) (TlsConn := TlsConn) config_of_rustls logger_of td_seconds fmt fmt_core
       (files_of (su_files w)) (ce_utc env) (ce_secret env) (ce_os env) server_config).

Definition main (env : CommandEnv) (command : Commands) : M (SetupWorld (D := D)) CommandError (Outcome Server) :=
  match command with
  | CmdSetup data_dir web =>
      if web then mret (ServesWebSetup (SocketAddr_new (V4 (from_be [127; 0; 0; 1])) 8080))
      else
        _ ← zoom id (fun w _ => w) SetupFailed
              (run_interactive_setup (ce_now env) (ce_http env) (ce_disk env) (ce_entropy env) data_dir);
        mret Done
  | CmdRun config ghost =>
      server_config ← load_context config;
      server ← serve env (ghost_mode ghost server_config);
      mret (ServesVpn server)
  | CmdClient config user output =>
      server_config ← load_context config;
      path ← zoom su_files (fun f w => mkSetupWorld (su_term w) f (su_calls w)) id
               (generate_client_file env server_config user output);
      mret (SavedTo path)
  | CmdStatus config =>
      server_config ← load_context config;
      mret (Shows (show_status server_config))
  | CmdDoctor config => fun w =>
      let config_result := ServerConfig_load (N4 := N4) (N6 := N6) (su_files w) config in
      (w, Ok (Reports (run_doctor (exists_now (ce_disk env) (su_files w)) (ce_can_bind env) config_result)))
  | CmdWeb config listen =>
      server_config ← load_context config;
      mret (ServesAdmin server_config listen)
  end.
End Commands.
