(* ===== verification/SetupProofs.v ===== *)
(** * Set-up: what it leaves behind

    What the answers of the dialogue satisfy, which files it writes, and what
    the other commands make of them. *)
From S2P Require Import Prelude Errors Text Network Addr AddrText ServerConfig ServerToml ServerTomlProofs ConnLog.
From S2P Require Import CoreSession HmacAuth Cert ClientConfig Pki Generator Server Ovpn OvpnFile Runs TlsDriver ServerStart ServerStartProofs Provision Setup.
Local Open Scope Z_scope.

(** A method of a part of the state that succeeded. *)
Lemma zoom_Ok {S T E F A} (proj : S -> T) upd (conv : F -> E) (m : M T F A) s s' a :
  zoom proj upd conv m s = (s', Ok a) -> exists t, m (proj s) = (t, Ok a) /\ s' = upd t s.
Proof.
  unfold zoom. destruct (m (proj s)) as [t r]. intros H. injection H as <- Hr. exists t. by destruct r; inv Hr.
Qed.

Section Answers.
Context {D : Type} `{DL : !Dialog D} {DLaws : DialogLaws D}.

Lemma of_term_Ok {A} (m : M D str A) d d' a : of_term m d = (d', Ok a) -> m d = (d', Ok a).
Proof. intros (t & Ht & ->)%zoom_Ok. done. Qed.

(** What holds of the answers whatever is typed. *)
Record answers_ok (a : Answers) : Prop := {
  ao_host : as_public_host a <> [];
  ao_port : u16 (as_port a);
  ao_protocol : as_protocol a = lit "udp" \/ as_protocol a = lit "tcp";
  ao_oauth : if_some (fun o => oauth_fits o /\ oa_enabled o = true /\ oa_client_id o <> [] /\ oa_client_secret o <> []
                            /\ oa_session_lifetime_sec o = 86400)
               (as_oauth_config a);
  ao_subnet : as_subnet a <> [];
}.

Lemma first_ip_nonempty fetch l ip : first_ip fetch l = Some ip -> ip <> [].
Proof.
  induction l as [|s l IH]; [done|]. cbn [first_ip]. destruct (fetch s) as [t|]; [|done].
  destruct (bool_decide (trim t = [])) eqn:Hb; [done|]. apply bool_decide_eq_false in Hb.
  cbn [negb andb]. destruct (is_some _); [|done]. intros H. by injection H as <-.
Qed.
Lemma detected_nonempty http : detect_public_ip http <> Some [].
Proof. destruct http as [fetch|]; [|done]. intros H. by apply first_ip_nonempty in H. Qed.

Lemma ask_nonempty d d' s : ask d = (d', Ok s) -> s <> [].
Proof. intros H. by apply (dl_input_nonempty _ _ _ _ _ H). Qed.

Lemma ask_host_ok http d d' h : ask_host (detect_public_ip http) d = (d', Ok h) -> h <> [].
Proof.
  intros H%of_term_Ok. pose proof (detected_nonempty http) as Hd.
  destruct (detect_public_ip http) as [ip|]; [by apply (dl_input_nonempty _ _ _ _ _ H)|by apply ask_nonempty in H].
Qed.

Lemma parse_uint_range w s z : 0 <= w -> parse_uint w s = Some z -> uint w z.
Proof.
  intros Hw.
  assert (forall s acc, uint w acc -> parse_digits w acc s = Some z -> uint w z) as Hgo.
  { intros t. induction t as [|b t IH]; intros acc Hacc; cbn [parse_digits]; [by intros [= <-]|].
    unfold digit. destruct (in_range 48 57 b) eqn:Hb; [|done]. cbn [mbind option_bind].
    destruct (Z.ltb_spec (acc * 10 + (b - 48)) (2 ^ w)); [|done]. apply IH.
    unfold in_range in Hb. unfold uint in *. lia. }
  assert (uint w 0) by (unfold uint; lia).
  destruct s as [|b s]; [done|]. cbn [parse_uint]. destruct (b =? 43); [|by apply Hgo]. destruct s; [done|by apply Hgo].
Qed.

Lemma ask_port_ok d d' p : ask_port d = (d', Ok p) -> u16 p.
Proof.
  unfold ask_port. intros (d1 & i & _ & H)%M_bind_Ok. destruct i as [|[|i]]; [injection H as <- <-; by_compute..|].
  apply M_bind_Ok in H as (d2 & s & _ & H). injection H as <- H. destruct (parse_uint 16 s) as [z|] eqn:Hz; [|done].
  injection H as <-. by apply (parse_uint_range 16 s).
Qed.
Lemma ask_protocol_ok d d' p : ask_protocol d = (d', Ok p) -> p = lit "udp" \/ p = lit "tcp".
Proof. unfold ask_protocol. intros (d1 & i & _ & [= <- <-])%M_bind_Ok. case_bool_decide; auto. Qed.

Lemma ask_oauth_ok d d' o : ask_oauth d = (d', Ok o) ->
  if_some (fun o => oauth_fits o /\ oa_enabled o = true /\ oa_client_id o <> [] /\ oa_client_secret o <> []
                 /\ oa_session_lifetime_sec o = 86400) o.
Proof.
  unfold ask_oauth. intros (d1 & i & _ & H)%M_bind_Ok.
  destruct i as [|[|[|[|i]]]]; try (by injection H as <- <-);
    apply M_bind_Ok in H as (d2 & c & Hc%of_term_Ok & [= <- <-]); cbn [if_some from_option];
    apply M_bind_Ok in Hc as (d3 & x & Hx & Hc); apply M_bind_Ok in Hc as (d4 & y & Hy & Hc);
    apply M_bind_Ok in Hc as (d5 & z & Hz & [= <- <-]); cbn;
    (split; [split; by_compute|split_and!; [done|by eapply ask_nonempty|by eapply ask_nonempty|done]]).
Qed.

Lemma ask_all_ok http d d' a : ask_all http d = (d', Ok a) -> answers_ok a.
Proof.
  unfold ask_all. intros H. apply M_bind_Ok in H as (d1 & u & _ & H).
  apply M_bind_Ok in H as (d2 & h & Hh%ask_host_ok & H). apply M_bind_Ok in H as (d3 & p & Hp%ask_port_ok & H).
  apply M_bind_Ok in H as (d4 & pr & Hpr%ask_protocol_ok & H). apply M_bind_Ok in H as (d5 & o & Ho%ask_oauth_ok & H).
  apply M_bind_Ok in H as (d6 & t & _ & H). apply M_bind_Ok in H as (d7 & sub & Hs%of_term_Ok & [= <- <-]).
  split; try done. by apply (dl_input_nonempty _ _ _ _ _ Hs).
Qed.
End Answers.

(** ** The files of the dialogue *)
Section Effect.
Context {D : Type} `{DL : !Dialog D} {R : Rcgen} {TM : Toml}.

Lemma on_files_Ok {A} (text : string) (m : M Written ConfigError A) (w w' : SetupWorld (D := D)) a :
  on_files text m w = (w', Ok a) -> exists f, m (su_files w) = (f, Ok a) /\ w' = mkSetupWorld (su_term w) f (su_calls w).
Proof. intros (f & Hf & ->)%zoom_Ok. by exists f. Qed.
Lemma on_term_Ok {A} (m : M D SetupError A) (w w' : SetupWorld (D := D)) a :
  on_term m w = (w', Ok a) -> exists d, m (su_term w) = (d, Ok a) /\ w' = mkSetupWorld d (su_files w) (su_calls w).
Proof. intros (d & Hd & ->)%zoom_Ok. by exists d. Qed.
Lemma io_check_Ok (b : bool) (w w' : Written) (u : unit) : io_check b w = (w', Ok u) -> b = true /\ w' = w.
Proof. unfold io_check. destruct b; intros H; by inv H. Qed.

(** A dialogue that succeeds was cancelled, or it created the directories and
    the files of the authority and saved the configuration of the answers. *)
Lemma setup_effect (now : Z) (http : IpServices) (disk : Disk) (rnd : PkiEntropy) (data_dir : str)
    (w w' : SetupWorld (D := D)) (u : unit) :
  run_interactive_setup now http disk rnd data_dir w = (w', Ok u) ->
  exists d1 a d2 yes, ask_all http (su_term w) = (d1, Ok a) /\ dl_confirm true d1 = (d2, Ok yes) /\
    if (yes : bool) then
      exists files ca ta_key text, dk_create_dir_all disk data_dir = true /\
        initialize_pki now disk rnd data_dir (as_public_host a) (lit "CoreVPN") (su_files w) = (files, Ok (ca, ta_key)) /\
        config_to_string (wizard_config a data_dir) = Ok text /\ su_files w' = <[config_path := text]> files
    else su_files w' = su_files w.
Proof.
  unfold run_interactive_setup. intros H.
  apply M_bind_Ok in H as (w1 & a & (d1 & Ha & ->)%on_term_Ok & H).
  apply M_bind_Ok in H as (w2 & yes & (d2 & Hy%of_term_Ok & ->)%on_term_Ok & H).
  exists d1, a, d2, yes. split; [done|]. split; [done|]. destruct yes; cbn [negb] in H; [|by injection H as <-].
  apply M_bind_Ok in H as (w3 & u3 & (f3 & [_ ->]%io_check_Ok & ->)%on_files_Ok & H).
  apply M_bind_Ok in H as (w4 & u4 & (f4 & [Hdir ->]%io_check_Ok & ->)%on_files_Ok & H).
  apply M_bind_Ok in H as (w5 & u5 & (d5 & _ & ->)%on_term_Ok & H).
  apply M_bind_Ok in H as (w6 & [ca ta_key] & (files & Hpki & ->)%on_files_Ok & H).
  apply M_bind_Ok in H as (w7 & u7 & (d7 & _ & ->)%on_term_Ok & (f8 & H & ->)%on_files_Ok).
  unfold ServerConfig_save in H. apply M_bind_Ok in H as (f7 & text & Ht & Hw%fs_write_ok).
  unfold lift in Ht. injection Ht as <- Ht. exists files, ca, ta_key, text. by cbn [su_files] in *.
Qed.
End Effect.

Section Commands.
Context {N4 N6 : Type} {Net4 : IpNet 32 N4} {Net6 : IpNet 128 N6} {Txt4 : IpNetText 32 N4} {Txt6 : IpNetText 128 N6}
  {UC : Unicode}.
Context {D : Type} `{DL : !Dialog D} {DLaws : DialogLaws D} {R : Rcgen} {RL : RcgenLaws R} {TM : Toml} {TLaws : TomlLaws TM}.
Context {HMAC : Hmac} {HL : HmacLaws HMAC} {SHA : Sha256} {Ch : Chrono} {ChF : ChronoFields} {Uu : Uuids}
  {TlsConfig TlsConn L : Type} {PKI : RustlsPki}
  (config_of_rustls : ServerTlsConfig -> TlsConfig) (logger_of : LoggerChoice -> res str L)
  (td_seconds : Z -> option TimeDelta) (fmt : ProtocolError -> str) (fmt_core : CoreError -> str).
Abbreviation main := (main (N4 := N4) (N6 := N6) (D := D) (TlsConn := TlsConn)
  config_of_rustls logger_of td_seconds fmt fmt_core).
Abbreviation new := (VpnServer_new (N4 := N4) (N6 := N6) (TlsConn := TlsConn)
  config_of_rustls logger_of td_seconds fmt fmt_core).
Abbreviation CommandEnv := (CommandEnv (Ch := Ch)).
Abbreviation World := (SetupWorld (D := D)).

(** With [--ghost] the server takes the logger that drops everything, whatever
    the file says; all other settings are those of the file. *)
Lemma ghost_logs_nothing c : create_logger (cfg_logging (ghost_mode true c)) = UseNull /\
  cfg_server (ghost_mode true c) = cfg_server c /\ cfg_network (ghost_mode true c) = cfg_network c /\
  cfg_security (ghost_mode true c) = cfg_security c /\ cfg_oauth (ghost_mode true c) = cfg_oauth c.
Proof. done. Qed.

(** A file that cannot be read stops every command but the doctor, who says so. *)
Lemma refused_file_stops (w : World) path text e : su_files w !! path = Some text -> config_from_str text = Err e ->
  forall env,
    (forall ghost, main env (CmdRun path ghost) w = (w, Err (LoadContext path e))) /\
    (forall user output, main env (CmdClient path user output) w = (w, Err (LoadContext path e))) /\
    main env (CmdStatus path) w = (w, Err (LoadContext path e)) /\
    (forall listen, main env (CmdWeb path listen) w = (w, Err (LoadContext path e))) /\
    main env (CmdDoctor path) w = (w, Ok (Reports [FixConfiguration e])).
Proof.
  intros Hf He env.
  assert (ServerConfig_load (N4 := N4) (N6 := N6) (su_files w) path = Err e) as Hl.
  { unfold ServerConfig_load. rewrite Hf. cbn [ok_or]. rsimp. by rewrite He. }
  split_and!; intros; unfold Setup.main, load_context, mbind, M_bind; by rewrite Hl.
Qed.

(** C36 A completed set-up leaves a server that does not start: unless the
    administrator cancelled it, the configuration it saved cannot be loaded,
    whatever was answered, and every command that needs it fails; the doctor
    reports the configuration and nothing else. *)
Theorem setup_leaves_unloadable_config (env : CommandEnv) (data_dir : str) (w w' : World)
    (Hrun : main env (CmdSetup data_dir false) w = (w', Ok Done)) :
  su_files w' = su_files w \/
  exists text e, su_files w' !! config_path = Some text /\ forall env2,
    (forall ghost, main env2 (CmdRun config_path ghost) w' = (w', Err (LoadContext config_path (SerializationError e)))) /\
    (forall user output, main env2 (CmdClient config_path user output) w'
                         = (w', Err (LoadContext config_path (SerializationError e)))) /\
    main env2 (CmdStatus config_path) w' = (w', Err (LoadContext config_path (SerializationError e))) /\
    (forall listen, main env2 (CmdWeb config_path listen) w'
                    = (w', Err (LoadContext config_path (SerializationError e)))) /\
    main env2 (CmdDoctor config_path) w' = (w', Ok (Reports [FixConfiguration (SerializationError e)])).
Proof.
  cbn [Setup.main] in Hrun. apply M_bind_Ok in Hrun as (w1 & u & (w2 & Hs & ->)%zoom_Ok & [= <-]).
  destruct (setup_effect _ _ _ _ _ _ _ _ Hs) as (d1 & a & d2 & yes & _ & _ & H). destruct yes; [right|by left].
  destruct H as (files & ca & ta_key & text & _ & _ & Ht & Hw).
  destruct (saved_text_is_refused _ _ Ht) as [e He]. exists text, (toml_de_error text e).
  assert (su_files w2 !! config_path = Some text) as Hc by by rewrite Hw, lookup_insert_eq.
  split; [done|]. by apply (refused_file_stops w2 config_path text).
Qed.

(** ** With the missing secrets added *)

(** The configuration with an API key, which a file needs. *)
Definition with_api_key (key : str) (c : ServerConfig) : ServerConfig :=
  let a := cfg_admin c in
  mkServerConfig (cfg_server c) (cfg_network c) (cfg_security c) (cfg_oauth c) (cfg_logging c)
    (mkAdmin (ad_enabled a) (ad_listen_addr a) (Some key) (ad_allowed_ips a)) (cfg_audit c).

Lemma wizard_fits key a data_dir : answers_ok a -> utf8_valid data_dir = true ->
  config_fits (with_api_key key (wizard_config a data_dir)).
Proof.
  intros [Hh Hp _ Ho _] Hd.
  split; cbn -[uint]; try by_compute; try done. destruct (as_oauth_config a); [apply Ho|done].
Qed.

Lemma wizard_valid key a data_dir (n : N4) : answers_ok a -> is_Some (parse_ip (as_public_host a)) ->
  as_port a <> 0 -> net_parse (w := 32) (as_subnet a) = inl n ->
  ServerConfig_validate (N4 := N4) (N6 := N6) (with_api_key key (wizard_config a data_dir)) = Ok tt.
Proof.
  intros [Hh Hp _ Ho _] Hip Hport Hn. apply validate_valid. split; [done|].
  split; cbn -[uint parse_ip]; try done; try (by left); try by_compute.
  - by exists n.
  - intros o. destruct (as_oauth_config a) as [x|]; [|done]. intros [= <-] _. destruct Ho as (_ & _ & H1 & H2 & _). done.
Qed.

Lemma path_join_last dir name x : last name = Some x -> last (path_join dir name) = Some x.
Proof.
  intros H. unfold path_join. destruct dir as [|b dir]; [done|].
  destruct (ends_with _ _); by rewrite !last_app, H.
Qed.
(** No file of the data directory is the configuration. *)
Lemma data_file_is_not_config dir (name : string) : last (lit name) <> Some 108 -> lit name <> [] ->
  path_join dir (lit name) <> config_path.
Proof.
  intros Hl Hne Heq. destruct (last (lit name)) as [x|] eqn:Hx; [|by apply last_None in Hx].
  apply (path_join_last dir) in Hx. rewrite Heq in Hx. by vm_compute in Hx; injection Hx as <-.
Qed.

(** An IPv4 address is a word without colons and brackets. *)
Lemma ipv4_text h ip : parse_ipv4 h = Some ip -> Forall (fun b => b = 46 \/ 48 <= b <= 57) h /\ h <> [].
Proof.
  unfold parse_ipv4. intros H. destruct (15 <? _); [done|]. pose proof (join_split_on 46 h) as Hj.
  destruct (split_on 46 h) as [|a [|b [|e [|f [|]]]]]; try done. rewrite <- Hj.
  destruct (parse_octet a) as [va|] eqn:Ha; [|done]. destruct (parse_octet b) as [vb|] eqn:Hb; [|done].
  destruct (parse_octet e) as [ve|] eqn:He; [|done]. destruct (parse_octet f) as [vf|] eqn:Hf; [|done].
  apply parse_octet_range in Ha, Hb, He, Hf. cbn [join]. split; [|by destruct a].
  rewrite !Forall_app. split_and!; try (by repeat constructor; left);
    (eapply Forall_impl; [eassumption|by right]).
Qed.
Lemma ipv4_words h ip : parse_ipv4 h = Some ip -> word h /\ 58 ∉ h /\ head h <> Some 91.
Proof.
  intros [Hf Hne]%ipv4_text. rewrite Forall_forall in Hf. split; [split; [split; [done|]|]|split].
  - apply Forall_forall. intros b Hb. unfold visible, in_range. apply Hf in Hb. lia.
  - intros Hb%Hf. lia.
  - intros Hb%Hf. lia.
  - destruct h as [|b h]; [done|]. intros [= ->]. specialize (Hf 91). assert (91 ∈ 91 :: h) as Hb by set_solver.
    apply Hf in Hb. lia.
Qed.

Lemma wizard_words key a data_dir ip : answers_ok a -> parse_ipv4 (as_public_host a) = Some ip ->
  server_words (with_api_key key (wizard_config a data_dir)).
Proof.
  intros [_ Hp Hpr _ _] Hip. split; cbn -[uint]; try done; try by_compute.
  - by apply (ipv4_words _ ip).
  - destruct Hpr as [-> | ->]; by_compute.
Qed.

Lemma generate_client_file_Ok (env : CommandEnv) (config : ServerConfig) (user : str) (output : option str)
    (w w' : Written) (path : str) :
  generate_client_file env config user output w = (w', Ok path) ->
  exists cert_pem key_pem ca g, w !! ServerConfig_ca_cert_path config = Some cert_pem /\
    w !! ServerConfig_ca_key_path config = Some key_pem /\
    CertificateAuthority_from_pem (ce_now env) cert_pem key_pem = Ok ca /\
    ConfigGenerator_generate_client_config (ce_now env) (ce_fresh env)
      (ConfigGenerator_new config ca (w !! ServerConfig_ta_key_path config)) user (Some user) = Ok g /\
    w' = <[path := gc_ovpn_content g]> w.
Proof.
  unfold generate_client_file. intros H.
  apply M_bind_Ok in H as (w1 & cert & Hc & H). apply M_bind_Ok in H as (w2 & key & Hk & H).
  apply M_bind_Ok in H as (w3 & ca & Hca & H). apply M_bind_Ok in H as (w4 & files & [= <- <-] & H).
  apply M_bind_Ok in H as (w5 & g & Hg & H).
  apply M_bind_Ok in H as (w6 & u & (w7 & Hw%fs_write_ok & ->)%zoom_Ok & [= <- <-]).
  unfold read_context, lift in *. injection Hc as -> Hc. injection Hk as -> Hk. injection Hca as -> Hca.
  injection Hg as -> Hg. exists cert, key, ca, g.
  destruct (w5 !! ServerConfig_ca_cert_path config); [|done]. injection Hc as ->.
  destruct (w5 !! ServerConfig_ca_key_path config); [|done]. injection Hk as ->.
  destruct (CertificateAuthority_from_pem _ _ _); [|done..]. injection Hca as ->.
  destruct (ConfigGenerator_generate_client_config _ _ _ _ _); [|done..]. by injection Hg as ->.
Qed.

(** What set-up left, with the configuration replaced. *)
Definition fixed (text : str) (w : World) : World := mkSetupWorld (su_term w) (<[config_path := text]> (su_files w)) (su_calls w).

Lemma fixed_loads key a data_dir (n : N4) t (w : World) : answers_ok a -> utf8_valid data_dir = true ->
  is_Some (parse_ip (as_public_host a)) -> as_port a <> 0 -> net_parse (w := 32) (as_subnet a) = inl n ->
  cd_put ServerConfig_codec true (with_api_key key (wizard_config a data_dir)) ∅ = Ok t ->
  ServerConfig_load (N4 := N4) (N6 := N6) (su_files (fixed (toml_print t) w)) config_path
    = Ok (with_api_key key (wizard_config a data_dir)).
Proof.
  intros Ha Hd Hip Hport Hn Ht. unfold ServerConfig_load. cbn [fixed su_files]. rewrite lookup_insert_eq. cbn [ok_or]. rsimp.
  destruct (config_codec_ok _ ∅ (wizard_fits key a data_dir Ha Hd)) as (t' & Ht' & _ & Hg).
  rewrite Ht in Ht'. injection Ht' as <-. unfold config_from_str.
  rewrite toml_reads, Hg; [|intros; apply lookup_empty|done]. cbn [map_err]. rsimp.
  by rewrite (wizard_valid key a data_dir n).
Qed.

Lemma load_tls_auth_same (f g : Written) c :
  f !! ServerConfig_ta_key_path c = g !! ServerConfig_ta_key_path c ->
  VpnServer_load_tls_auth_key (files_of f) c = VpnServer_load_tls_auth_key (files_of g) c.
Proof. intros H. unfold VpnServer_load_tls_auth_key, files_of. cbn [fl_exists fl_read]. by rewrite H. Qed.

(** Both ends derive complementary keys from a client file. *)
Definition keys_agree (text : str) (files : Written) (c : ServerConfig) : Prop :=
  exists o k ck s cl, OvpnConfig_parse text = Ok o /\
    VpnServer_load_tls_auth_key (files_of files) c = Ok (Some k) /\ ov_tls_auth_key o = Some ck /\
    HmacAuth_from_ta_key k true None = Ok s /\ HmacAuth_from_ta_key ck false (ov_key_direction o) = Ok cl /\
    forall data, HmacAuth_unwrap cl (HmacAuth_wrap s data) = Ok data /\
                 HmacAuth_unwrap s (HmacAuth_wrap cl data) = Ok data.

Lemma fixed_client (env env2 : CommandEnv) (data_dir : str) (a : Answers) (key : str) (ip : Z)
    (w f f2 files : Written) (ca : CertificateAuthority) (ta_key user : str) (output : option str) (path : str) :
  answers_ok a -> parse_ipv4 (as_public_host a) = Some ip ->
  length (pe_static_key (ce_entropy env)) = 256%nat /\ bytes_ok (pe_static_key (ce_entropy env)) ->
  initialize_pki (ce_now env) (ce_disk env) (ce_entropy env) data_dir (as_public_host a) (lit "CoreVPN") w
    = (files, Ok (ca, ta_key)) ->
  (forall name : string, last (lit name) <> Some 108 -> lit name <> [] ->
     f !! path_join data_dir (lit name) = files !! path_join data_dir (lit name)) ->
  generate_client_file env2 (with_api_key key (wizard_config a data_dir)) user output f = (f2, Ok path) ->
  exists text, f2 !! path = Some text /\ keys_agree text f (with_api_key key (wizard_config a data_dir)).
Proof.
  intros Ha Hip Hkey Hpki Hf H. set (c := with_api_key key (wizard_config a data_dir)) in *.
  apply generate_client_file_Ok in H as (cert_pem & key_pem & ca' & g & F1 & F2 & Hload & Hg & ->).
  exists (gc_ovpn_content g). split; [apply lookup_insert_eq|].
  change (ServerConfig_ca_cert_path c) with (path_join data_dir (lit "ca.crt")) in F1.
  change (ServerConfig_ca_key_path c) with (path_join data_dir (lit "ca.key")) in F2.
  assert (f !! ServerConfig_ta_key_path c = files !! ServerConfig_ta_key_path c) as Hta by (by apply Hf).
  rewrite Hf in F1 by done. rewrite Hf in F2 by done. rewrite Hta in Hg.
  assert (exists cert, CertificateAuthority_issue_client_certificate (ce_now env2) (ce_fresh env2) ca' user (Some user)
            (sc_client_cert_lifetime_days (cfg_security c)) = Ok cert) as [cert Hi].
  { unfold ConfigGenerator_generate_client_config in Hg. apply bind_Ok in Hg as (cert & Hi & _).
    cbn [ConfigGenerator_new cg_ca cg_server_config] in Hi. exists cert. by destruct (CertificateAuthority_issue_client_certificate _ _ _ _ _ _); inv Hi. }
  destruct (provisioned_agree c (ce_disk env) (ce_entropy env) (as_public_host a) (lit "CoreVPN") user (Some user)
    (ce_now env) (ce_now env2) (ce_now env2) ip w files ca ca' ta_key cert_pem key_pem (ce_fresh env2) cert)
    as (g' & o & k & ck & s & cl & Hg' & Hrest); try done.
  { by apply (wizard_words key a data_dir ip). }
  rewrite Hg in Hg'. injection Hg' as <-. exists o, k, ck, s, cl. by rewrite (load_tls_auth_same f files c Hta).
Qed.

(** The doctor finds nothing on a complete directory. *)
Lemma doctor_clean exists_ can_bind c : exists_ (ServerConfig_data_dir c) = true ->
  exists_ (ServerConfig_ca_cert_path c) = true -> exists_ (ServerConfig_server_cert_path c) = true ->
  exists_ (ServerConfig_ta_key_path c) = true -> is_v4_net (N4 := N4) (nw_subnet (cfg_network c)) = true ->
  can_bind (sv_listen_addr (cfg_server c)) = true -> run_doctor (N4 := N4) exists_ can_bind (Ok c) = [].
Proof. intros H1 H2 H3 H4 H5 H6. unfold run_doctor. by rewrite H1, H2, H3, H4, H5, H6. Qed.

(** The TLS library takes a certificate and its key. *)
Definition tls_accepts (cert_pem key_pem : str) : Prop :=
  exists certs key tls, load_certs_from_pem cert_pem = Ok certs /\ load_key_from_pem key_pem = Ok key /\
    build_server_config None certs key = inl tls.

(** [VpnServer::new] on the files of a set-up. *)
Lemma wizard_server_new (files : Written) utc secret key a data_dir ghost (n : N4) pool lt lg cert_pem key_pem k :
  let c := ghost_mode ghost (with_api_key key (wizard_config a data_dir)) in
  answers_ok a -> net_parse (w := 32) (as_subnet a) = inl n -> AddressPool_new (N6 := N6) (Some n) None = Ok pool ->
  td_seconds 86400 = Some lt -> logger_of (create_logger (cfg_logging c)) = Ok lg ->
  files !! ServerConfig_server_cert_path c = Some cert_pem -> files !! ServerConfig_server_key_path c = Some key_pem ->
  tls_accepts cert_pem key_pem -> VpnServer_load_tls_auth_key (files_of files) c = Ok (Some k) ->
  exists srv, new (files_of files) utc secret c = Ok srv /\ vs_config srv = c /\ vs_address_pool srv = pool /\
    is_Some (vs_tls_config srv) /\ vs_tls_auth_key srv = Some k.
Proof.
  intros c Ha Hn Hp Hlt Hlg Hc Hk (certs & sk & tls & H1 & H2 & H3) Hta. unfold VpnServer_new.
  assert (from_option (fun o => as_i64 (oa_session_lifetime_sec o)) 86400 (cfg_oauth c) = 86400) as ->.
  { unfold c. destruct ghost; cbn [ghost_mode with_api_key wizard_config cfg_oauth];
      pose proof (ao_oauth a Ha) as Ho; destruct (as_oauth_config a) as [o|]; try done; cbn in *;
      by replace (oa_session_lifetime_sec o) with 86400 by naive_solver. }
  cbv zeta. rewrite Hlt. replace (nw_subnet (cfg_network c)) with (as_subnet a) by (unfold c; by destruct ghost).
  rewrite Hn. rsimp. rewrite Hp. cbn [map_err message]. rsimp.
  unfold VpnServer_load_tls_config. cbv zeta. cbn [files_of fl_exists fl_read]. rewrite Hc, Hk. cbn [is_some negb orb of_file].
  unfold message, create_server_config. cbn [map_err]. rsimp. rewrite H1. cbn [map_err]. rsimp. rewrite H2. cbn [map_err]. rsimp.
  rewrite H3. cbn [map_err]. rsimp. rewrite Hta. rsimp. rewrite Hlg. rsimp.
  eexists. split; [reflexivity|]. by split_and!.
Qed.

(** What the repaired files hold: the configuration is loaded, and the files of
    the authority are those that set-up wrote. *)
Lemma repaired_files env data_dir key (w w' : World) d1 d2 a ip (n : N4) :
  main env (CmdSetup data_dir false) w = (w', Ok Done) ->
  ask_all (ce_http env) (su_term w) = (d1, Ok a) -> dl_confirm true d1 = (d2, Ok true) ->
  utf8_valid data_dir = true -> parse_ipv4 (as_public_host a) = Some ip -> as_port a <> 0 ->
  net_parse (w := 32) (as_subnet a) = inl n ->
  let c := with_api_key key (wizard_config a data_dir) in
  exists t files ca ta_key, cd_put ServerConfig_codec true c ∅ = Ok t /\ answers_ok a /\
    initialize_pki (ce_now env) (ce_disk env) (ce_entropy env) data_dir (as_public_host a) (lit "CoreVPN") (su_files w)
      = (files, Ok (ca, ta_key)) /\
    ServerConfig_load (N4 := N4) (N6 := N6) (su_files (fixed (toml_print t) w')) config_path = Ok c /\
    forall name : string, last (lit name) <> Some 108 -> lit name <> [] ->
      su_files w' !! path_join data_dir (lit name) = files !! path_join data_dir (lit name) /\
      su_files (fixed (toml_print t) w') !! path_join data_dir (lit name) = files !! path_join data_dir (lit name).
Proof.
  intros Hrun Hask Hyes Hdir Hip Hport Hn c.
  cbn [Setup.main] in Hrun. apply M_bind_Ok in Hrun as (w0 & u & (w3 & Hs & ->)%zoom_Ok & [= <-]).
  cbn [id] in Hs. destruct (setup_effect _ _ _ _ _ _ _ _ Hs) as (x1 & x2 & x3 & yes & Hask' & Hyes' & H).
  rewrite Hask in Hask'. injection Hask' as <- <-. rewrite Hyes in Hyes'. injection Hyes' as <- <-.
  destruct H as (files & ca & ta_key & text & _ & Hpki & _ & Hw). pose proof (ask_all_ok _ _ _ _ Hask) as Ha.
  destruct (config_codec_ok _ ∅ (wizard_fits key a data_dir Ha Hdir)) as (t & Ht & _ & _).
  exists t, files, ca, ta_key. split_and!; try done.
  - apply (fixed_loads key a data_dir n); try done. unfold parse_ip. rewrite Hip. by eexists.
  - intros name H1 H2. cbn [fixed su_files]. rewrite Hw.
    split; by rewrite !lookup_insert_ne by (intros Heq; by apply (data_file_is_not_config data_dir name)).
Qed.

Section Repaired.
Context (env env2 : CommandEnv) (data_dir key : str) (w w' : World) (a : Answers) (n : N4) (t : TomlTable)
  (files : Written) (ca : CertificateAuthority) (ta_key : str).
Abbreviation c := (with_api_key key (wizard_config a data_dir)).
Abbreviation w1 := (fixed (toml_print t) w').
Context (Ha : answers_ok a) (Hn : net_parse (w := 32) (as_subnet a) = inl n)
  (Hkey : length (pe_static_key (ce_entropy env)) = 256%nat /\ bytes_ok (pe_static_key (ce_entropy env)))
  (Hpki : initialize_pki (ce_now env) (ce_disk env) (ce_entropy env) data_dir (as_public_host a) (lit "CoreVPN")
            (su_files w) = (files, Ok (ca, ta_key)))
  (Hl : ServerConfig_load (N4 := N4) (N6 := N6) (su_files w1) config_path = Ok c)
  (Hf : forall name : string, last (lit name) <> Some 108 -> lit name <> [] ->
      su_files w' !! path_join data_dir (lit name) = files !! path_join data_dir (lit name) /\
      su_files w1 !! path_join data_dir (lit name) = files !! path_join data_dir (lit name)).

Lemma repaired_doctor : dk_exists (ce_disk env2) data_dir = true ->
  ce_can_bind env2 (sv_listen_addr (cfg_server c)) = true -> main env2 (CmdDoctor config_path) w1 = (w1, Ok (Reports [])).
Proof using Hn Hpki Hl Hf.
  intros Hex Hb. unfold Setup.main. rewrite Hl. do 3 f_equal.
  destruct (initialize_pki_files _ _ _ _ _ _ _ _ _ _ Hpki) as (_ & _ & F1 & _ & F3 & F4).
  assert (forall name, last (lit name) <> Some 108 -> lit name <> [] -> is_Some (files !! path_join data_dir (lit name)) ->
    exists_now (ce_disk env2) (su_files w1) (path_join data_dir (lit name)) = true) as He.
  { intros name H1 H2 [x Hx]. destruct (Hf name H1 H2) as [_ E]. unfold exists_now. by rewrite E, Hx. }
  apply doctor_clean; try done; try (by apply He).
  - unfold exists_now. change (ServerConfig_data_dir c) with data_dir. rewrite Hex. apply orb_true_r.
  - unfold is_v4_net. change (nw_subnet (cfg_network c)) with (as_subnet a). by rewrite Hn.
Qed.

Lemma repaired_runs pool lt lg cert_pem key_pem ghost :
  os_ready (ce_os env2) -> AddressPool_new (N6 := N6) (Some n) None = Ok pool -> td_seconds 86400 = Some lt ->
  logger_of (create_logger (cfg_logging (ghost_mode ghost c))) = Ok lg ->
  su_files w' !! ServerConfig_server_cert_path c = Some cert_pem ->
  su_files w' !! ServerConfig_server_key_path c = Some key_pem -> tls_accepts cert_pem key_pem ->
  exists calls srv,
    main env2 (CmdRun config_path ghost) w1
      = (mkSetupWorld (su_term w1) (su_files w1) (su_calls w1 ++ calls), Ok (ServesVpn srv)) /\
    vs_config srv = ghost_mode ghost c /\ vs_address_pool srv = pool /\ is_Some (vs_tls_config srv) /\
    vs_tls_auth_key srv = Some (pe_static_key (ce_entropy env)).
Proof using Ha Hn Hkey Hpki Hl Hf.
  intros Hos Hpool Hlt Hlg Hc Hk Htls.
  destruct (initialize_pki_files _ _ _ _ _ _ _ _ _ _ Hpki) as (_ & -> & _ & _ & F3 & _).
  change (ServerConfig_server_cert_path c) with (path_join data_dir (lit "server.crt")) in Hc.
  change (ServerConfig_server_key_path c) with (path_join data_dir (lit "server.key")) in Hk.
  destruct (Hf "server.crt") as [E1 E1']; [done..|]. destruct (Hf "server.key") as [E2 E2']; [done..|].
  destruct (Hf "ta.key") as [_ E3]; [done..|]. rewrite E1, <- E1' in Hc. rewrite E2, <- E2' in Hk. rewrite F3 in E3.
  destruct (wizard_server_new (su_files w1) (ce_utc env2) (ce_secret env2) key a data_dir ghost n pool lt lg cert_pem key_pem
    (pe_static_key (ce_entropy env))) as (srv & Hnew & Hrest); try done.
  - by destruct ghost.
  - by destruct ghost.
  - destruct Hkey as [H1 H2]. unfold VpnServer_load_tls_auth_key. cbn [files_of fl_exists fl_read].
    replace (sc_tls_auth (cfg_security (ghost_mode ghost c))) with true by (by destruct ghost).
    replace (ServerConfig_ta_key_path (ghost_mode ghost c)) with (path_join data_dir (lit "ta.key")) by (by destruct ghost).
    rewrite E3. cbn [negb is_some]. by rewrite parse_format_static_key.
  - destruct (run_server_succeeds config_of_rustls logger_of td_seconds fmt fmt_core (files_of (su_files w1)) (ce_utc env2)
      (ce_secret env2) (ce_os env2) (ghost_mode ghost c) srv n Hos Hnew ltac:(by destruct ghost) (su_calls w1)) as [calls Hr].
    exists calls, srv. split; [|exact Hrest]. unfold Setup.main, load_context, serve, mbind, M_bind, get, zoom. rewrite Hl.
    cbn [map_err]. by rewrite Hr.
Qed.
End Repaired.

(** C37 From a set-up to a working server.  The saved file is repaired: the API
    key and, where there is one, the OAuth secret are put in, which [save]
    leaves out.  If the answers were an IPv4 address, a port other than 0 and
    a network that parses, and the data directory is UTF-8, then: where the
    pool takes the network, the TLS library takes the certificate that set-up
    wrote, the session lifetime of a day is a duration of chrono, the
    connection log can be opened and no call of the operating system fails,
    [run] starts the server and it enters its event loop with the answered settings, a pool on that
    network and the static key of the set-up; the doctor finds nothing wrong
    while the port is free; and every client file that is generated is read
    by the client and holds the static key the server uses. *)
Theorem repaired_setup_provisions (env : CommandEnv) (data_dir key : str) (w w' : World) (d1 d2 : D) (a : Answers)
    (ip : Z) (n : N4)
    (Hrun : main env (CmdSetup data_dir false) w = (w', Ok Done))
    (Hask : ask_all (ce_http env) (su_term w) = (d1, Ok a)) (Hyes : dl_confirm true d1 = (d2, Ok true))
    (Hdir : utf8_valid data_dir = true) (Hip : parse_ipv4 (as_public_host a) = Some ip)
    (Hport : as_port a <> 0) (Hn : net_parse (w := 32) (as_subnet a) = inl n)
    (Hkey : length (pe_static_key (ce_entropy env)) = 256%nat /\ bytes_ok (pe_static_key (ce_entropy env))) :
  let c := with_api_key key (wizard_config a data_dir) in
  exists t, cd_put ServerConfig_codec true c ∅ = Ok t /\
    let w1 := fixed (toml_print t) w' in forall env2,
      (forall ghost pool lt lg cert_pem key_pem,
         os_ready (ce_os env2) -> AddressPool_new (N6 := N6) (Some n) None = Ok pool -> td_seconds 86400 = Some lt ->
         logger_of (create_logger (cfg_logging (ghost_mode ghost c))) = Ok lg ->
         su_files w' !! ServerConfig_server_cert_path c = Some cert_pem ->
         su_files w' !! ServerConfig_server_key_path c = Some key_pem -> tls_accepts cert_pem key_pem ->
         exists calls srv,
           main env2 (CmdRun config_path ghost) w1
             = (mkSetupWorld (su_term w1) (su_files w1) (su_calls w1 ++ calls), Ok (ServesVpn srv)) /\
           vs_config srv = ghost_mode ghost c /\ vs_address_pool srv = pool /\ is_Some (vs_tls_config srv) /\
           vs_tls_auth_key srv = Some (pe_static_key (ce_entropy env))) /\
      (dk_exists (ce_disk env2) data_dir = true -> ce_can_bind env2 (sv_listen_addr (cfg_server c)) = true ->
       main env2 (CmdDoctor config_path) w1 = (w1, Ok (Reports []))) /\
      (forall user output w2 path, main env2 (CmdClient config_path user output) w1 = (w2, Ok (SavedTo path)) ->
       exists text, su_files w2 !! path = Some text /\ keys_agree text (su_files w1) c).
Proof.
  destruct (repaired_files env data_dir key w w' d1 d2 a ip n Hrun Hask Hyes Hdir Hip Hport Hn)
    as (t & files & ca & ta_key & Ht & Ha & Hpki & Hl & Hf).
  intros c. exists t. split; [done|]. intros w1 env2. fold c w1 in Hl, Hf. split_and!.
  - intros ghost pool lt lg cert_pem key_pem Hos Hpool Hlt Hlg Hc Hk Htls.
    exact (repaired_runs env env2 data_dir key w w' a n t files ca ta_key Ha Hn Hkey Hpki Hl Hf pool lt lg cert_pem key_pem
      ghost Hos Hpool Hlt Hlg Hc Hk Htls).
  - intros Hex Hb. exact (repaired_doctor env env2 data_dir key w w' a n t files ca ta_key Hn Hpki Hl Hf Hex Hb).
  - intros user output w2 path H. unfold Setup.main in H. apply M_bind_Ok in H as (w4 & c' & Hc & H).
    unfold load_context in Hc. rewrite Hl in Hc. injection Hc as <- <-.
    apply M_bind_Ok in H as (w5 & p & (f & Hg & ->)%zoom_Ok & [= <- <-]).
    apply (fixed_client env env2 data_dir a key ip (su_files w) (su_files w1) f files ca ta_key user output p); try done.
    intros name H1 H2. by apply Hf.
Qed.
End Commands.

(** ** Logins after a set-up *)
Section Login.
Context {D : Type} `{DL : !Dialog D} {R : Rcgen} {TM : Toml} {PKI : RustlsPki}.

(** Set-up writes no certificate for the login pages, which do not start
    without one: whatever provider was chosen, no login can be completed. *)
Lemma login_pages_do_not_start (now : Z) (http : IpServices) (disk : Disk) (rnd : PkiEntropy) (data_dir : str)
    (w w' : SetupWorld (D := D)) (fmt : ProtocolError -> str) (os : Os) (oauth : OAuthSettings) (base_url : str) :
  run_interactive_setup now http disk rnd data_dir w = (w', Ok tt) ->
  su_files w !! path_join data_dir (lit "oauth.crt") = None ->
  exists e, run_oauth_server fmt (files_of (su_files w')) os oauth base_url (oa_oauth_port oauth) data_dir []
            = ([BindTcp (lit "0.0.0.0:" ++ fmt_dec (oa_oauth_port oauth))], Err e).
Proof.
  intros (d1 & a & d2 & yes & _ & _ & H)%setup_effect Hnone.
  assert (su_files w' !! path_join data_dir (lit "oauth.crt") = None) as Hn.
  { destruct yes; [|by rewrite H]. destruct H as (files & ca & ta_key & text & _ & Hpki & _ & ->).
    rewrite lookup_insert_ne by (apply not_eq_sym, data_file_is_not_config; done).
    rewrite (initialize_pki_frame _ _ _ _ _ _ _ _ _ _ "oauth.crt" Hpki) by by_compute. done. }
  unfold run_oauth_server, mbind, M_bind, call. destruct (os_error os _) as [e|]; [by exists e|].
  unfold of_text, lift, files_of. cbn [fl_read]. rewrite Hn. by eexists.
Qed.
End Login.
