(* ===== verification/Nm.v ===== *)
(** * The NetworkManager plugin

    src/crates/corevpn-nm/src: config.rs and plugin.rs.  The D-Bus values and
    the resolver are interfaces; a handler is one step.  A background task that
    is aborted drops the handle of the client's task, which detaches it: the
    client runs on. *)
From S2P Require Import Prelude Errors Text Network Addr AddrText ServerConfig Control Server Ovpn Client.
Local Open Scope Z_scope.

(** ** config.rs *)

(** Crate zbus: values and their conversions. *)
Class ZVariant := {
  ZValue : Type;
  zv_dict : ZValue -> option (gmap str ZValue);   (* HashMap<String, OwnedValue>::try_from *)
  zv_strings : ZValue -> option (gmap str str);   (* HashMap<String, String>::try_from *)
  zv_str : ZValue -> option str;                  (* Value::Str *)
  zv_string : ZValue -> option str;               (* String::try_from *)
}.
Record NmVpnSettings := mkNmSettings { nms_config_path : str; nms_username : option str; nms_password : option str }.

Section Settings.
Context {ZV : ZVariant}.
Definition try_as_string (v : ZValue) : option str := match zv_str v with Some s => Some s | None => zv_string v end.
Definition try_as_string_dict (v : ZValue) : option (gmap str str) :=
  match zv_dict v with
  | Some dict => Some (omap try_as_string dict)
  | None => zv_strings v
  end.
Definition extract_string_dict (group : gmap str ZValue) (key : str) : option (gmap str str) :=
  group !! key ≫= try_as_string_dict.
Definition parse_nm_settings (exists_ : str -> bool) (connection : gmap str (gmap str ZValue)) : res str NmVpnSettings :=
  match connection !! lit "vpn" with
  | None => Err (lit "Connection dict missing 'vpn' group")
  | Some vpn_group =>
      let vpn_data := default ∅ (extract_string_dict vpn_group (lit "data")) in
      let vpn_secrets := default ∅ (extract_string_dict vpn_group (lit "secrets")) in
      match (match vpn_data !! lit "config" with Some c => Some c | None => vpn_data !! lit "config-file" end) with
      | None => Err (lit "vpn.data missing 'config' key " ++ [226; 128; 148] ++ lit " set it to the .ovpn file path")
      | Some config_path =>
          if bool_decide (config_path = []) then Err (lit "vpn.data 'config' value is empty") else
          if negb (exists_ config_path) then Err (lit "Config file does not exist: " ++ config_path) else
          Ok (mkNmSettings config_path (vpn_data !! lit "username") (vpn_secrets !! lit "password"))
      end
  end.
End Settings.

(** ** plugin.rs: helpers *)

(** [u32::from_ne_bytes]. *)
Definition from_ne (big_endian : bool) (b : bytes) : Z := from_be (if big_endian then b else rev b).
Definition ipv4_to_nm (big_endian : bool) (ip : str) : Z :=
  match parse_ipv4 ip with Some addr => from_ne big_endian (octets addr) | None => 0 end.
(** The addition wraps. *)
Definition netmask_to_prefix (mask : str) : Z :=
  match parse_ipv4 mask with
  | Some bits =>
      let inv := 2 ^ 32 - 1 - bits in
      if (inv =? 0) || (Z.land inv (wrap 32 (inv + 1)) =? 0) then count_ones 32 bits else 24
  | None => 24
  end.
(** [resolve] is [to_socket_addrs]. *)
Definition extract_ip_from_remote (resolve : str -> option (list SocketAddr)) (remote : str) : option str :=
  let host := match rfind_str [58] remote with
              | Some idx => if is_some (parse_uint 16 (drop (S idx) remote)) then take idx remote else remote
              | None => remote
              end in
  if is_some (parse_ipv4 host) then Some host else
  match resolve (host ++ lit ":0") with
  | Some addrs => head (omap (fun a => match a with SockV4 ip _ => Some (fmt_ipv4 ip) | SockV6 _ _ _ _ => None end) addrs)
  | None => None
  end.

(** ** plugin.rs: the plugin *)
Definition NM_VPN_STATE_INIT : Z := 1.
Definition NM_VPN_STATE_STARTING : Z := 3.
Definition NM_VPN_STATE_STARTED : Z := 4.
Definition NM_VPN_STATE_STOPPING : Z := 5.
Definition NM_VPN_STATE_STOPPED : Z := 6.
Definition NM_VPN_FAILURE_CONNECT_FAILED : Z := 1.

Inductive NmValue := NmU32 (z : Z) | NmBool (b : bool) | NmU32s (l : list Z) | NmRoutes (l : list (list Z)).
Abbreviation NmDict := (list (str * NmValue)).
Inductive NmSignal :=
| SigStateChanged (state : Z) | SigConfig (config : NmDict) | SigIp4Config (config : NmDict) | SigIp6Config (config : NmDict)
| SigFailure (reason : Z).

(** [PluginInner], the tasks, and the signals sent so far.  [pn_tasks] are the
    background tasks with the server they were started for, [pn_clients] the
    tasks of their clients. *)
Record VpnPlugin := mkPlugin {
  pn_state : Z;
  pn_connection_task : option nat;
  pn_next : nat;
  pn_tasks : gmap nat str;
  pn_clients : gset nat;
  pn_signals : list NmSignal;
}.
Definition VpnPlugin_new : VpnPlugin := mkPlugin NM_VPN_STATE_INIT None 0 ∅ ∅ [].
Definition pn_set_state (state : Z) (task : option nat) (p : VpnPlugin) : VpnPlugin :=
  mkPlugin state task (pn_next p) (pn_tasks p) (pn_clients p) (pn_signals p).
Definition emit (s : NmSignal) (p : VpnPlugin) : VpnPlugin :=
  mkPlugin (pn_state p) (pn_connection_task p) (pn_next p) (pn_tasks p) (pn_clients p) (pn_signals p ++ [s]).
(** [task.abort()] of the task that is stored, which is taken out. *)
Definition abort_task (p : VpnPlugin) : VpnPlugin :=
  match pn_connection_task p with
  | Some n => mkPlugin (pn_state p) None (pn_next p) (delete n (pn_tasks p)) (pn_clients p) (pn_signals p)
  | None => p
  end.
(** [tokio::spawn] of the background task, which spawns the client. *)
Definition spawn_task (server_addr : str) (p : VpnPlugin) : VpnPlugin :=
  mkPlugin (pn_state p) (Some (pn_next p)) (S (pn_next p)) (<[pn_next p := server_addr]> (pn_tasks p))
    ({[pn_next p]} ∪ pn_clients p) (pn_signals p).
Definition end_task (n : nat) (p : VpnPlugin) : VpnPlugin :=
  mkPlugin (pn_state p) (pn_connection_task p) (pn_next p) (delete n (pn_tasks p)) (pn_clients p) (pn_signals p).

Section Plugin.
Context {ZV : ZVariant} (big_endian : bool) (resolve : str -> option (list SocketAddr)).
Implicit Types (p : VpnPlugin).

(** [read] gives the text of the file.  Errors are those of D-Bus. *)
Definition VpnPlugin_connect (exists_ : str -> bool) (read : str -> str + str) (connection : gmap str (gmap str ZValue))
    : M VpnPlugin str unit := fun p =>
  match parse_nm_settings exists_ connection with
  | Err e => (p, Err e)
  | Panic => (p, Panic)
  | Ok nm_settings =>
      let path := nms_config_path nm_settings in
      match read path with
      | inr e => (p, Err (lit "Cannot read " ++ path ++ lit ": " ++ e))
      | inl ovpn_content =>
          match OvpnConfig_parse ovpn_content with
          | Err (OvpnMessage e) => (p, Err (lit "Invalid .ovpn: " ++ e))
          | Panic => (p, Panic)
          | Ok config =>
              let p := pn_set_state NM_VPN_STATE_STARTING None (abort_task p) in
              let p := emit (SigStateChanged NM_VPN_STATE_STARTING) p in
              (spawn_task (SocketAddr_fmt (ov_remote config)) p, Ok tt)
          end
      end
  end.
Definition VpnPlugin_connect_interactive := VpnPlugin_connect.
Definition VpnPlugin_need_secrets : str := [].
Definition VpnPlugin_disconnect (p : VpnPlugin) : VpnPlugin :=
  let p := emit (SigStateChanged NM_VPN_STATE_STOPPING) (pn_set_state NM_VPN_STATE_STOPPING (pn_connection_task p) p) in
  let p := abort_task p in
  emit (SigStateChanged NM_VPN_STATE_STOPPED) (pn_set_state NM_VPN_STATE_STOPPED (pn_connection_task p) p).
Definition VpnPlugin_set_config (config : NmDict) : VpnPlugin -> VpnPlugin := emit (SigConfig config).
Definition VpnPlugin_set_ip4_config (config : NmDict) : VpnPlugin -> VpnPlugin := emit (SigIp4Config config).
Definition VpnPlugin_set_ip6_config (config : NmDict) : VpnPlugin -> VpnPlugin := emit (SigIp6Config config).
Definition VpnPlugin_set_failure : VpnPlugin -> VpnPlugin := emit (SigFailure NM_VPN_FAILURE_CONNECT_FAILED).

Definition emit_failure_signals (p : VpnPlugin) : VpnPlugin :=
  pn_set_state NM_VPN_STATE_STOPPED None
    (emit (SigStateChanged NM_VPN_STATE_STOPPED) (emit (SigFailure NM_VPN_FAILURE_CONNECT_FAILED) p)).

(** The dictionaries of a push reply. *)
Definition config_dict (server_addr : str) (ifconfig : option (str * str)) : NmDict :=
  (match extract_ip_from_remote resolve server_addr with
   | Some gw_ip => [(lit "gateway", NmU32 (ipv4_to_nm big_endian gw_ip))]
   | None => [] end)
  ++ [(lit "has-ip4", NmBool (is_some ifconfig)); (lit "has-ip6", NmBool false)].
Definition ip4_dict (ip mask : str) (routes : list (str * str)) (dns : list str) (gateway : option str)
    (redirect_gateway : bool) : NmDict :=
  [(lit "address", NmU32 (ipv4_to_nm big_endian ip)); (lit "prefix", NmU32 (netmask_to_prefix mask))]
  ++ (match gateway with Some gw => [(lit "gateway", NmU32 (ipv4_to_nm big_endian gw))] | None => [] end)
  ++ (match dns with [] => [] | _ => [(lit "dns", NmU32s (map (ipv4_to_nm big_endian) dns))] end)
  ++ (match routes with
      | [] => []
      | _ => [(lit "routes", NmRoutes (map (fun r => [ipv4_to_nm big_endian r.1; netmask_to_prefix r.2;
                                                      from_option (ipv4_to_nm big_endian) 0 gateway; 0]) routes))]
      end)
  ++ [(lit "never-default", NmBool (negb redirect_gateway))].

(** One turn of the loop of [run_vpn_connection]: an event of the client. *)
Definition on_client_event (server_addr : str) (event : ClientEvent) (p : VpnPlugin) : VpnPlugin :=
  match event with
  | EventPushReply ifconfig routes dns gateway redirect_gateway =>
      let p := emit (SigConfig (config_dict server_addr ifconfig)) p in
      match ifconfig with
      | Some (ip, mask) => emit (SigIp4Config (ip4_dict ip mask routes dns gateway redirect_gateway)) p
      | None => p
      end
  | EventConnected _ =>
      pn_set_state NM_VPN_STATE_STARTED (pn_connection_task p) (emit (SigStateChanged NM_VPN_STATE_STARTED) p)
  end.
(** The end of the client, with whether it succeeded: the channel is closed. *)
Definition on_client_end (n : nat) (ok : bool) (p : VpnPlugin) : VpnPlugin :=
  let p := pn_set_state NM_VPN_STATE_STOPPED None p in
  let p := emit (SigStateChanged NM_VPN_STATE_STOPPED) p in
  end_task n (if ok then p else emit_failure_signals p).

(** What can happen.  Clients whose background task is gone run on unheard;
    [bus_ok] is whether the signals of a turn were delivered. *)
Inductive plugin_step : VpnPlugin -> VpnPlugin -> Prop :=
| step_connect exists_ read connection p p' r : VpnPlugin_connect exists_ read connection p = (p', r) -> plugin_step p p'
| step_disconnect p : plugin_step p (VpnPlugin_disconnect p)
| step_signal s p : (forall st, s <> SigStateChanged st) -> plugin_step p (emit s p)
| step_event n server_addr event p : pn_tasks p !! n = Some server_addr ->
    plugin_step p (on_client_event server_addr event p)
| step_bus_failure n server_addr p : pn_tasks p !! n = Some server_addr -> plugin_step p (end_task n (emit_failure_signals p))
| step_end n ok p : n ∈ pn_clients p ->
    plugin_step p
      (let p := mkPlugin (pn_state p) (pn_connection_task p) (pn_next p) (pn_tasks p) (pn_clients p ∖ {[n]}) (pn_signals p) in
       if is_some (pn_tasks p !! n) then on_client_end n ok p else p).
End Plugin.
