(* ===== verification/NmProofs.v ===== *)
(** * What the NetworkManager plugin reports and what it stops

    The network the server pushes is the one NetworkManager is told; at most
    one background task runs; but disconnecting does not stop the client. *)
From S2P Require Import Prelude Errors Text Network CoreSession Addr AddrText ServerConfig Control Server Ovpn Client Nm.
Local Open Scope Z_scope.

(** ** Prefixes *)
Lemma prefix_of_mask k : 0 <= k <= 32 -> netmask_to_prefix (fmt_ipv4 (2 ^ 32 - 2 ^ (32 - k))) = k.
Proof.
  assert (Forall (fun k => netmask_to_prefix (fmt_ipv4 (2 ^ 32 - 2 ^ (32 - k))) = k) (map Z.of_nat (seq 0 33))) as H
    by (apply (bool_decide_unpack _); vm_compute; exact I).
  intros Hk. apply (proj1 (Forall_forall _ _) H k). replace k with (Z.of_nat (Z.to_nat k)) by lia.
  apply list_elem_of_In, in_map, in_seq. lia.
Qed.

Section Reported.
Context {N4 : Type} {Net4 : IpNet 32 N4} {NL : IpNetLaws 32 N4} {Txt4 : IpNetText 32 N4} {TL : IpNetTextLaws 32 N4}.
Context (big_endian : bool) (resolve : str -> option (list SocketAddr)).

(** C32 NetworkManager is told the network the server pushed: when a client that
    was given the address [ip] of the configured subnet reports the push reply,
    the plugin announces that address with the prefix length of the subnet,
    and the default route through the tunnel exactly when the server asks for
    it. *)
Theorem plugin_reports_pushed_network config gateway ip ip6 cipher server net p
    (Hip : uint 32 ip) (Hnet : net_parse (w := 32) (nw_subnet (cfg_network config)) = inl net) :
  let reply := build_push_reply config gateway (mkVpnAddress (Some ip) ip6) cipher in
  exists d, on_client_event big_endian resolve server (push_reply_event reply) p
      = emit (SigIp4Config d) (emit (SigConfig (config_dict big_endian resolve server (pl_ifconfig reply))) p) /\
    (lit "address", NmU32 (from_ne big_endian (octets ip))) ∈ d /\
    (lit "prefix", NmU32 (prefix_len net)) ∈ d /\
    (lit "never-default", NmBool (negb (nw_redirect_gateway (cfg_network config)))) ∈ d.
Proof.
  cbv zeta. unfold build_push_reply, push_reply_event.
  cbn [pl_ifconfig pl_routes pl_dns pl_route_gateway pl_redirect_gateway on_client_event va_ipv4 from_option].
  eexists. split; [reflexivity|]. unfold ip4_dict.
  assert (ipv4_to_nm big_endian (fmt_ipv4 ip) = from_ne big_endian (octets ip)) as -> by (unfold ipv4_to_nm; by rewrite parse_fmt_ipv4).
  assert (netmask_to_prefix (subnet_mask config) = prefix_len net) as ->.
  { unfold subnet_mask. rewrite Hnet, netmask_eq. apply prefix_of_mask, prefix_len_range. }
  rewrite !elem_of_app. split_and!; [left; set_solver|left; set_solver|do 4 right; set_solver].
Qed.
End Reported.

(** ** The state of the plugin *)
Section Reachable.
Context {ZV : ZVariant} (big_endian : bool) (resolve : str -> option (list SocketAddr)).
Abbreviation step := (plugin_step big_endian resolve).
Implicit Types (p : VpnPlugin).

(** Tasks that run are the one that is stored; while a connection starts or is
    up there is one, with its client. *)
Definition plugin_ok p : Prop :=
  (forall n, is_Some (pn_tasks p !! n) -> pn_connection_task p = Some n /\ n ∈ pn_clients p) /\
  (forall n, n ∈ pn_clients p -> (n < pn_next p)%nat) /\
  (pn_state p = NM_VPN_STATE_STARTING \/ pn_state p = NM_VPN_STATE_STARTED ->
     exists n, pn_connection_task p = Some n /\ is_Some (pn_tasks p !! n)).

Lemma plugin_ok_emit s p : plugin_ok p -> plugin_ok (emit s p).
Proof. done. Qed.
Lemma abort_task_none p n : plugin_ok p -> pn_tasks (abort_task p) !! n = None /\ pn_connection_task (abort_task p) = None.
Proof.
  intros (Ht & _ & _). unfold abort_task. destruct (pn_connection_task p) as [k|] eqn:E; cbn; (split; [|done]).
  - destruct (decide (n = k)) as [->|]; [apply lookup_delete_eq|]. rewrite lookup_delete_ne by done.
    apply eq_None_not_Some. intros H. destruct (Ht n H). congruence.
  - apply eq_None_not_Some. intros H. destruct (Ht n H). congruence.
Qed.
Lemma abort_task_rest p : pn_clients (abort_task p) = pn_clients p /\ pn_next (abort_task p) = pn_next p.
Proof. unfold abort_task. by destruct (pn_connection_task p). Qed.

Lemma plugin_ok_connect exists_ read connection p p' r : plugin_ok p ->
  VpnPlugin_connect exists_ read connection p = (p', r) -> plugin_ok p'.
Proof.
  intros Hp H. unfold VpnPlugin_connect in H. destruct (parse_nm_settings exists_ connection) as [s|e|]; [|by inv H|by inv H].
  destruct (read (nms_config_path s)) as [text|e]; [|by inv H].
  destruct (OvpnConfig_parse text) as [config|[e]|]; [|by inv H|by inv H]. injection H as <- _.
  assert (forall n, pn_tasks (abort_task p) !! n = None) as Hnone by (intros n; apply (abort_task_none p n Hp)).
  destruct (abort_task_rest p) as [Hc Hn]. destruct Hp as (_ & Hlt & _).
  split_and!; cbn [spawn_task emit pn_set_state pn_tasks pn_connection_task pn_clients pn_next pn_state].
  - intros n [a Ha]. apply lookup_insert_Some in Ha as [[<- _]|[_ Ha]]; [|by rewrite Hnone in Ha]. split; [done|set_solver].
  - intros n. rewrite Hc, Hn. intros [->%elem_of_singleton|Hin]%elem_of_union; [lia|]. apply Hlt in Hin. lia.
  - intros _. eexists. split; [done|]. rewrite lookup_insert_eq. eauto.
Qed.
Lemma plugin_ok_stopped n p : plugin_ok p -> pn_tasks p !! n <> None ->
  plugin_ok (end_task n (pn_set_state NM_VPN_STATE_STOPPED None p)).
Proof.
  intros (Ht & Hlt & _) Hn. split_and!; [|done|by intros [|]]. cbn. intros k [a Ha]. apply lookup_delete_Some in Ha as [Hne Ha].
  destruct (Ht k) as [E _]; [eauto|]. destruct (Ht n) as [E' _]; [by apply not_eq_None_Some|]. congruence.
Qed.

Lemma plugin_step_ok p p' : plugin_ok p -> step p p' -> plugin_ok p'.
Proof.
  intros Hp Hs. destruct Hs as [exists_ read connection p p' r H|p|s p _|n server event p H|n server p H|n ok p H].
  - by eapply plugin_ok_connect.
  - set (q := emit (SigStateChanged NM_VPN_STATE_STOPPING) (pn_set_state NM_VPN_STATE_STOPPING (pn_connection_task p) p)).
    assert (plugin_ok q) as Hq by (destruct Hp as (? & ? & _); split_and!; [done|done|by intros [|]]).
    unfold VpnPlugin_disconnect. fold q. destruct (abort_task_rest q) as [Hc Hn].
    split_and!; cbn [emit pn_set_state pn_tasks pn_connection_task pn_clients pn_next pn_state].
    + intros n [a Ha]. by rewrite (proj1 (abort_task_none q n Hq)) in Ha.
    + rewrite Hc, Hn. apply Hq.
    + by intros [|].
  - done.
  - destruct event as [[[ip mask]|] routes dns gw red|tun]; cbn [on_client_event]; [done|done|].
    destruct Hp as (Ht & Hlt & Hst). split_and!; [done|done|]. intros _. cbn. exists n. destruct (Ht n) as [? _]; eauto.
  - apply plugin_ok_stopped; [done|]. cbn. congruence.
  - cbv zeta. cbn [pn_tasks]. destruct (pn_tasks p !! n) as [a|] eqn:E; cbn [is_some].
    + unfold on_client_end. destruct Hp as (Ht & Hlt & _). destruct (Ht n) as [E' _]; [eauto|].
      assert (forall k, is_Some (delete n (pn_tasks p) !! k) -> False) as Hnone.
      { intros k [b Hb]. apply lookup_delete_Some in Hb as [Hne Hb]. destruct (Ht k) as [? _]; [eauto|]. congruence. }
      destruct ok; (split_and!; [intros k Hk; exfalso; by apply (Hnone k)|intros k Hk; apply Hlt; set_solver|by intros [|]]).
    + destruct Hp as (Ht & Hlt & Hst). split_and!; cbn.
      * intros k Hk. destruct (Ht k Hk) as [? ?]. split; [done|]. apply elem_of_difference. split; [done|].
        intros ->%elem_of_singleton. rewrite E in Hk. by destruct Hk.
      * intros k Hk. apply Hlt. set_solver.
      * done.
Qed.

(** Over every sequence of requests, client events, failures of the bus and
    ends of clients, at most one background task runs, it is the one that is
    stored and its client is running, and the plugin is starting or started
    only while there is one. *)
Theorem plugin_invariant p (Hr : rtc step VpnPlugin_new p) : plugin_ok p.
Proof.
  assert (plugin_ok VpnPlugin_new) as H0.
  { split_and!; cbn; [by intros n [a Ha]|set_solver|by intros [|]]. }
  clear -Hr H0. revert H0. induction Hr as [|p q r Hs _ IH]; [done|]. intros Hp. apply IH. by eapply plugin_step_ok.
Qed.

(** Disconnecting does not disconnect.  After the request the plugin reports
    the state stopped and no background task is left, but the client of the
    connection still runs, and no later request stops it: only the end of the
    client itself removes it. *)
Theorem disconnect_leaves_client n server p (Hp : plugin_ok p) (Hn : pn_tasks p !! n = Some server)
    (p' := VpnPlugin_disconnect p) :
  pn_state p' = NM_VPN_STATE_STOPPED /\ (forall k, pn_tasks p' !! k = None) /\ n ∈ pn_clients p' /\
  last (pn_signals p') = Some (SigStateChanged NM_VPN_STATE_STOPPED) /\
  forall q q', n ∈ pn_clients q -> step q q' -> n ∈ pn_clients q' \/ pn_clients q' = pn_clients q ∖ {[n]}.
Proof.
  destruct (proj1 Hp n) as [_ Hc]; [eauto|].
  set (q := emit (SigStateChanged NM_VPN_STATE_STOPPING) (pn_set_state NM_VPN_STATE_STOPPING (pn_connection_task p) p)).
  assert (plugin_ok q) as Hq by (destruct Hp as (? & ? & _); split_and!; [done|done|by intros [|]]).
  unfold p', VpnPlugin_disconnect. fold q. destruct (abort_task_rest q) as [Ec _].
  split_and!; cbn [emit pn_set_state pn_tasks pn_connection_task pn_clients pn_next pn_state pn_signals].
  - done.
  - intros k. apply (abort_task_none q k Hq).
  - by rewrite Ec.
  - by rewrite last_snoc.
  - clear -ZV. intros q q' Hin Hs. destruct Hs as [exists_ read connection q q' r H|q|s q _|k server event q H|k server q H|k ok q H].
    + left. unfold VpnPlugin_connect in H. repeat case_match; simplify_eq; try done. cbn. destruct (abort_task_rest q) as [-> _]. set_solver.
    + left. unfold VpnPlugin_disconnect. cbn. by rewrite (proj1 (abort_task_rest _)).
    + by left.
    + left. by destruct event as [[[ip mask]|] routes dns gw red|tun].
    + by left.
    + cbv zeta. cbn [pn_tasks]. destruct (decide (n = k)) as [->|Hne].
      * right. destruct (is_some _); [|done]. by destruct ok.
      * left. destruct (is_some _); [|set_solver]. destruct ok; cbn; set_solver.
Qed.
End Reachable.
