(* ===== verification/Ui.v ===== *)
(** * The desktop application

    src/crates/corevpn-ui/src: types.rs, state.rs, config.rs, backend.rs, the
    handling of events in app.rs and what the buttons of views/ do.  Drawing and
    colours are not modelled.  The clock is read by the argument [now] of an
    operation; the backend's task and its connections are steps of
    [ui_step]. *)
From Stdlib Require Import QArith.
From S2P Require Import Prelude Errors Text Float Network CoreSession Addr AddrText OAuth WebUi Ovpn Nm.
Local Open Scope Z_scope.

(** ** types.rs *)
Inductive VpnConnectionStatus :=
| StDisconnected | StConnecting | StAuthenticating | StConnected | StDisconnecting | StReconnecting | StError.
#[export] Instance VpnConnectionStatus_eq_dec : EqDecision VpnConnectionStatus.
Proof. solve_decision. Defined.
Definition VpnConnectionStatus_as_str (s : VpnConnectionStatus) : str :=
  match s with
  | StDisconnected => lit "Disconnected" | StConnecting => lit "Connecting..." | StAuthenticating => lit "Authenticating..."
  | StConnected => lit "Connected" | StDisconnecting => lit "Disconnecting..." | StReconnecting => lit "Reconnecting..."
  | StError => lit "Error"
  end.
Definition VpnConnectionStatus_is_connected (s : VpnConnectionStatus) : bool := bool_decide (s = StConnected).
Definition VpnConnectionStatus_is_transitioning (s : VpnConnectionStatus) : bool :=
  match s with StConnecting | StAuthenticating | StDisconnecting | StReconnecting => true | _ => false end.

Inductive UiAuthMethod := UiUsernamePassword | UiCertificate | UiOAuth2 | UiSaml.
Definition UiAuthMethod_requires_password (m : UiAuthMethod) : bool := match m with UiUsernamePassword => true | _ => false end.
Definition UiAuthMethod_is_sso (m : UiAuthMethod) : bool := match m with UiOAuth2 | UiSaml => true | _ => false end.
Definition UiAuthMethod_label (m : UiAuthMethod) : str :=
  match m with
  | UiUsernamePassword => lit "Username/Password" | UiCertificate => lit "Certificate" | UiOAuth2 => lit "OAuth2/SSO"
  | UiSaml => lit "SAML/SSO"
  end.

Record ConnectionStats := mkStats { st_bytes_rx : Z; st_bytes_tx : Z; st_speed_rx : Z; st_speed_tx : Z; st_duration_secs : Z }.
Definition ConnectionStats_default : ConnectionStats := mkStats 0 0 0 0 0.
Definition ConnectionStats_format_bytes (bytes : Z) : str :=
  if 1073741824 <=? bytes then fmt_fixed 2 (in_units bytes 1073741824) ++ lit " GB"
  else if 1048576 <=? bytes then fmt_fixed 2 (in_units bytes 1048576) ++ lit " MB"
  else if 1024 <=? bytes then fmt_fixed 1 (in_units bytes 1024) ++ lit " KB"
  else fmt_dec bytes ++ lit " B".
Definition ConnectionStats_format_speed (bytes_per_sec : Z) : str :=
  if 1048576 <=? bytes_per_sec then fmt_fixed 1 (in_units bytes_per_sec 1048576) ++ lit " MB/s"
  else if 1024 <=? bytes_per_sec then fmt_fixed 1 (in_units bytes_per_sec 1024) ++ lit " KB/s"
  else fmt_dec bytes_per_sec ++ lit " B/s".
(** [{:02}]. *)
Definition two_digits (z : Z) : str := if z <? 10 then 48 :: fmt_dec z else fmt_dec z.
Definition ConnectionStats_format_duration (secs : Z) : str :=
  let hours := secs / 3600 in let minutes := secs mod 3600 / 60 in let seconds := secs mod 60 in
  if 0 <? hours then two_digits hours ++ [58] ++ two_digits minutes ++ [58] ++ two_digits seconds
  else two_digits minutes ++ [58] ++ two_digits seconds.

(** ** state.rs *)
Inductive UiLogLevel := LvDebug | LvInfo | LvWarn | LvError.
Definition UiLogLevel_as_str (l : UiLogLevel) : str :=
  match l with LvDebug => lit "DEBUG" | LvInfo => lit "INFO" | LvWarn => lit "WARN" | LvError => lit "ERROR" end.
Inductive AppView := ViewConnection | ViewServerList | ViewProfiles | ViewSettings | ViewLogs | ViewAbout.

Record VpnProfile := mkProfile {
  vp_name : str; vp_config_path : option str; vp_server_addr : str; vp_protocol : str; vp_cipher : str;
  vp_has_tls_auth : bool; vp_auto_connect : bool;
}.

Definition validate_username (username : str) : option str :=
  if bool_decide (username = []) then Some (lit "Username cannot be empty")
  else if (256 <? length username)%nat then Some (lit "Username is too long (max 256 characters)")
  else if existsb control_char (chars username) then Some (lit "Username contains invalid characters")
  else None.
Definition validate_password (password : str) : option str :=
  if bool_decide (password = []) then Some (lit "Password cannot be empty")
  else if (1024 <? length password)%nat then Some (lit "Password is too long (max 1024 characters)")
  else None.

(** ** config.rs *)
Record WindowConfig := mkWindow {
  wi_width : Q; wi_height : Q; wi_start_minimized : bool; wi_minimize_to_tray : bool; wi_remember_position : bool;
  wi_x : option Z; wi_y : option Z;
}.
Record ThemeConfig := mkTheme { th_mode : str; th_accent_color : option str }.
Record ConnectionConfig := mkConnectionConfig {
  cx_auto_connect : bool; cx_auto_reconnect : bool; cx_max_reconnect_attempts : Z; cx_reconnect_delay_secs : Z;
  cx_kill_switch : bool; cx_allow_lan : bool; cx_dns_leak_protection : bool;
}.
Record SsoProviderConfig := mkSso { so_provider_type : str; so_name : str; so_enabled : bool; so_client_id : option str; so_issuer_url : option str }.
Record AuthConfig := mkAuthConfig { au_default_method : str; au_remember_credentials : bool; au_oauth_callback_port : Z; au_sso_providers : list SsoProviderConfig }.
Record NotificationConfig := mkNotification { no_connection_status : bool; no_errors : bool; no_updates : bool; no_sound : bool }.
Record UiConfig := mkUiConfig {
  ui_window : WindowConfig; ui_theme : ThemeConfig; ui_connection : ConnectionConfig; ui_auth : AuthConfig;
  ui_notifications : NotificationConfig;
}.
Definition WindowConfig_default : WindowConfig := mkWindow 420 680 false true true None None.
Definition ThemeConfig_default : ThemeConfig := mkTheme (lit "system") None.
Definition ConnectionConfig_default : ConnectionConfig := mkConnectionConfig false true 3 5 false true true.
Definition AuthConfig_default : AuthConfig :=
  mkAuthConfig (lit "oauth2") false 8400
    [mkSso (lit "google") (lit "Google Workspace") true None (Some (lit "https://accounts.google.com"));
     mkSso (lit "microsoft") (lit "Microsoft Entra ID") true None None; mkSso (lit "okta") (lit "Okta") true None None].
Definition NotificationConfig_default : NotificationConfig := mkNotification true true true false.
Definition UiConfig_default : UiConfig :=
  mkUiConfig WindowConfig_default ThemeConfig_default ConnectionConfig_default AuthConfig_default NotificationConfig_default.
Record CliOverrides := mkOverrides { cli_theme : option str; cli_auto_connect : bool; cli_minimized : bool }.
Definition UiConfig_merge_cli (cli : CliOverrides) (c : UiConfig) : UiConfig :=
  let w := ui_window c in let n := ui_connection c in
  mkUiConfig
    (mkWindow (wi_width w) (wi_height w) (cli_minimized cli || wi_start_minimized w) (wi_minimize_to_tray w)
       (wi_remember_position w) (wi_x w) (wi_y w))
    (mkTheme (default (th_mode (ui_theme c)) (cli_theme cli)) (th_accent_color (ui_theme c)))
    (mkConnectionConfig (cli_auto_connect cli || cx_auto_connect n) (cx_auto_reconnect n) (cx_max_reconnect_attempts n)
       (cx_reconnect_delay_secs n) (cx_kill_switch n) (cx_allow_lan n) (cx_dns_leak_protection n))
    (ui_auth c) (ui_notifications c).
Inductive UiConfigError := UiIoError (e : str) | UiParseError (e : str) | UiSerializeError (e : str).
(** [toml_parse] and [toml_print] are the crate toml; [read] and [write] the file. *)
Definition UiConfig_load (toml_parse : str -> UiConfig + str) (read : str + str) : res UiConfigError UiConfig :=
  match read with
  | inr e => Err (UiIoError e)
  | inl content => match toml_parse content with inl c => Ok c | inr e => Err (UiParseError e) end
  end.
Definition UiConfig_save (toml_print : UiConfig -> str + str) (write : str -> option str) (c : UiConfig) : res UiConfigError unit :=
  match toml_print c with
  | inr e => Err (UiSerializeError e)
  | inl content => match write content with Some e => Err (UiIoError e) | None => Ok tt end
  end.
(** On Linux. *)
Definition dirs_config_path (xdg_config_home home : option str) : option str :=
  match xdg_config_home with Some d => Some d | None => (fun h => h ++ lit "/.config") <$> home end.
Definition UiConfig_default_path (xdg_config_home home : option str) : str :=
  match dirs_config_path xdg_config_home home with
  | Some d => d ++ lit "/corevpn/ui.toml"
  | None => lit "corevpn-ui.toml"
  end.

Section State.
Context {Ch : Chrono} (num_seconds : TimeDelta -> Z).

Inductive UiAuthState :=
| NotAuthenticated | AwaitingSso (url : option str)
| Authenticated (email : str) (name : option str) (expires_at : option DateTime) | AuthFailed (error : str).
Record ConnectionState := mkConnState {
  ct_status : VpnConnectionStatus; ct_server_addr : option str; ct_stats : ConnectionStats;
  ct_connected_at : option DateTime; ct_last_error : option str;
}.
Definition ConnectionState_default : ConnectionState := mkConnState StDisconnected None ConnectionStats_default None None.
Definition ConnectionState_update_duration (now : DateTime) (c : ConnectionState) : ConnectionState :=
  match ct_connected_at c with
  | Some connected_at =>
      let s := ct_stats c in
      mkConnState (ct_status c) (ct_server_addr c)
        (mkStats (st_bytes_rx s) (st_bytes_tx s) (st_speed_rx s) (st_speed_tx s) (Z.max (num_seconds (dt_sub now connected_at)) 0))
        (Some connected_at) (ct_last_error c)
  | None => c
  end.

Record LogEntry := mkLogEntry { lg_level : UiLogLevel; lg_message : str; lg_timestamp : DateTime }.
Record AppState := mkApp {
  ap_current_view : AppView; ap_auth : UiAuthState; ap_connection : ConnectionState; ap_profiles : list VpnProfile;
  ap_active_profile : option str; ap_auth_method : UiAuthMethod; ap_username : str; ap_password : str;
  ap_remember_credentials : bool; ap_auto_connect : bool; ap_show_notifications : bool; ap_logs : list LogEntry;
}.
Implicit Types (a : AppState) (now : DateTime).
Definition AppState_default now : AppState :=
  mkApp ViewConnection NotAuthenticated ConnectionState_default [] None UiCertificate [] [] false false true
    [mkLogEntry LvInfo (lit "Ready. Import an .ovpn profile to get started.") now].
Definition ap_set_connection (c : ConnectionState) a : AppState :=
  mkApp (ap_current_view a) (ap_auth a) c (ap_profiles a) (ap_active_profile a) (ap_auth_method a) (ap_username a) (ap_password a)
    (ap_remember_credentials a) (ap_auto_connect a) (ap_show_notifications a) (ap_logs a).
Definition ap_set_logs (logs : list LogEntry) a : AppState :=
  mkApp (ap_current_view a) (ap_auth a) (ap_connection a) (ap_profiles a) (ap_active_profile a) (ap_auth_method a) (ap_username a)
    (ap_password a) (ap_remember_credentials a) (ap_auto_connect a) (ap_show_notifications a) logs.
Definition ap_set_profiles (profiles : list VpnProfile) (active : option str) a : AppState :=
  mkApp (ap_current_view a) (ap_auth a) (ap_connection a) profiles active (ap_auth_method a) (ap_username a) (ap_password a)
    (ap_remember_credentials a) (ap_auto_connect a) (ap_show_notifications a) (ap_logs a).
Definition ap_set_view (view : AppView) a : AppState :=
  mkApp view (ap_auth a) (ap_connection a) (ap_profiles a) (ap_active_profile a) (ap_auth_method a) (ap_username a) (ap_password a)
    (ap_remember_credentials a) (ap_auto_connect a) (ap_show_notifications a) (ap_logs a).
Definition ct_set_status (s : VpnConnectionStatus) (c : ConnectionState) : ConnectionState :=
  mkConnState s (ct_server_addr c) (ct_stats c) (ct_connected_at c) (ct_last_error c).

Definition AppState_active_profile_ref a : option VpnProfile :=
  name ← ap_active_profile a; List.find (fun p => bool_decide (vp_name p = name)) (ap_profiles a).
Definition AppState_requires_password a : bool := UiAuthMethod_requires_password (ap_auth_method a).
Definition AppState_is_sso a : bool := UiAuthMethod_is_sso (ap_auth_method a).

(** The log is cut to its newest four hundred entries above five hundred. *)
Definition AppState_add_log now (level : UiLogLevel) (message : str) a : AppState :=
  let logs := ap_logs a ++ [mkLogEntry level message now] in
  ap_set_logs (if (500 <? length logs)%nat then drop 100 logs else logs) a.
Definition AppState_clear_logs a : AppState := ap_set_logs [] a.
Definition AppState_start_connecting now a : AppState :=
  let c := ap_connection a in
  AppState_add_log now LvInfo (lit "Initiating VPN connection...")
    (ap_set_connection (mkConnState StConnecting (ct_server_addr c) (ct_stats c) (ct_connected_at c) None) a).
Definition AppState_set_authenticating now a : AppState :=
  AppState_add_log now LvInfo (lit "Authenticating...") (ap_set_connection (ct_set_status StAuthenticating (ap_connection a)) a).
Definition AppState_set_connected now a : AppState :=
  let c := ap_connection a in
  let a := ap_set_connection (mkConnState StConnected (ct_server_addr c) (ct_stats c) (Some now) (ct_last_error c)) a in
  match AppState_active_profile_ref a with
  | Some profile => AppState_add_log now LvInfo (lit "Connected to " ++ vp_server_addr profile) a
  | None => a
  end.
Definition AppState_start_disconnecting now a : AppState :=
  AppState_add_log now LvInfo (lit "Disconnecting...") (ap_set_connection (ct_set_status StDisconnecting (ap_connection a)) a).
Definition AppState_set_disconnected now a : AppState :=
  AppState_add_log now LvInfo (lit "Disconnected")
    (ap_set_connection (mkConnState StDisconnected None ConnectionStats_default None (ct_last_error (ap_connection a))) a).
Definition AppState_set_error now (error : str) a : AppState :=
  let c := ap_connection a in
  AppState_add_log now LvError error
    (ap_set_connection (mkConnState StError (ct_server_addr c) (ct_stats c) (ct_connected_at c) (Some error)) a).

(** ** backend.rs *)
Inductive VpnCommand := CmdConnect (config_path : str) | CmdDisconnect.
Inductive VpnEvent :=
| VeConnecting | VeHandshaking | VeAuthenticating (url : option str) | VeConnected (vpn_ip : option str) (server : str)
| VeDisconnected | VeError (message : str) | VeLog (level : UiLogLevel) (message : str).

Record OvpnSummary := mkSummary { ow_remote : str; ow_protocol : str; ow_cipher : str; ow_has_tls_auth : bool; ow_dev : str }.
(** [read] is what reading the file gives. *)
Definition validate_ovpn (read : str -> str + str) (path : str) : res str OvpnSummary :=
  match OvpnConfig_parse_file (read path) path with
  | Ok config => Ok (mkSummary (SocketAddr_fmt (ov_remote config)) (ov_protocol config) (ov_cipher config)
                       (is_some (ov_tls_auth_key config)) (ov_dev config))
  | Err (OvpnMessage e) => Err e
  | Panic => Panic
  end.

(** [run_connection] up to the call of the client: the events, and the server
    if the file was read. *)
Definition connection_begins (read : str -> str + str) (path : str) : list VpnEvent * option str :=
  let loading := VeLog LvInfo (lit "Loading config: " ++ path) in
  match OvpnConfig_parse_file (read path) path with
  | Ok config =>
      let server := SocketAddr_fmt (ov_remote config) in
      ([loading; VeLog LvInfo (lit "Loaded config: remote=" ++ server ++ lit ", cipher=" ++ ov_cipher config ++ lit ", proto="
                                 ++ ov_protocol config); VeConnecting], Some server)
  | Err (OvpnMessage e) => ([loading; VeError (lit "Failed to parse .ovpn: " ++ e)], None)
  | Panic => ([loading], None)
  end.
(** The rest, when the client has returned: [inl] or the text of the error. *)
Definition connection_ends (server : str) (result : unit + str) : list VpnEvent :=
  (match result with
   | inl _ => [VeConnected None server]
   | inr err_msg =>
       (if contains (lit "AUTH_PENDING") err_msg || contains (lit "auth") err_msg then [VeAuthenticating None] else [])
       ++ [VeError err_msg]
   end) ++ [VeDisconnected].

(** The application with the channels of its backend and the connections whose
    client has not returned.  [uw_ended] counts the clients that have. *)
Record UiWorld := mkUiWorld {
  uw_app : AppState; uw_pending_file : option str; uw_commands : list VpnCommand; uw_events : list VpnEvent; uw_active : bool;
  uw_running : list str; uw_ended : nat;
}.
Definition UiWorld_new now : UiWorld := mkUiWorld (AppState_default now) None [] [] false [] 0.
Definition on_app (f : AppState -> AppState) (w : UiWorld) : UiWorld :=
  mkUiWorld (f (uw_app w)) (uw_pending_file w) (uw_commands w) (uw_events w) (uw_active w) (uw_running w) (uw_ended w).
Definition VpnBackend_connect (path : str) (w : UiWorld) : UiWorld :=
  mkUiWorld (uw_app w) (uw_pending_file w) (uw_commands w ++ [CmdConnect path]) (uw_events w) true (uw_running w) (uw_ended w).
Definition VpnBackend_disconnect (w : UiWorld) : UiWorld :=
  mkUiWorld (uw_app w) (uw_pending_file w) (uw_commands w ++ [CmdDisconnect]) (uw_events w) (uw_active w) (uw_running w) (uw_ended w).
(** One turn of [command_loop]. *)
Definition command_turn (read : str -> str + str) (w : UiWorld) : UiWorld :=
  match uw_commands w with
  | [] => w
  | CmdConnect path :: commands =>
      let '(events, server) := connection_begins read path in
      mkUiWorld (uw_app w) (uw_pending_file w) commands (uw_events w ++ events) (uw_active w)
        (uw_running w ++ option_list server) (uw_ended w)
  | CmdDisconnect :: commands =>
      mkUiWorld (uw_app w) (uw_pending_file w) commands (uw_events w ++ [VeDisconnected]) (uw_active w) (uw_running w) (uw_ended w)
  end.
Definition ends_connection (e : VpnEvent) : bool := match e with VeDisconnected | VeError _ => true | _ => false end.
Definition VpnBackend_poll_events (w : UiWorld) : UiWorld * list VpnEvent :=
  (mkUiWorld (uw_app w) (uw_pending_file w) (uw_commands w) [] (uw_active w && negb (existsb ends_connection (uw_events w)))
     (uw_running w) (uw_ended w), uw_events w).

(** ** app.rs *)

(** The name of the file without its last extension. *)
Definition file_stem (path : str) : option str :=
  match list.last (filter (fun s => s <> []) (split_on 47 path)) with
  | None => None
  | Some name =>
      if bool_decide (name = lit "..") then None else
      match rsplit_once 46 name with
      | Some (stem, _) => if bool_decide (stem = []) then Some name else Some stem
      | None => Some name
      end
  end.
Definition CoreVpnApp_import_ovpn (read : str -> str + str) now (path : str) a : res Empty_set AppState :=
  match validate_ovpn read path with
  | Ok summary =>
      let file_name := default (lit "Imported") (file_stem path) in
      let profile := mkProfile file_name (Some path) (ow_remote summary) (ow_protocol summary) (ow_cipher summary)
                       (ow_has_tls_auth summary) false in
      let a := AppState_add_log now LvInfo
                 (lit "Imported profile '" ++ file_name ++ lit "' (" ++ ow_remote summary ++ lit ")") a in
      Ok (ap_set_profiles (ap_profiles a ++ [profile])
            (match ap_active_profile a with Some n => Some n | None => Some file_name end) a)
  | Err e => Ok (AppState_set_error now (lit "Failed to import: " ++ e) a)
  | Panic => Panic
  end.
Definition active_config_path a : option str := AppState_active_profile_ref a ≫= vp_config_path.
(** [start_connection] of app.rs and the button of the view differ in the
    text of the error. *)
Definition connect_with (no_path : str) now (w : UiWorld) : UiWorld :=
  match active_config_path (uw_app w) with
  | Some path => VpnBackend_connect path (on_app (AppState_start_connecting now) w)
  | None => on_app (AppState_set_error now no_path) w
  end.
Definition CoreVpnApp_start_connection := connect_with (lit "No active profile selected. Import an .ovpn file first.").
Definition CoreVpnApp_stop_connection now (w : UiWorld) : UiWorld :=
  VpnBackend_disconnect (on_app (AppState_start_disconnecting now) w).

Definition process_event now (event : VpnEvent) a : AppState :=
  match event with
  | VeConnecting =>
      AppState_add_log now LvInfo (lit "Connecting...") (ap_set_connection (ct_set_status StConnecting (ap_connection a)) a)
  | VeHandshaking => AppState_add_log now LvInfo (lit "TLS handshake in progress...") a
  | VeAuthenticating url =>
      AppState_add_log now LvInfo
        (match url with Some u => lit "Open in browser to authenticate: " ++ u | None => lit "Authenticating..." end)
        (ap_set_connection (ct_set_status StAuthenticating (ap_connection a)) a)
  | VeConnected vpn_ip server =>
      let a := AppState_set_connected now a in
      let a := match vpn_ip with Some ip => AppState_add_log now LvInfo (lit "VPN IP: " ++ ip) a | None => a end in
      AppState_add_log now LvInfo (lit "Connected to " ++ server) a
  | VeDisconnected =>
      if bool_decide (ct_status (ap_connection a) = StDisconnected) then a else AppState_set_disconnected now a
  | VeError msg => AppState_set_error now msg a
  | VeLog level message => AppState_add_log now level message a
  end.
Definition CoreVpnApp_process_backend_events now (w : UiWorld) : UiWorld :=
  let '(w, events) := VpnBackend_poll_events w in on_app (fun a => foldl (fun a e => process_event now e a) a events) w.

(** ** views/: what the buttons do *)

(** The button of the connection card, by the status. *)
Definition offers_connect a : bool :=
  match ct_status (ap_connection a) with StDisconnected | StError => is_some (ap_active_profile a) | _ => false end.
Definition offers_disconnect a : bool := VpnConnectionStatus_is_connected (ct_status (ap_connection a)).
Definition delete_profile (name : str) a : AppState :=
  ap_set_profiles (filter (fun p => vp_name p <> name) (ap_profiles a)) (ap_active_profile a) a.
Definition use_profile (name : str) a : AppState := ap_set_profiles (ap_profiles a) (Some name) a.
Definition set_options (auto_connect remember notify : bool) a : AppState :=
  mkApp (ap_current_view a) (ap_auth a) (ap_connection a) (ap_profiles a) (ap_active_profile a) (ap_auth_method a) (ap_username a)
    (ap_password a) remember auto_connect notify (ap_logs a).

Inductive ui_step : UiWorld -> UiWorld -> Prop :=
| ui_events now w : ui_step w (CoreVpnApp_process_backend_events now w)
| ui_pick path w : ui_step w (mkUiWorld (uw_app w) (Some path) (uw_commands w) (uw_events w) (uw_active w) (uw_running w) (uw_ended w))
| ui_import read now path a w : uw_pending_file w = Some path -> CoreVpnApp_import_ovpn read now path (uw_app w) = Ok a ->
    ui_step w (mkUiWorld a None (uw_commands w) (uw_events w) (uw_active w) (uw_running w) (uw_ended w))
| ui_connect now w : offers_connect (uw_app w) = true -> ui_step w (connect_with (lit "Profile has no config file path") now w)
| ui_disconnect now w : offers_disconnect (uw_app w) = true -> ui_step w (CoreVpnApp_stop_connection now w)
| ui_duration now w : offers_disconnect (uw_app w) = true ->
    ui_step w (on_app (fun a => ap_set_connection (ConnectionState_update_duration now (ap_connection a)) a) w)
| ui_delete name w : ap_active_profile (uw_app w) <> Some name -> ui_step w (on_app (delete_profile name) w)
| ui_use name w : ui_step w (on_app (use_profile name) w)
| ui_options x y z w : ui_step w (on_app (set_options x y z) w)
| ui_clear w : ui_step w (on_app AppState_clear_logs w)
| ui_view v w : ui_step w (on_app (ap_set_view v) w)
| ui_command read w : ui_step w (command_turn read w)
| ui_returned i server result w : uw_running w !! i = Some server ->
    ui_step w (mkUiWorld (uw_app w) (uw_pending_file w) (uw_commands w) (uw_events w ++ connection_ends server result) (uw_active w)
                 (delete i (uw_running w)) (S (uw_ended w))).
End State.
