(* ===== verification/UiProofs.v ===== *)
(** * What the desktop application shows

    The log stays bounded; and the status follows the end of a connection, not
    its start. *)
From S2P Require Import Prelude Errors Text Network CoreSession Addr OAuth Ovpn Nm Ui.
Local Open Scope Z_scope.

Section Shown.
Context {Ch : Chrono} (num_seconds : TimeDelta -> Z).
Abbreviation step := (ui_step num_seconds).
Implicit Types (a : AppState) (w : UiWorld).

(** ** The log *)
Lemma add_log_bound now level msg a : (length (ap_logs a) <= 500)%nat -> (length (ap_logs (AppState_add_log now level msg a)) <= 500)%nat.
Proof.
  intros H. unfold AppState_add_log. cbn -[length Nat.ltb drop]. set (l := ap_logs a ++ _).
  assert (length l <= 501)%nat by (unfold l; rewrite length_app; cbn; lia).
  destruct (Nat.ltb_spec 500 (length l)); [rewrite length_drop; lia|lia].
Qed.
Definition bounded a : Prop := (length (ap_logs a) <= 500)%nat.
Lemma process_event_bound now e a : bounded a -> bounded (process_event now e a).
Proof.
  intros H. destruct e as [| |url|ip server| |m|l m]; unfold process_event, bounded; try (by apply add_log_bound).
  - apply add_log_bound. assert (bounded (AppState_set_connected now a)) as Hc.
    { unfold AppState_set_connected, bounded. case_match; [by apply add_log_bound|done]. }
    destruct ip; [by apply add_log_bound|done].
  - case_bool_decide; [done|]. by apply add_log_bound.
Qed.
Lemma process_events_bound now events a : bounded a -> bounded (foldl (fun a e => process_event now e a) a events).
Proof. revert a. induction events as [|e events IH]; intros a H; [done|]. apply IH. by apply process_event_bound. Qed.

Lemma step_bounded w w' : bounded (uw_app w) -> step w w' -> bounded (uw_app w').
Proof.
  intros Hb Hs. destruct Hs as [now w|path w|read now path a w _ Hi|now w _|now w _|now w _|name w _|name w|x y z w|w|v w|read w|i server r w _].
  - by apply process_events_bound.
  - done.
  - cbn. unfold CoreVpnApp_import_ovpn in Hi. destruct (validate_ovpn read path); simplify_eq; [by apply add_log_bound|].
    by apply add_log_bound.
  - unfold connect_with. destruct (active_config_path (uw_app w)); by apply add_log_bound.
  - by apply add_log_bound.
  - done.
  - done.
  - done.
  - done.
  - unfold bounded. cbn. lia.
  - done.
  - unfold command_turn. destruct (uw_commands w) as [|[path|] cmds]; [done| |done].
    by destruct (connection_begins read path) as [evs srv].
  - done.
Qed.

(** The log of the application never holds more than five hundred entries,
    whatever the user and the backend do. *)
Theorem ui_log_is_bounded now w (Hr : rtc step (UiWorld_new now) w) : (length (ap_logs (uw_app w)) <= 500)%nat.
Proof.
  assert (bounded (uw_app (UiWorld_new now))) as H0 by (unfold bounded; cbn; lia).
  revert H0. clear -Hr. change (length (ap_logs (uw_app w)) <= 500)%nat with (bounded (uw_app w)).
  induction Hr as [|w1 w2 w3 Hs _ IH]; [done|]. intros H. apply IH. by eapply step_bounded.
Qed.

(** ** The status *)
Definition not_connected_event (e : VpnEvent) : Prop := match e with VeConnected _ _ => False | _ => True end.
Definition not_connected a : Prop := ct_status (ap_connection a) <> StConnected.
(** No client has returned: nothing says connected. *)
Definition unconnected w : Prop :=
  uw_ended w = 0%nat -> not_connected (uw_app w) /\ Forall not_connected_event (uw_events w).

Lemma process_events_status now events a : Forall not_connected_event events -> not_connected a ->
  not_connected (foldl (fun a e => process_event now e a) a events).
Proof.
  intros H. revert a. induction H as [|e events He _ IH]; intros a Ha; [done|]. apply IH.
  destruct e as [| |url|ip server| |m|l m]; try done. cbn. unfold not_connected. case_bool_decide; done.
Qed.
Lemma connection_begins_status read path : Forall not_connected_event (connection_begins read path).1.
Proof. unfold connection_begins. destruct (OvpnConfig_parse_file (read path) path) as [c|[e]|]; repeat constructor. Qed.

Lemma step_unconnected w w' : unconnected w -> step w w' -> unconnected w'.
Proof.
  intros Hu Hs. destruct Hs as [now w|path w|read now path a w _ Hi|now w _|now w Ho|now w Ho|name w _|name w|x y z w|w|v w|read w|i server r w _];
    intros He; cbn in He.
  - destruct (Hu He) as [Ha Hv]. cbn. split; [by apply process_events_status|constructor].
  - by apply Hu.
  - destruct (Hu He) as [Ha Hv]. cbn. split; [|done].
    unfold CoreVpnApp_import_ovpn in Hi. by destruct (validate_ovpn read path); simplify_eq.
  - unfold connect_with in *. destruct (active_config_path (uw_app w)); (destruct (Hu He) as [Ha Hv]; by split).
  - destruct (Hu He) as [Ha Hv]. by split.
  - destruct (Hu He) as [Ha Hv]. split; [|done]. unfold not_connected in *. cbn. unfold ConnectionState_update_duration.
    by destruct (ct_connected_at (ap_connection (uw_app w))).
  - by apply Hu.
  - by apply Hu.
  - by apply Hu.
  - by apply Hu.
  - by apply Hu.
  - unfold command_turn in *. destruct (uw_commands w) as [|[path|] cmds]; [by apply Hu| |].
    + pose proof (connection_begins_status read path) as Hb. destruct (connection_begins read path) as [evs srv].
      destruct (Hu He) as [Ha Hv]. split; [done|]. by apply Forall_app.
    + destruct (Hu He) as [Ha Hv]. split; [done|]. apply Forall_app. split; [done|]. by repeat constructor.
  - done.
Qed.

(** A running connection is never shown as connected and cannot be stopped.
    Until a client has returned, that is until its connection is over, the
    status is not connected and the button to disconnect is not offered; and a
    request to disconnect only changes the status: when it has been carried
    out, the application shows disconnected and every connection still runs. *)
Lemma ui_cannot_stop_connection now w (Hr : rtc step (UiWorld_new now) w) :
  (uw_ended w = 0%nat -> offers_disconnect (uw_app w) = false) /\
  forall t read, uw_commands w = [] ->
    let w' := CoreVpnApp_process_backend_events t (command_turn read (CoreVpnApp_stop_connection t w)) in
    ct_status (ap_connection (uw_app w')) = StDisconnected /\ uw_running w' = uw_running w.
Proof.
  split.
  - assert (unconnected (UiWorld_new now)) as H0 by (intros _; by split).
    assert (unconnected w) as Hw.
    { clear -Hr H0. revert H0. induction Hr as [|w1 w2 w3 Hs _ IH]; [done|]. intros H. apply IH. by eapply step_unconnected. }
    intros He. destruct (Hw He) as [Ha _]. unfold offers_disconnect, VpnConnectionStatus_is_connected. by apply bool_decide_eq_false_2.
  - intros t read Hc. unfold command_turn, CoreVpnApp_stop_connection, VpnBackend_disconnect, on_app. cbn [uw_commands].
    rewrite Hc. cbn [app]. unfold CoreVpnApp_process_backend_events, VpnBackend_poll_events, on_app.
    cbn [uw_app uw_events uw_running fst snd]. split; [|done]. rewrite foldl_app. cbn [foldl].
    set (a := foldl _ _ _). cbn [process_event]. case_bool_decide; [done|]. done.
Qed.
End Shown.

(** ** The claims at concrete inputs *)
Section UiWitnesses.
#[local] Existing Instance toy_chrono.
Definition fresh_ui : UiWorld := UiWorld_new (0 : @DateTime toy_chrono).
Definition waiting_ui : UiWorld := on_app (use_profile (lit "home")) fresh_ui.
Lemma waiting_reached : rtc (ui_step (fun d : @TimeDelta toy_chrono => d)) fresh_ui waiting_ui.
Proof. eapply rtc_l; [apply ui_use|apply rtc_refl]. Qed.

Lemma ui_log_is_bounded_witness : (length (ap_logs (uw_app waiting_ui)) <= 500)%nat.
Proof. exact (ui_log_is_bounded (fun d : @TimeDelta toy_chrono => d) (0 : @DateTime toy_chrono) waiting_ui waiting_reached). Defined.
Lemma ui_cannot_stop_connection_witness : offers_disconnect (uw_app waiting_ui) = false.
Proof.
  destruct (ui_cannot_stop_connection (fun d : @TimeDelta toy_chrono => d) (0 : @DateTime toy_chrono) waiting_ui waiting_reached) as [H _].
  apply H. reflexivity.
Defined.
End UiWitnesses.
