(* ===== verification/WebUiProofs.v ===== *)
(** * What the administration pages guarantee

    Theorems about WebUi.v: the download link decodes to the file, no page is
    served and nothing changes without the password, sessions are dropped only
    by forms with a recent token, and a downloaded file is one that the client
    reads. *)
From S2P Require Import Prelude Errors Text Network CoreSession Addr ServerConfig ConnLog OAuth Cert ClientConfig Pki Generator Server WebUi Ovpn OvpnFile Client Provision.
Local Open Scope Z_scope.

(** ** Base64 *)

(** The value of a digit, and the decoding of RFC 4648 with padding. *)
Definition digit_value (c : Z) : option Z :=
  (fun p => Z.of_nat (fst p)) <$> list_find (fun x => x = c) ALPHABET.
Fixpoint base64_decode (s : str) : option bytes :=
  match s with
  | [] => Some []
  | [a; b; c; d] =>
      x ← digit_value a; y ← digit_value b;
      if c =? 61 then (if d =? 61 then Some [x * 4 + y / 16] else None) else
      z ← digit_value c;
      if d =? 61 then Some [x * 4 + y / 16; y mod 16 * 16 + z / 4] else
      v ← digit_value d;
      Some [x * 4 + y / 16; y mod 16 * 16 + z / 4; z mod 4 * 64 + v]
  | a :: b :: c :: d :: s' =>
      x ← digit_value a; y ← digit_value b; z ← digit_value c; v ← digit_value d; rest ← base64_decode s';
      Some (x * 4 + y / 16 :: y mod 16 * 16 + z / 4 :: z mod 4 * 64 + v :: rest)
  | _ => None
  end.

Lemma digit_value_digit n : digit_value (base64_digit n) = Some (n mod 64) /\ base64_digit n <> 61.
Proof.
  unfold base64_digit. change 63 with (Z.ones 6). rewrite Z.land_ones by lia. change (2 ^ 6) with 64.
  pose proof (Z.mod_pos_bound n 64 ltac:(lia)) as H. revert H. generalize (n mod 64). intros k Hk.
  assert (forall i : nat, (i < 64)%nat -> digit_value (default 0 (ALPHABET !! i)) = Some (Z.of_nat i) /\ default 0 (ALPHABET !! i) <> 61) as Hi.
  { intros i Hi. do 64 (destruct i as [|i]; [vm_compute; split; [reflexivity|discriminate]|]). lia. }
  specialize (Hi (Z.to_nat k) ltac:(lia)). by rewrite Z2Nat.id in Hi by lia.
Qed.

Lemma lor_bytes2 a b : u8 a -> u8 b -> Z.lor (Z.shiftl a 16) (Z.shiftl b 8) = a * 65536 + b * 256.
Proof.
  unfold uint. intros Ha Hb. rewrite (Z.shiftl_mul_pow2 b) by lia.
  rewrite lor_shiftl_add by (lia || (unfold uint; lia)). done.
Qed.
Lemma lor_bytes3 a b c : u8 a -> u8 b -> u8 c ->
  Z.lor (Z.lor (Z.shiftl a 16) (Z.shiftl b 8)) c = a * 65536 + b * 256 + c.
Proof.
  intros Ha Hb Hc. rewrite lor_bytes2 by done. replace (a * 65536 + b * 256) with (Z.shiftl (a * 256 + b) 8).
  - rewrite lor_shiftl_add by (lia || done). by rewrite Z.shiftl_mul_pow2 by lia.
  - rewrite Z.shiftl_mul_pow2 by lia. lia.
Qed.

(** The digits of a number of 24 bits make up its bytes. *)
Lemma base64_bytes a b c n : u8 a -> u8 b -> u8 c -> n = a * 65536 + b * 256 + c ->
  let x := Z.shiftr n 18 mod 64 in let y := Z.shiftr n 12 mod 64 in let z := Z.shiftr n 6 mod 64 in let v := n mod 64 in
  x * 4 + y / 16 = a /\ y mod 16 * 16 + z / 4 = b /\ z mod 4 * 64 + v = c.
Proof.
  unfold uint. intros Ha Hb Hc ->. cbv zeta. rewrite !Z.shiftr_div_pow2 by lia.
  change (2 ^ 18) with 262144. change (2 ^ 12) with 4096. change (2 ^ 6) with 64.
  Z.div_mod_to_equations. lia.
Qed.

Lemma decode_more a b c d s : s <> [] -> base64_decode (a :: b :: c :: d :: s) =
  (x ← digit_value a; y ← digit_value b; z ← digit_value c; v ← digit_value d; rest ← base64_decode s;
   Some (x * 4 + y / 16 :: y mod 16 * 16 + z / 4 :: z mod 4 * 64 + v :: rest)).
Proof. by destruct s. Qed.

Lemma decode_chunk3 a b c s : u8 a -> u8 b -> u8 c ->
  base64_decode (base64_chunk [a; b; c] ++ s) = (fun r => a :: b :: c :: r) <$> base64_decode s.
Proof.
  intros Ha Hb Hc. cbn [base64_chunk]. rewrite lor_bytes3 by done.
  set (n := a * 65536 + b * 256 + c). destruct (base64_bytes a b c n Ha Hb Hc eq_refl) as (E1 & E2 & E3).
  destruct (digit_value_digit (Z.shiftr n 18)) as [D1 _], (digit_value_digit (Z.shiftr n 12)) as [D2 _],
    (digit_value_digit (Z.shiftr n 6)) as [D3 N3], (digit_value_digit n) as [D4 N4].
  destruct (decide (s = [])) as [->|Hs].
  - cbn [app base64_decode]. rewrite D1, D2. cbn [mbind option_bind]. rewrite (proj2 (Z.eqb_neq _ _) N3), D3. cbn [mbind option_bind].
    rewrite (proj2 (Z.eqb_neq _ _) N4), D4. cbn [mbind option_bind fmap option_fmap option_map]. by rewrite E1, E2, E3.
  - cbn [app]. rewrite decode_more by done. rewrite D1, D2, D3, D4. cbn [mbind option_bind].
    destruct (base64_decode s); [|done]. cbn [mbind option_bind fmap option_fmap option_map]. by rewrite E1, E2, E3.
Qed.

(** The download link decodes to the file: the page's own base64 encoder is
    inverse to the decoding of RFC 4648, for every sequence of bytes. *)
Theorem download_link_decodes (data : bytes) (Hd : bytes_ok data) : base64_decode (base64_encode data) = Some data.
Proof.
  assert (forall n data, (length data <= n)%nat -> bytes_ok data -> base64_decode (base64_encode data) = Some data) as H;
    [|by apply (H (length data))].
  clear data Hd. induction n as [|n IH]; intros data Hn Hd; [by destruct data; [|cbn in Hn; lia]|].
  destruct data as [|a [|b [|c data]]]; [done| | |].
  - inv Hd. cbn [base64_encode base64_chunk].
    assert (Z.shiftl a 16 = a * 65536 + 0 * 256 + 0) as En by (rewrite Z.shiftl_mul_pow2; lia).
    destruct (base64_bytes a 0 0 (Z.shiftl a 16)) as (E1 & _); [done|done|done|done|].
    destruct (digit_value_digit (Z.shiftr (Z.shiftl a 16) 18)) as [D1 _], (digit_value_digit (Z.shiftr (Z.shiftl a 16) 12)) as [D2 _].
    cbn [base64_decode]. rewrite D1, D2. cbn [mbind option_bind Z.eqb Pos.eqb]. by rewrite E1.
  - inv Hd. match goal with H : Forall _ _ |- _ => inv H end. cbn [base64_encode base64_chunk].
    rewrite lor_bytes2 by done. set (n' := a * 65536 + b * 256).
    destruct (base64_bytes a b 0 n') as (E1 & E2 & _); [done|done|done|unfold n'; lia|].
    destruct (digit_value_digit (Z.shiftr n' 18)) as [D1 _], (digit_value_digit (Z.shiftr n' 12)) as [D2 _],
      (digit_value_digit (Z.shiftr n' 6)) as [D3 N3].
    cbn [base64_decode]. rewrite D1, D2. cbn [mbind option_bind]. rewrite (proj2 (Z.eqb_neq _ _) N3), D3. cbn [mbind option_bind Z.eqb Pos.eqb]. by rewrite E1, E2.
  - inv Hd. repeat match goal with H : Forall _ (_ :: _) |- _ => inv H end. cbn [base64_encode].
    rewrite decode_chunk3 by done. rewrite IH; [done|cbn in Hn; lia|done].
Qed.

(** ** The password *)
Section Access.
Context {Ch : Chrono} {Uu : Uuids} {WL : WebLib} {R : Rcgen} {UC : Unicode} {B64 : Base64}.
Implicit Types (env : WebEnv) (req : WebRequest) (w : WebUiState).

(** The request carries the credentials of the administrator, and a password
    is configured. *)
Definition authenticated env req : Prop :=
  exists password enc, we_password env = Some password /\ password <> [] /\
    rq_authorization req = Some (lit "Basic " ++ enc) /\
    b64_decode enc = inl (ADMIN_USERNAME ++ [58] ++ password) /\ utf8_valid (ADMIN_USERNAME ++ [58] ++ password) = true.

Lemma credential_parts_spec c u p : 58 ∉ u -> credential_parts c = (u, p) /\ p <> [] <-> c = u ++ [58] ++ p /\ p <> [].
Proof.
  intros Hu. unfold credential_parts. split; intros [H Hp]; (split; [|done]).
  - destruct (find_str [58] c) as [i|] eqn:Hf; [|injection H; congruence].
    injection H as <- <-. clear Hu Hp. revert i Hf. induction c as [|b c IH]; intros i Hf.
    + done.
    + cbn [find_str] in Hf. unfold starts_with in Hf. case_bool_decide as Hb.
      * injection Hf as <-. cbn in Hb. rewrite take_0 in Hb. injection Hb as ->. done.
      * destruct (find_str [58] c) as [j|]; [|done]. injection Hf as <-. cbn. f_equal. by apply IH.
  - subst c. change ([58] ++ p) with (58 :: p). rewrite find_first by done. rewrite take_app_length. do 2 f_equal.
    rewrite (drop_app_ge u) by lia. by replace (S (length u) - length u)%nat with 1%nat by lia.
Qed.

Lemma constant_time_eq_spec a b : constant_time_eq a b = bool_decide (a = b).
Proof.
  unfold constant_time_eq. destruct (Nat.eqb_spec (length a) (length b)); [done|]. cbn [negb].
  symmetry. apply bool_decide_eq_false_2. congruence.
Qed.

Lemma auth_check_spec env req : auth_check (we_password env) (rq_authorization req) = None <-> authenticated env req.
Proof.
  unfold auth_check, authenticated. split.
  - destruct (we_password env) as [[|p0 p]|]; [done| |done]. destruct (rq_authorization req) as [auth|]; [|done].
    destruct (starts_with (lit "Basic ") auth) eqn:Hs; [|done].
    apply starts_with_inv in Hs as [enc ->]. change 6%nat with (length (lit "Basic ")). rewrite drop_app_length.
    destruct (b64_decode enc) as [d|] eqn:Hd; [|done]. destruct (utf8_valid d) eqn:Hu; [|done]. cbn [negb].
    destruct (credential_parts d) as [u q] eqn:Hc. rewrite constant_time_eq_spec.
    case_bool_decide as Hn; [|done]. case_bool_decide as Hq; [|done]. intros _. subst u q.
    assert (p0 :: p <> []) as Hne by done.
    destruct (proj1 (credential_parts_spec d ADMIN_USERNAME (p0 :: p) ltac:(by_compute)) (conj Hc Hne)) as [-> _].
    exists (p0 :: p), enc. by rewrite Hd.
  - intros (password & enc & Hp & Hne & Ha & Hd & Hu). rewrite Hp, Ha. destruct password as [|p0 p]; [done|].
    rewrite starts_with_app. change 6%nat with (length (lit "Basic ")). rewrite drop_app_length, Hd, Hu. cbn [negb].
    destruct (proj2 (credential_parts_spec _ ADMIN_USERNAME (p0 :: p) ltac:(by_compute)) (conj eq_refl Hne)) as [-> _].
    rewrite constant_time_eq_spec, !bool_decide_eq_true_2 by done. done.
Qed.

(** C27 Without the password there is no access: a request that does not carry
    the user name and the configured password is answered with 401, or, when no
    route matches, with the page for unknown paths; it changes nothing and runs
    no handler.  With them, the handler of the route answers. *)
Theorem admin_pages_need_password env req w :
  (~ authenticated env req ->
     exists response, web_request env req w = (w, Ok response) /\
       (wr_status response = 401 /\ is_some (route env req) = true \/ response = not_found /\ route env req = None)) /\
  (authenticated env req -> forall handler, route env req = Some handler ->
     web_request env req w = csp_middleware handler w).
Proof.
  unfold web_request, csrf_middleware, require_auth. split.
  - intros Ha. rewrite <- auth_check_spec in Ha.
    destruct (auth_check (we_password env) (rq_authorization req)) as [body|]; [|done].
    destruct (route env req); eexists; (split; [reflexivity|]); [by left|by right].
  - intros Ha handler ->. by rewrite (proj2 (auth_check_spec env req) Ha).
Qed.

(** ** Forms need a recent token *)

(** The token of a form, as the handler of the route reads it. *)
Definition submits req (token : str) : Prop :=
  (exists f, form_create (rq_body req) = inl f /\ cf_csrf_token f = token) \/
  (exists f, form_quick (rq_body req) = inl f /\ qf_csrf_token f = token) \/
  (exists f, form_token (rq_body req) = inl f /\ tf_csrf_token f = token).

(** What a handler does to the state: tokens appear only as the one drawn in
    this request, and the session table changes only when the form has the
    token that is stored and has not expired. *)
Definition tokens_from env (s s' : CsrfStore) : Prop :=
  map_Forall (fun k v => s !! k = Some v \/ v = (we_token env, we_now env + nanos 3600)) s'.
Definition guarded env req (h : M WebUiState Empty_set WebResponse) : Prop := forall w,
  tokens_from env (ws_csrf w) (ws_csrf (fst (h w))) /\
  (ws_session_manager (fst (h w)) <> ws_session_manager w ->
   exists token expiry, ws_csrf w !! get_session_id_from_state = Some (token, expiry) /\ submits req token /\
     we_now env < expiry).

Lemma tokens_refl env s : tokens_from env s s.
Proof. intros k v Hk. by left. Qed.

Lemma cleanup_from env t s : tokens_from env s (CsrfStore_cleanup_expired t s).
Proof. intros k v [Hk _]%map_lookup_filter_Some. by left. Qed.

Lemma guarded_ret env req r : guarded env req (mret r).
Proof. intros w. split; [apply tokens_refl|]. by intros []. Qed.
Lemma guarded_lift env req r : guarded env req (lift r).
Proof. intros w. split; [apply tokens_refl|]. by intros []. Qed.

(** A page that draws a token. *)
Lemma guarded_token env req (k : str -> WebResponse) :
  guarded env req (token ← new_token env; mret (k token)).
Proof.
  intros w. cbn [mbind M_bind new_token CsrfStore_generate_token]. unfold new_token, mbind, M_bind, mret, M_ret. cbn. split.
  - intros x v [Hx _]%map_lookup_filter_Some. apply lookup_insert_Some in Hx as [[_ <-]|[_ Hx]]; [by right|by left].
  - by intros [].
Qed.

(** A form whose token is checked before anything else. *)
Lemma guarded_form env req token (refused : WebResponse) (h : M WebUiState Empty_set WebResponse) :
  submits req token -> (forall w, ws_csrf (fst (h w)) = ws_csrf w) ->
  guarded env req (ok ← token_valid env token; if negb ok then mret refused else h).
Proof.
  intros Hs Hh w. unfold mbind, M_bind, token_valid, CsrfStore_validate_token. cbn [fst snd].
  destruct (CsrfStore_cleanup_expired (we_now env) (ws_csrf w) !! get_session_id_from_state) as [[stored e]|] eqn:He.
  - case_bool_decide as Ht; cbn [negb].
    + subst stored. split; [rewrite Hh; apply cleanup_from|]. intros _. apply map_lookup_filter_Some in He as [He Hlt].
      exists token, e. done.
    + split; [apply cleanup_from|]. by intros [].
  - split; [apply cleanup_from|]. by intros [].
Qed.

Lemma guarded_with_form {F} env req (decode : bytes -> F + WebResponse) k :
  (forall f, decode (rq_body req) = inl f -> guarded env req (k f)) -> guarded env req (with_form decode req k).
Proof. intros H. unfold with_form. destruct (decode (rq_body req)); [by apply H|apply guarded_ret]. Qed.
Lemma guarded_segment env req caps k : (forall id, guarded env req (k id)) -> guarded env req (with_segment caps k).
Proof. intros H. unfold with_segment. destruct (path_segment caps); [apply H|apply guarded_ret]. Qed.
Lemma guarded_get env req (k : WebUiState -> M WebUiState Empty_set WebResponse) :
  (forall w, guarded env req (k w)) -> guarded env req (w ← get; k w).
Proof. intros H w. apply (H w w). Qed.

Lemma generate_keeps env (name : str) (bad : WebResponse) k w :
  ws_csrf (fst ((if bool_decide (name = []) || (64 <? length name)%nat then mret bad
                 else (w ← get; lift (k w)) : M WebUiState Empty_set WebResponse) w)) = ws_csrf w.
Proof. by case_match. Qed.
Lemma download_guarded env req (name : str) (bad : WebResponse) k :
  guarded env req (if bool_decide (name = []) || (64 <? length name)%nat then mret bad else w ← get; lift (k w)).
Proof. case_match; [apply guarded_ret|]. apply guarded_get. intros w. apply guarded_lift. Qed.

Lemma create_client_guarded env req f : form_create (rq_body req) = inl f -> guarded env req (create_client env f).
Proof. intros Hf. apply guarded_form; [left; eauto|]. intros w. by apply generate_keeps. Qed.
Lemma quick_generate_guarded env req f : form_quick (rq_body req) = inl f ->
  guarded env req (quick_generate_download env f).
Proof. intros Hf. apply guarded_form; [right; left; eauto|]. intros w. by apply generate_keeps. Qed.
Lemma disconnect_all_guarded env req f : form_token (rq_body req) = inl f ->
  guarded env req (disconnect_all_sessions env f).
Proof. intros Hf. by apply guarded_form; [right; right; eauto|]. Qed.
Lemma disconnect_guarded env req id f : form_token (rq_body req) = inl f -> guarded env req (disconnect_session env id f).
Proof.
  intros Hf. apply guarded_form; [right; right; eauto|]. intros w. cbv zeta. case_match; [done|]. by destruct (uuid_parse _).
Qed.
Lemma revoke_guarded env req id f : form_token (rq_body req) = inl f -> guarded env req (revoke_client env id f).
Proof. intros Hf. apply guarded_form; [right; right; eauto|]. intros w. by case_match. Qed.

Lemma routes_guarded env req caps : Forall (fun r : WebRoute => guarded env req (r.2 env req caps)) admin_routes.
Proof.
  unfold admin_routes. repeat apply Forall_cons_2; [..|apply Forall_nil_2]; cbn [snd];
  first [ apply guarded_token
        | apply guarded_get; intros w0; first [apply guarded_token | apply guarded_ret]
        | apply guarded_with_form; auto using create_client_guarded, quick_generate_guarded, disconnect_all_guarded
        | apply guarded_segment; intros id';
          first [ apply download_guarded | apply guarded_with_form; auto using revoke_guarded, disconnect_guarded ] ].
Qed.

Lemma route_guarded env req h : route env req = Some h -> guarded env req h.
Proof.
  unfold route. destruct (router_pick patterns (rq_path req)) as [[pat caps]|]; [|done].
  destruct (List.find _ admin_routes) as [r|] eqn:Hf; intros [= <-]; [|apply guarded_ret].
  apply find_some in Hf as [Hin _]. apply list_elem_of_In in Hin.
  by apply (proj1 (Forall_forall _ _) (routes_guarded env req caps)).
Qed.

(** A run of requests, each with its environment. *)
Definition web_after w (rs : list (WebEnv * WebRequest)) : WebUiState := foldl (fun w r => fst (web_request r.1 r.2 w)) w rs.
(** Every stored token was drawn in an authenticated request of the run. *)
Definition tokens_issued (past : list (WebEnv * WebRequest)) w : Prop :=
  map_Forall (fun _ v => exists e q, (e, q) ∈ past /\ authenticated e q /\ v = (we_token e, we_now e + nanos 3600)) (ws_csrf w).

Lemma web_request_cases env req w :
  fst (web_request env req w) = w \/
  authenticated env req /\ exists h, guarded env req h /\ fst (web_request env req w) = fst (h w).
Proof.
  unfold web_request, csrf_middleware, require_auth, csp_middleware. destruct (route env req) as [h|] eqn:Hr; [|by left].
  destruct (auth_check (we_password env) (rq_authorization req)) as [body|] eqn:Ha; [by left|].
  right. split; [by apply auth_check_spec|]. exists h. split; [by eapply route_guarded|].
  unfold mbind, M_bind. destruct (h w) as [w' [r|e|]]; done.
Qed.

Lemma after_tokens_issued w rs : ws_csrf w = ∅ -> tokens_issued rs (web_after w rs).
Proof.
  intros Hw. induction rs as [|[env req] rs IH] using rev_ind.
  { unfold tokens_issued. cbn. rewrite Hw. apply map_Forall_empty. }
  unfold web_after. rewrite foldl_app. cbn [foldl fst snd]. fold (web_after w rs).
  assert (tokens_issued (rs ++ [(env, req)]) (web_after w rs)) as IH'.
  { intros k v Hk. destruct (IH k v Hk) as (e & q & Hin & ?). exists e, q. set_solver. }
  destruct (web_request_cases env req (web_after w rs)) as [->|(Ha & h & Hh & ->)]; [done|].
  destruct (Hh (web_after w rs)) as [Ht _]. intros k v Hk. destruct (Ht k v Hk) as [Hk'| ->]; [exact (IH' k v Hk')|].
  exists env, req. set_solver.
Qed.

(** Sessions are dropped only on purpose.  Over every sequence of requests, a
    request that changes the session table carries the administrator's
    password and a token that was drawn for a page less than an hour before,
    in a request that carried the password as well. *)
Theorem sessions_dropped_only_with_token w past env req (w' := web_after w past)
    (Hw : ws_csrf w = ∅)
    (Hc : ws_session_manager (fst (web_request env req w')) <> ws_session_manager w') :
  authenticated env req /\
  exists e q, (e, q) ∈ past /\ authenticated e q /\ submits req (we_token e) /\ we_now env < we_now e + nanos 3600.
Proof.
  destruct (web_request_cases env req w') as [E|(Ha & h & Hh & E)]; rewrite E in Hc; [done|]. split; [done|].
  destruct (proj2 (Hh w') Hc) as (token & expiry & Hk & Hs & Hlt).
  destruct (after_tokens_issued w past Hw _ _ Hk) as (e & q & Hin & Hq & [= -> ->]). by exists e, q.
Qed.

(** ** The router refuses the patterns *)

(** The version of the router that is locked (0.8) refuses a segment that
    starts with a colon, the notation for captures of earlier versions. *)
Class RouterLaws : Prop := {
  router_refuses_colon p : existsb (starts_with [58]) (split_on 47 p) = true -> router_accepts p = false;
}.

(** The administration pages do not start: with a password configured,
    building the router panics on the pattern [/admin/clients/:id/download],
    whatever the configuration; without one, the command stops with an error.
    The service is never bound. *)
Lemma web_ui_never_starts {RL : RouterLaws} one_day password config :
  run_web_ui one_day password config =
  match password with
  | Some _ => Panic
  | None => Err (lit "Admin password required. Set COREVPN_ADMIN_PASSWORD environment variable.")
  end.
Proof.
  unfold run_web_ui, create_router. destruct password as [p|]; [|done].
  replace (forallb router_accepts patterns) with false; [done|]. symmetry.
  apply not_true_iff_false. rewrite forallb_forall. intros H.
  specialize (H (lit "/admin/clients/:id/download") ltac:(cbn; tauto)).
  by rewrite router_refuses_colon in H by by_compute.
Qed.
End Access.

(** ** The claims at concrete inputs *)
Section WebWitnesses.
#[local] Existing Instances toy_chrono toy_uuids toy_rcgen ascii_unicode.

(** Credentials and forms as plain text: the body of a form is its token. *)
Definition plain_text : Base64 := {| b64url_encode s := s; b64url_decode := inl; b64_encode s := s; b64_decode := inl |}.
Definition plain_web (colons : bool) : @WebLib toy_chrono toy_uuids := {|
  form_create s := inl (mkCreateForm (lit "alice") (lit "alice@shop.example") 365 s);
  form_quick s := inl (mkQuickForm (lit "alice") false s);
  form_token s := inl (mkTokenForm s);
  path_segment caps := match caps with [id] => inl id | _ => inr (redirect_to "/") end;
  router_accepts p := colons || negb (existsb (starts_with [58]) (split_on 47 p));
  router_pick ps path := if bool_decide (path ∈ ps) then Some (path, []) else None;
  uuid_parse _ := Some 1%N;
  dt_format_minutes t := fmt_dec t;
  header_value_ok _ := true;
  method_not_allowed := redirect_to "/";
|}.
#[local] Existing Instance plain_text.

Definition shop_password : str := lit "rosebud".
Definition page_at (t : Z) (token : string) : WebEnv (R := toy_rcgen) (Ch := toy_chrono) (Uu := toy_uuids) :=
  mkWebEnv (Some shop_password) t t (lit token) 0 (fun _ => 0) (files_of ∅) 0 0 (inr []).
Definition admin_request (method : Method) (path body : string) : WebRequest :=
  mkWebRequest method (lit path) (Some (lit "Basic admin:rosebud")) (lit body).
(** One session in the table, and the pages of the administrator. *)
Definition shop_table : SessionManager :=
  fst (SessionManager_update_session (Session_set_state Active (toy_session 1%N 60)) full_table).
Definition shop_pages : WebUiState := mkWebState shop_config shop_table ∅.
Definition session_page := (page_at 10 "t1", admin_request GET "/admin/sessions" "none").
Definition drop_all := admin_request POST "/admin/sessions/disconnect-all" "t1".

Lemma download_link_decodes_witness : base64_decode (base64_encode (lit "client")) = Some (lit "client").
Proof. apply download_link_decodes. apply (bool_decide_unpack _). vm_compute. exact I. Defined.

Lemma plain_router_laws : RouterLaws (WL := plain_web false).
Proof. split. intros p H. cbn. by rewrite H. Qed.

Lemma web_ui_never_starts_witness :
  run_web_ui (WL := plain_web false) (86400 : @TimeDelta toy_chrono) (Some shop_password) shop_config = Panic.
Proof.
  apply (web_ui_never_starts (WL := plain_web false) (RL := plain_router_laws)
           (86400 : @TimeDelta toy_chrono) (Some shop_password) shop_config).
Defined.

Lemma sessions_dropped_only_with_token_witness :
  ws_session_manager (fst (web_request (WL := plain_web true) (page_at 20 "t2") drop_all
    (web_after (WL := plain_web true) shop_pages [session_page]))) <> shop_table /\
  exists e q, (e, q) ∈ [session_page] /\ submits (WL := plain_web true) drop_all (we_token e).
Proof.
  destruct (sessions_dropped_only_with_token (WL := plain_web true) shop_pages [session_page] (page_at 20 "t2") drop_all)
    as (_ & e & q & Hin & _ & Hs & _).
  - reflexivity.
  - intros E. apply (f_equal SessionManager_session_count) in E. vm_compute in E. discriminate E.
  - split; [|by exists e, q].
    intros E. apply (f_equal SessionManager_session_count) in E. vm_compute in E. discriminate E.
Defined.
End WebWitnesses.
