(* ===== verification/ClientProofs.v ===== *)
(** * Theorems on the client

    The client does not panic on anything a server or an attacker sends; it
    derives the keys the server derives.  The definitions are in Client.v. *)
From S2P Require Import Prelude Errors Text Network CoreSession Opcode Packet Replay Float Reliable Cipher HmacAuth Kdf DataChannel Session SessionProofs SessionSend Runs Control Addr ServerConfig ConnLog TlsDriver Cert Server ServerProofs Ovpn Client.
Local Open Scope Z_scope.

(** ** The readers *)
Lemma skip_strings_ok n data offset : (offset <= length data)%nat ->
  exists o, skip_strings n data offset = Ok o /\ (offset <= o <= length data)%nat.
Proof.
  revert offset. induction n as [|n IH]; intros offset Ho; cbn [skip_strings].
  { exists offset. split; [done|lia]. }
  destruct (Nat.ltb_spec (length data) (offset + 2)).
  { exists offset. split; [done|lia]. }
  destruct (lookup_lt_is_Some_2 data offset) as [hi Hhi]; [lia|].
  destruct (lookup_lt_is_Some_2 data (offset + 1)) as [lo Hlo]; [lia|].
  unfold idx. rewrite Hhi, Hlo. rsimp.
  destruct (Nat.ltb_spec (length data) (offset + 2 + Z.to_nat (from_be [hi; lo]))).
  { exists offset. split; [done|lia]. }
  destruct (IH (offset + 2 + Z.to_nat (from_be [hi; lo]))%nat) as (o & -> & Hb); [lia|].
  exists o. split; [done|lia].
Qed.

Lemma try_parse_key_method_no_panic x : no_panic (try_parse_key_method x).
Proof.
  unfold try_parse_key_method. destruct (ex_server_km x); [done|].
  destruct (Nat.ltb_spec (length (ex_plaintext x)) 71) as [|Hl]; [done|].
  pose proof (KeyMethodV2_parse_from_server_no_panic (ex_plaintext x)) as Hp.
  destruct (KeyMethodV2_parse_from_server (ex_plaintext x)); [|done..].
  unfold calculate_km_size. rewrite (proj2 (Nat.ltb_ge _ _)) by lia.
  destruct (skip_strings_ok 3 (ex_plaintext x) 69) as (o & -> & Ho); [lia|]. rsimp.
  rewrite slice_from_ok by lia. done.
Qed.

Lemma try_parse_no_panic x : no_panic (try_parse_server_messages x).
Proof.
  unfold try_parse_server_messages. pose proof (try_parse_key_method_no_panic x).
  destruct (try_parse_key_method x) as [y| |]; [|done..]. rsimp.
  destruct (ex_server_km y); [|done]. destruct (ex_plaintext y) as [|b bs]; [done|].
  destruct (drop_while _ (b :: bs)); [done|]. unfold handle_server_message. cbv zeta.
  repeat case_match; done.
Qed.

Section ClientProofs.
Context {AEAD : Aead} {ALaws : AeadLaws AEAD} {HMAC : Hmac} {HLaws : HmacLaws HMAC} {UC : Unicode}
  {PKI : RustlsPki} {TlsConfig TlsConn : Type} {RL : Rustls TlsConfig TlsConn} {RLaws : RustlsLaws RL}.
Abbreviation CEnv := (ClientEnv (TlsConfig := TlsConfig)).
Abbreviation Tun := (Tunnel (TlsConn := TlsConn)).
Implicit Types (env : CEnv).

(** ** The invariant of the link *)
Definition arrival_ok (a : Arrival) : Prop := duration_ok (ar_now a) /\ bytes_ok (ar_data a).
Record link_inv (l : Link) : Prop := {
  li_session : sess_inv (lk_session l);
  li_now : duration_ok (lk_now l);
  li_inbox : Forall arrival_ok (lk_inbox l);
}.

Lemma safe_on_session {A} text (m : Z -> Z -> M ProtocolSession ProtocolError A) :
  (forall now time, duration_ok now -> safe sess_inv (m now time)) -> safe link_inv (on_session text m).
Proof.
  intros Hm l [Hs Hn Hi]. unfold on_session, zoom.
  destruct (Hm (lk_now l) (lk_time l) Hn _ Hs) as [Hs' Hr].
  destruct (m (lk_now l) (lk_time l) (lk_session l)) as [s r]. cbn [fst snd] in *.
  split; [by constructor|]. by destruct r.
Qed.

Lemma safe_client_send env data : safe link_inv (client_send env data).
Proof. intros l []. unfold client_send. by destruct (ce_send_ok env data). Qed.
Lemma safe_client_send_all env ps : safe link_inv (client_send_all env ps).
Proof.
  induction ps as [|p ps IH]; [apply safe_ret|]. apply safe_bind; [apply safe_client_send|by intros _].
Qed.

(** What is read is bytes. *)
Lemma recv_ok text l : link_inv l ->
  link_inv (fst (client_recv text l)) /\ no_panic (snd (client_recv text l)) /\
  forall d, snd (client_recv text l) = Ok d -> bytes_ok d.
Proof.
  intros [Hs Hn Hi]. unfold client_recv. destruct (lk_inbox l) as [|a inbox] eqn:E.
  { split_and!; [|done..]. constructor; [done..|cbn; by rewrite E]. }
  apply Forall_cons in Hi as [[Ha Hb] Hi]. cbn. split_and!; [by constructor|done|].
  intros d [= <-]. by apply Forall_take.
Qed.

Lemma safe_recv_bind {A} text (k : bytes -> M Link ClientError A) :
  (forall d, bytes_ok d -> safe link_inv (k d)) -> safe link_inv (client_recv text ≫= k).
Proof.
  intros Hk l Hl. destruct (recv_ok text l Hl) as (H1 & H2 & H3). unfold mbind, M_bind.
  destruct (client_recv text l) as [l' [d| |]]; [|done..]. by apply Hk; [apply H3|].
Qed.

Lemma safe_client_process text d : bytes_ok d -> safe link_inv (client_process text d).
Proof. intros Hd. apply safe_on_session. intros now time Hn. by apply safe_process_packet. Qed.

Lemma safe_client_ack env : safe link_inv (client_ack env).
Proof.
  apply safe_bind; [apply safe_on_session; intros; apply safe_create_ack|intros [a|]];
    [apply safe_client_send|apply safe_ret].
Qed.
Lemma safe_ack_if_due env : safe link_inv (client_ack_if_due env).
Proof.
  apply safe_bind; [apply safe_get|intros l]. destruct (ProtocolSession_should_send_ack _ _);
    [apply safe_client_ack|apply safe_ret].
Qed.
Lemma safe_client_retransmit env : safe link_inv (client_retransmit env).
Proof.
  apply safe_bind; [apply safe_on_session; intros; apply safe_get_retransmits|intros ps].
  apply safe_client_send_all.
Qed.

Lemma safe_receive_until fuel cond : safe link_inv (receive_until fuel cond).
Proof.
  induction fuel as [|f IH]; cbn [receive_until]; [apply safe_fail|].
  apply safe_recv_bind. intros d Hd. apply safe_bind; [by apply safe_client_process|intros r].
  destruct (cond r); [apply safe_ret|exact IH].
Qed.

Lemma safe_client_hard_reset env : safe link_inv (client_hard_reset env).
Proof.
  apply safe_bind; [apply safe_on_session; intros; by apply safe_hard_reset_client|intros d].
  apply safe_bind; [apply safe_client_send|intros _]. apply safe_bind; [apply safe_get|intros l].
  apply safe_bind; [apply safe_receive_until|intros _]. apply safe_client_ack.
Qed.

(** ** With the TLS connection *)
Definition tunnel_inv (t : Tun) : Prop := link_inv (tu_link t).

Lemma safe_on_link {A} (m : M Link ClientError A) : safe link_inv m -> safe tunnel_inv (on_link m).
Proof.
  intros Hm t Ht. destruct (Hm _ Ht) as [H1 H2]. unfold on_link, zoom.
  destruct (m (tu_link t)) as [l r]. split; [done|]. by destruct r.
Qed.
Lemma safe_on_tls {A} text (m : M (TlsHandler TlsConn) ProtocolError A) :
  (forall h, no_panic (snd (m h))) -> safe tunnel_inv (on_client_tls text m).
Proof.
  intros Hm t Ht. unfold on_client_tls, zoom. specialize (Hm (tu_tls t)).
  destruct (m (tu_tls t)) as [h r]. split; [done|]. by destruct r.
Qed.

Lemma safe_get_outgoing text : safe tunnel_inv (on_client_tls text TlsClientHandler_get_outgoing).
Proof. apply safe_on_tls. intros h. apply get_outgoing_spec. Qed.
Lemma safe_tls_records text records :
  safe tunnel_inv (on_client_tls text (TlsClientHandler_process_tls_records records)).
Proof. apply safe_on_tls. intros h. by destruct (process_tls_records_spec records h) as (n & _ & _ & Hn). Qed.

Lemma safe_send_tls env out : safe tunnel_inv (send_tls env out).
Proof.
  apply safe_bind; [apply safe_on_link, safe_on_session; intros; by apply safe_create_packets|intros ps].
  apply safe_on_link, safe_client_send_all.
Qed.

Lemma safe_flush_each fuel env : safe tunnel_inv (flush_each fuel env).
Proof.
  induction fuel as [|f IH]; cbn [flush_each]; [apply safe_ret|].
  apply safe_bind; [apply safe_get|intros t]. destruct (TlsClientHandler_wants_write _); [|apply safe_ret].
  apply safe_bind; [apply safe_get_outgoing|intros [out|]]; [|apply safe_ret].
  apply safe_bind; [apply safe_send_tls|by intros _].
Qed.
Lemma safe_collect_tls fuel : safe tunnel_inv (collect_tls fuel).
Proof.
  induction fuel as [|f IH]; cbn [collect_tls]; [apply safe_ret|].
  apply safe_bind; [apply safe_get|intros t]. destruct (TlsClientHandler_wants_write _); [|apply safe_ret].
  apply safe_bind; [apply safe_get_outgoing|intros [out|]]; [|apply safe_ret].
  apply safe_bind; [exact IH|intros r; apply safe_ret].
Qed.
Lemma safe_flush_socket env : safe tunnel_inv (flush_tls_to_socket env).
Proof.
  apply safe_bind; [apply safe_get|intros t]. apply safe_bind; [apply safe_collect_tls|intros [|b d]];
    [apply safe_ret|apply safe_send_tls].
Qed.

Lemma safe_client_hello env : safe tunnel_inv (client_hello env).
Proof.
  apply safe_bind; [apply safe_get_outgoing|intros [out|]]; [apply safe_send_tls|apply safe_fail].
Qed.

Lemma safe_client_set_state st : safe tunnel_inv (client_set_state st).
Proof.
  apply safe_on_link, safe_modify. intros l [Hs Hn Hi]. constructor; [|done..].
  apply inv_activity, inv_state, Hs.
Qed.

Lemma safe_handshake_records km env records : safe tunnel_inv (handshake_records km env records).
Proof.
  apply safe_bind; [apply safe_tls_records|intros _].
  apply safe_bind; [apply safe_on_link, safe_ack_if_due|intros _]. apply safe_bind; [apply safe_get|intros t].
  destruct (TlsClientHandler_is_handshake_complete _).
  - apply safe_bind; [apply safe_client_set_state|intros _].
    apply safe_bind; [apply safe_on_tls; intros h; apply write_plaintext_no_panic|intros _].
    apply safe_bind; [apply safe_flush_socket|intros _; apply safe_ret].
  - apply safe_bind; [apply safe_flush_each|intros _; apply safe_ret].
Qed.

(** A datagram is read, and what follows. *)
Lemma safe_recv_link_bind {A} text (k : bytes -> M Tun ClientError A) :
  (forall d, bytes_ok d -> safe tunnel_inv (k d)) -> safe tunnel_inv (on_link (client_recv text) ≫= k).
Proof.
  intros Hk t Ht. destruct (recv_ok text _ Ht) as (H1 & H2 & H3). unfold mbind, M_bind, on_link, zoom.
  destruct (client_recv text (tu_link t)) as [l [d| |]]; cbn [map_err]; [|done..].
  by apply Hk; [apply H3|].
Qed.

Lemma safe_handshake_loop left km env : safe tunnel_inv (handshake_loop left km env).
Proof.
  induction left as [|n IH]; cbn [handshake_loop]; [apply safe_fail|].
  apply safe_recv_link_bind. intros d Hd.
  apply safe_bind; [by apply safe_on_link, safe_client_process|intros r].
  apply safe_bind; [destruct r; try apply safe_ret; apply safe_handshake_records|intros c].
  apply safe_bind; [apply safe_on_link, safe_client_retransmit|intros _].
  destruct c; [apply safe_ret|exact IH].
Qed.

(** ** The key exchange *)
Definition exchanging_inv (x : Exchanging (TlsConn := TlsConn)) : Prop := tunnel_inv (xg_tunnel x).

Lemma safe_on_tunnel {A} (m : M Tun ClientError A) : safe tunnel_inv m -> safe exchanging_inv (on_tunnel m).
Proof.
  intros Hm t Ht. destruct (Hm _ Ht) as [H1 H2]. unfold on_tunnel, zoom.
  destruct (m (xg_tunnel t)) as [l r]. split; [done|]. by destruct r.
Qed.

Lemma safe_read_messages d : safe exchanging_inv (read_messages d).
Proof.
  intros x Hx. unfold read_messages. cbv zeta.
  pose proof (try_parse_no_panic (mkExchange (ex_plaintext (xg_exchange x) ++ d) (ex_server_km (xg_exchange x))
    (ex_push_reply (xg_exchange x)) (ex_urls (xg_exchange x)))) as Hp.
  by destruct (try_parse_server_messages _).
Qed.

Lemma safe_exchange_packet env d : bytes_ok d -> safe tunnel_inv (exchange_packet env d).
Proof.
  intros Hd. apply safe_bind; [by apply safe_on_link, safe_client_process|intros r].
  apply safe_bind; [|intros _; apply safe_on_link, safe_client_retransmit].
  destruct r; try apply safe_ret; [apply safe_on_link, safe_ack_if_due|].
  apply safe_bind; [apply safe_tls_records|intros _].
  apply safe_bind; [apply safe_on_link, safe_ack_if_due|intros _]. apply safe_flush_socket.
Qed.

Lemma safe_exchange_loop left env : safe exchanging_inv (exchange_loop left env).
Proof.
  induction left as [|n IH]; cbn [exchange_loop];
    (apply safe_bind; [apply safe_get|intros x]; destruct (ex_push_reply _); [apply safe_ret|]); [apply safe_fail|].
  apply safe_bind; [apply safe_on_tunnel, safe_on_tls; intros h; apply read_plaintext_no_panic|intros [|b p]].
  - intros s Hs. destruct (recv_ok (lit "Timeout waiting for server key exchange (if OAuth, did you complete auth?)")
      _ Hs) as (H1 & H2 & H3).
    unfold mbind, M_bind, on_tunnel, on_link, zoom.
    destruct (client_recv _ (tu_link (xg_tunnel s))) as [l [d| |]]; cbn [map_err]; [|done..].
    specialize (H3 d eq_refl). cbn [fst] in H1.
    apply (safe_bind exchanging_inv (on_tunnel (exchange_packet env d)) (fun _ => exchange_loop n env));
      [by apply safe_on_tunnel, safe_exchange_packet|by intros _|exact H1].
  - apply safe_bind; [apply safe_read_messages|by intros _].
Qed.

(** ** The data keys *)
Lemma client_derive_ok env km csid ssid : exists k, client_derive_keys env km csid ssid = Ok k.
Proof.
  unfold client_derive_keys. cbv zeta.
  destruct (prf_ok (ce_pre_master env) (lit "OpenVPN master secret") (ce_random1 env ++ k2_random1 km) 48)
    as (ms & -> & _). cbn [map_err]. rsimp.
  destruct (prf_ok ms (lit "OpenVPN key expansion") (ce_random2 env ++ k2_random2 km ++ csid ++ ssid) 256)
    as (block & -> & Hl). cbn [map_err]. rsimp.
  destruct (key2_block_ok block) as (k & -> & _); [lia|]. by exists k.
Qed.

Lemma safe_client_install env km : safe link_inv (client_install_keys env km).
Proof.
  apply safe_bind; [apply safe_get|intros l]. cbv zeta.
  apply safe_bind; [apply safe_lift; by destruct (ps_remote_session_id _)|intros sid].
  apply safe_bind; [apply safe_lift|intros k].
  - by destruct (client_derive_ok env km (ps_local_session_id (lk_session l)) sid) as [k ->].
  - apply safe_on_session. intros. apply safe_install_keys.
Qed.

(** ** The whole connection *)
Lemma run_M_safe {S E A} (I : S -> Prop) (m : M S E A) s : safe I m -> I s ->
  no_panic (run_M m s) /\ forall s' a, run_M m s = Ok (s', a) -> I s' /\ m s = (s', Ok a).
Proof.
  intros Hm Hs. destruct (Hm s Hs) as [H1 H2]. unfold run_M.
  destruct (m s) as [s' [a| |]]; cbn in *; (split; [done|]); intros ? ? [= <- <-]. done.
Qed.

(** The loop ends well only with a push reply. *)
Lemma exchange_loop_reply left env x x' : exchange_loop left env x = (x', Ok tt) ->
  is_Some (ex_push_reply (xg_exchange x')).
Proof.
  revert x. induction left as [|n IH]; intros x; cbn [exchange_loop]; unfold get;
    rewrite (bind_step _ _ x x x) by done;
    (destruct (ex_push_reply (xg_exchange x)) eqn:Hp; [intros [= <-]; by rewrite Hp|]); [done|].
  intros (x1 & plain & _ & H)%M_bind_Ok. destruct plain as [|b p].
  - apply M_bind_Ok in H as (x2 & d & _ & H). apply M_bind_Ok in H as (x3 & u & _ & H). by eapply IH.
  - apply M_bind_Ok in H as (x2 & u & _ & H). by eapply IH.
Qed.

Lemma parsed_key_length content config key : OvpnConfig_parse content = Ok config ->
  ov_tls_auth_key config = Some key -> length key = 256%nat.
Proof.
  unfold OvpnConfig_parse. intros H Hk.
  apply bind_Ok in H as (ca & _ & H). apply bind_Ok in H as (cert & _ & H).
  apply bind_Ok in H as (k & _ & H). apply bind_Ok in H as (raw & _ & H).
  apply bind_Ok in H as (ta & Hta & H). cbv zeta in H. destruct (decide _); [done|].
  apply bind_Ok in H as (remote & _ & [= <-]). cbn in Hk. subst ta.
  destruct raw as [raw|]; [|done]. unfold cli_parse_static_key in Hta.
  destruct (bytes ← _; _) as [bs| |] eqn:Hb; [|done..]. injection Hta as ->.
  apply bind_Ok in Hb as (bs & _ & Hb). destruct (Nat.eqb_spec (length bs) 256) as [Hl|]; [|done].
  cbn in Hb. congruence.
Qed.

Lemma client_session_ok config env now : length (ce_session_id env) = 8%nat ->
  (forall key, ov_tls_auth_key config = Some key -> length key = 256%nat) ->
  no_panic (client_session config env now) /\
  forall s, client_session config env now = Ok s -> sess_inv s.
Proof.
  intros Hid Hk. unfold client_session.
  assert (no_panic (client_cipher_suite config)) as Hs
    by (unfold client_cipher_suite; repeat case_match; done).
  destruct (client_cipher_suite config) as [suite| |]; [|done..]. rsimp. clear Hs.
  assert (sess_inv (ProtocolSession_new_client (ce_session_id env) now suite)) as Hi
    by (apply inv_state, sess_inv_new, Hid).
  destruct (ov_tls_auth_key config) as [key|]; [|split; [done|by intros s [= <-]]].
  specialize (Hk key eq_refl). rewrite slice_ok by lia. rsimp.
  pose proof (from_ta_key_no_panic (take (256 - 0) (drop 0 key)) false (ov_key_direction config)) as Hn.
  destruct (HmacAuth_from_ta_key _ _ _) as [h| |]; cbn [map_err];
    [|split; done|destruct Hn; [rewrite length_take, length_drop; lia|done]].
  rsimp. split; [done|]. intros s [= <-]. by apply inv_auth.
Qed.

Record client_ok (config : OvpnConfig) env (now : Z) (inbox : list Arrival) : Prop := {
  ck_session_id : length (ce_session_id env) = 8%nat;
  ck_now : duration_ok now;
  ck_inbox : Forall arrival_ok inbox;
  ck_key : forall key, ov_tls_auth_key config = Some key -> length key = 256%nat;
}.

Lemma setup_tls_no_panic config env : no_panic (setup_tls_client config env).
Proof.
  assert (forall items, no_panic (collect_certs items)) as Hc.
  { induction items as [|[c|e] items IH]; [done| |done]. cbn [collect_certs].
    by destruct (collect_certs items). }
  assert (forall items, no_panic (first_key items)) as Hk.
  { induction items as [|[[]|e] items IH]; done. }
  assert (forall certs store, no_panic (add_roots certs store)) as Ha.
  { induction certs as [|c certs IH]; intros store; [done|]. cbn [add_roots].
    destruct (anchor_of_cert c); [apply IH|done]. }
  unfold setup_tls_client, load_certs_from_pem, load_key_from_pem, create_client_config.
  repeat (apply bind_no_panic; [|intros ? _]).
  - pose proof (Hc (pem_certs (ov_ca_pem config))). by destruct (collect_certs _).
  - pose proof (Hc (pem_certs (ov_cert_pem config))). by destruct (collect_certs _).
  - pose proof (Hk (pem_read_all (ov_key_pem config))). by destruct (first_key _).
  - match goal with |- no_panic (map_err _ ?m) => assert (no_panic m) as Hm; [|by destruct m] end.
    apply bind_no_panic; [apply Ha|intros r _]. by destruct (ce_check_client env _ _).
  - unfold TlsClientHandler_new, TlsHandler_new. by destruct (rl_new _).
Qed.

(** A phase does not panic and leaves its invariant. *)
Definition phase {S} (I : S -> Prop) (m : res ClientError S) : Prop :=
  no_panic m /\ forall s, m = Ok s -> I s.

Lemma phase_run {S A} (I : S -> Prop) (m : M S ClientError A) s :
  safe I m -> I s -> phase I (fst <$> run_M m s).
Proof.
  intros Hm Hs. destruct (run_M_safe I m s Hm Hs) as [H1 H2].
  destruct (run_M m s) as [[s' a]| |]; split; try done. intros ? [= <-]. by destruct (H2 s' a eq_refl).
Qed.

Lemma phase_bind {S T} (I : S -> Prop) (J : T -> Prop) m (k : S -> res ClientError T) :
  phase I m -> (forall s, I s -> phase J (k s)) -> phase J (m ≫= k).
Proof.
  intros [Hm Hi] Hk. destruct m as [s| |]; [|done..]. by apply Hk, Hi.
Qed.

Lemma phase_no_panic {S} (m : res ClientError S) : no_panic m -> phase (fun _ => True) m.
Proof. by split. Qed.

Lemma connect_link_ok config env now time inbox : client_ok config env now inbox ->
  phase link_inv (connect_link config env now time inbox).
Proof.
  intros [Hid Hnow Hin Hkey]. apply (phase_bind sess_inv); [by apply client_session_ok|].
  intros s Hs. apply phase_run; [apply safe_client_hard_reset|by constructor].
Qed.

Lemma connect_tls_ok config env l : link_inv l -> phase tunnel_inv (connect_tls config env l).
Proof.
  intros Hl. eapply phase_bind; [apply phase_no_panic, setup_tls_no_panic|]. intros tls _.
  apply phase_run; [|done]. apply safe_bind; [apply safe_client_hello|intros _; apply safe_handshake_loop].
Qed.

Definition exchanged (x : Exchanging (TlsConn := TlsConn)) : Prop :=
  exchanging_inv x /\ is_Some (ex_push_reply (xg_exchange x)).

Lemma connect_exchange_ok env t : tunnel_inv t -> phase exchanged (connect_exchange env t).
Proof.
  intros Ht. unfold connect_exchange. generalize MAX_KM_ATTEMPTS. intros n.
  destruct (run_M_safe exchanging_inv (exchange_loop n env) (mkExchanging t (mkExchange [] None None []))
    (safe_exchange_loop n env) Ht) as [H1 H2].
  destruct (run_M (exchange_loop n env) _) as [[x []]| |]; split; try done.
  intros ? [= <-]. destruct (H2 x tt eq_refl) as [Hx He]. split; [done|]. by eapply exchange_loop_reply.
Qed.

Lemma create_tun_no_panic ip mask reply : no_panic (create_tun_device ip mask reply).
Proof. unfold create_tun_device. destruct (parse_ipv4 ip); [|done]. by destruct (parse_ipv4 mask). Qed.

Lemma connect_finish_ok env x : exchanged x -> phase (fun cn => link_inv (cn_link cn)) (connect_finish env x).
Proof.
  intros [Hx [reply Hr]]. unfold connect_finish. cbv zeta. rewrite Hr.
  eapply phase_bind; [by apply phase_no_panic; destruct (ex_server_km _)|intros km _]. rsimp.
  eapply phase_bind; [apply (phase_run link_inv); [apply safe_client_install|exact Hx]|intros l [Hs Hn Hi]].
  eapply phase_bind; [by apply phase_no_panic; destruct (pl_ifconfig _)|intros [ip mask] _].
  eapply phase_bind; [apply phase_no_panic, create_tun_no_panic|intros tun _].
  split; [done|]. intros cn [= <-]. constructor; [|done..]. apply inv_activity, inv_state, Hs.
Qed.

Lemma connect_ok config env now time inbox : client_ok config env now inbox ->
  phase (fun cn => link_inv (cn_link cn)) (connect_with_info config env now time inbox).
Proof.
  intros Hok. eapply phase_bind; [by apply connect_link_ok|intros l Hl].
  eapply phase_bind; [by apply connect_tls_ok|intros t Ht].
  eapply phase_bind; [by apply connect_exchange_ok|intros x Hx]. by apply connect_finish_ok.
Qed.

(** *** The data plane *)
Definition plane_event_ok (e : PlaneEvent) : Prop :=
  match e with FromServer a => arrival_ok a | _ => True end.

Lemma plane_encrypt_ok env data p : sess_inv (pn_session p) ->
  sess_inv (pn_session (fst (plane_encrypt env data p))) /\ no_panic (snd (plane_encrypt env data p)).
Proof.
  intros Hs. unfold plane_encrypt. destruct (safe_encrypt_data data _ Hs) as [H1 H2].
  destruct (ProtocolSession_encrypt_data data (pn_session p)) as [s [e| |]]; [|done..].
  unfold pn_send. by destruct (ce_send_ok env e).
Qed.

Lemma plane_ack_ok env now time p : sess_inv (pn_session p) ->
  sess_inv (pn_session (fst (plane_ack env now time p))) /\ no_panic (snd (plane_ack env now time p)).
Proof.
  intros Hs. unfold plane_ack. destruct (ProtocolSession_should_send_ack _ _); [|done].
  destruct (safe_create_ack now time _ Hs) as [H1 H2].
  destruct (ProtocolSession_create_ack_packet now time (pn_session p)) as [s [[a|]| |]]; [|done..].
  unfold pn_send. by destruct (ce_send_ok env a).
Qed.

Lemma plane_step_ok env restart e p : plane_event_ok e -> sess_inv (pn_session p) ->
  sess_inv (pn_session (fst (plane_step env restart e p))) /\ no_panic (snd (plane_step env restart e p)).
Proof.
  intros He Hs. destruct e as [d| | |a| |now]; cbn [plane_step]; try done.
  - by apply plane_encrypt_ok.
  - destruct He as [Hn Hb]. cbn [pn_session].
    destruct (safe_process_packet (ar_now a) (take (Z.to_nat 4096) (ar_data a)) Hn
      (Forall_take _ _ _ Hb) _ Hs) as [H1 H2].
    destruct (ProtocolSession_process_packet _ _ _) as [s [[]| |]]; try done; by apply plane_ack_ok.
  - destruct (_ <? _); [done|]. by apply plane_encrypt_ok.
Qed.

Lemma plane_loop_no_panic env restart es p : Forall plane_event_ok es -> sess_inv (pn_session p) ->
  no_panic (snd (plane_loop env restart es p)).
Proof.
  intros He. revert p. induction He as [|e es He Hes IH]; intros p Hs; [done|]. cbn [plane_loop].
  destruct (plane_step_ok env restart e p He Hs) as [H1 H2].
  destruct (plane_step env restart e p) as [p' [[|]| |]]; try done. by apply IH.
Qed.

(** C8 Whatever the server or anyone else sends, the client does not panic
    while it connects; once it is connected, its forwarding loop panics only
    when the push reply sets the ping interval to zero, and then at once. *)
Theorem client_never_panics (config : OvpnConfig) (env : CEnv) (now time : Z) (inbox : list Arrival)
    (Hok : client_ok config env now inbox) :
  no_panic (connect_with_info config env now time inbox) /\
  forall cn start es, connect_with_info config env now time inbox = Ok cn -> Forall plane_event_ok es ->
    (snd (run_data_plane env start (lk_session (cn_link cn)) (cn_push_reply cn) es) = Panic <->
     pl_ping (cn_push_reply cn) = 0).
Proof.
  destruct (connect_ok config env now time inbox Hok) as [Hn Hl]. split; [done|].
  intros cn start es Hc He. unfold run_data_plane. cbv zeta.
  destruct (Z.eqb_spec (pl_ping (cn_push_reply cn)) 0) as [|Hp]; [done|].
  split; [|done]. intros H. destruct (plane_loop_no_panic env (from_secs (pl_ping_restart (cn_push_reply cn)))
    es (mkPlane (lk_session (cn_link cn)) start [] [])); [done| |done]. by apply (Hl cn Hc).
Qed.
End ClientProofs.
