(* ===== verification/ClientAgree.v ===== *)
(** * The client and the server together

    The client reads what the server writes, and both derive the same keys;
    where they do not fit together: the cipher they take, and the address of
    the login page.  The definitions are in Client.v and Server.v. *)
From S2P Require Import Prelude Errors Text Network CoreSession Opcode Packet Replay Float Reliable Cipher HmacAuth Kdf DataChannel Session SessionProofs SessionSend Runs Control Addr ServerConfig ConnLog TlsDriver Cert Server ServerProofs Ovpn Client ClientProofs.
Local Open Scope Z_scope.

(** ** What the server writes after the handshake *)
Lemma skip_written n data pre s post off :
  wire_string s -> data = pre ++ KeyMethodV2_write_string s ++ post -> length pre = off ->
  skip_strings (S n) data off = skip_strings n data (off + length s + 3).
Proof.
  intros (Hu & Hz & Hl) -> <-. cbn [skip_strings].
  set (data := pre ++ _). set (k := Z.of_nat (length s) + 1).
  assert (length data = length pre + (length s + 3) + length post)%nat as Hd
    by (unfold data; rewrite !length_app, write_string_length; lia).
  rewrite (proj2 (Nat.ltb_ge _ _)) by lia.
  assert (wrap 16 k = k) as Hw by (unfold wrap; rewrite Z.mod_small; unfold k; lia).
  assert (data = pre ++ to_be 2 k ++ (s ++ [0]) ++ post) as Hdata.
  { unfold data, KeyMethodV2_write_string. fold k. rewrite Hw, <- !app_assoc. done. }
  pose proof (from_to_be 2 k) as Hn. destruct (to_be 2 k) as [|x [|y [|]]] eqn:Hb; try done.
  rewrite (bind_of_Ok _ _ x) by (eapply idx_at; [exact Hdata|done]).
  rewrite (bind_of_Ok _ _ y)
    by (apply (idx_at _ (pre ++ [x]) _ ((s ++ [0]) ++ post));
        [by rewrite Hdata, <- !app_assoc|rewrite length_app; cbn [length]; lia]).
  rewrite Hn by (unfold uint, k; lia). replace (Z.to_nat k) with (length s + 1)%nat by (unfold k; lia).
  cbv zeta. rewrite (proj2 (Nat.ltb_ge _ _)) by lia. f_equal. lia.
Qed.

Lemma server_km_size k rest : k2_wf k -> k2_peer_info k = None ->
  calculate_km_size (KeyMethodV2_encode k true ++ rest) = Ok (length (KeyMethodV2_encode k true)).
Proof.
  intros (Hp & H1 & H2 & Ho & Hu & Hw & Hi) Hn. unfold calculate_km_size.
  set (pre := [0; 0; 0; 0] ++ [2] ++ k2_random1 k ++ k2_random2 k).
  assert (KeyMethodV2_encode k true = pre ++ KeyMethodV2_write_string (k2_options k)
    ++ KeyMethodV2_write_string (default [] (k2_username k))
    ++ KeyMethodV2_write_string (default [] (k2_password k))) as ->.
  { unfold KeyMethodV2_encode, pre. rewrite Hn, app_nil_r, <- !app_assoc. done. }
  set (data := (pre ++ _) ++ rest).
  assert (length pre = 69%nat) as Hpre by (unfold pre; rewrite !length_app; cbn [length]; lia).
  rewrite (proj2 (Nat.ltb_ge _ _))
    by (unfold data; rewrite !length_app, !write_string_length; cbn [length]; lia).
  rewrite (skip_written _ data pre (k2_options k)
    (KeyMethodV2_write_string (default [] (k2_username k)) ++ KeyMethodV2_write_string (default [] (k2_password k)) ++ rest));
    [|done|unfold data; by rewrite <- !app_assoc|done].
  rewrite (skip_written _ data (pre ++ KeyMethodV2_write_string (k2_options k)) (default [] (k2_username k))
    (KeyMethodV2_write_string (default [] (k2_password k)) ++ rest));
    [|done|unfold data; by rewrite <- !app_assoc|rewrite length_app, write_string_length; lia].
  rewrite (skip_written _ data (pre ++ KeyMethodV2_write_string (k2_options k)
    ++ KeyMethodV2_write_string (default [] (k2_username k))) (default [] (k2_password k)) rest);
    [|done|unfold data; by rewrite <- !app_assoc|rewrite !length_app, !write_string_length; lia].
  cbn [skip_strings]. rewrite !length_app, !write_string_length. f_equal. cbn [length]. lia.
Qed.

Lemma push_reply_head r : exists t, PushReply_encode r = lit "PUSH_REPLY" ++ 44 :: t.
Proof.
  unfold PushReply_encode. destruct (PushReply_parts r) as [|p ps] eqn:E; [by destruct r|].
  exists (join [44] (p :: ps)). done.
Qed.

(** What is left of a server's message after its key method. *)
Definition received_key_method (k : KeyMethodV2) : KeyMethodV2 :=
  mkKeyMethodV2 (replicate 48 0) (k2_random1 k) (k2_random2 k) (k2_options k) None None None.

Lemma try_parse_key_method_written k rest urls : k2_wf k -> k2_peer_info k = None ->
  try_parse_key_method (mkExchange (KeyMethodV2_encode k true ++ rest) None None urls)
  = Ok (mkExchange rest (Some (received_key_method k)) None urls).
Proof.
  intros Hk Hn. unfold try_parse_key_method. cbn [ex_server_km ex_plaintext ex_push_reply ex_urls].
  pose proof Hk as (Hp & H1 & H2 & _).
  rewrite (proj2 (Nat.ltb_ge _ _))
    by (unfold KeyMethodV2_encode; rewrite !length_app, !write_string_length; cbn [length]; lia).
  rewrite key_method_server_roundtrip, server_km_size by done. rsimp.
  rewrite slice_from_ok by (rewrite length_app; lia). rsimp. by rewrite drop_app_length.
Qed.

Lemma handle_push_reply r x : reply_wf r -> utf8_valid (PushReply_encode r) = true ->
  last (PushReply_encode r) <> Some 0 ->
  handle_server_message (PushReply_encode r ++ [0]) x
  = Ok (mkExchange (PushReply_encode r ++ [0]) (ex_server_km x) (Some r) (ex_urls x)).
Proof.
  intros Hr Hu Hl. unfold handle_server_message.
  rewrite from_utf8_lossy_valid by by apply utf8_valid_app.
  rewrite trim_end_nul by done. destruct (push_reply_head r) as [t Ht].
  assert (starts_with (lit "PUSH_REPLY") (PushReply_encode r) = true) as ->.
  { unfold starts_with. rewrite Ht, take_app_length. by apply bool_decide_eq_true_2. }
  by rewrite push_reply_roundtrip by done.
Qed.

(** The part after the key method. *)
Lemma try_parse_reply r km urls : reply_wf r -> utf8_valid (PushReply_encode r) = true ->
  last (PushReply_encode r) <> Some 0 -> forall x : res ClientError Exchange,
  x = Ok (mkExchange (PushReply_encode r ++ [0]) (Some km) None urls) ->
  (x ← x;
   match ex_server_km x, ex_plaintext x with
   | Some _, _ :: _ =>
       let plaintext := drop_while (fun b => b =? 0) (ex_plaintext x) in
       match plaintext with
       | [] => Ok (mkExchange [] (ex_server_km x) (ex_push_reply x) (ex_urls x))
       | _ => handle_server_message plaintext x
       end
   | _, _ => Ok x
   end) = Ok (mkExchange (PushReply_encode r ++ [0]) (Some km) (Some r) urls).
Proof.
  intros Hr Hu Hl x ->. rsimp. cbn [ex_server_km ex_plaintext ex_push_reply ex_urls]. cbv zeta.
  set (x := mkExchange _ _ _ _). pose proof (handle_push_reply r x Hr Hu Hl) as H.
  destruct (push_reply_head r) as [t Ht].
  assert (exists u, PushReply_encode r ++ [0] = 80 :: u) as [u E]
    by (rewrite Ht; by exists (lit "USH_REPLY" ++ 44 :: t ++ [0])).
  rewrite E in *. cbn [drop_while Z.eqb]. exact H.
Qed.

(** C20 The client reads what the server writes after the handshake: the key
    method and the push reply, in one piece or in two, come back as the
    server's randoms and options and as the reply itself. *)
Theorem client_reads_server_messages (k : KeyMethodV2) (r : PushReply) (urls : list str)
    (Hk : k2_wf k) (Hn : k2_peer_info k = None) (Hr : reply_wf r)
    (Hu : utf8_valid (PushReply_encode r) = true) (Hl : last (PushReply_encode r) <> Some 0) :
  let km := KeyMethodV2_encode k true in
  let reply := PushReply_encode r ++ [0] in
  let received := mkExchange [] (Some (received_key_method k)) None urls in
  let final := mkExchange reply (Some (received_key_method k)) (Some r) urls in
  try_parse_server_messages (mkExchange (km ++ reply) None None urls) = Ok final /\
  try_parse_server_messages (mkExchange km None None urls) = Ok received /\
  try_parse_server_messages (mkExchange reply (Some (received_key_method k)) None urls) = Ok final.
Proof.
  split_and!.
  - apply try_parse_reply; [done..|]. by apply try_parse_key_method_written.
  - assert (KeyMethodV2_encode k true = KeyMethodV2_encode k true ++ []) as -> by by rewrite app_nil_r.
    unfold try_parse_server_messages. by rewrite try_parse_key_method_written.
  - by apply try_parse_reply.
Qed.

(** ** The address of the login page *)
Lemma lossy_ascii_app s t : ascii s -> from_utf8_lossy (s ++ t) = s ++ from_utf8_lossy t.
Proof.
  intros H. induction H as [|b s Hb H IH]; [done|]. cbn [app from_utf8_lossy].
  assert (in_range 0 127 b = true) as -> by (unfold in_range; apply andb_true_iff; split; apply Z.leb_le; lia).
  by rewrite IH.
Qed.

Lemma drop_while_app f s t : drop_while f (s ++ t) = drop_while f s ++ t \/
  drop_while f (s ++ t) = drop_while f t.
Proof.
  induction s as [|b s IH]; [by right|]. cbn [app drop_while]. destruct (f b); [done|by left].
Qed.

Lemma trim_end_keeps c a z b : z <> c -> exists b', trim_end_matches c ((a ++ [z]) ++ b) = (a ++ [z]) ++ b'.
Proof.
  intros Hz. unfold trim_end_matches. rewrite !rev_app_distr. cbn [rev app].
  destruct (drop_while_app (fun x => x =? c) (rev b) (z :: rev a)) as [-> | ->].
  - exists (rev (drop_while (fun x => x =? c) (rev b))). rewrite rev_app_distr. cbn [rev]. by rewrite rev_involutive.
  - cbn [drop_while]. rewrite (proj2 (Z.eqb_neq _ _)) by done. exists []. cbn [rev].
    by rewrite rev_involutive, app_nil_r.
Qed.

Definition AUTH_PENDING : str := lit "AUTH_PENDING,timeout 120".

(** When the two messages with which the server asks for a login are read
    together, the client drops both: the address of the login page, whatever
    it is, is not shown. *)
Theorem login_url_is_lost (km : KeyMethodV2) (url : str) (urls : list str) :
  try_parse_server_messages
    (mkExchange ((AUTH_PENDING ++ [0]) ++ (lit "INFO_PRE,WEB_AUTH::" ++ url ++ [0])) (Some km) None urls)
  = Ok (mkExchange [] (Some km) None urls).
Proof.
  set (rest := lit "INFO_PRE,WEB_AUTH::" ++ url ++ [0]). rewrite <- app_assoc.
  unfold try_parse_server_messages, try_parse_key_method. cbn [ex_server_km]. rsimp.
  cbn [ex_server_km ex_plaintext ex_push_reply ex_urls]. cbv zeta.
  change (drop_while (fun b => b =? 0) (AUTH_PENDING ++ [0] ++ rest)) with (AUTH_PENDING ++ [0] ++ rest).
  change (AUTH_PENDING ++ [0] ++ rest) with (65 :: drop 1 AUTH_PENDING ++ [0] ++ rest) at 1 2.
  change (65 :: drop 1 AUTH_PENDING ++ [0] ++ rest) with (AUTH_PENDING ++ [0] ++ rest).
  unfold handle_server_message. cbv zeta. rewrite lossy_ascii_app
    by (apply (bool_decide_unpack _); vm_compute; exact I).
  destruct (trim_end_keeps 0 (lit "AUTH_PENDING,timeout 12") 48 (from_utf8_lossy ([0] ++ rest))) as [b' Hb]; [done|].
  change ((lit "AUTH_PENDING,timeout 12" ++ [48]) ++ from_utf8_lossy ([0] ++ rest))
    with (AUTH_PENDING ++ from_utf8_lossy ([0] ++ rest)) in Hb. rewrite Hb. done.
Qed.

Section Agree.
Context {AEAD : Aead} {ALaws : AeadLaws AEAD} {HMAC : Hmac} {HLaws : HmacLaws HMAC} {UC : Unicode}
  {ULaws : UnicodeLaws UC} {PKI : RustlsPki} {Ch : Chrono} {Uu : Uuids} {N4 N6 : Type}
  {TlsConfig TlsConn : Type}.
Abbreviation CEnv := (ClientEnv (TlsConfig := TlsConfig)).
Abbreviation TWk := (TlsWork (Ch := Ch) (Uu := Uu) (N4 := N4) (N6 := N6) (TlsConn := TlsConn)).
Implicit Types (env : CEnv).

(** ** The data keys *)
Lemma derive_material km r1 r2 csid ssid :
  exists k, derive_key_material km r1 r2 csid ssid = Ok k /\ material_wf k.
Proof.
  unfold derive_key_material. cbv zeta.
  destruct (prf_ok (k2_pre_master km) (lit "OpenVPN master secret") (k2_random1 km ++ r1) 48) as (ms & -> & _).
  cbn [map_err]. rsimp.
  destruct (prf_ok ms (lit "OpenVPN key expansion") (k2_random2 km ++ r2 ++ csid ++ ssid) 256)
    as (block & Hb & Hl). rewrite Hb. cbn [map_err]. rsimp. apply openvpn_prf_bytes in Hb.
  destruct (key2_block_ok block) as (k & Hk & _); [lia|]. rewrite Hk. exists k. split; [done|].
  apply (key2_block_wf block); [lia|done..].
Qed.

(** Both ends run the same computation. *)
Lemma derive_same env km_c km_s r1 r2 csid ssid k :
  k2_pre_master km_c = ce_pre_master env -> k2_random1 km_c = ce_random1 env ->
  k2_random2 km_c = ce_random2 env -> k2_random1 km_s = r1 -> k2_random2 km_s = r2 ->
  derive_key_material km_c r1 r2 csid ssid = Ok k -> client_derive_keys env km_s csid ssid = Ok k.
Proof.
  unfold derive_key_material, client_derive_keys. intros -> -> -> -> ->. cbv zeta.
  destruct (openvpn_prf (ce_pre_master env) _ _ 48) as [ms| |]; cbn [map_err]; [|done..]. rsimp.
  destruct (openvpn_prf ms _ _ 256) as [block| |]; cbn [map_err]; [|done..]. rsimp.
  destruct (KeyMaterial_from_openvpn_key2_block block); cbn [map_err]; intros H; [by injection H as ->|done..].
Qed.

(** The client and the server with the material they have derived. *)
Lemma client_install_run env km_s (l : Link) ssid k c' :
  ps_remote_session_id (lk_session l) = Some ssid ->
  client_derive_keys env km_s (ps_local_session_id (lk_session l)) ssid = Ok k ->
  ProtocolSession_install_keys k false (lk_session l) = (c', Ok tt) ->
  client_install_keys env km_s l = (lk_set_session c' l, Ok tt).
Proof.
  intros Hr Hd Hi. unfold client_install_keys, get. rewrite (bind_step _ _ l l l) by done. cbv zeta. rewrite Hr.
  rewrite (bind_step _ _ l l ssid) by done. rewrite (bind_step _ _ l l k) by (unfold lift; by rewrite Hd).
  unfold on_session, zoom. by rewrite Hi.
Qed.
Lemma server_install_run km_c r1 r2 (t : TWk) csid k s' :
  let s := co_protocol (wk_conn (tw_work t)) in
  ps_remote_session_id s = Some csid ->
  derive_key_material km_c r1 r2 csid (ps_local_session_id s) = Ok k ->
  ProtocolSession_install_keys k true s = (s', Ok tt) ->
  install_data_keys km_c r1 r2 t = (mkTlsWork (wk_set_protocol s' (tw_work t)) (tw_tls t), Ok tt).
Proof.
  intros s Hr Hd Hi. unfold install_data_keys, get. rewrite (bind_step _ _ t t t) by done. cbv zeta. fold s. rewrite Hr.
  cbn [default]. rewrite (bind_step _ _ t t k) by (unfold lift; cbn [id]; by rewrite Hd).
  unfold on_work, on_protocol, zoom. fold s. by rewrite Hi.
Qed.

(** ** The cipher *)
Lemma client_offers_chacha (sconfig : ServerConfig) :
  negotiate_cipher sconfig (Some client_peer_info) = lit "CHACHA20-POLY1305".
Proof.
  unfold negotiate_cipher.
  assert (client_ciphers client_peer_info
    = [lit "CHACHA20-POLY1305"; lit "AES-256-GCM"; lit "AES-128-GCM"]) as -> by (vm_compute; reflexivity).
  assert (to_uppercase (lit "CHACHA20-POLY1305") = lit "CHACHA20-POLY1305") as Hup.
  { rewrite uppercase_ascii; [by vm_compute|]. apply (bool_decide_unpack _). vm_compute. exact I. }
  rewrite filter_cons_True; [done|]. rewrite Hup. right. right. left.
Qed.

Lemma suites_agree (sconfig : ServerConfig) (config : OvpnConfig) (suite : CipherSuite) :
  client_cipher_suite config = Ok suite ->
  suite = negotiated_suite (negotiate_cipher sconfig (Some client_peer_info)) <->
  to_uppercase (ov_cipher config) = lit "CHACHA20-POLY1305".
Proof.
  intros Hc. rewrite client_offers_chacha. change (negotiated_suite _) with ChaCha20Poly1305.
  unfold client_cipher_suite in Hc. destruct (decide _) as [He|Hne].
  - rewrite He. injection Hc as <-. done.
  - destruct (decide _) as [He|]; [|done]. injection Hc as <-. split; [done|]. by rewrite He.
Qed.

(** The client offers ChaCha20-Poly1305 first whatever its configuration
    says, and keeps the cipher of its configuration: whatever the server's
    configuration, the two ends use the same cipher only when the client's
    file says CHACHA20-POLY1305, and never when it says AES-256-GCM. *)
Lemma client_and_server_cipher_disagree (sconfig : ServerConfig) (config : OvpnConfig) (suite : CipherSuite)
    (Hc : client_cipher_suite config = Ok suite) :
  let negotiated := negotiated_suite (negotiate_cipher sconfig (Some client_peer_info)) in
  (to_uppercase (ov_cipher config) = lit "AES-256-GCM" -> suite = Aes256Gcm /\ negotiated = ChaCha20Poly1305) /\
  (suite = negotiated <-> to_uppercase (ov_cipher config) = lit "CHACHA20-POLY1305").
Proof.
  intros negotiated. assert (negotiated = ChaCha20Poly1305) as Hn.
  { unfold negotiated. rewrite client_offers_chacha. by vm_compute. }
  rewrite Hn. unfold client_cipher_suite in Hc. destruct (decide _) as [He|Hne].
  - rewrite He. injection Hc as <-. split; [by intros H; vm_compute in H|done].
  - destruct (decide _) as [He|]; [|done]. injection Hc as <-. split; [done|]. split; [done|]. by rewrite He.
Qed.
(** ** Both ends *)

(** C4 What the key exchange gives the two ends.  From the key methods as they
    are read off the wire, with the session ids each side has of the other,
    the client and the server derive the same key material and install it.
    The server has taken the cipher suite it negotiates from the client's
    offer and the client the one of its file, and packets pass in both
    directions exactly when the file says CHACHA20-POLY1305: with the suite
    AES-256-GCM, which the client also accepts, the channels do not match. *)
Theorem client_and_server_agree_on_keys (sconfig : ServerConfig) (config : OvpnConfig) (env : CEnv)
    (r1 r2 : bytes) (l : Link) (t : TWk) :
  let c := lk_session l in
  let s := co_protocol (wk_conn (tw_work t)) in
  let cipher := negotiate_cipher sconfig (k2_peer_info (client_key_method config env)) in
  k2_wf (client_key_method config env) -> k2_wf (server_key_method r1 r2 cipher) ->
  sess_inv c -> sess_inv s ->
  ps_remote_session_id s = Some (ps_local_session_id c) ->
  ps_remote_session_id c = Some (ps_local_session_id s) ->
  ps_current_key_id c = ps_current_key_id s ->
  ps_peer_id c = ps_peer_id s -> from_option (uint 24) True (ps_peer_id c) ->
  client_cipher_suite config = Ok (ps_cipher_suite c) -> ps_cipher_suite s = negotiated_suite cipher ->
  exists km_c km_s k l' t',
    KeyMethodV2_parse (KeyMethodV2_encode (client_key_method config env) false) = Ok km_c /\
    KeyMethodV2_parse_from_server (KeyMethodV2_encode (server_key_method r1 r2 cipher) true) = Ok km_s /\
    client_derive_keys env km_s (ps_local_session_id c) (ps_local_session_id s) = Ok k /\
    derive_key_material km_c r1 r2 (ps_local_session_id c) (ps_local_session_id s) = Ok k /\
    client_install_keys env km_s l = (l', Ok tt) /\
    install_data_keys km_c r1 r2 t = (t', Ok tt) /\
    ((exists cc cs, data_linked (lk_session l') (co_protocol (wk_conn (tw_work t'))) cc cs /\
        data_linked (co_protocol (wk_conn (tw_work t'))) (lk_session l') cs cc) <->
     to_uppercase (ov_cipher config) = lit "CHACHA20-POLY1305").
Proof.
  intros c s cipher Hck Hsk Hc Hs Hrs Hrc Hkey Hpeer Hpid Hcs Hss.
  pose proof (key_method_client_roundtrip _ Hck) as Pc.
  pose proof (key_method_server_roundtrip _ [] Hsk) as Ps. rewrite app_nil_r in Ps.
  match type of Pc with _ = Ok ?km => set (km_c := km) in Pc end.
  match type of Ps with _ = Ok ?km => set (km_s := km) in Ps end.
  destruct (derive_material km_c r1 r2 (ps_local_session_id c) (ps_local_session_id s)) as (k & Hd & Hw).
  pose proof (derive_same env km_c km_s r1 r2 _ _ k eq_refl eq_refl eq_refl eq_refl eq_refl Hd) as Hd'.
  destruct (install_keys_slot k false c Hc) as (c' & _ & Hic & _).
  destruct (install_keys_slot k true s Hs) as (s' & _ & His & _).
  exists km_c, km_s, k, (lk_set_session c' l), (mkTlsWork (wk_set_protocol s' (tw_work t)) (tw_tls t)).
  split_and!; [done..| | |].
  - by eapply client_install_run.
  - by eapply server_install_run.
  - rewrite <- (suites_agree sconfig config _ Hcs).
    change (negotiate_cipher sconfig (Some client_peer_info)) with cipher. rewrite <- Hss. split.
    + intros (cc & cs & H1 & _). by eapply (install_keys_suites c s k).
    + intros Hsuite. destruct (install_keys_data_linked c s k Hc Hs Hw Hkey Hsuite Hpeer Hpid)
        as (c1 & s1 & cc & cs & H1 & H2 & H3 & H4).
      exists cc, cs. cbn. split; congruence.
Qed.
End Agree.
