(* ===== verification/Sample.v ===== *)
(** * A server and a client on concrete instances

    Interfaces instantiated by simple functions, a server with and without
    OAuth and a client that connects to it: the inputs at which the theorems
    on the server and on the client are applied. *)
From S2P Require Import Prelude Errors Text Network CoreSession Opcode Packet Replay Float Reliable Cipher HmacAuth Kdf DataChannel Session SessionProofs SessionSend Runs Control Addr ServerConfig ConnLog TlsDriver Cert Server ServerProofs ServerRun ServerOut ServerSteps Ovpn Client ClientProofs ClientAgree.
Local Open Scope Z_scope.

(** ** TLS without encryption

    Records with their five-byte header.  A client starts with one handshake
    record, a server answers the first record it gets with one; every later
    record carries application data. *)
Record RecConn := mkRec {
  rc_unread : bytes; rc_plain : bytes; rc_out : bytes; rc_handshaking : bool; rc_client : bool;
}.
Definition record (type : Z) (payload : bytes) : bytes :=
  [type; 3; 3] ++ to_be 2 (Z.of_nat (length payload)) ++ payload.

(** One complete record is taken off the front. *)
Definition take_record (c : RecConn) : option RecConn :=
  match rc_unread c with
  | _ :: _ :: _ :: hi :: lo :: rest =>
      let n := Z.to_nat (from_be [hi; lo]) in
      if (length rest <? n)%nat then None else
      Some (if rc_handshaking c
            then mkRec (drop n rest) (rc_plain c)
                   (if rc_client c then rc_out c else rc_out c ++ record 22 [2]) false (rc_client c)
            else mkRec (drop n rest) (rc_plain c ++ take n rest) (rc_out c) false (rc_client c))
  | _ => None
  end.
Fixpoint take_records (fuel : nat) (c : RecConn) : RecConn :=
  match fuel with
  | O => c
  | S f => match take_record c with Some c' => take_records f c' | None => c end
  end.

Definition record_rustls : Rustls bool RecConn := {|
  rl_new := fun client : bool => inl (mkRec [] [] (if client then record 22 [1] else []) true client);
  rl_read_tls d c :=
    (mkRec (rc_unread c ++ d) (rc_plain c) (rc_out c) (rc_handshaking c) (rc_client c), inl (length d));
  rl_process_new_packets c := (take_records (length (rc_unread c)) c, inl tt);
  rl_write_tls c :=
    (mkRec (rc_unread c) (rc_plain c) [] (rc_handshaking c) (rc_client c), (rc_out c, inl (length (rc_out c))));
  rl_read n c :=
    (mkRec (rc_unread c) (drop n (rc_plain c)) (rc_out c) (rc_handshaking c) (rc_client c),
     match rc_plain c with [] => inr WouldBlock | d => inl (take n d) end);
  rl_write d c :=
    (mkRec (rc_unread c) (rc_plain c) (rc_out c ++ record 23 d) (rc_handshaking c) (rc_client c), inl (length d));
  rl_is_handshaking := rc_handshaking;
  rl_wants_write c := match rc_out c with [] => false | _ => true end;
  rl_export c n _ _ := inl (replicate n 0);
  rl_peer_certificates _ := None;
  rl_cipher_suite _ := None;
  rl_protocol_version _ := Some TLSv1_3;
  rl_buffered c := length (rc_out c);
|}.

Lemma record_rustls_laws : RustlsLaws record_rustls.
Proof.
  constructor; cbn.
  - intros d c c' n [= _ <-]. lia.
  - intros c c' out n [= <- <- <-]. cbn. split; [done|lia].
  - intros n c c' bs. destruct (rc_plain c) eqn:Hp; intros [= _ <-]. rewrite length_take. lia.
  - intros d c c' n [= _ <-]. lia.
Qed.

(** ** Networks as text *)
Definition toy_net4 : IpNet 32 (Z * Z) := toy_net 32.
Definition toy_net6 : IpNet 128 (Z * Z) := toy_net 128.
Definition toy_text4 : IpNetText 32 (Z * Z) := {|
  net_parse s :=
    match split_on 47 s with
    | [a; p] =>
        match parse_ipv4 a, parse_uint 8 p with
        | Some a, Some p => if p <=? 32 then inl (a, p) else inr (lit "invalid IP address syntax")
        | _, _ => inr (lit "invalid IP address syntax")
        end
    | _ => inr (lit "invalid IP address syntax")
    end;
  net_netmask n := 2 ^ 32 - 2 ^ (32 - toy_prefix 32 n);
|}.

(** ** A checksum in the place of the hash functions *)
Definition checksum (n : nat) (k m : bytes) : bytes :=
  let c := fold_left (fun a b => (a * 31 + b) mod 251) (k ++ m) 7 in
  map (fun i => (c + Z.of_nat i * 7) mod 256) (seq 0 n).
Definition sample_hmac : Hmac :=
  {| hmac_sha256 := checksum 32; hmac_sha1 := checksum 20; hmac_md5 := checksum 16 |}.
Lemma sample_hmac_laws : HmacLaws sample_hmac.
Proof.
  assert (forall n k m, length (checksum n k m) = n) as Hl
    by (intros; unfold checksum; by rewrite length_map, length_seq).
  assert (forall n k m, bytes_ok (checksum n k m)) as Hb.
  { intros n k m. unfold checksum. apply Forall_map, Forall_forall. intros i _.
    apply Z.mod_pos_bound. lia. }
  constructor; intros; first [apply Hl|apply Hb].
Qed.

(** ** JSON: texts that are their own values, without keys *)
Definition toy_json : SerdeJson :=
  {| JsonValue := str; json_parse s := None; json_keys _ := None; json_insert _ _ v := v; json_print v := v |}.

#[export] Existing Instances toy_aead toy_aead_laws sample_hmac sample_hmac_laws toy_sha ascii_unicode ascii_unicode_laws
  toy_chrono toy_fields toy_uuids toy_net4 toy_net6 toy_text4 record_rustls record_rustls_laws plain_pki toy_json.

(** ** The server *)
Definition sample_oauth : OAuthSettings :=
  mkOAuthSettings true (lit "google") (lit "client") (lit "secret") None None None [lit "example.com"] [] 443
    None 3600.
Definition sample_config (oauth : option OAuthSettings) : ServerConfig :=
  let c := ServerConfig_default_config (lit "vpn.example.com") in
  mkServerConfig (cfg_server c) (cfg_network c) (cfg_security c) oauth (cfg_logging c) (cfg_admin c) (cfg_audit c).

(** The certificate and the key are there, a tls-auth key is not. *)
Definition sample_files : Files :=
  mkFiles (fun p => negb (bool_decide (p = lit "/var/lib/corevpn/ta.key"))) (fun _ => inl (lit "PEM")).
Abbreviation SampleServer := (VpnServer (Ch := toy_chrono) (Uu := toy_uuids) (N4 := Z * Z) (N6 := Z * Z)
  (TlsConfig := bool) (TlsConn := RecConn) (L := NullConnectionLogger)).
Abbreviation SampleSys := (Sys (Ch := toy_chrono) (Uu := toy_uuids) (N4 := Z * Z) (N6 := Z * Z)
  (TlsConfig := bool) (TlsConn := RecConn) (L := NullConnectionLogger)).
Definition sample_new (config : ServerConfig) : res str SampleServer :=
  VpnServer_new (fun _ => false) (fun _ => Ok NullConnectionLogger_new) (fun s => Some s) (fun _ => []) (fun _ => []) sample_files 0 [] config.

Definition sid_server : bytes := [11; 12; 13; 14; 15; 16; 17; 18].
Definition sid_client : bytes := [21; 22; 23; 24; 25; 26; 27; 28].
Definition sample_env (now : Z) : Env :=
  mkEnv now 100 now sid_server 7%N (replicate 32 3) (replicate 32 4) 5 (fun _ _ => true) (fun _ => true).
Definition client_addr : SocketAddr := SockV4 (from_be [192; 0; 2; 7]) 50000.

(** ** The client *)
Definition sample_ovpn (cipher : str) : OvpnConfig :=
  mkOvpn (SockV4 (from_be [198; 51; 100; 1]) 1194) (lit "udp") cipher [] (lit "SHA256") 3 (lit "CA") (lit "CERT")
    (lit "KEY") None None true (lit "tun").
Definition sample_client : ClientEnv :=
  mkClientEnv sid_client (replicate 48 9) (replicate 32 1) (replicate 32 2) (fun _ _ => None) (fun _ => true)
    (fun _ => true).

Lemma sample_new_ok : is_ok (sample_new (sample_config (Some sample_oauth))) = true /\
  is_ok (sample_new (sample_config None)) = true.
Proof. split; vm_compute; reflexivity. Qed.

(** ** A connection

    What the client has sent when it has read [inbox], in every phase. *)
Definition client_sent (config : OvpnConfig) (inbox : list Arrival) : list bytes :=
  match client_session config sample_client 0 with
  | Ok session =>
      match client_hard_reset sample_client (mkLink session inbox [] 0 100), setup_tls_client config sample_client with
      | (l, Ok _), Ok tls =>
          let km := KeyMethodV2_encode (client_key_method config sample_client) false in
          match (_ ← client_hello sample_client; handshake_loop MAX_HANDSHAKE_ATTEMPTS km sample_client)
                  (mkTunnel l tls) with
          | (t, Ok _) =>
              lk_sent (tu_link (xg_tunnel (fst (exchange_loop MAX_KM_ATTEMPTS sample_client
                (mkExchanging t (mkExchange [] None None []))))))
          | (t, _) => lk_sent (tu_link t)
          end
      | (l, _), _ => lk_sent l
      end
  | _ => []
  end.

Definition to_server (sent : list bytes) : list Event := map (EvUdp (sample_env 0) client_addr) sent.
Definition sent_to_client (s : SampleSys) : list Arrival :=
  omap (fun o => match o with SendTo _ p => Some (mkArrival 0 100 p) | TunWrite _ => None end)
    (wd_out (sy_world s)).

(** The server's state after the client's datagrams, and the client again
    with what the server sent. *)
Fixpoint exchange_rounds (n : nat) (srv : SampleServer) (config : OvpnConfig) (inbox : list Arrival) : list Arrival :=
  match n with
  | O => inbox
  | S n' =>
      exchange_rounds n' srv config
        (sent_to_client (fst (run_events (to_server (client_sent config inbox)) (start srv))))
  end.

Definition chacha : OvpnConfig := sample_ovpn (lit "CHACHA20-POLY1305").
Definition rounds (oauth : option OAuthSettings) : list Arrival :=
  match sample_new (sample_config oauth) with Ok srv => exchange_rounds 3 srv chacha [] | _ => [] end.

(** What the two ends send each other, without OAuth. *)
Definition plain_inbox : list Arrival := Eval vm_compute in rounds None.
Definition plain_sent : list bytes := Eval vm_compute in client_sent chacha plain_inbox.
Definition plain_events : list Event := to_server plain_sent.

(** With OAuth: the client's datagrams, the login of a user and what the
    server sends after it. *)
Definition sample_provider : Provider :=
  mkProvider (fun _ => TokenFields (Some (lit "token"))) (fun _ => UserFields (Some (lit "alice@example.com"))).
Definition login : list Event := [EvCallback sample_provider true (lit "code") (hex_pad 32 5); EvAuth (sample_env 1)].
Definition oauth_sent : list bytes := Eval vm_compute in client_sent chacha (rounds (Some sample_oauth)).
Definition oauth_events : list Event := to_server oauth_sent ++ login.
Definition oauth_inbox : list Arrival :=
  Eval vm_compute in
    match sample_new (sample_config (Some sample_oauth)) with
    | Ok srv => sent_to_client (fst (run_events oauth_events (start srv)))
    | _ => []
    end.

(** An IP packet of twenty bytes to the first client, and its datagram. *)
Definition sample_packet : bytes := [69; 0; 0; 20; 0; 0; 0; 0; 64; 17; 0; 0; 10; 8; 0; 9; 10; 8; 0; 2].
Definition tunnel_datagram (inbox : list Arrival) : bytes :=
  match connect_with_info chacha sample_client 0 100 inbox with
  | Ok cn => match ProtocolSession_encrypt_data sample_packet (lk_session (cn_link cn)) with
             | (_, Ok wire) => wire
             | _ => []
             end
  | _ => []
  end.
Definition oauth_datagram : bytes := Eval vm_compute in tunnel_datagram oauth_inbox.
Definition tunnel_events : list Event := oauth_events ++ [EvUdp (sample_env 2) client_addr oauth_datagram].

Lemma sample_env_ok now : duration_ok now -> env_ok (sample_env now).
Proof. by split. Qed.
Lemma small_duration_ok : duration_ok 0 /\ duration_ok 1 /\ duration_ok 2.
Proof. unfold duration_ok, MAX_SECS, NANOS_PER_SEC. lia. Qed.

Lemma to_server_ok sent : Forall bytes_ok sent -> Forall event_ok (to_server sent).
Proof.
  intros H. unfold to_server. apply Forall_map. eapply Forall_impl; [exact H|]. intros d Hd. split; [|done].
  apply sample_env_ok, small_duration_ok.
Qed.
Lemma plain_events_ok : Forall event_ok plain_events.
Proof. apply to_server_ok. apply (bool_decide_unpack _). vm_compute. exact I. Qed.
Lemma oauth_events_ok : Forall event_ok oauth_events.
Proof.
  apply Forall_app. split.
  - apply to_server_ok. apply (bool_decide_unpack _). vm_compute. exact I.
  - repeat constructor; apply small_duration_ok.
Qed.
Lemma tunnel_events_ok : Forall event_ok tunnel_events.
Proof.
  apply Forall_app. split; [exact oauth_events_ok|]. constructor; [|constructor]. split.
  - apply sample_env_ok, small_duration_ok.
  - apply (bool_decide_unpack _). vm_compute. exact I.
Qed.

(** Both ends of the run without OAuth are established, on the first address
    of the pool. *)
Example plain_connection :
  match sample_new (sample_config None), connect_with_info chacha sample_client 0 100 plain_inbox with
  | Ok srv, Ok cn =>
      let s := wd_server (sy_world (fst (run_events plain_events (start srv)))) in
      (c ← vs_connections s !! client_addr; Some (ps_state (co_protocol c), co_vpn_ip c))
        = Some (Established, Some (from_be [10; 8; 0; 2])) /\
      ps_state (lk_session (cn_link cn)) = Established /\ tn_address (cn_tun cn) = from_be [10; 8; 0; 2]
  | _, _ => False
  end.
Proof. vm_compute. done. Qed.
