(* ===== verification/Witnesses.v ===== *)
(** * The theorems on the server and on the client at concrete inputs *)
From S2P Require Import Prelude Errors Text Network CoreSession Opcode Packet Replay Float Reliable Cipher HmacAuth Kdf DataChannel Session SessionProofs SessionSend Runs Control Addr ServerConfig ConnLog TlsDriver Cert Server ServerProofs ServerRun ServerOut ServerSteps Ovpn Client Nm NmProofs ClientProofs ClientAgree Sample.
Local Open Scope Z_scope.

Abbreviation oauth_config := (sample_config (Some sample_oauth)).

(** The server starts. *)
Ltac started srv Hn :=
  match goal with |- match sample_new ?c with _ => _ end =>
    destruct (sample_new c) as [srv|e|] eqn:Hn;
    [|pose proof sample_new_ok as [H1 H2]; rewrite Hn in *; first [discriminate H1|discriminate H2]..]
  end.



(** The state after the events. *)
Abbreviation after es srv := (sy_world (fst (run_events es (start srv)))).

Lemma oauth_established :
  match sample_new oauth_config with
  | Ok srv =>
      match vs_connections (wd_server (after oauth_events srv)) !! client_addr with
      | Some c => ps_state (co_protocol c) = Established
      | None => False
      end
  | _ => False
  end.
Proof. vm_compute. reflexivity. Qed.

Lemma established_is_logged_in_witness :
  match sample_new oauth_config with
  | Ok srv =>
      match vs_connections (wd_server (after oauth_events srv)) !! client_addr with
      | Some c =>
          co_auth_method c = OAuth2 /\
          exists email, co_username c = Some email /\ logged_in oauth_config oauth_events email
      | None => False
      end
  | _ => False
  end.
Proof.
  pose proof oauth_established as Hst. started srv Hn.
  destruct (vs_connections (wd_server (after oauth_events srv)) !! client_addr) as [c|] eqn:Hc; [|exact Hst].
  exact (established_is_logged_in (fun _ => false) (fun _ => Ok NullConnectionLogger_new) (fun s => Some s)
    (fun _ => []) (fun _ => []) sample_files 0 [] oauth_config srv oauth_events Hn oauth_events_ok eq_refl
    client_addr c Hc Hst).
Defined.

Lemma vpn_addresses_are_exclusive_witness :
  match sample_new oauth_config with
  | Ok srv =>
      let s := wd_server (after oauth_events srv) in
      (forall a c ip, vs_connections s !! a = Some c -> co_vpn_ip c = Some ip ->
         co_peer_addr c = a /\ ip ∈ ap_allocated_v4 (vs_address_pool s) /\
         forall b d, vs_connections s !! b = Some d -> co_vpn_ip d = Some ip -> b = a) /\
      (forall a c, vs_connections s !! a = Some c -> ps_state (co_protocol c) = Established ->
         is_Some (co_vpn_ip c))
  | _ => False
  end.
Proof.
  started srv Hn.
  exact (vpn_addresses_are_exclusive (fun _ => false) (fun _ => Ok NullConnectionLogger_new) (fun s => Some s)
    (fun _ => []) (fun _ => []) sample_files 0 [] oauth_config srv oauth_events Hn oauth_events_ok).
Defined.

(** An hour later the idle connection is collected, logged and removed. *)
Definition cleanup : list Event := replicate 3 (EvCleanup (sample_env (from_secs 4000))).
Lemma cleanup_ok : Forall event_ok (oauth_events ++ cleanup).
Proof.
  apply Forall_app. split; [exact oauth_events_ok|]. apply Forall_replicate. apply sample_env_ok.
  split; vm_compute; done.
Qed.

Lemma leases_are_never_released_witness :
  match sample_new oauth_config with
  | Ok srv =>
      ap_allocated_v4 (vs_address_pool (wd_server (after oauth_events srv))) ⊆
      ap_allocated_v4 (vs_address_pool (wd_server (after (oauth_events ++ cleanup) srv)))
  | _ => False
  end.
Proof.
  started srv Hn.
  exact (leases_are_never_released (fun _ => false) (fun _ => Ok NullConnectionLogger_new) (fun s => Some s)
    (fun _ => []) (fun _ => []) sample_files 0 [] oauth_config srv oauth_events cleanup Hn cleanup_ok).
Defined.

Lemma packet_written :
  match sample_new oauth_config with
  | Ok srv => last (wd_out (after tunnel_events srv)) = Some (TunWrite sample_packet)
  | _ => False
  end.
Proof. vm_compute. reflexivity. Qed.

Lemma tun_writes_are_authorized_witness :
  match sample_new oauth_config with
  | Ok srv =>
      exists es1 env a data es2 c,
        tunnel_events = es1 ++ EvUdp env a data :: es2 /\
        tunnelled (after es1 srv) env a data sample_packet c /\
        (oauth_enabled oauth_config = true ->
           exists email, co_username c = Some email /\ logged_in oauth_config es1 email)
  | _ => False
  end.
Proof.
  pose proof packet_written as Hw. started srv Hn.
  exact (tun_writes_are_authorized (fun _ => false) (fun _ => Ok NullConnectionLogger_new) (fun s => Some s)
    (fun _ => []) (fun _ => []) sample_files 0 [] oauth_config srv tunnel_events Hn tunnel_events_ok sample_packet
    (last_Some_elem_of _ _ Hw)).
Defined.

(** ** Two keyed sessions, one of them of a connection *)
Definition keyed_connection : Connection (Uu := toy_uuids) (TlsConn := RecConn) :=
  mkConnection (ps_put_state Established keyed_b) None 0 0 client_addr (Some (from_be [10; 8; 0; 2])) 7%N None
    Certificate TransferStats_default None None None None.
Definition keyed_server : SampleServer :=
  mkVpnServer oauth_config (SessionManager_new 10 60) (AddressPool_new_unchecked (Some (from_be [10; 8; 0; 0], 24)) None)
    {[ client_addr := keyed_connection ]} None None NullConnectionLogger_new None ∅.
Definition keyed_world := mkWorld keyed_server [].

(** The state of a session is not part of its link. *)
Lemma data_linked_state st s r cs cr :
  (data_linked s r cs cr -> data_linked s (ps_put_state st r) cs cr) /\
  (data_linked r s cs cr -> data_linked (ps_put_state st r) s cs cr).
Proof. split; intros []; by constructor. Qed.

Lemma keyed_links : exists cs,
  sess_inv keyed_a /\ sess_inv (co_protocol keyed_connection) /\
  data_linked keyed_a (co_protocol keyed_connection) sample_channel cs /\
  data_linked (co_protocol keyed_connection) keyed_a cs sample_channel.
Proof.
  destruct peers_linked as (Ha & Hb & _).
  destruct (install_keys_data_linked peer_a peer_b sample_material (cs_inv _ Ha) Hb
    sample_material_wf eq_refl eq_refl eq_refl I) as (c' & s' & cc & cs & H1 & H2 & H3 & H4).
  assert (keyed_a = c') as <- by (unfold keyed_a; by rewrite H1).
  assert (keyed_b = s') as <- by (unfold keyed_b; by rewrite H2).
  pose proof (dl_send _ _ _ _ H3) as Hcc.
  assert (Some (Some cc) = Some (Some sample_channel)) as Hs by (rewrite <- Hcc; reflexivity).
  injection Hs as ->. exists cs. split_and!.
  - apply inv_channels, (cs_inv _ Ha).
  - apply inv_state. by apply inv_channels.
  - by apply data_linked_state.
  - by apply data_linked_state.
Qed.

Lemma client_packet_reaches_tun_witness :
  exists client' wire w' c' cs' cr' out,
    ProtocolSession_encrypt_data sample_packet keyed_a = (client', Ok wire) /\
    handle_packet (sample_env 0) client_addr wire keyed_world = (w', Ok tt) /\
    wd_out w' = [] ++ out /\
    (if decide (sample_packet = OPENVPN_PING_PAYLOAD) then out = [] \/ exists pong, out = [SendTo client_addr pong]
     else out = if (20 <=? length sample_packet)%nat && true then [TunWrite sample_packet] else []) /\
    vs_connections (wd_server w') = <[client_addr := c']> {[ client_addr := keyed_connection ]} /\
    ps_state (co_protocol c') = Established /\
    data_linked client' (co_protocol c') cs' cr'.
Proof.
  destruct keyed_links as (cs & Ha & Hb & Hl & _).
  apply (client_packet_reaches_tun keyed_a keyed_world (sample_env 0) client_addr keyed_connection sample_channel
    cs sample_packet); try done.
  intros p Hp m' Hd. vm_compute in Hp. injection Hp as <-. vm_compute in Hd. discriminate Hd.
Defined.

Lemma server_channel : mjoin (ps_data_channels keyed_b !! 0%nat)
  = Some (DataChannel_new KeyId_default (KeyMaterial_server_data_key sample_material ChaCha20Poly1305)
      (KeyMaterial_client_data_key sample_material ChaCha20Poly1305) false None).
Proof. reflexivity. Qed.

Lemma tun_packet_reaches_client_witness :
  exists wire w' c' client' cs' cr',
    handle_tun_packet (sample_env 0) sample_packet keyed_world = (w', Ok tt) /\
    wd_out w' = [] ++ (if ev_send_ok (sample_env 0) client_addr wire then [SendTo client_addr wire] else []) /\
    vs_connections (wd_server w') = <[client_addr := c']> {[ client_addr := keyed_connection ]} /\
    ProtocolSession_process_packet 0 wire keyed_a = (client', Ok (PData sample_packet)) /\
    data_linked (co_protocol c') client' cs' cr'.
Proof.
  destruct keyed_links as (cs & Ha & Hb & _ & Hl).
  pose proof server_channel as Hch. pose proof (dl_send _ _ _ _ Hl) as Hs.
  change (ps_data_channels (co_protocol keyed_connection)) with (ps_data_channels keyed_b) in Hs.
  change (Z.to_nat (key_id_0 (ps_current_key_id (co_protocol keyed_connection)))) with 0%nat in Hs.
  rewrite Hs in Hch. cbn [mjoin option_join] in Hch. injection Hch as ->.
  eapply (tun_packet_reaches_client keyed_a keyed_world (sample_env 0) 0 client_addr keyed_connection _ _
    sample_packet (from_be [10; 8; 0; 2])); try done.
  - intros b d Hb' _. change (({[ client_addr := keyed_connection ]} : gmap SocketAddr _) !! b = Some d) in Hb'.
    apply lookup_singleton_Some in Hb' as [Hb' _]. by symmetry.
  - intros p Hp m' Hd. vm_compute in Hp. injection Hp as <-. vm_compute in Hd. discriminate Hd.
Defined.

(** ** Single steps *)
Lemma flush_terminates_witness :
  let t := mkTlsWork (mkWork keyed_connection (vs_address_pool keyed_server) ∅ [] [])
             (mkTls (mkRec [] [] (record 23 [1; 2; 3]) false false) [] [] true) in
  flush_loop 100 (sample_env 0) t = flush_tls (sample_env 0) t.
Proof. intros t. apply (flush_terminates (sample_env 0) t 100). cbn. lia. Defined.

(** The first datagram of the client, twice. *)
Definition empty_world (srv : SampleServer) := mkWorld srv [].
Definition first_datagram : bytes := hd [] plain_sent.
Lemma first_is_hard_reset : is_hard_reset first_datagram.
Proof. do 2 eexists. split; [reflexivity|]. left. reflexivity. Qed.
Lemma first_accepted :
  match sample_new oauth_config with
  | Ok srv => is_ok (snd (handle_packet (sample_env 0) client_addr first_datagram (empty_world srv))) = true
  | _ => False
  end.
Proof. vm_compute. reflexivity. Qed.

Lemma hard_reset_repetition_is_answered_alike_witness :
  match sample_new oauth_config with
  | Ok srv =>
      let w1 := fst (handle_packet (sample_env 0) client_addr first_datagram (empty_world srv)) in
      exists resp, last (wd_out w1) = Some (SendTo client_addr resp) /\
        handle_packet (sample_env 2) client_addr first_datagram w1 = send_to (sample_env 2) client_addr resp w1
  | _ => False
  end.
Proof.
  pose proof first_accepted as Hacc. started srv Hn. intros w1.
  unfold sample_new in Hn. destruct (new_server _ _ _ _ _ _ _ _ _ _ Hn) as (net & _ & _ & _ & Hm & _).
  assert (vs_connections srv !! client_addr = None) as Hnone by (rewrite Hm; apply lookup_empty).
  apply (hard_reset_repetition_is_answered_alike (sample_env 0) (sample_env 2) client_addr first_datagram
    first_datagram (empty_world srv) w1 Hnone first_is_hard_reset first_is_hard_reset).
  - unfold w1. destruct (handle_packet (sample_env 0) client_addr first_datagram (empty_world srv)) as [w [[]| |]];
      [reflexivity|discriminate Hacc..].
  - vm_compute. discriminate.
Defined.

(** A data packet for a connection in renegotiation. *)
Definition rekeying_connection : Connection (Uu := toy_uuids) (TlsConn := RecConn) :=
  co_set_protocol (ps_put_state Rekeying keyed_b) keyed_connection.
Definition rekeying_world :=
  mkWorld (vs_set_connections {[ client_addr := rekeying_connection ]} keyed_server) [].

Lemma rekeying_is_a_dead_end_witness :
  let w' := fst (handle_packet (sample_env 0) client_addr oauth_datagram rekeying_world) in
  (exists c', vs_connections (wd_server w') !! client_addr = Some c' /\ ps_state (co_protocol c') = Rekeying) /\
  (forall p, TunWrite p ∈ wd_out w' -> TunWrite p ∈ wd_out rekeying_world).
Proof.
  destruct keyed_links as (cs & _ & Hb & _).
  apply (rekeying_is_a_dead_end rekeying_world (sample_env 0) client_addr oauth_datagram rekeying_connection).
  - exact (lookup_singleton_eq client_addr rekeying_connection).
  - reflexivity.
  - exact (inv_state Rekeying _ Hb).
  - apply sample_env_ok, small_duration_ok.
  - apply (bool_decide_unpack _). vm_compute. exact I.
  - intros (b0 & rest & [= <- _] & [H|H]); vm_compute in H; discriminate H.
Defined.

(** ** The client *)
Lemma sample_client_ok : client_ok chacha sample_client 0 plain_inbox.
Proof.
  constructor; [reflexivity|apply small_duration_ok| |discriminate].
  unfold plain_inbox. repeat constructor; try apply small_duration_ok; apply (bool_decide_unpack _); vm_compute; exact I.
Qed.

Lemma client_never_panics_witness :
  no_panic (connect_with_info chacha sample_client 0 100 plain_inbox) /\
  match connect_with_info chacha sample_client 0 100 plain_inbox with
  | Ok cn =>
      snd (run_data_plane sample_client 0 (lk_session (cn_link cn)) (cn_push_reply cn) [FromTun sample_packet]) = Panic
      <-> pl_ping (cn_push_reply cn) = 0
  | _ => True
  end.
Proof.
  destruct (client_never_panics chacha sample_client 0 100 plain_inbox sample_client_ok) as [H1 H2].
  split; [exact H1|]. destruct (connect_with_info chacha sample_client 0 100 plain_inbox) as [cn| |] eqn:Hc; [|exact I..].
  apply (H2 cn 0 [FromTun sample_packet] eq_refl). constructor; [exact I|constructor].
Defined.

(** ** The client and the server *)
Definition sample_server_km : KeyMethodV2 :=
  server_key_method (replicate 32 3) (replicate 32 4) (lit "CHACHA20-POLY1305").

Lemma sample_server_km_wf : k2_wf sample_server_km.
Proof.
  unfold k2_wf, wire_option, wire_string. split_and!; first [reflexivity | discriminate | (simpl; lia)].
Qed.
Lemma sample_client_km_wf : k2_wf (client_key_method chacha sample_client).
Proof.
  unfold k2_wf, wire_option, wire_string. split_and!; first [reflexivity | discriminate | (simpl; lia)].
Qed.

Lemma client_reads_server_messages_witness :
  let km := KeyMethodV2_encode sample_server_km true in
  let reply := PushReply_encode sample_reply ++ [0] in
  let received := mkExchange [] (Some (received_key_method sample_server_km)) None [] in
  let final := mkExchange reply (Some (received_key_method sample_server_km)) (Some sample_reply) [] in
  try_parse_server_messages (mkExchange (km ++ reply) None None []) = Ok final /\
  try_parse_server_messages (mkExchange km None None []) = Ok received /\
  try_parse_server_messages (mkExchange reply (Some (received_key_method sample_server_km)) None []) = Ok final.
Proof.
  apply (client_reads_server_messages sample_server_km sample_reply []);
    [exact sample_server_km_wf|reflexivity|exact sample_reply_wf|reflexivity|vm_compute; discriminate].
Defined.

Lemma client_and_server_agree_on_keys_witness :
  let l := mkLink peer_a [] [] 0 0 in
  let t := mkTlsWork (mkWork (co_set_protocol peer_b keyed_connection) (vs_address_pool keyed_server) ∅ [] [])
             (mkTls (mkRec [] [] [] false false) [] [] true) in
  exists km_c km_s l' t' cc cs,
    client_install_keys sample_client km_s l = (l', Ok tt) /\
    install_data_keys km_c (replicate 32 3) (replicate 32 4) t = (t', Ok tt) /\
    data_linked (lk_session l') (co_protocol (wk_conn (tw_work t'))) cc cs /\
    data_linked (co_protocol (wk_conn (tw_work t'))) (lk_session l') cs cc.
Proof.
  intros l t. destruct peers_linked as (Ha & Hb & _).
  destruct (client_and_server_agree_on_keys oauth_config chacha sample_client (replicate 32 3) (replicate 32 4) l t)
    as (km_c & km_s & k & l' & t' & _ & _ & _ & _ & Hl & Ht & Hiff).
  - exact sample_client_km_wf.
  - exact sample_server_km_wf.
  - exact (cs_inv _ Ha).
  - exact Hb.
  - reflexivity.
  - reflexivity.
  - reflexivity.
  - reflexivity.
  - exact I.
  - reflexivity.
  - reflexivity.
  - destruct (proj2 Hiff ltac:(reflexivity)) as (cc & cs & H).
    exists km_c, km_s, l', t', cc, cs. split; [exact Hl|]. split; [exact Ht|exact H].
Defined.

(** A client whose file says AES-256-GCM. *)
Lemma client_and_server_cipher_disagree_witness :
  client_cipher_suite (sample_ovpn (lit "aes-256-gcm")) = Ok Aes256Gcm /\
  negotiated_suite (negotiate_cipher oauth_config (Some client_peer_info)) = ChaCha20Poly1305.
Proof.
  assert (client_cipher_suite (sample_ovpn (lit "aes-256-gcm")) = Ok Aes256Gcm) as H by reflexivity.
  split; [exact H|].
  apply (client_and_server_cipher_disagree oauth_config (sample_ovpn (lit "aes-256-gcm")) Aes256Gcm H).
  reflexivity.
Defined.

(** ** The NetworkManager plugin *)
Lemma toy_text4_laws : @IpNetTextLaws 32 (Z * Z) toy_net4 toy_text4.
Proof. by constructor. Qed.

Lemma plugin_reports_pushed_network_witness :
  let config := sample_config None in
  exists d,
    on_client_event false (fun _ => None) (lit "192.0.2.1:1194")
      (push_reply_event (build_push_reply config None (mkVpnAddress (Some (from_be [10; 8; 0; 2])) None) (lit "AES-256-GCM")))
      VpnPlugin_new
    = emit (SigIp4Config d) (emit (SigConfig (config_dict false (fun _ => None) (lit "192.0.2.1:1194")
        (Some (lit "10.8.0.2", subnet_mask config)))) VpnPlugin_new) /\
    (lit "prefix", NmU32 24) ∈ d.
Proof.
  destruct (plugin_reports_pushed_network (NL := toy_net_laws 32 ltac:(lia)) (TL := toy_text4_laws) false (fun _ => None)
              (sample_config None) None (from_be [10; 8; 0; 2]) None (lit "AES-256-GCM") (lit "192.0.2.1:1194")
              (from_be [10; 8; 0; 0], 24) VpnPlugin_new) as (d & H & _ & Hp & _).
  - vm_compute. done.
  - vm_compute. reflexivity.
  - exists d. split; [exact H|exact Hp].
Defined.

Definition no_dbus : ZVariant := {|
  ZValue := unit; zv_dict _ := None; zv_strings _ := None; zv_str _ := None; zv_string _ := None;
|}.
#[local] Existing Instance no_dbus.

Lemma plugin_invariant_witness : plugin_ok (VpnPlugin_disconnect VpnPlugin_new).
Proof.
  apply (plugin_invariant false (fun _ => None)). eapply rtc_l; [apply step_disconnect|apply rtc_refl].
Defined.

(** A connection that is up. *)
Definition connected_plugin : VpnPlugin :=
  mkPlugin NM_VPN_STATE_STARTED (Some 0%nat) 1 {[0%nat := lit "192.0.2.1:1194"]} {[0%nat]} [].
Lemma disconnect_leaves_client_witness :
  pn_state (VpnPlugin_disconnect connected_plugin) = NM_VPN_STATE_STOPPED /\
  0%nat ∈ pn_clients (VpnPlugin_disconnect connected_plugin).
Proof.
  destruct (disconnect_leaves_client false (fun _ => None) 0 (lit "192.0.2.1:1194") connected_plugin) as (H1 & _ & H2 & _).
  - split; [|split].
    + intros n [a Ha]. cbn in Ha. apply lookup_singleton_Some in Ha as [<- _]. split; [reflexivity|cbn; set_solver].
    + intros n Hn. cbn in Hn. apply elem_of_singleton in Hn as ->. cbn. lia.
    + intros _. exists 0%nat. split; [reflexivity|eexists; reflexivity].
  - reflexivity.
  - split; assumption.
Defined.
