(* ===== verification/SetupWitness.v ===== *)
(** * Set-up at concrete inputs

    A dialogue whose answers are typed lines, and the theorems on set-up
    applied to a run of it; the start of a server as root. *)
From S2P Require Import Prelude Errors Text Network Addr ServerConfig ServerToml ServerTomlProofs HmacAuth Cert.
From S2P Require Import ClientConfig Pki Generator Server Ovpn OvpnFile Runs Provision Setup SetupProofs Sample.
From S2P Require Import ConnLog CoreSession TlsDriver ServerStart ServerStartProofs.
Local Open Scope Z_scope.

(** ** Typed lines *)
Definition next_line : M (list str) str str := fun l =>
  match l with [] => ([], Err (lit "end of input")) | s :: l' => (l', Ok s) end.
Definition typed_input (def : option str) (empty : bool) (valid : str -> bool) : M (list str) str str :=
  s ← next_line;
  let s := match s, def with [], Some d => d | _, _ => s end in
  if negb (valid s) || (bool_decide (s = []) && negb empty) then fail (lit "refused") else mret s.
Definition typed_select (items : list str) (def : nat) : M (list str) str nat :=
  s ← next_line;
  match (match s with [] => Some (Z.of_nat def) | _ => parse_uint 8 s end) with
  | Some i => if (Z.to_nat i <? length items)%nat then mret (Z.to_nat i) else fail (lit "refused")
  | None => fail (lit "refused")
  end.
Definition typed_confirm (def : bool) : M (list str) str bool :=
  s ← next_line; mret (match s with [] => def | _ => bool_decide (s = lit "y") end).
#[local] Instance typed : Dialog (list str) := {|
  dl_clear_screen := mret tt;
  dl_flush := mret tt;
  dl_input := typed_input;
  dl_select := typed_select;
  dl_confirm := typed_confirm;
|}.

Lemma typed_input_Ok def empty valid d d' s : typed_input def empty valid d = (d', Ok s) ->
  valid s = true /\ (empty = false -> s <> []).
Proof.
  unfold typed_input. intros (d1 & x & _ & H)%M_bind_Ok. cbv zeta in H. revert H.
  generalize (match x, def with [], Some z => z | _, _ => x end). intros y.
  destruct (valid y) eqn:Hv, (bool_decide (y = [])) eqn:Hb, empty; cbn [negb andb orb]; intros H; inv H; split; try done.
  intros _. by apply bool_decide_eq_false in Hb.
Qed.
#[local] Instance typed_laws : DialogLaws (list str).
Proof.
  split.
  - intros def empty valid d d' s H. by apply typed_input_Ok in H as [H _].
  - intros def valid d d' s H _. apply typed_input_Ok in H as [_ H]. by apply H.
  - intros items def d d' i (d1 & x & _ & H)%M_bind_Ok. revert H.
    destruct (match x with [] => _ | _ => _ end) as [z|]; [|done].
    destruct (Nat.ltb_spec (Z.to_nat z) (length items)); intros H'; by inv H'.
Qed.

#[local] Existing Instances toy_rcgen toy_rcgen_laws number_toml number_toml_laws.
#[local] Instance no_text6 : IpNetText 128 (Z * Z) := {| net_parse _ := inr (lit "invalid IP address syntax"); net_netmask _ := 0 |}.

Definition typed_lines : list str :=
  [[]; lit "2"; lit "4500"; []; lit "1"; lit "id"; lit "secret"; lit "example.com"; []; []; lit "y"].
(** A root process on which every call succeeds. *)
Definition root_os : Os :=
  mkOs (fun _ => None) (fun _ => inl (1024, 1048576)) true (fun _ => None) (Some 65534) (Some 65534) (inl (lit "tun0"))
    (Some (lit "Iface Destination" ++ [10] ++ lit "eth1 00000000")).
Lemma root_os_ready : os_ready root_os.
Proof. split; [done|intros r; by eexists|by eexists]. Qed.

Definition setup_env : CommandEnv :=
  mkCommandEnv 5 (inl 6%positive) (Some (fun s => Some (lit " 203.0.113.7" ++ [10]))) open_disk shop_entropy (fun _ => true)
    root_os 0 [].
Definition setup_dir : str := lit "/var/lib/corevpn".
Definition setup_start : SetupWorld (D := list str) := mkSetupWorld typed_lines ∅ [].
Abbreviation setup_main := (main (N4 := Z * Z) (N6 := Z * Z) (D := list str) (Ch := toy_chrono) (TlsConn := RecConn) (fun _ => false)
  (fun _ => Ok NullConnectionLogger_new) (fun s => Some s) (fun _ => []) (fun _ => [])).
Definition setup_end : SetupWorld (D := list str) := fst (setup_main setup_env (CmdSetup setup_dir false) setup_start).

Definition is_done {V} (r : res CommandError (Outcome V)) : bool := match r with Ok Done => true | _ => false end.
Lemma is_done_Ok {V} (r : res CommandError (Outcome V)) : is_done r = true -> r = Ok Done.
Proof. by destruct r as [[]| |]. Qed.

Lemma setup_runs : setup_main setup_env (CmdSetup setup_dir false) setup_start = (setup_end, Ok Done).
Proof.
  assert (is_done (snd (setup_main setup_env (CmdSetup setup_dir false) setup_start)) = true) as H by (vm_compute; reflexivity).
  apply is_done_Ok in H. unfold setup_end.
  destruct (setup_main setup_env (CmdSetup setup_dir false) setup_start) as [w r]. cbn in *. by rewrite H.
Qed.

Lemma setup_leaves_unloadable_config_witness :
  su_files setup_end <> ∅ /\
  exists text e, su_files setup_end !! config_path = Some text /\ forall env2,
    (forall ghost, setup_main env2 (CmdRun config_path ghost) setup_end
                   = (setup_end, Err (LoadContext config_path (SerializationError e)))) /\
    setup_main env2 (CmdDoctor config_path) setup_end = (setup_end, Ok (Reports [FixConfiguration (SerializationError e)])).
Proof.
  assert (su_files setup_end <> ∅) as Hne.
  { intros H. assert (is_some (su_files setup_end !! config_path) = true) as Hs by (vm_compute; reflexivity).
    rewrite H in Hs. discriminate Hs. }
  split; [exact Hne|].
  destruct (setup_leaves_unloadable_config (N4 := Z * Z) (N6 := Z * Z) (Ch := toy_chrono) (TlsConn := RecConn) (fun _ => false)
    (fun _ => Ok NullConnectionLogger_new) (fun s => Some s) (fun _ => []) (fun _ => []) setup_env setup_dir setup_start
    setup_end setup_runs) as [H|(text & e & Ht & H)]; [by destruct Hne|].
  exists text, e. split; [exact Ht|]. intros env2. destruct (H env2) as (H1 & _ & _ & _ & H5). split; [exact H1|exact H5].
Defined.

(** The answers of the lines. *)
Definition typed_answers : Answers :=
  mkAnswers (lit "203.0.113.7") 4500 (lit "udp")
    (Some (mkOAuthSettings true (lit "google") (lit "id") (lit "secret") None None None [lit "example.com"] [] 9000 None 86400))
    true (lit "10.8.0.0/24").
Definition written (name : string) : str := default [] (su_files setup_end !! path_join setup_dir (lit name)).

Lemma repaired_setup_provisions_witness :
  exists t, let w1 := fixed (toml_print t) setup_end in
    (exists calls srv, setup_main setup_env (CmdRun config_path false) w1
       = (mkSetupWorld (su_term w1) (su_files w1) (su_calls w1 ++ calls), Ok (ServesVpn srv)) /\
       vs_config srv = with_api_key (lit "key") (wizard_config typed_answers setup_dir)) /\
    setup_main setup_env (CmdDoctor config_path) w1 = (w1, Ok (Reports [])).
Proof.
  destruct (repaired_setup_provisions (N4 := Z * Z) (N6 := Z * Z) (HL := sample_hmac_laws) (Ch := toy_chrono) (TlsConn := RecConn) (fun _ => false)
              (fun _ => Ok NullConnectionLogger_new) (fun s => Some s) (fun _ => []) (fun _ => []) setup_env setup_dir (lit "key")
              setup_start setup_end [lit "y"] [] typed_answers (from_be [203; 0; 113; 7]) (from_be [10; 8; 0; 0], 24))
    as (t & _ & H).
  - exact setup_runs.
  - vm_compute. reflexivity.
  - vm_compute. reflexivity.
  - vm_compute. reflexivity.
  - vm_compute. reflexivity.
  - vm_compute. discriminate.
  - vm_compute. reflexivity.
  - split; [reflexivity|]. by_compute.
  - exists t. destruct (H setup_env) as (H1 & H2 & _). split; [|apply H2; reflexivity].
    destruct (H1 false (AddressPool_new_unchecked (Some (from_be [10; 8; 0; 0], 24)) None) 86400 NullConnectionLogger_new
      (written "server.crt") (written "server.key")) as (calls & srv & Hr & Hc & _).
    + exact root_os_ready.
    + vm_compute. reflexivity.
    + reflexivity.
    + reflexivity.
    + apply default_some. vm_compute. reflexivity.
    + apply default_some. vm_compute. reflexivity.
    + do 3 eexists. split; [reflexivity|]. split; reflexivity.
    + exists calls, srv. split; [exact Hr|exact Hc].
Defined.

(** On the files of this set-up the client command succeeds. *)
Definition typed_config : ServerConfig := with_api_key (lit "key") (wizard_config typed_answers setup_dir).
Definition setup_file (p : str) : str := default [] (su_files setup_end !! p).
Definition typed_ca : CertificateAuthority :=
  ok_or_else sample_ca (CertificateAuthority_from_pem 5 (setup_file (ServerConfig_ca_cert_path typed_config))
    (setup_file (ServerConfig_ca_key_path typed_config))).
Definition typed_new_ca : CertificateAuthority :=
  ok_or_else sample_ca (CertificateAuthority_new 5 (inl 1%positive) (lit "CoreVPN CA") (lit "CoreVPN") 3650).
Definition typed_user : str := lit "alice@example.com".

Lemma client_file_is_written :
  is_ok (snd (generate_client_file setup_env typed_config typed_user None (su_files setup_end))) = true.
Proof.
  assert (su_files setup_end !! ServerConfig_ca_cert_path typed_config
          = Some (setup_file (ServerConfig_ca_cert_path typed_config))) as F1 by (apply default_some; vm_compute; reflexivity).
  assert (su_files setup_end !! ServerConfig_ca_key_path typed_config
          = Some (setup_file (ServerConfig_ca_key_path typed_config))) as F2 by (apply default_some; vm_compute; reflexivity).
  assert (su_files setup_end !! ServerConfig_ta_key_path typed_config = Some (format_static_key sample_ta_key)) as F3
    by (vm_compute; reflexivity).
  assert (CertificateAuthority_from_pem 5 (setup_file (ServerConfig_ca_cert_path typed_config))
            (setup_file (ServerConfig_ca_key_path typed_config)) = Ok typed_ca) as Hca
    by (apply ok_or_else_eq; vm_compute; reflexivity).
  unfold generate_client_file, mbind, M_bind, read_context, lift, get. rewrite F1. cbn [ok_or]. rewrite F2. cbn [ok_or ce_now setup_env].
  rewrite Hca. cbn [map_err]. rewrite F3.
  destruct (client_file_reads (R := toy_rcgen) typed_config typed_ca (Some sample_ta_key) typed_user (Some typed_user) 5 (inl 6%positive)
              (ok_or_else (mkCert [] [] [])
                 (CertificateAuthority_issue_client_certificate (R := toy_rcgen) 5 (inl 6%positive) typed_ca typed_user (Some typed_user)
                    (sc_client_cert_lifetime_days (cfg_security typed_config))))) as (g & Hg & _).
  - split; by_compute.
  - apply (loaded_ca_pem_ok (R := toy_rcgen) 5 typed_new_ca (setup_file (ServerConfig_ca_key_path typed_config))).
    + apply (new_ca_pem_ok (R := toy_rcgen) 5 (inl 1%positive) (lit "CoreVPN CA") (lit "CoreVPN") 3650).
      apply ok_or_else_eq. vm_compute. reflexivity.
    + rewrite <- Hca. f_equal.
  - split; [reflexivity|by_compute].
  - apply ok_or_else_eq. vm_compute. reflexivity.
  - cbn [fmap option_fmap option_map] in Hg. cbn [ce_fresh setup_env]. rewrite Hg. reflexivity.
Qed.

(** ** A start as root *)
Definition start_run : Trace * res str SampleServer :=
  run_server (Ch := toy_chrono) (fun _ => false) (fun _ => Ok NullConnectionLogger_new) (fun s => Some s) (fun _ => []) (fun _ => []) sample_files 0 []
    root_os (sample_config (Some sample_oauth)) [].

Lemma start_order_and_privileges_witness :
  is_ok (snd start_run) = true /\
  exists before dropped after, fst start_run = before ++ dropped ++ after /\ Forall is_spawn after /\
    dropped `prefix_of` [SetGid 65534; SetUid 65534].
Proof.
  split; [vm_compute; reflexivity|].
  destruct (start_order_and_privileges (Ch := toy_chrono) (fun _ => false) (fun _ => Ok NullConnectionLogger_new) (fun s => Some s)
              (fun _ => []) (fun _ => []) sample_files 0 [] root_os (sample_config (Some sample_oauth)) (fst start_run)
              (snd start_run)) as (before & dropped & after & Ht & _ & Ha & Hd & _).
  - symmetry. apply surjective_pairing.
  - exists before, dropped, after. split; [exact Ht|]. split; [exact Ha|]. exact (proj1 Hd).
Defined.
